(* ===== verification/_CoqProject ===== *)
-Q . S2P
Prelude.v
Geometry.v
Heap.v
Mpt.v
FreeMap.v
Machine.v
MptProps.v
Lfu.v
Redirect.v
BlockIo.v
F2fsBits.v
MptFlush.v
RevBits.v
Sit.v
Victim.v
Migrate.v
Load.v
Curseg.v
Alloc.v
NodePath.v
SitFlush.v
Mount.v
ExtCache.v
Dentry.v
Dir.v
DirProps.v
NatMgr.v
NatCache.v
NatStore.v
FreeNid.v
NatFree.v
NatFlush.v
NatSets.v
NatCkpt.v
NatMount.v
NatRefine.v
NatProps.v
Bytes.v
Xattr.v
XattrProps.v
XattrMap.v
XattrSpec.v
Acl.v
AclProps.v
Orphan.v
OrphanProps.v
Super.v
SuperProps.v
Ckpt.v
Summaries.v
SummaryProps.v
DoCkpt.v
CkptCrash.v
CkptProps.v
CkptDemo.v
ByteNvm.v
ByteNvmProps.v
