(* ===== verification/Prelude.v ===== *)
(** * Verification of Hoit-F2FS

    Hoit-F2FS is F2FS with a second, faster device (NVM) below the main area:
    a segment of the SSD may be mapped to a segment of the NVM, all its I/O is
    then redirected there, and threads move hot segments to the NVM and cold
    ones back.  This library models the parts that decide where a block lives
    and proves that no block is lost, shared or written to the wrong place.

    ** Parts and how they interact

    An allocation starts in [f2fs_allocate_data_block] (Curseg): it takes the
    next block of a log, records it in the SIT cache (Sit), and opens a new
    segment when the log is full, either a free one (FreeMap, through
    [get_new_segment]) or, by SSR, a partly used one found by
    [get_victim_by_default] (Victim) and a word-level bitmap search (RevBits).
    For a free segment [nvm_alloc] (Load) decides from the load of the devices
    whether it is placed on the NVM; if so [nvm_allocate_segment] (Mpt) enters
    a pair of entries into the mapping table.  When the block is written,
    [f2fs_submit_page_write] (BlockIo) merges neighbours into bios and
    [nvm_redirect_bio] (Redirect) sends each bio to the device the mapping
    says.  A checkpoint flushes the mapping table, the NVM superblock and its
    bitmaps (MptFlush) and frees prefree segments, which drops their mappings
    (FreeMap, [__set_test_and_free]).  The data mover (Migrate) picks segments
    by their LFU counters (Lfu, with the bounded heaps of Heap), copies their
    valid blocks and commits or removes mappings.

    A checkpoint also writes the changed segment entries to the journal or to
    the spare copy of their SIT block (SitFlush), and a mount reads them back
    and rebuilds the free maps and dirty lists (Mount).  Above the blocks, a
    file block is found through the node tree ([get_node_path], NodePath), and
    the extent cache of an inode (ExtCache) remembers runs of contiguous blocks;
    it is told of each write with the block number that
    [f2fs_start_bidx_of_node] recovers from the node.  A directory (Dir) is a
    hash table in the blocks of its file, or an area of its inode; each block
    holds entries and names in slots (Dentry).

    Nodes move too: the node address table (NAT) says where each node id (nid)
    is.  [f2fs_alloc_nid] hands out nids from a list of free ones, set_node_addr
    records each new address in the NAT cache, and a checkpoint writes the dirty
    entries to the journal of the hot data log or to the spare copies of their
    NAT blocks (NatMgr).

    Some state of an inode is outside its blocks of data: extended attributes are
    a list of bytes in the inode and in a node block of their own (Xattr), and an
    ACL is one of these attributes (Acl).

    All of this is tied together by checkpoints.  [do_checkpoint] (DoCkpt) writes
    the orphan inodes (Orphan), the summaries and journals of the logs (Summaries)
    and the checkpoint block into the one of two packs that is not in use; the last
    block of the pack, behind a flush of the device's cache, makes it valid.  A
    mount checks the superblock (Super), chooses the pack (Ckpt) and loads the logs
    from it.  A memory-mapped NVM keeps a copy of the pack that the kernel reads and
    changes in place (ByteNvm).

    ** Files, in dependency order

    - Prelude: machine integers, arrays as lists, counting and sums over index
      ranges, the outcome monad ([Done], [Bug] for f2fs_bug_on that stops the
      kernel, [NoFuel]), record updates, tactics.
    - Geometry: [segment.h] address macros, constants of [<linux/f2fs_fs.h>] as
      a class ([F2fsFormat]) with one instance, [geom_wf].
    - Heap, Lfu: [nvm.c] heaps, LFU counters, [get_max_k], [get_min_k].
    - Mpt, MptProps: [nvm.h], [nvm.c], [super.c], the mapping table, its entries,
      allocation, layout of a fresh device.
    - FreeMap: [segment.h], free segment and section maps, bit searches.
    - Machine: the life cycle of mappings as a labelled step relation over the states of
      the allocator, the mover and an opening log; a step is the code between taking and
      releasing a lock.  Invariants [hoit_wf], [machine_wf].
    - Redirect, BlockIo: [nvm.c], [data.c], redirection and bio merging, and the
      flat block store the two devices implement.
    - F2fsBits, RevBits: [f2fs.h], [segment.c], bitmaps in f2fs bit order.
    - MptFlush: [nvm.c], [checkpoint.c], persistence of the mapping table; a write past
      the page of the superblock is [Bug].
    - Sit: [segment.h], [segment.c], segment entries, [update_sit_entry], dirty lists.
    - Victim: [gc.c], victim selection for cleaning and SSR.
    - Migrate: [gc_nvm.c], moving segments between the devices.
    - Load: [nvm.c], load monitor and placement policy.
    - Curseg, Alloc: [segment.c], logs and block allocation; Alloc holds the
      invariant [alloc_wf] over all the parts an allocation touches.
    - NodePath: [node.c], [node.h], [gc.c], from file blocks to node offsets and back.
    - SitFlush, Mount: [segment.c], writing the SIT at a checkpoint and building
      the segment manager from it at mount.
    - ExtCache: [extent_cache.c], [f2fs.h], the extent tree of an inode.
    - Dentry: [dir.c], [hash.c], name hashes and the slots of one dentry block,
      specified by a finite map from slots to entries ([dentries_ok]).
    - Dir, DirProps: [dir.c], [inline.c], whole directories, specified by a finite map
      from names to inode and type ([dir_rep]).
    - NatMgr: [node.c], [node.h], all the definitions of the node manager.
    - NatCache, NatStore: well-formed caches ([cache_ok]), what cache, journal and
      blocks say together ([nval], [cval], [nat_ok]), reading and updating.
    - FreeNid, NatFree: free nids, scanning and allocation ([free_ok], [alloc_ends]).
    - NatFlush, NatSets, NatCkpt: the flush at a checkpoint, entry by entry, set by
      set, and whole ([flush_ok]).
    - NatMount, NatRefine, NatProps: mount, the table of nodes that the node manager
      refines ([nat_spec], [step_refines]), and the theorems.
    - Bytes: raw buffers; an access outside one is [Bug].
    - Xattr, XattrProps, XattrMap, XattrSpec: [xattr.c], [xattr.h], the attribute list
      on bytes, the list it stands for ([area]), the finite map that is ([xmap]), and
      the theorems.
    - Acl, AclProps: [acl.c], [acl.h], the disk format of ACLs and their attributes.
    - Orphan, OrphanProps: [checkpoint.c], inode lists and orphan blocks.
    - Super, SuperProps: [super.c], checks of the superblock, its two copies.
    - Ckpt: [checkpoint.c], the checkpoint block, its checks, the choice of the pack.
    - Summaries, SummaryProps: [segment.c], [byte_nvm.c], compacted and normal summaries:
      the writers and the loops of the readers.
    - DoCkpt: [checkpoint.c], [do_checkpoint] and the steps of f2fs_write_checkpoint around it.
    - CkptCrash, CkptProps, CkptDemo: a device that may lose power, what a disk with a
      valid pack is ([disk_ok]), the theorem, and a small volume with the formats and
      the CRC-32 of the Linux kernel.
    - ByteNvm, ByteNvmProps: [byte_nvm.c], [byte_nvm.h], [segment.c], the pack in the NVM and
      the logs restored from it ([restore_curseg_summaries], as compiled with the
      byte-addressable NVM; the readers of the SSD pack are not compiled then).

    State of a C structure is a record with the fields the modelled code reads
    or writes; an operation is a function of the same name on it.  Fixed-width
    arithmetic is written out ([u32], [u16], [bits10], ...).  Calls made through
    a pointer or to code outside the repository are class members or arguments
    ([BitSearch] for the kernel's bit searches, [SitFormat], [F2fsFormat] and
    [SumFormat] for the header of the kernel, [VictimSelection] for v_ops,
    device reads and writes for the block layer); classes ending in [Ok] state
    what the code relies on, and each has an instance.

    ** What the theorems show

    - No two segments share an NVM segment, mapped segments are in use, no NVM
      segment leaks: [mapping_safe], for every run of interleaved steps without the race
      of [hot_commit_race]; [prefree_unmaps], [nvm_allocate_segment_ok], [hot_commit_safe].
    - A block allocation ends, returns a block valid neither now nor at the last
      checkpoint and keeps [alloc_wf]: [f2fs_allocate_data_block_spec], on top of
      [get_new_segment_spec], [ssr_victim_spec], [next_free_blkoff_spec] and
      [update_sit_entry_consistent].
    - Writing through the bio layer is writing to one flat store, whichever
      device holds a segment: [write_back_store], [read_bio_store]; moving
      segments does not change that store: [hot_to_nvm_preserves],
      [cold_victims_preserve], [precold_to_ssd_preserves] (for runs of blocks that fit a
      bio, [runs_fit]; [do_cold_to_ssd_full_segment] is a longer one).
    - After a crash the mapping table of the last checkpoint is read back:
      [checkpoint_crash_safe], [checkpoint_durable], as long as the bitmaps fit the page
      of the NVM superblock, which [large_nvm_overflows] does not.
    - A mount restores the SIT: the entries of the last completed checkpoint come
      back whether the crash comes after the flush or before the checkpoint that
      contains it, with maps and lists that satisfy their invariants:
      [sit_flush_durable], [sit_flush_crash_safe], [mount_consistent].  The SIT invariant
      is that of a mount with discard, where each segment has a discard map; so it is in
      the theorems on [update_sit_entry] and block allocation.
    - [get_node_path] agrees with a walk of the full node tree numbered in
      preorder, and its inverses with it: [get_node_path_preorder],
      [node_path_roundtrip], [next_page_offset_spec].
    - A hit in the extent cache is always the address the file has, under any
      sequence of operations and failed allocations: [extent_cache_coherent] (block
      numbers below 2^32), [extent_update_spec]; and a block just written is found with its
      new address: [dnode_update_coherent].
    - A directory behaves as a finite map whatever fails: [dir_refines_map],
      [add_link_spec], [inline_conversion], [readdir_spec], [empty_dir_spec],
      [buckets_disjoint].
    - The node manager is a table of nodes: [node_manager_refines], [node_tables_wf]; nids are
      given out at most once and allocation ends: [alloc_nid_fresh], [alloc_nid_live]; a
      flush survives a mount and a crash: [nat_flush_mount_roundtrip],
      [nat_flush_crash_safe], [nat_copies_disjoint].  The flushes are [settled]: no nid
      with an entry in the journal is at NEW_ADDR when one begins, which block_operations
      (not modelled) sees to by writing the dirty node pages first; [new_nid_flush_stale]
      is a flush that is not.
    - Extended attributes are a finite map whatever fails, and no access leaves its
      buffer: [xattr_refines]; the lookup in two steps finds what the plain one finds:
      [lookup_two_step]; an ACL comes back as it was set, or is removed when the mode says
      all it does: [acl_set_get].  All for an inline xattr area of 0 or at least 28 bytes.
    - A checkpoint is all or nothing under a power failure: [do_checkpoint_atomic]; what
      it holds comes back: [summaries_roundtrip] (through the copy in the NVM, and without
      orphan blocks, which shift that copy), [orphan_roundtrip], with room for the
      orphans that were admitted: [orphan_lists_fit]; the NVM's copy is the pack:
      [bnvm_move_mirrors].
    - A superblock that is accepted has the geometry assumed elsewhere, and rewriting it
      survives a crash: [accepted_super_geom], [commit_super_crash_safe].
    - Each optimised routine agrees with its plain meaning: heaps, LFU ageing,
      bit order, reversed searches, line reader.
    - Where the code does not do what it means to, a theorem gives the witness
      (for example [hot_commit_race], [double_write_lost],
      [get_new_segment_left_retry], [alloc_nid_spins], [new_nid_flush_stale],
      [small_inline_loses], [wrapped_areas_accepted], [large_payload_unbounds_orphans],
      [bnvm_checkpoint_repeats]).
    - Where such a witness limits a theorem, the theorem has the condition as a hypothesis
      and its comment names both.

    ** Power failures

    The device of CkptCrash has durable blocks, completed writes in its cache and writes it
    has not completed: waiting completes writes, a flush makes the completed ones durable.
    After a crash each block that has a write pending is its durable contents, one of
    these writes, or one that fails its checksum where it has one ([crash_image]).  The
    last block of a pack is written behind a flush and with FUA, unless the volume is
    mounted with NOBARRIER ([submit_meta_flush]); crash safety is stated with barriers,
    success also without.  That no other block inside a pack
    passes the check of a checkpoint block is a hypothesis ([plain_writes],
    [do_inside] of [disk_ok]): a 32-bit checksum cannot guarantee it.  A copy of the
    superblock has no checksum: a power failure while it is written leaves it
    unreadable or with some of its fields old and some new ([torn_write]), and a mix
    that passes the checks is mounted.

    ** Fuel

    Loops that are not structural take fuel and return [NoFuel] without it.  The
    entry points choose it from the data: the width of the bitmap for
    bit-by-bit walks, the number of segments plus one for each of the passes of
    the victim search, the blocks of a segment for the copy loops, two for the
    two passes of [get_new_segment].  [f2fs_alloc_nid] builds its list again until
    it finds a nid; [alloc_nid_live] bounds the rounds by an eighth of the NAT
    blocks.  The theorems state that the result is
    [Done], so the fuel is enough.

    ** Not modelled

    Locks, kernel threads, memory allocation failures (except in ExtCache, where they
    change the result), statistics and tracing (a model step is the code between taking
    and releasing the lock that makes it atomic; the interleavings that matter are steps
    of Machine); mount option parsing and VFS glue; the zombie trees of the extent
    cache; discard candidates in the SIT flush; the page cache of nodes, readers of the
    NAT that let go of nat_tree_lock between cache and journal; the VFS operations on
    directories and their encrypted names; inline data; the data path and the moving of
    blocks by the cleaner; discards and the flush thread; roll-forward recovery, which
    walks node pages; quotas. Of [checkpoint.c] the freezing of operations before a
    checkpoint and the readers of meta pages are left out, of [byte_nvm.c] the set-up of
    the DAX device, and byte offsets into it are below 4 GiB. The truncation that undoes
    a failed conversion of a directory, whose result the code ignores, is an outcome of
    the environment ([rollback] of [io]); the theorems take it to succeed. *)
From Stdlib Require Export ZArith Lia Bool.
From stdpp Require Export base tactics numbers list list_numbers option.
#[export] Set Warnings "-missing-proof-command".
Open Scope Z_scope.

(** ** Machine integers

    A [w]-bit C integer is a [Z]; the conversions below are the ones the C
    code performs when it stores into an object of the given type. *)
Definition u8 (x : Z) : Z := x mod 2 ^ 8.
Definition u16 (x : Z) : Z := x mod 2 ^ 16.
Definition u32 (x : Z) : Z := x mod 2 ^ 32.
Definition u64 (x : Z) : Z := x mod 2 ^ 64.
Definition s32 (x : Z) : Z :=
  let y := u32 x in if y <? 2 ^ 31 then y else y - 2 ^ 32.

Lemma u8_id x : 0 <= x < 256 -> u8 x = x.
Proof. intros; unfold u8; apply Z.mod_small; lia. Qed.
Lemma u16_id x : 0 <= x < 65536 -> u16 x = x.
Proof. intros; unfold u16; apply Z.mod_small; lia. Qed.
Lemma u32_id x : 0 <= x < 4294967296 -> u32 x = x.
Proof. intros; unfold u32; apply Z.mod_small; lia. Qed.
Lemma u64_id x : 0 <= x < 18446744073709551616 -> u64 x = x.
Proof. intros; unfold u64; apply Z.mod_small; lia. Qed.
Lemma s32_id x : - 2147483648 <= x < 2147483648 -> s32 x = x.
Proof.
  intros H; unfold s32, u32; destruct (Z.leb_spec 0 x).
  - rewrite Z.mod_small by lia. destruct (Z.ltb_spec x (2 ^ 31)); lia.
  - assert (x `mod` 2 ^ 32 = x + 2 ^ 32) as ->
      by (symmetry; apply (Z.mod_unique_pos _ _ (-1)); lia).
    destruct (Z.ltb_spec (x + 2 ^ 32) (2 ^ 31)); lia.
Qed.
Lemma u32_range x : 0 <= u32 x < 4294967296.
Proof. unfold u32; apply Z.mod_pos_bound; lia. Qed.
Lemma u64_range x : 0 <= u64 x < 18446744073709551616.
Proof. unfold u64; apply Z.mod_pos_bound; lia. Qed.
Lemma u8_range x : 0 <= u8 x < 256.
Proof. unfold u8; apply Z.mod_pos_bound; lia. Qed.
Lemma u32_u32 x : u32 (u32 x) = u32 x.
Proof. apply u32_id, u32_range. Qed.
Lemma u32_add_l x y : u32 (u32 x + y) = u32 (x + y).
Proof. unfold u32; apply Zplus_mod_idemp_l. Qed.
Lemma u32_add_r x y : u32 (x + u32 y) = u32 (x + y).
Proof. unfold u32; apply Zplus_mod_idemp_r. Qed.
Lemma u32_sub_l x y : u32 (u32 x - y) = u32 (x - y).
Proof. unfold u32; apply Zminus_mod_idemp_l. Qed.

Create Rewrite HintDb width.
#[export] Hint Rewrite u32_u32 : width.
#[export] Hint Rewrite u8_id u16_id u32_id u64_id s32_id using lia : width.
Ltac width := autorewrite with width.

(** ** Record update: [r <| field := v |>] and [r <| field ::= f |>]

    A record type declares its eta expansion; the updater of a field is then
    computed from it. *)
Class Eta (R : Type) := eta : R -> R.
Class Updater {R T : Type} (proj : R -> T) := upd : (T -> T) -> R -> R.
Arguments upd {R T} proj {_} _ _.

Ltac derive_updater :=
  match goal with
  | |- @Updater ?R ?T ?proj =>
      let f := fresh "f" in let r := fresh "r" in
      intros f r;
      let e := constr:(@eta R _ r) in
      let b := eval cbv [eta] in e in
      let b := eval red in b in
      match eval pattern (proj r) in b with
      | ?g _ => let t := eval cbv beta in (g (f (proj r))) in exact t
      end
  end.
#[export] Hint Extern 0 (Updater _) => derive_updater : typeclass_instances.

Declare Scope hoit_scope.
Delimit Scope hoit_scope with hoit.
Open Scope hoit_scope.
Notation "s <| p := v |>" := (upd p (fun _ => v) s)
  (at level 1, left associativity, p at level 11, v at level 100) : hoit_scope.
Notation "s <| p ::= f |>" := (upd p f s)
  (at level 1, left associativity, p at level 11, f at level 100) : hoit_scope.

(** ** Outcomes

    [Bug] is a triggered [BUG_ON]/[f2fs_bug_on]; [NoFuel] is a loop cut by the
    fuel of the model (every loop is proved never to reach it). *)
Inductive outcome (A : Type) : Type :=
| Done (a : A)
| Bug
| NoFuel.
Arguments Done {A} a.
Arguments Bug {A}.
Arguments NoFuel {A}.

Definition obind {A B} (m : outcome A) (k : A -> outcome B) : outcome B :=
  match m with Done a => k a | Bug => Bug | NoFuel => NoFuel end.
Notation "x <-- m ;; k" := (obind m (fun x => k))
  (at level 100, m at next level, right associativity) : hoit_scope.
Lemma obind_Done {A B} (m : outcome A) (k : A -> outcome B) b :
  obind m k = Done b <-> exists a, m = Done a /\ k a = Done b.
Proof.
  destruct m as [a| |]; simpl; split; try done; [by eauto|..].
  all: intros (? & [= ?] & ?); by subst.
Qed.

(** C truth of an integer and of a pointer *)
Definition nz (x : Z) : bool := negb (x =? 0).
Definition isSome {A} (x : option A) : bool := match x with Some _ => true | None => false end.

(** ** Arrays

    C arrays indexed by an integer.  Accesses outside the array are undefined
    in C; here a read gives the type's inhabitant and a write is dropped, and
    the component invariants are what keeps the indices in range. *)
Definition aget {A} `{Inhabited A} (l : list A) (i : Z) : A :=
  if 0 <=? i then nth (Z.to_nat i) l inhabitant else inhabitant.
Definition aset {A} (l : list A) (i : Z) (x : A) : list A :=
  if 0 <=? i then <[Z.to_nat i := x]> l else l.
Notation "a .[ i ]" := (aget a i)
  (at level 1, left associativity, format "a .[ i ]") : hoit_scope.
Notation "a .[ i <- x ]" := (aset a i x)
  (at level 1, left associativity, format "a .[ i  <-  x ]") : hoit_scope.

Definition zlen {A} (l : list A) : Z := Z.of_nat (length l).

Section arrays.
Context {A : Type} `{Inhabited A}.
Implicit Types (l : list A) (i j : Z) (x : A).

Lemma zlen_nonneg l : 0 <= zlen l.
Proof. unfold zlen; lia. Qed.
Lemma zlen_aset l i x : zlen (l.[i <- x]) = zlen l.
Proof. unfold zlen, aset. destruct (0 <=? i); by rewrite ?length_insert. Qed.
Lemma zlen_app l1 l2 : zlen (l1 ++ l2) = zlen l1 + zlen l2.
Proof. unfold zlen. rewrite length_app. lia. Qed.
Lemma zlen_cons x l : zlen (x :: l) = zlen l + 1.
Proof. unfold zlen. simpl. lia. Qed.
Lemma zlen_replicate n x : zlen (replicate n x) = Z.of_nat n.
Proof. unfold zlen. by rewrite length_replicate. Qed.

Lemma aget_lookup l i x :
  0 <= i -> l !! Z.to_nat i = Some x -> l.[i] = x.
Proof.
  intros Hi Hl. unfold aget. replace (0 <=? i) with true by lia.
  by apply nth_lookup_Some.
Qed.
Lemma lookup_aget l i :
  0 <= i < zlen l -> l !! Z.to_nat i = Some (l.[i]).
Proof.
  unfold zlen. intros Hi.
  destruct (lookup_lt_is_Some_2 l (Z.to_nat i)) as [x Hx]; [lia|].
  rewrite Hx. f_equal. symmetry. apply aget_lookup; [lia|done].
Qed.
Lemma aget_aset l i j x :
  0 <= i < zlen l -> (l.[i <- x]).[j] = if i =? j then x else l.[j].
Proof.
  unfold zlen. intros Hi. unfold aset. replace (0 <=? i) with true by lia.
  destruct (Z.eqb_spec i j) as [->|Hne].
  - apply aget_lookup; [lia|]. apply list_lookup_insert_eq. lia.
  - unfold aget. destruct (Z.leb_spec 0 j); [|done].
    rewrite !nth_lookup, list_lookup_insert_ne; [done|lia].
Qed.
Lemma aget_aset_eq l i x : 0 <= i < zlen l -> (l.[i <- x]).[i] = x.
Proof. intros. rewrite aget_aset by done. by rewrite Z.eqb_refl. Qed.
Lemma aget_aset_ne l i j x : i <> j -> (l.[i <- x]).[j] = l.[j].
Proof.
  intros Hne. unfold aset, aget. destruct (Z.leb_spec 0 i); [|done].
  destruct (Z.leb_spec 0 j); [|done].
  rewrite !nth_lookup, list_lookup_insert_ne; [done|lia].
Qed.
Lemma aget_oob l i : ~ (0 <= i < zlen l) -> l.[i] = inhabitant.
Proof.
  unfold zlen, aget. intros Hi. destruct (Z.leb_spec 0 i); [|done].
  apply nth_overflow. lia.
Qed.
Lemma aget_replicate n x i :
  0 <= i < Z.of_nat n -> (replicate n x).[i] = x.
Proof. intros. apply aget_lookup; [lia|]. apply lookup_replicate_2. lia. Qed.
Lemma aget_app_l l1 l2 i : i < zlen l1 -> (l1 ++ l2).[i] = l1.[i].
Proof.
  unfold zlen, aget. intros. destruct (Z.leb_spec 0 i); [|done].
  apply app_nth1. lia.
Qed.
Lemma aget_app_r l1 l2 i : zlen l1 <= i -> (l1 ++ l2).[i] = l2.[i - zlen l1].
Proof.
  unfold zlen, aget. intros. replace (0 <=? i) with true by lia.
  replace (0 <=? i - Z.of_nat (length l1)) with true by lia.
  rewrite app_nth2 by lia. f_equal. lia.
Qed.
Lemma arr_ext l1 l2 :
  zlen l1 = zlen l2 -> (forall i, 0 <= i < zlen l1 -> l1.[i] = l2.[i]) -> l1 = l2.
Proof.
  unfold zlen. intros Hlen Hi. apply list_eq. intros n.
  destruct (decide (n < length l1)%nat).
  - pose proof (lookup_aget l1 (Z.of_nat n)) as E1.
    pose proof (lookup_aget l2 (Z.of_nat n)) as E2. unfold zlen in *.
    rewrite Nat2Z.id in *. rewrite E1, E2, Hi by lia. done.
  - rewrite !lookup_ge_None_2 by lia. done.
Qed.
End arrays.

Create Rewrite HintDb arr.
#[export] Hint Rewrite @zlen_aset @zlen_app @zlen_cons @zlen_replicate : arr.
#[export] Hint Rewrite @aget_aset_eq @aget_aset_ne using (autorewrite with arr; lia) : arr.
Ltac arr := autorewrite with arr.

(** ** Copying between arrays *)

(** memcpy into an array at index [off], and the [n] elements from it *)
Definition blit {A} (l : list A) (off : Z) (src : list A) : list A :=
  take (Z.to_nat off) l ++ src ++ drop (Z.to_nat off + length src) l.
Definition slice {A} (l : list A) (off n : Z) : list A :=
  take (Z.to_nat n) (drop (Z.to_nat off) l).
Lemma length_blit {A} (l : list A) off src :
  0 <= off -> off + zlen src <= zlen l -> zlen (blit l off src) = zlen l.
Proof.
  unfold zlen, blit. intros. rewrite !length_app, length_take, length_drop. lia.
Qed.
Lemma slice_blit_eq {A} (l : list A) off src :
  0 <= off -> off <= zlen l -> slice (blit l off src) off (zlen src) = src.
Proof.
  unfold slice, blit, zlen. intros. rewrite drop_app_length' by (rewrite length_take; lia).
  rewrite take_app_length'; [done|lia].
Qed.
Lemma slice_blit_before {A} (l : list A) off src n :
  0 <= n <= off -> off <= zlen l -> slice (blit l off src) 0 n = slice l 0 n.
Proof.
  unfold slice, blit, zlen. intros. rewrite !drop_0.
  rewrite take_app_le by (rewrite length_take; lia). rewrite take_take. f_equal. lia.
Qed.
Lemma aget_take {A} `{Inhabited A} (l : list A) n i :
  0 <= i < n -> i < zlen l -> (take (Z.to_nat n) l).[i] = l.[i].
Proof.
  unfold zlen. intros. apply aget_lookup; [lia|]. rewrite lookup_take_lt by lia.
  apply lookup_aget. unfold zlen. lia.
Qed.
Lemma aget_blit_0 {A} `{Inhabited A} (l src : list A) i :
  0 <= i < zlen src -> (blit l 0 src).[i] = src.[i].
Proof. intros. unfold blit. change (take (Z.to_nat 0) l) with (@nil A). cbn [app]. apply aget_app_l. lia. Qed.
Lemma lookup_blit_ne {A} (l src : list A) off (k : nat) :
  0 <= off -> off + zlen src <= zlen l -> Z.of_nat k < off \/ off + zlen src <= Z.of_nat k -> blit l off src !! k = l !! k.
Proof.
  unfold zlen, blit. intros Ho Hl [Hk|Hk].
  - rewrite lookup_app_l by (rewrite length_take; lia). apply lookup_take_lt. lia.
  - rewrite lookup_app_r by (rewrite length_take; lia). rewrite lookup_app_r by (rewrite length_take; lia).
    rewrite lookup_drop. f_equal. rewrite length_take. lia.
Qed.
Lemma slice_blit_ne {A} (l src : list A) off o n :
  0 <= off -> off + zlen src <= zlen l -> 0 <= o -> 0 <= n -> o + n <= off \/ off + zlen src <= o ->
  slice (blit l off src) o n = slice l o n.
Proof.
  intros Ho Hl Ho' Hn Hd. apply list_eq. intros k. unfold slice. destruct (decide (k < Z.to_nat n)%nat).
  - rewrite !lookup_take_lt, !lookup_drop by lia. apply lookup_blit_ne; [done|done|lia].
  - by rewrite !lookup_take_ge by lia.
Qed.

Lemma slice_blit_prefix {A} (l src : list A) o n : 0 <= o -> 0 <= n -> o + n <= zlen src -> slice (blit l 0 src) o n = slice src o n.
Proof.
  unfold zlen. intros Ho Hn Hl. apply list_eq. intros k. unfold slice, blit. destruct (decide (k < Z.to_nat n)%nat).
  - rewrite !lookup_take_lt, !lookup_drop by lia. change (take (Z.to_nat 0) l) with (@nil A). cbn [app]. apply lookup_app_l. lia.
  - by rewrite !lookup_take_ge by lia.
Qed.
Lemma slice_slice {A} (l : list A) N o n : 0 <= o -> 0 <= n -> o + n <= N -> slice (slice l 0 N) o n = slice l o n.
Proof.
  intros Ho Hn Hl. apply list_eq. intros k. unfold slice. destruct (decide (k < Z.to_nat n)%nat).
  - rewrite !lookup_take_lt, !lookup_drop, lookup_take_lt, lookup_drop by lia. done.
  - by rewrite !lookup_take_ge by lia.
Qed.
Lemma zlen_slice {A} (l : list A) o n : 0 <= o -> 0 <= n -> o + n <= zlen l -> zlen (slice l o n) = n.
Proof. unfold zlen, slice. intros. rewrite length_take, length_drop. lia. Qed.

(** ** Bitmaps

    An [unsigned long] bitmap is the integer whose bit [nr] is bit [nr] of the
    bitmap: [test_bit], [set_bit] and [clear_bit] are then the bit operations
    of [Z]. *)
Definition test_bit (nr : Z) (m : Z) : bool := Z.testbit m nr.
Definition set_bit (nr : Z) (m : Z) : Z := Z.setbit m nr.
Definition clear_bit (nr : Z) (m : Z) : Z := Z.clearbit m nr.

Lemma test_set_bit i j m : 0 <= i -> test_bit j (set_bit i m) = (i =? j) || test_bit j m.
Proof. intros. unfold test_bit, set_bit. by rewrite Z.setbit_eqb. Qed.
Lemma test_clear_bit i j m : test_bit j (clear_bit i m) = negb (i =? j) && test_bit j m.
Proof.
  unfold test_bit, clear_bit. rewrite Z.clearbit_eqb. apply andb_comm.
Qed.
Lemma test_bit_0 i : test_bit i 0 = false.
Proof. apply Z.testbit_0_l. Qed.

(** [find_next_bit]/[find_next_zero_bit] of the kernel are outside the
    repository; what the code relies on is their documented result: the
    first set (clear) bit at or after the offset, the size if there is none. *)
Class BitSearch := {
  find_next_bit : Z -> Z -> Z -> Z;
  find_next_zero_bit : Z -> Z -> Z -> Z;
}.

Definition next_bit_result (b : bool) (m size off r : Z) : Prop :=
  (r = size /\ forall k, off <= k < size -> test_bit k m = negb b) \/
  (off <= r < size /\ test_bit r m = b /\
   forall k, off <= k < r -> test_bit k m = negb b).

Class BitSearchOk `{BitSearch} : Prop := {
  find_next_bit_spec m size off :
    0 <= off -> 0 <= size -> next_bit_result true m size off (find_next_bit m size off);
  find_next_zero_bit_spec m size off :
    0 <= off -> 0 <= size -> next_bit_result false m size off (find_next_zero_bit m size off);
}.

(** A scanning implementation: the class is inhabited, and witnesses run. *)
Fixpoint scan_bit (b : bool) (m size : Z) (fuel : nat) (off : Z) : Z :=
  match fuel with
  | O => size
  | S n => if size <=? off then size
           else if Bool.eqb (test_bit off m) b then off
           else scan_bit b m size n (off + 1)
  end.
Definition scan_search : BitSearch := {|
  find_next_bit m size off := scan_bit true m size (Z.to_nat (size - off)) off;
  find_next_zero_bit m size off := scan_bit false m size (Z.to_nat (size - off)) off;
|}.

Lemma scan_bit_spec b m size n off :
  0 <= off -> size - off <= Z.of_nat n ->
  next_bit_result b m size off (scan_bit b m size n off).
Proof.
  revert off. induction n as [|n IH]; intros off Hoff Hn; simpl.
  { left. split; [done|]. intros k Hk. lia. }
  destruct (Z.leb_spec size off); [left; split; [done|]; intros; lia|].
  destruct (Bool.eqb_spec (test_bit off m) b) as [Hb|Hb].
  { right. split_and!; [lia|lia|done|]. intros; lia. }
  assert (test_bit off m = negb b) as Hoff'
    by (destruct (test_bit off m), b; simpl in *; congruence).
  destruct (IH (off + 1)) as [[Hr Hall]|(Hr & Hbit & Hall)]; [lia|lia|left|right].
  - split; [done|]. intros k Hk. destruct (decide (k = off)) as [->|]; [done|].
    apply Hall; lia.
  - split_and!; [lia|lia|done|]. intros k Hk.
    destruct (decide (k = off)) as [->|]; [done|]. apply Hall; lia.
Qed.
Lemma scan_search_ok : @BitSearchOk scan_search.
Proof. split; intros; apply scan_bit_spec; lia. Qed.

(** Number of clear bits among bits [0 .. n-1]. *)
Fixpoint zero_bits (m : Z) (n : nat) : Z :=
  match n with
  | O => 0
  | S k => zero_bits m k + (if test_bit (Z.of_nat k) m then 0 else 1)
  end.

Lemma zero_bits_range m n : 0 <= zero_bits m n <= Z.of_nat n.
Proof. induction n; simpl zero_bits; [lia|]. destruct (test_bit _ m); lia. Qed.
Lemma zero_bits_ext m m' n :
  (forall i, 0 <= i < Z.of_nat n -> test_bit i m = test_bit i m') ->
  zero_bits m n = zero_bits m' n.
Proof.
  induction n as [|n IH]; intros Hi; simpl; [done|].
  rewrite IH, (Hi (Z.of_nat n)) by (intros; try apply Hi; lia). done.
Qed.
Lemma zero_bits_set m n i :
  0 <= i < Z.of_nat n -> test_bit i m = false ->
  zero_bits (set_bit i m) n = zero_bits m n - 1.
Proof.
  induction n as [|n IH]; intros Hi Hf; simpl zero_bits; [lia|].
  rewrite test_set_bit by lia. destruct (Z.eqb_spec i (Z.of_nat n)) as [->|]; simpl.
  - rewrite Hf. rewrite (zero_bits_ext _ m); [lia|]. intros j Hj.
    rewrite test_set_bit by lia. destruct (Z.eqb_spec (Z.of_nat n) j); [lia|done].
  - rewrite IH by (try done; lia). lia.
Qed.
Lemma zero_bits_clear m n i :
  0 <= i < Z.of_nat n -> test_bit i m = true ->
  zero_bits (clear_bit i m) n = zero_bits m n + 1.
Proof.
  induction n as [|n IH]; intros Hi Hf; simpl zero_bits; [lia|].
  rewrite test_clear_bit. destruct (Z.eqb_spec i (Z.of_nat n)) as [->|]; simpl.
  - rewrite Hf. rewrite (zero_bits_ext _ m); [lia|]. intros j Hj.
    rewrite test_clear_bit. destruct (Z.eqb_spec (Z.of_nat n) j); [lia|done].
  - rewrite IH by (try done; lia). lia.
Qed.
Lemma zero_bits_pos m n :
  0 < zero_bits m n -> exists i, 0 <= i < Z.of_nat n /\ test_bit i m = false.
Proof.
  induction n as [|n IH]; simpl zero_bits; [lia|].
  destruct (test_bit (Z.of_nat n) m) eqn:E.
  - intros. destruct IH as (i & ? & ?); [lia|]. exists i. split; [lia|done].
  - intros _. exists (Z.of_nat n). split; [lia|done].
Qed.
Lemma zero_bits_empty n : zero_bits 0 n = Z.of_nat n.
Proof. induction n; simpl zero_bits; [done|]. rewrite test_bit_0. lia. Qed.

(** Comparisons by cases, then linear arithmetic. *)
Ltac blia :=
  repeat match goal with
  | |- context [?a <=? ?b] => destruct (Z.leb_spec a b)
  | |- context [?a <? ?b] => destruct (Z.ltb_spec a b)
  | |- context [?a =? ?b] => destruct (Z.eqb_spec a b)
  end; cbn [andb orb negb Z.b2z]; rewrite ?orb_false_r, ?orb_true_r, ?andb_false_r, ?andb_true_r; (reflexivity || lia).
(** [lia] after replacing quotients and remainders by their equations. *)
Ltac dlia := Z.to_euclidean_division_equations; lia.

(** ** Reachability *)
Inductive star {A : Type} (R : A -> A -> Prop) : A -> A -> Prop :=
| star_refl a : star R a a
| star_step a b c : R a b -> star R b c -> star R a c.

Lemma star_invariant {A} (R : A -> A -> Prop) (P : A -> Prop) a b :
  (forall x y, P x -> R x y -> P y) -> star R a b -> P a -> P b.
Proof. intros HR. induction 1; eauto. Qed.

(** ** Finite sums and counts: [f 0 + ... + f (n - 1)] *)
Fixpoint sum_upto (f : Z -> Z) (n : nat) : Z :=
  match n with
  | O => 0
  | S k => sum_upto f k + f (Z.of_nat k)
  end.
Definition count_upto (Q : Z -> bool) (n : nat) : Z := sum_upto (fun k => Z.b2z (Q k)) n.

Lemma sum_upto_ext f g n :
  (forall k, 0 <= k < Z.of_nat n -> f k = g k) -> sum_upto f n = sum_upto g n.
Proof.
  induction n as [|n IH]; intros Hk; simpl; [done|].
  rewrite IH, (Hk (Z.of_nat n)) by (intros; try apply Hk; lia). done.
Qed.
(** Changing one term changes the sum by the difference. *)
Lemma sum_upto_update f g n j :
  0 <= j < Z.of_nat n -> (forall k, 0 <= k < Z.of_nat n -> k <> j -> g k = f k) ->
  sum_upto g n = sum_upto f n + (g j - f j).
Proof.
  induction n as [|n IH]; intros Hj Hk; simpl sum_upto; [lia|].
  destruct (decide (j = Z.of_nat n)) as [->|].
  - rewrite (sum_upto_ext g f); [lia|]. intros k Hr. apply Hk; lia.
  - rewrite IH, (Hk (Z.of_nat n)) by (intros; try apply Hk; lia). lia.
Qed.
Lemma sum_upto_range f n lo hi :
  (forall k, 0 <= k < Z.of_nat n -> lo <= f k <= hi) ->
  lo * Z.of_nat n <= sum_upto f n <= hi * Z.of_nat n.
Proof.
  induction n as [|n IH]; intros Hk; simpl sum_upto; [lia|].
  specialize (IH ltac:(intros; apply Hk; lia)). pose proof (Hk (Z.of_nat n) ltac:(lia)). lia.
Qed.

Lemma count_upto_range Q n : 0 <= count_upto Q n <= Z.of_nat n.
Proof.
  pose proof (sum_upto_range (fun k => Z.b2z (Q k)) n 0 1) as H. unfold count_upto.
  specialize (H ltac:(intros k _; cbn; destruct (Q k); cbn; lia)). lia.
Qed.
Lemma count_upto_ext Q R n :
  (forall k, 0 <= k < Z.of_nat n -> Q k = R k) -> count_upto Q n = count_upto R n.
Proof. intros Hk. apply sum_upto_ext. intros k Hr. by rewrite Hk. Qed.
Lemma count_upto_update Q R n j :
  0 <= j < Z.of_nat n -> (forall k, 0 <= k < Z.of_nat n -> k <> j -> R k = Q k) ->
  count_upto R n = count_upto Q n + (Z.b2z (R j) - Z.b2z (Q j)).
Proof.
  intros Hj Hk. unfold count_upto.
  rewrite (sum_upto_update (fun k => Z.b2z (Q k)) (fun k => Z.b2z (R k)) n j); [done|done|].
  intros k Hr Hn. cbn. by rewrite Hk.
Qed.
(** A count below the bound leaves room; a positive one has a witness. *)
Lemma count_upto_sub P Q n :
  (forall k, 0 <= k < Z.of_nat n -> P k = true -> Q k = true) -> count_upto P n < count_upto Q n ->
  exists k, 0 <= k < Z.of_nat n /\ Q k = true /\ P k = false.
Proof.
  unfold count_upto. induction n as [|n IH]; simpl sum_upto; [lia|]. intros Hs Hc.
  destruct (P (Z.of_nat n)) eqn:EP, (Q (Z.of_nat n)) eqn:EQ; cbn in Hc.
  2: by rewrite (Hs (Z.of_nat n)) in EQ by (done || lia).
  2: exists (Z.of_nat n); split_and!; (done || lia).
  all: destruct IH as (k & Hk & Hq); [intros k Hk; apply Hs; lia|lia|]; exists k; split; [lia|done].
Qed.
Lemma count_upto_le P Q n :
  (forall k, 0 <= k < Z.of_nat n -> P k = true -> Q k = true) -> count_upto P n <= count_upto Q n.
Proof.
  unfold count_upto. induction n as [|n IH]; simpl sum_upto; [lia|]. intros Hs.
  specialize (IH ltac:(intros k Hk; apply Hs; lia)). specialize (Hs (Z.of_nat n) ltac:(lia)).
  destruct (P (Z.of_nat n)); [rewrite Hs by done; cbn; lia|]. destruct (Q (Z.of_nat n)); cbn; lia.
Qed.
Lemma count_upto_lt P Q n j :
  (forall k, 0 <= k < Z.of_nat n -> P k = true -> Q k = true) -> 0 <= j < Z.of_nat n ->
  Q j = true -> P j = false -> count_upto P n < count_upto Q n.
Proof.
  intros Hs Hj HQ HP.
  set (P' := fun k => if k =? j then true else P k).
  assert (count_upto P' n = count_upto P n + 1) as E.
  { rewrite (count_upto_update P P' n j Hj).
    - subst P'. cbv beta. rewrite Z.eqb_refl, HP. cbn. lia.
    - intros k _ Hne. subst P'. cbv beta. by replace (k =? j) with false by lia. }
  enough (count_upto P' n <= count_upto Q n) by lia. apply count_upto_le.
  intros k Hk. subst P'. cbv beta. destruct (Z.eqb_spec k j) as [->|]; [done|by apply Hs].
Qed.
Lemma count_upto_none Q n : (forall k, 0 <= k < Z.of_nat n -> Q k = false) -> count_upto Q n = 0.
Proof.
  unfold count_upto. induction n as [|n IH]; simpl sum_upto; [done|]. intros Hq.
  rewrite IH, Hq by (intros; try apply Hq; lia). done.
Qed.
Lemma count_upto_room Q n : count_upto Q n < Z.of_nat n -> exists k, 0 <= k < Z.of_nat n /\ Q k = false.
Proof.
  unfold count_upto. induction n as [|n IH]; simpl sum_upto; [lia|]. intros Hc.
  destruct (Q (Z.of_nat n)) eqn:E; cbn in Hc.
  - destruct IH as (k & Hk & Hq); [lia|]. exists k. split; [lia|done].
  - exists (Z.of_nat n). split; [lia|done].
Qed.

(** ** Finite ranges *)
Lemma in_range j n : 0 <= j < n -> In j (seqZ 0 n).
Proof. intros Hj. apply list_elem_of_In, elem_of_seqZ. lia. Qed.
(** All values of [j] below a numeral, given [Hj : 0 <= j < n]. *)
Ltac enum j Hj := apply in_range in Hj; vm_compute in Hj; repeat (destruct Hj as [<-|Hj]); [..|destruct Hj].
