(* ===== verification/Geometry.v ===== *)
(** * Volume geometry: [segment.h] address macros and section usage

    The read-only part of [struct f2fs_sb_info] the NVM code computes with,
    and the constants of the on-disk format, which are declared in
    [<linux/f2fs_fs.h>], outside the repository. *)
From S2P Require Import Prelude.
Open Scope Z_scope.

(** Constants of [<linux/f2fs_fs.h>]; [linux_format] gives the values of the
    4 KiB on-disk format. *)
Class F2fsFormat := {
  F2FS_BLKSIZE : Z;
  F2FS_LOG_SECTORS_PER_BLOCK : Z;
}.
Class F2fsFormatOk `{F2fsFormat} : Prop := {
  blksize_range : 64 <= F2FS_BLKSIZE <= 65536;
  blksize_mod : F2FS_BLKSIZE mod 64 = 0;
  log_sectors_range : 0 <= F2FS_LOG_SECTORS_PER_BLOCK <= 8;
}.
Definition linux_format : F2fsFormat := {|
  F2FS_BLKSIZE := 4096;
  F2FS_LOG_SECTORS_PER_BLOCK := 3;
|}.
Lemma linux_format_ok : @F2fsFormatOk linux_format.
Proof. by split. Qed.

(** Fields of f2fs_sb_info, raw_super, SM_I, FREE_I and curseg_array that stay
    constant, or are only read, in the NVM code. *)
Record f2fs_sb_info := mk_sbi {
  blocks_per_seg : Z;
  log_blocks_per_seg : Z;
  segs_per_sec : Z;
  seg0_blkaddr : Z;           (* SM_I(sbi)->seg0_blkaddr *)
  main_blkaddr : Z;           (* raw_super->main_blkaddr *)
  segment_count_main : Z;     (* raw_super->segment_count_main *)
  start_segno : Z;            (* FREE_I(sbi)->start_segno *)
  curseg_segno : list Z;      (* CURSEG_I(sbi, type)->segno, six logs *)
  cur_victim_sec : Z;
}.
#[export] Instance eta_sbi : Eta f2fs_sb_info := fun s =>
  mk_sbi (blocks_per_seg s) (log_blocks_per_seg s) (segs_per_sec s) (seg0_blkaddr s)
         (main_blkaddr s) (segment_count_main s) (start_segno s) (curseg_segno s)
         (cur_victim_sec s).

Definition GET_R2L_SEGNO (sbi : f2fs_sb_info) (segno : Z) : Z :=
  u32 (segno + start_segno sbi).
Definition START_BLOCK (sbi : f2fs_sb_info) (segno : Z) : Z :=
  u32 (seg0_blkaddr sbi +
       u32 (Z.shiftl (GET_R2L_SEGNO sbi segno) (log_blocks_per_seg sbi))).
Definition GET_SEGOFF_FROM_SEG0 (sbi : f2fs_sb_info) (blk_addr : Z) : Z :=
  u32 (blk_addr - seg0_blkaddr sbi).
Definition GET_SEGNO_FROM_SEG0 (sbi : f2fs_sb_info) (blk_addr : Z) : Z :=
  Z.shiftr (GET_SEGOFF_FROM_SEG0 sbi blk_addr) (log_blocks_per_seg sbi).
Definition GET_BLKOFF_FROM_SEG0 (sbi : f2fs_sb_info) (blk_addr : Z) : Z :=
  Z.land (GET_SEGOFF_FROM_SEG0 sbi blk_addr) (u32 (blocks_per_seg sbi - 1)).
Definition GET_SEC_FROM_SEG (sbi : f2fs_sb_info) (segno : Z) : Z :=
  segno / segs_per_sec sbi.
Definition GET_SEG_FROM_SEC (sbi : f2fs_sb_info) (secno : Z) : Z :=
  u32 (secno * segs_per_sec sbi).

Section format.
Context `{F2fsFormat}.
Definition SECTOR_FROM_BLOCK (blk_addr : Z) : Z :=
  u64 (Z.shiftl blk_addr F2FS_LOG_SECTORS_PER_BLOCK).
Definition SECTOR_TO_BLOCK (sectors : Z) : Z :=
  Z.shiftr sectors F2FS_LOG_SECTORS_PER_BLOCK.
End format.

(** IS_CURSEC: the section holds one of the six active logs *)
Definition IS_CURSEC (sbi : f2fs_sb_info) (secno : Z) : bool :=
  existsb (fun segno => secno =? segno / segs_per_sec sbi) (take 6 (curseg_segno sbi)).
Definition sec_usage_check (sbi : f2fs_sb_info) (secno : Z) : bool :=
  IS_CURSEC sbi secno || (cur_victim_sec sbi =? secno).

(** A mounted volume: the main area starts on a segment boundary and every
    block of it has a 32-bit address. *)
Record geom_wf (sbi : f2fs_sb_info) : Prop := {
  gw_log : 0 <= log_blocks_per_seg sbi <= 16;
  gw_bps : blocks_per_seg sbi = 2 ^ log_blocks_per_seg sbi;
  gw_sps : 0 < segs_per_sec sbi;
  gw_seg0 : 0 <= seg0_blkaddr sbi;
  gw_start : 0 <= start_segno sbi;
  gw_count : 0 <= segment_count_main sbi;
  gw_main : main_blkaddr sbi = seg0_blkaddr sbi + start_segno sbi * blocks_per_seg sbi;
  gw_top : main_blkaddr sbi + segment_count_main sbi * blocks_per_seg sbi < 4294967296;
}.

Lemma bps_pos sbi : geom_wf sbi -> 1 <= blocks_per_seg sbi.
Proof.
  intros H. rewrite (gw_bps _ H). pose proof (gw_log _ H).
  assert (0 < 2 ^ log_blocks_per_seg sbi) by (apply Z.pow_pos_nonneg; lia). lia.
Qed.

(** A main-area block is a segment offset and a block offset. *)
Definition main_block (sbi : f2fs_sb_info) (segoff blkoff : Z) : Z :=
  main_blkaddr sbi + segoff * blocks_per_seg sbi + blkoff.

Section addresses.
Context (sbi : f2fs_sb_info) (G : geom_wf sbi) (segoff blkoff : Z).
Context (Hs : 0 <= segoff < segment_count_main sbi) (Hb : 0 <= blkoff < blocks_per_seg sbi).

Lemma main_block_range :
  main_blkaddr sbi <= main_block sbi segoff blkoff
    < main_blkaddr sbi + segment_count_main sbi * blocks_per_seg sbi.
Proof. destruct G. unfold main_block. pose proof (bps_pos sbi G). nia. Qed.

Lemma segoff_main_block :
  GET_SEGOFF_FROM_SEG0 sbi (main_block sbi segoff blkoff)
  = (start_segno sbi + segoff) * blocks_per_seg sbi + blkoff.
Proof.
  pose proof main_block_range as Hr. destruct G. pose proof (bps_pos sbi G).
  unfold GET_SEGOFF_FROM_SEG0, main_block in *. rewrite gw_main0 in *.
  rewrite u32_id by nia. ring.
Qed.

Lemma segno_main_block :
  GET_SEGNO_FROM_SEG0 sbi (main_block sbi segoff blkoff) = start_segno sbi + segoff.
Proof.
  unfold GET_SEGNO_FROM_SEG0. rewrite segoff_main_block.
  pose proof (bps_pos sbi G). destruct G.
  rewrite Z.shiftr_div_pow2, <- gw_bps0 by lia.
  rewrite Z.div_add_l by lia. rewrite Z.div_small by lia. lia.
Qed.

Lemma blkoff_main_block :
  GET_BLKOFF_FROM_SEG0 sbi (main_block sbi segoff blkoff) = blkoff.
Proof.
  unfold GET_BLKOFF_FROM_SEG0. rewrite segoff_main_block.
  pose proof (bps_pos sbi G). destruct G.
  assert (2 ^ log_blocks_per_seg sbi <= 2 ^ 16) by (apply Z.pow_le_mono_r; lia).
  rewrite u32_id by lia. rewrite gw_bps0 at 2.
  replace (2 ^ log_blocks_per_seg sbi - 1) with (Z.ones (log_blocks_per_seg sbi))
    by (rewrite Z.ones_equiv; lia).
  rewrite Z.land_ones, <- gw_bps0 by lia.
  rewrite Z.add_comm, Z.mod_add by lia. apply Z.mod_small. lia.
Qed.

Lemma START_BLOCK_main : START_BLOCK sbi segoff + blkoff = main_block sbi segoff blkoff.
Proof.
  pose proof main_block_range as Hr. pose proof (bps_pos sbi G). destruct G.
  unfold START_BLOCK, GET_R2L_SEGNO, main_block in *. rewrite gw_main0 in *.
  rewrite (u32_id (segoff + _)) by nia.
  rewrite Z.shiftl_mul_pow2, <- gw_bps0 by lia.
  rewrite (u32_id (_ * _)) by nia. rewrite u32_id by nia. ring.
Qed.
End addresses.

Lemma main_area_segno sbi :
  geom_wf sbi -> GET_SEGNO_FROM_SEG0 sbi (main_blkaddr sbi) = start_segno sbi.
Proof.
  intros G. pose proof (bps_pos sbi G). destruct G.
  unfold GET_SEGNO_FROM_SEG0, GET_SEGOFF_FROM_SEG0. rewrite gw_main0 in *.
  rewrite u32_id by nia. rewrite Z.shiftr_div_pow2, <- gw_bps0 by lia.
  replace (seg0_blkaddr sbi + start_segno sbi * blocks_per_seg sbi - seg0_blkaddr sbi)
    with (start_segno sbi * blocks_per_seg sbi) by ring.
  apply Z.div_mul. lia.
Qed.

(** A small volume the witnesses evaluate on: four segments of four blocks. *)
Definition demo_sbi : f2fs_sb_info := {|
  blocks_per_seg := 4; log_blocks_per_seg := 2; segs_per_sec := 2;
  seg0_blkaddr := 8; main_blkaddr := 16; segment_count_main := 4; start_segno := 2;
  curseg_segno := [0; 0; 0; 0; 0; 0]; cur_victim_sec := -1;
|}.
Lemma demo_geom_wf : geom_wf demo_sbi.
Proof. split; cbn; lia. Qed.
