(* ===== verification/Heap.v ===== *)
(** * Bounded LFU heaps of [nvm.c]

    [struct max_heap] keeps the [k] coldest NVM segments (victims moved back
    to the SSD), [struct min_heap] the [k] hottest SSD segments.  The two
    copies of the sift code differ by the direction of their comparisons
    only; they are the two instances of one definition over [before], the
    strict order "nearer to the root". *)
From S2P Require Import Prelude.
From stdpp Require Import sorting.
Open Scope Z_scope.

(** struct heap_node *)
Record heap_node := mk_heap_node {
  count : Z;      (* unsigned long: access count of the segment *)
  seg_off : Z;    (* unsigned int: segment offset *)
}.
#[export] Instance heap_node_inhabited : Inhabited heap_node :=
  populate (mk_heap_node 0 0).
#[export] Instance heap_node_eq_dec : EqDecision heap_node.
Proof. solve_decision. Defined.

(** struct max_heap, struct min_heap ([bound] is max_count / min_count) *)
Record lfu_heap := mk_heap {
  nodes : list heap_node;
  cur_num : Z;
  heap_k : Z;
  bound : Z;
}.
#[export] Instance eta_lfu_heap : Eta lfu_heap :=
  fun h => mk_heap (nodes h) (cur_num h) (heap_k h) (bound h).
#[export] Instance lfu_heap_inhabited : Inhabited lfu_heap :=
  populate (mk_heap [] 0 0 0).

(** init_max_heap / init_min_heap: [k] zeroed nodes *)
Definition init_heap (k : Z) : lfu_heap :=
  mk_heap (replicate (Z.to_nat k) (mk_heap_node 0 0)) 0 k 0.
Definition init_max_heap (k : Z) : lfu_heap := init_heap k.
Definition init_min_heap (k : Z) : lfu_heap := init_heap k.

(** reset_max_heap / reset_min_heap *)
Definition reset_max_heap (mh : lfu_heap) : lfu_heap := mh <| cur_num := 0 |>.
Definition reset_min_heap (mh : lfu_heap) : lfu_heap := mh <| cur_num := 0 |>.

Definition is_empty_heap (mh : lfu_heap) : bool := cur_num mh =? 0.
Definition get_max_heap_top (mh : lfu_heap) : Z :=
  if is_empty_heap mh then 0 else count (nodes mh).[0].

Section sift.
Variable before : Z -> Z -> bool.

(** The bottom-up loop of the insert functions: [i] is the hole. *)
Fixpoint sift_up (fuel : nat) (ns : list heap_node) (i : Z) (x : heap_node)
    : outcome (list heap_node) :=
  match fuel with
  | O => NoFuel
  | S fuel =>
      if 0 <? i then
        let j := Z.shiftr (i - 1) 1 in
        if negb (before (count x) (count ns.[j])) then Done (ns.[i <- x])
        else sift_up fuel (ns.[i <- ns.[j]]) j x
      else Done (ns.[i <- x])
  end.

Definition insert_heap (mh : lfu_heap) (segoff cnt : Z) : outcome lfu_heap :=
  let i := cur_num mh in
  let mh := mh <| cur_num := u32 (cur_num mh + 1) |> in
  let x := mk_heap_node (u64 cnt) (u32 segoff) in
  ns <-- sift_up (S (Z.to_nat i)) (nodes mh) i x ;;
  Done (mh <| nodes := ns |>).

(** The top-down loop of the adjust functions. *)
Fixpoint sift_down (fuel : nat) (n : Z) (ns : list heap_node) (i : Z) (x : heap_node)
    : outcome (list heap_node) :=
  match fuel with
  | O => NoFuel
  | S fuel =>
      if i <? n then
        let j := (i + 1) * 2 - 1 in
        let j := if (j <? u32 (n - 1)) && before (count ns.[j + 1]) (count ns.[j])
                 then j + 1 else j in
        if (n <=? j) || negb (before (count ns.[j]) (count x)) then Done (ns.[i <- x])
        else sift_down fuel n (ns.[i <- ns.[j]]) j x
      else Done (ns.[i <- x])
  end.

Definition adjust_down (mh : lfu_heap) : outcome lfu_heap :=
  let tmp := mk_heap_node (u64 (s32 (count (nodes mh).[0])))
                          (u32 (s32 (seg_off (nodes mh).[0]))) in
  ns <-- sift_down (S (Z.to_nat (cur_num mh))) (cur_num mh) (nodes mh) 0 tmp ;;
  Done (mh <| nodes := ns |>).
End sift.

(** Largest count at the root. *)
Definition max_before (a b : Z) : bool := b <? a.
(** Smallest count at the root. *)
Definition min_before (a b : Z) : bool := a <? b.

Definition insert_max_heap := insert_heap max_before.
Definition insert_min_heap := insert_heap min_before.
Definition max_heap_adjust_down := adjust_down max_before.
Definition min_heap_adjust_down := adjust_down min_before.

(** ** Order, heap shape and contents *)

Class HeapOrder (before : Z -> Z -> bool) : Prop := {
  before_asym a b : before a b = true -> before b a = false;
  before_trans a b c : before a b = false -> before b c = false -> before a c = false;
}.
#[export] Instance max_before_order : HeapOrder max_before.
Proof. unfold max_before. split; intros; lia. Qed.
#[export] Instance min_before_order : HeapOrder min_before.
Proof. unfold min_before. split; intros; lia. Qed.

(** No element of the first [n] nodes is nearer to the root than its parent. *)
Definition heap_shape (before : Z -> Z -> bool) (n : Z) (v : list heap_node) : Prop :=
  forall j, 0 < j < n -> before (count v.[j]) (count v.[(j - 1) / 2]) = false.

(** The nodes in use. *)
Definition elems (mh : lfu_heap) : list heap_node := take (Z.to_nat (cur_num mh)) (nodes mh).

(** Counts and offsets are those the code stores: non-negative [int]s. *)
Definition node_ok (x : heap_node) : Prop :=
  0 <= count x < 2147483648 /\ 0 <= seg_off x < 2147483648.

Record heap_wf (before : Z -> Z -> bool) (mh : lfu_heap) : Prop := {
  hw_len : zlen (nodes mh) = heap_k mh;
  hw_num : 0 <= cur_num mh <= heap_k mh;
  hw_small : heap_k mh < 1000000;
  hw_nodes : Forall node_ok (elems mh);
  hw_shape : heap_shape before (cur_num mh) (nodes mh);
}.

Lemma swap_perm (v : list heap_node) i p :
  0 <= i < zlen v -> 0 <= p < zlen v -> i <> p ->
  v.[i <- v.[p]].[p <- v.[i]] ≡ₚ v.
Proof.
  unfold zlen. intros Hi Hp Hne.
  pose proof (lookup_aget v i Hi) as Ei. pose proof (lookup_aget v p Hp) as Ep.
  unfold aset. replace (0 <=? i) with true by lia. replace (0 <=? p) with true by lia.
  generalize dependent (v.[i]). intros x Ex. generalize dependent (v.[p]). intros y Ey.
  assert (Z.to_nat i <> Z.to_nat p) as Hn by lia. revert Hn Ex Ey.
  generalize (Z.to_nat i) (Z.to_nat p). clear. intros i p Hn Ex Ey.
  destruct (decide (i < p)%nat).
  - rewrite <- (take_drop_middle v i x) by done.
    assert (length (take i v) = i) as Hl
      by (rewrite length_take; apply lookup_lt_Some in Ex; lia).
    rewrite (insert_app_r_alt (take i v)) by lia. rewrite Hl, Nat.sub_diag. simpl.
    rewrite insert_app_r_alt, Hl by lia.
    destruct (p - i)%nat as [|m] eqn:Em; [lia|]. simpl.
    assert (drop (S i) v !! m = Some y) as Em'.
    { rewrite lookup_drop. rewrite <- Ey. f_equal. lia. }
    apply Permutation_app_head. rewrite <- (take_drop_middle _ m y Em') at 2.
    rewrite insert_take_drop by (eapply lookup_lt_Some; done). solve_Permutation.
  - assert (p < i)%nat by lia. rewrite list_insert_insert_ne by done.
    rewrite <- (take_drop_middle v p y) by done.
    assert (length (take p v) = p) as Hl
      by (rewrite length_take; apply lookup_lt_Some in Ey; lia).
    rewrite (insert_app_r_alt (take p v)) by lia. rewrite Hl, Nat.sub_diag. simpl.
    rewrite insert_app_r_alt, Hl by lia.
    destruct (i - p)%nat as [|m] eqn:Em; [lia|]. simpl.
    assert (drop (S p) v !! m = Some x) as Em'.
    { rewrite lookup_drop. rewrite <- Ex. f_equal. lia. }
    apply Permutation_app_head. rewrite <- (take_drop_middle _ m x Em') at 2.
    rewrite insert_take_drop by (eapply lookup_lt_Some; done). solve_Permutation.
Qed.

Lemma aset_aset_eq {A} (l : list A) i x y : l.[i <- x].[i <- y] = l.[i <- y].
Proof. unfold aset. destruct (0 <=? i); [|done]. by rewrite list_insert_insert_eq. Qed.
Lemma drop_aset {A} (l : list A) n i x :
  0 <= i < n -> drop (Z.to_nat n) (l.[i <- x]) = drop (Z.to_nat n) l.
Proof.
  intros. unfold aset. replace (0 <=? i) with true by lia. apply drop_insert_lt. lia.
Qed.
Lemma aset_aget_eq {A} `{Inhabited A} (l : list A) i : l.[i <- l.[i]] = l.
Proof.
  unfold aset. destruct (Z.leb_spec 0 i); [|done].
  destruct (decide (i < zlen l)).
  - apply list_insert_id, lookup_aget. lia.
  - apply list_insert_ge. unfold zlen in *. lia.
Qed.

(** Parent of a node, and the state of the sift loops: [v] is a heap but for
    the element at the hole [i]. *)
Definition par (j : Z) : Z := (j - 1) / 2.

Record up_inv before (n : Z) (v : list heap_node) (i : Z) : Prop := {
  up_other j : 0 < j < n -> j <> i -> before (count v.[j]) (count v.[par j]) = false;
  up_child c : 0 < c < n -> par c = i -> 0 < i -> before (count v.[c]) (count v.[par i]) = false;
}.
Record down_inv before (n : Z) (v : list heap_node) (i : Z) : Prop := {
  down_other j : 0 < j < n -> par j <> i -> before (count v.[j]) (count v.[par j]) = false;
  down_child c : 0 < c < n -> par c = i -> 0 < i -> before (count v.[c]) (count v.[par i]) = false;
}.

Ltac par_lia := unfold par in *; dlia.

(** Exchanging the hole with another position. *)
Lemma hole_move (ns : list heap_node) i p x :
  0 <= i < zlen ns -> 0 <= p < zlen ns -> i <> p ->
  ns.[i <- ns.[p]].[p <- x] = ns.[i <- x].[i <- ns.[i <- x].[p]].[p <- ns.[i <- x].[i]].
Proof.
  intros. rewrite aset_aset_eq, aget_aset_eq, aget_aset_ne by lia. done.
Qed.

Section sift_proofs.
Context (before : Z -> Z -> bool) `{!HeapOrder before}.

Lemma up_inv_step n v i :
  n <= zlen v -> 0 < i < n -> up_inv before n v i ->
  before (count v.[i]) (count v.[par i]) = true ->
  up_inv before n (v.[i <- v.[par i]].[par i <- v.[i]]) (par i).
Proof.
  intros Hn Hi [Ho Hc] Hb. set (p := par i) in *.
  assert (0 <= p < i) as Hp by (subst p; par_lia).
  assert (forall j, v.[i <- v.[p]].[p <- v.[i]].[j]
            = if j =? p then v.[i] else if j =? i then v.[p] else v.[j]) as Hget.
  { intros j. rewrite !aget_aset by (rewrite ?zlen_aset; lia).
    rewrite (Z.eqb_sym p), (Z.eqb_sym i). done. }
  assert (before (count v.[p]) (count v.[i]) = false) as Hpi by by apply before_asym.
  split.
  - intros j Hj Hjp. rewrite !Hget. replace (j =? p) with false by lia.
    destruct (Z.eqb_spec j i) as [->|Hji].
    { fold p. by rewrite Z.eqb_refl. }
    destruct (Z.eqb_spec (par j) p) as [Ejp|].
    { eapply before_trans; [|exact Hpi]. rewrite <- Ejp. by apply Ho. }
    destruct (Z.eqb_spec (par j) i) as [Eji|]; [|by apply Ho].
    apply Hc; [lia|done|lia].
  - intros c Hc' Hcp Hp0. rewrite !Hget. replace (c =? p) with false by par_lia.
    replace (par p =? p) with false by par_lia.
    replace (par p =? i) with false by par_lia.
    assert (before (count v.[p]) (count v.[par p]) = false) by (apply Ho; lia).
    destruct (Z.eqb_spec c i); [done|].
    eapply before_trans; [|done]. rewrite <- Hcp. by apply Ho.
Qed.

Lemma sift_up_ok fuel ns i x n :
  n <= zlen ns -> 0 <= i < n -> (Z.to_nat i < fuel)%nat ->
  up_inv before n (ns.[i <- x]) i ->
  exists v, sift_up before fuel ns i x = Done v /\ heap_shape before n v /\
    v ≡ₚ ns.[i <- x] /\ drop (Z.to_nat n) v = drop (Z.to_nat n) ns /\ zlen v = zlen ns.
Proof.
  revert ns i. induction fuel as [|fuel IH]; intros ns i Hn Hi Hf Hinv; [lia|].
  simpl sift_up.
  assert (forall j, j <> i -> (ns.[i <- x]).[j] = ns.[j]) as Hne
    by (intros; by apply aget_aset_ne).
  assert ((ns.[i <- x]).[i] = x) as Hx by (apply aget_aset_eq; lia).
  destruct (Z.ltb_spec 0 i) as [H0|H0].
  - rewrite Z.shiftr_div_pow2 by lia. change ((i - 1) / 2 ^ 1) with (par i).
    assert (0 <= par i < i) by par_lia.
    destruct (before (count x) (count ns.[par i])) eqn:Hb; simpl.
    + assert (before (count (ns.[i <- x]).[i]) (count (ns.[i <- x]).[par i]) = true) as Hb'
        by (rewrite Hx, Hne by lia; done).
      pose proof (up_inv_step n _ i ltac:(by rewrite zlen_aset) ltac:(lia) Hinv Hb') as Hinv'.
      rewrite <- hole_move in Hinv' by lia.
      destruct (IH (ns.[i <- ns.[par i]]) (par i)) as (v & ? & ? & Hperm & Hd & ?);
        [by rewrite zlen_aset|lia|lia|done|].
      exists v. split_and!; [done|done| | |].
      * rewrite Hperm, hole_move by lia. apply swap_perm; rewrite ?zlen_aset; lia.
      * rewrite Hd. apply drop_aset. lia.
      * by rewrite zlen_aset in *.
    + eexists. split_and!; [done| |done|apply drop_aset; lia|by rewrite zlen_aset].
      intros j Hj. fold (par j). destruct (Z.eq_dec j i) as [->|].
      * rewrite Hx, Hne; [done|lia].
      * by apply Hinv.
  - eexists. split_and!; [done| |done|apply drop_aset; lia|by rewrite zlen_aset].
    intros j Hj. apply Hinv; lia.
Qed.

Lemma down_inv_step n v i j :
  n <= zlen v -> 0 <= i < j -> j < n -> par j = i -> down_inv before n v i ->
  before (count v.[j]) (count v.[i]) = true ->
  (forall m, 0 < m < n -> par m = i -> before (count v.[m]) (count v.[j]) = false) ->
  down_inv before n (v.[i <- v.[j]].[j <- v.[i]]) j.
Proof.
  intros Hn Hi Hj Hpj [Ho Hc] Hb Hsib.
  assert (forall m, v.[i <- v.[j]].[j <- v.[i]].[m]
            = if m =? j then v.[i] else if m =? i then v.[j] else v.[m]) as Hget.
  { intros m. rewrite !aget_aset by (rewrite ?zlen_aset; lia).
    rewrite (Z.eqb_sym j), (Z.eqb_sym i). done. }
  split.
  - intros m Hm Hpm. rewrite !Hget. replace (par m =? j) with false by lia.
    destruct (Z.eqb_spec m j) as [->|Hmj].
    { rewrite Hpj, Z.eqb_refl. by apply before_asym. }
    destruct (Z.eqb_spec m i) as [->|Hmi].
    { replace (par i =? i) with false by par_lia. apply Hc; [lia|done|lia]. }
    destruct (Z.eqb_spec (par m) i) as [|]; [by apply Hsib|by apply Ho].
  - intros c Hc' Hcj _. rewrite !Hget. replace (c =? j) with false by par_lia.
    replace (c =? i) with false by par_lia.
    replace (par j =? j) with false by par_lia. rewrite Hpj, Z.eqb_refl.
    rewrite <- Hcj. apply Ho; [done|lia].
Qed.

(** The child the loop compares with: the nearer of the two to the root. *)
Lemma best_child n v i :
  0 <= i < n -> n < 1000000 ->
  let l := (i + 1) * 2 - 1 in
  let j := if (l <? u32 (n - 1)) && before (count v.[l + 1]) (count v.[l])
           then l + 1 else l in
  i < j /\ par j = i /\
  (forall m, 0 < m < n -> par m = i ->
     j < n /\ before (count v.[m]) (count v.[j]) = false).
Proof.
  intros Hi Hn l j. subst j. width.
  assert (forall a, before a a = false) as Hrefl.
  { intros a. destruct (before a a) eqn:E; [|done]. by rewrite (before_asym a a E) in E. }
  destruct (Z.ltb_spec l (n - 1)), (before (count v.[l + 1]) (count v.[l])) eqn:Hb; simpl;
    (split_and!; [lia|par_lia|]; intros m Hm Hpm; split; [par_lia|]).
  all: assert (m = l \/ m = l + 1) as [->| ->] by par_lia.
  all: try apply Hrefl; try done; try (by apply before_asym); try par_lia.
Qed.

Lemma sift_down_ok fuel ns i x n :
  n <= zlen ns -> n < 1000000 -> 0 <= i < n -> (Z.to_nat (n - i) <= fuel)%nat ->
  down_inv before n (ns.[i <- x]) i ->
  exists v, sift_down before fuel n ns i x = Done v /\ heap_shape before n v /\
    v ≡ₚ ns.[i <- x] /\ drop (Z.to_nat n) v = drop (Z.to_nat n) ns /\ zlen v = zlen ns.
Proof.
  revert ns i. induction fuel as [|fuel IH]; intros ns i Hn Hsm Hi Hf Hinv; [lia|].
  simpl sift_down. replace (i <? n) with true by lia.
  assert (forall j, j <> i -> (ns.[i <- x]).[j] = ns.[j]) as Hne
    by (intros; by apply aget_aset_ne).
  assert ((ns.[i <- x]).[i] = x) as Hx by (apply aget_aset_eq; lia).
  pose proof (best_child n (ns.[i <- x]) i Hi Hsm) as Hbest. cbv zeta in Hbest.
  rewrite !Hne in Hbest by lia. revert Hbest.
  set (j := if _ && _ then _ else _). intros (Hij & Hpj & Hbest).
  destruct ((n <=? j) || negb (before (count ns.[j]) (count x))) eqn:Hstop.
  - eexists. split_and!; [done| |done|apply drop_aset; lia|by rewrite zlen_aset].
    intros m Hm. fold (par m). destruct (decide (par m = i)) as [Epm|]; [|by apply Hinv].
    destruct (Hbest m Hm Epm) as [? Hmj]. rewrite Epm, Hx.
    eapply before_trans; [exact Hmj|]. 
    destruct (before _ (count x)); simpl in *; [|done]. lia.
  - apply orb_false_iff in Hstop as [Hjn Hb]. apply negb_false_iff in Hb.
    assert (j < n) by lia.
    assert (down_inv before n (ns.[i <- ns.[j]].[j <- x]) j) as Hinv'.
    { rewrite hole_move by lia. apply down_inv_step; try done.
      - by rewrite zlen_aset.
      - lia.
      - by rewrite Hx, Hne by lia.
      - intros m Hm Hpm. rewrite (Hne j) by lia; by apply Hbest. }
    destruct (IH (ns.[i <- ns.[j]]) j) as (v & ? & ? & Hperm & Hd & ?);
      [by rewrite zlen_aset|lia|lia|lia|done|].
    exists v. split_and!; [done|done| | |].
    * rewrite Hperm, hole_move by lia. apply swap_perm; rewrite ?zlen_aset; lia.
    * rewrite Hd. apply drop_aset. lia.
    * by rewrite zlen_aset in *.
Qed.
End sift_proofs.

(** ** The heap operations *)

Lemma elems_lookup mh y :
  0 <= cur_num mh <= zlen (nodes mh) ->
  y ∈ elems mh <-> exists j, 0 <= j < cur_num mh /\ (nodes mh).[j] = y.
Proof.
  intros Hn. unfold elems. rewrite list_elem_of_lookup. split.
  - intros [i Hi]. apply lookup_take_Some in Hi as [Hi Hlt].
    exists (Z.of_nat i). split; [lia|]. apply aget_lookup; [lia|]. by rewrite Nat2Z.id.
  - intros (j & Hj & <-). exists (Z.to_nat j). rewrite lookup_take_lt by lia.
    apply lookup_aget. lia.
Qed.

Lemma take_perm_of_drop {A} (l l' : list A) n :
  l' ≡ₚ l -> drop n l' = drop n l -> take n l' ≡ₚ take n l.
Proof.
  intros Hp Hd. rewrite <- (take_drop n l), <- (take_drop n l'), Hd in Hp.
  by apply Permutation_app_inv_r in Hp.
Qed.

Lemma take_aset {A} (l : list A) n x :
  0 <= n < zlen l -> take (Z.to_nat (n + 1)) (l.[n <- x]) = take (Z.to_nat n) l ++ [x].
Proof.
  unfold zlen. intros. replace (Z.to_nat (n + 1)) with (S (Z.to_nat n)) by lia.
  unfold aset. replace (0 <=? n) with true by lia.
  rewrite (take_S_r _ _ x) by (apply list_lookup_insert_eq; lia).
  by rewrite take_insert_ge by lia.
Qed.

Section heap_ops.
Context (before : Z -> Z -> bool) `{!HeapOrder before}.

(** The root is an extremal element. *)
Lemma root_extremal mh y :
  heap_wf before mh -> y ∈ elems mh ->
  before (count y) (count (nodes mh).[0]) = false.
Proof.
  intros [Hl Hn Hs Hok Hsh] Hy. apply elems_lookup in Hy as (j & Hj & <-); [|lia].
  assert (before (count (nodes mh).[0]) (count (nodes mh).[0]) = false) as Hrefl.
  { destruct (before _ _) eqn:E; [|done]. by rewrite (before_asym _ _ E) in E. }
  assert (0 <= j) as Hj0 by lia. revert Hj. pattern j.
  apply Z_lt_induction; [|done]. clear j Hj0. intros j IH Hj. destruct (decide (j = 0)) as [->|]; [done|].
  eapply before_trans; [apply Hsh; lia|].
  apply IH; [|split]; dlia.
Qed.

Lemma insert_heap_ok mh segoff cnt :
  heap_wf before mh -> cur_num mh < heap_k mh ->
  0 <= cnt < 2147483648 -> 0 <= segoff < 2147483648 ->
  exists mh', insert_heap before mh segoff cnt = Done mh' /\ heap_wf before mh' /\
    elems mh' ≡ₚ mk_heap_node cnt segoff :: elems mh /\
    cur_num mh' = cur_num mh + 1 /\ heap_k mh' = heap_k mh /\ bound mh' = bound mh.
Proof.
  intros [Hl Hn Hs Hok Hsh] Hk Hc Hso. unfold insert_heap. width.
  set (x := mk_heap_node cnt segoff).
  assert (up_inv before (cur_num mh + 1) ((nodes mh).[cur_num mh <- x]) (cur_num mh)) as Hup.
  { split; intros j Hj Hji.
    - rewrite !aget_aset_ne by par_lia. apply Hsh. lia.
    - intros. par_lia. }
  destruct (sift_up_ok before (S (Z.to_nat (cur_num mh))) (nodes mh) (cur_num mh) x
              (cur_num mh + 1)) as (v & Hv & Hv2 & Hp & Hd & Hlen); [lia|lia|lia|done|].
  simpl nodes. rewrite Hv. simpl.
  assert (take (Z.to_nat (cur_num mh + 1)) v ≡ₚ x :: elems mh) as Hperm.
  { etrans; [apply (take_perm_of_drop ((nodes mh).[cur_num mh <- x])); [done|]|].
    - rewrite Hd. symmetry. apply drop_aset. lia.
    - rewrite take_aset by lia. by rewrite <- Permutation_cons_append. }
  eexists. split; [done|]. split_and!; try done.
  split; simpl; try lia; [|done].
  unfold elems. simpl. rewrite Hperm. constructor; [|done].
  unfold node_ok, x. simpl. lia.
Qed.

(** Overwriting the root and sifting it down. *)
Lemma replace_root_ok mh segoff cnt :
  heap_wf before mh -> 0 < cur_num mh ->
  0 <= cnt < 2147483648 -> 0 <= segoff < 2147483648 ->
  exists mh' rest,
    adjust_down before (mh <| nodes := (nodes mh).[0 <- mk_heap_node cnt segoff] |>) = Done mh' /\
    heap_wf before mh' /\
    elems mh ≡ₚ (nodes mh).[0] :: rest /\
    elems mh' ≡ₚ mk_heap_node cnt segoff :: rest /\
    cur_num mh' = cur_num mh /\ heap_k mh' = heap_k mh /\ bound mh' = bound mh.
Proof.
  intros [Hl Hn Hs Hok Hsh] Hpos Hc Hso. set (x := mk_heap_node cnt segoff).
  unfold adjust_down. cbn [nodes cur_num upd].
  rewrite aget_aset_eq by lia. unfold x. cbn [count seg_off]. width. fold x.
  assert (down_inv before (cur_num mh) ((nodes mh).[0 <- x].[0 <- x]) 0) as Hdn.
  { rewrite aset_aset_eq. split; intros j Hj Hji.
    - rewrite !aget_aset_ne by par_lia. by apply Hsh.
    - intros. lia. }
  destruct (sift_down_ok before (S (Z.to_nat (cur_num mh))) ((nodes mh).[0 <- x]) 0 x
              (cur_num mh)) as (v & Hv & Hv2 & Hp & Hd & Hlen);
    [rewrite zlen_aset; lia|lia|lia|lia|done|].
  rewrite zlen_aset in Hlen. rewrite Hv. simpl. destruct (nodes mh) as [|r rest] eqn:Enodes.
  { unfold zlen in *. simpl in *. lia. }
  assert (elems mh = r :: take (Z.to_nat (cur_num mh) - 1) rest) as Eel.
  { unfold elems. rewrite Enodes. destruct (Z.to_nat (cur_num mh)) eqn:E; [lia|].
    simpl. by rewrite Nat.sub_0_r. }
  assert (take (Z.to_nat (cur_num mh)) v ≡ₚ x :: take (Z.to_nat (cur_num mh) - 1) rest) as Hperm.
  { etrans; [apply (take_perm_of_drop ((r :: rest).[0 <- x])); [by rewrite Hp, aset_aset_eq|done]|].
    destruct (Z.to_nat (cur_num mh)) eqn:E; [lia|]. simpl. by rewrite Nat.sub_0_r. }
  eexists _, (take (Z.to_nat (cur_num mh) - 1) rest). split; [done|]. split_and!; try done.
  - split; simpl; try lia; [|done]. unfold elems. simpl. rewrite Hperm.
    rewrite Eel in Hok. apply Forall_cons in Hok as [_ Hok].
    constructor; [unfold node_ok, x; simpl; lia|done].
  - by rewrite Eel.
Qed.
End heap_ops.

Lemma init_heap_wf before k : 0 <= k < 1000000 -> heap_wf before (init_heap k).
Proof.
  intros. unfold init_heap. split; simpl; try lia.
  - rewrite zlen_replicate. lia.
  - constructor.
  - intros j Hj. simpl in Hj. lia.
Qed.
Lemma reset_heap_wf before mh : heap_wf before mh -> heap_wf before (mh <| cur_num := 0 |>).
Proof. intros []. split; simpl; try done; try lia. intros j Hj. simpl in Hj. lia. Qed.
