(* ===== verification/Mpt.v ===== *)
(** * The mapping table (MPT) between NVM and SSD segments

    [nvm.h]: the NVM superblock, its in-memory companion and the accessors of
    mapping entries; [nvm.c]: segment allocation, creation and removal of a
    mapping.  The table holds one entry per NVM segment followed by one entry
    per SSD main-area segment; a mapping is a pair of entries pointing at each
    other. *)
From S2P Require Import Prelude Geometry Heap.
Open Scope Z_scope.

(** ** Data *)

Record nvm_super_block := mk_nsb {
  uuid : list Z;
  mpt_blkaddr : Z;
  ra_blkaddr : Z;
  nsb_main_blkaddr : Z;
  lfu_blkaddr0 : Z;
  lfu_blkaddr1 : Z;
  ra_blk_nums : Z;
  main_first_segno : Z;
  main_segment_nums : Z;
  main_segment_free_nums : Z;
  mpt_ver_map_bits : Z;
  mpt_entries : Z;
}.
#[export] Instance eta_nsb : Eta nvm_super_block := fun n =>
  mk_nsb (uuid n) (mpt_blkaddr n) (ra_blkaddr n) (nsb_main_blkaddr n) (lfu_blkaddr0 n)
    (lfu_blkaddr1 n) (ra_blk_nums n) (main_first_segno n) (main_segment_nums n)
    (main_segment_free_nums n) (mpt_ver_map_bits n) (mpt_entries n).

(** nvm_sb_info; the locks are represented by the atomicity of the operations *)
Record nvm_sb_info := mk_nsbi {
  nsb : nvm_super_block;
  nvm_flag : Z;
  mpt : list Z;                 (* unsigned int mpt[] *)
  mpt_dirty_map : Z;            (* one bit per MPT page *)
  mpt_dirty_map_bits : Z;
  mpt_ver_map : list Z;         (* char[], f2fs bit order *)
  segment_map : Z;
  ckpt_segment_map : Z;
  cur_alloc_nvm_segoff : Z;
  now_lfu_counter : Z;
  lfu_count : list (list Z);    (* LFU_LEVELS arrays of counters *)
  mh : lfu_heap;
  minh : lfu_heap;
}.
#[export] Instance eta_nsbi : Eta nvm_sb_info := fun s =>
  mk_nsbi (nsb s) (nvm_flag s) (mpt s) (mpt_dirty_map s) (mpt_dirty_map_bits s)
    (mpt_ver_map s) (segment_map s) (ckpt_segment_map s) (cur_alloc_nvm_segoff s)
    (now_lfu_counter s) (lfu_count s) (mh s) (minh s).

Definition NVM_NSB_DIRTY : Z := 1.
Definition NVM_FIRST_MOUNR : Z := 2.
Definition ENVMNOSPACE : Z := 3.
Definition NVM_LIMIT_FREE : Z := 5.

Definition rw_map : Z := 1.
Definition rw_redirect : Z := 2.
Definition rw_double : Z := 4.
Definition rw_bits : Z := 3.

(** ** Mapping entries *)

Definition set_mpt_entry (s : nvm_sb_info) (index offset rw_flag : Z) : nvm_sb_info :=
  s <| mpt ::= fun m => m.[u32 index <- Z.lor (u32 (Z.shiftl offset rw_bits)) (u32 rw_flag)] |>.
Definition get_mpt_entry (s : nvm_sb_info) (index : Z) : Z :=
  s32 (mpt s).[u32 index].
Definition get_mpt_value (s : nvm_sb_info) (index : Z) : Z :=
  Z.shiftr (mpt s).[s32 index] rw_bits.
Definition get_map_flag (s : nvm_sb_info) (index : Z) : Z :=
  Z.land (mpt s).[s32 index] rw_map.
Definition set_map_flag (s : nvm_sb_info) (index : Z) : nvm_sb_info :=
  s <| mpt ::= fun m => m.[s32 index <- Z.lor m.[s32 index] rw_map] |>.
Definition get_redirect_flag (s : nvm_sb_info) (index : Z) : Z :=
  Z.land (mpt s).[s32 index] rw_redirect.
Definition set_redirect_flag (s : nvm_sb_info) (index : Z) : nvm_sb_info :=
  s <| mpt ::= fun m => m.[s32 index <- Z.lor m.[s32 index] rw_redirect] |>.
Definition clear_redirect_flag (s : nvm_sb_info) (index : Z) : nvm_sb_info :=
  let e := (mpt s).[s32 index] in
  let low := Z.land e (rw_redirect - 1) in
  s <| mpt ::= fun m => m.[s32 index <-
         Z.lor (u32 (Z.shiftl (Z.shiftr e rw_redirect) rw_redirect)) low] |>.
Definition get_double_flag (s : nvm_sb_info) (index : Z) : Z :=
  Z.land (mpt s).[s32 index] rw_double.
Definition set_double_flag (s : nvm_sb_info) (index : Z) : nvm_sb_info :=
  s <| mpt ::= fun m => m.[s32 index <- Z.lor m.[s32 index] rw_double] |>.
Definition clear_double_flag (s : nvm_sb_info) (index : Z) : nvm_sb_info :=
  let e := (mpt s).[s32 index] in
  let low := Z.land e (rw_double - 1) in
  s <| mpt ::= fun m => m.[s32 index <-
         Z.lor (u32 (Z.shiftl (Z.shiftr e rw_double) rw_double)) low] |>.
Definition clear_map (s : nvm_sb_info) (index : Z) : nvm_sb_info :=
  s <| mpt ::= fun m => m.[s32 index <- 0] |>.

(** Fewer than NVM_LIMIT_FREE percent of the NVM segments are free. *)
Definition has_not_enough_free_nvm_secs (s : nvm_sb_info) : bool :=
  main_segment_free_nums (nsb s)
    <? u32 (main_segment_nums (nsb s) * NVM_LIMIT_FREE) / 100.

(** ** Allocation and mappings *)

Section ops.
Context `{F2fsFormat} `{BitSearch}.

Definition entries_per_blk : Z := F2FS_BLKSIZE / 4.

Definition create_mapping (s : nvm_sb_info) (ssd_segoff nvm_segoff rw_flag : Z) : nvm_sb_info :=
  let s := set_mpt_entry s nvm_segoff ssd_segoff rw_flag in
  let ssd_index := u32 (main_segment_nums (nsb s) + ssd_segoff) in
  let s := set_mpt_entry s ssd_index nvm_segoff rw_flag in
  let s := s <| mpt_dirty_map ::= set_bit (nvm_segoff / entries_per_blk) |> in
  s <| mpt_dirty_map ::= set_bit (ssd_index / entries_per_blk) |>.

(** The search of a free segment: [next:] restarts it once at offset 0. *)
Fixpoint find_free_segoff (fuel : nat) (s : nvm_sb_info) (nvm_segoff : Z) : outcome Z :=
  match fuel with
  | O => NoFuel
  | S fuel =>
      let r := find_next_zero_bit (segment_map s) (main_segment_nums (nsb s)) nvm_segoff in
      if main_segment_nums (nsb s) <=? r then
        if 0 <? main_segment_free_nums (nsb s) then find_free_segoff fuel s 0 else Bug
      else Done r
  end.

Definition nvm_allocate_segment (s : nvm_sb_info) (ssd_segoff : Z) (is_create_mapping : bool)
    : outcome (Z * nvm_sb_info) :=
  let nvm_segoff := cur_alloc_nvm_segoff s in
  if main_segment_free_nums (nsb s) =? 0 then Done (- ENVMNOSPACE, s)
  else if main_segment_nums (nsb s) <? main_segment_free_nums (nsb s) then Bug
  else
    nvm_segoff <-- find_free_segoff 2 s nvm_segoff ;;
    let s :=
      if negb (test_bit nvm_segoff (segment_map s)) then
        s <| segment_map ::= set_bit nvm_segoff |>
          <| nsb ::= fun b => b <| main_segment_free_nums ::= fun n => u32 (n - 1) |> |>
          <| nvm_flag ::= Z.lor NVM_NSB_DIRTY |>
      else s in
    let s := s <| cur_alloc_nvm_segoff := u32 (nvm_segoff + 1) |> in
    let s := if is_create_mapping
             then create_mapping s ssd_segoff nvm_segoff (Z.lor rw_map rw_redirect)
             else s in
    Done (s32 nvm_segoff, s).

(** Clearing a segment's bit and giving it back to the free count. *)
Definition release_nvm_segment (s : nvm_sb_info) (nvm_segoff : Z) : nvm_sb_info :=
  s <| segment_map ::= clear_bit nvm_segoff |>
    <| nsb ::= fun b => b <| main_segment_free_nums ::= fun n => u32 (n + 1) |> |>.

Definition unset_mapping (s : nvm_sb_info) (ssd_segno : Z) : nvm_sb_info :=
  let ssd_offset := u32 (ssd_segno + main_segment_nums (nsb s)) in
  if nz (get_map_flag s ssd_offset) then
    let nvm_offset := get_mpt_value s ssd_offset in
    let s := clear_map s ssd_offset in
    let s := clear_map s nvm_offset in
    let s := s <| mpt_dirty_map ::= set_bit (ssd_offset / entries_per_blk) |> in
    let s := s <| mpt_dirty_map ::= set_bit (nvm_offset / entries_per_blk) |> in
    release_nvm_segment s nvm_offset
  else s.

(** set_double of gc_nvm.c: both entries of a mapping get the double flag *)
Definition set_double (s : nvm_sb_info) (ssd_segno : Z) : nvm_sb_info :=
  let ssd_offset := u32 (ssd_segno + main_segment_nums (nsb s)) in
  if nz (get_map_flag s ssd_offset) then
    let nvm_offset := get_mpt_value s ssd_offset in
    let s := set_double_flag s ssd_offset in
    let s := set_double_flag s nvm_offset in
    let s := s <| mpt_dirty_map ::= set_bit (ssd_offset / entries_per_blk) |> in
    s <| mpt_dirty_map ::= set_bit (nvm_offset / entries_per_blk) |>
  else s.

(** memcpy of [bytes] bytes between two bitmaps *)
Definition copy_bits (dst src bytes : Z) : Z :=
  Z.lor (Z.shiftl (Z.shiftr dst (8 * bytes)) (8 * bytes)) (src mod 2 ^ (8 * bytes)).
Definition nvm_set_ckpt_segment_map (s : nvm_sb_info) : nvm_sb_info :=
  s <| ckpt_segment_map ::= fun c =>
         copy_bits c (segment_map s) ((main_segment_nums (nsb s) - 1) / 8 + 1) |>.
End ops.

(** ** What an entry says *)

Lemma nz_land_pow2 e n : 0 <= n -> nz (Z.land e (2 ^ n)) = Z.testbit e n.
Proof.
  intros Hn. unfold nz.
  assert (Z.land e (2 ^ n) = if Z.testbit e n then 2 ^ n else 0) as ->.
  { apply Z.bits_inj'. intros k Hk. rewrite Z.land_spec, Z.pow2_bits_eqb by lia.
    destruct (Z.eqb_spec n k) as [->|].
    - destruct (Z.testbit e k); rewrite ?Z.pow2_bits_true, ?Z.bits_0; auto.
    - rewrite andb_false_r. destruct (Z.testbit e n); rewrite ?Z.pow2_bits_false, ?Z.bits_0; auto. }
  destruct (Z.testbit e n); [|done].
  assert (2 ^ n <> 0) by (apply Z.pow_nonzero; lia). destruct (Z.eqb_spec (2 ^ n) 0); done.
Qed.

(** The partner an entry points at, when it is in use. *)
Definition entry_lookup (e : Z) : option Z :=
  if Z.testbit e 0 then Some (Z.shiftr e 3) else None.
Definition entry_flags (e : Z) : Z := Z.land e 7.

Definition nvm_lookup (s : nvm_sb_info) (i : Z) : option Z := entry_lookup (mpt s).[i].
Definition ssd_lookup (s : nvm_sb_info) (j : Z) : option Z :=
  entry_lookup (mpt s).[main_segment_nums (nsb s) + j].

(** The entry [set_mpt_entry] stores. *)
Definition mk_entry (off f : Z) : Z := Z.lor (Z.shiftl off 3) f.

Lemma mk_entry_bit off f n : 0 <= n < 3 -> Z.testbit (mk_entry off f) n = Z.testbit f n.
Proof.
  intros. unfold mk_entry. rewrite Z.lor_spec, Z.shiftl_spec_low by lia. done.
Qed.
Lemma mk_entry_value off f : 0 <= f < 8 -> Z.shiftr (mk_entry off f) 3 = off.
Proof.
  intros. unfold mk_entry. rewrite Z.shiftr_lor, Z.shiftr_shiftl_l by lia.
  change (3 - 3) with 0. rewrite Z.shiftl_0_r, (Z.shiftr_div_pow2 f), (Z.div_small f) by lia.
  apply Z.lor_0_r.
Qed.
Lemma mk_entry_flags off f : 0 <= f < 8 -> entry_flags (mk_entry off f) = f.
Proof.
  intros. unfold entry_flags. apply Z.bits_inj'. intros n Hn. rewrite Z.land_spec.
  change 7 with (Z.ones 3). rewrite Z.testbit_ones_nonneg by lia.
  destruct (Z.ltb_spec n 3).
  - rewrite mk_entry_bit by lia. apply andb_true_r.
  - rewrite andb_false_r. symmetry. replace f with (f mod 2 ^ 3) by (apply Z.mod_small; lia).
    apply Z.mod_pow2_bits_high. lia.
Qed.
Lemma mk_entry_lookup off f :
  0 <= f < 8 -> Z.testbit f 0 = true -> entry_lookup (mk_entry off f) = Some off.
Proof. intros. unfold entry_lookup. by rewrite mk_entry_bit, H0, mk_entry_value by lia. Qed.

Lemma lor_double_lookup e : entry_lookup (Z.lor e 4) = entry_lookup e.
Proof.
  unfold entry_lookup. rewrite Z.lor_spec, orb_false_r, Z.shiftr_lor.
  change (Z.shiftr 4 3) with 0. by rewrite Z.lor_0_r.
Qed.
Lemma lor_double_flags e : entry_flags (Z.lor e 4) = Z.lor (entry_flags e) 4.
Proof. unfold entry_flags. by rewrite Z.land_lor_distr_l. Qed.

(** ** The invariant of the mapping state *)

Record mpt_wf (sbi : f2fs_sb_info) (s : nvm_sb_info) : Prop := {
  mw_nvm_nonneg : 0 <= main_segment_nums (nsb s);
  mw_ssd_nonneg : 0 <= segment_count_main sbi;
  mw_bound : main_segment_nums (nsb s) + segment_count_main sbi < 268435456;
  mw_len : main_segment_nums (nsb s) + segment_count_main sbi <= zlen (mpt s);
  (* the two halves of the table are inverse partial bijections *)
  mw_nvm i j : 0 <= i < main_segment_nums (nsb s) -> nvm_lookup s i = Some j ->
    0 <= j < segment_count_main sbi /\ ssd_lookup s j = Some i;
  mw_ssd j i : 0 <= j < segment_count_main sbi -> ssd_lookup s j = Some i ->
    0 <= i < main_segment_nums (nsb s) /\ nvm_lookup s i = Some j;
  (* paired entries carry the same flags *)
  mw_flags i j : 0 <= i < main_segment_nums (nsb s) -> nvm_lookup s i = Some j ->
    entry_flags (mpt s).[i] = entry_flags (mpt s).[main_segment_nums (nsb s) + j];
  (* unused entries are zero, so they do not redirect *)
  mw_clear k : 0 <= k < main_segment_nums (nsb s) + segment_count_main sbi ->
    entry_lookup (mpt s).[k] = None -> (mpt s).[k] = 0;
  (* mapped segments are allocated, and the free count is exact *)
  mw_alloc i j : 0 <= i < main_segment_nums (nsb s) -> nvm_lookup s i = Some j ->
    test_bit i (segment_map s) = true;
  mw_free : main_segment_free_nums (nsb s)
            = zero_bits (segment_map s) (Z.to_nat (main_segment_nums (nsb s)));
  mw_cur : 0 <= cur_alloc_nvm_segoff s <= main_segment_nums (nsb s);
}.

Lemma mpt_wf_free_range sbi s :
  mpt_wf sbi s -> 0 <= main_segment_free_nums (nsb s) <= main_segment_nums (nsb s).
Proof.
  intros W. rewrite (mw_free _ _ W).
  pose proof (zero_bits_range (segment_map s) (Z.to_nat (main_segment_nums (nsb s)))).
  pose proof (mw_nvm_nonneg _ _ W). lia.
Qed.

(** Flag accessors in range. *)
Lemma map_flag_bit s k : 0 <= k < 268435456 -> nz (get_map_flag s k) = Z.testbit (mpt s).[k] 0.
Proof. intros. unfold get_map_flag. width. by apply (nz_land_pow2 _ 0). Qed.
Lemma redirect_flag_bit s k : 0 <= k < 268435456 -> nz (get_redirect_flag s k) = Z.testbit (mpt s).[k] 1.
Proof. intros. unfold get_redirect_flag. width. by apply (nz_land_pow2 _ 1). Qed.
Lemma double_flag_bit s k : 0 <= k < 268435456 -> nz (get_double_flag s k) = Z.testbit (mpt s).[k] 2.
Proof. intros. unfold get_double_flag. width. by apply (nz_land_pow2 _ 2). Qed.
Lemma map_flag_lookup s k :
  0 <= k < 268435456 ->
  entry_lookup (mpt s).[k] = if nz (get_map_flag s k) then Some (get_mpt_value s k) else None.
Proof. intros. rewrite map_flag_bit by done. unfold get_mpt_value. by width. Qed.

Ltac mpt_simp := cbn [mpt nsb segment_map cur_alloc_nvm_segoff mpt_dirty_map nvm_flag lfu_count
  now_lfu_counter main_segment_nums main_segment_free_nums mpt_ver_map mpt_dirty_map_bits upd] in *.

Section op_specs.
Context `{F2fsFormat} `{BitSearch}.
Context (sbi : f2fs_sb_info).
#[local] Abbreviation N s := (main_segment_nums (nsb s)).
#[local] Abbreviation SSD := (segment_count_main sbi).

(** *** create_mapping *)
Lemma create_mapping_mpt s j i f :
  mpt_wf sbi s -> 0 <= j < SSD -> 0 <= i < N s -> 0 <= f < 8 ->
  mpt (create_mapping s j i f) = (mpt s).[i <- mk_entry j f].[N s + j <- mk_entry i f].
Proof.
  intros W Hj Hi Hf. destruct W. unfold create_mapping, set_mpt_entry, mk_entry. mpt_simp.
  change rw_bits with 3.
  assert (forall x, 0 <= x < 268435456 -> u32 (Z.shiftl x 3) = Z.shiftl x 3) as Hsh.
  { intros. apply u32_id. rewrite Z.shiftl_mul_pow2 by lia. lia. }
  rewrite !Hsh by lia. by width.
Qed.

Lemma create_lookups s j i f :
  mpt_wf sbi s -> 0 <= j < SSD -> 0 <= i < N s -> 0 <= f < 8 -> Z.testbit f 0 = true ->
  (forall i', 0 <= i' < N s -> nvm_lookup (create_mapping s j i f) i'
     = if i' =? i then Some j else nvm_lookup s i') /\
  (forall j', 0 <= j' < SSD -> ssd_lookup (create_mapping s j i f) j'
     = if j' =? j then Some i else ssd_lookup s j').
Proof.
  intros W Hj Hi Hf Hb. pose proof W as []. unfold nvm_lookup, ssd_lookup.
  rewrite create_mapping_mpt by done. change (nsb (create_mapping s j i f)) with (nsb s).
  split; intros x Hx.
  - rewrite aget_aset_ne, aget_aset by lia. rewrite Z.eqb_sym.
    destruct (x =? i); [by apply mk_entry_lookup|done].
  - rewrite aget_aset, aget_aset_ne by (rewrite ?zlen_aset; lia).
    replace (N s + j =? N s + x) with (x =? j) by lia.
    destruct (x =? j); [by apply mk_entry_lookup|done].
Qed.

Lemma create_mapping_wf s j i f :
  mpt_wf sbi s -> 0 <= j < SSD -> 0 <= i < N s -> 0 <= f < 8 -> Z.testbit f 0 = true ->
  nvm_lookup s i = None -> ssd_lookup s j = None -> test_bit i (segment_map s) = true ->
  mpt_wf sbi (create_mapping s j i f).
Proof.
  intros W Hj Hi Hf Hb Hni Hsj Hbit. destruct (create_lookups s j i f) as [Ln Ls]; try done.
  pose proof (create_mapping_mpt s j i f W Hj Hi Hf) as Em.
  pose proof W as [HN HS HB HL Hnvm Hssd Hfl Hclr Hal Hfr Hcu].
  split; change (nsb (create_mapping s j i f)) with (nsb s);
    change (segment_map (create_mapping s j i f)) with (segment_map s);
    change (cur_alloc_nvm_segoff (create_mapping s j i f)) with (cur_alloc_nvm_segoff s); try done.
  - by rewrite Em, !zlen_aset.
  - intros i' j' Hi'. rewrite Ln by done. destruct (Z.eqb_spec i' i) as [->|Hne].
    + intros [= <-]. rewrite Ls, Z.eqb_refl by done. done.
    + intros Hl. destruct (Hnvm _ _ Hi' Hl) as [? Hl']. rewrite Ls by done.
      destruct (Z.eqb_spec j' j) as [->|]; [congruence|done].
  - intros j' i' Hj'. rewrite Ls by done. destruct (Z.eqb_spec j' j) as [->|Hne].
    + intros [= <-]. rewrite Ln, Z.eqb_refl by done. done.
    + intros Hl. destruct (Hssd _ _ Hj' Hl) as [? Hl']. rewrite Ln by done.
      destruct (Z.eqb_spec i' i) as [->|]; [congruence|done].
  - intros i' j' Hi'. rewrite Ln by done. rewrite Em.
    destruct (Z.eqb_spec i' i) as [->|Hne].
    + intros [= <-]. rewrite aget_aset_ne, aget_aset_eq by lia.
      rewrite aget_aset_eq by (rewrite zlen_aset; lia). by rewrite !mk_entry_flags.
    + intros Hl. destruct (Hnvm _ _ Hi' Hl) as [? Hl'].
      assert (j' <> j) by congruence. rewrite !aget_aset_ne by lia. by apply Hfl.
  - intros k Hk. rewrite Em.
    rewrite aget_aset by (rewrite zlen_aset; lia).
    destruct (Z.eqb_spec (N s + j) k); [by rewrite mk_entry_lookup|].
    rewrite aget_aset by lia. destruct (Z.eqb_spec i k); [by rewrite mk_entry_lookup|].
    by apply Hclr.
  - intros i' j' Hi'. rewrite Ln by done. destruct (Z.eqb_spec i' i) as [->|]; [done|].
    by apply Hal.
Qed.

(** *** unset_mapping *)
Lemma mapped_index s j : mpt_wf sbi s -> 0 <= j < SSD ->
  u32 (j + N s) = N s + j /\ 0 <= N s + j < 268435456.
Proof. intros [] Hj. width. lia. Qed.

Lemma unset_mapping_none s j :
  mpt_wf sbi s -> 0 <= j < SSD -> ssd_lookup s j = None -> unset_mapping s j = s.
Proof.
  intros W Hj Hl. unfold unset_mapping. destruct (mapped_index s j W Hj) as [-> ?].
  unfold ssd_lookup in Hl. rewrite map_flag_lookup in Hl by lia.
  by destruct (nz (get_map_flag s (N s + j))).
Qed.

Lemma unset_mapping_some s j i :
  mpt_wf sbi s -> 0 <= j < SSD -> ssd_lookup s j = Some i ->
  mpt (unset_mapping s j) = (mpt s).[N s + j <- 0].[i <- 0] /\
  segment_map (unset_mapping s j) = clear_bit i (segment_map s) /\
  nsb (unset_mapping s j) = (nsb s) <| main_segment_free_nums := main_segment_free_nums (nsb s) + 1 |> /\
  cur_alloc_nvm_segoff (unset_mapping s j) = cur_alloc_nvm_segoff s /\
  lfu_count (unset_mapping s j) = lfu_count s /\
  now_lfu_counter (unset_mapping s j) = now_lfu_counter s.
Proof.
  intros W Hj Hl. destruct (mw_ssd _ _ W _ _ Hj Hl) as [Hi _].
  unfold unset_mapping. destruct (mapped_index s j W Hj) as [-> ?].
  unfold ssd_lookup in Hl. rewrite map_flag_lookup in Hl by lia.
  destruct (nz (get_map_flag s (N s + j))); [|done]. injection Hl as ->.
  pose proof (mpt_wf_free_range _ _ W). pose proof (mw_bound _ _ W). pose proof (mw_ssd_nonneg _ _ W).
  unfold clear_map, release_nvm_segment. mpt_simp. width. split_and!; try done.
  unfold upd. simpl. by width.
Qed.

Lemma unset_lookups s j i :
  mpt_wf sbi s -> 0 <= j < SSD -> ssd_lookup s j = Some i ->
  (forall i', 0 <= i' < N s -> nvm_lookup (unset_mapping s j) i'
     = if i' =? i then None else nvm_lookup s i') /\
  (forall j', 0 <= j' < SSD -> ssd_lookup (unset_mapping s j) j'
     = if j' =? j then None else ssd_lookup s j').
Proof.
  intros W Hj Hl. destruct (mw_ssd _ _ W _ _ Hj Hl) as [Hi Hl'].
  destruct (unset_mapping_some s j i W Hj Hl) as (Em & _ & En & _).
  pose proof W as []. unfold nvm_lookup, ssd_lookup. rewrite Em, En. mpt_simp.
  split; intros x Hx.
  - rewrite aget_aset, aget_aset_ne by (rewrite ?zlen_aset; lia). rewrite Z.eqb_sym.
    by destruct (x =? i).
  - rewrite aget_aset_ne, aget_aset by lia.
    replace (N s + j =? N s + x) with (x =? j) by lia. by destruct (x =? j).
Qed.

Lemma unset_mapping_wf s j : mpt_wf sbi s -> 0 <= j < SSD -> mpt_wf sbi (unset_mapping s j).
Proof.
  intros W Hj. destruct (ssd_lookup s j) as [i|] eqn:Hl; [|by rewrite unset_mapping_none].
  destruct (unset_lookups s j i W Hj Hl) as [Ln Ls].
  destruct (unset_mapping_some s j i W Hj Hl) as (Em & Esm & En & Ec & _).
  destruct (mw_ssd _ _ W _ _ Hj Hl) as [Hi Hl'].
  pose proof W as [HN HS HB HL Hnvm Hssd Hfl Hclr Hal Hfr Hcu].
  split; rewrite ?Em, ?Esm, ?En, ?Ec; mpt_simp; try done.
  - by rewrite !zlen_aset.
  - intros i' j' Hi'. rewrite Ln by done. destruct (Z.eqb_spec i' i) as [->|]; [done|].
    intros Hx. destruct (Hnvm _ _ Hi' Hx). rewrite Ls by done.
    destruct (Z.eqb_spec j' j) as [->|]; [congruence|done].
  - intros j' i' Hj'. rewrite Ls by done. destruct (Z.eqb_spec j' j) as [->|]; [done|].
    intros Hx. destruct (Hssd _ _ Hj' Hx). rewrite Ln by done.
    destruct (Z.eqb_spec i' i) as [->|]; [congruence|done].
  - intros i' j' Hi'. rewrite Ln by done. destruct (Z.eqb_spec i' i) as [->|]; [done|].
    intros Hx. destruct (Hnvm _ _ Hi' Hx). assert (j' <> j) by congruence.
    rewrite !aget_aset_ne by lia. by apply Hfl.
  - intros k Hk.
    rewrite aget_aset by (rewrite zlen_aset; lia). destruct (i =? k); [done|].
    rewrite aget_aset by lia. destruct (N s + j =? k); [done|]. by apply Hclr.
  - intros i' j' Hi'. rewrite Ln by done. rewrite test_clear_bit.
    destruct (Z.eqb_spec i' i) as [->|]; [done|]. intros Hx.
    rewrite (Hal _ _ Hi' Hx). destruct (Z.eqb_spec i i'); [lia|done].
  - rewrite zero_bits_clear; [lia|lia|by eapply Hal].
Qed.

(** *** set_double *)
Lemma set_double_none s j :
  mpt_wf sbi s -> 0 <= j < SSD -> ssd_lookup s j = None -> set_double s j = s.
Proof.
  intros W Hj Hl. unfold set_double. destruct (mapped_index s j W Hj) as [-> ?].
  unfold ssd_lookup in Hl. rewrite map_flag_lookup in Hl by lia.
  by destruct (nz (get_map_flag s (N s + j))).
Qed.
Lemma set_double_some s j i :
  mpt_wf sbi s -> 0 <= j < SSD -> ssd_lookup s j = Some i ->
  mpt (set_double s j) = (mpt s).[N s + j <- Z.lor (mpt s).[N s + j] 4].[i <- Z.lor (mpt s).[i] 4] /\
  segment_map (set_double s j) = segment_map s /\ nsb (set_double s j) = nsb s /\
  cur_alloc_nvm_segoff (set_double s j) = cur_alloc_nvm_segoff s.
Proof.
  intros W Hj Hl. destruct (mw_ssd _ _ W _ _ Hj Hl) as [Hi _].
  unfold set_double. destruct (mapped_index s j W Hj) as [-> ?].
  unfold ssd_lookup in Hl. rewrite map_flag_lookup in Hl by lia.
  destruct (nz (get_map_flag s (N s + j))); [|done]. injection Hl as ->.
  pose proof W as []. unfold set_double_flag. mpt_simp. width.
  rewrite aget_aset_ne by lia. done.
Qed.

Lemma set_double_lookup s j k :
  mpt_wf sbi s -> 0 <= j < SSD ->
  entry_lookup (mpt (set_double s j)).[k] = entry_lookup (mpt s).[k].
Proof.
  intros W Hj. destruct (ssd_lookup s j) as [i|] eqn:Hl; [|by rewrite set_double_none].
  destruct (set_double_some s j i W Hj Hl) as (-> & _).
  destruct (mw_ssd _ _ W _ _ Hj Hl) as [Hi _]. pose proof W as [].
  rewrite aget_aset by (rewrite zlen_aset; lia).
  destruct (Z.eqb_spec i k) as [->|]; [apply lor_double_lookup|].
  rewrite aget_aset by lia.
  destruct (Z.eqb_spec (N s + j) k) as [<-|]; [apply lor_double_lookup|done].
Qed.

Lemma set_double_wf s j : mpt_wf sbi s -> 0 <= j < SSD -> mpt_wf sbi (set_double s j).
Proof.
  intros W Hj. destruct (ssd_lookup s j) as [i|] eqn:Hl; [|by rewrite set_double_none].
  destruct (set_double_some s j i W Hj Hl) as (Em & Esm & En & Ec).
  pose proof (fun k => set_double_lookup s j k W Hj) as Lk.
  destruct (mw_ssd _ _ W _ _ Hj Hl) as [Hi Hl'].
  pose proof W as [HN HS HB HL Hnvm Hssd Hfl Hclr Hal Hfr Hcu].
  split; unfold nvm_lookup, ssd_lookup; rewrite ?En, ?Esm, ?Ec; try done.
  - by rewrite Em, !zlen_aset.
  - intros i' j'. rewrite !Lk. apply Hnvm.
  - intros j' i'. rewrite !Lk. apply Hssd.
  - intros i' j' Hi'. rewrite Lk. intros Hx. destruct (Hnvm _ _ Hi' Hx) as [? Hy].
    rewrite Em. destruct (Z.eq_dec i' i) as [->|].
    + assert (j' = j) as -> by (unfold nvm_lookup in *; congruence).
      rewrite aget_aset_eq by (rewrite zlen_aset; lia).
      rewrite aget_aset_ne, aget_aset_eq by lia. rewrite !lor_double_flags.
      f_equal. by apply Hfl.
    + assert (j' <> j) by (intros ->; unfold ssd_lookup in *; congruence).
      rewrite !aget_aset_ne by lia. by apply Hfl.
  - intros k Hk. rewrite Lk. intros Hx.
    rewrite Em. unfold nvm_lookup, ssd_lookup in *.
    rewrite aget_aset_ne by (intros E; rewrite <- E in Hx; congruence).
    rewrite aget_aset_ne by (intros E; rewrite <- E in Hx; congruence). by apply Hclr.
  - intros i' j' Hi'. rewrite Lk. by apply Hal.
Qed.
End op_specs.

(** ** Allocation *)

Section alloc_specs.
Context `{F2fsFormat} `{BitSearchOk}.
Context (sbi : f2fs_sb_info).
#[local] Abbreviation N s := (main_segment_nums (nsb s)).
#[local] Abbreviation SSD := (segment_count_main sbi).

(** The state with NVM segment [i] taken. *)
Definition allocated (s : nvm_sb_info) (i : Z) : nvm_sb_info :=
  s <| segment_map ::= set_bit i |>
    <| nsb ::= fun b => b <| main_segment_free_nums ::= fun n => u32 (n - 1) |> |>
    <| nvm_flag ::= Z.lor NVM_NSB_DIRTY |>
    <| cur_alloc_nvm_segoff := u32 (i + 1) |>.

Lemma find_free_segoff_ok s off :
  mpt_wf sbi s -> 0 < main_segment_free_nums (nsb s) -> 0 <= off <= N s ->
  exists i, find_free_segoff 2 s off = Done i /\ 0 <= i < N s /\
            test_bit i (segment_map s) = false.
Proof.
  intros W Hpos Hoff. rewrite (mw_free _ _ W) in Hpos.
  pose proof (mw_nvm_nonneg _ _ W).
  apply zero_bits_pos in Hpos as (z & Hz & Hzf). rewrite Z2Nat.id in Hz by lia.
  simpl find_free_segoff.
  destruct (find_next_zero_bit_spec (segment_map s) (N s) off)
    as [[-> _]|(Hr & Hb & _)]; [lia|lia| |].
  - rewrite Z.leb_refl.
    destruct (Z.ltb_spec 0 (main_segment_free_nums (nsb s))) as [_|Hf].
    2: { rewrite (mw_free _ _ W) in Hf.
         pose proof (zero_bits_set (segment_map s) (Z.to_nat (N s)) z ltac:(lia) Hzf).
         pose proof (zero_bits_range (set_bit z (segment_map s)) (Z.to_nat (N s))). lia. }
    destruct (find_next_zero_bit_spec (segment_map s) (N s) 0)
      as [[_ Hall]|(Hr & Hb & _)]; [lia|lia| |].
    + rewrite (Hall z) in Hzf by lia. done.
    + exists (find_next_zero_bit (segment_map s) (N s) 0).
      replace (N s <=? _) with false by lia. split_and!; done || lia.
  - exists (find_next_zero_bit (segment_map s) (N s) off).
    replace (N s <=? _) with false by lia. split_and!; done || lia.
Qed.

Lemma unallocated_unmapped s i :
  mpt_wf sbi s -> 0 <= i < N s -> test_bit i (segment_map s) = false -> nvm_lookup s i = None.
Proof.
  intros W Hi Hb. destruct (nvm_lookup s i) as [j|] eqn:E; [|done].
  by rewrite (mw_alloc _ _ W i j Hi E) in Hb.
Qed.

Lemma allocated_wf s i :
  mpt_wf sbi s -> 0 <= i < N s -> test_bit i (segment_map s) = false ->
  mpt_wf sbi (allocated s i).
Proof.
  intros W Hi Hb. pose proof (mpt_wf_free_range _ _ W).
  pose proof W as [HN HS HB HL Hnvm Hssd Hfl Hclr Hal Hfr Hcu].
  unfold allocated. split; unfold nvm_lookup, ssd_lookup; unfold upd; cbn; try done.
  - intros i' j' Hi' Hx. rewrite test_set_bit, (Hal _ _ Hi' Hx) by lia. apply orb_true_r.
  - rewrite Hfr, zero_bits_set by (try done; lia).
    pose proof (zero_bits_set (segment_map s) (Z.to_nat (N s)) i ltac:(lia) Hb).
    pose proof (zero_bits_range (set_bit i (segment_map s)) (Z.to_nat (N s))).
    pose proof (zero_bits_range (segment_map s) (Z.to_nat (N s))). by width.
  - width. lia.
Qed.

Lemma nvm_allocate_none s j b :
  main_segment_free_nums (nsb s) = 0 ->
  nvm_allocate_segment s j b = Done (- ENVMNOSPACE, s).
Proof. intros E. unfold nvm_allocate_segment. by rewrite E. Qed.

Lemma nvm_allocate_some s j b :
  mpt_wf sbi s -> 0 < main_segment_free_nums (nsb s) ->
  exists i, 0 <= i < N s /\ test_bit i (segment_map s) = false /\
    nvm_allocate_segment s j b
    = Done (i, if b then create_mapping (allocated s i) j i 3 else allocated s i).
Proof.
  intros W Hpos. pose proof (mpt_wf_free_range _ _ W). pose proof (mw_cur _ _ W).
  pose proof (mw_bound _ _ W). pose proof (mw_ssd_nonneg _ _ W).
  destruct (find_free_segoff_ok s (cur_alloc_nvm_segoff s)) as (i & Ef & Hi & Hb); [done..|].
  exists i. split_and!; [lia|lia|done|]. unfold nvm_allocate_segment.
  replace (main_segment_free_nums (nsb s) =? 0) with false by lia.
  replace (N s <? main_segment_free_nums (nsb s)) with false by lia.
  rewrite Ef. cbn [obind]. rewrite Hb. cbn [negb]. rewrite s32_id by lia.
  by destruct b.
Qed.
End alloc_specs.

(** ** First mount: layout of the NVM device ([f2fs_fill_super]) *)

Section layout.
Context `{F2fsFormat}.
Definition MAIN_OFFSET : Z := 2.
Definition RA_PRECENTAGE : Z := 25.

(** [nsize]: capacity of the block NVM in sectors; [blockcount], like
    [segmentsize], is an unsigned int of the mount code. *)
Definition init_nsb (sbi : f2fs_sb_info) (raw_uuid : list Z) (nsize : Z) : nvm_super_block :=
  let mpt_blk := main_blkaddr sbi in
  let blockcount := u32 (SECTOR_TO_BLOCK nsize) in
  let segmentsize := blocks_per_seg sbi in
  let main_blk := u32 (mpt_blk + u32 (MAIN_OFFSET * segmentsize)) in
  let segs := u32 (blockcount - main_blk) / segmentsize in
  let entries := u32 (segs + segment_count_main sbi) in
  {| uuid := raw_uuid; mpt_blkaddr := mpt_blk; nsb_main_blkaddr := main_blk;
     ra_blkaddr := main_blk; ra_blk_nums := 0;
     main_first_segno :=
       u32 (u32 (main_blkaddr sbi - seg0_blkaddr sbi) / segmentsize + MAIN_OFFSET);
     main_segment_nums := segs; main_segment_free_nums := segs;
     mpt_entries := entries;
     lfu_blkaddr0 := 2; lfu_blkaddr1 := u32 (2 + u32 (segmentsize - 2) / 2);
     mpt_ver_map_bits := u32 (u64 (u64 (entries * 4) - 1) / F2FS_BLKSIZE + 1) |}.

(** The byte-addressable device sets a record area apart first. *)
Definition init_byte_nsb (sbi : f2fs_sb_info) (raw_uuid : list Z) (nsize : Z) : nvm_super_block :=
  let mpt_blk := main_blkaddr sbi in
  let blockcount := u32 (SECTOR_TO_BLOCK nsize) in
  let segmentsize := blocks_per_seg sbi in
  let ra_blk := u32 (mpt_blk + u32 (MAIN_OFFSET * segmentsize)) in
  let ra_nums := u32 (blockcount * RA_PRECENTAGE) / 100 in
  let main_blk := u32 (ra_blk + ra_nums) in
  let segs := u32 (blockcount - main_blk) / segmentsize in
  let entries := u32 (segs + segment_count_main sbi) in
  {| uuid := raw_uuid; mpt_blkaddr := mpt_blk; nsb_main_blkaddr := main_blk;
     ra_blkaddr := ra_blk; ra_blk_nums := ra_nums;
     main_first_segno :=
       u32 (u32 (main_blkaddr sbi - seg0_blkaddr sbi) / segmentsize + MAIN_OFFSET);
     main_segment_nums := segs; main_segment_free_nums := segs;
     mpt_entries := entries;
     lfu_blkaddr0 := 2; lfu_blkaddr1 := u32 (2 + u32 (segmentsize - 2) / 2);
     mpt_ver_map_bits := u32 (u64 (u64 (entries * 4) - 1) / F2FS_BLKSIZE + 1) |}.
End layout.

(** ** init_nvm_sb_info: the in-memory state built from a superblock *)

Section init.
Context `{F2fsFormat}.
Definition LFU_LEVELS : Z := 4.
Definition NVM_TO_SSD : Z := 50.
Definition SSD_TO_NVM : Z := 20.

(** bytes rounded up to whole pages (size_t arithmetic), in 4-byte items *)
Definition page_items (items : Z) : Z :=
  u64 ((u64 (u64 (items * 4) - 1) / F2FS_BLKSIZE + 1) * F2FS_BLKSIZE) / 4.

(** One LFU level: -1 for each main segment, 0 for the total and padding. *)
Definition init_lfu_level (sbi : f2fs_sb_info) : list Z :=
  replicate (Z.to_nat (segment_count_main sbi)) (-1) ++
  replicate (Z.to_nat (page_items (segment_count_main sbi + 1) - segment_count_main sbi)) 0.

Definition init_nvm_sb_info (sbi : f2fs_sb_info) (flag : Z) (b : nvm_super_block) : nvm_sb_info :=
  {| nsb := b; nvm_flag := flag;
     mpt := replicate (Z.to_nat (page_items (mpt_entries b))) 0;
     mpt_dirty_map := 0; mpt_dirty_map_bits := mpt_ver_map_bits b;
     mpt_ver_map := replicate (Z.to_nat ((mpt_ver_map_bits b + 63) / 64 * 8)) 0;
     segment_map := 0; ckpt_segment_map := 0;
     cur_alloc_nvm_segoff := 0; now_lfu_counter := 0;
     lfu_count := replicate (Z.to_nat LFU_LEVELS) (init_lfu_level sbi);
     mh := init_max_heap NVM_TO_SSD; minh := init_min_heap SSD_TO_NVM |}.

Lemma page_items_ge items :
  F2fsFormatOk -> 0 < items < 268435456 -> items <= page_items items.
Proof.
  intros [[Hb1 Hb2] Hb3 _] Hi. unfold page_items. set (B := F2FS_BLKSIZE) in *. rewrite !(u64_id (items * 4)) by lia.
  rewrite (u64_id (items * 4 - 1)) by lia.
  set (q := (items * 4 - 1) / B).
  assert (0 <= q <= items * 4 - 1) as Hq by (subst q; split; [apply Z.div_pos|apply Z.div_le_upper_bound]; nia).
  assert (items * 4 - 1 < (q + 1) * B) as Hq2.
  { subst q. pose proof (Z.mod_pos_bound (items * 4 - 1) B ltac:(lia)).
    pose proof (Z.div_mod (items * 4 - 1) B ltac:(lia)). nia. }
  rewrite u64_id by nia. apply Z.div_le_lower_bound; lia.
Qed.

(** A freshly mounted NVM device satisfies the invariant. *)
Lemma init_mpt_wf sbi flag b :
  F2fsFormatOk -> 0 <= segment_count_main sbi -> 0 <= main_segment_nums b ->
  mpt_entries b = main_segment_nums b + segment_count_main sbi ->
  0 < mpt_entries b < 268435456 -> main_segment_free_nums b = main_segment_nums b ->
  mpt_wf sbi (init_nvm_sb_info sbi flag b).
Proof.
  intros F HS HN He Hr Hf. pose proof (page_items_ge (mpt_entries b) F Hr).
  assert (forall k, 0 <= k < main_segment_nums b + segment_count_main sbi ->
            (replicate (Z.to_nat (page_items (mpt_entries b))) 0).[k] = 0) as Hz.
  { intros k Hk. apply aget_replicate. lia. }
  unfold init_nvm_sb_info.
  split; unfold nvm_lookup, ssd_lookup; cbn; try lia.
  - rewrite zlen_replicate. lia.
  - intros i j Hi. by rewrite Hz by lia.
  - intros j i Hj. by rewrite Hz by lia.
  - intros i j Hi. by rewrite Hz by lia.
  - intros k Hk _. by apply Hz.
  - intros i j Hi. by rewrite Hz by lia.
  - rewrite zero_bits_empty. lia.
Qed.
End init.
