(* ===== verification/FreeMap.v ===== *)
(** * SSD free-segment maps ([segment.h]) and the life cycle of mappings

    [__set_inuse], [__set_test_and_inuse], [__set_free] and
    [__set_test_and_free] keep the free-segment and free-section bitmaps of
    the SSD; the last one also drops the NVM mapping of the freed segment. *)
From S2P Require Import Prelude Geometry Heap Mpt.
Open Scope Z_scope.

Record free_segmap_info := mk_free {
  free_segments : Z;
  free_sections : Z;
  free_segmap : Z;
  free_secmap : Z;
}.
#[export] Instance eta_free : Eta free_segmap_info := fun f =>
  mk_free (free_segments f) (free_sections f) (free_segmap f) (free_secmap f).

(** The mutable state shared by the allocator, the checkpoint and the data
    mover. *)
Record hoit := mk_hoit {
  nsbi : nvm_sb_info;
  free_i : free_segmap_info;
}.
#[export] Instance eta_hoit : Eta hoit := fun h => mk_hoit (nsbi h) (free_i h).

(** atomic_set of the current LFU level *)
Definition set_lfu (s : nvm_sb_info) (segno v : Z) : nvm_sb_info :=
  s <| lfu_count ::= fun l =>
         l.[now_lfu_counter s <- l.[now_lfu_counter s].[segno <- v]] |>.

Section ops.
Context `{F2fsFormat} `{BitSearch}.
Context (sbi : f2fs_sb_info).

Definition find_next_inuse (f : free_segmap_info) (max segno : Z) : Z :=
  find_next_bit (free_segmap f) max segno.

(** The segment's section has no segment in use any more. *)
Definition section_empty (f : free_segmap_info) (segno : Z) : bool :=
  let secno := GET_SEC_FROM_SEG sbi segno in
  let start := GET_SEG_FROM_SEC sbi secno in
  let next := find_next_bit (free_segmap f) (u32 (start + segs_per_sec sbi)) start in
  u32 (start + segs_per_sec sbi) <=? next.

Definition __set_free (f : free_segmap_info) (segno : Z) : free_segmap_info :=
  let secno := GET_SEC_FROM_SEG sbi segno in
  let f := f <| free_segmap ::= clear_bit segno |>
             <| free_segments ::= fun n => u32 (n + 1) |> in
  if section_empty f segno
  then f <| free_secmap ::= clear_bit secno |> <| free_sections ::= fun n => u32 (n + 1) |>
  else f.

(** set the segment's bit, and its section's bit if it was clear *)
Definition mark_inuse (f : free_segmap_info) (segno : Z) : free_segmap_info :=
  let secno := GET_SEC_FROM_SEG sbi segno in
  let f := f <| free_segmap ::= set_bit segno |>
             <| free_segments ::= fun n => u32 (n - 1) |> in
  if test_bit secno (free_secmap f) then f
  else f <| free_secmap ::= set_bit secno |> <| free_sections ::= fun n => u32 (n - 1) |>.

Definition __set_inuse (h : hoit) (segno : Z) : hoit :=
  h <| free_i ::= fun f => mark_inuse f segno |>
    <| nsbi ::= fun s => set_lfu s segno 0 |>.

Definition __set_test_and_inuse (f : free_segmap_info) (segno : Z) : free_segmap_info :=
  if test_bit segno (free_segmap f) then f else mark_inuse f segno.

Definition __set_test_and_free (h : hoit) (segno : Z) : outcome hoit :=
  let f := free_i h in
  let secno := GET_SEC_FROM_SEG sbi segno in
  let f :=
    if test_bit segno (free_segmap f) then
      let f := f <| free_segmap ::= clear_bit segno |>
                 <| free_segments ::= fun n => u32 (n + 1) |> in
      if section_empty f segno && test_bit secno (free_secmap f)
      then f <| free_secmap ::= clear_bit secno |>
             <| free_sections ::= fun n => u32 (n + 1) |>
      else f
    else f in
  let h := h <| free_i := f |> in
  let index := u32 (main_segment_nums (nsb (nsbi h)) + segno) in
  if nz (get_map_flag (nsbi h) index) then
    let s := set_lfu (unset_mapping (nsbi h) segno) segno (-1) in
    if get_map_flag s index =? 0 then Done (h <| nsbi := s |>) else Bug
  else Done h.
End ops.

(** ** Invariant of the free maps *)

Record free_wf (sbi : f2fs_sb_info) (f : free_segmap_info) : Prop := {
  fw_secs : exists secs, 0 <= secs /\ segment_count_main sbi = secs * segs_per_sec sbi /\
    free_sections f = zero_bits (free_secmap f) (Z.to_nat secs);
  fw_segs : free_segments f = zero_bits (free_segmap f) (Z.to_nat (segment_count_main sbi));
  fw_bound : segment_count_main sbi < 268435456;
  fw_sps : 0 < segs_per_sec sbi;
  (* a section is in use when one of its segments is *)
  fw_sec j : 0 <= j < segment_count_main sbi -> test_bit j (free_segmap f) = true ->
    test_bit (j / segs_per_sec sbi) (free_secmap f) = true;
  fw_sec_inv c : 0 <= c * segs_per_sec sbi < segment_count_main sbi ->
    test_bit c (free_secmap f) = true ->
    exists j, 0 <= j < segment_count_main sbi /\ j / segs_per_sec sbi = c /\
              test_bit j (free_segmap f) = true;
}.

Section free_specs.
Context `{F2fsFormat} `{BitSearchOk}.
Context (sbi : f2fs_sb_info).
#[local] Abbreviation MS := (segment_count_main sbi).
#[local] Abbreviation sps := (segs_per_sec sbi).

Lemma section_range j secs :
  0 < sps -> MS = secs * sps -> 0 <= j < MS -> 0 <= j / sps < secs.
Proof.
  intros Hp He Hj. split; [apply Z.div_pos; lia|]. apply Z.div_lt_upper_bound; [done|]. nia.
Qed.

Lemma mark_inuse_wf f j :
  free_wf sbi f -> 0 <= j < MS -> test_bit j (free_segmap f) = false ->
  free_wf sbi (mark_inuse sbi f j) /\
  (forall k, test_bit k (free_segmap (mark_inuse sbi f j)) = (j =? k) || test_bit k (free_segmap f)).
Proof.
  intros [(secs & Hs0 & Hs1 & Hs2) Hseg Hb Hsp Hsec Hinv] Hj Hf.
  pose proof (section_range j secs Hsp Hs1 Hj) as Hc.
  pose proof (zero_bits_set (free_segmap f) (Z.to_nat MS) j ltac:(lia) Hf) as Ez.
  pose proof (zero_bits_range (set_bit j (free_segmap f)) (Z.to_nat MS)).
  pose proof (zero_bits_range (free_segmap f) (Z.to_nat MS)).
  assert (secs <= MS) by nia.
  assert (forall k, test_bit k (free_segmap (mark_inuse sbi f j)) = (j =? k) || test_bit k (free_segmap f)) as Hm.
  { intros k. unfold mark_inuse. cbv zeta. cbn.
    destruct (test_bit _ (free_secmap f)); cbn; apply test_set_bit; lia. }
  split; [|done]. unfold mark_inuse, GET_SEC_FROM_SEG in *. cbn in *.
  destruct (test_bit (j / sps) (free_secmap f)) eqn:Esec; cbn in *.
  - split; cbn; try done.
    + by exists secs.
    + rewrite Hseg, Ez. width. lia.
    + intros k Hk. rewrite Hm. destruct (Z.eqb_spec j k) as [->|]; [done|]. by apply Hsec.
    + intros c Hc' Hcb. destruct (Hinv c Hc' Hcb) as (k & ? & ? & ?).
      exists k. rewrite Hm. split; [lia|]. split; [lia|]. apply orb_true_iff; by right.
  - pose proof (zero_bits_set (free_secmap f) (Z.to_nat secs) (j / sps) ltac:(lia) Esec) as Es.
    pose proof (zero_bits_range (set_bit (j / sps) (free_secmap f)) (Z.to_nat secs)).
    pose proof (zero_bits_range (free_secmap f) (Z.to_nat secs)).
    split; cbn; try done.
    + exists secs. split_and!; try done. rewrite Hs2, Es. width. lia.
    + rewrite Hseg, Ez. width. lia.
    + intros k Hk. rewrite Hm, test_set_bit by lia.
      destruct (Z.eqb_spec j k) as [->|]; [by rewrite Z.eqb_refl|].
      intros Hx. rewrite (Hsec k Hk Hx). apply orb_true_r.
    + intros c Hc'. rewrite test_set_bit by lia.
      destruct (Z.eqb_spec (j / sps) c) as [<-|].
      * intros _. exists j. rewrite Hm, Z.eqb_refl. split_and!; lia || done.
      * intros Hcb. destruct (Hinv c Hc' Hcb) as (k & ? & ? & ?).
        exists k. rewrite Hm. split; [lia|]. split; [lia|]. apply orb_true_iff; by right.
Qed.

(** What [section_empty] tests. *)
Lemma section_empty_spec f j secs :
  0 < sps -> MS = secs * sps -> MS < 268435456 -> 0 <= j < MS ->
  (section_empty sbi f j = true /\
   forall k, 0 <= k < MS -> k / sps = j / sps -> test_bit k (free_segmap f) = false) \/
  (section_empty sbi f j = false /\
   exists k, 0 <= k < MS /\ k / sps = j / sps /\ test_bit k (free_segmap f) = true).
Proof.
  intros Hp He Hb Hj. pose proof (section_range j secs Hp He Hj) as Hc.
  unfold section_empty, GET_SEG_FROM_SEC, GET_SEC_FROM_SEG. set (c := j / sps) in *.
  assert ((c + 1) * sps <= MS) by nia.
  rewrite (u32_id (c * sps)) by nia. rewrite u32_id by nia.
  destruct (find_next_bit_spec (free_segmap f) (c * sps + sps) (c * sps))
    as [[-> Hall]|(Hr & Hbit & _)]; [nia|nia|left|right].
  - split; [apply Z.leb_refl|]. intros k Hk Hkc. apply Hall.
    pose proof (Z.div_mod k sps ltac:(lia)). pose proof (Z.mod_pos_bound k sps Hp). nia.
  - set (r := find_next_bit _ _ _) in *. split; [lia|]. exists r. split_and!; [nia|nia| |done].
    symmetry. apply Z.div_unique_pos with (r - c * sps); nia.
Qed.
End free_specs.

Section free_specs2.
Context `{F2fsFormat} `{BitSearchOk}.
Context (sbi : f2fs_sb_info).
#[local] Abbreviation MS := (segment_count_main sbi).
#[local] Abbreviation sps := (segs_per_sec sbi).

Lemma set_free_wf f j :
  free_wf sbi f -> 0 <= j < MS -> test_bit j (free_segmap f) = true ->
  free_wf sbi (__set_free sbi f j) /\
  (forall k, test_bit k (free_segmap (__set_free sbi f j)) = negb (j =? k) && test_bit k (free_segmap f)).
Proof.
  intros [(secs & Hs0 & Hs1 & Hs2) Hseg Hb Hsp Hsec Hinv] Hj Hf.
  pose proof (section_range sbi j secs Hsp Hs1 Hj) as Hc.
  pose proof (zero_bits_clear (free_segmap f) (Z.to_nat MS) j ltac:(lia) Hf) as Ez.
  pose proof (zero_bits_range (clear_bit j (free_segmap f)) (Z.to_nat MS)).
  pose proof (zero_bits_range (free_segmap f) (Z.to_nat MS)).
  assert (secs <= MS) by nia.
  assert (forall k, test_bit k (free_segmap (__set_free sbi f j)) = negb (j =? k) && test_bit k (free_segmap f)) as Hm.
  { intros k. unfold __set_free. cbv zeta. destruct (section_empty _ _ _); cbn; apply test_clear_bit. }
  split; [|done]. revert Hm. unfold __set_free, GET_SEC_FROM_SEG. cbv zeta.
  set (f1 := f <| free_segmap ::= clear_bit j |> <| free_segments ::= fun n => u32 (n + 1) |>).
  destruct (section_empty_spec sbi f1 j secs Hsp Hs1 Hb Hj) as [[-> Hempty]|[-> Hex]];
    cbn in *; intros Hm.
  - pose proof (Hsec j Hj Hf) as Hsb.
    pose proof (zero_bits_clear (free_secmap f) (Z.to_nat secs) (j / sps) ltac:(lia) Hsb) as Es.
    pose proof (zero_bits_range (clear_bit (j / sps) (free_secmap f)) (Z.to_nat secs)).
    pose proof (zero_bits_range (free_secmap f) (Z.to_nat secs)).
    split; cbn; try done.
    + exists secs. split_and!; try done. rewrite Hs2, Es. width. lia.
    + rewrite Hseg, Ez. width. lia.
    + intros k Hk Hx. rewrite test_clear_bit.
      destruct (Z.eqb_spec (j / sps) (k / sps)) as [Ek|]; [by rewrite Hempty in Hx|].
      rewrite Hm in Hx. apply andb_true_iff in Hx as [_ Hx]. by rewrite (Hsec k Hk Hx).
    + intros c Hc'. rewrite test_clear_bit. intros [Hne Hcb]%andb_true_iff.
      destruct (Hinv c Hc' Hcb) as (k & ? & Ek & Hk).
      exists k. rewrite Hm, Hk. split; [lia|]. split; [lia|]. destruct (Z.eqb_spec j k); [|done].
      subst. by rewrite Z.eqb_refl in Hne.
  - split; cbn; try done.
    + by exists secs.
    + rewrite Hseg, Ez. width. lia.
    + intros k Hk Hx. rewrite Hm in Hx. apply andb_true_iff in Hx as [_ Hx]. by apply Hsec.
    + intros c Hc' Hcb. destruct (Hinv c Hc' Hcb) as (k & Hk & Ek & Hkb).
      destruct (decide (k = j)) as [->|].
      * destruct Hex as (k & ? & ? & ?). exists k. split_and!; lia || done.
      * exists k. rewrite Hm, Hkb. split; [lia|]. split; [lia|]. by destruct (Z.eqb_spec j k).
Qed.
End free_specs2.
