(* ===== verification/Machine.v ===== *)
(** * The life cycle of NVM mappings as a state machine

    The transitions are the places where the allocator ([segment.c]), the
    checkpoint and the cleaner ([segment.h], [gc.c]) and the data mover
    ([gc_nvm.c]) change the mapping state.  A step is what a thread does while it
    holds the lock that makes it atomic: opening a log and moving a segment are
    several steps each, between which the other threads run. *)
From S2P Require Import Prelude Geometry Heap Mpt FreeMap.
Open Scope Z_scope.

Section machine.
Context `{F2fsFormat} `{BitSearch}.
Context (sbi : f2fs_sb_info).

(** new_curseg: the free segment [segno] becomes a log head; [to_nvm] is the
    answer of nvm_alloc *)
Definition curseg_alloc (h : hoit) (segno : Z) (to_nvm : bool) : outcome hoit :=
  let h := __set_inuse sbi h segno in
  if to_nvm then
    r <-- nvm_allocate_segment (nsbi h) segno true ;;
    Done (h <| nsbi := snd r |>)
  else Done h.

(** do_garbage_collect, at the end of each victim segment *)
Definition gc_release (h : hoit) (segno : Z) : hoit :=
  h <| nsbi ::= fun s => set_lfu (unset_mapping s segno) segno (-1) |>.

(** do_cold_to_ssd, after the blocks are copied *)
Definition cold_done (h : hoit) (ssd_segoff : Z) (pre_move : bool) : hoit :=
  h <| nsbi ::= fun s => if pre_move then set_double s ssd_segoff
                         else unset_mapping s ssd_segoff |>.

(** hot_to_nvm: 1. reserve a segment, 3. publish the mapping *)
Definition hot_reserve (h : hoit) (ssd_segoff : Z) : outcome (Z * hoit) :=
  r <-- nvm_allocate_segment (nsbi h) ssd_segoff false ;;
  Done (fst r, h <| nsbi := snd r |>).
(** result: the state, and whether the loop goes on ([Some ret++]) or stops *)
Definition hot_commit (h : hoit) (ssd_segoff nvm_segoff : Z) : hoit * option Z :=
  if test_bit ssd_segoff (free_segmap (free_i h)) then
    if nz (get_map_flag (nsbi h) nvm_segoff) then
      (h <| nsbi ::= fun s => release_nvm_segment s nvm_segoff |>, None)
    else
      (h <| nsbi ::= fun s => create_mapping s ssd_segoff nvm_segoff
                                (Z.lor (Z.lor rw_map rw_redirect) rw_double) |>, Some 1)
  else (h <| nsbi ::= fun s => release_nvm_segment s nvm_segoff |>, Some 0).

(** The data mover (data_move_thread, one thread): the segments get_min_k proposed
    and that hot_to_nvm has not come to yet, and the segment it copies with the NVM
    segment reserved for it. *)
Record mover := mk_mover { todo : list Z; copying : option (Z * Z) }.
(** new_curseg, which the sentry lock makes one at a time: the segment that has been
    chosen, then the NVM segment allocated for it, before create_mapping publishes it *)
Inductive opening := Closed | Chosen (segno : Z) | Placed (segno nvm_segoff : Z).
Record machine := mk_machine { ma_hoit : hoit; ma_mover : mover; ma_open : opening }.

Definition opening_seg (o : opening) : option Z :=
  match o with Closed => None | Chosen j | Placed j _ => Some j end.
Definition mover_segs (v : mover) : list Z := from_option (fun p => [fst p]) [] (copying v) ++ todo v.
Definition in_main (j : Z) : Prop := 0 <= j < segment_count_main sbi.

(** What a thread does between taking and releasing the lock that makes it atomic. *)
Inductive event :=
| EvOpen (segno : Z)      (* new_curseg: get_new_segment takes a free segment *)
| EvStay                  (* nvm_alloc says no: the log stays on the SSD *)
| EvPlace                 (* nvm_allocate_segment reserves an NVM segment *)
| EvMap                   (* ... and create_mapping publishes it *)
| EvSsr (segno : Z)       (* __set_test_and_inuse *)
| EvPrefree (segno : Z)   (* __set_test_and_free of a prefree segment *)
| EvGc (segno : Z)        (* do_garbage_collect is done with a segment *)
| EvCold (segno : Z) (pre_move : bool) (* do_cold_to_ssd, after the copy *)
| EvPropose (l : list Z)  (* hot_to_nvm: get_min_k *)
| EvSkip                  (* hot_to_nvm: the section is in use *)
| EvReserve               (* hot_to_nvm: 1 *)
| EvCommit                (* hot_to_nvm: 3, after the copy *)
| EvCheckpoint.           (* nvm_set_ckpt_segment_map *)

(** Transitions.  The guards are those of the callers: get_new_segment chooses a free
    segment, get_min_k proposes distinct SSD segments without a mapping, a prefree
    segment is in use and so is not one that a log has just opened.  Nothing stops other
    threads between the steps of hot_to_nvm or of new_curseg. *)
Inductive step : machine -> event -> machine -> Prop :=
| step_open h v j :
    in_main j -> test_bit j (free_segmap (free_i h)) = false ->
    step (mk_machine h v Closed) (EvOpen j) (mk_machine (__set_inuse sbi h j) v (Chosen j))
| step_stay h v j : step (mk_machine h v (Chosen j)) EvStay (mk_machine h v Closed)
| step_place h v j i h' :
    hot_reserve h j = Done (i, h') ->
    step (mk_machine h v (Chosen j)) EvPlace
         (mk_machine h' v (if i =? - ENVMNOSPACE then Closed else Placed j i))
| step_map h v j i :
    step (mk_machine h v (Placed j i)) EvMap
         (mk_machine (h <| nsbi ::= fun s => create_mapping s j i (Z.lor rw_map rw_redirect) |>) v Closed)
| step_ssr h v o j :
    in_main j ->
    step (mk_machine h v o) (EvSsr j) (mk_machine (h <| free_i ::= fun f => __set_test_and_inuse sbi f j |>) v o)
| step_prefree h v o j h' :
    in_main j -> opening_seg o <> Some j -> __set_test_and_free sbi h j = Done h' ->
    step (mk_machine h v o) (EvPrefree j) (mk_machine h' v o)
| step_gc h v o j : in_main j -> step (mk_machine h v o) (EvGc j) (mk_machine (gc_release h j) v o)
| step_cold h v o j pre_move :
    in_main j -> step (mk_machine h v o) (EvCold j pre_move) (mk_machine (cold_done h j pre_move) v o)
| step_propose h v o l :
    copying v = None -> NoDup l -> Forall (fun j => in_main j /\ ssd_lookup (nsbi h) j = None) l ->
    step (mk_machine h v o) (EvPropose l) (mk_machine h (mk_mover l None) o)
| step_skip h o j l :
    step (mk_machine h (mk_mover (j :: l) None) o) EvSkip (mk_machine h (mk_mover l None) o)
| step_reserve h o j l i h' :
    hot_reserve h j = Done (i, h') ->
    step (mk_machine h (mk_mover (j :: l) None) o) EvReserve
         (mk_machine h' (if i =? - ENVMNOSPACE then mk_mover [] None else mk_mover l (Some (j, i))) o)
| step_commit h o j i l :
    step (mk_machine h (mk_mover l (Some (j, i))) o) EvCommit
         (mk_machine (fst (hot_commit h j i)) (mk_mover (if snd (hot_commit h j i) is Some _ then l else []) None) o)
| step_checkpoint h v o :
    step (mk_machine h v o) EvCheckpoint (mk_machine (h <| nsbi ::= nvm_set_ckpt_segment_map |>) v o).

(** A run, with the events and the states they happened in *)
Inductive run : machine -> list (machine * event) -> machine -> Prop :=
| run_nil x : run x [] x
| run_cons x e y tr z : step x e y -> run y tr z -> run x ((x, e) :: tr) z.

(** The race between the mover and the logs: a mapping is published for a segment that
    both have on their hands.  [hot_commit_race] is such a run. *)
Definition races (x : machine) (e : event) : Prop :=
  exists j, opening_seg (ma_open x) = Some j /\
    match e with
    | EvMap => j ∈ mover_segs (ma_mover x)
    | EvCommit => exists i, copying (ma_mover x) = Some (j, i)
    | _ => False
    end.

(** The invariant: the mapping table is well formed, the free maps too, a
    mapped SSD segment is in use, and no NVM segment is leaked. *)
Record hoit_wf (h : hoit) : Prop := {
  hf_mpt : mpt_wf sbi (nsbi h);
  hf_free : free_wf sbi (free_i h);
  hf_inuse j : in_main j -> ssd_lookup (nsbi h) j <> None ->
    test_bit j (free_segmap (free_i h)) = true;
  hf_noleak i : 0 <= i < main_segment_nums (nsb (nsbi h)) ->
    test_bit i (segment_map (nsbi h)) = true -> nvm_lookup (nsbi h) i <> None;
}.

(** The same while threads hold the reserved NVM segments [held], which are allocated
    and not mapped yet *)
Record held_wf (held : list Z) (h : hoit) : Prop := {
  hh_mpt : mpt_wf sbi (nsbi h);
  hh_free : free_wf sbi (free_i h);
  hh_inuse j : in_main j -> ssd_lookup (nsbi h) j <> None ->
    test_bit j (free_segmap (free_i h)) = true;
  hh_nodup : NoDup held;
  hh_held i : i ∈ held -> 0 <= i < main_segment_nums (nsb (nsbi h)) /\
    test_bit i (segment_map (nsbi h)) = true /\ nvm_lookup (nsbi h) i = None;
  hh_noleak i : 0 <= i < main_segment_nums (nsb (nsbi h)) -> (i ∉ held) ->
    test_bit i (segment_map (nsbi h)) = true -> nvm_lookup (nsbi h) i <> None;
}.
Definition mover_held (v : mover) : list Z := from_option (fun p => [snd p]) [] (copying v).
Definition opening_held (o : opening) : list Z := match o with Placed _ i => [i] | _ => [] end.

(** The state of all threads: what the mover and the opening log have on their hands is
    unmapped, and what they have reserved is theirs. *)
Record machine_wf (x : machine) : Prop := {
  mm_held : held_wf (opening_held (ma_open x) ++ mover_held (ma_mover x)) (ma_hoit x);
  mm_mover : NoDup (mover_segs (ma_mover x));
  mm_unmapped j : j ∈ mover_segs (ma_mover x) -> in_main j /\ ssd_lookup (nsbi (ma_hoit x)) j = None;
  mm_open j : opening_seg (ma_open x) = Some j -> in_main j /\ ssd_lookup (nsbi (ma_hoit x)) j = None /\
    test_bit j (free_segmap (free_i (ma_hoit x))) = true;
}.
(** Nobody is in the middle of anything. *)
Definition idle (h : hoit) : machine := mk_machine h (mk_mover [] None) Closed.
End machine.

(** Fields the mapping invariant does not read. *)
Lemma mpt_wf_ext sbi s s' :
  mpt s' = mpt s -> nsb s' = nsb s -> segment_map s' = segment_map s ->
  cur_alloc_nvm_segoff s' = cur_alloc_nvm_segoff s -> mpt_wf sbi s -> mpt_wf sbi s'.
Proof.
  intros E1 E2 E3 E4 []. split; unfold nvm_lookup, ssd_lookup in *;
    rewrite ?E1, ?E2, ?E3, ?E4; done.
Qed.

Lemma set_lfu_wf sbi s j v : mpt_wf sbi s -> mpt_wf sbi (set_lfu s j v).
Proof. by apply mpt_wf_ext. Qed.

Section held.
Context `{F2fsFormat} `{BitSearchOk}.
Context (sbi : f2fs_sb_info).

#[export] Instance held_wf_perm : Proper ((≡ₚ) ==> (=) ==> iff) (held_wf sbi).
Proof.
  assert (forall l l' h, l ≡ₚ l' -> held_wf sbi l h -> held_wf sbi l' h) as X.
  { intros l l' h Hp [W F Hu Hd Hh Hn]. split; try done.
    - by rewrite <- Hp.
    - intros i. rewrite <- Hp. apply Hh.
    - intros i Hi. rewrite <- Hp. by apply Hn. }
  intros l l' Hp h ? <-. split; by apply X.
Qed.
Lemma hoit_held h : hoit_wf sbi h <-> held_wf sbi [] h.
Proof.
  split.
  - intros [W F Hu Hn]. split; try done; [constructor|by intros i ?%elem_of_nil|]. intros i Hi _. by apply Hn.
  - intros [W F Hu _ _ Hn]. split; try done. intros i Hi. apply Hn; [done|]. apply not_elem_of_nil.
Qed.

(** The tail of __set_test_and_free never fires its assertion: it is
    __set_free on a segment in use followed by gc_release. *)
Lemma set_test_and_free_eq l h j :
  held_wf sbi l h -> in_main sbi j ->
  __set_test_and_free sbi h j =
  Done (let h := if test_bit j (free_segmap (free_i h))
                 then h <| free_i ::= fun f => __set_free sbi f j |> else h in
        match ssd_lookup (nsbi h) j with
        | Some _ => gc_release h j
        | None => h
        end).
Proof.
  intros [W [(secs & Hs0 & Hs1 & _) _ Hb Hsp Hsec _] Huse _ _] Hj.
  unfold in_main in Hj. unfold __set_test_and_free. cbv zeta.
  destruct (mapped_index sbi (nsbi h) j W Hj) as [_ ?].
  pose proof W as [HN HS HB HL _ _ _ _ _ _ _].
  change (nsbi (h <| free_i := _ |>)) with (nsbi h).
  rewrite (u32_id (main_segment_nums _ + j)) by lia.
  set (k := main_segment_nums (nsb (nsbi h)) + j) in *.
  assert (h <| free_i :=
     (if test_bit j (free_segmap (free_i h)) then
        if section_empty sbi (((free_i h) <| free_segmap ::= clear_bit j |>)
              <| free_segments ::= fun n => u32 (n + 1) |>) j
           && test_bit (GET_SEC_FROM_SEG sbi j) (free_secmap (((free_i h)
              <| free_segmap ::= clear_bit j |>) <| free_segments ::= fun n => u32 (n + 1) |>))
        then ((((free_i h) <| free_segmap ::= clear_bit j |>)
              <| free_segments ::= fun n => u32 (n + 1) |>)
              <| free_secmap ::= clear_bit (GET_SEC_FROM_SEG sbi j) |>)
              <| free_sections ::= fun n => u32 (n + 1) |>
        else ((free_i h) <| free_segmap ::= clear_bit j |>)
              <| free_segments ::= fun n => u32 (n + 1) |>
      else free_i h) |>
    = if test_bit j (free_segmap (free_i h))
      then h <| free_i ::= fun f => __set_free sbi f j |> else h) as ->.
  { destruct (test_bit j (free_segmap (free_i h))) eqn:Ej; [|by destruct h].
    unfold __set_free. cbv zeta. cbn [free_secmap upd].
    pose proof (Hsec j Hj Ej) as Hsb. unfold GET_SEC_FROM_SEG. cbn -[section_empty].
    rewrite Hsb, andb_true_r. reflexivity. }
  set (h1 := if test_bit j (free_segmap (free_i h)) then _ else h).
  assert (nsbi h1 = nsbi h) as En by (subst h1; by destruct (test_bit _ _)).
  clearbody h1. rewrite En. unfold ssd_lookup. fold k.
  rewrite map_flag_lookup by lia.
  destruct (nz (get_map_flag (nsbi h) k)) eqn:Ef; [|done].
  assert (ssd_lookup (nsbi h) j = Some (get_mpt_value (nsbi h) k)) as Hl.
  { unfold ssd_lookup. fold k. by rewrite map_flag_lookup, Ef by lia. }
  destruct (mw_ssd _ _ W _ _ Hj Hl) as [Hi _].
  destruct (unset_mapping_some sbi _ _ _ W Hj Hl) as (Em & _).
  replace (get_map_flag _ k =? 0) with true.
  - unfold gc_release. by rewrite <- En.
  - unfold get_map_flag, set_lfu. mpt_simp. cbn [mpt]. rewrite Em. width. fold k.
    rewrite aget_aset_ne, aget_aset_eq by lia. done.
Qed.

(** What the threads do to a state in which others hold NVM segments *)
Lemma held_lfu l h j v : held_wf sbi l h -> held_wf sbi l (h <| nsbi ::= fun s => set_lfu s j v |>).
Proof. intros [W F Hu Hd Hh Hn]. split; cbn; try done. by apply set_lfu_wf. Qed.

Lemma held_unset l h j : held_wf sbi l h -> in_main sbi j ->
  held_wf sbi l (h <| nsbi ::= fun s => unset_mapping s j |>).
Proof.
  intros [W F Hu Hd Hh Hn] Hj. destruct (ssd_lookup (nsbi h) j) as [i|] eqn:Hl.
  - destruct (unset_lookups sbi _ _ _ W Hj Hl) as [Ln Ls].
    destruct (unset_mapping_some sbi _ _ _ W Hj Hl) as (_ & Esm & En & _).
    destruct (mw_ssd _ _ W _ _ Hj Hl) as [Hi Hl'].
    split; cbn -[unset_mapping]; rewrite ?En; cbn -[unset_mapping]; [by apply unset_mapping_wf|done| |done|..].
    + intros j' Hj'. rewrite Ls by done. destruct (j' =? j); [done|]. by apply Hu.
    + intros i' Hin. destruct (Hh i' Hin) as (Hr & Ha & Hm). rewrite Esm, test_clear_bit, Ln by done.
      destruct (Z.eqb_spec i i') as [->|]; [by rewrite Hl' in Hm|]. split; [done|]. split; [done|]. by destruct (i' =? i).
    + intros i' Hi' Hin. rewrite Esm, test_clear_bit, Ln by done.
      destruct (Z.eqb_spec i i'); [done|]. destruct (Z.eqb_spec i' i); [lia|]. by apply Hn.
  - split; cbn -[unset_mapping]; by rewrite ?(unset_mapping_none sbi (nsbi h) j) by done.
Qed.
Lemma held_gc l h j : held_wf sbi l h -> in_main sbi j -> held_wf sbi l (gc_release h j).
Proof. intros W Hj. exact (held_lfu l (h <| nsbi ::= fun s => unset_mapping s j |>) j (-1) (held_unset l h j W Hj)). Qed.

Lemma held_double l h j : held_wf sbi l h -> in_main sbi j ->
  held_wf sbi l (h <| nsbi ::= fun s => set_double s j |>).
Proof.
  intros [W F Hu Hd Hh Hn] Hj. pose proof (fun k => set_double_lookup sbi (nsbi h) j k W Hj) as L.
  assert (nsb (set_double (nsbi h) j) = nsb (nsbi h) /\
          segment_map (set_double (nsbi h) j) = segment_map (nsbi h)) as [En Es].
  { destruct (ssd_lookup (nsbi h) j) as [i|] eqn:Hl; [|by rewrite set_double_none with (sbi := sbi)].
    by destruct (set_double_some sbi _ _ _ W Hj Hl) as (_ & -> & -> & _). }
  split; cbn; [by apply set_double_wf|done| |done|..].
  - intros j' Hj'. unfold ssd_lookup. rewrite En, L. by apply Hu.
  - intros i. rewrite En, Es. unfold nvm_lookup. rewrite L. by apply Hh.
  - intros i. rewrite En, Es. unfold nvm_lookup. rewrite L. by apply Hn.
Qed.
Lemma held_cold l h j b : held_wf sbi l h -> in_main sbi j -> held_wf sbi l (cold_done h j b).
Proof. intros W Hj. destruct b; [by apply held_double|by apply held_unset]. Qed.

Lemma held_allocated l h i : held_wf sbi l h -> 0 <= i < main_segment_nums (nsb (nsbi h)) ->
  test_bit i (segment_map (nsbi h)) = false -> held_wf sbi (i :: l) (h <| nsbi := allocated (nsbi h) i |>).
Proof.
  intros [W F Hu Hd Hh Hn] Hi Hb. pose proof (unallocated_unmapped sbi (nsbi h) i W Hi Hb) as Hni.
  split; cbn -[allocated]; try done.
  - by apply allocated_wf.
  - constructor; [|done]. intros Hin. destruct (Hh i Hin) as (_ & Ha & _). by rewrite Ha in Hb.
  - intros k. cbn. rewrite test_set_bit by lia. intros [->|Hin]%elem_of_cons.
    + by rewrite Z.eqb_refl.
    + destruct (Hh k Hin) as (Hr & Ha & Hm). rewrite Ha, orb_true_r. done.
  - intros k Hk [Hne Hin]%not_elem_of_cons. cbn. rewrite test_set_bit by lia.
    destruct (Z.eqb_spec i k); [done|]. by apply Hn.
Qed.
(** An allocation without a mapping finds nothing, or reserves a segment. *)
Lemma held_reserve l h j : held_wf sbi l h ->
  hot_reserve h j = Done (- ENVMNOSPACE, h) \/
  exists i, 0 <= i < main_segment_nums (nsb (nsbi h)) /\ test_bit i (segment_map (nsbi h)) = false /\
    (i =? - ENVMNOSPACE) = false /\
    hot_reserve h j = Done (i, h <| nsbi := allocated (nsbi h) i |>).
Proof.
  intros W. unfold hot_reserve. pose proof (mpt_wf_free_range _ _ (hh_mpt _ _ _ W)).
  destruct (decide (main_segment_free_nums (nsb (nsbi h)) = 0)) as [E|E].
  - left. rewrite nvm_allocate_none by done. cbn. by destruct h.
  - right. destruct (nvm_allocate_some sbi (nsbi h) j false (hh_mpt _ _ _ W)) as (i & Hi & Hb & ->); [lia|].
    exists i. split; [done|]. split; [done|]. split; [unfold ENVMNOSPACE; lia|done].
Qed.

Lemma held_release l h i :
  held_wf sbi (i :: l) h -> held_wf sbi l (h <| nsbi ::= fun s => release_nvm_segment s i |>).
Proof.
  intros [W F Hu Hd Hh Hn]. destruct (Hh i ltac:(apply elem_of_cons; by left)) as (Hi & Ha & Hm). pose proof (mpt_wf_free_range _ _ W).
  pose proof W as [HN HS HB HL Hnvm Hssd Hfl Hclr Hal Hfr Hcu].
  pose proof (zero_bits_clear (segment_map (nsbi h))
    (Z.to_nat (main_segment_nums (nsb (nsbi h)))) i ltac:(lia) Ha) as Ez.
  apply list.NoDup_cons in Hd as [Hil Hd]. unfold release_nvm_segment. split; cbn; try done.
  - split; cbn; try done.
    + intros i' j' Hi' Hx. rewrite test_clear_bit, (Hal _ _ Hi' Hx), andb_true_r.
      destruct (Z.eqb_spec i i') as [->|]; [|done]. unfold nvm_lookup in Hm, Hx. cbn in *. congruence.
    + rewrite Ez, Hfr. width. lia.
  - intros k Hk. destruct (Hh k) as (Hr & Hak & Hmk); [by apply elem_of_cons; right|].
    rewrite test_clear_bit, Hak. destruct (Z.eqb_spec i k) as [->|]; done.
  - intros k Hk Hin. rewrite test_clear_bit. destruct (Z.eqb_spec i k); [done|]. apply Hn; [done|].
    apply not_elem_of_cons. by split.
Qed.

(** Publishing a reserved segment for a segment in use that has no mapping *)
Lemma held_map l h i j f : held_wf sbi (i :: l) h -> in_main sbi j -> ssd_lookup (nsbi h) j = None ->
  test_bit j (free_segmap (free_i h)) = true -> 0 <= f < 8 -> Z.testbit f 0 = true ->
  held_wf sbi l (h <| nsbi ::= fun s => create_mapping s j i f |>) /\
  forall j', in_main sbi j' -> ssd_lookup (create_mapping (nsbi h) j i f) j' = if j' =? j then Some i else ssd_lookup (nsbi h) j'.
Proof.
  intros [W F Hu Hd Hh Hn] Hj Hl Hin Hf Hf0. destruct (Hh i ltac:(apply elem_of_cons; by left)) as (Hi & Ha & Hm).
  destruct (create_lookups sbi (nsbi h) j i f W Hj Hi Hf Hf0) as [Ln Ls]. apply list.NoDup_cons in Hd as [Hil Hd].
  split; [|exact Ls]. split; cbn -[create_mapping]; [by apply create_mapping_wf|done| |done|..].
  - intros j' Hj'. rewrite Ls by done. destruct (Z.eqb_spec j' j) as [->|]; [done|]. by apply Hu.
  - intros k Hk. destruct (Hh k) as (Hr & Hak & Hmk); [by apply elem_of_cons; right|].
    split; [done|]. split; [done|]. change (nsb (create_mapping _ _ _ _)) with (nsb (nsbi h)) in Hr. rewrite Ln by done.
    by destruct (Z.eqb_spec k i) as [->|].
  - intros k Hk Hkl Hb. rewrite Ln by done. destruct (Z.eqb_spec k i); [done|]. apply Hn; [done| |done].
    apply not_elem_of_cons. by split.
Qed.

Lemma held_inuse l h j :
  held_wf sbi l h -> in_main sbi j -> test_bit j (free_segmap (free_i h)) = false ->
  held_wf sbi l (__set_inuse sbi h j) /\
  forall k, test_bit k (free_segmap (free_i (__set_inuse sbi h j))) = (j =? k) || test_bit k (free_segmap (free_i h)).
Proof.
  intros [W F Hu Hd Hh Hn] Hj Hf. destruct (mark_inuse_wf sbi _ j F Hj Hf) as [F' Hm].
  split; [|exact Hm]. split; cbn -[mark_inuse]; [by apply set_lfu_wf|done| |done|apply Hh|apply Hn].
  intros k Hk Hx. rewrite Hm, (Hu k Hk Hx). apply orb_true_r.
Qed.
Lemma held_ssr l h j : held_wf sbi l h -> in_main sbi j ->
  held_wf sbi l (h <| free_i ::= fun f => __set_test_and_inuse sbi f j |>) /\
  forall k, test_bit k (free_segmap (free_i h)) = true -> test_bit k (free_segmap (__set_test_and_inuse sbi (free_i h) j)) = true.
Proof.
  intros [W F Hu Hd Hh Hn] Hj. unfold __set_test_and_inuse.
  destruct (test_bit j (free_segmap (free_i h))) eqn:Ej.
  { split; [|done]. split; cbn -[test_bit]; rewrite ?Ej; done. }
  destruct (mark_inuse_wf sbi _ j F Hj Ej) as [F' Hm].
  assert (forall k, test_bit k (free_segmap (free_i h)) = true -> test_bit k (free_segmap (mark_inuse sbi (free_i h) j)) = true) as Hk.
  { intros k Hb. rewrite Hm, Hb. apply orb_true_r. }
  split; [|exact Hk]. split; cbn -[mark_inuse test_bit]; rewrite ?Ej; try done. intros k Hkm Hx. by apply Hk, Hu.
Qed.
(** A prefree segment ends up free and unmapped, other segments keep both. *)
Lemma held_prefree l h j : held_wf sbi l h -> in_main sbi j ->
  exists h', __set_test_and_free sbi h j = Done h' /\ held_wf sbi l h' /\
    (forall k, test_bit k (free_segmap (free_i h')) = negb (j =? k) && test_bit k (free_segmap (free_i h))) /\
    forall k, in_main sbi k -> ssd_lookup (nsbi h') k = if k =? j then None else ssd_lookup (nsbi h) k.
Proof.
  intros W Hj. rewrite (set_test_and_free_eq l) by done. eexists. split; [done|]. cbv zeta.
  set (h1 := if test_bit _ _ then _ else h). assert (nsbi h1 = nsbi h) as En by (subst h1; by destruct (test_bit _ _)).
  assert (free_wf sbi (free_i h1) /\ forall k, test_bit k (free_segmap (free_i h1)) = negb (j =? k) && test_bit k (free_segmap (free_i h))) as [F1 Hm].
  { subst h1. destruct (test_bit j (free_segmap (free_i h))) eqn:Ej; [apply (set_free_wf sbi _ j (hh_free _ _ _ W) Hj Ej)|].
    split; [apply W|]. intros k. by destruct (Z.eqb_spec j k) as [<-|]. }
  clearbody h1. assert (h1 <| free_i := free_i h |> = h) as E0 by (destruct h1, h; cbn in En; by subst).
  assert (held_wf sbi l (h1 <| free_i := free_i h |>)) as W0 by (by rewrite E0).
  pose proof (held_gc l _ j W0 Hj) as W1. rewrite En. destruct (ssd_lookup (nsbi h) j) as [i|] eqn:Hl.
  - rewrite <- En in Hl. destruct (unset_lookups sbi (nsbi h1) _ _ (hh_mpt _ _ _ W0) Hj Hl) as [_ Ls].
    assert (forall k, in_main sbi k -> ssd_lookup (nsbi (gc_release h1 j)) k = if k =? j then None else ssd_lookup (nsbi h) k) as L.
    { intros k Hk. rewrite <- En. exact (Ls k Hk). }
    split; [|by split]. destruct W1 as [W1 _ Hu1 Hd1 Hh1 Hn1]. split; try done. intros k Hk Hx.
    change (free_i (gc_release h1 j)) with (free_i h1). rewrite Hm. rewrite L in Hx by done.
    destruct (Z.eqb_spec j k) as [<-|Hne]; [by rewrite Z.eqb_refl in Hx|]. cbn. destruct (Z.eqb_spec k j); [done|]. by apply (hh_inuse _ _ _ W).
  - split; [|split; [done|]].
    + destruct W as [W _ Hu Hd Hh Hn]. split; rewrite ?En; try done. intros k Hk Hx. rewrite Hm, (Hu k Hk Hx), andb_true_r.
      by destruct (Z.eqb_spec j k) as [<-|].
    + intros k Hk. rewrite En. by destruct (Z.eqb_spec k j) as [->|].
Qed.
Lemma unset_unmapped l h j k : held_wf sbi l h -> in_main sbi j -> in_main sbi k ->
  ssd_lookup (nsbi h) k = None -> ssd_lookup (unset_mapping (nsbi h) j) k = None.
Proof.
  intros W Hj Hk Hn. pose proof (hh_mpt _ _ _ W). destruct (ssd_lookup (nsbi h) j) as [i|] eqn:Hl; [|by rewrite (unset_mapping_none sbi (nsbi h) j) by done].
  rewrite (proj2 (unset_lookups sbi _ _ _ (hh_mpt _ _ _ W) Hj Hl) k Hk). by destruct (k =? j).
Qed.
Lemma double_unmapped l h j k : held_wf sbi l h -> in_main sbi j ->
  ssd_lookup (nsbi h) k = None -> ssd_lookup (set_double (nsbi h) j) k = None.
Proof.
  intros W Hj Hn. pose proof (hh_mpt _ _ _ W). pose proof (set_double_lookup sbi (nsbi h) j (main_segment_nums (nsb (nsbi h)) + k) (hh_mpt _ _ _ W) Hj) as L.
  unfold ssd_lookup in *. assert (nsb (set_double (nsbi h) j) = nsb (nsbi h)) as ->; [|by rewrite L].
  destruct (ssd_lookup (nsbi h) j) as [i|] eqn:Hl; [|by rewrite set_double_none with (sbi := sbi) by done].
  by destruct (set_double_some sbi _ _ _ (hh_mpt _ _ _ W) Hj Hl) as (_ & _ & -> & _).
Qed.

(** The commit of a move: published if the segment is in use, given back otherwise *)
Lemma held_commit l h j i : held_wf sbi (i :: l) h -> in_main sbi j -> ssd_lookup (nsbi h) j = None ->
  held_wf sbi l (fst (hot_commit h j i)) /\ free_i (fst (hot_commit h j i)) = free_i h /\
  forall k, in_main sbi k -> k <> j -> ssd_lookup (nsbi (fst (hot_commit h j i))) k = ssd_lookup (nsbi h) k.
Proof.
  intros W Hj Hl. unfold hot_commit. destruct (test_bit j (free_segmap (free_i h))) eqn:Ej.
  - destruct (hh_held _ _ _ W i) as (Hi & Ha & Hm); [by apply elem_of_cons; left|].
    pose proof (mw_bound _ _ (hh_mpt _ _ _ W)). pose proof (mw_ssd_nonneg _ _ (hh_mpt _ _ _ W)). pose proof (mw_len _ _ (hh_mpt _ _ _ W)).
    unfold nvm_lookup in Hm. rewrite map_flag_lookup in Hm by lia. destruct (nz (get_map_flag (nsbi h) i)) eqn:Ef; [done|].
    destruct (held_map l h i j 7 W Hj Hl Ej ltac:(lia) eq_refl) as [W' L].
    split; [exact W'|]. split; [done|]. intros k Hk Hne. transitivity (ssd_lookup (create_mapping (nsbi h) j i 7) k); [done|].
    rewrite L by done. by destruct (Z.eqb_spec k j).
  - split; [by apply held_release|]. done.
Qed.
Lemma step_wf x e y : machine_wf sbi x -> step sbi x e y -> ~ races x e -> machine_wf sbi y.
Proof.
  intros [Wh Nd Um Op] Hs Hr. destruct Hs as [h v j Hj Hf|h v j|h v j i h' E|h v j i|h v o j Hj|h v o j h' Hj Ho E|h v o j Hj|
    h v o j b Hj|h v o l Hc Hl Hu|h o j l|h o j l i h' E|h o j i l|h v o]; cbn [ma_hoit ma_mover ma_open] in *.
  - destruct (held_inuse _ h j Wh Hj Hf) as [W' Hm]. split; cbn -[__set_inuse]; [exact W'|done|exact Um|].
    intros ? [= <-]. split; [done|]. split; [|by rewrite Hm, Z.eqb_refl].
    destruct (ssd_lookup (nsbi h) j) eqn:El; [|exact El]. rewrite (hh_inuse _ _ _ Wh j Hj) in Hf; [done|by rewrite El].
  - by split.
  - destruct (held_reserve _ h j Wh) as [E'|(i' & Hi & Hb & Hne & E')]; rewrite E in E'; injection E' as -> ->.
    + by split.
    + rewrite Hne. split; cbn -[allocated]; try done. by apply held_allocated.
  - destruct (Op j eq_refl) as (Hj & Hl & Hin). destruct (held_map _ h i j 3 Wh Hj Hl Hin ltac:(lia) eq_refl) as [W' L].
    split; [exact W'|done| |done]. intros k Hk. destruct (Um k Hk) as [Hkm Hkl]. split; [done|].
    change (ssd_lookup (create_mapping (nsbi h) j i 3) k = None). rewrite L by done.
    destruct (Z.eqb_spec k j) as [->|]; [|done]. destruct Hr. by exists j.
  - destruct (held_ssr _ h j Wh Hj) as [W' Hm]. split; try done.
    intros k Hk. destruct (Op k Hk) as (? & ? & ?). split; [done|]. split; [done|]. by apply Hm.
  - destruct (held_prefree _ h j Wh Hj) as (h2 & E2 & W' & Hm & L). rewrite E in E2. injection E2 as <-. split; try done.
    + intros k Hk. destruct (Um k Hk) as [Hkm Hkl]. split; [done|]. cbn. rewrite L, Hkl by done. by destruct (k =? j).
    + intros k Hk. destruct (Op k Hk) as (Hkm & Hkl & Hin). cbn. rewrite L, Hkl, Hm, Hin by done.
      destruct (Z.eqb_spec j k) as [->|]; [done|]. by destruct (k =? j).
  - pose proof (fun k => unset_unmapped _ h j k Wh Hj) as L. split; [by apply held_gc|done|..].
    + intros k Hk. destruct (Um k Hk) as [Hkm Hkl]. split; [done|]. by apply L.
    + intros k Hk. destruct (Op k Hk) as (Hkm & Hkl & Hin). split; [done|]. split; [by apply L|done].
  - assert (forall k, in_main sbi k -> ssd_lookup (nsbi h) k = None -> ssd_lookup (nsbi (cold_done h j b)) k = None) as L.
    { intros k Hk Hkl. destruct b; [by apply (double_unmapped _ h j k Wh Hj)|by apply (unset_unmapped _ h j k Wh Hj)]. }
    assert (free_i (cold_done h j b) = free_i h) as Ef by done. split; cbn -[cold_done]; [by apply held_cold|done|..].
    + intros k Hk. destruct (Um k Hk) as [Hkm Hkl]. split; [done|]. by apply L.
    + intros k Hk. destruct (Op k Hk) as (Hkm & Hkl & Hin). split; [done|]. split; [by apply L|by rewrite Ef].
  - unfold mover_segs, mover_held in *. rewrite Hc in *. split; try done. cbn. intros k Hk. rewrite list.Forall_forall in Hu. by apply Hu.
  - split; try done; cbn in *; [by apply list.NoDup_cons in Nd as [_ ?]|]. intros k Hk. apply Um, elem_of_cons. by right.
  - destruct (held_reserve _ h j Wh) as [E'|(i' & Hi & Hb & Hne & E')]; rewrite E in E'; injection E' as -> ->.
    + split; try done; [apply base.NoDup_nil_2|by intros ? ?%elem_of_nil].
    + rewrite Hne. split; try done. cbn -[allocated]. rewrite Permutation_app_comm. apply held_allocated; [|done..].
      by rewrite app_nil_r in Wh.
  - destruct (Um j) as [Hj Hl]; [cbn; apply elem_of_cons; by left|]. cbn in Nd. apply list.NoDup_cons in Nd as [Hjl Nd].
    cbn in Wh. rewrite Permutation_app_comm in Wh. destruct (held_commit _ h j i Wh Hj Hl) as (W' & Ef & L).
    split; cbn -[hot_commit]; [by rewrite app_nil_r|by destruct (snd _); [|apply base.NoDup_nil_2]|..].
    + intros k Hk. assert (k ∈ l) as Hk' by (destruct (snd _); [done|by apply elem_of_nil in Hk]).
      destruct (Um k) as [Hkm Hkl]; [cbn; apply elem_of_cons; by right|]. split; [done|]. rewrite L; [done..|]. by intros ->.
    + intros k Hk. destruct (Op k Hk) as (Hkm & Hkl & Hin). rewrite Ef. split; [done|]. split; [|done]. rewrite L; [done..|].
      intros ->. destruct Hr. exists j. split; [done|]. by exists i.
  - split; try done. destruct Wh as [W F Hu Hd Hh Hn]. split; cbn; try done. revert W. by apply mpt_wf_ext.
Qed.
Lemma idle_wf h : machine_wf sbi (idle h) <-> hoit_wf sbi h.
Proof.
  rewrite hoit_held. split; [by intros []|]. intros W. split; try done; [apply base.NoDup_nil_2|by intros ? ?%elem_of_nil].
Qed.

(** An allocation of a segment that nobody disturbs is a run of three events. *)
Lemma nvm_allocate_fst s j b b' :
  (r <-- nvm_allocate_segment s j b ;; Done (fst r)) = (r <-- nvm_allocate_segment s j b' ;; Done (fst r)).
Proof. unfold nvm_allocate_segment. destruct (_ =? 0); [done|]. destruct (_ <? _); [done|]. by destruct (find_free_segoff _ _ _). Qed.
Lemma curseg_alloc_run l h v j b : held_wf sbi l h -> in_main sbi j -> test_bit j (free_segmap (free_i h)) = false ->
  exists h' tr, curseg_alloc sbi h j b = Done h' /\ run sbi (mk_machine h v Closed) tr (mk_machine h' v Closed).
Proof.
  intros W Hj Hf. destruct (held_inuse l h j W Hj Hf) as [W1 _]. unfold curseg_alloc. cbv zeta.
  pose proof (step_open sbi h v j Hj Hf) as S1. set (h1 := __set_inuse sbi h j) in *. clearbody h1. destruct b.
  - pose proof (hh_mpt _ _ _ W1) as Wm. pose proof (mpt_wf_free_range _ _ Wm).
    destruct (decide (main_segment_free_nums (nsb (nsbi h1)) = 0)) as [E|E].
    + rewrite nvm_allocate_none by done. cbn. eexists _, _. split; [done|]. eapply run_cons; [exact S1|].
      eapply run_cons; [apply step_place; unfold hot_reserve; by rewrite nvm_allocate_none|]. rewrite Z.eqb_refl. apply run_nil.
    + pose proof (nvm_allocate_fst (nsbi h1) j true false) as Ei.
      destruct (nvm_allocate_some sbi (nsbi h1) j true Wm) as (i & Hi & Hb & Et); [lia|].
      destruct (nvm_allocate_some sbi (nsbi h1) j false Wm) as (i' & _ & _ & Ef); [lia|].
      rewrite Et, Ef in Ei. injection Ei as <-. rewrite Et. eexists _, _. split; [done|]. eapply run_cons; [exact S1|].
      eapply run_cons; [apply step_place; unfold hot_reserve; by rewrite Ef|].
      cbn [fst snd]. replace (i =? - ENVMNOSPACE) with false by (unfold ENVMNOSPACE; lia).
      eapply run_cons; [exact (step_map sbi (h1 <| nsbi := allocated (nsbi h1) i |>) v j i)|apply run_nil].
  - eexists _, _. split; [done|]. eapply run_cons; [exact S1|]. eapply run_cons; [apply step_stay|apply run_nil].
Qed.
End held.

(** ** Executing events *)

Section exec.
Context `{F2fsFormat} `{BitSearch}.
Context (sbi : f2fs_sb_info).

#[export] Instance in_main_dec j : Decision (in_main sbi j) := ltac:(unfold in_main; apply _).
#[export] Instance races_dec x e : Decision (races x e).
Proof.
  destruct x as [h v o]. unfold races. cbn. destruct (opening_seg o) as [j|]; [|right; by intros (j & ? & _)].
  destruct e; try (right; by intros (k & _ & ?)).
  - destruct (decide (j ∈ mover_segs v)) as [E|E]; [left; by exists j|right]. by intros (k & [= <-] & ?).
  - destruct (copying v) as [[k i]|]; [|right; by intros (k & _ & i & ?)].
    destruct (decide (k = j)) as [->|E]; [left; exists j; split; [done|by exists i]|right].
    intros (j' & [= <-] & i' & [= Hk _]). by apply E.
Defined.

(** The state after an event, if it can happen *)
Definition exec (x : machine) (e : event) : option machine :=
  let 'mk_machine h v o := x in
  match e, o, v with
  | EvOpen j, Closed, _ =>
      if decide (in_main sbi j /\ test_bit j (free_segmap (free_i h)) = false)
      then Some (mk_machine (__set_inuse sbi h j) v (Chosen j)) else None
  | EvStay, Chosen _, _ => Some (mk_machine h v Closed)
  | EvPlace, Chosen j, _ =>
      match hot_reserve h j with
      | Done (i, h') => Some (mk_machine h' v (if i =? - ENVMNOSPACE then Closed else Placed j i))
      | _ => None
      end
  | EvMap, Placed j i, _ =>
      Some (mk_machine (h <| nsbi ::= fun s => create_mapping s j i (Z.lor rw_map rw_redirect) |>) v Closed)
  | EvSsr j, _, _ =>
      if decide (in_main sbi j) then Some (mk_machine (h <| free_i ::= fun f => __set_test_and_inuse sbi f j |>) v o) else None
  | EvPrefree j, _, _ =>
      if decide (in_main sbi j /\ opening_seg o <> Some j) then
        match __set_test_and_free sbi h j with Done h' => Some (mk_machine h' v o) | _ => None end
      else None
  | EvGc j, _, _ => if decide (in_main sbi j) then Some (mk_machine (gc_release h j) v o) else None
  | EvCold j b, _, _ => if decide (in_main sbi j) then Some (mk_machine (cold_done h j b) v o) else None
  | EvPropose l, _, mk_mover _ None =>
      if decide (NoDup l /\ Forall (fun j => in_main sbi j /\ ssd_lookup (nsbi h) j = None) l)
      then Some (mk_machine h (mk_mover l None) o) else None
  | EvSkip, _, mk_mover (_ :: l) None => Some (mk_machine h (mk_mover l None) o)
  | EvReserve, _, mk_mover (j :: l) None =>
      match hot_reserve h j with
      | Done (i, h') => Some (mk_machine h' (if i =? - ENVMNOSPACE then mk_mover [] None else mk_mover l (Some (j, i))) o)
      | _ => None
      end
  | EvCommit, _, mk_mover l (Some (j, i)) =>
      Some (mk_machine (fst (hot_commit h j i)) (mk_mover (if snd (hot_commit h j i) is Some _ then l else []) None) o)
  | EvCheckpoint, _, _ => Some (mk_machine (h <| nsbi ::= nvm_set_ckpt_segment_map |>) v o)
  | _, _, _ => None
  end.

Lemma exec_step x e y : exec x e = Some y -> step sbi x e y.
Proof.
  destruct x as [h [l c] o]. unfold exec. intros E.
  destruct e; repeat (match type of E with match ?x with _ => _ end = _ => destruct x eqn:? end); simplify_eq; destruct_and?;
    (by constructor) || by apply step_propose.
Qed.

(** A list of events; those that race are refused if [strict]. *)
Fixpoint exec_all (strict : bool) (x : machine) (es : list event) : option machine :=
  match es with
  | [] => Some x
  | e :: es => if strict && bool_decide (races x e) then None else exec x e ≫= fun y => exec_all strict y es
  end.
Lemma exec_all_run b x es y : exec_all b x es = Some y ->
  exists tr, run sbi x tr y /\ map snd tr = es /\ (b = true -> Forall (fun p => ~ races (fst p) (snd p)) tr).
Proof.
  revert x. induction es as [|e es IH]; intros x E.
  - injection E as <-. exists []. split; [apply run_nil|]. by split.
  - cbn in E. destruct (b && _) eqn:Hb; [done|]. destruct (exec x e) as [x'|] eqn:Ee; [|done].
    destruct (IH x' E) as (tr & Hr & Hm & Hn). exists ((x, e) :: tr). split; [eapply run_cons; [by apply exec_step|done]|].
    split; [cbn; by rewrite Hm|]. intros ->. apply list.Forall_cons. split; [|by apply Hn]. cbn. by case_bool_decide.
Qed.
End exec.

(** ** Operations on a state in which nobody holds anything *)

Section machine_specs.
Context `{F2fsFormat} `{BitSearchOk}.
Context (sbi : f2fs_sb_info).

Lemma cold_done_wf h j b : hoit_wf sbi h -> in_main sbi j -> hoit_wf sbi (cold_done h j b).
Proof. rewrite !hoit_held. apply held_cold. Qed.
Lemma ssr_inuse_wf h j : hoit_wf sbi h -> in_main sbi j -> hoit_wf sbi (h <| free_i ::= fun f => __set_test_and_inuse sbi f j |>).
Proof. rewrite !hoit_held. intros W Hj. by apply held_ssr. Qed.
Lemma set_inuse_wf h j :
  hoit_wf sbi h -> in_main sbi j -> test_bit j (free_segmap (free_i h)) = false ->
  hoit_wf sbi (__set_inuse sbi h j) /\
  test_bit j (free_segmap (free_i (__set_inuse sbi h j))) = true.
Proof.
  rewrite !hoit_held. intros W Hj Hf. destruct (held_inuse sbi [] h j W Hj Hf) as [W' Hm]. by rewrite Hm, Z.eqb_refl.
Qed.
Lemma allocated_reserved_wf h i :
  hoit_wf sbi h -> 0 <= i < main_segment_nums (nsb (nsbi h)) ->
  test_bit i (segment_map (nsbi h)) = false -> held_wf sbi [i] (h <| nsbi := allocated (nsbi h) i |>).
Proof. rewrite hoit_held. apply held_allocated. Qed.
Lemma release_reserved_wf h i :
  held_wf sbi [i] h -> hoit_wf sbi (h <| nsbi ::= fun s => release_nvm_segment s i |>).
Proof. rewrite hoit_held. apply held_release. Qed.
(** Reserving a segment and mapping it at once. *)
Lemma reserve_map_wf h i j f :
  hoit_wf sbi h -> in_main sbi j -> 0 <= i < main_segment_nums (nsb (nsbi h)) ->
  test_bit i (segment_map (nsbi h)) = false -> ssd_lookup (nsbi h) j = None ->
  test_bit j (free_segmap (free_i h)) = true -> 0 <= f < 8 -> Z.testbit f 0 = true ->
  hoit_wf sbi (h <| nsbi := create_mapping (allocated (nsbi h) i) j i f |>).
Proof.
  intros W Hj Hi Hb Hl Hin Hf Hf0. apply hoit_held.
  by destruct (held_map sbi [] (h <| nsbi := allocated (nsbi h) i |>) i j f (allocated_reserved_wf h i W Hi Hb) Hj Hl Hin Hf Hf0).
Qed.
Lemma curseg_alloc_wf h j b :
  hoit_wf sbi h -> in_main sbi j -> test_bit j (free_segmap (free_i h)) = false ->
  exists h', curseg_alloc sbi h j b = Done h' /\ hoit_wf sbi h'.
Proof.
  intros W Hj Hf. destruct (set_inuse_wf h j W Hj Hf) as [W1 Hin].
  assert (ssd_lookup (nsbi h) j = None) as Hl.
  { destruct (ssd_lookup (nsbi h) j) eqn:E; [|done].
    rewrite (hf_inuse _ _ W j Hj) in Hf; [done|by rewrite E]. }
  unfold curseg_alloc. cbv zeta. set (h1 := __set_inuse sbi h j) in *.
  assert (ssd_lookup (nsbi h1) j = None) as Hl1 by done. clearbody h1.
  destruct b; [|by eauto].
  destruct (decide (main_segment_free_nums (nsb (nsbi h1)) = 0)) as [E|E].
  - rewrite nvm_allocate_none by done. cbn. eexists. split; [done|]. by destruct h1.
  - pose proof (mpt_wf_free_range _ _ (hf_mpt _ _ W1)).
    destruct (nvm_allocate_some sbi (nsbi h1) j true (hf_mpt _ _ W1)) as (i & Hi & Hb & ->); [lia|].
    cbn. eexists. split; [done|]. by apply reserve_map_wf.
Qed.

Lemma release_allocated s i :
  mpt_wf sbi s -> 0 <= i < main_segment_nums (nsb s) -> test_bit i (segment_map s) = false ->
  let s' := release_nvm_segment (allocated s i) i in
  nsb s' = nsb s /\ mpt s' = mpt s /\ cur_alloc_nvm_segoff s' = i + 1 /\
  forall k, test_bit k (segment_map s') = test_bit k (segment_map s).
Proof.
  intros W Hi Hb. pose proof (mpt_wf_free_range _ _ W).
  pose proof (mw_bound _ _ W). pose proof (mw_ssd_nonneg _ _ W).
  assert (0 < main_segment_free_nums (nsb s)) as Hpos.
  { rewrite (mw_free _ _ W). pose proof (zero_bits_set (segment_map s) (Z.to_nat (main_segment_nums (nsb s))) i ltac:(lia) Hb).
    pose proof (zero_bits_range (set_bit i (segment_map s)) (Z.to_nat (main_segment_nums (nsb s)))). lia. }
  cbn. split_and!; [|done|by width|].
  - unfold upd. cbn. rewrite (u32_id (_ - 1)), u32_id by lia.
    replace (_ - 1 + 1) with (main_segment_free_nums (nsb s)) by lia. by destruct (nsb s).
  - intros k. rewrite test_clear_bit, test_set_bit by lia.
    destruct (Z.eqb_spec i k) as [->|]; [by rewrite Hb|done].
Qed.
End machine_specs.

(** ** Safety of the life cycle *)

(** A concrete device: three NVM segments, four SSD segments, all free. *)
Definition demo_nsb : nvm_super_block := {|
  uuid := []; mpt_blkaddr := 16; ra_blkaddr := 24; nsb_main_blkaddr := 24;
  lfu_blkaddr0 := 2; lfu_blkaddr1 := 3; ra_blk_nums := 0; main_first_segno := 4;
  main_segment_nums := 3; main_segment_free_nums := 3; mpt_ver_map_bits := 1;
  mpt_entries := 7;
|}.
Definition demo_free : free_segmap_info := mk_free 4 2 0 0.
Definition demo_hoit : hoit :=
  mk_hoit (@init_nvm_sb_info linux_format demo_sbi 0 demo_nsb) demo_free.

Lemma demo_free_wf : free_wf demo_sbi demo_free.
Proof.
  split; cbn; try lia.
  - by exists 2.
  - done.
  - intros j _. by rewrite test_bit_0.
  - intros c _. by rewrite test_bit_0.
Qed.
Lemma demo_hoit_wf : hoit_wf demo_sbi demo_hoit.
Proof.
  assert (mpt_wf demo_sbi (nsbi demo_hoit)) as W.
  { apply init_mpt_wf; cbn; try done; apply linux_format_ok. }
  split; [done|apply demo_free_wf|..].
  - intros j Hj Hx. exfalso. apply Hx. unfold in_main in Hj. cbn in Hj.
    assert (j = 0 \/ j = 1 \/ j = 2 \/ j = 3) as [->|[->|[->| ->]]] by lia; by vm_compute.
  - intros i _. cbn. by rewrite test_bit_0.
Qed.

(** C1. The allocator, the checkpoint, the cleaner and the data mover run as threads
    whose steps interleave; in particular anything can happen while a move or an
    allocation holds a reserved NVM segment and has not published it.  In every run
    without the race of [hot_commit_race] (a mapping is published for a segment that both
    the mover and a log being opened have on their hands) the two halves of the table
    stay inverse to each other with equal flags, the free count exact, free SSD segments
    unmapped, and every NVM segment is free, mapped or held by the one thread that
    reserved it; so none is leaked when no thread is in the middle of anything. *)
Theorem mapping_safe {F : F2fsFormat} {S : BitSearch} {SO : BitSearchOk} sbi x tr y :
  machine_wf sbi x -> run sbi x tr y -> Forall (fun p => ~ races (fst p) (snd p)) tr ->
  machine_wf sbi y /\ (copying (ma_mover y) = None -> ma_open y = Closed -> hoit_wf sbi (ma_hoit y)).
Proof.
  intros W Hr Hn. assert (machine_wf sbi y) as Wy.
  { induction Hr as [|x e y tr z Hs _ IH]; [done|]. apply list.Forall_cons in Hn as [Hx Hn]. apply IH; [|done]. by apply (step_wf sbi x e). }
  split; [done|]. intros Hc Ho. apply hoit_held. pose proof (mm_held _ _ Wy) as Wh. unfold mover_held in Wh. by rewrite Hc, Ho in Wh.
Qed.

(** While segment 1 is copied to the NVM, a log opens segment 2 there. *)
Definition demo_move : list event :=
  [EvOpen 1; EvStay; EvPropose [1]; EvReserve; EvOpen 2; EvPlace; EvMap; EvCommit].
Lemma mapping_safe_witness :
  match @exec_all linux_format scan_search demo_sbi true (idle demo_hoit) demo_move with
  | Some y => hoit_wf demo_sbi (ma_hoit y) /\ ssd_lookup (nsbi (ma_hoit y)) 1 = Some 0 /\ ssd_lookup (nsbi (ma_hoit y)) 2 = Some 1
  | None => False
  end.
Proof.
  assert (match @exec_all linux_format scan_search demo_sbi true (idle demo_hoit) demo_move with
    | Some y => copying (ma_mover y) = None /\ ma_open y = Closed /\ ssd_lookup (nsbi (ma_hoit y)) 1 = Some 0 /\ ssd_lookup (nsbi (ma_hoit y)) 2 = Some 1
    | None => False end) as X by (by vm_compute).
  destruct (exec_all _ _ _ _) as [y|] eqn:E; [|done]. destruct X as (Hc & Ho & L).
  destruct (exec_all_run _ _ _ _ _ E) as (tr & Hr & _ & Hn). split; [|exact L].
  exact (proj2 (@mapping_safe linux_format scan_search scan_search_ok demo_sbi (idle demo_hoit) tr y
    (proj2 (idle_wf demo_sbi _) demo_hoit_wf) Hr (Hn eq_refl)) Hc Ho).
Defined.

(** Freeing a prefree segment at a checkpoint never fails its assertion: the
    segment ends up free, unmapped and with its counter at -1, and every other
    mapping is kept. *)
Theorem prefree_unmaps {F : F2fsFormat} {S : BitSearch} {SO : BitSearchOk} sbi h j :
  hoit_wf sbi h -> in_main sbi j ->
  exists h', __set_test_and_free sbi h j = Done h' /\
    test_bit j (free_segmap (free_i h')) = false /\
    ssd_lookup (nsbi h') j = None /\
    forall k, in_main sbi k -> k <> j -> ssd_lookup (nsbi h') k = ssd_lookup (nsbi h) k.
Proof.
  intros W%hoit_held Hj. destruct (held_prefree sbi [] h j W Hj) as (h' & E & _ & Hm & L). exists h'. split; [done|].
  split; [by rewrite Hm, Z.eqb_refl|]. split; [by rewrite L, Z.eqb_refl by done|].
  intros k Hk Hne. rewrite L by done. by destruct (Z.eqb_spec k j).
Qed.

Lemma prefree_unmaps_witness :
  match @curseg_alloc linux_format scan_search demo_sbi demo_hoit 1 true with
  | Done h => ssd_lookup (nsbi h) 1 = Some 0 /\
      exists h', @__set_test_and_free linux_format scan_search demo_sbi h 1 = Done h' /\
        ssd_lookup (nsbi h') 1 = None
  | _ => False
  end.
Proof.
  destruct (@curseg_alloc_wf linux_format scan_search scan_search_ok demo_sbi demo_hoit 1 true
              demo_hoit_wf) as (h & E & W); [unfold in_main; cbn; lia|reflexivity|].
  rewrite E. split.
  - vm_compute in E. injection E as <-. reflexivity.
  - destruct (@prefree_unmaps linux_format scan_search scan_search_ok demo_sbi h 1 W)
      as (h' & E' & _ & Hl & _); [unfold in_main; cbn; lia|]. by exists h'.
Defined.

(** An interrupted move is sound as long as the segment it copied is still
    unmapped at the commit: the mapping is published if the segment is in use,
    the reserved NVM segment is given back otherwise. *)
Theorem hot_commit_safe {F : F2fsFormat} {S : BitSearch} sbi h j i :
  held_wf sbi [i] h -> in_main sbi j -> ssd_lookup (nsbi h) j = None ->
  let h' := fst (hot_commit h j i) in
  hoit_wf sbi h' /\
  ssd_lookup (nsbi h') j = if test_bit j (free_segmap (free_i h)) then Some i else None.
Proof.
  intros R Hj Hl. split; [apply hoit_held; by apply held_commit|]. unfold hot_commit.
  destruct (test_bit j (free_segmap (free_i h))); [|done].
  pose proof (hh_mpt _ _ _ R) as W. destruct (hh_held _ _ _ R i) as (Hi & _ & Hm); [apply elem_of_cons; by left|].
  pose proof (mw_bound _ _ W). pose proof (mw_ssd_nonneg _ _ W).
  unfold nvm_lookup in Hm. rewrite map_flag_lookup in Hm by lia.
  destruct (nz (get_map_flag (nsbi h) i)); [done|]. cbn [fst].
  destruct (create_lookups sbi (nsbi h) j i 7 W Hj Hi ltac:(lia) eq_refl) as [_ Ls].
  pose proof (Ls j Hj) as Hz. by rewrite Z.eqb_refl in Hz.
Qed.

Lemma hot_commit_safe_witness :
  match @hot_reserve linux_format scan_search demo_hoit 1 with
  | Done (i, h) => hoit_wf demo_sbi (fst (@hot_commit linux_format h 1 i))
  | _ => False
  end.
Proof.
  destruct (@held_reserve linux_format scan_search scan_search_ok demo_sbi [] demo_hoit 1
              (proj1 (@hoit_held demo_sbi _) demo_hoit_wf)) as [E|(i & Hi & Hb & _ & E)]; [by vm_compute in E|].
  rewrite E. pose proof (@allocated_reserved_wf demo_sbi demo_hoit i demo_hoit_wf Hi Hb) as R. set (h := demo_hoit <| nsbi := _ |>) in *. clearbody h. apply (@hot_commit_safe linux_format scan_search demo_sbi h 1 i R).
  - unfold in_main; cbn; lia.
  - vm_compute in E. injection E as <- <-. reflexivity.
Defined.

(** When the segment is freed and allocated again on NVM between the copy and
    the commit, the commit overwrites its new mapping: NVM segments 0 and 1
    both claim SSD segment 1, and the mapping of NVM segment 1 is lost. *)
Definition demo_race : list event :=
  [EvOpen 1; EvStay; EvPropose [1]; EvReserve; EvPrefree 1; EvOpen 1; EvPlace; EvMap; EvCommit].
Theorem hot_commit_race :
  exists tr y, @run linux_format scan_search demo_sbi (idle demo_hoit) tr y /\ map snd tr = demo_race /\
    nvm_lookup (nsbi (ma_hoit y)) 0 = Some 1 /\ nvm_lookup (nsbi (ma_hoit y)) 1 = Some 1 /\
    ssd_lookup (nsbi (ma_hoit y)) 1 = Some 0 /\ ~ machine_wf demo_sbi y.
Proof.
  assert (match @exec_all linux_format scan_search demo_sbi false (idle demo_hoit) demo_race with
    | Some y => nvm_lookup (nsbi (ma_hoit y)) 0 = Some 1 /\ nvm_lookup (nsbi (ma_hoit y)) 1 = Some 1 /\
        ssd_lookup (nsbi (ma_hoit y)) 1 = Some 0 /\ main_segment_nums (nsb (nsbi (ma_hoit y))) = 3
    | None => False end) as X by (by vm_compute).
  destruct (exec_all _ _ _ _) as [y|] eqn:E; [|done]. destruct X as (H0 & H1 & Hs & Hn).
  destruct (exec_all_run _ _ _ _ _ E) as (tr & Hr & Hm & _). exists tr, y. split_and!; try done.
  intros [[W _ _ _ _ _] _ _ _]. destruct (mw_nvm _ _ W 1 1) as [_ Hx]; [lia|done|]. congruence.
Qed.
