(* ===== verification/MptProps.v ===== *)
(** * Properties of mapping entries, allocation and the device layout

    Theorems about the operations of [Mpt.v] one by one; [Machine.v] has the
    theorems about their interleavings. *)
From S2P Require Import Prelude Geometry Heap Mpt FreeMap Machine.
Open Scope Z_scope.

(** Allocating an NVM segment never hits an assertion.  Without a free segment
    it says so and changes nothing; otherwise it takes a free one, and the
    state stays consistent, with the mapping if one was asked for. *)
Theorem nvm_allocate_segment_ok {F : F2fsFormat} {S : BitSearch} {SO : BitSearchOk} sbi s j b :
  mpt_wf sbi s -> in_main sbi j -> ssd_lookup s j = None ->
  exists r s', nvm_allocate_segment s j b = Done (r, s') /\
    if main_segment_free_nums (nsb s) =? 0 then r = - ENVMNOSPACE /\ s' = s
    else 0 <= r < main_segment_nums (nsb s) /\ test_bit r (segment_map s) = false /\
      test_bit r (segment_map s') = true /\
      main_segment_free_nums (nsb s') = main_segment_free_nums (nsb s) - 1 /\
      mpt_wf sbi s' /\ ssd_lookup s' j = if b then Some r else None.
Proof.
  intros W Hj Hl. pose proof (mpt_wf_free_range _ _ W) as Hr.
  destruct (Z.eqb_spec (main_segment_free_nums (nsb s)) 0) as [E|E].
  { rewrite nvm_allocate_none by done. by eexists _, s. }
  destruct (nvm_allocate_some sbi s j b W) as (i & Hi & Hb & ->); [lia|].
  pose proof (allocated_wf sbi s i W Hi Hb) as Wa.
  assert (main_segment_free_nums (nsb (allocated s i)) = main_segment_free_nums (nsb s) - 1) as Ef.
  { cbn. pose proof (mw_bound _ _ W). pose proof (mw_ssd_nonneg _ _ W). by width. }
  assert (test_bit i (segment_map (allocated s i)) = true) as Hs
    by (cbn; rewrite test_set_bit, Z.eqb_refl by lia; done).
  eexists _, _. split; [done|]. destruct b; split_and!; try done; try lia.
  - apply create_mapping_wf; try done.
    by apply (unallocated_unmapped sbi s).
  - pose proof (proj2 (create_lookups sbi (allocated s i) j i 3 Wa Hj Hi ltac:(lia) eq_refl) j Hj) as Hx.
    by rewrite Z.eqb_refl in Hx.
Qed.
Lemma nvm_allocate_segment_ok_witness :
  exists r s', @nvm_allocate_segment linux_format scan_search (nsbi demo_hoit) 1 true = Done (r, s') /\
    ssd_lookup s' 1 = Some r.
Proof.
  destruct (@nvm_allocate_segment_ok linux_format scan_search scan_search_ok demo_sbi (nsbi demo_hoit) 1 true
    (hf_mpt _ _ demo_hoit_wf)) as (r & s' & E & H); [unfold in_main; cbn; lia|done|].
  exists r, s'. split; [exact E|]. apply H.
Defined.

(** Removing the mapping just created restores the table. *)
Theorem create_unset_roundtrip {F : F2fsFormat} sbi s j i f :
  mpt_wf sbi s -> in_main sbi j -> 0 <= i < main_segment_nums (nsb s) -> 0 <= f < 8 ->
  Z.testbit f 0 = true -> ssd_lookup s j = None -> nvm_lookup s i = None ->
  test_bit i (segment_map s) = true ->
  mpt (unset_mapping (create_mapping s j i f) j) = mpt s.
Proof.
  intros W Hj Hi Hf Hb Hl Hn Ha. unfold in_main in Hj.
  pose proof (create_mapping_wf sbi s j i f W Hj Hi Hf Hb Hn Hl Ha) as W'.
  destruct (create_lookups sbi s j i f W Hj Hi Hf Hb) as [_ Ls].
  pose proof (Ls j Hj) as Hs. rewrite Z.eqb_refl in Hs.
  destruct (unset_mapping_some sbi _ j i W' Hj Hs) as (-> & _).
  rewrite (create_mapping_mpt sbi) by done. change (nsb (create_mapping s j i f)) with (nsb s).
  pose proof W as []. apply arr_ext; [by rewrite !zlen_aset|]. rewrite !zlen_aset. intros k Hk.
  rewrite aget_aset by (rewrite !zlen_aset; lia). destruct (Z.eqb_spec i k) as [->|].
  { symmetry. apply mw_clear; [lia|done]. }
  rewrite aget_aset by (rewrite !zlen_aset; lia).
  destruct (Z.eqb_spec (main_segment_nums (nsb s) + j) k) as [<-|].
  { symmetry. apply mw_clear; [lia|done]. }
  by rewrite !aget_aset_ne by lia.
Qed.
Lemma create_unset_roundtrip_witness :
  mpt (@unset_mapping linux_format (@create_mapping linux_format (allocated (nsbi demo_hoit) 2) 3 2 7) 3)
  = mpt (nsbi demo_hoit).
Proof.
  apply (@create_unset_roundtrip linux_format demo_sbi (allocated (nsbi demo_hoit) 2) 3 2 7);
    try done; try (unfold in_main; cbn; lia).
  apply allocated_wf; [exact (hf_mpt _ _ demo_hoit_wf)|cbn; lia|done].
Defined.

(** Flags are independent of each other and of the mapped offset, except that
    clear_double_flag shifts by the flag's value instead of its position: it
    also clears the lowest bit of the offset. *)
Theorem flag_ops_spec s k :
  0 <= k < 268435456 -> k < zlen (mpt s) -> 0 <= (mpt s).[k] < 4294967296 ->
  get_mpt_value (set_double_flag s k) k = get_mpt_value s k /\
  nz (get_double_flag (set_double_flag s k) k) = true /\
  get_mpt_value (clear_redirect_flag s k) k = get_mpt_value s k /\
  nz (get_redirect_flag (clear_redirect_flag s k) k) = false /\
  nz (get_map_flag (clear_redirect_flag s k) k) = nz (get_map_flag s k) /\
  nz (get_double_flag (clear_double_flag s k) k) = false /\
  get_mpt_value (clear_double_flag s k) k = Z.clearbit (get_mpt_value s k) 0.
Proof.
  intros Hk Hl He. set (e := (mpt s).[k]) in *.
  assert (forall n, u32 (Z.shiftl (Z.shiftr e n) n) = Z.shiftl (Z.shiftr e n) n \/ n < 0) as Hu.
  { intros n. destruct (Z.ltb_spec n 0); [by right|left]. apply u32_id.
    rewrite Z.shiftl_mul_pow2, Z.shiftr_div_pow2 by lia.
    assert (0 < 2 ^ n) by (apply Z.pow_pos_nonneg; lia).
    pose proof (Z.mul_div_le e (2 ^ n) ltac:(lia)). pose proof (Z.div_pos e (2 ^ n)). nia. }
  rewrite !double_flag_bit, !redirect_flag_bit, !map_flag_bit by done.
  unfold get_mpt_value, set_double_flag, clear_redirect_flag, clear_double_flag. cbn [mpt upd].
  rewrite !s32_id, !aget_aset_eq by lia. fold e.
  destruct (Hu rw_redirect) as [->|]; [|done]. destruct (Hu rw_double) as [->|]; [|done].
  change rw_bits with 3; change rw_redirect with 2; change rw_double with 4.
  assert (forall n b, 0 <= n -> 0 <= b -> Z.testbit (Z.shiftl (Z.shiftr e n) n) b = (n <=? b) && Z.testbit e b) as Hsh.
  { intros n b Hn Hb. rewrite Z.shiftl_spec by lia. destruct (Z.leb_spec n b).
    - rewrite Z.shiftr_spec by lia. replace (b - n + n) with b by lia. done.
    - by rewrite Z.testbit_neg_r by lia. }
  split_and!.
  - rewrite Z.shiftr_lor. change (Z.shiftr 4 3) with 0. apply Z.lor_0_r.
  - by rewrite Z.lor_spec, orb_true_r.
  - apply Z.bits_inj'. intros b Hb. rewrite !Z.shiftr_spec, Z.lor_spec, Hsh, Z.land_spec by lia.
    replace (2 <=? b + 3) with true by lia. change (2 - 1) with (Z.ones 1).
    rewrite Z.testbit_ones_nonneg by lia. replace (b + 3 <? 1) with false by lia.
    by rewrite andb_false_r, orb_false_r.
  - rewrite Z.lor_spec, Hsh, Z.land_spec by lia. cbn. apply andb_false_r.
  - rewrite Z.lor_spec, Hsh, Z.land_spec by lia. cbn. apply andb_true_r.
  - rewrite Z.lor_spec, Hsh, Z.land_spec by lia. cbn. apply andb_false_r.
  - apply Z.bits_inj'. intros b Hb.
    rewrite Z.clearbit_eqb, !Z.shiftr_spec, Z.lor_spec, Hsh, Z.land_spec by lia.
    change (4 - 1) with (Z.ones 2). rewrite Z.testbit_ones_nonneg by lia.
    replace (b + 3 <? 2) with false by lia. rewrite andb_false_r, orb_false_r.
    destruct (Z.eqb_spec 0 b) as [<-|]; cbn [negb].
    + by rewrite andb_false_r.
    + replace (4 <=? b + 3) with true by lia. by rewrite andb_true_r.
Qed.
Lemma flag_ops_spec_witness :
  let s := @create_mapping linux_format (nsbi demo_hoit) 3 2 7 in
  get_mpt_value s 2 = 3 /\ get_mpt_value (clear_double_flag s 2) 2 = 2.
Proof.
  intros s. destruct (flag_ops_spec s 2) as (_ & _ & _ & _ & _ & _ & ->); [lia|by vm_compute|by vm_compute|].
  by vm_compute.
Defined.

(** The layout computed at the first mount fits the device: the two copies of
    the table lie between the metadata and the main area, and the main area
    ends before the device does; the state built from it is consistent. *)
Theorem init_nsb_layout {F : F2fsFormat} {FO : F2fsFormatOk} sbi raw nsize :
  geom_wf sbi ->
  let b := init_nsb sbi raw nsize in
  let blocks := SECTOR_TO_BLOCK nsize in
  0 <= blocks < 4294967296 -> main_blkaddr sbi + 2 * blocks_per_seg sbi <= blocks ->
  main_segment_nums b + segment_count_main sbi < 268435456 -> 0 < segment_count_main sbi ->
  mpt_ver_map_bits b <= blocks_per_seg sbi ->
  mpt_blkaddr b + mpt_ver_map_bits b + blocks_per_seg sbi <= nsb_main_blkaddr b /\
  nsb_main_blkaddr b + main_segment_nums b * blocks_per_seg sbi <= blocks /\
  mpt_wf sbi (init_nvm_sb_info sbi NVM_FIRST_MOUNR b).
Proof.
  intros G b blocks Hb Hroom Hsum HS Hbits. pose proof (bps_pos sbi G) as Hbps. pose proof (gw_log _ G).
  pose proof (gw_bps _ G). assert (2 ^ log_blocks_per_seg sbi <= 2 ^ 16) by (apply Z.pow_le_mono_r; lia).
  assert (0 <= main_blkaddr sbi) as Hm by (destruct G; nia).
  assert (nsb_main_blkaddr b = main_blkaddr sbi + 2 * blocks_per_seg sbi) as Emain.
  { unfold b, init_nsb, MAIN_OFFSET. cbn [nsb_main_blkaddr]. rewrite (u32_id (2 * _)), u32_id by lia. done. }
  assert (main_segment_nums b = (blocks - (main_blkaddr sbi + 2 * blocks_per_seg sbi)) / blocks_per_seg sbi) as Eseg.
  { unfold b, init_nsb, MAIN_OFFSET. cbn [main_segment_nums]. fold blocks.
    rewrite (u32_id blocks), (u32_id (2 * _)), (u32_id (main_blkaddr sbi + _)), u32_id by lia. done. }
  assert (0 <= main_segment_nums b) as HN by (rewrite Eseg; apply Z.div_pos; lia).
  split_and!.
  - change (mpt_blkaddr b) with (main_blkaddr sbi). lia.
  - rewrite Emain, Eseg.
    pose proof (Z.mul_div_le (blocks - (main_blkaddr sbi + 2 * blocks_per_seg sbi)) (blocks_per_seg sbi)). lia.
  - assert (mpt_entries b = main_segment_nums b + segment_count_main sbi) as Ee.
    { change (mpt_entries b) with (u32 (main_segment_nums b + segment_count_main sbi)). apply u32_id. lia. }
    apply init_mpt_wf; try done; lia.
Qed.
Lemma init_nsb_layout_witness :
  let b := @init_nsb linux_format demo_sbi [] 400 in
  main_segment_nums b = 6 /\ mpt_wf demo_sbi (@init_nvm_sb_info linux_format demo_sbi NVM_FIRST_MOUNR b).
Proof.
  intros b. split; [by vm_compute|].
  apply (@init_nsb_layout linux_format linux_format_ok demo_sbi [] 400 demo_geom_wf);
    by vm_compute.
Defined.

(** A device smaller than the metadata of the SSD is not refused: the unsigned
    subtraction wraps and the device gets a huge main area. *)
Theorem init_nsb_small_device :
  SECTOR_TO_BLOCK (H := linux_format) 80 = 10 /\
  main_segment_nums (@init_nsb linux_format demo_sbi [] 80) = 1073741820.
Proof. by vm_compute. Qed.

(** The bitmap of the last checkpoint does not protect its segments from being
    reused: allocation looks at the current bitmap only. *)
Theorem ckpt_segment_map_ignored :
  let s := (nsbi demo_hoit) <| ckpt_segment_map := 7 |> in
  exists s', @nvm_allocate_segment linux_format scan_search s 1 true = Done (0, s') /\
    test_bit 0 (ckpt_segment_map s') = true.
Proof. eexists. split; [vm_compute; reflexivity|by vm_compute]. Qed.
