(* ===== verification/Lfu.v ===== *)
(** * LFU counters and the selection of segments to move ([nvm.c])

    Each segment has one counter per LFU level; the levels are a ring whose
    newest member is [now_lfu_counter].  [calc_count] weighs them,
    [nvm_move_lfu_count] ages them, [get_max_k] collects the coldest NVM
    segments and [get_min_k] the hottest SSD segments in a bounded heap. *)
From S2P Require Import Prelude Geometry Heap Mpt FreeMap.
Open Scope Z_scope.

Definition LFU_LEVEL1 : Z := 4.
Definition LFU_LEVEL2 : Z := 3.
Definition LFU_LEVEL3 : Z := 2.
Definition LFU_LEVEL4 : Z := 1.
Definition ENOHOT : Z := 2.
Definition ENOCOLD : Z := 4.

(** The loop of nvm_move_lfu_count over the segments [i ..]. *)
Fixpoint clear_level (n : nat) (i : Z) (pre clr : Z) (c : list (list Z)) : list (list Z) :=
  match n with
  | O => c
  | S n => clear_level n (i + 1) pre clr
             (if c.[pre].[i] =? -1 then c else c.[clr <- c.[clr].[i <- 0]])
  end.
Definition nvm_move_lfu_count (sbi : f2fs_sb_info) (s : nvm_sb_info) : nvm_sb_info :=
  let pre_index := now_lfu_counter s in
  let clear_index := if pre_index =? 0 then LFU_LEVELS - 1 else pre_index - 1 in
  s <| lfu_count ::= clear_level (Z.to_nat (segment_count_main sbi)) 0 pre_index clear_index |>
    <| now_lfu_counter := clear_index |>.

(** The weights of levels 0..3 when [now] is the newest one. *)
Definition lfu_weights (now : Z) : list Z :=
  if now =? 0 then [LFU_LEVEL1; LFU_LEVEL2; LFU_LEVEL3; LFU_LEVEL4]
  else if now =? 3 then [LFU_LEVEL2; LFU_LEVEL3; LFU_LEVEL4; LFU_LEVEL1]
  else if now =? 2 then [LFU_LEVEL3; LFU_LEVEL4; LFU_LEVEL1; LFU_LEVEL2]
  else [LFU_LEVEL4; LFU_LEVEL1; LFU_LEVEL2; LFU_LEVEL3].

Definition calc_count (s : nvm_sb_info) (ssd_segno : Z) : Z :=
  let raw := map (fun i => s32 (lfu_count s).[i].[ssd_segno]) [0; 1; 2; 3] in
  if forallb (fun c => c =? -1) raw then -1
  else
    let count := map (fun c => if c =? -1 then 0 else c) raw in
    foldl (fun nums '(c, w) => s32 (nums + s32 (c * w))) 0
      (zip count (lfu_weights (now_lfu_counter s))).

(** ** The two top-k searches *)

(** What the loop bodies do with an index: go on from after [to], skip the
    segment, or consider it with its count. *)
Inductive visit := Jump (to : Z) | Skip | Cand (cnt : Z).

Section select.
Context (sbi : f2fs_sb_info) (s : nvm_sb_info).

Definition max_candidate (pre_move : bool) (left_segoff right_segoff mpt_index : Z) : visit :=
  if (left_segoff <=? mpt_index) && (mpt_index <=? right_segoff) then Jump right_segoff
  else if negb (nz (get_map_flag s mpt_index)) then Skip
  else if pre_move && nz (get_double_flag s mpt_index) then Skip
  else
    let ssd_segno := get_mpt_value s mpt_index in
    if sec_usage_check sbi (GET_SEC_FROM_SEG sbi ssd_segno) then Skip
    else Cand (calc_count s ssd_segno).

Definition min_candidate (segoff : Z) : visit :=
  if nz (get_map_flag s (u32 (main_segment_nums (nsb s) + segoff))) then Skip
  else
    let count := calc_count s segoff in
    if count =? -1 then Skip
    else if sec_usage_check sbi (GET_SEC_FROM_SEG sbi segoff) then Skip
    else Cand count.
End select.

Section loops.
Context (before : Z -> Z -> bool) (accept : Z -> bool) (look : Z -> visit) (len : Z).

(** 1. fill the heap with the first [k] candidates *)
Fixpoint fill_heap (fuel : nat) (i : Z) (mh : lfu_heap) : outcome (Z * lfu_heap) :=
  if (i <? len) && (cur_num mh <? heap_k mh) then
    match fuel with
    | O => NoFuel
    | S fuel =>
        match look i with
        | Jump to => fill_heap fuel (to + 1) mh
        | Skip => fill_heap fuel (i + 1) mh
        | Cand c =>
            if accept c
            then mh <-- insert_heap before mh i c ;; fill_heap fuel (i + 1) mh
            else fill_heap fuel (i + 1) mh
        end
    end
  else Done (i, mh).

(** 2. let better candidates replace the root *)
Fixpoint refine_heap (fuel : nat) (i : Z) (mh : lfu_heap) : outcome lfu_heap :=
  if i <? len then
    match fuel with
    | O => NoFuel
    | S fuel =>
        match look i with
        | Jump to => refine_heap fuel (to + 1) mh
        | Skip => refine_heap fuel (i + 1) mh
        | Cand c =>
            if accept c && before (count (nodes mh).[0]) c
            then mh <-- adjust_down before
                          (mh <| nodes ::= fun ns => ns.[0 <- mk_heap_node (u64 c) (u32 i)] |>) ;;
                 refine_heap fuel (i + 1) mh
            else refine_heap fuel (i + 1) mh
        end
    end
  else Done mh.

Definition select_heap (mh : lfu_heap) : outcome lfu_heap :=
  r <-- fill_heap (Z.to_nat len) 0 mh ;;
  refine_heap (Z.to_nat len) (fst r) (snd r).
End loops.

Definition get_max_k (sbi : f2fs_sb_info) (s : nvm_sb_info) (mh : lfu_heap) (len : Z)
    (pre_move : bool) : outcome (Z * lfu_heap) :=
  let now := cur_alloc_nvm_segoff s in
  let left_segoff := if now <? 500 then 0 else now - 500 in
  let right_segoff := u32 (now + 50) in
  mh <-- select_heap max_before (fun c => 0 <=? c)
           (max_candidate sbi s pre_move left_segoff right_segoff) len mh ;;
  Done (if cur_num mh <? heap_k mh then - ENOCOLD else 0, mh).

Definition get_min_k (sbi : f2fs_sb_info) (s : nvm_sb_info) (mh : lfu_heap) (len : Z)
    : outcome (Z * lfu_heap) :=
  mh <-- select_heap min_before (fun c => 0 <? c) (min_candidate sbi s) len mh ;;
  Done (if cur_num mh <? heap_k mh then - ENOHOT else 0, mh).

(** ** The searches find the k extremal candidates *)

(** [i] is a candidate with count [c]. *)
Definition eligible (accept : Z -> bool) (look : Z -> visit) (len i c : Z) : Prop :=
  0 <= i < len /\ look i = Cand c /\ accept c = true.

Section select_proofs.
Context (before : Z -> Z -> bool) `{!HeapOrder before}.
Context (accept : Z -> bool) (look : Z -> visit) (len : Z).
Context (Hlen : len < 268435456).
Context (Hacc : forall i c, look i = Cand c -> accept c = true -> 0 <= c < 2147483648).
Context (Hjump : forall i to, look i = Jump to ->
           i <= to < 4294967296 /\ forall k, i <= k <= to -> exists to', look k = Jump to').

(** Candidates below [i], in the order of the scan. *)
Definition cands (i : Z) : list heap_node :=
  omap (fun n => let i := Z.of_nat n in
          match look i with
          | Cand c => if accept c then Some (mk_heap_node c i) else None
          | _ => None
          end) (seq 0 (Z.to_nat i)).

Lemma cands_S i : 0 <= i ->
  cands (i + 1) = cands i ++
    match look i with
    | Cand c => if accept c then [mk_heap_node c i] else []
    | _ => []
    end.
Proof.
  intros Hi. unfold cands. replace (Z.to_nat (i + 1)) with (Z.to_nat i + 1)%nat by lia.
  rewrite seq_app, omap_app. f_equal. simpl. rewrite Z2Nat.id by lia.
  destruct (look i); try done. by destruct (accept cnt).
Qed.
Lemma cands_skip i j : 0 <= i <= j ->
  (forall k c, i <= k < j -> look k = Cand c -> accept c = false) -> cands j = cands i.
Proof.
  intros Hij. replace j with (i + Z.of_nat (Z.to_nat (j - i))) by lia.
  generalize (Z.to_nat (j - i)). clear Hjump. intros n. induction n as [|n IH]; intros Hk.
  - f_equal; lia.
  - replace (i + Z.of_nat (S n)) with (i + Z.of_nat n + 1) by lia.
    rewrite cands_S by lia. rewrite IH by (intros; eapply Hk; eauto; lia).
    destruct (look (i + Z.of_nat n)) as [| |c] eqn:E; rewrite ?app_nil_r; try done.
    rewrite (Hk (i + Z.of_nat n) c) by (done || lia). by rewrite app_nil_r.
Qed.
(** The candidates a scan has seen when it stands at [i]. *)
Definition seen (i : Z) : list heap_node := cands (Z.min i len).
Lemma seen_S i : 0 <= i < len ->
  seen (i + 1) = seen i ++
    match look i with
    | Cand c => if accept c then [mk_heap_node c i] else []
    | _ => []
    end.
Proof. intros. unfold seen. rewrite !Z.min_l by lia. apply cands_S. lia. Qed.
Lemma seen_jump i to : 0 <= i < len -> look i = Jump to -> seen (to + 1) = seen i.
Proof.
  intros Hi E. destruct (Hjump _ _ E) as [? Hall]. apply cands_skip; [lia|].
  intros k c Hk Ec. destruct (Hall k) as [? ?]; [lia|]. congruence.
Qed.
Lemma cands_elem x i :
  0 <= i -> x ∈ cands i <->
  0 <= seg_off x < i /\ look (seg_off x) = Cand (count x) /\ accept (count x) = true.
Proof.
  intros Hi. unfold cands. rewrite list_elem_of_omap. split.
  - intros (n & Hn%elem_of_seq & E).
    destruct (look (Z.of_nat n)) as [| |c] eqn:El; try done.
    destruct (accept c) eqn:Ea; [|done]. injection E as <-. cbn. split_and!; lia || done.
  - intros (Hr & El & Ea). exists (Z.to_nat (seg_off x)). rewrite Z2Nat.id by lia.
    rewrite El, Ea. split; [apply elem_of_seq; lia|by destruct x].
Qed.
Lemma cands_NoDup i : NoDup (seg_off <$> cands i).
Proof.
  unfold cands. generalize (NoDup_seq 0 (Z.to_nat i)). generalize (seq 0 (Z.to_nat i)).
  induction l as [|n l IH]; cbn; [constructor|]. intros [Hn Hl]%list.NoDup_cons.
  destruct (look (Z.of_nat n)) as [| |c]; cbn; [by apply IH..|].
  destruct (accept c); cbn; [|by apply IH]. apply list.NoDup_cons. split; [|by apply IH].
  intros ([c' k] & Hk & Hin)%list_elem_of_fmap. cbn in Hk. subst k.
  apply list_elem_of_omap in Hin as (m & Hm & E).
  destruct (look (Z.of_nat m)) as [| |c'']; try done.
  destruct (accept c''); [|done]. injection E as _ E. apply Nat2Z.inj in E. by subst.
Qed.

Definition dominated (mh : lfu_heap) (rest : list heap_node) : Prop :=
  forall x y, x ∈ elems mh -> y ∈ rest -> before (count x) (count y) = false.

Lemma fill_heap_ok fuel i mh :
  heap_wf before mh -> 0 <= i -> (Z.to_nat (len - i) <= fuel)%nat ->
  elems mh ≡ₚ seen i ->
  exists i' mh', fill_heap before accept look len fuel i mh = Done (i', mh') /\
    heap_wf before mh' /\ i <= i' /\ elems mh' ≡ₚ seen i' /\ heap_k mh' = heap_k mh /\
    (len <= i' \/ cur_num mh' = heap_k mh').
Proof.
  revert i mh. induction fuel as [|fuel IH]; intros i mh W Hi Hf Hel;
    cbn [fill_heap]; destruct (Z.ltb_spec i len) as [Hl|Hl]; cbn [andb];
    try (exists i, mh; split_and!; try done; try lia; by left); try lia.
  destruct (Z.ltb_spec (cur_num mh) (heap_k mh)) as [Hk|Hk].
  2: { exists i, mh. split_and!; try done; try lia. right. pose proof (hw_num _ _ W). lia. }
  destruct (look i) as [to| |c] eqn:El.
  - destruct (Hjump _ _ El) as [? _].
    destruct (IH (to + 1) mh W) as (i' & mh' & ? & ? & ? & ?); [lia|lia| |].
    { by rewrite seen_jump with (i := i). }
    exists i', mh'. split_and!; try done; try lia; by destruct_and?.
  - destruct (IH (i + 1) mh W) as (i' & mh' & ? & ? & ? & ?); [lia|lia| |].
    { by rewrite seen_S, El, app_nil_r by lia. }
    exists i', mh'. split_and!; try done; try lia; by destruct_and?.
  - destruct (accept c) eqn:Ea.
    + destruct (insert_heap_ok before mh i c W Hk) as (mh1 & -> & W1 & He1 & ? & Hk1 & ?);
        [by eapply Hacc|lia|]. cbn [obind].
      destruct (IH (i + 1) mh1 W1) as (i' & mh' & ? & ? & ? & ? & ? & ?); [lia|lia| |].
      { rewrite seen_S, El, Ea, He1, Hel by lia. by rewrite Permutation_cons_append. }
      exists i', mh'. split_and!; try done; try lia.
    + destruct (IH (i + 1) mh W) as (i' & mh' & ? & ? & ? & ?); [lia|lia| |].
      { by rewrite seen_S, El, Ea, app_nil_r by lia. }
      exists i', mh'. split_and!; try done; try lia; by destruct_and?.
Qed.

Lemma before_irrefl a : before a a = false.
Proof. destruct (before a a) eqn:E; [|done]. by rewrite (before_asym a a E) in E. Qed.

(** Replacing the root by a better candidate keeps the rest dominated. *)
Lemma replace_dominated mh c i :
  heap_wf before mh -> 0 < cur_num mh -> 0 <= c < 2147483648 -> 0 <= i < 2147483648 ->
  before (count (nodes mh).[0]) c = true ->
  exists mh', adjust_down before
      (mh <| nodes ::= fun ns => ns.[0 <- mk_heap_node (u64 c) (u32 i)] |>) = Done mh' /\
    heap_wf before mh' /\ cur_num mh' = cur_num mh /\ heap_k mh' = heap_k mh /\
    forall rest, dominated mh rest ->
      dominated mh' ((nodes mh).[0] :: rest) /\
      elems mh' ++ (nodes mh).[0] :: rest ≡ₚ (elems mh ++ rest) ++ [mk_heap_node c i].
Proof.
  intros W Hp Hc Hi Hb.
  destruct (replace_root_ok before mh i c W Hp Hc Hi)
    as (mh' & tl & E & W' & P1 & P2 & ? & ? & _).
  exists mh'. rewrite (u64_id c), (u32_id i) by lia. split_and!; try done.
  intros rest Hd. split.
  - intros x y Hx Hy. rewrite P2 in Hx. apply elem_of_cons in Hx, Hy.
    destruct Hx as [->|Hx]; cbn [count].
    + assert (before c (count (nodes mh).[0]) = false) as Hcr by by apply before_asym.
      destruct Hy as [->|Hy]; [done|]. eapply before_trans; [exact Hcr|].
      apply Hd; [|done]. rewrite P1. by left.
    + destruct Hy as [->|Hy]; [|apply Hd; [rewrite P1; by right|done]].
      apply root_extremal; [done|done|]. rewrite P1. by right.
  - rewrite P1, P2. cbn. rewrite <- app_assoc. solve_Permutation.
Qed.

Lemma refine_heap_ok fuel i mh rest :
  heap_wf before mh -> 0 < cur_num mh -> 0 <= i -> (Z.to_nat (len - i) <= fuel)%nat ->
  elems mh ++ rest ≡ₚ seen i -> dominated mh rest ->
  exists i' mh' rest', refine_heap before accept look len fuel i mh = Done mh' /\
    heap_wf before mh' /\ len <= i' /\ elems mh' ++ rest' ≡ₚ seen i' /\
    dominated mh' rest' /\ cur_num mh' = cur_num mh /\ heap_k mh' = heap_k mh.
Proof.
  revert i mh rest. induction fuel as [|fuel IH]; intros i mh rest W Hp Hi Hf Hel Hd;
    cbn [refine_heap]; destruct (Z.ltb_spec i len) as [Hl|Hl]; try lia;
    try (by exists i, mh, rest).
  destruct (look i) as [to| |c] eqn:El.
  - destruct (Hjump _ _ El) as [? _].
    destruct (IH (to + 1) mh rest W) as (i' & mh' & rest' & ?); try done; [lia|lia| |by eauto].
    by rewrite seen_jump with (i := i).
  - destruct (IH (i + 1) mh rest W) as (i' & mh' & rest' & ?); try done; [lia|lia| |by eauto].
    by rewrite seen_S, El, app_nil_r by lia.
  - destruct (accept c) eqn:Ea; cbn [andb].
    2: { destruct (IH (i + 1) mh rest W) as (i' & mh' & rest' & ?); try done; [lia|lia| |by eauto].
         by rewrite seen_S, El, Ea, app_nil_r by lia. }
    destruct (before (count (nodes mh).[0]) c) eqn:Hb.
    + destruct (replace_dominated mh c i W Hp) as (mh1 & -> & W1 & Hn1 & Hk1 & Hr);
        [by eapply Hacc|lia|done|]. destruct (Hr rest Hd) as [Hd1 Hel1]. cbn [obind].
      destruct (IH (i + 1) mh1 ((nodes mh).[0] :: rest) W1)
        as (i' & mh' & rest' & ? & ? & ? & ? & ? & ? & ?); try done; [lia|lia|lia| |].
      { by rewrite seen_S, El, Ea, Hel1, Hel by lia. }
      exists i', mh', rest'. split_and!; try done; congruence.
    + destruct (IH (i + 1) mh (mk_heap_node c i :: rest) W)
        as (i' & mh' & rest' & ?); try done; [lia|lia| | |by eauto].
      * rewrite seen_S, El, Ea, <- Hel by lia. solve_Permutation.
      * intros x y Hx [->|Hy]%elem_of_cons; [|by apply Hd]. cbn [count].
        eapply before_trans; [|exact Hb]. by apply root_extremal.
Qed.

(** The heap holds distinct candidates with their counts; either it is full
    and no candidate left out is better than a chosen one, or every
    candidate is in it. *)
Definition selected (mh : lfu_heap) : Prop :=
  NoDup (seg_off <$> elems mh) /\
  (forall x, x ∈ elems mh -> eligible accept look len (seg_off x) (count x)) /\
  (forall i c, eligible accept look len i c -> mk_heap_node c i ∈ elems mh \/
     cur_num mh = heap_k mh /\ forall x, x ∈ elems mh -> before (count x) c = false).

Lemma select_heap_ok mh :
  0 <= len -> heap_wf before mh -> 0 < heap_k mh -> cur_num mh = 0 ->
  exists mh', select_heap before accept look len mh = Done mh' /\
    heap_wf before mh' /\ heap_k mh' = heap_k mh /\ selected mh'.
Proof.
  intros H0 W Hk Hn. unfold select_heap.
  destruct (fill_heap_ok (Z.to_nat len) 0 mh W) as (i1 & mh1 & -> & W1 & Hi1 & He1 & Hk1 & Hend);
    [lia|lia| |].
  { unfold elems. rewrite Hn. unfold seen. by rewrite Z.min_l by lia. }
  cbn [obind fst snd].
  assert (forall i x, len <= i -> x ∈ seen i <-> eligible accept look len (seg_off x) (count x)) as Hin.
  { intros i x Hi. unfold seen. rewrite Z.min_r by done. by apply cands_elem. }
  destruct (decide (cur_num mh1 = heap_k mh1)) as [Hfull|Hfull].
  - destruct (refine_heap_ok (Z.to_nat len) i1 mh1 [] W1)
      as (i2 & mh2 & rest & -> & W2 & Hi2 & He2 & Hd2 & Hn2 & Hk2);
      [lia|lia|lia|by rewrite app_nil_r|by intros x y _ ?%elem_of_nil|].
    exists mh2. split_and!; [done|done|congruence|].
    split; [|split].
    + pose proof (cands_NoDup (Z.min i2 len)) as Hnd. fold (seen i2) in Hnd. rewrite <- He2, fmap_app in Hnd.
      by apply list.NoDup_app in Hnd as [? _].
    + intros x Hx. apply (Hin i2); [done|]. rewrite <- He2. apply elem_of_app. by left.
    + intros j c Hj. apply (Hin i2 (mk_heap_node c j)) in Hj; [|done].
      rewrite <- He2 in Hj. apply elem_of_app in Hj as [?|Hj]; [by left|right].
      split; [congruence|]. intros x Hx. by apply (Hd2 x (mk_heap_node c j)).
  - destruct Hend as [Hend|]; [|done].
    exists mh1. split_and!; [|done|done|].
    { destruct (Z.to_nat len); cbn; replace (i1 <? len) with false by lia; done. }
    split; [|split].
    + rewrite He1. apply cands_NoDup.
    + intros x Hx. apply (Hin i1); [done|]. by rewrite <- He1.
    + intros j c Hj. left. rewrite He1. by apply Hin.
Qed.
End select_proofs.

(** ** The counters *)

Lemma s32_range x : -2147483648 <= s32 x < 2147483648.
Proof.
  unfold s32, u32. pose proof (Z.mod_pos_bound x (2 ^ 32)).
  destruct (Z.ltb_spec (x `mod` 2 ^ 32) (2 ^ 31)); lia.
Qed.
Lemma calc_count_range s j : -2147483648 <= calc_count s j < 2147483648.
Proof.
  unfold calc_count. destruct (forallb _ _); [lia|]. cbn [map zip zip_with].
  unfold lfu_weights. repeat destruct (_ =? _); cbn [foldl]; apply s32_range.
Qed.

(** Counter of [j] at distance [d] from the newest level; an unused level
    (-1) counts for nothing. *)
Definition level_count (s : nvm_sb_info) (j d : Z) : Z :=
  let c := (lfu_count s).[(now_lfu_counter s + d) mod 4].[j] in
  if c =? -1 then 0 else c.
(** Some level says that the segment was used. *)
Definition lfu_used (s : nvm_sb_info) (j : Z) : Prop :=
  exists i, 0 <= i < 4 /\ (lfu_count s).[i].[j] <> -1.
Definition lfu_ok (sbi : f2fs_sb_info) (s : nvm_sb_info) : Prop :=
  0 <= now_lfu_counter s < 4 /\ zlen (lfu_count s) = 4 /\
  forall i, 0 <= i < 4 -> segment_count_main sbi <= zlen (lfu_count s).[i] /\
    forall j, -1 <= (lfu_count s).[i].[j] < 100000000.

Lemma level_cases d : 0 <= d < 4 -> d = 0 \/ d = 1 \/ d = 2 \/ d = 3.
Proof. lia. Qed.

Lemma calc_count_eq sbi s j :
  lfu_ok sbi s -> lfu_used s j ->
  calc_count s j = 4 * level_count s j 0 + 3 * level_count s j 1
                 + 2 * level_count s j 2 + level_count s j 3.
Proof.
  intros (Hnow & _ & Hc) (u & Hu & Hne).
  assert (forall i, 0 <= i < 4 -> s32 (lfu_count s).[i].[j] = (lfu_count s).[i].[j]) as Hs.
  { intros i Hi. apply s32_id. pose proof (proj2 (Hc i Hi) j). lia. }
  unfold calc_count. cbn [map].
  rewrite !Hs by lia.
  pose proof (proj2 (Hc 0 ltac:(lia)) j). pose proof (proj2 (Hc 1 ltac:(lia)) j).
  pose proof (proj2 (Hc 2 ltac:(lia)) j). pose proof (proj2 (Hc 3 ltac:(lia)) j).
  replace (forallb _ _) with false.
  2: { symmetry. apply not_true_iff_false. cbn. rewrite !andb_true_iff, !Z.eqb_eq. intros (?&?&?&?&_).
       by destruct (level_cases u Hu) as [->|[->|[->| ->]]]. }
  unfold level_count.
  destruct (level_cases _ Hnow) as [En|[En|[En|En]]]; rewrite En;
    unfold lfu_weights, LFU_LEVEL1, LFU_LEVEL2, LFU_LEVEL3, LFU_LEVEL4.
  all: repeat match goal with |- context [(?a + ?b) mod 4] =>
         let v := eval compute in ((a + b) mod 4) in change ((a + b) mod 4) with v end.
  all: generalize dependent ((lfu_count s).[0].[j]); intros c0; 
    generalize dependent ((lfu_count s).[1].[j]); intros c1;
    generalize dependent ((lfu_count s).[2].[j]); intros c2;
    generalize dependent ((lfu_count s).[3].[j]); intros c3; intros;
    cbn [zip zip_with foldl Z.eqb].
  all: repeat match goal with |- context [if ?a =? -1 then 0 else ?a] =>
         let v := fresh "v" in
         assert (0 <= (if a =? -1 then 0 else a) < 100000000) by (destruct (Z.eqb_spec a (-1)); lia);
         set (v := if a =? -1 then 0 else a) in * end.
  all: cbn -[s32 Z.mul Z.add].
  all: repeat match goal with |- context [s32 ?e] =>
         lazymatch e with context [s32 _] => fail | _ => rewrite (s32_id e) by lia end end.
  all: lia.
Qed.

Lemma clear_level_get n i pre clr c l j :
  0 <= clr < zlen c -> pre <> clr -> 0 <= i -> i + Z.of_nat n <= zlen c.[clr] ->
  (clear_level n i pre clr c).[l].[j]
  = if (l =? clr) && (i <=? j) && (j <? i + Z.of_nat n) && negb (c.[pre].[j] =? -1)
    then 0 else c.[l].[j].
Proof.
  intros Hclr Hne. revert i c Hclr. induction n as [|n IH]; intros i c Hclr Hi Hn.
  { cbn [clear_level]. replace (i + Z.of_nat 0) with i by lia.
    destruct (_ && _ && _ && _) eqn:E; [|done]. rewrite !andb_true_iff in E. lia. }
  cbn [clear_level]. assert (Z.of_nat (S n) = Z.of_nat n + 1) as En by lia. rewrite En in *.
  destruct (c.[pre].[i] =? -1) eqn:Ei.
  - rewrite IH by (try done; lia). destruct (Z.eq_dec j i) as [->|].
    + rewrite Ei, !andb_false_r. done.
    + replace (i + 1 <=? j) with (i <=? j) by lia.
      by replace (i + 1 + Z.of_nat n) with (i + (Z.of_nat n + 1)) by lia.
  - set (c' := c.[clr <- _]). assert (forall l j, c'.[l].[j] = if (l =? clr) && (i =? j) then 0 else c.[l].[j]) as Hc'.
    { intros l' j'. subst c'. rewrite aget_aset by done. rewrite (Z.eqb_sym clr).
      destruct (Z.eqb_spec l' clr) as [->|]; [|done]. apply aget_aset. lia. }
    rewrite IH.
    + rewrite !Hc'. replace (pre =? clr) with false by lia. cbn [andb].
      replace (i + 1 + Z.of_nat n) with (i + (Z.of_nat n + 1)) by lia.
      destruct (Z.eqb_spec i j) as [<-|]; cbn [andb].
      * rewrite Ei. replace (i + 1 <=? i) with false by lia. replace (i <=? i) with true by lia.
        replace (i <? i + (Z.of_nat n + 1)) with true by lia.
        destruct (l =? clr); done.
      * rewrite andb_false_r. by replace (i + 1 <=? j) with (i <=? j) by lia.
    + subst c'. by rewrite zlen_aset.
    + lia.
    + subst c'. rewrite aget_aset_eq by done. rewrite zlen_aset. lia.
Qed.
Lemma clear_level_len n i pre clr c l :
  0 <= clr < zlen c ->
  zlen (clear_level n i pre clr c) = zlen c /\ zlen (clear_level n i pre clr c).[l] = zlen c.[l].
Proof.
  intros Hclr. revert i c Hclr. induction n as [|n IH]; intros i c Hclr; [done|].
  cbn [clear_level]. destruct (_ =? -1); [by apply IH|].
  destruct (IH (i + 1) (c.[clr <- c.[clr].[i <- 0]])) as [-> ->]; [by rewrite zlen_aset|].
  rewrite zlen_aset, aget_aset by done. split; [done|].
  destruct (Z.eqb_spec clr l) as [->|]; by rewrite ?zlen_aset.
Qed.

(** The ring moves back by one; only the new newest level changes. *)
Lemma move_get sbi s l j :
  lfu_ok sbi s -> 0 <= j < segment_count_main sbi ->
  let clr := (now_lfu_counter s + 3) mod 4 in
  now_lfu_counter (nvm_move_lfu_count sbi s) = clr /\ clr <> now_lfu_counter s /\
  (lfu_count (nvm_move_lfu_count sbi s)).[l].[j] =
  if (l =? clr) && negb ((lfu_count s).[now_lfu_counter s].[j] =? -1)
  then 0 else (lfu_count s).[l].[j].
Proof.
  intros (Hnow & Hlen & Hc) Hj. unfold nvm_move_lfu_count, LFU_LEVELS. cbv zeta.
  set (now := now_lfu_counter s) in *.
  assert ((if now =? 0 then 4 - 1 else now - 1) = (now + 3) mod 4) as ->
    by (destruct (level_cases _ Hnow) as [->|[->|[->| ->]]]; done).
  cbn [lfu_count now_lfu_counter upd]. set (clr := (now + 3) mod 4) in *.
  assert (0 <= clr < 4) as Hclr by (apply Z.mod_pos_bound; lia).
  assert (clr <> now) as Hne
    by (subst clr; destruct (level_cases _ Hnow) as [->|[->|[->| ->]]]; done).
  split_and!; [done|done|]. pose proof (proj1 (Hc clr Hclr)).
  rewrite clear_level_get by lia. rewrite Z.add_0_l, Z2Nat.id by lia.
  replace (0 <=? j) with true by lia. replace (j <? segment_count_main sbi) with true by lia.
  by rewrite !andb_true_r.
Qed.

(** Distance 0 after a move was distance 3 before, and is cleared unless the
    newest counter said "unused"; the other distances shift by one. *)
Lemma move_level_count sbi s j d :
  lfu_ok sbi s -> 0 <= j < segment_count_main sbi -> 0 <= d < 4 ->
  level_count (nvm_move_lfu_count sbi s) j d =
  if d =? 0 then
    if (lfu_count s).[now_lfu_counter s].[j] =? -1 then level_count s j 3 else 0
  else level_count s j (d - 1).
Proof.
  intros L Hj Hd. pose proof L as (Hnow & _). unfold level_count.
  destruct (move_get sbi s (((now_lfu_counter s + 3) mod 4 + d) mod 4) j L Hj) as (-> & Hne & ->).
  assert (((now_lfu_counter s + 3) mod 4 + d) mod 4 =
          if d =? 0 then (now_lfu_counter s + 3) mod 4 else (now_lfu_counter s + (d - 1)) mod 4) as ->.
  { destruct (level_cases _ Hd) as [->|[->|[->| ->]]];
      destruct (level_cases _ Hnow) as [->|[->|[->| ->]]]; done. }
  destruct (Z.eqb_spec d 0) as [->|Hd0].
  - rewrite Z.eqb_refl. cbn [andb]. by destruct ((lfu_count s).[now_lfu_counter s].[j] =? -1).
  - replace ((now_lfu_counter s + (d - 1)) mod 4 =? (now_lfu_counter s + 3) mod 4)
      with false; [done|]. symmetry. apply Z.eqb_neq.
    destruct (level_cases _ Hd) as [->|[->|[->| ->]]];
      destruct (level_cases _ Hnow) as [->|[->|[->| ->]]]; done.
Qed.

Lemma move_lfu_ok sbi s :
  0 <= segment_count_main sbi -> lfu_ok sbi s -> lfu_ok sbi (nvm_move_lfu_count sbi s).
Proof.
  intros HS (Hnow & Hlen & Hc). unfold nvm_move_lfu_count, LFU_LEVELS.
  set (clr := if now_lfu_counter s =? 0 then 4 - 1 else now_lfu_counter s - 1).
  assert (0 <= clr < 4 /\ clr <> now_lfu_counter s) as [Hclr Hne].
  { subst clr. destruct (Z.eqb_spec (now_lfu_counter s) 0); lia. }
  split; [done|]. cbn [lfu_count now_lfu_counter upd].
  pose proof (fun l => clear_level_len (Z.to_nat (segment_count_main sbi)) 0
    (now_lfu_counter s) clr (lfu_count s) l ltac:(lia)) as L.
  split; [rewrite (proj1 (L 0)); lia|]. intros i Hi. rewrite (proj2 (L i)).
  split; [by apply Hc|]. intros j. pose proof (proj1 (Hc clr Hclr)).
  rewrite clear_level_get by lia. pose proof (proj2 (Hc i Hi) j).
  destruct (_ && _); lia.
Qed.

(** Moving the ring ages a segment in use: each level loses one unit of
    weight and the oldest is dropped, so its count decreases by the sum of
    its counters. *)
Theorem nvm_move_lfu_count_ages sbi s j :
  lfu_ok sbi s -> 0 <= j < segment_count_main sbi ->
  (lfu_count s).[now_lfu_counter s].[j] <> -1 ->
  lfu_ok sbi (nvm_move_lfu_count sbi s) /\
  calc_count (nvm_move_lfu_count sbi s) j =
  calc_count s j - (level_count s j 0 + level_count s j 1 + level_count s j 2 + level_count s j 3).
Proof.
  intros L Hj Hu. pose proof L as (Hnow & Hlen & Hc).
  assert (lfu_used s j) as U by by exists (now_lfu_counter s).
  assert (0 <= segment_count_main sbi) as HS by lia.
  pose proof (move_lfu_ok sbi s HS L) as L'. split; [done|].
  rewrite (calc_count_eq sbi s) by done. rewrite (calc_count_eq sbi (nvm_move_lfu_count sbi s)).
  - rewrite !(move_level_count sbi s) by (done || lia). cbn [Z.eqb Z.sub].
    destruct (Z.eqb_spec ((lfu_count s).[now_lfu_counter s].[j]) (-1)); [done|].
    change (1 - 1) with 0; change (2 - 1) with 1; change (3 - 1) with 2. lia.
  - done.
  - (* the level that was newest is kept *)
    destruct (move_get sbi s (now_lfu_counter s) j L Hj) as (_ & Hne & Eg).
    exists (now_lfu_counter s). split; [done|]. rewrite Eg.
    by replace (now_lfu_counter s =? _) with false by lia.
Qed.

(** A freed segment is not aged but heated: when its newest counter is -1 the
    oldest one is not cleared, and moves from weight 1 to weight 4. *)
Theorem nvm_move_lfu_count_stale sbi s j :
  lfu_ok sbi s -> 0 <= j < segment_count_main sbi ->
  (lfu_count s).[now_lfu_counter s].[j] = -1 ->
  level_count (nvm_move_lfu_count sbi s) j 0 = level_count s j 3.
Proof. intros L Hj Hu. rewrite move_level_count by (done || lia). by rewrite Hu. Qed.

(** ** What the searches return *)

(** NVM segment [i] may be moved to the SSD: it is mapped, not near the
    allocation point, its partner is not in use and has count [c]. *)
Definition victim (sbi : f2fs_sb_info) (s : nvm_sb_info) (pre_move : bool) (i c : Z) : Prop :=
  0 <= i < main_segment_nums (nsb s) /\
  ~ (cur_alloc_nvm_segoff s - 500 <= i <= cur_alloc_nvm_segoff s + 50) /\
  (pre_move = true -> Z.testbit (mpt s).[i] 2 = false) /\
  exists j, nvm_lookup s i = Some j /\ sec_usage_check sbi (GET_SEC_FROM_SEG sbi j) = false /\
    c = calc_count s j /\ 0 <= c.

(** SSD segment [j] may be moved to the NVM with count [c]. *)
Definition hot_segment (sbi : f2fs_sb_info) (s : nvm_sb_info) (j c : Z) : Prop :=
  0 <= j < segment_count_main sbi /\ ssd_lookup s j = None /\
  sec_usage_check sbi (GET_SEC_FROM_SEG sbi j) = false /\ c = calc_count s j /\ 0 < c.

Section get_specs.
Context (sbi : f2fs_sb_info) (s : nvm_sb_info) (W : mpt_wf sbi s).

Lemma max_candidate_spec pre i c :
  let now := cur_alloc_nvm_segoff s in
  eligible (fun c => 0 <=? c)
    (max_candidate sbi s pre (if now <? 500 then 0 else now - 500) (u32 (now + 50)))
    (main_segment_nums (nsb s)) i c <-> victim sbi s pre i c.
Proof.
  intros now. subst now. pose proof W as []. unfold eligible, victim, max_candidate. set (cur := cur_alloc_nvm_segoff s) in *.
  rewrite (u32_id (cur + 50)) by lia. unfold nvm_lookup.
  split.
  - intros (Hi & E & Ha). destruct (_ && _) eqn:Ew in E; [done|].
    assert (0 <= i < 268435456) as Hi' by lia. rewrite (map_flag_lookup s i Hi').
    destruct (nz (get_map_flag s i)) eqn:Em; [|done]. cbn [negb] in E.
    destruct (pre && nz (get_double_flag s i)) eqn:Ed; [done|].
    destruct (sec_usage_check _ _) eqn:Es; [done|]. injection E as <-.
    split_and!; [lia|lia| | |].
    + apply andb_false_iff in Ew. destruct (Z.ltb_spec cur 500); lia.
    + intros ->. cbn [andb] in Ed. by rewrite <- double_flag_bit.
    + exists (get_mpt_value s i). split_and!; done || lia.
  - intros (Hi & Hw & Hd & j & Hl & Es & -> & Hc). split; [done|]. split; [|lia].
    assert (0 <= i < 268435456) as Hi' by lia. rewrite (map_flag_lookup s i Hi') in Hl.
    destruct (nz (get_map_flag s i)) eqn:Em; [|done]. injection Hl as <-.
    replace (_ && (i <=? cur + 50)) with false.
    2: { symmetry. apply andb_false_iff. destruct (Z.ltb_spec cur 500); lia. }
    cbn [negb]. rewrite Es. rewrite double_flag_bit by lia.
    destruct pre; [by rewrite Hd|done].
Qed.

Lemma min_candidate_spec i c :
  eligible (fun c => 0 <? c) (min_candidate sbi s) (segment_count_main sbi) i c
  <-> hot_segment sbi s i c.
Proof.
  pose proof W as []. unfold eligible, hot_segment, min_candidate, ssd_lookup.
  split.
  - intros (Hi & E & Ha). rewrite (u32_id (_ + i)) in E by lia.
    rewrite map_flag_lookup by lia. destruct (nz _); [done|].
    destruct (_ =? -1); [done|]. destruct (sec_usage_check _ _) eqn:Es; [done|].
    injection E as <-. split_and!; done || lia.
  - intros (Hi & Hl & Es & -> & Hc). split; [done|]. split; [|lia].
    rewrite (u32_id (_ + i)) by lia. rewrite map_flag_lookup in Hl by lia.
    destruct (nz _); [done|]. replace (calc_count s i =? -1) with false by lia. by rewrite Es.
Qed.
End get_specs.

Lemma get_max_k_ok sbi s mh pre :
  mpt_wf sbi s -> heap_wf max_before mh -> 0 < heap_k mh -> cur_num mh = 0 ->
  exists ret mh', get_max_k sbi s mh (main_segment_nums (nsb s)) pre = Done (ret, mh') /\
    heap_wf max_before mh' /\ heap_k mh' = heap_k mh /\
    (ret = 0 /\ cur_num mh' = heap_k mh \/ ret = - ENOCOLD /\ cur_num mh' < heap_k mh) /\
    NoDup (seg_off <$> elems mh') /\
    (forall x, x ∈ elems mh' -> victim sbi s pre (seg_off x) (count x)) /\
    (forall i c, victim sbi s pre i c -> mk_heap_node c i ∈ elems mh' \/
       ret = 0 /\ forall x, x ∈ elems mh' -> count x <= c).
Proof.
  intros W Hw Hk Hn. unfold get_max_k. pose proof W as []. set (cur := cur_alloc_nvm_segoff s) in *.
  destruct (select_heap_ok max_before (fun c => 0 <=? c)
    (max_candidate sbi s pre (if cur <? 500 then 0 else cur - 500) (u32 (cur + 50)))
    (main_segment_nums (nsb s)) ltac:(lia)) with (mh := mh) as (mh' & -> & W' & Hk' & Hnd & Hin & Hall);
    try done.
  - intros i c E Ha. split; [lia|]. revert E. unfold max_candidate.
    repeat (case_match; try done); intros [= <-]; apply calc_count_range.
  - intros i to. rewrite (u32_id (cur + 50)) by lia. unfold max_candidate at 1.
    destruct (_ && _) eqn:E; [|by repeat (case_match; try done)]. intros [= <-].
    split; [lia|]. intros k Hk2. unfold max_candidate.
    apply andb_true_iff in E. replace (_ && _) with true; [by eexists|].
    symmetry. apply andb_true_iff. lia.
  - cbn [obind]. rewrite Hk'. pose proof (hw_num _ _ W').
    eexists _, _. split; [done|]. split_and!; try done.
    + destruct (Z.ltb_spec (cur_num mh') (heap_k mh)); [right|left]; split; done || lia.
    + intros x Hx. by apply max_candidate_spec, Hin.
    + intros i c Hv. apply max_candidate_spec in Hv; [|done].
      destruct (Hall i c Hv) as [?|[Hf Hd]]; [by left|right].
      replace (cur_num mh' <? heap_k mh) with false by lia. split; [done|].
      intros x Hx. specialize (Hd x Hx). unfold max_before in Hd. lia.
Qed.

Lemma get_min_k_ok sbi s mh :
  mpt_wf sbi s -> heap_wf min_before mh -> 0 < heap_k mh -> cur_num mh = 0 ->
  exists ret mh', get_min_k sbi s mh (segment_count_main sbi) = Done (ret, mh') /\
    heap_wf min_before mh' /\ heap_k mh' = heap_k mh /\
    (ret = 0 /\ cur_num mh' = heap_k mh \/ ret = - ENOHOT /\ cur_num mh' < heap_k mh) /\
    NoDup (seg_off <$> elems mh') /\
    (forall x, x ∈ elems mh' -> hot_segment sbi s (seg_off x) (count x)) /\
    (forall j c, hot_segment sbi s j c -> mk_heap_node c j ∈ elems mh' \/
       ret = 0 /\ forall x, x ∈ elems mh' -> c <= count x).
Proof.
  intros W Hw Hk Hn. unfold get_min_k. pose proof W as [].
  destruct (select_heap_ok min_before (fun c => 0 <? c) (min_candidate sbi s)
    (segment_count_main sbi) ltac:(lia)) with (mh := mh) as (mh' & -> & W' & Hk' & Hnd & Hin & Hall);
    try done.
  - intros i c E Ha. split; [lia|]. revert E. unfold min_candidate.
    repeat (case_match; try done); intros [= <-]; apply calc_count_range.
  - intros i to. unfold min_candidate. by repeat (case_match; try done).
  - cbn [obind]. rewrite Hk'. pose proof (hw_num _ _ W').
    eexists _, _. split; [done|]. split_and!; try done.
    + destruct (Z.ltb_spec (cur_num mh') (heap_k mh)); [right|left]; split; done || lia.
    + intros x Hx. by apply min_candidate_spec, Hin.
    + intros i c Hv. apply min_candidate_spec in Hv; [|done].
      destruct (Hall i c Hv) as [?|[Hf Hd]]; [by left|right].
      replace (cur_num mh' <? heap_k mh) with false by lia. split; [done|].
      intros x Hx. specialize (Hd x Hx). unfold min_before in Hd. lia.
Qed.

(** C33. The victims get_max_k leaves in the heap are the coldest ones: distinct
    victims with their counts, all of them when -ENOCOLD is returned; otherwise
    exactly [k], none hotter than a victim left out. *)
Theorem get_max_k_coldest sbi s mh pre :
  mpt_wf sbi s -> heap_wf max_before mh -> 0 < heap_k mh -> cur_num mh = 0 ->
  exists ret mh', get_max_k sbi s mh (main_segment_nums (nsb s)) pre = Done (ret, mh') /\
    (ret = 0 /\ cur_num mh' = heap_k mh \/ ret = - ENOCOLD /\ cur_num mh' < heap_k mh) /\
    NoDup (seg_off <$> elems mh') /\
    (forall x, x ∈ elems mh' -> victim sbi s pre (seg_off x) (count x)) /\
    (forall i c, victim sbi s pre i c -> mk_heap_node c i ∈ elems mh' \/
       ret = 0 /\ forall x, x ∈ elems mh' -> count x <= c).
Proof.
  intros W Hw Hk Hn. destruct (get_max_k_ok sbi s mh pre W Hw Hk Hn) as (r & mh' & ? & _ & _ & ?).
  by exists r, mh'.
Qed.

(** The segments get_min_k leaves in the heap are the hottest ones. *)
Theorem get_min_k_hottest sbi s mh :
  mpt_wf sbi s -> heap_wf min_before mh -> 0 < heap_k mh -> cur_num mh = 0 ->
  exists ret mh', get_min_k sbi s mh (segment_count_main sbi) = Done (ret, mh') /\
    (ret = 0 /\ cur_num mh' = heap_k mh \/ ret = - ENOHOT /\ cur_num mh' < heap_k mh) /\
    NoDup (seg_off <$> elems mh') /\
    (forall x, x ∈ elems mh' -> hot_segment sbi s (seg_off x) (count x)) /\
    (forall j c, hot_segment sbi s j c -> mk_heap_node c j ∈ elems mh' \/
       ret = 0 /\ forall x, x ∈ elems mh' -> c <= count x).
Proof.
  intros W Hw Hk Hn. destruct (get_min_k_ok sbi s mh W Hw Hk Hn) as (r & mh' & ? & _ & _ & ?).
  by exists r, mh'.
Qed.

(** A device of 60 NVM segments with NVM segment 55 mapped to SSD segment 2,
    which has been read five times; SSD segment 3, unmapped, nine times. *)
Definition lfu_nsb : nvm_super_block := {|
  uuid := []; mpt_blkaddr := 16; ra_blkaddr := 24; nsb_main_blkaddr := 24;
  lfu_blkaddr0 := 2; lfu_blkaddr1 := 3; ra_blk_nums := 0; main_first_segno := 4;
  main_segment_nums := 60; main_segment_free_nums := 60; mpt_ver_map_bits := 1;
  mpt_entries := 64;
|}.
Definition lfu_demo : nvm_sb_info :=
  let s := @init_nvm_sb_info linux_format demo_sbi 0 lfu_nsb in
  (set_lfu (set_lfu (@create_mapping linux_format (allocated s 55) 2 55 3) 2 5) 3 9)
    <| cur_alloc_nvm_segoff := 0 |>.
Lemma lfu_demo_wf : mpt_wf demo_sbi lfu_demo.
Proof.
  assert (mpt_wf demo_sbi (@init_nvm_sb_info linux_format demo_sbi 0 lfu_nsb)) as W.
  { apply init_mpt_wf; cbn; try done; apply linux_format_ok. }
  assert (mpt_wf demo_sbi (@create_mapping linux_format (allocated
            (@init_nvm_sb_info linux_format demo_sbi 0 lfu_nsb) 55) 2 55 3)) as W2.
  { apply create_mapping_wf; try done; try (cbn; lia); [|by vm_compute..].
    apply allocated_wf; done || (cbn; lia). }
  clear W. destruct W2. split; try assumption; cbn; lia.
Qed.

Lemma get_max_k_coldest_witness :
  exists mh', get_max_k demo_sbi lfu_demo (init_max_heap 1) 60 false = Done (0, mh') /\
    victim demo_sbi lfu_demo false 55 20 /\ elems mh' = [mk_heap_node 20 55].
Proof.
  destruct (get_max_k_coldest demo_sbi lfu_demo (init_max_heap 1) false lfu_demo_wf)
    as (ret & mh' & E & _ & _ & Hin & _); [by apply init_heap_wf|done|done|].
  vm_compute in E. injection E as <- <-. eexists. split; [vm_compute; reflexivity|].
  split; [|reflexivity]. apply (Hin (mk_heap_node 20 55)). by left.
Defined.

Lemma get_min_k_hottest_witness :
  exists mh', get_min_k demo_sbi lfu_demo (init_min_heap 1) 4 = Done (0, mh') /\
    hot_segment demo_sbi lfu_demo 3 36 /\ elems mh' = [mk_heap_node 36 3].
Proof.
  destruct (get_min_k_hottest demo_sbi lfu_demo (init_min_heap 1) lfu_demo_wf)
    as (ret & mh' & E & _ & _ & Hin & _); [by apply init_heap_wf|done|done|].
  vm_compute in E. injection E as <- <-. eexists. split; [vm_compute; reflexivity|].
  split; [|reflexivity]. apply (Hin (mk_heap_node 36 3)). by left.
Defined.

Lemma aget_forallb {A} `{Inhabited A} (P : A -> bool) (l : list A) i :
  forallb P l = true -> P inhabitant = true -> P l.[i] = true.
Proof.
  intros Hl Hi. destruct (decide (0 <= i < zlen l)) as [Hr|Hr]; [|by rewrite aget_oob].
  rewrite forallb_forall in Hl. apply Hl.
  apply list_elem_of_In, (list_elem_of_lookup_2 _ (Z.to_nat i)), lookup_aget, Hr.
Qed.
Lemma lfu_ok_check sbi s :
  0 <= now_lfu_counter s < 4 -> zlen (lfu_count s) = 4 ->
  forallb (fun l => (segment_count_main sbi <=? zlen l) &&
     forallb (fun c => (-1 <=? c) && (c <? 100000000)) l) (lfu_count s) = true ->
  lfu_ok sbi s.
Proof.
  intros Hn Hl Hf. split; [done|]. split; [done|]. intros i Hi.
  rewrite forallb_forall in Hf. specialize (Hf (lfu_count s).[i]).
  apply andb_true_iff in Hf as [H1 H2].
  - split; [lia|]. intros j. pose proof (aget_forallb _ _ j H2 eq_refl) as Hj. cbv beta in Hj.
    apply andb_true_iff in Hj. lia.
  - apply list_elem_of_In, (list_elem_of_lookup_2 _ (Z.to_nat i)), lookup_aget. lia.
Qed.
Lemma lfu_demo_ok : lfu_ok demo_sbi lfu_demo.
Proof. by apply lfu_ok_check. Qed.

Lemma nvm_move_lfu_count_ages_witness :
  calc_count lfu_demo 2 = 20 /\ calc_count (nvm_move_lfu_count demo_sbi lfu_demo) 2 = 15.
Proof.
  destruct (nvm_move_lfu_count_ages demo_sbi lfu_demo 2 lfu_demo_ok) as [_ E];
    [cbn; lia|by vm_compute|]. rewrite E. split; vm_compute; reflexivity.
Defined.

(** Segment 2 was freed after being read seven times, three periods ago. *)
Definition lfu_stale : nvm_sb_info :=
  lfu_demo <| lfu_count := [[0; 0; -1; 0]; [0; 0; 0; 0]; [0; 0; 0; 0]; [0; 0; 7; 0]] |>.
Lemma nvm_move_lfu_count_stale_witness :
  calc_count lfu_stale 2 = 7 /\
  level_count (nvm_move_lfu_count demo_sbi lfu_stale) 2 0 = 7 /\
  calc_count (nvm_move_lfu_count demo_sbi lfu_stale) 2 = 28.
Proof.
  rewrite (nvm_move_lfu_count_stale demo_sbi lfu_stale 2);
    [by vm_compute|by apply lfu_ok_check|cbn; lia|done].
Defined.
