(* ===== verification/Redirect.v ===== *)
(** * Redirection of block I/O ([nvm.c], [data.c])

    Every block I/O of the file system is built for the SSD and redirected to
    the NVM just before submission: [nvm_redirect_bio] for bios,
    [nvm_redirect_dio] for direct I/O. *)
From S2P Require Import Prelude Geometry Heap Mpt FreeMap.
Open Scope Z_scope.

(** enum page_type, as far as the I/O path distinguishes it *)
Inductive page_type := DATA | NODE | META | NR_PAGE_TYPE | META_FLUSH.
#[export] Instance page_type_eq_dec : EqDecision page_type.
Proof. solve_decision. Defined.

(** The devices: sb->s_bdev, nsbi->nbdev and the members of a multi-device
    volume. *)
Inductive bdev := s_bdev | nbdev | fdev (n : Z).
#[export] Instance bdev_eq_dec : EqDecision bdev.
Proof. solve_decision. Defined.

(** struct bio: [A] is the content of a page; all pages are whole blocks. *)
Record bio (A : Type) := mk_bio {
  bi_bdev : bdev;
  bi_sector : Z;
  bi_read : bool;          (* is_read_io(bio_op(bio)) *)
  bi_pages : list A;
}.
Arguments mk_bio {A}. Arguments bi_bdev {A}. Arguments bi_sector {A}.
Arguments bi_read {A}. Arguments bi_pages {A}.
#[export] Instance eta_bio A : Eta (bio A) := fun b =>
  mk_bio (bi_bdev b) (bi_sector b) (bi_read b) (bi_pages b).
Definition bi_vcnt {A} (b : bio A) : Z := zlen (bi_pages b).

(** struct buffer_head, for direct I/O *)
Record buffer_head := mk_bh { b_blocknr : Z; b_bdev : bdev }.

(** Load statistics: the globals the load monitor maintains. *)
Record io_load := mk_load { write_ratio : Z; ssd_aqu_sz : Z; nvm_aqu_sz : Z }.

Definition write_threshold : Z := 10.
Definition nvm_aqu_threshold : Z := 97.
Definition use_ssd (ld : io_load) (s : nvm_sb_info) (index : Z) : bool :=
  if (write_ratio ld <? write_threshold) && nz (get_double_flag s index) then
    let local_ssd_aqu_sz := if ssd_aqu_sz ld =? 0 then 1 else ssd_aqu_sz ld in
    let local_nvm_aqu_sz := if nvm_aqu_sz ld =? 0 then 1 else nvm_aqu_sz ld in
    let ratio := u32 (100 * local_nvm_aqu_sz) / u32 (local_ssd_aqu_sz + local_nvm_aqu_sz) in
    nvm_aqu_threshold <=? ratio
  else false.

Definition get_size_count (size : Z) : Z :=
  if size <? 4 then 5 else if size <? 8 then 3 else if size <? 16 then 2 else 1.

(** atomic_add to the newest LFU level *)
Definition lfu_add (s : nvm_sb_info) (segoff n : Z) : nvm_sb_info :=
  s <| lfu_count ::= fun l =>
         l.[now_lfu_counter s <-
            l.[now_lfu_counter s].[segoff <- s32 (l.[now_lfu_counter s].[segoff] + n)]] |>.

Section redirect.
Context `{F2fsFormat} {A : Type}.
Context (sbi : f2fs_sb_info).

(** nvm_redirect_bio: the bio as it is submitted, and the LFU counters *)
Definition nvm_redirect_bio (s : nvm_sb_info) (b : bio A) (type : page_type)
    : bio A * nvm_sb_info :=
  if decide (type = META \/ type = META_FLUSH) then
    if negb (nz (Z.land (nvm_flag s) NVM_FIRST_MOUNR)) || negb (bi_read b)
    then (b <| bi_bdev := nbdev |>, s) else (b, s)
  else
    let ssd_blk_addr := u32 (SECTOR_TO_BLOCK (bi_sector b)) in
    let ssd_segno := GET_SEGNO_FROM_SEG0 sbi ssd_blk_addr in
    let ssd_main_segoff := u32 (ssd_segno - GET_SEGNO_FROM_SEG0 sbi (main_blkaddr sbi)) in
    let index := u32 (main_segment_nums (nsb s) + ssd_main_segoff) in
    let offset := GET_BLKOFF_FROM_SEG0 sbi ssd_blk_addr in
    let redirect_flag := get_redirect_flag s index in
    let s' := if bi_read b then lfu_add s ssd_main_segoff (get_size_count (bi_vcnt b)) else s in
    if negb (nz redirect_flag) then (b, s')
    else
      let nvm_main_segoff := get_mpt_value s' index in
      let nvm_blk_addr :=
        u32 (nsb_main_blkaddr (nsb s') + u32 (nvm_main_segoff * blocks_per_seg sbi) + offset) in
      (b <| bi_sector := SECTOR_FROM_BLOCK nvm_blk_addr |> <| bi_bdev := nbdev |>, s').

Definition nvm_redirect_dio (s : nvm_sb_info) (bh : buffer_head) (blk_nums : Z) (write : bool)
    : buffer_head * nvm_sb_info :=
  let ssd_blk_addr := u32 (b_blocknr bh) in
  let ssd_segno := GET_SEGNO_FROM_SEG0 sbi ssd_blk_addr in
  let ssd_main_segoff := u32 (ssd_segno - GET_SEGNO_FROM_SEG0 sbi (main_blkaddr sbi)) in
  let index := u32 (main_segment_nums (nsb s) + ssd_main_segoff) in
  let offset := GET_BLKOFF_FROM_SEG0 sbi ssd_blk_addr in
  let redirect_flag := get_redirect_flag s index in
  let s' := if write then s else lfu_add s ssd_main_segoff (get_size_count blk_nums) in
  if negb (nz redirect_flag) then (bh, s')
  else
    let nvm_main_segoff := get_mpt_value s' index in
    let nvm_blk_addr :=
      u32 (nsb_main_blkaddr (nsb s') + u32 (nvm_main_segoff * blocks_per_seg sbi) + offset) in
    (mk_bh nvm_blk_addr nbdev, s').
End redirect.

(** ** Where a main-area block lives *)

(** The NVM device is large enough for its main area. *)
Record nvm_geom_wf (sbi : f2fs_sb_info) (s : nvm_sb_info) : Prop := {
  ng_main : 0 <= nsb_main_blkaddr (nsb s);
  ng_top : nsb_main_blkaddr (nsb s) + main_segment_nums (nsb s) * blocks_per_seg sbi < 4294967296;
}.

Definition nvm_block (sbi : f2fs_sb_info) (s : nvm_sb_info) (i off : Z) : Z :=
  nsb_main_blkaddr (nsb s) + i * blocks_per_seg sbi + off.

(** The NVM segment that serves SSD segment [j], if its I/O is redirected. *)
Definition redirected (s : nvm_sb_info) (j : Z) : option Z :=
  let e := (mpt s).[main_segment_nums (nsb s) + j] in
  if Z.testbit e 1 then Some (Z.shiftr e 3) else None.

(** Device and block address of block [off] of SSD segment [j]. *)
Definition place (sbi : f2fs_sb_info) (s : nvm_sb_info) (j off : Z) : bdev * Z :=
  match redirected s j with
  | Some i => (nbdev, nvm_block sbi s i off)
  | None => (s_bdev, main_block sbi j off)
  end.

Lemma lfu_add_same s j n :
  mpt (lfu_add s j n) = mpt s /\ nsb (lfu_add s j n) = nsb s /\
  segment_map (lfu_add s j n) = segment_map s.
Proof. done. Qed.

Lemma redirected_mapped sbi s j i :
  mpt_wf sbi s -> 0 <= j < segment_count_main sbi ->
  redirected s j = Some i -> ssd_lookup s j = Some i.
Proof.
  intros W Hj Hr. unfold redirected in Hr.
  assert (0 <= main_segment_nums (nsb s) + j < main_segment_nums (nsb s) + segment_count_main sbi) as Hk
    by (destruct W; lia).
  destruct (Z.testbit _ 1) eqn:E; [|done]. unfold ssd_lookup.
  destruct (entry_lookup _) eqn:El.
  - unfold entry_lookup in El. destruct (Z.testbit _ 0); [|done]. congruence.
  - rewrite (mw_clear _ _ W _ Hk El) in E. done.
Qed.

Section redirect_specs.
Context `{F2fsFormatOk} {A : Type}.
Context (sbi : f2fs_sb_info) (G : geom_wf sbi).
Context (s : nvm_sb_info) (W : mpt_wf sbi s) (NG : nvm_geom_wf sbi s).

Lemma sector_roundtrip b : 0 <= b < 4294967296 -> u32 (SECTOR_TO_BLOCK (SECTOR_FROM_BLOCK b)) = b.
Proof.
  intros Hb. unfold SECTOR_FROM_BLOCK, SECTOR_TO_BLOCK.
  pose proof log_sectors_range as Hl. set (L := F2FS_LOG_SECTORS_PER_BLOCK) in *.
  rewrite Z.shiftl_mul_pow2 by lia.
  assert (0 < 2 ^ L <= 2 ^ 8) by (split; [apply Z.pow_pos_nonneg|apply Z.pow_le_mono_r]; lia).
  change (2 ^ 8) with 256 in *. rewrite u64_id by nia.
  rewrite Z.shiftr_div_pow2, Z.div_mul by lia. width. done.
Qed.

Lemma redirected_range j i :
  0 <= j < segment_count_main sbi -> redirected s j = Some i -> 0 <= i < main_segment_nums (nsb s).
Proof.
  intros Hj Hr. apply (redirected_mapped sbi) in Hr; [|done|done].
  by destruct (mw_ssd _ _ W j i Hj Hr).
Qed.

Section at_block.
Context (j off : Z) (Hj : 0 <= j < segment_count_main sbi) (Ho : 0 <= off < blocks_per_seg sbi).

Lemma main_block_u32 : 0 <= main_block sbi j off < 4294967296.
Proof.
  pose proof (main_block_range sbi G j off Hj Ho). pose proof (bps_pos sbi G).
  destruct G. nia.
Qed.
Lemma redirect_index :
  u32 (GET_SEGNO_FROM_SEG0 sbi (main_block sbi j off)
       - GET_SEGNO_FROM_SEG0 sbi (main_blkaddr sbi)) = j /\
  u32 (main_segment_nums (nsb s) + j) = main_segment_nums (nsb s) + j /\
  0 <= main_segment_nums (nsb s) + j < 268435456.
Proof.
  rewrite segno_main_block, main_area_segno by done. destruct W.
  rewrite !u32_id by lia. split_and!; lia.
Qed.
Lemma nvm_block_u32 i :
  redirected s j = Some i ->
  u32 (nsb_main_blkaddr (nsb s) + u32 (i * blocks_per_seg sbi) + off) = nvm_block sbi s i off.
Proof.
  intros Hr. apply redirected_range in Hr; [|done]. destruct NG. pose proof (bps_pos sbi G).
  unfold nvm_block. rewrite (u32_id (i * _)) by nia. apply u32_id. nia.
Qed.

(** nvm_redirect_bio on data and node I/O *)
Lemma redirect_bio_ok (b : bio A) type :
  type <> META -> type <> META_FLUSH ->
  bi_sector b = SECTOR_FROM_BLOCK (main_block sbi j off) -> bi_bdev b = s_bdev ->
  nvm_redirect_bio sbi s b type =
  (b <| bi_sector := SECTOR_FROM_BLOCK (snd (place sbi s j off)) |>
     <| bi_bdev := fst (place sbi s j off) |>,
   if bi_read b then lfu_add s j (get_size_count (bi_vcnt b)) else s).
Proof.
  intros Ht1 Ht2 Hs Hd. unfold nvm_redirect_bio.
  destruct (decide _) as [[|]|]; [done..|].
  rewrite Hs, sector_roundtrip by apply main_block_u32. cbv zeta.
  destruct redirect_index as (-> & -> & Hk).
  rewrite blkoff_main_block by done.
  set (s' := if bi_read b then _ else s).
  assert (mpt s' = mpt s /\ nsb s' = nsb s) as [Em En] by (subst s'; by destruct (bi_read b)).
  rewrite redirect_flag_bit by done. unfold place.
  destruct (redirected s j) as [i|] eqn:Er.
  - pose proof (nvm_block_u32 i Er) as Hn. unfold redirected in Er.
    destruct (Z.testbit _ 1) eqn:Et; [|done]. injection Er as Ei. cbn [negb fst snd].
    unfold get_mpt_value. rewrite Em, En. change rw_bits with 3. rewrite s32_id by lia.
    rewrite Ei, Hn. done.
  - unfold redirected in Er. destruct (Z.testbit _ 1); [done|]. cbn [negb fst snd].
    rewrite <- Hs, <- Hd. by destruct b.
Qed.

Lemma redirect_dio_ok blk_nums write :
  nvm_redirect_dio sbi s (mk_bh (main_block sbi j off) s_bdev) blk_nums write =
  (mk_bh (snd (place sbi s j off)) (fst (place sbi s j off)),
   if write then s else lfu_add s j (get_size_count blk_nums)).
Proof.
  unfold nvm_redirect_dio. cbn [b_blocknr]. rewrite (u32_id (main_block _ _ _)) by apply main_block_u32.
  cbv zeta. destruct redirect_index as (-> & -> & Hk).
  rewrite blkoff_main_block by done.
  set (s' := if write then s else _).
  assert (mpt s' = mpt s /\ nsb s' = nsb s) as [Em En] by (subst s'; by destruct write).
  rewrite redirect_flag_bit by done. unfold place.
  destruct (redirected s j) as [i|] eqn:Er.
  - pose proof (nvm_block_u32 i Er) as Hn. unfold redirected in Er.
    destruct (Z.testbit _ 1) eqn:Et; [|done]. injection Er as Ei. cbn [negb fst snd].
    unfold get_mpt_value. rewrite Em, En. change rw_bits with 3. rewrite s32_id by lia.
    rewrite Ei, Hn. done.
  - unfold redirected in Er. by destruct (Z.testbit _ 1).
Qed.
End at_block.

(** Different blocks live in different places. *)
Lemma place_inj j off j' off' :
  0 <= j < segment_count_main sbi -> 0 <= off < blocks_per_seg sbi ->
  0 <= j' < segment_count_main sbi -> 0 <= off' < blocks_per_seg sbi ->
  place sbi s j off = place sbi s j' off' -> j = j' /\ off = off'.
Proof.
  intros Hj Ho Hj' Ho'. unfold place, nvm_block, main_block. pose proof (bps_pos sbi G).
  destruct (redirected s j) as [i|] eqn:E, (redirected s j') as [i'|] eqn:E'; intros Heq;
    try discriminate Heq; apply (f_equal snd) in Heq; cbn in Heq.
  - assert (i = i') as -> by nia. split; [|nia].
    apply (redirected_mapped sbi) in E, E'; try done.
    pose proof (proj2 (mw_ssd _ _ W _ _ Hj E)). pose proof (proj2 (mw_ssd _ _ W _ _ Hj' E')).
    congruence.
  - assert (j = j') by nia. split; [done|nia].
Qed.
End redirect_specs.
