(* ===== verification/BlockIo.v ===== *)
(** * Building, merging and submitting bios ([data.c])

    [f2fs_submit_page_write] merges consecutive blocks into one bio and cuts
    it at segment boundaries, because [nvm_redirect_bio] looks at the first
    block only.  The composition writes each page where the mapping table says
    the block lives: two devices implement one flat block store. *)
From S2P Require Import Prelude Geometry Heap Mpt FreeMap Machine Redirect.
Open Scope Z_scope.

(** The block layer: [bio_full b] when bio_add_page(b) returns less than
    PAGE_SIZE. *)
Class BlockLayer (A : Type) := bio_full : bio A -> bool.
(** A bio just allocated takes at least one page. *)
Class BlockLayerOk (A : Type) `{BlockLayer A} : Prop :=
  bio_empty_not_full b : bi_pages b = [] -> bio_full b = false.

(** Contents of the devices. *)
Definition disk (A : Type) : Type := bdev -> Z -> A.

(** struct f2fs_io_info *)
Record f2fs_io_info (A : Type) := mk_fio {
  fio_type : page_type;
  fio_op_flags : Z;
  new_blkaddr : Z;
  fio_page : A;
}.
Arguments mk_fio {A}. Arguments fio_type {A}. Arguments fio_op_flags {A}.
Arguments new_blkaddr {A}. Arguments fio_page {A}.

(** struct f2fs_bio_info: [io_fio] is the type and flags of the pending bio. *)
Record f2fs_bio_info (A : Type) := mk_io {
  io_bio : option (bio A);
  io_fio : page_type * Z;
  last_block_in_bio : Z;
}.
Arguments mk_io {A}. Arguments io_bio {A}. Arguments io_fio {A}. Arguments last_block_in_bio {A}.

Definition f2fs_dev_info : Type := Z * Z * bdev.   (* start_blk, end_blk, bdev *)

Section submit.
Context `{F2fsFormat} {A : Type} `{BlockLayer A}.
Context (sbi : f2fs_sb_info) (devs : list f2fs_dev_info).
Context (io_size : Z) (dummy : A).

Fixpoint find_device (l : list f2fs_dev_info) (blk_addr : Z) : bdev * Z :=
  match l with
  | [] => (s_bdev, blk_addr)
  | (start, stop, dev) :: l =>
      if (start <=? blk_addr) && (blk_addr <=? stop) then (dev, blk_addr - start)
      else find_device l blk_addr
  end.
(** f2fs_target_device on a new bio *)
Definition f2fs_target_device (blk_addr : Z) (read : bool) : bio A :=
  let p := find_device devs blk_addr in
  mk_bio (fst p) (SECTOR_FROM_BLOCK (snd p)) read [].
Definition __same_bdev (blk_addr : Z) (b : bio A) : bool :=
  bool_decide (bi_bdev b = fst (find_device devs blk_addr)).

Definition bio_add_page (b : bio A) (page : A) : option (bio A) :=
  if bio_full b then None else Some (b <| bi_pages ::= fun l => l ++ [page] |>).

(** The dummy pages of __submit_bio. *)
Fixpoint add_dummies (n : nat) (b : bio A) : outcome (bio A) :=
  match n with
  | O => Done b
  | S n => match bio_add_page b dummy with
           | None => Bug
           | Some b => add_dummies n b
           end
  end.

(** __submit_bio up to submit_bio: the redirected bio, the counters, and
    whether SBI_NEED_CP is set *)
Definition __submit_bio (s : nvm_sb_info) (b : bio A) (type : page_type)
    : outcome (bio A * nvm_sb_info * bool) :=
  r <-- (if bi_read b then Done (b, false)
         else if negb (bool_decide (type = DATA)) && negb (bool_decide (type = NODE))
         then Done (b, false)
         else
           let start := bi_vcnt b mod io_size in
           if start =? 0 then Done (b, false)
           else
             b <-- add_dummies (Z.to_nat (io_size - start)) b ;;
             Done (b, bool_decide (type = NODE))) ;;
  let p := nvm_redirect_bio sbi s (fst r) type in
  Done (fst p, snd p, snd r).

(** __submit_merged_bio: the bios handed to __submit_bio with their type *)
Definition __submit_merged_bio (io : f2fs_bio_info A)
    : f2fs_bio_info A * list (bio A * page_type) :=
  match io_bio io with
  | None => (io, [])
  | Some b => (mk_io None (io_fio io) (last_block_in_bio io), [(b, fst (io_fio io))])
  end.

(** alloc_new: a bio for the page, submitting full ones; the flag is
    [fio->retry] *)
Fixpoint add_to_bio (fuel : nat) (io : f2fs_bio_info A) (fio : f2fs_io_info A)
    : outcome (f2fs_bio_info A * list (bio A * page_type) * bool) :=
  match fuel with
  | O => NoFuel
  | S fuel =>
      let add b (io : f2fs_bio_info A) :=
        match bio_add_page b (fio_page fio) with
        | Some b => Done (mk_io (Some b) (io_fio io) (new_blkaddr fio), [], false)
        | None =>
            let r := __submit_merged_bio (mk_io (Some b) (io_fio io) (last_block_in_bio io)) in
            q <-- add_to_bio fuel (fst r) fio ;;
            Done (fst (fst q), snd r ++ snd (fst q), snd q)
        end in
      match io_bio io with
      | None =>
          if (bool_decide (fio_type fio = DATA) || bool_decide (fio_type fio = NODE))
             && nz (Z.land (new_blkaddr fio) (io_size - 1))
          then Done (io, [], true)
          else add (f2fs_target_device (new_blkaddr fio) false)
                   (mk_io None (fio_type fio, fio_op_flags fio) (last_block_in_bio io))
      | Some b => add b io
      end
  end.

(** f2fs_submit_page_write for one page *)
Definition f2fs_submit_page_write (io : f2fs_bio_info A) (fio : f2fs_io_info A)
    : outcome (f2fs_bio_info A * list (bio A * page_type) * bool) :=
  let r := match io_bio io with
           | Some b =>
               if negb (last_block_in_bio io =? u32 (new_blkaddr fio - 1))
                  || negb (snd (io_fio io) =? fio_op_flags fio)
                  || negb (__same_bdev (new_blkaddr fio) b)
               then __submit_merged_bio io else (io, [])
           | None => (io, [])
           end in
  let io := fst r in
  let is_meta := negb (bool_decide (fio_type fio = DATA)) && negb (bool_decide (fio_type fio = NODE)) in
  let r2 := match io_bio io with
            | Some _ =>
                if negb is_meta
                   && negb (GET_SEGNO_FROM_SEG0 sbi (last_block_in_bio io)
                            =? GET_SEGNO_FROM_SEG0 sbi (new_blkaddr fio))
                then __submit_merged_bio io else (io, [])
            | None => (io, [])
            end in
  q <-- add_to_bio 2 (fst r2) fio ;;
  Done (fst (fst q), snd r ++ snd r2 ++ snd (fst q), snd q).

(** fio->in_list: the pages of io_list one after the other *)
Fixpoint submit_pages (io : f2fs_bio_info A) (fios : list (f2fs_io_info A))
    : outcome (f2fs_bio_info A * list (bio A * page_type)) :=
  match fios with
  | [] => Done (io, [])
  | fio :: fios =>
      r <-- f2fs_submit_page_write io fio ;;
      q <-- submit_pages (fst (fst r)) fios ;;
      Done (fst q, snd (fst r) ++ snd q)
  end.

(** submit_bio of the block layer on a redirected bio. *)
Definition bio_block (b : bio A) : Z := SECTOR_TO_BLOCK (bi_sector b).
Definition disk_write `{Inhabited A} (d : disk A) (b : bio A) : disk A := fun dev blk =>
  if bool_decide (dev = bi_bdev b) && (bio_block b <=? blk) && (blk <? bio_block b + bi_vcnt b)
  then (bi_pages b).[blk - bio_block b] else d dev blk.
Definition disk_read (d : disk A) (b : bio A) : list A :=
  map (fun k => d (bi_bdev b) (bio_block b + k)) (seqZ 0 (bi_vcnt b)).

Fixpoint run_bios `{Inhabited A} (s : nvm_sb_info) (d : disk A) (bs : list (bio A * page_type))
    : outcome (disk A * nvm_sb_info) :=
  match bs with
  | [] => Done (d, s)
  | (b, type) :: bs =>
      r <-- __submit_bio s b type ;;
      run_bios (snd (fst r)) (disk_write d (fst (fst r))) bs
  end.

(** Write a list of pages back: merge them, flush the merged bio, run. *)
Definition write_back `{Inhabited A} (s : nvm_sb_info) (d : disk A) (fios : list (f2fs_io_info A))
    : outcome (disk A * nvm_sb_info) :=
  r <-- submit_pages (mk_io None (DATA, 0) 0) fios ;;
  run_bios s d (snd r ++ snd (__submit_merged_bio (fst r))).
End submit.

(** ** The flat store the two devices implement *)

(** Content of block [off] of SSD segment [j]. *)
Definition view {A} (sbi : f2fs_sb_info) (s : nvm_sb_info) (d : disk A) (j off : Z) : A :=
  let p := place sbi s j off in d (fst p) (snd p).

Section merging.
Context `{F2fsFormatOk} {A : Type} `{Inhabited A} `{BlockLayerOk A}.
Context (sbi : f2fs_sb_info) (G : geom_wf sbi).

Definition in_volume (j off : Z) : Prop :=
  0 <= j < segment_count_main sbi /\ 0 <= off < blocks_per_seg sbi.

(** A write bio of consecutive blocks inside segment [j]. *)
Definition seg_bio (b : bio A) (j off : Z) : Prop :=
  bi_bdev b = s_bdev /\ bi_read b = false /\
  0 <= j < segment_count_main sbi /\ 0 <= off /\ 0 < bi_vcnt b /\
  off + bi_vcnt b <= blocks_per_seg sbi /\
  bi_sector b = SECTOR_FROM_BLOCK (main_block sbi j off).
(** The pages of a bio with the blocks they go to. *)
Definition blocks_of (b : bio A) : list (Z * A) :=
  zip (seqZ (bio_block b) (bi_vcnt b)) (bi_pages b).

Definition data_type (t : page_type) : Prop := t = DATA \/ t = NODE.
Definition data_bio (p : bio A * page_type) : Prop :=
  data_type (snd p) /\ exists j off, seg_bio (fst p) j off.

Definition io_ok (io : f2fs_bio_info A) : Prop :=
  match io_bio io with
  | None => True
  | Some b => data_type (fst (io_fio io)) /\ exists j off, seg_bio b j off /\
              last_block_in_bio io = main_block sbi j (off + bi_vcnt b - 1)
  end.
Definition pending (io : f2fs_bio_info A) : list (Z * A) :=
  match io_bio io with None => [] | Some b => blocks_of b end.
Definition fio_ok (fio : f2fs_io_info A) : Prop :=
  data_type (fio_type fio) /\
  exists j off, in_volume j off /\ new_blkaddr fio = main_block sbi j off.
Definition outs (l : list (bio A * page_type)) : list (Z * A) := l ≫= (fun p => blocks_of (fst p)).

Lemma sector_block b : 0 <= b < 4294967296 -> SECTOR_TO_BLOCK (SECTOR_FROM_BLOCK b) = b.
Proof.
  intros Hb. pose proof (sector_roundtrip b Hb) as Hr. revert Hr.
  unfold SECTOR_FROM_BLOCK, SECTOR_TO_BLOCK. pose proof log_sectors_range.
  set (L := F2FS_LOG_SECTORS_PER_BLOCK) in *.
  assert (0 < 2 ^ L <= 2 ^ 8) by (split; [apply Z.pow_pos_nonneg|apply Z.pow_le_mono_r]; lia).
  change (2 ^ 8) with 256 in *. rewrite Z.shiftl_mul_pow2, u64_id by nia.
  by rewrite Z.shiftr_div_pow2, Z.div_mul by lia.
Qed.
Lemma seg_bio_block b j off : seg_bio b j off -> bio_block b = main_block sbi j off.
Proof.
  intros (_ & _ & Hj & Ho & Hn & Hl & E). unfold bio_block. rewrite E. apply sector_block.
  apply main_block_u32; done || lia.
Qed.

Lemma blocks_of_snoc b page :
  blocks_of (b <| bi_pages ::= fun l => l ++ [page] |>)
  = blocks_of b ++ [(bio_block b + bi_vcnt b, page)].
Proof.
  unfold blocks_of, bi_vcnt, bio_block. cbn. rewrite zlen_app.
  unfold zlen. cbn. rewrite seqZ_app, zip_with_app by (rewrite ?length_seqZ; lia). done.
Qed.

Lemma submit_merged_ok io :
  io_ok io ->
  let r := __submit_merged_bio io in
  io_bio (fst r) = None /\ Forall data_bio (snd r) /\ outs (snd r) = pending io.
Proof.
  unfold io_ok, __submit_merged_bio, pending. destruct (io_bio io) as [b|] eqn:E; cbn.
  - intros (Ht & j & off & Hs & _). split_and!; [done| |by rewrite app_nil_r].
    constructor; [|done]. split; [done|]. by exists j, off.
  - intros _. rewrite E. by split_and!.
Qed.

(** A new bio for the page. *)
Lemma fresh_bio_ok fuel io fio :
  io_bio io = None -> fio_ok fio ->
  exists io', add_to_bio [] 1 (S fuel) io fio = Done (io', [], false) /\ io_ok io' /\
    pending io' = [(new_blkaddr fio, fio_page fio)].
Proof.
  intros E (Ht & j & off & [Hj Ho] & En). cbn [add_to_bio]. rewrite E.
  change (1 - 1) with 0. rewrite Z.land_0_r. cbn [nz negb Z.eqb]. rewrite andb_false_r.
  unfold bio_add_page. rewrite (bio_empty_not_full (f2fs_target_device _ _ _)) by done.
  eexists. split; [done|].
  pose proof (main_block_u32 sbi G j off Hj Ho) as Hb.
  split; unfold io_ok, pending; cbn [io_bio].
  - split; [done|]. exists j, off.
    unfold seg_bio, bi_vcnt, zlen. cbn. rewrite En. split.
    + split_and!; lia || done.
    + f_equal. lia.
  - rewrite blocks_of_snoc. unfold blocks_of, bi_vcnt, bio_block, zlen. cbn.
    rewrite En, sector_block, Z.add_0_r by done. done.
Qed.

Lemma add_to_bio_full fuel io fio b :
  io_bio io = Some b -> bio_full b = true ->
  add_to_bio [] 1 (S fuel) io fio =
  let r := __submit_merged_bio (mk_io (Some b) (io_fio io) (last_block_in_bio io)) in
  q <-- add_to_bio [] 1 fuel (fst r) fio ;; Done (fst (fst q), snd r ++ snd (fst q), snd q).
Proof. intros E F. cbn [add_to_bio]. rewrite E. unfold bio_add_page. by rewrite F. Qed.
Lemma add_to_bio_room fuel io fio b :
  io_bio io = Some b -> bio_full b = false ->
  add_to_bio [] 1 (S fuel) io fio =
  Done (mk_io (Some (b <| bi_pages ::= fun l => l ++ [fio_page fio] |>)) (io_fio io)
          (new_blkaddr fio), [], false).
Proof. intros E F. cbn [add_to_bio]. rewrite E. unfold bio_add_page. by rewrite F. Qed.

Lemma submit_page_write_ok io fio :
  io_ok io -> fio_ok fio ->
  exists io' out, f2fs_submit_page_write sbi [] 1 io fio = Done (io', out, false) /\
    io_ok io' /\ Forall data_bio out /\
    outs out ++ pending io' = pending io ++ [(new_blkaddr fio, fio_page fio)].
Proof.
  intros Hio Hf. unfold f2fs_submit_page_write.
  set (r := match io_bio io with Some b => _ | None => _ end).
  assert (io_ok (fst r) /\ Forall data_bio (snd r) /\
    outs (snd r) ++ pending (fst r) = pending io /\
    (io_bio (fst r) = None \/ fst r = io /\ last_block_in_bio io = u32 (new_blkaddr fio - 1)))
    as (Hr1 & Hr2 & Hr3 & Hr4).
  { pose proof (submit_merged_ok io Hio) as (Hm1 & Hm2 & Hm3). subst r.
    destruct (io_bio io) as [b|] eqn:Eb; [|cbn; split_and!; try done; by left].
    destruct (_ || _) eqn:Ec.
    - split_and!; [by unfold io_ok; rewrite Hm1|done| |by left].
      unfold pending at 1. rewrite Hm1, app_nil_r. done.
    - split_and!; try done. right. split; [done|].
      apply orb_false_iff in Ec as [[Ec _]%orb_false_iff _]. lia. }
  clearbody r. destruct r as [io1 o1]. cbn [fst snd] in *.
  assert (negb (negb (bool_decide (fio_type fio = DATA)) && negb (bool_decide (fio_type fio = NODE))) = true)
    as ->.
  { destruct (proj1 Hf) as [->| ->]; done. }
  cbn [andb]. set (r2 := match io_bio io1 with Some _ => _ | None => _ end).
  assert (Forall data_bio (snd r2) /\ outs (snd r2) ++ pending (fst r2) = pending io1 /\
    (io_bio (fst r2) = None \/
     fst r2 = io1 /\ last_block_in_bio io1 = u32 (new_blkaddr fio - 1) /\
     GET_SEGNO_FROM_SEG0 sbi (last_block_in_bio io1) = GET_SEGNO_FROM_SEG0 sbi (new_blkaddr fio)))
    as (Hs2 & Hs3 & Hs4).
  { pose proof (submit_merged_ok io1 Hr1) as (Hm1 & Hm2 & Hm3). subst r2.
    destruct (io_bio io1) as [b|] eqn:Eb; [|cbn; split_and!; try done; by left].
    destruct (negb _) eqn:Ec.
    - split_and!; [done| |by left]. unfold pending at 1. rewrite Hm1, app_nil_r. done.
    - split_and!; try done. right. destruct Hr4 as [|[-> Hl]]; [congruence|].
      split_and!; try done. apply negb_false_iff in Ec. lia. }
  clearbody r2. destruct r2 as [io2 o2]. cbn [fst snd] in *.
  destruct (io_bio io2) as [b|] eqn:Eb.
  2: { destruct (fresh_bio_ok 1 io2 fio Eb Hf) as (io' & -> & Hio' & Hp).
       cbn [obind fst snd]. eexists _, _. split; [done|]. split; [done|]. split.
       - rewrite app_nil_r. by apply Forall_app.
       - unfold outs in *. rewrite app_nil_r, bind_app, <- app_assoc, Hp.
         unfold pending in Hs3 at 1. rewrite Eb, app_nil_r in Hs3. rewrite Hs3.
         by rewrite app_assoc, Hr3. }
  destruct Hs4 as [|(-> & Hl & Hseg)]; [congruence|].
  destruct (bio_full b) eqn:Efull.
  - rewrite (add_to_bio_full 1 io1 fio b Eb Efull). cbv zeta. (* full: submit it and start a new one *)
    destruct (submit_merged_ok (mk_io (Some b) (io_fio io1) (last_block_in_bio io1)))
      as (Hm1 & Hm2 & Hm3); [unfold io_ok in *; by rewrite Eb in Hr1|].
    destruct (fresh_bio_ok 0 _ fio Hm1 Hf) as (io' & Ha & Hio' & Hp).
    rewrite Ha. cbn [obind fst snd].
    eexists _, _. split; [done|]. split; [done|]. split.
    + rewrite app_nil_r. by repeat apply Forall_app_2.
    + unfold outs in *. rewrite app_nil_r, !bind_app, Hm3, <- !app_assoc, Hp.
      rewrite (app_assoc (o2 ≫= _)).
      change (pending (mk_io (Some b) (io_fio io1) (last_block_in_bio io1))) with (blocks_of b).
      unfold pending in Hs3. rewrite Eb in Hs3. rewrite Hs3.
      unfold pending in Hr3. rewrite Eb in Hr3. by rewrite app_assoc, Hr3.
  - rewrite (add_to_bio_room 1 io1 fio b Eb Efull). (* append to the pending bio: the next block of the same segment *)
    cbn [obind fst snd]. eexists _, _. split; [done|].
    unfold io_ok in Hr1. rewrite Eb in Hr1. destruct Hr1 as (Ht & j & off & Hsb & Hlast).
    destruct Hf as (Htf & j' & off' & [Hj' Ho'] & Enew).
    pose proof Hsb as (Hdev & Hrd & Hj & Ho & Hn & Hle & Hsec).
    pose proof (main_block_u32 sbi G j' off' Hj' Ho').
    pose proof (main_block_u32 sbi G j (off + bi_vcnt b - 1) Hj ltac:(lia)).
    rewrite Hlast, Enew, !segno_main_block in Hseg by (done || lia).
    assert (j' = j) as -> by lia.
    assert (off' = off + bi_vcnt b) as ->.
    { rewrite Hlast, Enew in Hl. unfold main_block in *.
      pose proof (gw_log _ G). pose proof (gw_bps _ G).
      assert (2 ^ log_blocks_per_seg sbi <= 2 ^ 16) by (apply Z.pow_le_mono_r; lia).
      assert (0 <= main_blkaddr sbi) by (pose proof (bps_pos sbi G); destruct G; nia).
      assert (0 <= main_blkaddr sbi + j * blocks_per_seg sbi + off' - 1) as Hpos.
      { destruct (Z.eq_dec (main_blkaddr sbi + j * blocks_per_seg sbi + off') 0) as [Ez|]; [|lia].
        rewrite Ez in Hl. change (u32 (0 - 1)) with 4294967295 in Hl. nia. }
      rewrite u32_id in Hl by lia. lia. }
    split_and!.
    + unfold io_ok. cbn [io_bio io_fio last_block_in_bio]. split; [done|]. exists j, off.
      unfold seg_bio, bi_vcnt in *. cbn. rewrite zlen_app. unfold zlen in *. cbn. rewrite Enew.
      split_and!; try done; try lia. f_equal. lia.
    + rewrite app_nil_r. by apply Forall_app_2.
    + unfold outs in *. rewrite app_nil_r, bind_app. unfold pending. cbn [io_bio].
      unfold pending in Hr3, Hs3. rewrite Eb in Hs3, Hr3. rewrite blocks_of_snoc, (seg_bio_block _ _ _ Hsb).
      rewrite <- Hr3, <- !app_assoc. f_equal.
      rewrite app_assoc, Hs3. rewrite Enew. unfold main_block. do 3 f_equal. lia.
Qed.

Lemma submit_pages_ok fios io :
  io_ok io -> Forall fio_ok fios ->
  exists io' out, submit_pages sbi [] 1 io fios = Done (io', out) /\
    io_ok io' /\ Forall data_bio out /\
    outs out ++ pending io' = pending io ++ map (fun f => (new_blkaddr f, fio_page f)) fios.
Proof.
  revert io. induction fios as [|fio fios IH]; intros io Hio Hf; cbn [submit_pages].
  { exists io, []. split; [done|]. split; [done|]. split; [done|]. cbn. by rewrite app_nil_r. }
  apply list.Forall_cons in Hf as [Hf Hfs].
  destruct (submit_page_write_ok io fio Hio Hf) as (io1 & o1 & -> & Hio1 & Ho1 & Hp1).
  cbn [obind fst snd]. destruct (IH io1 Hio1 Hfs) as (io2 & o2 & -> & Hio2 & Ho2 & Hp2).
  cbn [obind fst snd]. eexists _, _. split; [done|]. split; [done|]. split; [by apply Forall_app_2|].
  unfold outs in *. rewrite bind_app, <- app_assoc, Hp2, app_assoc, Hp1. cbn [map].
  by rewrite <- app_assoc.
Qed.
End merging.

(** Writing pages to a flat store: the last write to a block wins. *)
Definition flat_write {A} (v : Z -> A) (l : list (Z * A)) : Z -> A :=
  foldl (fun v p a => if a =? fst p then snd p else v a) v l.

(** The flat store seen through the mapping: SSD block address to content. *)
Definition store {A} (sbi : f2fs_sb_info) (s : nvm_sb_info) (d : disk A) (a : Z) : A :=
  view sbi s d ((a - main_blkaddr sbi) / blocks_per_seg sbi)
               ((a - main_blkaddr sbi) mod blocks_per_seg sbi).
Definition in_main_area (sbi : f2fs_sb_info) (a : Z) : Prop :=
  main_blkaddr sbi <= a < main_blkaddr sbi + segment_count_main sbi * blocks_per_seg sbi.

Lemma flat_write_run {A} `{Inhabited A} (pages : list A) v base a :
  flat_write v (zip (seqZ base (zlen pages)) pages) a
  = if (base <=? a) && (a <? base + zlen pages) then pages.[a - base] else v a.
Proof.
  induction pages as [|x pages IH] using rev_ind.
  { change (zlen []) with 0. rewrite Z.add_0_r. destruct (_ && _) eqn:E; [|done]. apply andb_true_iff in E. lia. }
  rewrite zlen_app. pose proof (zlen_nonneg pages).
  change (zlen [x]) with 1. rewrite seqZ_app by lia.
  rewrite zip_with_app by (unfold zlen; rewrite length_seqZ; lia).
  unfold flat_write in *. rewrite foldl_app. cbn [seqZ zip zip_with foldl fmap list_fmap].
  change (seqZ (base + zlen pages) 1) with [base + zlen pages]. cbn [zip zip_with foldl fst snd].
  destruct (Z.eqb_spec a (base + zlen pages)) as [->|Hne].
  - replace (_ && _) with true by (symmetry; apply andb_true_iff; lia). rewrite aget_app_r by lia.
    by replace (base + zlen pages - base - zlen pages) with 0 by lia.
  - rewrite IH. destruct (Z.leb_spec base a), (Z.ltb_spec a (base + zlen pages)); cbn [andb].
    + replace (a <? base + (zlen pages + 1)) with true by lia. by rewrite aget_app_l by lia.
    + by replace (a <? base + (zlen pages + 1)) with false by lia.
    + done.
    + done.
Qed.

Section writing.
Context `{F2fsFormatOk} {A : Type} `{Inhabited A} `{BlockLayerOk A}.
Context (sbi : f2fs_sb_info) (G : geom_wf sbi).
Context (s : nvm_sb_info) (W : mpt_wf sbi s) (NG : nvm_geom_wf sbi s).

Lemma place_shift j off off' :
  place sbi s j off' = (fst (place sbi s j off), snd (place sbi s j off) + (off' - off)).
Proof.
  unfold place, nvm_block, main_block. destruct (redirected s j); cbn; f_equal; lia.
Qed.
Lemma place_u32 j off :
  0 <= j < segment_count_main sbi -> 0 <= off < blocks_per_seg sbi ->
  0 <= snd (place sbi s j off) < 4294967296.
Proof.
  intros Hj Ho. unfold place. destruct (redirected s j) as [i|] eqn:E; cbn.
  - apply (redirected_range sbi s W) in E; [|done]. unfold nvm_block.
    destruct NG. pose proof (bps_pos sbi G). nia.
  - by apply main_block_u32.
Qed.

Lemma main_addr a :
  in_main_area sbi a ->
  let j := (a - main_blkaddr sbi) / blocks_per_seg sbi in
  let off := (a - main_blkaddr sbi) mod blocks_per_seg sbi in
  in_volume sbi j off /\ a = main_block sbi j off.
Proof.
  intros Ha. cbv zeta. pose proof (bps_pos sbi G). unfold in_main_area in Ha.
  pose proof (Z.div_mod (a - main_blkaddr sbi) (blocks_per_seg sbi) ltac:(lia)).
  pose proof (Z.mod_pos_bound (a - main_blkaddr sbi) (blocks_per_seg sbi) ltac:(lia)).
  unfold in_volume, main_block. set (q := _ / _) in *. set (r := _ mod _) in *.
  split_and!; nia.
Qed.

(** One bio: exactly its blocks of the flat store change. *)
Lemma submit_bio_store d b j off type dummy :
  seg_bio sbi b j off -> data_type type ->
  exists b', __submit_bio sbi 1 dummy s b type = Done (b', s, false) /\
    forall a, in_main_area sbi a ->
      store sbi s (disk_write d b') a = flat_write (store sbi s d) (blocks_of b) a.
Proof.
  intros Hb Ht. pose proof (seg_bio_block sbi G b j off Hb) as Hblk.
  destruct Hb as (Hdev & Hrd & Hj & Ho & Hn & Hle & Hsec).
  unfold __submit_bio. rewrite Hrd, Z.mod_1_r.
  replace (negb (bool_decide (type = DATA)) && negb (bool_decide (type = NODE))) with false
    by (by destruct Ht as [->| ->]).
  cbn [obind fst snd]. cbn.
  rewrite (redirect_bio_ok sbi G s W NG j off Hj ltac:(lia) b type) by
    (done || by destruct Ht as [->| ->]).
  rewrite Hrd. cbn [fst snd]. eexists. split; [done|]. intros a Ha.
  destruct (main_addr a Ha) as [[Hj' Ho'] Ea]. unfold blocks_of, bi_vcnt.
  rewrite flat_write_run, Hblk. unfold store. revert Hj' Ho' Ea.
  set (j' := _ / _). set (o' := _ mod _). intros Hj' Ho' Ea.
  unfold view, disk_write, bio_block, bi_vcnt. cbn [bi_bdev bi_sector bi_pages upd].
  rewrite sector_block by (apply place_u32; lia).
  fold (bi_vcnt b). set (n := bi_vcnt b) in *. pose proof (bps_pos sbi G).
  destruct (Z.eq_dec j' j) as [->|Hne].
  - rewrite (place_shift j off o'). cbn [fst snd]. rewrite bool_decide_eq_true_2 by done.
    rewrite Ea. unfold main_block. cbn [andb].
    set (p := snd (place sbi s j off)).
    replace (p <=? p + (o' - off)) with (off <=? o') by lia.
    replace (p + (o' - off) <? p + n) with (o' <? off + n) by lia.
    replace (_ <=? main_blkaddr sbi + j * blocks_per_seg sbi + o') with (off <=? o') by lia.
    replace (main_blkaddr sbi + j * blocks_per_seg sbi + o' <? _) with (o' <? off + n) by lia.
    destruct (_ && _); [f_equal; lia|done].
  - replace ((main_block sbi j off <=? a) && _) with false.
    2: { symmetry. apply andb_false_iff. rewrite Ea. unfold main_block. nia. }
    destruct (_ && _ && _) eqn:Ec; [|done]. exfalso.
    apply andb_true_iff in Ec as [[Ed E1]%andb_true_iff E2]. apply bool_decide_eq_true in Ed.
    set (k := snd (place sbi s j' o') - snd (place sbi s j off)) in *.
    destruct (place_inj sbi G s W j (off + k) j' o') as [? _]; [done|lia|done|done| |lia].
    rewrite (place_shift j off (off + k)), <- Ed. destruct (place sbi s j' o') as [dv bl].
    cbn in *. f_equal. lia.
Qed.

Lemma flat_write_app (v : Z -> A) l1 l2 : flat_write v (l1 ++ l2) = flat_write (flat_write v l1) l2.
Proof. apply foldl_app. Qed.
Lemma flat_write_ext (v v' : Z -> A) l a : v a = v' a -> flat_write v l a = flat_write v' l a.
Proof.
  revert v v'. induction l as [|p l IH]; intros v v' E; [done|].
  cbn. apply IH. by destruct (a =? fst p).
Qed.

Lemma run_bios_store dummy bs d :
  Forall (data_bio sbi) bs ->
  exists d', run_bios sbi 1 dummy s d bs = Done (d', s) /\
    forall a, in_main_area sbi a -> store sbi s d' a = flat_write (store sbi s d) (outs bs) a.
Proof.
  revert d. induction bs as [|[b type] bs IH]; intros d Hbs; [by exists d|].
  apply list.Forall_cons in Hbs as [(Ht & j & off & Hb) Hbs]. cbn in Ht, Hb.
  destruct (submit_bio_store d b j off type dummy Hb Ht) as (b' & E & Hst).
  destruct (IH (disk_write d b') Hbs) as (d' & E' & Hst').
  exists d'. cbn [run_bios]. rewrite E. cbn [obind fst snd]. split; [done|].
  intros a Ha. rewrite Hst' by done. unfold outs. cbn [mbind list_bind fst].
  rewrite flat_write_app. apply flat_write_ext. by apply Hst.
Qed.

(** Reading a block back through the mapping. *)
Lemma read_store d (b : bio A) j off type dummy :
  seg_bio sbi (b <| bi_read := false |>) j off -> bi_read b = true -> data_type type ->
  exists b', __submit_bio sbi 1 dummy s b type =
      Done (b', lfu_add s j (get_size_count (bi_vcnt b)), false) /\
    disk_read d b' = map (store sbi s d) (seqZ (main_block sbi j off) (bi_vcnt b)).
Proof.
  intros (Hdev & _ & Hj & Ho & Hn & Hle & Hsec) Hrd Ht. cbn in *.
  unfold __submit_bio. rewrite Hrd. cbn [obind fst snd].
  change (bi_vcnt (b <| bi_read := false |>)) with (bi_vcnt b) in *.
  rewrite (redirect_bio_ok sbi G s W NG j off Hj ltac:(lia) b type) by
    (done || by destruct Ht as [->| ->]).
  rewrite Hrd. eexists. split; [done|].
  unfold disk_read, bio_block. cbn [bi_bdev bi_sector upd fst].
  rewrite sector_block by (apply place_u32; lia).
  change (bi_vcnt _) with (bi_vcnt b) at 1. set (n := bi_vcnt b) in *.
  apply list_eq. intros k. rewrite !list_lookup_fmap.
  destruct (decide (Z.of_nat k < n)) as [Hk|Hk].
  - rewrite !lookup_seqZ_lt by done. cbn. f_equal. unfold store, view.
    replace (main_block sbi j off + Z.of_nat k) with (main_block sbi j (off + Z.of_nat k))
      by (unfold main_block; lia).
    pose proof (bps_pos sbi G).
    replace ((main_block sbi j (off + Z.of_nat k) - main_blkaddr sbi) / blocks_per_seg sbi) with j
      by (unfold main_block; apply Z.div_unique_pos with (off + Z.of_nat k); lia).
    replace ((main_block sbi j (off + Z.of_nat k) - main_blkaddr sbi) mod blocks_per_seg sbi)
      with (off + Z.of_nat k)
      by (unfold main_block; apply Z.mod_unique_pos with j; lia).
    rewrite (place_shift j off (off + Z.of_nat k)). cbn [fst snd]. f_equal; lia.
  - by rewrite !lookup_seqZ_ge by lia.
Qed.
End writing.

(** ** Theorems *)

(** C5. Writing pages back, through merging, cutting at segment boundaries and
    redirection, changes the flat store exactly as writing the pages one after
    the other, whichever device each segment lives on; nothing triggers a
    BUG_ON. *)
Theorem write_back_store {F : F2fsFormat} {FO : F2fsFormatOk} {A} {I : Inhabited A}
    {L : BlockLayer A} {LO : BlockLayerOk A} sbi s d (fios : list (f2fs_io_info A)) dummy :
  geom_wf sbi -> mpt_wf sbi s -> nvm_geom_wf sbi s -> Forall (fio_ok sbi) fios ->
  exists d', write_back sbi [] 1 dummy s d fios = Done (d', s) /\
    forall a, in_main_area sbi a ->
      store sbi s d' a =
      flat_write (store sbi s d) (map (fun f => (new_blkaddr f, fio_page f)) fios) a.
Proof.
  intros G W NG Hf. unfold write_back.
  destruct (submit_pages_ok sbi G fios (mk_io None (DATA, 0) 0)) as (io' & out & -> & Hio & Hout & Hp);
    [done|done|]. cbn [obind fst snd].
  destruct (submit_merged_ok sbi io' Hio) as (_ & Hm & Hmo).
  destruct (run_bios_store sbi G s W NG dummy (out ++ snd (__submit_merged_bio io')) d)
    as (d' & -> & Hst); [by apply Forall_app_2|].
  exists d'. split; [done|]. intros a Ha. rewrite Hst by done. f_equal.
  unfold outs in *. by rewrite bind_app, Hmo, Hp.
Qed.

(** A concrete device whose SSD segment 1 is mapped to NVM segment 0. *)
Definition demo_mapped : nvm_sb_info :=
  @create_mapping linux_format (allocated (nsbi demo_hoit) 0) 1 0 3.
Lemma demo_mapped_wf : mpt_wf demo_sbi demo_mapped.
Proof.
  apply create_mapping_wf; try done; try (cbn; lia); [|by vm_compute..].
  apply allocated_wf; [apply demo_hoit_wf|cbn; lia|done].
Qed.
Lemma demo_mapped_geom : nvm_geom_wf demo_sbi demo_mapped.
Proof. split; cbn; lia. Qed.
#[export] Instance demo_layer : BlockLayer Z := fun b => 256 <=? bi_vcnt b.
#[export] Instance demo_layer_ok : BlockLayerOk Z.
Proof. intros b E. unfold bio_full, demo_layer, bi_vcnt. by rewrite E. Qed.

(** Blocks 19 (SSD segment 0) and 20, 21 (segment 1, on the NVM). *)
Definition demo_fios : list (f2fs_io_info Z) :=
  [mk_fio DATA 0 19 7; mk_fio DATA 0 20 8; mk_fio DATA 0 21 9].
Lemma demo_fios_ok : Forall (fio_ok demo_sbi) demo_fios.
Proof.
  repeat constructor; cbn.
  - exists 0, 3. unfold in_volume. cbn. split; [lia|done].
  - exists 1, 0. unfold in_volume. cbn. split; [lia|done].
  - exists 1, 1. unfold in_volume. cbn. split; [lia|done].
Qed.
Lemma write_back_store_witness :
  exists d', @write_back linux_format Z demo_layer demo_sbi [] 1 0 _ demo_mapped (fun _ _ => 0) demo_fios
             = Done (d', demo_mapped) /\
    store demo_sbi demo_mapped d' 20 = 8 /\ d' nbdev 25 = 9 /\ d' s_bdev 19 = 7.
Proof.
  destruct (@write_back_store linux_format linux_format_ok Z _ demo_layer demo_layer_ok demo_sbi
    demo_mapped (fun _ _ => 0) demo_fios 0 demo_geom_wf demo_mapped_wf demo_mapped_geom demo_fios_ok)
    as (d' & E & Hst).
  exists d'. split; [exact E|]. split; [|vm_compute in E; injection E as <-; by vm_compute].
  rewrite Hst; [by vm_compute|]. unfold in_main_area. cbn. lia.
Defined.

(** A read bio returns the flat store's content of its blocks, and adds to
    the counter of its segment. *)
Theorem read_bio_store {F : F2fsFormat} {FO : F2fsFormatOk} {A}
    {L : BlockLayer A} sbi s d (b : bio A) j off type dummy :
  geom_wf sbi -> mpt_wf sbi s -> nvm_geom_wf sbi s ->
  bi_read b = true -> bi_bdev b = s_bdev -> data_type type ->
  in_volume sbi j off -> 0 < bi_vcnt b -> off + bi_vcnt b <= blocks_per_seg sbi ->
  bi_sector b = SECTOR_FROM_BLOCK (main_block sbi j off) ->
  exists b' s', __submit_bio sbi 1 dummy s b type = Done (b', s', false) /\
    s' = lfu_add s j (get_size_count (bi_vcnt b)) /\
    disk_read d b' = map (store sbi s d) (seqZ (main_block sbi j off) (bi_vcnt b)).
Proof.
  intros G W NG Hr Hd Ht [Hj Ho] Hn Hle Hs.
  destruct (read_store sbi G s W NG d b j off type dummy) as (b' & E & Hrd); [|done|done|eauto 10].
  unfold seg_bio. cbn. split_and!; done || lia.
Qed.
Lemma read_bio_store_witness :
  let b := mk_bio s_bdev (@SECTOR_FROM_BLOCK linux_format 21) true [0; 0] in
  let d : disk Z := fun dev blk => match dev with nbdev => blk | _ => 0 end in
  exists b' s', @__submit_bio linux_format Z demo_layer demo_sbi 1 0 demo_mapped b DATA
                = Done (b', s', false) /\ @disk_read linux_format Z d b' = [25; 26].
Proof.
  intros b d. destruct (@read_bio_store linux_format linux_format_ok Z demo_layer demo_sbi
    demo_mapped d b 1 1 DATA 0 demo_geom_wf demo_mapped_wf demo_mapped_geom)
    as (b' & s' & E & _ & Hrd); try done;
    try (by left); try (unfold in_volume, bi_vcnt, zlen; cbn; lia).
  exists b', s'. split; [exact E|]. rewrite Hrd. by vm_compute.
Defined.

(** Direct I/O inside one segment is redirected block by block. *)
Theorem nvm_redirect_dio_place {F : F2fsFormat} sbi s j off k n write :
  geom_wf sbi -> mpt_wf sbi s -> nvm_geom_wf sbi s ->
  in_volume sbi j off -> 0 <= k < n -> off + n <= blocks_per_seg sbi ->
  let bh := fst (nvm_redirect_dio sbi s (mk_bh (main_block sbi j off) s_bdev) n write) in
  (b_bdev bh, b_blocknr bh + k) = place sbi s j (off + k).
Proof.
  intros G W NG [Hj Ho] Hk Hn. rewrite redirect_dio_ok by done. cbn [fst b_bdev b_blocknr].
  rewrite (place_shift sbi s j off (off + k)). f_equal. lia.
Qed.
Lemma nvm_redirect_dio_place_witness :
  let bh := fst (nvm_redirect_dio demo_sbi demo_mapped (mk_bh 21 s_bdev) 2 true) in
  (b_bdev bh, b_blocknr bh + 1) = place demo_sbi demo_mapped 1 2.
Proof.
  apply (@nvm_redirect_dio_place linux_format demo_sbi demo_mapped 1 1 1 2 true demo_geom_wf
    demo_mapped_wf demo_mapped_geom); unfold in_volume; cbn; lia.
Defined.

(** Direct I/O that crosses into the next segment is not: the request is
    redirected by its first block.  Blocks 23 and 24 are the end of segment 1
    (NVM) and the start of segment 2 (SSD); the request goes to NVM blocks 27
    and 28, and 28 belongs to NVM segment 1. *)
Theorem nvm_redirect_dio_crossing :
  let bh := fst (nvm_redirect_dio demo_sbi demo_mapped (mk_bh 23 s_bdev) 2 true) in
  (b_bdev bh, b_blocknr bh + 0) = place demo_sbi demo_mapped 1 3 /\
  (b_bdev bh, b_blocknr bh + 1) = (nbdev, nvm_block demo_sbi demo_mapped 1 0) /\
  place demo_sbi demo_mapped 2 0 = (s_bdev, 24).
Proof. by vm_compute. Qed.

(** META I/O goes to the NVM at the same sector, except the reads of a first
    mount. *)
Theorem nvm_redirect_bio_meta {F : F2fsFormat} {A} sbi s (b : bio A) :
  nvm_redirect_bio sbi s b META_FLUSH = nvm_redirect_bio sbi s b META /\
  snd (nvm_redirect_bio sbi s b META) = s /\
  bi_sector (fst (nvm_redirect_bio sbi s b META)) = bi_sector b /\
  bi_bdev (fst (nvm_redirect_bio sbi s b META)) =
    if bi_read b && Z.testbit (nvm_flag s) 1 then bi_bdev b else nbdev.
Proof.
  unfold nvm_redirect_bio.
  rewrite (decide_True (P := META = META \/ _)), (decide_True (P := META_FLUSH = META \/ _)) by tauto.
  assert (nz (Z.land (nvm_flag s) NVM_FIRST_MOUNR) = Z.testbit (nvm_flag s) 1) as -> by
    by apply (nz_land_pow2 _ 1).
  destruct (bi_read b), (Z.testbit (nvm_flag s) 1); by split_and!.
Qed.
