(* ===== verification/F2fsBits.v ===== *)
(** * Byte bitmaps in f2fs bit order ([f2fs.h])

    Bit [nr] is bit [7 - nr mod 8] of byte [nr / 8]: the on-disk order of the
    version, validity and segment bitmaps. *)
From S2P Require Import Prelude Geometry Heap Mpt.
Open Scope Z_scope.

Definition bit_mask (nr : Z) : Z := Z.shiftl 1 (7 - Z.land nr 7).

Definition f2fs_test_bit (nr : Z) (addr : list Z) : bool :=
  nz (Z.land (bit_mask nr) addr.[Z.shiftr nr 3]).
Definition f2fs_set_bit (nr : Z) (addr : list Z) : list Z :=
  let i := Z.shiftr nr 3 in addr.[i <- u8 (Z.lor addr.[i] (bit_mask nr))].
Definition f2fs_clear_bit (nr : Z) (addr : list Z) : list Z :=
  let i := Z.shiftr nr 3 in addr.[i <- u8 (Z.land addr.[i] (Z.lnot (bit_mask nr)))].
Definition f2fs_test_and_set_bit (nr : Z) (addr : list Z) : bool * list Z :=
  (f2fs_test_bit nr addr, f2fs_set_bit nr addr).
Definition f2fs_test_and_clear_bit (nr : Z) (addr : list Z) : bool * list Z :=
  (f2fs_test_bit nr addr, f2fs_clear_bit nr addr).
Definition f2fs_change_bit (nr : Z) (addr : list Z) : list Z :=
  let i := Z.shiftr nr 3 in addr.[i <- u8 (Z.lxor addr.[i] (bit_mask nr))].

Lemma bit_mask_eq nr : bit_mask nr = 2 ^ (7 - nr mod 8).
Proof.
  unfold bit_mask. change 7 with (Z.ones 3) at 2. rewrite Z.land_ones by lia.
  change (2 ^ 3) with 8. pose proof (Z.mod_pos_bound nr 8 ltac:(lia)).
  rewrite Z.shiftl_mul_pow2 by lia. lia.
Qed.
Lemma bit_mask_testbit nr k : 0 <= k -> Z.testbit (bit_mask nr) k = (k =? 7 - nr mod 8).
Proof.
  intros Hk. rewrite bit_mask_eq. pose proof (Z.mod_pos_bound nr 8 ltac:(lia)).
  rewrite Z.pow2_bits_eqb by lia. apply Z.eqb_sym.
Qed.
Lemma test_bit_testbit nr m : f2fs_test_bit nr m = Z.testbit m.[nr / 8] (7 - nr mod 8).
Proof.
  unfold f2fs_test_bit. rewrite bit_mask_eq, Z.land_comm.
  pose proof (Z.mod_pos_bound nr 8 ltac:(lia)). rewrite nz_land_pow2 by lia.
  by rewrite Z.shiftr_div_pow2 by lia.
Qed.
Lemma u8_testbit x k : 0 <= k < 8 -> Z.testbit (u8 x) k = Z.testbit x k.
Proof. intros. unfold u8. by rewrite Z.mod_pow2_bits_low by lia. Qed.

(** Updating one byte's bit leaves every other bit alone. *)
Lemma update_bit_spec nr k m (f : Z -> Z) (g : bool -> bool) :
  0 <= nr < 8 * zlen m -> 0 <= k ->
  (forall b j, 0 <= j < 8 -> Z.testbit (f b) j = if j =? 7 - nr mod 8 then g (Z.testbit b j) else Z.testbit b j) ->
  f2fs_test_bit k (m.[Z.shiftr nr 3 <- u8 (f m.[Z.shiftr nr 3])]) =
  if k =? nr then g (f2fs_test_bit k m) else f2fs_test_bit k m.
Proof.
  intros Hn Hk Hf. rewrite !test_bit_testbit, Z.shiftr_div_pow2 by lia. change (2 ^ 3) with 8.
  pose proof (Z.mod_pos_bound nr 8 ltac:(lia)). pose proof (Z.mod_pos_bound k 8 ltac:(lia)).
  pose proof (Z.div_mod nr 8 ltac:(lia)). pose proof (Z.div_mod k 8 ltac:(lia)).
  rewrite aget_aset by dlia. destruct (Z.eqb_spec (nr / 8) (k / 8)) as [E|E].
  - rewrite u8_testbit, Hf, E by lia.
    replace (7 - k mod 8 =? 7 - nr mod 8) with (k =? nr); [done|].
    destruct (Z.eqb_spec k nr), (Z.eqb_spec (7 - k mod 8) (7 - nr mod 8)); lia.
  - replace (k =? nr) with false; [done|]. symmetry. apply Z.eqb_neq. congruence.
Qed.

Lemma test_f2fs_set_bit nr k m :
  0 <= nr < 8 * zlen m -> 0 <= k ->
  f2fs_test_bit k (f2fs_set_bit nr m) = (k =? nr) || f2fs_test_bit k m.
Proof.
  intros Hn Hk. unfold f2fs_set_bit. rewrite (update_bit_spec nr k m (fun b => Z.lor b (bit_mask nr)) (fun _ => true)).
  - by destruct (k =? nr).
  - done.
  - done.
  - intros b j Hj. rewrite Z.lor_spec, bit_mask_testbit by lia.
    destruct (j =? _); [apply orb_true_r|apply orb_false_r].
Qed.
Lemma test_f2fs_clear_bit nr k m :
  0 <= nr < 8 * zlen m -> 0 <= k ->
  f2fs_test_bit k (f2fs_clear_bit nr m) = negb (k =? nr) && f2fs_test_bit k m.
Proof.
  intros Hn Hk. unfold f2fs_clear_bit.
  rewrite (update_bit_spec nr k m (fun b => Z.land b (Z.lnot (bit_mask nr))) (fun _ => false)).
  - by destruct (k =? nr).
  - done.
  - done.
  - intros b j Hj. rewrite Z.land_spec, Z.lnot_spec, bit_mask_testbit by lia.
    destruct (j =? _); [apply andb_false_r|apply andb_true_r].
Qed.
Lemma test_f2fs_change_bit nr k m :
  0 <= nr < 8 * zlen m -> 0 <= k ->
  f2fs_test_bit k (f2fs_change_bit nr m) = xorb (k =? nr) (f2fs_test_bit k m).
Proof.
  intros Hn Hk. unfold f2fs_change_bit.
  rewrite (update_bit_spec nr k m (fun b => Z.lxor b (bit_mask nr)) negb).
  - by destruct (k =? nr), (f2fs_test_bit k m).
  - done.
  - done.
  - intros b j Hj. rewrite Z.lxor_spec, bit_mask_testbit by lia.
    destruct (j =? _); [apply xorb_true_r|apply xorb_false_r].
Qed.
Lemma zlen_f2fs_set_bit nr m : zlen (f2fs_set_bit nr m) = zlen m.
Proof. apply zlen_aset. Qed.
Lemma zlen_f2fs_change_bit nr m : zlen (f2fs_change_bit nr m) = zlen m.
Proof. apply zlen_aset. Qed.

(** The bitmap operations change the addressed bit and no other. *)
Theorem f2fs_bits_spec nr k m :
  0 <= nr < 8 * zlen m -> 0 <= k ->
  f2fs_test_bit k (snd (f2fs_test_and_set_bit nr m)) = (k =? nr) || f2fs_test_bit k m /\
  f2fs_test_bit k (snd (f2fs_test_and_clear_bit nr m)) = negb (k =? nr) && f2fs_test_bit k m /\
  f2fs_test_bit k (f2fs_change_bit nr m) = xorb (k =? nr) (f2fs_test_bit k m) /\
  fst (f2fs_test_and_set_bit nr m) = f2fs_test_bit nr m /\
  fst (f2fs_test_and_clear_bit nr m) = f2fs_test_bit nr m.
Proof.
  intros Hn Hk. split_and!; try done;
    [by apply test_f2fs_set_bit|by apply test_f2fs_clear_bit|by apply test_f2fs_change_bit].
Qed.
Lemma f2fs_bits_spec_witness :
  f2fs_test_bit 9 (snd (f2fs_test_and_set_bit 9 [0; 0])) = true.
Proof.
  destruct (f2fs_bits_spec 9 9 [0; 0]) as [-> _]; unfold zlen; cbn; [lia|lia|done].
Defined.
