(* ===== verification/MptFlush.v ===== *)
(** * Writing the mapping table and the NVM superblock, and reading them back
    ([nvm.c])

    Each MPT page has two places on the device, [blocks_per_seg] apart; bit
    [p] of the version bitmap tells which one is current.  A flush writes the
    other place and flips the bit; the bitmap itself is saved with the NVM
    superblock, which has two places too, chosen by a checkpoint flag. *)
From S2P Require Import Prelude Geometry Heap Mpt FreeMap Machine Redirect BlockIo F2fsBits.
Open Scope Z_scope.

(** A page of the NVM superblock: the struct, and the bytes from [map] on, which is at
    offset 60: the version bitmap, then the segment bitmap. *)
Record nsb_page := mk_nsb_page { pg_nsb : nvm_super_block; pg_map : list Z }.

(** The META area of the NVM device: MPT pages (as arrays of entries) by block
    address, and the superblock pages. *)
Record meta_area := mk_meta {
  mpt_pages : Z -> list Z;
  nsb_pages : Z -> nsb_page;
}.
#[export] Instance eta_meta : Eta meta_area := fun m => mk_meta (mpt_pages m) (nsb_pages m).
Definition fput {A} (f : Z -> A) (k : Z) (v : A) : Z -> A := fun x => if x =? k then v else f x.

(** The first [n] bytes of an [unsigned long] bitmap (little endian), and back. *)
Definition bitmap_bytes (m n : Z) : list Z :=
  map (fun k => u8 (Z.shiftr m (8 * k))) (seqZ 0 n).
Definition bytes_bitmap (l : list Z) : Z := foldr (fun b m => Z.lor b (Z.shiftl m 8)) 0 l.

Section ops.
Context `{F2fsFormat} `{BitSearch}.
Context (sbi : f2fs_sb_info).

(** Place [b] of MPT page [p]. *)
Definition mpt_addr (s : nvm_sb_info) (p : Z) (b : bool) : Z :=
  mpt_blkaddr (nsb s) + p + (if b then blocks_per_seg sbi else 0).

Definition get_next_mpt_page (s : nvm_sb_info) (mpt_pgoff : Z) : Z * nvm_sb_info :=
  let block_addr := mpt_blkaddr (nsb s) + mpt_pgoff in
  let block_addr := if negb (f2fs_test_bit mpt_pgoff (mpt_ver_map s))
                    then block_addr + blocks_per_seg sbi else block_addr in
  (block_addr, s <| mpt_ver_map ::= f2fs_change_bit mpt_pgoff |>).

Definition get_current_mpt_page (s : nvm_sb_info) (m : meta_area) (mpt_pgoff : Z) : list Z :=
  let block_addr := mpt_blkaddr (nsb s) + mpt_pgoff in
  let block_addr := if f2fs_test_bit mpt_pgoff (mpt_ver_map s)
                    then block_addr + blocks_per_seg sbi else block_addr in
  mpt_pages m block_addr.

(** The entries of page [p] of the MPT cache. *)
Definition cache_page (s : nvm_sb_info) (p : Z) : list Z :=
  slice (mpt s) (p * entries_per_blk) entries_per_blk.

Fixpoint flush_loop (fuel : nat) (flush_all dirty : bool) (s : nvm_sb_info) (m : meta_area)
    (mpt_pgoff : Z) : outcome (nvm_sb_info * meta_area) :=
  if mpt_pgoff =? mpt_dirty_map_bits s then Done (s, m)
  else
    match fuel with
    | O => NoFuel
    | S fuel =>
        let s := if dirty then s else s <| nvm_flag ::= Z.lor NVM_NSB_DIRTY |> in
        let r := get_next_mpt_page s mpt_pgoff in
        let m := m <| mpt_pages ::= fun f => fput f (fst r) (cache_page s mpt_pgoff) |> in
        let s := (snd r) <| mpt_dirty_map ::= clear_bit mpt_pgoff |> in
        let next := if flush_all then mpt_pgoff + 1
                    else find_next_bit (mpt_dirty_map s) (mpt_dirty_map_bits s) (mpt_pgoff + 1) in
        flush_loop fuel flush_all true s m next
    end.
Definition nvm_flush_mpt_pages (s : nvm_sb_info) (m : meta_area) (flush_all : bool)
    : outcome (nvm_sb_info * meta_area) :=
  let mpt_pgoff := if flush_all then 0
                   else find_next_bit (mpt_dirty_map s) (mpt_dirty_map_bits s) 0 in
  flush_loop (Z.to_nat (mpt_dirty_map_bits s)) flush_all false s m mpt_pgoff.

(** The space for the bitmaps in the page; nothing in the code compares with it, and a
    memcpy over the end of the page is [Bug]. *)
Definition nsb_map_room : Z := F2FS_BLKSIZE - 60.
Definition nvm_flush_nsb_pages (s : nvm_sb_info) (m : meta_area) (block_addr : Z) : outcome meta_area :=
  let mpt_ver_map_bytes := u32 (mpt_ver_map_bits (nsb s) - 1) / 8 + 1 in
  let segment_map_bytes := u32 (main_segment_nums (nsb s) - 1) / 8 + 1 in
  if nsb_map_room <? mpt_ver_map_bytes + segment_map_bytes then Bug
  else
    let old := pg_map (nsb_pages m block_addr) in
    let map := blit old 0 (slice (mpt_ver_map s) 0 mpt_ver_map_bytes) in
    let map := blit map mpt_ver_map_bytes (bitmap_bytes (segment_map s) segment_map_bytes) in
    Done (m <| nsb_pages ::= fun f => fput f block_addr (mk_nsb_page (nsb s) map) |>).

(** The part of f2fs_write_checkpoint that saves the mapping: the pages, then
    the superblock in the place the checkpoint does not use. *)
Definition CP_NSB_VER_FLAG : Z := 4096.
Definition checkpoint_nvm (s : nvm_sb_info) (m : meta_area) (ckpt_flags : Z)
    : outcome (nvm_sb_info * meta_area) :=
  r <-- nvm_flush_mpt_pages s m false ;;
  if nz (Z.land (nvm_flag (fst r)) NVM_NSB_DIRTY) then
    m <-- nvm_flush_nsb_pages (fst r) (snd r) (if nz (Z.land ckpt_flags CP_NSB_VER_FLAG) then 0 else 1) ;;
    Done (fst r, m)
  else Done r.

(** f2fs_get_mpt *)
Fixpoint get_mpt_loop (n : nat) (s : nvm_sb_info) (m : meta_area) (i : Z) : nvm_sb_info :=
  match n with
  | O => s
  | S n => get_mpt_loop n
             (s <| mpt ::= fun l => blit l (i * entries_per_blk) (get_current_mpt_page s m i) |>)
             m (i + 1)
  end.
Definition f2fs_get_mpt (s : nvm_sb_info) (m : meta_area) : nvm_sb_info :=
  get_mpt_loop (Z.to_nat (mpt_ver_map_bits (nsb s))) s m 0.

(** strncmp of the two uuids: comparison stops at a common zero byte. *)
Fixpoint strncmp_eq (n : nat) (a b : list Z) : bool :=
  match n with
  | O => true
  | S n =>
      match a, b with
      | x :: a, y :: b => (x =? y) && ((x =? 0) || strncmp_eq n a b)
      | _, _ => true
      end
  end.
Definition sanity_check_nvm_super (raw_uuid : list Z) (b : nvm_super_block) : bool :=
  negb (strncmp_eq 16 (uuid b) raw_uuid).

Definition EINVAL : Z := 22.
(** read_nvm_super_block: the error code, and the new nvm_sb_info *)
Definition read_nvm_super_block (raw_uuid : list Z) (flag : Z) (m : meta_area) (ckpt_flags : Z)
    : outcome (Z * option nvm_sb_info) :=
  let block := if nz (Z.land ckpt_flags CP_NSB_VER_FLAG) then 1 else 0 in
  let page := nsb_pages m block in
  if sanity_check_nvm_super raw_uuid (pg_nsb page) then Done (- EINVAL, None)
  else
    let s := init_nvm_sb_info sbi flag (pg_nsb page) in
    let mpt_ver_map_bytes := u32 (mpt_ver_map_bits (nsb s) - 1) / 8 + 1 in
    let segment_map_bytes := u32 (main_segment_nums (nsb s) - 1) / 8 + 1 in
    if nsb_map_room <? mpt_ver_map_bytes + segment_map_bytes then Bug else
    let seg := bytes_bitmap (slice (pg_map page) mpt_ver_map_bytes segment_map_bytes) in
    Done (0, Some (s <| mpt_ver_map ::= fun l => blit l 0 (slice (pg_map page) 0 mpt_ver_map_bytes) |>
                     <| segment_map := seg |> <| ckpt_segment_map := seg |>)).
End ops.

(** ** Flushing *)

Section flush_specs.
Context `{F2fsFormatOk} `{BitSearchOk}.
Context (sbi : f2fs_sb_info).

(** The pages fit the version bitmap and one segment. *)
Record pages_wf (s : nvm_sb_info) : Prop := {
  pw_bits : mpt_dirty_map_bits s = mpt_ver_map_bits (nsb s);
  pw_range : 0 < mpt_dirty_map_bits s <= blocks_per_seg sbi;
  pw_ver : mpt_dirty_map_bits s <= 8 * zlen (mpt_ver_map s);
  pw_mpt : mpt_dirty_map_bits s * entries_per_blk = zlen (mpt s);
}.

(** Page [p] is written by the flush of state [s]. *)
Definition to_flush (flush_all : bool) (s : nvm_sb_info) (p : Z) : bool :=
  flush_all || test_bit p (mpt_dirty_map s).

Lemma mpt_addr_inj s p b p' b' :
  pages_wf s -> 0 <= p < mpt_dirty_map_bits s -> 0 <= p' < mpt_dirty_map_bits s ->
  mpt_addr sbi s p b = mpt_addr sbi s p' b' -> p = p' /\ b = b'.
Proof. intros [] Hp Hp'. unfold mpt_addr. destruct b, b'; intros; lia || (split; [lia|done]). Qed.

Lemma next_page_eq s p :
  get_next_mpt_page sbi s p =
  (mpt_addr sbi s p (negb (f2fs_test_bit p (mpt_ver_map s))),
   s <| mpt_ver_map ::= f2fs_change_bit p |>).
Proof.
  unfold get_next_mpt_page, mpt_addr. f_equal.
  destruct (f2fs_test_bit p (mpt_ver_map s)); cbn [negb]; lia.
Qed.
Lemma current_page_eq s m p :
  get_current_mpt_page sbi s m p = mpt_pages m (mpt_addr sbi s p (f2fs_test_bit p (mpt_ver_map s))).
Proof.
  unfold get_current_mpt_page, mpt_addr. f_equal.
  destruct (f2fs_test_bit p (mpt_ver_map s)); lia.
Qed.

(** How far a flush of [(s0, m0)] has come when it stands at [off]. *)
Record flushed_to (all : bool) (s0 : nvm_sb_info) (m0 : meta_area) (off : Z)
    (s : nvm_sb_info) (m : meta_area) : Prop := {
  ft_mpt : mpt s = mpt s0;
  ft_nsb : nsb s = nsb s0;
  ft_bits : mpt_dirty_map_bits s = mpt_dirty_map_bits s0;
  ft_len : zlen (mpt_ver_map s) = zlen (mpt_ver_map s0);
  ft_seg : segment_map s = segment_map s0;
  ft_nsbs : nsb_pages m = nsb_pages m0;
  ft_ver p : 0 <= p < mpt_dirty_map_bits s0 ->
    f2fs_test_bit p (mpt_ver_map s)
    = xorb ((p <? off) && to_flush all s0 p) (f2fs_test_bit p (mpt_ver_map s0));
  ft_dirty p : 0 <= p < mpt_dirty_map_bits s0 ->
    test_bit p (mpt_dirty_map s) = negb ((p <? off) && to_flush all s0 p) && test_bit p (mpt_dirty_map s0);
  ft_page p b : 0 <= p < mpt_dirty_map_bits s0 ->
    mpt_pages m (mpt_addr sbi s0 p b)
    = if (p <? off) && to_flush all s0 p && negb (Bool.eqb b (f2fs_test_bit p (mpt_ver_map s0)))
      then cache_page s0 p else mpt_pages m0 (mpt_addr sbi s0 p b);
}.

Lemma flushed_skip all s0 m0 off off' s m :
  flushed_to all s0 m0 off s m -> off <= off' ->
  (forall p, off <= p < off' -> to_flush all s0 p = false) ->
  flushed_to all s0 m0 off' s m.
Proof.
  intros [] Hle Hno.
  assert (forall p, (p <? off') && to_flush all s0 p = (p <? off) && to_flush all s0 p) as E.
  { intros p. destruct (Z.ltb_spec p off), (Z.ltb_spec p off'); try lia; try done.
    cbn. by rewrite Hno by lia. }
  split; try done; intros; rewrite E; auto.
Qed.

Lemma flush_step all s0 m0 off s m (f : Z -> Z) :
  pages_wf s0 -> flushed_to all s0 m0 off s m -> 0 <= off < mpt_dirty_map_bits s0 ->
  to_flush all s0 off = true ->
  let s1 := s <| nvm_flag ::= f |> in
  let r := get_next_mpt_page sbi s1 off in
  flushed_to all s0 m0 (off + 1)
    ((snd r) <| mpt_dirty_map ::= clear_bit off |>)
    (m <| mpt_pages ::= fun g => fput g (fst r) (cache_page s1 off) |>).
Proof.
  intros P F Hoff Ht s1 r. subst r. rewrite next_page_eq. cbn [fst snd].
  pose proof P as [Hb Hr Hv Hm]. pose proof F as [].
  assert (forall p, (p <? off + 1) && to_flush all s0 p = ((p =? off) || (p <? off)) && to_flush all s0 p) as E.
  { intros p. f_equal. destruct (Z.eqb_spec p off), (Z.ltb_spec p off); lia. }
  assert (f2fs_test_bit off (mpt_ver_map s) = f2fs_test_bit off (mpt_ver_map s0)) as Ev.
  { rewrite ft_ver0 by done. by rewrite Z.ltb_irrefl. }
  split; cbn [mpt nsb mpt_dirty_map_bits mpt_ver_map mpt_dirty_map segment_map nsb_pages mpt_pages upd];
    try done.
  - by rewrite zlen_f2fs_change_bit.
  - intros p Hp. cbn. rewrite test_f2fs_change_bit by lia. rewrite E, ft_ver0 by done.
    destruct (Z.eqb_spec p off) as [->|]; cbn [orb]; [|done].
    rewrite Z.ltb_irrefl, Ht. by destruct (f2fs_test_bit off (mpt_ver_map s0)).
  - intros p Hp. cbn. rewrite test_clear_bit, E, ft_dirty0, (Z.eqb_sym off) by done.
    destruct (Z.eqb_spec p off) as [->|]; cbn [orb negb andb]; [|done]. by rewrite Ht.
  - intros p b Hp. cbn. unfold fput. rewrite E.
    assert (mpt_addr sbi s1 off (negb (f2fs_test_bit off (mpt_ver_map s)))
            = mpt_addr sbi s0 off (negb (f2fs_test_bit off (mpt_ver_map s0)))) as ->.
    { unfold mpt_addr. cbn. by rewrite ft_nsb0, Ev. }
    assert (cache_page s1 off = cache_page s0 off) as -> by (unfold cache_page; cbn; by rewrite ft_mpt0).
    destruct (Z.eqb_spec (mpt_addr sbi s0 p b)
                (mpt_addr sbi s0 off (negb (f2fs_test_bit off (mpt_ver_map s0))))) as [Ea|Ea].
    + apply mpt_addr_inj in Ea as [-> ->]; try done.
      rewrite Z.eqb_refl, Ht. by destruct (f2fs_test_bit off (mpt_ver_map s0)).
    + rewrite ft_page0 by done. destruct (Z.eqb_spec p off) as [->|]; cbn [orb]; [|done].
      rewrite Z.ltb_irrefl, Ht. cbn [andb].
      destruct (Bool.eqb_spec b (f2fs_test_bit off (mpt_ver_map s0))) as [->|Hne]; cbn [negb]; [done|].
      exfalso. apply Ea. f_equal. by destruct b, (f2fs_test_bit off (mpt_ver_map s0)).
Qed.

Lemma flush_loop_ok fuel all dirty s0 m0 off s m :
  pages_wf s0 -> flushed_to all s0 m0 off s m -> 0 <= off <= mpt_dirty_map_bits s0 ->
  (Z.to_nat (mpt_dirty_map_bits s0 - off) <= fuel)%nat ->
  (off < mpt_dirty_map_bits s0 -> to_flush all s0 off = true) ->
  exists s' m', flush_loop sbi fuel all dirty s m off = Done (s', m') /\
    flushed_to all s0 m0 (mpt_dirty_map_bits s0) s' m' /\
    nvm_flag s' = (if (off <? mpt_dirty_map_bits s0) && negb dirty
                   then Z.lor NVM_NSB_DIRTY (nvm_flag s) else nvm_flag s).
Proof.
  revert dirty off s m. induction fuel as [|fuel IH]; intros dirty off s m P F Hoff Hfuel Ht;
    cbn [flush_loop]; rewrite (ft_bits _ _ _ _ _ _ F);
    (destruct (Z.eqb_spec off (mpt_dirty_map_bits s0)) as [->|Hne];
     [exists s, m; by rewrite Z.ltb_irrefl|]); [lia|].
  specialize (Ht ltac:(lia)). pose proof P as [Hb Hr Hv Hm].
  set (s1 := if dirty then s else _).
  assert (exists f, s1 = s <| nvm_flag ::= f |> /\
            f (nvm_flag s) = if dirty then nvm_flag s else Z.lor NVM_NSB_DIRTY (nvm_flag s)) as (f & Es1 & Ef).
  { subst s1. destruct dirty; [exists id; by destruct s|by exists (Z.lor NVM_NSB_DIRTY)]. }
  pose proof (flush_step all s0 m0 off s m f P F ltac:(lia) Ht) as F1. cbv zeta in F1.
  rewrite <- Es1 in F1. 
  set (s2 := (snd (get_next_mpt_page sbi s1 off)) <| mpt_dirty_map ::= clear_bit off |>) in *.
  set (m2 := m <| mpt_pages ::= _ |>) in *.
  assert (nvm_flag s2 = f (nvm_flag s)) as Efl by (subst s2; by rewrite Es1, next_page_eq).
  set (next := if all then off + 1 else _).
  assert (off + 1 <= next <= mpt_dirty_map_bits s0 /\
          (forall p, off + 1 <= p < next -> to_flush all s0 p = false) /\
          (next < mpt_dirty_map_bits s0 -> to_flush all s0 next = true)) as (Hn1 & Hn2 & Hn3).
  { subst next. destruct all; cbn [to_flush orb]; [split_and!; try lia; done|].
    pose proof (ft_dirty _ _ _ _ _ _ F1) as Hd. rewrite (ft_bits _ _ _ _ _ _ F1).
    destruct (find_next_bit_spec (mpt_dirty_map s2) (mpt_dirty_map_bits s0) (off + 1))
      as [[-> Hall]|(Hr' & Hbit & Hall)]; [lia|lia| |].
    - split_and!; try lia. intros p Hp. specialize (Hall p Hp). rewrite Hd in Hall by lia.
      by replace (p <? off + 1) with false in Hall by lia.
    - split_and!; try lia.
      + intros p Hp. specialize (Hall p Hp). rewrite Hd in Hall by lia.
        by replace (p <? off + 1) with false in Hall by lia.
      + intros _. rewrite Hd in Hbit by lia.
        by replace (_ <? off + 1) with false in Hbit by lia. }
  clearbody next.
  destruct (IH true next s2 m2 P) as (s' & m' & E & F' & Efl'); [|lia|lia|done|].
  { eapply flushed_skip; [exact F1|lia|done]. }
  exists s', m'. split; [exact E|]. split; [done|]. rewrite Efl', andb_false_r, Efl, Ef.
  replace (off <? mpt_dirty_map_bits s0) with true by lia. by destruct dirty.
Qed.

Lemma flushed_start all s m : flushed_to all s m 0 s m.
Proof.
  split; try done; intros; replace (p <? 0) with false by lia; cbn [andb]; by rewrite ?xorb_false_l.
Qed.

Lemma nvm_flush_ok all s m :
  pages_wf s ->
  exists s' m', nvm_flush_mpt_pages sbi s m all = Done (s', m') /\
    flushed_to all s m (mpt_dirty_map_bits s) s' m' /\
    ((forall p, 0 <= p < mpt_dirty_map_bits s -> to_flush all s p = false) /\ nvm_flag s' = nvm_flag s
     \/ nvm_flag s' = Z.lor NVM_NSB_DIRTY (nvm_flag s)).
Proof.
  intros P. pose proof P as [Hb Hr Hv Hm]. unfold nvm_flush_mpt_pages.
  set (off := if all then 0 else _).
  assert (0 <= off <= mpt_dirty_map_bits s /\
          (forall p, 0 <= p < off -> to_flush all s p = false) /\
          (off < mpt_dirty_map_bits s -> to_flush all s off = true)) as (Hn1 & Hn2 & Hn3).
  { subst off. destruct all; cbn [to_flush orb]; [split_and!; try lia; done|].
    destruct (find_next_bit_spec (mpt_dirty_map s) (mpt_dirty_map_bits s) 0)
      as [[-> Hall]|(Hr' & Hbit & Hall)]; [lia|lia|..]; split_and!; try lia; done. }
  clearbody off.
  destruct (flush_loop_ok (Z.to_nat (mpt_dirty_map_bits s)) all false s m off s m P)
    as (s' & m' & E & F & Ef); [|lia|lia|done|].
  { eapply flushed_skip; [apply flushed_start|lia|done]. }
  exists s', m'. split; [exact E|]. split; [done|].
  destruct (Z.ltb_spec off (mpt_dirty_map_bits s)); cbn in Ef; [by right|left].
  split; [|done]. intros p Hp. apply Hn2. lia.
Qed.
End flush_specs.

(** ** Reading back *)

Lemma bitmap_bytes_length m n : 0 <= n -> zlen (bitmap_bytes m n) = n.
Proof. intros. unfold zlen, bitmap_bytes. rewrite length_map, length_seqZ. lia. Qed.

Lemma testbit_bytes l k :
  Forall (fun b => 0 <= b < 256) l -> 0 <= k < 8 * zlen l ->
  Z.testbit (bytes_bitmap l) k = Z.testbit l.[k / 8] (k mod 8).
Proof.
  intros Hl. revert k. induction l as [|b l IH]; intros k Hk; [unfold zlen in Hk; cbn in Hk; lia|].
  apply list.Forall_cons in Hl as [Hb Hl]. rewrite zlen_cons in Hk.
  cbn [bytes_bitmap foldr]. fold (bytes_bitmap l). rewrite Z.lor_spec.
  destruct (Z.ltb_spec k 8).
  - rewrite Z.shiftl_spec_low, orb_false_r by lia.
    rewrite Z.div_small, Z.mod_small by lia. done.
  - rewrite Z.shiftl_spec by lia.
    replace b with (b mod 2 ^ 8) at 1 by (apply Z.mod_small; lia).
    rewrite Z.mod_pow2_bits_high by lia. cbn [orb]. rewrite IH by (done || lia).
    replace ((k - 8) / 8) with (k / 8 - 1) by dlia. replace ((k - 8) mod 8) with (k mod 8) by dlia.
    f_equal. change (b :: l) with ([b] ++ l). rewrite aget_app_r by (unfold zlen; cbn; dlia). done.
Qed.

Lemma bitmap_bytes_roundtrip m n k :
  0 <= n -> 0 <= k < 8 * n -> test_bit k (bytes_bitmap (bitmap_bytes m n)) = test_bit k m.
Proof.
  intros Hn Hk. unfold test_bit. rewrite testbit_bytes.
  - pose proof (Z.mod_pos_bound k 8 ltac:(lia)).
    assert ((bitmap_bytes m n).[k / 8] = u8 (Z.shiftr m (8 * (k / 8)))) as ->.
    { apply aget_lookup; [apply Z.div_pos; lia|]. unfold bitmap_bytes.
      rewrite list_lookup_fmap, lookup_seqZ_lt by dlia. cbn. do 3 f_equal. dlia. }
    rewrite u8_testbit, Z.shiftr_spec by lia. f_equal. dlia.
  - unfold bitmap_bytes. apply list.Forall_forall. intros x.
    intros (y & -> & _)%list_elem_of_fmap. apply u8_range.
  - by rewrite bitmap_bytes_length.
Qed.

Section readback.
Context `{F2fsFormatOk} `{BitSearchOk}.
Context (sbi : f2fs_sb_info).

(** The loop of f2fs_get_mpt rebuilds the table [l] it was saved from. *)
Lemma get_mpt_loop_ok n s m i (l : list Z) :
  0 < entries_per_blk -> 0 <= i -> zlen (mpt s) = zlen l ->
  (i + Z.of_nat n) * entries_per_blk = zlen l ->
  (forall p, i <= p < i + Z.of_nat n ->
     get_current_mpt_page sbi s m p = slice l (p * entries_per_blk) entries_per_blk) ->
  take (Z.to_nat (i * entries_per_blk)) (mpt s) = take (Z.to_nat (i * entries_per_blk)) l ->
  get_mpt_loop sbi n s m i = s <| mpt := l |>.
Proof.
  intros He. revert s i. induction n as [|n IH]; intros s i Hi Hl Hn Hpg Htk; cbn [get_mpt_loop].
  - unfold zlen in *. set (e := entries_per_blk) in *.
    replace (Z.to_nat (i * e)) with (length l) in Htk by lia.
    rewrite !take_ge in Htk by lia. rewrite <- Htk. by destruct s.
  - rewrite (IH _ (i + 1)); cbn; clear IH.
    + done.
    + lia.
    + rewrite length_blit; [done|nia|]. rewrite (Hpg i) by lia. unfold slice, zlen in *.
      rewrite length_take, length_drop. nia.
    + lia.
    + intros p Hp. by apply Hpg; lia.
    + rewrite (Hpg i) by lia. unfold blit, slice. set (e := entries_per_blk) in *. unfold zlen in *.
      replace (Z.to_nat ((i + 1) * e)) with (Z.to_nat (i * e) + Z.to_nat e)%nat by nia.
      rewrite app_assoc, take_app_le.
      * rewrite Htk. rewrite take_ge.
        -- by rewrite take_take_drop.
        -- rewrite length_app, !length_take, length_drop. nia.
      * rewrite length_app, !length_take, length_drop. nia.
Qed.

(** Every clean page of the cache is saved in its current place. *)
Definition coherent (s : nvm_sb_info) (m : meta_area) : Prop :=
  forall p, 0 <= p < mpt_dirty_map_bits s -> test_bit p (mpt_dirty_map s) = false ->
    get_current_mpt_page sbi s m p = cache_page s p.

(** What the superblock page chosen by [ckpt_flags] must say to find the
    pages of [s] again. *)
Definition committed (raw_uuid : list Z) (fl : Z) (s : nvm_sb_info) (m : meta_area)
    (ckpt_flags : Z) (t : nvm_sb_info) : Prop :=
  read_nvm_super_block sbi raw_uuid fl m ckpt_flags = Done (0, Some t) /\
  nsb t = nsb s /\
  forall p, 0 <= p < mpt_dirty_map_bits s ->
    f2fs_test_bit p (mpt_ver_map t) = f2fs_test_bit p (mpt_ver_map s).

Lemma get_mpt_saved s t m (l : list Z) :
  pages_wf sbi s -> 0 < entries_per_blk -> nsb t = nsb s -> zlen (mpt t) = zlen (mpt s) ->
  zlen l = zlen (mpt s) ->
  (forall p, 0 <= p < mpt_dirty_map_bits s ->
     get_current_mpt_page sbi t m p = slice l (p * entries_per_blk) entries_per_blk) ->
  f2fs_get_mpt sbi t m = t <| mpt := l |>.
Proof.
  intros [] He En Ez El Hpg. unfold f2fs_get_mpt. rewrite En, <- pw_bits0.
  apply get_mpt_loop_ok; try done; try congruence.
  - rewrite Z2Nat.id by lia. lia.
  - intros p Hp. apply Hpg. lia.
Qed.

Lemma get_mpt_same_pages t m m' :
  (forall p, 0 <= p < mpt_ver_map_bits (nsb t) ->
     get_current_mpt_page sbi t m' p = get_current_mpt_page sbi t m p) ->
  0 <= mpt_ver_map_bits (nsb t) ->
  f2fs_get_mpt sbi t m' = f2fs_get_mpt sbi t m.
Proof.
  intros Hp Hb. unfold f2fs_get_mpt.
  assert (forall n t' i, 0 <= i -> i + Z.of_nat n <= mpt_ver_map_bits (nsb t) ->
    nsb t' = nsb t -> mpt_ver_map t' = mpt_ver_map t ->
    get_mpt_loop sbi n t' m' i = get_mpt_loop sbi n t' m i) as Hloop.
  { induction n as [|n IH]; intros t' i Hi Hn E1 E2; [done|]. cbn [get_mpt_loop].
    assert (forall m, get_current_mpt_page sbi t' m i = get_current_mpt_page sbi t m i) as E
      by (intros; unfold get_current_mpt_page; by rewrite E1, E2).
    rewrite !E, Hp by lia. apply IH; try done; lia. }
  apply Hloop; done || lia.
Qed.

Lemma flush_coherent all s m s' m' :
  pages_wf sbi s -> coherent s m ->
  flushed_to sbi all s m (mpt_dirty_map_bits s) s' m' ->
  forall p, 0 <= p < mpt_dirty_map_bits s -> get_current_mpt_page sbi s' m' p = cache_page s p.
Proof.
  intros P C F p Hp. destruct F. rewrite current_page_eq.
  assert (forall b, mpt_addr sbi s' p b = mpt_addr sbi s p b) as -> by
    (intros; unfold mpt_addr; by rewrite ft_nsb0).
  rewrite ft_page0, ft_ver0 by done. replace (p <? _) with true by lia. cbn [andb].
  destruct (to_flush all s p) eqn:Ef; cbn [xorb andb].
  - by destruct (f2fs_test_bit p (mpt_ver_map s)).
  - unfold to_flush in Ef. apply orb_false_iff in Ef as [_ Ed].
    rewrite <- current_page_eq. by apply C.
Qed.
End readback.

(** do_checkpoint: after a flushed superblock the version flag is switched *)
Definition nvm_switch_nsb_version (ckpt_flags : Z) : Z := Z.lxor ckpt_flags CP_NSB_VER_FLAG.

Lemma switch_flag fl :
  nz (Z.land (nvm_switch_nsb_version fl) CP_NSB_VER_FLAG) = negb (nz (Z.land fl CP_NSB_VER_FLAG)).
Proof.
  unfold nvm_switch_nsb_version. rewrite !(nz_land_pow2 _ 12 ltac:(lia)), Z.lxor_spec.
  change (Z.testbit CP_NSB_VER_FLAG 12) with true. apply xorb_true_r.
Qed.

(** A superblock a mount accepts, whose version bitmap covers the table. *)
Record nsb_ok `{F2fsFormat} (b : nvm_super_block) (raw_uuid : list Z) : Prop := {
  nb_uuid : strncmp_eq 16 (uuid b) raw_uuid = true;
  nb_bits : 0 < mpt_ver_map_bits b;
  nb_pages : page_items (mpt_entries b) = mpt_ver_map_bits b * entries_per_blk;
  nb_segs : 0 < main_segment_nums b;
}.
(** Both bitmaps fit the superblock page. *)
Definition nsb_fits `{F2fsFormat} (b : nvm_super_block) : Prop :=
  (mpt_ver_map_bits b - 1) / 8 + 1 + ((main_segment_nums b - 1) / 8 + 1) <= nsb_map_room.

Section durable.
Context `{F2fsFormatOk} `{BitSearchOk}.
Context (sbi : f2fs_sb_info).

Lemma read_after_flush s m raw fl flags :
  pages_wf sbi s -> 0 < entries_per_blk -> nsb_ok (nsb s) raw -> nsb_fits (nsb s) ->
  exists m' t, nvm_flush_nsb_pages s m (if nz (Z.land flags CP_NSB_VER_FLAG) then 1 else 0) = Done m' /\
    mpt_pages m' = mpt_pages m /\
    read_nvm_super_block sbi raw fl m' flags = Done (0, Some t) /\ nsb t = nsb s /\ zlen (mpt t) = zlen (mpt s) /\
    (forall p, 0 <= p < mpt_dirty_map_bits s ->
       f2fs_test_bit p (mpt_ver_map t) = f2fs_test_bit p (mpt_ver_map s)) /\
    (forall i, 0 <= i < main_segment_nums (nsb s) ->
       test_bit i (segment_map t) = test_bit i (segment_map s)).
Proof.
  intros [Hb Hr Hv Hm] He [Hu Hbits Hpg Hseg] Hfit. unfold nsb_fits in Hfit. pose proof blksize_range as Hblk.
  unfold read_nvm_super_block, nvm_flush_nsb_pages. cbv zeta.
  assert (u32 (mpt_ver_map_bits (nsb s) - 1) = mpt_ver_map_bits (nsb s) - 1) as Eu1 by (apply u32_id; unfold nsb_map_room in Hfit; dlia).
  assert (u32 (main_segment_nums (nsb s) - 1) = main_segment_nums (nsb s) - 1) as Eu2 by (apply u32_id; unfold nsb_map_room in Hfit; dlia).
  rewrite Eu1, Eu2. replace (nsb_map_room <? _) with false by lia. match goal with |- exists _ _, Done ?x = _ /\ _ => exists x end.
  match goal with |- exists t, _ /\ _ /\ @?P t => cut (ex P); [intros (t & Ht); by exists t|] end. cbn [nsb_pages upd].
  unfold fput. rewrite Z.eqb_refl. cbn [pg_nsb pg_map].
  unfold sanity_check_nvm_super. rewrite Hu. cbn [negb].
  set (vb := (mpt_ver_map_bits (nsb s) - 1) / 8 + 1).
  set (sb := (main_segment_nums (nsb s) - 1) / 8 + 1).
  assert (0 <= vb <= zlen (mpt_ver_map s)) as Hvb by (subst vb; dlia).
  assert (0 <= sb) by (subst sb; dlia).
  assert (zlen (slice (mpt_ver_map s) 0 vb) = vb) as Hl.
  { unfold slice, zlen in *. rewrite drop_0, length_take. lia. }
  set (X := blit (pg_map _) 0 _). assert (vb <= zlen X) as HX.
  { subst X. unfold blit. rewrite !zlen_app, Hl.
    change (zlen (take (Z.to_nat 0) _)) with 0.
    match goal with |- context [zlen (drop ?n ?l)] => pose proof (zlen_nonneg (drop n l)) end. lia. }
  change (nsb (init_nvm_sb_info sbi fl (nsb s))) with (nsb s). rewrite Eu1, Eu2. fold vb sb. replace (nsb_map_room <? vb + sb) with false by lia.
  eexists. split; [reflexivity|]. cbn [nsb mpt mpt_ver_map segment_map upd init_nvm_sb_info].
  assert (slice (blit X vb (bitmap_bytes (segment_map s) sb)) 0 vb = slice (mpt_ver_map s) 0 vb) as Ev.
  { rewrite slice_blit_before by lia. rewrite <- Hl at 1. subst X.
    apply slice_blit_eq; [lia|apply zlen_nonneg]. }
  split; [done|]. split.
  { cbn. rewrite zlen_replicate, Hpg. lia. }
  split.
  - intros p Hp. cbn. fold vb sb. rewrite Ev, !test_bit_testbit. f_equal.
    assert (0 <= p / 8 < vb) by (subst vb; dlia).
    rewrite aget_blit_0 by lia. unfold slice. rewrite drop_0. apply aget_take; lia.
  - intros i Hi. cbn. fold vb sb.
    rewrite <- (bitmap_bytes_length (segment_map s) sb) at 2 by lia.
    rewrite slice_blit_eq by lia. apply bitmap_bytes_roundtrip; [lia|]. subst sb. dlia.
Qed.
(** A superblock that was read fits. *)
Lemma read_fits raw fl m flags t : read_nvm_super_block sbi raw fl m flags = Done (0, Some t) ->
  u32 (mpt_ver_map_bits (nsb t) - 1) / 8 + 1 + (u32 (main_segment_nums (nsb t) - 1) / 8 + 1) <= nsb_map_room.
Proof.
  unfold read_nvm_super_block. cbv zeta. destruct (sanity_check_nvm_super _ _); [done|].
  destruct (Z.ltb_spec nsb_map_room (u32 (mpt_ver_map_bits (nsb (init_nvm_sb_info sbi fl (pg_nsb (nsb_pages m (if nz (Z.land flags CP_NSB_VER_FLAG) then 1 else 0))))) - 1) / 8 + 1 +
    (u32 (main_segment_nums (nsb (init_nvm_sb_info sbi fl (pg_nsb (nsb_pages m (if nz (Z.land flags CP_NSB_VER_FLAG) then 1 else 0))))) - 1) / 8 + 1))); [done|].
  intros [= <-]. done.
Qed.
End durable.

(** C4. Saving and remounting, for an NVM whose two bitmaps fit the page of its
    superblock ([large_nvm_overflows] otherwise): after the flushes of a checkpoint and
    the switch of the version flag, reading the superblock and the table gives back the
    mapping table, the segment bitmap and the superblock in memory. *)
Theorem checkpoint_durable {F : F2fsFormat} {FO : F2fsFormatOk} {S : BitSearch} {SO : BitSearchOk}
    sbi s m raw fl flags :
  pages_wf sbi s -> coherent sbi s m -> nsb_ok (nsb s) raw -> nsb_fits (nsb s) ->
  exists s' m', checkpoint_nvm sbi s m flags = Done (s', m') /\
    mpt s' = mpt s /\ coherent sbi s' m' /\
    if nz (Z.land (nvm_flag s') NVM_NSB_DIRTY) then
      exists t, committed sbi raw fl s' m' (nvm_switch_nsb_version flags) t /\
        let u := f2fs_get_mpt sbi t m' in
        mpt u = mpt s /\ nsb u = nsb s /\
        forall i, 0 <= i < main_segment_nums (nsb s) ->
          test_bit i (segment_map u) = test_bit i (segment_map s)
    else nsb_pages m' = nsb_pages m /\
      forall p, 0 <= p < mpt_dirty_map_bits s ->
        test_bit p (mpt_dirty_map s) = false /\
        get_current_mpt_page sbi s' m' p = get_current_mpt_page sbi s m p.
Proof.
  intros P C Hok Hfit. pose proof blksize_range as Hblk.
  assert (0 < entries_per_blk) as He by (unfold entries_per_blk; apply Z.div_str_pos; lia).
  destruct (nvm_flush_ok sbi false s m P) as (s' & m' & E & Fl & Hflag).
  pose proof (flush_coherent sbi false s m s' m' P C Fl) as Hcur.
  assert (pages_wf sbi s') as P'.
  { destruct P, Fl. split; rewrite ?ft_bits0, ?ft_nsb0, ?ft_len0, ?ft_mpt0; done. }
  assert (forall p, cache_page s' p = cache_page s p) as Hcp.
  { intros p. unfold cache_page. by rewrite (ft_mpt _ _ _ _ _ _ _ Fl). }
  unfold checkpoint_nvm. rewrite E. cbn [obind fst snd].
  destruct (nz (Z.land (nvm_flag s') NVM_NSB_DIRTY)) eqn:Ed.
  - assert (nsb_ok (nsb s') raw) as Hok' by (by rewrite (ft_nsb _ _ _ _ _ _ _ Fl)).
    assert (nsb_fits (nsb s')) as Hfit' by (by rewrite (ft_nsb _ _ _ _ _ _ _ Fl)).
    destruct (read_after_flush sbi s' m' raw fl (nvm_switch_nsb_version flags) P' He Hok' Hfit')
      as (m2 & t & Hw & Epg & Hr & Hn & Hl & Hv & Hsg).
    rewrite switch_flag in Hw.
    replace (if nz (Z.land flags CP_NSB_VER_FLAG) then 0 else 1)
      with (if negb (nz (Z.land flags CP_NSB_VER_FLAG)) then 1 else 0) by
      by destruct (nz (Z.land flags CP_NSB_VER_FLAG)).
    rewrite Hw. cbn [obind]. exists s', m2. split; [done|]. split; [by rewrite (ft_mpt _ _ _ _ _ _ _ Fl)|].
    assert (forall s p, get_current_mpt_page sbi s m2 p = get_current_mpt_page sbi s m' p) as Eg
      by (intros; unfold get_current_mpt_page; by rewrite Epg).
    split.
    { intros p Hp _. rewrite Hcp, Eg. rewrite (ft_bits _ _ _ _ _ _ _ Fl) in Hp. by apply Hcur. }
    rewrite Ed. exists t. split; [by split_and!|]. cbv zeta.
    rewrite (get_mpt_saved sbi s' t _ (mpt s') P' He Hn Hl eq_refl).
    + cbn. rewrite (ft_mpt _ _ _ _ _ _ _ Fl), Hn, (ft_nsb _ _ _ _ _ _ _ Fl). split_and!; try done.
      intros i Hi. rewrite Hsg by (by rewrite (ft_nsb _ _ _ _ _ _ _ Fl)).
      by rewrite (ft_seg _ _ _ _ _ _ _ Fl).
    + intros p Hp. change (slice (mpt s') _ _) with (cache_page s' p). rewrite Hcp.
      rewrite Eg. rewrite (ft_bits _ _ _ _ _ _ _ Fl) in Hp. rewrite <- Hcur by done.
      unfold get_current_mpt_page. rewrite Hn, Hv by (by rewrite (ft_bits _ _ _ _ _ _ _ Fl)). done.
  - exists s', m'. split; [done|]. split; [by rewrite (ft_mpt _ _ _ _ _ _ _ Fl)|]. split.
    { intros p Hp _. rewrite Hcp. rewrite (ft_bits _ _ _ _ _ _ _ Fl) in Hp. by apply Hcur. }
    rewrite Ed. split; [by rewrite (ft_nsbs _ _ _ _ _ _ _ Fl)|]. intros p Hp.
    destruct Hflag as [[Hno _]|Hf].
    + specialize (Hno p Hp). split; [done|]. rewrite Hcur by done. symmetry. by apply C.
    + rewrite Hf, (nz_land_pow2 _ 0), Z.lor_spec in Ed by lia. done.
Qed.

(** C2. A crash before the version flag is on disk: the superblock and the pages
    the old checkpoint refers to were not overwritten, so a mount finds the
    state it would have found before the checkpoint started.  The old superblock is one
    that a mount reads ([committed]), so its bitmaps fit their page. *)
Theorem checkpoint_crash_safe {F : F2fsFormat} {FO : F2fsFormatOk} {S : BitSearch} {SO : BitSearchOk}
    sbi s m raw fl flags t :
  pages_wf sbi s -> committed sbi raw fl s m flags t ->
  exists s' m', checkpoint_nvm sbi s m flags = Done (s', m') /\
    read_nvm_super_block sbi raw fl m' flags = Done (0, Some t) /\
    f2fs_get_mpt sbi t m' = f2fs_get_mpt sbi t m.
Proof.
  intros P (Hr & Hn & Hv). destruct (nvm_flush_ok sbi false s m P) as (s' & m' & E & Fl & _).
  assert (forall m2, mpt_pages m2 = mpt_pages m' -> f2fs_get_mpt sbi t m2 = f2fs_get_mpt sbi t m) as Hget.
  { intros m2 Em. pose proof P as [Hb Hrg _ _]. apply get_mpt_same_pages; rewrite Hn, <- Hb; [|lia].
    intros p Hp. rewrite !current_page_eq, Em, Hv by done.
    assert (forall b, mpt_addr sbi t p b = mpt_addr sbi s p b) as -> by
      (intros; unfold mpt_addr; by rewrite Hn).
    rewrite (ft_page _ _ _ _ _ _ _ Fl) by done. by rewrite Bool.eqb_reflx, andb_false_r. }
  unfold checkpoint_nvm. rewrite E. cbn [obind fst snd].
  assert (forall m2, nsb_pages m2 (if nz (Z.land flags CP_NSB_VER_FLAG) then 1 else 0) =
                     nsb_pages m (if nz (Z.land flags CP_NSB_VER_FLAG) then 1 else 0) ->
     read_nvm_super_block sbi raw fl m2 flags = Done (0, Some t)) as Hread.
  { intros m2 E2. revert Hr. unfold read_nvm_super_block. by rewrite E2. }
  destruct (nz (Z.land (nvm_flag s') NVM_NSB_DIRTY)).
  - assert (u32 (mpt_ver_map_bits (nsb s') - 1) / 8 + 1 + (u32 (main_segment_nums (nsb s') - 1) / 8 + 1) <= nsb_map_room) as Hfit.
    { rewrite (ft_nsb _ _ _ _ _ _ _ Fl), <- Hn. by apply (read_fits sbi raw fl m flags). }
    unfold nvm_flush_nsb_pages. cbv zeta. replace (nsb_map_room <? _) with false by lia. cbn [obind].
    eexists s', _. split; [done|]. split; [|by apply Hget]. apply Hread. cbn. unfold fput.
    rewrite (ft_nsbs _ _ _ _ _ _ _ Fl). by destruct (nz (Z.land flags CP_NSB_VER_FLAG)).
  - exists s', m'. split; [done|]. split; [|by apply Hget]. apply Hread.
    by rewrite (ft_nsbs _ _ _ _ _ _ _ Fl).
Qed.

#[local] Existing Instances linux_format linux_format_ok scan_search scan_search_ok.

(** A device with one dirty MPT page, and the same device after a first
    checkpoint. *)
Definition blank_meta : meta_area := mk_meta (fun _ => replicate 1024 0) (fun _ => mk_nsb_page demo_nsb []).
Definition demo_meta : meta_area :=
  match nvm_flush_nsb_pages demo_mapped blank_meta 0 with Done m => m | _ => blank_meta end.
Lemma demo_pages_wf : pages_wf demo_sbi demo_mapped.
Proof. by split; vm_compute. Qed.
Lemma demo_nsb_ok : nsb_ok (nsb demo_mapped) [1; 2; 3].
Proof. by split; vm_compute. Qed.
Lemma demo_nsb_fits : nsb_fits (nsb demo_mapped).
Proof. by vm_compute. Qed.

Lemma checkpoint_durable_witness :
  exists s' m', @checkpoint_nvm linux_format scan_search demo_sbi demo_mapped demo_meta 0 = Done (s', m') /\
    exists t, committed demo_sbi [1; 2; 3] 0 s' m' 4096 t /\
      ssd_lookup (f2fs_get_mpt demo_sbi t m') 1 = Some 0.
Proof.
  assert (coherent demo_sbi demo_mapped demo_meta) as C.
  { intros p Hp Hd. exfalso. assert (p = 0) as -> by (revert Hp; change (mpt_dirty_map_bits demo_mapped) with 1; lia). revert Hd. vm_compute. discriminate. }
  destruct (@checkpoint_durable linux_format linux_format_ok scan_search scan_search_ok demo_sbi
    demo_mapped demo_meta [1; 2; 3] 0 0 demo_pages_wf C demo_nsb_ok demo_nsb_fits) as (s' & m' & E & Em & _ & Hd).
  exists s', m'. split; [exact E|].
  assert (nz (Z.land (nvm_flag s') NVM_NSB_DIRTY) = true) as Hf.
  { pose proof E as E'. vm_compute in E'. injection E' as <- _. reflexivity. }
  rewrite Hf in Hd. destruct Hd as (t & Ht & Hm & Hn & _). exists t. split; [exact Ht|].
  unfold ssd_lookup. rewrite Hm, Hn. by vm_compute.
Defined.

Lemma checkpoint_crash_safe_witness :
  exists t s' m', @checkpoint_nvm linux_format scan_search demo_sbi demo_mapped demo_meta 0 = Done (s', m') /\
    f2fs_get_mpt demo_sbi t m' = f2fs_get_mpt demo_sbi t demo_meta.
Proof.
  destruct (read_after_flush demo_sbi demo_mapped blank_meta [1; 2; 3] 0 0
    demo_pages_wf ltac:(done) demo_nsb_ok demo_nsb_fits) as (m & t & Hw & _ & Hr & Hn & _ & Hv & _).
  assert (m = demo_meta) as -> by (unfold demo_meta; change (if nz (Z.land 0 CP_NSB_VER_FLAG) then 1 else 0) with 0 in Hw; by rewrite Hw).
  destruct (@checkpoint_crash_safe linux_format linux_format_ok scan_search scan_search_ok demo_sbi
    demo_mapped demo_meta [1; 2; 3] 0 0 t demo_pages_wf) as (s' & m' & E & _ & Hg).
  - split; [exact Hr|]. split; [exact Hn|exact Hv].
  - by exists t, s', m'.
Defined.

(** The uuid is compared as a C string: two devices whose uuids agree up to a
    zero byte are taken for the same one. *)
Theorem sanity_check_zero_byte b raw :
  (exists u, uuid b = 0 :: u) -> (exists r, raw = 0 :: r) ->
  sanity_check_nvm_super raw b = false.
Proof.
  intros [u Hu] [r ->]. unfold sanity_check_nvm_super. by rewrite Hu.
Qed.
Lemma sanity_check_zero_byte_witness :
  sanity_check_nvm_super [0; 9; 9] (demo_nsb <| uuid := [0; 1; 2] |>) = false.
Proof. apply sanity_check_zero_byte; by eexists. Defined.

(** The segment bitmap of an NVM with more than 32280 segments (63 GB) does not fit the
    page of the superblock: the copy runs over its end. *)
Theorem large_nvm_overflows s m a :
  0 < mpt_ver_map_bits (nsb s) < 2 ^ 32 -> 32280 < main_segment_nums (nsb s) < 2 ^ 32 ->
  nvm_flush_nsb_pages s m a = Bug.
Proof.
  intros Hv Hn. unfold nvm_flush_nsb_pages. cbv zeta. rewrite !u32_id by lia.
  change nsb_map_room with 4036. by replace (4036 <? _) with true by dlia.
Qed.
Lemma large_nvm_overflows_witness :
  nvm_flush_nsb_pages (demo_mapped <| nsb ::= fun b => b <| main_segment_nums := 40000 |> |>) blank_meta 0 = Bug.
Proof. by apply large_nvm_overflows; vm_compute. Defined.
