(* ===== verification/RevBits.v ===== *)
(** * Word-level search in byte bitmaps ([segment.c])

    __find_rev_next_bit and __find_rev_next_zero_bit search bitmaps in f2fs bit
    order 64 bits at a time.  The theorem shows they find what a bit by bit
    search with f2fs_test_bit finds. *)
From S2P Require Import Prelude Geometry Heap Mpt FreeMap Machine Redirect BlockIo F2fsBits MptFlush.
Open Scope Z_scope.

Definition BITS_PER_LONG : Z := 64.

(** __reverse_ulong on the eight bytes at byte offset [str] *)
Definition __reverse_ulong (m : list Z) (str : Z) : Z :=
  foldl (fun tmp idx => Z.lor tmp (Z.shiftl m.[str + idx] (56 - 8 * idx))) 0 (seqZ 0 8).

Definition __reverse_ffs (word : Z) : Z :=
  let step mask n (s : Z * Z) :=
    if Z.land (snd s) mask =? 0 then (fst s + n, snd s) else (fst s, Z.shiftr (snd s) n) in
  let s := step 18446744069414584320 (* 0xffffffff00000000 *) 32 (0, word) in
  let s := step 4294901760 (* 0xffff0000 *) 16 s in
  let s := step 65280 (* 0xff00 *) 8 s in
  let s := step 240 (* 0xf0 *) 4 s in
  let s := step 12 (* 0xc *) 2 s in
  if Z.land (snd s) 2 =? 0 then fst s + 1 else fst s.

(** the [unsigned long] at index [p] of the map *)
Definition ulong_at (m : list Z) (p : Z) : Z :=
  foldr (fun b acc => b + 256 * acc) 0 (slice m (8 * p) 8).

(** The loop of both searches: [skip p] is the test of the whole word, and the
    leading one of [masked p offset size] is the hit. *)
Section scan.
Context (skip : Z -> bool) (masked : Z -> Z -> Z -> Z).
Fixpoint rev_scan (fuel : nat) (result p size offset : Z) : outcome Z :=
  match fuel with
  | O => NoFuel
  | S fuel =>
      let pass := if size <=? BITS_PER_LONG then Done result
                  else rev_scan fuel result (p + 1) (size - BITS_PER_LONG) 0 in
      if skip p then pass
      else
        let tmp := masked p offset size in
        if nz tmp then Done (result - size + __reverse_ffs tmp) else pass
  end.
Definition rev_search (size offset : Z) : outcome Z :=
  if size <=? offset then Done size
  else rev_scan (S (Z.to_nat (size / BITS_PER_LONG))) size (offset / BITS_PER_LONG)
         (size - Z.land offset (Z.lnot (BITS_PER_LONG - 1))) (offset mod BITS_PER_LONG).
End scan.

Definition __find_rev_next_bit (m : list Z) (size offset : Z) : outcome Z :=
  rev_search (fun p => ulong_at m p =? 0)
    (fun p offset size =>
       let tmp := __reverse_ulong m (8 * p) in
       let tmp := Z.land tmp (Z.shiftr (Z.ones 64) offset) in
       if size <? BITS_PER_LONG then Z.land tmp (u64 (Z.shiftl (Z.ones 64) (BITS_PER_LONG - size)))
       else tmp) size offset.

(** __reverse_ffz(x) is __reverse_ffs(~x) *)
Definition __find_rev_next_zero_bit (m : list Z) (size offset : Z) : outcome Z :=
  rev_search (fun p => ulong_at m p =? Z.ones 64)
    (fun p offset size =>
       let tmp := __reverse_ulong m (8 * p) in
       let tmp := if nz offset then Z.lor tmp (u64 (Z.shiftl (Z.ones 64) (BITS_PER_LONG - offset)))
                  else tmp in
       let tmp := if size <? BITS_PER_LONG then Z.lor tmp (Z.shiftr (Z.ones 64) size) else tmp in
       u64 (Z.lnot tmp)) size offset.

(** ** The words *)

Definition bytes_ok (m : list Z) : Prop := forall i, 0 <= m.[i] < 256.

Lemma shiftl_byte_testbit b k n :
  0 <= b < 256 -> 0 <= k -> 0 <= n ->
  Z.testbit (Z.shiftl b k) n = (k <=? n) && (n <? k + 8) && Z.testbit b (n - k).
Proof.
  intros Hb Hk Hn. rewrite Z.shiftl_spec by lia.
  destruct (Z.leb_spec k n); cbn [andb]; [|by rewrite Z.testbit_neg_r by lia].
  destruct (Z.ltb_spec n (k + 8)); cbn [andb]; [done|].
  replace b with (b mod 2 ^ 8) by (apply Z.mod_small; lia).
  apply Z.mod_pow2_bits_high. lia.
Qed.

Lemma reverse_ulong_testbit m p b :
  bytes_ok m -> 0 <= p -> 0 <= b < 64 ->
  Z.testbit (__reverse_ulong m (8 * p)) b = f2fs_test_bit (64 * p + (63 - b)) m.
Proof.
  intros Hm Hp Hb. rewrite test_bit_testbit. unfold __reverse_ulong.
  change (seqZ 0 8) with [0; 1; 2; 3; 4; 5; 6; 7]. cbn [foldl].
  rewrite !Z.lor_spec, Z.bits_0, !shiftl_byte_testbit by (apply Hm || lia).
  assert (exists i r, b = 8 * (7 - i) + r /\ 0 <= i < 8 /\ 0 <= r < 8) as (i & r & -> & Hi & Hr).
  { exists (7 - b / 8), (b mod 8). split_and!; dlia. }
  replace ((64 * p + (63 - (8 * (7 - i) + r))) / 8) with (8 * p + i) by dlia.
  replace ((64 * p + (63 - (8 * (7 - i) + r))) mod 8) with (7 - r) by dlia.
  replace (7 - (7 - r)) with r by lia.
  assert (i = 0 \/ i = 1 \/ i = 2 \/ i = 3 \/ i = 4 \/ i = 5 \/ i = 6 \/ i = 7) as Hc by lia.
  assert (forall k, (56 - 8 * k <=? 8 * (7 - i) + r) && (8 * (7 - i) + r <? 56 - 8 * k + 8) = (k =? i)) as Hk.
  { intros k. destruct (Z.eqb_spec k i) as [->|].
    - apply andb_true_iff. rewrite Z.leb_le, Z.ltb_lt. lia.
    - apply andb_false_iff. rewrite Z.leb_gt, Z.ltb_ge. lia. }
  rewrite !Hk. clear Hk.
  destruct Hc as [->|[->|[->|[->|[->|[->|[->| ->] ] ] ] ] ] ]; cbn [Z.eqb Pos.eqb andb orb];
    rewrite ?orb_false_r; f_equal; lia.
Qed.
Lemma reverse_ulong_range m p : bytes_ok m -> 0 <= __reverse_ulong m p < 2 ^ 64.
Proof.
  intros Hm. unfold __reverse_ulong. change (seqZ 0 8) with [0; 1; 2; 3; 4; 5; 6; 7]. cbn [foldl].
  assert (forall a b, 0 <= a < 2 ^ 64 -> 0 <= b < 2 ^ 64 -> 0 <= Z.lor a b < 2 ^ 64) as Hor.
  { intros a b Ha Hb. rewrite <- (Z.mod_small a (2 ^ 64)), <- (Z.mod_small b (2 ^ 64)) by lia.
    rewrite <- !Z.land_ones, <- Z.land_lor_distr_l by lia. rewrite Z.land_ones by lia.
    apply Z.mod_pos_bound. lia. }
  assert (forall i k, 0 <= k <= 56 -> 0 <= Z.shiftl m.[i] k < 2 ^ 64) as Hs.
  { intros i k Hk. pose proof (Hm i). rewrite Z.shiftl_mul_pow2 by lia.
    assert (0 < 2 ^ k <= 2 ^ 56) by (split; [apply Z.pow_pos_nonneg|apply Z.pow_le_mono_r]; lia). nia. }
  repeat apply Hor; try lia; apply Hs; lia.
Qed.

Lemma split_mask w h :
  0 <= h -> 0 <= w < 2 ^ (2 * h) ->
  (Z.land w (Z.shiftl (Z.ones h) h) =? 0) = (w <? 2 ^ h).
Proof.
  intros Hh Hw. assert (0 < 2 ^ h) by (apply Z.pow_pos_nonneg; lia).
  replace (2 ^ (2 * h)) with (2 ^ h * 2 ^ h) in Hw by (rewrite <- Z.pow_add_r by lia; f_equal; lia).
  assert (Z.land w (Z.shiftl (Z.ones h) h) = Z.shiftl (Z.shiftr w h) h) as ->.
  { apply Z.bits_inj'. intros n Hn. rewrite Z.land_spec, !Z.shiftl_spec by lia.
    destruct (Z.ltb_spec n h).
    - rewrite !(Z.testbit_neg_r _ (n - h)) by lia. apply andb_false_r.
    - rewrite Z.shiftr_spec by lia. replace (n - h + h) with n by lia.
      rewrite Z.testbit_ones_nonneg by lia. destruct (Z.ltb_spec (n - h) h); [apply andb_true_r|].
      rewrite andb_false_r. symmetry. replace w with (w mod 2 ^ n); [by apply Z.mod_pow2_bits_high; lia|].
      apply Z.mod_small. split; [lia|]. eapply Z.lt_le_trans; [apply Hw|].
      rewrite <- Z.pow_add_r by lia. apply Z.pow_le_mono_r; lia. }
  rewrite Z.shiftl_mul_pow2, Z.shiftr_div_pow2 by lia.
  destruct (Z.ltb_spec w (2 ^ h)).
  - by rewrite Z.div_small by lia.
  - apply Z.eqb_neq. assert (1 <= w / 2 ^ h) by (apply Z.div_le_lower_bound; lia). nia.
Qed.

(** One halving step: [n + (2h - 1 - log2 w)] is unchanged. *)
Lemma ffs_step mask h num w :
  0 < h -> mask = Z.shiftl (Z.ones h) h -> 0 < w < 2 ^ (2 * h) ->
  let s := if Z.land w mask =? 0 then (num + h, w) else (num, Z.shiftr w h) in
  0 < snd s < 2 ^ h /\ fst s + (h - 1 - Z.log2 (snd s)) = num + (2 * h - 1 - Z.log2 w).
Proof.
  intros Hh -> Hw. rewrite split_mask by lia. assert (0 < 2 ^ h) by (apply Z.pow_pos_nonneg; lia).
  replace (2 ^ (2 * h)) with (2 ^ h * 2 ^ h) in Hw by (rewrite <- Z.pow_add_r by lia; f_equal; lia).
  destruct (Z.ltb_spec w (2 ^ h)); cbn [fst snd]; [lia|].
  rewrite Z.log2_shiftr by lia. rewrite Z.shiftr_div_pow2 by lia.
  assert (h <= Z.log2 w) by (apply Z.log2_le_pow2; lia).
  split; [|lia]. split; [apply Z.div_str_pos; lia|]. apply Z.div_lt_upper_bound; lia.
Qed.

Lemma reverse_ffs_ok w : 0 < w < 2 ^ 64 -> __reverse_ffs w = 63 - Z.log2 w.
Proof.
  intros Hw. unfold __reverse_ffs.
  assert (forall mask h num w, 0 < h -> mask = Z.shiftl (Z.ones h) h -> 0 < w < 2 ^ (2 * h) ->
    exists num' w', (if Z.land w mask =? 0 then (num + h, w) else (num, Z.shiftr w h)) = (num', w') /\
      0 < w' < 2 ^ h /\ num' + (h - 1 - Z.log2 w') = num + (2 * h - 1 - Z.log2 w)) as Hstep.
  { intros mask h num x Hh Hm Hx. pose proof (ffs_step mask h num x Hh Hm Hx) as Hs. cbv zeta in Hs.
    destruct (if Z.land x mask =? 0 then _ else _) as [n' w']. exists n', w'. done. }
  cbn [fst snd].
  destruct (Hstep 18446744069414584320 32 0 w) as (n1 & w1 & -> & W1 & E1); [lia|done|lia|]. cbn [fst snd].
  destruct (Hstep 4294901760 16 n1 w1) as (n2 & w2 & -> & W2 & E2); [lia|done|lia|]. cbn [fst snd].
  destruct (Hstep 65280 8 n2 w2) as (n3 & w3 & -> & W3 & E3); [lia|done|lia|]. cbn [fst snd].
  destruct (Hstep 240 4 n3 w3) as (n4 & w4 & -> & W4 & E4); [lia|done|lia|]. cbn [fst snd].
  destruct (Hstep 12 2 n4 w4) as (n5 & w5 & -> & W5 & E5); [lia|done|lia|]. cbn [fst snd].
  assert (w5 = 1 \/ w5 = 2 \/ w5 = 3) as [->|[-> | ->]] by lia;
    match goal with |- (if ?b then _ else _) = _ => let v := eval vm_compute in b in change b with v end;
    cbn in E5 |- *; lia.
Qed.

(** The leading one of a word that shows a range of the map. *)
Lemma hit_ok tmp (Q : Z -> bool) lo hi p :
  0 <= tmp < 2 ^ 64 -> 0 <= lo -> hi <= 64 ->
  (forall b, 0 <= b < 64 -> Z.testbit tmp b = (lo <=? 63 - b) && (63 - b <? hi) && Q (64 * p + (63 - b))) ->
  if nz tmp
  then lo <= __reverse_ffs tmp < hi /\ Q (64 * p + __reverse_ffs tmp) = true /\
       forall i, lo <= i < __reverse_ffs tmp -> Q (64 * p + i) = false
  else forall i, lo <= i < hi -> Q (64 * p + i) = false.
Proof.
  intros Ht Hlo Hhi HQ. unfold nz. destruct (Z.eqb_spec tmp 0) as [->|Hn]; cbn [negb].
  - intros i Hi. pose proof (HQ (63 - i) ltac:(lia)) as Hb. rewrite Z.bits_0 in Hb.
    replace (63 - (63 - i)) with i in Hb by lia.
    replace (lo <=? i) with true in Hb by lia. by replace (i <? hi) with true in Hb by lia.
  - rewrite reverse_ffs_ok by lia. assert (0 <= Z.log2 tmp < 64) as Hl.
    { split; [apply Z.log2_nonneg|]. apply Z.log2_lt_pow2; lia. }
    pose proof (Z.bit_log2 tmp ltac:(lia)) as Hb. rewrite HQ in Hb by lia.
    apply andb_true_iff in Hb as [Hb HQ']. apply andb_true_iff in Hb as [H1 H2].
    apply Z.leb_le in H1. apply Z.ltb_lt in H2. split_and!; [lia|lia|done|].
    intros i Hi. pose proof (Z.bits_above_log2 tmp (63 - i) ltac:(lia) ltac:(lia)) as Hz.
    rewrite HQ in Hz by lia. replace (63 - (63 - i)) with i in Hz by lia.
    replace (lo <=? i) with true in Hz by lia. by replace (i <? hi) with true in Hz by lia.
Qed.

Section search.
Context (Q : Z -> bool) (skip : Z -> bool) (masked : Z -> Z -> Z -> Z).
Context (size0 : Z).
Context (Hskip : forall p i, 0 <= p -> 64 * p < size0 -> skip p = true -> 0 <= i < 64 -> Q (64 * p + i) = false).
Context (Hmasked : forall p offset size, 0 <= p -> 0 <= offset < 64 -> 0 < size ->
  0 <= masked p offset size < 2 ^ 64 /\
  forall b, 0 <= b < 64 -> Z.testbit (masked p offset size) b =
    (offset <=? 63 - b) && (63 - b <? Z.min 64 size) && Q (64 * p + (63 - b))).

(** What a search from [off] returns. *)
Definition first_hit (size off r : Z) : Prop :=
  (r = size /\ forall k, off <= k < size -> Q k = false) \/
  (off <= r < size /\ Q r = true /\ forall k, off <= k < r -> Q k = false).

Lemma rev_scan_ok fuel p size offset :
  0 <= p -> 0 <= offset < 64 -> 0 < size -> size0 = 64 * p + size -> size / 64 < Z.of_nat fuel ->
  exists r, rev_scan skip masked fuel size0 p size offset = Done r /\
    first_hit size0 (64 * p + offset) r.
Proof.
  revert p size offset. induction fuel as [|fuel IH]; intros p size offset Hp Ho Hs Hr Hf; [dlia|].
  cbn [rev_scan]. unfold BITS_PER_LONG.
  assert ((forall i, offset <= i < Z.min 64 size -> Q (64 * p + i) = false) ->
    exists r, (if size <=? 64 then Done size0 else rev_scan skip masked fuel size0 (p + 1) (size - 64) 0)
              = Done r /\ first_hit size0 (64 * p + offset) r) as Hpass.
  { intros Hnone.
    assert (forall k, 64 * p + offset <= k < 64 * p + Z.min 64 size -> Q k = false) as Hn.
    { intros k Hk. replace k with (64 * p + (k - 64 * p)) by lia. apply Hnone. lia. }
    destruct (Z.leb_spec size 64).
    - exists size0. split; [done|]. left. split; [done|]. intros k Hk. apply Hn. lia.
    - destruct (IH (p + 1) (size - 64) 0) as (r & -> & Hit); [lia|lia|lia|lia|dlia|].
      exists r. split; [done|].
      destruct Hit as [[Er Hk]|(Hrange & Hq & Hk)]; [left|right].
      + split; [done|]. intros k Hr'. destruct (Z.ltb_spec k (64 * p + 64)); [apply Hn|apply Hk]; lia.
      + split_and!; [lia|lia|done|]. intros k Hr'.
        destruct (Z.ltb_spec k (64 * p + 64)); [apply Hn|apply Hk]; lia. }
  destruct (skip p) eqn:Es; [apply Hpass; intros; apply Hskip; done || lia|].
  destruct (Hmasked p offset size Hp Ho Hs) as [Ht Hb].
  pose proof (hit_ok (masked p offset size) Q offset (Z.min 64 size) p Ht ltac:(lia) ltac:(lia) Hb) as Hit.
  destruct (nz _); [|by apply Hpass]. destruct Hit as (Hrange & Hq & Hnone).
  eexists. split; [done|]. right. set (f := __reverse_ffs _) in *.
  replace (size0 - size + f) with (64 * p + f) by lia. split_and!; [lia|lia|done|].
  intros k Hk. replace k with (64 * p + (k - 64 * p)) by lia. apply Hnone. lia.
Qed.

Lemma rev_search_ok offset :
  0 <= offset -> exists r, rev_search skip masked size0 offset = Done r /\ first_hit size0 offset r.
Proof.
  intros Ho. unfold rev_search. destruct (Z.leb_spec size0 offset).
  { exists size0. split; [done|]. left. split; [done|lia]. }
  assert (Z.land offset (Z.lnot (BITS_PER_LONG - 1)) = 64 * (offset / 64)) as ->.
  { unfold BITS_PER_LONG. change (64 - 1) with (Z.ones 6). rewrite <- Z.ldiff_land, Z.ldiff_ones_r by lia.
    rewrite Z.shiftl_mul_pow2, Z.shiftr_div_pow2 by lia. change (2 ^ 6) with 64. lia. }
  unfold BITS_PER_LONG.
  destruct (rev_scan_ok (S (Z.to_nat (size0 / 64))) (offset / 64) (size0 - 64 * (offset / 64)) (offset mod 64))
    as (r & -> & Hit).
  - dlia.
  - dlia.
  - dlia.
  - lia.
  - assert (0 <= size0 / 64) by dlia. assert ((size0 - 64 * (offset / 64)) / 64 <= size0 / 64); [|lia].
    apply Z.div_le_mono; dlia.
  - exists r. split; [done|]. by replace offset with (64 * (offset / 64) + offset mod 64) at 1 by dlia.
Qed.
End search.

(** ** The two searches *)

Lemma ulong_digits l :
  Forall (fun b => 0 <= b < 256) l ->
  let w := foldr (fun b acc => b + 256 * acc) 0 l in
  0 <= w < 256 ^ zlen l /\
  (w = 0 -> Forall (fun b => b = 0) l) /\ (w = 256 ^ zlen l - 1 -> Forall (fun b => b = 255) l).
Proof.
  induction 1 as [|b l Hb _ IH]; cbn [foldr]; [unfold zlen; cbn; split_and!; (lia || constructor)|].
  destruct IH as (Hr & H0 & H1). rewrite zlen_cons.
  pose proof (zlen_nonneg l). rewrite Z.pow_add_r by lia. change (256 ^ 1) with 256.
  set (w := foldr _ _ l) in *. split_and!; [lia|lia|..]; intros Hw; constructor; try lia.
  - apply H0. lia.
  - apply H1. lia.
Qed.

Section instances.
Context (m : list Z) (Hm : Forall (fun b => 0 <= b < 256) m) (Hlen : zlen m mod 8 = 0).

Lemma word_bytes p : 0 <= p -> 64 * p < 8 * zlen m -> zlen (slice m (8 * p) 8) = 8.
Proof. intros. unfold slice, zlen in *. rewrite length_take, length_drop. dlia. Qed.
Lemma word_forall p (P : Z -> Prop) i :
  0 <= p -> 64 * p < 8 * zlen m -> Forall P (slice m (8 * p) 8) -> 0 <= i < 8 -> P m.[8 * p + i].
Proof.
  intros Hp Hl HP Hi. pose proof (word_bytes p Hp Hl) as Hw.
  rewrite list.Forall_lookup in HP. apply (HP (Z.to_nat i)). unfold slice in *.
  rewrite lookup_take_lt, lookup_drop by lia.
  replace (Z.to_nat (8 * p) + Z.to_nat i)%nat with (Z.to_nat (8 * p + i)) by lia.
  apply lookup_aget. unfold zlen in *. rewrite length_take, length_drop in Hw. lia.
Qed.
Lemma word_skip p i (b : bool) :
  0 <= p -> 64 * p < 8 * zlen m -> 0 <= i < 64 ->
  ulong_at m p = (if b then Z.ones 64 else 0) -> f2fs_test_bit (64 * p + i) m = b.
Proof.
  intros Hp Hl Hi Hu. rewrite test_bit_testbit.
  replace ((64 * p + i) / 8) with (8 * p + i / 8) by dlia.
  assert (Forall (fun b => 0 <= b < 256) (slice m (8 * p) 8)) as Hf
    by (unfold slice; by apply Forall_take, Forall_drop).
  destruct (ulong_digits _ Hf) as (_ & H0 & H1). rewrite word_bytes in H1 by lia.
  unfold ulong_at in Hu. destruct b.
  - rewrite (word_forall p (fun b => b = 255) (i / 8)); [|done|done|by apply H1|dlia].
    change 255 with (Z.ones 8). apply Z.ones_spec_low. dlia.
  - rewrite (word_forall p (fun b => b = 0) (i / 8)); [|done|done|by apply H0|dlia].
    apply Z.bits_0.
Qed.
Lemma m_bytes_ok : bytes_ok m.
Proof.
  intros i. destruct (decide (0 <= i < zlen m)).
  - rewrite list.Forall_lookup in Hm. eapply Hm. by apply lookup_aget.
  - rewrite aget_oob by done. by vm_compute.
Qed.

Lemma ones_shiftr_testbit k b : 0 <= k <= 64 -> 0 <= b -> Z.testbit (Z.shiftr (Z.ones 64) k) b = (b + k <? 64).
Proof. intros. by rewrite Z.shiftr_spec, Z.testbit_ones_nonneg by lia. Qed.
Lemma ones_shiftl_testbit k b :
  0 <= k -> 0 <= b < 64 -> Z.testbit (u64 (Z.shiftl (Z.ones 64) k)) b = (k <=? b).
Proof.
  intros Hk Hb. unfold u64. rewrite Z.mod_pow2_bits_low, Z.shiftl_spec by lia.
  destruct (Z.leb_spec k b).
  - rewrite Z.testbit_ones_nonneg by lia. apply Z.ltb_lt. lia.
  - apply Z.testbit_neg_r. lia.
Qed.

Lemma find_rev_next_bit_ok size offset :
  0 <= offset -> size <= 8 * zlen m ->
  exists r, __find_rev_next_bit m size offset = Done r /\
    first_hit (fun k => f2fs_test_bit k m) size offset r.
Proof.
  intros Ho Hs. pose proof m_bytes_ok as Hb. apply rev_search_ok; [..|done].
  - intros p i Hp Hl He Hi. apply Z.eqb_eq in He. apply (word_skip p i false); (done || lia).
  - intros p off sz Hp Ho' Hsz. pose proof (reverse_ulong_range m (8 * p) Hb) as Hr.
    assert (forall x y, 0 <= x < 2 ^ 64 -> 0 <= y -> 0 <= Z.land x y < 2 ^ 64) as Hland.
    { intros x y Hx Hy. rewrite <- (Z.mod_small x (2 ^ 64)) by lia. rewrite <- Z.land_ones by lia.
      rewrite <- Z.land_assoc, (Z.land_comm (Z.ones 64)), Z.land_assoc, Z.land_ones by lia.
      apply Z.mod_pos_bound. lia. }
    assert (0 <= Z.shiftr (Z.ones 64) off) by (apply Z.shiftr_nonneg; done).
    unfold BITS_PER_LONG. destruct (Z.ltb_spec sz 64).
    + split; [apply Hland; [by apply Hland|apply u64_range]|]. intros b Hb'.
      rewrite !Z.land_spec, reverse_ulong_testbit, ones_shiftr_testbit, ones_shiftl_testbit by (done || lia).
      rewrite Z.min_r by lia. rewrite <- andb_assoc, andb_comm. f_equal. f_equal.
      * destruct (Z.ltb_spec (b + off) 64), (Z.leb_spec off (63 - b)); lia.
      * destruct (Z.leb_spec (64 - sz) b), (Z.ltb_spec (63 - b) sz); lia.
    + split; [by apply Hland|]. intros b Hb'.
      rewrite !Z.land_spec, reverse_ulong_testbit, ones_shiftr_testbit by (done || lia).
      rewrite Z.min_l by lia. rewrite andb_comm. f_equal.
      replace (63 - b <? 64) with true by lia. rewrite andb_true_r.
      destruct (Z.ltb_spec (b + off) 64), (Z.leb_spec off (63 - b)); lia.
Qed.

Lemma find_rev_next_zero_bit_ok size offset :
  0 <= offset -> size <= 8 * zlen m ->
  exists r, __find_rev_next_zero_bit m size offset = Done r /\
    first_hit (fun k => negb (f2fs_test_bit k m)) size offset r.
Proof.
  intros Ho Hs. pose proof m_bytes_ok as Hb. apply rev_search_ok; [..|done].
  - intros p i Hp Hl He Hi. apply Z.eqb_eq in He. by rewrite (word_skip p i true) by (done || lia).
  - intros p off sz Hp Ho' Hsz. split; [apply u64_range|]. intros b Hb'.
    assert (forall x, Z.testbit (u64 (Z.lnot x)) b = negb (Z.testbit x b)) as Hn
      by (intros x; unfold u64; rewrite Z.mod_pow2_bits_low, Z.lnot_spec by lia; done).
    rewrite Hn. unfold BITS_PER_LONG, nz.
    assert (Z.testbit (if sz <? 64 then Z.shiftr (Z.ones 64) sz else 0) b = negb (63 - b <? Z.min 64 sz)) as E1.
    { destruct (Z.ltb_spec sz 64).
      - rewrite ones_shiftr_testbit, Z.min_r by lia.
        destruct (Z.ltb_spec (b + sz) 64), (Z.ltb_spec (63 - b) sz); cbn; lia.
      - rewrite Z.bits_0, Z.min_l by lia. by replace (63 - b <? 64) with true by lia. }
    assert (Z.testbit (if negb (off =? 0) then u64 (Z.shiftl (Z.ones 64) (64 - off)) else 0) b = negb (off <=? 63 - b)) as E2.
    { destruct (Z.eqb_spec off 0) as [->|]; cbn [negb].
      - rewrite Z.bits_0. by replace (0 <=? 63 - b) with true by lia.
      - rewrite ones_shiftl_testbit by lia. destruct (Z.leb_spec (64 - off) b), (Z.leb_spec off (63 - b)); cbn; lia. }
    assert (forall (c : bool) x y, (if c then Z.lor x y else x) = Z.lor x (if c then y else 0)) as Hif
      by (intros [] x y; by rewrite ?Z.lor_0_r).
    rewrite !Hif, !Z.lor_spec, E1, E2, reverse_ulong_testbit by (done || lia).
    rewrite !negb_orb, !negb_involutive. by destruct (f2fs_test_bit _ m), (off <=? 63 - b), (63 - b <? _).
Qed.
End instances.

(** Both word-level searches return the first set (clear) bit of the range in
    f2fs bit order, or the size when there is none, as a loop over
    f2fs_test_bit would. *)
Theorem find_rev_next_spec m size offset :
  Forall (fun b => 0 <= b < 256) m -> zlen m mod 8 = 0 -> 0 <= offset -> size <= 8 * zlen m ->
  (exists r, __find_rev_next_bit m size offset = Done r /\
     first_hit (fun k => f2fs_test_bit k m) size offset r) /\
  (exists r, __find_rev_next_zero_bit m size offset = Done r /\
     first_hit (fun k => negb (f2fs_test_bit k m)) size offset r).
Proof. intros. split; [by apply find_rev_next_bit_ok|by apply find_rev_next_zero_bit_ok]. Qed.
Lemma find_rev_next_spec_witness :
  let m := [0; 0; 0; 0; 0; 0; 0; 0; 0; 16; 0; 0; 0; 0; 0; 0] in
  __find_rev_next_bit m 128 5 = Done 75 /\ f2fs_test_bit 75 m = true.
Proof.
  intros m. destruct (find_rev_next_spec m 128 5) as [(r & E & H) _];
    [by repeat constructor|done|lia|by vm_compute|].
  assert (r = 75) as -> by (vm_compute in E; congruence). split; [exact E|].
  destruct H as [[H _]|(_ & H & _)]; [discriminate H|exact H].
Defined.
