(* ===== verification/Sit.v ===== *)
(** * Segment usage: the SIT cache and the dirty segment lists ([segment.h], [segment.c])

    Every block that is allocated or freed goes through update_sit_entry, which
    keeps validity bitmaps, several counters and the dirty lists in step. *)
From S2P Require Import Prelude Geometry Heap Mpt FreeMap Machine Redirect BlockIo F2fsBits MptFlush RevBits.
Open Scope Z_scope.

Definition NULL_SEGNO : Z := u32 (Z.lnot 0).

(** Constants and accessors of [<linux/f2fs_fs.h>] for the SIT. *)
Class SitFormat := {
  NULL_ADDR : Z;
  NEW_ADDR : Z;
  SIT_VBLOCK_MAP_SIZE : Z;
  SIT_VBLOCKS_SHIFT : Z;
  GET_SIT_VBLOCKS : Z -> Z;
  GET_SIT_TYPE : Z -> Z;
}.
(** A raw entry packs a 6-bit type above a 10-bit block count. *)
Class SitFormatOk `{SitFormat} : Prop := {
  sit_shift : SIT_VBLOCKS_SHIFT = 10;
  sit_map_size : 0 <= SIT_VBLOCK_MAP_SIZE;
  get_sit_vblocks t v : 0 <= t < 64 -> 0 <= v < 1024 -> GET_SIT_VBLOCKS (Z.lor (Z.shiftl t 10) v) = v;
  get_sit_type t v : 0 <= t < 64 -> 0 <= v < 1024 -> GET_SIT_TYPE (Z.lor (Z.shiftl t 10) v) = t;
}.
Definition linux_sit : SitFormat := {|
  NULL_ADDR := 0; NEW_ADDR := 4294967295;
  SIT_VBLOCK_MAP_SIZE := 64; SIT_VBLOCKS_SHIFT := 10;
  GET_SIT_VBLOCKS := fun raw => Z.land raw 1023;
  GET_SIT_TYPE := fun raw => Z.shiftr (Z.land raw 64512) 10;
|}.
Lemma pack_entry t v : 0 <= t < 64 -> 0 <= v < 1024 -> Z.lor (Z.shiftl t 10) v = t * 1024 + v.
Proof.
  intros Ht Hv. rewrite Z.shiftl_mul_pow2 by lia. change (2 ^ 10) with 1024.
  symmetry. apply Z.add_nocarry_lor. apply Z.bits_inj'. intros n Hn. rewrite Z.land_spec, Z.bits_0.
  change 1024 with (2 ^ 10). destruct (Z.ltb_spec n 10).
  - by rewrite Z.mul_pow2_bits_low by lia.
  - replace v with (v mod 2 ^ 10) by (apply Z.mod_small; lia).
    rewrite (Z.mod_pow2_bits_high v) by lia. apply andb_false_r.
Qed.
Lemma linux_sit_ok : @SitFormatOk linux_sit.
Proof.
  split; try done; intros t v Ht Hv; cbn [GET_SIT_VBLOCKS GET_SIT_TYPE linux_sit];
    rewrite pack_entry by lia.
  - change 1023 with (Z.ones 10). rewrite Z.land_ones by lia. change (2 ^ 10) with 1024. dlia.
  - change 64512 with (Z.shiftl (Z.ones 6) 10).
    rewrite Z.shiftr_land, Z.shiftr_shiftl_l, Z.shiftr_div_pow2 by lia. change (10 - 10) with 0.
    rewrite Z.shiftl_0_r, Z.land_ones by lia. change (2 ^ 10) with 1024. change (2 ^ 6) with 64. dlia.
Qed.

(** ** Data *)

Record seg_entry := mk_se {
  se_type : Z;              (* CURSEG_XXX_TYPE, 6 bits *)
  valid_blocks : Z;         (* 10 bits *)
  ckpt_valid_blocks : Z;    (* 10 bits *)
  cur_valid_map : list Z;
  ckpt_valid_map : list Z;
  discard_map : list Z;
  mtime : Z;
}.
#[export] Instance eta_se : Eta seg_entry := fun e =>
  mk_se (se_type e) (valid_blocks e) (ckpt_valid_blocks e) (cur_valid_map e) (ckpt_valid_map e)
    (discard_map e) (mtime e).
#[export] Instance seg_entry_inhabited : Inhabited seg_entry := populate (mk_se 0 0 0 [] [] [] 0).

Record sit_info := mk_sit {
  sit_base_addr : Z;
  sit_blocks : Z;
  written_valid_blocks : Z;
  sit_bitmap : list Z;
  dirty_sentries_bitmap : Z;
  dirty_sentries : Z;
  sentries : list seg_entry;
  sec_entries : list Z;      (* valid_blocks of the sections *)
  max_mtime : Z;
  elapsed_time : Z;
  mounted_time : Z;
}.
#[export] Instance eta_sit : Eta sit_info := fun s =>
  mk_sit (sit_base_addr s) (sit_blocks s) (written_valid_blocks s) (sit_bitmap s)
    (dirty_sentries_bitmap s) (dirty_sentries s) (sentries s) (sec_entries s) (max_mtime s)
    (elapsed_time s) (mounted_time s).

(** enum dirty_type: 0..5 are the CURSEG types *)
Definition DIRTY : Z := 6.
Definition PRE : Z := 7.
Record dirty_seglist_info := mk_dirty {
  dirty_segmap : list Z;     (* NR_DIRTY_TYPE bitmaps *)
  nr_dirty : list Z;
  victim_secmap : Z;
}.
#[export] Instance eta_dirty : Eta dirty_seglist_info := fun d =>
  mk_dirty (dirty_segmap d) (nr_dirty d) (victim_secmap d).

(** The segment manager; [need_fsck] is the SBI_NEED_FSCK flag f2fs_bug_on sets
    (without CONFIG_F2FS_CHECK_FS it continues), [discard_en] is f2fs_discard_en. *)
Record segman := mk_sm {
  sit : sit_info;
  dirty_i : dirty_seglist_info;
  discard_en : bool;
  discard_blks : Z;
  need_fsck : bool;
}.
#[export] Instance eta_sm : Eta segman := fun s =>
  mk_sm (sit s) (dirty_i s) (discard_en s) (discard_blks s) (need_fsck s).

Definition bits10 (x : Z) : Z := x mod 1024.
Definition f2fs_bug_on (b : bool) (sm : segman) : segman :=
  if b then sm <| need_fsck := true |> else sm.

Definition IS_NODESEG (t : Z) : bool := 3 <=? t.
Definition IS_CURSEG (sbi : f2fs_sb_info) (seg : Z) : bool :=
  existsb (fun segno => seg =? segno) (take 6 (curseg_segno sbi)).

(** [now] is ktime_get_real_seconds() *)
Definition get_mtime (s : sit_info) (now : Z) (base_time : bool) : Z :=
  if mounted_time s <=? now then u64 (u64 (elapsed_time s + now) - mounted_time s)
  else if negb base_time then
    let diff := mounted_time s - now in
    if diff <=? elapsed_time s then elapsed_time s - diff else 0
  else elapsed_time s.

(** ** Operations *)

Section ops.
Context `{SitFormat}.
Context (sbi : f2fs_sb_info).

Definition is_valid_blkaddr (blkaddr : Z) : bool :=
  if (blkaddr =? NEW_ADDR) || (blkaddr =? NULL_ADDR) then false else true.
Definition GET_L2R_SEGNO (segno : Z) : Z := u32 (segno - start_segno sbi).
Definition GET_SEGNO (blk_addr : Z) : Z :=
  if negb (is_valid_blkaddr blk_addr) then NULL_SEGNO
  else GET_L2R_SEGNO (GET_SEGNO_FROM_SEG0 sbi blk_addr).

Definition get_seg_entry (sm : segman) (segno : Z) : seg_entry := (sentries (sit sm)).[segno].
Definition get_sec_entry (sm : segman) (segno : Z) : Z :=
  (sec_entries (sit sm)).[GET_SEC_FROM_SEG sbi segno].
Definition get_valid_blocks (sm : segman) (segno : Z) (use_section : bool) : Z :=
  if use_section && (1 <? segs_per_sec sbi) then get_sec_entry sm segno
  else valid_blocks (get_seg_entry sm segno).

Definition __mark_sit_entry_dirty (s : sit_info) (segno : Z) : bool * sit_info :=
  if negb (test_bit segno (dirty_sentries_bitmap s)) then
    (false, s <| dirty_sentries_bitmap ::= set_bit segno |>
              <| dirty_sentries ::= fun n => u32 (n + 1) |>)
  else (true, s).

Definition __set_sit_entry_type (sm : segman) (type segno : Z) (modified : bool) : segman :=
  let sm := sm <| sit ::= fun s => s <| sentries ::= fun l => l.[segno <- l.[segno] <| se_type := type |>] |> |> in
  if modified then sm <| sit ::= fun s => snd (__mark_sit_entry_dirty s segno) |> else sm.

(** The two halves of update_sit_entry that change the bitmaps: the entry, the
    effective [del], the change of discard_blks, and the f2fs_bug_on. *)
Definition sit_set_block (discard : bool) (se : seg_entry) (offset del : Z) : seg_entry * Z * Z * bool :=
  let r := f2fs_test_and_set_bit offset (cur_valid_map se) in
  let exist := fst r in
  let se := se <| cur_valid_map := snd r |> in
  let se := if exist then se <| valid_blocks ::= fun n => bits10 (n - 1) |> else se in
  let del := if exist then 0 else del in
  let d := f2fs_test_and_set_bit offset (discard_map se) in
  let se := if discard then se <| discard_map := snd d |> else se in
  let discard_del := if discard && negb (fst d) then -1 else 0 in
  let c := f2fs_test_and_set_bit offset (ckpt_valid_map se) in
  let se :=
    if IS_NODESEG (se_type se) then
      let se := se <| ckpt_valid_map := snd c |> in
      if negb (fst c) then se <| ckpt_valid_blocks ::= fun n => bits10 (n + 1) |> else se
    else se in
  (se, del, discard_del, exist).
Definition sit_clear_block (discard : bool) (se : seg_entry) (offset del : Z) : seg_entry * Z * Z * bool :=
  let r := f2fs_test_and_clear_bit offset (cur_valid_map se) in
  let exist := fst r in
  let se := se <| cur_valid_map := snd r |> in
  let se := if negb exist then se <| valid_blocks ::= fun n => bits10 (n + 1) |> else se in
  let del := if negb exist then 0 else del in
  let d := f2fs_test_and_clear_bit offset (discard_map se) in
  let se := if discard then se <| discard_map := snd d |> else se in
  let discard_del := if discard && fst d then 1 else 0 in
  (se, del, discard_del, negb exist).

(** The entry: [del] applied to the counters and bitmaps of [se]. *)
Definition se_update (discard : bool) (se : seg_entry) (mt offset del : Z) : seg_entry * Z * Z * bool :=
  let se := se <| valid_blocks := bits10 (valid_blocks se + del) |> <| mtime := mt |> in
  let r := if 0 <? del then sit_set_block discard se offset del
           else sit_clear_block discard se offset del in
  let se := fst (fst (fst r)) in
  let del := snd (fst (fst r)) in
  (if negb (f2fs_test_bit offset (ckpt_valid_map se))
   then se <| ckpt_valid_blocks ::= fun n => bits10 (n + del) |> else se,
   del, snd (fst r), snd r).

(** max_mtime, and the range check on the new count *)
Definition sit_touch (sm : segman) (bad : bool) (mt : Z) : segman :=
  let sm := f2fs_bug_on bad sm in
  if max_mtime (sit sm) <? mt then sm <| sit ::= fun s => s <| max_mtime := mt |> |> else sm.

(** The counters outside the entry. *)
Definition sit_account (sm : segman) (segno : Z) (r : seg_entry * Z * Z * bool) : segman :=
  let se := fst (fst (fst r)) in
  let del := snd (fst (fst r)) in
  let sm := f2fs_bug_on (snd r) sm in
  let sm := sm <| discard_blks ::= fun n => u32 (n + snd (fst r)) |> in
  let sm := sm <| sit ::= fun s => s <| sentries ::= fun l => l.[segno <- se] |> |> in
  let sm := sm <| sit ::= fun s => snd (__mark_sit_entry_dirty s segno) |> in
  let sm := sm <| sit ::= fun s => s <| written_valid_blocks ::= fun n => u32 (n + del) |> |> in
  if 1 <? segs_per_sec sbi then
    sm <| sit ::= fun s => s <| sec_entries ::= fun l =>
            l.[GET_SEC_FROM_SEG sbi segno <- u32 (l.[GET_SEC_FROM_SEG sbi segno] + del)] |> |>
  else sm.

Definition update_sit_entry (sm : segman) (now blkaddr del : Z) : segman :=
  let segno := GET_SEGNO blkaddr in
  let se := get_seg_entry sm segno in
  let new_vblocks := valid_blocks se + del in
  let offset := GET_BLKOFF_FROM_SEG0 sbi blkaddr in
  let mt := get_mtime (sit sm) now false in
  let sm := sit_touch sm (nz (Z.shiftr new_vblocks 16) || (blocks_per_seg sbi <? new_vblocks)) mt in
  sit_account sm segno (se_update (discard_en sm) se mt offset del).

(** The dirty lists *)
Definition add_dirty (d : dirty_seglist_info) (t segno : Z) : dirty_seglist_info :=
  if negb (test_bit segno (dirty_segmap d).[t]) then
    d <| dirty_segmap ::= fun l => l.[t <- set_bit segno l.[t]] |>
      <| nr_dirty ::= fun l => l.[t <- s32 (l.[t] + 1)] |>
  else d.
Definition del_dirty (d : dirty_seglist_info) (t segno : Z) : dirty_seglist_info :=
  if test_bit segno (dirty_segmap d).[t] then
    d <| dirty_segmap ::= fun l => l.[t <- clear_bit segno l.[t]] |>
      <| nr_dirty ::= fun l => l.[t <- s32 (l.[t] - 1)] |>
  else d.

Definition __locate_dirty_segment (sm : segman) (segno dirty_type : Z) : segman :=
  if IS_CURSEG sbi segno then sm
  else
    let sm := sm <| dirty_i ::= fun d => add_dirty d dirty_type segno |> in
    if dirty_type =? DIRTY then
      let t := se_type (get_seg_entry sm segno) in
      if DIRTY <=? t then f2fs_bug_on true sm
      else sm <| dirty_i ::= fun d => add_dirty d t segno |>
    else sm.

Definition __remove_dirty_segment (sm : segman) (segno dirty_type : Z) : segman :=
  let sm := sm <| dirty_i ::= fun d => del_dirty d dirty_type segno |> in
  if dirty_type =? DIRTY then
    let t := se_type (get_seg_entry sm segno) in
    let sm := sm <| dirty_i ::= fun d => del_dirty d t segno |> in
    if get_valid_blocks sm segno true =? 0 then
      sm <| dirty_i ::= fun d => d <| victim_secmap ::= clear_bit (GET_SEC_FROM_SEG sbi segno) |> |>
    else sm
  else sm.

Definition locate_dirty_segment (sm : segman) (segno : Z) : segman :=
  if (segno =? NULL_SEGNO) || IS_CURSEG sbi segno then sm
  else
    let vb := u16 (get_valid_blocks sm segno false) in
    if vb =? 0 then __remove_dirty_segment (__locate_dirty_segment sm segno PRE) segno DIRTY
    else if vb <? blocks_per_seg sbi then __locate_dirty_segment sm segno DIRTY
    else __remove_dirty_segment sm segno DIRTY.

Definition f2fs_invalidate_blocks (sm : segman) (now addr : Z) : segman :=
  let segno := GET_SEGNO addr in
  let sm := f2fs_bug_on (addr =? NULL_ADDR) sm in
  if addr =? NEW_ADDR then sm
  else locate_dirty_segment (update_sit_entry sm now addr (-1)) segno.

Definition f2fs_is_checkpointed_data (sm : segman) (blkaddr : Z) : bool :=
  if negb (is_valid_blkaddr blkaddr) then true
  else f2fs_test_bit (GET_BLKOFF_FROM_SEG0 sbi blkaddr)
         (ckpt_valid_map (get_seg_entry sm (GET_SEGNO blkaddr))).

(** ** Raw entries *)

(** struct f2fs_sit_entry *)
Record f2fs_sit_entry := mk_raw { vblocks : Z; valid_map : list Z; raw_mtime : Z }.

Definition seg_info_from_raw_sit (se : seg_entry) (rs : f2fs_sit_entry) : seg_entry :=
  se <| valid_blocks := bits10 (GET_SIT_VBLOCKS (vblocks rs)) |>
     <| ckpt_valid_blocks := bits10 (GET_SIT_VBLOCKS (vblocks rs)) |>
     <| cur_valid_map := blit (cur_valid_map se) 0 (slice (valid_map rs) 0 SIT_VBLOCK_MAP_SIZE) |>
     <| ckpt_valid_map := blit (ckpt_valid_map se) 0 (slice (valid_map rs) 0 SIT_VBLOCK_MAP_SIZE) |>
     <| se_type := GET_SIT_TYPE (vblocks rs) mod 64 |>
     <| mtime := raw_mtime rs |>.
Definition __seg_info_to_raw_sit (se : seg_entry) (rs : f2fs_sit_entry) : f2fs_sit_entry :=
  {| vblocks := u16 (Z.lor (Z.shiftl (se_type se) SIT_VBLOCKS_SHIFT) (valid_blocks se));
     valid_map := blit (valid_map rs) 0 (slice (cur_valid_map se) 0 SIT_VBLOCK_MAP_SIZE);
     raw_mtime := mtime se |}.
Definition seg_info_to_raw_sit (se : seg_entry) (rs : f2fs_sit_entry) : seg_entry * f2fs_sit_entry :=
  let rs := __seg_info_to_raw_sit se rs in
  (se <| ckpt_valid_map := blit (ckpt_valid_map se) 0 (slice (valid_map rs) 0 SIT_VBLOCK_MAP_SIZE) |>
      <| ckpt_valid_blocks := valid_blocks se |>, rs).

(** check_block_count without CONFIG_F2FS_CHECK_FS; [total_segs] is TOTAL_SEGS *)
Definition check_block_count (total_segs segno : Z) (raw : f2fs_sit_entry) (sm : segman) : Z * segman :=
  if (blocks_per_seg sbi <? GET_SIT_VBLOCKS (vblocks raw)) || (u32 (total_segs - 1) <? u32 segno)
  then (- EINVAL, sm <| need_fsck := true |>) else (0, sm).

(** ** SSR: the next free block of a segment *)

(** [target_map[i] = ckpt_map[i] | cur_map[i]] over the words of the maps *)
Definition or_maps (a b : list Z) : list Z :=
  map (fun i => Z.lor a.[i] b.[i]) (seqZ 0 (SIT_VBLOCK_MAP_SIZE / 8 * 8)).
Definition __next_free_blkoff (se : seg_entry) (start : Z) : outcome Z :=
  __find_rev_next_zero_bit (or_maps (ckpt_valid_map se) (cur_valid_map se)) (blocks_per_seg sbi) start.
(** __refresh_next_blkoff: the new next_blkoff *)
Definition __refresh_next_blkoff (se : seg_entry) (ssr : bool) (next_blkoff : Z) : outcome Z :=
  if ssr then r <-- __next_free_blkoff se (next_blkoff + 1) ;; Done (u16 r)
  else Done (u16 (next_blkoff + 1)).
End ops.

(** ** The invariant *)

Section invariant.
Context `{SitFormatOk}.
Context (sbi : f2fs_sb_info).

Definition cur_bit (se : seg_entry) (k : Z) : bool := f2fs_test_bit k (cur_valid_map se).
(** A block that SSR may not reuse: valid now or at the last checkpoint. *)
Definition used_bit (se : seg_entry) (k : Z) : bool :=
  cur_bit se k || f2fs_test_bit k (ckpt_valid_map se).

Record se_wf (se : seg_entry) : Prop := {
  sw_type : 0 <= se_type se < 6;
  sw_cur : blocks_per_seg sbi <= 8 * zlen (cur_valid_map se);
  sw_ckpt : blocks_per_seg sbi <= 8 * zlen (ckpt_valid_map se);
  sw_discard : blocks_per_seg sbi <= 8 * zlen (discard_map se);
  sw_valid : valid_blocks se = count_upto (cur_bit se) (Z.to_nat (blocks_per_seg sbi));
  sw_ckpt_valid : ckpt_valid_blocks se = count_upto (used_bit se) (Z.to_nat (blocks_per_seg sbi));
}.

(** Valid blocks of a segment, and of the [c]-th section. *)
Definition seg_valid (s : sit_info) (j : Z) : Z := valid_blocks (sentries s).[j].
Definition sec_valid (s : sit_info) (c : Z) : Z :=
  sum_upto (fun k => seg_valid s (c * segs_per_sec sbi + k)) (Z.to_nat (segs_per_sec sbi)).

Record sit_wf (s : sit_info) : Prop := {
  tw_geom : geom_wf sbi;
  tw_bps : blocks_per_seg sbi <= 512;
  tw_len : zlen (sentries s) = segment_count_main sbi;
  tw_se j : 0 <= j < segment_count_main sbi -> se_wf (sentries s).[j];
  tw_written : written_valid_blocks s = sum_upto (seg_valid s) (Z.to_nat (segment_count_main sbi));
  tw_secs : exists secs, 0 <= secs /\ segment_count_main sbi = secs * segs_per_sec sbi /\
    (1 < segs_per_sec sbi -> zlen (sec_entries s) = secs /\
     forall c, 0 <= c < secs -> (sec_entries s).[c] = sec_valid s c);
  tw_dirty : dirty_sentries s =
    count_upto (fun j => test_bit j (dirty_sentries_bitmap s)) (Z.to_nat (segment_count_main sbi));
}.

Lemma se_valid_range se : se_wf se -> 0 <= blocks_per_seg sbi ->
  0 <= valid_blocks se <= blocks_per_seg sbi /\ 0 <= ckpt_valid_blocks se <= blocks_per_seg sbi.
Proof.
  intros W Hb. rewrite (sw_valid _ W), (sw_ckpt_valid _ W).
  pose proof (count_upto_range (cur_bit se) (Z.to_nat (blocks_per_seg sbi))).
  pose proof (count_upto_range (used_bit se) (Z.to_nat (blocks_per_seg sbi))). lia.
Qed.
Lemma bits10_id x : 0 <= x < 1024 -> bits10 x = x.
Proof. intros. apply Z.mod_small. lia. Qed.

(** The bitmaps after an update: [b] is the new state of block [off]; on a node
    segment a new block also counts as checkpointed. *)
Definition se_step (b : bool) (off : Z) (se se' : seg_entry) : Prop :=
  se_type se' = se_type se /\
  zlen (cur_valid_map se') = zlen (cur_valid_map se) /\
  zlen (ckpt_valid_map se') = zlen (ckpt_valid_map se) /\
  zlen (discard_map se') = zlen (discard_map se) /\
  (forall k, 0 <= k -> cur_bit se' k = if k =? off then b else cur_bit se k) /\
  (forall k, 0 <= k -> f2fs_test_bit k (ckpt_valid_map se') =
     (k =? off) && (b && IS_NODESEG (se_type se)) || f2fs_test_bit k (ckpt_valid_map se)).

Section entry.
Context (se : seg_entry) (W : se_wf se) (mt off : Z) (discard : bool).
Context (Hb : 0 <= off < blocks_per_seg sbi) (H512 : blocks_per_seg sbi <= 512).

Lemma se_set_ok :
  let r := se_update discard se mt off 1 in
  let se' := fst (fst (fst r)) in
  let del' := snd (fst (fst r)) in
  se_step true off se se' /\ del' = (if cur_bit se off then 0 else 1) /\
  snd r = cur_bit se off /\ valid_blocks se' = valid_blocks se + del' /\
  (cur_bit se off = false ->
   ckpt_valid_blocks se' = ckpt_valid_blocks se + Z.b2z (negb (f2fs_test_bit off (ckpt_valid_map se)))).
Proof.
  destruct (se_valid_range se W ltac:(lia)) as [Hv Hc].
  pose proof (sw_cur _ W). pose proof (sw_ckpt _ W).
  unfold se_update, sit_set_block, se_step, cur_bit. cbn [Z.ltb Z.compare fst snd].
  unfold f2fs_test_and_set_bit. cbn [fst snd cur_valid_map ckpt_valid_map discard_map se_type upd].
  assert (forall k, 0 <= k -> f2fs_test_bit k (f2fs_set_bit off (cur_valid_map se))
    = if k =? off then true else f2fs_test_bit k (cur_valid_map se)) as Ecur
    by (intros k Hk; rewrite test_f2fs_set_bit by lia; by destruct (k =? off)).
  assert (forall k, 0 <= k -> f2fs_test_bit k (f2fs_set_bit off (ckpt_valid_map se))
    = (k =? off) || f2fs_test_bit k (ckpt_valid_map se)) as Eck
    by (intros k Hk; by rewrite test_f2fs_set_bit by lia).
  assert (f2fs_test_bit off (f2fs_set_bit off (ckpt_valid_map se)) = true) as Eoff
    by (by rewrite Eck, Z.eqb_refl by lia).
  rewrite (bits10_id (valid_blocks se + 1)) by lia.
  destruct (f2fs_test_bit off (cur_valid_map se)) eqn:Ee, discard, (IS_NODESEG (se_type se)) eqn:En,
    (f2fs_test_bit off (ckpt_valid_map se)) eqn:Ec;
    repeat (progress cbn -[f2fs_test_bit f2fs_set_bit IS_NODESEG bits10 Z.add] || rewrite ?En, ?Eoff, ?Ec);
    rewrite ?zlen_f2fs_set_bit, ?andb_false_r; split_and!; try done;
    try (intros k Hk; rewrite ?Ecur, ?Eck by done; rewrite ?andb_true_r, ?andb_false_r; done);
    try (intros _); rewrite ?bits10_id by lia; lia.
Qed.

Lemma se_clear_ok :
  let r := se_update discard se mt off (-1) in
  let se' := fst (fst (fst r)) in
  let del' := snd (fst (fst r)) in
  se_step false off se se' /\ del' = (if cur_bit se off then -1 else 0) /\
  snd r = negb (cur_bit se off) /\ valid_blocks se' = valid_blocks se + del' /\
  (cur_bit se off = true ->
   ckpt_valid_blocks se' = ckpt_valid_blocks se - Z.b2z (negb (f2fs_test_bit off (ckpt_valid_map se)))).
Proof.
  destruct (se_valid_range se W ltac:(lia)) as [Hv Hc].
  pose proof (sw_cur _ W). pose proof (sw_ckpt _ W). pose proof (sw_valid _ W) as Hcount.
  assert (zlen (f2fs_clear_bit off (cur_valid_map se)) = zlen (cur_valid_map se)) as Ez1 by apply zlen_aset.
  assert (zlen (f2fs_clear_bit off (discard_map se)) = zlen (discard_map se)) as Ez2 by apply zlen_aset.
  assert (cur_bit se off = true -> 1 <= valid_blocks se) as Hpos.
  { intros Hbit. rewrite Hcount. pose proof (count_upto_range (fun k => if k =? off then false else cur_bit se k)
      (Z.to_nat (blocks_per_seg sbi))) as Hr.
    rewrite (count_upto_update (cur_bit se) _ _ off) in Hr by
      (lia || intros k _ Hk; replace (k =? off) with false by lia; done).
    rewrite Z.eqb_refl, Hbit in Hr. cbn in Hr. lia. }
  assert (cur_bit se off = true -> f2fs_test_bit off (ckpt_valid_map se) = false -> 1 <= ckpt_valid_blocks se) as Hpos2.
  { intros Hbit _. rewrite (sw_ckpt_valid _ W).
    pose proof (count_upto_range (fun k => if k =? off then false else used_bit se k)
      (Z.to_nat (blocks_per_seg sbi))) as Hr.
    rewrite (count_upto_update (used_bit se) _ _ off) in Hr by
      (lia || intros k _ Hk; replace (k =? off) with false by lia; done).
    rewrite Z.eqb_refl in Hr. assert (used_bit se off = true) as Eu by (unfold used_bit; by rewrite Hbit).
    rewrite Eu in Hr. cbn in Hr. lia. }
  unfold se_update, sit_clear_block, se_step, cur_bit in *. cbn [Z.ltb Z.compare fst snd].
  unfold f2fs_test_and_clear_bit. cbn [fst snd cur_valid_map ckpt_valid_map discard_map se_type upd].
  assert (forall k, 0 <= k -> f2fs_test_bit k (f2fs_clear_bit off (cur_valid_map se))
    = if k =? off then false else f2fs_test_bit k (cur_valid_map se)) as Ecur
    by (intros k Hk; rewrite test_f2fs_clear_bit by lia; by destruct (k =? off)).
  assert (forall v, 0 <= v <= blocks_per_seg sbi -> bits10 (bits10 (v + -1) + 1) = v) as Eback.
  { intros v Hr. unfold bits10. rewrite Zplus_mod_idemp_l. replace (v + -1 + 1) with v by lia. apply Z.mod_small. lia. }
  destruct (f2fs_test_bit off (cur_valid_map se)) eqn:Ee, discard,
    (f2fs_test_bit off (ckpt_valid_map se)) eqn:Ec;
    repeat (progress cbn -[f2fs_test_bit f2fs_clear_bit IS_NODESEG bits10 Z.add] || rewrite ?Ec);
    rewrite ?Ez1, ?Ez2, ?andb_false_r; split_and!; try done;
    try (intros k Hk; rewrite ?Ecur by done; rewrite ?andb_true_r, ?andb_false_r; done);
    try (rewrite Eback; lia);
    try (intros _); rewrite ?bits10_id by (try specialize (Hpos eq_refl); try specialize (Hpos2 eq_refl eq_refl); lia);
    try specialize (Hpos eq_refl); try lia.
Qed.
End entry.

(** A step that agrees with the map keeps the entry well formed. *)
Lemma se_step_wf b off se se' :
  se_wf se -> 0 <= off < blocks_per_seg sbi -> se_step b off se se' -> cur_bit se off = negb b ->
  valid_blocks se' = valid_blocks se + (Z.b2z b - Z.b2z (negb b)) ->
  ckpt_valid_blocks se' = ckpt_valid_blocks se +
    (Z.b2z b - Z.b2z (negb b)) * Z.b2z (negb (f2fs_test_bit off (ckpt_valid_map se))) ->
  se_wf se'.
Proof.
  intros W Ho (Et & L1 & L2 & L3 & Hcur & Hck) Hbit Hv Hc.
  split; rewrite ?Et, ?L1, ?L2, ?L3; try apply W.
  - rewrite Hv, (sw_valid _ W).
    rewrite (count_upto_update (cur_bit se) (cur_bit se') _ off); [|lia|].
    + rewrite Hcur, Z.eqb_refl, Hbit by lia. done.
    + intros k Hk Hne. rewrite Hcur by lia. by replace (k =? off) with false by lia.
  - rewrite Hc, (sw_ckpt_valid _ W).
    rewrite (count_upto_update (used_bit se) (used_bit se') _ off); [|lia|].
    + unfold used_bit. rewrite Hcur, Hck, Z.eqb_refl, Hbit by lia.
      destruct b, (f2fs_test_bit off (ckpt_valid_map se)); cbn; try lia.
      all: destruct (IS_NODESEG _); cbn; lia.
    + intros k Hk Hne. unfold used_bit. rewrite Hcur, Hck by lia.
      by replace (k =? off) with false by lia.
Qed.

(** ** update_sit_entry *)

Section update.
Context (sm : segman) (W : sit_wf (sit sm)) (now j off : Z).
Context (Hj : 0 <= j < segment_count_main sbi) (Ho : 0 <= off < blocks_per_seg sbi).
Let a : Z := main_block sbi j off.
Context (Ha : is_valid_blkaddr a = true).
Let se : seg_entry := (sentries (sit sm)).[j].

Lemma get_segno_main : GET_SEGNO sbi a = j.
Proof.
  pose proof (tw_geom _ W) as G. unfold GET_SEGNO. rewrite Ha. cbn [negb]. subst a.
  rewrite segno_main_block by done. unfold GET_L2R_SEGNO.
  replace (start_segno sbi + j - start_segno sbi) with j by lia.
  apply u32_id. pose proof (bps_pos sbi G). destruct G. nia.
Qed.

Lemma sit_touch_same bad mt :
  let sm1 := sit_touch sm bad mt in
  sentries (sit sm1) = sentries (sit sm) /\ written_valid_blocks (sit sm1) = written_valid_blocks (sit sm) /\
  sec_entries (sit sm1) = sec_entries (sit sm) /\
  dirty_sentries_bitmap (sit sm1) = dirty_sentries_bitmap (sit sm) /\
  dirty_sentries (sit sm1) = dirty_sentries (sit sm) /\ discard_en sm1 = discard_en sm /\
  dirty_i sm1 = dirty_i sm /\ need_fsck sm1 = need_fsck sm || bad.
Proof.
  cbv zeta. unfold sit_touch, f2fs_bug_on. destruct bad, (max_mtime _ <? mt); cbn; rewrite ?orb_true_r, ?orb_false_r; done.
Qed.
Lemma set_bit_id m : test_bit j m = true -> set_bit j m = m.
Proof.
  intros Hm. apply Z.bits_inj'. intros n Hn. pose proof (test_set_bit j n m ltac:(lia)) as Et.
  unfold test_bit in *. rewrite Et. destruct (Z.eqb_spec j n) as [->|]; [by rewrite Hm|done].
Qed.
Lemma sit_account_eq sm0 r :
  let s := sit sm0 in let del := snd (fst (fst r)) in
  let sm' := sit_account sbi sm0 j r in
  sentries (sit sm') = (sentries s).[j <- fst (fst (fst r))] /\
  written_valid_blocks (sit sm') = u32 (written_valid_blocks s + del) /\
  sec_entries (sit sm') = (if 1 <? segs_per_sec sbi
    then (sec_entries s).[j / segs_per_sec sbi <- u32 ((sec_entries s).[j / segs_per_sec sbi] + del)]
    else sec_entries s) /\
  dirty_sentries_bitmap (sit sm') = set_bit j (dirty_sentries_bitmap s) /\
  dirty_sentries (sit sm') = (if test_bit j (dirty_sentries_bitmap s) then dirty_sentries s
                              else u32 (dirty_sentries s + 1)) /\
  need_fsck sm' = need_fsck sm0 || snd r /\ dirty_i sm' = dirty_i sm0.
Proof.
  cbv zeta. unfold sit_account, f2fs_bug_on, __mark_sit_entry_dirty, GET_SEC_FROM_SEG.
  destruct (snd r), (1 <? segs_per_sec sbi); cbn;
    (destruct (test_bit j (dirty_sentries_bitmap (sit sm0))) eqn:Et; cbn;
     rewrite ?orb_true_r, ?orb_false_r, ?set_bit_id by done; done).
Qed.

(** What the whole function does, given what happens to the entry. *)
Lemma update_sit_entry_eq del :
  exists mt, let r := se_update (discard_en sm) se mt off del in
  let d := snd (fst (fst r)) in
  let sm' := update_sit_entry sbi sm now a del in
  sentries (sit sm') = (sentries (sit sm)).[j <- fst (fst (fst r))] /\
  written_valid_blocks (sit sm') = u32 (written_valid_blocks (sit sm) + d) /\
  sec_entries (sit sm') = (if 1 <? segs_per_sec sbi
    then (sec_entries (sit sm)).[j / segs_per_sec sbi <-
           u32 ((sec_entries (sit sm)).[j / segs_per_sec sbi] + d)]
    else sec_entries (sit sm)) /\
  dirty_sentries_bitmap (sit sm') = set_bit j (dirty_sentries_bitmap (sit sm)) /\
  dirty_sentries (sit sm') = (if test_bit j (dirty_sentries_bitmap (sit sm)) then dirty_sentries (sit sm)
                              else u32 (dirty_sentries (sit sm) + 1)) /\
  need_fsck sm' = need_fsck sm || (nz (Z.shiftr (valid_blocks se + del) 16)
                    || (blocks_per_seg sbi <? valid_blocks se + del)) || snd r /\
  dirty_i sm' = dirty_i sm.
Proof.
  exists (get_mtime (sit sm) now false). cbv zeta. unfold update_sit_entry. rewrite get_segno_main.
  assert (GET_BLKOFF_FROM_SEG0 sbi a = off) as -> by (apply blkoff_main_block; [apply W|done..]).
  unfold get_seg_entry. fold se. set (bad := nz _ || _). set (mt := get_mtime (sit sm) now false).
  destruct (sit_touch_same bad mt) as (T1 & T2 & T3 & T4 & T5 & T6 & T7 & T8).
  destruct (sit_account_eq (sit_touch sm bad mt) (se_update (discard_en (sit_touch sm bad mt)) se mt off del))
    as (-> & -> & -> & -> & -> & -> & ->).
  rewrite T1, T2, T3, T4, T5, T6, T7, T8. done.
Qed.

(** An update that agrees with the map: the new entry and no warning. *)
Lemma se_update_agrees mt del :
  (del = 1 /\ cur_bit se off = false) \/ (del = -1 /\ cur_bit se off = true) ->
  exists se' dd, se_update (discard_en sm) se mt off del = (se', del, dd, false) /\
    se_wf se' /\ se_step (0 <? del) off se se' /\ valid_blocks se' = valid_blocks se + del /\
    nz (Z.shiftr (valid_blocks se + del) 16) || (blocks_per_seg sbi <? valid_blocks se + del) = false.
Proof.
  intros Hd. pose proof (tw_se _ W j Hj) as Ws. fold se in Ws. pose proof (tw_bps _ W) as H512.
  assert (exists se' dd, se_update (discard_en sm) se mt off del = (se', del, dd, false) /\
    se_wf se' /\ se_step (0 <? del) off se se' /\ valid_blocks se' = valid_blocks se + del)
    as (se' & dd & E & W' & S' & V').
  { destruct Hd as [[-> Hb]|[-> Hb]].
    - pose proof (se_set_ok se Ws mt off (discard_en sm) Ho H512) as Hs. cbv zeta in Hs.
      destruct (se_update _ _ _ _ _) as [[[se' d] dd] bug]. cbn [fst snd] in Hs. rewrite Hb in Hs.
      destruct Hs as (S & -> & -> & V & C). exists se', dd. split_and!; try done.
      eapply (se_step_wf true off se); try done. rewrite C by done. cbn [Z.b2z negb]. lia.
    - pose proof (se_clear_ok se Ws mt off (discard_en sm) Ho H512) as Hs. cbv zeta in Hs.
      destruct (se_update _ _ _ _ _) as [[[se' d] dd] bug]. cbn [fst snd] in Hs. rewrite Hb in Hs.
      destruct Hs as (S & -> & -> & V & C). exists se', dd. split_and!; try done.
      eapply (se_step_wf false off se); try done. rewrite C by done. cbn [Z.b2z negb]. lia. }
  exists se', dd. split_and!; try done.
  destruct (se_valid_range se' W' ltac:(lia)) as [Hv _]. rewrite <- V'.
  apply orb_false_iff. split; [|lia]. unfold nz.
  rewrite Z.shiftr_div_pow2, Z.div_small by lia. done.
Qed.

(** An update that contradicts the map leaves the entry's bits and count. *)
Lemma se_update_refused mt del :
  (del = 1 /\ cur_bit se off = true) \/ (del = -1 /\ cur_bit se off = false) ->
  exists se' dd, se_update (discard_en sm) se mt off del = (se', 0, dd, true) /\
    valid_blocks se' = valid_blocks se /\ forall k, 0 <= k -> cur_bit se' k = cur_bit se k.
Proof.
  intros Hd. pose proof (tw_se _ W j Hj) as Ws. fold se in Ws. pose proof (tw_bps _ W) as H512.
  destruct Hd as [[-> Hb]|[-> Hb]].
  - pose proof (se_set_ok se Ws mt off (discard_en sm) Ho H512) as Hs. cbv zeta in Hs.
    destruct (se_update _ _ _ _ _) as [[[se' d] dd] bug]. cbn [fst snd] in Hs. rewrite Hb in Hs.
    destruct Hs as ((_ & _ & _ & _ & S & _) & -> & -> & V & _). exists se', dd. split_and!; [done|lia|].
    intros k Hk. rewrite S by done. by destruct (Z.eqb_spec k off) as [->|].
  - pose proof (se_clear_ok se Ws mt off (discard_en sm) Ho H512) as Hs. cbv zeta in Hs.
    destruct (se_update _ _ _ _ _) as [[[se' d] dd] bug]. cbn [fst snd] in Hs. rewrite Hb in Hs.
    destruct Hs as ((_ & _ & _ & _ & S & _) & -> & -> & V & _). exists se', dd. split_and!; [done|lia|].
    intros k Hk. rewrite S by done. by destruct (Z.eqb_spec k off) as [->|].
Qed.

(** The sums are 32-bit values. *)
Lemma seg_valid_range k : 0 <= k < segment_count_main sbi -> 0 <= seg_valid (sit sm) k <= blocks_per_seg sbi.
Proof.
  intros Hk. pose proof (bps_pos sbi (tw_geom _ W)). apply se_valid_range; [by apply W|lia].
Qed.
Lemma sum_valid_range b n :
  0 <= b -> 0 <= n -> b + n <= segment_count_main sbi ->
  0 <= sum_upto (fun k => seg_valid (sit sm) (b + k)) (Z.to_nat n) < 4294967296.
Proof.
  intros Hb Hn Hr. pose proof (bps_pos sbi (tw_geom _ W)).
  pose proof (sum_upto_range (fun k => seg_valid (sit sm) (b + k)) (Z.to_nat n) 0 (blocks_per_seg sbi)) as Hs.
  specialize (Hs ltac:(intros k Hk; cbn; apply seg_valid_range; lia)).
  rewrite Z2Nat.id in Hs by lia. destruct (tw_geom _ W). nia.
Qed.
Lemma sit_wf_sums :
  0 <= written_valid_blocks (sit sm) < 4294967296 /\
  (1 < segs_per_sec sbi -> forall c, 0 <= c < zlen (sec_entries (sit sm)) ->
     0 <= (sec_entries (sit sm)).[c] < 4294967296).
Proof.
  destruct (tw_geom _ W). split.
  - rewrite (tw_written _ W). pose proof (sum_valid_range 0 (segment_count_main sbi)) as Hs.
    erewrite sum_upto_ext; [apply Hs; lia|]. intros k _. cbn. done.
  - intros Hsps c Hc. destruct (tw_secs _ W) as (secs & Hs & Hcount & Hsec).
    destruct (Hsec Hsps) as [Hl Hv]. rewrite Hv by lia. apply sum_valid_range; nia.
Qed.

Lemma sums_step s s' se' del :
  sit_wf s -> sentries s = sentries (sit sm) -> sentries s' = (sentries s).[j <- se'] ->
  valid_blocks se' = valid_blocks se + del -> se_wf se' ->
  written_valid_blocks s' = u32 (written_valid_blocks s + del) ->
  written_valid_blocks s' = sum_upto (seg_valid s') (Z.to_nat (segment_count_main sbi)).
Proof.
  intros Ws Es Es' Hv We Ew. pose proof (tw_len _ Ws) as Hl. pose proof (tw_geom _ Ws) as G.
  assert (forall k, seg_valid s' k = if j =? k then seg_valid s k + del else seg_valid s k) as Hk.
  { intros k. unfold seg_valid. rewrite Es', aget_aset by lia.
    destruct (Z.eqb_spec j k) as [<-|]; [|done]. rewrite Hv, Es. done. }
  assert (sum_upto (seg_valid s') (Z.to_nat (segment_count_main sbi)) = written_valid_blocks s + del) as Hsum.
  { rewrite (tw_written _ Ws), (sum_upto_update (seg_valid s) _ _ j).
    - rewrite Hk, Z.eqb_refl. lia.
    - lia.
    - intros k _ Hn. rewrite Hk. by replace (j =? k) with false by lia. }
  rewrite Hsum, Ew. apply u32_id. rewrite <- Hsum.
  pose proof (bps_pos sbi G). destruct G.
  pose proof (sum_upto_range (seg_valid s') (Z.to_nat (segment_count_main sbi)) 0 (blocks_per_seg sbi)) as Hr.
  enough (0 * Z.of_nat (Z.to_nat (segment_count_main sbi)) <= sum_upto (seg_valid s') (Z.to_nat (segment_count_main sbi))
    <= blocks_per_seg sbi * Z.of_nat (Z.to_nat (segment_count_main sbi))) by nia.
  apply Hr. intros k Hkr. unfold seg_valid. rewrite Es', aget_aset by lia.
  destruct (Z.eqb_spec j k); [by apply se_valid_range; lia || done|].
  apply se_valid_range; [apply Ws; lia|lia].
Qed.

(** The section of [j] gets the difference too. *)
Lemma secs_step s s' se' del secs c :
  sit_wf s -> sentries s = sentries (sit sm) -> sentries s' = (sentries s).[j <- se'] ->
  valid_blocks se' = valid_blocks se + del -> se_wf se' ->
  1 < segs_per_sec sbi -> 0 <= secs -> segment_count_main sbi = secs * segs_per_sec sbi ->
  zlen (sec_entries s) = secs -> (forall c, 0 <= c < secs -> (sec_entries s).[c] = sec_valid s c) ->
  sec_entries s' = (sec_entries s).[j / segs_per_sec sbi <- u32 ((sec_entries s).[j / segs_per_sec sbi] + del)] ->
  0 <= c < secs -> (sec_entries s').[c] = sec_valid s' c.
Proof.
  intros Ws Es Es' Hv We Hsps Hsecs Hcount Hlen Hsec Esec Hc. pose proof (tw_len _ Ws) as Hl.
  pose proof (tw_geom _ Ws) as G.
  assert (0 <= j / segs_per_sec sbi < secs) as Hjc by (split; [apply Z.div_pos|apply Z.div_lt_upper_bound]; nia).
  assert (forall k, 0 <= k < segment_count_main sbi ->
    seg_valid s' k = if j =? k then seg_valid s k + del else seg_valid s k) as Hk.
  { intros k Hr. unfold seg_valid. rewrite Es', aget_aset by lia.
    destruct (Z.eqb_spec j k) as [<-|]; [|done]. rewrite Hv, Es. done. }
  assert (forall k, 0 <= k < segment_count_main sbi -> 0 <= seg_valid s' k <= blocks_per_seg sbi) as Hrange.
  { intros k Hr. pose proof (bps_pos sbi G). unfold seg_valid. rewrite Es', aget_aset by lia.
    destruct (Z.eqb_spec j k); apply se_valid_range; try done; try lia. apply Ws. lia. }
  assert (0 <= sec_valid s' c < 4294967296) as Hb.
  { unfold sec_valid. pose proof (bps_pos sbi G).
    pose proof (sum_upto_range (fun k => seg_valid s' (c * segs_per_sec sbi + k)) (Z.to_nat (segs_per_sec sbi)) 0
      (blocks_per_seg sbi)) as Hr.
    specialize (Hr ltac:(intros k Hkr; cbn; apply Hrange; nia)).
    rewrite Z2Nat.id in Hr by lia. destruct G.
    assert (segs_per_sec sbi <= segment_count_main sbi) by nia. nia. }
  rewrite Esec, aget_aset by lia. destruct (Z.eqb_spec (j / segs_per_sec sbi) c) as [E|E].
  - rewrite E, Hsec by lia.
    assert (sec_valid s' c = sec_valid s c + del) as <-; [|by apply u32_id].
    unfold sec_valid. rewrite (sum_upto_update (fun k => seg_valid s (c * segs_per_sec sbi + k)) _ _ (j mod segs_per_sec sbi)).
    + rewrite Hk by dlia. replace (j =? c * segs_per_sec sbi + j mod segs_per_sec sbi) with true by dlia. lia.
    + pose proof (Z.mod_pos_bound j (segs_per_sec sbi)). lia.
    + intros k Hkr Hn. rewrite Hk by nia.
      replace (j =? c * segs_per_sec sbi + k) with false; [done|]. symmetry. apply Z.eqb_neq. intros ->.
      apply Hn. rewrite Z.add_comm, Z.mod_add by lia. symmetry. apply Z.mod_small. lia.
  - rewrite Hsec by done. unfold sec_valid. apply sum_upto_ext. intros k Hkr. rewrite Hk by nia.
    replace (j =? c * segs_per_sec sbi + k) with false; [done|]. symmetry. apply Z.eqb_neq. intros ->.
    apply E. rewrite Z.div_add_l by lia. rewrite Z.div_small by lia. lia.
Qed.

Lemma update_wf del :
  (del = 1 /\ cur_bit se off = false) \/ (del = -1 /\ cur_bit se off = true) ->
  let sm' := update_sit_entry sbi sm now a del in
  sit_wf (sit sm') /\ need_fsck sm' = need_fsck sm /\ dirty_i sm' = dirty_i sm /\
  test_bit j (dirty_sentries_bitmap (sit sm')) = true /\
  exists se', sentries (sit sm') = (sentries (sit sm)).[j <- se'] /\
    se_step (0 <? del) off se se' /\ valid_blocks se' = valid_blocks se + del.
Proof.
  intros Hd sm'. destruct (update_sit_entry_eq del) as (mt & Hu). cbv zeta in Hu. fold sm' in Hu.
  destruct (se_update_agrees mt del Hd) as (se' & dd & E & W' & S' & V' & Hbad). rewrite E in Hu.
  cbn [fst snd] in Hu. destruct Hu as (U1 & U2 & U3 & U4 & U5 & U6 & U7).
  rewrite Hbad, !orb_false_r in U6.
  assert (test_bit j (dirty_sentries_bitmap (sit sm')) = true) as Hdj
    by (rewrite U4, test_set_bit, Z.eqb_refl by lia; done).
  split_and!; try done; [|by exists se'].
  split; try apply W.
  - rewrite U1, zlen_aset. apply W.
  - intros k Hk. rewrite U1, aget_aset by (rewrite (tw_len _ W); lia).
    destruct (j =? k); [done|]. by apply W.
  - by eapply sums_step.
  - destruct (tw_secs _ W) as (secs & Hs & Hc & Hsec). exists secs. split_and!; [done|done|].
    intros Hsps. destruct (Hsec Hsps) as [Hl Hsec'].
    replace (1 <? segs_per_sec sbi) with true in U3 by lia.
    split; [rewrite U3, zlen_aset; done|]. intros c Hcr.
    eapply (secs_step (sit sm) (sit sm')); done.
  - rewrite U4, U5. set (Q := fun k => test_bit k (dirty_sentries_bitmap (sit sm))).
    assert (count_upto (fun k => test_bit k (set_bit j (dirty_sentries_bitmap (sit sm))))
        (Z.to_nat (segment_count_main sbi))
      = dirty_sentries (sit sm) + (1 - Z.b2z (Q j))) as Hc.
    { rewrite (tw_dirty _ W), (count_upto_update Q _ _ j).
      - by rewrite test_set_bit, Z.eqb_refl by lia.
      - lia.
      - intros k Hk Hn. unfold Q. rewrite test_set_bit by lia. by replace (j =? k) with false by lia. }
    rewrite Hc. fold (Q j). destruct (Q j); cbn [Z.b2z] in *; [lia|].
    pose proof (count_upto_range (fun k => test_bit k (set_bit j (dirty_sentries_bitmap (sit sm))))
      (Z.to_nat (segment_count_main sbi))) as Hr.
    pose proof (count_upto_range Q (Z.to_nat (segment_count_main sbi))) as Hr'.
    rewrite Hc in Hr. rewrite <- (tw_dirty _ W : _ = count_upto Q _) in Hr'.
    pose proof (bps_pos sbi (tw_geom _ W)).
    assert (segment_count_main sbi < 4294967296) by (destruct (tw_geom _ W); nia).
    rewrite u32_id by lia. lia.
Qed.
End update.
End invariant.

(** ** The dirty lists *)

Section dirty.
Context (n : Z) (Hn : 0 <= n < 2147483648).

(** Eight bitmaps, each with its population count. *)
Record dirty_wf (d : dirty_seglist_info) : Prop := {
  dw_maps : zlen (dirty_segmap d) = 8;
  dw_nrs : zlen (nr_dirty d) = 8;
  dw_count t : 0 <= t < 8 -> (nr_dirty d).[t] = count_upto (fun j => test_bit j (dirty_segmap d).[t]) (Z.to_nat n);
}.

(** [d'] is [d] with segment [j] in ([b]) or out of list [t]. *)
Definition dirty_set (d d' : dirty_seglist_info) (t j : Z) (b : bool) : Prop :=
  dirty_wf d' /\ victim_secmap d' = victim_secmap d /\
  forall u k, 0 <= u < 8 -> 0 <= k ->
    test_bit k (dirty_segmap d').[u] = if (u =? t) && (k =? j) then b else test_bit k (dirty_segmap d).[u].

Section list.
Context (d : dirty_seglist_info) (W : dirty_wf d) (t j : Z) (Ht : 0 <= t < 8) (Hj : 0 <= j < n).

Lemma dirty_count_step m' v :
  (forall k, 0 <= k < n -> k <> j -> test_bit k m' = test_bit k (dirty_segmap d).[t]) ->
  v = (nr_dirty d).[t] + (Z.b2z (test_bit j m') - Z.b2z (test_bit j (dirty_segmap d).[t])) ->
  dirty_wf (d <| dirty_segmap ::= fun l => l.[t <- m'] |> <| nr_dirty ::= fun l => l.[t <- s32 v] |>) /\ s32 v = v.
Proof.
  intros Hm Hv. pose proof (dw_maps _ W). pose proof (dw_nrs _ W).
  assert (v = count_upto (fun k => test_bit k m') (Z.to_nat n)) as Ev.
  { rewrite Hv, (dw_count _ W t Ht).
    rewrite (count_upto_update (fun k => test_bit k (dirty_segmap d).[t]) (fun k => test_bit k m') _ j); [done|lia|].
    intros k Hk Hne. apply Hm; lia. }
  pose proof (count_upto_range (fun k => test_bit k m') (Z.to_nat n)) as Hr. rewrite <- Ev in Hr.
  assert (s32 v = v) as Es by (apply s32_id; lia). split; [|done]. rewrite Es.
  split; cbn [dirty_segmap nr_dirty upd]; rewrite ?zlen_aset; try done.
  intros u Hu. rewrite !aget_aset by lia. destruct (Z.eqb_spec t u) as [<-|]; [done|by apply W].
Qed.

Lemma add_dirty_ok : dirty_set d (add_dirty d t j) t j true.
Proof.
  unfold add_dirty. pose proof (dw_maps _ W).
  destruct (test_bit j (dirty_segmap d).[t]) eqn:E; cbn [negb].
  - split_and!; [done|done|]. intros u k Hu Hk.
    destruct (Z.eqb_spec u t) as [->|], (Z.eqb_spec k j) as [->|]; cbn [andb]; done.
  - destruct (dirty_count_step (set_bit j (dirty_segmap d).[t]) ((nr_dirty d).[t] + 1)) as [Hw _].
    + intros k Hk Hne. rewrite test_set_bit by lia. by replace (j =? k) with false by lia.
    + rewrite test_set_bit, Z.eqb_refl, E by lia. cbn. lia.
    + split_and!; [done|done|]. intros u k Hu Hk. cbn [dirty_segmap upd]. rewrite aget_aset by lia.
      rewrite (Z.eqb_sym u t). destruct (Z.eqb_spec t u) as [<-|]; cbn [andb]; [|done].
      rewrite test_set_bit, (Z.eqb_sym j) by lia. by destruct (k =? j).
Qed.
Lemma del_dirty_ok : dirty_set d (del_dirty d t j) t j false.
Proof.
  unfold del_dirty. pose proof (dw_maps _ W).
  destruct (test_bit j (dirty_segmap d).[t]) eqn:E.
  - destruct (dirty_count_step (clear_bit j (dirty_segmap d).[t]) ((nr_dirty d).[t] - 1)) as [Hw _].
    + intros k Hk Hne. rewrite test_clear_bit. by replace (j =? k) with false by lia.
    + rewrite test_clear_bit, Z.eqb_refl, E. cbn. lia.
    + split_and!; [done|done|]. intros u k Hu Hk. cbn [dirty_segmap upd]. rewrite aget_aset by lia.
      rewrite (Z.eqb_sym u t). destruct (Z.eqb_spec t u) as [<-|]; cbn [andb]; [|done].
      rewrite test_clear_bit, (Z.eqb_sym j). by destruct (k =? j).
  - split_and!; [done|done|]. intros u k Hu Hk.
    destruct (Z.eqb_spec u t) as [->|], (Z.eqb_spec k j) as [->|]; cbn [andb]; done.
Qed.
End list.
End dirty.

Section locate.
Context `{SitFormatOk}.
Context (sbi : f2fs_sb_info) (sm : segman) (j : Z).
Context (W : sit_wf sbi (sit sm)) (D : dirty_wf (segment_count_main sbi) (dirty_i sm)).
Context (Hj : 0 <= j < segment_count_main sbi) (Hcur : IS_CURSEG sbi j = false).

Lemma count_main_small : 0 <= segment_count_main sbi < 4294967296.
Proof. pose proof (bps_pos sbi (tw_geom _ _ W)). destruct (tw_geom _ _ W). nia. Qed.

(** Where a segment with [vb] valid blocks belongs. *)
Definition listed (vb : Z) (sm' : segman) : Prop :=
  let d := dirty_i sm' in
  let t := se_type (get_seg_entry sm j) in
  (vb = 0 -> test_bit j (dirty_segmap d).[PRE] = true) /\
  test_bit j (dirty_segmap d).[DIRTY] = (0 <? vb) && (vb <? blocks_per_seg sbi) /\
  test_bit j (dirty_segmap d).[t] = (0 <? vb) && (vb <? blocks_per_seg sbi) /\
  forall u k, 0 <= u < 8 -> 0 <= k -> k <> j ->
    test_bit k (dirty_segmap d).[u] = test_bit k (dirty_segmap (dirty_i sm)).[u].

Lemma locate_dirty_ok :
  segment_count_main sbi < 2147483648 ->
  let sm' := locate_dirty_segment sbi sm j in
  sit sm' = sit sm /\ need_fsck sm' = need_fsck sm /\
  dirty_wf (segment_count_main sbi) (dirty_i sm') /\ listed (seg_valid (sit sm) j) sm'.
Proof.
  intros Hsmall sm'. pose proof (tw_se _ _ W j Hj) as Ws. pose proof (tw_bps _ _ W) as H512.
  pose proof (sw_type _ _ Ws) as Ht. pose proof (bps_pos sbi (tw_geom _ _ W)).
  destruct (se_valid_range sbi _ Ws ltac:(lia)) as [Hv _].
  pose proof count_main_small.
  assert (forall d t b, dirty_wf (segment_count_main sbi) d -> 0 <= t < 8 ->
    dirty_set (segment_count_main sbi) d (if b : bool then add_dirty d t j else del_dirty d t j) t j b) as Hstep.
  { intros d t [] Hd Hr; [apply add_dirty_ok|apply del_dirty_ok]; done || lia. }
  subst sm'. unfold locate_dirty_segment, listed, seg_valid, get_seg_entry.
  replace (j =? NULL_SEGNO) with false by (change NULL_SEGNO with 4294967295; lia). rewrite Hcur. cbn [orb].
  unfold get_valid_blocks. cbn [andb]. unfold get_seg_entry. rewrite u16_id by lia.
  set (vb := valid_blocks (sentries (sit sm)).[j]) in *. set (t := se_type (sentries (sit sm)).[j]) in *.
  unfold __remove_dirty_segment, __locate_dirty_segment, get_seg_entry. rewrite Hcur.
  change (PRE =? DIRTY) with false. change (DIRTY =? DIRTY) with true. cbn [sit upd]. fold t.
  replace (DIRTY <=? t) with false by (unfold DIRTY; lia).
  assert (forall (b : bool) (m m' : segman), sit m = sit m' -> need_fsck m = need_fsck m' ->
    dirty_segmap (dirty_i m) = dirty_segmap (dirty_i m') -> nr_dirty (dirty_i m) = nr_dirty (dirty_i m') ->
    let r := if b then m else m' in
    sit r = sit m' /\ need_fsck r = need_fsck m' /\ dirty_segmap (dirty_i r) = dirty_segmap (dirty_i m') /\
    nr_dirty (dirty_i r) = nr_dirty (dirty_i m')) as Hif
    by (intros [] m m' E1 E2 E3 E4; cbn; split_and!; done).
  assert (forall m m', dirty_segmap m = dirty_segmap m' -> nr_dirty m = nr_dirty m' ->
    dirty_wf (segment_count_main sbi) m' -> dirty_wf (segment_count_main sbi) m) as Hwf.
  { intros m m' E1 E2 []. split; rewrite ?E1, ?E2; done. }
  destruct (Hstep (dirty_i sm) PRE true D ltac:(unfold PRE; lia)) as (Dp & _ & Tp).
  destruct (Z.eqb_spec vb 0) as [Ev|Ev]; [|destruct (Z.ltb_spec vb (blocks_per_seg sbi)) as [Hlt|Hge]].
  - destruct (Hstep _ DIRTY false Dp ltac:(unfold DIRTY; lia)) as (Dd & _ & Td).
    destruct (Hstep _ t false Dd ltac:(lia)) as (Dt & _ & Tt).
    match goal with |- context [if ?b then ?m else ?m'] =>
      destruct (Hif b m m' eq_refl eq_refl eq_refl eq_refl) as (-> & -> & E1 & E2) end.
    split_and!; try done; [by eapply Hwf|..]; rewrite ?E1; cbn [dirty_i upd].
    + intros _. rewrite Tt, Td, Tp by (unfold PRE; lia). unfold PRE, DIRTY.
      replace (7 =? t) with false by lia. cbn. by rewrite Z.eqb_refl.
    + rewrite Tt, Td by (unfold DIRTY; lia). rewrite !Z.eqb_refl, Ev. by destruct (DIRTY =? t).
    + rewrite Tt by lia. by rewrite !Z.eqb_refl, Ev.
    + intros u k Hu Hk Hne. rewrite Tt, Td, Tp by done. replace (k =? j) with false by lia.
      by rewrite !andb_false_r.
  - destruct (Hstep _ DIRTY true D ltac:(unfold DIRTY; lia)) as (Dd & _ & Td).
    destruct (Hstep _ t true Dd ltac:(lia)) as (Dt & _ & Tt).
    replace (0 <? vb) with true by lia.
    split_and!; try done; cbn [dirty_i upd].
    + rewrite Tt, Td by (unfold DIRTY; lia). rewrite !Z.eqb_refl. by destruct (DIRTY =? t).
    + rewrite Tt by lia. by rewrite !Z.eqb_refl.
    + intros u k Hu Hk Hne. rewrite Tt, Td by done. replace (k =? j) with false by lia.
      by rewrite !andb_false_r.
  - destruct (Hstep _ DIRTY false D ltac:(unfold DIRTY; lia)) as (Dd & _ & Td).
    destruct (Hstep _ t false Dd ltac:(lia)) as (Dt & _ & Tt).
    match goal with |- context [if ?b then ?m else ?m'] =>
      destruct (Hif b m m' eq_refl eq_refl eq_refl eq_refl) as (-> & -> & E1 & E2) end.
    replace (0 <? vb) with true by lia.
    split_and!; try done; [by eapply Hwf|..]; rewrite ?E1; cbn [dirty_i upd].
    + rewrite Tt, Td by (unfold DIRTY; lia). rewrite !Z.eqb_refl. by destruct (DIRTY =? t).
    + rewrite Tt by lia. by rewrite !Z.eqb_refl.
    + intros u k Hu Hk Hne. rewrite Tt, Td by done. replace (k =? j) with false by lia.
      by rewrite !andb_false_r.
Qed.
End locate.

(** ** Properties *)

#[local] Existing Instances linux_format linux_format_ok scan_search scan_search_ok linux_sit linux_sit_ok.

(** Segment 1 has its blocks 0 and 2 valid, and is listed as dirty. *)
Definition demo_se : seg_entry := mk_se 2 0 0 (replicate 8 0) (replicate 8 0) (replicate 8 0) 0.
Definition demo_se1 : seg_entry := demo_se <| valid_blocks := 2 |> <| ckpt_valid_blocks := 2 |>
  <| cur_valid_map := [160; 0; 0; 0; 0; 0; 0; 0] |>.
Definition demo_segman : segman :=
  mk_sm (mk_sit 0 0 2 [] 0 0 [demo_se; demo_se1; demo_se; demo_se] [2; 0] 0 0 0)
    (mk_dirty [0; 0; 2; 0; 0; 0; 2; 0] [0; 0; 1; 0; 0; 0; 1; 0] 0) true 0 false.
Lemma demo_sit_wf : sit_wf demo_sbi (sit demo_segman).
Proof.
  split; try done.
  - intros j Hj. assert (j = 0 \/ j = 1 \/ j = 2 \/ j = 3) as [-> | [-> | [-> | ->]]] by (cbn in Hj; lia);
      by split; vm_compute.
  - exists 2. split_and!; [done|done|]. intros _. split; [done|].
    intros c Hc. assert (c = 0 \/ c = 1) as [-> | ->] by lia; by vm_compute.
Qed.
Lemma demo_dirty_wf : dirty_wf 4 (dirty_i demo_segman).
Proof.
  split; try done. intros t Ht.
  assert (t = 0 \/ t = 1 \/ t = 2 \/ t = 3 \/ t = 4 \/ t = 5 \/ t = 6 \/ t = 7)
    as [-> | [-> | [-> | [-> | [-> | [-> | [-> | ->]]]]]]] by lia; by vm_compute.
Qed.

(** C27. Allocating a free block or freeing a valid one keeps the whole SIT cache
    consistent: after update_sit_entry the bitmap of the block's segment has
    just that bit changed, the counters of the segment, of its section and of
    the file system are again the population counts, the entry is marked dirty
    and counted once, and no fsck is requested. (The cache is that of a mount with discard: the
    invariant has a discard map for each segment.) *)
Theorem update_sit_entry_consistent `{SitFormatOk} sbi sm now j off del :
  let a := main_block sbi j off in
  sit_wf sbi (sit sm) -> 0 <= j < segment_count_main sbi -> 0 <= off < blocks_per_seg sbi ->
  is_valid_blkaddr a = true ->
  (del = 1 /\ cur_bit (sentries (sit sm)).[j] off = false) \/
  (del = -1 /\ cur_bit (sentries (sit sm)).[j] off = true) ->
  let sm' := update_sit_entry sbi sm now a del in
  sit_wf sbi (sit sm') /\ need_fsck sm' = need_fsck sm /\
  test_bit j (dirty_sentries_bitmap (sit sm')) = true /\
  valid_blocks (sentries (sit sm')).[j] = valid_blocks (sentries (sit sm)).[j] + del /\
  (forall k b, 0 <= b -> cur_bit (sentries (sit sm')).[k] b
     = if (k =? j) && (b =? off) then 0 <? del else cur_bit (sentries (sit sm)).[k] b).
Proof.
  intros a W Hj Ho Ha Hd sm'.
  destruct (update_wf sbi sm W now j off Hj Ho Ha del Hd) as (W' & F & _ & D & se' & Es & S & V).
  pose proof (tw_len _ _ W). fold a sm' in W', F, D, Es. split_and!; try done; rewrite Es.
  - by rewrite aget_aset, Z.eqb_refl by lia.
  - intros k b Hb. rewrite aget_aset, (Z.eqb_sym j k) by lia.
    destruct (Z.eqb_spec k j) as [->|]; cbn [andb]; [|done]. by apply S.
Qed.
Lemma update_sit_entry_consistent_witness :
  let sm' := update_sit_entry demo_sbi demo_segman 7 22 (-1) in
  sit_wf demo_sbi (sit sm') /\ map valid_blocks (sentries (sit sm')) = [0; 1; 0; 0] /\
  sec_entries (sit sm') = [1; 0].
Proof.
  intros sm'. split; [|split; reflexivity].
  apply (update_sit_entry_consistent demo_sbi demo_segman 7 1 2 (-1));
    [apply demo_sit_wf|cbn; lia|cbn; lia|reflexivity|right; split; reflexivity].
Defined.

(** A double allocation or double free is detected and undone: the request is
    recorded for fsck, and no bitmap, segment counter, section counter or total
    changes. *)
Theorem update_sit_entry_mismatch `{SitFormatOk} sbi sm now j off del :
  let a := main_block sbi j off in
  sit_wf sbi (sit sm) -> 0 <= j < segment_count_main sbi -> 0 <= off < blocks_per_seg sbi ->
  is_valid_blkaddr a = true ->
  (del = 1 /\ cur_bit (sentries (sit sm)).[j] off = true) \/
  (del = -1 /\ cur_bit (sentries (sit sm)).[j] off = false) ->
  let sm' := update_sit_entry sbi sm now a del in
  need_fsck sm' = true /\
  written_valid_blocks (sit sm') = written_valid_blocks (sit sm) /\
  (forall k, seg_valid (sit sm') k = seg_valid (sit sm) k) /\
  (forall c, 0 <= c < zlen (sec_entries (sit sm)) -> 1 < segs_per_sec sbi ->
     (sec_entries (sit sm')).[c] = (sec_entries (sit sm)).[c]) /\
  (forall k b, 0 <= b -> cur_bit (sentries (sit sm')).[k] b = cur_bit (sentries (sit sm)).[k] b).
Proof.
  intros a W Hj Ho Ha Hd sm'.
  destruct (update_sit_entry_eq sbi sm W now j off Hj Ho Ha del) as (mt & Hu).
  cbv zeta in Hu. fold a sm' in Hu. destruct (se_update_refused sbi sm W j off Hj Ho mt del Hd) as (se' & dd & E & S & V).
  rewrite E in Hu. cbn [fst snd] in Hu. destruct Hu as (Es0 & Ew & Es & _ & _ & Ef & _).
  pose proof (tw_len _ _ W) as Hl. destruct (sit_wf_sums sbi sm W j off) as [Hw Hsec].
  split_and!.
  - by rewrite Ef, orb_true_r.
  - rewrite Ew, Z.add_0_r. by apply u32_id.
  - intros k. unfold seg_valid. rewrite Es0, aget_aset by lia. by destruct (Z.eqb_spec j k) as [<-|].
  - intros c Hc Hsps. rewrite Es. replace (1 <? segs_per_sec sbi) with true by lia.
    destruct (decide (j / segs_per_sec sbi = c)) as [->|]; [|by apply aget_aset_ne].
    rewrite aget_aset, Z.eqb_refl, Z.add_0_r by done. apply u32_id. by apply Hsec.
  - intros k b Hb. rewrite Es0, aget_aset by lia. destruct (Z.eqb_spec j k) as [<-|]; [by apply V|done].
Qed.
Lemma update_sit_entry_mismatch_witness :
  let sm' := update_sit_entry demo_sbi demo_segman 7 22 1 in
  need_fsck sm' = true /\ map valid_blocks (sentries (sit sm')) = [0; 2; 0; 0].
Proof.
  intros sm'. split; [|reflexivity].
  apply (update_sit_entry_mismatch demo_sbi demo_segman 7 1 2 1);
    [apply demo_sit_wf|cbn; lia|cbn; lia|reflexivity|left; split; reflexivity].
Defined.

(** C34. Freeing a valid block of a segment no log is writing to: the SIT stays
    consistent with one block less, the dirty lists stay consistent with their
    counts, and the segment ends up where its new count puts it: on the
    prefree list when empty, on the DIRTY list and the list of its type exactly
    when partly valid; no other segment changes list. (With discard, as above.) *)
Theorem f2fs_invalidate_blocks_spec `{SitFormatOk} sbi sm now j off :
  let a := main_block sbi j off in
  sit_wf sbi (sit sm) -> dirty_wf (segment_count_main sbi) (dirty_i sm) ->
  0 <= j < segment_count_main sbi -> 0 <= off < blocks_per_seg sbi ->
  segment_count_main sbi < 2147483648 -> IS_CURSEG sbi j = false ->
  a <> NULL_ADDR -> a <> NEW_ADDR ->
  cur_bit (sentries (sit sm)).[j] off = true ->
  let sm' := f2fs_invalidate_blocks sbi sm now a in
  let vb := valid_blocks (sentries (sit sm')).[j] in
  sit_wf sbi (sit sm') /\ dirty_wf (segment_count_main sbi) (dirty_i sm') /\
  need_fsck sm' = need_fsck sm /\
  vb = valid_blocks (sentries (sit sm)).[j] - 1 /\ cur_bit (sentries (sit sm')).[j] off = false /\
  listed sbi sm j vb sm'.
Proof.
  intros a W D Hj Ho Hsm Hcur Ha1 Ha2 Hbit sm' vb.
  assert (is_valid_blkaddr a = true) as Ha
    by (unfold is_valid_blkaddr; by replace (a =? NEW_ADDR) with false by lia; replace (a =? NULL_ADDR) with false by lia).
  destruct (update_wf sbi sm W now j off Hj Ho Ha (-1) (or_intror (conj eq_refl Hbit)))
    as (W' & F & Ed & _ & se' & Es & S & V).
  fold a in W', F, Ed, Es. pose proof (tw_len _ _ W) as Hl.
  assert (sm' = locate_dirty_segment sbi (update_sit_entry sbi sm now a (-1)) j) as E.
  { pose proof (get_segno_main sbi sm W j off Hj Ho Ha) as Eg. fold a in Eg.
    subst sm'. unfold f2fs_invalidate_blocks. rewrite Eg.
    replace (a =? NULL_ADDR) with false by lia. by replace (a =? NEW_ADDR) with false by lia. }
  set (sm1 := update_sit_entry sbi sm now a (-1)) in *. rewrite <- Ed in D.
  destruct (locate_dirty_ok sbi sm1 j W' D Hj Hcur Hsm) as (Es1 & F1 & D1 & L1). rewrite <- E in *.
  assert ((sentries (sit sm')).[j] = se') as Ej by (by rewrite Es1, Es, aget_aset, Z.eqb_refl by lia).
  subst vb. rewrite Ej, Es1, F1. split_and!; try done.
  - destruct S as (_ & _ & _ & _ & S & _). rewrite S, Z.eqb_refl by lia. done.
  - assert (seg_valid (sit sm1) j = valid_blocks se') as <- by (unfold seg_valid; by rewrite <- Es1, Ej).
    destruct L1 as (L1 & L2 & L3 & L4). rewrite Ed in L4. split_and!; try done.
    replace (se_type (get_seg_entry sm j)) with (se_type (get_seg_entry sm1 j)); [done|].
    unfold get_seg_entry. rewrite Es, aget_aset, Z.eqb_refl by lia. by apply S.
Qed.
Lemma f2fs_invalidate_blocks_spec_witness :
  let sm' := f2fs_invalidate_blocks demo_sbi (f2fs_invalidate_blocks demo_sbi demo_segman 7 20) 7 22 in
  dirty_segmap (dirty_i sm') = [0; 0; 0; 0; 0; 0; 0; 2] /\ sit_wf demo_sbi (sit sm').
Proof.
  intros sm'. split; [reflexivity|].
  destruct (f2fs_invalidate_blocks_spec demo_sbi demo_segman 7 1 0) as (W & D & _);
    [apply demo_sit_wf|apply demo_dirty_wf|cbn; lia|cbn; lia|done..|].
  apply (f2fs_invalidate_blocks_spec demo_sbi (f2fs_invalidate_blocks demo_sbi demo_segman 7 20) 7 1 2);
    [exact W|exact D|cbn; lia|cbn; lia|done..].
Defined.

Lemma blit_slice_full (l src : list Z) n : zlen l = n -> zlen src = n -> blit l 0 (slice src 0 n) = src.
Proof.
  unfold blit, slice, zlen. intros Hl Hs. change (take (Z.to_nat 0) l) with (@nil Z).
  rewrite drop_0, take_ge, drop_ge, app_nil_r by lia. done.
Qed.

(** A segment entry flushed to a raw SIT entry and loaded again (into any cache
    entry) keeps its type, count, bitmap and mtime; the flush makes the current
    state the checkpointed one, and that is what the load restores. *)
Theorem sit_raw_roundtrip `{SitFormatOk} se rs se0 :
  0 <= se_type se < 6 -> 0 <= valid_blocks se < 1024 ->
  zlen (cur_valid_map se) = SIT_VBLOCK_MAP_SIZE -> zlen (ckpt_valid_map se) = SIT_VBLOCK_MAP_SIZE ->
  zlen (valid_map rs) = SIT_VBLOCK_MAP_SIZE ->
  zlen (cur_valid_map se0) = SIT_VBLOCK_MAP_SIZE -> zlen (ckpt_valid_map se0) = SIT_VBLOCK_MAP_SIZE ->
  let r := seg_info_to_raw_sit se rs in
  let se' := seg_info_from_raw_sit se0 (snd r) in
  fst r = se <| ckpt_valid_map := cur_valid_map se |> <| ckpt_valid_blocks := valid_blocks se |> /\
  se' <| discard_map := discard_map se |> = fst r.
Proof.
  intros Ht Hv L1 L2 L3 L4 L5 r se'. subst se' r.
  unfold seg_info_to_raw_sit, __seg_info_to_raw_sit. cbn [fst snd valid_map vblocks raw_mtime].
  rewrite !sit_shift, !(blit_slice_full _ (cur_valid_map se)) by done. split; [done|].
  unfold seg_info_from_raw_sit. cbn [valid_map vblocks raw_mtime].
  assert (u16 (Z.lor (Z.shiftl (se_type se) 10) (valid_blocks se))
          = Z.lor (Z.shiftl (se_type se) 10) (valid_blocks se)) as ->
    by (rewrite pack_entry by lia; apply u16_id; lia).
  rewrite get_sit_vblocks, get_sit_type, !bits10_id, Z.mod_small, !(blit_slice_full _ (cur_valid_map se)) by (done || lia).
  by destruct se, se0.
Qed.
Lemma sit_raw_roundtrip_witness :
  let se := demo_se1 <| cur_valid_map := replicate 64 3 |> <| ckpt_valid_map := replicate 64 0 |> in
  let rs := mk_raw 0 (replicate 64 0) 0 in
  vblocks (snd (seg_info_to_raw_sit se rs)) = 2050 /\
  seg_info_from_raw_sit se (snd (seg_info_to_raw_sit se rs)) = fst (seg_info_to_raw_sit se rs).
Proof.
  intros se rs. split; [reflexivity|].
  exact (proj2 (sit_raw_roundtrip se rs se ltac:(by vm_compute) ltac:(by vm_compute) eq_refl eq_refl eq_refl eq_refl eq_refl)).
Defined.

(** The word-wise union of the two bitmaps has the union of their bits. *)
Lemma or_maps_ok `{SitFormat} a b :
  zlen a = SIT_VBLOCK_MAP_SIZE -> SIT_VBLOCK_MAP_SIZE mod 8 = 0 ->
  Forall (fun x => 0 <= x < 256) a -> Forall (fun x => 0 <= x < 256) b ->
  zlen (or_maps a b) = SIT_VBLOCK_MAP_SIZE /\ Forall (fun x => 0 <= x < 256) (or_maps a b) /\
  forall k, 0 <= k < 8 * SIT_VBLOCK_MAP_SIZE ->
    f2fs_test_bit k (or_maps a b) = f2fs_test_bit k a || f2fs_test_bit k b.
Proof.
  intros Ha Hmod Fa Fb. pose proof (zlen_nonneg a). unfold or_maps.
  assert (SIT_VBLOCK_MAP_SIZE / 8 * 8 = SIT_VBLOCK_MAP_SIZE) as -> by dlia.
  assert (zlen (map (fun i => Z.lor a.[i] b.[i]) (seqZ 0 SIT_VBLOCK_MAP_SIZE)) = SIT_VBLOCK_MAP_SIZE) as Hz
    by (unfold zlen in *; rewrite length_map, length_seqZ; lia).
  assert (forall l i, Forall (fun x => 0 <= x < 256) l -> 0 <= l.[i] < 256) as Hbyte.
  { intros l i Hl. destruct (decide (0 <= i < zlen l)) as [Hi|Hi]; [|by rewrite aget_oob].
    rewrite list.Forall_lookup in Hl. eapply Hl. by apply lookup_aget. }
  split_and!; [done| |].
  - apply List.Forall_map, list.Forall_forall. intros i _.
    pose proof (Hbyte a i Fa) as Ra. pose proof (Hbyte b i Fb) as Rb.
    rewrite <- (Z.mod_small a.[i] (2 ^ 8)), <- (Z.mod_small b.[i] (2 ^ 8)) by lia.
    rewrite <- !Z.land_ones, <- Z.land_lor_distr_l, Z.land_ones by lia. apply Z.mod_pos_bound. lia.
  - intros k Hk. rewrite !test_bit_testbit.
    assert ((map (fun i => Z.lor a.[i] b.[i]) (seqZ 0 SIT_VBLOCK_MAP_SIZE)).[k / 8] = Z.lor a.[k / 8] b.[k / 8]) as ->.
    { apply aget_lookup; [dlia|]. rewrite (list_lookup_fmap _ (seqZ _ _)).
      rewrite lookup_seqZ_lt by dlia. cbn. by rewrite Z.add_0_l, Z2Nat.id by dlia. }
    apply Z.lor_spec.
Qed.

Lemma next_free_blkoff_ok `{SitFormatOk} sbi se start :
  se_wf sbi se -> 0 <= start -> blocks_per_seg sbi <= 8 * SIT_VBLOCK_MAP_SIZE ->
  SIT_VBLOCK_MAP_SIZE mod 8 = 0 -> zlen (ckpt_valid_map se) = SIT_VBLOCK_MAP_SIZE ->
  Forall (fun x => 0 <= x < 256) (ckpt_valid_map se) -> Forall (fun x => 0 <= x < 256) (cur_valid_map se) ->
  exists r, __next_free_blkoff sbi se start = Done r /\
    first_hit (fun k => negb (used_bit se k)) (blocks_per_seg sbi) start r /\
    (start = 0 -> ckpt_valid_blocks se < blocks_per_seg sbi -> r < blocks_per_seg sbi).
Proof.
  intros W Hs Hb Hm Hl F1 F2.
  destruct (or_maps_ok (ckpt_valid_map se) (cur_valid_map se)) as (L & F & Hbits); [done..|].
  destruct (find_rev_next_zero_bit_ok (or_maps (ckpt_valid_map se) (cur_valid_map se)) F ltac:(by rewrite L)
    (blocks_per_seg sbi) start) as (r & E & Hr); [done|by rewrite L|].
  assert (forall k, 0 <= k < blocks_per_seg sbi ->
    negb (f2fs_test_bit k (or_maps (ckpt_valid_map se) (cur_valid_map se))) = negb (used_bit se k)) as Hk
    by (intros k Hk; rewrite Hbits by lia; unfold used_bit, cur_bit; by rewrite orb_comm).
  assert (first_hit (fun k => negb (used_bit se k)) (blocks_per_seg sbi) start r) as Hf.
  { destruct Hr as [[-> Hn]|(Hr & Hq & Hn)]; [left|right]; split_and!; try done; try lia.
    - intros k Hkr. rewrite <- Hk by lia. by apply Hn.
    - by rewrite <- Hk by lia.
    - intros k Hkr. rewrite <- Hk by lia. by apply Hn. }
  exists r. split_and!; [done..|]. intros -> Hroom. rewrite (sw_ckpt_valid _ _ W) in Hroom.
  assert (0 <= blocks_per_seg sbi) by (pose proof (count_upto_range (used_bit se) (Z.to_nat (blocks_per_seg sbi))); lia).
  destruct (count_upto_room (used_bit se) (Z.to_nat (blocks_per_seg sbi))) as (k & Hkr & Hq); [lia|].
  destruct Hf as [[-> Hn]|(Hr' & _)]; [|lia]. specialize (Hn k ltac:(lia)). by rewrite Hq in Hn.
Qed.

(** SSR allocates the first block at or after [start] that is valid neither now
    nor in the last checkpoint; searching from 0 it succeeds whenever the
    segment's checkpoint count says there is room. *)
Theorem next_free_blkoff_spec `{SitFormatOk} sbi se start :
  se_wf sbi se -> 0 <= start -> blocks_per_seg sbi <= 8 * SIT_VBLOCK_MAP_SIZE ->
  SIT_VBLOCK_MAP_SIZE mod 8 = 0 -> zlen (ckpt_valid_map se) = SIT_VBLOCK_MAP_SIZE ->
  Forall (fun x => 0 <= x < 256) (ckpt_valid_map se) -> Forall (fun x => 0 <= x < 256) (cur_valid_map se) ->
  exists r, __next_free_blkoff sbi se start = Done r /\
    first_hit (fun k => negb (used_bit se k)) (blocks_per_seg sbi) start r /\
    (start = 0 -> ckpt_valid_blocks se < blocks_per_seg sbi -> r < blocks_per_seg sbi).
Proof. apply next_free_blkoff_ok. Qed.
Lemma next_free_blkoff_spec_witness :
  let se := demo_se1 <| cur_valid_map := 160 :: replicate 63 0 |> <| ckpt_valid_map := 64 :: replicate 63 0 |>
              <| ckpt_valid_blocks := 3 |> in
  __next_free_blkoff demo_sbi se 0 = Done 3.
Proof.
  intros se. destruct (next_free_blkoff_spec demo_sbi se 0) as (r & E & Hf & Hr);
    [by split; vm_compute|by vm_compute|by vm_compute|by vm_compute|by vm_compute|by repeat constructor|by repeat constructor|].
  specialize (Hr eq_refl ltac:(by vm_compute)). assert (r = 3) as -> by (vm_compute in E; congruence). exact E.
Defined.
