(* ===== verification/Victim.v ===== *)
(** * Victim selection of the cleaner and of SSR ([gc.c])

    get_victim_by_default scans a dirty list from the last victim on, wraps
    around once, and keeps the cheapest segment whose section is not in use. *)
From S2P Require Import Prelude Geometry Heap Mpt FreeMap Machine Redirect BlockIo F2fsBits MptFlush RevBits Sit.
Open Scope Z_scope.

Definition LFS : Z := 0.
Definition SSR : Z := 1.
Definition GC_CB : Z := 0.
Definition GC_GREEDY : Z := 1.
Definition ALLOC_NEXT : Z := 2.
Definition BG_GC : Z := 0.
Definition FG_GC : Z := 1.
(** enum of sbi->gc_mode *)
Inductive gc_mode_t := GC_NORMAL | GC_IDLE_CB | GC_IDLE_GREEDY | GC_URGENT.
#[export] Instance gc_mode_eq_dec : EqDecision gc_mode_t.
Proof. solve_decision. Defined.
Definition UINT_MAX : Z := 4294967295.

Record victim_sel_policy := mk_policy {
  alloc_mode : Z;
  gc_mode : Z;
  dirty_segmap_p : Z;       (* dirty_segmap, the bitmap of the list to search *)
  max_search : Z;
  offset : Z;
  ofs_unit : Z;
  min_cost : Z;
  min_segno : Z;
}.
#[export] Instance eta_policy : Eta victim_sel_policy := fun p =>
  mk_policy (alloc_mode p) (gc_mode p) (dirty_segmap_p p) (max_search p) (offset p) (ofs_unit p)
    (min_cost p) (min_segno p).

(** What victim selection reads and changes: the superblock information (for
    cur_victim_sec), the segment manager, and the sit_info fields last_victim
    and min_mtime. *)
Record gc_state := mk_gc {
  g_sbi : f2fs_sb_info;
  g_sm : segman;
  last_victim : list Z;
  min_mtime : Z;
}.
#[export] Instance eta_gc : Eta gc_state := fun g =>
  mk_gc (g_sbi g) (g_sm g) (last_victim g) (min_mtime g).

(** Mount options and tunables *)
Record gc_conf := mk_conf {
  sbi_gc_mode : gc_mode_t;
  max_victim_search : Z;
  opt_noheap : bool;
  MAIN_SECS : Z;            (* sbi->total_sections *)
}.
(** The main area is made of whole sections. *)
Definition secs_ok (conf : gc_conf) (sbi : f2fs_sb_info) : Prop :=
  segment_count_main sbi = MAIN_SECS conf * segs_per_sec sbi.

Section ops.
Context `{SitFormat} `{BitSearch}.
Context (conf : gc_conf).
#[local] Abbreviation MAIN_SEGS g := (segment_count_main (g_sbi g)).

Definition select_gc_type (gc_type : Z) : Z :=
  let m := if gc_type =? BG_GC then GC_CB else GC_GREEDY in
  match sbi_gc_mode conf with
  | GC_IDLE_CB => GC_CB
  | GC_IDLE_GREEDY | GC_URGENT => GC_GREEDY
  | GC_NORMAL => m
  end.

Definition select_policy (g : gc_state) (gc_type type : Z) (p : victim_sel_policy) : victim_sel_policy :=
  let d := dirty_i (g_sm g) in
  let p :=
    if alloc_mode p =? SSR then
      p <| gc_mode := GC_GREEDY |> <| dirty_segmap_p := (dirty_segmap d).[type] |>
        <| max_search := u32 (nr_dirty d).[type] |> <| ofs_unit := 1 |>
    else
      p <| gc_mode := select_gc_type gc_type |> <| dirty_segmap_p := (dirty_segmap d).[DIRTY] |>
        <| max_search := u32 (nr_dirty d).[DIRTY] |> <| ofs_unit := segs_per_sec (g_sbi g) |> in
  let p :=
    if negb (gc_type =? FG_GC) && bool_decide (sbi_gc_mode conf <> GC_URGENT)
       && (max_victim_search conf <? max_search p)
    then p <| max_search := max_victim_search conf |> else p in
  if opt_noheap conf && ((type =? 0) || IS_NODESEG type)
  then p <| offset := 0 |>
  else p <| offset := (last_victim g).[gc_mode p] |>.

Definition get_max_cost (g : gc_state) (p : victim_sel_policy) : Z :=
  if alloc_mode p =? SSR then blocks_per_seg (g_sbi g)
  else if gc_mode p =? GC_GREEDY then u32 (2 * blocks_per_seg (g_sbi g) * ofs_unit p)
  else if gc_mode p =? GC_CB then UINT_MAX
  else 0.

(** for_each_set_bit over victim_secmap; [secs] is MAIN_SECS *)
Fixpoint bg_victims (fuel : nat) (g : gc_state) (secs secno : Z) : outcome (Z * gc_state) :=
  match fuel with
  | O => NoFuel
  | S fuel =>
      let secno := find_next_bit (victim_secmap (dirty_i (g_sm g))) secs secno in
      if secs <=? secno then Done (NULL_SEGNO, g)
      else if sec_usage_check (g_sbi g) secno then bg_victims fuel g secs (u32 (secno + 1))
      else Done (GET_SEG_FROM_SEC (g_sbi g) secno,
                 g <| g_sm ::= fun m => m <| dirty_i ::= fun d => d <| victim_secmap ::= clear_bit secno |> |> |>)
  end.
Definition check_bg_victims (g : gc_state) : outcome (Z * gc_state) :=
  bg_victims (S (Z.to_nat (MAIN_SECS conf))) g (MAIN_SECS conf) 0.

Definition get_cb_cost (g : gc_state) (segno : Z) : Z * gc_state :=
  let sbi := g_sbi g in
  let secno := GET_SEC_FROM_SEG sbi segno in
  let start := GET_SEG_FROM_SEC sbi secno in
  let mt := foldl (fun acc i => u64 (acc + mtime (get_seg_entry (g_sm g) (u32 (start + i))))) 0
              (seqZ 0 (segs_per_sec sbi)) in
  let vblocks := get_valid_blocks sbi (g_sm g) segno true in
  let mt := mt / segs_per_sec sbi in
  let vblocks := vblocks / segs_per_sec sbi in
  let u := u8 (Z.shiftr (u32 (vblocks * 100)) (log_blocks_per_seg sbi)) in
  let g := if mt <? min_mtime g then g <| min_mtime := mt |> else g in
  let g := if max_mtime (sit (g_sm g)) <? mt
           then g <| g_sm ::= fun m => m <| sit ::= fun s => s <| max_mtime := mt |> |> |> else g in
  let maxm := max_mtime (sit (g_sm g)) in
  let minm := min_mtime g in
  let age := if negb (maxm =? minm)
             then u8 (u64 (100 - u64 (100 * (mt - minm)) / u64 (maxm - minm))) else 0 in
  (u32 (UINT_MAX - Z.quot (100 * (100 - u) * age) (100 + u)), g).

Definition get_gc_cost (g : gc_state) (segno : Z) (p : victim_sel_policy) : Z * gc_state :=
  if alloc_mode p =? SSR then (ckpt_valid_blocks (get_seg_entry (g_sm g) segno), g)
  else if gc_mode p =? GC_GREEDY then (get_valid_blocks (g_sbi g) (g_sm g) segno true, g)
  else get_cb_cost g segno.

Definition count_bits (addr off len : Z) : Z :=
  foldl (fun sum i => if test_bit i addr then u32 (sum + 1) else sum) 0 (seqZ off len).

(** The candidate of one iteration: skipped, or compared with the best one. *)
Definition visit_victim (gc_type segno : Z) (g : gc_state) (p : victim_sel_policy)
    : gc_state * victim_sel_policy :=
  let secno := GET_SEC_FROM_SEG (g_sbi g) segno in
  if sec_usage_check (g_sbi g) secno then (g, p)
  else if (gc_type =? BG_GC) && test_bit secno (victim_secmap (dirty_i (g_sm g))) then (g, p)
  else
    let c := get_gc_cost g segno p in
    (snd c, if fst c <? min_cost p then p <| min_segno := segno |> <| min_cost := u32 (fst c) |> else p).

(** The [while (1)] loop. *)
Fixpoint victim_search (fuel : nat) (gc_type last_victim0 last_segment nsearched : Z)
    (g : gc_state) (p : victim_sel_policy) : outcome (gc_state * victim_sel_policy) :=
  match fuel with
  | O => NoFuel
  | S fuel =>
      let segno := find_next_bit (dirty_segmap_p p) last_segment (offset p) in
      if last_segment <=? segno then
        let lv := (last_victim g).[gc_mode p] in
        if nz lv then
          victim_search fuel gc_type last_victim0 lv nsearched
            (g <| last_victim ::= fun l => l.[gc_mode p <- 0] |>) (p <| offset := 0 |>)
        else Done (g, p)
      else
        let off := u32 (segno + ofs_unit p) in
        let off := if 1 <? ofs_unit p then u32 (off - segno mod ofs_unit p) else off in
        let nsearched :=
          if 1 <? ofs_unit p
          then u32 (nsearched + count_bits (dirty_segmap_p p) (u32 (off - ofs_unit p)) (ofs_unit p))
          else u32 (nsearched + 1) in
        let r := visit_victim gc_type segno g (p <| offset := off |>) in
        if max_search p <=? nsearched then
          let g := fst r in
          let v := if (((last_victim g).[gc_mode p] =? 0) && (segno <=? last_victim0))
                   then u32 (last_victim0 + 1) else u32 (segno + 1) in
          Done (g <| last_victim ::= fun l => l.[gc_mode p <- v mod MAIN_SEGS g] |>, snd r)
        else victim_search fuel gc_type last_victim0 last_segment nsearched (fst r) (snd r)
  end.

(** From [got_it] on: what choosing [segno] records. *)
Definition take_victim (g : gc_state) (gc_type mode ofs segno : Z) : gc_state :=
  if mode =? LFS then
    let secno := GET_SEC_FROM_SEG (g_sbi g) segno in
    if gc_type =? FG_GC then g <| g_sbi ::= fun b => b <| cur_victim_sec := secno |> |>
    else g <| g_sm ::= fun m => m <| dirty_i ::= fun d => d <| victim_secmap ::= set_bit secno |> |> |>
  else g.

(** The policy get_victim_by_default starts with. *)
Definition start_policy (g : gc_state) (gc_type type mode : Z) : victim_sel_policy :=
  let p := select_policy g gc_type type (mk_policy mode 0 0 0 0 0 0 0) in
  let p := p <| min_segno := NULL_SEGNO |> in
  p <| min_cost := get_max_cost g p |>.

(** The result is the return value, [*result] and the state. *)
Definition get_victim_by_default (g : gc_state) (result gc_type type mode : Z) : outcome (bool * Z * gc_state) :=
  let p := start_policy g gc_type type mode in
  if negb (result =? NULL_SEGNO) then
    Done ((se_type (get_seg_entry (g_sm g) result) <=? 2)
          && nz (get_valid_blocks (g_sbi g) (g_sm g) result false)
          && negb (sec_usage_check (g_sbi g) (GET_SEC_FROM_SEG (g_sbi g) result)), result, g)
  else if max_search p =? 0 then Done (false, result, g)
  else
    let got_it (g : gc_state) (p : victim_sel_policy) :=
      (true, min_segno p / ofs_unit p * ofs_unit p, take_victim g gc_type mode (ofs_unit p) (min_segno p)) in
    let lv := (last_victim g).[gc_mode p] in
    r <-- (if (mode =? LFS) && (gc_type =? FG_GC) then check_bg_victims g else Done (NULL_SEGNO, g)) ;;
    if negb (fst r =? NULL_SEGNO) then Done (got_it (snd r) (p <| min_segno := fst r |>))
    else
      s <-- victim_search (2 * Z.to_nat (MAIN_SEGS g) + 3) gc_type lv (MAIN_SEGS g) 0 (snd r) p ;;
      Done (if negb (min_segno (snd s) =? NULL_SEGNO) then got_it (fst s) (snd s)
            else (false, result, fst s)).
End ops.

(** ** The search *)

Section search.
Context `{SitFormatOk} `{BitSearchOk}.

Record gc_wf (g : gc_state) : Prop := {
  gw_sit : sit_wf (g_sbi g) (sit (g_sm g));
  gw_dirty : dirty_wf (segment_count_main (g_sbi g)) (dirty_i (g_sm g));
  gw_lv : zlen (last_victim g) = 4;
  gw_lv_range m : 0 <= m < 4 -> 0 <= (last_victim g).[m] < segment_count_main (g_sbi g);
  gw_small : segment_count_main (g_sbi g) < 268435456;
}.

(** A segment the search may choose: on the list, its section holds no log and
    is not being cleaned, and background GC does not pick a section twice. *)
Definition eligible (g : gc_state) (gc_type D k : Z) : Prop :=
  0 <= k < segment_count_main (g_sbi g) /\ test_bit k D = true /\
  sec_usage_check (g_sbi g) (k / segs_per_sec (g_sbi g)) = false /\
  (gc_type = BG_GC -> test_bit (k / segs_per_sec (g_sbi g)) (victim_secmap (dirty_i (g_sm g))) = false).

(** A search changes last_victim and the mtime range, nothing else. *)
Definition search_frame (g g' : gc_state) : Prop :=
  g_sbi g' = g_sbi g /\ exists mm, g_sm g' = (g_sm g) <| sit ::= fun s => s <| max_mtime := mm |> |>.
Definition policy_frame (p p' : victim_sel_policy) : Prop :=
  alloc_mode p' = alloc_mode p /\ gc_mode p' = gc_mode p /\ dirty_segmap_p p' = dirty_segmap_p p /\
  max_search p' = max_search p /\ ofs_unit p' = ofs_unit p.

Lemma search_frame_refl g : search_frame g g.
Proof. split; [done|]. exists (max_mtime (sit (g_sm g))). by destruct g as [? [[]] ? ?]. Qed.
Lemma search_frame_trans g1 g2 g3 : search_frame g1 g2 -> search_frame g2 g3 -> search_frame g1 g3.
Proof. intros [A1 (m1 & E1)] [A2 (m2 & E2)]. split; [congruence|]. exists m2. by rewrite E2, E1. Qed.
Lemma search_frame_lv g f : search_frame g (g <| last_victim ::= f |>).
Proof. split; [done|]. by destruct (search_frame_refl g). Qed.
Lemma policy_frame_trans p1 p2 p3 : policy_frame p1 p2 -> policy_frame p2 p3 -> policy_frame p1 p3.
Proof. unfold policy_frame. intros (A1 & A2 & A3 & A4 & A5) (B1 & B2 & B3 & B4 & B5). split_and!; congruence. Qed.
Lemma eligible_frame g g' gc_type D k : search_frame g g' -> eligible g' gc_type D k <-> eligible g gc_type D k.
Proof. intros [E (m & E')]. unfold eligible. by rewrite E, E'. Qed.

Lemma get_gc_cost_frame g k p :
  search_frame g (snd (get_gc_cost g k p)) /\ last_victim (snd (get_gc_cost g k p)) = last_victim g.
Proof.
  unfold get_gc_cost, get_cb_cost. destruct (alloc_mode p =? SSR); [split; [apply search_frame_refl|done]|].
  destruct (gc_mode p =? GC_GREEDY); [split; [apply search_frame_refl|done]|].
  cbv zeta. cbn [snd]. set (mt := foldl _ _ _ / _). clearbody mt.
  set (g1 := if mt <? min_mtime g then _ else g).
  assert (search_frame g g1 /\ last_victim g1 = last_victim g) as [F1 L1]
    by (subst g1; destruct (mt <? min_mtime g); (split; [|done]); [|apply search_frame_refl];
        split; [done|]; by destruct (search_frame_refl g)).
  destruct (_ <? mt); [|done]. split; [|done].
  apply (search_frame_trans g g1 _ F1). split; [done|]. by exists mt.
Qed.

Lemma visit_victim_spec gc_type k g p D :
  0 <= k < segment_count_main (g_sbi g) -> test_bit k D = true ->
  let r := visit_victim gc_type k g p in
  search_frame g (fst r) /\ last_victim (fst r) = last_victim g /\ policy_frame p (snd r) /\
  offset (snd r) = offset p /\
  ((snd r = p /\ (eligible g gc_type D k -> min_cost p <= fst (get_gc_cost g k p))) \/
   (eligible g gc_type D k /\ min_segno (snd r) = k /\ fst (get_gc_cost g k p) < min_cost p /\
    min_cost (snd r) = u32 (fst (get_gc_cost g k p)))).
Proof.
  intros Hk Hb. unfold visit_victim, eligible, GET_SEC_FROM_SEG. cbv zeta.
  assert (policy_frame p p) as Hp by done.
  pose proof (search_frame_refl g) as Hg.
  destruct (sec_usage_check _ _) eqn:E1; [split_and!; try done; left; split; [done|]; intros (_ & _ & ? & _); done|].
  destruct ((gc_type =? BG_GC) && _) eqn:E2.
  { split_and!; try done. left. split; [done|]. intros (_ & _ & _ & Hv).
    apply andb_true_iff in E2 as [E2 E3]. apply Z.eqb_eq in E2. by rewrite Hv in E3. }
  destruct (get_gc_cost_frame g k p) as [F L]. cbn [fst snd].
  split; [done|]. split; [done|].
  destruct (Z.ltb_spec (fst (get_gc_cost g k p)) (min_cost p)); (split; [done|]; split; [done|]).
  - right. split_and!; try done; try lia. intros ->. by rewrite Z.eqb_refl in E2.
  - left. split; [done|]. intros _. lia.
Qed.

Section loop.
Context (gc_type lv0 bound : Z).

(** The best segment so far is a legal choice; for SSR it has room. *)
Definition selected (g : gc_state) (p : victim_sel_policy) : Prop :=
  (alloc_mode p = SSR -> min_cost p <= bound) /\
  (min_segno p = NULL_SEGNO \/
   (eligible g gc_type (dirty_segmap_p p) (min_segno p) /\
    (alloc_mode p = SSR -> ckpt_valid_blocks (get_seg_entry (g_sm g) (min_segno p)) < bound))).
Lemma selected_frame g g' p p' :
  search_frame g g' -> policy_frame p p' -> min_segno p' = min_segno p -> min_cost p' = min_cost p ->
  selected g p -> selected g' p'.
Proof.
  intros F (P1 & _ & P3 & _) E1 E2 [S1 S2]. split; rewrite P1, ?E1, ?E2; [done|].
  destruct S2 as [|[S2 S3]]; [by left|right]. rewrite P3. split; [by apply (eligible_frame g)|].
  unfold get_seg_entry. by destruct F as [_ (mm & ->)].
Qed.

(** What is left to scan: this round up to [ls], and one more if last_victim is
    set. *)
Definition scan_left (g : gc_state) (p : victim_sel_policy) (ls : Z) : Z :=
  (if (last_victim g).[gc_mode p] =? 0 then 0 else segment_count_main (g_sbi g) + 1)
  + Z.max 0 (ls - offset p).

Record loop_wf (g : gc_state) (p : victim_sel_policy) (ls : Z) : Prop := {
  lw_lv : zlen (last_victim g) = 4;
  lw_lv_range m : 0 <= m < 4 -> 0 <= (last_victim g).[m] < segment_count_main (g_sbi g);
  lw_small : segment_count_main (g_sbi g) < 268435456;
  lw_mode : 0 <= gc_mode p < 4;
  lw_ls : 0 <= ls <= segment_count_main (g_sbi g);
  lw_off : 0 <= offset p;
  lw_unit : 1 <= ofs_unit p < 268435456;
  lw_cost k : 0 <= k < segment_count_main (g_sbi g) -> 0 <= ckpt_valid_blocks (get_seg_entry (g_sm g) k) < 4294967296;
}.

(** One iteration: the offset moves past the segment found. *)
Lemma next_offset p segno :
  0 <= segno < 268435456 -> 1 <= ofs_unit p < 268435456 ->
  let off := u32 (segno + ofs_unit p) in
  segno < (if 1 <? ofs_unit p then u32 (off - segno mod ofs_unit p) else off) < 536870912 /\
  (ofs_unit p = 1 -> (if 1 <? ofs_unit p then u32 (off - segno mod ofs_unit p) else off) = segno + 1).
Proof.
  intros Hs Hu. cbv zeta. pose proof (Z.mod_pos_bound segno (ofs_unit p) ltac:(lia)).
  rewrite !(u32_id (segno + ofs_unit p)) by lia.
  destruct (Z.ltb_spec 1 (ofs_unit p)); [|lia]. rewrite u32_id by lia. lia.
Qed.

Lemma victim_search_ok fuel ls n g p :
  loop_wf g p ls -> 0 <= lv0 < segment_count_main (g_sbi g) -> scan_left g p ls < Z.of_nat fuel ->
  selected g p ->
  exists g' p', victim_search fuel gc_type lv0 ls n g p = Done (g', p') /\
    search_frame g g' /\ policy_frame p p' /\ selected g' p' /\ zlen (last_victim g') = 4 /\
    (forall m, 0 <= m < 4 -> 0 <= (last_victim g').[m] < segment_count_main (g_sbi g)).
Proof.
  revert ls n g p. induction fuel as [|fuel IH]; intros ls n g p W Hlv Hm Hsel.
  { unfold scan_left in Hm. destruct W. specialize (lw_lv_range0 _ lw_mode0). destruct (_ =? 0); lia. }
  pose proof (lw_lv_range _ _ _ W _ (lw_mode _ _ _ W)) as Hcur. pose proof W as [Wl Wr Ws Wm Wls Wo Wu Wc].
  cbn [victim_search]. set (segno := find_next_bit _ _ _).
  destruct (Z.leb_spec ls segno) as [Hle|Hlt].
  - unfold nz. destruct (Z.eqb_spec (last_victim g).[gc_mode p] 0) as [E0|E0]; cbn [negb].
    + exists g, p. split_and!; try done. apply search_frame_refl.
    + destruct (IH (last_victim g).[gc_mode p] n (g <| last_victim ::= fun l => l.[gc_mode p <- 0] |>)
        (p <| offset := 0 |>)) as (g' & p' & -> & F & P & S & L & R).
      * split; cbn; try done; try lia; rewrite ?zlen_aset; [done|].
        intros m Hr. rewrite aget_aset by lia. destruct (gc_mode p =? m); [lia|by apply Wr].
      * done.
      * unfold scan_left in *. cbn. rewrite aget_aset_eq, Z.eqb_refl by lia.
        destruct (Z.eqb_spec (last_victim g).[gc_mode p] 0); lia.
      * eapply selected_frame; [apply search_frame_lv|..|exact Hsel]; done.
      * exists g', p'. split_and!; try done.
  - destruct (find_next_bit_spec (dirty_segmap_p p) ls (offset p)) as [[Er _]|(Hr & Hbit & _)];
      [lia|lia|fold segno in Er; lia|]. fold segno in Hr, Hbit.
    destruct (next_offset p segno ltac:(lia) Wu) as [Hoff _]. cbv zeta in Hoff.
    set (off := if 1 <? ofs_unit p then _ else _) in *. clearbody off.
    destruct (visit_victim_spec gc_type segno g (p <| offset := off |>) (dirty_segmap_p p) ltac:(lia) Hbit)
      as (F & L & P & O & C).
    set (r := visit_victim _ _ _ _) in *. clearbody r. destruct r as [g1 p1]. cbn [fst snd] in *.
    assert (selected g1 p1) as S1.
    { destruct C as [[-> _]|(He & Ek & Hc & Ec)]; [by eapply (selected_frame g); try done|].
      pose proof P as (P1 & _ & P3 & _). cbn in P1, P3, Hc. destruct Hsel as [Hb _].
      assert (alloc_mode p = SSR -> fst (get_gc_cost g segno (p <| offset := off |>))
        = ckpt_valid_blocks (get_seg_entry (g_sm g) segno)) as Ecost
        by (intros Es; unfold get_gc_cost; cbn [alloc_mode upd]; by rewrite Es).
      pose proof (lw_cost _ _ _ W segno ltac:(lia)) as Hpos.
      split; rewrite P1.
      - intros Es. specialize (Hb Es). rewrite Ec, Ecost, u32_id by done. rewrite Ecost in Hc by done. lia.
      - right. rewrite P3, Ek. split; [by apply (eligible_frame g)|]. intros Es. specialize (Hb Es).
        rewrite Ecost in Hc by done. unfold get_seg_entry in *. destruct F as [_ (mm & ->)]. cbn. lia. }
    assert (g_sbi g1 = g_sbi g) as Eg by apply F.
    destruct P as (P1 & P2 & P3 & P4 & P5). cbn in P1, P2, P3, P4, P5, O.
    set (n' := if 1 <? ofs_unit p then _ else _). clearbody n'.
    destruct (max_search p <=? n').
    + set (v := if _ && _ then _ else _). exists (g1 <| last_victim ::= fun l => l.[gc_mode p <- v mod segment_count_main (g_sbi g1)] |>), p1.
      split; [done|]. split; [exact F|]. split; [done|]. split; [exact S1|]. split.
      * cbn. by rewrite zlen_aset, L.
      * intros m Hr'. cbn. rewrite aget_aset by (rewrite L; lia). rewrite L, Eg.
        destruct (gc_mode p =? m); [apply Z.mod_pos_bound; lia|by apply Wr].
    + destruct (IH ls n' g1 p1) as (g' & p' & -> & F' & P' & S' & L' & R').
      * split; rewrite ?L, ?P2, ?P5, ?O, ?Eg; try done; try lia.
        unfold get_seg_entry. destruct F as [_ (mm & ->)]. done.
      * by rewrite Eg.
      * unfold scan_left in *. rewrite L, P2, O, Eg. destruct (_ =? 0); lia.
      * done.
      * exists g', p'. split_and!; try done.
        -- by eapply search_frame_trans.
        -- by eapply policy_frame_trans.
        -- intros m Hr'. rewrite <- Eg. by apply R'.
Qed.
End loop.

(** ** An uncut SSR search sees the whole list *)

Section ssr.
Context (gc_type lv0 : Z) (g0 : gc_state) (D o0 : Z).
Let N : Z := segment_count_main (g_sbi g0).
Let bps : Z := blocks_per_seg (g_sbi g0).
Let cost (k : Z) : Z := ckpt_valid_blocks (get_seg_entry (g_sm g0) k).
Let T : Z := count_upto (fun k => test_bit k D) (Z.to_nat N).
Context (Hcost : forall k, 0 <= k < N -> 0 <= cost k < 4294967296).
Context (Ho0 : 0 <= o0).

(** The segments scanned so far: from [o0] on, and after the wrap-around also
    those before the offset. *)
Definition scanned (wrapped : bool) (off k : Z) : bool :=
  if wrapped then (o0 <=? k) || (k <? off) else (o0 <=? k) && (k <? off).

Definition best (seen : Z -> bool) (p : victim_sel_policy) : Prop :=
  (forall k, seen k = true -> eligible g0 gc_type D k -> min_cost p <= cost k) /\
  ((min_segno p = NULL_SEGNO /\ min_cost p = bps) \/
   (eligible g0 gc_type D (min_segno p) /\ min_cost p = cost (min_segno p) /\ min_cost p < bps)).

Record ssr_inv (wrapped : bool) (ls n : Z) (g : gc_state) (p : victim_sel_policy) : Prop := {
  si_frame : search_frame g0 g;
  si_wf : loop_wf g p ls;
  si_alloc : alloc_mode p = SSR;
  si_unit : ofs_unit p = 1;
  si_map : dirty_segmap_p p = D;
  si_max : max_search p = T;
  si_n : n = count_upto (fun k => scanned wrapped (offset p) k && test_bit k D) (Z.to_nat N);
  si_lt : n < T;
  si_phase : if wrapped then ls = o0 /\ (last_victim g).[gc_mode p] = 0 /\ offset p <= o0
             else ls = N /\ o0 <= offset p /\ (o0 = 0 \/ o0 = (last_victim g).[gc_mode p]);
  si_best : best (scanned wrapped (offset p)) p;
}.

Lemma ssr_unscanned seen n :
  n = count_upto (fun k => seen k && test_bit k D) (Z.to_nat N) -> n < T ->
  exists k, 0 <= k < N /\ test_bit k D = true /\ seen k = false.
Proof.
  subst T. intros -> Hlt. destruct (count_upto_sub (fun k => seen k && test_bit k D) (fun k => test_bit k D) (Z.to_nat N))
    as (k & Hk & Hd & Hs); [|done|].
  - intros k _ Hk. by apply andb_true_iff in Hk as [_ ?].
  - exists k. rewrite Hd, andb_true_r in Hs. split_and!; try done; lia.
Qed.
Lemma ssr_all_scanned seen n k :
  n = count_upto (fun k => seen k && test_bit k D) (Z.to_nat N) -> T <= n ->
  0 <= k < N -> test_bit k D = true -> seen k = true.
Proof.
  subst T. intros -> Hle Hk Hd. destruct (seen k) eqn:E; [done|exfalso].
  pose proof (count_upto_lt (fun k => seen k && test_bit k D) (fun k => test_bit k D) (Z.to_nat N) k) as Hlt.
  cbn in Hlt. rewrite E, Hd in Hlt. cut (count_upto (fun k => seen k && test_bit k D) (Z.to_nat N)
    < count_upto (fun k => test_bit k D) (Z.to_nat N)); [lia|]. apply Hlt; try done; try lia.
  intros j _ Hj. by apply andb_true_iff in Hj as [_ ?].
Qed.

(** The segment just found is added to the scanned ones. *)
Lemma scanned_step wr ls off segno k :
  off <= segno < ls -> (forall k, off <= k < segno -> test_bit k D = false) ->
  (if wr : bool then ls = o0 else o0 <= off) -> test_bit k D = true ->
  scanned wr (segno + 1) k = scanned wr off k || (k =? segno).
Proof.
  intros Hs Hn Hph Hd. unfold scanned.
  assert (~ (off <= k < segno)) by (intros Hk; by rewrite (Hn k Hk) in Hd).
  destruct wr, (Z.leb_spec o0 k), (Z.ltb_spec k (segno + 1)), (Z.ltb_spec k off), (Z.eqb_spec k segno); cbn; try done; lia.
Qed.

Lemma best_step wr off segno p p1 ls :
  best (scanned wr off) p -> off <= segno < ls -> 0 <= segno < N ->
  (forall k, off <= k < segno -> test_bit k D = false) -> (if wr : bool then ls = o0 else o0 <= off) ->
  (min_segno p1 = min_segno p /\ min_cost p1 = min_cost p /\ (eligible g0 gc_type D segno -> min_cost p <= cost segno)) \/
  (eligible g0 gc_type D segno /\ min_segno p1 = segno /\ cost segno < min_cost p /\ min_cost p1 = cost segno) ->
  best (scanned wr (segno + 1)) p1.
Proof.
  intros [B1 B2] Hs Hr Hn Hph C.
  assert (forall k, scanned wr (segno + 1) k = true -> eligible g0 gc_type D k -> k = segno \/ scanned wr off k = true) as Hk.
  { intros k Hk He. rewrite (scanned_step wr ls off segno k) in Hk by (done || apply He).
    apply orb_true_iff in Hk as [Hk|Hk]; [by right|left; lia]. }
  destruct C as [(E1 & E2 & Hle)|(He & E1 & Hlt & E2)]; split.
  - intros k Hsc Hel. rewrite E2. destruct (Hk k Hsc Hel) as [->|Hsc']; [by apply Hle|by apply B1].
  - by rewrite E1, E2.
  - intros k Hsc Hel. rewrite E2. destruct (Hk k Hsc Hel) as [->|Hsc']; [lia|].
    specialize (B1 k Hsc' Hel). lia.
  - right. rewrite E1, E2. split_and!; try done. destruct B2 as [[_ Hb]|(_ & _ & Hb)]; lia.
Qed.

Lemma ssr_complete fuel wrapped ls n g p g' p' :
  ssr_inv wrapped ls n g p -> victim_search fuel gc_type lv0 ls n g p = Done (g', p') ->
  best (fun _ => true) p'.
Proof.
  revert wrapped ls n g p. induction fuel as [|fuel IH]; intros wr ls n g p I; [done|].
  pose proof I as [F W Ha Hu Hm HT Hn Hlt Hph Hb]. pose proof W as [Wl Wr Ws Wm Wls Wo Wu Wc].
  assert (segment_count_main (g_sbi g) = N) as EN by (by destruct F as [-> _]).
  destruct (ssr_unscanned _ _ Hn Hlt) as (w & Hw & HwD & Hws).
  cbn [victim_search]. rewrite Hm. set (segno := find_next_bit _ _ _).
  destruct (find_next_bit_spec D ls (offset p)) as [[Er Hnone]|(Hr & Hbit & Hnone)]; [lia|lia|..];
    [fold segno in Er|fold segno in Hr, Hbit, Hnone].
  - replace (ls <=? segno) with true by lia. unfold scanned in Hws.
    destruct wr.
    { exfalso. destruct Hph as (-> & _ & _). apply orb_false_iff in Hws as [? ?].
      rewrite Hnone in HwD by lia. done. }
    destruct Hph as (-> & Hoo & Ho). assert (w < o0).
    { destruct (decide (w < o0)); [done|exfalso]. rewrite (Hnone w) in HwD by lia. done. }
    destruct Ho as [|Ho]; [lia|]. pose proof (Wr _ Wm) as Hcur. unfold nz. replace ((last_victim g).[gc_mode p] =? 0) with false by lia. cbn [negb].
    intros E. eapply (IH true _ _ _ _); [|exact E]. rewrite <- Ho. split; cbn; try done.
    + split; cbn; try done; try lia; rewrite ?zlen_aset; [done|].
      intros m Hr. rewrite aget_aset by lia. destruct (gc_mode p =? m); [lia|by apply Wr].
    + rewrite Hn. apply count_upto_ext. intros k Hk. unfold scanned.
      destruct (decide (offset p <= k < N)); [rewrite Hnone by done; by rewrite !andb_false_r|].
      f_equal. destruct (Z.leb_spec o0 k), (Z.ltb_spec k (offset p)), (Z.ltb_spec k 0); cbn; done || lia.
    + rewrite aget_aset_eq by lia. lia.
    + destruct Hb as [Hb1 Hb2]. split; [|done]. intros k Hsc He. apply Hb1; [|done]. unfold scanned in *.
      assert (~ (offset p <= k < N)) by (intros Hk; destruct He as (_ & He & _); by rewrite Hnone in He).
      destruct He as (He & _). fold N in He.
      destruct (Z.leb_spec o0 k), (Z.ltb_spec k (offset p)), (Z.ltb_spec k 0); cbn in *; done || lia.
  - replace (ls <=? segno) with false by lia.
    rewrite Hu. change (1 <? 1) with false. cbv iota. rewrite !(u32_id (segno + 1)) by lia.
    assert (if wr then ls = o0 else o0 <= offset p) as Hph' by (destruct wr; apply Hph).
    pose proof (count_upto_range (fun k => scanned wr (offset p) k && test_bit k D) (Z.to_nat N)) as Hnr.
    rewrite <- Hn in Hnr. rewrite (u32_id (n + 1)) by lia.
    destruct (visit_victim_spec gc_type segno g (p <| offset := segno + 1 |>) D ltac:(lia) Hbit) as (F1 & L & P & O & C).
    set (r := visit_victim _ _ _ _) in *. clearbody r. destruct r as [g1 p1]. cbn [fst snd] in *.
    destruct P as (P1 & P2 & P3 & P4 & P5). cbn in P1, P2, P3, P4, P5, O.
    assert (fst (get_gc_cost g segno (p <| offset := segno + 1 |>)) = cost segno) as Ec.
    { unfold get_gc_cost. cbn [alloc_mode upd]. rewrite Ha. cbn. unfold cost, get_seg_entry.
      by destruct F as [_ (mm & ->)]. }
    assert (n + 1 = count_upto (fun k => scanned wr (segno + 1) k && test_bit k D) (Z.to_nat N)) as Hn'.
    { rewrite (count_upto_update (fun k => scanned wr (offset p) k && test_bit k D) _ _ segno), <- Hn, Hbit, !andb_true_r.
      - rewrite (scanned_step wr ls (offset p) segno segno), Z.eqb_refl, orb_true_r by done.
        assert (scanned wr (offset p) segno = false) as ->; [|cbn; lia]. unfold scanned.
        destruct wr; [destruct Hph as (-> & _)|]; lia.
      - lia.
      - intros k _ Hne. destruct (test_bit k D) eqn:Ed; [|by rewrite !andb_false_r].
        rewrite (scanned_step wr ls (offset p) segno k) by done. replace (k =? segno) with false by lia. by rewrite orb_false_r. }
    assert (best (scanned wr (segno + 1)) p1) as Hb'.
    { eapply best_step; [exact Hb|exact Hr|lia|exact Hnone|exact Hph'|]. rewrite Ec in C. cbn in C.
      destruct C as [[-> Hle]|(He & E1 & Hc & E2)]; [left|right].
      - split_and!; try done. intros He. apply Hle. by apply (eligible_frame g0).
      - split_and!; try done; [by apply (eligible_frame g0 g)|]. rewrite E2. apply u32_id, Hcost. lia. }
    rewrite HT. destruct (Z.leb_spec T (n + 1)) as [HTn|HTn].
    + intros [= _ <-]. destruct Hb' as [Hb1 Hb2]. split; [|done]. intros k _ He. apply Hb1; [|done].
      apply (ssr_all_scanned _ _ k Hn' HTn); apply He.
    + apply (IH wr). assert (search_frame g0 g1) as F' by (by eapply search_frame_trans).
      split; rewrite ?O; try done; try congruence.
      * assert (g_sbi g1 = g_sbi g) as Eg by apply F1.
        split; rewrite ?L, ?P2, ?P5, ?O, ?Eg; try done; try lia.
        unfold get_seg_entry. destruct F1 as [_ (mm & ->)]. done.
      * rewrite L, P2. destruct wr; [destruct Hph as (? & ? & ?)|destruct Hph as (? & ? & ?)]; split_and!; try done; lia.
Qed.
End ssr.
End search.

(** ** Properties *)

Section victims.
Context `{SitFormatOk} `{BitSearchOk}.
Context (conf : gc_conf) (g : gc_state) (W : gc_wf g).

Lemma gc_wf_frame g' :
  search_frame g g' -> zlen (last_victim g') = 4 ->
  (forall m, 0 <= m < 4 -> 0 <= (last_victim g').[m] < segment_count_main (g_sbi g)) -> gc_wf g'.
Proof.
  intros [E (mm & E')] L R. destruct W as [Ws Wd _ _ Wsm]. split; rewrite ?E, ?E'; try done.
  cbn. destruct Ws. split; try done.
Qed.
Lemma gc_cost_range k :
  0 <= k < segment_count_main (g_sbi g) -> 0 <= ckpt_valid_blocks (get_seg_entry (g_sm g) k) < 4294967296.
Proof.
  intros Hk. pose proof (gw_sit _ W) as Ws. pose proof (bps_pos _ (tw_geom _ _ Ws)). pose proof (tw_bps _ _ Ws).
  pose proof (se_valid_range (g_sbi g) _ (tw_se _ _ Ws k Hk) ltac:(lia)) as [_ Hc]. unfold get_seg_entry. lia.
Qed.
Lemma main_segs_pos : 0 < segment_count_main (g_sbi g).
Proof. pose proof (gw_lv_range _ W 0 ltac:(lia)). lia. Qed.
Lemma sps_range : 1 <= segs_per_sec (g_sbi g) <= segment_count_main (g_sbi g).
Proof.
  pose proof main_segs_pos. pose proof (gw_sit _ W) as Ws. pose proof (gw_sps _ (tw_geom _ _ Ws)).
  destruct (tw_secs _ _ Ws) as (secs & ? & Es & _). assert (1 <= secs) by nia. nia.
Qed.

Lemma start_policy_fields gc_type type mode :
  let p := start_policy conf g gc_type type mode in
  let list := if mode =? SSR then type else DIRTY in
  alloc_mode p = mode /\ gc_mode p = (if mode =? SSR then GC_GREEDY else select_gc_type conf gc_type) /\
  (offset p = 0 \/ offset p = (last_victim g).[gc_mode p]) /\
  ofs_unit p = (if mode =? SSR then 1 else segs_per_sec (g_sbi g)) /\
  dirty_segmap_p p = (dirty_segmap (dirty_i (g_sm g))).[list] /\ min_segno p = NULL_SEGNO /\
  max_search p = (let n := u32 (nr_dirty (dirty_i (g_sm g))).[list] in
    if negb (gc_type =? FG_GC) && bool_decide (sbi_gc_mode conf <> GC_URGENT) && (max_victim_search conf <? n)
    then max_victim_search conf else n).
Proof.
  cbv zeta. unfold start_policy, select_policy.
  change (alloc_mode (mk_policy mode 0 0 0 0 0 0 0)) with mode.
  destruct (mode =? SSR); cbn [max_search upd]; destruct (negb _ && _ && _), (opt_noheap conf && _); cbn;
    split_and!; first [done | left; done | right; done].
Qed.
Lemma start_loop_wf gc_type type mode :
  loop_wf g (start_policy conf g gc_type type mode) (segment_count_main (g_sbi g)).
Proof.
  pose proof main_segs_pos. pose proof sps_range. pose proof (gw_small _ W).
  destruct (start_policy_fields gc_type type mode) as (_ & Em & Eo & Eu & _).
  assert (0 <= gc_mode (start_policy conf g gc_type type mode) < 4) as Hm.
  { rewrite Em. unfold select_gc_type, GC_CB, GC_GREEDY.
    destruct (mode =? SSR), (sbi_gc_mode conf), (gc_type =? BG_GC); lia. }
  pose proof (gw_lv_range _ W _ Hm). split; try apply W; try apply gc_cost_range; try done; try lia.
  rewrite Eu. destruct (mode =? SSR); lia.
Qed.
Lemma start_selected gc_type type mode :
  selected gc_type (blocks_per_seg (g_sbi g)) g (start_policy conf g gc_type type mode).
Proof.
  split; [|by left]. unfold start_policy. cbn [alloc_mode min_cost upd].
  set (p := select_policy _ _ _ _ _). unfold get_max_cost. cbn [alloc_mode upd]. intros ->. cbn. lia.
Qed.
Lemma start_search gc_type type mode lv n :
  0 <= lv < segment_count_main (g_sbi g) ->
  exists g' p', victim_search (2 * Z.to_nat (segment_count_main (g_sbi g)) + 3) gc_type lv
      (segment_count_main (g_sbi g)) n g (start_policy conf g gc_type type mode) = Done (g', p') /\
    search_frame g g' /\ gc_wf g' /\ policy_frame (start_policy conf g gc_type type mode) p' /\
    selected gc_type (blocks_per_seg (g_sbi g)) g' p'.
Proof.
  intros Hlv. pose proof main_segs_pos. pose proof (start_loop_wf gc_type type mode) as Lw.
  destruct (victim_search_ok gc_type lv (blocks_per_seg (g_sbi g)) (2 * Z.to_nat (segment_count_main (g_sbi g)) + 3)
    (segment_count_main (g_sbi g)) n g (start_policy conf g gc_type type mode)) as (g' & p' & E & F & P & S & L & R);
    [done|done| |apply start_selected|].
  - unfold scan_left. pose proof (lw_off _ _ _ Lw). destruct (_ =? 0); lia.
  - exists g', p'. split_and!; try done. by apply gc_wf_frame.
Qed.

Lemma eligible_not_null gc_type D k : eligible g gc_type D k -> k <> NULL_SEGNO.
Proof. intros [Hk _] ->. pose proof (gw_small _ W). change NULL_SEGNO with 4294967295 in Hk. lia. Qed.

(** What an uncut SSR search returns is the best of its list. *)
Lemma start_complete gc_type type g' p' :
  let D := (dirty_segmap (dirty_i (g_sm g))).[type] in
  let p := start_policy conf g gc_type type SSR in
  0 <= type < 6 -> max_search p <> 0 -> max_search p = (nr_dirty (dirty_i (g_sm g))).[type] ->
  victim_search (2 * Z.to_nat (segment_count_main (g_sbi g)) + 3) gc_type (last_victim g).[gc_mode p]
      (segment_count_main (g_sbi g)) 0 g p = Done (g', p') ->
  best gc_type g D (fun _ => true) p'.
Proof.
  intros D p Ht Hne Hmax E.
  destruct (start_policy_fields gc_type type SSR) as (Ea & Em & Eo & Eu & Ed & En & _). fold p in Ea, Em, Eo, Eu, Ed, En.
  change (SSR =? SSR) with true in *. cbv iota in *.
  pose proof (start_loop_wf gc_type type SSR) as Lw. fold p in Lw.
  eapply (ssr_complete gc_type _ g D (offset p) gc_cost_range (lw_off _ _ _ Lw) _ false); [|exact E].
  pose proof (dw_count _ _ (gw_dirty _ W) type ltac:(lia)) as Hc. fold D in Hc.
  split; try done.
  - apply search_frame_refl.
  - by rewrite Hmax, Hc.
  - symmetry. apply count_upto_none. intros k _. unfold scanned.
    by destruct (Z.leb_spec (offset p) k), (Z.ltb_spec k (offset p)); cbn; try lia.
  - pose proof (count_upto_range (fun k => test_bit k D) (Z.to_nat (segment_count_main (g_sbi g)))). lia.
  - split; [intros k Hs; unfold scanned in Hs; lia|left]. split; [done|].
    change (get_max_cost g p = blocks_per_seg (g_sbi g)). unfold get_max_cost. by rewrite Ea.
Qed.
End victims.

Lemma ssr_victim_ok `{SitFormatOk} `{BitSearchOk} conf g gc_type type :
  let D := (dirty_segmap (dirty_i (g_sm g))).[type] in
  let ckpt k := ckpt_valid_blocks (get_seg_entry (g_sm g) k) in
  gc_wf g -> 0 <= type < 6 ->
  exists b seg g', get_victim_by_default conf g NULL_SEGNO gc_type type SSR = Done (b, seg, g') /\
    search_frame g g' /\ gc_wf g' /\
    (if b then eligible g gc_type D seg /\ ckpt seg < blocks_per_seg (g_sbi g) else seg = NULL_SEGNO) /\
    ((nr_dirty (dirty_i (g_sm g))).[type] <= max_victim_search conf ->
     forall k, eligible g gc_type D k -> (if b then ckpt seg else blocks_per_seg (g_sbi g)) <= ckpt k).
Proof.
  intros D ckpt W Ht. unfold get_victim_by_default. change (negb (NULL_SEGNO =? NULL_SEGNO)) with false.
  change ((SSR =? LFS) && _) with false. cbv iota zeta. cbn [obind fst snd].
  destruct (start_policy_fields conf g gc_type type SSR) as (Ea & Em & _ & Eu & Ed & _ & Ex).
  change (SSR =? SSR) with true in *. cbv iota zeta in *. set (p := start_policy conf g gc_type type SSR) in *.
  pose proof (dw_count _ _ (gw_dirty _ W) type ltac:(lia)) as Hc. fold D in Hc, Ed.
  pose proof (count_upto_range (fun k => test_bit k D) (Z.to_nat (segment_count_main (g_sbi g)))) as Hr.
  pose proof (gw_small _ W). pose proof (main_segs_pos g W). rewrite (u32_id (nr_dirty _).[type]) in Ex by lia.
  set (nr := (nr_dirty (dirty_i (g_sm g))).[type]) in *.
  assert (nr <= max_victim_search conf -> max_search p = nr) as Huncut
    by (intros Hu; rewrite Ex; replace (max_victim_search conf <? nr) with false by lia; by rewrite andb_false_r).
  destruct (Z.eqb_spec (max_search p) 0) as [E0|E0].
  { exists false, NULL_SEGNO, g. split; [done|]. split; [apply search_frame_refl|]. split; [done|]. split; [done|].
    intros Hu k (Hk & Hb & _). specialize (Huncut Hu).
    pose proof (count_upto_lt (fun _ => false) (fun k => test_bit k D) (Z.to_nat (segment_count_main (g_sbi g))) k) as Hl.
    rewrite (count_upto_none (fun _ => false)) in Hl by done. specialize (Hl ltac:(done) ltac:(lia) Hb eq_refl). lia. }
  destruct (start_search conf g W gc_type type SSR (last_victim g).[gc_mode p] 0) as (g' & p' & E & F & W' & P & S).
  { rewrite Em. by apply W. }
  fold p in E, P. rewrite E. cbn [obind fst snd]. destruct P as (P1 & _ & P3 & _ & P5). destruct S as [_ S].
  assert (forall k, eligible g gc_type D k <-> eligible g' gc_type D k) as Hel by (intros k; by rewrite (eligible_frame g g')).
  assert (forall k, get_seg_entry (g_sm g') k = get_seg_entry (g_sm g) k) as Hse
    by (intros k; unfold get_seg_entry; by destruct F as [_ (mm & ->)]).
  rewrite P3, Ed, Hse in S. rewrite P5, Eu, Z.div_1_r, Z.mul_1_r.
  assert (nr <= max_victim_search conf -> best gc_type g D (fun _ => true) p') as Hbest.
  { intros Hu. apply (start_complete conf g W gc_type type g' p'); [lia|exact E0|by apply Huncut|exact E]. }
  destruct (Z.eqb_spec (min_segno p') NULL_SEGNO) as [En|En]; cbn [negb].
  - exists false, NULL_SEGNO, g'. split; [done|]. split; [done|]. split; [done|]. split; [done|].
    intros Hu k He. destruct (Hbest Hu) as [B1 [[_ B2]|(B2 & _)]]; [|by apply (eligible_not_null g W) in B2].
    rewrite <- B2. by apply B1.
  - destruct S as [|[S1 S2]]; [done|]. exists true, (min_segno p'), (take_victim g' gc_type SSR 1 (min_segno p')).
    split; [done|]. split; [done|]. split; [done|]. split.
    + split; [by apply Hel|]. apply S2. by rewrite P1.
    + intros Hu k He. destruct (Hbest Hu) as [B1 [[B2 _]|(_ & B2 & _)]]; [done|].
      fold (ckpt (min_segno p')) in B2. rewrite <- B2. by apply B1.
Qed.

(** C32. SSR selection ends, changes nothing but the search position, and never
    proposes a segment of a section in use or without room: what it returns is
    on the list of the wanted type, and when the search is not cut short it is
    the segment with the fewest blocks of the last checkpoint, or there is no
    segment with room at all. *)
Theorem ssr_victim_spec `{SitFormatOk} `{BitSearchOk} conf g gc_type type :
  let D := (dirty_segmap (dirty_i (g_sm g))).[type] in
  let ckpt k := ckpt_valid_blocks (get_seg_entry (g_sm g) k) in
  gc_wf g -> 0 <= type < 6 ->
  exists b seg g', get_victim_by_default conf g NULL_SEGNO gc_type type SSR = Done (b, seg, g') /\
    search_frame g g' /\ gc_wf g' /\
    (if b then eligible g gc_type D seg /\ ckpt seg < blocks_per_seg (g_sbi g) else seg = NULL_SEGNO) /\
    ((nr_dirty (dirty_i (g_sm g))).[type] <= max_victim_search conf ->
     forall k, eligible g gc_type D k -> (if b then ckpt seg else blocks_per_seg (g_sbi g)) <= ckpt k).
Proof.
  intros D ckpt. apply ssr_victim_ok.
Qed.


Section cleaning.
Context `{SitFormatOk} `{BitSearchOk}.

Lemma secs_range conf g : gc_wf g -> secs_ok conf (g_sbi g) -> 0 < MAIN_SECS conf < 268435456.
Proof.
  intros W Hs. pose proof (sps_range g W). pose proof (main_segs_pos g W). pose proof (gw_small _ W).
  unfold secs_ok in Hs. nia.
Qed.
Lemma sec_start conf g c :
  gc_wf g -> secs_ok conf (g_sbi g) -> 0 <= c < MAIN_SECS conf ->
  GET_SEG_FROM_SEC (g_sbi g) c = c * segs_per_sec (g_sbi g) /\
  0 <= c * segs_per_sec (g_sbi g) < segment_count_main (g_sbi g) /\
  GET_SEC_FROM_SEG (g_sbi g) (c * segs_per_sec (g_sbi g)) = c.
Proof.
  intros W Hs Hc. pose proof (sps_range g W). pose proof (gw_small _ W). unfold secs_ok in Hs.
  unfold GET_SEG_FROM_SEC, GET_SEC_FROM_SEG. rewrite Z.div_mul by lia.
  assert (0 <= c * segs_per_sec (g_sbi g) < segment_count_main (g_sbi g)) by nia.
  split_and!; try done; try lia. apply u32_id. lia.
Qed.

Lemma bg_victims_ok fuel g secs c :
  0 <= c -> 0 <= secs < 268435456 -> secs - c < Z.of_nat fuel -> (0 < fuel)%nat ->
  exists r g', bg_victims fuel g secs c = Done (r, g') /\
    ((r = NULL_SEGNO /\ g' = g) \/
     exists s, c <= s < secs /\ r = GET_SEG_FROM_SEC (g_sbi g) s /\ sec_usage_check (g_sbi g) s = false /\
       test_bit s (victim_secmap (dirty_i (g_sm g))) = true /\
       g' = g <| g_sm ::= fun m => m <| dirty_i ::= fun d => d <| victim_secmap ::= clear_bit s |> |> |>).
Proof.
  revert c. induction fuel as [|fuel IH]; intros c Hc Hs Hf Hpos; [lia|]. cbn [bg_victims].
  set (s := find_next_bit _ secs c).
  destruct (find_next_bit_spec (victim_secmap (dirty_i (g_sm g))) secs c) as [[Er _]|(Hr & Hb & _)]; [lia|lia|..];
    [fold s in Er|fold s in Hr, Hb].
  { replace (secs <=? s) with true by lia. eexists _, _. split; [done|by left]. }
  replace (secs <=? s) with false by lia. destruct (sec_usage_check (g_sbi g) s) eqn:Eu.
  - rewrite u32_id by lia. destruct (IH (s + 1)) as (r & g' & E & C); [lia|done|lia|lia|].
    exists r, g'. split; [done|]. destruct C as [?|(s' & ? & ?)]; [by left|right]. exists s'. split; [lia|done].
  - eexists _, _. split; [done|]. right. exists s. split_and!; done || lia.
Qed.

(** What a chosen section is: not in use, and recorded as being cleaned. *)
Definition claimed (gc_type : Z) (g g' : gc_state) (c : Z) : Prop :=
  sec_usage_check (g_sbi g) c = false /\
  (gc_type = FG_GC -> cur_victim_sec (g_sbi g') = c) /\
  (gc_type = BG_GC -> test_bit c (victim_secmap (dirty_i (g_sm g))) = false /\
                      victim_secmap (dirty_i (g_sm g')) = set_bit c (victim_secmap (dirty_i (g_sm g)))).

(** The SIT invariant does not depend on the logs and the current victim. *)
Lemma sit_wf_logs sbi s cs v :
  sit_wf sbi s -> sit_wf (sbi <| curseg_segno := cs |> <| cur_victim_sec := v |>) s.
Proof.
  intros [[] ? ? Hse ? ? ?]. split; try done. intros j Hj. destruct (Hse j Hj). by split.
Qed.
Lemma take_victim_wf g gc_type mode ofs segno : gc_wf g -> gc_wf (take_victim g gc_type mode ofs segno).
Proof.
  intros W. unfold take_victim. destruct (mode =? LFS); [|done].
  destruct W as [Ws Wd ? ? ?]. destruct (gc_type =? FG_GC); split; try done.
  - pose proof (sit_wf_logs _ _ (curseg_segno (g_sbi g)) (GET_SEC_FROM_SEG (g_sbi g) segno) Ws) as Ws'.
    destruct g as [[]]. exact Ws'.
  - by destruct Wd.
Qed.
Lemma gc_wf_victim_secmap g f :
  gc_wf g -> gc_wf (g <| g_sm ::= fun m => m <| dirty_i ::= fun d => d <| victim_secmap ::= f |> |> |>).
Proof. intros [[] [] ? ? ?]. split; cbn; try done; split; done. Qed.
End cleaning.

(** The cleaner's selection ends; its victim is a whole section that holds no
    log and is not being cleaned already.  Foreground cleaning makes it the
    current victim, background cleaning marks it, and never marks a section
    twice. *)
Theorem gc_victim_spec `{SitFormatOk} `{BitSearchOk} conf g gc_type type :
  gc_wf g -> secs_ok conf (g_sbi g) -> gc_type = BG_GC \/ gc_type = FG_GC ->
  exists b seg g', get_victim_by_default conf g NULL_SEGNO gc_type type LFS = Done (b, seg, g') /\ gc_wf g' /\
    if b then exists c, 0 <= c /\ seg = c * segs_per_sec (g_sbi g) /\ seg < segment_count_main (g_sbi g) /\
                claimed gc_type g g' c
    else seg = NULL_SEGNO /\ search_frame g g'.
Proof.
  intros W Hsec Hgc. unfold get_victim_by_default. change (negb (NULL_SEGNO =? NULL_SEGNO)) with false.
  change (LFS =? LFS) with true. cbv iota zeta. cbn [andb].
  destruct (start_policy_fields conf g gc_type type LFS) as (Ea & Em & _ & Eu & Ed & _ & Ex).
  change (LFS =? SSR) with false in *. cbv iota zeta in *. set (p := start_policy conf g gc_type type LFS) in *.
  pose proof (gw_small _ W). pose proof (main_segs_pos g W). pose proof (sps_range g W) as Hsps.
  destruct (max_search p =? 0).
  { exists false, NULL_SEGNO, g. split_and!; try done. apply search_frame_refl. }
  pose proof (secs_range conf g W Hsec) as Hsecs.
  assert (exists r g1, (if gc_type =? FG_GC then check_bg_victims conf g else Done (NULL_SEGNO, g)) = Done (r, g1) /\
    ((r = NULL_SEGNO /\ g1 = g) \/ (gc_type = FG_GC /\ gc_wf g1 /\ g_sbi g1 = g_sbi g /\
      exists c, 0 <= c < MAIN_SECS conf /\ r = GET_SEG_FROM_SEC (g_sbi g) c /\ sec_usage_check (g_sbi g) c = false)))
    as (r & g1 & -> & Hbg).
  { destruct (Z.eqb_spec gc_type FG_GC) as [Eg|Eg]; [|eexists _, _; split; [done|by left]].
    destruct (bg_victims_ok (S (Z.to_nat (MAIN_SECS conf))) g (MAIN_SECS conf) 0) as (r & g1 & E & C); [lia|lia|lia|lia|].
    exists r, g1. split; [exact E|]. destruct C as [?|(c & Hc & Er & Hu & _ & ->)]; [by left|right].
    split; [done|]. split; [by apply gc_wf_victim_secmap|]. split; [done|]. by exists c. }
  cbn [obind fst snd]. destruct Hbg as [[-> ->]|(Eg & W1 & Es & c & Hc & -> & Hu)].
  - change (NULL_SEGNO =? NULL_SEGNO) with true. cbn [negb].
    destruct (start_search conf g W gc_type type LFS (last_victim g).[gc_mode p] 0) as (g' & p' & E & F & W' & P & S).
    { apply W. rewrite Em. unfold select_gc_type, GC_CB, GC_GREEDY. destruct (sbi_gc_mode conf), (gc_type =? BG_GC); lia. }
    fold p in E, P. rewrite E. cbn [obind fst snd]. destruct P as (_ & _ & _ & _ & P5). destruct S as [_ S].
    destruct (Z.eqb_spec (min_segno p') NULL_SEGNO) as [En|En]; cbn [negb].
    + exists false, NULL_SEGNO, g'. done.
    + destruct S as [|[S1 _]]; [done|]. apply (eligible_frame g g') in S1; [|done].
      destruct S1 as (Hk & _ & Hu & Hv). set (k := min_segno p') in *. rewrite P5, Eu.
      eexists true, _, _. split; [done|]. split; [by apply take_victim_wf|].
      exists (k / segs_per_sec (g_sbi g)). split; [apply Z.div_pos; lia|]. split; [done|]. split; [|].
      { pose proof (Z.mul_div_le k (segs_per_sec (g_sbi g)) ltac:(lia)). lia. }
      destruct F as [Fs (mm & Fm)]. unfold claimed, take_victim, GET_SEC_FROM_SEG. rewrite Fs. split; [done|].
      split; intros ->; [done|]. split; [by apply Hv|]. cbn. by rewrite Fm.
  - destruct (sec_start conf g c W Hsec Hc) as (Er & Hr & Ec). rewrite Er.
    replace (c * segs_per_sec (g_sbi g) =? NULL_SEGNO) with false by (change NULL_SEGNO with 4294967295; lia).
    cbn [negb min_segno ofs_unit upd]. rewrite Eu, Z.div_mul by lia.
    eexists true, _, _. split; [done|]. split; [by apply take_victim_wf|].
    exists c. split; [lia|]. split; [done|]. split; [lia|].
    unfold claimed, take_victim. rewrite Es, Ec, Eg. split; [done|]. split; [done|discriminate].
Qed.

#[local] Existing Instances linux_format linux_format_ok scan_search scan_search_ok linux_sit linux_sit_ok.
Definition demo_conf : gc_conf := {| sbi_gc_mode := GC_NORMAL; max_victim_search := 16; opt_noheap := false; MAIN_SECS := 2 |}.
(** The logs are in segment 0, segment 1 and 3 are dirty. *)
Definition demo_gc : gc_state :=
  mk_gc demo_sbi
    (mk_sm (mk_sit 0 0 3 [] 0 0 [demo_se; demo_se; demo_se1; demo_se1 <| valid_blocks := 1 |>
        <| ckpt_valid_blocks := 1 |> <| cur_valid_map := [32; 0; 0; 0; 0; 0; 0; 0] |>] [0; 3] 0 0 0)
      (mk_dirty [0; 0; 12; 0; 0; 0; 12; 0] [0; 0; 2; 0; 0; 0; 2; 0] 0) true 0 false)
    [0; 0; 0; 0] 0.
Lemma demo_gc_wf : gc_wf demo_gc.
Proof.
  split; try done.
  - split; try done.
    + intros j Hj. assert (j = 0 \/ j = 1 \/ j = 2 \/ j = 3) as [-> | [-> | [-> | ->]]] by (cbn in Hj; lia);
        by split; vm_compute.
    + exists 2. split_and!; [done|done|]. intros _. split; [done|].
      intros c Hc. assert (c = 0 \/ c = 1) as [-> | ->] by lia; by vm_compute.
  - split; try done. intros t Ht.
    assert (t = 0 \/ t = 1 \/ t = 2 \/ t = 3 \/ t = 4 \/ t = 5 \/ t = 6 \/ t = 7)
      as [-> | [-> | [-> | [-> | [-> | [-> | [-> | ->]]]]]]] by lia; by vm_compute.
  - intros m Hm. assert (m = 0 \/ m = 1 \/ m = 2 \/ m = 3) as [-> | [-> | [-> | ->]]] by lia; by vm_compute.
Qed.

Definition victim_of (r : outcome (bool * Z * gc_state)) : bool * Z :=
  match r with Done (b, seg, _) => (b, seg) | _ => (false, -1) end.
Lemma ssr_victim_spec_witness :
  exists g', get_victim_by_default demo_conf demo_gc NULL_SEGNO BG_GC 2 SSR = Done (true, 3, g') /\ gc_wf g'.
Proof.
  destruct (ssr_victim_spec demo_conf demo_gc BG_GC 2 demo_gc_wf ltac:(lia)) as (b & seg & g' & E & _ & Wg & _).
  pose proof (f_equal victim_of E) as Ev. vm_compute in Ev. injection Ev as <- <-. exists g'. split; [exact E|exact Wg].
Defined.
Lemma gc_victim_spec_witness :
  exists g', get_victim_by_default demo_conf demo_gc NULL_SEGNO FG_GC 0 LFS = Done (true, 2, g') /\
    cur_victim_sec (g_sbi g') = 1.
Proof.
  destruct (gc_victim_spec demo_conf demo_gc FG_GC 0 demo_gc_wf eq_refl (or_intror eq_refl)) as (b & seg & g' & E & _ & Hb).
  pose proof (f_equal victim_of E) as Ev. vm_compute in Ev. injection Ev as <- <-. exists g'. split; [exact E|].
  destruct Hb as (c & _ & Hc & _ & _ & Hv & _). rewrite Hv by done. cbn in Hc. lia.
Defined.
