(* ===== verification/Migrate.v ===== *)
(** * Moving segments between NVM and SSD ([gc_nvm.c])

    [do_cold_to_ssd] and [do_hot_to_nvm] copy the valid blocks of a segment in
    runs of consecutive blocks; [cold_to_ssd], [precold_to_ssd] and
    [hot_to_nvm] choose the segments with the LFU heaps and update the mapping
    table. *)
From S2P Require Import Prelude Geometry Heap Mpt FreeMap Machine Lfu Redirect BlockIo F2fsBits.
Open Scope Z_scope.

Definition SEG_VALID_BLOCKS : Z := 50.
Definition MIN_HOT : Z := 50.
Definition hot_multiple_fenzi : Z := 3.
Definition hot_multiple_fenmu : Z := 2.
Definition ELITTLESPACE : Z := 1.

(** What a move reads and writes: the mapping state and the devices. *)
Record mstate (A : Type) := mk_ms { ms_h : hoit; ms_d : disk A }.
Arguments mk_ms {A}. Arguments ms_h {A}. Arguments ms_d {A}.
#[export] Instance eta_ms A : Eta (mstate A) := fun s => mk_ms (ms_h s) (ms_d s).

Section copy.
Context `{F2fsFormat} {A : Type} `{Inhabited A} `{BlockLayer A}.
Context (sbi : f2fs_sb_info) (cur_map : list Z).

(** while (pos < blk_per_seg && (bit == b)) pos++ *)
Fixpoint skip_bits (b : bool) (fuel : nat) (pos : Z) : Z :=
  match fuel with
  | O => pos
  | S fuel => if (pos <? blocks_per_seg sbi) && Bool.eqb (f2fs_test_bit pos cur_map) b
              then skip_bits b fuel (pos + 1) else pos
  end.

(** the bio_add_page loop over the staging pages *)
Fixpoint add_pages (b : bio A) (pages : list A) : outcome (bio A) :=
  match pages with
  | [] => Done b
  | p :: pages => match bio_add_page b p with
                  | None => Bug
                  | Some b => add_pages b pages
                  end
  end.

(** One run: read it into the staging pages, write them out. *)
Definition copy_run (d : disk A) (stage : list A) (rd wr : bio A) (n : Z) : outcome (disk A) :=
  rd <-- add_pages rd (take (Z.to_nat n) stage) ;;
  wr <-- add_pages wr (disk_read d rd) ;;
  Done (disk_write d wr).

(** next: ... goto next, with [rd st] and [wr st] the bios of a run at [st] *)
Fixpoint copy_runs (fuel : nat) (d : disk A) (stage : list A) (rd wr : Z -> bio A) (pos : Z)
    : outcome (disk A) :=
  match fuel with
  | O => NoFuel
  | S fuel =>
      let pos := skip_bits false (Z.to_nat (blocks_per_seg sbi)) pos in
      if blocks_per_seg sbi <=? pos then Done d
      else
        let st_pos := pos in
        let pos := skip_bits true (Z.to_nat (blocks_per_seg sbi)) (pos + 1) in
        d <-- copy_run d stage (rd st_pos) (wr st_pos) (pos - st_pos) ;;
        copy_runs fuel d stage rd wr (pos + 1)
  end.
End copy.

Section moves.
Context `{F2fsFormat} `{BitSearch} {A : Type} `{Inhabited A} `{BlockLayer A}.
Context (sbi : f2fs_sb_info) (devs : list f2fs_dev_info).
(** get_seg_entry: cur_valid_map and valid_blocks of an SSD segment *)
Context (cur_valid_map : Z -> list Z) (valid_blocks : Z -> Z).
(** the staging pages, one per block of a segment *)
Context (gc_pages : list A).

Definition nvm_bio (blkno : Z) (read : bool) : bio A :=
  mk_bio nbdev (SECTOR_FROM_BLOCK blkno) read [].
Definition nvm_start_blkno (s : nvm_sb_info) (nvm_segoff st_pos : Z) : Z :=
  u32 (u32 (nsb_main_blkaddr (nsb s) + u32 (nvm_segoff * blocks_per_seg sbi)) + st_pos).
Definition ssd_start_blkno (ssd_segoff st_pos : Z) : Z := u32 (START_BLOCK sbi ssd_segoff + st_pos).

Definition do_cold_to_ssd (m : mstate A) (nvm_segoff : Z) (pre_move : bool) : outcome (mstate A) :=
  let s := nsbi (ms_h m) in
  let ssd_segoff := get_mpt_value s nvm_segoff in
  if negb (nz (get_map_flag s nvm_segoff)) then Done m
  else
    d <-- copy_runs sbi (cur_valid_map ssd_segoff) (S (Z.to_nat (blocks_per_seg sbi))) (ms_d m) gc_pages
            (fun st => nvm_bio (nvm_start_blkno s nvm_segoff st) true)
            (fun st => f2fs_target_device devs (ssd_start_blkno ssd_segoff st) false) 0 ;;
    Done (mk_ms (cold_done (ms_h m) ssd_segoff pre_move) d).

Definition do_hot_to_nvm (m : mstate A) (ssd_segoff nvm_segoff : Z) : outcome (mstate A) :=
  let s := nsbi (ms_h m) in
  d <-- copy_runs sbi (cur_valid_map ssd_segoff) (S (Z.to_nat (blocks_per_seg sbi))) (ms_d m) gc_pages
          (fun st => mk_bio s_bdev (SECTOR_FROM_BLOCK (ssd_start_blkno ssd_segoff st)) true [])
          (fun st => nvm_bio (nvm_start_blkno s nvm_segoff st) false) 0 ;;
  Done (m <| ms_d := d |>).

Fixpoint collect_loop (n : nat) (m : mstate A) (segno : Z) (seg_freed : Z) : outcome (Z * mstate A) :=
  match n with
  | O => Done (seg_freed, m)
  | S n => m <-- do_cold_to_ssd m segno false ;; collect_loop n m (segno + 1) (seg_freed + 1)
  end.
Definition cold_to_ssd_collect (m : mstate A) (start_segno : Z) : outcome (Z * mstate A) :=
  collect_loop (Z.to_nat (segs_per_sec sbi)) m start_segno 0.

(** do_garbage_collect of gc.c on one segment: freed segments, new state *)
Context (do_garbage_collect : mstate A -> Z -> Z * mstate A).

(** The victims of cold_to_ssd; the counters are seg_freed, seg_freed_gc and
    seg_freed_double. *)
Fixpoint cold_victims (ns : list heap_node) (m : mstate A) (c : Z * Z * Z)
    : outcome (Z * Z * Z * mstate A) :=
  match ns with
  | [] => Done (c, m)
  | x :: ns =>
      let s := nsbi (ms_h m) in
      let nvm_segoff := seg_off x in
      let ssd_segno := get_mpt_value s nvm_segoff in
      if sec_usage_check sbi (GET_SEC_FROM_SEG sbi ssd_segno) then cold_victims ns m c
      else if nz (get_double_flag s nvm_segoff) then
        cold_victims ns (m <| ms_h ::= fun h => h <| nsbi ::= fun s => unset_mapping s ssd_segno |> |>)
          (fst (fst c), snd (fst c), snd c + 1)
      else
        let vb := valid_blocks ssd_segno in
        if vb =? 0 then cold_victims ns m c
        else if vb <? u32 (blocks_per_seg sbi * SEG_VALID_BLOCKS) / 100 then
          let r := do_garbage_collect m ssd_segno in
          cold_victims ns (snd r) (fst (fst c), snd (fst c) + fst r, snd c)
        else
          m <-- do_cold_to_ssd m nvm_segoff false ;;
          cold_victims ns m (fst (fst c) + 1, snd (fst c), snd c)
  end.

(** prefree_segments(sbi) and f2fs_write_checkpoint *)
Context (prefree_segments : mstate A -> Z) (f2fs_write_checkpoint : mstate A -> Z * mstate A).

Definition ms_s (m : mstate A) : nvm_sb_info := nsbi (ms_h m).
Definition set_s (m : mstate A) (s : nvm_sb_info) : mstate A :=
  m <| ms_h ::= fun h => h <| nsbi := s |> |>.

(** cold_to_ssd, from gc_more; [c] are the counters, which a [stop] before
    the end of the last round leaves out of the result *)
Fixpoint cold_rounds (fuel : nat) (m : mstate A) (c : Z * Z * Z) : outcome (Z * mstate A) :=
  match fuel with
  | O => NoFuel
  | S fuel =>
      let try_gc m :=
        r <-- get_max_k sbi (ms_s m) (reset_max_heap (mh (ms_s m)))
                (s32 (main_segment_nums (nsb (ms_s m)))) false ;;
        let m := set_s m ((ms_s m) <| mh := snd r |>) in
        if nz (fst r) || (cur_num (snd r) =? 0) then Done (0, m)
        else
          let h := (snd r) <| bound := u32 (count (nodes (snd r)).[0]) |> in
          q <-- cold_victims (elems h) (set_s m ((ms_s m) <| mh := h |>)) c ;;
          let c := fst q in
          let m := snd q in
          if has_not_enough_free_nvm_secs (ms_s m) then cold_rounds fuel m c
          else Done (fst (fst c) + snd (fst c) + snd c, m) in
      if has_not_enough_free_nvm_secs (ms_s m) then
        if nz (prefree_segments m) then
          let r := f2fs_write_checkpoint m in
          if nz (fst r) then Done (0, snd r)
          else if negb (has_not_enough_free_nvm_secs (ms_s (snd r))) then Done (0, snd r)
          else try_gc (snd r)
        else try_gc m
      else try_gc m
  end.
Definition cold_to_ssd (fuel : nat) (m : mstate A) : outcome (Z * mstate A) :=
  cold_rounds fuel m (0, 0, 0).

Fixpoint precold_victims (ns : list heap_node) (m : mstate A) (seg_freed : Z)
    : outcome (Z * mstate A) :=
  match ns with
  | [] => Done (seg_freed, m)
  | x :: ns =>
      let ssd_segno := get_mpt_value (ms_s m) (seg_off x) in
      if sec_usage_check sbi (GET_SEC_FROM_SEG sbi ssd_segno) then precold_victims ns m seg_freed
      else m <-- do_cold_to_ssd m (seg_off x) true ;; precold_victims ns m (seg_freed + 1)
  end.
Definition precold_to_ssd (m : mstate A) : outcome (Z * mstate A) :=
  r <-- get_max_k sbi (ms_s m) (reset_max_heap (mh (ms_s m)))
          (s32 (main_segment_nums (nsb (ms_s m)))) true ;;
  let m := set_s m ((ms_s m) <| mh := snd r |>) in
  if nz (fst r) || (cur_num (snd r) =? 0) then Done (0, m)
  else if bound (minh (ms_s m)) <=?
            u64 (count (nodes (snd r)).[0] * hot_multiple_fenzi) / hot_multiple_fenmu
  then Done (0, m)
  else precold_victims (elems (snd r)) m 0.

Definition can_move (s : nvm_sb_info) : bool :=
  (MIN_HOT <? bound (minh s)) && (bound (mh s) <? bound (minh s)).

(** The segments of hot_to_nvm; [ret] counts the moved ones. *)
Fixpoint hot_segments (ns : list heap_node) (m : mstate A) (ret : Z) : outcome (Z * mstate A) :=
  match ns with
  | [] => Done (ret, m)
  | x :: ns =>
      let ssd_segoff := seg_off x in
      if sec_usage_check sbi (GET_SEC_FROM_SEG sbi ssd_segoff) then hot_segments ns m ret
      else
        r <-- hot_reserve (ms_h m) ssd_segoff ;;
        let m := m <| ms_h := snd r |> in
        if fst r =? - ENVMNOSPACE then Done (ret, m)
        else
          m <-- do_hot_to_nvm m ssd_segoff (fst r) ;;
          let q := hot_commit (ms_h m) ssd_segoff (fst r) in
          let m := m <| ms_h := fst q |> in
          match snd q with
          | None => Done (ret, m)
          | Some n => hot_segments ns m (ret + n)
          end
  end.
Definition hot_to_nvm (m : mstate A) : outcome (Z * mstate A) :=
  if has_not_enough_free_nvm_secs (ms_s m) then Done (- ELITTLESPACE, m)
  else
    r <-- get_min_k sbi (ms_s m) (reset_min_heap (minh (ms_s m))) (segment_count_main sbi) ;;
    let m := set_s m ((ms_s m) <| minh := snd r |>) in
    if fst r =? - ENOHOT then Done (- ENOHOT, m)
    else
      let m := set_s m ((ms_s m) <| minh ::= fun h => h <| bound := u32 (count (nodes h).[0]) |> |>) in
      if negb (can_move (ms_s m)) then Done (- ENOHOT, m)
      else hot_segments (elems (minh (ms_s m))) m (fst r).
End moves.

(** data_move_thread: the sleep time, in milliseconds *)
Definition MIN_SLEEP_TIME : Z := 100.
Definition SLEEP_TIME_EXP : Z := 1000.
Definition IO_UTIL_PERCENT : Z := 30.
Definition sleep_time (write_ratio util_nvm util_ssd : Z) : Z :=
  let t := u32 (MIN_SLEEP_TIME + u32 (SLEEP_TIME_EXP * write_ratio) / 100) in
  if (util_nvm <? IO_UTIL_PERCENT) && (util_ssd <? IO_UTIL_PERCENT) then t / 2 else t.

(** ** The copy loops *)

Section copy_specs.
Context `{F2fsFormatOk} {A : Type} `{Inhabited A} `{BlockLayer A}.
Context (sbi : f2fs_sb_info) (cur_map : list Z).
#[local] Abbreviation bps := (blocks_per_seg sbi).

Lemma skip_bits_ok b fuel pos :
  0 <= pos -> bps - pos <= Z.of_nat fuel ->
  let p := skip_bits sbi cur_map b fuel pos in
  pos <= p /\ p <= Z.max pos bps /\
  (forall k, pos <= k < p -> f2fs_test_bit k cur_map = b) /\
  (p < bps -> f2fs_test_bit p cur_map = negb b).
Proof.
  revert pos. induction fuel as [|fuel IH]; intros pos Hp Hf; cbn [skip_bits].
  { split_and!; try lia; intros; lia. }
  destruct (Z.ltb_spec pos bps); cbn [andb]; [|split_and!; try lia; intros; lia].
  destruct (Bool.eqb_spec (f2fs_test_bit pos cur_map) b) as [Hb|Hb].
  - destruct (IH (pos + 1)) as (? & ? & Hall & ?); [lia|lia|]. split_and!; try lia; try done.
    intros k Hk. destruct (Z.eq_dec k pos) as [->|]; [done|]. apply Hall. lia.
  - split_and!; try lia. intros _. by destruct (f2fs_test_bit pos cur_map), b.
Qed.

(** The block layer takes [n] pages in one bio (BIO_MAX_PAGES). *)
Definition roomy (n : Z) : Prop := forall b : bio A, bi_vcnt b < n -> bio_full b = false.
(** No run of consecutive set bits is longer than [n]: each fits one bio.  Beyond
    that the moves run into f2fs_bug_on ([do_cold_to_ssd_full_segment]). *)
Definition runs_fit (n : Z) : Prop := forall st len, 0 <= st -> 0 < len -> st + len <= bps ->
  (forall k, st <= k < st + len -> f2fs_test_bit k cur_map = true) -> len <= n.

Lemma add_pages_ok max (b : bio A) pages :
  roomy max -> bi_vcnt b + zlen pages <= max ->
  add_pages b pages = Done (b <| bi_pages ::= fun l => l ++ pages |>).
Proof.
  intros R. revert b. induction pages as [|p pages IH]; intros b Hn; cbn [add_pages].
  { f_equal. destruct b. unfold upd. cbn. by rewrite app_nil_r. }
  rewrite zlen_cons in Hn. pose proof (zlen_nonneg pages).
  unfold bio_add_page. rewrite R by lia. rewrite IH.
  - f_equal. unfold upd. cbn. by rewrite <- app_assoc.
  - unfold bi_vcnt in *. cbn. rewrite zlen_app. unfold zlen in *. cbn. lia.
Qed.

Definition disk_at (sdev ddev : bdev) (sb db : Z) (cond : Z -> bool) (d : disk A) : disk A :=
  fun dev blk => if bool_decide (dev = ddev) && cond (blk - db) then d sdev (sb + (blk - db)) else d dev blk.

Lemma copy_run_ok max d stage sdev ddev sb db st n r w :
  roomy max -> 0 <= st -> 0 < n <= max -> st + n <= bps -> bps <= zlen stage ->
  0 <= sb + st < 4294967296 -> 0 <= db + st < 4294967296 ->
  exists d', copy_run d stage (mk_bio sdev (SECTOR_FROM_BLOCK (sb + st)) r [])
      (mk_bio ddev (SECTOR_FROM_BLOCK (db + st)) w []) n = Done d' /\
    forall dev blk, d' dev blk =
      disk_at sdev ddev sb db (fun o => (st <=? o) && (o <? st + n)) d dev blk.
Proof.
  intros R Hst Hn Hle Hstage Hs Hd. unfold copy_run.
  assert (zlen (take (Z.to_nat n) stage) = n) as Hl by (unfold zlen in *; rewrite length_take; lia).
  rewrite (add_pages_ok max) by (done || (unfold bi_vcnt; cbn; rewrite Hl; change (zlen []) with 0; lia)).
  cbn [obind]. unfold disk_read, bio_block, bi_vcnt. cbn [bi_pages bi_bdev bi_sector upd app].
  change ([] ++ take (Z.to_nat n) stage) with (take (Z.to_nat n) stage). rewrite Hl, sector_block by done.
  set (l := map _ _). assert (zlen l = n) as Hll.
  { subst l. unfold zlen. rewrite length_map, length_seqZ. lia. }
  rewrite (add_pages_ok max) by (done || (unfold bi_vcnt; cbn; rewrite Hll; change (zlen []) with 0; lia)).
  cbn [obind]. eexists. split; [done|]. intros dev blk.
  unfold disk_write, disk_at, bio_block, bi_vcnt. cbn [bi_pages bi_bdev bi_sector upd].
  change ([] ++ l) with l. rewrite Hll, sector_block by done. rewrite <- andb_assoc.
  replace (db + st <=? blk) with (st <=? blk - db) by lia.
  replace (blk <? db + st + n) with (blk - db <? st + n) by lia.
  destruct (bool_decide (dev = ddev)) eqn:Edev; cbn [andb]; [|done].
  destruct (Z.leb_spec st (blk - db)); cbn [andb]; [|done].
  destruct (Z.ltb_spec (blk - db) (st + n)); [|done].
  apply aget_lookup; [lia|]. subst l.
  rewrite list_lookup_fmap, lookup_seqZ_lt by lia. cbn. do 2 f_equal. lia.
Qed.

Lemma copy_runs_ok max fuel d stage sdev ddev sb db rd wr pos :
  roomy max -> runs_fit max -> sdev <> ddev -> bps <= zlen stage -> 0 <= pos ->
  0 <= sb -> sb + bps < 4294967296 -> 0 <= db -> db + bps < 4294967296 ->
  (forall st, 0 <= st < bps -> exists r, rd st = mk_bio sdev (SECTOR_FROM_BLOCK (sb + st)) r []) ->
  (forall st, 0 <= st < bps -> exists w, wr st = mk_bio ddev (SECTOR_FROM_BLOCK (db + st)) w []) ->
  (Z.to_nat (bps - pos) < fuel)%nat ->
  exists d', copy_runs sbi cur_map fuel d stage rd wr pos = Done d' /\
    forall dev blk, d' dev blk =
      disk_at sdev ddev sb db
        (fun o => (pos <=? o) && (o <? bps) && f2fs_test_bit o cur_map) d dev blk.
Proof.
  intros R Hfit Hne Hstage Hpos Hs Hs' Hd Hd' Hrd Hwr. revert d pos Hpos.
  induction fuel as [|fuel IH]; intros d pos Hpos Hf; [lia|]. cbn [copy_runs].
  destruct (skip_bits_ok false (Z.to_nat bps) pos) as (Hp1 & Hp2 & Hp3 & Hp4); [lia|lia|].
  set (p := skip_bits sbi cur_map false (Z.to_nat bps) pos) in *.
  destruct (Z.leb_spec bps p) as [Hend|Hend].
  { exists d. split; [done|]. intros dev blk. unfold disk_at.
    destruct (bool_decide _ && _) eqn:E; [|done]. exfalso.
    rewrite !andb_true_iff in E. destruct E as [_ [[E1 E2] E3]]. rewrite Hp3 in E3; [done|lia]. }
  specialize (Hp4 Hend). cbn in Hp4.
  destruct (skip_bits_ok true (Z.to_nat bps) (p + 1)) as (Hq1 & Hq2 & Hq3 & Hq4); [lia|lia|].
  set (q := skip_bits sbi cur_map true (Z.to_nat bps) (p + 1)) in *.
  destruct (Hrd p ltac:(lia)) as [r ->]. destruct (Hwr p ltac:(lia)) as [w ->].
  assert (q - p <= max) as Hmax.
  { apply (Hfit p); try lia. intros k Hk. destruct (Z.eq_dec k p) as [->|]; [done|]. apply Hq3. lia. }
  destruct (copy_run_ok max d stage sdev ddev sb db p (q - p) r w R) as (d1 & -> & Hd1); [lia..|].
  cbn [obind]. destruct (IH d1 (q + 1)) as (d2 & -> & Hd2); [lia|lia|].
  exists d2. split; [done|]. intros dev blk. rewrite Hd2. unfold disk_at. rewrite !Hd1. unfold disk_at.
  rewrite (bool_decide_eq_false_2 (sdev = ddev)) by done. cbn [andb].
  destruct (bool_decide (dev = ddev)); cbn [andb]; [|done]. set (o := blk - db).
  replace (p + (q - p)) with q by lia.
  destruct (Z.leb_spec (q + 1) o), (Z.leb_spec pos o); cbn [andb]; try lia.
  - destruct (Z.ltb_spec o bps); cbn [andb].
    + destruct (f2fs_test_bit o cur_map); [done|].
      replace (p <=? o) with true by lia. by replace (o <? q) with false by lia.
    + by replace (o <? q) with false by (symmetry; apply Z.ltb_ge; lia); rewrite andb_false_r.
  - destruct (Z.leb_spec p o); cbn [andb].
    + destruct (Z.ltb_spec o q); [|].
      * replace (o <? bps) with true by lia. cbn [andb].
        destruct (Z.eq_dec o p) as [->|]; [by rewrite Hp4|]. by rewrite Hq3 by lia.
      * assert (o = q) as -> by lia. destruct (Z.ltb_spec q bps); [|done].
        by rewrite Hq4.
    + replace (o <? bps) with true by lia. cbn [andb]. by rewrite Hp3 by lia.
  - replace (p <=? o) with false by lia. done.
Qed.
End copy_specs.

(** ** Effect of the mapping operations on the places of blocks *)

Section places.
Context `{F2fsFormat} (sbi : f2fs_sb_info) (s : nvm_sb_info) (W : mpt_wf sbi s).
#[local] Abbreviation N := (main_segment_nums (nsb s)).

(** the double flag of SSD segment [j] *)
Definition double (s : nvm_sb_info) (j : Z) : bool :=
  Z.testbit (mpt s).[main_segment_nums (nsb s) + j] 2.

Lemma entry_ext_redirected s' j :
  nsb s' = nsb s ->
  (mpt s').[N + j] = (mpt s).[N + j] -> redirected s' j = redirected s j /\ double s' j = double s j.
Proof. intros En Em. unfold redirected, double. by rewrite En, Em. Qed.

Lemma unset_places j i j' :
  in_main sbi j -> ssd_lookup s j = Some i -> in_main sbi j' ->
  redirected (unset_mapping s j) j' = (if j' =? j then None else redirected s j') /\
  double (unset_mapping s j) j' = (if j' =? j then false else double s j').
Proof.
  intros Hj Hl Hj'. unfold in_main in *.
  destruct (unset_mapping_some sbi s j i W Hj Hl) as (Em & _ & En & _).
  destruct (mw_ssd _ _ W _ _ Hj Hl) as [Hi _]. pose proof (mw_len _ _ W).
  unfold redirected, double. rewrite Em, En. cbn [main_segment_nums upd]. cbn.
  rewrite aget_aset_ne, aget_aset by lia.
  replace (N + j =? N + j') with (j' =? j) by lia. by destruct (j' =? j).
Qed.
Lemma set_double_places j i j' :
  in_main sbi j -> ssd_lookup s j = Some i -> in_main sbi j' ->
  redirected (set_double s j) j' = redirected s j' /\
  double (set_double s j) j' = (if j' =? j then true else double s j').
Proof.
  intros Hj Hl Hj'. unfold in_main in *.
  destruct (set_double_some sbi s j i W Hj Hl) as (Em & _ & En & _).
  destruct (mw_ssd _ _ W _ _ Hj Hl) as [Hi _]. pose proof (mw_len _ _ W).
  unfold redirected, double. rewrite Em, En, aget_aset_ne, aget_aset by lia.
  replace (N + j =? N + j') with (j' =? j) by lia.
  destruct (Z.eqb_spec j' j) as [->|]; [|done].
  rewrite !Z.lor_spec, orb_false_r, orb_true_r, Z.shiftr_lor.
  change (Z.shiftr 4 3) with 0. by rewrite Z.lor_0_r.
Qed.
Lemma create_places j i j' f :
  in_main sbi j -> 0 <= i < N -> in_main sbi j' -> 0 <= f < 8 -> Z.testbit f 1 = true ->
  redirected (create_mapping s j i f) j' = (if j' =? j then Some i else redirected s j') /\
  double (create_mapping s j i f) j' = (if j' =? j then Z.testbit f 2 else double s j').
Proof.
  intros Hj Hi Hj' Hf Hb. unfold in_main in *. pose proof (mw_len _ _ W).
  unfold redirected, double. rewrite (create_mapping_mpt sbi) by done.
  change (nsb (create_mapping s j i f)) with (nsb s).
  rewrite aget_aset, aget_aset_ne by (rewrite ?zlen_aset; lia).
  replace (N + j =? N + j') with (j' =? j) by lia.
  destruct (j' =? j); [|done]. by rewrite !mk_entry_bit, Hb, mk_entry_value by lia.
Qed.
End places.

Section preserve.
Context `{F2fsFormatOk} `{BitSearchOk} {A : Type} `{Inhabited A} `{BlockLayer A}.
Context (sbi : f2fs_sb_info) (G : geom_wf sbi).
Context (cur_valid_map : Z -> list Z) (gc_pages : list A).
Context (max : Z) (R : roomy (A := A) max) (Hstage : blocks_per_seg sbi <= zlen gc_pages).
Context (Hfit : forall j, in_main sbi j -> runs_fit sbi (cur_valid_map j) max).
#[local] Abbreviation bps := (blocks_per_seg sbi).

Definition valid (j off : Z) : bool := f2fs_test_bit off (cur_valid_map j).

(** The valid blocks of the flat store are the same. *)
Definition same_valid (m m' : mstate A) : Prop :=
  forall j off, in_volume sbi j off -> valid j off = true ->
  view sbi (ms_s m') (ms_d m') j off = view sbi (ms_s m) (ms_d m) j off.

(** The state between moves: a double segment has the same valid blocks on
  both devices, and every mapping redirects. *)
Record move_inv (m : mstate A) : Prop := {
  mi_wf : hoit_wf sbi (ms_h m);
  mi_geom : nvm_geom_wf sbi (ms_s m);
  mi_redirect j i : in_main sbi j -> ssd_lookup (ms_s m) j = Some i -> redirected (ms_s m) j = Some i;
  mi_double j i off : in_volume sbi j off -> redirected (ms_s m) j = Some i ->
  double (ms_s m) j = true -> valid j off = true ->
  ms_d m s_bdev (main_block sbi j off) = ms_d m nbdev (nvm_block sbi (ms_s m) i off);
}.

Lemma same_valid_refl m : same_valid m m.
Proof. done. Qed.
Lemma same_valid_trans m1 m2 m3 : same_valid m1 m2 -> same_valid m2 m3 -> same_valid m1 m3.
Proof. intros H12 H23 j off Hv Hb. by rewrite H23, H12. Qed.

(** The copy loop from NVM segment [i] to SSD segment [j], and back. *)
Lemma nvm_start_ok s i st :
  mpt_wf sbi s -> nvm_geom_wf sbi s -> 0 <= i < main_segment_nums (nsb s) -> 0 <= st < bps ->
  nvm_start_blkno sbi s i st = nvm_block sbi s i 0 + st /\
  0 <= nvm_block sbi s i 0 /\ nvm_block sbi s i 0 + bps < 4294967296.
Proof.
  intros W [] Hi Hst. pose proof (bps_pos sbi G). unfold nvm_start_blkno, nvm_block.
  rewrite (u32_id (i * _)) by nia. rewrite (u32_id (nsb_main_blkaddr _ + _)) by nia.
  rewrite u32_id by nia. split_and!; nia.
Qed.
Lemma ssd_start_ok j st :
  in_main sbi j -> 0 <= st < bps ->
  ssd_start_blkno sbi j st = main_block sbi j 0 + st /\
  0 <= main_block sbi j 0 /\ main_block sbi j 0 + bps < 4294967296.
Proof.
  intros Hj Hst. unfold in_main in Hj. pose proof (bps_pos sbi G). unfold ssd_start_blkno.
  rewrite START_BLOCK_main by done. pose proof (main_block_u32 sbi G j st Hj Hst).
  rewrite u32_id by lia. unfold main_block. destruct G. split_and!; nia.
Qed.

Lemma copy_cold d s i j rdmap :
  mpt_wf sbi s -> nvm_geom_wf sbi s -> 0 <= i < main_segment_nums (nsb s) -> in_main sbi j -> runs_fit sbi rdmap max ->
  exists d', copy_runs sbi rdmap (S (Z.to_nat bps)) d gc_pages
    (fun st => nvm_bio (nvm_start_blkno sbi s i st) true)
    (fun st => f2fs_target_device [] (ssd_start_blkno sbi j st) false) 0 = Done d' /\
  forall dev blk, d' dev blk =
    disk_at nbdev s_bdev (nvm_block sbi s i 0) (main_block sbi j 0)
      (fun o => (0 <=? o) && (o <? bps) && f2fs_test_bit o rdmap) d dev blk.
Proof.
  intros W NG Hi Hj Hr. pose proof (bps_pos sbi G).
  destruct (nvm_start_ok s i 0 W NG Hi ltac:(lia)) as (_ & ? & ?).
  destruct (ssd_start_ok j 0 Hj ltac:(lia)) as (_ & ? & ?).
  apply (copy_runs_ok sbi rdmap max); try done; try lia.
  - intros st Hst. exists true. unfold nvm_bio. f_equal. f_equal. by apply nvm_start_ok.
  - intros st Hst. exists false. unfold f2fs_target_device. cbn. f_equal. f_equal. by apply ssd_start_ok.
Qed.
Lemma copy_hot d s i j rdmap :
  mpt_wf sbi s -> nvm_geom_wf sbi s -> 0 <= i < main_segment_nums (nsb s) -> in_main sbi j -> runs_fit sbi rdmap max ->
  exists d', copy_runs sbi rdmap (S (Z.to_nat bps)) d gc_pages
    (fun st => mk_bio s_bdev (SECTOR_FROM_BLOCK (ssd_start_blkno sbi j st)) true [])
    (fun st => nvm_bio (nvm_start_blkno sbi s i st) false) 0 = Done d' /\
  forall dev blk, d' dev blk =
    disk_at s_bdev nbdev (main_block sbi j 0) (nvm_block sbi s i 0)
      (fun o => (0 <=? o) && (o <? bps) && f2fs_test_bit o rdmap) d dev blk.
Proof.
  intros W NG Hi Hj Hr. pose proof (bps_pos sbi G).
  destruct (nvm_start_ok s i 0 W NG Hi ltac:(lia)) as (_ & ? & ?).
  destruct (ssd_start_ok j 0 Hj ltac:(lia)) as (_ & ? & ?).
  apply (copy_runs_ok sbi rdmap max); try done; try lia.
  - intros st Hst. exists true. f_equal. f_equal. by apply ssd_start_ok.
  - intros st Hst. exists false. unfold nvm_bio. f_equal. f_equal. by apply nvm_start_ok.
Qed.

(** Reading the result of a copy at a main-area block. *)
Lemma disk_at_ssd (d : disk A) s i j j' off cond :
  in_volume sbi j' off ->
  (forall o, cond o = true -> 0 <= o < bps) ->
  disk_at nbdev s_bdev (nvm_block sbi s i 0) (main_block sbi j 0) cond d s_bdev (main_block sbi j' off)
  = if (j' =? j) && cond off then d nbdev (nvm_block sbi s i off) else d s_bdev (main_block sbi j' off).
Proof.
  intros [Hj' Ho] Hc. unfold disk_at, main_block, nvm_block. rewrite bool_decide_eq_true_2 by done.
  cbn [andb]. destruct (Z.eqb_spec j' j) as [->|Hne]; cbn [andb].
  - replace (main_blkaddr sbi + j * bps + off - (main_blkaddr sbi + j * bps + 0)) with off by lia.
    destruct (cond off); [f_equal; lia|done].
  - destruct (cond _) eqn:E; [|done]. apply Hc in E. nia.
Qed.
Lemma disk_at_nvm (d : disk A) s i j i' off cond :
  0 <= off < bps ->
  (forall o, cond o = true -> 0 <= o < bps) ->
  disk_at s_bdev nbdev (main_block sbi j 0) (nvm_block sbi s i 0) cond d nbdev (nvm_block sbi s i' off)
  = if (i' =? i) && cond off then d s_bdev (main_block sbi j off) else d nbdev (nvm_block sbi s i' off).
Proof.
  intros Ho Hc. unfold disk_at, main_block, nvm_block. rewrite bool_decide_eq_true_2 by done.
  cbn [andb]. destruct (Z.eqb_spec i' i) as [->|Hne]; cbn [andb].
  - replace (nsb_main_blkaddr (nsb s) + i * bps + off - (nsb_main_blkaddr (nsb s) + i * bps + 0)) with off by lia.
    destruct (cond off); [f_equal; lia|done].
  - destruct (cond _) eqn:E; [|done]. apply Hc in E. nia.
Qed.
Lemma range_cond map o : (0 <=? o) && (o <? bps) && f2fs_test_bit o map = true -> 0 <= o < bps.
Proof. rewrite !andb_true_iff. lia. Qed.

(** Segment [j] and its NVM segment [i] have the same valid blocks. *)
Definition mirrored (m : mstate A) (j i : Z) : Prop :=
  forall off, 0 <= off < bps -> valid j off = true ->
  ms_d m s_bdev (main_block sbi j off) = ms_d m nbdev (nvm_block sbi (ms_s m) i off).

Lemma double_mirrored m j i :
  move_inv m -> in_main sbi j -> ssd_lookup (ms_s m) j = Some i -> double (ms_s m) j = true ->
  mirrored m j i.
Proof.
  intros M Hj Hl Hd off Ho Hv. apply (mi_double m M j i off); try done.
  by apply (mi_redirect m M).
Qed.

Lemma unset_mirrored m j i b :
  move_inv m -> in_main sbi j -> ssd_lookup (ms_s m) j = Some i -> mirrored m j i ->
  let m' := m <| ms_h ::= fun h => cold_done h j b |> in
  move_inv m' /\ same_valid m m' /\
  main_segment_nums (nsb (ms_s m')) = main_segment_nums (nsb (ms_s m)).
Proof.
  intros M Hj Hl Hm. pose proof M as [W NG Hr Hd]. pose proof (hf_mpt _ _ W) as Wm.
  pose proof (Hr j i Hj Hl) as Hri. pose proof (cold_done_wf sbi _ j b W Hj) as W'.
  cbv zeta. set (s := ms_s m) in *.
  set (s' := if b then set_double s j else unset_mapping s j).
  change (ms_s (m <| ms_h ::= fun h => cold_done h j b |>)) with s'.
  assert (nsb_main_blkaddr (nsb s') = nsb_main_blkaddr (nsb s) /\
          main_segment_nums (nsb s') = main_segment_nums (nsb s)) as [Eb En].
  { subst s'. destruct b.
    - destruct (set_double_some sbi s j i Wm Hj Hl) as (_ & _ & -> & _). done.
    - destruct (unset_mapping_some sbi s j i Wm Hj Hl) as (_ & _ & -> & _). done. }
  assert (forall i off, nvm_block sbi s' i off = nvm_block sbi s i off) as Enb
    by (intros; unfold nvm_block; by rewrite Eb).
  assert (forall j', in_main sbi j' ->
    redirected s' j' = (if negb b && (j' =? j) then None else redirected s j') /\
    double s' j' = (if j' =? j then b else double s j')) as Hpl.
  { intros j' Hj'. subst s'. destruct b; cbn [negb andb].
    - by apply (set_double_places sbi s Wm j i j').
    - by apply (unset_places sbi s Wm j i j'). }
  assert (forall j', in_main sbi j' ->
    ssd_lookup s' j' = if negb b && (j' =? j) then None else ssd_lookup s j') as Hlk.
  { intros j' Hj'. subst s'. destruct b; cbn [negb andb].
    - unfold ssd_lookup. destruct (set_double_some sbi s j i Wm Hj Hl) as (_ & _ & -> & _).
      by apply (set_double_lookup sbi).
    - by apply (unset_lookups sbi s j i Wm Hj Hl). }
  split_and!; [split|..]; change (ms_s (m <| ms_h ::= fun h => cold_done h j b |>)) with s';
    change (ms_d (m <| ms_h ::= fun h => cold_done h j b |>)) with (ms_d m).
  - exact W'.
  - destruct NG. split; by rewrite ?En, ?Eb.
  - intros j' i' Hj'. rewrite Hlk, (proj1 (Hpl j' Hj')) by done.
    destruct (_ && _); [done|]. by apply Hr.
  - intros j' i' off Hv. destruct (Hpl j' (proj1 Hv)) as [-> ->]. rewrite Enb.
    destruct (Z.eqb_spec j' j) as [->|]; rewrite ?andb_true_r, ?andb_false_r; [|by apply Hd].
    destruct b; cbn [negb]; [|done]. rewrite Hri. intros [= <-] _ Hb. apply Hm; [apply Hv|done].
  - intros j' off Hv Hb. change (ms_s (m <| ms_h ::= _ |>)) with s'. unfold view, place.
    change (ms_d (m <| ms_h ::= _ |>)) with (ms_d m). fold s.
    rewrite (proj1 (Hpl j' (proj1 Hv))).
    destruct (Z.eqb_spec j' j) as [->|]; rewrite ?andb_true_r, ?andb_false_r.
    + rewrite Hri. destruct b; cbn [negb fst snd]; [by rewrite Enb|].
      apply Hm; [apply Hv|done].
    + destruct (redirected s j'); [|done]. cbn [fst snd]. by rewrite Enb.
  - done.
Qed.

(** The copy of an NVM segment to its SSD segment. *)
Lemma cold_copied m i j d' :
  move_inv m -> in_main sbi j -> ssd_lookup (ms_s m) j = Some i ->
  (forall dev blk, d' dev blk =
    disk_at nbdev s_bdev (nvm_block sbi (ms_s m) i 0) (main_block sbi j 0)
      (fun o => (0 <=? o) && (o <? bps) && f2fs_test_bit o (cur_valid_map j)) (ms_d m) dev blk) ->
  let m1 := m <| ms_d := d' |> in
  move_inv m1 /\ same_valid m m1 /\ mirrored m1 j i.
Proof.
  intros M Hj Hl Hd'. pose proof M as [W NG Hr Hd]. pose proof (Hr j i Hj Hl) as Hri.
  assert (forall blk, d' nbdev blk = ms_d m nbdev blk) as Hnv by (intros; by rewrite Hd').
  assert (forall j' off, in_volume sbi j' off ->
    d' s_bdev (main_block sbi j' off) = if (j' =? j) && valid j off
      then ms_d m nbdev (nvm_block sbi (ms_s m) i off) else ms_d m s_bdev (main_block sbi j' off)) as Hsd.
  { intros j' off Hv. rewrite Hd', (disk_at_ssd (ms_d m) (ms_s m)) by (done || apply range_cond).
    destruct Hv as [? Ho]. replace (0 <=? off) with true by lia.
    by replace (off <? bps) with true by lia. }
  cbv zeta. split_and!; [split|..]; cbn [ms_h ms_d upd];
    change (ms_s (m <| ms_d := d' |>)) with (ms_s m); try done.
  - intros j' i' off Hv Hrd Hdb Hb. change (ms_d (m <| ms_d := d' |>)) with d'.
    rewrite Hnv, Hsd by done. destruct (Z.eqb_spec j' j) as [->|]; cbn [andb].
    + rewrite Hb. congruence.
    + by apply Hd.
  - intros j' off Hv Hb. unfold view, place. change (ms_d (m <| ms_d := d' |>)) with d'.
    change (ms_s (m <| ms_d := d' |>)) with (ms_s m).
    destruct (redirected (ms_s m) j') as [i'|] eqn:E; cbn [fst snd]; [apply Hnv|].
    rewrite Hsd by done. destruct (Z.eqb_spec j' j) as [->|]; [congruence|done].
  - intros off Ho Hb. change (ms_d (m <| ms_d := d' |>)) with d'.
    change (ms_s (m <| ms_d := d' |>)) with (ms_s m). rewrite Hnv, Hsd by by split.
    by rewrite Z.eqb_refl, Hb.
Qed.

Lemma do_cold_ok m i pre :
  move_inv m -> 0 <= i < main_segment_nums (nsb (ms_s m)) ->
  exists m', do_cold_to_ssd sbi [] cur_valid_map gc_pages m i pre = Done m' /\
  move_inv m' /\ same_valid m m' /\
  main_segment_nums (nsb (ms_s m')) = main_segment_nums (nsb (ms_s m)).
Proof.
  intros M Hi. pose proof M as [W NG _ _]. pose proof (hf_mpt _ _ W) as Wm.
  unfold do_cold_to_ssd. fold (ms_s m). cbv zeta.
  pose proof (mw_bound _ _ Wm). pose proof (mw_ssd_nonneg _ _ Wm).
  pose proof (map_flag_lookup (ms_s m) i ltac:(unfold ms_s in *; lia)) as Hl.
  destruct (nz (get_map_flag (ms_s m) i)); cbn [negb]; [|by exists m].
  set (j := get_mpt_value (ms_s m) i) in *.
  destruct (mw_nvm _ _ Wm i j Hi Hl) as [Hj Hjl].
  destruct (copy_cold (ms_d m) (ms_s m) i j (cur_valid_map j) Wm NG Hi Hj (Hfit j Hj)) as (d' & -> & Hd').
  cbn [obind]. destruct (cold_copied m i j d' M Hj Hjl Hd') as (M1 & S1 & Hm1).
  destruct (unset_mirrored (m <| ms_d := d' |>) j i pre M1 Hj Hjl Hm1) as (M2 & S2 & E2).
  eexists. split; [reflexivity|]. split; [exact M2|]. split; [|exact E2].
  by eapply same_valid_trans.
Qed.

(** One segment of hot_to_nvm: reserve, copy, commit. *)
Definition hot_one (m : mstate A) (j : Z) : outcome (option Z * mstate A) :=
  r <-- hot_reserve (ms_h m) j ;;
  let m := m <| ms_h := snd r |> in
  if fst r =? - ENVMNOSPACE then Done (None, m)
  else
  m <-- do_hot_to_nvm sbi cur_valid_map gc_pages m j (fst r) ;;
  let q := hot_commit (ms_h m) j (fst r) in
  Done (snd q, m <| ms_h := fst q |>).

Lemma hot_segments_cons x ns m ret :
  hot_segments sbi cur_valid_map gc_pages (x :: ns) m ret =
  if sec_usage_check sbi (GET_SEC_FROM_SEG sbi (seg_off x))
  then hot_segments sbi cur_valid_map gc_pages ns m ret
  else
  q <-- hot_one m (seg_off x) ;;
  match fst q with
  | None => Done (ret, snd q)
  | Some n => hot_segments sbi cur_valid_map gc_pages ns (snd q) (ret + n)
  end.
Proof.
  cbn [hot_segments]. destruct (sec_usage_check _ _); [done|]. unfold hot_one.
  destruct (hot_reserve (ms_h m) (seg_off x)) as [[i h]| |]; cbn [obind fst snd]; [|done..].
  destruct (_ =? _); [done|].
  by destruct (do_hot_to_nvm _ _ _ _ _ _) as [m1| |].
Qed.

(** Nothing is redirected to an unmapped NVM segment. *)
Lemma redirected_ne s i j' i' :
  mpt_wf sbi s -> nvm_lookup s i = None -> in_main sbi j' -> redirected s j' = Some i' -> i' <> i.
Proof.
  intros W Hn Hj' Hr ->. apply (redirected_mapped sbi) in Hr; [|done|done].
  destruct (mw_ssd _ _ W _ _ Hj' Hr). congruence.
Qed.

Lemma hot_one_ok m j :
  move_inv m -> in_main sbi j -> ssd_lookup (ms_s m) j = None ->
  exists q m', hot_one m j = Done (q, m') /\ move_inv m' /\ same_valid m m' /\
  forall j', in_main sbi j' -> j' <> j -> ssd_lookup (ms_s m') j' = ssd_lookup (ms_s m) j'.
Proof.
  intros M Hj Hl. pose proof M as [W NG Hr Hd]. pose proof (hf_mpt _ _ W) as Wm.
  unfold hot_one, hot_reserve. pose proof (mpt_wf_free_range _ _ Wm).
  destruct (decide (main_segment_free_nums (nsb (nsbi (ms_h m))) = 0)) as [E|E].
  { rewrite nvm_allocate_none by done. cbn. eexists None, _. split; [done|].
    assert (m <| ms_h := (ms_h m) <| nsbi := nsbi (ms_h m) |> |> = m) as -> by (by destruct m as [[] ?]).
    by split_and!. }
  destruct (nvm_allocate_some sbi (nsbi (ms_h m)) j false Wm) as (i & Hi & Hb & ->); [lia|].
  cbn [obind fst snd]. replace (i =? - ENVMNOSPACE) with false by (unfold ENVMNOSPACE; lia).
  set (s := nsbi (ms_h m)) in *. change (ms_s m) with s in *.
  pose proof (unallocated_unmapped sbi s i Wm Hi Hb) as Hni.
  pose proof (allocated_wf sbi s i Wm Hi Hb) as Wa.
  assert (nvm_geom_wf sbi (allocated s i)) as NGa by (destruct NG; by split).
  unfold do_hot_to_nvm. cbn [ms_h ms_d upd nsbi].
  destruct (copy_hot (ms_d m) (allocated s i) i j (cur_valid_map j) Wa NGa Hi Hj (Hfit j Hj)) as (d' & -> & Hd').
  cbn [obind].
  assert (forall blk, d' s_bdev blk = ms_d m s_bdev blk) as Hsd by (intros; by rewrite Hd').
  assert (forall i' off, 0 <= off < bps ->
    d' nbdev (nvm_block sbi s i' off) = if (i' =? i) && valid j off
      then ms_d m s_bdev (main_block sbi j off) else ms_d m nbdev (nvm_block sbi s i' off)) as Hnv.
  { intros i' off Ho. rewrite Hd'. change (nvm_block sbi s i' off) with (nvm_block sbi (allocated s i) i' off).
    rewrite (disk_at_nvm (ms_d m) (allocated s i)) by (done || apply range_cond).
    replace (0 <=? off) with true by lia. by replace (off <? bps) with true by lia. }
  (* the state after the commit *)
  unfold hot_commit. cbn [ms_h ms_d upd nsbi free_i].
  unfold nvm_lookup in Hni. pose proof (mw_bound _ _ Wm). pose proof (mw_ssd_nonneg _ _ Wm).
  rewrite map_flag_lookup in Hni by lia.
  change (get_map_flag (allocated s i) i) with (get_map_flag s i).
  destruct (nz (get_map_flag s i)) eqn:Eflag; [done|]. clear Hni.
  assert (nvm_lookup s i = None) as Hni by (unfold nvm_lookup; by rewrite map_flag_lookup, Eflag by lia).
  change (Z.lor (Z.lor rw_map rw_redirect) rw_double) with 7.
  destruct (test_bit j (free_segmap (free_i (ms_h m)))) eqn:Ej; cbn [fst snd].
  - (* published *)
    eexists _, _. split; [done|].
    set (s' := create_mapping (allocated s i) j i 7).
    assert (forall m'', ms_s m'' = s' -> ms_d m'' = d' ->
      hoit_wf sbi (ms_h m'') -> move_inv m'' /\ same_valid m m'' /\
      forall j', in_main sbi j' -> j' <> j -> ssd_lookup (ms_s m'') j' = ssd_lookup s j') as Hfin.
    { intros m'' Es Ed Wf.
      assert (forall j', in_main sbi j' ->
        redirected s' j' = (if j' =? j then Some i else redirected s j') /\
        double s' j' = (if j' =? j then true else double s j')) as Hpl.
      { intros j' Hj'. by apply (create_places sbi (allocated s i) Wa j i j' 7). }
      assert (forall j', in_main sbi j' ->
        ssd_lookup s' j' = if j' =? j then Some i else ssd_lookup s j') as Hlk.
      { intros j' Hj'. by apply (create_lookups sbi (allocated s i) j i 7). }
      split_and!; [split|..]; rewrite ?Es, ?Ed.
      - done.
      - destruct NGa. by split.
      - intros j' i' Hj'. rewrite Hlk, (proj1 (Hpl j' Hj')) by done.
        destruct (j' =? j); [done|]. by apply Hr.
      - intros j' i' off Hv. destruct (Hpl j' (proj1 Hv)) as [-> ->].
        rewrite Hsd. change (nvm_block sbi s' i' off) with (nvm_block sbi s i' off).
        rewrite Hnv by apply Hv.
        destruct (Z.eqb_spec j' j) as [->|].
        + intros [= <-] _ Hb'. by rewrite Z.eqb_refl, Hb'.
        + intros Hrd Hdb Hb'. pose proof (redirected_ne s i j' i' Wm Hni (proj1 Hv) Hrd).
          replace (i' =? i) with false by lia. by apply Hd.
      - intros j' off Hv Hb'. rewrite Es, Ed. unfold view, place. rewrite (proj1 (Hpl j' (proj1 Hv))).
        change (ms_s m) with s. destruct (Z.eqb_spec j' j) as [->|].
        + cbn [fst snd]. change (nvm_block sbi s' i off) with (nvm_block sbi s i off).
          rewrite Hnv, Z.eqb_refl, Hb' by apply Hv. cbn [andb].
          destruct (redirected s j) as [i'|] eqn:E'; [|done].
          apply (redirected_mapped sbi) in E'; [congruence|done|done].
        + destruct (redirected s j') as [i'|] eqn:E'; cbn [fst snd]; [|apply Hsd].
          change (nvm_block sbi s' i' off) with (nvm_block sbi s i' off). rewrite Hnv by apply Hv.
          pose proof (redirected_ne s i j' i' Wm Hni (proj1 Hv) E').
          by replace (i' =? i) with false by lia.
      - intros j' Hj' Hne. rewrite Hlk by done. by replace (j' =? j) with false by lia. }
    apply Hfin; try done. by apply (reserve_map_wf sbi (ms_h m) i j 7 W).
  - (* given back *)
    eexists _, _. split; [done|].
    destruct (release_allocated sbi s i Wm Hi Hb) as (En & Em & _ & _). cbv zeta in En, Em.
    set (s' := release_nvm_segment (allocated s i) i) in *.
    assert (forall m'', ms_s m'' = s' -> ms_d m'' = d' ->
      hoit_wf sbi (ms_h m'') -> move_inv m'' /\ same_valid m m'' /\
      forall j', in_main sbi j' -> j' <> j -> ssd_lookup (ms_s m'') j' = ssd_lookup s j') as Hfin.
    { intros m'' Es Ed Wf.
      assert (forall j', redirected s' j' = redirected s j' /\ double s' j' = double s j' /\
                         ssd_lookup s' j' = ssd_lookup s j') as Hpl
        by (intros; unfold redirected, double, ssd_lookup; by rewrite En, Em).
      assert (forall i off, nvm_block sbi s' i off = nvm_block sbi s i off) as Enb
        by (intros; unfold nvm_block; by rewrite En).
      split_and!; [split|..]; rewrite ?Es, ?Ed.
      - done.
      - destruct NG. split; by rewrite En.
      - intros j' i' Hj'. destruct (Hpl j') as (-> & _ & ->). by apply Hr.
      - intros j' i' off Hv. destruct (Hpl j') as (-> & -> & _). rewrite Hsd, Enb, Hnv by apply Hv.
        intros Hrd Hdb Hb'. pose proof (redirected_ne s i j' i' Wm Hni (proj1 Hv) Hrd).
        replace (i' =? i) with false by lia. by apply Hd.
      - intros j' off Hv Hb'. rewrite Es, Ed. unfold view, place. rewrite (proj1 (Hpl j')).
        change (ms_s m) with s.
        destruct (redirected s j') as [i'|] eqn:E'; cbn [fst snd]; [|apply Hsd].
        rewrite Enb, Hnv by apply Hv.
        pose proof (redirected_ne s i j' i' Wm Hni (proj1 Hv) E').
        by replace (i' =? i) with false by lia.
      - intros j' Hj' Hne. apply Hpl. }
    apply Hfin; try done.
    by apply (release_reserved_wf sbi ((ms_h m) <| nsbi := allocated s i |>)), allocated_reserved_wf.
Qed.

(** Fields the invariant does not read. *)
Lemma set_s_inv m s' :
  move_inv m -> mpt s' = mpt (ms_s m) -> nsb s' = nsb (ms_s m) ->
  segment_map s' = segment_map (ms_s m) ->
  cur_alloc_nvm_segoff s' = cur_alloc_nvm_segoff (ms_s m) ->
  move_inv (set_s m s') /\ same_valid m (set_s m s').
Proof.
  intros [W NG Hr Hd] E1 E2 E3 E4. destruct W as [Wm F Hu Hn].
  change (ms_s (set_s m s')) with s' in *.
  assert (forall j, redirected s' j = redirected (ms_s m) j) as Hrd
    by (intros; unfold redirected; by rewrite E1, E2).
  assert (forall i off, nvm_block sbi s' i off = nvm_block sbi (ms_s m) i off) as Hnb
    by (intros; unfold nvm_block; by rewrite E2).
  split; [split|]; cbn [set_s ms_h ms_d upd].
  - split; cbn [nsbi free_i upd].
    + by apply (mpt_wf_ext sbi (ms_s m)).
    + done.
    + intros j. unfold ssd_lookup. cbn. rewrite E1, E2. by apply Hu.
    + intros i. unfold nvm_lookup. cbn. rewrite E1, E2, E3. by apply Hn.
  - destruct NG. split; cbn; by rewrite E2.
  - intros j i Hj. change (ms_s (set_s m s')) with s'. rewrite Hrd. unfold ssd_lookup.
    rewrite E1, E2. by apply Hr.
  - intros j i off Hv. change (ms_s (set_s m s')) with s'. change (ms_d (set_s m s')) with (ms_d m).
    rewrite Hrd, Hnb. unfold double. rewrite E1, E2. by apply Hd.
  - intros j off Hv Hb. change (ms_s (set_s m s')) with s'. change (ms_d (set_s m s')) with (ms_d m).
    unfold view, place. rewrite Hrd. destruct (redirected (ms_s m) j); [|done]. cbn. by rewrite Hnb.
Qed.

(** A set double flag belongs to a mapped pair. *)
Lemma double_flag_mapped s i :
  mpt_wf sbi s -> 0 <= i < main_segment_nums (nsb s) -> nz (get_double_flag s i) = true ->
  in_main sbi (get_mpt_value s i) /\ ssd_lookup s (get_mpt_value s i) = Some i /\
  double s (get_mpt_value s i) = true.
Proof.
  intros W Hi Hd. pose proof (mw_bound _ _ W). pose proof (mw_ssd_nonneg _ _ W).
  rewrite double_flag_bit in Hd by lia.
  pose proof (map_flag_lookup s i ltac:(lia)) as Hl. destruct (nz (get_map_flag s i)).
  - destruct (mw_nvm _ _ W i _ Hi Hl) as [Hj Hjl]. split_and!; try done.
    pose proof (mw_flags _ _ W i _ Hi Hl) as Hf. unfold double.
    apply (f_equal (fun z => Z.testbit z 2)) in Hf. unfold entry_flags in Hf.
    rewrite !Z.land_spec in Hf. change (Z.testbit 7 2) with true in Hf.
    rewrite !andb_true_r in Hf. by rewrite <- Hf.
  - rewrite (mw_clear _ _ W i ltac:(lia) Hl) in Hd. done.
Qed.

Section passes.
Context (valid_blocks : Z -> Z) (do_garbage_collect : mstate A -> Z -> Z * mstate A).
(** Every segment is empty or dense enough to be copied: the cleaner of
    gc.c is not called. *)
Context (Hdense : forall j, valid_blocks j = 0 \/
           u32 (bps * SEG_VALID_BLOCKS) / 100 <= valid_blocks j).

Lemma cold_victims_ok ns m c :
  move_inv m -> Forall (fun x => 0 <= seg_off x < main_segment_nums (nsb (ms_s m))) ns ->
  exists c' m', cold_victims sbi [] cur_valid_map valid_blocks gc_pages do_garbage_collect ns m c
                = Done (c', m') /\ move_inv m' /\ same_valid m m'.
Proof.
  revert m c. induction ns as [|x ns IH]; intros m c M Hns.
  { exists c, m. by split_and!. }
  apply list.Forall_cons in Hns as [Hx Hns]. cbn [cold_victims].
  change (nsbi (ms_h m)) with (ms_s m).
  destruct (sec_usage_check _ _); [by apply IH|].
  pose proof (hf_mpt _ _ (mi_wf m M)) as Wm. change (nsbi (ms_h m)) with (ms_s m) in Wm.
  destruct (nz (get_double_flag (ms_s m) (seg_off x))) eqn:Ed.
  - destruct (double_flag_mapped _ _ Wm Hx Ed) as (Hj & Hl & Hdb).
    set (j := get_mpt_value (ms_s m) (seg_off x)) in *.
    destruct (unset_mirrored m j (seg_off x) false M Hj Hl) as (M1 & S1 & E1);
      [by apply double_mirrored|].
    set (m1 := m <| ms_h ::= fun h => cold_done h j false |>) in *.
    destruct (IH m1 (fst (fst c), snd (fst c), snd c + 1) M1) as (c' & m' & E & M' & S').
    { rewrite E1. done. }
    exists c', m'. split; [exact E|]. split; [done|]. by eapply same_valid_trans.
  - destruct (Hdense (get_mpt_value (ms_s m) (seg_off x))) as [->|Hv]; [by apply IH|].
    destruct (Z.eqb_spec (valid_blocks (get_mpt_value (ms_s m) (seg_off x))) 0); [by apply IH|].
    replace (valid_blocks (get_mpt_value (ms_s m) (seg_off x)) <? _) with false by lia.
    destruct (do_cold_ok m (seg_off x) false M Hx) as (m1 & -> & M1 & S1 & E1). cbn [obind].
    destruct (IH m1 (fst (fst c) + 1, snd (fst c), snd c) M1) as (c' & m' & E & M' & S').
    { by rewrite E1. }
    exists c', m'. split; [exact E|]. split; [done|]. by eapply same_valid_trans.
Qed.

Lemma precold_victims_ok ns m c :
  move_inv m -> Forall (fun x => 0 <= seg_off x < main_segment_nums (nsb (ms_s m))) ns ->
  exists c' m', precold_victims sbi [] cur_valid_map gc_pages ns m c = Done (c', m') /\
    move_inv m' /\ same_valid m m'.
Proof.
  revert m c. induction ns as [|x ns IH]; intros m c M Hns.
  { exists c, m. by split_and!. }
  apply list.Forall_cons in Hns as [Hx Hns]. cbn [precold_victims].
  destruct (sec_usage_check _ _); [by apply IH|].
  destruct (do_cold_ok m (seg_off x) true M Hx) as (m1 & -> & M1 & S1 & E1). cbn [obind].
  destruct (IH m1 (c + 1) M1) as (c' & m' & E & M' & S'); [by rewrite E1|].
  exists c', m'. split; [exact E|]. split; [done|]. by eapply same_valid_trans.
Qed.

Lemma hot_segments_ok ns m ret :
  move_inv m -> NoDup (seg_off <$> ns) ->
  Forall (fun x => in_main sbi (seg_off x) /\ ssd_lookup (ms_s m) (seg_off x) = None) ns ->
  exists r m', hot_segments sbi cur_valid_map gc_pages ns m ret = Done (r, m') /\
    move_inv m' /\ same_valid m m'.
Proof.
  revert m ret. induction ns as [|x ns IH]; intros m ret M Hnd Hns.
  { exists ret, m. by split_and!. }
  apply list.Forall_cons in Hns as [[Hx Hl] Hns]. cbn in Hnd.
  apply list.NoDup_cons in Hnd as [Hnin Hnd]. rewrite hot_segments_cons.
  destruct (sec_usage_check _ _); [by apply IH|].
  destruct (hot_one_ok m (seg_off x) M Hx Hl) as (q & m1 & -> & M1 & S1 & L1). cbn [obind fst snd].
  destruct q as [n|]; [|by exists ret, m1].
  destruct (IH m1 (ret + n) M1 Hnd) as (r & m' & E & M' & S').
  { rewrite list.Forall_forall in Hns |- *. intros y Hy. destruct (Hns y Hy) as [Hy1 Hy2].
    split; [done|]. rewrite L1; [done|done|]. intros Heq. apply Hnin. rewrite <- Heq.
    by apply list_elem_of_fmap_2. }
  exists r, m'. split; [exact E|]. split; [done|]. by eapply same_valid_trans.
Qed.
End passes.
End preserve.

(** ** Theorems *)

(** C25. Moving cold segments to the SSD ends without a BUG_ON, keeps every valid block
    readable and the state consistent: double segments are dropped, dense ones copied
    first.  This holds for a mover that nobody disturbs, for segments without a run of
    valid blocks longer than one bio ([runs_fit]) that are empty or dense, so that
    do_garbage_collect is not called, and as long as the double segments are the same on
    both devices ([move_inv]; [double_write_lost] breaks that). *)
Theorem cold_victims_preserve {F : F2fsFormat} {FO : F2fsFormatOk} {A} {I : Inhabited A}
    {L : BlockLayer A} sbi vmap (pages : list A) max vb gc ns m c :
  geom_wf sbi -> blocks_per_seg sbi <= zlen pages ->
  roomy (A := A) max -> (forall j, in_main sbi j -> runs_fit sbi (vmap j) max) ->
  (forall j, vb j = 0 \/ u32 (blocks_per_seg sbi * SEG_VALID_BLOCKS) / 100 <= vb j) ->
  move_inv sbi vmap m ->
  Forall (fun x => 0 <= seg_off x < main_segment_nums (nsb (ms_s m))) ns ->
  exists c' m', cold_victims sbi [] vmap vb pages gc ns m c = Done (c', m') /\
    move_inv sbi vmap m' /\ same_valid sbi vmap m m'.
Proof. intros G Hp R Hf Hd M Hn. by apply (cold_victims_ok sbi G vmap pages max). Qed.

(** C24. Migrating hot segments to the NVM ends without a BUG_ON, keeps every valid block
    readable and the state consistent, whatever the heaps, the free space and the active
    logs are.  This holds for a mover that nobody disturbs, for segments without a run of
    valid blocks longer than one bio ([runs_fit]), and as long as the double segments are
    the same on both devices ([move_inv]). *)
Theorem hot_to_nvm_preserves {F : F2fsFormat} {FO : F2fsFormatOk} {S : BitSearch} {SO : BitSearchOk}
    {A} {I : Inhabited A} {L : BlockLayer A} sbi vmap (pages : list A) max m :
  geom_wf sbi -> blocks_per_seg sbi <= zlen pages ->
  roomy (A := A) max -> (forall j, in_main sbi j -> runs_fit sbi (vmap j) max) ->
  move_inv sbi vmap m -> heap_wf min_before (minh (ms_s m)) -> 0 < heap_k (minh (ms_s m)) ->
  exists ret m', hot_to_nvm sbi vmap pages m = Done (ret, m') /\
    move_inv sbi vmap m' /\ same_valid sbi vmap m m'.
Proof.
  intros G Hp R Hfit M Hw Hk. unfold hot_to_nvm.
  destruct (has_not_enough_free_nvm_secs (ms_s m)); [by eexists _, m|].
  pose proof (hf_mpt _ _ (mi_wf _ _ m M)) as Wm.
  destruct (get_min_k_ok sbi (ms_s m) (reset_min_heap (minh (ms_s m))) Wm)
    as (r & h & -> & _ & _ & _ & Hnd & Hin & _); [by apply reset_heap_wf|done|done|].
  cbn [obind fst snd].
  set (m1 := set_s m ((ms_s m) <| minh := h |>)).
  destruct (set_s_inv sbi vmap m ((ms_s m) <| minh := h |>) M) as [M1 S1]; [done..|]. fold m1 in M1, S1.
  destruct (r =? - ENOHOT); [by eexists _, m1|].
  set (s2 := (ms_s m1) <| minh ::= _ |>).
  destruct (set_s_inv sbi vmap m1 s2 M1) as [M2 S2]; [done..|].
  set (m2 := set_s m1 s2) in *.
  destruct (negb _); [eexists _, m2; split; [done|]; split; [done|by eapply same_valid_trans]|].
  destruct (hot_segments_ok sbi G vmap pages max R Hp Hfit (elems (minh (ms_s m2))) m2 r M2)
    as (r' & m' & E & M' & S'); [exact Hnd| |].
  - apply list.Forall_forall. intros x Hx. destruct (Hin x Hx) as (Hj & Hl & _). by split.
  - exists r', m'. split; [exact E|]. split; [done|].
    eapply same_valid_trans; [exact S1|]. by eapply same_valid_trans.
Qed.

(** C26. The pre-migration of cold segments ends without a BUG_ON, keeps every valid
    block readable on the place it is read from, and the state consistent; the segments it
    marks double are then the same on both devices.  This holds for a mover that nobody
    disturbs, for segments without a run of valid blocks longer than one bio
    ([runs_fit]), and as long as the segments that were double before are the same on both
    devices ([move_inv]). *)
Theorem precold_to_ssd_preserves {F : F2fsFormat} {FO : F2fsFormatOk} {S : BitSearch} {SO : BitSearchOk}
    {A} {I : Inhabited A} {L : BlockLayer A} sbi vmap (pages : list A) max m :
  geom_wf sbi -> blocks_per_seg sbi <= zlen pages ->
  roomy (A := A) max -> (forall j, in_main sbi j -> runs_fit sbi (vmap j) max) ->
  move_inv sbi vmap m -> heap_wf max_before (mh (ms_s m)) -> 0 < heap_k (mh (ms_s m)) ->
  exists ret m', precold_to_ssd sbi [] vmap pages m = Done (ret, m') /\
    move_inv sbi vmap m' /\ same_valid sbi vmap m m'.
Proof.
  intros G Hp R Hfit M Hw Hk. unfold precold_to_ssd.
  pose proof (hf_mpt _ _ (mi_wf _ _ m M)) as Wm. change (nsbi (ms_h m)) with (ms_s m) in Wm.
  pose proof (mw_bound _ _ Wm). pose proof (mw_ssd_nonneg _ _ Wm). pose proof (mw_nvm_nonneg _ _ Wm).
  rewrite s32_id by lia.
  destruct (get_max_k_ok sbi (ms_s m) (reset_max_heap (mh (ms_s m))) true Wm)
    as (r & h & -> & _ & _ & _ & Hnd & Hin & _); [by apply reset_heap_wf|done|done|].
  cbn [obind fst snd].
  set (m1 := set_s m ((ms_s m) <| mh := h |>)).
  destruct (set_s_inv sbi vmap m ((ms_s m) <| mh := h |>) M) as [M1 S1]; [done..|]. fold m1 in M1, S1.
  destruct (_ || _); [by eexists _, m1|]. destruct (_ <=? _); [by eexists _, m1|].
  destruct (precold_victims_ok sbi G vmap pages max R Hp Hfit (elems h) m1 0 M1) as (r' & m' & E & M' & S').
  - apply list.Forall_forall. intros x Hx. by destruct (Hin x Hx) as (Hi & _).
  - exists r', m'. split; [exact E|]. split; [done|]. by eapply same_valid_trans.
Qed.

(** ** A concrete device: SSD segment 2 mapped to NVM segment 0, SSD segment 3
    in use on the SSD and read often *)
#[local] Existing Instances linux_format linux_format_ok scan_search scan_search_ok.

Definition mig_hoit : hoit :=
  match (h <-- curseg_alloc demo_sbi demo_hoit 2 true ;; curseg_alloc demo_sbi h 3 false) with
  | Done h => h
  | _ => demo_hoit
  end.
Definition mig_vmap : Z -> list Z := fun _ => [255].
Definition mig_start : mstate Z := mk_ms mig_hoit (fun dev b => if decide (dev = nbdev) then 100 + b else b).
Definition mig_demo : mstate Z :=
  set_s mig_start ((set_lfu (ms_s mig_start) 3 60) <| minh := init_min_heap 1 |>
                     <| mh := init_max_heap 1 |>).

Lemma mig_hoit_wf : hoit_wf demo_sbi mig_hoit.
Proof.
  unfold mig_hoit.
  destruct (curseg_alloc_wf demo_sbi demo_hoit 2 true demo_hoit_wf) as (h & E & W);
    [unfold in_main; cbn; lia|done|]. rewrite E. cbn [obind].
  destruct (curseg_alloc_wf demo_sbi h 3 false W) as (h2 & E2 & W2);
    [unfold in_main; cbn; lia| |by rewrite E2].
  vm_compute in E. injection E as <-. reflexivity.
Qed.
Lemma demo_segments j : in_main demo_sbi j -> j = 0 \/ j = 1 \/ j = 2 \/ j = 3.
Proof. unfold in_main. cbn. lia. Qed.
Lemma mig_demo_inv : move_inv demo_sbi mig_vmap mig_demo.
Proof.
  assert (move_inv demo_sbi mig_vmap mig_start) as M.
  { split.
    - exact mig_hoit_wf.
    - split; vm_compute; done.
    - intros j i Hj. destruct (demo_segments j Hj) as [->|[->|[->| ->]]]; vm_compute; done.
    - intros j i off [Hj _] _ Hd. exfalso.
      destruct (demo_segments j Hj) as [->|[->|[->| ->]]]; vm_compute in Hd; discriminate Hd. }
  by apply (set_s_inv demo_sbi mig_vmap mig_start).
Qed.
Lemma demo_roomy : roomy (A := Z) 256.
Proof. intros b Hb. unfold bio_full, demo_layer. cbn in Hb. lia. Qed.
Lemma demo_fit j : in_main demo_sbi j -> runs_fit demo_sbi (mig_vmap j) 256.
Proof. intros _ st len Hs Hl He _. cbn in He. lia. Qed.

Lemma cold_victims_preserve_witness :
  exists c' m', cold_victims demo_sbi [] mig_vmap (fun _ => 4) [0; 0; 0; 0] (fun m _ => (0, m))
      [mk_heap_node 0 0] mig_demo (0, 0, 0) = Done (c', m') /\
    same_valid demo_sbi mig_vmap mig_demo m' /\
    ssd_lookup (ms_s m') 2 = None /\ ms_d m' s_bdev 26 = 126.
Proof.
  destruct (cold_victims_preserve demo_sbi mig_vmap [0; 0; 0; 0] 256 (fun _ => 4) (fun m _ => (0, m))
    [mk_heap_node 0 0] mig_demo (0, 0, 0) demo_geom_wf ltac:(by vm_compute) demo_roomy demo_fit)
    as (c' & m' & E & _ & Hs); [|exact mig_demo_inv| |].
  - intros _. right. vm_compute. discriminate.
  - constructor; [vm_compute; split; done|constructor].
  - exists c', m'. split; [exact E|]. split; [exact Hs|].
    vm_compute in E. injection E as _ <-. split; reflexivity.
Defined.

Lemma hot_to_nvm_preserves_witness :
  exists ret m', hot_to_nvm demo_sbi mig_vmap [0; 0; 0; 0] mig_demo = Done (ret, m') /\
    same_valid demo_sbi mig_vmap mig_demo m' /\
    ret = 1 /\ ssd_lookup (ms_s m') 3 = Some 1 /\ ms_d m' nbdev 29 = 29.
Proof.
  destruct (hot_to_nvm_preserves demo_sbi mig_vmap [0; 0; 0; 0] 256 mig_demo demo_geom_wf ltac:(by vm_compute) demo_roomy demo_fit)
    as (ret & m' & E & _ & Hs); [exact mig_demo_inv|by apply init_heap_wf|done|].
  exists ret, m'. split; [exact E|]. split; [exact Hs|].
  vm_compute in E. injection E as <- <-. split_and!; reflexivity.
Defined.

(** An NVM of 60 segments, of which segment 55 is mapped, far from where the allocator
    is.  The last round of hot_to_nvm moved segments with a count of 100 and more, so
    segment 55 is cold: it is copied to SSD segment 2 and marked double. *)
Definition wide_nsb : nvm_super_block :=
  demo_nsb <| main_segment_nums := 60 |> <| main_segment_free_nums := 60 |> <| mpt_entries := 64 |>.
Definition wide_hoit : hoit :=
  let h := __set_inuse demo_sbi (mk_hoit (init_nvm_sb_info demo_sbi 0 wide_nsb) demo_free) 2 in
  h <| nsbi := (create_mapping (allocated (nsbi h) 55) 2 55 3) <| cur_alloc_nvm_segoff := 0 |> |>.
Definition mig_cold : mstate Z :=
  let m := mk_ms wide_hoit (fun dev b => if decide (dev = nbdev) then 100 + b else b) in
  set_s m ((set_lfu (ms_s m) 2 10) <| minh := (init_min_heap 1) <| bound := 100 |> |> <| mh := init_max_heap 1 |>).
Lemma wide_hoit_wf : hoit_wf demo_sbi wide_hoit.
Proof.
  assert (hoit_wf demo_sbi (mk_hoit (init_nvm_sb_info demo_sbi 0 wide_nsb) demo_free)) as W0.
  { split; [apply init_mpt_wf; cbn; try done; apply linux_format_ok|apply demo_free_wf|..].
    - intros j Hj Hx. exfalso. apply Hx. destruct (demo_segments j Hj) as [->|[->|[->| ->]]]; by vm_compute.
    - intros i _. cbn. by rewrite test_bit_0. }
  destruct (set_inuse_wf demo_sbi _ 2 W0 ltac:(unfold in_main; cbn; lia) eq_refl) as [W1 Hb].
  assert (hoit_wf demo_sbi (let h := __set_inuse demo_sbi (mk_hoit (init_nvm_sb_info demo_sbi 0 wide_nsb) demo_free) 2 in
    h <| nsbi := create_mapping (allocated (nsbi h) 55) 2 55 3 |>)) as [[] F Hu Hn].
  { apply (reserve_map_wf demo_sbi _ 55 2 3 W1); try done; by vm_compute. }
  split; [split; try done; cbn; lia|done|exact Hu|exact Hn].
Qed.
Lemma mig_cold_inv : move_inv demo_sbi mig_vmap mig_cold.
Proof.
  assert (move_inv demo_sbi mig_vmap (mk_ms wide_hoit (ms_d mig_cold))) as M.
  { split.
    - exact wide_hoit_wf.
    - split; vm_compute; done.
    - intros j i Hj. destruct (demo_segments j Hj) as [->|[->|[->| ->]]]; vm_compute; done.
    - intros j i off [Hj _] _ Hd. exfalso.
      destruct (demo_segments j Hj) as [->|[->|[->| ->]]]; vm_compute in Hd; discriminate Hd. }
  by apply (set_s_inv demo_sbi mig_vmap (mk_ms wide_hoit (ms_d mig_cold))).
Qed.
Lemma precold_to_ssd_preserves_witness :
  exists ret m', precold_to_ssd demo_sbi [] mig_vmap [0; 0; 0; 0] mig_cold = Done (ret, m') /\
    same_valid demo_sbi mig_vmap mig_cold m' /\ ret = 1 /\
    double (ms_s mig_cold) 2 = false /\ double (ms_s m') 2 = true /\
    ms_d mig_cold s_bdev 26 = 26 /\ ms_d m' s_bdev 26 = 346.
Proof.
  destruct (precold_to_ssd_preserves demo_sbi mig_vmap [0; 0; 0; 0] 256 mig_cold demo_geom_wf ltac:(by vm_compute) demo_roomy demo_fit)
    as (ret & m' & E & _ & Hs); [exact mig_cold_inv|by apply init_heap_wf|done|].
  exists ret, m'. split; [exact E|]. split; [exact Hs|].
  vm_compute in E. injection E as <- <-. split_and!; reflexivity.
Defined.

(** ** What breaks the mirror of a double segment *)

(** After hot_to_nvm, segment 3 is double.  A write to one of its blocks goes
    to the NVM only (the flag stays), so when the segment is later chosen as a
    cold victim its mapping is dropped and the old content is read again. *)
Theorem double_write_lost :
  exists m1 d2 c m3,
    hot_to_nvm demo_sbi mig_vmap [0; 0; 0; 0] mig_demo = Done (1, m1) /\
    write_back demo_sbi [] 1 0 (ms_s m1) (ms_d m1) [mk_fio DATA 0 29 777] = Done (d2, ms_s m1) /\
    view demo_sbi (ms_s m1) d2 3 1 = 777 /\
    cold_victims demo_sbi [] mig_vmap (fun _ => 4) [0; 0; 0; 0] (fun m _ => (0, m))
      [mk_heap_node 0 1] (m1 <| ms_d := d2 |>) (0, 0, 0) = Done (c, m3) /\
    view demo_sbi (ms_s m3) (ms_d m3) 3 1 = 29.
Proof.
  do 4 eexists. split; [vm_compute; reflexivity|]. split; [vm_compute; reflexivity|].
  split; [vm_compute; reflexivity|]. split; [vm_compute; reflexivity|]. vm_compute. reflexivity.
Qed.

(** A volume with segments of 512 blocks. *)
Definition full_sbi : f2fs_sb_info := demo_sbi <| blocks_per_seg := 512 |> <| log_blocks_per_seg := 9 |>.

(** A segment whose valid blocks are consecutive needs one bio of its size: if
    the block layer takes at most 256 pages in a bio (BIO_MAX_PAGES), moving a
    full 512-block segment runs into f2fs_bug_on. *)
Theorem do_cold_to_ssd_full_segment :
  do_cold_to_ssd full_sbi [] (fun _ => replicate 64 255) (replicate 512 0) mig_demo 0 false = Bug.
Proof. vm_compute. reflexivity. Qed.
