(* ===== verification/Load.v ===== *)
(** * The load monitor and the placement policy ([nvm.c])

    update_aqu_sz reads /proc/diskstats and maintains the globals that use_ssd,
    nvm_alloc and the data mover consult; nvm_alloc decides whether a new log
    segment goes to the NVM. *)
From S2P Require Import Prelude Geometry Heap Mpt FreeMap Machine Redirect BlockIo F2fsBits MptFlush Migrate.
Open Scope Z_scope.

(** ** Reading lines of a file

    A file is its bytes and the position f_pos; reads are those of a regular
    file. *)
Record file := mk_file { f_data : list Z; f_pos : Z }.

Definition file_read (fp : file) (buf_len : Z) : list Z * file :=
  let got := slice (f_data fp) (f_pos fp) buf_len in
  (got, mk_file (f_data fp) (f_pos fp + zlen got)).

(** while (buf[i++] != '\n' && i < ret), from index [i]: the final [i] *)
Fixpoint line_end (buf : list Z) (i : Z) : Z :=
  match buf with
  | [] => i
  | c :: buf => if negb (c =? 10) && bool_decide (buf <> []) then line_end buf (i + 1) else i + 1
  end.

(** read_line: the bytes of [buf] before the terminating 0 *)
Definition read_line (buf_len : Z) (fp : file) : option (list Z) * file :=
  let r := file_read fp buf_len in
  let ret := zlen (fst r) in
  if ret <=? 0 then (None, snd r)
  else
    let i := line_end (fst r) 0 in
    (Some (slice (fst r) 0 i),
     if i <? ret then mk_file (f_data fp) (f_pos (snd r) + (i - ret)) else snd r).

(** ** The statistics *)

(** The variables sscanf fills from one line of diskstats; a field that is
    not converted keeps its value. *)
Record diskstat := mk_stat {
  dev_name : list Z;
  rd_sec_or_wr_ios : Z;
  wr_sec : Z;
  tot_ticks : Z;
  rq_ticks : Z;
}.

(** The globals of nvm.c *)
Record load := mk_load_state {
  pre_ssd_rq_ticks : Z;
  pre_nvm_rq_ticks : Z;
  ssd_queue : Z;               (* ssd_aqu_sz *)
  nvm_queue : Z;               (* nvm_aqu_sz *)
  pre_rd_sec : Z;
  pre_wr_sec : Z;
  load_write_ratio : Z;        (* write_ratio *)
  pre_tot_ticks_nvm : Z;
  pre_tot_ticks_ssd : Z;
  util_nvm : Z;
  util_ssd : Z;
}.
#[export] Instance eta_load : Eta load := fun l =>
  mk_load_state (pre_ssd_rq_ticks l) (pre_nvm_rq_ticks l) (ssd_queue l) (nvm_queue l)
    (pre_rd_sec l) (pre_wr_sec l) (load_write_ratio l) (pre_tot_ticks_nvm l)
    (pre_tot_ticks_ssd l) (util_nvm l) (util_ssd l).

(** The locals of update_aqu_sz that one pass over the lines changes *)
Record pass := mk_pass {
  ssd_rq_ticks : Z;
  nvm_rq_ticks : Z;
  now_wr : Z;
  now_rd : Z;
}.
#[export] Instance eta_pass : Eta pass := fun p =>
  mk_pass (ssd_rq_ticks p) (nvm_rq_ticks p) (now_wr p) (now_rd p).

Definition UTIL_COLLECT_INTERVAL : Z := 3000.
Definition LOAD_COLLECT_INTERVAL : Z := 3000.

Section monitor.
(** sscanf on a line, and the names of the two disks *)
Context (sscanf : diskstat -> list Z -> diskstat) (ssd_name nvm_name : list Z).

(** The body of the loop over the lines. *)
Definition stat_line (util_count : Z) (st : diskstat) (l : load) (p : pass) : load * pass :=
  if decide (dev_name st = ssd_name) then
    (if util_count =? 0 then
       l <| util_ssd := u32 (100 * u32 (tot_ticks st - pre_tot_ticks_ssd l)) / UTIL_COLLECT_INTERVAL |>
         <| pre_tot_ticks_ssd := tot_ticks st |>
     else l,
     p <| ssd_rq_ticks := rq_ticks st |>
       <| now_wr ::= fun n => u32 (n + wr_sec st) |>
       <| now_rd ::= fun n => u32 (n + rd_sec_or_wr_ios st) |>)
  else if decide (dev_name st = nvm_name) then
    (if util_count =? 0 then
       l <| util_nvm := u32 (100 * u32 (tot_ticks st - pre_tot_ticks_nvm l)) / UTIL_COLLECT_INTERVAL |>
         <| pre_tot_ticks_nvm := tot_ticks st |>
     else l,
     p <| nvm_rq_ticks := rq_ticks st |>
       <| now_wr ::= fun n => u32 (n + wr_sec st) |>
       <| now_rd ::= fun n => u32 (n + rd_sec_or_wr_ios st) |>)
  else (l, p).

Fixpoint stat_lines (fuel : nat) (util_count : Z) (fp : file) (st : diskstat) (l : load) (p : pass)
    : outcome (diskstat * load * pass) :=
  match fuel with
  | O => NoFuel
  | S fuel =>
      let r := read_line 256 fp in
      match fst r with
      | None => Done (st, l, p)
      | Some line =>
          let st := sscanf st line in
          let q := stat_line util_count st l p in
          stat_lines fuel util_count (snd r) st (fst q) (snd q)
      end
  end.

(** The tail of both functions: aqu_sz *)
Definition update_queues (l : load) (p : pass) : load :=
  let l := l <| ssd_queue := u32 (ssd_rq_ticks p - pre_ssd_rq_ticks l) |>
             <| nvm_queue := u32 (nvm_rq_ticks p - pre_nvm_rq_ticks l) |> in
  let l := if nz (ssd_queue l) then l <| pre_ssd_rq_ticks := ssd_rq_ticks p |> else l in
  if nz (nvm_queue l) then l <| pre_nvm_rq_ticks := nvm_rq_ticks p |> else l.

Definition update_ratio (l : load) (p : pass) : load :=
  let delt := u32 (u32 (u32 (now_wr p + now_rd p) - pre_rd_sec l) - pre_wr_sec l) in
  let l := l <| load_write_ratio :=
                  if delt =? 0 then 50
                  else u32 (100 * u32 (now_wr p - pre_wr_sec l)) / delt |> in
  l <| pre_wr_sec := now_wr p |> <| pre_rd_sec := now_rd p |>.

(** One period of update_aqu_sz; [data] is the content of diskstats.  The
    result is the new util_count, scan variables, globals and locals. *)
Definition update_aqu_sz (data : list Z) (util_count : Z) (st : diskstat) (l : load) (p : pass)
    : outcome (Z * diskstat * load * pass) :=
  let p := p <| now_wr := 0 |> <| now_rd := 0 |> in
  let util_count := (util_count + 1) mod (UTIL_COLLECT_INTERVAL / LOAD_COLLECT_INTERVAL) in
  r <-- stat_lines (S (length data)) util_count (mk_file data 0) st l p ;;
  Done (util_count, fst (fst r), update_queues (update_ratio (snd (fst r)) (snd r)) (snd r), snd r).

(** update_aqu_sz_now, whose lines only set the two rq_ticks *)
Fixpoint now_lines (fuel : nat) (fp : file) (st : diskstat) (p : pass) : outcome pass :=
  match fuel with
  | O => NoFuel
  | S fuel =>
      let r := read_line 256 fp in
      match fst r with
      | None => Done p
      | Some line =>
          let st := sscanf st line in
          now_lines fuel (snd r) st
            (if decide (dev_name st = ssd_name) then p <| ssd_rq_ticks := rq_ticks st |>
             else if decide (dev_name st = nvm_name) then p <| nvm_rq_ticks := rq_ticks st |>
             else p)
      end
  end.
Definition update_aqu_sz_now (data : list Z) (st : diskstat) (l : load) : outcome load :=
  p <-- now_lines (S (length data)) (mk_file data 0) st (mk_pass 0 0 0 0) ;;
  Done (update_queues l p).
End monitor.

(** ** nvm_alloc *)

Inductive log_type :=
| CURSEG_HOT_DATA | CURSEG_WARM_DATA | CURSEG_COLD_DATA
| CURSEG_HOT_NODE | CURSEG_WARM_NODE | CURSEG_COLD_NODE.
#[export] Instance log_type_eq_dec : EqDecision log_type.
Proof. solve_decision. Defined.

Definition low_boundary : Z := 33.
Definition space_weight : Z := 16.

(** real_low_boundary *)
Definition alloc_boundary (all used : Z) : Z :=
  if all <? u32 (2 * used)
  then u32 (low_boundary - u32 (space_weight * u32 (u32 (2 * used) - all)) / all)
  else low_boundary.

(** [update] is update_aqu_sz_now if the lock could be taken, else nothing *)
Definition nvm_alloc (s : nvm_sb_info) (update : load -> outcome load) (l : load) (type : log_type)
    : outcome (bool * load) :=
  let all := main_segment_nums (nsb s) in
  let used := u32 (all - main_segment_free_nums (nsb s)) in
  if decide (type = CURSEG_HOT_DATA \/ type = CURSEG_HOT_NODE) then Done (true, l)
  else
    l <-- update l ;;
    let local_ssd_aqu_sz := if ssd_queue l =? 0 then 1 else ssd_queue l in
    let local_nvm_aqu_sz := if nvm_queue l =? 0 then 1 else nvm_queue l in
    let ratio := u32 (100 * local_nvm_aqu_sz) / u32 (local_ssd_aqu_sz + local_nvm_aqu_sz) in
    Done (ratio <? alloc_boundary all used, l).

(** ** Lines *)

Lemma zlen_slice_min {A} (l : list A) off n :
  0 <= off -> 0 <= n -> zlen (slice l off n) = Z.max 0 (Z.min n (zlen l - off)).
Proof. intros. unfold slice, zlen. rewrite length_take, length_drop. lia. Qed.

Lemma line_end_range buf i : buf <> [] -> i < line_end buf i <= i + zlen buf.
Proof.
  revert i. induction buf as [|c buf IH]; intros i Hn; [done|]. rewrite zlen_cons.
  pose proof (zlen_nonneg buf). cbn [line_end].
  destruct (negb (c =? 10)); cbn [andb]; [|lia]. case_bool_decide; [|lia].
  specialize (IH (i + 1) ltac:(done)). lia.
Qed.

(** Before the last character of a line there is no newline; a line that does
    not use up the buffer ends with one. *)
Lemma line_end_newline buf i :
  let n := line_end buf i - i in
  (forall k, 0 <= k < n - 1 -> buf.[k] <> 10) /\ (n < zlen buf -> buf.[n - 1] = 10).
Proof.
  revert i. induction buf as [|c buf IH]; intros i n; subst n.
  { cbn [line_end]. unfold zlen. cbn [length]. split; intros; lia. }
  rewrite zlen_cons. cbn [line_end].
  destruct (Z.eqb_spec c 10) as [->|Hc]; cbn [negb andb].
  { replace (i + 1 - i) with 1 by lia. split; [intros; lia|done]. }
  case_bool_decide as Hb.
  - destruct (IH (i + 1)) as [H1 H2]. pose proof (line_end_range buf (i + 1) Hb).
    assert (forall k, 1 <= k -> (c :: buf).[k] = buf.[k - 1]) as Hs.
    { intros k Hk. unfold aget. replace (0 <=? k) with true by lia. replace (0 <=? k - 1) with true by lia.
      replace (Z.to_nat k) with (S (Z.to_nat (k - 1))) by lia. done. }
    split.
    + intros k Hk. destruct (decide (k = 0)) as [->|]; [done|]. rewrite Hs by lia. apply H1. lia.
    + intros Hn. rewrite Hs by lia. rewrite <- H2 by lia. f_equal. lia.
  - assert (zlen buf = 0) as -> by (destruct buf; [done|]; discriminate).
    split; intros; lia.
Qed.

Lemma read_line_ok len fp :
  0 < len -> 0 <= f_pos fp ->
  match read_line len fp with
  | (None, fp') => zlen (f_data fp) <= f_pos fp /\ fp' = fp
  | (Some line, fp') =>
      f_pos fp < zlen (f_data fp) /\ f_data fp' = f_data fp /\
      f_pos fp' = f_pos fp + zlen line /\ 0 < zlen line <= len /\
      line = slice (f_data fp) (f_pos fp) (zlen line) /\
      (forall k, 0 <= k < zlen line - 1 -> line.[k] <> 10) /\
      (zlen line < len -> f_pos fp' < zlen (f_data fp) -> line.[zlen line - 1] = 10)
  end.
Proof.
  intros Hl Hp. destruct fp as [data pos]. cbn [f_pos f_data] in *.
  unfold read_line, file_read. cbn [fst snd f_pos f_data].
  set (got := slice data pos len).
  assert (zlen got = Z.max 0 (Z.min len (zlen data - pos))) as Eg by (apply zlen_slice_min; lia).
  destruct (Z.leb_spec (zlen got) 0).
  { split; [lia|]. f_equal. pose proof (zlen_nonneg got). lia. }
  assert (got <> []) as Hn by (intros E; assert (zlen got = 0) by (by rewrite E); lia).
  pose proof (line_end_range got 0 Hn) as Hr. destruct (line_end_newline got 0) as [N1 N2].
  rewrite Z.sub_0_r in N1, N2. set (i := line_end got 0) in *.
  assert (zlen (slice got 0 i) = i) as Ei by (rewrite zlen_slice_min; lia).
  assert (forall k, 0 <= k < i -> (slice got 0 i).[k] = got.[k]) as Hk.
  { intros k Hk. unfold slice. rewrite drop_0. apply aget_lookup; [lia|].
    rewrite lookup_take_lt by lia. apply lookup_aget. lia. }
  rewrite Ei. split_and!; try lia.
  - by destruct (i <? zlen got).
  - destruct (Z.ltb_spec i (zlen got)); cbn [f_pos]; lia.
  - unfold got, slice. rewrite !drop_0, take_take. f_equal. lia.
  - intros k Hlt. rewrite Hk by lia. apply N1. lia.
  - intros Hlt Hd. rewrite Hk by lia. apply N2.
    destruct (Z.ltb_spec i (zlen got)); cbn [f_pos] in Hd; lia.
Qed.

Section monitor_proofs.
Context (sscanf : diskstat -> list Z -> diskstat) (ssd_name nvm_name : list Z).

Definition pass_ok (p : pass) : Prop :=
  0 <= now_wr p < 4294967296 /\ 0 <= now_rd p < 4294967296.

Lemma stat_line_ok uc st l p :
  pass_ok p ->
  let q := stat_line ssd_name nvm_name uc st l p in
  pass_ok (snd q) /\ pre_wr_sec (fst q) = pre_wr_sec l /\ pre_rd_sec (fst q) = pre_rd_sec l.
Proof.
  intros Hp q. subst q. unfold stat_line.
  destruct (decide _); [|destruct (decide _); [|done]].
  all: split; [split; apply u32_range|]; by destruct (uc =? 0).
Qed.

(** The lines end: each one moves the position. *)
Lemma stat_lines_ok n uc fp st l p :
  0 <= f_pos fp <= zlen (f_data fp) -> zlen (f_data fp) - f_pos fp < Z.of_nat n -> pass_ok p ->
  exists st' l' p', stat_lines sscanf ssd_name nvm_name n uc fp st l p = Done (st', l', p') /\
    pass_ok p' /\ pre_wr_sec l' = pre_wr_sec l /\ pre_rd_sec l' = pre_rd_sec l.
Proof.
  revert fp st l p. induction n as [|n IH]; intros fp st l p Hf Hn Hp; [lia|]. cbn [stat_lines].
  pose proof (read_line_ok 256 fp ltac:(lia) ltac:(lia)) as R.
  destruct (read_line 256 fp) as [[line|] fp']; cbn [fst snd]; [|by eexists _, _, _].
  destruct R as (Hlt & Ed & Ep & Hl & Eline & _).
  destruct (stat_line_ok uc (sscanf st line) l p Hp) as (Hp' & Ew & Er).
  assert (f_pos fp' <= zlen (f_data fp')) as Hle.
  { rewrite Ed, Ep. rewrite Eline. rewrite zlen_slice_min; lia. }
  edestruct (IH fp' (sscanf st line)) as (st' & l' & p' & E & Hq & Ew' & Er');
    [|rewrite Ed in *; lia|exact Hp'|]; [lia|].
  exists st', l', p'. split; [exact E|]. rewrite Ew', Er'. done.
Qed.
Lemma now_lines_ok n fp st p :
  0 <= f_pos fp <= zlen (f_data fp) -> zlen (f_data fp) - f_pos fp < Z.of_nat n ->
  exists p', now_lines sscanf ssd_name nvm_name n fp st p = Done p'.
Proof.
  revert fp st p. induction n as [|n IH]; intros fp st p Hf Hn; [lia|]. cbn [now_lines].
  pose proof (read_line_ok 256 fp ltac:(lia) ltac:(lia)) as R.
  destruct (read_line 256 fp) as [[line|] fp']; cbn [fst snd]; [|by eexists].
  destruct R as (Hlt & Ed & Ep & Hl & Eline & _).
  assert (f_pos fp' <= zlen (f_data fp')) as Hle.
  { rewrite Ed, Ep. rewrite Eline. rewrite zlen_slice_min; lia. }
  apply IH; rewrite ?Ed in *; lia.
Qed.
End monitor_proofs.

Lemma update_queues_same l p :
  load_write_ratio (update_queues l p) = load_write_ratio l /\
  pre_wr_sec (update_queues l p) = pre_wr_sec l /\ pre_rd_sec (update_queues l p) = pre_rd_sec l.
Proof. unfold update_queues. by do 2 destruct (nz _). Qed.

Lemma sleep_time_ok wr un us : 0 <= wr <= 100 -> 50 <= sleep_time wr un us <= 1100.
Proof.
  intros Hw. unfold sleep_time, MIN_SLEEP_TIME, SLEEP_TIME_EXP.
  assert (0 <= 1000 * wr / 100 <= 1000) by dlia.
  rewrite (u32_id (1000 * wr)) by lia. rewrite u32_id by lia.
  destruct (_ && _); dlia.
Qed.

(** ** Theorems *)

(** read_line cuts a file into its lines: every call returns the next bytes,
    ends at the first newline (or at the end of the buffer or of the file), and
    moves the position past them; nothing is read twice or skipped. *)
Theorem read_line_spec len fp :
  0 < len -> 0 <= f_pos fp ->
  match read_line len fp with
  | (None, fp') => zlen (f_data fp) <= f_pos fp /\ fp' = fp
  | (Some line, fp') =>
      f_pos fp < zlen (f_data fp) /\ f_data fp' = f_data fp /\
      f_pos fp' = f_pos fp + zlen line /\ 0 < zlen line <= len /\
      line = slice (f_data fp) (f_pos fp) (zlen line) /\
      (forall k, 0 <= k < zlen line - 1 -> line.[k] <> 10) /\
      (zlen line < len -> f_pos fp' < zlen (f_data fp) -> line.[zlen line - 1] = 10)
  end.
Proof. apply read_line_ok. Qed.
Lemma read_line_spec_witness :
  let fp := mk_file [65; 10; 66; 10] 0 in
  read_line 256 fp = (Some [65; 10], mk_file [65; 10; 66; 10] 2) /\ zlen [65; 10] <= 256.
Proof.
  intros fp. split; [reflexivity|]. apply (read_line_spec 256 fp); cbn; lia.
Defined.

(** The monitor reads any diskstats to its end.  As long as the sector counters
    of the disks do not go back, the write ratio is a percentage (50 when idle),
    even if its product wraps around, and the mover sleeps 50 to 1100 ms. *)
Theorem update_aqu_sz_ratio sscanf ssd_name nvm_name data uc st l p :
  0 <= pre_wr_sec l -> 0 <= pre_rd_sec l ->
  exists uc' st' l' p', update_aqu_sz sscanf ssd_name nvm_name data uc st l p = Done (uc', st', l', p') /\
    (pre_wr_sec l <= now_wr p' -> pre_rd_sec l <= now_rd p' -> now_wr p' + now_rd p' < 4294967296 ->
     0 <= load_write_ratio l' <= 100 /\
     (now_wr p' = pre_wr_sec l -> now_rd p' = pre_rd_sec l -> load_write_ratio l' = 50) /\
     pre_wr_sec l' = now_wr p' /\ pre_rd_sec l' = now_rd p' /\
     50 <= sleep_time (load_write_ratio l') (util_nvm l') (util_ssd l') <= 1100).
Proof.
  intros Hw Hr. unfold update_aqu_sz.
  destruct (stat_lines_ok sscanf ssd_name nvm_name (S (length data))
    ((uc + 1) mod (UTIL_COLLECT_INTERVAL / LOAD_COLLECT_INTERVAL)) (mk_file data 0) st l
    (p <| now_wr := 0 |> <| now_rd := 0 |>)) as (st' & l' & p' & -> & [Pw Pr] & Ew & Er).
  { cbn. unfold zlen. lia. }
  { cbn [f_data f_pos]. unfold zlen. lia. }
  { split; cbn; lia. }
  cbn [obind fst snd]. eexists _, st', _, p'. split; [done|]. intros Mw Mr Hs.
  destruct (update_queues_same (update_ratio l' p') p') as (-> & -> & ->).
  assert (0 <= load_write_ratio (update_ratio l' p') <= 100 /\
    (now_wr p' = pre_wr_sec l -> now_rd p' = pre_rd_sec l ->
     load_write_ratio (update_ratio l' p') = 50)) as [H1 H2].
  { unfold update_ratio. cbn [load_write_ratio upd]. rewrite Ew, Er.
    rewrite (u32_id (now_wr p' + now_rd p')), (u32_id (_ - pre_rd_sec l)), (u32_id (_ - _ - _)),
      (u32_id (now_wr p' - _)) by lia.
    destruct (Z.eqb_spec (now_wr p' + now_rd p' - pre_rd_sec l - pre_wr_sec l) 0); [split; [lia|done]|].
    split; [|intros; lia].
    pose proof (u32_range (100 * (now_wr p' - pre_wr_sec l))).
    assert (u32 (100 * (now_wr p' - pre_wr_sec l)) <= 100 * (now_wr p' - pre_wr_sec l))
      by (apply Z.mod_le; lia).
    split; [apply Z.div_pos; lia|]. apply Z.div_le_upper_bound; lia. }
  split_and!; try done; try lia; by apply sleep_time_ok.
Qed.
Lemma update_aqu_sz_ratio_witness :
  exists uc' st' l' p',
    update_aqu_sz (fun _ line => mk_stat (take 1 line) 30 10 5 7) [65] [66] [65; 10; 66; 10] 0
      (mk_stat [] 0 0 0 0) (mk_load_state 0 0 0 0 30 10 0 0 0 0 0) (mk_pass 0 0 0 0)
    = Done (uc', st', l', p') /\ load_write_ratio l' <= 100.
Proof.
  destruct (update_aqu_sz_ratio (fun _ line => mk_stat (take 1 line) 30 10 5 7) [65] [66] [65; 10; 66; 10] 0
    (mk_stat [] 0 0 0 0) (mk_load_state 0 0 0 0 30 10 0 0 0 0 0) (mk_pass 0 0 0 0))
    as (uc' & st' & l' & p' & E & H); [cbn; lia..|].
  exists uc', st', l', p'. split; [exact E|].
  vm_compute in E. injection E as <- <- <- <-. apply H; vm_compute; done.
Defined.

Lemma alloc_boundary_ok all used :
  0 <= used <= all -> all < 268435456 ->
  alloc_boundary all used = low_boundary - (if all <? 2 * used then space_weight * (2 * used - all) / all else 0)
  /\ 17 <= alloc_boundary all used <= 33.
Proof.
  intros Hu Ha. unfold alloc_boundary, low_boundary, space_weight. rewrite (u32_id (2 * used)) by lia.
  destruct (Z.ltb_spec all (2 * used)); [|lia].
  rewrite (u32_id (2 * used - all)), (u32_id (16 * _)) by lia.
  assert (0 <= 16 * (2 * used - all) / all <= 16)
    by (split; [apply Z.div_pos|apply Z.div_le_upper_bound]; lia).
  rewrite u32_id by lia. lia.
Qed.

(** The placement policy: hot logs always go to the NVM; the others do when
    the share of the NVM in the queued work is below a boundary between 17 and
    33 percent, which falls as the NVM fills up.  (Queue lengths are those of
    one period; their product with 100 must not wrap around.) *)
Theorem nvm_alloc_spec sbi s update l type :
  mpt_wf sbi s ->
  (forall l, exists l', update l = Done l' /\ 0 <= ssd_queue l' < 42949672 /\ 0 <= nvm_queue l' < 42949672) ->
  exists b l', nvm_alloc s update l type = Done (b, l') /\
    let all := main_segment_nums (nsb s) in
    let used := all - main_segment_free_nums (nsb s) in
    let boundary := alloc_boundary all used in
    17 <= boundary <= 33 /\
    (type = CURSEG_HOT_DATA \/ type = CURSEG_HOT_NODE -> b = true /\ l' = l) /\
    (type <> CURSEG_HOT_DATA -> type <> CURSEG_HOT_NODE ->
     update l = Done l' /\
     (b = true <-> 100 * Z.max 1 (nvm_queue l') < boundary * (Z.max 1 (ssd_queue l') + Z.max 1 (nvm_queue l')))).
Proof.
  intros W Hup. pose proof (mpt_wf_free_range _ _ W) as Hf. pose proof (mw_bound _ _ W).
  pose proof (mw_ssd_nonneg _ _ W). unfold nvm_alloc.
  rewrite (u32_id (main_segment_nums (nsb s) - main_segment_free_nums (nsb s))) by lia.
  set (all := main_segment_nums (nsb s)) in *. set (used := all - main_segment_free_nums (nsb s)).
  destruct (alloc_boundary_ok all used ltac:(subst used; lia) ltac:(lia)) as [_ Hb].
  destruct (decide _) as [Ht|Ht].
  { exists true, l. split_and!; try done; try lia; intros; by destruct Ht. }
  destruct (Hup l) as (l' & -> & Hs & Hn). cbn [obind]. eexists _, l'. split; [done|].
  split_and!; [lia|lia|intros ?; by destruct Ht|]. intros _ _. split; [done|].
  assert (forall q, 0 <= q -> (if q =? 0 then 1 else q) = Z.max 1 q) as Hmax
    by (intros q; destruct (Z.eqb_spec q 0); lia).
  rewrite !Hmax by lia. rewrite !u32_id by lia.
  set (sq := Z.max 1 (ssd_queue l')) in *. set (nq := Z.max 1 (nvm_queue l')) in *.
  assert (0 < sq + nq) by lia. rewrite Z.ltb_lt.
  split; intros Hlt.
  - pose proof (Z.mul_succ_div_gt (100 * nq) (sq + nq) ltac:(lia)). nia.
  - apply Z.div_lt_upper_bound; lia.
Qed.
#[local] Existing Instances linux_format linux_format_ok scan_search scan_search_ok.
Lemma nvm_alloc_spec_witness :
  exists b l', nvm_alloc (nsbi demo_hoit) Done (mk_load_state 0 0 3 1 0 0 0 0 0 0 0) CURSEG_WARM_DATA
    = Done (b, l') /\ b = true.
Proof.
  set (l := mk_load_state 0 0 3 1 0 0 0 0 0 0 0).
  destruct (nvm_alloc_spec demo_sbi (nsbi demo_hoit) (fun _ => Done l) l CURSEG_WARM_DATA
    (hf_mpt _ _ demo_hoit_wf)) as (b & l' & E & _ & _ & H).
  { intros l0. exists l. split; [done|]. cbn. lia. }
  destruct H as [E' H]; [done|done|]. injection E' as <-.
  exists b, l. split; [exact E|]. apply H. vm_compute. done.
Defined.
