(* ===== verification/Curseg.v ===== *)
(** * Log heads and segment allocation ([segment.c])

    get_new_segment chooses a free segment for a log, new_curseg and
    change_curseg open a free or a partly used segment (and place a free one on
    the NVM when nvm_alloc says so), and f2fs_allocate_data_block allocates the
    next block of a log.  Victim selection is used through the function pointer
    struct victim_selection, here a class. *)
From S2P Require Import Prelude Geometry Heap Mpt FreeMap Machine Redirect BlockIo F2fsBits MptFlush RevBits Sit Victim Load.
Open Scope Z_scope.

(** Constants of [<linux/f2fs_fs.h>] *)
Class SumFormat := { SUM_TYPE_NODE : Z; SUM_TYPE_DATA : Z }.

Definition ALLOC_RIGHT : Z := 0.
Definition ALLOC_LEFT : Z := 1.
Definition NR_CURSEG_TYPE : Z := 6.

(** A summary block: its entries (as bytes) and footer; the journal is not
    kept here but in the log. *)
Record summary_block := mk_sum { sum_entries : list (list Z); entry_type : Z; check_sum : Z }.
#[export] Instance eta_sum : Eta summary_block := fun b => mk_sum (sum_entries b) (entry_type b) (check_sum b).
#[export] Instance sum_inhabited : Inhabited summary_block := populate (mk_sum [] 0 0).

Record curseg_info := mk_curseg {
  sum_blk : summary_block;
  alloc_type : Z;           (* LFS or SSR *)
  segno : Z;
  next_blkoff : Z;          (* 16 bits *)
  zone : Z;
  next_segno : Z;
}.
#[export] Instance eta_curseg : Eta curseg_info := fun c =>
  mk_curseg (sum_blk c) (alloc_type c) (segno c) (next_blkoff c) (zone c) (next_segno c).
#[export] Instance curseg_inhabited : Inhabited curseg_info := populate (mk_curseg inhabitant 0 0 0 0 0).

(** Mount options, superblock fields and page counters the allocator reads. *)
Record alloc_conf := mk_aconf {
  gconf : gc_conf;
  secs_per_zone : Z;
  ssa_blkaddr : Z;
  opt_lfs : bool;
  alloc_mode_reuse : bool;      (* alloc_mode == ALLOC_MODE_REUSE *)
  cp_crc_recovery : bool;       (* CP_CRC_RECOVERY_FLAG in the checkpoint *)
  min_ssr_sections : Z;
  reserved_sections : Z;
  dirty_nodes : Z;              (* get_pages(F2FS_DIRTY_NODES), ... *)
  dirty_dents : Z;
  dirty_imeta : Z;
}.

#[export] Instance eta_aconf : Eta alloc_conf := fun c =>
  mk_aconf (gconf c) (secs_per_zone c) (ssa_blkaddr c) (opt_lfs c) (alloc_mode_reuse c) (cp_crc_recovery c)
    (min_ssr_sections c) (reserved_sections c) (dirty_nodes c) (dirty_dents c) (dirty_imeta c).

(** The allocator: cleaning state (superblock info, SIT, dirty lists), the logs,
    the free maps with the NVM mapping, the summary area, the load monitor.
    [curseg_segno] of the superblock info is the [segno] column of the logs. *)
Record allocator := mk_alloc {
  gst : gc_state;
  cursegs : list curseg_info;
  hs : hoit;
  ssa : Z -> summary_block;
  ld : load;
}.
#[export] Instance eta_alloc : Eta allocator := fun a => mk_alloc (gst a) (cursegs a) (hs a) (ssa a) (ld a).

(** struct victim_selection: the operation and what SSR relies on *)
Class VictimSelection := {
  get_victim : gc_conf -> gc_state -> Z -> Z -> Z -> Z -> outcome (bool * Z * gc_state);
}.

(** ** get_new_segment *)

Section new_segment.
Context `{BitSearch}.
Context (cf : alloc_conf) (sbi : f2fs_sb_info) (zones : list Z).

Definition GET_ZONE_FROM_SEC (secno : Z) : Z := secno / secs_per_zone cf.
Definition GET_ZONE_FROM_SEG (seg : Z) : Z := GET_ZONE_FROM_SEC (GET_SEC_FROM_SEG sbi seg).
#[local] Abbreviation secs := (MAIN_SECS (gconf cf)).

(** The [while] that walks left over sections in use. *)
Fixpoint walk_left (fuel : nat) (secmap left_start : Z) : outcome Z :=
  match fuel with
  | O => NoFuel
  | S fuel =>
      if test_bit left_start secmap then
        if 0 <? left_start then walk_left fuel secmap (left_start - 1)
        else
          let l := find_next_zero_bit secmap secs 0 in
          if secs <=? l then Bug else Done l
      else Done left_start
  end.

(** From [find_other_zone] to [skip_left]: the section, go_left and left_start *)
Definition find_section (secmap hint dir : Z) (go_left : bool) (left_start : Z) : outcome (Z * bool * Z) :=
  let secno := find_next_zero_bit secmap secs hint in
  r <-- (if secs <=? secno then
           if dir =? ALLOC_RIGHT then
             let secno := find_next_zero_bit secmap secs 0 in
             if secs <=? secno then Bug else Done (secno, go_left, left_start)
           else Done (secno, true, u32 (hint - 1))
         else Done (secno, go_left, left_start)) ;;
  let go_left := snd (fst r) in
  let left_start := snd r in
  if negb go_left then Done r
  else l <-- walk_left (S (Z.to_nat left_start)) secmap left_start ;; Done (l, go_left, l).

(** The loop through [find_other_zone]; the second pass has [init] false. *)
Fixpoint other_zone (fuel : nat) (init : bool) (secmap old_zoneno hint dir : Z) (go_left : bool) (left_start : Z)
    : outcome Z :=
  match fuel with
  | O => NoFuel
  | S fuel =>
      r <-- find_section secmap hint dir go_left left_start ;;
      let secno := fst (fst r) in
      let go_left := snd (fst r) in
      let left_start := snd r in
      let seg := GET_SEG_FROM_SEC sbi secno in
      let zoneno := GET_ZONE_FROM_SEC secno in
      let total_zones := secs / secs_per_zone cf in
      if negb init then Done seg
      else if secs_per_zone cf =? 1 then Done seg
      else if zoneno =? old_zoneno then Done seg
      else if (dir =? ALLOC_LEFT) && negb go_left && (total_zones <=? zoneno + 1) then Done seg
      else if (dir =? ALLOC_LEFT) && go_left && (zoneno =? 0) then Done seg
      else if existsb (fun z => z =? zoneno) zones then
        let hint := if go_left then u32 (zoneno * secs_per_zone cf - 1)
                    else if total_zones <=? zoneno + 1 then 0
                    else u32 ((zoneno + 1) * secs_per_zone cf) in
        other_zone fuel false secmap old_zoneno hint dir go_left left_start
      else Done seg
  end.

(** The segment chosen, before [got_it]. *)
Definition pick_segment (f : free_segmap_info) (newseg : Z) (new_sec : bool) (dir : Z) : outcome Z :=
  let hint := GET_SEC_FROM_SEG sbi newseg in
  let top := GET_SEG_FROM_SEC sbi (hint + 1) in
  let seg := find_next_zero_bit (free_segmap f) top (newseg + 1) in
  if negb new_sec && nz ((newseg + 1) mod segs_per_sec sbi) && (seg <? top) then Done seg
  else other_zone 2 true (free_secmap f) (GET_ZONE_FROM_SEG newseg) hint dir false hint.

Definition get_new_segment (h : hoit) (newseg : Z) (new_sec : bool) (dir : Z) : outcome (Z * hoit) :=
  seg <-- pick_segment (free_i h) newseg new_sec dir ;;
  if test_bit seg (free_segmap (free_i h)) then Bug else Done (seg, __set_inuse sbi h seg).
End new_segment.

(** ** The logs *)

Section logs.
Context `{SitFormat} `{F2fsFormat} `{BitSearch} `{SumFormat} `{VictimSelection}.
Context (cf : alloc_conf).
(** update_aqu_sz_now reading the present /proc/diskstats *)
Context (update : load -> outcome load).

Definition IS_DATASEG (t : Z) : bool := t <=? 2.
Definition log_of (t : Z) : log_type :=
  if t =? 0 then CURSEG_HOT_DATA else if t =? 1 then CURSEG_WARM_DATA else if t =? 2 then CURSEG_COLD_DATA
  else if t =? 3 then CURSEG_HOT_NODE else if t =? 4 then CURSEG_WARM_NODE else CURSEG_COLD_NODE.

Definition sbi_of (a : allocator) : f2fs_sb_info := g_sbi (gst a).
Definition sm_of (a : allocator) : segman := g_sm (gst a).
Definition CURSEG_I (a : allocator) (type : Z) : curseg_info := (cursegs a).[type].
(** stores to the fields of a log *)
Definition set_curseg (a : allocator) (type : Z) (c : curseg_info) : allocator :=
  a <| cursegs ::= fun l => l.[type <- c] |>
    <| gst ::= fun g => g <| g_sbi ::= fun b => b <| curseg_segno ::= fun l => l.[type <- segno c] |> |> |>.
Definition set_sm (a : allocator) (f : segman -> segman) : allocator :=
  a <| gst ::= fun g => g <| g_sm ::= f |> |>.

Definition GET_SUM_BLOCK (seg : Z) : Z := ssa_blkaddr cf + seg.
Definition write_sum_page (a : allocator) (b : summary_block) (blk_addr : Z) : allocator :=
  a <| ssa ::= fun f => fun k => if decide (k = blk_addr) then b else f k |>.
Definition NEXT_FREE_BLKADDR (a : allocator) (c : curseg_info) : Z :=
  u32 (START_BLOCK (sbi_of a) (segno c) + next_blkoff c).

Definition __add_sum_entry (a : allocator) (type : Z) (sum : list Z) : allocator :=
  let c := CURSEG_I a type in
  set_curseg a type (c <| sum_blk ::= fun b => b <| sum_entries ::= fun l => l.[next_blkoff c <- sum] |> |>).

Definition is_next_segment_free (a : allocator) (type : Z) : bool :=
  let seg := u32 (segno (CURSEG_I a type) + 1) in
  if (seg <? segment_count_main (sbi_of a)) && nz (seg mod segs_per_sec (sbi_of a))
  then negb (test_bit seg (free_segmap (free_i (hs a))))
  else false.

Definition reset_curseg (a : allocator) (type : Z) (modified : bool) : allocator :=
  let c := CURSEG_I a type in
  let c := c <| segno := next_segno c |> in
  let c := c <| zone := GET_ZONE_FROM_SEG cf (sbi_of a) (segno c) |> <| next_blkoff := 0 |>
             <| next_segno := NULL_SEGNO |> in
  let c := c <| sum_blk ::= fun b => b <| entry_type := 0 |> <| check_sum := 0 |> |> in
  let c := if IS_DATASEG type then c <| sum_blk ::= fun b => b <| entry_type := SUM_TYPE_DATA |> |> else c in
  let c := if IS_NODESEG type then c <| sum_blk ::= fun b => b <| entry_type := SUM_TYPE_NODE |> |> else c in
  set_sm (set_curseg a type c) (fun sm => __set_sit_entry_type sm type (segno c) modified).

Definition __get_next_segno (a : allocator) (type : Z) : Z :=
  let lv := (last_victim (gst a)).[ALLOC_NEXT] in
  if negb (segs_per_sec (sbi_of a) =? 1) then segno (CURSEG_I a type)
  else if opt_noheap (gconf cf) && ((type =? 0) || IS_NODESEG type) then 0
  else if nz lv then lv
  else if alloc_mode_reuse cf then 0
  else segno (CURSEG_I a type).

Definition new_curseg (a : allocator) (type : Z) (new_sec : bool) : outcome allocator :=
  let c := CURSEG_I a type in
  let a := write_sum_page a (sum_blk c) (GET_SUM_BLOCK (segno c)) in
  let dir := if (type =? 1) || (type =? 2) then ALLOC_RIGHT else ALLOC_LEFT in
  let dir := if opt_noheap (gconf cf) then ALLOC_RIGHT else dir in
  r <-- get_new_segment cf (sbi_of a) (map zone (cursegs a)) (hs a) (__get_next_segno a type) new_sec dir ;;
  let a := a <| hs := snd r |> in
  let a := set_curseg a type ((CURSEG_I a type) <| next_segno := fst r |>) in
  let a := reset_curseg a type true in
  let a := set_curseg a type ((CURSEG_I a type) <| alloc_type := LFS |>) in
  q <-- nvm_alloc (nsbi (hs a)) update (ld a) (log_of type) ;;
  let a := a <| ld := snd q |> in
  if fst q then
    n <-- nvm_allocate_segment (nsbi (hs a)) (segno (CURSEG_I a type)) true ;;
    Done (a <| hs ::= fun h => h <| nsbi := snd n |> |>)
  else Done a.

Definition change_curseg (a : allocator) (type : Z) : outcome allocator :=
  let c := CURSEG_I a type in
  let new_segno := next_segno c in
  let a := write_sum_page a (sum_blk c) (GET_SUM_BLOCK (segno c)) in
  let a := a <| hs ::= fun h => h <| free_i ::= fun f => __set_test_and_inuse (sbi_of a) f new_segno |> |> in
  let a := set_sm a (fun sm => __remove_dirty_segment (sbi_of a) sm new_segno PRE) in
  let a := set_sm a (fun sm => __remove_dirty_segment (sbi_of a) sm new_segno DIRTY) in
  let a := reset_curseg a type true in
  let a := set_curseg a type ((CURSEG_I a type) <| alloc_type := SSR |>) in
  off <-- __next_free_blkoff (sbi_of a) (get_seg_entry (sm_of a) (segno (CURSEG_I a type))) 0 ;;
  let a := set_curseg a type ((CURSEG_I a type) <| next_blkoff := u16 off |>) in
  let sum_node := ssa a (GET_SUM_BLOCK new_segno) in
  Done (set_curseg a type ((CURSEG_I a type) <| sum_blk ::= fun b => b <| sum_entries := sum_entries sum_node |> |>)).

(** get_ssr_segment: the types it tries, in order *)
Definition ssr_types (type : Z) : list Z :=
  type :: List.filter (fun i => negb (i =? type))
    (if IS_NODESEG type then if 4 <=? type then [5; 4; 3] else [3; 4; 5]
     else if 1 <=? type then [2; 1; 0] else [0; 1; 2]).
Fixpoint try_ssr (types : list Z) (a : allocator) (type : Z) : outcome (bool * allocator) :=
  match types with
  | [] => Done (false, a)
  | i :: types =>
      r <-- get_victim (gconf cf) (gst a) NULL_SEGNO BG_GC i SSR ;;
      let a := a <| gst := snd r |> in
      if fst (fst r) then Done (true, set_curseg a type ((CURSEG_I a type) <| next_segno := snd (fst r) |>))
      else try_ssr types a type
  end.
Definition get_ssr_segment (a : allocator) (type : Z) : outcome (bool * allocator) :=
  try_ssr (ssr_types type) a type.

Definition get_blocktype_secs (sbi : f2fs_sb_info) (pages : Z) : Z :=
  let pages_per_sec := u32 (segs_per_sec sbi * blocks_per_seg sbi) in
  s32 (Z.shiftr (u32 (pages + pages_per_sec - 1)) (log_blocks_per_seg sbi) / segs_per_sec sbi).
Definition f2fs_need_SSR (a : allocator) : bool :=
  let sbi := sbi_of a in
  let node_secs := get_blocktype_secs sbi (dirty_nodes cf) in
  let dent_secs := get_blocktype_secs sbi (dirty_dents cf) in
  let imeta_secs := get_blocktype_secs sbi (dirty_imeta cf) in
  if opt_lfs cf then false
  else if bool_decide (sbi_gc_mode (gconf cf) = GC_URGENT) then true
  else free_sections (free_i (hs a)) <=?
         u32 (node_secs + 2 * dent_secs + imeta_secs + min_ssr_sections cf + reserved_sections cf).

Definition allocate_segment_by_default (a : allocator) (type : Z) (force : bool) : outcome allocator :=
  if force then new_curseg a type true
  else if negb (cp_crc_recovery cf) && (type =? 4) then new_curseg a type false
  else if (alloc_type (CURSEG_I a type) =? LFS) && is_next_segment_free a type then new_curseg a type false
  else
    r <-- (if f2fs_need_SSR a then get_ssr_segment a type else Done (false, a)) ;;
    if fst r then change_curseg (snd r) type else new_curseg (snd r) type false.

Definition __has_curseg_space (a : allocator) (type : Z) : bool :=
  next_blkoff (CURSEG_I a type) <? blocks_per_seg (sbi_of a).

(** f2fs_allocate_new_segments *)
Fixpoint allocate_new_segments (types : list Z) (a : allocator) : outcome allocator :=
  match types with
  | [] => Done a
  | i :: types =>
      let old_segno := segno (CURSEG_I a i) in
      a <-- allocate_segment_by_default a i true ;;
      allocate_new_segments types (set_sm a (fun sm => locate_dirty_segment (sbi_of a) sm old_segno))
  end.
Definition f2fs_allocate_new_segments (a : allocator) : outcome allocator := allocate_new_segments [0; 1; 2] a.

(** f2fs_allocate_data_block up to the release of sentry_lock: the new address
    and the state *)
Definition f2fs_allocate_data_block (a : allocator) (now old_blkaddr : Z) (sum : list Z) (type : Z)
    : outcome (Z * allocator) :=
  let new_blkaddr := NEXT_FREE_BLKADDR a (CURSEG_I a type) in
  let a := __add_sum_entry a type sum in
  let c := CURSEG_I a type in
  off <-- __refresh_next_blkoff (sbi_of a) (get_seg_entry (sm_of a) (segno c)) (alloc_type c =? SSR) (next_blkoff c) ;;
  let a := set_curseg a type (c <| next_blkoff := off |>) in
  let a := set_sm a (fun sm => update_sit_entry (sbi_of a) sm now new_blkaddr 1) in
  let old_seg := GET_SEGNO (sbi_of a) old_blkaddr in
  let a := if negb (old_seg =? NULL_SEGNO)
           then set_sm a (fun sm => update_sit_entry (sbi_of a) sm now old_blkaddr (-1)) else a in
  a <-- (if negb (__has_curseg_space a type) then allocate_segment_by_default a type false else Done a) ;;
  let a := set_sm a (fun sm => locate_dirty_segment (sbi_of a) sm (GET_SEGNO (sbi_of a) old_blkaddr)) in
  let a := set_sm a (fun sm => locate_dirty_segment (sbi_of a) sm (GET_SEGNO (sbi_of a) new_blkaddr)) in
  Done (new_blkaddr, a).
End logs.

(** ** get_new_segment finds a free segment *)

Section new_segment_ok.
Context `{BitSearchOk}.
Context (cf : alloc_conf) (sbi : f2fs_sb_info) (zones : list Z).
#[local] Abbreviation secs := (MAIN_SECS (gconf cf)).
#[local] Abbreviation spz := (secs_per_zone cf).

(** A section none of whose segments is in use. *)
Definition free_sec (secmap c : Z) : Prop := 0 <= c < secs /\ test_bit c secmap = false.

Section secmap.
Context (secmap : Z) (Hsecs : 0 <= secs < 268435456) (Hspz : 1 <= spz).
Context (Hfree : exists c, free_sec secmap c).

Lemma search_free hint :
  0 <= hint -> free_sec secmap (find_next_zero_bit secmap secs hint) \/
  (find_next_zero_bit secmap secs hint = secs /\ forall c, hint <= c < secs -> test_bit c secmap = true).
Proof.
  intros Hh. destruct (find_next_zero_bit_spec secmap secs hint) as [[E Hn]|(Hr & Hb & _)]; [lia|lia|right|left].
  - split; [done|exact Hn].
  - split; [lia|done].
Qed.
Lemma search_from_0 : free_sec secmap (find_next_zero_bit secmap secs 0).
Proof.
  destruct (search_free 0) as [|[_ Hn]]; [lia|done|]. destruct Hfree as (c & Hc & Hb).
  rewrite Hn in Hb by lia. done.
Qed.

Lemma walk_left_ok fuel l :
  0 <= l < Z.of_nat fuel -> l < secs -> exists c, walk_left cf fuel secmap l = Done c /\ free_sec secmap c /\
    (c <= l \/ forall k, 0 <= k <= l -> test_bit k secmap = true).
Proof.
  revert l. induction fuel as [|fuel IH]; intros l Hl Hs; [lia|]. cbn [walk_left].
  destruct (test_bit l secmap) eqn:El.
  - destruct (Z.ltb_spec 0 l).
    + destruct (IH (l - 1)) as (c & E & F & Hc); [lia|lia|]. exists c. split_and!; [done|done|].
      destruct Hc as [|Hall]; [left; lia|right]. intros k Hk. destruct (decide (k = l)) as [->|]; [done|]. apply Hall. lia.
    + pose proof search_from_0 as F. replace (secs <=? _) with false by (destruct F; lia).
      eexists. split_and!; [done|done|]. right. intros k Hk. by replace k with l by lia.
  - exists l. split_and!; [done|split; [lia|done]|left; lia].
Qed.

Lemma find_section_ok hint dir go_left ls :
  0 <= hint <= secs -> dir = ALLOC_RIGHT \/ dir = ALLOC_LEFT ->
  (go_left = true -> dir = ALLOC_LEFT /\ 0 <= ls < secs) ->
  exists c gl ls', find_section cf secmap hint dir go_left ls = Done (c, gl, ls') /\ free_sec secmap c /\
    (gl = true -> dir = ALLOC_LEFT /\ ls' = c).
Proof.
  intros Hh Hdir Hgl. unfold find_section. destruct (search_free hint ltac:(lia)) as [F|[E Hn]].
  - replace (secs <=? _) with false by (destruct F; lia). cbn [obind fst snd].
    destruct go_left; cbn [negb].
    + destruct (Hgl eq_refl) as [Hd Hls]. destruct (walk_left_ok (S (Z.to_nat ls)) ls) as (c & -> & Fc & _); [lia|lia|].
      cbn [obind]. by exists c, true, c.
    + by eexists _, _, _.
  - rewrite E. replace (secs <=? secs) with true by lia. destruct Hdir as [-> | ->].
    + change (ALLOC_RIGHT =? ALLOC_RIGHT) with true. cbv iota. pose proof search_from_0 as F.
      replace (secs <=? find_next_zero_bit secmap secs 0) with false by (destruct F; lia). cbn [obind fst snd].
      destruct go_left; [by destruct (Hgl eq_refl)|]. cbn [negb]. by eexists _, _, _.
    + change (ALLOC_LEFT =? ALLOC_RIGHT) with false. cbn [obind fst snd negb].
      assert (1 <= hint).
      { destruct Hfree as (c & Hc & Hb). destruct (decide (hint <= c)); [by rewrite Hn in Hb by lia|lia]. }
      rewrite u32_id by lia.
      destruct (walk_left_ok (S (Z.to_nat (hint - 1))) (hint - 1)) as (c & -> & Fc & _); [lia|lia|].
      cbn [obind]. by exists c, true, c.
Qed.

Lemma other_zone_ok old_zoneno hint dir :
  0 <= hint <= secs -> dir = ALLOC_RIGHT \/ dir = ALLOC_LEFT ->
  exists c, other_zone cf sbi zones 2 true secmap old_zoneno hint dir false hint = Done (GET_SEG_FROM_SEC sbi c) /\
    free_sec secmap c.
Proof.
  intros Hh Hdir. cbn [other_zone].
  destruct (find_section_ok hint dir false hint Hh Hdir) as (c & gl & ls & -> & Fc & Hgl); [done|].
  cbn [obind fst snd negb]. pose proof (proj1 Fc) as Hc.
  destruct (spz =? 1); [by exists c|]. destruct (_ =? old_zoneno); [by exists c|].
  destruct (_ && _ && _); [by exists c|]. destruct ((dir =? ALLOC_LEFT) && gl && _) eqn:Ez; [by exists c|].
  destruct (existsb _ _); [|by exists c].
  set (hint' := if gl then _ else _).
  assert (0 <= hint' <= secs) as Hh'.
  { subst hint'. unfold GET_ZONE_FROM_SEC in *.
    pose proof (Z.mul_div_le c spz ltac:(lia)). pose proof (Z.div_pos c spz ltac:(lia) ltac:(lia)).
    destruct gl.
    - destruct (Hgl eq_refl) as [-> _]. cbn in Ez. apply Z.eqb_neq in Ez. rewrite u32_id by nia. nia.
    - destruct (Z.leb_spec (secs / spz) (c / spz + 1)); [lia|].
      pose proof (Z.mul_div_le secs spz ltac:(lia)). rewrite u32_id by nia. nia. }
  destruct (find_section_ok hint' dir gl ls Hh' Hdir) as (c' & gl' & ls' & -> & Fc' & _).
  { intros Eg. destruct (Hgl Eg) as [-> ->]. split; [done|lia]. }
  cbn [obind fst snd negb]. by exists c'.
Qed.

(** A search to the left always comes back to the section it found first: the
    second pass starts where that section is still the nearest. *)
Lemma left_retry_same hint c :
  0 <= hint <= secs -> find_section cf secmap hint ALLOC_LEFT false hint = Done (c, true, c) ->
  1 <= GET_ZONE_FROM_SEC cf c ->
  find_section cf secmap (u32 (GET_ZONE_FROM_SEC cf c * spz - 1)) ALLOC_LEFT true c = Done (c, true, c).
Proof.
  intros Hh E Hz.
  destruct (find_section_ok hint ALLOC_LEFT false hint Hh (or_intror eq_refl)) as (c' & gl & ls & E' & [Hc Hb] & _); [done|].
  rewrite E in E'. injection E' as <- <- <-. unfold GET_ZONE_FROM_SEC in *.
  pose proof (Z.mul_div_le c spz ltac:(lia)). rewrite u32_id by nia. unfold find_section.
  destruct (search_free (c / spz * spz - 1) ltac:(nia)) as [[F _]|[_ Hn]].
  - replace (secs <=? _) with false by lia. cbn [obind fst snd negb].
    cbn [walk_left]. by rewrite Hb.
  - rewrite Hn in Hb by nia. done.
Qed.
End secmap.

(** Where a log may look: a valid section, or a segment of the log's own one. *)
Lemma pick_segment_ok f newseg new_sec dir :
  free_wf sbi f -> secs_ok (gconf cf) sbi -> 1 <= spz -> 0 <= newseg < segment_count_main sbi ->
  dir = ALLOC_RIGHT \/ dir = ALLOC_LEFT -> (exists c, free_sec (free_secmap f) c) ->
  exists seg, pick_segment cf sbi zones f newseg new_sec dir = Done seg /\
    0 <= seg < segment_count_main sbi /\ test_bit seg (free_segmap f) = false.
Proof.
  intros F Hs Hz Hn Hdir Hfree. pose proof (fw_sps _ _ F) as Hsps. pose proof (fw_bound _ _ F) as Hb.
  unfold secs_ok in Hs. assert (0 <= secs) by nia. assert (secs <= segment_count_main sbi) by nia.
  pose proof (section_range sbi newseg secs Hsps Hs Hn) as Hc.
  pose proof (Z.div_mod newseg (segs_per_sec sbi) ltac:(lia)) as Hdm.
  pose proof (Z.mod_pos_bound newseg (segs_per_sec sbi) Hsps).
  unfold pick_segment, GET_SEC_FROM_SEG. set (hint := newseg / segs_per_sec sbi) in *.
  assert (GET_SEG_FROM_SEC sbi (hint + 1) = (hint + 1) * segs_per_sec sbi) as ->
    by (unfold GET_SEG_FROM_SEC; apply u32_id; nia).
  destruct (negb new_sec && nz _ && _) eqn:E.
  - apply andb_true_iff in E as [_ E]. eexists. split; [done|].
    destruct (find_next_zero_bit_spec (free_segmap f) ((hint + 1) * segs_per_sec sbi) (newseg + 1))
      as [[Er _]|(Hr & Hbit & _)]; [lia|nia|lia|]. split; [nia|done].
  - destruct (other_zone_ok (free_secmap f) ltac:(lia) Hz Hfree (GET_ZONE_FROM_SEG cf sbi newseg) hint dir ltac:(lia) Hdir)
      as (c & -> & Hcr & Hcb).
    exists (GET_SEG_FROM_SEC sbi c). split; [done|].
    assert (GET_SEG_FROM_SEC sbi c = c * segs_per_sec sbi) as -> by (unfold GET_SEG_FROM_SEC; apply u32_id; nia).
    split; [nia|]. destruct (test_bit _ (free_segmap f)) eqn:Et; [|done].
    apply (fw_sec _ _ F) in Et; [|nia]. rewrite Z.div_mul in Et by lia. congruence.
Qed.
Lemma get_new_segment_ok h newseg new_sec dir :
  free_wf sbi (free_i h) -> secs_ok (gconf cf) sbi -> 1 <= spz -> 0 <= newseg < segment_count_main sbi ->
  dir = ALLOC_RIGHT \/ dir = ALLOC_LEFT -> (exists c, free_sec (free_secmap (free_i h)) c) ->
  exists seg, get_new_segment cf sbi zones h newseg new_sec dir = Done (seg, __set_inuse sbi h seg) /\
    0 <= seg < segment_count_main sbi /\ test_bit seg (free_segmap (free_i h)) = false.
Proof.
  intros F Hs Hz Hn Hdir Hfree.
  destruct (pick_segment_ok (free_i h) newseg new_sec dir F Hs Hz Hn Hdir Hfree) as (seg & E & Hr & Hb).
  exists seg. unfold get_new_segment. rewrite E. cbn [obind]. by rewrite Hb.
Qed.
End new_segment_ok.

Lemma free_section_exists cf sbi f :
  free_wf sbi f -> secs_ok (gconf cf) sbi -> 0 < free_sections f -> exists c, free_sec cf (free_secmap f) c.
Proof.
  intros [(secs & Hs0 & Hs & Hn) _ _ Hsp _ _] Hok Hpos. rewrite Hn in Hpos. unfold secs_ok in Hok.
  destruct (zero_bits_pos _ _ Hpos) as (c & Hc & Hb). exists c. split; [|done]. nia.
Qed.

(** C31. As long as a section is free, get_new_segment ends without a BUG, whatever
    the log, direction and zones, and takes a segment that was free: afterwards
    it is in use and the maps and counts are consistent. *)
Theorem get_new_segment_spec `{F2fsFormat} `{BitSearchOk} cf sbi zones h newseg new_sec dir :
  hoit_wf sbi h -> secs_ok (gconf cf) sbi -> 1 <= secs_per_zone cf ->
  0 <= newseg < segment_count_main sbi -> dir = ALLOC_RIGHT \/ dir = ALLOC_LEFT ->
  0 < free_sections (free_i h) ->
  exists seg h', get_new_segment cf sbi zones h newseg new_sec dir = Done (seg, h') /\
    0 <= seg < segment_count_main sbi /\ test_bit seg (free_segmap (free_i h)) = false /\
    hoit_wf sbi h' /\ free_segments (free_i h') = free_segments (free_i h) - 1 /\
    (forall k, test_bit k (free_segmap (free_i h')) = (seg =? k) || test_bit k (free_segmap (free_i h))).
Proof.
  intros W Hs Hz Hn Hdir Hfree.
  pose proof (free_section_exists cf sbi _ (hf_free _ _ W) Hs Hfree) as Hex.
  destruct (get_new_segment_ok cf sbi zones h newseg new_sec dir (hf_free _ _ W) Hs Hz Hn Hdir Hex) as (seg & E & Hr & Hb).
  exists seg, (__set_inuse sbi h seg). destruct (set_inuse_wf sbi h seg W Hr Hb) as [W' _].
  destruct (mark_inuse_wf sbi (free_i h) seg (hf_free _ _ W) Hr Hb) as [F' Hm].
  split_and!; try done; try lia. change (free_i (__set_inuse sbi h seg)) with (mark_inuse sbi (free_i h) seg).
  rewrite (fw_segs _ _ F'), (fw_segs _ _ (hf_free _ _ W)), <- (zero_bits_set _ _ seg) by (done || lia).
  apply zero_bits_ext. intros i Hi. by rewrite Hm, test_set_bit by lia.
Qed.
Definition demo_aconf : alloc_conf := {|
  gconf := demo_conf; secs_per_zone := 1; ssa_blkaddr := 100; opt_lfs := false; alloc_mode_reuse := false;
  cp_crc_recovery := true; min_ssr_sections := 0; reserved_sections := 0;
  dirty_nodes := 0; dirty_dents := 0; dirty_imeta := 0 |}.
Lemma get_new_segment_spec_witness :
  exists h', @get_new_segment scan_search demo_aconf demo_sbi [] demo_hoit 2 true ALLOC_LEFT = Done (2, h') /\
    hoit_wf demo_sbi h'.
Proof.
  destruct (@get_new_segment_spec linux_format scan_search scan_search_ok demo_aconf demo_sbi [] demo_hoit 2 true
    ALLOC_LEFT demo_hoit_wf eq_refl ltac:(done) ltac:(by vm_compute) (or_intror eq_refl) ltac:(by vm_compute))
    as (seg & h' & E & _ & _ & W & _).
  pose proof (f_equal (fun r => match r with Done (s, _) => s | _ => -1 end) E) as Es. vm_compute in Es.
  subst seg. exists h'. split; [exact E|exact W].
Defined.

(** The search to the left never finds another zone: when the zone of the
    section found is in use, the second pass returns the same section again. *)
Theorem get_new_segment_left_retry `{BitSearchOk} cf secmap hint c :
  0 <= MAIN_SECS (gconf cf) < 268435456 -> 1 <= secs_per_zone cf ->
  (exists c, free_sec cf secmap c) -> 0 <= hint <= MAIN_SECS (gconf cf) ->
  find_section cf secmap hint ALLOC_LEFT false hint = Done (c, true, c) -> 1 <= GET_ZONE_FROM_SEC cf c ->
  find_section cf secmap (u32 (GET_ZONE_FROM_SEC cf c * secs_per_zone cf - 1)) ALLOC_LEFT true c = Done (c, true, c).
Proof. intros Hs Hz Hex Hh. by apply left_retry_same. Qed.
Lemma get_new_segment_left_retry_witness :
  let cf := demo_aconf <| gconf := {| sbi_gc_mode := GC_NORMAL; max_victim_search := 16; opt_noheap := false; MAIN_SECS := 8 |} |>
              <| secs_per_zone := 2 |> in
  @find_section scan_search cf 192 6 ALLOC_LEFT false 6 = Done (5, true, 5) /\
  @find_section scan_search cf 192 3 ALLOC_LEFT true 5 = Done (5, true, 5).
Proof.
  intros cf. split; [reflexivity|].
  apply (@get_new_segment_left_retry scan_search scan_search_ok cf 192 6 5);
    [by vm_compute|by vm_compute|exists 0; by vm_compute|by vm_compute|reflexivity|by vm_compute].
Defined.
