(* ===== verification/Alloc.v ===== *)
(** * The block allocator keeps the file system consistent

    The invariant that ties the logs, the free maps, the SIT cache and the NVM
    mapping together, and f2fs_allocate_data_block, which preserves it and
    never hands out a block that is valid now or was valid at the last
    checkpoint. *)
From S2P Require Import Prelude Geometry Heap Mpt FreeMap Machine Redirect BlockIo F2fsBits MptFlush RevBits Sit Victim Load Curseg.
Open Scope Z_scope.

(** ** Bitmaps stay byte arrays *)

Section maps.
Context `{SitFormatOk}.

Definition bytes (m : list Z) : Prop := Forall (fun x => 0 <= x < 256) m.
Lemma bytes_aset m i x : bytes m -> bytes (m.[i <- u8 x]).
Proof.
  intros Hm. unfold aset. destruct (0 <=? i); [|done].
  apply Forall_insert; [done|]. unfold u8. apply Z.mod_pos_bound. lia.
Qed.

Record maps_ok (se : seg_entry) : Prop := {
  mo_cur : zlen (cur_valid_map se) = SIT_VBLOCK_MAP_SIZE;
  mo_ckpt : zlen (ckpt_valid_map se) = SIT_VBLOCK_MAP_SIZE;
  mo_cur_bytes : bytes (cur_valid_map se);
  mo_ckpt_bytes : bytes (ckpt_valid_map se);
}.

Lemma se_update_maps discard se mt off del :
  maps_ok se -> maps_ok (fst (fst (fst (se_update discard se mt off del)))).
Proof.
  intros [M1 M2 M3 M4].
  assert (forall m, zlen (f2fs_set_bit off m) = zlen m) as Z1 by (intros; apply zlen_aset).
  assert (forall m, zlen (f2fs_clear_bit off m) = zlen m) as Z2 by (intros; apply zlen_aset).
  assert (forall m, bytes m -> bytes (f2fs_set_bit off m)) as B1 by (intros m Hm; by apply bytes_aset).
  assert (forall m, bytes m -> bytes (f2fs_clear_bit off m)) as B2 by (intros m Hm; by apply bytes_aset).
  unfold se_update, sit_set_block, sit_clear_block, f2fs_test_and_set_bit, f2fs_test_and_clear_bit.
  destruct (0 <? del); cbn [fst snd];
    repeat match goal with |- context [if ?b then _ else _] => destruct b end;
    split; cbn -[f2fs_set_bit f2fs_clear_bit]; rewrite ?Z1, ?Z2; auto.
Qed.
End maps.

(** ** Smaller steps on the segment manager *)

Section steps.
Context `{SitFormatOk}.
Context (sbi : f2fs_sb_info).
#[local] Abbreviation MS := (segment_count_main sbi).

Lemma unused_all se k :
  se_wf sbi se -> ckpt_valid_blocks se = 0 -> 0 <= k < blocks_per_seg sbi -> used_bit se k = false.
Proof.
  intros W Hz Hk. destruct (used_bit se k) eqn:E; [exfalso|done]. rewrite (sw_ckpt_valid _ _ W) in Hz.
  pose proof (count_upto_lt (fun _ => false) (used_bit se) (Z.to_nat (blocks_per_seg sbi)) k) as Hl.
  rewrite (count_upto_none (fun _ => false)) in Hl by done. specialize (Hl ltac:(done) ltac:(lia) E eq_refl). lia.
Qed.
Lemma unused_free se k : used_bit se k = false -> cur_bit se k = false.
Proof. unfold used_bit. by intros [? _]%orb_false_iff. Qed.

(** The counters do not see a change of type. *)
Lemma mark_dirty_wf s j :
  sit_wf sbi s -> 0 <= j < MS -> sit_wf sbi (snd (__mark_sit_entry_dirty s j)).
Proof.
  intros [G H512 Hl Hse Hw Hsecs Hd] Hj. unfold __mark_sit_entry_dirty.
  destruct (test_bit j (dirty_sentries_bitmap s)) eqn:E; cbn [negb snd]; [done|].
  split; try done. cbn [dirty_sentries dirty_sentries_bitmap upd].
  rewrite (count_upto_update (fun k => test_bit k (dirty_sentries_bitmap s)) _ _ j), <- Hd, E.
  - rewrite test_set_bit, Z.eqb_refl by lia. cbn [orb Z.b2z].
    pose proof (count_upto_range (fun k => test_bit k (dirty_sentries_bitmap s)) (Z.to_nat MS)).
    pose proof (bps_pos sbi G). assert (MS < 4294967296) by (destruct G; nia).
    destruct (decide (dirty_sentries s < MS)); [rewrite u32_id by lia; lia|exfalso].
    pose proof (count_upto_lt (fun k => test_bit k (dirty_sentries_bitmap s)) (fun _ => true) (Z.to_nat MS) j) as Hlt.
    specialize (Hlt ltac:(done) ltac:(lia) eq_refl E).
    pose proof (count_upto_range (fun _ => true) (Z.to_nat MS)). lia.
  - lia.
  - intros k Hk Hn. rewrite test_set_bit by lia. by replace (j =? k) with false by lia.
Qed.

(** [s'] has the entries of [s] up to their type. *)
Definition same_blocks (se se' : seg_entry) : Prop :=
  valid_blocks se' = valid_blocks se /\ ckpt_valid_blocks se' = ckpt_valid_blocks se /\
  cur_valid_map se' = cur_valid_map se /\ ckpt_valid_map se' = ckpt_valid_map se /\
  discard_map se' = discard_map se.
Definition same_sit (s s' : sit_info) : Prop := forall k, same_blocks (sentries s).[k] (sentries s').[k].
Lemma same_sit_refl s : same_sit s s.
Proof. by split. Qed.
Lemma same_sit_trans s1 s2 s3 : same_sit s1 s2 -> same_sit s2 s3 -> same_sit s1 s3.
Proof.
  intros H1 H2 k. destruct (H1 k) as (? & ? & ? & ? & ?), (H2 k) as (? & ? & ? & ? & ?). split_and!; congruence.
Qed.

Lemma set_type_wf sm type j modified :
  sit_wf sbi (sit sm) -> 0 <= j < MS -> 0 <= type < 6 ->
  let sm' := __set_sit_entry_type sm type j modified in
  sit_wf sbi (sit sm') /\ dirty_i sm' = dirty_i sm /\ same_sit (sit sm) (sit sm').
Proof.
  intros W Hj Ht. cbv zeta. unfold __set_sit_entry_type.
  set (sm1 := sm <| sit ::= _ |>). pose proof (tw_len _ _ W) as Hl.
  assert (same_sit (sit sm) (sit sm1)) as S1.
  { intros k. cbn. rewrite aget_aset by lia. by destruct (Z.eqb_spec j k) as [<-|]. }
  assert (sit_wf sbi (sit sm1)) as W1.
  { destruct W as [G H512 _ Hse Hw (secs & Hs0 & Hs1 & Hs2) Hd]. split; try done.
    - cbn. by rewrite zlen_aset.
    - intros k Hk. cbn. rewrite aget_aset by lia. destruct (Z.eqb_spec j k) as [<-|]; [|by apply Hse].
      destruct (Hse j Hk). by split.
    - change (written_valid_blocks (sit sm1)) with (written_valid_blocks (sit sm)). rewrite Hw.
      apply sum_upto_ext. intros k _. symmetry. apply (S1 k).
    - exists secs. split_and!; [done|done|]. intros Hsps. destruct (Hs2 Hsps) as [Hlen Hv].
      split; [done|]. intros c Hc. change (sec_entries (sit sm1)) with (sec_entries (sit sm)). rewrite Hv by done.
      apply sum_upto_ext. intros k _. symmetry. apply (S1 (c * segs_per_sec sbi + k)). }
  destruct modified; [|done]. split; [by apply mark_dirty_wf|]. split; [done|].
  eapply same_sit_trans; [exact S1|]. cbn [sit upd]. unfold __mark_sit_entry_dirty.
  by destruct (negb _).
Qed.

(** The dirty lists *)
Lemma add_dirty_wf d t j : dirty_wf MS d -> 0 <= t < 8 -> 0 <= j < MS -> MS < 2147483648 -> dirty_wf MS (add_dirty d t j).
Proof. intros W Ht Hj Hs. by apply (add_dirty_ok MS ltac:(lia) d W t j Ht Hj). Qed.
Lemma del_dirty_wf d t j : dirty_wf MS d -> 0 <= t < 8 -> 0 <= j < MS -> MS < 2147483648 -> dirty_wf MS (del_dirty d t j).
Proof. intros W Ht Hj Hs. by apply (del_dirty_ok MS ltac:(lia) d W t j Ht Hj). Qed.
Lemma dirty_wf_victim d f : dirty_wf MS d -> dirty_wf MS (d <| victim_secmap ::= f |>).
Proof. intros []. by split. Qed.

Lemma remove_dirty_wf sm j t :
  sit_wf sbi (sit sm) -> dirty_wf MS (dirty_i sm) -> 0 <= t < 8 -> 0 <= j < MS -> MS < 2147483648 ->
  let sm' := __remove_dirty_segment sbi sm j t in
  sit sm' = sit sm /\ dirty_wf MS (dirty_i sm').
Proof.
  intros W D Ht Hj Hs. cbv zeta. unfold __remove_dirty_segment.
  assert (0 <= se_type (sentries (sit sm)).[j] < 8) as Hty by (pose proof (sw_type _ _ (tw_se _ _ W j Hj)); lia).
  destruct (t =? DIRTY); [|split; [done|by apply del_dirty_wf]].
  destruct (get_valid_blocks _ _ _ _ =? 0); (split; [done|]).
  - cbn [dirty_i upd]. apply dirty_wf_victim. repeat apply del_dirty_wf; done.
  - cbn [dirty_i upd]. repeat apply del_dirty_wf; done.
Qed.
Lemma locate_wf sm j :
  sit_wf sbi (sit sm) -> dirty_wf MS (dirty_i sm) -> 0 <= j < MS \/ j = NULL_SEGNO -> MS < 2147483648 ->
  let sm' := locate_dirty_segment sbi sm j in
  sit sm' = sit sm /\ dirty_wf MS (dirty_i sm').
Proof.
  intros W D Hj Hs. cbv zeta. destruct (IS_CURSEG sbi j) eqn:Ec.
  { unfold locate_dirty_segment. rewrite Ec, orb_true_r. done. }
  destruct Hj as [Hj| ->].
  - by destruct (locate_dirty_ok sbi sm j W D Hj Ec Hs) as (? & ? & ? & ?).
  - unfold locate_dirty_segment. by rewrite Z.eqb_refl.
Qed.
End steps.

(** ** The invariant *)

(** What SSR promises to the allocator: a segment in no section in use, with
    room, found without changing more than the search position. *)
Class VictimSelectionOk `{SitFormat} `{VictimSelection} : Prop := {
  get_victim_ssr conf g type :
    gc_wf g -> 0 <= type < 6 ->
    exists b seg g', get_victim conf g NULL_SEGNO BG_GC type SSR = Done (b, seg, g') /\
      search_frame g g' /\ gc_wf g' /\
      (b = true -> 0 <= seg < segment_count_main (g_sbi g) /\
         sec_usage_check (g_sbi g) (seg / segs_per_sec (g_sbi g)) = false /\
         ckpt_valid_blocks (get_seg_entry (g_sm g) seg) < blocks_per_seg (g_sbi g));
}.
#[export] Instance default_v_ops `{SitFormat} `{BitSearch} : VictimSelection := {|
  get_victim conf g result gc_type type mode := get_victim_by_default conf g result gc_type type mode;
|}.
#[export] Instance default_v_ops_ok `{SitFormatOk} `{BitSearchOk} : VictimSelectionOk.
Proof.
  split. intros conf g type W Ht. cbn.
  destruct (ssr_victim_ok conf g BG_GC type W Ht) as (b & seg & g' & E & F & W' & Hb & _).
  exists b, seg, g'. split_and!; try done. intros ->. destruct Hb as [(Hr & _ & Hu & _) Hc]. done.
Qed.

(** Facts about the volume and the environment the allocator works in. *)
Record alloc_env `{SitFormat} (cf : alloc_conf) (update : load -> outcome load) (sbi : f2fs_sb_info) : Prop := {
  ae_secs : secs_ok (gconf cf) sbi;
  ae_spz : 1 <= secs_per_zone cf;
  ae_map : blocks_per_seg sbi <= 8 * SIT_VBLOCK_MAP_SIZE;
  ae_map8 : SIT_VBLOCK_MAP_SIZE mod 8 = 0;
  ae_update l : exists l', update l = Done l';
  ae_valid j off : 0 <= j < segment_count_main sbi -> 0 <= off < blocks_per_seg sbi ->
    is_valid_blkaddr (main_block sbi j off) = true;
}.

Section inv.
Context `{SitFormatOk} `{F2fsFormat} `{BitSearchOk} `{SumFormat}.
Context (sbi : f2fs_sb_info).
#[local] Abbreviation MS := (segment_count_main sbi).
#[local] Abbreviation bps := (blocks_per_seg sbi).

Definition entry (a : allocator) (j : Z) : seg_entry := (sentries (sit (sm_of a))).[j].
Definition inuse (a : allocator) (j : Z) : bool := test_bit j (free_segmap (free_i (hs a))).

(** A log stands in a segment in use ... *)
Definition seg_ok (a : allocator) (seg : Z) : Prop := 0 <= seg < MS /\ inuse a seg = true.
(** ... before a block that is unused now and at the last checkpoint, or at the
    end; a log that writes in sequence has nothing but unused blocks ahead. *)
Record blk_ok (a : allocator) (c : curseg_info) : Prop := {
  bo_off : 0 <= next_blkoff c <= bps;
  bo_next : next_blkoff c < bps -> used_bit (entry a (segno c)) (next_blkoff c) = false;
  bo_lfs : alloc_type c <> SSR -> forall k, next_blkoff c <= k < bps -> used_bit (entry a (segno c)) k = false;
}.

(** [P] are the logs whose block position is valid; the others are being moved. *)
Record alloc_inv (P : Z -> Prop) (a : allocator) : Prop := {
  aw_sbi : exists v, sbi_of a = sbi <| curseg_segno := map segno (cursegs a) |> <| cur_victim_sec := v |>;
  aw_len : zlen (cursegs a) = 6;
  aw_gc : gc_wf (gst a);
  aw_hoit : hoit_wf sbi (hs a);
  aw_free j : 0 <= j < MS -> inuse a j = false -> ckpt_valid_blocks (entry a j) = 0;
  aw_seg t : 0 <= t < 6 -> seg_ok a (segno (cursegs a).[t]);
  aw_blk t : 0 <= t < 6 -> P t -> blk_ok a (cursegs a).[t];
  aw_distinct t u : 0 <= t < 6 -> 0 <= u < 6 -> segno (cursegs a).[t] = segno (cursegs a).[u] -> t = u;
  aw_maps j : 0 <= j < MS -> maps_ok (entry a j);
}.
Definition alloc_wf : allocator -> Prop := alloc_inv (fun _ => True).

Section ops.
Context (P : Z -> Prop) (a : allocator) (I : alloc_inv P a).

Lemma inv_geom :
  segment_count_main (sbi_of a) = MS /\ blocks_per_seg (sbi_of a) = bps /\
  segs_per_sec (sbi_of a) = segs_per_sec sbi /\ log_blocks_per_seg (sbi_of a) = log_blocks_per_seg sbi.
Proof. destruct (aw_sbi _ _ I) as [v ->]. done. Qed.
Lemma inv_sit : sit_wf (sbi_of a) (sit (sm_of a)).
Proof. apply (gw_sit _ (aw_gc _ _ I)). Qed.
Lemma inv_se j : 0 <= j < MS -> se_wf (sbi_of a) (entry a j).
Proof. intros Hj. apply (tw_se _ _ inv_sit). by destruct inv_geom as [-> _]. Qed.
Lemma inv_small : 0 < MS < 268435456.
Proof.
  pose proof (gw_small _ (aw_gc _ _ I)) as Hs. pose proof (main_segs_pos _ (aw_gc _ _ I)) as Hp.
  destruct inv_geom as [E _]. unfold sbi_of in E. rewrite E in *. lia.
Qed.
Lemma inv_bps : 1 <= bps <= 512.
Proof.
  pose proof inv_sit as W. pose proof (bps_pos _ (tw_geom _ _ W)). pose proof (tw_bps _ _ W).
  destruct inv_geom as (_ & E & _). rewrite E in *. lia.
Qed.
Lemma inv_dirty : dirty_wf MS (dirty_i (sm_of a)).
Proof. pose proof (gw_dirty _ (aw_gc _ _ I)) as D. destruct inv_geom as [E _]. unfold sbi_of in E. by rewrite E in D. Qed.

Lemma map_aset {A B} `{Inhabited A} (f : A -> B) l i x : map f (l.[i <- x]) = (map f l).[i <- f x].
Proof. unfold aset. destruct (0 <=? i); [|done]. apply (list_fmap_insert f). Qed.

(** Replacing a log. *)
Lemma set_curseg_inv (Q : Z -> Prop) t c :
  0 <= t < 6 -> seg_ok a (segno c) ->
  (forall u, 0 <= u < 6 -> u <> t -> segno (cursegs a).[u] <> segno c) ->
  (forall u, u <> t -> Q u -> P u) -> (Q t -> blk_ok a c) -> alloc_inv Q (set_curseg a t c).
Proof.
  intros Ht Hs Hd HQ Hb. pose proof I as [[v Es] Hl Hg Hh Hf Hse Hbl Hdi Hm].
  assert (forall u, 0 <= u < 6 -> (cursegs (set_curseg a t c)).[u] = if t =? u then c else (cursegs a).[u]) as Hu
    by (intros u Hu; apply aget_aset; lia).
  split; try done.
  - exists v. unfold sbi_of in *. cbn. rewrite Es, map_aset. done.
  - cbn. by rewrite zlen_aset.
  - destruct Hg as [Wsit Wd Wlv Wr Wsm]. split; try done. cbn. unfold sbi_of in Es.
    pose proof (sit_wf_logs _ _ ((curseg_segno (g_sbi (gst a))).[t <- segno c]) (cur_victim_sec (g_sbi (gst a))) Wsit) as W'.
    destruct (gst a) as [[] ? ? ?]. exact W'.
  - intros u Hur. rewrite Hu by done. destruct (Z.eqb_spec t u) as [<-|]; [done|]. by apply Hse.
  - intros u Hur Hq. rewrite Hu by done. destruct (Z.eqb_spec t u) as [<-|].
    + destruct (Hb Hq). by split.
    + destruct (Hbl u Hur ltac:(by apply HQ)). by split.
  - intros u w Hur Hwr. rewrite !Hu by done. destruct (Z.eqb_spec t u) as [<-|], (Z.eqb_spec t w) as [<-|]; try done.
    + intros E. by destruct (Hd w Hwr ltac:(done)).
    + intros E. by destruct (Hd u Hur ltac:(done)).
    + by apply Hdi.
Qed.

(** Replacing the segment manager by one with the same blocks. *)
Lemma set_sm_inv f :
  sit_wf (sbi_of a) (sit (f (sm_of a))) -> dirty_wf MS (dirty_i (f (sm_of a))) ->
  same_sit (sit (sm_of a)) (sit (f (sm_of a))) -> alloc_inv P (set_sm a f).
Proof.
  intros Ws Wd Hsame. pose proof I as [[v Es] Hl Hg Hh Hf Hse Hbl Hdi Hm].
  assert (forall j, same_blocks (entry a j) (entry (set_sm a f) j)) as Hj by (intros j; apply Hsame).
  assert (forall j k, used_bit (entry (set_sm a f) j) k = used_bit (entry a j) k) as Hub.
  { intros j k. destruct (Hj j) as (_ & _ & E1 & E2 & _). unfold used_bit, cur_bit. by rewrite E1, E2. }
  split; try done.
  - by exists v.
  - destruct Hg as [Wsit Wd' Wlv Wr Wsm]. split; try done. cbn.
    destruct inv_geom as [E _]. unfold sbi_of in E. by rewrite E.
  - intros j Hjr Hfr. destruct (Hj j) as (_ & -> & _). by apply Hf.
  - intros t Ht Hp. destruct (Hbl t Ht Hp). split; try done; intros; rewrite Hub; auto.
  - intros j Hjr. destruct (Hj j) as (_ & _ & E1 & E2 & _), (Hm j Hjr). split; rewrite ?E1, ?E2; done.
Qed.

(** More segments in use. *)
Lemma set_hs_inv h :
  hoit_wf sbi h -> (forall j, inuse a j = true -> test_bit j (free_segmap (free_i h)) = true) ->
  alloc_inv P (a <| hs := h |>).
Proof.
  intros Wh Hmono. pose proof I as [[v Es] Hl Hg Hh Hf Hse Hbl Hdi Hm]. split; try done.
  - by exists v.
  - intros j Hj Hi. apply Hf; [done|]. destruct (inuse a j) eqn:E; [|done]. apply Hmono in E.
    unfold inuse in Hi. cbn in Hi. by rewrite Hi in E.
  - intros t Ht. destruct (Hse t Ht) as [Hr Hi]. split; [done|]. by apply Hmono.
  - intros t Ht Hp. destruct (Hbl t Ht Hp). by split.
Qed.

(** After a victim search. *)
Lemma set_gst_inv g : search_frame (gst a) g -> gc_wf g -> alloc_inv P (a <| gst := g |>).
Proof.
  intros [Eg (mm & Em)] Wg. pose proof I as [[v Es] Hl Hg Hh Hf Hse Hbl Hdi Hm].
  assert (forall j, entry (a <| gst := g |>) j = entry a j) as Hj by (intros j; unfold entry, sm_of; cbn; by rewrite Em).
  split; try done.
  - exists v. unfold sbi_of in *. cbn. by rewrite Eg.
  - intros j. rewrite Hj. apply Hf.
  - intros t Ht Hp. destruct (Hbl t Ht Hp). split; try done; intros; rewrite Hj; auto.
  - intros j. rewrite Hj. apply Hm.
Qed.
Lemma set_ssa_inv f : alloc_inv P (a <| ssa ::= f |>).
Proof. destruct I as [? ? ? ? ? ? Hb ? ?]. split; try done. intros t Ht Hp. by destruct (Hb t Ht Hp). Qed.
Lemma set_ld_inv l : alloc_inv P (a <| ld := l |>).
Proof. destruct I as [? ? ? ? ? ? Hb ? ?]. split; try done. intros t Ht Hp. by destruct (Hb t Ht Hp). Qed.
Lemma inv_weaken (Q : Z -> Prop) : (forall t, Q t -> P t) -> alloc_inv Q a.
Proof. intros HQ. destruct I as [? ? ? ? ? ? Hb ? ?]. split; try done. intros t Ht Hq. apply Hb; auto. Qed.
End ops.
End inv.

(** ** Opening a segment *)

Section opening.
Context `{SitFormatOk} `{F2fsFormat} `{BitSearchOk} `{SumFormat} `{VictimSelection}.
Context (cf : alloc_conf) (update : load -> outcome load) (sbi : f2fs_sb_info).
Context (Env : alloc_env cf update sbi).
#[local] Abbreviation MS := (segment_count_main sbi).
#[local] Abbreviation bps := (blocks_per_seg sbi).

(** What opening a segment for log [t] leaves alone. *)
Record opened (t : Z) (a a' : allocator) : Prop := {
  op_sit : same_sit (sit (sm_of a)) (sit (sm_of a'));
  op_inuse j : inuse a j = true -> inuse a' j = true;
  op_logs u : 0 <= u < 6 -> u <> t -> (cursegs a').[u] = (cursegs a).[u];
}.
Lemma opened_refl t a : opened t a a.
Proof. split; [apply same_sit_refl|done|done]. Qed.
Lemma opened_trans t a1 a2 a3 : opened t a1 a2 -> opened t a2 a3 -> opened t a1 a3.
Proof.
  intros [S1 U1 L1] [S2 U2 L2]. split.
  - by eapply same_sit_trans.
  - auto.
  - intros u Hu Hn. rewrite L2, L1 by done. done.
Qed.
Lemma set_curseg_opened t a c : 0 <= t < 6 -> zlen (cursegs a) = 6 -> opened t a (set_curseg a t c).
Proof.
  intros Ht Hl. split; [apply same_sit_refl|done|]. intros u Hu Hn. cbn. rewrite aget_aset by lia.
  by replace (t =? u) with false by lia.
Qed.
Lemma set_curseg_get t a c : 0 <= t < 6 -> zlen (cursegs a) = 6 -> (cursegs (set_curseg a t c)).[t] = c.
Proof. intros Ht Hl. cbn. apply aget_aset_eq. lia. Qed.

(** Storing to fields other than segno and the position. *)
Lemma store_curseg_inv P a t c :
  alloc_inv sbi P a -> 0 <= t < 6 -> segno c = segno (cursegs a).[t] ->
  alloc_inv sbi (fun u => P u /\ u <> t) (set_curseg a t c).
Proof.
  intros I Ht Es. apply (set_curseg_inv sbi P); try done; rewrite ?Es.
  - by apply (aw_seg _ _ _ I).
  - intros u Hu Hn E. apply Hn. by apply (aw_distinct _ _ _ I).
  - by intros u _ [? _].
  - by intros [_ ?].
Qed.

Lemma reset_curseg_inv P a t seg m :
  alloc_inv sbi P a -> 0 <= t < 6 -> next_segno (cursegs a).[t] = seg -> seg_ok sbi a seg ->
  (forall u, 0 <= u < 6 -> u <> t -> segno (cursegs a).[u] <> seg) ->
  let a' := reset_curseg cf a t m in
  alloc_inv sbi (fun u => P u /\ u <> t) a' /\ opened t a a' /\ hs a' = hs a /\ ld a' = ld a /\
  segno (cursegs a').[t] = seg /\ next_blkoff (cursegs a').[t] = 0 /\
  alloc_type (cursegs a').[t] = alloc_type (cursegs a).[t].
Proof.
  intros I Ht En Hs Hd. cbv zeta. unfold reset_curseg. fold (CURSEG_I a t).
  set (c := if IS_NODESEG t then _ else _).
  assert (segno c = seg /\ next_blkoff c = 0 /\ alloc_type c = alloc_type (cursegs a).[t]) as (E1 & E2 & E3).
  { subst c. destruct (IS_NODESEG t), (IS_DATASEG t); cbn; unfold CURSEG_I; by rewrite En. }
  clearbody c. pose proof (aw_len _ _ _ I) as Hl. rewrite E1.
  assert (alloc_inv sbi (fun u => P u /\ u <> t) (set_curseg a t c)) as I1.
  { apply (set_curseg_inv sbi P); rewrite ?E1; try done; [by intros u _ [? _]|by intros [_ ?]]. }
  set (a1 := set_curseg a t c) in *. destruct (inv_geom sbi _ _ I1) as (EM & _).
  pose proof (inv_small sbi _ _ I1) as Hsm.
  destruct (set_type_wf (sbi_of a1) (sm_of a1) t seg m (inv_sit sbi _ _ I1)) as (Ws & Ed & Ss); [rewrite EM; apply Hs|done|].
  split; [|split; [|split; [done|split; [done|]]]].
  - apply set_sm_inv; try done. rewrite Ed. by apply (inv_dirty sbi _ _ I1).
  - split; [exact Ss|done|]. intros u Hu Hn. by apply set_curseg_opened.
  - change (cursegs (set_sm a1 _)) with (cursegs a1). subst a1. by rewrite set_curseg_get.
Qed.

Lemma used_zero P a j k :
  alloc_inv sbi P a -> 0 <= j < MS -> ckpt_valid_blocks (entry a j) = 0 -> 0 <= k < bps ->
  used_bit (entry a j) k = false.
Proof.
  intros I Hj Hz Hk. destruct (inv_geom sbi _ _ I) as (_ & EB & _).
  apply (unused_all (sbi_of a)); [by apply (inv_se sbi P)|done|by rewrite EB].
Qed.

Lemma get_next_segno_range P a t :
  alloc_inv sbi P a -> 0 <= t < 6 -> 0 <= __get_next_segno cf a t < MS.
Proof.
  intros I Ht. pose proof (inv_small sbi _ _ I). destruct (aw_seg _ _ _ I t Ht) as [Hr _].
  pose proof (gw_lv_range _ (aw_gc _ _ _ I) ALLOC_NEXT ltac:(by vm_compute)) as Hv.
  destruct (inv_geom sbi _ _ I) as [EM _]. unfold sbi_of in EM. rewrite EM in Hv.
  unfold __get_next_segno, CURSEG_I. destruct (negb _); [done|]. destruct (_ && _); [lia|].
  destruct (nz _); [done|]. destruct (alloc_mode_reuse cf); [lia|done].
Qed.

(** An in-use segment only stays in use. *)
Lemma mark_inuse_mono P a seg j :
  alloc_inv sbi P a -> 0 <= seg < MS -> inuse a seg = false ->
  test_bit j (free_segmap (free_i (__set_inuse sbi (hs a) seg))) = (seg =? j) || inuse a j.
Proof. intros I Hr Hi. by apply (mark_inuse_wf sbi (free_i (hs a)) seg (hf_free _ _ (aw_hoit _ _ _ I)) Hr Hi). Qed.

Lemma nvm_alloc_done s l type : exists b l', nvm_alloc s update l type = Done (b, l').
Proof.
  unfold nvm_alloc. destruct (decide _); [by eauto|].
  destruct (ae_update _ _ _ Env l) as (l' & ->). cbn [obind]. by eauto.
Qed.

Lemma new_curseg_inv P a t new_sec :
  alloc_inv sbi P a -> 0 <= t < 6 -> 0 < free_sections (free_i (hs a)) ->
  exists a', new_curseg cf update a t new_sec = Done a' /\
    alloc_inv sbi (fun u => P u \/ u = t) a' /\ opened t a a' /\
    next_blkoff (cursegs a').[t] = 0 /\ inuse a (segno (cursegs a').[t]) = false.
Proof.
  intros I Ht Hfree. pose proof (get_next_segno_range P a t I Ht) as Hn. unfold new_curseg.
  set (a0 := write_sum_page a _ _). assert (alloc_inv sbi P a0) as I0 by (by apply set_ssa_inv).
  assert (opened t a a0) as O0 by (split; [apply same_sit_refl|done|done]).
  set (dir := if opt_noheap _ then _ else _).
  assert (dir = ALLOC_RIGHT \/ dir = ALLOC_LEFT) as Hdir
    by (subst dir; repeat case_match; auto).
  clearbody dir. change (__get_next_segno cf a0 t) with (__get_next_segno cf a t).
  destruct (aw_sbi _ _ _ I0) as [v Ev]. pose proof (aw_hoit _ _ _ I) as Wh.
  destruct (get_new_segment_ok cf sbi (map zone (cursegs a0)) (hs a0) (__get_next_segno cf a t) new_sec dir)
    as (seg & Eg & Hr & Hb); [apply Wh|apply Env|apply Env|done|done|by eapply free_section_exists; [apply Wh|apply Env|]|].
  assert (get_new_segment cf (sbi_of a0) (map zone (cursegs a0)) (hs a0) (__get_next_segno cf a t) new_sec dir
          = Done (seg, __set_inuse sbi (hs a0) seg)) as -> by (rewrite Ev; exact Eg).
  cbn [obind fst snd]. clear Eg.
  destruct (set_inuse_wf sbi (hs a) seg Wh Hr Hb) as [Wh1 Hin].
  change (__set_inuse sbi (hs a0) seg) with (__set_inuse sbi (hs a) seg).
  set (h1 := __set_inuse sbi (hs a) seg) in *. set (a1 := a0 <| hs := h1 |>).
  assert (forall j, inuse a1 j = (seg =? j) || inuse a j) as Hmono by (intros j; by apply (mark_inuse_mono P)).
  assert (alloc_inv sbi P a1) as I1.
  { apply set_hs_inv; [done|done|]. intros j Hj. change (inuse a1 j = true). rewrite Hmono.
    change (inuse a j = true) in Hj. rewrite Hj. apply orb_true_r. }
  assert (opened t a a1) as O1
    by (split; [apply same_sit_refl|intros j Hj; rewrite Hmono, Hj; apply orb_true_r|done]).
  pose proof (aw_len _ _ _ I1) as L1.
  assert (alloc_inv sbi (fun u => P u /\ u <> t) (set_curseg a1 t ((CURSEG_I a1 t) <| next_segno := seg |>))) as I2
    by (by apply store_curseg_inv).
  set (a2 := set_curseg a1 t _) in *.
  assert (opened t a a2) as O2 by (eapply opened_trans; [exact O1|by apply set_curseg_opened]).
  assert (forall u, 0 <= u < 6 -> u <> t -> segno (cursegs a2).[u] <> seg) as Hd.
  { intros u Hu Hne Es. rewrite (op_logs _ _ _ O2) in Es by done. destruct (aw_seg _ _ _ I u Hu) as [_ Hi].
    rewrite Es in Hi. unfold inuse in Hi. change (hs a0) with (hs a) in Hb. congruence. }
  destruct (reset_curseg_inv _ a2 t seg true I2 Ht) as (I3 & O3 & Hh3 & _ & E1 & E2 & _);
    [subst a2; by rewrite set_curseg_get|by split|done|].
  set (a3 := reset_curseg cf a2 t true) in *. clearbody a3. pose proof (aw_len _ _ _ I3) as L3.
  assert (inuse a seg = false) as Hfree0 by exact Hb.
  assert (opened t a a3) as O03 by (by eapply opened_trans).
  assert (ckpt_valid_blocks (entry a3 seg) = 0) as Hz.
  { destruct (op_sit _ _ _ O03 seg) as (_ & Ec & _). unfold entry. rewrite Ec. by apply (aw_free _ _ _ I). }
  assert (alloc_inv sbi (fun u => P u \/ u = t) (set_curseg a3 t ((CURSEG_I a3 t) <| alloc_type := LFS |>))) as I4.
  { eapply (set_curseg_inv sbi _ a3 I3); try done.
    - cbn [segno upd]. unfold CURSEG_I. rewrite E1. split; [done|]. unfold inuse. by rewrite Hh3.
    - intros u Hu Hne. cbn [segno upd]. unfold CURSEG_I. rewrite E1, (op_logs _ _ _ O3) by done. by apply Hd.
    - intros u Hne [?|?]; [|done]. done.
    - intros _. unfold CURSEG_I. pose proof (inv_bps sbi _ _ I3).
      split; cbn [segno next_blkoff alloc_type upd]; rewrite ?E1, ?E2; [lia| |].
      + intros _. by apply (used_zero _ a3 _ _ I3 Hr Hz); lia.
      + intros _ k Hk. by apply (used_zero _ a3 _ _ I3 Hr Hz). }
  set (a4 := set_curseg a3 t _) in *.
  assert (opened t a a4) as O4 by (eapply opened_trans; [exact O03|by apply set_curseg_opened]).
  assert (segno (cursegs a4).[t] = seg /\ next_blkoff (cursegs a4).[t] = 0) as [E3 E4]
    by (subst a4; rewrite set_curseg_get by done; by unfold CURSEG_I).
  destruct (nvm_alloc_done (nsbi (hs a4)) (ld a4) (log_of t)) as (b & l' & ->). cbn [obind fst snd].
  set (a5 := a4 <| ld := l' |>). assert (alloc_inv sbi (fun u => P u \/ u = t) a5) as I5 by (by apply set_ld_inv).
  assert (opened t a a5) as O5 by (eapply opened_trans; [exact O4|by split]).
  assert (next_blkoff (cursegs a4).[t] = 0 /\ inuse a (segno (cursegs a4).[t]) = false) as Hend by (by rewrite E3).
  destruct b; [|by exists a5].
  assert (hs a5 = h1) as Eh by exact Hh3.
  destruct (curseg_alloc_wf sbi (hs a) seg true Wh Hr Hb) as (h' & Ea & Wh').
  unfold curseg_alloc in Ea. fold h1 in Ea. cbv zeta in Ea.
  apply obind_Done in Ea as (r & Er & Eh'). injection Eh' as Eh'.
  change (CURSEG_I a5 t) with (cursegs a4).[t]. rewrite E3, Eh, Er. cbn [obind].
  exists (a5 <| hs ::= fun h => h <| nsbi := snd r |> |>).
  assert (a5 <| hs ::= fun h => h <| nsbi := snd r |> |> = a5 <| hs := h' |>) as ->
    by (subst h'; rewrite <- Eh; done).
  assert (forall j, test_bit j (free_segmap (free_i h')) = inuse a5 j) as Hj
    by (intros j; unfold inuse; by rewrite Eh, <- Eh').
  split; [done|]. split; [|split; [|exact Hend]].
  - apply set_hs_inv; [done|done|]. intros j. by rewrite Hj.
  - eapply opened_trans; [exact O5|]. split; [apply same_sit_refl| |done].
    intros j Hi. unfold inuse at 1. cbn. by rewrite Hj.
Qed.

(** ** Reusing a segment (SSR) *)

Lemma test_and_inuse_ok P a seg :
  alloc_inv sbi P a -> 0 <= seg < MS ->
  let h := (hs a) <| free_i ::= fun f => __set_test_and_inuse sbi f seg |> in
  hoit_wf sbi h /\ test_bit seg (free_segmap (free_i h)) = true /\
  forall j, inuse a j = true -> test_bit j (free_segmap (free_i h)) = true.
Proof.
  intros I Hr h. assert (hoit_wf sbi h) as W
    by (apply (ssr_inuse_wf sbi (hs a)); [by apply (aw_hoit _ _ _ I)|done]).
  split; [done|]. subst h. unfold inuse. cbn. unfold __set_test_and_inuse.
  destruct (test_bit seg (free_segmap (free_i (hs a)))) eqn:E; [done|].
  destruct (mark_inuse_wf sbi (free_i (hs a)) seg (hf_free _ _ (aw_hoit _ _ _ I)) Hr E) as [_ Hm].
  split; [by rewrite Hm, Z.eqb_refl|]. intros j Hj. rewrite Hm, Hj. apply orb_true_r.
Qed.

Lemma remove_dirty_inv P a seg d :
  alloc_inv sbi P a -> 0 <= seg < MS -> 0 <= d < 8 ->
  alloc_inv sbi P (set_sm a (fun sm => __remove_dirty_segment (sbi_of a) sm seg d)).
Proof.
  intros I Hr Hd. destruct (inv_geom sbi _ _ I) as (EM & _). pose proof (inv_small sbi _ _ I).
  destruct (remove_dirty_wf (sbi_of a) (sm_of a) seg d (inv_sit sbi _ _ I)) as [Es Ed];
    rewrite ?EM; try done; [by apply (inv_dirty sbi _ _ I)|lia|]. rewrite EM in Ed.
  apply set_sm_inv; try done; rewrite Es; [by apply (inv_sit sbi _ _ I)|apply same_sit_refl].
Qed.
Lemma remove_dirty_opened t P a seg d :
  alloc_inv sbi P a -> 0 <= seg < MS -> 0 <= d < 8 ->
  opened t a (set_sm a (fun sm => __remove_dirty_segment (sbi_of a) sm seg d)).
Proof.
  intros I Hr Hd. destruct (inv_geom sbi _ _ I) as (EM & _). pose proof (inv_small sbi _ _ I).
  destruct (remove_dirty_wf (sbi_of a) (sm_of a) seg d (inv_sit sbi _ _ I)) as [Es _];
    rewrite ?EM; try done; [by apply (inv_dirty sbi _ _ I)|lia|].
  split; [|done|done]. unfold sm_of in *. cbn. rewrite Es. apply same_sit_refl.
Qed.

(** The position SSR starts from. *)
Lemma ssr_offset P a seg start :
  alloc_inv sbi P a -> 0 <= seg < MS -> 0 <= start ->
  exists r, __next_free_blkoff (sbi_of a) (entry a seg) start = Done r /\
    (r = bps \/ start <= r < bps /\ used_bit (entry a seg) r = false) /\
    (start = 0 -> ckpt_valid_blocks (entry a seg) < bps -> r < bps).
Proof.
  intros I Hr Hs. destruct (inv_geom sbi _ _ I) as (_ & EB & _). destruct (aw_maps _ _ _ I seg Hr) as [_ M2 M3 M4].
  destruct (next_free_blkoff_ok (sbi_of a) (entry a seg) start) as (r & E & Hf & Hroom);
    rewrite ?EB; try done; try apply Env; [by apply (inv_se sbi P)|]. rewrite EB in *.
  exists r. split_and!; try done. destruct Hf as [[-> _]|(Hrr & Hu & _)]; [by left|right]. split; [done|].
  by apply negb_true_iff in Hu.
Qed.

Lemma change_curseg_inv P a t :
  let seg := next_segno (cursegs a).[t] in
  alloc_inv sbi P a -> 0 <= t < 6 -> 0 <= seg < MS ->
  (forall u, 0 <= u < 6 -> segno (cursegs a).[u] <> seg) -> ckpt_valid_blocks (entry a seg) < bps ->
  exists a', change_curseg cf a t = Done a' /\
    alloc_inv sbi (fun u => P u \/ u = t) a' /\ opened t a a' /\ next_blkoff (cursegs a').[t] < bps /\
    segno (cursegs a').[t] = seg.
Proof.
  intros seg I Ht Hr Hd Hroom. unfold change_curseg. change (next_segno (CURSEG_I a t)) with seg.
  set (a0 := write_sum_page a _ _). assert (alloc_inv sbi P a0) as I0 by (by apply set_ssa_inv).
  destruct (test_and_inuse_ok P a0 seg I0 Hr) as (Wh & Hin & Hmono).
  set (h := (hs a0) <| free_i ::= _ |>) in *.
  destruct (aw_sbi _ _ _ I0) as [v Ev].
  assert (a0 <| hs ::= fun h => h <| free_i ::= fun f => __set_test_and_inuse (sbi_of a0) f seg |> |> = a0 <| hs := h |>) as ->
    by (by rewrite Ev).
  set (a1 := a0 <| hs := h |>). assert (alloc_inv sbi P a1) as I1 by (by apply set_hs_inv).
  assert (opened t a a1) as O1 by (by split).
  assert (inuse a1 seg = true) as Hin1 by exact Hin. clearbody h.
  pose proof (remove_dirty_inv P a1 seg PRE I1 Hr ltac:(by vm_compute)) as I2.
  pose proof (remove_dirty_opened t P a1 seg PRE I1 Hr ltac:(by vm_compute)) as O2.
  set (a2 := set_sm a1 _) in *.
  pose proof (remove_dirty_inv P a2 seg DIRTY I2 Hr ltac:(by vm_compute)) as I3.
  pose proof (remove_dirty_opened t P a2 seg DIRTY I2 Hr ltac:(by vm_compute)) as O3.
  set (a3 := set_sm a2 _) in *.
  assert (opened t a a3) as O03 by (eapply opened_trans; [exact O1|]; by eapply opened_trans).
  destruct (reset_curseg_inv P a3 t seg true I3 Ht eq_refl) as (I4 & O4 & Hh4 & _ & E1 & _ & _).
  { split; [done|]. exact Hin1. }
  { intros u Hu Hne. rewrite (op_logs _ _ _ O03) by done. by apply Hd. }
  set (a4 := reset_curseg cf a3 t true) in *. clearbody a4. pose proof (aw_len _ _ _ I4) as L4.
  assert (alloc_inv sbi (fun u => (P u /\ u <> t) /\ u <> t) (set_curseg a4 t ((CURSEG_I a4 t) <| alloc_type := SSR |>))) as I5
    by (by apply store_curseg_inv).
  set (c5 := (CURSEG_I a4 t) <| alloc_type := SSR |>) in *. set (a5 := set_curseg a4 t c5) in *.
  assert (opened t a a5) as O5 by (eapply opened_trans; [exact O03|]; eapply opened_trans; [exact O4|by apply set_curseg_opened]).
  assert (CURSEG_I a5 t = c5) as Ec5 by (subst a5; by apply set_curseg_get). rewrite Ec5.
  assert (segno c5 = seg) as Es5 by exact E1. rewrite Es5.
  assert (ckpt_valid_blocks (entry a5 seg) < bps) as Hroom5.
  { destruct (op_sit _ _ _ O5 seg) as (_ & Ec & _). unfold entry in *. by rewrite Ec. }
  destruct (ssr_offset _ a5 seg 0 I5 Hr ltac:(lia)) as (r & Eo & Hf & Hlt). specialize (Hlt eq_refl Hroom5).
  change (get_seg_entry (sm_of a5) seg) with (entry a5 seg). rewrite Eo. cbn [obind].
  pose proof (inv_bps sbi _ _ I5). destruct Hf as [->|[Hrr Hu]]; [lia|]. rewrite u16_id by lia.
  pose proof (aw_len _ _ _ I5) as L5. assert (segno (cursegs a5).[t] = seg) as Ea5 by (fold (CURSEG_I a5 t); by rewrite Ec5).
  pose proof (store_curseg_inv _ a5 t (c5 <| next_blkoff := r |>) I5 Ht ltac:(by rewrite Ea5)) as I6.
  set (a6 := set_curseg a5 t _) in *. pose proof (aw_len _ _ _ I6) as L6.
  assert (CURSEG_I a6 t = c5 <| next_blkoff := r |>) as Ec6 by (subst a6; by apply set_curseg_get). rewrite Ec6.
  set (c7 := (c5 <| next_blkoff := r |>) <| sum_blk ::= _ |>).
  assert (segno c7 = seg) as Es7 by exact E1.
  assert (opened t a (set_curseg a6 t c7)) as O7.
  { eapply opened_trans; [exact O5|]. eapply opened_trans; by apply set_curseg_opened. }
  exists (set_curseg a6 t c7). split; [done|]. split; [|split; [done|rewrite set_curseg_get by done; split; [cbn; lia|done]]].
  eapply (set_curseg_inv sbi _ a6 I6); rewrite ?Es7; try done.
  - split; [done|]. subst a6 a5. unfold inuse. cbn. rewrite Hh4. exact Hin1.
  - intros u Hur Hne. assert (opened t a a6) as O6
      by (eapply opened_trans; [exact O5|by apply set_curseg_opened]).
    rewrite (op_logs _ _ _ O6) by done. by apply Hd.
  - intros u Hne [?|?]; [|done]. done.
  - intros _. split; rewrite ?Es7; cbn [next_blkoff alloc_type c7 upd c5]; [lia| |].
    + intros _. exact Hu.
    + intros Ha. by destruct Ha.
Qed.
End opening.

Section allocate.
Context `{SitFormatOk} `{F2fsFormat} `{BitSearchOk} `{SumFormat} `{VictimSelection} `{!VictimSelectionOk}.
Context (cf : alloc_conf) (update : load -> outcome load) (sbi : f2fs_sb_info).
Context (Env : alloc_env cf update sbi).
#[local] Abbreviation MS := (segment_count_main sbi).
#[local] Abbreviation bps := (blocks_per_seg sbi).

(** A segment of a section not in use is not the segment of a log. *)
Lemma not_curseg P a seg u :
  alloc_inv sbi P a -> 0 <= u < 6 ->
  sec_usage_check (sbi_of a) (seg / segs_per_sec (sbi_of a)) = false -> segno (cursegs a).[u] <> seg.
Proof.
  intros I Hu Hs E. destruct (aw_sbi _ _ _ I) as [v Ev]. rewrite Ev in Hs.
  unfold sec_usage_check in Hs. apply orb_false_iff in Hs as [Hs _]. unfold IS_CURSEC in Hs. cbn in Hs.
  assert (existsb (fun s => seg / segs_per_sec sbi =? s / segs_per_sec sbi) (take 6 (map segno (cursegs a))) = true) as Ht;
    [|congruence].
  apply existsb_exists. exists (segno (cursegs a).[u]). split; [|rewrite E; apply Z.eqb_refl].
  pose proof (aw_len _ _ _ I) as Hl. rewrite take_ge by (rewrite length_map; unfold zlen in Hl; lia).
  apply in_map. apply list_elem_of_In, list_elem_of_lookup. exists (Z.to_nat u). apply lookup_aget. lia.
Qed.

Lemma try_ssr_inv types P a t :
  alloc_inv sbi P a -> 0 <= t < 6 -> (forall i, i ∈ types -> 0 <= i < 6) ->
  exists b a', try_ssr cf types a t = Done (b, a') /\
    alloc_inv sbi (fun u => P u /\ u <> t) a' /\ opened t a a' /\ hs a' = hs a /\
    (b = true -> let seg := next_segno (cursegs a').[t] in
       0 <= seg < MS /\ (forall u, 0 <= u < 6 -> segno (cursegs a').[u] <> seg) /\
       ckpt_valid_blocks (entry a' seg) < bps).
Proof.
  revert a. induction types as [|i types IH]; intros a I Ht Hi; cbn [try_ssr].
  { exists false, a. split; [done|]. split; [by eapply inv_weaken; [exact I|intros u [? _]]|].
    split; [apply opened_refl|done]. }
  destruct (get_victim_ssr (gconf cf) (gst a) i (aw_gc _ _ _ I)) as (b & seg & g' & -> & F & Wg & Hb);
    [apply Hi; by left|]. cbn [obind fst snd].
  set (a1 := a <| gst := g' |>). assert (alloc_inv sbi P a1) as I1 by (by apply set_gst_inv).
  assert (opened t a a1) as O1.
  { split; [|done|done]. intros k. unfold sm_of. cbn. destruct F as [_ (mm & ->)]. by split_and!. }
  destruct (inv_geom sbi _ _ I) as (EM & EB & ES & _).
  destruct b.
  - destruct (Hb eq_refl) as (Hr & Hu & Hc). fold (sbi_of a) in Hr, Hu, Hc. rewrite EM in Hr. rewrite EB in Hc.
    set (c := (CURSEG_I a1 t) <| next_segno := seg |>). pose proof (aw_len _ _ _ I1) as L1.
    assert (alloc_inv sbi (fun u => P u /\ u <> t) (set_curseg a1 t c)) as I2 by (by apply store_curseg_inv).
    assert (opened t a (set_curseg a1 t c)) as O2 by (eapply opened_trans; [exact O1|by apply set_curseg_opened]).
    exists true, (set_curseg a1 t c). split; [done|]. split; [done|]. split; [done|]. split; [done|]. intros _.
    rewrite set_curseg_get by done. change (next_segno c) with seg. split; [done|]. split.
    + intros u Hur E. apply (not_curseg P a seg u I Hur Hu). destruct (decide (u = t)) as [->|].
      * by rewrite set_curseg_get in E by done.
      * by rewrite (op_logs _ _ _ O2) in E by done.
    + destruct (op_sit _ _ _ O2 seg) as (_ & Ec & _). unfold entry. by rewrite Ec.
  - destruct (IH a1 I1 Ht) as (b & a' & E & I' & O' & Eh & Hseg); [intros j Hj; apply Hi; by right|].
    exists b, a'. split; [done|]. split; [done|]. split; [by eapply opened_trans|]. done.
Qed.

Lemma ssr_types_range t : 0 <= t < 6 -> forall i, i ∈ ssr_types t -> 0 <= i < 6.
Proof.
  intros Ht i Hi. unfold ssr_types in Hi. apply elem_of_cons in Hi as [->|Hi]; [done|].
  apply list_elem_of_In, List.filter_In in Hi as [Hi _]. repeat case_match; cbn in Hi; lia.
Qed.

Lemma allocate_segment_inv P a t force :
  alloc_inv sbi P a -> 0 <= t < 6 -> 0 < free_sections (free_i (hs a)) ->
  exists a', allocate_segment_by_default cf update a t force = Done a' /\
    alloc_inv sbi (fun u => P u \/ u = t) a' /\ opened t a a' /\ next_blkoff (cursegs a').[t] < bps.
Proof.
  intros I Ht Hf. unfold allocate_segment_by_default. pose proof (inv_bps sbi _ _ I).
  assert (forall Q a1 b, alloc_inv sbi Q a1 -> (forall u, P u \/ u = t -> Q u \/ u = t) -> opened t a a1 -> hs a1 = hs a ->
    exists a', new_curseg cf update a1 t b = Done a' /\ alloc_inv sbi (fun u => P u \/ u = t) a' /\ opened t a a' /\
      next_blkoff (cursegs a').[t] < bps) as Hnew.
  { intros Q a1 b I1 HQ O1 Eh. destruct (new_curseg_inv cf update sbi Env Q a1 t b I1 Ht) as (a' & -> & I' & O' & E & _);
      [by rewrite Eh|]. exists a'. split; [done|]. split; [by eapply inv_weaken|]. split; [by eapply opened_trans|]. lia. }
  pose proof (fun b => Hnew P a b I ltac:(done) (opened_refl t a) eq_refl) as Hn0.
  destruct force; [done|]. destruct (_ && _); [done|]. destruct (_ && is_next_segment_free _ _); [done|].
  assert (exists b a1, (if f2fs_need_SSR cf a then get_ssr_segment cf a t else Done (false, a)) = Done (b, a1) /\
    alloc_inv sbi (fun u => P u /\ u <> t) a1 /\ opened t a a1 /\ hs a1 = hs a /\
    (b = true -> let seg := next_segno (cursegs a1).[t] in
       0 <= seg < MS /\ (forall u, 0 <= u < 6 -> segno (cursegs a1).[u] <> seg) /\
       ckpt_valid_blocks (entry a1 seg) < bps)) as (b & a1 & -> & I1 & O1 & Eh & Hb).
  { destruct (f2fs_need_SSR cf a); [by apply try_ssr_inv; [..|by apply ssr_types_range]|].
    exists false, a. split; [done|]. split; [by eapply inv_weaken; [exact I|intros u [? _]]|].
    split; [apply opened_refl|done]. }
  cbn [obind fst snd]. assert (forall u, P u \/ u = t -> (P u /\ u <> t) \/ u = t) as HQ
    by (intros u [?|?]; [destruct (decide (u = t)); [by right|by left]|by right]).
  destruct b; [|by eapply Hnew].
  destruct (Hb eq_refl) as (Hr & Hd & Hc).
  destruct (change_curseg_inv cf update sbi Env _ a1 t I1 Ht Hr Hd Hc) as (a' & -> & I' & O' & Hlt & _).
  exists a'. split; [done|]. split; [by eapply inv_weaken|]. split; [by eapply opened_trans|done].
Qed.

(** ** One block *)

Lemma inv_main_block P a j off : alloc_inv sbi P a -> main_block (sbi_of a) j off = main_block sbi j off.
Proof. intros I. destruct (aw_sbi _ _ _ I) as [v ->]. done. Qed.
Lemma inv_get_segno P a j off :
  alloc_inv sbi P a -> 0 <= j < MS -> 0 <= off < bps -> GET_SEGNO (sbi_of a) (main_block sbi j off) = j.
Proof.
  intros I Hj Ho. destruct (inv_geom sbi _ _ I) as (EM & EB & _). rewrite <- (inv_main_block P a) by done.
  apply (get_segno_main _ (sm_of a)); [by apply (inv_sit sbi P)|by rewrite EM|by rewrite EB|].
  rewrite (inv_main_block P) by done. by apply (ae_valid _ _ _ Env).
Qed.
Lemma inv_next_addr P a t :
  alloc_inv sbi P a -> 0 <= t < 6 -> 0 <= next_blkoff (cursegs a).[t] < bps ->
  NEXT_FREE_BLKADDR a (cursegs a).[t] = main_block sbi (segno (cursegs a).[t]) (next_blkoff (cursegs a).[t]).
Proof.
  intros I Ht Ho. destruct (inv_geom sbi _ _ I) as (EM & EB & _). destruct (aw_seg _ _ _ I t Ht) as [Hr _].
  pose proof (tw_geom _ _ (inv_sit sbi _ _ I)) as G. unfold NEXT_FREE_BLKADDR.
  rewrite START_BLOCK_main by (rewrite ?EM, ?EB; done). rewrite (inv_main_block P) by done.
  rewrite <- (inv_main_block P a) by done. apply u32_id.
  pose proof (main_block_range _ G (segno (cursegs a).[t]) (next_blkoff (cursegs a).[t])) as Hm.
  rewrite EM, EB in Hm. pose proof (gw_top _ G) as Htop. rewrite EM, EB in Htop.
  pose proof (gw_main _ G). pose proof (gw_seg0 _ G). pose proof (gw_start _ G). pose proof (bps_pos _ G). nia.
Qed.

(** A valid block lies in a segment in use. *)
Lemma valid_inuse P a j off :
  alloc_inv sbi P a -> 0 <= j < MS -> 0 <= off < bps -> cur_bit (entry a j) off = true -> inuse a j = true.
Proof.
  intros I Hj Ho Hc. destruct (inuse a j) eqn:E; [done|].
  pose proof (used_zero sbi P a j off I Hj (aw_free _ _ _ I j Hj E) Ho) as Hu. unfold used_bit in Hu.
  by rewrite Hc in Hu.
Qed.

(** The bitmaps of [a'] are those of [a] with block [off] of segment [j] set to [b]. *)
Definition block_set (a a' : allocator) (j off : Z) (b : bool) : Prop :=
  forall k o, 0 <= k < MS -> 0 <= o ->
    cur_bit (entry a' k) o = if (k =? j) && (o =? off) then b else cur_bit (entry a k) o.

Lemma update_block_inv P a now j off del :
  alloc_inv sbi P a -> 0 <= j < MS -> 0 <= off < bps -> inuse a j = true ->
  (del = 1 /\ cur_bit (entry a j) off = false) \/ (del = -1 /\ cur_bit (entry a j) off = true) ->
  (forall t, 0 <= t < 6 -> P t -> segno (cursegs a).[t] = j -> del = 1 -> off < next_blkoff (cursegs a).[t]) ->
  let a' := set_sm a (fun sm => update_sit_entry (sbi_of a) sm now (main_block sbi j off) del) in
  alloc_inv sbi P a' /\ block_set a a' j off (0 <? del).
Proof.
  intros I Hj Ho Hin Hd Hlog a'. destruct (inv_geom sbi _ _ I) as (EM & EB & _).
  pose proof (inv_sit sbi _ _ I) as W. pose proof (tw_len _ _ W) as Hl. rewrite EM in Hl.
  assert (is_valid_blkaddr (main_block (sbi_of a) j off) = true) as Hv
    by (rewrite (inv_main_block P) by done; by apply (ae_valid _ _ _ Env)).
  destruct (update_wf (sbi_of a) (sm_of a) W now j off) with (del := del) as (W' & _ & Ed & _ & se' & Es & St & _);
    rewrite ?EM, ?EB; try done.
  destruct (update_sit_entry_eq (sbi_of a) (sm_of a) W now j off) with (del := del) as (mt & Eu & _);
    rewrite ?EM, ?EB; try done.
  rewrite (inv_main_block P) in W', Ed, Es, Eu by done. fold (entry a j) in St, Eu.
  assert (forall k, entry a' k = if j =? k then se' else entry a k) as Hk
    by (intros k; unfold entry;
        change (sm_of a') with (update_sit_entry (sbi_of a) (sm_of a) now (main_block sbi j off) del);
        rewrite Es; apply aget_aset; lia).
  assert (maps_ok se') as Hm.
  { rewrite Eu in Es. pose proof (f_equal (fun l => l.[j]) Es) as E'. cbn beta in E'.
    rewrite !aget_aset_eq in E' by lia. rewrite <- E'. by apply se_update_maps, (aw_maps _ _ _ I). }
  destruct St as (Ety & _ & _ & _ & Hcur & Hck).
  assert (forall k o, 0 <= k < MS -> 0 <= o -> k <> j \/ o <> off \/ del = -1 -> used_bit (entry a k) o = false ->
    used_bit (entry a' k) o = false) as Hub.
  { intros k o Hkr Hor Hne Hf. rewrite Hk. destruct (Z.eqb_spec j k) as [->|]; [|done].
    unfold used_bit in *. apply orb_false_iff in Hf as [F1 F2]. rewrite Hcur, Hck, F1, F2 by done.
    destruct (Z.eqb_spec o off) as [->|]; [|done]. destruct Hne as [?|[?| ->]]; done. }
  pose proof I as [[v Esbi] Hlen Hg Hh Hf Hse Hbl Hdi Hmaps]. split; [split|].
  - by exists v.
  - done.
  - destruct Hg as [Ws Wd Wlv Wr Wsm]. split; try done. cbn. unfold sm_of in Ed. by rewrite Ed.
  - done.
  - intros k Hkr Hi. rewrite Hk. destruct (Z.eqb_spec j k) as [->|]; [|by apply Hf].
    change (inuse a k = false) in Hi. congruence.
  - done.
  - intros t Ht Hp. change (cursegs a') with (cursegs a). destruct (Hbl t Ht Hp) as [B1 B2 B3].
    assert (forall o, 0 <= o -> next_blkoff (cursegs a).[t] <= o -> used_bit (entry a (segno (cursegs a).[t])) o = false ->
      used_bit (entry a' (segno (cursegs a).[t])) o = false) as Hahead.
    { intros o Hor Hno. apply Hub; [by apply (Hse t Ht)|done|].
      destruct (decide (segno (cursegs a).[t] = j)) as [E|]; [right|by left].
      destruct Hd as [[-> _]|[-> _]]; [left|by right]. pose proof (Hlog t Ht Hp E eq_refl). lia. }
    split; [done| |].
    + intros Hlt. apply Hahead; [lia|lia|auto].
    + intros Ha k Hkr. apply Hahead; [lia|lia|auto].
  - done.
  - intros k Hkr. rewrite Hk. destruct (j =? k); [done|]. by apply Hmaps.
  - intros k o Hkr Hor. rewrite Hk, (Z.eqb_sym k). destruct (Z.eqb_spec j k) as [->|]; [|done].
    rewrite Hcur by done. by destruct (o =? off).
Qed.

(** The position after the one just taken. *)
Lemma refresh_inv P a t :
  alloc_inv sbi P a -> P t -> 0 <= t < 6 -> next_blkoff (cursegs a).[t] < bps ->
  let c := (cursegs a).[t] in
  exists off, __refresh_next_blkoff (sbi_of a) (entry a (segno c)) (alloc_type c =? SSR) (next_blkoff c) = Done off /\
    next_blkoff c < off /\ alloc_inv sbi P (set_curseg a t (c <| next_blkoff := off |>)).
Proof.
  intros I HP Ht Hlt c. pose proof (inv_bps sbi _ _ I). destruct (aw_seg _ _ _ I t Ht) as [Hr Hin].
  destruct (aw_blk _ _ _ I t Ht HP) as [B1 B2 B3]. fold c in Hlt, Hr, Hin, B1, B2, B3.
  assert (forall off, next_blkoff c < off <= bps -> (off < bps -> used_bit (entry a (segno c)) off = false) ->
    alloc_inv sbi P (set_curseg a t (c <| next_blkoff := off |>))) as Hset.
  { intros off Ho Hu. apply (set_curseg_inv sbi P); try done.
    - intros u Hur Hne E. apply Hne. by apply (aw_distinct _ _ _ I).
    - intros _. split; cbn [next_blkoff segno alloc_type upd]; [lia|done|].
      intros Ha k Hk. apply B3; [done|lia]. }
  unfold __refresh_next_blkoff. destruct (Z.eqb_spec (alloc_type c) SSR) as [Es|Es].
  - destruct (ssr_offset cf update sbi Env P a (segno c) (next_blkoff c + 1) I Hr ltac:(lia)) as (r & -> & Hf & _).
    cbn [obind]. destruct Hf as [-> |[Hrr Hu]]; rewrite u16_id by lia; eexists; (split; [done|]);
      (split; [lia|]); apply Hset; (lia || done).
  - rewrite u16_id by lia. eexists. split; [done|]. split; [lia|]. apply Hset; [lia|]. intros Hlt'. by apply B3; [|lia].
Qed.

Lemma locate_inv P a j :
  alloc_inv sbi P a -> 0 <= j < MS \/ j = NULL_SEGNO ->
  let a' := set_sm a (fun sm => locate_dirty_segment (sbi_of a) sm j) in
  alloc_inv sbi P a' /\ same_sit (sit (sm_of a)) (sit (sm_of a')).
Proof.
  intros I Hj a'. destruct (inv_geom sbi _ _ I) as (EM & _). pose proof (inv_small sbi _ _ I).
  destruct (locate_wf (sbi_of a) (sm_of a) j (inv_sit sbi _ _ I)) as [Es Ed];
    rewrite ?EM; try done; [by apply (inv_dirty sbi _ _ I)|lia|]. rewrite EM in Ed.
  assert (same_sit (sit (sm_of a)) (sit (sm_of a'))) as Hs.
  { change (sm_of a') with (locate_dirty_segment (sbi_of a) (sm_of a) j). rewrite Es. apply same_sit_refl. }
  split; [|done]. apply set_sm_inv; try done. rewrite Es. by apply (inv_sit sbi _ _ I).
Qed.

(** Bitmaps through a step that keeps the blocks. *)
Lemma same_sit_bit a a' k o : same_sit (sit (sm_of a)) (sit (sm_of a')) -> cur_bit (entry a' k) o = cur_bit (entry a k) o.
Proof. intros S. destruct (S k) as (_ & _ & E & _). unfold cur_bit, entry. by rewrite E. Qed.

(** The old address of a block: none, or a valid block of the main area. *)
Definition old_ok (a : allocator) (old : Z) : Prop :=
  is_valid_blkaddr old = false \/
  exists j off, old = main_block sbi j off /\ 0 <= j < MS /\ 0 <= off < bps /\ cur_bit (entry a j) off = true.
Lemma old_segno P a a' old :
  alloc_inv sbi P a' -> old_ok a old ->
  (GET_SEGNO (sbi_of a') old = NULL_SEGNO /\ is_valid_blkaddr old = false) \/
  exists j off, old = main_block sbi j off /\ 0 <= j < MS /\ 0 <= off < bps /\ cur_bit (entry a j) off = true /\
    GET_SEGNO (sbi_of a') old = j /\ j <> NULL_SEGNO.
Proof.
  intros I [Hv|(j & off & -> & Hj & Ho & Hc)].
  - left. unfold GET_SEGNO. by rewrite Hv.
  - right. exists j, off. do 4 (split; [done|]). split; [by apply (inv_get_segno P)|].
    pose proof (inv_small sbi _ _ I). change NULL_SEGNO with 4294967295. lia.
Qed.

(** Both updates of the SIT: the new block becomes valid, the old one invalid. *)
Lemma move_block_inv a now old j off :
  alloc_wf sbi a -> old_ok a old -> 0 <= j < MS -> 0 <= off < bps -> inuse a j = true ->
  cur_bit (entry a j) off = false ->
  (forall t, 0 <= t < 6 -> segno (cursegs a).[t] = j -> off < next_blkoff (cursegs a).[t]) ->
  let a1 := set_sm a (fun sm => update_sit_entry (sbi_of a) sm now (main_block sbi j off) 1) in
  let a2 := if negb (GET_SEGNO (sbi_of a1) old =? NULL_SEGNO)
            then set_sm a1 (fun sm => update_sit_entry (sbi_of a1) sm now old (-1)) else a1 in
  alloc_wf sbi a2 /\ cursegs a2 = cursegs a /\ hs a2 = hs a /\
  forall k o, 0 <= k < MS -> 0 <= o < bps ->
    cur_bit (entry a2 k) o = if (k =? j) && (o =? off) then true
                             else if main_block sbi k o =? old then false else cur_bit (entry a k) o.
Proof.
  intros I Hold Hj Ho Hin Hc Hlog a1 a2.
  destruct (update_block_inv (fun _ => True) a now j off 1 I Hj Ho Hin) as [I1 S1]; [by left|by auto|]. fold a1 in I1, S1.
  change (0 <? 1) with true in S1.
  assert (forall k o, 0 <= k < MS -> 0 <= o < bps -> is_valid_blkaddr old = false -> main_block sbi k o <> old) as Hne
    by (intros k o Hk Hor Hv <-; by rewrite (ae_valid _ _ _ Env) in Hv).
  destruct (old_segno _ a a1 old I1 Hold) as [[E Hv]|(jo & oo & Eold & Hjo & Hoo & Hbit & Eseg & Hnull)].
  - assert (a2 = a1) as -> by (unfold a2; rewrite E; done). split_and!; try done.
    intros k o Hk Hor. rewrite S1 by (done || lia). destruct (_ && _); [done|].
    destruct (Z.eqb_spec (main_block sbi k o) old) as [Em|]; [by destruct (Hne k o)|done].
  - assert (cur_bit (entry a1 jo) oo = true) as Hbit1
      by (rewrite S1 by (done || lia); by destruct (_ && _)).
    destruct (update_block_inv (fun _ => True) a1 now jo oo (-1) I1 Hjo Hoo) as [I2 S2];
      [by eapply valid_inuse|by right|done|].
    assert (a2 = set_sm a1 (fun sm => update_sit_entry (sbi_of a1) sm now (main_block sbi jo oo) (-1))) as E2.
    { unfold a2. rewrite Eseg. apply Z.eqb_neq in Hnull. rewrite Hnull, <- Eold. done. }
    rewrite <- E2 in I2, S2. change (0 <? -1) with false in S2.
    split; [done|]. rewrite E2. split; [done|]. split; [done|]. rewrite <- E2.
    intros k o Hk Hor. rewrite S2, S1 by (done || lia).
    pose proof (tw_geom _ _ (inv_sit sbi _ _ I)) as G. destruct (inv_geom sbi _ _ I) as (_ & EB & _).
    assert ((main_block sbi k o =? old) = ((k =? jo) && (o =? oo))) as ->.
    { rewrite Eold. unfold main_block. destruct (Z.eqb_spec k jo) as [->|], (Z.eqb_spec o oo) as [->|]; cbn [andb];
        [apply Z.eqb_refl|apply Z.eqb_neq..]; nia. }
    destruct (Z.eqb_spec k jo) as [->|], (Z.eqb_spec o oo) as [->|]; cbn [andb]; try done.
    destruct (Z.eqb_spec jo j) as [->|], (Z.eqb_spec oo off) as [->|]; cbn [andb]; try done. congruence.
Qed.

Lemma allocate_block_ok a now old sum t :
  alloc_wf sbi a -> 0 <= t < 6 -> next_blkoff (cursegs a).[t] < bps -> 0 < free_sections (free_i (hs a)) ->
  old_ok a old ->
  let j := segno (cursegs a).[t] in
  let off := next_blkoff (cursegs a).[t] in
  exists a', f2fs_allocate_data_block cf update a now old sum t = Done (main_block sbi j off, a') /\
    alloc_wf sbi a' /\ next_blkoff (cursegs a').[t] < bps /\ (forall k, inuse a k = true -> inuse a' k = true) /\
    forall k o, 0 <= k < MS -> 0 <= o < bps ->
      cur_bit (entry a' k) o = if (k =? j) && (o =? off) then true
                               else if main_block sbi k o =? old then false else cur_bit (entry a k) o.
Proof.
  intros I Ht Hlt Hfree Hold j off. destruct (aw_blk _ _ _ I t Ht Logic.I) as [B1 B2 _]. fold j off in B1, B2, Hlt.
  destruct (aw_seg _ _ _ I t Ht) as [Hj Hin]. fold j in Hj, Hin. unfold f2fs_allocate_data_block.
  change (CURSEG_I a t) with (cursegs a).[t]. rewrite (inv_next_addr (fun _ => True)) by (done || lia). fold j off.
  unfold __add_sum_entry. set (c1 := (CURSEG_I a t) <| sum_blk ::= _ |>). set (a1 := set_curseg a t c1).
  assert (alloc_wf sbi a1) as I1.
  { apply (set_curseg_inv sbi (fun _ => True)); try done.
    - intros u Hu Hne E. apply Hne. by apply (aw_distinct _ _ _ I).
    - intros _. destruct (aw_blk _ _ _ I t Ht Logic.I). by split. }
  assert ((cursegs a1).[t] = c1) as Ec1 by (apply set_curseg_get; [done|apply (aw_len _ _ _ I)]).
  destruct (refresh_inv (fun _ => True) a1 t I1 Logic.I Ht) as (off' & Er & Hgt & I2); [by rewrite Ec1|].
  rewrite Ec1 in Er, Hgt, I2. unfold CURSEG_I at 1 2 3. rewrite Ec1.
  change (get_seg_entry (sm_of a1) (segno c1)) with (entry a1 (segno c1)). rewrite Er. cbn [obind].
  change (CURSEG_I a1 t) with (cursegs a1).[t]. rewrite Ec1.
  set (a2 := set_curseg a1 t _) in *. pose proof (aw_len _ _ _ I1) as L1.
  assert ((cursegs a2).[t] = c1 <| next_blkoff := off' |>) as Ec2 by (by apply set_curseg_get).
  destruct (move_block_inv a2 now old j off I2 Hold Hj ltac:(lia) Hin) as (I4 & Ec & Eh & Hbits).
  { apply unused_free. by apply B2. }
  { intros u Hu Es. assert (u = t) as ->; [|by rewrite Ec2].
    apply (aw_distinct _ _ _ I2); [done..|]. by rewrite Ec2. }
  set (a3 := set_sm a2 _) in *. set (a4 := if negb _ then _ else _) in *. clearbody a4.
  assert (exists a5, (if negb (__has_curseg_space a4 t) then allocate_segment_by_default cf update a4 t false else Done a4) = Done a5 /\
    alloc_wf sbi a5 /\ opened t a4 a5 /\ next_blkoff (cursegs a5).[t] < bps) as (a5 & -> & I5 & O5 & Hlt5).
  { destruct (__has_curseg_space a4 t) eqn:Esp; cbn [negb].
    - exists a4. split; [done|]. split; [done|]. split; [apply opened_refl|]. unfold __has_curseg_space in Esp.
      destruct (inv_geom sbi _ _ I4) as (_ & EB & _). rewrite EB in Esp. unfold CURSEG_I in Esp. lia.
    - destruct (allocate_segment_inv (fun _ => True) a4 t false I4 Ht) as (a5 & E & I5 & O5 & Hlt5); [by rewrite Eh|].
      exists a5. split; [done|]. split; [eapply inv_weaken; [exact I5|by left]|]. done. }
  cbn [obind].
  assert (0 <= GET_SEGNO (sbi_of a5) old < MS \/ GET_SEGNO (sbi_of a5) old = NULL_SEGNO) as Hos.
  { destruct (old_segno _ a a5 old I5 Hold) as [[E _]|(? & ? & _ & ? & _ & _ & E & _)]; rewrite E; auto. }
  destruct (locate_inv (fun _ => True) a5 _ I5 Hos) as [I6 S6]. set (a6 := set_sm a5 _) in *.
  rewrite (inv_get_segno (fun _ => True) a6 j off I6 Hj ltac:(lia)).
  destruct (locate_inv (fun _ => True) a6 j I6 (or_introl Hj)) as [I7 S7]. set (a7 := set_sm a6 _) in *.
  exists a7. split; [done|]. split; [done|]. split; [done|]. split.
  - intros k Hk. change (inuse a5 k = true). apply (op_inuse _ _ _ O5). unfold inuse. by rewrite Eh.
  - intros k o Hk Ho. rewrite (same_sit_bit a6 a7), (same_sit_bit a5 a6), (same_sit_bit a4 a5) by (done || apply O5).
    by rewrite Hbits.
Qed.
End allocate.

(** C6. Allocating a block for a log that has room, while a section is free, ends
    without BUG, whatever path opens the next segment (next one of the section,
    SSR, new section). It returns the block the log stood before: a block of
    the main area that was neither valid nor part of the last checkpoint. After
    it that block is valid, the old one, if any, is not, no other block changed,
    no segment in use was given up, the log has room again and the invariant
    holds. (The SIT of the invariant is that of a mount with discard.) *)
Theorem f2fs_allocate_data_block_spec `{SitFormatOk} `{F2fsFormat} `{BitSearchOk} `{SumFormat} `{VictimSelection}
    `{!VictimSelectionOk} cf update sbi a now old sum t :
  alloc_env cf update sbi -> alloc_wf sbi a -> 0 <= t < 6 ->
  next_blkoff (CURSEG_I a t) < blocks_per_seg sbi -> 0 < free_sections (free_i (hs a)) -> old_ok sbi a old ->
  let j := segno (CURSEG_I a t) in
  let off := next_blkoff (CURSEG_I a t) in
  used_bit (entry a j) off = false /\
  exists a', f2fs_allocate_data_block cf update a now old sum t = Done (main_block sbi j off, a') /\
    alloc_wf sbi a' /\ next_blkoff (CURSEG_I a' t) < blocks_per_seg sbi /\
    (forall k, inuse a k = true -> inuse a' k = true) /\
    forall k o, 0 <= k < segment_count_main sbi -> 0 <= o < blocks_per_seg sbi ->
      cur_bit (entry a' k) o = if (k =? j) && (o =? off) then true
                               else if main_block sbi k o =? old then false else cur_bit (entry a k) o.
Proof.
  intros Env I Ht Hlt Hfree Hold j off. split; [|by apply allocate_block_ok].
  destruct (aw_blk _ _ _ I t Ht Logic.I) as [_ B2 _]. by apply B2.
Qed.

#[local] Existing Instances linux_format linux_format_ok scan_search scan_search_ok linux_sit linux_sit_ok.
#[local] Instance linux_sum : SumFormat := {| SUM_TYPE_NODE := 1; SUM_TYPE_DATA := 0 |}.

(** Sixteen segments in sections of two; log [t] is in segment [2t]. The hot
    data log has written blocks 0 to 2 of its segment, 0 and 1 of them before the
    last checkpoint. *)
Definition alloc_sbi : f2fs_sb_info := {|
  blocks_per_seg := 4; log_blocks_per_seg := 2; segs_per_sec := 2;
  seg0_blkaddr := 8; main_blkaddr := 16; segment_count_main := 16; start_segno := 2;
  curseg_segno := [0; 2; 4; 6; 8; 10]; cur_victim_sec := -1;
|}.
Definition alloc_demo_conf : alloc_conf :=
  demo_aconf <| gconf := {| sbi_gc_mode := GC_NORMAL; max_victim_search := 16; opt_noheap := false; MAIN_SECS := 8 |} |>.
Definition alloc_nsb : nvm_super_block := {|
  uuid := []; mpt_blkaddr := 16; ra_blkaddr := 24; nsb_main_blkaddr := 24;
  lfu_blkaddr0 := 2; lfu_blkaddr1 := 3; ra_blk_nums := 0; main_first_segno := 4;
  main_segment_nums := 3; main_segment_free_nums := 3; mpt_ver_map_bits := 1;
  mpt_entries := 19;
|}.
Definition alloc_hoit : hoit :=
  mk_hoit (@init_nvm_sb_info linux_format alloc_sbi 0 alloc_nsb) (mk_free 10 2 1365 63).
Definition alloc_se (t : Z) : seg_entry := mk_se t 0 0 (replicate 64 0) (replicate 64 0) (replicate 64 0) 0.
Definition alloc_se0 : seg_entry := (alloc_se 0) <| valid_blocks := 3 |> <| ckpt_valid_blocks := 3 |>
  <| cur_valid_map := 224 :: replicate 63 0 |> <| ckpt_valid_map := 192 :: replicate 63 0 |>.
Definition alloc_gc : gc_state :=
  mk_gc alloc_sbi
    (mk_sm (mk_sit 0 0 3 [] 0 0 (alloc_se0 :: map (fun j => alloc_se (if j <? 12 then j / 2 else 1)) (seqZ 1 15))
        [3; 0; 0; 0; 0; 0; 0; 0] 0 0 0)
      (mk_dirty (replicate 8 0) (replicate 8 0) 0) true 0 false)
    [0; 0; 0; 0] 0.
Definition alloc_demo : allocator :=
  mk_alloc alloc_gc
    (mk_curseg inhabitant LFS 0 3 0 NULL_SEGNO ::
     map (fun t => mk_curseg inhabitant LFS (2 * t) 0 t NULL_SEGNO) [1; 2; 3; 4; 5])
    alloc_hoit (fun _ => inhabitant) (mk_load_state 0 0 3 1 0 0 0 0 0 0 0).

Lemma alloc_hoit_wf : hoit_wf alloc_sbi alloc_hoit.
Proof.
  assert (mpt_wf alloc_sbi (nsbi alloc_hoit)) as W by (apply init_mpt_wf; cbn; try done; apply linux_format_ok).
  split; [done| |..].
  - split; try done; [by exists 8| |].
    + intros j Hj. enum j Hj; by vm_compute.
    + intros c Hc. change (0 <= c * 2 < 16) in Hc. assert (0 <= c < 8) as Hr by lia. clear Hc.
      enum c Hr; intros Hb; first [discriminate Hb|
        match goal with |- exists j, _ /\ _ = ?c /\ _ => exists (2 * c); by vm_compute end].
  - intros j Hj Hx. exfalso. apply Hx. unfold in_main in Hj. clear W Hx. enum j Hj; by vm_compute.
  - intros i _. cbn. by rewrite test_bit_0.
Qed.

Lemma alloc_demo_sit : sit_wf alloc_sbi (sit (g_sm alloc_gc)).
Proof.
  split; try done.
  - intros j Hj. enum j Hj; by split; vm_compute.
  - exists 8. split_and!; [done|done|]. intros _. split; [done|]. intros c Hc. enum c Hc; by vm_compute.
Qed.
Lemma alloc_demo_gc : gc_wf alloc_gc.
Proof.
  split; try done.
  - apply alloc_demo_sit.
  - split; try done. intros t Ht. enum t Ht; by vm_compute.
  - intros m Hm. enum m Hm; by vm_compute.
Qed.
Lemma alloc_demo_wf : alloc_wf alloc_sbi alloc_demo.
Proof.
  split.
  - by exists (-1).
  - done.
  - apply alloc_demo_gc.
  - apply alloc_hoit_wf.
  - intros j Hj. enum j Hj; intros Hi; first [discriminate Hi|by vm_compute].
  - intros t Ht. enum t Ht; by split; vm_compute.
  - intros t Ht _. enum t Ht; (split; [by vm_compute|by vm_compute|]); intros _ k Hk;
      assert (0 <= k < 4) as Hr by (split; [etransitivity; [|apply Hk]; by vm_compute|apply Hk]);
      enum k Hr; first [by vm_compute|by destruct (proj1 Hk)].
  - intros t u Ht Hu. enum t Ht; enum u Hu; intros E; (reflexivity || discriminate E).
  - intros j Hj. enum j Hj; (split; [by vm_compute|by vm_compute|..]); unfold bytes; vm_compute;
      repeat (constructor; [by split|]); constructor.
Qed.
Lemma alloc_demo_env : alloc_env alloc_demo_conf Done alloc_sbi.
Proof.
  split; try done; [by intros l; exists l|].
  intros j off Hj Ho. enum j Hj; enum off Ho; by vm_compute.
Qed.

(** The last block of segment 0 replaces its block 0; the log moves on to segment 1. *)
Lemma f2fs_allocate_data_block_spec_witness :
  exists a', f2fs_allocate_data_block alloc_demo_conf Done alloc_demo 0 16 [7] 0 = Done (19, a') /\
    alloc_wf alloc_sbi a' /\ cur_bit (entry a' 0) 0 = false /\ cur_bit (entry a' 0) 3 = true.
Proof.
  destruct (f2fs_allocate_data_block_spec alloc_demo_conf Done alloc_sbi alloc_demo 0 16 [7] 0 alloc_demo_env alloc_demo_wf)
    as (_ & a' & E & W & _ & _ & Hb); [lia|by vm_compute|by vm_compute| |].
  { right. exists 0, 0. by vm_compute. }
  exists a'. split; [exact E|]. split; [exact W|]. split; by rewrite Hb by (cbn; lia).
Defined.
