(* ===== verification/NodePath.v ===== *)
(** * Where a file block is in the node tree ([node.c], [node.h], [gc.c], [super.c])

    An inode indexes data blocks directly, through two direct nodes, two
    indirect nodes and one double indirect node. get_node_path computes the
    slots and node offsets on the way to a block; the node offsets number the
    full tree in preorder. f2fs_start_bidx_of_node goes back from a node to its
    first block, f2fs_get_next_page_offset skips the blocks below a missing
    node. *)
From S2P Require Import Prelude Geometry Heap Mpt FreeMap.
Open Scope Z_scope.

(** Constants of [<linux/f2fs_fs.h>] *)
Class NodeFormat := {
  ADDRS_PER_BLOCK : Z;
  NIDS_PER_BLOCK : Z;
  DEF_ADDRS_PER_INODE : Z;
  CUR_ADDRS_PER_INODE : Z -> Z;  (* of get_extra_isize *)
  NODE_DIR1_BLOCK : Z;
  NODE_DIR2_BLOCK : Z;
  NODE_IND1_BLOCK : Z;
  NODE_IND2_BLOCK : Z;
  NODE_DIND_BLOCK : Z;
  OFFSET_BIT_SHIFT : Z;
}.
Class NodeFormatOk `{NodeFormat} : Prop := {
  addrs_range : 1 <= ADDRS_PER_BLOCK <= 1024;
  nids_range : 1 <= NIDS_PER_BLOCK <= 1024;
  node_slots : NODE_DIR2_BLOCK = NODE_DIR1_BLOCK + 1 /\ NODE_IND1_BLOCK = NODE_DIR1_BLOCK + 2 /\
    NODE_IND2_BLOCK = NODE_DIR1_BLOCK + 3 /\ NODE_DIND_BLOCK = NODE_DIR1_BLOCK + 4;
  offset_shift : OFFSET_BIT_SHIFT = 3;
}.
Definition linux_node : NodeFormat := {|
  ADDRS_PER_BLOCK := 1018; NIDS_PER_BLOCK := 1018; DEF_ADDRS_PER_INODE := 923;
  CUR_ADDRS_PER_INODE := fun extra => 923 - extra;
  NODE_DIR1_BLOCK := 924; NODE_DIR2_BLOCK := 925; NODE_IND1_BLOCK := 926; NODE_IND2_BLOCK := 927;
  NODE_DIND_BLOCK := 928; OFFSET_BIT_SHIFT := 3;
|}.
Lemma linux_node_ok : @NodeFormatOk linux_node.
Proof. split; done. Qed.

Definition E2BIG : Z := 7.

Section node_path.
Context `{NodeFormat}.

(** The fields of an inode that say how many addresses it holds. *)
Record inode := mk_inode { i_extra_isize : Z; i_inline_xattr_size : Z }.
Definition get_extra_isize (i : inode) : Z := i_extra_isize i / 4.
Definition get_inline_xattr_addrs (i : inode) : Z := i_inline_xattr_size i.
Definition addrs_per_inode (i : inode) : Z := u32 (CUR_ADDRS_PER_INODE (get_extra_isize i) - get_inline_xattr_addrs i).

(** get_node_path: the level (or an error), offset[0..level] and noffset[0..level] *)
Definition get_node_path (i : inode) (block : Z) : Z * list Z * list Z :=
  let direct_index := addrs_per_inode i in
  let direct_blks := ADDRS_PER_BLOCK in
  let dptrs_per_blk := NIDS_PER_BLOCK in
  let indirect_blks := ADDRS_PER_BLOCK * NIDS_PER_BLOCK in
  let dindirect_blks := indirect_blks * NIDS_PER_BLOCK in
  if block <? direct_index then (0, [block], [0]) else
  let block := block - direct_index in
  if block <? direct_blks then (1, [NODE_DIR1_BLOCK; block], [0; 1]) else
  let block := block - direct_blks in
  if block <? direct_blks then (1, [NODE_DIR2_BLOCK; block], [0; 2]) else
  let block := block - direct_blks in
  if block <? indirect_blks then
    let o1 := block / direct_blks in
    (2, [NODE_IND1_BLOCK; o1; block mod direct_blks], [0; 3; u32 (4 + o1)]) else
  let block := block - indirect_blks in
  if block <? indirect_blks then
    let o1 := block / direct_blks in
    (2, [NODE_IND2_BLOCK; o1; block mod direct_blks],
        [0; u32 (4 + dptrs_per_blk); u32 (5 + dptrs_per_blk + o1)]) else
  let block := block - indirect_blks in
  if block <? dindirect_blks then
    let o1 := block / indirect_blks in
    let o2 := (block / direct_blks) mod dptrs_per_blk in
    (3, [NODE_DIND_BLOCK; o1; o2; block mod direct_blks],
        [0; u32 (5 + dptrs_per_blk * 2); u32 (6 + dptrs_per_blk * 2 + o1 * (dptrs_per_blk + 1));
         u32 (7 + dptrs_per_blk * 2 + o1 * (dptrs_per_blk + 1) + o2)])
  else (- E2BIG, [], [0]).

Definition max_file_blocks : Z :=
  let leaf_count := ADDRS_PER_BLOCK in
  let result := leaf_count * 2 in
  let leaf_count := leaf_count * NIDS_PER_BLOCK in
  let result := result + leaf_count * 2 in
  let leaf_count := leaf_count * NIDS_PER_BLOCK in
  result + leaf_count.

Definition f2fs_start_bidx_of_node (node_ofs : Z) (i : inode) : Z :=
  let indirect_blks := u32 (2 * NIDS_PER_BLOCK + 4) in
  if node_ofs =? 0 then 0 else
  let bidx :=
    if node_ofs <=? 2 then u32 (node_ofs - 1)
    else if node_ofs <=? indirect_blks then
      let dec := s32 (u32 (node_ofs - 4) / (NIDS_PER_BLOCK + 1)) in u32 (node_ofs - 2 - dec)
    else
      let dec := s32 (u32 (node_ofs - indirect_blks - 3) / (NIDS_PER_BLOCK + 1)) in u32 (node_ofs - 5 - dec) in
  u32 (bidx * ADDRS_PER_BLOCK + addrs_per_inode i).

Definition XATTR_NODE_OFFSET : Z := Z.shiftr (u32 (Z.shiftl 4294967295 OFFSET_BIT_SHIFT)) OFFSET_BIT_SHIFT.
Definition f2fs_has_xattr_block (ofs : Z) : bool := ofs =? XATTR_NODE_OFFSET.
(** IS_DNODE of the node with offset [ofs] *)
Definition IS_DNODE (ofs : Z) : bool :=
  if f2fs_has_xattr_block ofs then true
  else if (ofs =? 3) || (ofs =? 4 + NIDS_PER_BLOCK) || (ofs =? 5 + 2 * NIDS_PER_BLOCK) then false
  else if 6 + 2 * NIDS_PER_BLOCK <=? ofs then
    nz (u32 (ofs - (6 + 2 * NIDS_PER_BLOCK)) mod (NIDS_PER_BLOCK + 1))
  else true.

(** [while (max_level-- > cur_level) skipped_unit *= NIDS_PER_BLOCK] *)
Fixpoint skip_unit (n : nat) (skipped_unit : Z) : Z :=
  match n with O => skipped_unit | S n => skip_unit n (u32 (skipped_unit * NIDS_PER_BLOCK)) end.
Definition f2fs_get_next_page_offset (i : inode) (cur_level max_level pgofs : Z) : outcome Z :=
  let direct_index := addrs_per_inode i in
  let direct_blks := ADDRS_PER_BLOCK in
  let indirect_blks := ADDRS_PER_BLOCK * NIDS_PER_BLOCK in
  if max_level =? 0 then Done (pgofs + 1)
  else
    let skipped_unit := skip_unit (Z.to_nat (max_level - cur_level)) ADDRS_PER_BLOCK in
    base <-- (if max_level =? 3 then Done (2 * indirect_blks + 2 * direct_blks + direct_index)
              else if max_level =? 2 then Done (2 * direct_blks + direct_index)
              else if max_level =? 1 then Done direct_index
              else Bug) ;;
    Done (((pgofs - base) / skipped_unit + 1) * skipped_unit + base).
End node_path.

(** ** The full tree and its preorder numbering *)

Section tree.
Context `{NodeFormatOk}.
#[local] Abbreviation A := ADDRS_PER_BLOCK.
#[local] Abbreviation N := NIDS_PER_BLOCK.

(** Data blocks, and nodes, of a full subtree: height 1 is a direct node. *)
Fixpoint span (h : nat) : Z := match h with O => 1 | S O => A | S h => span h * N end.
Fixpoint size (h : nat) : Z := match h with O => 0 | S h => 1 + N * size h end.
(** From the node with number [p] and height [h] to its data block [b]: the
    slots taken and the numbers of the nodes passed. *)
Fixpoint descend (h : nat) (p b : Z) : list Z * list Z :=
  match h with
  | O => ([], [])
  | S O => ([b], [p])
  | S h =>
      let c := b / span h in
      let r := descend h (p + 1 + c * size h) (b mod span h) in
      (c :: fst r, p :: snd r)
  end.
(** The trees below the inode, in order. *)
Fixpoint from_slots (hs : list nat) (slot p b : Z) : option (list Z * list Z) :=
  match hs with
  | [] => None
  | h :: hs =>
      if b <? span h then let r := descend h p b in Some (slot :: fst r, 0 :: snd r)
      else from_slots hs (slot + 1) (p + size h) (b - span h)
  end.
Definition heights : list nat := [1; 1; 2; 2; 3]%nat.
Definition tree_path (i : inode) (block : Z) : option (list Z * list Z) :=
  if block <? addrs_per_inode i then Some ([block], [0])
  else from_slots heights NODE_DIR1_BLOCK 1 (block - addrs_per_inode i).

Lemma span_S h : span (S (S h)) = span (S h) * N.
Proof. reflexivity. Qed.
Lemma descend_S h p b : descend (S (S h)) p b =
  let c := b / span (S h) in
  let r := descend (S h) (p + 1 + c * size (S h)) (b mod span (S h)) in (c :: fst r, p :: snd r).
Proof. reflexivity. Qed.
Lemma span_pos h : 1 <= span h.
Proof.
  pose proof addrs_range. pose proof nids_range. induction h as [|[|h] IH]; [cbn; lia..|].
  rewrite span_S. nia.
Qed.
Lemma size_nonneg h : 0 <= size h.
Proof. pose proof nids_range. induction h as [|h IH]; cbn [size]; nia. Qed.

(** The numbers on a path stay within the subtree. *)
Lemma descend_range h p b k v :
  0 <= b < span h -> (snd (descend h p b)) !! k = Some v -> p <= v < p + size h.
Proof.
  pose proof nids_range. revert p b k. induction h as [|[|h] IH]; intros p b k Hb; [done|..].
  - cbn. destruct k; [|done]. intros [= <-]. lia.
  - rewrite descend_S. rewrite span_S in Hb. pose proof (span_pos (S h)). pose proof (size_nonneg (S h)).
    change (size (S (S h))) with (1 + N * size (S h)). cbv zeta. cbn [snd].
    destruct k as [|k]; [intros [= <-]; nia|]. rewrite lookup_cons. cbv iota. intros Hk. apply IH in Hk; [|apply Z.mod_pos_bound; lia].
    assert (0 <= b / span (S h) < N) as Hc by (split; [apply Z.div_pos|apply Z.div_lt_upper_bound]; lia).
    set (c := b / span (S h)) in *. assert ((c + 1) * size (S h) <= N * size (S h)) by nia. nia.
Qed.
Lemma descend_length h p b : length (snd (descend h p b)) = h /\ length (fst (descend h p b)) = h.
Proof.
  revert p b. induction h as [|[|h] IH]; intros p b; [done|done|].
  rewrite descend_S. cbv zeta. cbn [fst snd length]. destruct (IH (p + 1 + b / span (S h) * size (S h)) (b mod span (S h))). lia.
Qed.

(** Units of a lower height divide the span. *)
Lemma span_divides a h : (1 <= a <= h)%nat -> exists q, 1 <= q /\ span h = span a * q.
Proof.
  pose proof nids_range. intros [Ha Hh]. induction Hh as [|h Hh (q & Hq & E)]; [exists 1; lia|].
  destruct h as [|h]; [lia|]. exists (q * N). rewrite span_S, E. split; [nia|ring].
Qed.
Lemma div_unit b U q : 1 <= U -> 1 <= q -> b / U = b / (U * q) * q + b mod (U * q) / U.
Proof.
  intros HU Hq. rewrite (Z.div_mod b (U * q)) at 1 by nia.
  replace (U * q * (b / (U * q)) + b mod (U * q)) with (b / (U * q) * q * U + b mod (U * q)) by ring.
  by rewrite Z.div_add_l by lia.
Qed.

(** Two blocks share the node at depth [k] when they are in the same unit. *)
Lemma descend_same h p b b' k :
  0 <= b < span h -> 0 <= b' < span h -> (k < h)%nat ->
  ((snd (descend h p b)) !! k = (snd (descend h p b')) !! k <-> b / span (h - k) = b' / span (h - k)).
Proof.
  pose proof nids_range. revert p b b' k. induction h as [|[|h] IH]; intros p b b' k Hb Hb' Hk; [lia|..].
  - cbn in *. destruct k; [|lia]. cbn. rewrite !Z.div_small by lia. done.
  - rewrite !descend_S. cbv zeta. cbn [snd]. rewrite span_S in Hb, Hb'.
    pose proof (span_pos (S h)) as Hsp. destruct k as [|k].
    + cbn [lookup list_lookup Nat.sub]. rewrite span_S, !Z.div_small by lia. done.
    + change (S (S h) - S k)%nat with (S h - k)%nat. rewrite !lookup_cons. cbv iota.
      destruct (span_divides (S h - k) (S h) ltac:(lia)) as (q & Hq & Eq). pose proof (span_pos (S h - k)) as HU.
      rewrite (div_unit b (span (S h - k)) q), (div_unit b' (span (S h - k)) q), <- Eq by lia.
      set (c := b / span (S h)). set (c' := b' / span (S h)).
      assert (0 <= b mod span (S h) < span (S h)) as Hm by (apply Z.mod_pos_bound; lia).
      assert (0 <= b' mod span (S h) < span (S h)) as Hm' by (apply Z.mod_pos_bound; lia).
      assert (0 <= b mod span (S h) / span (S h - k) < q) as Hd
        by (split; [apply Z.div_pos|apply Z.div_lt_upper_bound]; lia).
      assert (0 <= b' mod span (S h) / span (S h - k) < q) as Hd'
        by (split; [apply Z.div_pos|apply Z.div_lt_upper_bound]; lia).
      destruct (decide (c = c')) as [<-|Hne].
      * rewrite (IH _ _ _ k Hm Hm') by lia. lia.
      * split; [|nia]. intros E. exfalso.
        destruct (lookup_lt_is_Some_2 (snd (descend (S h) (p + 1 + c * size (S h)) (b mod span (S h)))) k) as [v Ev];
          [rewrite (proj1 (descend_length _ _ _)); lia|].
        pose proof (descend_range _ _ _ _ _ Hm Ev). rewrite E in Ev. pose proof (descend_range _ _ _ _ _ Hm' Ev).
        pose proof (size_nonneg (S h)). nia.
Qed.

(** ** The code against the tree *)

Lemma size_1 : size 1 = 1.
Proof. cbn. lia. Qed.
Lemma size_2 : size 2 = N + 1.
Proof. cbn. lia. Qed.
Lemma size_3 : size 3 = N * (N + 1) + 1.
Proof. cbn. lia. Qed.
Lemma mod_split b : b mod (A * N) / A = (b / A) mod N /\ b mod (A * N) mod A = b mod A.
Proof.
  pose proof addrs_range. pose proof nids_range. rewrite Z.rem_mul_r by lia.
  rewrite (Z.mul_comm A), Z.div_add, Z.mod_add, Z.mod_mod, (Z.div_small (b mod A)) by
    (lia || apply Z.mod_pos_bound; lia). done.
Qed.

Lemma triple_eq (a a' : Z) (b b' c c' : list Z) : a = a' -> b = b' -> c = c' -> (a, b, c) = (a', b', c').
Proof. by intros -> -> ->. Qed.
Lemma cons_eq (x y : Z) l l' : x = y -> l = l' -> x :: l = y :: l'.
Proof. by intros -> ->. Qed.
Ltac path_eq := unfold zlen; cbn [length]; apply triple_eq; [lia|repeat apply cons_eq; (lia || done)..].

Section inode.
Context (i : inode) (Hi : 0 <= addrs_per_inode i <= 1024).
#[local] Abbreviation api := (addrs_per_inode i).

Lemma get_node_path_tree block :
  0 <= block ->
  get_node_path i block = match tree_path i block with
                          | Some (o, n) => (zlen o - 1, o, n)
                          | None => (- E2BIG, [], [0])
                          end.
Proof.
  intros Hb. pose proof addrs_range. pose proof nids_range. destruct node_slots as (S2 & S3 & S4 & S5).
  unfold get_node_path, tree_path, heights. cbn [from_slots].
  change (span 1) with A. change (span 2) with (A * N). change (span 3) with (A * N * N).
  rewrite size_1, size_2.
  destruct (Z.ltb_spec block api); [done|].
  destruct (Z.ltb_spec (block - api) A); [done|].
  destruct (Z.ltb_spec (block - api - A) A); [cbn; by rewrite S2|].
  set (b := block - api - A - A) in *.
  destruct (Z.ltb_spec b (A * N)).
  { assert (0 <= b / A < N) by (split; [apply Z.div_pos|apply Z.div_lt_upper_bound]; lia).
    cbn [descend fst snd]. change (span 1) with A. rewrite size_1, u32_id by lia. path_eq. }
  destruct (Z.ltb_spec (b - A * N) (A * N)).
  { assert (0 <= (b - A * N) / A < N) by (split; [apply Z.div_pos|apply Z.div_lt_upper_bound]; lia).
    cbn [descend fst snd]. change (span 1) with A. rewrite size_1, !u32_id by lia. path_eq. }
  set (d := b - A * N - A * N) in *. destruct (Z.ltb_spec d (A * N * N)); [|done].
  assert (0 <= d / (A * N) < N) by (split; [apply Z.div_pos|apply Z.div_lt_upper_bound]; lia).
  assert (0 < N) as HN by lia. pose proof (Z.mod_pos_bound (d / A) N HN). destruct (mod_split d) as [E1 E2].
  cbn [descend fst snd]. change (span 1) with A. change (span 2) with (A * N).
  rewrite E1, E2, size_1, size_2. set (o1 := d / (A * N)) in *. set (o2 := (d / A) mod N) in *.
  assert (0 <= o1 * (N + 1) <= 2000000) by nia. rewrite !u32_id by lia. path_eq.
Qed.

(** The five trees: first block, height, number of the root. *)
Inductive tree_slot : Z -> nat -> Z -> Prop :=
| slot_dir1 : tree_slot api 1 1
| slot_dir2 : tree_slot (api + A) 1 2
| slot_ind1 : tree_slot (api + 2 * A) 2 3
| slot_ind2 : tree_slot (api + 2 * A + A * N) 2 (N + 4)
| slot_dind : tree_slot (api + 2 * A + 2 * (A * N)) 3 (2 * N + 5).

Lemma tree_path_cases block :
  0 <= block ->
  (block < api /\ tree_path i block = Some ([block], [0])) \/
  (exists slot base h p, tree_slot base h p /\ base <= block < base + span h /\
     tree_path i block = Some (slot :: fst (descend h p (block - base)), 0 :: snd (descend h p (block - base)))) \/
  (api + max_file_blocks <= block /\ tree_path i block = None).
Proof.
  intros Hb. unfold tree_path, heights, max_file_blocks. cbn [from_slots].
  change (span 1) with A. change (span 2) with (A * N). change (span 3) with (A * N * N). rewrite size_1, size_2.
  assert (forall base0 h0 p0 slot0 b0 q0, tree_slot base0 h0 p0 -> base0 <= block < base0 + span h0 ->
    b0 = block - base0 -> q0 = p0 ->
    exists slot base h p, tree_slot base h p /\ base <= block < base + span h /\
      Some (slot0 :: fst (descend h0 q0 b0), 0 :: snd (descend h0 q0 b0))
        = Some (slot :: fst (descend h p (block - base)), 0 :: snd (descend h p (block - base)))) as Hs.
  { intros base0 h0 p0 slot0 b0 q0 Ht Hr -> ->. by exists slot0, base0, h0, p0. }
  destruct (Z.ltb_spec block api); [by left|]. right.
  destruct (Z.ltb_spec (block - api) A);
    [left; eapply (Hs _ 1%nat); [exact slot_dir1|change (span 1) with A; lia|lia|lia]|].
  destruct (Z.ltb_spec (block - api - A) A);
    [left; eapply (Hs _ 1%nat); [exact slot_dir2|change (span 1) with A; lia|lia|lia]|].
  destruct (Z.ltb_spec (block - api - A - A) (A * N));
    [left; eapply (Hs _ 2%nat); [exact slot_ind1|change (span 2) with (A * N); lia|lia|lia]|].
  destruct (Z.ltb_spec (block - api - A - A - A * N) (A * N));
    [left; eapply (Hs _ 2%nat); [exact slot_ind2|change (span 2) with (A * N); lia|lia|lia]|].
  destruct (Z.ltb_spec (block - api - A - A - A * N - A * N) (A * N * N));
    [left; eapply (Hs _ 3%nat); [exact slot_dind|change (span 3) with (A * N * N); lia|lia|lia]|].
  right. split; [lia|done].
Qed.

(** *** Back from a node to its blocks *)

Lemma start_bidx_low p : 1 <= p <= 2 -> f2fs_start_bidx_of_node p i = (p - 1) * A + api.
Proof.
  pose proof addrs_range. intros Hp. unfold f2fs_start_bidx_of_node.
  assert (p = 1 \/ p = 2) as [-> | ->] by lia; cbn [Z.eqb Z.leb Z.compare Pos.compare Pos.compare_cont];
    rewrite !u32_id by (rewrite ?u32_id; lia); lia.
Qed.
(** Direct nodes of the [k]-th indirect node, and of the double indirect one. *)
Lemma start_bidx_ind k c :
  0 <= k < 2 -> 0 <= c < N -> f2fs_start_bidx_of_node (4 + k * (N + 1) + c) i = (2 + k * N + c) * A + api.
Proof.
  pose proof addrs_range. pose proof nids_range. intros Hk Hc. unfold f2fs_start_bidx_of_node.
  assert (0 <= k * (N + 1) <= 1025) by nia. assert (0 <= k * N <= 1025) by nia.
  rewrite (u32_id (2 * N + 4)) by lia. set (q := 4 + k * (N + 1) + c).
  replace (q =? 0) with false by lia. replace (q <=? 2) with false by lia. replace (q <=? 2 * N + 4) with true by nia.
  replace (q - 4) with (k * (N + 1) + c) by lia. rewrite (u32_id (k * (N + 1) + c)) by lia.
  rewrite Z.div_add_l, (Z.div_small c) by lia. rewrite s32_id, (u32_id (q - 2 - _)) by lia.
  rewrite u32_id by nia. subst q. ring.
Qed.
Lemma start_bidx_dind c d :
  0 <= c < N -> 0 <= d < N ->
  f2fs_start_bidx_of_node (2 * N + 5 + 1 + c * (N + 1) + 1 + d) i = (2 + 2 * N + c * N + d) * A + api.
Proof.
  pose proof addrs_range. pose proof nids_range. intros Hc Hd. unfold f2fs_start_bidx_of_node.
  assert (0 <= c * (N + 1) <= 2000000) by nia. assert (0 <= c * N <= 1048576) by nia.
  rewrite (u32_id (2 * N + 4)) by lia. set (q := 2 * N + 5 + 1 + c * (N + 1) + 1 + d).
  replace (q =? 0) with false by lia. replace (q <=? 2) with false by lia. replace (q <=? 2 * N + 4) with false by lia.
  replace (q - (2 * N + 4) - 3) with (c * (N + 1) + d) by lia. rewrite (u32_id (c * (N + 1) + d)) by lia.
  rewrite Z.div_add_l, (Z.div_small d) by lia. rewrite s32_id, (u32_id (q - 5 - _)) by lia.
  assert (0 <= (q - 5 - (c + 0)) * A <= 1073741824 + 3000000) by nia.
  rewrite u32_id by lia. subst q. ring.
Qed.


Lemma slot_bidx base h p b :
  tree_slot base h p -> 0 <= b < span h ->
  exists nf o, snd (descend h p b) !! (h - 1)%nat = Some nf /\ fst (descend h p b) !! (h - 1)%nat = Some o /\
    f2fs_start_bidx_of_node nf i + o = base + b /\ 0 <= o < A.
Proof.
  pose proof addrs_range. pose proof nids_range. intros Ht Hb.
  assert (forall b, b = b / A * A + b mod A /\ 0 <= b mod A < A) as Hdm
    by (intros b'; pose proof (Z.div_mod b' A); pose proof (Z.mod_pos_bound b' A); lia).
  destruct Ht; cbn [descend fst snd]; cbn [span] in Hb;
    change (span 1) with A; change (span 2) with (A * N); rewrite ?size_1, ?size_2; eexists _, _.
  - do 2 (split; [done|]). rewrite start_bidx_low by lia. lia.
  - do 2 (split; [done|]). rewrite start_bidx_low by lia. lia.
  - do 2 (split; [done|]). assert (0 <= b / A < N) by (split; [apply Z.div_pos|apply Z.div_lt_upper_bound]; lia).
    replace (3 + 1 + b / A * 1) with (4 + 0 * (N + 1) + b / A) by lia. rewrite start_bidx_ind by lia.
    destruct (Hdm b). lia.
  - do 2 (split; [done|]). assert (0 <= b / A < N) by (split; [apply Z.div_pos|apply Z.div_lt_upper_bound]; lia).
    replace (N + 4 + 1 + b / A * 1) with (4 + 1 * (N + 1) + b / A) by lia. rewrite start_bidx_ind by lia.
    destruct (Hdm b). lia.
  - do 2 (split; [done|]). destruct (mod_split b) as [-> ->]. set (c := b / (A * N)). set (d := (b / A) mod N).
    assert (0 <= c < N) by (split; [apply Z.div_pos|apply Z.div_lt_upper_bound]; lia).
    assert (0 < N) as HN by lia. pose proof (Z.mod_pos_bound (b / A) N HN) as Hd.
    replace (2 * N + 5 + 1 + c * (N + 1) + 1 + d * 1) with (2 * N + 5 + 1 + c * (N + 1) + 1 + d) by lia.
    rewrite start_bidx_dind by done.
    assert (b / A = c * N + d) as E.
    { subst c d. rewrite <- Z.div_div by lia. pose proof (Z.div_mod (b / A) N). lia. }
    destruct (Hdm b) as [Eb Hm]. rewrite E in Eb. lia.
Qed.

Lemma is_dnode_other ofs : 0 <= ofs < 4000000 -> f2fs_has_xattr_block ofs = false.
Proof.
  intros Ho. unfold f2fs_has_xattr_block, XATTR_NODE_OFFSET. rewrite offset_shift.
  change (Z.shiftr (u32 (Z.shiftl 4294967295 3)) 3) with 536870911. lia.
Qed.
(** Only the last node of a path is a direct node. *)
Lemma slot_dnode base h p b k v :
  tree_slot base h p -> 0 <= b < span h -> (snd (descend h p b)) !! k = Some v -> IS_DNODE v = (S k =? h)%nat.
Proof.
  pose proof addrs_range. pose proof nids_range. intros Ht Hb.
  assert (forall c d, 0 <= c < N -> 0 <= d <= N -> u32 (c * (N + 1) + d) mod (N + 1) = d) as Hmod.
  { intros c d Hc Hd. assert (0 <= c * (N + 1) <= 2000000) by nia. rewrite u32_id by lia.
    rewrite Z.add_comm, Z.mod_add by lia. apply Z.mod_small. lia. }
  assert (0 < N) as HN by lia.
  assert (forall q, 0 <= q < 4000000 -> IS_DNODE q =
    (if (q =? 3) || (q =? 4 + N) || (q =? 5 + 2 * N) then false
     else if 6 + 2 * N <=? q then nz (u32 (q - (6 + 2 * N)) mod (N + 1)) else true)) as Hd
    by (intros q Hq; unfold IS_DNODE; by rewrite is_dnode_other by lia).
  assert (forall q, 0 <= q < 6 + 2 * N -> q <> 3 -> q <> 4 + N -> q <> 5 + 2 * N -> IS_DNODE q = true) as Hlow.
  { intros q Hq H3 H4 H5. rewrite Hd by lia. rewrite (proj2 (Z.eqb_neq q 3)), (proj2 (Z.eqb_neq q (4 + N))),
      (proj2 (Z.eqb_neq q (5 + 2 * N))) by done. cbn [orb]. by replace (6 + 2 * N <=? q) with false by lia. }
  assert (forall q, q = 3 \/ q = 4 + N \/ q = 5 + 2 * N -> IS_DNODE q = false) as Hind.
  { intros q Hq. rewrite Hd by lia. destruct Hq as [-> |[-> | ->]]; rewrite ?Z.eqb_refl, ?orb_true_r; done. }
  assert (forall c d, 0 <= c < N -> 0 <= d <= N -> IS_DNODE (6 + 2 * N + c * (N + 1) + d) = nz d) as Hdbl.
  { intros c d Hc Hr. assert (0 <= c * (N + 1) <= 2000000) by nia. rewrite Hd by lia.
    rewrite !(proj2 (Z.eqb_neq _ _)) by lia. cbn [orb]. replace (6 + 2 * N <=? _) with true by lia.
    replace (6 + 2 * N + c * (N + 1) + d - (6 + 2 * N)) with (c * (N + 1) + d) by lia. by rewrite Hmod. }
  clear Hd Hmod.
  destruct Ht; cbn [descend fst snd]; cbn [span] in Hb;
    change (span 1) with A; change (span 2) with (A * N); rewrite ?size_1, ?size_2.
  - destruct k; [|done]. intros [= <-]. apply Hlow; lia.
  - destruct k; [|done]. intros [= <-]. apply Hlow; lia.
  - assert (0 <= b / A < N) by (split; [apply Z.div_pos|apply Z.div_lt_upper_bound]; lia).
    destruct k as [|[|k]]; [..|done]; intros [= <-]; [apply Hind; lia|apply Hlow; lia].
  - assert (0 <= b / A < N) by (split; [apply Z.div_pos|apply Z.div_lt_upper_bound]; lia).
    destruct k as [|[|k]]; [..|done]; intros [= <-]; [apply Hind; lia|apply Hlow; lia].
  - destruct (mod_split b) as [-> _]. set (c := b / (A * N)). set (d := (b / A) mod N).
    assert (0 <= c < N) by (split; [apply Z.div_pos|apply Z.div_lt_upper_bound]; lia).
    pose proof (Z.mod_pos_bound (b / A) N HN) as Hdr. fold d in Hdr.
    destruct k as [|[|[|k]]]; [..|done]; intros [= <-]; [apply Hind; lia|..].
    + replace (2 * N + 5 + 1 + c * (N + 1)) with (6 + 2 * N + c * (N + 1) + 0) by lia. by rewrite Hdbl by lia.
    + replace (2 * N + 5 + 1 + c * (N + 1) + 1 + d * 1) with (6 + 2 * N + c * (N + 1) + (d + 1)) by lia.
      rewrite Hdbl by lia. cbn [Nat.eqb]. unfold nz. lia.
Qed.

(** *** The next block worth looking at *)

Lemma slots_ordered base h p base' h' p' :
  tree_slot base h p -> tree_slot base' h' p' ->
  base = base' /\ h = h' /\ p = p' \/ base + span h <= base' /\ p + size h <= p' \/
  base' + span h' <= base /\ p' + size h' <= p.
Proof.
  pose proof addrs_range. pose proof nids_range. assert (1 <= A * N) by nia.
  destruct 1; destruct 1; cbn [span]; rewrite ?size_1, ?size_2; try (left; done); right; (left; lia) || (right; lia).
Qed.

Lemma skip_unit_span n : (n <= 2)%nat -> skip_unit n A = span (S n).
Proof.
  pose proof addrs_range. pose proof nids_range. assert (1 <= A * N <= 1048576) by nia.
  intros Hn. destruct n as [|[|[|n]]]; [..|lia]; cbn [skip_unit span]; [done|by rewrite u32_id by lia|].
  rewrite (u32_id (A * N)) by lia. by rewrite u32_id by nia.
Qed.
Lemma next_offset_eq base h p c b :
  tree_slot base h p -> (1 <= c <= h)%nat ->
  let unit := span (h - c + 1) in
  f2fs_get_next_page_offset i (Z.of_nat c) (Z.of_nat h) b = Done (((b - base) / unit + 1) * unit + base).
Proof.
  intros Ht Hc. cbv zeta. unfold f2fs_get_next_page_offset.
  replace (Z.of_nat h =? 0) with false by lia.
  replace (Z.to_nat (Z.of_nat h - Z.of_nat c)) with (h - c)%nat by lia.
  rewrite skip_unit_span by (destruct Ht; lia). replace (S (h - c)) with (h - c + 1)%nat by lia.
  set (u := span (h - c + 1)). pose proof (span_pos (h - c + 1)) as Hu. fold u in Hu.
  assert (forall B m, base = B + m * u -> ((b - B) / u + 1) * u + B = ((b - base) / u + 1) * u + base) as Hshift.
  { intros B m ->. replace (b - B) with (b - (B + m * u) + m * u) by lia. rewrite Z.div_add by lia. ring. }
  destruct Ht; change (Z.of_nat 1) with 1; change (Z.of_nat 2) with 2; change (Z.of_nat 3) with 3;
    cbn [Z.eqb Pos.eqb obind]; f_equal.
  - assert (c = 1%nat) as -> by lia. apply (Hshift _ 1). subst u. cbn. lia.
  - apply (Hshift _ 0). lia.
  - destruct (span_divides (2 - c + 1) 2) as (q & _ & Eq); [lia|]. apply (Hshift _ q).
    change (span 2) with (A * N) in Eq. fold u in Eq. lia.
  - apply (Hshift _ 0). lia.
Qed.

Lemma next_page_ok base h p c b :
  tree_slot base h p -> (1 <= c <= h)%nat -> base <= b < base + span h ->
  exists next, f2fs_get_next_page_offset i (Z.of_nat c) (Z.of_nat h) b = Done next /\ b < next <= base + span h /\
    forall base' h' p' b', tree_slot base' h' p' -> base' <= b' < base' + span h' -> b <= b' ->
      (b' < next <-> snd (descend h' p' (b' - base')) !! (c - 1)%nat = snd (descend h p (b - base)) !! (c - 1)%nat).
Proof.
  intros Ht Hc Hb. rewrite (next_offset_eq base h p c b Ht Hc). cbv zeta. set (u := span (h - c + 1)).
  pose proof (span_pos (h - c + 1)) as Hu. fold u in Hu. eexists. split; [done|].
  destruct (span_divides (h - c + 1) h) as (q & Hq & Eq); [lia|]. fold u in Eq.
  set (x := b - base). assert (0 <= x < span h) as Hx by (subst x; lia).
  assert (x / u < q) by (apply Z.div_lt_upper_bound; lia).
  pose proof (Z.div_mod x u) as Hdm. pose proof (Z.mod_pos_bound x u ltac:(lia)) as Hm.
  assert (b < (x / u + 1) * u + base <= base + span h) as Hn by (rewrite Eq; subst x; nia).
  split; [done|]. intros base' h' p' b' Ht' Hb' Hle.
  destruct (slots_ordered _ _ _ _ _ _ Ht Ht') as [(<- & <- & <-)|[[Ho Hp]|[Ho _]]]; [| |lia].
  - assert (0 <= b' - base < span h) as Hx' by lia.
    pose proof (descend_same h p (b' - base) x (c - 1) Hx' Hx ltac:(lia)) as Hs.
    replace (h - (c - 1))%nat with (h - c + 1)%nat in Hs by lia. fold u in Hs. rewrite Hs.
    set (y := b' - base) in *. pose proof (Z.div_mod y u ltac:(lia)). pose proof (Z.mod_pos_bound y u ltac:(lia)).
    assert (x / u <= y / u) by (apply Z.div_le_mono; subst x y; lia). split; intros E.
    + assert (y / u < x / u + 1); [|lia]. apply Z.div_lt_upper_bound; [lia|]. subst y. nia.
    + rewrite <- E. subst y. nia.
  - split; [lia|]. intros E. exfalso.
    destruct (lookup_lt_is_Some_2 (snd (descend h p x)) (c - 1)) as [v Ev];
      [rewrite (proj1 (descend_length _ _ _)); lia|].
    pose proof (descend_range _ _ _ _ _ Hx Ev). rewrite Ev in E.
    assert (0 <= b' - base' < span h') as Hy by lia. pose proof (descend_range _ _ _ _ _ Hy E). lia.
Qed.
End inode.
End tree.

(** ** Properties *)

(** C30. get_node_path agrees with the descent of the full tree numbered in
    preorder, level, slots and node offsets alike; it fails exactly on the
    blocks behind the last one such a tree can address. *)
Theorem get_node_path_preorder `{NodeFormatOk} i block :
  0 <= addrs_per_inode i <= 1024 -> 0 <= block ->
  get_node_path i block = match tree_path i block with
                          | Some (o, n) => (zlen o - 1, o, n)
                          | None => (- E2BIG, [], [0])
                          end /\
  (tree_path i block = None <-> addrs_per_inode i + max_file_blocks <= block).
Proof.
  intros Hi Hb. split; [by apply get_node_path_tree|].
  pose proof addrs_range. pose proof nids_range.
  assert (0 <= max_file_blocks) by (unfold max_file_blocks; nia).
  destruct (tree_path_cases i block Hb) as [[? ->]|[(slot & base & h & p & Ht & Hr & ->)|[? ->]]];
    [split; [done|lia]| |done].
  split; [done|]. intros Hm. exfalso. unfold max_file_blocks in *. destruct Ht; cbn [span] in Hr; nia.
Qed.

Lemma path_cases `{NodeFormatOk} i block level o n :
  0 <= addrs_per_inode i <= 1024 -> 0 <= block -> get_node_path i block = (level, o, n) -> 0 <= level ->
  (block < addrs_per_inode i /\ level = 0 /\ o = [block] /\ n = [0]) \/
  exists slot base h p, tree_slot i base h p /\ base <= block < base + span h /\ level = Z.of_nat h /\
    o = slot :: fst (descend h p (block - base)) /\ n = 0 :: snd (descend h p (block - base)).
Proof.
  intros Hi Hb E Hl. rewrite (get_node_path_tree i Hi block Hb) in E.
  destruct (tree_path_cases i block Hb) as [[? Et]|[(slot & base & h & p & Ht & Hr & Et)|[? Et]]]; rewrite Et in E.
  - injection E as <- <- <-. by left.
  - injection E as <- <- <-. right. exists slot, base, h, p. split_and!; try done; try lia.
    rewrite zlen_cons. unfold zlen. rewrite (proj2 (descend_length h p (block - base))). lia.
  - injection E as <- _ _. done.
Qed.

Lemma path_back `{NodeFormatOk} i block level o n :
  0 <= addrs_per_inode i <= 1024 -> 0 <= block -> get_node_path i block = (level, o, n) -> 0 <= level ->
  f2fs_start_bidx_of_node n.[level] i + o.[level] = block /\
  0 <= o.[level] < (if level =? 0 then addrs_per_inode i else ADDRS_PER_BLOCK) /\
  forall k, 0 < k <= level -> IS_DNODE n.[k] = (k =? level).
Proof.
  intros Hi Hb E Hl.
  destruct (path_cases i block level o n Hi Hb E Hl) as [(? & -> & -> & ->)|(slot & base & h & p & Ht & Hr & -> & -> & ->)].
  { split; [done|]. split; [done|]. intros k Hk. lia. }
  assert (1 <= h)%nat as Hh by (destruct Ht; lia).
  assert (forall (x : Z) (l : list Z) k v, 1 <= k -> l !! (Z.to_nat k - 1)%nat = Some v -> (x :: l).[k] = v) as Hget.
  { intros x l k v Hk Ev. apply aget_lookup; [lia|]. destruct (Z.to_nat k) as [|m] eqn:Em; [lia|].
    rewrite lookup_cons. by replace (S m - 1)%nat with m in Ev by lia. }
  destruct (slot_bidx i Hi base h p (block - base) Ht ltac:(lia)) as (nf & ob & En & Eo & Ebidx & Hob).
  rewrite (Hget 0 _ _ nf), (Hget slot _ _ ob) by (rewrite ?Nat2Z.id; done || lia).
  replace (Z.of_nat h =? 0) with false by lia.
  split; [lia|]. split; [done|]. intros k Hk.
  destruct (lookup_lt_is_Some_2 (snd (descend h p (block - base))) (Z.to_nat k - 1)) as [v Ev];
    [rewrite (proj1 (descend_length _ _ _)); lia|].
  rewrite (Hget 0 _ _ v) by (done || lia). rewrite (slot_dnode i Hi base h p (block - base) _ v Ht ltac:(lia) Ev).
  destruct (Nat.eqb_spec (S (Z.to_nat k - 1)) h), (Z.eqb_spec k (Z.of_nat h)); lia || done.
Qed.

(** The last node offset of a path names the direct node that holds the block:
    f2fs_start_bidx_of_node, plus the slot in that node, gives the block back,
    and IS_DNODE holds for that node and for no other one on the path. *)
Theorem node_path_roundtrip `{NodeFormatOk} i block level o n :
  0 <= addrs_per_inode i <= 1024 -> 0 <= block -> get_node_path i block = (level, o, n) -> 0 <= level ->
  f2fs_start_bidx_of_node n.[level] i + o.[level] = block /\
  0 <= o.[level] < (if level =? 0 then addrs_per_inode i else ADDRS_PER_BLOCK) /\
  forall k, 0 < k <= level -> IS_DNODE n.[k] = (k =? level).
Proof. apply path_back. Qed.

(** After a miss at depth [c] of the path to a block, f2fs_get_next_page_offset
    skips exactly the blocks below the missing node: a later block comes before
    the offset returned iff its path goes through that node. *)
Theorem next_page_offset_spec `{NodeFormatOk} i block level o n c :
  0 <= addrs_per_inode i <= 1024 -> 0 <= block -> get_node_path i block = (level, o, n) -> 1 <= c <= level ->
  exists next, f2fs_get_next_page_offset i c level block = Done next /\ block < next /\
    forall block' level' o' n', block <= block' -> get_node_path i block' = (level', o', n') -> 0 <= level' ->
      (block' < next <-> n' !! Z.to_nat c = n !! Z.to_nat c).
Proof.
  intros Hi Hb E Hc.
  destruct (path_cases i block level o n Hi Hb E ltac:(lia)) as [(? & -> & _)|(slot & base & h & p & Ht & Hr & -> & -> & ->)];
    [lia|].
  destruct (next_page_ok i Hi base h p (Z.to_nat c) block Ht ltac:(lia) Hr) as (next & En & Hn & Hsame).
  rewrite Z2Nat.id in En by lia. exists next. split; [done|]. split; [lia|].
  intros block' level' o' n' Hle E' Hl'.
  destruct (path_cases i block' level' o' n' Hi ltac:(lia) E' Hl') as
    [(Hlt & _)|(slot' & base' & h' & p' & Ht' & Hr' & _ & _ & ->)].
  { assert (addrs_per_inode i <= base); [|lia]. pose proof addrs_range. pose proof nids_range. destruct Ht; nia. }
  destruct (Z.to_nat c) as [|m] eqn:Em; [lia|]. rewrite !lookup_cons.
  rewrite (Hsame base' h' p' block' Ht' Hr' Hle). by replace (S m - 1)%nat with m by lia.
Qed.

#[local] Existing Instances linux_node linux_node_ok.
Definition demo_inode : inode := mk_inode 0 0.
Lemma get_node_path_preorder_witness :
  get_node_path demo_inode 1000 = (1, [924; 77], [0; 1]) /\
  get_node_path demo_inode 1057056000 = (- E2BIG, [], [0]).
Proof.
  split.
  - destruct (get_node_path_preorder demo_inode 1000) as [-> _]; [by vm_compute|done|reflexivity].
  - destruct (get_node_path_preorder demo_inode 1057056000) as [-> _]; [by vm_compute|done|reflexivity].
Defined.
(** A block below the fourth direct node of the second indirect node of the
    double indirect one. *)
Lemma demo_path : get_node_path demo_inode 3115000 = (3, [928; 1; 3; 15], [0; 2041; 3061; 3065]).
Proof. by vm_compute. Qed.
Lemma demo_inode_ok : 0 <= addrs_per_inode demo_inode <= 1024.
Proof. by vm_compute. Qed.
Lemma node_path_roundtrip_witness :
  f2fs_start_bidx_of_node [0; 2041; 3061; 3065].[3] demo_inode + [928; 1; 3; 15].[3] = 3115000 /\
  IS_DNODE [0; 2041; 3061; 3065].[2] = false.
Proof.
  destruct (node_path_roundtrip demo_inode 3115000 3 [928; 1; 3; 15] [0; 2041; 3061; 3065] demo_inode_ok
    ltac:(lia) demo_path ltac:(lia)) as (E1 & _ & E2).
  split; [exact E1|]. exact (E2 2 ltac:(lia)).
Defined.
Lemma next_page_offset_spec_witness :
  exists next, f2fs_get_next_page_offset demo_inode 2 3 3115000 = Done next /\ next = 4148255.
Proof.
  destruct (next_page_offset_spec demo_inode 3115000 3 [928; 1; 3; 15] [0; 2041; 3061; 3065] 2 demo_inode_ok
    ltac:(lia) demo_path ltac:(lia)) as (next & En & _).
  exists next. split; [exact En|]. vm_compute in En. injection En as <-. done.
Defined.
