(* ===== verification/SitFlush.v ===== *)
(** * Writing the SIT at a checkpoint and reading it at mount ([segment.c], [segment.h])

    Dirty segment entries go to the journal in the summary of the cold data log
    when there is room, else to the other copy of their SIT block, whose bit in
    the SIT bitmap is flipped. build_sit_entries reads the current copies and
    applies the journal on top. *)
From S2P Require Import Prelude Geometry Heap Mpt FreeMap Machine Redirect BlockIo F2fsBits MptFlush RevBits Sit.
Open Scope Z_scope.

(** Constants of [<linux/f2fs_fs.h>] *)
Class SitPages := { SIT_ENTRY_PER_BLOCK : Z; SIT_JOURNAL_ENTRIES : Z }.
Class SitPagesOk `{SitPages} : Prop := {
  sents_range : 1 <= SIT_ENTRY_PER_BLOCK <= 4096;
  sjents_range : 0 <= SIT_JOURNAL_ENTRIES < 65536;
}.
Definition linux_sit_pages : SitPages := {| SIT_ENTRY_PER_BLOCK := 55; SIT_JOURNAL_ENTRIES := 6 |}.
Lemma linux_sit_pages_ok : @SitPagesOk linux_sit_pages.
Proof. split; done. Qed.

#[export] Instance raw_inhabited : Inhabited f2fs_sit_entry := populate (mk_raw 0 [] 0).

(** The SIT half of struct f2fs_journal: a fixed array of (segno, entry). *)
Record f2fs_journal := mk_jnl { n_sits : Z; sit_j : list (Z * f2fs_sit_entry) }.
#[export] Instance eta_jnl : Eta f2fs_journal := fun j => mk_jnl (n_sits j) (sit_j j).

(** What a flush works on: the segment manager, the journal, the meta pages by
    block address and the list of sets (start_segno, entry_cnt). *)
Record sit_store := mk_store {
  st_sm : segman;
  st_jnl : f2fs_journal;
  st_meta : Z -> list f2fs_sit_entry;
  st_sets : list (Z * Z);
}.
#[export] Instance eta_store : Eta sit_store := fun s => mk_store (st_sm s) (st_jnl s) (st_meta s) (st_sets s).

Section sit_flush.
Context `{SitFormat} `{SitPages}.
Context (sbi : f2fs_sb_info) (total_segs : Z).
#[local] Abbreviation MAIN_SEGS := (segment_count_main sbi).

(** ** Addresses of SIT blocks *)

Definition SIT_BLOCK_OFFSET (segno : Z) : Z := segno / SIT_ENTRY_PER_BLOCK.
Definition START_SEGNO (segno : Z) : Z := SIT_BLOCK_OFFSET segno * SIT_ENTRY_PER_BLOCK.
(** sents_per_block is set to SIT_ENTRY_PER_BLOCK by build_sit_info *)
Definition SIT_ENTRY_OFFSET (segno : Z) : Z := segno mod SIT_ENTRY_PER_BLOCK.
Definition SIT_BLK_CNT : Z := (MAIN_SEGS + SIT_ENTRY_PER_BLOCK - 1) / SIT_ENTRY_PER_BLOCK.

Definition current_sit_addr (s : sit_info) (start : Z) : Z :=
  let offset := SIT_BLOCK_OFFSET start in
  let blk_addr := u32 (sit_base_addr s + offset) in
  if f2fs_test_bit offset (sit_bitmap s) then u32 (blk_addr + sit_blocks s) else blk_addr.
Definition next_sit_addr (s : sit_info) (block_addr : Z) : Z :=
  let block_addr := u64 (block_addr - sit_base_addr s) in
  let block_addr := if block_addr <? sit_blocks s then u64 (block_addr + sit_blocks s)
                    else u64 (block_addr - sit_blocks s) in
  u64 (block_addr + sit_base_addr s).
Definition set_to_next_sit (s : sit_info) (start : Z) : sit_info :=
  s <| sit_bitmap ::= f2fs_change_bit (SIT_BLOCK_OFFSET start) |>.

(** ** The journal *)

Fixpoint find_in_cursum {A} (l : list (Z * A)) (val i : Z) : Z :=
  match l with [] => -1 | e :: l => if fst e =? val then i else find_in_cursum l val (i + 1) end.
Definition has_sit_space (j : f2fs_journal) (size : Z) : bool := size <=? SIT_JOURNAL_ENTRIES - n_sits j.
Definition update_sits_in_cursum (j : f2fs_journal) (i : Z) : Z * f2fs_journal :=
  (n_sits j, j <| n_sits := u16 (n_sits j + i) |>).
(** f2fs_lookup_journal_in_cursum for SIT_JOURNAL *)
Definition lookup_sit_journal (j : f2fs_journal) (val : Z) (alloc : bool) : Z * f2fs_journal :=
  let i := find_in_cursum (take (Z.to_nat (n_sits j)) (sit_j j)) val 0 in
  if 0 <=? i then (i, j)
  else if alloc && has_sit_space j 1 then update_sits_in_cursum j 1
  else (-1, j).

(** ** Sets of dirty entries, one per SIT block *)

(** adjust_sit_entry_set: behind the sets that are smaller *)
Fixpoint insert_set (ses : Z * Z) (l : list (Z * Z)) : list (Z * Z) :=
  match l with [] => [ses] | x :: l => if snd ses <=? snd x then ses :: x :: l else x :: insert_set ses l end.
Fixpoint count_in_set (start : Z) (l : list (Z * Z)) : option (list (Z * Z)) :=
  match l with
  | [] => None
  | ses :: l => if fst ses =? start then Some (insert_set (fst ses, u32 (snd ses + 1)) l)
                else match count_in_set start l with Some l' => Some (ses :: l') | None => None end
  end.
Definition add_sit_entry (segno : Z) (head : list (Z * Z)) : list (Z * Z) :=
  let start := START_SEGNO segno in
  match count_in_set start head with Some l => l | None => (start, 1) :: head end.

(** for_each_set_bit over [n] segments from [segno] *)
Fixpoint add_sits (n : nat) (segno bitmap : Z) (head : list (Z * Z)) : list (Z * Z) :=
  match n with
  | O => head
  | S n => add_sits n (segno + 1) bitmap (if test_bit segno bitmap then add_sit_entry segno head else head)
  end.
Definition add_sits_in_set (st : sit_store) : sit_store :=
  st <| st_sets ::= add_sits (Z.to_nat MAIN_SEGS) 0 (dirty_sentries_bitmap (sit (st_sm st))) |>.

Fixpoint drop_journal (l : list (Z * f2fs_sit_entry)) (s : sit_info) (sets : list (Z * Z)) : sit_info * list (Z * Z) :=
  match l with
  | [] => (s, sets)
  | e :: l =>
      let r := __mark_sit_entry_dirty s (fst e) in
      drop_journal l (snd r) (if negb (fst r) then add_sit_entry (fst e) sets else sets)
  end.
Definition remove_sits_in_journal (st : sit_store) : sit_store :=
  let j := st_jnl st in
  let r := drop_journal (take (Z.to_nat (n_sits j)) (sit_j j)) (sit (st_sm st)) (st_sets st) in
  st <| st_sm ::= fun sm => sm <| sit := fst r |> |> <| st_sets := snd r |>
     <| st_jnl := snd (update_sits_in_cursum j (- n_sits j)) |>.

(** ** The flush *)

Definition zero_raw : f2fs_sit_entry := mk_raw 0 (replicate (Z.to_nat SIT_VBLOCK_MAP_SIZE) 0) 0.
Definition block_end (start : Z) : Z := Z.min (start + SIT_ENTRY_PER_BLOCK) MAIN_SEGS.
Definition seg_info_to_sit_page (s : sit_info) (start : Z) : list f2fs_sit_entry :=
  map (fun i => if i <? block_end start - start then __seg_info_to_raw_sit (sentries s).[start + i] zero_raw else zero_raw)
    (seqZ 0 SIT_ENTRY_PER_BLOCK).

(** One dirty segment, into the journal or into the page [raw]. *)
Record flushing := mk_flushing { fl_sm : segman; fl_jnl : f2fs_journal; fl_raw : list f2fs_sit_entry; fl_cnt : Z }.
#[export] Instance eta_flushing : Eta flushing := fun x => mk_flushing (fl_sm x) (fl_jnl x) (fl_raw x) (fl_cnt x).
Definition flush_seg (to_journal : bool) (segno : Z) (x : flushing) : outcome flushing :=
  let se := (sentries (sit (fl_sm x))).[segno] in
  x <-- (if to_journal then
           let l := lookup_sit_journal (fl_jnl x) segno true in
           if fst l <? 0 then Bug
           else
             let r := seg_info_to_raw_sit se (snd (sit_j (snd l)).[fst l]) in
             Done (x <| fl_jnl := (snd l) <| sit_j ::= fun a => a.[fst l <- (segno, snd r)] |> |>
                     <| fl_sm ::= fun sm => snd (check_block_count sbi total_segs segno (snd r)
                          (sm <| sit ::= fun s => s <| sentries ::= fun a => a.[segno <- fst r] |> |>)) |>)
         else
           let sit_offset := SIT_ENTRY_OFFSET segno in
           let r := seg_info_to_raw_sit se (fl_raw x).[sit_offset] in
           Done (x <| fl_raw ::= fun a => a.[sit_offset <- snd r] |>
                   <| fl_sm ::= fun sm => snd (check_block_count sbi total_segs segno (snd r)
                        (sm <| sit ::= fun s => s <| sentries ::= fun a => a.[segno <- fst r] |> |>)) |>)) ;;
  Done (x <| fl_sm ::= fun sm => sm <| sit ::= fun s => s <| dirty_sentries_bitmap ::= clear_bit segno |>
                                                        <| dirty_sentries ::= fun n => u32 (n - 1) |> |> |>
          <| fl_cnt ::= fun n => u32 (n - 1) |>).
(** for_each_set_bit_from *)
Fixpoint flush_region (to_journal : bool) (n : nat) (segno : Z) (x : flushing) : outcome flushing :=
  match n with
  | O => Done x
  | S n =>
      x <-- (if test_bit segno (dirty_sentries_bitmap (sit (fl_sm x))) then flush_seg to_journal segno x else Done x) ;;
      flush_region to_journal n (segno + 1) x
  end.

(** One set; the flag says whether the next one may go to the journal. *)
Definition flush_set (st : sit_store) (to_journal : bool) (ses : Z * Z) : outcome (sit_store * bool) :=
  let start := fst ses in
  let n := Z.to_nat (block_end start - start) in
  let to_journal := to_journal && has_sit_space (st_jnl st) (snd ses) in
  let s := sit (st_sm st) in
  let dst := next_sit_addr s (current_sit_addr s start) in
  let raw := if to_journal then [] else seg_info_to_sit_page s start in
  let sm := if to_journal then st_sm st else (st_sm st) <| sit ::= fun s => set_to_next_sit s start |> in
  x <-- flush_region to_journal n start (mk_flushing sm (st_jnl st) raw (snd ses)) ;;
  Done (st <| st_sm := f2fs_bug_on (nz (fl_cnt x)) (fl_sm x) |> <| st_jnl := fl_jnl x |>
           <| st_meta ::= fun m => fun a => if to_journal then m a else if decide (a = dst) then fl_raw x else m a |>,
        to_journal).
Fixpoint flush_sets (sets : list (Z * Z)) (to_journal : bool) (st : sit_store) : outcome sit_store :=
  match sets with
  | [] => Done (st <| st_sets := [] |>)
  | ses :: sets => r <-- flush_set st to_journal ses ;; flush_sets sets (snd r) (fst r)
  end.

(** f2fs_flush_sit_entries under sentry_lock, discard candidates aside *)
Definition flush_sit_entries (st : sit_store) : outcome sit_store :=
  if dirty_sentries (sit (st_sm st)) =? 0 then Done st
  else
    let st := add_sits_in_set st in
    let st := if negb (has_sit_space (st_jnl st) (dirty_sentries (sit (st_sm st)))) then remove_sits_in_journal st else st in
    st <-- flush_sets (st_sets st) true st ;;
    Done (st <| st_sm ::= fun sm => f2fs_bug_on (nz (dirty_sentries (sit sm))) sm |>).

End sit_flush.

(** ** Counting and sets *)

Fixpoint bits_from (D : Z -> bool) (n : nat) (a : Z) : Z :=
  match n with O => 0 | S n => Z.b2z (D a) + bits_from D n (a + 1) end.
Lemma bits_from_range D n a : 0 <= bits_from D n a <= Z.of_nat n.
Proof. revert a. induction n as [|n IH]; intros a; cbn [bits_from]; [lia|]. specialize (IH (a + 1)). destruct (D a); cbn; lia. Qed.
Lemma bits_from_ext D D' n a : (forall k, a <= k < a + Z.of_nat n -> D k = D' k) -> bits_from D n a = bits_from D' n a.
Proof.
  revert a. induction n as [|n IH]; intros a Hk; [done|]. cbn [bits_from]. rewrite Hk by lia. f_equal.
  apply IH. intros k Hr. apply Hk. lia.
Qed.
Lemma bits_from_zero D n a : (forall k, a <= k < a + Z.of_nat n -> D k = false) -> bits_from D n a = 0.
Proof.
  revert a. induction n as [|n IH]; intros a Hk; cbn [bits_from]; [done|].
  rewrite Hk, IH by (lia || (intros k Hr; apply Hk; lia)). done.
Qed.
Lemma bits_from_add D D' n a j :
  (forall k, D' k = (k =? j) || D k) -> D j = false ->
  bits_from D' n a = bits_from D n a + Z.b2z ((a <=? j) && (j <? a + Z.of_nat n)).
Proof.
  intros HD Hj. revert a. induction n as [|n IH]; intros a; cbn [bits_from].
  - blia.
  - rewrite IH, HD. destruct (Z.eqb_spec a j) as [->|Hne].
    + rewrite Hj. blia.
    + cbn [orb]. enough (Z.b2z ((a + 1 <=? j) && (j <? a + 1 + Z.of_nat n)) = Z.b2z ((a <=? j) && (j <? a + Z.of_nat (S n)))) by lia.
      blia.
Qed.
(** Clearing a range takes its bits off the count. *)
Lemma bits_from_clear m D D' n a :
  0 <= a -> a + Z.of_nat n <= m -> (forall k, D' k = D k && negb ((a <=? k) && (k <? a + Z.of_nat n))) ->
  count_upto D (Z.to_nat m) = count_upto D' (Z.to_nat m) + bits_from D n a.
Proof.
  intros Ha Hm. revert a D Ha Hm. induction n as [|n IH]; intros a D Ha Hm HD; cbn [bits_from].
  - rewrite Z.add_0_r. apply count_upto_ext. intros k Hk. rewrite HD. replace ((a <=? k) && (k <? a + Z.of_nat 0)) with false by blia.
    by rewrite andb_true_r.
  - set (D1 := fun k => D k && negb (k =? a)).
    assert (bits_from D n (a + 1) = bits_from D1 n (a + 1)) as ->.
    { apply bits_from_ext. intros k Hk. subst D1. cbv beta. replace (k =? a) with false by lia. by rewrite andb_true_r. }
    rewrite (count_upto_update D1 D (Z.to_nat m) a) by (lia || (intros k Hk Hne; subst D1; cbv beta;
      replace (k =? a) with false by lia; by rewrite andb_true_r)).
    rewrite (IH (a + 1) D1) by (lia || (intros k; subst D1; cbv beta; rewrite HD; destruct (D k); blia)).
    subst D1. cbv beta. rewrite Z.eqb_refl, andb_false_r. cbn. lia.
Qed.

Section sets.
Context `{SitPagesOk} (MS : Z) (HMS : 0 <= MS).
Context (sbi : f2fs_sb_info) (Hsbi : segment_count_main sbi = MS).
#[local] Abbreviation EPB := SIT_ENTRY_PER_BLOCK.

Definition region_len (start : Z) : nat := Z.to_nat (block_end sbi start - start).
Record set_ok (D : Z -> bool) (ses : Z * Z) : Prop := {
  so_start : START_SEGNO (fst ses) = fst ses;
  so_range : 0 <= fst ses < MS;
  so_cnt : snd ses = bits_from D (region_len (fst ses)) (fst ses);
}.
Record sets_ok (D : Z -> bool) (sets : list (Z * Z)) : Prop := {
  ss_nodup : NoDup (map fst sets);
  ss_sets ses : ses ∈ sets -> set_ok D ses;
  ss_cover k : 0 <= k < MS -> D k = true -> START_SEGNO k ∈ map fst sets;
}.

Lemma sets_ok_perm D l l' : l ≡ₚ l' -> sets_ok D l -> sets_ok D l'.
Proof.
  intros Hp [N S C]. split.
  - by rewrite <- Hp.
  - intros ses Hs. apply S. by rewrite Hp.
  - intros k Hk Hd. rewrite <- Hp. by apply C.
Qed.
Lemma sets_ok_ext D D' l : (forall k, 0 <= k < MS -> D k = D' k) -> sets_ok D l -> sets_ok D' l.
Proof.
  intros HD [N S C]. split; [done| |].
  - intros ses Hs. destruct (S ses Hs) as [S1 S2 S3]. split; [done..|]. rewrite S3. apply bits_from_ext.
    unfold region_len, block_end. intros k Hk. apply HD. lia.
  - intros k Hk Hd. apply C; [done|]. by rewrite HD.
Qed.
Lemma insert_set_perm ses l : insert_set ses l ≡ₚ ses :: l.
Proof.
  induction l as [|x l IH]; cbn [insert_set]; [done|]. destruct (snd ses <=? snd x); [done|].
  rewrite IH. apply perm_swap.
Qed.
Lemma count_in_set_spec start l :
  match count_in_set start l with
  | Some l' => exists c rest, l ≡ₚ (start, c) :: rest /\ l' ≡ₚ (start, u32 (c + 1)) :: rest
  | None => start ∉ map fst l
  end.
Proof.
  induction l as [|[s c] l IH]; cbn [count_in_set]; [apply not_elem_of_nil|]. cbn [fst snd].
  destruct (Z.eqb_spec s start) as [->|Hne].
  - exists c, l. split; [done|apply insert_set_perm].
  - destruct (count_in_set start l) as [l'|].
    + destruct IH as (c' & rest & E1 & E2). exists c', ((s, c) :: rest). rewrite E1, E2. split; apply perm_swap.
    + cbn [map fst]. rewrite elem_of_cons. intros [->|?]; done.
Qed.

Lemma start_segno_spec k : START_SEGNO k <= k < START_SEGNO k + EPB.
Proof. pose proof sents_range. unfold START_SEGNO, SIT_BLOCK_OFFSET. pose proof (Z.div_mod k EPB). pose proof (Z.mod_pos_bound k EPB). lia. Qed.
Lemma start_segno_in k s : START_SEGNO s = s -> (START_SEGNO k = s <-> s <= k < s + EPB).
Proof.
  intros Hs. pose proof sents_range. split; [intros <-; apply start_segno_spec|]. intros Hk.
  unfold START_SEGNO, SIT_BLOCK_OFFSET in *. set (q := s / EPB) in *. rewrite <- Hs.
  assert (k / EPB = q) as ->; [|done]. symmetry. apply (Z.div_unique_pos _ _ _ (k - s)); lia.
Qed.
Lemma region_spec s k : START_SEGNO s = s -> 0 <= s < MS -> 0 <= k < MS ->
  (START_SEGNO k = s <-> s <= k < s + Z.of_nat (region_len s)).
Proof.
  intros Hs Hr Hk. rewrite (start_segno_in k s Hs). pose proof sents_range. unfold region_len, block_end. lia.
Qed.
Lemma start_segno_idem k : START_SEGNO (START_SEGNO k) = START_SEGNO k.
Proof. pose proof sents_range. unfold START_SEGNO, SIT_BLOCK_OFFSET. by rewrite Z.div_mul by lia. Qed.

Lemma add_sit_entry_ok D D' j l :
  sets_ok D l -> 0 <= j < MS -> D j = false -> (forall k, D' k = (k =? j) || D k) -> sets_ok D' (add_sit_entry j l).
Proof.
  intros W Hj HDj HD. pose proof sents_range. pose proof (start_segno_spec j) as Hst. set (sj := START_SEGNO j) in *.
  assert (0 <= sj) as Hsj by (unfold sj, START_SEGNO, SIT_BLOCK_OFFSET; pose proof (Z.div_pos j EPB); nia).
  assert (START_SEGNO sj = sj) as Hid by apply start_segno_idem.
  assert (forall ses, set_ok D ses -> fst ses <> sj -> set_ok D' ses) as Hother.
  { intros ses [S1 S2 S3] Hne. split; [done..|]. rewrite (bits_from_add D D' _ _ j HD HDj), <- S3.
    pose proof (region_spec (fst ses) j S1 S2 Hj) as Hreg. fold sj in Hreg.
    replace ((fst ses <=? j) && (j <? fst ses + Z.of_nat (region_len (fst ses)))) with false; [cbn; lia|].
    symmetry. apply not_true_is_false. intros E. apply Hne. symmetry. apply Hreg. lia. }
  assert (forall c, c = bits_from D (region_len sj) sj + 1 -> set_ok D' (sj, c)) as Hhere.
  { intros c ->. split; cbn [fst snd]; [done|lia|]. rewrite (bits_from_add D D' _ _ j HD HDj).
    pose proof (proj1 (region_spec sj j Hid ltac:(lia) Hj) eq_refl).
    replace ((sj <=? j) && (j <? sj + Z.of_nat (region_len sj))) with true by blia. done. }
  assert (forall c rest, set_ok D' (sj, c) -> NoDup (sj :: map fst rest) ->
    (forall ses, ses ∈ rest -> set_ok D ses) ->
    (forall k, 0 <= k < MS -> D k = true -> START_SEGNO k ∈ sj :: map fst rest) -> sets_ok D' ((sj, c) :: rest)) as Hmk.
  { intros c rest Hc N S C. split; [done| |].
    - intros ses Hs. apply elem_of_cons in Hs as [->|Hs]; [done|]. apply Hother; [by apply S|].
      intros E. apply list.NoDup_cons in N as [N _]. apply N. rewrite <- E. by apply (list_elem_of_fmap_2 fst).
    - intros k Hk Hd. rewrite HD in Hd. apply orb_true_iff in Hd as [E|Hd]; [|by apply C].
      apply Z.eqb_eq in E as ->. by left. }
  unfold add_sit_entry. fold sj. pose proof (count_in_set_spec sj l) as Hc. destruct (count_in_set sj l) as [l'|].
  - destruct Hc as (c & rest & E1 & E2). apply (sets_ok_perm _ _ _ (symmetry E2)).
    destruct (sets_ok_perm _ _ _ E1 W) as [N S C].
    destruct (S (sj, c) ltac:(by left)) as [_ _ Hcnt]. cbn [fst snd] in Hcnt.
    pose proof (bits_from_range D (region_len sj) sj). unfold region_len, block_end in *.
    apply Hmk; [|done|intros ses Hs; apply S; by right|done]. apply Hhere. rewrite u32_id by lia. by rewrite Hcnt.
  - destruct W as [N S C]. apply Hmk; [|by apply list.NoDup_cons|done|intros k Hk Hd; right; by apply C].
    apply Hhere. rewrite bits_from_zero; [done|]. intros k Hk.
    assert (0 <= k < MS) as Hkr by (unfold region_len, block_end in Hk; lia).
    destruct (D k) eqn:Hd; [exfalso|done]. apply Hc.
    rewrite <- (proj2 (region_spec sj k Hid ltac:(lia) Hkr) Hk). by apply C.
Qed.

Lemma add_sits_ok n a bm l :
  0 <= a -> a + Z.of_nat n <= MS -> sets_ok (fun k => test_bit k bm && (k <? a)) l ->
  sets_ok (fun k => test_bit k bm && (k <? a + Z.of_nat n)) (add_sits n a bm l).
Proof.
  revert a l. induction n as [|n IH]; intros a l Ha Hm W; cbn [add_sits].
  - by replace (a + Z.of_nat 0) with a by lia.
  - replace (a + Z.of_nat (S n)) with (a + 1 + Z.of_nat n) by lia. apply IH; [lia|lia|].
    destruct (test_bit a bm) eqn:E.
    + apply (add_sit_entry_ok (fun k => test_bit k bm && (k <? a))); [done|lia|by rewrite E, Z.ltb_irrefl|].
      intros k. destruct (Z.eqb_spec k a) as [->|]; [rewrite E; blia|]. destruct (test_bit k bm); blia.
    + eapply sets_ok_ext; [|exact W]. intros k _. destruct (Z.eqb_spec k a) as [->|]; [by rewrite E|].
      destruct (test_bit k bm); blia.
Qed.
Lemma add_all_sits_ok bm : sets_ok (fun k => test_bit k bm) (add_sits (Z.to_nat MS) 0 bm []).
Proof.
  eapply sets_ok_ext; [|apply add_sits_ok; [lia|lia|]].
  - intros k Hk. cbv beta. replace (k <? 0 + Z.of_nat (Z.to_nat MS)) with true by blia. by rewrite andb_true_r.
  - split; [constructor|by intros ? ?%not_elem_of_nil|]. intros k Hk Hd. apply andb_true_iff in Hd as [_ Hd]. lia.
Qed.

Lemma set_done D D' ses sets :
  sets_ok D (ses :: sets) ->
  (forall k, D' k = D k && negb ((fst ses <=? k) && (k <? fst ses + Z.of_nat (region_len (fst ses))))) ->
  sets_ok D' sets.
Proof.
  intros [N S C] HD. cbn [map] in N, C. apply list.NoDup_cons in N as [Hn N].
  destruct (S ses ltac:(by left)) as [Hs Hr _].
  assert (forall ses', ses' ∈ sets -> fst ses' <> fst ses) as Hne
    by (intros ses' Hi E; apply Hn; rewrite <- E; by apply (list_elem_of_fmap_2 fst)).
  split; [done| |].
  - intros ses' Hi. destruct (S ses' ltac:(by right)) as [Hs' Hr' Hc']. split; [done..|]. rewrite Hc'.
    apply bits_from_ext. intros k Hk. rewrite HD.
    assert (0 <= k < MS) as Hkr by (unfold region_len, block_end in Hk; lia).
    replace ((fst ses <=? k) && _) with false; [by rewrite andb_true_r|]. symmetry. apply not_true_is_false. intros E.
    apply (Hne ses' Hi). rewrite <- (proj2 (region_spec _ k Hs' Hr' Hkr) Hk). apply region_spec; [done..|lia].
  - intros k Hk Hd. rewrite HD in Hd. apply andb_true_iff in Hd as [Hd Hout].
    specialize (C k Hk Hd). apply elem_of_cons in C as [E|C]; [exfalso|done].
    apply (region_spec _ k Hs Hr Hk) in E. apply negb_true_iff in Hout. lia.
Qed.

(** Marking every journalled segment dirty *)
Definition with_dirty (s : sit_info) (bm d : Z) : sit_info := s <| dirty_sentries_bitmap := bm |> <| dirty_sentries := d |>.
Lemma drop_journal_ok l s sets :
  MS < 4294967296 -> (forall e, e ∈ l -> 0 <= fst e < MS) ->
  sets_ok (fun k => test_bit k (dirty_sentries_bitmap s)) sets ->
  dirty_sentries s = count_upto (fun k => test_bit k (dirty_sentries_bitmap s)) (Z.to_nat MS) ->
  exists bm d sets', drop_journal l s sets = (with_dirty s bm d, sets') /\
    sets_ok (fun k => test_bit k bm) sets' /\ d = count_upto (fun k => test_bit k bm) (Z.to_nat MS) /\
    forall k, 0 <= k -> test_bit k bm = true <-> test_bit k (dirty_sentries_bitmap s) = true \/ exists e, e ∈ l /\ fst e = k.
Proof.
  intros Hsm. revert s sets. induction l as [|e l IH]; intros s sets Hr W Hd; cbn [drop_journal].
  - exists (dirty_sentries_bitmap s), (dirty_sentries s), sets. split; [by destruct s|]. split; [done|]. split; [done|].
    intros k Hk. split; [by left|]. intros [?|(e & He & _)]; [done|by apply not_elem_of_nil in He].
  - set (j := fst e). assert (0 <= j < MS) as Hj by (apply Hr; by left).
    set (s1 := snd (__mark_sit_entry_dirty s j)). set (sets1 := if negb _ then _ else _).
    assert (exists bm d, s1 = with_dirty s bm d /\ sets_ok (fun k => test_bit k bm) sets1 /\
      d = count_upto (fun k => test_bit k bm) (Z.to_nat MS) /\
      forall k, 0 <= k -> test_bit k bm = (k =? j) || test_bit k (dirty_sentries_bitmap s)) as (bm & d & E1 & W1 & D1 & B1).
    { subst s1 sets1. unfold __mark_sit_entry_dirty. destruct (test_bit j (dirty_sentries_bitmap s)) eqn:E; cbn [negb fst snd].
      - exists (dirty_sentries_bitmap s), (dirty_sentries s). split; [by destruct s|]. split; [done|]. split; [done|].
        intros k _. destruct (Z.eqb_spec k j) as [->|]; [by rewrite E|done].
      - exists (set_bit j (dirty_sentries_bitmap s)), (u32 (dirty_sentries s + 1)). split; [done|].
        assert (forall k, 0 <= k -> test_bit k (set_bit j (dirty_sentries_bitmap s)) = (k =? j) || test_bit k (dirty_sentries_bitmap s)) as Hb
          by (intros k Hk; rewrite test_set_bit by lia; by rewrite (Z.eqb_sym j)).
        split; [|split; [|done]].
        + eapply sets_ok_ext; [|apply (add_sit_entry_ok _ (fun k => (k =? j) || test_bit k (dirty_sentries_bitmap s)) j _ W Hj E)];
            [|done]. intros k Hk. by rewrite Hb by lia.
        + rewrite Hd, (count_upto_update (fun k => test_bit k (dirty_sentries_bitmap s)) (fun k => test_bit k (set_bit j (dirty_sentries_bitmap s))) _ j).
          * rewrite Hb, Z.eqb_refl, E by lia. cbn [orb Z.b2z].
            pose proof (count_upto_lt (fun k => test_bit k (dirty_sentries_bitmap s)) (fun _ => true) (Z.to_nat MS) j ltac:(done) ltac:(lia) eq_refl E).
            pose proof (count_upto_range (fun k => test_bit k (dirty_sentries_bitmap s)) (Z.to_nat MS)).
            pose proof (count_upto_range (fun _ => true) (Z.to_nat MS)). rewrite u32_id by lia. lia.
          * lia.
          * intros k Hk Hne. rewrite Hb by lia. by replace (k =? j) with false by lia. }
    rewrite E1. destruct (IH (with_dirty s bm d) sets1) as (bm' & d' & sets' & E2 & W2 & D2 & B2);
      [intros e' He; apply Hr; by right|done|done|].
    exists bm', d', sets'. split; [exact E2|]. split; [done|]. split; [done|]. intros k Hk.
    rewrite B2 by done. cbn [dirty_sentries_bitmap with_dirty upd]. rewrite B1 by done.
    rewrite orb_true_iff, Z.eqb_eq. split.
    + intros [[->|?]|(e' & He & <-)]; [right; exists e; split; [by left|done]|by left|right; exists e'; split; [by right|done]].
    + intros [?|(e' & He & <-)]; [by left; right|]. apply elem_of_cons in He as [->|He]; [by left; left|right; by exists e'].
Qed.
End sets.

(** ** Raw entries and the journal *)

Section media.
Context `{SitFormatOk} `{SitPagesOk}.
Context (sbi : f2fs_sb_info) (total_segs : Z).
#[local] Abbreviation MS := (segment_count_main sbi).
#[local] Abbreviation EPB := SIT_ENTRY_PER_BLOCK.
#[local] Abbreviation JE := SIT_JOURNAL_ENTRIES.
Context (Hbps : 0 <= blocks_per_seg sbi <= 512) (Htotal : 0 <= MS <= total_segs) (Htotal32 : total_segs < 4294967296).

(** What is stored of an entry. *)
Definition raw_of (se : seg_entry) : f2fs_sit_entry :=
  {| vblocks := u16 (Z.lor (Z.shiftl (se_type se) SIT_VBLOCKS_SHIFT) (valid_blocks se));
     valid_map := cur_valid_map se; raw_mtime := mtime se |}.
(** The entry with its current state as the checkpointed one. *)
Definition checkpointed (se : seg_entry) : seg_entry :=
  se <| ckpt_valid_map := cur_valid_map se |> <| ckpt_valid_blocks := valid_blocks se |>.
Record entry_ok (se : seg_entry) : Prop := {
  eo_type : 0 <= se_type se < 6;
  eo_valid : 0 <= valid_blocks se <= blocks_per_seg sbi;
  eo_cur : zlen (cur_valid_map se) = SIT_VBLOCK_MAP_SIZE;
  eo_ckpt : zlen (ckpt_valid_map se) = SIT_VBLOCK_MAP_SIZE;
}.
Definition raw_ok (r : f2fs_sit_entry) : Prop := zlen (valid_map r) = SIT_VBLOCK_MAP_SIZE.

Lemma raw_of_checkpointed se : raw_of (checkpointed se) = raw_of se.
Proof. done. Qed.
Lemma checkpointed_idem se : checkpointed (checkpointed se) = checkpointed se.
Proof. done. Qed.
Lemma checkpointed_ok se : entry_ok se -> entry_ok (checkpointed se).
Proof. intros []. by split. Qed.
Lemma raw_of_ok se : entry_ok se -> raw_ok (raw_of se).
Proof. intros []. done. Qed.
Lemma zero_raw_ok : raw_ok zero_raw.
Proof. unfold raw_ok. cbn. rewrite zlen_replicate. pose proof sit_map_size. lia. Qed.
Lemma to_raw se rs : entry_ok se -> raw_ok rs ->
  __seg_info_to_raw_sit se rs = raw_of se /\ seg_info_to_raw_sit se rs = (checkpointed se, raw_of se).
Proof.
  intros [_ _ L1 L2] L3. unfold seg_info_to_raw_sit, __seg_info_to_raw_sit. cbn [valid_map].
  rewrite !(blit_slice_full _ (cur_valid_map se)) by done. done.
Qed.
Lemma raw_of_fields se : entry_ok se ->
  GET_SIT_VBLOCKS (vblocks (raw_of se)) = valid_blocks se /\ GET_SIT_TYPE (vblocks (raw_of se)) = se_type se.
Proof.
  intros [Ht Hv _ _]. cbn [vblocks raw_of]. rewrite sit_shift.
  assert (u16 (Z.lor (Z.shiftl (se_type se) 10) (valid_blocks se))
          = Z.lor (Z.shiftl (se_type se) 10) (valid_blocks se)) as ->
    by (rewrite pack_entry by lia; apply u16_id; lia).
  rewrite get_sit_vblocks, get_sit_type by lia. done.
Qed.
Lemma from_raw se se0 :
  entry_ok se -> zlen (cur_valid_map se0) = SIT_VBLOCK_MAP_SIZE -> zlen (ckpt_valid_map se0) = SIT_VBLOCK_MAP_SIZE ->
  seg_info_from_raw_sit se0 (raw_of se) = (checkpointed se) <| discard_map := discard_map se0 |>.
Proof.
  intros W L1 L2. pose proof W as [Ht Hv L3 _]. destruct (raw_of_fields se W) as [Ev Et].
  unfold seg_info_from_raw_sit. rewrite Ev, Et. cbn [valid_map raw_of raw_mtime].
  rewrite !(blit_slice_full _ (cur_valid_map se)), !bits10_id, Z.mod_small by (done || lia).
  by destruct se, se0.
Qed.
Lemma check_block_count_ok se segno sm :
  entry_ok se -> 0 <= segno < MS -> check_block_count sbi total_segs segno (raw_of se) sm = (0, sm).
Proof.
  intros W Hs. pose proof W as [_ Hv _ _]. unfold check_block_count. rewrite (proj1 (raw_of_fields se W)).
  rewrite (u32_id (total_segs - 1)), (u32_id segno) by lia.
  replace (blocks_per_seg sbi <? valid_blocks se) with false by lia. by replace (total_segs - 1 <? segno) with false by lia.
Qed.

(** [(k, r)] is an entry of the journal in use. *)
Definition jhas (j : f2fs_journal) (k : Z) (r : f2fs_sit_entry) : Prop :=
  exists i, 0 <= i < n_sits j /\ (sit_j j).[i] = (k, r).
Record journal_ok (j : f2fs_journal) : Prop := {
  jo_n : 0 <= n_sits j <= JE;
  jo_len : zlen (sit_j j) = JE;
  jo_raw i : 0 <= i < JE -> raw_ok (snd (sit_j j).[i]);
  jo_seg i : 0 <= i < n_sits j -> 0 <= fst (sit_j j).[i] < MS;
  jo_uniq i i' : 0 <= i < n_sits j -> 0 <= i' < n_sits j -> fst (sit_j j).[i] = fst (sit_j j).[i'] -> i = i';
}.

Lemma find_in_cursum_spec {A} (l : list (Z * A)) val a :
  0 <= a ->
  (find_in_cursum l val a = -1 /\ forall n e, l !! n = Some e -> fst e <> val) \/
  exists n e, l !! n = Some e /\ fst e = val /\ find_in_cursum l val a = a + Z.of_nat n.
Proof.
  revert a. induction l as [|x l IH]; intros a Ha; cbn [find_in_cursum]; [by left|].
  destruct (Z.eqb_spec (fst x) val) as [E|Hne]; [right; exists 0%nat, x; split; [done|]; split; [done|lia]|].
  destruct (IH (a + 1) ltac:(lia)) as [[-> Hn]|(n & e & He & Hv & ->)].
  - left. split; [done|]. intros [|n] e; [by intros [= <-]|apply Hn].
  - right. exists (S n), e. split; [done|]. split; [done|]. lia.
Qed.
(** Storing an entry in the journal, in its old place or in a new one. *)
Lemma journal_put j k r :
  journal_ok j -> 0 <= k < MS -> raw_ok r -> n_sits j < JE ->
  exists off j', lookup_sit_journal j k true = (off, j') /\ 0 <= off < JE /\ raw_ok (snd (sit_j j').[off]) /\
    let j2 := j' <| sit_j ::= fun a => a.[off <- (k, r)] |> in
    journal_ok j2 /\ n_sits j2 <= n_sits j + 1 /\
    (forall r', jhas j2 k r' <-> r' = r) /\ forall k' r', k' <> k -> jhas j2 k' r' <-> jhas j k' r'.
Proof.
  intros W Hk Hr Hroom. pose proof W as [Wn Wl Wr Ws Wu]. pose proof sjents_range.
  assert (forall off n', 0 <= off < n' -> n_sits j <= n' <= n_sits j + 1 -> (n' = n_sits j + 1 -> off = n_sits j) ->
    (forall i, 0 <= i < n_sits j -> i <> off -> fst (sit_j j).[i] <> k) -> (off < n_sits j -> fst (sit_j j).[off] = k) ->
    let j2 := j <| n_sits := n' |> <| sit_j ::= fun a => a.[off <- (k, r)] |> in
    journal_ok j2 /\ n_sits j2 <= n_sits j + 1 /\
    (forall r', jhas j2 k r' <-> r' = r) /\ forall k' r', k' <> k -> jhas j2 k' r' <-> jhas j k' r') as Hput.
  { intros off n' Ho Hn Hnew Hother Hold j2.
    assert (forall i, 0 <= i < JE -> (sit_j j2).[i] = if off =? i then (k, r) else (sit_j j).[i]) as Hget
      by (intros i Hi; cbn; apply aget_aset; lia).
    assert (forall i, 0 <= i < n' -> i <> off -> 0 <= i < n_sits j) as Hin by (intros i Hi Hne; lia).
    split; [split|split; [cbn; lia|split]].
    - cbn. lia.
    - cbn. by rewrite zlen_aset.
    - intros i Hi. rewrite Hget by done. destruct (off =? i); [done|by apply Wr].
    - cbn [n_sits j2 upd]. intros i Hi. rewrite Hget by lia. destruct (Z.eqb_spec off i) as [<-|Hne]; [done|]. apply Ws. apply Hin; lia.
    - cbn [n_sits j2 upd]. intros i i' Hi Hi'. rewrite !Hget by lia.
      destruct (Z.eqb_spec off i) as [<-|Hne], (Z.eqb_spec off i') as [<-|Hne']; cbn [fst]; [done|..].
      + intros E. destruct (Hother i'); [apply Hin; lia|lia|done].
      + intros E. destruct (Hother i); [apply Hin; lia|lia|done].
      + apply Wu; apply Hin; lia.
    - intros r'. split.
      + intros (i & Hi & E). cbn [n_sits j2 upd] in Hi. rewrite Hget in E by lia.
        destruct (Z.eqb_spec off i) as [<-|Hne]; [by injection E|]. exfalso. apply (Hother i); [apply Hin; lia|lia|by rewrite E].
      + intros ->. exists off. split; [done|]. rewrite Hget, Z.eqb_refl by lia. done.
    - intros k' r' Hne. split; intros (i & Hi & E).
      + cbn [n_sits j2 upd] in Hi. rewrite Hget in E by lia. destruct (Z.eqb_spec off i) as [<-|Hno]; [by injection E as <-|].
        exists i. split; [apply Hin; lia|done].
      + exists i. split; [cbn; lia|]. rewrite Hget by lia. destruct (Z.eqb_spec off i) as [<-|Hno]; [|done].
        destruct Hne. by rewrite <- (Hold ltac:(lia)), E. }
  unfold lookup_sit_journal. set (l := take (Z.to_nat (n_sits j)) (sit_j j)).
  assert (forall i, 0 <= i < n_sits j -> l !! Z.to_nat i = Some (sit_j j).[i]) as Hl.
  { intros i Hi. subst l. rewrite lookup_take_lt by lia. apply lookup_aget. lia. }
  destruct (find_in_cursum_spec l k 0 ltac:(lia)) as [[-> Hn]|(n & e & He & Hv & ->)].
  - change (0 <=? -1) with false. unfold has_sit_space. replace (1 <=? JE - n_sits j) with true by lia. cbn [andb].
    unfold update_sits_in_cursum. rewrite u16_id by lia. exists (n_sits j), (j <| n_sits := n_sits j + 1 |>).
    split; [done|]. split; [lia|]. split; [apply Wr; lia|]. apply Hput; try lia.
    intros i Hi _. exact (Hn _ _ (Hl i Hi)).
  - rewrite Z.add_0_l. replace (0 <=? Z.of_nat n) with true by blia.
    assert (Z.of_nat n < n_sits j) as Hlt.
    { apply lookup_lt_Some in He. subst l. rewrite length_take in He. lia. }
    pose proof (Hl (Z.of_nat n) ltac:(lia)) as E. rewrite Nat2Z.id, He in E. injection E as E.
    exists (Z.of_nat n), j. split; [done|]. split; [lia|]. split; [apply Wr; lia|].
    replace (j <| sit_j ::= fun a => a.[Z.of_nat n <- (k, r)] |>)
      with (j <| n_sits := n_sits j |> <| sit_j ::= fun a => a.[Z.of_nat n <- (k, r)] |>) by done.
    apply Hput; try lia.
    + intros i Hi Hne Eq. apply Hne. apply Wu; [done|lia|]. rewrite Eq, <- Hv, E. reflexivity.
    + intros _. rewrite <- Hv, E. reflexivity.
Qed.

(** ** Flushing a range of segments *)

Definition clean_seg (sm : segman) (k : Z) : segman :=
  sm <| sit ::= fun s => s <| sentries ::= fun a => a.[k <- checkpointed a.[k]] |>
                           <| dirty_sentries_bitmap ::= clear_bit k |> <| dirty_sentries ::= fun n => u32 (n - 1) |> |>.
Fixpoint clean_region (n : nat) (a : Z) (sm : segman) : segman :=
  match n with
  | O => sm
  | S n => clean_region n (a + 1) (if test_bit a (dirty_sentries_bitmap (sit sm)) then clean_seg sm a else sm)
  end.
Definition D_of (sm : segman) (k : Z) : bool := test_bit k (dirty_sentries_bitmap (sit sm)).
Definition in_region (a : Z) (n : nat) (k : Z) : bool := (a <=? k) && (k <? a + Z.of_nat n).
Lemma in_region_spec a n k : in_region a n k = true <-> a <= k < a + Z.of_nat n.
Proof. unfold in_region. rewrite andb_true_iff, Z.leb_le, Z.ltb_lt. done. Qed.
Definition entries_ok (sm : segman) : Prop :=
  zlen (sentries (sit sm)) = MS /\ forall k, 0 <= k < MS -> entry_ok (sentries (sit sm)).[k].

Record region_cleaned (n : nat) (a : Z) (sm sm' : segman) : Prop := {
  rc_frame : exists l b d, sm' = sm <| sit ::= fun s => s <| sentries := l |> <| dirty_sentries_bitmap := b |> <| dirty_sentries := d |> |>;
  rc_len : zlen (sentries (sit sm')) = zlen (sentries (sit sm));
  rc_entry k : 0 <= k < MS -> (sentries (sit sm')).[k] =
    if in_region a n k && D_of sm k then checkpointed (sentries (sit sm)).[k] else (sentries (sit sm)).[k];
  rc_bit k : 0 <= k -> D_of sm' k = D_of sm k && negb (in_region a n k);
  rc_dirty : bits_from (D_of sm) n a <= dirty_sentries (sit sm) < 4294967296 ->
    dirty_sentries (sit sm') = dirty_sentries (sit sm) - bits_from (D_of sm) n a;
}.
Lemma clean_seg_entry sm k i :
  0 <= k < zlen (sentries (sit sm)) ->
  (sentries (sit (clean_seg sm k))).[i] = if k =? i then checkpointed (sentries (sit sm)).[k] else (sentries (sit sm)).[i].
Proof. intros Hk. cbn. by rewrite aget_aset by lia. Qed.
Lemma clean_seg_bit sm k i : D_of (clean_seg sm k) i = D_of sm i && negb (k =? i).
Proof. unfold D_of. cbn. rewrite test_clear_bit. destruct (Z.eqb_spec k i); by rewrite ?andb_true_r, ?andb_false_r. Qed.

Lemma clean_region_ok n a sm :
  0 <= a -> a + Z.of_nat n <= MS -> zlen (sentries (sit sm)) = MS -> region_cleaned n a sm (clean_region n a sm).
Proof.
  revert a sm. induction n as [|n IH]; intros a sm Ha Hm Hl; cbn [clean_region].
  { assert (forall k, in_region a 0 k = false) as Hn by (intros k; unfold in_region; blia). split.
    - exists (sentries (sit sm)), (dirty_sentries_bitmap (sit sm)), (dirty_sentries (sit sm)). by destruct sm as [[] ? ? ? ?].
    - done.
    - intros k Hk. by rewrite Hn.
    - intros k Hk. rewrite Hn. by rewrite andb_true_r.
    - cbn [bits_from]. lia. }
  assert (forall k, in_region a (S n) k = (a =? k) || in_region (a + 1) n k) as Hin by (intros k; unfold in_region; blia).
  set (sm1 := if test_bit a _ then _ else _).
  assert (zlen (sentries (sit sm1)) = MS /\ (exists l b d, sm1 = sm <| sit ::= fun s => s <| sentries := l |> <| dirty_sentries_bitmap := b |> <| dirty_sentries := d |> |>) /\
    (forall k, (sentries (sit sm1)).[k] = if (a =? k) && D_of sm a then checkpointed (sentries (sit sm)).[k] else (sentries (sit sm)).[k]) /\
    (forall k, D_of sm1 k = D_of sm k && negb (a =? k)) /\
    (bits_from (D_of sm) (S n) a <= dirty_sentries (sit sm) < 4294967296 ->
       dirty_sentries (sit sm1) = dirty_sentries (sit sm) - Z.b2z (D_of sm a))) as (L1 & F1 & E1 & B1 & C1).
  { subst sm1. fold (D_of sm a). destruct (D_of sm a) eqn:Ed.
    - split; [cbn; by rewrite zlen_aset|]. split; [eexists _, _, _; reflexivity|]. split; [|split].
      + intros k. rewrite clean_seg_entry by lia. destruct (Z.eqb_spec a k) as [->|]; done.
      + intros k. apply clean_seg_bit.
      + cbn [bits_from]. rewrite Ed. pose proof (bits_from_range (D_of sm) n (a + 1)). cbn. intros Hd. apply u32_id. lia.
    - split; [done|]. split; [|split; [|split]].
      + exists (sentries (sit sm)), (dirty_sentries_bitmap (sit sm)), (dirty_sentries (sit sm)). by destruct sm as [[] ? ? ? ?].
      + intros k. by rewrite andb_false_r.
      + intros k. destruct (Z.eqb_spec a k) as [<-|]; [by rewrite Ed|by rewrite andb_true_r].
      + cbn. lia. }
  destruct (IH (a + 1) sm1 ltac:(lia) ltac:(lia) L1) as [F2 L2 E2 B2 C2].
  set (sm2 := clean_region n (a + 1) sm1) in *. clearbody sm2 sm1.
  assert (bits_from (D_of sm1) n (a + 1) = bits_from (D_of sm) n (a + 1)) as Eb.
  { apply bits_from_ext. intros k Hk. rewrite B1. replace (a =? k) with false by blia. by rewrite andb_true_r. }
  split.
  - destruct F1 as (l1 & b1 & d1 & ->). destruct F2 as (l2 & b2 & d2 & ->). by exists l2, b2, d2.
  - by rewrite L2, L1.
  - intros k Hk. rewrite E2, E1, B1, Hin by done. destruct (Z.eqb_spec a k) as [->|]; cbn [orb negb andb].
    + rewrite andb_false_r, andb_false_r. done.
    + by rewrite andb_true_r.
  - intros k Hk. rewrite B2, B1, Hin by done. destruct (D_of sm k), (a =? k), (in_region (a + 1) n k); done.
  - cbn [bits_from]. intros Hd. pose proof (bits_from_range (D_of sm) n (a + 1)). rewrite C2; rewrite Eb, C1 by done; cbn [bits_from] in *; [lia|].
    destruct (D_of sm a); cbn in *; lia.
Qed.

Lemma entries_ok_cleaned n a sm : 0 <= a -> a + Z.of_nat n <= MS -> entries_ok sm -> entries_ok (clean_region n a sm).
Proof.
  intros Ha Hm [L E]. destruct (clean_region_ok n a sm Ha Hm L) as [_ L2 E2 _ _]. split; [by rewrite L2|].
  intros k Hk. rewrite E2 by done. destruct (_ && _); [by apply checkpointed_ok, E|by apply E].
Qed.
Lemma clean_region_S n a sm : clean_region (S n) a sm = clean_region n (a + 1) (if D_of sm a then clean_seg sm a else sm).
Proof. done. Qed.

Lemma flush_seg_journal x k :
  0 <= k < MS -> entry_ok (sentries (sit (fl_sm x))).[k] -> journal_ok (fl_jnl x) -> n_sits (fl_jnl x) < JE ->
  exists j2, flush_seg sbi total_segs true k x = Done (mk_flushing (clean_seg (fl_sm x) k) j2 (fl_raw x) (u32 (fl_cnt x - 1))) /\
    journal_ok j2 /\ n_sits j2 <= n_sits (fl_jnl x) + 1 /\
    (forall r, jhas j2 k r <-> r = raw_of (sentries (sit (fl_sm x))).[k]) /\
    forall k' r, k' <> k -> jhas j2 k' r <-> jhas (fl_jnl x) k' r.
Proof.
  intros Hk He W Hroom. set (se := (sentries (sit (fl_sm x))).[k]) in *.
  destruct (journal_put (fl_jnl x) k (raw_of se) W Hk (raw_of_ok _ He) Hroom) as (off & j' & El & Ho & Hr & W2 & Hn & Hs & Ho').
  exists (j' <| sit_j ::= fun a => a.[off <- (k, raw_of se)] |>). split; [|done].
  unfold flush_seg. fold se. rewrite El. cbn [fst snd]. replace (off <? 0) with false by lia.
  rewrite (proj2 (to_raw se _ He Hr)).
  assert (forall sm, snd (check_block_count sbi total_segs k (raw_of se) sm) = sm) as Hc
    by (intros sm; by rewrite check_block_count_ok).
  subst se. destruct x as [[] ? ? ?]. unfold upd. cbn -[check_block_count raw_of checkpointed clear_bit u32 aset] in *.
  by rewrite Hc.
Qed.
Lemma flush_seg_page x k :
  0 <= k < MS -> entry_ok (sentries (sit (fl_sm x))).[k] ->
  (fl_raw x).[k mod EPB] = raw_of (sentries (sit (fl_sm x))).[k] ->
  flush_seg sbi total_segs false k x = Done (mk_flushing (clean_seg (fl_sm x) k) (fl_jnl x) (fl_raw x) (u32 (fl_cnt x - 1))).
Proof.
  intros Hk He Hraw. set (se := (sentries (sit (fl_sm x))).[k]) in *.
  unfold flush_seg, SIT_ENTRY_OFFSET. fold se. rewrite Hraw, (proj2 (to_raw se _ He (raw_of_ok _ He))).
  assert (forall sm, snd (check_block_count sbi total_segs k (raw_of se) sm) = sm) as Hc
    by (intros sm; by rewrite check_block_count_ok).
  subst se. destruct x as [[] ? raw ?]. unfold upd. cbn -[check_block_count raw_of checkpointed clear_bit u32 aset] in *.
  by rewrite Hc, <- Hraw, aset_aget_eq.
Qed.

Lemma flush_region_journal n a x :
  0 <= a -> a + Z.of_nat n <= MS -> entries_ok (fl_sm x) -> journal_ok (fl_jnl x) ->
  n_sits (fl_jnl x) + bits_from (D_of (fl_sm x)) n a <= JE -> bits_from (D_of (fl_sm x)) n a <= fl_cnt x < 4294967296 ->
  exists j2, flush_region sbi total_segs true n a x
      = Done (mk_flushing (clean_region n a (fl_sm x)) j2 (fl_raw x) (fl_cnt x - bits_from (D_of (fl_sm x)) n a)) /\
    journal_ok j2 /\ n_sits j2 <= n_sits (fl_jnl x) + bits_from (D_of (fl_sm x)) n a /\
    (forall k r, in_region a n k = true -> D_of (fl_sm x) k = true -> jhas j2 k r <-> r = raw_of (sentries (sit (fl_sm x))).[k]) /\
    forall k r, in_region a n k && D_of (fl_sm x) k = false -> jhas j2 k r <-> jhas (fl_jnl x) k r.
Proof.
  revert a x. induction n as [|n IH]; intros a x Ha Hm We Wj Hroom Hcnt.
  { exists (fl_jnl x). cbn [flush_region clean_region bits_from] in *. rewrite Z.sub_0_r. split; [by destruct x|].
    split; [done|]. split; [lia|]. split; [|done]. intros k r Hk%in_region_spec. lia. }
  assert (forall k, in_region a (S n) k = (a =? k) || in_region (a + 1) n k) as Hin by (intros k; unfold in_region; blia).
  assert (in_region (a + 1) n a = false) as Hnot by (unfold in_region; blia).
  rewrite clean_region_S. cbn [flush_region]. fold (D_of (fl_sm x) a). cbn [bits_from] in *.
  pose proof (bits_from_range (D_of (fl_sm x)) n (a + 1)) as Hbr. pose proof We as [L E].
  destruct (D_of (fl_sm x) a) eqn:Ed; cbn [Z.b2z obind] in *.
  - destruct (flush_seg_journal x a ltac:(lia) (E a ltac:(lia)) Wj ltac:(lia)) as (j1 & -> & W1 & N1 & S1 & O1). cbn [obind].
    set (x1 := mk_flushing (clean_seg (fl_sm x) a) j1 (fl_raw x) (u32 (fl_cnt x - 1))).
    assert (bits_from (D_of (fl_sm x1)) n (a + 1) = bits_from (D_of (fl_sm x)) n (a + 1)) as Eb.
    { apply bits_from_ext. intros k Hk. cbn [fl_sm x1]. rewrite clean_seg_bit. replace (a =? k) with false by blia. by rewrite andb_true_r. }
    assert (entries_ok (fl_sm x1)) as We1.
    { pose proof (entries_ok_cleaned 1 a (fl_sm x) Ha ltac:(lia) We) as Wc. rewrite clean_region_S, Ed in Wc. exact Wc. }
    destruct (IH (a + 1) x1) as (j2 & -> & W2 & N2 & S2 & O2); rewrite ?Eb; try done; try lia.
    { cbn [fl_jnl x1]. lia. } { cbn [fl_cnt x1]. rewrite u32_id by lia. lia. }
    rewrite Eb in *. cbn [fl_jnl fl_cnt fl_sm fl_raw x1] in *. rewrite u32_id by lia.
    exists j2. split; [do 2 f_equal; lia|]. split; [done|]. split; [lia|]. split.
    + intros k r Hk Hd. rewrite Hin in Hk. destruct (Z.eqb_spec a k) as [->|Hne]; cbn [orb] in Hk.
      * rewrite O2 by (by rewrite Hnot). apply S1.
      * rewrite S2 by (done || (rewrite clean_seg_bit, Hd; by replace (a =? k) with false by lia)).
        rewrite clean_seg_entry by lia. by replace (a =? k) with false by lia.
    + intros k r Hk. rewrite Hin in Hk. destruct (Z.eqb_spec a k) as [->|Hne]; cbn [orb] in Hk; [by rewrite Ed in Hk|].
      rewrite O2, O1; [done|lia|]. rewrite clean_seg_bit. replace (a =? k) with false by lia. by rewrite andb_true_r.
  - destruct (IH (a + 1) x) as (j2 & -> & W2 & N2 & S2 & O2); try done; try lia.
    exists j2. split; [do 2 f_equal; lia|]. split; [done|]. split; [lia|]. split.
    + intros k r Hk Hd. rewrite Hin in Hk. destruct (Z.eqb_spec a k) as [->|Hne]; [congruence|]. by apply S2.
    + intros k r Hk. rewrite Hin in Hk. destruct (Z.eqb_spec a k) as [->|Hne]; [apply O2; by rewrite Hnot|by apply O2].
Qed.

Lemma flush_region_page n a x :
  0 <= a -> a + Z.of_nat n <= MS -> entries_ok (fl_sm x) ->
  (forall k, in_region a n k = true -> (fl_raw x).[k mod EPB] = raw_of (sentries (sit (fl_sm x))).[k]) ->
  bits_from (D_of (fl_sm x)) n a <= fl_cnt x < 4294967296 ->
  flush_region sbi total_segs false n a x
    = Done (mk_flushing (clean_region n a (fl_sm x)) (fl_jnl x) (fl_raw x) (fl_cnt x - bits_from (D_of (fl_sm x)) n a)).
Proof.
  revert a x. induction n as [|n IH]; intros a x Ha Hm We Hraw Hcnt.
  { cbn [flush_region clean_region bits_from] in *. rewrite Z.sub_0_r. by destruct x. }
  rewrite clean_region_S. cbn [flush_region]. fold (D_of (fl_sm x) a). cbn [bits_from] in *.
  pose proof (bits_from_range (D_of (fl_sm x)) n (a + 1)) as Hbr. pose proof We as [L E].
  assert (forall k, in_region (a + 1) n k = true -> in_region a (S n) k = true /\ a <> k) as Hin by (intros k; rewrite !in_region_spec; lia).
  destruct (D_of (fl_sm x) a) eqn:Ed; cbn [Z.b2z obind] in *.
  - rewrite (flush_seg_page x a ltac:(lia) (E a ltac:(lia))) by (apply Hraw; unfold in_region; blia). cbn [obind].
    set (x1 := mk_flushing (clean_seg (fl_sm x) a) (fl_jnl x) (fl_raw x) (u32 (fl_cnt x - 1))).
    assert (bits_from (D_of (fl_sm x1)) n (a + 1) = bits_from (D_of (fl_sm x)) n (a + 1)) as Eb.
    { apply bits_from_ext. intros k Hk. cbn [fl_sm x1]. rewrite clean_seg_bit. replace (a =? k) with false by blia. by rewrite andb_true_r. }
    assert (entries_ok (fl_sm x1)) as We1.
    { pose proof (entries_ok_cleaned 1 a (fl_sm x) Ha ltac:(lia) We) as Wc. rewrite clean_region_S, Ed in Wc. exact Wc. }
    rewrite (IH (a + 1) x1); rewrite ?Eb; try done; try lia.
    + cbn [fl_jnl fl_cnt fl_sm fl_raw x1]. rewrite u32_id by lia. do 2 f_equal. lia.
    + intros k Hk. destruct (Hin k Hk) as [Hk' Hne]. cbn [fl_raw fl_sm x1]. rewrite clean_seg_entry by lia.
      replace (a =? k) with false by lia. by apply Hraw.
    + cbn [fl_cnt x1]. rewrite u32_id by lia. lia.
  - rewrite (IH (a + 1) x); try done; try lia. intros k Hk. apply Hraw. by apply Hin.
Qed.

(** ** Where the entries are on the device *)

Record sit_geom (s : sit_info) : Prop := {
  sg_base : 0 <= sit_base_addr s;
  sg_blocks : SIT_BLK_CNT sbi <= sit_blocks s;
  sg_top : sit_base_addr s + 2 * sit_blocks s < 4294967296;
  sg_bitmap : SIT_BLK_CNT sbi <= 8 * zlen (sit_bitmap s);
}.
Lemma block_offset_range k : 0 <= k < MS -> 0 <= SIT_BLOCK_OFFSET k < SIT_BLK_CNT sbi.
Proof.
  intros Hk. pose proof sents_range. unfold SIT_BLOCK_OFFSET, SIT_BLK_CNT. split; [apply Z.div_pos; lia|].
  assert (k / EPB + 1 <= (MS + EPB - 1) / EPB); [|lia]. rewrite <- (Z.div_add k 1 EPB) by lia. apply Z.div_le_mono; lia.
Qed.
Definition copy_bit (s : sit_info) (k : Z) : bool := f2fs_test_bit (SIT_BLOCK_OFFSET k) (sit_bitmap s).
Lemma current_addr s k : sit_geom s -> 0 <= k < MS ->
  current_sit_addr s k = sit_base_addr s + SIT_BLOCK_OFFSET k + Z.b2z (copy_bit s k) * sit_blocks s.
Proof.
  intros [G1 G2 G3 _] Hk. pose proof (block_offset_range k Hk). unfold current_sit_addr. fold (copy_bit s k).
  rewrite (u32_id (sit_base_addr s + _)) by lia. destruct (copy_bit s k); cbn [Z.b2z]; [rewrite u32_id by lia|]; lia.
Qed.
Lemma next_addr s k : sit_geom s -> 0 <= k < MS ->
  next_sit_addr s (current_sit_addr s k) = sit_base_addr s + SIT_BLOCK_OFFSET k + Z.b2z (negb (copy_bit s k)) * sit_blocks s.
Proof.
  intros G Hk. pose proof G as [G1 G2 G3 _]. pose proof (block_offset_range k Hk). rewrite current_addr by done. unfold next_sit_addr.
  rewrite (u64_id (_ - sit_base_addr s)) by (destruct (copy_bit s k); cbn [Z.b2z]; lia).
  destruct (copy_bit s k); cbn [Z.b2z negb].
  - replace (_ <? sit_blocks s) with false by lia. rewrite !u64_id by (rewrite ?u64_id; lia). lia.
  - replace (_ <? sit_blocks s) with true by lia. rewrite !u64_id by (rewrite ?u64_id; lia). lia.
Qed.
Lemma set_to_next_geom s start : sit_geom s -> sit_geom (set_to_next_sit s start).
Proof. intros []. split; try done. cbn. by rewrite zlen_f2fs_change_bit. Qed.
Lemma current_addr_next s start k : sit_geom s -> 0 <= start < MS -> 0 <= k < MS ->
  current_sit_addr (set_to_next_sit s start) k =
    if SIT_BLOCK_OFFSET k =? SIT_BLOCK_OFFSET start then next_sit_addr s (current_sit_addr s start) else current_sit_addr s k.
Proof.
  intros G Hs Hk. pose proof (block_offset_range k Hk). pose proof (block_offset_range start Hs). pose proof (sg_bitmap _ G).
  rewrite current_addr, next_addr, current_addr by (done || by apply set_to_next_geom).
  assert (copy_bit (set_to_next_sit s start) k =
    if SIT_BLOCK_OFFSET k =? SIT_BLOCK_OFFSET start then negb (copy_bit s k) else copy_bit s k) as ->
    by (unfold copy_bit; cbn; rewrite test_f2fs_change_bit by lia; done).
  destruct (Z.eqb_spec (SIT_BLOCK_OFFSET k) (SIT_BLOCK_OFFSET start)) as [E|]; [|done].
  unfold copy_bit. rewrite E. done.
Qed.
(** The other copy of a block is no current copy. *)
Lemma next_not_current s start k : sit_geom s -> 0 <= start < MS -> 0 <= k < MS ->
  next_sit_addr s (current_sit_addr s start) <> current_sit_addr s k.
Proof.
  intros G Hs Hk. pose proof (block_offset_range k Hk). pose proof (block_offset_range start Hs). pose proof (sg_blocks _ G).
  rewrite next_addr, current_addr by done.
  destruct (decide (SIT_BLOCK_OFFSET k = SIT_BLOCK_OFFSET start)) as [E|Hne].
  - unfold copy_bit. rewrite E. destruct (f2fs_test_bit _ _); cbn [Z.b2z negb]; lia.
  - destruct (copy_bit s start), (copy_bit s k); cbn [Z.b2z negb]; lia.
Qed.

Definition on_media (s : sit_info) (meta : Z -> list f2fs_sit_entry) (j : f2fs_journal) (k : Z) (r : f2fs_sit_entry) : Prop :=
  jhas j k r \/ (forall r', ~ jhas j k r') /\ (meta (current_sit_addr s k)).[SIT_ENTRY_OFFSET k] = r.

(** The entries have [C] as their checkpointed form, the clean ones are on the
    device that way, and the dirty ones are counted. *)
Definition raw_good (r : f2fs_sit_entry) : Prop := exists se, entry_ok se /\ r = raw_of se.
Record store_ok (C : Z -> seg_entry) (st : sit_store) : Prop := {
  sk_geom : sit_geom (sit (st_sm st));
  sk_entries : entries_ok (st_sm st);
  sk_jnl : journal_ok (st_jnl st);
  sk_C k : 0 <= k < MS -> checkpointed (sentries (sit (st_sm st))).[k] = C k;
  sk_clean k : 0 <= k < MS -> D_of (st_sm st) k = false -> (sentries (sit (st_sm st))).[k] = C k /\
    on_media (sit (st_sm st)) (st_meta st) (st_jnl st) k (raw_of (C k));
  sk_count : dirty_sentries (sit (st_sm st)) = count_upto (D_of (st_sm st)) (Z.to_nat MS);
  sk_pages k : 0 <= k < MS -> raw_good (st_meta st (current_sit_addr (sit (st_sm st)) k)).[SIT_ENTRY_OFFSET k];
}.

Lemma sit_page_get s start k :
  (forall k, 0 <= k < MS -> entry_ok (sentries s).[k]) -> 0 <= start < MS -> START_SEGNO start = start ->
  in_region start (region_len sbi start) k = true ->
  (seg_info_to_sit_page sbi s start).[k mod EPB] = raw_of (sentries s).[k].
Proof.
  intros E Hs Hst Hk%in_region_spec. pose proof sents_range. unfold region_len, block_end in Hk.
  assert (k mod EPB = k - start) as Ek.
  { rewrite <- Hst. unfold START_SEGNO, SIT_BLOCK_OFFSET in *. set (q := start / EPB) in *.
    symmetry. apply (Z.mod_unique_pos _ _ q); lia. }
  unfold seg_info_to_sit_page. rewrite Ek. apply aget_lookup; [lia|].
  rewrite (list_lookup_fmap _ (seqZ _ _)), lookup_seqZ_lt by lia. cbn [fmap option_fmap option_map].
  unfold block_end. replace (0 + Z.of_nat (Z.to_nat (k - start))) with (k - start) by lia.
  replace (k - start <? _) with true by lia. replace (start + (k - start)) with k by lia. f_equal.
  apply to_raw; [apply E; lia|apply zero_raw_ok].
Qed.

(** Clean again: what a flushed region looks like. *)
Lemma cleaned_store C st n a j2 meta2 s2 :
  store_ok C st -> 0 <= a -> a + Z.of_nat n <= MS -> journal_ok j2 ->
  sit_geom s2 -> sentries s2 = sentries (sit (st_sm st)) -> dirty_sentries_bitmap s2 = dirty_sentries_bitmap (sit (st_sm st)) ->
  dirty_sentries s2 = dirty_sentries (sit (st_sm st)) ->
  (forall k, 0 <= k < MS -> in_region a n k = true \/ D_of (st_sm st) k = false -> on_media s2 meta2 j2 k (raw_of (C k))) ->
  (forall k, 0 <= k < MS -> raw_good (meta2 (current_sit_addr s2 k)).[SIT_ENTRY_OFFSET k]) ->
  let sm' := clean_region n a ((st_sm st) <| sit := s2 |>) in
  store_ok C (st <| st_sm := sm' |> <| st_jnl := j2 |> <| st_meta := meta2 |>) /\
  (forall k, 0 <= k -> D_of sm' k = D_of (st_sm st) k && negb (in_region a n k)) /\
  sit_base_addr (sit sm') = sit_base_addr s2 /\ sit_blocks (sit sm') = sit_blocks s2 /\ sit_bitmap (sit sm') = sit_bitmap s2 /\
  need_fsck sm' = need_fsck (st_sm st).
Proof.
  intros [G [L E] J HC Hcl Hct Hpg] Ha Hm Wj G2 Es Eb Ed Hmedia Hpages sm'. pose proof Htotal.
  set (sm1 := (st_sm st) <| sit := s2 |>) in *.
  assert (zlen (sentries (sit sm1)) = MS) as L1 by (cbn; by rewrite Es).
  assert (forall k, D_of sm1 k = D_of (st_sm st) k) as HD1 by (intros k; unfold D_of; cbn; by rewrite Eb).
  pose proof (clean_region_ok n a sm1 Ha Hm L1) as [(l & b & d & F) L2 E2 B2 C2]. fold sm' in F, L2, E2, B2, C2.
  assert (forall k, 0 <= k -> D_of sm' k = D_of (st_sm st) k && negb (in_region a n k)) as HD
    by (intros k Hk; by rewrite B2, HD1).
  assert (bits_from (D_of sm1) n a = bits_from (D_of (st_sm st)) n a) as Ebits by (by apply bits_from_ext).
  assert (count_upto (D_of (st_sm st)) (Z.to_nat MS) = count_upto (D_of sm') (Z.to_nat MS) + bits_from (D_of (st_sm st)) n a) as Hcnt.
  { rewrite (bits_from_clear MS (D_of (st_sm st)) (fun k => D_of (st_sm st) k && negb (in_region a n k)) n a Ha Hm) by done.
    f_equal. apply count_upto_ext. intros k Hk. rewrite HD by lia. done. }
  pose proof (count_upto_range (D_of sm') (Z.to_nat MS)). pose proof (count_upto_range (D_of (st_sm st)) (Z.to_nat MS)).
  assert (forall k, 0 <= k < MS -> (sentries (sit sm')).[k]
    = if in_region a n k && D_of (st_sm st) k then checkpointed (sentries (sit (st_sm st))).[k] else (sentries (sit (st_sm st))).[k]) as Eent.
  { intros k Hk. rewrite E2, HD1 by done. cbn [sit sm1 upd]. by rewrite Es. }
  assert (sit_base_addr (sit sm') = sit_base_addr s2 /\ sit_blocks (sit sm') = sit_blocks s2 /\
    sit_bitmap (sit sm') = sit_bitmap s2 /\ need_fsck sm' = need_fsck (st_sm st)) as (F1 & F2 & F3 & F4)
    by (rewrite F; done).
  assert (forall k, current_sit_addr (sit sm') k = current_sit_addr s2 k) as Hcur
    by (intros k; unfold current_sit_addr; by rewrite F1, F2, F3).
  split; [|done]. split; cbn [st_sm st_jnl st_meta upd].
  - destruct G2. split; rewrite ?F1, ?F2, ?F3; done.
  - split; [by rewrite L2|]. intros k Hk. rewrite Eent by done. destruct (_ && _); [by apply checkpointed_ok, E|by apply E].
  - done.
  - intros k Hk. rewrite Eent by done. destruct (_ && _); [rewrite checkpointed_idem|]; by apply HC.
  - intros k Hk Hd. rewrite HD in Hd by lia. split.
    + rewrite Eent by done. destruct (D_of (st_sm st) k) eqn:Edk; cbn [andb] in Hd.
      * apply negb_false_iff in Hd. rewrite Hd. cbn [andb]. by apply HC.
      * rewrite andb_false_r. by apply Hcl.
    + unfold on_media. rewrite Hcur. apply Hmedia; [done|]. destruct (D_of (st_sm st) k); [left|by right].
      by apply negb_false_iff in Hd.
  - rewrite C2; rewrite Ebits; cbn [sit sm1 upd]; rewrite Ed, Hct; lia.
  - intros k Hk. rewrite Hcur. by apply Hpages.
Qed.

(** A mode is sound when the journal has room for all that is dirty, or holds
    nothing that is. *)
Definition mode_ok (to_journal : bool) (st : sit_store) : Prop :=
  to_journal = true /\ count_upto (D_of (st_sm st)) (Z.to_nat MS) <= JE - n_sits (st_jnl st) \/
  forall k r, jhas (st_jnl st) k r -> D_of (st_sm st) k = false.
(** Nothing a crash would need is overwritten: [s0] and [meta0] are those of the
    last checkpoint, [sets] what is still to do. *)
Record old_kept (s0 : sit_info) (meta0 : Z -> list f2fs_sit_entry) (st : sit_store) (sets : list (Z * Z)) : Prop := {
  ok_meta k : 0 <= k < MS -> st_meta st (current_sit_addr s0 k) = meta0 (current_sit_addr s0 k);
  ok_same ses : ses ∈ sets -> current_sit_addr (sit (st_sm st)) (fst ses) = current_sit_addr s0 (fst ses);
  ok_base : sit_base_addr (sit (st_sm st)) = sit_base_addr s0 /\ sit_blocks (sit (st_sm st)) = sit_blocks s0;
}.

Lemma region_facts D ses sets :
  sets_ok MS sbi D (ses :: sets) ->
  let a := fst ses in let n := region_len sbi a in
  START_SEGNO a = a /\ 0 <= a < MS /\ a + Z.of_nat n <= MS /\ snd ses = bits_from D n a /\
  forall D', (forall k, 0 <= k -> D' k = D k && negb (in_region a n k)) ->
    sets_ok MS sbi D' sets /\ count_upto D' (Z.to_nat MS) = count_upto D (Z.to_nat MS) - bits_from D n a.
Proof.
  intros W a n. pose proof Htotal. destruct (ss_sets _ _ _ _ W ses ltac:(by left)) as [Hst Hr Hcnt]. fold a n in Hst, Hr, Hcnt.
  assert (a + Z.of_nat n <= MS) as Hm by (subst n; unfold region_len, block_end; lia).
  do 4 (split; [done|]). intros D' HD. split.
  - apply (sets_ok_ext MS sbi eq_refl (fun k => D k && negb (in_region a n k))).
    + intros k Hk. by rewrite HD by lia.
    + by apply (set_done MS sbi eq_refl D _ ses sets).
  - rewrite (bits_from_clear MS D (fun k => D k && negb (in_region a n k)) n a) by (lia || done).
    rewrite (count_upto_ext D' (fun k => D k && negb (in_region a n k))) by (intros k Hk; apply HD; lia). lia.
Qed.

Record set_flushed C s0 meta0 (st st' : sit_store) (b : bool) (sets : list (Z * Z)) : Prop := {
  sf_store : store_ok C st';
  sf_sets : sets_ok MS sbi (D_of (st_sm st')) sets;
  sf_mode : mode_ok b st';
  sf_kept : old_kept s0 meta0 st' sets;
  sf_fsck : need_fsck (st_sm st') = need_fsck (st_sm st);
}.

Section one_set.
Context (C : Z -> seg_entry) (st : sit_store) (to_j : bool) (ses : Z * Z) (sets : list (Z * Z)).
Context (s0 : sit_info) (meta0 : Z -> list f2fs_sit_entry).
Context (Wst : store_ok C st) (Wsets : sets_ok MS sbi (D_of (st_sm st)) (ses :: sets)) (Hmode : mode_ok to_j st).
Context (G0 : sit_geom s0) (Hold : old_kept s0 meta0 st (ses :: sets)).
#[local] Abbreviation a := (fst ses).
#[local] Abbreviation n := (region_len sbi (fst ses)).

Lemma region_raw k : 0 <= k < MS -> D_of (st_sm st) k = true \/ (sentries (sit (st_sm st))).[k] = C k ->
  raw_of (sentries (sit (st_sm st))).[k] = raw_of (C k).
Proof.
  intros Hk [_| ->]; [|done]. rewrite <- (sk_C _ _ Wst k Hk). done.
Qed.

Lemma flush_set_journal :
  to_j && has_sit_space (st_jnl st) (snd ses) = true ->
  exists st', flush_set sbi total_segs st to_j ses = Done (st', true) /\ set_flushed C s0 meta0 st st' true sets.
Proof.
  intros Ej. destruct (region_facts _ _ _ Wsets) as (Hst & Hr & Hm & Hcnt & Hsets).
  pose proof (bits_from_range (D_of (st_sm st)) n a) as Hbits. pose proof Wst as [G We J HC Hcl Hct Hpg].
  pose proof (count_upto_range (D_of (st_sm st)) (Z.to_nat MS)). pose proof Htotal.
  unfold flush_set. rewrite Ej. change (Z.to_nat (block_end sbi a - a)) with n.
  apply andb_true_iff in Ej as [_ Hroom%Z.leb_le].
  destruct (flush_region_journal n a (mk_flushing (st_sm st) (st_jnl st) [] (snd ses))) as (j2 & -> & W2 & N2 & S2 & O2);
    cbn [fl_sm fl_jnl fl_cnt fl_raw obind] in *; try done; try lia.
  rewrite Hcnt, Z.sub_diag. cbn [f2fs_bug_on nz].
  destruct (cleaned_store C st n a j2 (st_meta st) (sit (st_sm st)) Wst) as (Wst' & HD & F1 & F2 & F3 & F4); try done; try lia.
  { intros k Hk Hin. unfold on_media. destruct (in_region a n k && D_of (st_sm st) k) eqn:E.
    - left. apply andb_true_iff in E as [E1 E2]. rewrite S2 by done. symmetry. apply region_raw; [done|by left].
    - assert (D_of (st_sm st) k = false) as Hd by (destruct Hin as [Hin|]; [by rewrite Hin in E|done]).
      destruct (Hcl k Hk Hd) as [_ [Hj|[Hno Hm']]].
      + left. by apply O2.
      + right. split; [|done]. intros r' Hj. apply (Hno r'). by apply O2. }
  replace ((st_sm st) <| sit := sit (st_sm st) |>) with (st_sm st) in * by (by destruct (st_sm st)).
  eexists. split; [reflexivity|]. destruct (Hsets (D_of (clean_region n a (st_sm st))) HD) as [Hs Hc]. split; try done.
  - destruct Hmode as [[_ Hrm]|Hcl0]; [left; cbn; split; [done|lia]|right]. cbn. intros k r Hj.
    assert (0 <= k) as Hk by (destruct Hj as (i & Hi & E); pose proof (jo_seg _ W2 i Hi) as Hs'; rewrite E in Hs'; cbn in Hs'; lia).
    rewrite HD by done. destruct (in_region a n k) eqn:Ein; [by rewrite andb_false_r|].
    apply O2 in Hj; [|by rewrite Ein]. by rewrite (Hcl0 k r Hj).
  - destruct Hold as [M1 M2 M3]. split; cbn.
    + done.
    + intros ses' Hin. rewrite <- (M2 ses') by (by right). unfold current_sit_addr. by rewrite F1, F2, F3.
    + by rewrite F1, F2.
Qed.

#[local] Abbreviation dst := (next_sit_addr (sit (st_sm st)) (current_sit_addr (sit (st_sm st)) a)).
#[local] Abbreviation meta2 :=
  (fun b => if decide (b = dst) then seg_info_to_sit_page sbi (sit (st_sm st)) a else st_meta st b).
(** After the page is written to the other copy, what is clean is on the device. *)
Lemma page_media k :
  (forall k r, jhas (st_jnl st) k r -> D_of (st_sm st) k = false) ->
  0 <= k < MS -> in_region a n k = true \/ D_of (st_sm st) k = false ->
  on_media (set_to_next_sit (sit (st_sm st)) a) meta2 (st_jnl st) k (raw_of (C k)).
Proof.
  intros Hcl0 Hk Hin. destruct (region_facts _ _ _ Wsets) as (Hst & Hr & Hm & _). pose proof Wst as [G We _ _ Hcl _ _].
  unfold on_media. rewrite current_addr_next by done.
  destruct (SIT_BLOCK_OFFSET k =? SIT_BLOCK_OFFSET a) eqn:Eo.
  - apply Z.eqb_eq in Eo. assert (in_region a n k = true) as Ein.
    { apply in_region_spec. apply (region_spec MS); [done..|]. unfold START_SEGNO in *. by rewrite Eo. }
    rewrite decide_True by done. unfold SIT_ENTRY_OFFSET. pose proof (proj2 We) as E. rewrite sit_page_get by done.
    destruct (D_of (st_sm st) k) eqn:Hd.
    + right. split; [|apply region_raw; auto]. intros r Hj%Hcl0. congruence.
    + destruct (Hcl k Hk Hd) as [Eq [Hj|[Hj _]]]; [by left|right]. split; [done|]. apply region_raw; auto.
  - assert (D_of (st_sm st) k = false) as Hd.
    { destruct Hin as [Ein|]; [exfalso|done]. apply in_region_spec, (region_spec MS sbi eq_refl a k Hst Hr Hk) in Ein.
      apply Z.eqb_neq in Eo. apply Eo. unfold START_SEGNO in *. pose proof sents_range. nia. }
    destruct (Hcl k Hk Hd) as [_ [Hj|[Hj Hmd]]]; [by left|right]. split; [done|].
    rewrite decide_False; [done|]. intros E. by apply (next_not_current _ a k G Hr Hk).
Qed.
Lemma page_good k : 0 <= k < MS -> raw_good (meta2 (current_sit_addr (set_to_next_sit (sit (st_sm st)) a) k)).[SIT_ENTRY_OFFSET k].
Proof.
  intros Hk. destruct (region_facts _ _ _ Wsets) as (Hst & Hr & Hm & _). pose proof Wst as [G We _ _ _ _ Hpg].
  rewrite current_addr_next by done. destruct (SIT_BLOCK_OFFSET k =? SIT_BLOCK_OFFSET a) eqn:Eo.
  - apply Z.eqb_eq in Eo. rewrite decide_True by done. unfold SIT_ENTRY_OFFSET. pose proof (proj2 We) as E. rewrite sit_page_get; try done.
    + exists (sentries (sit (st_sm st))).[k]. split; [by apply E|done].
    + apply in_region_spec. apply (region_spec MS); [done..|]. unfold START_SEGNO in *. by rewrite Eo.
  - rewrite decide_False by (intros E; by apply (next_not_current _ a k G Hr Hk)). by apply Hpg.
Qed.
Lemma page_kept :
  (forall k, 0 <= k < MS -> meta2 (current_sit_addr s0 k) = meta0 (current_sit_addr s0 k)) /\
  forall ses', ses' ∈ sets -> current_sit_addr (set_to_next_sit (sit (st_sm st)) a) (fst ses') = current_sit_addr s0 (fst ses').
Proof.
  destruct (region_facts _ _ _ Wsets) as (Hst & Hr & _). pose proof (sk_geom _ _ Wst) as G.
  destruct Hold as [M1 M2 [M3 M4]]. split.
  - intros k Hk. rewrite decide_False; [by apply M1|]. rewrite (M2 ses) by (by left).
    replace (next_sit_addr _ (current_sit_addr s0 a)) with (next_sit_addr s0 (current_sit_addr s0 a))
      by (unfold next_sit_addr; by rewrite M3, M4).
    intros E. by apply (next_not_current s0 a k G0 Hr Hk).
  - intros ses' Hin. destruct (ss_sets _ _ _ _ Wsets ses' ltac:(by right)) as [Hs' Hr' _].
    rewrite current_addr_next by done. rewrite <- (M2 ses') by (by right).
    replace (SIT_BLOCK_OFFSET (fst ses') =? SIT_BLOCK_OFFSET a) with false; [done|]. symmetry. apply Z.eqb_neq. intros E.
    pose proof (ss_nodup _ _ _ _ Wsets) as N. cbn [map] in N. apply list.NoDup_cons in N as [N _]. apply N.
    replace a with (fst ses') by (rewrite <- Hst, <- Hs'; unfold START_SEGNO; by rewrite E).
    by apply (list_elem_of_fmap_2 fst).
Qed.

Lemma flush_set_page :
  to_j && has_sit_space (st_jnl st) (snd ses) = false ->
  exists st', flush_set sbi total_segs st to_j ses = Done (st', false) /\ set_flushed C s0 meta0 st st' false sets.
Proof.
  intros Ej. destruct (region_facts _ _ _ Wsets) as (Hst & Hr & Hm & Hcnt & Hsets).
  pose proof (bits_from_range (D_of (st_sm st)) n a) as Hbits. pose proof Wst as [G We J HC Hcl Hct Hpg].
  pose proof (count_upto_range (D_of (st_sm st)) (Z.to_nat MS)). pose proof Htotal.
  destruct (Hsets _ (fun k _ => eq_refl)) as [_ Hsum].
  pose proof (count_upto_range (fun k => D_of (st_sm st) k && negb (in_region a n k)) (Z.to_nat MS)).
  assert (forall k r, jhas (st_jnl st) k r -> D_of (st_sm st) k = false) as Hcl0.
  { destruct Hmode as [[-> Hrm]|?]; [exfalso|done]. cbn [andb] in Ej. apply Z.leb_gt in Ej. lia. }
  unfold flush_set. rewrite Ej. change (Z.to_nat (block_end sbi a - a)) with n.
  rewrite flush_region_page; cbn [fl_sm fl_jnl fl_cnt fl_raw obind] in *; try done; try lia.
  2: { intros k Hk. by apply (sit_page_get _ a k (proj2 We)). }
  2: { unfold D_of in *. cbn. lia. }
  change (bits_from (D_of ((st_sm st) <| sit ::= fun s => set_to_next_sit s a |>)) n a) with (bits_from (D_of (st_sm st)) n a).
  rewrite Hcnt, Z.sub_diag. cbn [f2fs_bug_on nz].
  destruct (cleaned_store C st n a (st_jnl st) meta2 (set_to_next_sit (sit (st_sm st)) a) Wst) as (Wst' & HD & F1 & F2 & F3 & F4);
    try done; try lia; [by apply set_to_next_geom|intros k Hk Hin; by apply page_media|apply page_good|].
  set (sm2 := clean_region _ _ _) in *.
  assert (forall k, current_sit_addr (sit sm2) k = current_sit_addr (set_to_next_sit (sit (st_sm st)) a) k) as Haddr
    by (intros k; unfold current_sit_addr; by rewrite F1, F2, F3).
  eexists. split; [reflexivity|]. change (clean_region _ _ _) with sm2.
  destruct (Hsets (D_of sm2) HD) as [Hs _].
  destruct page_kept as [K1 K2]. split; try done.
  - right. cbn. intros k r Hj.
    assert (0 <= k) as Hk by (destruct Hj as (i & Hi & E); pose proof (jo_seg _ J i Hi) as Hs'; rewrite E in Hs'; cbn in Hs'; lia).
    rewrite HD by done. by rewrite (Hcl0 k r Hj).
  - split.
    + exact K1.
    + intros ses' Hin. rewrite <- (K2 ses' Hin). exact (Haddr (fst ses')).
    + destruct (ok_base _ _ _ _ Hold) as [<- <-]. exact (conj F1 F2).
Qed.
Lemma flush_set_ok :
  exists st' b, flush_set sbi total_segs st to_j ses = Done (st', b) /\ set_flushed C s0 meta0 st st' b sets.
Proof.
  destruct (to_j && has_sit_space (st_jnl st) (snd ses)) eqn:Ej.
  - destruct (flush_set_journal Ej) as (st' & ? & ?). by exists st', true.
  - destruct (flush_set_page Ej) as (st' & ? & ?). by exists st', false.
Qed.
End one_set.

Lemma flush_sets_ok C sets st to_j s0 meta0 :
  store_ok C st -> sets_ok MS sbi (D_of (st_sm st)) sets -> mode_ok to_j st -> sit_geom s0 -> old_kept s0 meta0 st sets ->
  exists st', flush_sets sbi total_segs sets to_j st = Done st' /\ store_ok C st' /\ st_sets st' = [] /\
    (forall k, 0 <= k < MS -> D_of (st_sm st') k = false) /\ old_kept s0 meta0 st' [] /\ need_fsck (st_sm st') = need_fsck (st_sm st).
Proof.
  revert st to_j. induction sets as [|ses sets IH]; intros st to_j W Ws Hm G0 Hold; cbn [flush_sets].
  - exists (st <| st_sets := [] |>). split; [done|]. split; [by destruct W|]. split; [done|]. split; [|split; [by destruct Hold|done]].
    intros k Hk. destruct (D_of (st_sm st) k) eqn:Hd; [exfalso|done].
    pose proof (ss_cover _ _ _ _ Ws k Hk Hd) as Hin. by apply not_elem_of_nil in Hin.
  - destruct (flush_set_ok C st to_j ses sets s0 meta0 W Ws Hm G0 Hold) as (st1 & b & -> & [W1 Ws1 Hm1 K1 F1]). cbn [obind fst snd].
    destruct (IH st1 b W1 Ws1 Hm1 G0 K1) as (st2 & E & R). exists st2. rewrite <- F1. by split.
Qed.

Lemma count_upto_zero Q m : count_upto Q m = 0 -> forall k, 0 <= k < Z.of_nat m -> Q k = false.
Proof.
  intros Hz k Hk. destruct (Q k) eqn:E; [exfalso|done].
  pose proof (count_upto_lt (fun _ => false) Q m k ltac:(done) Hk E eq_refl). rewrite (count_upto_none (fun _ => false)) in *; done || lia.
Qed.

(** Everything in the journal becomes dirty and the journal empty. *)
Lemma remove_sits_ok C st :
  store_ok C st -> sets_ok MS sbi (D_of (st_sm st)) (st_sets st) ->
  let st' := remove_sits_in_journal st in
  store_ok C st' /\ sets_ok MS sbi (D_of (st_sm st')) (st_sets st') /\ (forall k r, ~ jhas (st_jnl st') k r) /\
  st_meta st' = st_meta st /\ need_fsck (st_sm st') = need_fsck (st_sm st) /\
  (sit_base_addr (sit (st_sm st')) = sit_base_addr (sit (st_sm st)) /\ sit_blocks (sit (st_sm st')) = sit_blocks (sit (st_sm st))) /\
  forall k, current_sit_addr (sit (st_sm st')) k = current_sit_addr (sit (st_sm st)) k.
Proof.
  intros [G We J HC Hcl Hct Hpg] Ws st'. pose proof J as [Wn Wl Wr Wseg Wu]. set (l := take (Z.to_nat (n_sits (st_jnl st))) (sit_j (st_jnl st))).
  assert (forall i, 0 <= i < n_sits (st_jnl st) -> l !! Z.to_nat i = Some (sit_j (st_jnl st)).[i]) as Hl
    by (intros i Hi; subst l; rewrite lookup_take_lt by lia; apply lookup_aget; lia).
  assert (forall e, e ∈ l -> exists i, 0 <= i < n_sits (st_jnl st) /\ (sit_j (st_jnl st)).[i] = e) as Hin.
  { intros e (i & He)%list_elem_of_lookup_1. exists (Z.of_nat i). pose proof (lookup_lt_Some _ _ _ He) as Hlt.
    assert (0 <= Z.of_nat i < n_sits (st_jnl st)) as Hi by (subst l; rewrite length_take in Hlt; lia). split; [done|].
    specialize (Hl _ Hi). rewrite Nat2Z.id, He in Hl. by injection Hl. }
  pose proof Htotal.
  destruct (drop_journal_ok MS sbi eq_refl l (sit (st_sm st)) (st_sets st)) as (bm & d & sets' & E & Ws' & Hd & Hb);
    [lia|intros e He; destruct (Hin e He) as (i & Hi & <-); by apply Wseg|exact Ws|exact Hct|].
  assert (st' = st <| st_sm ::= fun sm => sm <| sit := with_dirty (sit (st_sm st)) bm d |> |> <| st_sets := sets' |>
     <| st_jnl := (st_jnl st) <| n_sits := 0 |> |>) as ->.
  { subst st'. unfold remove_sits_in_journal. fold l. rewrite E. cbn [fst snd update_sits_in_cursum].
    by replace (u16 (n_sits (st_jnl st) + - n_sits (st_jnl st))) with 0 by (by rewrite Z.add_opp_diag_r). }
  assert (forall k r, ~ jhas ((st_jnl st) <| n_sits := 0 |>) k r) as Hno by (intros k r (i & Hi & _); cbn in Hi; lia).
  split; [|done]. split; cbn [st_sm st_jnl st_meta upd]; try done.
  - by destruct G.
  - split; cbn [n_sits sit_j upd]; try done; [lia|intros i; lia..].
  - intros k Hk Hd'. assert (D_of (st_sm st) k = false /\ forall e, e ∈ l -> fst e <> k) as [Hd0 Hne].
    { split; [|intros e He Hek]; [destruct (D_of (st_sm st) k) eqn:E'; [|done]|]; apply not_true_iff_false in Hd';
        destruct Hd'; apply Hb; [lia|by left|lia|right; by exists e]. }
    destruct (Hcl k Hk Hd0) as [Ek Hm]. split; [exact Ek|]. right. split; [by apply Hno|].
    destruct Hm as [(i & Hi & Ei)|[_ Hm]]; [exfalso|exact Hm]. apply (Hne (k, raw_of (C k))); [|done].
    rewrite <- Ei. eapply list_elem_of_lookup_2. by apply Hl.
Qed.

Lemma flush_sit_entries_ok C st :
  store_ok C st -> st_sets st = [] ->
  exists st', flush_sit_entries sbi total_segs st = Done st' /\ store_ok C st' /\ st_sets st' = [] /\
    (forall k, 0 <= k < MS -> D_of (st_sm st') k = false) /\
    (forall k, 0 <= k < MS -> st_meta st' (current_sit_addr (sit (st_sm st)) k) = st_meta st (current_sit_addr (sit (st_sm st)) k)) /\
    need_fsck (st_sm st') = need_fsck (st_sm st) /\
    sit_base_addr (sit (st_sm st')) = sit_base_addr (sit (st_sm st)) /\ sit_blocks (sit (st_sm st')) = sit_blocks (sit (st_sm st)).
Proof.
  intros W Hsets. pose proof W as [G We J HC Hcl Hct Hpg]. pose proof Htotal. unfold flush_sit_entries.
  destruct (Z.eqb_spec (dirty_sentries (sit (st_sm st))) 0) as [Ez|_].
  { exists st. do 3 (split; [done|]). split; [|by split]. intros k Hk. rewrite Hct in Ez. apply (count_upto_zero _ _ Ez). lia. }
  set (st1 := add_sits_in_set sbi st). set (st2 := if negb _ then _ else st1).
  assert (store_ok C st1) as W1 by (destruct W; split; done).
  assert (sets_ok MS sbi (D_of (st_sm st1)) (st_sets st1)) as Ws1.
  { cbn. rewrite Hsets. apply (add_all_sits_ok MS); lia || done. }
  assert (store_ok C st2 /\ sets_ok MS sbi (D_of (st_sm st2)) (st_sets st2) /\ mode_ok true st2 /\
    old_kept (sit (st_sm st)) (st_meta st) st2 (st_sets st2) /\ need_fsck (st_sm st2) = need_fsck (st_sm st))
    as (W2 & Ws2 & Hm2 & K2 & F2).
  { subst st2. destruct (has_sit_space _ _) eqn:Hs; cbn [negb].
    - unfold has_sit_space in Hs. split; [done|]. split; [done|]. split; [|by split].
      left. split; [done|]. apply Z.leb_le in Hs. pose proof (sk_count _ _ W1). lia.
    - destruct (remove_sits_ok C st1 W1 Ws1) as (W2 & Ws2 & Hno & Em & Ef & Eb & Ea). split; [done|]. split; [done|].
      split; [right; by intros k r Hj%Hno|]. split; [|done]. split; [by rewrite Em|intros ses _; apply Ea|done]. }
  destruct (flush_sets_ok C (st_sets st2) st2 true (sit (st_sm st)) (st_meta st) W2 Ws2 Hm2 G K2)
    as (st3 & -> & W3 & Hs3 & D3 & K3 & F3).
  assert (dirty_sentries (sit (st_sm st3)) = 0) as Hd0.
  { rewrite (sk_count _ _ W3). apply count_upto_none. intros k Hk. apply D3. lia. }
  exists st3. split; [cbn; unfold upd; cbn; rewrite Hd0; by destruct st3|]. split; [done|]. split; [done|].
  split; [done|]. split; [apply (ok_meta _ _ _ _ K3)|]. split; [by rewrite F3|]. apply (ok_base _ _ _ _ K3).
Qed.
End media.
