(* ===== verification/Mount.v ===== *)
(** * Mounting the segment manager ([segment.c])

    build_sit_info, build_free_segmap, build_sit_entries, init_free_segmap and
    init_dirty_segmap rebuild in memory what the last checkpoint left on the
    device: the entries come from the current SIT copies and the journal, the
    free maps and the dirty lists from the entries. *)
From S2P Require Import Prelude Geometry Heap Mpt FreeMap Machine Redirect BlockIo F2fsBits MptFlush RevBits Sit SitFlush.
Open Scope Z_scope.

(** What a mount reads of the superblock and of the checkpoint pack. *)
Record mount_src := mk_src {
  raw_sit_blkaddr : Z;
  raw_segment_count_sit : Z;
  log_blocks_per_seg : Z;
  total_sections : Z;
  cp_sit_bitmap : list Z;          (* __bitmap_ptr(sbi, SIT_BITMAP) *)
  cp_elapsed_time : Z;
  cp_trimmed : bool;               (* CP_TRIMMED_FLAG *)
  valid_node_count : Z;
}.
#[export] Instance eta_src : Eta mount_src := fun s =>
  mk_src (raw_sit_blkaddr s) (raw_segment_count_sit s) (log_blocks_per_seg s) (total_sections s) (cp_sit_bitmap s)
    (cp_elapsed_time s) (cp_trimmed s) (valid_node_count s).

Section mount.
Context `{F2fsFormat} `{BitSearch} `{SitFormat} `{SitPages}.
Context (sbi : f2fs_sb_info) (total_segs : Z) (src : mount_src).
#[local] Abbreviation MAIN_SEGS := (segment_count_main sbi).
#[local] Abbreviation MAIN_SECS := (total_sections src).

(** ** Allocation of the tables *)

(** f2fs_bitmap_size, in bits *)
Definition bitmap_bits (nr : Z) : Z := (nr + 63) / 64 * 64.
Definition zero_map : list Z := replicate (Z.to_nat SIT_VBLOCK_MAP_SIZE) 0.
(** [now] is ktime_get_real_seconds(). *)
Definition build_sit_info (discard : bool) (now : Z) : sit_info := {|
  sit_base_addr := raw_sit_blkaddr src;
  sit_blocks := u32 (Z.shiftl (Z.shiftr (raw_segment_count_sit src) 1) (log_blocks_per_seg src));
  written_valid_blocks := 0;
  sit_bitmap := cp_sit_bitmap src;
  dirty_sentries_bitmap := 0;
  dirty_sentries := 0;
  sentries := replicate (Z.to_nat MAIN_SEGS) (mk_se 0 0 0 zero_map zero_map (if discard then zero_map else []) 0);
  sec_entries := if 1 <? segs_per_sec sbi then replicate (Z.to_nat MAIN_SECS) 0 else [];
  max_mtime := 0;
  elapsed_time := cp_elapsed_time src;
  mounted_time := now;
|}.
Definition build_free_segmap : free_segmap_info := {|
  free_segments := 0; free_sections := 0;
  free_segmap := Z.ones (bitmap_bits MAIN_SEGS); free_secmap := Z.ones (bitmap_bits MAIN_SECS);
|}.

(** ** The entries *)

(** The entry at [start] takes the place of the one read so far. *)
Definition load_entry (start : Z) (raw : f2fs_sit_entry) (fresh : bool)
    (r : segman * Z) : Z * (segman * Z) :=
  let sm := fst r in
  let total := snd r in
  let se := (sentries (sit sm)).[start] in
  let old := valid_blocks se in
  let total := if negb fresh && IS_NODESEG (se_type se) then u32 (total - old) else total in
  let c := check_block_count sbi total_segs start raw sm in
  if negb (fst c =? 0) then (fst c, (snd c, total))
  else
    let se := seg_info_from_raw_sit se raw in
    let total := if IS_NODESEG (se_type se) then u32 (total + valid_blocks se) else total in
    let se := if discard_en sm then
                if cp_trimmed src then se <| discard_map := replicate (Z.to_nat SIT_VBLOCK_MAP_SIZE) 255 |>
                else se <| discard_map := blit (discard_map se) 0 (slice (cur_valid_map se) 0 SIT_VBLOCK_MAP_SIZE) |>
              else se in
    let sm := if discard_en sm && negb (cp_trimmed src) then
                sm <| discard_blks ::= fun n =>
                        if fresh then u32 (n + (blocks_per_seg sbi - valid_blocks se))
                        else u32 (u32 (n + old) - valid_blocks se) |>
              else sm in
    let sm := sm <| sit ::= fun s => s <| sentries ::= fun a => a.[start <- se] |> |> in
    let secno := GET_SEC_FROM_SEG sbi start in
    let sm := if 1 <? segs_per_sec sbi then
                sm <| sit ::= fun s => s <| sec_entries ::= fun a =>
                        a.[secno <- if fresh then u32 (a.[secno] + valid_blocks se)
                                    else u32 (u32 (a.[secno] + valid_blocks se) - old)] |> |>
              else sm in
    (0, (sm, total)).

(** All SIT blocks; the read-ahead only batches the loop. *)
Fixpoint load_pages (meta : Z -> list f2fs_sit_entry) (n : nat) (start : Z) (r : segman * Z)
    : Z * (segman * Z) :=
  match n with
  | O => (0, r)
  | S n =>
      let sit0 := sit (fst r) in
      let q := load_entry start (meta (current_sit_addr sit0 start)).[SIT_ENTRY_OFFSET start] true r in
      if negb (fst q =? 0) then q else load_pages meta n (start + 1) (snd q)
  end.
Fixpoint load_journal (l : list (Z * f2fs_sit_entry)) (r : segman * Z) : Z * (segman * Z) :=
  match l with
  | [] => (0, r)
  | e :: l =>
      if MAIN_SEGS <=? fst e then (- EINVAL, ((fst r) <| need_fsck := true |>, snd r))
      else
        let q := load_entry (fst e) (snd e) false r in
        if negb (fst q =? 0) then q else load_journal l (snd q)
  end.
Definition build_sit_entries (sm : segman) (j : f2fs_journal)
    (meta : Z -> list f2fs_sit_entry) : Z * segman :=
  let q := load_pages meta (Z.to_nat MAIN_SEGS) 0 (sm, 0) in
  if negb (fst q =? 0) then (fst q, fst (snd q))
  else
    let q := load_journal (take (Z.to_nat (n_sits j)) (sit_j j)) (snd q) in
    if (fst q =? 0) && negb (snd (snd q) =? valid_node_count src)
    then (- EINVAL, (fst (snd q)) <| need_fsck := true |>)
    else (fst q, fst (snd q)).

(** ** The free maps and the dirty lists *)

Fixpoint free_unused (n : nat) (start : Z) (r : sit_info * free_segmap_info) : sit_info * free_segmap_info :=
  match n with
  | O => r
  | S n =>
      let sentry := (sentries (fst r)).[start] in
      free_unused n (start + 1)
        (if valid_blocks sentry =? 0 then (fst r, __set_free sbi (snd r) start)
         else ((fst r) <| written_valid_blocks ::= fun v => u32 (v + valid_blocks sentry) |>, snd r))
  end.
Definition init_free_segmap (s : sit_info) (f : free_segmap_info) : sit_info * free_segmap_info :=
  let r := free_unused (Z.to_nat MAIN_SEGS) 0 (s, f) in
  (fst r, foldl (__set_test_and_inuse sbi) (snd r) (take 6 (curseg_segno sbi))).

(** The loop of init_dirty_segmap; [n] bounds its rounds. *)
Fixpoint scan_dirty (n : nat) (f : free_segmap_info) (offset : Z) (sm : segman) : outcome segman :=
  match n with
  | O => NoFuel
  | S n =>
      let segno := find_next_inuse f MAIN_SEGS offset in
      if MAIN_SEGS <=? segno then Done sm
      else
        let offset := u32 (segno + 1) in
        let vb := u16 (get_valid_blocks sbi sm segno false) in
        if (vb =? blocks_per_seg sbi) || (vb =? 0) then scan_dirty n f offset sm
        else if blocks_per_seg sbi <? vb then scan_dirty n f offset (f2fs_bug_on true sm)
        else scan_dirty n f offset (__locate_dirty_segment sbi sm segno DIRTY)
  end.
Definition init_dirty_segmap (f : free_segmap_info) (sm : segman) : outcome segman :=
  scan_dirty (S (Z.to_nat MAIN_SEGS)) f 0 sm.
(** build_dirty_segmap: NR_DIRTY_TYPE (8) empty maps *)
Definition no_dirty : dirty_seglist_info := mk_dirty (replicate 8 0) (replicate 8 0) 0.

(** The steps of f2fs_build_segment_manager after the logs are read: an error
    of build_sit_entries ends the mount. *)
Definition build_segment_manager (discard : bool) (now : Z) (j : f2fs_journal) (meta : Z -> list f2fs_sit_entry)
    : outcome (Z * (segman * free_segmap_info)) :=
  let f := build_free_segmap in
  let r := build_sit_entries (mk_sm (build_sit_info discard now) no_dirty discard 0 false) j meta in
  if negb (fst r =? 0) then Done (fst r, (snd r, f))
  else
    let q := init_free_segmap (sit (snd r)) f in
    sm <-- init_dirty_segmap (snd q) ((snd r) <| sit := fst q |>) ;;
    Done (0, (sm, snd q)).
End mount.

(** ** Reading the entries back *)

Section loading.
Context `{SitFormatOk} `{SitPagesOk}.
Context (sbi : f2fs_sb_info) (total_segs : Z) (src : mount_src).
#[local] Abbreviation MS := (segment_count_main sbi).
#[local] Abbreviation sps := (segs_per_sec sbi).
#[local] Abbreviation VMS := SIT_VBLOCK_MAP_SIZE.
Context (Hbps : 0 <= blocks_per_seg sbi <= 512) (Htotal : 0 <= MS <= total_segs) (Htotal32 : total_segs < 4294967296).
Context (Hsps : 0 < sps) (Hsecs : MS = total_sections src * sps).

Definition node_blocks (se : seg_entry) : Z := if IS_NODESEG (se_type se) then valid_blocks se else 0.
(** [se] is [e] as a checkpoint stores it; the discard map is not stored. *)
Definition reads (se e : seg_entry) : Prop := exists d, se = (checkpointed e) <| discard_map := d |>.

(** The loaded part, and the sums over it. *)
Record loaded (sm0 sm : segman) (total : Z) : Prop := {
  ld_frame : exists l e d, sm = sm0 <| discard_blks := d |> <| sit ::= fun s => s <| sentries := l |> <| sec_entries := e |> |>;
  ld_len : zlen (sentries (sit sm)) = MS;
  ld_maps k : 0 <= k < MS -> let se := (sentries (sit sm)).[k] in
    zlen (cur_valid_map se) = VMS /\ zlen (ckpt_valid_map se) = VMS /\
    zlen (discard_map se) = if discard_en sm0 then VMS else 0;
  ld_valid k : 0 <= k < MS -> 0 <= valid_blocks (sentries (sit sm)).[k] <= blocks_per_seg sbi;
  ld_total : total = u32 (sum_upto (fun k => node_blocks (sentries (sit sm)).[k]) (Z.to_nat MS));
  ld_sec : 1 < sps -> zlen (sec_entries (sit sm)) = total_sections src /\
    forall c, 0 <= c < total_sections src -> (sec_entries (sit sm)).[c] = u32 (sec_valid sbi (sit sm) c);
}.

Lemma load_entry_eq sm total k e fresh :
  let old := (sentries (sit sm)).[k] in
  entry_ok sbi e -> 0 <= k < MS -> zlen (cur_valid_map old) = VMS -> zlen (ckpt_valid_map old) = VMS ->
  zlen (discard_map old) = (if discard_en sm then VMS else 0) ->
  (fresh = true -> valid_blocks old = 0) -> u32 total = total ->
  exists se d, reads se e /\ zlen (discard_map se) = (if discard_en sm then VMS else 0) /\
    load_entry sbi total_segs src k (raw_of e) fresh (sm, total) =
      (0, (sm <| discard_blks := d |> <| sit ::= fun s => s <| sentries ::= fun a => a.[k <- se] |>
             <| sec_entries ::= fun a => if 1 <? sps then a.[k / sps <- u32 (a.[k / sps] + (valid_blocks e - valid_blocks old))] else a |> |>,
           u32 (total + (node_blocks e - node_blocks old)))).
Proof.
  intros old We Hk L1 L2 L3 Hfresh Htot. unfold load_entry. cbn [fst snd]. fold old.
  rewrite check_block_count_ok by done. cbn [fst snd Z.eqb negb]. rewrite (from_raw sbi Hbps e old We L1 L2).
  set (e' := (checkpointed e) <| discard_map := discard_map old |>).
  change (se_type e') with (se_type e). change (valid_blocks e') with (valid_blocks e).
  assert (forall b, (if b : bool then u32 ((if negb fresh && IS_NODESEG (se_type old) then u32 (total - valid_blocks old) else total) + valid_blocks e)
      else if negb fresh && IS_NODESEG (se_type old) then u32 (total - valid_blocks old) else total)
    = u32 (total + ((if b then valid_blocks e else 0) - node_blocks old))) as Ht.
  { intros b. unfold node_blocks. destruct fresh; cbn [negb andb].
    - rewrite Hfresh by done. destruct b, (IS_NODESEG (se_type old)); rewrite ?Z.sub_0_r, ?Z.add_0_r; done.
    - destruct b, (IS_NODESEG (se_type old)); rewrite ?u32_add_l, ?Z.sub_0_r, ?Z.add_0_r; try done; f_equal; lia. }
  rewrite Ht. fold (node_blocks e).
  assert (forall x, (if fresh then u32 (x + valid_blocks e) else u32 (u32 (x + valid_blocks e) - valid_blocks old))
    = u32 (x + (valid_blocks e - valid_blocks old))) as Hs.
  { intros x. destruct fresh; [rewrite Hfresh by done; f_equal; lia|rewrite u32_sub_l; f_equal; lia]. }
  pose proof sit_map_size.
  clearbody old. subst e'. destruct sm as [[] ? den ? ?]. cbn in L3. unfold GET_SEC_FROM_SEG.
  destruct den, (cp_trimmed src), (1 <? sps); unfold upd; cbn -[u32 node_blocks blit slice Z.div];
    do 2 eexists; (split; [|split; [|rewrite ?Hs; reflexivity]]); try (by eexists); cbn.
  all: try exact L3; try (rewrite zlen_replicate; lia).
  all: rewrite (blit_slice_full _ (cur_valid_map e) VMS L3 (eo_cur _ _ We)); apply We.
Qed.

(** The sums of the tables when entry [k] changes. *)
Lemma sec_valid_update s s' k v c :
  0 <= k < MS -> 0 <= c < total_sections src ->
  (forall i, 0 <= i < MS -> seg_valid s' i = if k =? i then v else seg_valid s i) ->
  sec_valid sbi s' c = sec_valid sbi s c + if k / sps =? c then v - seg_valid s k else 0.
Proof.
  intros Hk Hc Hv. unfold sec_valid. destruct (Z.eqb_spec (k / sps) c) as [<-|Hne].
  - rewrite (sum_upto_update (fun i => seg_valid s (k / sps * sps + i)) _ _ (k mod sps)).
    + pose proof (Z.div_mod k sps ltac:(lia)). rewrite Hv by dlia.
      replace (k / sps * sps + k mod sps) with k by lia. by rewrite Z.eqb_refl.
    + pose proof (Z.mod_pos_bound k sps). lia.
    + intros i Hi Hn. rewrite Hv by nia. replace (k =? k / sps * sps + i) with false; [done|]. symmetry. apply Z.eqb_neq.
      intros E. apply Hn. rewrite E, Z.add_comm, Z.mod_add by lia. symmetry. apply Z.mod_small. lia.
  - rewrite Z.add_0_r. apply sum_upto_ext. intros i Hi. rewrite Hv by nia.
    replace (k =? c * sps + i) with false; [done|]. symmetry. apply Z.eqb_neq. intros ->. apply Hne.
    rewrite Z.div_add_l by lia. rewrite Z.div_small by lia. lia.
Qed.

Lemma load_entry_ok sm0 sm total k e fresh :
  loaded sm0 sm total -> entry_ok sbi e -> 0 <= k < MS ->
  (fresh = true -> valid_blocks (sentries (sit sm)).[k] = 0) ->
  exists sm' total', load_entry sbi total_segs src k (raw_of e) fresh (sm, total) = (0, (sm', total')) /\
    loaded sm0 sm' total' /\ reads (sentries (sit sm')).[k] e /\
    forall i, i <> k -> (sentries (sit sm')).[i] = (sentries (sit sm)).[i].
Proof.
  intros [(l0 & e0 & d0 & F) Hlen Hmaps Hval Htot Hsec] We Hk Hfresh.
  destruct (Hmaps k Hk) as (M1 & M2 & M3).
  assert (discard_en sm = discard_en sm0) as Ed by (by rewrite F). rewrite <- Ed in *.
  destruct (load_entry_eq sm total k e fresh We Hk M1 M2 M3 Hfresh) as (se & d & Hr & Hd & ->); [by rewrite Htot, u32_u32|].
  set (sm' := sm <| discard_blks := d |> <| sit ::= _ |>). exists sm'. eexists. split; [reflexivity|].
  assert (forall i, (sentries (sit sm')).[i] = if k =? i then se else (sentries (sit sm)).[i]) as Hget
    by (intros i; apply aget_aset; lia).
  assert (zlen (cur_valid_map se) = VMS /\ zlen (ckpt_valid_map se) = VMS /\ valid_blocks se = valid_blocks e /\
    node_blocks se = node_blocks e) as (S1 & S2 & S3 & S4) by (destruct Hr as [? ->]; do 2 (split; [exact (eo_cur _ _ We)|]); by split).
  split; [split|split].
  - subst sm'. rewrite F. by eexists _, _, _.
  - cbn. by rewrite zlen_aset.
  - intros i Hi. cbv zeta. rewrite Hget. destruct (Z.eqb_spec k i) as [<-|]; [by rewrite <- Ed|rewrite <- Ed; by apply Hmaps].
  - intros i Hi. rewrite Hget. destruct (Z.eqb_spec k i) as [<-|]; [rewrite S3; apply We|by apply Hval].
  - rewrite Htot, u32_add_l. f_equal.
    rewrite (sum_upto_update (fun i => node_blocks (sentries (sit sm)).[i]) (fun i => node_blocks (sentries (sit sm')).[i]) _ k).
    + by rewrite Hget, Z.eqb_refl, S4.
    + lia.
    + intros i Hi Hne. rewrite Hget. by replace (k =? i) with false by lia.
  - intros Hgt. destruct (Hsec Hgt) as [Hl Hs].
    assert (sec_entries (sit sm') = (sec_entries (sit sm)).[k / sps <-
      u32 ((sec_entries (sit sm)).[k / sps] + (valid_blocks e - valid_blocks (sentries (sit sm)).[k]))]) as ->
      by (cbn; by replace (1 <? sps) with true by lia).
    split; [by rewrite zlen_aset|].
    assert (0 <= k / sps < total_sections src) as Hc by (split; [apply Z.div_pos|apply Z.div_lt_upper_bound]; nia).
    intros c Hcr. rewrite aget_aset by lia.
    rewrite (sec_valid_update (sit sm) (sit sm') k (valid_blocks e) c Hk Hcr).
    + destruct (Z.eqb_spec (k / sps) c) as [<-|]; [rewrite Hs by done; by rewrite u32_add_l|].
      rewrite Hs by done. by rewrite Z.add_0_r.
    + intros i Hi. unfold seg_valid. rewrite Hget. by destruct (k =? i).
  - rewrite Hget, Z.eqb_refl. done.
  - intros i Hne. rewrite Hget. by replace (k =? i) with false by lia.
Qed.

(** The raw form determines what is read. *)
Lemma reads_raw se e e' : entry_ok sbi e -> entry_ok sbi e' -> raw_of e = raw_of e' -> reads se e -> reads se e'.
Proof.
  intros We We' E [d ->]. exists d. destruct (raw_of_fields sbi Hbps e We) as [Ev Et].
  destruct (raw_of_fields sbi Hbps e' We') as [Ev' Et']. rewrite E in Ev, Et.
  assert (cur_valid_map e = cur_valid_map e') as Ec by (by injection E).
  assert (mtime e = mtime e') as Em by (by injection E).
  rewrite Ev in Ev'. rewrite Et in Et'. clear - Ec Em Ev' Et'. destruct e, e'. cbn in *. by subst.
Qed.

Lemma loaded_addr sm0 sm total k : loaded sm0 sm total -> current_sit_addr (sit sm) k = current_sit_addr (sit sm0) k.
Proof. intros [(l & e & d & ->) _ _ _ _ _]. done. Qed.

Lemma load_pages_ok meta n a sm0 sm total :
  loaded sm0 sm total -> 0 <= a -> a + Z.of_nat n <= MS ->
  (forall k, a <= k < a + Z.of_nat n -> valid_blocks (sentries (sit sm)).[k] = 0) ->
  (forall k, a <= k < a + Z.of_nat n -> raw_good sbi (meta (current_sit_addr (sit sm0) k)).[SIT_ENTRY_OFFSET k]) ->
  exists sm' total', load_pages sbi total_segs src meta n a (sm, total) = (0, (sm', total')) /\ loaded sm0 sm' total' /\
    (forall k, a <= k < a + Z.of_nat n -> exists e, entry_ok sbi e /\
       (meta (current_sit_addr (sit sm0) k)).[SIT_ENTRY_OFFSET k] = raw_of e /\ reads (sentries (sit sm')).[k] e) /\
    forall k, k < a -> (sentries (sit sm')).[k] = (sentries (sit sm)).[k].
Proof.
  revert a sm total. induction n as [|n IH]; intros a sm total W Ha Hm Hfresh Hgood; cbn [load_pages].
  { exists sm, total. split; [done|]. split; [done|]. split; [intros k; lia|done]. }
  destruct (Hgood a ltac:(lia)) as (e & We & Ee). cbn [fst]. rewrite (loaded_addr _ _ _ a W), Ee.
  destruct (load_entry_ok sm0 sm total a e true W We ltac:(lia)) as (sm1 & t1 & -> & W1 & R1 & K1); [intros _; apply Hfresh; lia|].
  cbn [fst snd Z.eqb negb].
  destruct (IH (a + 1) sm1 t1 W1) as (sm2 & t2 & -> & W2 & R2 & K2); [lia|lia|..].
  - intros k Hk. rewrite K1 by lia. apply Hfresh. lia.
  - intros k Hk. apply Hgood. lia.
  - exists sm2, t2. split; [done|]. split; [done|]. split.
    + intros k Hk. destruct (decide (k = a)) as [->|]; [|apply R2; lia]. exists e. split; [done|]. split; [done|].
      by rewrite K2 by lia.
    + intros k Hk. rewrite K2, K1 by lia. done.
Qed.

Lemma load_journal_ok l sm0 sm total :
  loaded sm0 sm total -> NoDup (map fst l) -> (forall x, x ∈ l -> 0 <= fst x < MS /\ raw_good sbi (snd x)) ->
  exists sm' total', load_journal sbi total_segs src l (sm, total) = (0, (sm', total')) /\ loaded sm0 sm' total' /\
    (forall k e, (k, raw_of e) ∈ l -> entry_ok sbi e -> reads (sentries (sit sm')).[k] e) /\
    forall k, k ∉ map fst l -> (sentries (sit sm')).[k] = (sentries (sit sm)).[k].
Proof.
  revert sm total. induction l as [|[k r] l IH]; intros sm total W N Hl; cbn [load_journal].
  { exists sm, total. split; [done|]. split; [done|]. split; [by intros k e ?%not_elem_of_nil|done]. }
  destruct (Hl (k, r) ltac:(by left)) as [Hk (e & We & Ee)]. cbn [fst snd] in *. replace (MS <=? k) with false by lia. rewrite Ee.
  cbn [map fst] in N. apply list.NoDup_cons in N as [Hn N].
  destruct (load_entry_ok sm0 sm total k e false W We Hk) as (sm1 & t1 & -> & W1 & R1 & K1); [done|]. cbn [fst snd Z.eqb negb].
  destruct (IH sm1 t1 W1 N) as (sm2 & t2 & -> & W2 & R2 & K2); [intros x Hx; apply Hl; by right|].
  exists sm2, t2. split; [done|]. split; [done|]. split.
  - intros k' e' Hin We'. apply elem_of_cons in Hin as [Heq|Hin]; [apply pair_equal_spec in Heq as [-> E]|by apply R2].
    rewrite K2 by done. by apply (reads_raw _ e).
  - intros k' Hk'. cbn [map fst] in Hk'. apply not_elem_of_cons in Hk' as [Hne Hk']. rewrite K2, K1 by done. done.
Qed.

(** The used part of the journal as a list. *)
Lemma journal_list j : journal_ok sbi j ->
  let l := take (Z.to_nat (n_sits j)) (sit_j j) in
  NoDup (map fst l) /\ (forall k r, (k, r) ∈ l <-> jhas j k r) /\ (forall k, k ∈ map fst l <-> exists r, jhas j k r).
Proof.
  intros [Wn Wl _ _ Wu] l.
  assert (forall i, 0 <= i < n_sits j -> l !! Z.to_nat i = Some (sit_j j).[i]) as Hl
    by (intros i Hi; subst l; rewrite lookup_take_lt by lia; apply lookup_aget; lia).
  assert (forall i x, l !! i = Some x -> 0 <= Z.of_nat i < n_sits j /\ (sit_j j).[Z.of_nat i] = x) as Hi.
  { intros i x He. pose proof (lookup_lt_Some _ _ _ He) as Hlt.
    assert (0 <= Z.of_nat i < n_sits j) as Hi by (subst l; rewrite length_take in Hlt; lia). split; [done|].
    specialize (Hl _ Hi). rewrite Nat2Z.id, He in Hl. by injection Hl. }
  assert (forall k r, (k, r) ∈ l <-> jhas j k r) as Hin.
  { intros k r. split.
    - intros (i & He)%list_elem_of_lookup_1. destruct (Hi _ _ He). by exists (Z.of_nat i).
    - intros (i & Hr & <-). eapply list_elem_of_lookup_2. by apply Hl. }
  split; [|split; [done|]].
  - apply NoDup_alt. intros i i' k Ei Ei'. change (map fst l) with (fst <$> l) in *. rewrite list_lookup_fmap in Ei, Ei'.
    apply fmap_Some in Ei as (x & Ei & ->). apply fmap_Some in Ei' as (x' & Ei' & E).
    destruct (Hi _ _ Ei) as [R1 <-], (Hi _ _ Ei') as [R2 <-]. apply Nat2Z.inj. by apply Wu.
  - intros k. split.
    + intros ([k' r] & -> & Hx)%list_elem_of_fmap_1. exists r. by apply Hin.
    + intros [r Hr%Hin]. change k with (fst (k, r)). by apply (list_elem_of_fmap_2 fst).
Qed.

Lemma build_sit_entries_ok C sm0 j meta :
  loaded sm0 sm0 0 -> (forall k, 0 <= k < MS -> valid_blocks (sentries (sit sm0)).[k] = 0) ->
  journal_ok sbi j -> (forall k r, jhas j k r -> raw_good sbi r) ->
  (forall k, 0 <= k < MS -> raw_good sbi (meta (current_sit_addr (sit sm0) k)).[SIT_ENTRY_OFFSET k]) ->
  (forall k, 0 <= k < MS -> entry_ok sbi (C k) /\ on_media (sit sm0) meta j k (raw_of (C k))) ->
  let total := u32 (sum_upto (fun k => node_blocks (C k)) (Z.to_nat MS)) in
  exists sm', loaded sm0 sm' total /\ (forall k, 0 <= k < MS -> reads (sentries (sit sm')).[k] (C k)) /\
    build_sit_entries sbi total_segs src sm0 j meta =
      (if total =? valid_node_count src then (0, sm') else (- EINVAL, sm' <| need_fsck := true |>)).
Proof.
  intros W Hblank Wj Hjr Hpg HC. destruct (journal_list j Wj) as (N & Hin & Hkeys).
  destruct (load_pages_ok meta (Z.to_nat MS) 0 sm0 sm0 0 W) as (sm1 & t1 & E1 & W1 & R1 & _);
    [lia|lia|intros k Hk; apply Hblank; lia|intros k Hk; apply Hpg; lia|].
  destruct (load_journal_ok (take (Z.to_nat (n_sits j)) (sit_j j)) sm0 sm1 t1 W1 N) as (sm2 & t2 & E2 & W2 & R2 & K2).
  { intros [k r] Hx%Hin. split; [|by apply (Hjr k)]. destruct Hx as (i & Hi & E). pose proof (jo_seg _ _ Wj i Hi) as Hs. by rewrite E in Hs. }
  assert (forall k, 0 <= k < MS -> reads (sentries (sit sm2)).[k] (C k)) as HR.
  { intros k Hk. destruct (HC k Hk) as [We [Hj|[Hno Hm]]].
    - apply R2; [by apply Hin|done].
    - rewrite K2 by (intros [r Hr]%Hkeys; by apply (Hno r)). destruct (R1 k ltac:(lia)) as (e & We' & Ee & Hr).
      apply (reads_raw _ e); [done|done|by rewrite <- Ee|done]. }
  assert (t2 = u32 (sum_upto (fun k => node_blocks (C k)) (Z.to_nat MS))) as ->.
  { rewrite (ld_total _ _ _ W2). f_equal. apply sum_upto_ext. intros k Hk. destruct (HR k ltac:(lia)) as [d ->]. done. }
  exists sm2. split; [done|]. split; [done|]. unfold build_sit_entries. rewrite E1. cbn [fst snd Z.eqb negb]. rewrite E2. cbn [fst snd Z.eqb andb].
  by destruct (_ =? valid_node_count src).
Qed.
End loading.

(** ** The free maps *)

Section free_maps.
Context `{F2fsFormat} `{BitSearchOk}.
Context (sbi : f2fs_sb_info) (src : mount_src).
#[local] Abbreviation MS := (segment_count_main sbi).
#[local] Abbreviation sps := (segs_per_sec sbi).
Context (Hms : 0 <= MS < 268435456) (Hsps : 0 < sps) (Hsecs : MS = total_sections src * sps).

Lemma bitmap_bits_ge nr : 0 <= nr -> nr <= bitmap_bits nr.
Proof. intros. unfold bitmap_bits. dlia. Qed.
Lemma test_ones nr k : 0 <= k < nr -> test_bit k (Z.ones nr) = true.
Proof. intros. unfold test_bit. by rewrite Z.ones_spec_low by lia. Qed.
Lemma zero_bits_ones nr n : Z.of_nat n <= nr -> zero_bits (Z.ones nr) n = 0.
Proof. induction n as [|n IH]; intros Hn; simpl zero_bits; [done|]. rewrite IH, test_ones by lia. done. Qed.

Lemma build_free_segmap_ok :
  free_wf sbi (build_free_segmap sbi src) /\
  forall k, 0 <= k < MS -> test_bit k (free_segmap (build_free_segmap sbi src)) = true.
Proof.
  assert (0 <= total_sections src <= MS) as Hts by nia.
  pose proof (bitmap_bits_ge MS ltac:(lia)). pose proof (bitmap_bits_ge (total_sections src) ltac:(lia)).
  assert (forall k, 0 <= k < MS -> test_bit k (Z.ones (bitmap_bits MS)) = true) as Hall by (intros k Hk; apply test_ones; lia).
  split; [|done]. split; cbn; try lia.
  - exists (total_sections src). split; [lia|]. split; [done|]. symmetry. apply zero_bits_ones. lia.
  - symmetry. apply zero_bits_ones. lia.
  - intros j Hj _. apply test_ones. pose proof (section_range sbi j (total_sections src) Hsps Hsecs Hj). lia.
  - intros c Hc _. exists (c * sps). split; [done|]. split; [by rewrite Z.div_mul by lia|]. by apply Hall.
Qed.

Lemma free_unused_ok n a s f :
  0 <= a -> a + Z.of_nat n <= MS -> free_wf sbi f ->
  (forall k, a <= k < a + Z.of_nat n -> test_bit k (free_segmap f) = true) ->
  (forall k, 0 <= k < MS -> 0 <= seg_valid s k <= 512) ->
  written_valid_blocks s = u32 (sum_upto (seg_valid s) (Z.to_nat a)) ->
  let r := free_unused sbi n a (s, f) in
  fst r = s <| written_valid_blocks := u32 (sum_upto (seg_valid s) (Z.to_nat (a + Z.of_nat n))) |> /\
  free_wf sbi (snd r) /\
  forall k, 0 <= k -> test_bit k (free_segmap (snd r)) =
    test_bit k (free_segmap f) && negb ((a <=? k) && (k <? a + Z.of_nat n) && (seg_valid s k =? 0)).
Proof.
  revert a s f. induction n as [|n IH]; intros a s f Ha Hm W Hset Hval Hw; cbn [free_unused].
  { split; [rewrite Z.add_0_r, <- Hw; by destruct s|]. split; [done|]. intros k Hk. cbn [snd].
    replace ((a <=? k) && (k <? a + Z.of_nat 0)) with false by blia. by rewrite andb_true_r. }
  cbn [fst snd]. fold (seg_valid s a). pose proof (Hset a ltac:(lia)) as Hsa.
  assert (forall v, sum_upto v (Z.to_nat (a + 1)) = sum_upto v (Z.to_nat a) + v a) as Hsum
    by (intros v; replace (Z.to_nat (a + 1)) with (S (Z.to_nat a)) by lia; cbn; f_equal; f_equal; lia).
  replace (a + Z.of_nat (S n)) with (a + 1 + Z.of_nat n) by lia.
  destruct (Z.eqb_spec (seg_valid s a) 0) as [E|E]; fold (seg_valid s a) in *.
  - destruct (set_free_wf sbi f a W ltac:(lia) Hsa) as [W1 T1].
    destruct (IH (a + 1) s (__set_free sbi f a)) as (-> & W2 & T2); try done; try lia.
    + intros k Hk. rewrite T1. replace (a =? k) with false by lia. apply Hset. lia.
    + rewrite Hsum, E, Z.add_0_r. done.
    + split; [done|]. split; [done|]. intros k Hk. rewrite T2, T1 by done.
      destruct (Z.eqb_spec a k) as [<-|]; cbn [negb andb].
      * rewrite E. replace ((a <=? a) && (a <? a + 1 + Z.of_nat n)) with true by blia. by rewrite andb_false_r.
      * f_equal. f_equal. f_equal. blia.
  - set (s1 := s <| written_valid_blocks ::= fun v => u32 (v + seg_valid s a) |>).
    destruct (IH (a + 1) s1 f) as (E1 & W2 & T2); try done; try lia.
    + intros k Hk. apply Hset. lia.
    + cbn. rewrite Hw, u32_add_l. change (seg_valid s1) with (seg_valid s). by rewrite Hsum.
    + rewrite E1. split; [done|]. split; [done|]. intros k Hk. rewrite T2 by done. change (seg_valid s1 k) with (seg_valid s k).
      f_equal. f_equal. destruct (Z.eqb_spec a k) as [<-|]; [|f_equal; blia].
      replace (seg_valid s a =? 0) with false by lia. by rewrite !andb_false_r.
Qed.

Lemma use_cursegs_ok l f :
  free_wf sbi f -> (forall k, k ∈ l -> 0 <= k < MS) ->
  let f' := foldl (__set_test_and_inuse sbi) f l in
  free_wf sbi f' /\ forall k, test_bit k (free_segmap f') = existsb (fun segno => k =? segno) l || test_bit k (free_segmap f).
Proof.
  revert f. induction l as [|j l IH]; intros f W Hl; cbn [foldl existsb]; [done|].
  assert (free_wf sbi (__set_test_and_inuse sbi f j) /\
    forall k, test_bit k (free_segmap (__set_test_and_inuse sbi f j)) = (k =? j) || test_bit k (free_segmap f)) as [W1 T1].
  { unfold __set_test_and_inuse. destruct (test_bit j (free_segmap f)) eqn:E.
    - split; [done|]. intros k. destruct (Z.eqb_spec k j) as [->|]; [by rewrite E|done].
    - destruct (mark_inuse_wf sbi f j W (Hl j ltac:(by left)) E) as [W1 T1]. split; [done|]. intros k. by rewrite T1, (Z.eqb_sym j). }
  destruct (IH _ W1) as [W2 T2]; [intros k Hk; apply Hl; by right|]. split; [done|]. intros k. rewrite T2, T1.
  by destruct (existsb _ l), (k =? j).
Qed.

Lemma init_free_segmap_ok s :
  (forall k, 0 <= k < MS -> 0 <= seg_valid s k <= 512) -> written_valid_blocks s = 0 ->
  (forall k, k ∈ take 6 (curseg_segno sbi) -> 0 <= k < MS) ->
  let r := init_free_segmap sbi s (build_free_segmap sbi src) in
  fst r = s <| written_valid_blocks := u32 (sum_upto (seg_valid s) (Z.to_nat MS)) |> /\ free_wf sbi (snd r) /\
  forall k, 0 <= k < MS -> test_bit k (free_segmap (snd r)) = IS_CURSEG sbi k || negb (seg_valid s k =? 0).
Proof.
  intros Hval Hw Hcur r. destruct build_free_segmap_ok as [W0 T0].
  destruct (free_unused_ok (Z.to_nat MS) 0 s (build_free_segmap sbi src)) as (E1 & W1 & T1); try done; try lia.
  { intros k Hk. apply T0. lia. }
  subst r. unfold init_free_segmap. cbn [fst snd].
  destruct (use_cursegs_ok (take 6 (curseg_segno sbi)) _ W1 Hcur) as [W2 T2].
  split; [rewrite E1; by replace (0 + Z.of_nat (Z.to_nat MS)) with MS by lia|]. split; [done|].
  intros k Hk. rewrite T2, T1, T0 by lia. unfold IS_CURSEG. f_equal. cbn [andb].
  replace ((0 <=? k) && (k <? 0 + Z.of_nat (Z.to_nat MS))) with true by blia. done.
Qed.
End free_maps.

(** ** The dirty lists *)

Section dirty_lists.
Context `{SitFormat} `{BitSearchOk}.
Context (sbi : f2fs_sb_info).
#[local] Abbreviation MS := (segment_count_main sbi).
Context (Hms : 0 <= MS < 2147483648) (Hbps : 0 <= blocks_per_seg sbi <= 512).

(** A segment with valid and invalid blocks that no log writes to. *)
Definition partial (s : sit_info) (k : Z) : bool :=
  (0 <? seg_valid s k) && (seg_valid s k <? blocks_per_seg sbi) && negb (IS_CURSEG sbi k).
(** The lists say so, up to [bound]. *)
Definition lists_upto (s : sit_info) (d : dirty_seglist_info) (bound : Z) : Prop :=
  dirty_wf MS d /\ forall k t, 0 <= k < MS -> 0 <= t < 8 ->
    test_bit k (dirty_segmap d).[t] = ((t =? DIRTY) || (t =? se_type (sentries s).[k])) && (k <? bound) && partial s k.

Lemma locate_one sm k :
  lists_upto (sit sm) (dirty_i sm) k -> 0 <= k < MS -> 0 <= se_type (sentries (sit sm)).[k] < 6 ->
  0 < seg_valid (sit sm) k < blocks_per_seg sbi ->
  let sm' := __locate_dirty_segment sbi sm k DIRTY in
  sm' = sm <| dirty_i := dirty_i sm' |> /\ lists_upto (sit sm) (dirty_i sm') (k + 1).
Proof.
  intros [W T] Hk Ht Hv sm'. set (t := se_type (sentries (sit sm)).[k]) in *.
  assert (forall u i, 0 <= i < MS -> 0 <= u < 8 -> i <> k ->
    ((u =? DIRTY) || (u =? se_type (sentries (sit sm)).[i])) && (i <? k + 1) && partial (sit sm) i
    = ((u =? DIRTY) || (u =? se_type (sentries (sit sm)).[i])) && (i <? k) && partial (sit sm) i) as Hsame
    by (intros u i Hi Hu Hne; f_equal; f_equal; blia).
  subst sm'. unfold __locate_dirty_segment, get_seg_entry. destruct (IS_CURSEG sbi k) eqn:Ec.
  - split; [by destruct sm|]. split; [done|]. intros i u Hi Hu. rewrite T by done. destruct (decide (i = k)) as [->|]; [|by rewrite Hsame].
    unfold partial. by rewrite Ec, !andb_false_r.
  - change (DIRTY =? DIRTY) with true. cbn [sit upd]. fold t. replace (DIRTY <=? t) with false by (unfold DIRTY; lia).
    split; [by destruct sm|]. cbn [dirty_i upd].
    destruct (add_dirty_ok MS Hms (dirty_i sm) W DIRTY k ltac:(unfold DIRTY; lia) Hk) as (W1 & _ & T1).
    destruct (add_dirty_ok MS Hms _ W1 t k ltac:(lia) Hk) as (W2 & _ & T2).
    split; [done|]. intros i u Hi Hu. rewrite T2, T1, T by lia. destruct (Z.eqb_spec i k) as [->|Hne].
    + fold t. unfold partial. rewrite Ec. replace (0 <? seg_valid (sit sm) k) with true by lia.
      replace (seg_valid (sit sm) k <? blocks_per_seg sbi) with true by lia. replace (k <? k + 1) with true by lia.
      rewrite Z.ltb_irrefl. by destruct (u =? t), (u =? DIRTY).
    + rewrite !andb_false_r. symmetry. by apply Hsame.
Qed.

Lemma lists_skip s d a b :
  lists_upto s d a -> a <= b -> (forall k, a <= k < b -> 0 <= k < MS -> partial s k = false) -> lists_upto s d b.
Proof.
  intros [W T] Hab Hp. split; [done|]. intros k t Hk Ht. rewrite T by done.
  destruct (decide (a <= k < b)) as [Hr|]; [rewrite Hp by done; by rewrite !andb_false_r|].
  f_equal. f_equal. blia.
Qed.

Lemma scan_dirty_ok f n a sm :
  0 <= a <= MS -> (Z.to_nat (MS - a) < n)%nat -> lists_upto (sit sm) (dirty_i sm) a ->
  (forall k, 0 <= k < MS -> 0 <= se_type (sentries (sit sm)).[k] < 6 /\ 0 <= seg_valid (sit sm) k <= blocks_per_seg sbi) ->
  (forall k, 0 <= k < MS -> seg_valid (sit sm) k <> 0 -> test_bit k (free_segmap f) = true) ->
  exists d, scan_dirty sbi n f a sm = Done (sm <| dirty_i := d |>) /\ lists_upto (sit sm) d MS.
Proof.
  revert a sm. induction n as [|n IH]; intros a sm Ha Hn Hl Hse Huse; [lia|]. cbn [scan_dirty]. unfold find_next_inuse.
  assert (forall k, a <= k < MS -> test_bit k (free_segmap f) = false -> partial (sit sm) k = false) as Hno.
  { intros k Hk Hf. unfold partial. destruct (Z.ltb_spec 0 (seg_valid (sit sm) k)); [|done].
    rewrite (Huse k) in Hf by lia. done. }
  destruct (find_next_bit_spec (free_segmap f) MS a ltac:(lia) ltac:(lia)) as [[-> Hall]|(Hr & Hbit & Hall)].
  { rewrite Z.leb_refl. exists (dirty_i sm). split; [by destruct sm|]. apply (lists_skip _ _ a); [done|lia|].
    intros k Hk _. apply Hno; [lia|]. by apply Hall. }
  set (k := find_next_bit _ _ _) in *. replace (MS <=? k) with false by lia. rewrite (u32_id (k + 1)) by lia.
  destruct (Hse k ltac:(lia)) as [Ht Hv].
  assert (lists_upto (sit sm) (dirty_i sm) k) as Hk.
  { apply (lists_skip _ _ a); [done|lia|]. intros i Hi Him. apply Hno; [lia|]. by apply Hall. }
  unfold get_valid_blocks, get_seg_entry. cbn [andb]. fold (seg_valid (sit sm) k). rewrite u16_id by lia.
  destruct ((seg_valid (sit sm) k =? blocks_per_seg sbi) || (seg_valid (sit sm) k =? 0)) eqn:E.
  - apply IH; [lia|lia| |done|done]. apply (lists_skip _ _ k); [done|lia|]. intros i Hi _. replace i with k by lia.
    unfold partial. apply orb_true_iff in E as [E|E]; apply Z.eqb_eq in E; rewrite E; [by rewrite Z.ltb_irrefl, andb_false_r|done].
  - apply orb_false_iff in E as [E1%Z.eqb_neq E2%Z.eqb_neq].
    replace (blocks_per_seg sbi <? seg_valid (sit sm) k) with false by lia.
    destruct (locate_one sm k Hk ltac:(lia) Ht ltac:(lia)) as [Eq Hl1].
    set (sm1 := __locate_dirty_segment sbi sm k DIRTY) in *.
    assert (sit sm1 = sit sm) as Es by (by rewrite Eq).
    destruct (IH (k + 1) sm1) as (d & -> & Hd); rewrite ?Es; try done; try lia.
    exists d. rewrite Es in Hd. split; [|done]. f_equal. rewrite Eq. by destruct sm.
Qed.
End dirty_lists.

(** ** The whole mount *)

Record mount_geom `{SitFormat} (sbi : f2fs_sb_info) (total_segs : Z) (src : mount_src) : Prop := {
  mg_geom : geom_wf sbi;
  mg_bps : blocks_per_seg sbi <= 512;
  mg_maps : blocks_per_seg sbi <= 8 * SIT_VBLOCK_MAP_SIZE;
  mg_segs : segment_count_main sbi < 268435456;
  mg_total : segment_count_main sbi <= total_segs < 4294967296;
  mg_secs : segment_count_main sbi = total_sections src * segs_per_sec sbi;
  mg_cursegs k : k ∈ take 6 (curseg_segno sbi) -> 0 <= k < segment_count_main sbi;
}.

Section whole.
Context `{F2fsFormat} `{BitSearchOk} `{SitFormatOk} `{SitPagesOk}.
Context (sbi : f2fs_sb_info) (total_segs : Z) (src : mount_src) (G : mount_geom sbi total_segs src).
#[local] Abbreviation MS := (segment_count_main sbi).
#[local] Abbreviation sps := (segs_per_sec sbi).

(** What a checkpoint with the entries [C] leaves on the device. *)
Record checkpoint_media (C : Z -> seg_entry) (s0 : sit_info) (j : f2fs_journal) (meta : Z -> list f2fs_sit_entry) : Prop := {
  cm_jnl : journal_ok sbi j;
  cm_jraw k r : jhas j k r -> raw_good sbi r;
  cm_pages k : 0 <= k < MS -> raw_good sbi (meta (current_sit_addr s0 k)).[SIT_ENTRY_OFFSET k];
  cm_entry k : 0 <= k < MS -> entry_ok sbi (C k);
  cm_count k : 0 <= k < MS -> valid_blocks (C k) = count_upto (cur_bit (C k)) (Z.to_nat (blocks_per_seg sbi));
  cm_media k : 0 <= k < MS -> on_media s0 meta j k (raw_of (C k));
}.
(** What a mount makes of it. *)
Record mounted (C : Z -> seg_entry) (sm : segman) (f : free_segmap_info) : Prop := {
  mo_reads k : 0 <= k < MS -> reads (sentries (sit sm)).[k] (C k);
  mo_sit : sit_wf sbi (sit sm);
  mo_free : free_wf sbi f;
  mo_inuse k : 0 <= k < MS -> test_bit k (free_segmap f) = IS_CURSEG sbi k || negb (seg_valid (sit sm) k =? 0);
  mo_dirty : lists_upto sbi (sit sm) (dirty_i sm) MS;
  mo_fsck : need_fsck sm = false;
}.

Lemma geom_facts :
  0 <= blocks_per_seg sbi <= 512 /\ 0 <= MS <= total_segs /\ total_segs < 4294967296 /\ 0 < sps /\ 0 <= MS < 268435456 /\
  blocks_per_seg sbi * MS < 4294967296.
Proof. destruct G as [Gw]. pose proof (bps_pos sbi Gw). destruct Gw. split; [lia|]. nia. Qed.

Lemma blank_loaded now dl db nf :
  let sm0 := mk_sm (build_sit_info sbi src true now) dl true db nf in
  loaded sbi src sm0 sm0 0 /\ forall k, 0 <= k < MS -> valid_blocks (sentries (sit sm0)).[k] = 0.
Proof.
  intros sm0. destruct geom_facts as (Hb & Ht & H32 & Hs & Hm & _). pose proof sit_map_size. pose proof (mg_secs _ _ _ G).
  set (blank := mk_se 0 0 0 zero_map zero_map zero_map 0).
  assert (forall k, 0 <= k < MS -> (sentries (sit sm0)).[k] = blank) as Hk by (intros k Hk; cbn; by rewrite aget_replicate by lia).
  assert (zlen zero_map = SIT_VBLOCK_MAP_SIZE) as Hz by (unfold zero_map; rewrite zlen_replicate; lia).
  split; [|intros k Hr; by rewrite Hk]. split.
  - by eexists _, _, _.
  - cbn. rewrite zlen_replicate. lia.
  - intros k Hr. cbv zeta. rewrite Hk by done. by split.
  - intros k Hr. rewrite Hk by done. cbn. lia.
  - rewrite (sum_upto_ext _ (fun _ => 0)) by (intros k Hr; by rewrite Hk by lia).
    pose proof (sum_upto_range (fun _ => 0) (Z.to_nat MS) 0 0 ltac:(done)). by replace (sum_upto _ _) with 0 by lia.
  - intros Hgt. cbn [sec_entries build_sit_info sit sm0]. replace (1 <? sps) with true by lia.
    split; [rewrite zlen_replicate; nia|]. intros c Hc. rewrite aget_replicate by lia. unfold sec_valid.
    rewrite (sum_upto_ext _ (fun _ => 0)) by (intros k Hr; unfold seg_valid; rewrite Hk by nia; done).
    pose proof (sum_upto_range (fun _ => 0) (Z.to_nat sps) 0 0 ltac:(done)). by replace (sum_upto _ _) with 0 by lia.
Qed.

Lemma no_dirty_ok s : lists_upto sbi s no_dirty 0.
Proof.
  assert (forall t, 0 <= t < 8 -> (replicate 8 0).[t] = 0) as Hr by (intros t Ht; apply (aget_replicate 8); lia).
  split; [split; cbn [dirty_segmap nr_dirty no_dirty]; try done|].
  - intros t Ht. rewrite Hr by done. symmetry. apply count_upto_none. intros k _. apply test_bit_0.
  - intros k t Hk Ht. cbn [dirty_segmap no_dirty]. rewrite Hr, test_bit_0 by done. replace (k <? 0) with false by lia.
    by rewrite andb_false_r.
Qed.

(** The tables after the load are those of [sit_wf], the written count aside. *)
Lemma loaded_wf C sm0 sm total s :
  loaded sbi src sm0 sm total -> discard_en sm0 = true -> dirty_sentries_bitmap (sit sm0) = 0 -> dirty_sentries (sit sm0) = 0 ->
  (forall k, 0 <= k < MS -> reads (sentries (sit sm)).[k] (C k)) ->
  (forall k, 0 <= k < MS -> entry_ok sbi (C k) /\ valid_blocks (C k) = count_upto (cur_bit (C k)) (Z.to_nat (blocks_per_seg sbi))) ->
  s = (sit sm) <| written_valid_blocks := u32 (sum_upto (seg_valid (sit sm)) (Z.to_nat MS)) |> -> sit_wf sbi s.
Proof.
  intros [(l & e & d & F) Hlen Hmaps Hval _ Hsec] Hden Hdb Hd HR HC ->. destruct geom_facts as (Hb & Ht & H32 & Hs & Hm & Hmul).
  pose proof (mg_maps _ _ _ G). rewrite Hden in Hmaps.
  assert (forall n f, (forall k, 0 <= k < Z.of_nat n -> 0 <= f k <= blocks_per_seg sbi) -> Z.of_nat n <= MS -> 0 <= sum_upto f n < 4294967296) as Hsum.
  { intros n f Hf Hn. pose proof (sum_upto_range f n 0 (blocks_per_seg sbi) Hf). nia. }
  split; cbn [sentries written_valid_blocks sec_entries dirty_sentries dirty_sentries_bitmap upd]; try apply G; [done| | |..].
  - intros k Hk. destruct (Hmaps k Hk) as (L1 & L2 & L3). destruct (HR k Hk) as [dm Er]. destruct (HC k Hk) as [We Hcnt].
    rewrite Er in *. cbn [cur_valid_map ckpt_valid_map discard_map checkpointed upd] in *.
    split; cbn [se_type valid_blocks ckpt_valid_blocks cur_valid_map ckpt_valid_map discard_map checkpointed upd]; try (rewrite ?L1, ?L2, ?L3; apply G).
    + apply We.
    + exact Hcnt.
    + rewrite Hcnt. apply count_upto_ext. intros i Hi. unfold used_bit, cur_bit. cbn. by rewrite orb_diag.
  - apply u32_id. apply Hsum; [|lia]. intros k Hk. apply Hval. lia.
  - exists (total_sections src). pose proof (mg_secs _ _ _ G). split; [nia|]. split; [done|]. intros Hgt.
    destruct (Hsec Hgt) as [Hl Hv]. split; [done|]. intros c Hc. rewrite Hv by done. change (sec_valid sbi _ c) with (sec_valid sbi (sit sm) c) at 2.
    apply u32_id. apply Hsum; [|nia]. intros k Hk. apply Hval. nia.
  - rewrite F. cbn. rewrite Hd, Hdb. symmetry. apply count_upto_none. intros k _. apply test_bit_0.
Qed.

Lemma build_segment_manager_ok C now j meta :
  checkpoint_media C (build_sit_info sbi src true now) j meta ->
  valid_node_count src = u32 (sum_upto (fun k => node_blocks (C k)) (Z.to_nat MS)) ->
  exists sm f, build_segment_manager sbi total_segs src true now j meta = Done (0, (sm, f)) /\ mounted C sm f.
Proof.
  intros M Hn. destruct geom_facts as (Hb & Ht & H32 & Hs & Hm & Hmul).
  destruct (blank_loaded now no_dirty 0 false) as [W0 V0]. set (sm0 := mk_sm _ _ _ _ _) in *.
  destruct (build_sit_entries_ok sbi total_segs src Hb Ht H32 Hs (mg_secs _ _ _ G) C sm0 j meta W0 V0) as (sm1 & W1 & HR & E);
    [apply M..| |].
  { intros k Hk. by split; apply M. }
  unfold build_segment_manager. fold sm0. rewrite E, <- Hn, Z.eqb_refl. cbn [fst snd Z.eqb negb].
  assert (forall k, 0 <= k < MS -> 0 <= se_type (sentries (sit sm1)).[k] < 6 /\ 0 <= seg_valid (sit sm1) k <= blocks_per_seg sbi) as Hse.
  { intros k Hk. unfold seg_valid. destruct (HR k Hk) as [d ->]. destruct (cm_entry _ _ _ _ M k Hk). done. }
  destruct (init_free_segmap_ok sbi src Hm Hs (mg_secs _ _ _ G) (sit sm1)) as (Ei & Wf & Tf);
    [intros k Hk; pose proof (proj2 (Hse k Hk)); lia| |apply G|].
  { destruct (ld_frame _ _ _ _ _ W1) as (l & e & d & ->). done. }
  set (q := init_free_segmap _ _ _) in *. set (sm2 := sm1 <| sit := fst q |>).
  assert (sit_wf sbi (fst q)) as Wsit.
  { apply (loaded_wf C sm0 sm1 (valid_node_count src)); try done; [by rewrite Hn|]. intros k Hk. split; [by apply (cm_entry _ _ _ _ M)|by apply (cm_count _ _ _ _ M)]. }
  assert (dirty_i sm2 = no_dirty /\ need_fsck sm2 = false) as [Ed Ef]
    by (subst sm2; destruct (ld_frame _ _ _ _ _ W1) as (l & e & d & ->); done).
  destruct (scan_dirty_ok sbi ltac:(lia) Hb (snd q) (S (Z.to_nat MS)) 0 sm2) as (d & E2 & Hd);
    [lia|lia|rewrite Ed; apply no_dirty_ok| | |].
  - intros k Hk. subst sm2. cbn [sit upd]. rewrite Ei. by apply Hse.
  - intros k Hk Hv. subst sm2. cbn [sit upd] in Hv. rewrite Ei in Hv. rewrite Tf by done. change (seg_valid (sit sm1) k <> 0) in Hv.
    replace (seg_valid (sit sm1) k =? 0) with false by lia. by rewrite orb_true_r.
  - exists (sm2 <| dirty_i := d |>), (snd q). unfold init_dirty_segmap. fold sm2. rewrite E2. split; [done|].
    split; try done; intros k Hk; change (sit (sm2 <| dirty_i := d |>)) with (fst q); rewrite Ei; [by apply HR|by apply Tf].
Qed.

(** ** Only the current copies are read *)

Lemma load_entry_addr k raw fresh r i :
  current_sit_addr (sit (fst (snd (load_entry sbi total_segs src k raw fresh r)))) i = current_sit_addr (sit (fst r)) i.
Proof.
  unfold load_entry, check_block_count. destruct r as [sm total]. cbn [fst snd].
  destruct (_ || _); cbn [fst snd Z.eqb negb]; [done|]. cbn [fst snd].
  by destruct (discard_en sm), (cp_trimmed src), (1 <? sps), fresh.
Qed.
Lemma load_pages_ext meta meta' n a r :
  (forall k, 0 <= k < MS -> meta (current_sit_addr (sit (fst r)) k) = meta' (current_sit_addr (sit (fst r)) k)) ->
  0 <= a -> a + Z.of_nat n <= MS ->
  load_pages sbi total_segs src meta n a r = load_pages sbi total_segs src meta' n a r.
Proof.
  revert a r. induction n as [|n IH]; intros a r Hm Ha Hn; cbn [load_pages]; [done|]. rewrite Hm by lia.
  set (q := load_entry _ _ _ _ _ _ _). destruct (negb (fst q =? 0)); [done|]. apply IH; [|lia|lia].
  intros k Hk. subst q. rewrite load_entry_addr. by apply Hm.
Qed.
Lemma build_sit_entries_ext sm j meta meta' :
  (forall k, 0 <= k < MS -> meta (current_sit_addr (sit sm) k) = meta' (current_sit_addr (sit sm) k)) ->
  build_sit_entries sbi total_segs src sm j meta = build_sit_entries sbi total_segs src sm j meta'.
Proof.
  intros Hm. destruct geom_facts as (_ & Ht & _). unfold build_sit_entries. by rewrite (load_pages_ext meta meta') by (done || lia).
Qed.

(** A clean store is what a checkpoint leaves. *)
Lemma clean_checkpoint C st :
  store_ok sbi C st -> (forall k, 0 <= k < MS -> D_of (st_sm st) k = false) ->
  (forall k, 0 <= k < MS -> valid_blocks (C k) = count_upto (cur_bit (C k)) (Z.to_nat (blocks_per_seg sbi))) ->
  checkpoint_media C (sit (st_sm st)) (st_jnl st) (st_meta st).
Proof.
  intros [_ [_ We] J HC Hcl _ Hpg] Hd Hcnt.
  assert (forall k, 0 <= k < MS -> entry_ok sbi (C k)) as HCok
    by (intros k Hk; rewrite <- HC by done; by apply checkpointed_ok, We).
  split; try done.
  - intros k r Hj. assert (0 <= k < MS) as Hk by (destruct Hj as (i & Hi & E); pose proof (jo_seg _ _ J i Hi) as Hs; by rewrite E in Hs).
    exists (C k). split; [by apply HCok|]. destruct (Hcl k Hk (Hd k Hk)) as [_ [Hj'|[Hno _]]]; [|by destruct (Hno r)].
    destruct Hj as (i & Hi & E), Hj' as (i' & Hi' & E').
    assert (i = i') as <- by (apply (jo_uniq _ _ J i i' Hi Hi'); by rewrite E, E'). rewrite E in E'. by apply pair_equal_spec in E' as [_ ?].
  - intros k Hk. by apply Hcl, Hd.
Qed.
Lemma checkpoint_media_addr C s s' j meta :
  (forall k, current_sit_addr s' k = current_sit_addr s k) -> checkpoint_media C s j meta -> checkpoint_media C s' j meta.
Proof.
  intros Ha []. split; try done; intros k Hk; [rewrite Ha; by apply cm_pages0|].
  unfold on_media. rewrite Ha. by apply cm_media0.
Qed.
End whole.

(** ** Properties *)

(** The node blocks counted in a checkpoint. *)
Definition node_sum (sbi : f2fs_sb_info) (C : Z -> seg_entry) : Z :=
  u32 (sum_upto (fun k => node_blocks (C k)) (Z.to_nat (segment_count_main sbi))).

(** C20. Mounting what a checkpoint left on the device succeeds and restores the
    entries; every table built from them is consistent: the SIT cache satisfies
    its invariant, a segment is in use exactly when it has valid blocks or a
    log writes to it, the free counters agree with the maps, and a segment is on
    the dirty lists of its type exactly when it is partly valid and no log
    writes to it. No fsck is requested. (Mounted with discard: the SIT invariant includes
    the discard map of each segment.) *)
Theorem mount_consistent `{F2fsFormat} `{BitSearchOk} `{SitFormatOk} `{SitPagesOk} sbi total_segs src C now j meta :
  mount_geom sbi total_segs src -> checkpoint_media sbi C (build_sit_info sbi src true now) j meta ->
  valid_node_count src = node_sum sbi C ->
  exists sm f, build_segment_manager sbi total_segs src true now j meta = Done (0, (sm, f)) /\ mounted sbi C sm f.
Proof. intros G M Hn. exact (build_segment_manager_ok sbi total_segs src G C now j meta M Hn). Qed.

(** C18. A checkpoint is durable: flushing the SIT runs to completion without
    requesting fsck, and mounting from the journal, the meta pages and the SIT
    bitmap it leaves restores exactly the entries that were in memory, with
    consistent tables. (The volume is mounted with discard, as in the next two theorems: each
    segment has a discard map.) *)
Theorem sit_flush_durable `{F2fsFormat} `{BitSearchOk} `{SitFormatOk} `{SitPagesOk} sbi total_segs src C st now :
  mount_geom sbi total_segs src -> store_ok sbi C st -> st_sets st = [] ->
  sit_base_addr (sit (st_sm st)) = sit_base_addr (build_sit_info sbi src true now) ->
  sit_blocks (sit (st_sm st)) = sit_blocks (build_sit_info sbi src true now) ->
  (forall k, 0 <= k < segment_count_main sbi ->
     valid_blocks (C k) = count_upto (cur_bit (C k)) (Z.to_nat (blocks_per_seg sbi))) ->
  exists st', flush_sit_entries sbi total_segs st = Done st' /\ need_fsck (st_sm st') = need_fsck (st_sm st) /\
    let src' := src <| cp_sit_bitmap := sit_bitmap (sit (st_sm st')) |> <| valid_node_count := node_sum sbi C |> in
    exists sm f, build_segment_manager sbi total_segs src' true now (st_jnl st') (st_meta st') = Done (0, (sm, f)) /\
      mounted sbi C sm f.
Proof.
  intros G W Hs Hb1 Hb2 Hcnt. destruct (geom_facts sbi total_segs src G) as (Hb & Ht & H32 & _).
  destruct (flush_sit_entries_ok sbi total_segs Hb Ht H32 C st W Hs) as (st' & E & W' & _ & Hd & _ & Ef & Eb1 & Eb2).
  exists st'. split; [done|]. split; [done|]. intros src'.
  assert (mount_geom sbi total_segs src') as G' by (destruct G; by split).
  apply (build_segment_manager_ok sbi total_segs src' G' C now); [|done].
  apply (checkpoint_media_addr sbi C (sit (st_sm st'))); [|by apply clean_checkpoint].
  intros k. unfold current_sit_addr. rewrite Eb1, Eb2, Hb1, Hb2. done.
Qed.

(** C19. A crash before the new checkpoint is harmless: after a flush, a mount
    with the SIT bitmap and any journal of the previous checkpoint reads the
    very entries it would have read before the flush. (With discard.) *)
Theorem sit_flush_crash_safe `{F2fsFormat} `{BitSearchOk} `{SitFormatOk} `{SitPagesOk} sbi total_segs src C st j now :
  mount_geom sbi total_segs src -> store_ok sbi C st -> st_sets st = [] ->
  sit_base_addr (sit (st_sm st)) = sit_base_addr (build_sit_info sbi src true now) ->
  sit_blocks (sit (st_sm st)) = sit_blocks (build_sit_info sbi src true now) ->
  cp_sit_bitmap src = sit_bitmap (sit (st_sm st)) ->
  exists st', flush_sit_entries sbi total_segs st = Done st' /\
    build_segment_manager sbi total_segs src true now j (st_meta st')
      = build_segment_manager sbi total_segs src true now j (st_meta st).
Proof.
  intros G W Hs Hb1 Hb2 Hbm. destruct (geom_facts sbi total_segs src G) as (Hb & Ht & H32 & _).
  destruct (flush_sit_entries_ok sbi total_segs Hb Ht H32 C st W Hs) as (st' & E & _ & _ & _ & Hold & _).
  exists st'. split; [done|]. unfold build_segment_manager.
  rewrite (build_sit_entries_ext sbi total_segs src G _ j (st_meta st') (st_meta st)); [done|]. intros k Hk. cbn [sit].
  replace (current_sit_addr (build_sit_info sbi src true now) k) with (current_sit_addr (sit (st_sm st)) k); [by apply Hold|].
  unfold current_sit_addr. rewrite Hb1, Hb2, <- Hbm. done.
Qed.

(** Two SIT blocks of two entries, room for one entry in the journal: of the
    dirty segments 1 and 3 one goes to the journal, the other to its block. *)
Definition mount_pages : SitPages := {| SIT_ENTRY_PER_BLOCK := 2; SIT_JOURNAL_ENTRIES := 1 |}.
Lemma mount_pages_ok : @SitPagesOk mount_pages.
Proof. split; cbn; lia. Qed.
#[local] Existing Instances linux_format linux_format_ok scan_search scan_search_ok linux_sit linux_sit_ok mount_pages mount_pages_ok.

Definition mount_map (b : Z) : list Z := b :: replicate 63 0.
Definition mount_se (t v b : Z) : seg_entry := mk_se t v v (mount_map b) (mount_map b) (mount_map 0) 7.
Definition mount_old : list seg_entry := [mount_se 2 2 160; mount_se 3 1 128; mount_se 0 0 0; mount_se 0 0 0].
Definition mount_new : list seg_entry :=
  [mount_se 2 2 160;
   (mount_se 3 1 128) <| valid_blocks := 2 |> <| cur_valid_map := mount_map 192 |>;
   mount_se 0 0 0;
   (mount_se 0 0 0) <| valid_blocks := 4 |> <| cur_valid_map := mount_map 240 |>].
Definition mount_C (k : Z) : seg_entry := checkpointed mount_new.[k].
Definition mount_src0 : mount_src := mk_src 100 2 3 2 [0] 5 false 1.
Definition mount_meta (a : Z) : list f2fs_sit_entry :=
  if a =? 100 then [raw_of mount_old.[0]; raw_of mount_old.[1]]
  else if a =? 101 then [raw_of mount_old.[2]; raw_of mount_old.[3]] else [].
Definition mount_jnl : f2fs_journal := mk_jnl 0 [(0, zero_raw)].
Definition mount_store : sit_store :=
  mk_store (mk_sm ((build_sit_info demo_sbi mount_src0 true 9) <| sentries := mount_new |> <| dirty_sentries_bitmap := 10 |>
      <| dirty_sentries := 2 |>) no_dirty true 0 false)
    mount_jnl mount_meta [].

Lemma mount_demo_geom : mount_geom demo_sbi 6 mount_src0.
Proof. split; try (cbn; lia); [apply demo_geom_wf|]. intros k Hk. cbn in Hk.
  repeat (apply elem_of_cons in Hk as [->|Hk]; [cbn; lia|]). by apply not_elem_of_nil in Hk.
Qed.
Lemma mount_old_ok k : 0 <= k < 4 -> entry_ok demo_sbi mount_old.[k].
Proof. intros Hk. enum k Hk; by split. Qed.
Lemma mount_new_ok k : 0 <= k < 4 -> entry_ok demo_sbi mount_new.[k].
Proof. intros Hk. enum k Hk; by split. Qed.
Lemma mount_count k : 0 <= k < 4 -> valid_blocks (mount_C k) = count_upto (cur_bit (mount_C k)) 4.
Proof. intros Hk. enum k Hk; by vm_compute. Qed.
Lemma mount_jnl_ok : journal_ok demo_sbi mount_jnl.
Proof.
  split; cbn; try lia; [done|]. intros i Hi. replace i with 0 by lia. by vm_compute.
Qed.
Lemma mount_page k : 0 <= k < 4 ->
  (mount_meta (current_sit_addr (sit (st_sm mount_store)) k)).[SIT_ENTRY_OFFSET k] = raw_of mount_old.[k].
Proof. intros Hk. enum k Hk; by vm_compute. Qed.
Lemma mount_store_ok : store_ok demo_sbi mount_C mount_store.
Proof.
  split.
  - split; by vm_compute.
  - split; [done|]. exact mount_new_ok.
  - exact mount_jnl_ok.
  - done.
  - intros k Hk Hd. assert (k = 0 \/ k = 2) as Hk' by (enum k Hk; try (by vm_compute in Hd); auto).
    split; [by destruct Hk' as [-> | ->]|]. right. split; [intros r (i & Hi & _); cbn in Hi; lia|].
    cbn [st_meta mount_store]. rewrite mount_page by (cbn in Hk; lia). by destruct Hk' as [-> | ->].
  - by vm_compute.
  - intros k Hk. cbn [st_meta mount_store]. rewrite mount_page by (cbn in Hk; lia).
    exists mount_old.[k]. split; [by apply mount_old_ok|done].
Qed.
Lemma mount_demo_media : checkpoint_media demo_sbi (fun k => mount_old.[k]) (build_sit_info demo_sbi mount_src0 true 9) mount_jnl mount_meta.
Proof.
  split.
  - exact mount_jnl_ok.
  - intros k r (i & Hi & _). cbn in Hi. lia.
  - intros k Hk. exists mount_old.[k]. split; [by apply mount_old_ok|by apply mount_page].
  - exact mount_old_ok.
  - intros k Hk. enum k Hk; by vm_compute.
  - intros k Hk. right. split; [intros r (i & Hi & _); cbn in Hi; lia|by apply mount_page].
Qed.
Lemma mount_consistent_witness :
  exists sm f, build_segment_manager demo_sbi 6 mount_src0 true 9 mount_jnl mount_meta = Done (0, (sm, f)) /\
    mounted demo_sbi (fun k => mount_old.[k]) sm f.
Proof.
  apply (mount_consistent demo_sbi 6 mount_src0 (fun k => mount_old.[k]) 9 mount_jnl mount_meta).
  - exact mount_demo_geom.
  - exact mount_demo_media.
  - vm_compute. reflexivity.
Defined.
Lemma sit_flush_durable_witness :
  exists st', flush_sit_entries demo_sbi 6 mount_store = Done st' /\ need_fsck (st_sm st') = need_fsck (st_sm mount_store) /\
    let src' := mount_src0 <| cp_sit_bitmap := sit_bitmap (sit (st_sm st')) |> <| valid_node_count := node_sum demo_sbi mount_C |> in
    exists sm f, build_segment_manager demo_sbi 6 src' true 9 (st_jnl st') (st_meta st') = Done (0, (sm, f)) /\
      mounted demo_sbi mount_C sm f.
Proof.
  apply (sit_flush_durable demo_sbi 6 mount_src0 mount_C mount_store 9).
  - exact mount_demo_geom.
  - exact mount_store_ok.
  - reflexivity.
  - reflexivity.
  - reflexivity.
  - exact mount_count.
Defined.
Lemma sit_flush_crash_safe_witness :
  exists st', flush_sit_entries demo_sbi 6 mount_store = Done st' /\
    build_segment_manager demo_sbi 6 mount_src0 true 9 mount_jnl (st_meta st')
      = build_segment_manager demo_sbi 6 mount_src0 true 9 mount_jnl (st_meta mount_store).
Proof.
  apply (sit_flush_crash_safe demo_sbi 6 mount_src0 mount_C mount_store mount_jnl 9).
  - exact mount_demo_geom.
  - exact mount_store_ok.
  - reflexivity.
  - reflexivity.
  - reflexivity.
  - reflexivity.
Defined.
(** The flush of the demo: segment 3 in the journal, the first block moved to
    its other copy at 108, and its bit flipped. *)
Example mount_flush_demo :
  match flush_sit_entries demo_sbi 6 mount_store with
  | Done st => n_sits (st_jnl st) = 1 /\ fst (sit_j (st_jnl st)).[0] = 3 /\ sit_bitmap (sit (st_sm st)) = [128] /\
               map vblocks (st_meta st 108) = [2050; 3074] /\ dirty_sentries (sit (st_sm st)) = 0
  | _ => False
  end.
Proof. by vm_compute. Qed.
