(* ===== verification/ExtCache.v ===== *)
(** * The extent cache of an inode ([extent_cache.c], [f2fs.h])

    Runs of file blocks that are contiguous on the device, in a red-black tree
    ordered by file offset, with the last node used and the largest run kept
    beside it. A write invalidates what the tree says of its range and adds
    the new run, merged with its neighbours.

    Nodes have addresses ([en_id]), so that prev_en, next_en, cached_en and the
    global LRU list point to them as in the code. Linking, erasing and
    rebalancing are the kernel's rbtree: its documented effect is on the order
    of the nodes only. *)
From S2P Require Import Prelude Geometry Heap Mpt FreeMap F2fsBits RevBits Sit NodePath.
Open Scope Z_scope.

Record extent_info := mk_ei { fofs : Z; len : Z; blk : Z }.
#[export] Instance eta_ei : Eta extent_info := fun e => mk_ei (fofs e) (len e) (blk e).
Record extent_node := mk_en { en_id : Z; ei : extent_info }.

Inductive rb_tree := Leaf | Node (l : rb_tree) (x : extent_node) (r : rb_tree).
Fixpoint inorder (t : rb_tree) : list extent_node :=
  match t with Leaf => [] | Node l x r => inorder l ++ x :: inorder r end.
Fixpoint tmap (f : extent_node -> extent_node) (t : rb_tree) : rb_tree :=
  match t with Leaf => Leaf | Node l x r => Node (tmap f l) (f x) (tmap f r) end.
(** rb_link_node: a position is the list of turns to it, [true] to the right. *)
Fixpoint rb_link_node (p : list bool) (n : extent_node) (t : rb_tree) : rb_tree :=
  match p, t with
  | [], Leaf => Node Leaf n Leaf
  | false :: p, Node l x r => Node (rb_link_node p n l) x r
  | true :: p, Node l x r => Node l x (rb_link_node p n r)
  | _, _ => t
  end.
Definition without (id : Z) (l : list extent_node) : list extent_node := List.filter (fun x => negb (en_id x =? id)) l.

Class RbTree := { rb_insert_color : list bool -> rb_tree -> rb_tree; rb_erase : Z -> rb_tree -> rb_tree }.
Class RbTreeOk `{RbTree} : Prop := {
  inorder_insert_color p t : inorder (rb_insert_color p t) = inorder t;
  inorder_erase id t : inorder (rb_erase id t) = without id (inorder t);
}.
(** Without rebalancing. *)
Fixpoint hang_right (t r : rb_tree) : rb_tree :=
  match t with Leaf => r | Node l x r' => Node l x (hang_right r' r) end.
Fixpoint plain_erase (id : Z) (t : rb_tree) : rb_tree :=
  match t with
  | Leaf => Leaf
  | Node l x r => if en_id x =? id then hang_right (plain_erase id l) (plain_erase id r)
                  else Node (plain_erase id l) x (plain_erase id r)
  end.
Definition plain_rb : RbTree := {| rb_insert_color := fun _ t => t; rb_erase := plain_erase |}.
Lemma plain_rb_ok : @RbTreeOk plain_rb.
Proof.
  split; [done|]. intros id t. cbn.
  assert (forall t r, inorder (hang_right t r) = inorder t ++ inorder r) as Hr
    by (intros u r; induction u as [|l IHl x r' IHr]; cbn; [done|]; by rewrite IHr, <- app_assoc).
  unfold without. induction t as [|l IHl x r IHr]; cbn; [done|]. rewrite filter_app. cbn [List.filter].
  destruct (en_id x =? id); cbn [negb inorder]; rewrite ?Hr, IHl, IHr; done.
Qed.

(** rb_next and rb_prev *)
Fixpoint next_in (l : list extent_node) (id : Z) : option extent_node :=
  match l with [] => None | x :: l => if en_id x =? id then head l else next_in l id end.
Fixpoint prev_in (p : option extent_node) (l : list extent_node) (id : Z) : option extent_node :=
  match l with [] => None | x :: l => if en_id x =? id then p else prev_in (Some x) l id end.
Definition rb_next (t : rb_tree) (id : Z) : option extent_node := next_in (inorder t) id.
Definition rb_prev (t : rb_tree) (id : Z) : option extent_node := prev_in None (inorder t) id.
Definition id_of (x : option extent_node) : option Z := match x with Some x => Some (en_id x) | None => None end.

(** The tree of one inode with its flags, and what it shares: the LRU list of
    all nodes ([extent_list]), their number, and the next node address. *)
Record ext_cache := mk_ext {
  root : rb_tree;
  cached_en : option Z;
  largest : extent_info;
  node_cnt : Z;
  no_extent : bool;        (* FI_NO_EXTENT *)
  inode_dirty : bool;      (* f2fs_mark_inode_dirty_sync *)
  extent_list : list Z;
  total_ext_node : Z;
  ext_seq : Z;
}.
#[export] Instance eta_ext : Eta ext_cache := fun s =>
  mk_ext (root s) (cached_en s) (largest s) (node_cnt s) (no_extent s) (inode_dirty s) (extent_list s) (total_ext_node s) (ext_seq s).

Definition F2FS_MIN_EXTENT_LEN : Z := 64.
Definition UINT_MAX : Z := 4294967295.

(** ** Lookup in the tree *)

Definition covers (e : extent_info) (ofs : Z) : bool := (fofs e <=? ofs) && (ofs <? u32 (fofs e + len e)).
Definition __lookup_rb_tree_fast (cached_re : option extent_node) (ofs : Z) : option extent_node :=
  match cached_re with Some re => if covers (ei re) ofs then Some re else None | None => None end.
Fixpoint __lookup_rb_tree_slow (t : rb_tree) (ofs : Z) : option extent_node :=
  match t with
  | Leaf => None
  | Node l re r =>
      if ofs <? fofs (ei re) then __lookup_rb_tree_slow l ofs
      else if u32 (fofs (ei re) + len (ei re)) <=? ofs then __lookup_rb_tree_slow r ofs
      else Some re
  end.
Definition f2fs_lookup_rb_tree (t : rb_tree) (cached_re : option extent_node) (ofs : Z) : option extent_node :=
  match __lookup_rb_tree_fast cached_re ofs with None => __lookup_rb_tree_slow t ofs | re => re end.
(** The descent both lookups for a position make: the node that covers [ofs],
    or the position and the node above it. *)
Fixpoint descend (t : rb_tree) (ofs : Z) (parent : option extent_node) : extent_node + list bool * option extent_node :=
  match t with
  | Leaf => inr ([], parent)
  | Node l re r =>
      if ofs <? fofs (ei re) then
        match descend l ofs (Some re) with inl x => inl x | inr (p, y) => inr (false :: p, y) end
      else if u32 (fofs (ei re) + len (ei re)) <=? ofs then
        match descend r ofs (Some re) with inl x => inl x | inr (p, y) => inr (true :: p, y) end
      else inl re
  end.
Definition f2fs_lookup_rb_tree_for_insert (t : rb_tree) (ofs : Z) : outcome (list bool) :=
  match descend t ofs None with inl _ => Bug | inr (p, _) => Done p end.

Record rb_ret := mk_ret { rt_entry : option extent_node; rt_prev : option extent_node; rt_next : option extent_node;
                          rt_insert : option (list bool) }.
Definition lookup_neighbors (t : rb_tree) (ofs : Z) (force : bool) (re : extent_node) : rb_ret :=
  mk_ret (Some re)
    (if (ofs =? fofs (ei re)) || force then rb_prev t (en_id re) else None)
    (if (ofs =? u32 (fofs (ei re) + len (ei re) - 1)) || force then rb_next t (en_id re) else None)
    None.
Definition f2fs_lookup_rb_tree_ret (t : rb_tree) (cached_re : option extent_node) (ofs : Z) (force : bool) : rb_ret :=
  match t with
  | Leaf => mk_ret None None None None
  | _ =>
      match __lookup_rb_tree_fast cached_re ofs with
      | Some re => lookup_neighbors t ofs force re
      | None =>
          match descend t ofs None with
          | inl re => lookup_neighbors t ofs force re
          | inr (p, Some re) =>
              mk_ret None
                (if ofs <? fofs (ei re) then rb_prev t (en_id re) else Some re)
                (if fofs (ei re) <? ofs then rb_next t (en_id re) else Some re) (Some p)
          | inr (p, None) => mk_ret None None None (Some p)
          end
      end
  end.

(** ** Operations on the cache *)

Definition nodes (s : ext_cache) : list extent_node := inorder (root s).
Definition get_node (s : ext_cache) (id : Z) : option extent_node := List.find (fun x => en_id x =? id) (nodes s).
Definition deref (s : ext_cache) (id : option Z) : option extent_node := match id with Some id => get_node s id | None => None end.
Definition on_node (id : Z) (f : extent_info -> extent_info) (x : extent_node) : extent_node :=
  if en_id x =? id then mk_en (en_id x) (f (ei x)) else x.
(** an assignment to fields of [en->ei] *)
Definition set_ei (id : Z) (f : extent_info -> extent_info) (s : ext_cache) : ext_cache := s <| root ::= tmap (on_node id f) |>.
Definition in_list (s : ext_cache) (id : Z) : bool := existsb (Z.eqb id) (extent_list s).
Definition list_del (id : Z) (s : ext_cache) : ext_cache := s <| extent_list ::= List.filter (fun i => negb (i =? id)) |>.
Definition list_add_tail (id : Z) (s : ext_cache) : ext_cache := s <| extent_list ::= fun l => l ++ [id] |>.

Section ops.
Context `{RbTree} (alloc_ok : Z -> bool).

(** kmem_cache_alloc fails for the addresses that are not [alloc_ok]. *)
Definition __attach_extent_node (e : extent_info) (p : list bool) (s : ext_cache) : option Z * ext_cache :=
  let id := ext_seq s in
  let s := s <| ext_seq ::= fun n => n + 1 |> in
  if alloc_ok id then
    (Some id, s <| root ::= fun t => rb_insert_color p (rb_link_node p (mk_en id e) t) |>
                <| node_cnt ::= fun n => s32 (n + 1) |> <| total_ext_node ::= fun n => s32 (n + 1) |>)
  else (None, s).
Definition __detach_extent_node (id : Z) (s : ext_cache) : ext_cache :=
  s <| root ::= rb_erase id |> <| node_cnt ::= fun n => s32 (n - 1) |> <| total_ext_node ::= fun n => s32 (n - 1) |>
    <| cached_en ::= fun c => if decide (c = Some id) then None else c |>.
Definition __release_extent_node (id : Z) (s : ext_cache) : outcome ext_cache :=
  if in_list s id then Done (__detach_extent_node id (list_del id s)) else Bug.

Fixpoint release_all (ids : list Z) (s : ext_cache) : outcome ext_cache :=
  match ids with [] => Done s | id :: ids => s <-- __release_extent_node id s ;; release_all ids s end.
Definition __free_extent_tree (s : ext_cache) : outcome (Z * ext_cache) :=
  let count := node_cnt s in
  s <-- release_all (map en_id (nodes s)) s ;;
  Done (u32 (count - node_cnt s), s).

Definition __drop_largest_extent (ofs n : Z) (s : ext_cache) : ext_cache :=
  let g := largest s in
  if (ofs <? u32 (fofs g + len g)) && (fofs g <? u64 (ofs + n))
  then s <| largest := g <| len := 0 |> |> <| inode_dirty := true |> else s.
Definition __try_update_largest_extent (id : Z) (s : ext_cache) : ext_cache :=
  match get_node s id with
  | Some en => if len (largest s) <? len (ei en) then s <| largest := ei en |> <| inode_dirty := true |> else s
  | None => s
  end.

(** [None] when the tree has none (f2fs_may_extent_tree fails). *)
Definition __f2fs_init_extent_tree (may : bool) (i_ext : option extent_info) (s : ext_cache) : option extent_info * ext_cache :=
  if negb may then
    match i_ext with Some e => (Some (if negb (len e =? 0) then e <| len := 0 |> else e), s) | None => (None, s) end
  else
    match i_ext with
    | Some e =>
        if (len e =? 0) || negb (node_cnt s =? 0) then (i_ext, s)
        else
          let r := __attach_extent_node e [] s in
          (i_ext, match fst r with
                  | Some id => list_add_tail id ((snd r) <| largest := e |> <| cached_en := Some id |>)
                  | None => snd r
                  end)
    | None => (i_ext, s)
    end.

(** pgofs is 64 bits wide, the parameter of f2fs_lookup_rb_tree 32. *)
Definition f2fs_lookup_extent_tree (pgofs : Z) (s : ext_cache) : option extent_info * ext_cache :=
  let g := largest s in
  if covers g pgofs then (Some g, s)
  else
    match f2fs_lookup_rb_tree (root s) (deref s (cached_en s)) (u32 pgofs) with
    | None => (None, s)
    | Some en =>
        (Some (ei en), if in_list s (en_id en) then (list_add_tail (en_id en) (list_del (en_id en) s)) <| cached_en := Some (en_id en) |>
                       else s)
    end.

Definition __is_extent_mergeable (back front : extent_info) : bool :=
  (u32 (fofs back + len back) =? fofs front) && (u32 (blk back + len back) =? blk front).
Definition merge_done (id : Z) (s : ext_cache) : option Z * ext_cache :=
  let s := __try_update_largest_extent id s in
  (Some id, if in_list s id then (list_add_tail id (list_del id s)) <| cached_en := Some id |> else s).
Definition __try_merge_extent_node (e : extent_info) (prev_ex next_ex : option Z) (s : ext_cache) : outcome (option Z * ext_cache) :=
  let back := match deref s prev_ex with Some x => if __is_extent_mergeable (ei x) e then Some x else None | None => None end in
  let s := match back with Some x => set_ei (en_id x) (fun i => i <| len ::= fun n => u32 (n + len e) |>) s | None => s end in
  let e := match back with Some x => (ei x) <| len ::= fun n => u32 (n + len e) |> | None => e end in
  match deref s next_ex with
  | Some y =>
      if __is_extent_mergeable e (ei y) then
        let s := set_ei (en_id y) (fun i => mk_ei (fofs e) (u32 (len i + len e)) (blk e)) s in
        s <-- match back with Some x => __release_extent_node (en_id x) s | None => Done s end ;;
        Done (merge_done (en_id y) s)
      else Done (match back with Some x => merge_done (en_id x) s | None => (None, s) end)
  | None => Done (match back with Some x => merge_done (en_id x) s | None => (None, s) end)
  end.

Definition __insert_extent_tree (e : extent_info) (insert_p : option (list bool)) (s : ext_cache) : outcome (option Z * ext_cache) :=
  p <-- match insert_p with Some p => Done p | None => f2fs_lookup_rb_tree_for_insert (root s) (fofs e) end ;;
  let r := __attach_extent_node e p s in
  match fst r with
  | None => Done r
  | Some id =>
      let s := __try_update_largest_extent id (snd r) in
      Done (Some id, (list_add_tail id s) <| cached_en := Some id |>)
  end.

(** One extent that reaches into [pos, last): what is left of it, the next
    node and the number of parts. *)
Definition cut_extent (pos last : Z) (x : extent_node) (prev_en : option Z) (s : ext_cache)
    : outcome (option Z * option Z * Z * ext_cache) :=
  let id := en_id x in
  let dei := ei x in
  let org_end := u32 (fofs dei + len dei) in
  if org_end <=? pos then Bug
  else
    let left := (fofs dei <? pos) && (F2FS_MIN_EXTENT_LEN <=? u32 (pos - fofs dei)) in
    let s := if left then set_ei id (fun i => i <| len := u32 (pos - fofs i) |>) s else s in
    let prev_en := if left then Some id else prev_en in
    let right := (last <? org_end) && (F2FS_MIN_EXTENT_LEN <=? u32 (org_end - last)) in
    r <-- (if right then
             if left then __insert_extent_tree (mk_ei last (u32 (org_end - last)) (u32 (last - fofs dei + blk dei))) None s
             else Done (Some id, set_ei id (fun i => mk_ei last (u32 (len i - u32 (last - fofs dei)))
                                                       (u32 (blk i + u32 (last - fofs dei)))) s)
           else Done (None, s)) ;;
    let parts := Z.b2z left + Z.b2z right in
    let s := snd r in
    let next_en := match fst r with Some n => Some n | None => id_of (rb_next (root s) id) end in
    s <-- (if negb (parts =? 0) then Done (__try_update_largest_extent id s) else __release_extent_node id s) ;;
    Done (prev_en, next_en, parts, s).

Record inval := mk_inval { iv_prev : option Z; iv_next : option Z; iv_dei : extent_info; iv_insert : option (list bool); iv_s : ext_cache }.
(** The while loop; [en] is its cursor, [n] bounds the rounds. *)
Fixpoint invalidate (n : nat) (pos last : Z) (en : option Z) (v : inval) : outcome inval :=
  match n with
  | O => NoFuel
  | S n =>
      match deref (iv_s v) en with
      | Some x =>
          if fofs (ei x) <? last then
            r <-- cut_extent pos last x (iv_prev v) (iv_s v) ;;
            let '(prev_en, next_en, parts, s) := r in
            invalidate n pos last next_en
              (mk_inval prev_en next_en (ei x) (if parts =? 1 then iv_insert v else None) s)
          else Done v
      | None => Done v
      end
  end.

Definition f2fs_update_extent_tree_range (ofs blkaddr n : Z) (s : ext_cache) : outcome ext_cache :=
  let last := u32 (ofs + n) in
  let pos := u32 ofs in
  if no_extent s then Done s
  else
    let prev := largest s in
    let s := __drop_largest_extent ofs n s in
    let r := f2fs_lookup_rb_tree_ret (root s) (deref s (cached_en s)) pos false in
    let en := match rt_entry r with Some x => Some x | None => rt_next r end in
    v <-- invalidate (S (S (length (nodes s)))) pos last (id_of en)
            (mk_inval (id_of (rt_prev r)) (id_of (rt_next r)) (mk_ei 0 0 0) (rt_insert r) s) ;;
    s <-- (if negb (blkaddr =? 0) then
             let e := mk_ei pos n blkaddr in
             m <-- __try_merge_extent_node e (iv_prev v) (iv_next v) (iv_s v) ;;
             m <-- match fst m with Some _ => Done m | None => __insert_extent_tree e (iv_insert v) (snd m) end ;;
             let s := snd m in
             Done (if (1 <=? len (iv_dei v)) && (len prev <? F2FS_MIN_EXTENT_LEN) && (len (largest s) <? F2FS_MIN_EXTENT_LEN)
                   then (__drop_largest_extent 0 UINT_MAX s) <| no_extent := true |> else s)
           else Done (iv_s v)) ;;
    if no_extent s then r <-- __free_extent_tree s ;; Done (snd r) else Done s.

(** ** The operations of the inode *)

(** f2fs_may_extent_tree, with the mount option and S_ISREG as arguments *)
Definition f2fs_may_extent_tree (opt_extent_cache is_reg : bool) (s : ext_cache) : bool :=
  if negb opt_extent_cache || no_extent s then false else is_reg.
Definition f2fs_lookup_extent_cache (may : bool) (pgofs : Z) (s : ext_cache) : option extent_info * ext_cache :=
  if negb may then (None, s) else f2fs_lookup_extent_tree pgofs s.
(** [dn] is the slot [ofs_in_node] of the node with offset [node_ofs]. *)
Definition f2fs_update_extent_cache `{SitFormat} `{NodeFormat} (may : bool) (i : inode) (node_ofs ofs_in_node data_blkaddr : Z)
    (s : ext_cache) : outcome ext_cache :=
  if negb may then Done s
  else
    let blkaddr := if data_blkaddr =? NEW_ADDR then NULL_ADDR else data_blkaddr in
    let ofs := u32 (f2fs_start_bidx_of_node node_ofs i + ofs_in_node) in
    f2fs_update_extent_tree_range ofs blkaddr 1 s.
Definition f2fs_update_extent_cache_range (may : bool) (ofs blkaddr n : Z) (s : ext_cache) : outcome ext_cache :=
  if negb may then Done s else f2fs_update_extent_tree_range ofs blkaddr n s.
Definition f2fs_drop_extent_tree (may : bool) (s : ext_cache) : outcome ext_cache :=
  if negb may then Done s
  else
    r <-- __free_extent_tree (s <| no_extent := true |>) ;;
    Done (__drop_largest_extent 0 UINT_MAX (snd r)).
Definition f2fs_destroy_extent_node (s : ext_cache) : outcome (Z * ext_cache) :=
  if node_cnt s =? 0 then Done (0, s) else __free_extent_tree s.

(** The free_node loop of f2fs_shrink_extent_tree as this inode sees it;
    [trylock] says whose tree lock is free. The nodes that are not in its tree
    belong to other inodes. *)
Fixpoint shrink_nodes (remained : nat) (trylock : Z -> bool) (s : ext_cache) : Z * ext_cache :=
  match remained with
  | O => (0, s)
  | S remained =>
      match extent_list s with
      | [] => (0, s)
      | id :: _ =>
          if negb (trylock id) then shrink_nodes remained trylock (list_add_tail id (list_del id s))
          else
            let s := list_del id s in
            let r := shrink_nodes remained trylock
              (match get_node s id with Some _ => __detach_extent_node id s
               | None => s <| total_ext_node ::= fun n => s32 (n - 1) |> end) in
            (1 + fst r, snd r)
      end
  end.
End ops.

(** ** Ordered lists of runs *)

Definition ends (e : extent_info) : Z := fofs e + len e.
Definition apart (x y : extent_node) : Prop := ends (ei x) <= fofs (ei y).
Fixpoint sorted (l : list extent_node) : Prop :=
  match l with [] => True | x :: l => Forall (apart x) l /\ sorted l end.
Record ei_ok (e : extent_info) : Prop := {
  eo_fofs : 0 <= fofs e; eo_len : 0 < len e; eo_ends : ends e < 4294967296;
  eo_blk : 0 <= blk e; eo_top : blk e + len e < 4294967296;
}.

Lemma sorted_app A B : sorted (A ++ B) <-> sorted A /\ sorted B /\ forall x y, x ∈ A -> y ∈ B -> apart x y.
Proof.
  induction A as [|a A IH]; cbn [app sorted].
  - split; [|by intros (_ & ? & _)]. intros W. split; [done|]. split; [done|]. by intros x y ?%not_elem_of_nil.
  - rewrite IH, Forall_app, !list.Forall_forall. split.
    + intros ((F1 & F2) & W1 & W2 & W3). split; [done|]. split; [done|]. intros x y Hx Hy.
      apply elem_of_cons in Hx as [->|Hx]; [by apply F2|by apply W3].
    + intros ((F & W1) & W2 & W3). split; [split; [done|]; intros y Hy; apply W3; [by left|done]|].
      split; [done|]. split; [done|]. intros x y Hx Hy. apply W3; [by right|done].
Qed.
Lemma ends_u32 e : ei_ok e -> u32 (fofs e + len e) = ends e.
Proof. intros []. unfold ends in *. apply u32_id. lia. Qed.
Lemma covers_spec e ofs : ei_ok e -> covers e ofs = true <-> fofs e <= ofs < ends e.
Proof. intros W. unfold covers. rewrite ends_u32 by done. rewrite andb_true_iff, Z.leb_le, Z.ltb_lt. done. Qed.

(** A node and its neighbours in a list without repetitions. *)
Section node_at.
Context (A : list extent_node) (x : extent_node) (R : list extent_node).
Context (N : NoDup (map en_id (A ++ x :: R))).
Lemma ids_apart y : y ∈ A ++ R -> en_id y <> en_id x.
Proof.
  intros Hy E. rewrite map_app in N. cbn [map] in N. apply list.NoDup_app in N as (_ & Hd & N2).
  apply list.NoDup_cons in N2 as [Hn _]. apply elem_of_app in Hy as [Hy|Hy].
  - apply (Hd (en_id y)); [by apply (list_elem_of_fmap_2 en_id)|]. rewrite E. by left.
  - apply Hn. rewrite <- E. by apply (list_elem_of_fmap_2 en_id).
Qed.
Lemma find_at : List.find (fun y => en_id y =? en_id x) (A ++ x :: R) = Some x.
Proof.
  assert (forall y, y ∈ A -> en_id y <> en_id x) as Ha by (intros y Hy; apply ids_apart; apply elem_of_app; by left).
  clear N. induction A as [|a A' IH]; cbn [app List.find]; [by rewrite Z.eqb_refl|].
  destruct (Z.eqb_spec (en_id a) (en_id x)) as [E|]; [by destruct (Ha a ltac:(by left))|].
  apply IH. intros y Hy. apply Ha. by right.
Qed.
Lemma map_at f : map (on_node (en_id x) f) (A ++ x :: R) = A ++ mk_en (en_id x) (f (ei x)) :: R.
Proof.
  assert (forall l, (forall y, y ∈ l -> en_id y <> en_id x) -> map (on_node (en_id x) f) l = l) as Hid.
  { intros l Hl. induction l as [|a l IH]; [done|]. cbn [map]. rewrite IH by (intros y Hy; apply Hl; by right).
    unfold on_node at 1. destruct (Z.eqb_spec (en_id a) (en_id x)) as [E|]; [|done]. by destruct (Hl a ltac:(by left)). }
  rewrite map_app. cbn [map]. rewrite !Hid by (intros y Hy; apply ids_apart; apply elem_of_app; auto).
  unfold on_node. by rewrite Z.eqb_refl.
Qed.
Lemma without_at : without (en_id x) (A ++ x :: R) = A ++ R.
Proof.
  assert (forall l, (forall y, y ∈ l -> en_id y <> en_id x) -> without (en_id x) l = l) as Hid.
  { intros l Hl. unfold without. induction l as [|a l IH]; [done|]. cbn [List.filter].
    rewrite IH by (intros y Hy; apply Hl; by right).
    destruct (Z.eqb_spec (en_id a) (en_id x)) as [E|]; [|done]. by destruct (Hl a ltac:(by left)). }
  unfold without. rewrite filter_app. cbn [List.filter]. rewrite Z.eqb_refl. cbn [negb]. fold (without (en_id x) A) (without (en_id x) R).
  by rewrite !Hid by (intros y Hy; apply ids_apart; apply elem_of_app; auto).
Qed.
Lemma next_at : next_in (A ++ x :: R) (en_id x) = head R.
Proof.
  assert (forall y, y ∈ A -> en_id y <> en_id x) as Ha by (intros y Hy; apply ids_apart; apply elem_of_app; by left).
  clear N. induction A as [|a A' IH]; cbn [app next_in]; [by rewrite Z.eqb_refl|].
  destruct (Z.eqb_spec (en_id a) (en_id x)) as [E|]; [by destruct (Ha a ltac:(by left))|].
  apply IH. intros y Hy. apply Ha. by right.
Qed.
Lemma prev_at p : prev_in p (A ++ x :: R) (en_id x) = match head (rev A) with Some y => Some y | None => p end.
Proof.
  assert (forall y, y ∈ A -> en_id y <> en_id x) as Ha by (intros y Hy; apply ids_apart; apply elem_of_app; by left).
  clear N. revert p. induction A as [|a A' IH]; intros p; cbn [app prev_in]; [by rewrite Z.eqb_refl|].
  destruct (Z.eqb_spec (en_id a) (en_id x)) as [E|]; [by destruct (Ha a ltac:(by left))|].
  rewrite IH by (intros y Hy; apply Ha; by right). cbn [rev]. by destruct (rev A').
Qed.
End node_at.

(** ** Positions in the tree *)

(** What is before and behind position [p], if it is one. *)
Fixpoint split_at (p : list bool) (t : rb_tree) : option (list extent_node * list extent_node) :=
  match p, t with
  | [], Leaf => Some ([], [])
  | false :: p, Node l x r => match split_at p l with Some (A, R) => Some (A, R ++ x :: inorder r) | None => None end
  | true :: p, Node l x r => match split_at p r with Some (A, R) => Some (inorder l ++ x :: A, R) | None => None end
  | _, _ => None
  end.
Lemma split_at_inorder p t A R : split_at p t = Some (A, R) ->
  inorder t = A ++ R /\ forall n, inorder (rb_link_node p n t) = A ++ n :: R.
Proof.
  revert t A R. induction p as [|b p IH]; intros [|l x r] A R; try done.
  - by intros [= <- <-].
  - by destruct b.
  - cbn [split_at]. destruct b.
    + destruct (split_at p r) as [[A' R']|] eqn:E; [|done]. intros [= <- <-]. destruct (IH r A' R' E) as [E1 E2].
      cbn [inorder rb_link_node]. rewrite E1. split; [by rewrite <- app_assoc|]. intros n. rewrite E2. by rewrite <- app_assoc.
    + destruct (split_at p l) as [[A' R']|] eqn:E; [|done]. intros [= <- <-]. destruct (IH l A' R' E) as [E1 E2].
      cbn [inorder rb_link_node]. rewrite E1. split; [by rewrite <- app_assoc|]. intros n. rewrite E2. by rewrite <- app_assoc.
Qed.
Lemma inorder_tmap f t : inorder (tmap f t) = map f (inorder t).
Proof. induction t as [|l IHl x r IHr]; cbn; [done|]. by rewrite map_app, IHl, IHr. Qed.
Lemma split_at_tmap f p t A R : split_at p t = Some (A, R) -> split_at p (tmap f t) = Some (map f A, map f R).
Proof.
  revert t A R. induction p as [|b p IH]; intros [|l x r] A R; try done.
  - by intros [= <- <-].
  - by destruct b.
  - cbn [split_at tmap]. destruct b.
    + destruct (split_at p r) as [[A' R']|] eqn:E; [|done]. intros [= <- <-]. rewrite (IH _ _ _ E). by rewrite map_app, inorder_tmap.
    + destruct (split_at p l) as [[A' R']|] eqn:E; [|done]. intros [= <- <-]. rewrite (IH _ _ _ E). by rewrite map_app, inorder_tmap.
Qed.

Definition neighbour (A R : list extent_node) (par y : option extent_node) : Prop :=
  (A = [] /\ R = [] /\ y = par) \/ exists z, y = Some z /\ (head R = Some z \/ head (rev A) = Some z).
Lemma descend_spec t ofs par :
  sorted (inorder t) -> (forall x, x ∈ inorder t -> ei_ok (ei x)) ->
  match descend t ofs par with
  | inl x => (exists A R, inorder t = A ++ x :: R) /\ fofs (ei x) <= ofs < ends (ei x)
  | inr (p, y) => exists A R, split_at p t = Some (A, R) /\ (forall x, x ∈ A -> ends (ei x) <= ofs) /\
      (forall x, x ∈ R -> ofs < fofs (ei x)) /\ neighbour A R par y
  end.
Proof.
  revert par. induction t as [|l IHl x r IHr]; intros par; cbn [descend inorder].
  { intros _ _. exists [], []. split; [done|]. split; [by intros x ?%not_elem_of_nil|]. split; [by intros x ?%not_elem_of_nil|by left]. }
  intros (Wl & (Fx & Wr) & Hlr)%sorted_app Hok. rewrite list.Forall_forall in Fx.
  pose proof (Hok x ltac:(apply elem_of_app; right; by left)) as Wx.
  assert (forall y, y ∈ inorder l -> ei_ok (ei y)) as Okl by (intros y Hy; apply Hok, elem_of_app; by left).
  assert (forall y, y ∈ inorder r -> ei_ok (ei y)) as Okr by (intros y Hy; apply Hok, elem_of_app; right; by right).
  rewrite (ends_u32 _ Wx). destruct (Z.ltb_spec ofs (fofs (ei x))); [|destruct (Z.leb_spec (ends (ei x)) ofs)].
  - specialize (IHl (Some x) Wl Okl). destruct (descend l ofs (Some x)) as [y|[p y]].
    + destruct IHl as ((A & R & E) & Hc). split; [|done]. exists A, (R ++ x :: inorder r). by rewrite E, <- app_assoc.
    + destruct IHl as (A & R & E & HA & HR & Hn). exists A, (R ++ x :: inorder r). cbn [split_at]. rewrite E. split; [done|]. split; [done|].
      split.
      * intros y' [Hy|[->|Hy]%elem_of_cons]%elem_of_app; [by apply HR|done|]. pose proof (Fx y' Hy) as Ha. unfold apart in Ha. destruct Wx. unfold ends in *. lia.
      * right. destruct Hn as [(-> & -> & ->)|(z & -> & Hz)]; [exists x; by split; [|left]|]. exists z. split; [done|].
        destruct Hz as [Hz|Hz]; [left|by right]. by destruct R.
  - specialize (IHr (Some x) Wr Okr). destruct (descend r ofs (Some x)) as [y|[p y]].
    + destruct IHr as ((A & R & E) & Hc). split; [|done]. exists (inorder l ++ x :: A), R. by rewrite E, <- app_assoc.
    + destruct IHr as (A & R & E & HA & HR & Hn). exists (inorder l ++ x :: A), R. cbn [split_at]. rewrite E. split; [done|].
      split; [|split; [done|]].
      * intros y' [Hy|[->|Hy]%elem_of_cons]%elem_of_app; [|done|by apply HA].
        pose proof (Hlr y' x Hy ltac:(by left)) as Ha. unfold apart in Ha. destruct Wx. unfold ends in *. lia.
      * right. destruct Hn as [(-> & -> & ->)|(z & -> & Hz)]; [exists x; split; [done|right; by rewrite rev_app_distr]|]. exists z. split; [done|].
        destruct Hz as [Hz|Hz]; [by left|right]. rewrite rev_app_distr. cbn [rev]. by destruct (rev A).
  - split; [by exists (inorder l), (inorder r)|]. lia.
Qed.

Lemma slow_descend t ofs :
  __lookup_rb_tree_slow t ofs = match descend t ofs None with inl x => Some x | inr _ => None end.
Proof.
  assert (forall p, __lookup_rb_tree_slow t ofs = match descend t ofs p with inl x => Some x | inr _ => None end) as H; [|apply H].
  induction t as [|l IHl x r IHr]; intros p; cbn [__lookup_rb_tree_slow descend]; [done|].
  destruct (ofs <? fofs (ei x)); [rewrite (IHl (Some x)); by destruct (descend l ofs (Some x)) as [|[]]|].
  destruct (_ <=? ofs); [rewrite (IHr (Some x)); by destruct (descend r ofs (Some x)) as [|[]]|done].
Qed.

(** ** The invariant *)

Record ext_wf (s : ext_cache) : Prop := {
  ew_sorted : sorted (nodes s);
  ew_ok x : x ∈ nodes s -> ei_ok (ei x);
  ew_nodup : NoDup (map en_id (nodes s));
  ew_seq x : x ∈ nodes s -> en_id x < ext_seq s;
  ew_list x : x ∈ nodes s -> en_id x ∈ extent_list s;
  ew_cached id : cached_en s = Some id -> id ∈ map en_id (nodes s);
  ew_cnt : node_cnt s = s32 (Z.of_nat (length (nodes s)));
}.
(** [e] says of the blocks in [P] what [M] says. *)
Definition agrees (M : Z -> Z) (P : Z -> Prop) (e : extent_info) : Prop :=
  forall i, fofs e <= i < ends e -> P i -> M i = blk e + (i - fofs e).
Record largest_ok (M : Z -> Z) (e : extent_info) : Prop := {
  lo_range : 0 <= fofs e < 4294967296 /\ 0 <= len e;
  lo_ok : 0 < len e -> ei_ok e /\ agrees M (fun _ => True) e;
}.
(** Every run in the cache is a run of the file. *)
Record ext_sound (M : Z -> Z) (s : ext_cache) : Prop := {
  eo_wf : ext_wf s;
  eo_nodes x : x ∈ nodes s -> agrees M (fun _ => True) (ei x);
  eo_largest : largest_ok M (largest s);
}.
(** An inode that gave up has an empty cache. *)
Record ext_ok (M : Z -> Z) (s : ext_cache) : Prop := {
  eo_sound : ext_sound M s;
  eo_flag : no_extent s = true -> nodes s = [] /\ len (largest s) = 0;
}.

Lemma largest_covers M e ofs : largest_ok M e -> covers e ofs = true -> 0 < len e /\ ei_ok e /\ fofs e <= ofs < ends e.
Proof.
  intros [(Hf & Hl) Hok] Hc. destruct (decide (0 < len e)) as [Hp|Hp].
  - destruct (Hok Hp) as [W _]. split; [done|]. split; [done|]. by apply covers_spec.
  - unfold covers in Hc. replace (fofs e + len e) with (fofs e) in Hc by lia. rewrite u32_id in Hc by lia. lia.
Qed.
Lemma get_node_at s A x R : ext_wf s -> nodes s = A ++ x :: R -> get_node s (en_id x) = Some x.
Proof. intros W E. unfold get_node. rewrite E. apply find_at. rewrite <- E. apply W. Qed.
Lemma get_node_some s id x : get_node s id = Some x -> en_id x = id /\ x ∈ nodes s.
Proof. intros Hf. apply List.find_some in Hf as [Hin E%Z.eqb_eq]. split; [done|]. by apply list_elem_of_In. Qed.
Lemma in_list_spec s id : in_list s id = true <-> id ∈ extent_list s.
Proof.
  unfold in_list. rewrite List.existsb_exists. split.
  - intros (i & Hi & E%Z.eqb_eq). subst. by apply list_elem_of_In.
  - intros Hi. exists id. split; [by apply list_elem_of_In|apply Z.eqb_refl].
Qed.
Lemma elem_list_del id i s : i ∈ extent_list (list_del id s) <-> i ∈ extent_list s /\ i <> id.
Proof.
  cbn. rewrite !list_elem_of_In, List.filter_In, negb_true_iff, Z.eqb_neq. done.
Qed.

(** What the search for a position finds: the nodes before it, and from the
    node that covers it or follows it on. *)
Record found (s : ext_cache) (pos : Z) (A R : list extent_node) (r : rb_ret) : Prop := {
  fd_nodes : nodes s = A ++ R;
  fd_before x : x ∈ A -> ends (ei x) <= pos;
  fd_behind x : x ∈ R -> pos < ends (ei x);
  fd_hit x : rt_entry r = Some x -> head R = Some x /\ fofs (ei x) <= pos;
  fd_next : rt_entry r = None -> rt_next r = head R;
  fd_prev : rt_prev r = None \/ rt_prev r = head (rev A);
  fd_insert p : rt_insert r = Some p -> split_at p (root s) = Some (A, R) /\ forall x, x ∈ R -> pos < fofs (ei x);
}.
Lemma hit_found s pos x : ext_wf s -> x ∈ nodes s -> fofs (ei x) <= pos < ends (ei x) ->
  exists A R, found s pos A R (lookup_neighbors (root s) pos false x).
Proof.
  intros W (A & R & E)%list_elem_of_split Hx. exists A, (x :: R). pose proof (ew_sorted _ W) as Ws. rewrite E in Ws.
  apply sorted_app in Ws as (_ & (Fx & _) & Hax). rewrite list.Forall_forall in Fx.
  pose proof (ew_nodup _ W) as N. rewrite E in N.
  split; cbn [rt_entry rt_prev rt_next rt_insert lookup_neighbors]; try done.
  - intros y Hy. pose proof (Hax y x Hy ltac:(by left)) as Ha. unfold apart in Ha. lia.
  - intros y [->|Hy]%elem_of_cons; [lia|]. pose proof (Fx y Hy) as Ha. unfold apart in Ha.
    destruct (ew_ok _ W y) as [_ Hl _ _ _]; [rewrite E; apply elem_of_app; right; by right|]. unfold ends in *. lia.
  - intros y [= <-]. split; [done|lia].
  - rewrite orb_false_r. destruct (pos =? fofs (ei x)); [right|by left]. unfold rb_prev. fold (nodes s). rewrite E, prev_at by done.
    by destruct (head (rev A)).
Qed.
Lemma lookup_ret_found s pos : ext_wf s ->
  exists A R, found s pos A R (f2fs_lookup_rb_tree_ret (root s) (deref s (cached_en s)) pos false).
Proof.
  intros W. pose proof W as [Ws Wok N _ _ _ _].
  destruct (root s) as [|l x0 r0] eqn:Er.
  { exists [], []. assert (nodes s = []) as E by (unfold nodes; by rewrite Er).
    split; cbn; try done; try (by intros x ?%not_elem_of_nil). by left. }
  unfold f2fs_lookup_rb_tree_ret. rewrite <- Er. destruct (__lookup_rb_tree_fast (deref s (cached_en s)) pos) as [x|] eqn:Ef.
  { unfold __lookup_rb_tree_fast in Ef. destruct (deref s (cached_en s)) as [y|] eqn:Ed; [|done].
    destruct (covers (ei y) pos) eqn:Ec; [|done]. injection Ef as <-.
    assert (y ∈ nodes s) as Hy by (unfold deref in Ed; destruct (cached_en s); [by apply get_node_some in Ed as [_ ?]|done]).
    apply hit_found; [done..|]. by apply covers_spec; [apply Wok|]. }
  pose proof (descend_spec (root s) pos None Ws Wok) as Hd. destruct (descend (root s) pos None) as [x|[p y]].
  { destruct Hd as ((A & R & E) & Hc). apply hit_found; [done| |done]. unfold nodes. rewrite E. apply elem_of_app. right. by left. }
  destruct Hd as (A & R & Hsp & HA & HR & Hn). exists A, R. destruct (split_at_inorder _ _ _ _ Hsp) as [E _]. fold (nodes s) in E.
  assert (forall x, x ∈ R -> pos < ends (ei x)) as HR'.
  { intros x Hx. pose proof (HR x Hx). destruct (Wok x) as [_ Hl _ _ _]; [rewrite E; apply elem_of_app; by right|]. unfold ends. lia. }
  destruct Hn as [(-> & -> & ->)|(z & -> & Hz)].
  { exfalso. unfold nodes in E. rewrite Er in E. cbn in E. by destruct (inorder l). }
  split; cbn [rt_entry rt_prev rt_next rt_insert]; try done; [..|by intros p' [= <-]].
  - intros _. destruct Hz as [Hz|Hz].
    + destruct R as [|z' R]; [done|]. injection Hz as ->. pose proof (HR z ltac:(by left)). by replace (fofs (ei z) <? pos) with false by lia.
    + destruct (rev A) as [|z' A'] eqn:EA; [done|]. injection Hz as ->.
      assert (A = rev A' ++ [z]) as -> by (rewrite <- (rev_involutive A), EA; done).
      pose proof (HA z ltac:(apply elem_of_app; right; by left)). destruct (Wok z) as [_ Hl _ _ _]; [rewrite E; apply elem_of_app; left; apply elem_of_app; right; by left|].
      unfold ends in *. replace (fofs (ei z) <? pos) with true by lia. unfold rb_next. fold (nodes s). rewrite E, <- app_assoc.
      cbn [app]. rewrite E, <- app_assoc in N. apply next_at. done.
  - destruct Hz as [Hz|Hz].
    + destruct R as [|z' R]; [done|]. injection Hz as ->. pose proof (HR z ltac:(by left)). replace (pos <? fofs (ei z)) with true by lia.
      right. unfold rb_prev. fold (nodes s). rewrite E. rewrite E in N. rewrite prev_at by done. by destruct (head (rev A)).
    + destruct (rev A) as [|z' A'] eqn:EA; [done|]. injection Hz as ->.
      assert (z ∈ A) as Hz by (rewrite <- (rev_involutive A), EA; apply elem_of_app; right; by left).
      pose proof (HA z Hz). destruct (Wok z) as [_ Hl _ _ _]; [rewrite E; apply elem_of_app; by left|].
      unfold ends in *. replace (pos <? fofs (ei z)) with false by lia. right. done.
Qed.

(** ** The operations on a list of nodes *)

Lemma u32_s32 a : u32 (s32 a) = u32 a.
Proof.
  unfold s32. cbv zeta. destruct (_ <? _); [apply u32_u32|]. rewrite u32_sub_l. unfold u32.
  replace (a - 2 ^ 32) with (a + (-1) * 2 ^ 32) by lia. apply Z.mod_add. lia.
Qed.
Lemma s32_add a b : s32 (s32 a + b) = s32 (a + b).
Proof. unfold s32 at 1 3. cbv zeta. rewrite <- (u32_add_l (s32 a)), u32_s32, u32_add_l. done. Qed.

(** Where a list is cut by a property is determined. *)
Lemma cut_unique (Q : extent_node -> Prop) A R A' R' :
  A ++ R = A' ++ R' -> (forall x, x ∈ A -> Q x) -> (forall x, x ∈ R -> ~ Q x) ->
  (forall x, x ∈ A' -> Q x) -> (forall x, x ∈ R' -> ~ Q x) -> A = A' /\ R = R'.
Proof.
  revert A'. induction A as [|a A IH]; intros [|a' A'] E HA HR HA' HR'; cbn in E.
  - done.
  - exfalso. apply (HR a'); [rewrite E; by left|apply HA'; by left].
  - exfalso. apply (HR' a); [rewrite <- E; by left|apply HA; by left].
  - injection E as -> E. destruct (IH A' E) as [-> ->]; try done; intros x Hx; [apply HA|apply HA']; by right.
Qed.

Lemma sorted_middle A x R e :
  sorted (A ++ x :: R) -> (forall y, y ∈ A -> ends (ei y) <= fofs e) -> (forall y, y ∈ R -> ends e <= fofs (ei y)) ->
  forall id, sorted (A ++ mk_en id e :: R).
Proof.
  intros (Wa & (Fx & Wr) & Har)%sorted_app HA HR id. apply sorted_app. split; [done|]. split.
  - split; [|done]. apply list.Forall_forall. done.
  - intros y z Hy [->|Hz]%elem_of_cons; [by apply HA|]. apply Har; [done|by right].
Qed.
Lemma sorted_insert A R e id :
  sorted (A ++ R) -> (forall y, y ∈ A -> ends (ei y) <= fofs e) -> (forall y, y ∈ R -> ends e <= fofs (ei y)) ->
  sorted (A ++ mk_en id e :: R).
Proof.
  intros (Wa & Wr & Har)%sorted_app HA HR. apply sorted_app. split; [done|]. split.
  - split; [|done]. apply list.Forall_forall. done.
  - intros y z Hy [->|Hz]%elem_of_cons; [by apply HA|by apply Har].
Qed.

Lemma nodes_set_ei id f s : nodes (set_ei id f s) = map (on_node id f) (nodes s).
Proof. unfold nodes, set_ei. cbn. apply inorder_tmap. Qed.
Lemma map_id_on_node id f l : map en_id (map (on_node id f) l) = map en_id l.
Proof. rewrite map_map. apply map_ext. intros x. unfold on_node. by destruct (en_id x =? id). Qed.

Lemma set_ei_ok s A x R f :
  ext_wf s -> nodes s = A ++ x :: R -> ei_ok (f (ei x)) ->
  (forall y, y ∈ A -> ends (ei y) <= fofs (f (ei x))) -> (forall y, y ∈ R -> ends (f (ei x)) <= fofs (ei y)) ->
  ext_wf (set_ei (en_id x) f s) /\ nodes (set_ei (en_id x) f s) = A ++ mk_en (en_id x) (f (ei x)) :: R.
Proof.
  intros W E Wf HA HR. pose proof W as [Ws Wok N Wq Wl Wc Wn]. rewrite E in Ws, N.
  assert (nodes (set_ei (en_id x) f s) = A ++ mk_en (en_id x) (f (ei x)) :: R) as E'
    by (rewrite nodes_set_ei, E; by apply map_at).
  assert (map en_id (nodes (set_ei (en_id x) f s)) = map en_id (nodes s)) as Ei by (rewrite nodes_set_ei; apply map_id_on_node).
  assert (forall y, y ∈ nodes (set_ei (en_id x) f s) -> exists z, z ∈ nodes s /\ en_id z = en_id y) as Hid.
  { intros y Hy. assert (en_id y ∈ map en_id (nodes s)) as Hy' by (rewrite <- Ei; by apply (list_elem_of_fmap_2 en_id)).
    apply list_elem_of_fmap_1 in Hy' as (z & Hz & ?). by exists z. }
  split; [|done]. split.
  - rewrite E'. by apply (sorted_middle A x R).
  - intros y. rewrite E'. intros [Hy|[->|Hy]%elem_of_cons]%elem_of_app; [|done|]; apply Wok; rewrite E; apply elem_of_app; [by left|right; by right].
  - rewrite Ei, E. exact N.
  - intros y Hy. destruct (Hid y Hy) as (z & Hz & <-). by apply Wq.
  - intros y Hy. destruct (Hid y Hy) as (z & Hz & <-). by apply Wl.
  - intros id Hc. rewrite Ei. by apply Wc.
  - rewrite nodes_set_ei, length_map. done.
Qed.

Section with_tree.
Context `{RbTreeOk} (alloc_ok : Z -> bool).

Lemma release_ok s A x R :
  ext_wf s -> nodes s = A ++ x :: R ->
  exists s', __release_extent_node (en_id x) s = Done s' /\ ext_wf s' /\ nodes s' = A ++ R /\
    largest s' = largest s /\ no_extent s' = no_extent s /\ ext_seq s' = ext_seq s.
Proof.
  intros W E. pose proof W as [Ws Wok N Wq Wl Wc Wn]. unfold __release_extent_node.
  assert (x ∈ nodes s) as Hx by (rewrite E; apply elem_of_app; right; by left).
  rewrite (proj2 (in_list_spec s (en_id x)) (Wl x Hx)). set (s' := __detach_extent_node _ _). exists s'. split; [done|].
  assert (nodes s' = A ++ R) as E'.
  { unfold nodes. cbn. rewrite inorder_erase. fold (nodes s). rewrite E. apply without_at. by rewrite <- E. }
  rewrite E in N.
  assert (forall y, y ∈ A ++ R -> y ∈ nodes s /\ en_id y <> en_id x) as Hin.
  { intros y Hy. split; [|by apply (ids_apart A x R)]. rewrite E. apply elem_of_app in Hy as [Hy|Hy]; apply elem_of_app; [by left|right; by right]. }
  split; [|done]. split.
  - rewrite E'. rewrite E in Ws. apply sorted_app in Ws as (Wa & (_ & Wr) & Har). apply sorted_app. split; [done|]. split; [done|].
    intros y z Hy Hz. apply Har; [done|by right].
  - intros y. rewrite E'. intros Hy. by apply Wok, Hin.
  - rewrite E'. rewrite map_app in *. cbn [map] in N. apply list.NoDup_app in N as (N1 & N2 & N3).
    apply list.NoDup_cons in N3 as [_ N3]. apply list.NoDup_app. split; [done|]. split; [|done]. intros i Hi Hr. apply (N2 i Hi). by right.
  - intros y. rewrite E'. intros Hy. cbn. by apply Wq, Hin.
  - intros y. rewrite E'. intros Hy. destruct (Hin y Hy) as [Hy1 Hy2]. change (extent_list s') with (extent_list (list_del (en_id x) s)).
    apply elem_list_del. split; [by apply Wl|done].
  - intros id. change (cached_en s') with (if decide (cached_en s = Some (en_id x)) then None else cached_en s).
    destruct (decide (cached_en s = Some (en_id x))) as [|Hne]; [done|]. intros Hc. specialize (Wc id Hc).
    rewrite E'. rewrite E in Wc. rewrite map_app in *. cbn [map] in Wc. apply elem_of_app in Wc as [?|[?|?]%elem_of_cons];
      [apply elem_of_app; by left|congruence|apply elem_of_app; by right].
  - change (node_cnt s') with (s32 (node_cnt s - 1)). rewrite Wn, E', E, !length_app. cbn [length]. rewrite <- Z.add_opp_r, s32_add. f_equal. lia.
Qed.

Lemma update_largest_ok s A x R :
  ext_wf s -> nodes s = A ++ x :: R ->
  let s' := __try_update_largest_extent (en_id x) s in
  ext_wf s' /\ root s' = root s /\ (largest s' = largest s \/ largest s' = ei x) /\ no_extent s' = no_extent s /\
  ext_seq s' = ext_seq s /\ extent_list s' = extent_list s.
Proof.
  intros W E s'. subst s'. unfold __try_update_largest_extent. rewrite (get_node_at s A x R) by done.
  destruct (_ <? _); [|split; [done|]; split; [done|]; split; [by left|done]].
  split; [by destruct W; split|]. split; [done|]. split; [by right|done].
Qed.

Lemma largest_update M s s' x :
  largest_ok M (largest s) -> ei_ok (ei x) -> agrees M (fun _ => True) (ei x) ->
  largest s' = largest s \/ largest s' = ei x -> largest_ok M (largest s').
Proof. intros W Wx Hx [-> | ->]; [done|]. pose proof Wx as []. unfold ends in *. split; [lia|done]. Qed.

(** The tail of a merge: the node moves to the end of the list. *)
Lemma merge_done_ok s A x R :
  ext_wf s -> nodes s = A ++ x :: R ->
  let r := merge_done (en_id x) s in
  fst r = Some (en_id x) /\ ext_wf (snd r) /\ nodes (snd r) = nodes s /\
  (largest (snd r) = largest s \/ largest (snd r) = ei x) /\ no_extent (snd r) = no_extent s.
Proof.
  intros W E. unfold merge_done. destruct (update_largest_ok s A x R W E) as (W1 & Er & Hl & Hn & Hs & Hli).
  set (s1 := __try_update_largest_extent (en_id x) s) in *. cbn [fst snd].
  assert (nodes s1 = nodes s) as En by (unfold nodes; by rewrite Er).
  split; [done|]. destruct (in_list s1 (en_id x)); [|done]. split; [|done].
  destruct W1 as [Ws Wok N Wq Wl Wc Wn]. split; try done.
  - intros y Hy. specialize (Wl y Hy). change (en_id y ∈ extent_list (list_del (en_id x) s1) ++ [en_id x]). apply elem_of_app.
    destruct (decide (en_id y = en_id x)) as [Eq|]; [right; rewrite Eq; by left|left]. by apply elem_list_del.
  - intros id [= <-]. change (en_id x ∈ map en_id (nodes s1)). rewrite En, E, map_app. apply elem_of_app. right. by left.
Qed.

(** A position for a run that fits between [A] and [R]. *)
Definition fits (s : ext_cache) (A R : list extent_node) (e : extent_info) : Prop :=
  nodes s = A ++ R /\ (forall y, y ∈ A -> ends (ei y) <= fofs e) /\ (forall y, y ∈ R -> ends e <= fofs (ei y)).
Lemma position_ok s A R e insert_p :
  ext_wf s -> ei_ok e -> fits s A R e -> (forall p, insert_p = Some p -> split_at p (root s) = Some (A, R)) ->
  exists p, match insert_p with Some p => Done p | None => f2fs_lookup_rb_tree_for_insert (root s) (fofs e) end = Done p /\
    split_at p (root s) = Some (A, R).
Proof.
  intros W We (E & HA & HR) Hp. destruct insert_p as [p|]; [exists p; split; [done|by apply Hp]|].
  pose proof W as [Ws Wok _ _ _ _ _]. unfold f2fs_lookup_rb_tree_for_insert.
  pose proof (descend_spec (root s) (fofs e) None Ws Wok) as Hd. pose proof (eo_len _ We). unfold ends in *.
  destruct (descend _ _ _) as [x|[p y]].
  - exfalso. destruct Hd as ((A' & R' & E') & Hc). assert (x ∈ nodes s) as Hx by (unfold nodes; rewrite E'; apply elem_of_app; right; by left).
    rewrite E in Hx. apply elem_of_app in Hx as [Hx|Hx]; [specialize (HA x Hx)|specialize (HR x Hx)]; lia.
  - destruct Hd as (A' & R' & Hsp & HA' & HR' & _). exists p. split; [done|].
    destruct (split_at_inorder _ _ _ _ Hsp) as [E' _]. fold (nodes s) in E'.
    destruct (cut_unique (fun x => ends (ei x) <= fofs e) A R A' R') as [<- <-]; [by rewrite <- E, <- E'|done| |done| |done]; unfold ends.
    + intros x Hx. specialize (HR x Hx). destruct (Wok x) as [_ Hl _ _ _]; [rewrite E; apply elem_of_app; by right|]. lia.
    + intros x Hx. specialize (HR' x Hx). destruct (Wok x) as [_ Hl _ _ _]; [rewrite E'; apply elem_of_app; by right|]. lia.
Qed.

Lemma insert_ok s A R e insert_p :
  ext_wf s -> ei_ok e -> fits s A R e -> (forall p, insert_p = Some p -> split_at p (root s) = Some (A, R)) ->
  exists o s', __insert_extent_tree alloc_ok e insert_p s = Done (o, s') /\ ext_wf s' /\ no_extent s' = no_extent s /\
    (largest s' = largest s \/ largest s' = e) /\
    match o with
    | Some id => nodes s' = A ++ mk_en id e :: R
    | None => nodes s' = nodes s /\ alloc_ok (ext_seq s) = false
    end.
Proof.
  intros W We Hf Hp. destruct (position_ok s A R e insert_p W We Hf Hp) as (p & Ep & Hsp). destruct Hf as (E & HA & HR).
  unfold __insert_extent_tree. rewrite Ep. cbn [obind]. unfold __attach_extent_node.
  pose proof W as [Ws Wok N Wq Wl Wc Wn]. destruct (alloc_ok (ext_seq s)) eqn:Ea; cbn [fst snd].
  2: { exists None, (s <| ext_seq ::= fun n => n + 1 |>). split; [done|]. split; [|split; [done|split; [by left|done]]].
       split; try done. intros x Hx. cbn. specialize (Wq x Hx). lia. }
  set (id := ext_seq s) in *. set (n := mk_en id e).
  set (s1 := s <| ext_seq ::= _ |> <| root ::= _ |> <| node_cnt ::= _ |> <| total_ext_node ::= _ |>).
  assert (nodes s1 = A ++ n :: R) as E1.
  { unfold nodes. cbn. rewrite inorder_insert_color. by apply (split_at_inorder _ _ _ _ Hsp). }
  assert (List.find (fun x => en_id x =? id) (nodes s1) = Some n) as Hfind.
  { rewrite E1. assert (forall y, y ∈ A -> en_id y <> id) as Ha by (intros y Hy; enough (en_id y < id) by lia; apply Wq; rewrite E; apply elem_of_app; by left).
    clear - Ha. induction A as [|a A' IH]; cbn [app List.find]; [by rewrite Z.eqb_refl|].
    destruct (Z.eqb_spec (en_id a) id); [by destruct (Ha a ltac:(by left))|]. apply IH. intros y Hy. apply Ha. by right. }
  set (s2 := __try_update_largest_extent id s1).
  assert (root s2 = root s1 /\ no_extent s2 = no_extent s1 /\ (largest s2 = largest s1 \/ largest s2 = e) /\
    ext_seq s2 = id + 1 /\ extent_list s2 = extent_list s /\ node_cnt s2 = node_cnt s1) as (Er & Hne & Hlg & Hsq & Hli & Hcn).
  { subst s2. unfold __try_update_largest_extent, get_node. rewrite Hfind.
    destruct (_ <? _); cbn [root no_extent largest ext_seq extent_list node_cnt upd];
      do 2 (split; [done|]); (split; [by (left + right)|done]). }
  assert (nodes s2 = A ++ n :: R) as E2 by (unfold nodes; rewrite Er; exact E1).
  set (s3 := (list_add_tail id s2) <| cached_en := Some id |>). assert (nodes s3 = A ++ n :: R) as E3 by exact E2.
  exists (Some id), s3. split; [done|]. split; [|split; [done|split; [done|exact E3]]].
  assert (forall y, y ∈ A ++ n :: R -> y = n \/ y ∈ nodes s) as Hin.
  { intros y [Hy|[->|Hy]%elem_of_cons]%elem_of_app; [right|by left|right]; rewrite E; apply elem_of_app; auto. }
  split; rewrite ?E3.
  - apply sorted_insert; [by rewrite <- E|done|done].
  - intros y Hy. destruct (Hin y Hy) as [->|]; [done|by apply Wok].
  - rewrite E in N. rewrite map_app in *. cbn [map]. apply list.NoDup_app in N as (N1 & N2 & N3).
    assert (forall i, i ∈ map en_id (nodes s) -> i <> id) as Hfresh by (intros i (y & -> & Hy)%list_elem_of_fmap_1; specialize (Wq y Hy); lia).
    rewrite E, map_app in Hfresh. apply list.NoDup_app. split; [done|]. split.
    + intros i Hi [->|Hr]%elem_of_cons; [by apply (Hfresh id); [apply elem_of_app; left|]|by apply (N2 i)].
    + apply list.NoDup_cons. split; [|done]. intros Hr. by apply (Hfresh id); [apply elem_of_app; right|].
  - intros y Hy. change (en_id y < ext_seq s2). rewrite Hsq. destruct (Hin y Hy) as [->|Hy']; [cbn; lia|]. specialize (Wq y Hy'). lia.
  - intros y Hy. change (en_id y ∈ extent_list s2 ++ [id]). rewrite Hli. apply elem_of_app.
    destruct (Hin y Hy) as [->|Hy']; [right; by left|left; by apply Wl].
  - intros i [= <-]. rewrite map_app. apply elem_of_app. right. by left.
  - change (node_cnt s2 = s32 (Z.of_nat (length (A ++ n :: R)))). rewrite Hcn. change (node_cnt s1) with (s32 (node_cnt s + 1)).
    rewrite Wn, E, s32_add, !length_app. cbn [length]. f_equal. lia.
Qed.

(** ** Cutting a range out of the tree *)

Section cutting.
Context (M : Z -> Z) (pos last : Z) (Hpos : 0 <= pos < last) (Hlast : last < 4294967296).

Definition outside (i : Z) : Prop := i < pos \/ last <= i.
Record loop_ok (A R : list extent_node) (v : inval) : Prop := {
  lp_wf : ext_wf (iv_s v);
  lp_nodes : nodes (iv_s v) = A ++ R;
  lp_before x : x ∈ A -> ends (ei x) <= pos;
  lp_behind x : x ∈ R -> pos < ends (ei x);
  lp_agrees x : x ∈ nodes (iv_s v) -> agrees M outside (ei x);
  lp_largest : largest_ok M (largest (iv_s v));
  lp_prev : iv_prev v = None \/ iv_prev v = id_of (head (rev A));
  lp_next : iv_next v = id_of (head R) \/ exists x, head R = Some x /\ fofs (ei x) < last;
  lp_insert p : iv_insert v = Some p -> split_at p (root (iv_s v)) = Some (A, R) /\ forall x, x ∈ R -> pos <= fofs (ei x);
}.

Lemma head_rev_app (l : list extent_node) x : head (rev (l ++ [x])) = Some x.
Proof. by rewrite rev_app_distr. Qed.
Lemma agrees_part e e' : agrees M outside e -> fofs e <= fofs e' -> ends e' <= ends e -> blk e' = blk e + (fofs e' - fofs e) ->
  agrees M outside e'.
Proof. intros Ha H1 H2 H3 i Hi Ho. rewrite (Ha i) by (lia || done). lia. Qed.
Lemma agrees_all e : agrees M outside e -> (forall i, fofs e <= i < ends e -> outside i) -> agrees M (fun _ => True) e.
Proof. intros Ha Ho i Hi _. apply Ha; [done|by apply Ho]. Qed.

Section one_cut.
Context (A : list extent_node) (x : extent_node) (R : list extent_node) (v : inval).
Context (V : loop_ok A (x :: R) v) (Hx : fofs (ei x) < last).
#[local] Abbreviation left_cond := ((fofs (ei x) <? pos) && (F2FS_MIN_EXTENT_LEN <=? u32 (pos - fofs (ei x)))).
#[local] Abbreviation right_cond := ((last <? ends (ei x)) && (F2FS_MIN_EXTENT_LEN <=? u32 (ends (ei x) - last))).
Definition left_part : extent_info := mk_ei (fofs (ei x)) (pos - fofs (ei x)) (blk (ei x)).
Definition right_part : extent_info := mk_ei last (ends (ei x) - last) (blk (ei x) + (last - fofs (ei x))).

Lemma cut_facts :
  ei_ok (ei x) /\ pos < ends (ei x) /\ ends (ei x) < 4294967296 /\ agrees M outside (ei x) /\
  (forall y, y ∈ A -> ends (ei y) <= pos /\ ends (ei y) <= fofs (ei x)) /\
  (forall y, y ∈ R -> ends (ei x) <= fofs (ei y) /\ pos < ends (ei y)).
Proof.
  destruct V as [W E HA HR Hag _ _ _ _]. pose proof (ew_sorted _ W) as Ws. rewrite E in Ws.
  apply sorted_app in Ws as (_ & (Fx & _) & Har). rewrite list.Forall_forall in Fx.
  assert (x ∈ nodes (iv_s v)) as Hin by (rewrite E; apply elem_of_app; right; by left).
  pose proof (ew_ok _ W x Hin) as Wx. split; [done|]. split; [apply HR; by left|]. split; [apply Wx|]. split; [by apply Hag|].
  split; intros y Hy; (split; [|]); try (by apply HA); try (apply HR; by right); [by apply Har; [|left]|by apply Fx].
Qed.

(** The state after a cut that leaves [A'] before and [R'] behind. *)
Lemma cut_done s' A' R' next ins :
  ext_wf s' -> nodes s' = A' ++ R' -> largest_ok M (largest s') ->
  (forall y, y ∈ A' -> y ∈ A \/ ei y = left_part /\ fofs (ei x) < pos) ->
  (forall y, y ∈ R' -> y ∈ R \/ ei y = right_part /\ last < ends (ei x)) ->
  (forall p, ins = Some p -> split_at p (root s') = Some (A', R') /\ forall y, y ∈ R' -> pos <= fofs (ei y)) ->
  forall prev, prev = None \/ prev = id_of (head (rev A')) -> next = id_of (head R') ->
  loop_ok A' R' (mk_inval prev next (ei x) ins s').
Proof.
  intros W' E' L' HA' HR' Hins prev Hprev Hnext. destruct cut_facts as (Wx & Hpe & He & Hag & HA & HR).
  destruct V as [W E _ _ Hag' _ _ _ _].
  assert (forall y, y ∈ A ++ R -> agrees M outside (ei y)) as Hold.
  { intros y Hy. apply Hag'. rewrite E. apply elem_of_app in Hy as [Hy|Hy]; apply elem_of_app; [by left|right; by right]. }
  assert (ends left_part = pos /\ ends right_part = ends (ei x)) as [El Er]
    by (unfold ends, left_part, right_part; cbn; unfold ends; lia).
  split; cbn [iv_s iv_prev iv_next iv_dei iv_insert]; try done.
  - intros y Hy. destruct (HA' y Hy) as [Hy'|[-> _]]; [by apply HA|lia].
  - intros y Hy. destruct (HR' y Hy) as [Hy'|[-> _]]; [by apply HR|lia].
  - intros y. rewrite E'. intros [Hy|Hy]%elem_of_app.
    + destruct (HA' y Hy) as [Hy'|[-> ?]]; [apply Hold, elem_of_app; by left|]. apply (agrees_part (ei x)); [done|cbn; lia|lia|cbn; lia].
    + destruct (HR' y Hy) as [Hy'|[-> ?]]; [apply Hold, elem_of_app; by right|]. apply (agrees_part (ei x)); [done|cbn; lia|lia|cbn; lia].
  - by left.
Qed.

Definition cut_result : Prop :=
  exists prev next parts s' A' R', cut_extent alloc_ok pos last x (iv_prev v) (iv_s v) = Done (prev, next, parts, s') /\
    loop_ok A' R' (mk_inval prev next (ei x) (if parts =? 1 then iv_insert v else None) s') /\ next = id_of (head R') /\
    no_extent s' = no_extent (iv_s v) /\ (R' = R \/ exists y, head R' = Some y /\ last <= fofs (ei y)).

Lemma left_ok : left_cond = true ->
  let s1 := set_ei (en_id x) (fun i => i <| len := u32 (pos - fofs i) |>) (iv_s v) in
  ei_ok left_part /\ fofs (ei x) < pos /\ ext_wf s1 /\ nodes s1 = A ++ mk_en (en_id x) left_part :: R /\ agrees M (fun _ => True) left_part.
Proof.
  intros [Hl _]%andb_true_iff. apply Z.ltb_lt in Hl. destruct cut_facts as (Wx & Hpe & He & Hag & HA & HR). pose proof V as [W E _ _ _ _ _ _ _].
  assert (ends left_part = pos) as El by (unfold ends, left_part; cbn; lia).
  assert ((ei x) <| len := u32 (pos - fofs (ei x)) |> = left_part) as Ee by (destruct Wx; unfold left_part; rewrite u32_id by lia; by destruct (ei x)).
  assert (ei_ok left_part) as Wl by (destruct Wx; split; try rewrite El; unfold ends in *; cbn; lia).
  destruct (set_ei_ok (iv_s v) A x R (fun i => i <| len := u32 (pos - fofs i) |>) W E) as [W1 E1]; rewrite ?Ee; try done.
  - intros y Hy. destruct (HA y Hy). done.
  - intros y Hy. destruct (HR y Hy). lia.
  - rewrite Ee in E1. split; [done|]. split; [done|]. split; [done|]. split; [done|]. apply agrees_all.
    + apply (agrees_part (ei x)); [done|cbn; lia|lia|cbn; lia].
    + intros i Hi. left. lia.
Qed.
Lemma right_ok : right_cond = true -> ei_ok right_part /\ last < ends (ei x) /\ agrees M (fun _ => True) right_part /\
  mk_ei last (u32 (ends (ei x) - last)) (u32 (last - fofs (ei x) + blk (ei x))) = right_part.
Proof.
  intros [Hl _]%andb_true_iff. apply Z.ltb_lt in Hl. destruct cut_facts as (Wx & Hpe & He & Hag & HA & HR).
  assert (ends right_part = ends (ei x)) as El by (unfold right_part; unfold ends at 1; cbn; lia). pose proof Wx as [].
  split; [split; try rewrite El; unfold ends in *; cbn; unfold ends; lia|]. split; [done|]. split.
  - apply agrees_all; [apply (agrees_part (ei x)); [done|cbn; lia|lia|cbn; lia]|]. intros i Hi. right. unfold right_part in Hi. cbn in Hi. lia.
  - unfold right_part. unfold ends in *. rewrite !u32_id by lia. f_equal. lia.
Qed.

Lemma cut_none : left_cond = false -> right_cond = false -> cut_result.
Proof.
  intros El Er. destruct cut_facts as (Wx & Hpe & He & Hag & HA & HR). pose proof V as [W E _ _ _ Lg Hprev _ _].
  unfold cut_result, cut_extent. rewrite (ends_u32 _ Wx), El, Er. replace (ends (ei x) <=? pos) with false by lia. cbn [obind fst snd Z.b2z Z.add].
  cbn [Z.eqb negb]. pose proof (ew_nodup _ W) as N. rewrite E in N.
  destruct (release_ok (iv_s v) A x R W E) as (s' & -> & W' & E' & Lg' & Hn & _). cbn [obind].
  assert (id_of (rb_next (root (iv_s v)) (en_id x)) = id_of (head R)) as -> by (unfold rb_next; fold (nodes (iv_s v)); rewrite E; by rewrite next_at).
  eexists _, _, _, s', A, R. split; [reflexivity|]. split; [|split; [done|split; [done|by left]]].
  apply cut_done; try done; [by rewrite Lg'|by left|by left].
Qed.

Lemma cut_left : left_cond = true -> right_cond = false -> cut_result.
Proof.
  intros El Er. destruct cut_facts as (Wx & Hpe & He & Hag & HA & HR). pose proof V as [W E _ _ _ Lg _ _ Hins].
  destruct (left_ok El) as (Wl & Hlt & W1 & E1 & Hal). set (x1 := mk_en (en_id x) left_part) in *.
  unfold cut_result, cut_extent. rewrite (ends_u32 _ Wx), El, Er. replace (ends (ei x) <=? pos) with false by lia. cbn [obind fst snd Z.b2z Z.add Z.eqb negb].
  set (s1 := set_ei _ _ _) in *. pose proof (ew_nodup _ W1) as N. rewrite E1 in N.
  assert (id_of (rb_next (root s1) (en_id x)) = id_of (head R)) as ->
    by (unfold rb_next; fold (nodes s1); rewrite E1; f_equal; exact (next_at A x1 R N)).
  destruct (update_largest_ok s1 A x1 R W1 E1) as (W2 & Er2 & Hlg & Hn & _). change (en_id x1) with (en_id x) in *.
  set (s2 := __try_update_largest_extent (en_id x) s1) in *.
  assert (nodes s2 = (A ++ [x1]) ++ R) as E2 by (unfold nodes; rewrite Er2; fold (nodes s1); by rewrite E1, <- app_assoc).
  eexists _, _, _, s2, (A ++ [x1]), R. split; [reflexivity|]. split; [|split; [done|split; [exact Hn|by left]]].
  apply cut_done; try done.
  - by apply (largest_update M s1 s2 x1).
  - intros y [Hy|Hy]%elem_of_app; [by left|apply list_elem_of_singleton in Hy as ->; right; by split].
  - by left.
  - intros p Hp. destruct (Hins p Hp) as [_ Hf]. specialize (Hf x ltac:(by left)). lia.
  - right. by rewrite head_rev_app.
Qed.

Lemma cut_right : left_cond = false -> right_cond = true -> cut_result.
Proof.
  intros El Er. destruct cut_facts as (Wx & Hpe & He & Hag & HA & HR). pose proof V as [W E _ _ _ Lg Hprev _ Hins].
  destruct (right_ok Er) as (Wr & Hlt & Har & _).
  unfold cut_result, cut_extent. rewrite (ends_u32 _ Wx), El, Er. replace (ends (ei x) <=? pos) with false by lia. cbn [obind fst snd Z.b2z Z.add Z.eqb Pos.eqb negb].
  set (f := fun i => mk_ei last _ _). set (s1 := set_ei (en_id x) f _).
  assert (f (ei x) = right_part) as Ef.
  { subst f. unfold right_part. cbv beta. pose proof Wx as []. unfold ends in *. rewrite (u32_id (last - _)) by lia. rewrite !u32_id by lia. f_equal; lia. }
  destruct (set_ei_ok (iv_s v) A x R f W E) as [W1 E1]; rewrite ?Ef; try done.
  { intros y Hy. destruct (HA y Hy). cbn. lia. }
  { intros y Hy. destruct (HR y Hy). unfold right_part. unfold ends at 1. cbn. lia. }
  fold s1 in W1, E1. rewrite Ef in E1. set (x1 := mk_en (en_id x) right_part) in *.
  destruct (update_largest_ok s1 A x1 R W1 E1) as (W2 & Er2 & Hlg & Hn & _). change (en_id x1) with (en_id x) in *.
  set (s2 := __try_update_largest_extent (en_id x) s1) in *.
  assert (nodes s2 = A ++ x1 :: R) as E2 by (unfold nodes; rewrite Er2; exact E1).
  eexists _, _, _, s2, A, (x1 :: R). split; [reflexivity|]. split; [|split; [done|split; [exact Hn|right; exists x1; by split]]].
  apply cut_done; try done.
  - by apply (largest_update M s1 s2 x1).
  - by left.
  - intros y [->|Hy]%elem_of_cons; [right; by split|by left].
  - intros p Hp. destruct (Hins p Hp) as [Hsp Hf]. rewrite Er2. apply (split_at_tmap (on_node (en_id x) f)) in Hsp.
    assert (map (on_node (en_id x) f) A ++ map (on_node (en_id x) f) (x :: R) = A ++ x1 :: R) as Em
      by (rewrite <- map_app, <- E1, <- E; symmetry; apply nodes_set_ei).
    apply app_inj_1 in Em as [EA ER]; [|apply length_map]. rewrite EA, ER in Hsp. split; [exact Hsp|].
    intros y [->|Hy]%elem_of_cons; [cbn; lia|]. apply Hf. by right.
Qed.

Lemma cut_both : left_cond = true -> right_cond = true -> cut_result.
Proof.
  intros El Er. destruct cut_facts as (Wx & Hpe & He & Hag & HA & HR). pose proof V as [W E _ _ _ Lg _ _ _].
  destruct (left_ok El) as (Wl & Hlt & W1 & E1 & Hal). destruct (right_ok Er) as (Wr & Hlt2 & Har & Ee).
  set (x1 := mk_en (en_id x) left_part) in *.
  unfold cut_result, cut_extent. rewrite (ends_u32 _ Wx), El, Er. replace (ends (ei x) <=? pos) with false by lia. rewrite Ee.
  set (s1 := set_ei _ _ _) in *.
  assert (fits s1 (A ++ [x1]) R right_part) as Hfit.
  { split; [by rewrite <- app_assoc|]. unfold left_part, right_part, ends in *. cbn in *. split.
    - intros y [Hy|Hy]%elem_of_app; [destruct (HA y Hy); lia|apply list_elem_of_singleton in Hy as ->; cbn; lia].
    - intros y Hy. destruct (HR y Hy). lia. }
  destruct (insert_ok s1 (A ++ [x1]) R right_part None W1 Wr Hfit ltac:(done)) as (o & s2 & -> & W2 & Hn2 & Hlg2 & Ho).
  cbn [obind fst snd Z.b2z Z.add Z.eqb Pos.eqb Pos.add Pos.succ negb].
  set (R2 := match o with Some id => mk_en id right_part :: R | None => R end).
  assert (nodes s2 = A ++ x1 :: R2) as E2.
  { subst R2. destruct o as [id|]; [by rewrite Ho, <- app_assoc|]. destruct Ho as [-> _]. exact E1. }
  assert (match o with Some n => Some n | None => id_of (rb_next (root s2) (en_id x)) end = id_of (head R2)) as ->.
  { subst R2. destruct o as [id|]; [done|]. unfold rb_next. fold (nodes s2). rewrite E2.
    pose proof (ew_nodup _ W2) as N. rewrite E2 in N. f_equal. exact (next_at A x1 R N). }
  destruct (update_largest_ok s2 A x1 R2 W2 E2) as (W3 & Er3 & Hlg3 & Hn3 & _). change (en_id x1) with (en_id x) in *.
  set (s3 := __try_update_largest_extent (en_id x) s2) in *.
  assert (nodes s3 = (A ++ [x1]) ++ R2) as E3 by (unfold nodes; rewrite Er3; fold (nodes s2); by rewrite E2, <- app_assoc).
  eexists _, _, _, s3, (A ++ [x1]), R2. split; [reflexivity|]. split; [|split; [done|split; [by rewrite Hn3, Hn2|]]].
  2: { subst R2. destruct o as [id|]; [right|by left]. by exists (mk_en id right_part). }
  apply cut_done; try done.
  - apply (largest_update M s2 s3 x1); [|done..]. by apply (largest_update M s1 s2 (mk_en 0 right_part)).
  - intros y [Hy|Hy]%elem_of_app; [by left|apply list_elem_of_singleton in Hy as ->; right; by split].
  - subst R2. intros y Hy. destruct o as [id|]; [|by left]. apply elem_of_cons in Hy as [->|Hy]; [right; by split|by left].
  - right. by rewrite head_rev_app.
Qed.
Lemma cut_ok : cut_result.
Proof.
  destruct left_cond eqn:El, right_cond eqn:Er; [by apply cut_both|by apply cut_left|by apply cut_right|by apply cut_none].
Qed.
End one_cut.

Lemma invalidate_ok k A R v :
  loop_ok A R v -> (length R < k)%nat ->
  exists v' A' R', invalidate alloc_ok k pos last (id_of (head R)) v = Done v' /\ loop_ok A' R' v' /\
    iv_next v' = id_of (head R') /\ no_extent (iv_s v') = no_extent (iv_s v) /\ forall x, x ∈ R' -> last <= fofs (ei x).
Proof.
  assert (forall k A R v, loop_ok A R v -> (forall x, head R = Some x -> last <= fofs (ei x)) ->
    exists v' A' R', invalidate alloc_ok (S k) pos last (id_of (head R)) v = Done v' /\ loop_ok A' R' v' /\
    iv_next v' = id_of (head R') /\ no_extent (iv_s v') = no_extent (iv_s v) /\ forall x, x ∈ R' -> last <= fofs (ei x)) as Hstop.
  { clear k A R v. intros k A R v V Hh. exists v, A, R. pose proof V as [W E _ _ _ _ _ Hnx _].
    pose proof (ew_sorted _ W) as Ws. rewrite E in Ws. apply sorted_app in Ws as (_ & Wr & _). split.
    - cbn [invalidate]. destruct R as [|x R]; cbn [head id_of deref]; [done|].
      rewrite (get_node_at _ A x R) by done. specialize (Hh x eq_refl). by replace (fofs (ei x) <? last) with false by lia.
    - split; [done|]. split; [destruct Hnx as [?|(x & Hx & Hlt)]; [done|specialize (Hh x Hx); lia]|]. split; [done|].
      intros y Hy. destruct R as [|x R]; [by apply not_elem_of_nil in Hy|]. specialize (Hh x eq_refl). apply elem_of_cons in Hy as [->|Hy]; [done|].
      destruct Wr as [Fx _]. rewrite list.Forall_forall in Fx. specialize (Fx y Hy). unfold apart in Fx.
      destruct (ew_ok _ W x) as [_ Hl _ _ _]; [rewrite E; apply elem_of_app; right; by left|]. unfold ends in *. lia. }
  revert A R v. induction k as [|k IH]; intros A R v V Hk; [lia|].
  destruct R as [|x R]; [apply (Hstop k A [] v V); by intros ? [=]|].
  destruct (Z.ltb_spec (fofs (ei x)) last) as [Hlt|Hge]; [|apply (Hstop k A (x :: R) v V); by intros ? [= <-]].
  cbn [invalidate head id_of deref]. rewrite (get_node_at _ A x R) by apply V. replace (fofs (ei x) <? last) with true by lia.
  destruct (cut_ok A x R v V Hlt) as (prev & next & parts & s' & A' & R' & -> & V' & -> & Hn & HR). cbn [obind].
  set (v1 := mk_inval _ _ _ _ _) in *. cbn [length] in Hk. destruct k as [|k]; [lia|].
  assert (exists v' A'' R'', invalidate alloc_ok (S k) pos last (id_of (head R')) v1 = Done v' /\ loop_ok A'' R'' v' /\
    iv_next v' = id_of (head R'') /\ no_extent (iv_s v') = no_extent (iv_s v1) /\ forall y, y ∈ R'' -> last <= fofs (ei y))
    as (v' & A'' & R'' & E & V'' & Hnx & Hne & Hall).
  { destruct HR as [->|(y & Hy & Hly)]; [apply (IH A' R v1 V'); lia|]. apply (Hstop k A' R' v1 V'). intros z Hz. by replace z with y by congruence. }
  exists v', A'', R''. split; [done|]. split; [done|]. split; [done|]. split; [|done]. by rewrite Hne.
Qed.
End cutting.

(** ** Adding the new run *)

Lemma mergeable_spec a b : ei_ok a -> __is_extent_mergeable a b = true -> ends a = fofs b /\ blk a + len a = blk b.
Proof.
  intros W Hm. pose proof W as []. unfold __is_extent_mergeable in Hm. rewrite (ends_u32 a W) in Hm. rewrite u32_id in Hm by lia. lia.
Qed.
(** Two runs that are one. *)
Definition joined (a b : extent_info) : extent_info := mk_ei (fofs a) (len a + len b) (blk a).
Lemma joined_ok M a b : ei_ok a -> ei_ok b -> ends a = fofs b -> blk a + len a = blk b ->
  agrees M (fun _ => True) a -> agrees M (fun _ => True) b ->
  ei_ok (joined a b) /\ ends (joined a b) = ends b /\ agrees M (fun _ => True) (joined a b) /\ u32 (len a + len b) = len a + len b.
Proof.
  intros [] [] E1 E2 Ha Hb. unfold ends, joined in *. cbn. split; [split; unfold ends; cbn; lia|]. split; [lia|]. split; [|apply u32_id; lia].
  intros i Hi _. unfold ends in *. cbn in *. destruct (decide (i < fofs b)).
  - apply Ha; [unfold ends; lia|done].
  - rewrite (Hb i) by (unfold ends; lia || done). lia.
Qed.
Lemma ext_wf_same s s' : ext_wf s -> nodes s' = nodes s -> ext_seq s' = ext_seq s -> extent_list s' = extent_list s ->
  cached_en s' = cached_en s -> node_cnt s' = node_cnt s -> ext_wf s'.
Proof. intros [] E1 E2 E3 E4 E5. split; rewrite ?E1, ?E2, ?E3, ?E4, ?E5; done. Qed.

Section add_run.
Context (M : Z -> Z) (s : ext_cache) (A R : list extent_node) (e : extent_info).
Context (K : ext_sound M s) (Hf : fits s A R e) (We : ei_ok e) (He : agrees M (fun _ => True) e).

Definition added (s' : ext_cache) : Prop :=
  ext_sound M s' /\ no_extent s' = no_extent s /\ exists y, y ∈ nodes s' /\ fofs (ei y) <= fofs e /\ ends e <= ends (ei y).

(** A node of [s2] that now holds a run around [e]. *)
Lemma merged_added s2 A2 y R2 :
  ext_wf s2 -> nodes s2 = A2 ++ y :: R2 -> (forall z, z ∈ A2 ++ R2 -> z ∈ nodes s) ->
  ei_ok (ei y) -> agrees M (fun _ => True) (ei y) -> fofs (ei y) <= fofs e -> ends e <= ends (ei y) ->
  largest s2 = largest s -> no_extent s2 = no_extent s -> added (snd (merge_done (en_id y) s2)) /\ fst (merge_done (en_id y) s2) = Some (en_id y).
Proof.
  intros W2 E2 Hin Wy Hy H1 H2 Hl Hn. destruct (merge_done_ok s2 A2 y R2 W2 E2) as (Ef & W3 & E3 & Hl3 & Hn3).
  set (s3 := snd (merge_done (en_id y) s2)) in *. split; [|done]. split; [|split; [by rewrite Hn3|]].
  - split; [done| |].
    + intros z. rewrite E3, E2. intros [Hz|[->|Hz]%elem_of_cons]%elem_of_app; [|done|]; apply (eo_nodes _ _ K), Hin, elem_of_app; auto.
    + apply (largest_update M s2 s3 y); [rewrite Hl; apply K|done..].
  - exists y. split; [|done]. rewrite E3, E2. apply elem_of_app. right. by left.
Qed.
Lemma node_facts x : x ∈ nodes s -> ei_ok (ei x) /\ agrees M (fun _ => True) (ei x).
Proof. intros Hx. split; [by apply (eo_wf _ _ K)|by apply K]. Qed.

(** The first step of a merge: the run goes into the node before it. *)
Lemma back_ok A' x :
  A = A' ++ [x] -> __is_extent_mergeable (ei x) e = true ->
  let f := fun i => i <| len ::= fun n => u32 (n + len e) |> in
  let x1 := mk_en (en_id x) (joined (ei x) e) in
  f (ei x) = joined (ei x) e /\ ei_ok (joined (ei x) e) /\ agrees M (fun _ => True) (joined (ei x) e) /\ ends (joined (ei x) e) = ends e /\
  fofs (ei x) <= fofs e /\ ext_wf (set_ei (en_id x) f s) /\ nodes (set_ei (en_id x) f s) = A' ++ x1 :: R.
Proof.
  intros EA Hm f x1. destruct Hf as (E & HA & HR). pose proof (eo_wf _ _ K) as W.
  assert (nodes s = A' ++ x :: R) as E' by (rewrite E, EA, <- app_assoc; done).
  destruct (node_facts x) as [Wx Hx]; [rewrite E'; apply elem_of_app; right; by left|].
  destruct (mergeable_spec _ _ Wx Hm) as [H1 H2]. destruct (joined_ok M (ei x) e Wx We H1 H2 Hx He) as (Wj & Ej & Hj & Eu).
  assert (f (ei x) = joined (ei x) e) as Ef by (unfold f, joined; unfold upd; cbn; by rewrite Eu).
  split; [done|]. split; [done|]. split; [done|]. split; [done|]. split; [destruct Wx; unfold ends in *; lia|].
  pose proof (ew_sorted _ W) as Ws. rewrite E' in Ws. apply sorted_app in Ws as (_ & _ & Hax).
  destruct (set_ei_ok s A' x R f W E') as [W1 E1]; rewrite ?Ef; try done.
  - intros y Hy. exact (Hax y x Hy ltac:(by left)).
  - intros y Hy. rewrite Ej. by apply HR.
  - split; [done|]. by rewrite E1, Ef.
Qed.

(** The node behind takes over the run of the node before it, which goes. *)
Lemma release_moved s1 A' x1 y R' f :
  ext_wf s1 -> nodes s1 = A' ++ x1 :: y :: R' -> ei_ok (f (ei y)) -> fofs (f (ei y)) = fofs (ei x1) -> ends (f (ei y)) <= ends (ei y) ->
  exists s3, __release_extent_node (en_id x1) (set_ei (en_id y) f s1) = Done s3 /\ ext_wf s3 /\
    nodes s3 = A' ++ mk_en (en_id y) (f (ei y)) :: R' /\ largest s3 = largest s1 /\ no_extent s3 = no_extent s1.
Proof.
  intros W1 E1 Wf Hf1 Hf2. destruct (release_ok s1 A' x1 (y :: R') W1 E1) as (sr & Er & Wr & Enr & _).
  unfold __release_extent_node in *. change (in_list (set_ei (en_id y) f s1) (en_id x1)) with (in_list s1 (en_id x1)).
  destruct (in_list s1 (en_id x1)); [|done]. injection Er as Er.
  set (s3 := __detach_extent_node _ _). exists s3. split; [done|].
  pose proof (ew_sorted _ W1) as Ws. rewrite E1 in Ws. apply sorted_app in Ws as (_ & (_ & (Fy & _)) & Hax). rewrite list.Forall_forall in Fy.
  destruct (set_ei_ok sr A' y R' f Wr Enr Wf) as [W3 E3].
  { intros z Hz. rewrite Hf1. exact (Hax z x1 Hz ltac:(by left)). }
  { intros z Hz. specialize (Fy z Hz). unfold apart in Fy. lia. }
  assert (nodes s3 = A' ++ mk_en (en_id y) (f (ei y)) :: R') as En3.
  { subst s3. unfold nodes. cbn. rewrite inorder_erase, inorder_tmap. fold (nodes s1). rewrite E1.
    pose proof (ew_nodup _ W1) as N. rewrite E1 in N. pose proof N as N0. change (A' ++ x1 :: y :: R') with (A' ++ [x1] ++ (y :: R')) in N. rewrite app_assoc in N.
    pose proof (map_at (A' ++ [x1]) y R' N f) as Em. rewrite <- !app_assoc in Em. cbn [app] in Em. rewrite Em.
    apply without_at. rewrite <- Em, map_id_on_node. exact N0. }
  split; [|done]. apply (ext_wf_same (set_ei (en_id y) f sr)); [done|by rewrite En3, E3|..]; subst sr; done.
Qed.

Lemma try_merge_ok prev next :
  prev = None \/ prev = id_of (head (rev A)) -> next = id_of (head R) ->
  exists o s', __try_merge_extent_node e prev next s = Done (o, s') /\
    match o with None => s' = s | Some _ => added s' end.
Proof.
  intros Hprev ->. pose proof Hf as (E & HA & HR). pose proof (eo_wf _ _ K) as W.
  set (back := match deref s prev with Some x => if __is_extent_mergeable (ei x) e then Some x else None | None => None end).
  assert (back = None \/ exists A' x, back = Some x /\ A = A' ++ [x] /\ __is_extent_mergeable (ei x) e = true) as Hb.
  { subst back. destruct Hprev as [->| ->]; [by left|]. destruct (rev A) as [|x A'] eqn:EA; [by left|]. cbn [head id_of deref].
    assert (A = rev A' ++ [x]) as EA' by (by rewrite <- (rev_involutive A), EA).
    rewrite (get_node_at s (rev A') x R W) by (by rewrite E, EA', <- app_assoc).
    destruct (__is_extent_mergeable (ei x) e) eqn:Em; [right; by exists (rev A'), x|by left]. }
  unfold __try_merge_extent_node. fold back. destruct Hb as [->|(A' & x & -> & EA & Hm)].
  - destruct R as [|y R'] eqn:ER; cbn [head id_of deref].
    { by exists None, s. }
    rewrite (get_node_at s A y R' W E). destruct (__is_extent_mergeable e (ei y)) eqn:Em; [|by exists None, s].
    destruct (node_facts y) as [Wy Hy]; [rewrite E; apply elem_of_app; right; by left|].
    destruct (mergeable_spec _ _ We Em) as [H1 H2]. destruct (joined_ok M e (ei y) We Wy H1 H2 He Hy) as (Wj & Ej & Hj & Eu).
    set (f := fun i => mk_ei _ _ _). assert (f (ei y) = joined e (ei y)) as Ef by (unfold f, joined; rewrite Z.add_comm, Eu; done).
    pose proof (ew_sorted _ W) as Ws. rewrite E in Ws. apply sorted_app in Ws as (_ & (Fy & _) & _). rewrite list.Forall_forall in Fy.
    destruct (set_ei_ok s A y R' f W E) as [W1 E1]; rewrite ?Ef; try done.
    { intros z Hz. rewrite Ej. by apply Fy. }
    rewrite Ef in E1. cbn [obind].
    destruct (merged_added _ A (mk_en (en_id y) (joined e (ei y))) R' W1 E1) as [Ha Eo]; try done.
    + intros z Hz. rewrite E. apply elem_of_app in Hz as [Hz|Hz]; apply elem_of_app; [by left|right; by right].
    + change (ends e <= ends (joined e (ei y))). rewrite Ej. destruct Wy. unfold ends in *. lia.
    + change (en_id (mk_en (en_id y) (joined e (ei y)))) with (en_id y) in *. exists (Some (en_id y)), (snd (merge_done (en_id y) (set_ei (en_id y) f s))).
      split; [by rewrite <- Eo|done].
  - destruct (back_ok A' x EA Hm) as (Ef & Wj & Hj & Ej & Hle & W1 & E1). set (g := fun i => i <| len ::= fun n => u32 (n + len e) |>) in *.
    set (s1 := set_ei (en_id x) g s) in *. set (x1 := mk_en (en_id x) (joined (ei x) e)) in *.
    rewrite Ef.
    assert (forall z, z ∈ A' ++ R -> z ∈ nodes s) as Hin.
    { intros z Hz. rewrite E, EA, <- app_assoc. apply elem_of_app in Hz as [Hz|Hz]; apply elem_of_app; [by left|right; by right]. }
    destruct R as [|y R'] eqn:ER; cbn [head id_of deref].
    { destruct (merged_added s1 A' x1 [] W1 E1 Hin Wj Hj) as [Ha Eo]; try done.
      - change (ends e <= ends (joined (ei x) e)). lia.
      - exists (Some (en_id x)), (snd (merge_done (en_id x) s1)). by split. }
    assert (nodes s1 = (A' ++ [x1]) ++ y :: R') as E1' by (by rewrite E1, <- app_assoc).
    rewrite (get_node_at s1 (A' ++ [x1]) y R' W1 E1'). destruct (__is_extent_mergeable (joined (ei x) e) (ei y)) eqn:Em2.
    + destruct (node_facts y) as [Wy Hy]; [apply Hin, elem_of_app; right; by left|].
      destruct (mergeable_spec _ _ Wj Em2) as [H1 H2]. destruct (joined_ok M _ _ Wj Wy H1 H2 Hj Hy) as (WJ & EJ & HJ & EuJ).
      set (f := fun i => mk_ei _ _ _). assert (f (ei y) = joined (joined (ei x) e) (ei y)) as Ef2 by (unfold f; rewrite Z.add_comm, EuJ; done).
      destruct (release_moved s1 A' x1 y R' f W1 E1) as (s3 & Er & W3 & E3 & Hl3 & Hn3); rewrite ?Ef2; try done.
      { rewrite EJ. lia. }
      rewrite Ef2 in E3. change (en_id x1) with (en_id x) in Er. rewrite Er. cbn [obind].
      destruct (merged_added s3 A' (mk_en (en_id y) (joined (joined (ei x) e) (ei y))) R' W3 E3) as [Ha Eo]; try done.
      * intros z Hz. apply Hin. apply elem_of_app in Hz as [Hz|Hz]; apply elem_of_app; [by left|right; by right].
      * change (ends e <= ends (joined (joined (ei x) e) (ei y))). rewrite EJ. destruct Wy. unfold ends in *. lia.
      * exists (Some (en_id y)), (snd (merge_done (en_id y) s3)). by split.
    + destruct (merged_added s1 A' x1 (y :: R') W1 E1 Hin Wj Hj) as [Ha Eo]; try done.
      * change (ends e <= ends (joined (ei x) e)). lia.
      * exists (Some (en_id x)), (snd (merge_done (en_id x) s1)). by split.
Qed.
End add_run.

(** ** The whole update *)

Lemma release_all_ok s : ext_wf s ->
  exists s', release_all (map en_id (nodes s)) s = Done s' /\ ext_wf s' /\ nodes s' = [] /\ largest s' = largest s /\
    no_extent s' = no_extent s.
Proof.
  remember (nodes s) as l eqn:E. symmetry in E. revert s E. induction l as [|x l IH]; intros s E W; cbn [map release_all].
  { by exists s. }
  destruct (release_ok s [] x l W E) as (s1 & -> & W1 & E1 & Hl & Hn & _). cbn [obind].
  destruct (IH s1 E1 W1) as (s2 & -> & W2 & E2 & Hl2 & Hn2). exists s2. by rewrite Hl2, Hn2, Hl, Hn.
Qed.
Lemma free_ok M s : ext_wf s -> largest_ok M (largest s) -> len (largest s) = 0 ->
  exists c s', __free_extent_tree s = Done (c, s') /\ ext_ok M s' /\ no_extent s' = no_extent s.
Proof.
  intros W Hl Hz. destruct (release_all_ok s W) as (s' & E & W' & E' & Hl' & Hn').
  unfold __free_extent_tree. rewrite E. cbn [obind]. eexists _, s'. split; [done|]. split; [|done].
  split; [split; [done| |by rewrite Hl']|by rewrite Hl']. intros x. rewrite E'. by intros ?%not_elem_of_nil.
Qed.

Lemma drop_largest_wf ofs n s : ext_wf s -> ext_wf (__drop_largest_extent ofs n s) /\ root (__drop_largest_extent ofs n s) = root s /\
  no_extent (__drop_largest_extent ofs n s) = no_extent s /\ cached_en (__drop_largest_extent ofs n s) = cached_en s.
Proof. intros W. unfold __drop_largest_extent. destruct (_ && _); [|done]. split; [|done]. by apply (ext_wf_same s). Qed.
Lemma drop_largest_ok M M' ofs n s :
  largest_ok M (largest s) -> 0 <= ofs -> 0 < n -> ofs + n < 4294967296 -> (forall i, outside ofs (ofs + n) i -> M' i = M i) ->
  largest_ok M' (largest (__drop_largest_extent ofs n s)).
Proof.
  intros [(Hf & Hl) Hok] Ho Hn Hon Hout. unfold __drop_largest_extent. rewrite u64_id by lia.
  destruct ((ofs <? u32 (fofs (largest s) + len (largest s))) && (fofs (largest s) <? ofs + n)) eqn:E; cbn [largest upd].
  - split; cbn; lia.
  - split; [done|]. intros Hp. destruct (Hok Hp) as [W Ha]. rewrite (ends_u32 _ W) in E. split; [done|]. intros i Hi _.
    rewrite <- (Ha i Hi I). apply Hout. apply andb_false_iff in E as [E|E]; apply Z.ltb_ge in E; [left|right]; lia.
Qed.
Lemma drop_all_largest M s : largest_ok M (largest s) -> len (largest (__drop_largest_extent 0 UINT_MAX s)) = 0 /\
  largest_ok M (largest (__drop_largest_extent 0 UINT_MAX s)).
Proof.
  intros [(Hf & Hl) Hok]. unfold __drop_largest_extent. rewrite u64_id by (unfold UINT_MAX; lia).
  destruct ((0 <? u32 (fofs (largest s) + len (largest s))) && (fofs (largest s) <? 0 + UINT_MAX)) eqn:E; cbn [largest upd].
  - split; [done|]. split; cbn; lia.
  - destruct (decide (0 < len (largest s))) as [Hp|]; [exfalso|split; [lia|split; [done|lia]]].
    destruct (Hok Hp) as [W _]. rewrite (ends_u32 _ W) in E. destruct W. unfold ends, UINT_MAX in *. lia.
Qed.

(** A run of the file, when there is one. *)
Definition run_of (M : Z -> Z) (ofs blkaddr n : Z) : Prop :=
  blkaddr = 0 \/ 0 < blkaddr /\ blkaddr + n < 4294967296 /\ forall i, ofs <= i < ofs + n -> M i = blkaddr + (i - ofs).

Section update.
Context (M M' : Z -> Z) (ofs blkaddr n : Z).
Context (Ho : 0 <= ofs) (Hn : 0 < n) (Hon : ofs + n < 4294967296).
Context (Hout : forall i, outside ofs (ofs + n) i -> M' i = M i) (Hrun : run_of M' ofs blkaddr n).
#[local] Abbreviation stop := (ofs + n).

(** What an update guarantees. *)
Definition updated (s' : ext_cache) : Prop :=
  ext_ok M' s' /\ ((forall id, alloc_ok id = true) -> no_extent s' = false -> blkaddr <> 0 ->
    exists y, y ∈ nodes s' /\ fofs (ei y) <= ofs /\ stop <= ends (ei y)).

(** The state the loop starts from. *)
Lemma update_start s : ext_sound M s ->
  let s0 := __drop_largest_extent ofs n s in
  let r := f2fs_lookup_rb_tree_ret (root s0) (deref s0 (cached_en s0)) ofs false in
  exists A R, loop_ok M' ofs stop A R (mk_inval (id_of (rt_prev r)) (id_of (rt_next r)) (mk_ei 0 0 0) (rt_insert r) s0) /\
    id_of (match rt_entry r with Some x => Some x | None => rt_next r end) = id_of (head R).
Proof.
  intros [W Hag Hl] s0 r. destruct (drop_largest_wf ofs n s W) as (W0 & Er & _ & _). fold s0 in W0, Er.
  destruct (lookup_ret_found s0 ofs W0) as (A & R & [F1 F2 F3 F4 F5 F6 F7]). fold r in F4, F5, F6, F7. exists A, R. split.
  - split; cbn [iv_s iv_prev iv_next iv_insert]; try done.
    + intros x Hx i Hi Hoi. rewrite Hout by done. apply Hag; [|done|done]. unfold nodes in *. by rewrite <- Er.
    + by apply (drop_largest_ok M).
    + destruct F6 as [->| ->]; [by left|by right].
    + destruct (rt_entry r) as [x|]; [right; exists x; destruct (F4 x eq_refl); split; [done|lia]|left; by rewrite F5].
    + intros p Hp. destruct (F7 p Hp) as [Hs Hlt]. split; [done|]. intros x Hx. specialize (Hlt x Hx). lia.
  - destruct (rt_entry r) as [x|]; [by destruct (F4 x eq_refl) as [-> _]|by rewrite F5].
Qed.

(** Adding the run to what the loop leaves. *)
Lemma add_run_ok A R v :
  loop_ok M' ofs stop A R v -> iv_next v = id_of (head R) -> (forall x, x ∈ R -> stop <= fofs (ei x)) -> blkaddr <> 0 ->
  exists m, (m <-- __try_merge_extent_node (mk_ei ofs n blkaddr) (iv_prev v) (iv_next v) (iv_s v) ;;
      match fst m with Some _ => Done m | None => __insert_extent_tree alloc_ok (mk_ei ofs n blkaddr) (iv_insert v) (snd m) end) = Done m /\
    ext_sound M' (snd m) /\ no_extent (snd m) = no_extent (iv_s v) /\
    ((forall id, alloc_ok id = true) -> exists y, y ∈ nodes (snd m) /\ fofs (ei y) <= ofs /\ stop <= ends (ei y)).
Proof.
  intros [W E HA HR Hag Hl Hp Hnx Hi] En HR2 Hb. destruct Hrun as [?|(Hb0 & Htop & Hm)]; [done|].
  set (e := mk_ei ofs n blkaddr). assert (ends e = stop) as Ee by done.
  assert (ei_ok e) as We by (split; try rewrite Ee; cbn; lia).
  assert (agrees M' (fun _ => True) e) as He by (intros i Hr _; apply Hm; rewrite Ee in Hr; cbn in Hr; lia).
  assert (ext_sound M' (iv_s v)) as K.
  { split; [done| |done]. intros x Hx. apply (agrees_all M' ofs stop); [by apply Hag|]. intros i Hr. unfold outside.
    rewrite E in Hx. apply elem_of_app in Hx as [Hx|Hx]; [specialize (HA x Hx)|specialize (HR2 x Hx)]; lia. }
  assert (fits (iv_s v) A R e) as Hf by (split; [done|split; [done|intros y Hy; rewrite Ee; by apply HR2]]).
  destruct (try_merge_ok M' (iv_s v) A R e K Hf We He (iv_prev v) (iv_next v) Hp En) as (o & s1 & -> & Ho1). cbn [obind fst snd].
  destruct o as [id|].
  - destruct Ho1 as (K1 & Hn1 & y & Hy). exists (Some id, s1). split; [done|]. split; [done|]. split; [done|]. intros _. exists y. by rewrite <- Ee.
  - subst s1. destruct (insert_ok (iv_s v) A R e (iv_insert v) W We Hf) as (o & s1 & -> & W1 & Hn1 & Hl1 & Hno); [by intros p Hp'; destruct (Hi p Hp')|].
    exists (o, s1). split; [done|]. cbn [snd]. split; [|split; [done|]].
    + split; [done| |by apply (largest_update M' (iv_s v) s1 (mk_en 0 e))]. intros x Hx. destruct o as [id|].
      * rewrite Hno in Hx. apply elem_of_app in Hx as [Hx|[->|Hx]%elem_of_cons]; [|exact He|]; apply (eo_nodes _ _ K); rewrite E; apply elem_of_app; auto.
      * destruct Hno as [Hno _]. rewrite Hno in Hx. by apply K.
    + intros Hal. destruct o as [id|]; [|by destruct Hno as [_ Hno]; rewrite Hal in Hno]. exists (mk_en id e). split; [|cbn; rewrite Ee; lia].
      rewrite Hno. apply elem_of_app. right. by left.
Qed.

Lemma update_range_ok s : ext_ok M s -> exists s', f2fs_update_extent_tree_range alloc_ok ofs blkaddr n s = Done s' /\ updated s'.
Proof.
  intros [K Hflag]. unfold f2fs_update_extent_tree_range. destruct (no_extent s) eqn:Ene.
  { exists s. split; [done|]. destruct (Hflag eq_refl) as [En Hz]. destruct K as [W Hag [Hr Hl]].
    split; [|intros _ Hf; congruence]. split; [split; [done| |split; [done|lia]]|done]. intros x. rewrite En. by intros ?%not_elem_of_nil. }
  rewrite (u32_id ofs), (u32_id stop) by lia. destruct (drop_largest_wf ofs n s (eo_wf _ _ K)) as (_ & _ & Hne0 & _).
  destruct (update_start s K) as (A & R & V & ->). set (s0 := __drop_largest_extent ofs n s) in *. set (v0 := mk_inval _ _ _ _ _) in *.
  assert (length R < S (S (length (nodes s0))))%nat as Hfuel 
    by (pose proof (lp_nodes _ _ _ _ _ _ V) as EN; change (nodes s0 = A ++ R) in EN; rewrite EN, length_app; lia).
  destruct (invalidate_ok M' ofs stop ltac:(lia) _ A R v0 V Hfuel) as (v & A' & R' & -> & V' & Enx & Hne & HR). cbn [obind].
  change (no_extent (iv_s v) = no_extent s0) in Hne. rewrite Hne0, Ene in Hne.
  destruct (Z.eqb_spec blkaddr 0) as [Hz|Hz]; cbn [negb].
  - cbn [obind]. rewrite Hne. exists (iv_s v). split; [done|]. destruct V' as [W' E' HA' _ Hag' Hl' _ _ _]. split; [|done].
    split; [|congruence]. split; [done| |done]. intros x Hx. apply (agrees_all M' ofs stop); [by apply Hag'|]. intros i Hr. unfold outside.
    rewrite E' in Hx. apply elem_of_app in Hx as [Hx|Hx]; [specialize (HA' x Hx)|specialize (HR x Hx)]; lia.
  - destruct (add_run_ok A' R' v V' Enx HR Hz) as (m & Em & Ks & Hnm & Hcov).
    destruct (__try_merge_extent_node _ _ _ _) as [m1| |]; [|done..]. cbn [obind] in Em |- *. rewrite Em. cbn [obind]. rewrite Hne in Hnm.
    destruct (_ && _ && _); cbn [no_extent upd].
    + set (s1 := __drop_largest_extent 0 UINT_MAX (snd m)). destruct (drop_all_largest M' (snd m) (eo_largest _ _ Ks)) as [Hz1 Hl1]. fold s1 in Hz1, Hl1.
      destruct (drop_largest_wf 0 UINT_MAX (snd m) (eo_wf _ _ Ks)) as (W1 & _). fold s1 in W1.
      destruct (free_ok M' (s1 <| no_extent := true |>)) as (c & s2 & -> & K2 & Hn2); [by apply (ext_wf_same s1)|done|done|].
      exists s2. split; [done|]. split; [done|]. intros _ Hf. by rewrite Hn2 in Hf.
    + rewrite Hnm. exists (snd m). split; [done|]. split; [|intros Hal _ _; by apply Hcov]. split; [done|congruence].
Qed.
End update.

(** ** The other operations *)

Lemma slow_ok s ofs : ext_wf s ->
  match __lookup_rb_tree_slow (root s) ofs with
  | Some x => x ∈ nodes s /\ fofs (ei x) <= ofs < ends (ei x)
  | None => forall x, x ∈ nodes s -> ~ fofs (ei x) <= ofs < ends (ei x)
  end.
Proof.
  intros W. rewrite slow_descend. pose proof (descend_spec (root s) ofs None (ew_sorted _ W) (ew_ok _ W)) as Hd.
  destruct (descend _ _ _) as [x|[p y]].
  - destruct Hd as ((A & R & E) & Hc). split; [|done]. unfold nodes. rewrite E. apply elem_of_app. right. by left.
  - destruct Hd as (A & R & Hsp & HA & HR & _). destruct (split_at_inorder _ _ _ _ Hsp) as [E _]. fold (nodes s) in E.
    intros x. rewrite E. intros [Hx|Hx]%elem_of_app; [specialize (HA x Hx)|specialize (HR x Hx)]; lia.
Qed.
Lemma lookup_ok M s pgofs : ext_sound M s ->
  let r := f2fs_lookup_extent_tree pgofs s in
  ext_sound M (snd r) /\ nodes (snd r) = nodes s /\ largest (snd r) = largest s /\ no_extent (snd r) = no_extent s /\
  (0 <= pgofs < 4294967296 ->
   match fst r with
   | Some e => ei_ok e /\ fofs e <= pgofs < ends e /\ agrees M (fun _ => True) e
   | None => forall x, x ∈ nodes s -> ~ fofs (ei x) <= pgofs < ends (ei x)
   end).
Proof.
  intros K. pose proof K as [W Hag Hl]. unfold f2fs_lookup_extent_tree. destruct (covers (largest s) pgofs) eqn:Ec; cbn [fst snd].
  { do 4 (split; [done|]). intros _. destruct (largest_covers _ _ _ Hl Ec) as (Hp & Wl & Hr). split; [done|]. split; [done|]. by apply Hl. }
  set (q := u32 pgofs).
  set (fast := __lookup_rb_tree_fast (deref s (cached_en s)) q).
  assert (forall x, fast = Some x -> x ∈ nodes s /\ fofs (ei x) <= q < ends (ei x)) as Hfast.
  { intros x Hx. subst fast. unfold __lookup_rb_tree_fast in Hx. destruct (deref s (cached_en s)) as [y|] eqn:Ed; [|done].
    destruct (covers (ei y) q) eqn:Ey; [|done]. injection Hx as ->. unfold deref in Ed. destruct (cached_en s); [|done].
    apply get_node_some in Ed as [_ Hx]. split; [done|]. by apply covers_spec; [apply W|]. }
  pose proof (slow_ok s q W) as Hslow. set (r := f2fs_lookup_rb_tree _ _ _).
  assert (match r with Some x => x ∈ nodes s /\ fofs (ei x) <= q < ends (ei x)
                     | None => forall x, x ∈ nodes s -> ~ fofs (ei x) <= q < ends (ei x) end) as Hr
    by (subst r; unfold f2fs_lookup_rb_tree; fold fast; destruct fast as [x|]; [by apply Hfast|exact Hslow]).
  clearbody r. destruct r as [x|]; cbn [fst snd]; [|do 4 (split; [done|]); intros Hp; subst q; by rewrite u32_id in Hr by done]. destruct Hr as [Hx Hr].
  assert (0 <= pgofs < 4294967296 -> ei_ok (ei x) /\ fofs (ei x) <= pgofs < ends (ei x) /\ agrees M (fun _ => True) (ei x)) as Hres
    by (intros Hp; subst q; rewrite u32_id in Hr by done; split; [by apply W|split; [done|by apply Hag]]).
  destruct (in_list s (en_id x)); [|do 4 (split; [done|]); done]. split; [|do 3 (split; [done|]); done]. split; [|done|done]. destruct W as [Ws Wok N Wq Wl Wc Wn]. split; try done.
  - intros y Hy. specialize (Wl y Hy). change (en_id y ∈ extent_list (list_del (en_id x) s) ++ [en_id x]). apply elem_of_app.
    destruct (decide (en_id y = en_id x)) as [Eq|]; [right; rewrite Eq; by left|left; by apply elem_list_del].
  - intros id [= <-]. change (en_id x ∈ map en_id (nodes s)). by apply (list_elem_of_fmap_2 en_id).
Qed.
Lemma drop_tree_ok M s : ext_ok M s ->
  exists s', f2fs_drop_extent_tree true s = Done s' /\ forall M', ext_ok M' s'.
Proof.
  intros [[W Hag Hl] _]. unfold f2fs_drop_extent_tree. cbn [negb].
  destruct (release_all_ok (s <| no_extent := true |>)) as (s1 & E1 & W1 & En1 & Hl1 & Hn1); [by apply (ext_wf_same s)|].
  unfold __free_extent_tree. rewrite E1. cbn [obind snd]. set (s2 := __drop_largest_extent 0 UINT_MAX s1). exists s2. split; [done|]. intros M'.
  destruct (drop_largest_wf 0 UINT_MAX s1 W1) as (W2 & Er2 & _ & _). fold s2 in W2, Er2.
  assert (largest_ok M (largest s1)) as Hl1' by (rewrite Hl1; exact Hl). destruct (drop_all_largest M s1 Hl1') as [Hz [Hr _]]. fold s2 in Hz, Hr.
  assert (nodes s2 = []) as En2 by (unfold nodes; by rewrite Er2).
  split; [split; [done| |split; [done|lia]]|done]. intros x. rewrite En2. by intros ?%not_elem_of_nil.
Qed.

Lemma ext_ok_same M s s' : ext_ok M s -> ext_wf s' -> (forall x, x ∈ nodes s' -> x ∈ nodes s) -> largest s' = largest s ->
  no_extent s' = no_extent s -> ext_ok M s'.
Proof.
  intros [[W Hag Hl] Hf] W' Hin El En. split; [split; [done| |by rewrite El]|].
  - intros x Hx. by apply Hag, Hin.
  - rewrite En, El. intros Hn. destruct (Hf Hn) as [E Hz]. split; [|done]. destruct (nodes s') as [|x l] eqn:E'; [done|].
    specialize (Hin x ltac:(by left)). rewrite E in Hin. by apply not_elem_of_nil in Hin.
Qed.
Lemma shrink_ok M k trylock s : ext_ok M s -> ext_ok M (snd (shrink_nodes k trylock s)).
Proof.
  revert s. induction k as [|k IH]; intros s K; cbn [shrink_nodes]; [done|]. destruct (extent_list s) as [|id l] eqn:El; [done|].
  assert (id ∈ extent_list s) as Hid by (rewrite El; by left). pose proof (eo_wf _ _ (eo_sound _ _ K)) as W.
  destruct (trylock id); cbn [negb].
  2: { apply IH. apply (ext_ok_same M s); try done. destruct W as [Ws Wok N Wq Wl Wc Wn]. split; try done.
       intros y Hy. specialize (Wl y Hy). change (en_id y ∈ extent_list (list_del id s) ++ [id]). apply elem_of_app.
       destruct (decide (en_id y = id)) as [->|]; [right; by left|left; by apply elem_list_del]. }
  cbn [snd]. apply IH. change (get_node (list_del id s) id) with (get_node s id). destruct (get_node s id) as [x|] eqn:Eg.
  - apply get_node_some in Eg as [<- Hx]. apply list_elem_of_split in Hx as (A & R & E).
    destruct (release_ok s A x R W E) as (s' & Er & W' & E' & Hl & Hn & _). unfold __release_extent_node in Er.
    rewrite (proj2 (in_list_spec s (en_id x)) Hid) in Er. injection Er as ->. apply (ext_ok_same M s); try done.
    intros y. rewrite E', E. intros [Hy|Hy]%elem_of_app; apply elem_of_app; [by left|right; by right].
  - apply (ext_ok_same M s); try done. destruct W as [Ws Wok N Wq Wl Wc Wn]. split; try done.
    intros y Hy. change (en_id y ∈ extent_list (list_del id s)). apply elem_list_del. split; [by apply Wl|]. intros Ey.
    unfold get_node in Eg. pose proof (List.find_none _ _ Eg y) as Hno. cbn beta in Hno. rewrite Ey, Z.eqb_refl in Hno.
    change (y ∈ nodes s) in Hy. apply list_elem_of_In, Hno in Hy. done.
Qed.
End with_tree.

(** ** The life of a cache *)

Section life.
Context `{RbTreeOk} (alloc_ok : Z -> bool).

(** The file [M] (a device address for every block) and its cache. *)
Inductive ext_step : (Z -> Z) * ext_cache -> (Z -> Z) * ext_cache -> Prop :=
| step_update M M' ofs blkaddr n s s' :
    0 <= ofs -> 0 < n -> ofs + n < 4294967296 -> (forall i, outside ofs (ofs + n) i -> M' i = M i) -> run_of M' ofs blkaddr n ->
    f2fs_update_extent_tree_range alloc_ok ofs blkaddr n s = Done s' -> ext_step (M, s) (M', s')
| step_lookup M pgofs s : ext_step (M, s) (M, snd (f2fs_lookup_extent_tree pgofs s))
| step_shrink M k trylock s : ext_step (M, s) (M, snd (shrink_nodes k trylock s))
| step_drop M M' s s' : f2fs_drop_extent_tree true s = Done s' -> ext_step (M, s) (M', s')
| step_init M may i_ext s : (forall e, i_ext = Some e -> len e = 0 \/ ei_ok e /\ agrees M (fun _ => True) e) -> (may = true -> no_extent s = false) ->
    ext_step (M, s) (M, snd (__f2fs_init_extent_tree alloc_ok may i_ext s))
| step_destroy M s c s' : f2fs_destroy_extent_node s = Done (c, s') -> ext_step (M, s) (M, s').

Lemma destroy_ok M s c s' : ext_ok M s -> f2fs_destroy_extent_node s = Done (c, s') -> ext_ok M s'.
Proof.
  intros K. pose proof (eo_wf _ _ (eo_sound _ _ K)) as W. unfold f2fs_destroy_extent_node. destruct (_ =? 0); [by intros [= _ <-]|].
  destruct (release_all_ok s W) as (s1 & E & W1 & E1 & Hl & Hn). unfold __free_extent_tree. rewrite E. cbn [obind].
  intros [= _ <-]. apply (ext_ok_same M s); try done. intros x. rewrite E1. by intros ?%not_elem_of_nil.
Qed.
(** Disjoint runs of 32-bit offsets are fewer than 2^32: the count is exact. *)
Lemma sorted_few l lo : sorted l -> (forall x, x ∈ l -> ei_ok (ei x) /\ lo <= fofs (ei x)) -> lo < 4294967296 ->
  lo + Z.of_nat (length l) < 4294967296.
Proof.
  revert lo. induction l as [|x l IH]; intros lo Hs Hx Hlo; cbn [length]; [lia|]. destruct Hs as [F Hs].
  destruct (Hx x ltac:(by left)) as [[] Hf]. unfold ends in *. specialize (IH (fofs (ei x) + len (ei x)) Hs).
  cut (fofs (ei x) + len (ei x) + Z.of_nat (length l) < 4294967296); [lia|]. apply IH; [|lia].
  intros y Hy. split; [by apply Hx; right|]. rewrite list.Forall_forall in F. by apply F.
Qed.
Lemma node_cnt_zero s : ext_wf s -> node_cnt s = 0 -> root s = Leaf.
Proof.
  intros W E. rewrite (ew_cnt s W) in E. assert (length (nodes s) = 0)%nat as El.
  { pose proof (sorted_few (nodes s) 0 (ew_sorted s W)) as Hl. unfold s32 in E.
    assert (0 + Z.of_nat (length (nodes s)) < 4294967296) by (apply Hl; [|lia]; intros x Hx; split; [|apply eo_fofs]; by apply W).
    rewrite u32_id in E by lia. destruct (Z.ltb_spec (Z.of_nat (length (nodes s))) (2 ^ 31)); lia. }
  unfold nodes in El. destruct (root s) as [|l x r]; [done|]. cbn in El. rewrite length_app in El. cbn in El. lia.
Qed.
Lemma init_ok M may i_ext s : (forall e, i_ext = Some e -> len e = 0 \/ ei_ok e /\ agrees M (fun _ => True) e) ->
  (may = true -> no_extent s = false) -> ext_ok M s -> ext_ok M (snd (__f2fs_init_extent_tree alloc_ok may i_ext s)).
Proof.
  intros He Hmay K. unfold __f2fs_init_extent_tree. destruct may; cbn [negb]; [|by destruct i_ext].
  destruct i_ext as [e|]; [|done]. destruct (Z.eqb_spec (len e) 0) as [|Hl]; [done|].
  destruct (Z.eqb_spec (node_cnt s) 0) as [Ec|]; [|done]. cbn [orb negb].
  destruct (He e eq_refl) as [|[We Hag]]; [done|]. pose proof K as [[W Hn Hlo] Hf].
  assert (nodes s = []) as En by (unfold nodes; by rewrite (node_cnt_zero s W Ec)).
  unfold __attach_extent_node. destruct (alloc_ok (ext_seq s)); cbn [fst snd].
  - set (x := mk_en (ext_seq s) e).
    match goal with |- ext_ok M ?t => assert (nodes t = [x]) as Et by (unfold nodes; cbn; by rewrite inorder_insert_color, (node_cnt_zero s W Ec)) end.
    split; [split; [split|..]|]; rewrite ?Et; cbn; try (intros y ->%list_elem_of_singleton; cbn; try done).
    + split; [by constructor|done].
    + apply NoDup_singleton.
    + lia.
    + apply elem_of_app. right. by left.
    + intros id [= <-]. by left.
    + by rewrite Ec.
    + destruct We. unfold ends in *. split; [lia|]. done.
    + by rewrite (Hmay eq_refl).
  - apply (ext_ok_same M s); try done. split; try apply W. intros y Hy. pose proof (ew_seq s W y Hy). cbn. lia.
Qed.
Lemma step_ok x y : ext_ok (fst x) (snd x) -> ext_step x y -> ext_ok (fst y) (snd y).
Proof.
  intros K St. destruct St as [M M' ofs blkaddr n s s' H1 H2 H3 Hout Hrun E|M pgofs s|M k trylock s|M M' s s' E|M may i_ext s He Hm|M s c s' E]; cbn [fst snd] in *.
  - destruct (update_range_ok alloc_ok M M' ofs blkaddr n H1 H2 H3 Hout Hrun s K) as (s1 & E1 & K1 & _).
    rewrite E1 in E. by injection E as <-.
  - pose proof K as [Ks Hf]. destruct (lookup_ok M s pgofs Ks) as (K1 & En & El & Hn & _). split; [done|].
    unfold nodes in *. rewrite Hn, En, El. exact Hf.
  - by apply shrink_ok.
  - destruct (drop_tree_ok M s K) as (s1 & E1 & K1). rewrite E1 in E. injection E as <-. apply K1.
  - by apply init_ok.
  - by apply (destroy_ok M s c).
Qed.
End life.

(** An inode without cached runs. *)
Definition no_ext : ext_cache := mk_ext Leaf None (mk_ei 0 0 0) 0 false false [] 0 0.
Lemma no_ext_ok M : ext_ok M no_ext.
Proof.
  split; [|done]. split; [|by intros x ?%not_elem_of_nil|split; cbn; lia].
  split; cbn; try done; try (by intros x ?%not_elem_of_nil). constructor.
Qed.

(** ** Properties *)

(** What a hit says, for a block number below 2^32 *)
Lemma lookup_right M s b e : ext_ok M s -> 0 <= b < 4294967296 -> fst (f2fs_lookup_extent_tree b s) = Some e ->
  fofs e <= b < fofs e + len e /\ M b = blk e + (b - fofs e).
Proof.
  intros K Hb E. destruct (lookup_ok M s b (eo_sound _ _ K)) as (_ & _ & _ & _ & Hr). specialize (Hr Hb). rewrite E in Hr.
  destruct Hr as (_ & Hc & Ha). unfold ends in Hc. split; [done|]. by apply Ha.
Qed.
(** A node that covers the block is a hit. *)
Lemma lookup_hits M s b y : ext_ok M s -> 0 <= b < 4294967296 -> y ∈ nodes s -> fofs (ei y) <= b < fofs (ei y) + len (ei y) ->
  exists e, fst (f2fs_lookup_extent_tree b s) = Some e /\ blk e + (b - fofs e) = M b.
Proof.
  intros K Hb Hy Hr. destruct (lookup_ok M s b (eo_sound _ _ K)) as (_ & _ & _ & _ & Hl). specialize (Hl Hb).
  destruct (fst (f2fs_lookup_extent_tree b s)) as [e|] eqn:E; [|exfalso; by apply (Hl y Hy)]. exists e. split; [done|]. symmetry. by apply (lookup_right M s b e).
Qed.

(** C28. Whatever sequence of writes, lookups, evictions by the shrinker, drops
    and releases an inode goes through, in whatever order and whichever node
    allocations fail, a hit in its extent cache for a block number below 2^32 (files end long
    before) is right: the run returned covers the block and gives the address the
    file has for it now. (The tree is searched for the low 32 bits of the number;
    [far_lookup] is what a larger one finds.) *)
Theorem extent_cache_coherent `{RbTreeOk} alloc_ok M0 M s pgofs e s' :
  star (ext_step alloc_ok) (M0, no_ext) (M, s) -> 0 <= pgofs < 4294967296 -> f2fs_lookup_extent_tree pgofs s = (Some e, s') ->
  fofs e <= pgofs < fofs e + len e /\ M pgofs = blk e + (pgofs - fofs e).
Proof.
  intros St Hp El. assert (ext_ok M s) as K.
  { apply (star_invariant (ext_step alloc_ok) (fun x => ext_ok (fst x) (snd x)) (M0, no_ext) (M, s)); [|done|apply no_ext_ok].
    intros x y Kx Sxy. by apply (step_ok alloc_ok x y). }
  apply (lookup_right M s pgofs e K Hp). by rewrite El.
Qed.

(** C29. An update of the extent cache never hits a BUG and ends, and keeps the
    tree ordered, disjoint, counted, listed and true to the file. Unless the
    inode gave up on its cache or an allocation failed, the whole new run is
    cached in one node afterwards, and every block of it is found. *)
Theorem extent_update_spec `{RbTreeOk} alloc_ok M M' ofs blkaddr n s :
  ext_ok M s -> 0 <= ofs -> 0 < n -> ofs + n < 4294967296 ->
  (forall i, i < ofs \/ ofs + n <= i -> M' i = M i) -> run_of M' ofs blkaddr n ->
  exists s', f2fs_update_extent_tree_range alloc_ok ofs blkaddr n s = Done s' /\ ext_ok M' s' /\
    ((forall id, alloc_ok id = true) -> no_extent s' = false -> blkaddr <> 0 ->
     (exists y, y ∈ nodes s' /\ fofs (ei y) <= ofs /\ ofs + n <= fofs (ei y) + len (ei y)) /\
     forall i, ofs <= i < ofs + n -> exists e, fst (f2fs_lookup_extent_tree i s') = Some e /\ blk e + (i - fofs e) = blkaddr + (i - ofs)).
Proof.
  intros K H1 H2 H3 Hout Hrun. destruct (update_range_ok alloc_ok M M' ofs blkaddr n H1 H2 H3 Hout Hrun s K) as (s' & E & K' & Hcov).
  exists s'. split; [done|]. split; [done|]. intros Hal Hne Hb. destruct (Hcov Hal Hne Hb) as (y & Hy & Hyr). split; [by exists y|].
  intros i Hi. unfold ends in Hyr. destruct (lookup_hits M' s' i y K') as (e & Ee & Em); [lia|done|lia|]. exists e. split; [done|].
  destruct Hrun as [?|(_ & _ & Hm)]; [done|]. by rewrite <- (Hm i Hi).
Qed.

(** A cache that is right for a file with NEW_ADDR at a block says nothing of the block. *)
Lemma no_hit M s b : ext_ok M s -> 0 <= b < 4294967296 -> M b = 4294967295 -> fst (f2fs_lookup_extent_tree b s) = None.
Proof.
  intros K Hb Hm. destruct (lookup_ok M s b (eo_sound _ _ K)) as (_ & _ & _ & _ & Hr). specialize (Hr Hb).
  destruct (fst (f2fs_lookup_extent_tree b s)) as [e|]; [|done]. exfalso. destruct Hr as ([_ _ _ _ Ht] & Hc & Ha). unfold ends in Hc. specialize (Ha b Hc I). lia.
Qed.
(** C35. Writing a block through its dnode: with the node offset and the slot that
    get_node_path found for the block, f2fs_update_extent_cache succeeds and leaves the cache
    right for the file with the new address. A reserved or null address makes
    the block a miss; any other address is what a lookup of the block gives, unless the inode gave
    up on its cache or a node could not be allocated. What the cache says of the other blocks is
    still their address (it may forget some of them, [demo_give_up]). *)
Theorem dnode_update_coherent `{RbTreeOk} `{SitFormat} `{NodeFormatOk} alloc_ok i block level o n addr M s :
  NULL_ADDR = 0 -> NEW_ADDR = 4294967295 -> 0 <= addrs_per_inode i <= 1024 -> 0 <= block < 4294967295 ->
  get_node_path i block = (level, o, n) -> 0 <= level -> 0 <= addr <= 4294967295 -> ext_ok M s ->
  exists s', f2fs_update_extent_cache alloc_ok (f2fs_may_extent_tree true true s) i n.[level] o.[level] addr s = Done s' /\
    ext_ok (fun b => if b =? block then addr else M b) s' /\
    (addr = NULL_ADDR \/ addr = NEW_ADDR -> fst (f2fs_lookup_extent_tree block s') = None) /\
    (addr <> NULL_ADDR -> addr <> NEW_ADDR -> (forall id, alloc_ok id = true) -> no_extent s' = false ->
     exists e, fst (f2fs_lookup_extent_tree block s') = Some e /\ blk e + (block - fofs e) = addr) /\
    (forall b e, 0 <= b < 4294967296 -> b <> block -> fst (f2fs_lookup_extent_tree b s') = Some e -> fofs e <= b < fofs e + len e /\ M b = blk e + (b - fofs e)).
Proof.
  intros Hnull Hnew Hi Hb E Hl Ha K. destruct (path_back i block level o n Hi ltac:(lia) E Hl) as (Eb & _).
  set (M' := fun b => if b =? block then addr else M b). unfold f2fs_update_extent_cache, f2fs_may_extent_tree. cbn [negb orb].
  assert (M' block = addr) as Em by (unfold M'; by rewrite Z.eqb_refl).
  enough (exists s', (if negb (negb (no_extent s)) then Done s else f2fs_update_extent_tree_range alloc_ok (u32 (f2fs_start_bidx_of_node n.[level] i + o.[level]))
      (if addr =? NEW_ADDR then NULL_ADDR else addr) 1 s) = Done s' /\ ext_ok M' s' /\
    (addr = NULL_ADDR \/ addr = NEW_ADDR -> ext_ok (fun b => if b =? block then 4294967295 else M b) s') /\
    (addr <> NULL_ADDR -> addr <> NEW_ADDR -> (forall id, alloc_ok id = true) -> no_extent s' = false -> exists y, y ∈ nodes s' /\ fofs (ei y) <= block < fofs (ei y) + len (ei y)))
    as (s' & Es & K' & Kn & Hy).
  { exists s'. split; [by destruct (no_extent s)|]. split; [done|]. split; [|split].
    - intros Hadd. apply (no_hit _ s' block (Kn Hadd)); [lia|]. cbv beta. by rewrite Z.eqb_refl.
    - intros H1' H2' H3' H4'. destruct (Hy H1' H2' H3' H4') as (y & Hin & Hr). rewrite <- Em. apply (lookup_hits M' s' block y K'); [lia|done|done].
    - intros b e Hb' Hne Eb'. destruct (lookup_right M' s' b e K' Hb' Eb') as [Hc Hm]. split; [done|]. rewrite <- Hm. unfold M'. by rewrite (proj2 (Z.eqb_neq b block)). }
  destruct (no_extent s) eqn:Ene; cbn [negb].
  - assert (forall M2, ext_ok M2 s) as Kall.
    { intros M2. pose proof K as [[W Hag Hl0] Hf]. destruct (Hf Ene) as [En Hz]. split; [|done].
      split; [done| |split; [apply Hl0|lia]]. intros x. rewrite En. by intros ?%not_elem_of_nil. }
    exists s. split; [done|]. split; [by apply Kall|]. split; [by intros|]. intros _ _ _ Hf. congruence.
  - rewrite Eb, (u32_id block) by lia. set (blkaddr := if addr =? NEW_ADDR then NULL_ADDR else addr).
    assert (forall x M2, M2 = (fun b => if b =? block then x else M b) -> run_of M2 block blkaddr 1 ->
      exists s', f2fs_update_extent_tree_range alloc_ok block blkaddr 1 s = Done s' /\ updated alloc_ok M2 block blkaddr 1 s') as Hupd.
    { intros x M2 -> Hrun. apply (update_range_ok alloc_ok M); try done; try lia. intros j Hj. unfold outside in Hj. cbv beta. destruct (Z.eqb_spec j block); [lia|done]. }
    destruct (Hupd addr M' eq_refl) as (s' & Es & K' & Hcov).
    { subst blkaddr. destruct (Z.eqb_spec addr NEW_ADDR) as [_|Hn]; [by left|]. destruct (decide (addr = 0)) as [->|]; [by left|]. right.
      split; [lia|]. split; [lia|]. intros j Hj. subst M'. cbv beta. replace (j =? block) with true by lia. lia. }
    exists s'. split; [done|]. split; [done|]. split.
    + intros Hadd. assert (blkaddr = 0) as Hz by (subst blkaddr; destruct (Z.eqb_spec addr NEW_ADDR); [done|]; destruct Hadd; congruence).
      destruct (Hupd 4294967295 _ eq_refl) as (s2 & Es2 & K2 & _); [by left|]. by assert (s2 = s') as -> by congruence.
    + intros Hn0 Hn1 Hal Hne. assert (blkaddr = addr) as Hbl by (subst blkaddr; by destruct (Z.eqb_spec addr NEW_ADDR)).
      destruct (Hcov Hal Hne ltac:(congruence)) as (y & Hy & Hr1 & Hr2). exists y. split; [done|]. unfold ends in *. lia.
Qed.

#[local] Existing Instances plain_rb plain_rb_ok linux_sit linux_node linux_node_ok.
#[local] Abbreviation any_alloc := (fun _ : Z => true).
(** A file of 200 blocks at 10000, and the same after block 100 moved to 500. *)
Definition demo_file (i : Z) : Z := if decide (0 <= i < 200) then 10000 + i else 0.
Definition demo_moved (i : Z) : Z := if decide (i = 100) then 500 else demo_file i.
Definition demo_ext : ext_cache :=
  match f2fs_update_extent_tree_range any_alloc 0 10000 200 no_ext with Done s => s | _ => no_ext end.
Definition demo_split : ext_cache :=
  match f2fs_update_extent_tree_range any_alloc 100 500 1 demo_ext with Done s => s | _ => no_ext end.
(** The moved block splits the run in two and stands between them; the block
    moved back, the three are one again. *)
Example demo_split_ei : map ei (nodes demo_split) = [mk_ei 0 100 10000; mk_ei 100 1 500; mk_ei 101 99 10101] /\
  largest demo_split = mk_ei 0 100 10000 /\
  exists s, f2fs_update_extent_tree_range any_alloc 100 10100 1 demo_split = Done s /\ map ei (nodes s) = [mk_ei 0 200 10000].
Proof. vm_compute. split; [done|]. split; [done|]. by eexists. Qed.
(** A run of fewer than 64 blocks left of a cut is not kept, and a file that has
    never had 64 blocks in a row loses its cache. *)
Example demo_give_up : forall s s', f2fs_update_extent_tree_range any_alloc 0 7000 40 no_ext = Done s ->
  f2fs_update_extent_tree_range any_alloc 10 500 1 s = Done s' -> no_extent s = false /\ no_extent s' = true /\ nodes s' = [].
Proof. intros s s' [= <-]. vm_compute. intros [= <-]. done. Qed.

(** A block number of 2^32 and more is searched by its low bits. *)
Example far_lookup : fst (f2fs_lookup_extent_tree (4294967296 + 150) demo_split) = Some (mk_ei 101 99 10101).
Proof. by vm_compute. Qed.

Lemma demo_run : run_of demo_file 0 10000 200.
Proof. right. split; [lia|]. split; [lia|]. intros i Hi. unfold demo_file. rewrite decide_True by lia. lia. Qed.
Lemma demo_moved_run : run_of demo_moved 100 500 1.
Proof. right. split; [lia|]. split; [lia|]. intros i Hi. unfold demo_moved. rewrite decide_True by lia. lia. Qed.
Lemma demo_moved_out i : i < 100 \/ 101 <= i -> demo_moved i = demo_file i.
Proof. intros Hi. unfold demo_moved. by rewrite decide_False by lia. Qed.
Lemma demo_ext_ok : ext_ok demo_file demo_ext.
Proof.
  destruct (update_range_ok any_alloc (fun _ => 0) demo_file 0 10000 200) with (s := no_ext) as (s & E & K & _); try lia.
  - intros i Hi. unfold outside in Hi. unfold demo_file. by rewrite decide_False by lia.
  - apply demo_run.
  - apply no_ext_ok.
  - unfold demo_ext. by rewrite E.
Qed.

Lemma extent_cache_coherent_witness :
  fst (f2fs_lookup_extent_tree 150 demo_split) = Some (mk_ei 101 99 10101) /\ demo_moved 150 = 10101 + (150 - 101).
Proof.
  split; [by vm_compute|].
  refine (proj2 (@extent_cache_coherent plain_rb plain_rb_ok any_alloc (fun _ => 0) demo_moved demo_split 150 (mk_ei 101 99 10101)
                   (snd (f2fs_lookup_extent_tree 150 demo_split)) _ ltac:(lia) _)).
  - apply (star_step _ _ (demo_file, demo_ext)).
    + apply (step_update _ _ _ 0 10000 200); try lia; [|apply demo_run|by vm_compute].
      intros i Hi. unfold outside in Hi. unfold demo_file. by rewrite decide_False by lia.
    + apply (star_step _ _ (demo_moved, demo_split)); [|apply star_refl].
      apply (step_update _ _ _ 100 500 1); try lia; [|apply demo_moved_run|by vm_compute].
      intros i Hi. unfold outside in Hi. apply demo_moved_out. lia.
  - by vm_compute.
Defined.

Lemma extent_update_spec_witness :
  exists s', f2fs_update_extent_tree_range any_alloc 100 500 1 demo_ext = Done s' /\ ext_ok demo_moved s' /\
    exists e, fst (f2fs_lookup_extent_tree 100 s') = Some e /\ blk e + (100 - fofs e) = 500 + (100 - 100).
Proof.
  destruct (@extent_update_spec plain_rb plain_rb_ok any_alloc demo_file demo_moved 100 500 1 demo_ext demo_ext_ok
              ltac:(lia) ltac:(lia) ltac:(lia) demo_moved_out demo_moved_run) as (s' & E & K & H).
  exists s'. split; [exact E|]. split; [exact K|].
  assert (f2fs_update_extent_tree_range any_alloc 100 500 1 demo_ext = Done demo_split) as E2 by (vm_compute; reflexivity).
  assert (s' = demo_split) as -> by congruence.
  apply (proj2 (H (fun _ => eq_refl) ltac:(vm_compute; reflexivity) ltac:(lia)) 100). lia.
Defined.

Lemma dnode_update_coherent_witness :
  exists s', f2fs_update_extent_cache any_alloc (f2fs_may_extent_tree true true demo_ext) demo_inode 3065 15 500 demo_ext = Done s' /\
    ext_ok (fun b => if b =? 3115000 then 500 else demo_file b) s' /\ exists e, fst (f2fs_lookup_extent_tree 3115000 s') = Some e /\ blk e + (3115000 - fofs e) = 500.
Proof.
  destruct (@dnode_update_coherent plain_rb plain_rb_ok linux_sit linux_node linux_node_ok any_alloc demo_inode 3115000 3
           [928; 1; 3; 15] [0; 2041; 3061; 3065] 500 demo_file demo_ext eq_refl eq_refl demo_inode_ok
           ltac:(lia) demo_path ltac:(lia) ltac:(lia) demo_ext_ok) as (s' & E & K & _ & Hf & _).
  exists s'. split; [exact E|]. split; [exact K|]. apply Hf; [done|done|done|].
  assert (match f2fs_update_extent_cache any_alloc (f2fs_may_extent_tree true true demo_ext) demo_inode 3065 15 500 demo_ext with Done s => no_extent s = false | _ => True end) as Hn
    by (vm_compute; reflexivity).
  change ([0; 2041; 3061; 3065].[3]) with 3065 in E. change ([928; 1; 3; 15].[3]) with 15 in E. by rewrite E in Hn.
Defined.
