(* ===== verification/Dentry.v ===== *)
(** * Directory entries: name hash and dentry blocks ([hash.c], [dir.c], [f2fs.h])

    A dentry block holds a bitmap of slots, an entry and eight name bytes per
    slot; a name of several slots runs over the name bytes of the following
    ones.  The same operations work on the inline area of a small directory,
    through struct f2fs_dentry_ptr.

    A block is specified by the map from slots to the entries that start
    there ([dentries_ok]). *)
From stdpp Require Import gmap.
From S2P Require Import Prelude.
Open Scope Z_scope.

(** File types, with their encodings in st_mode (S_IFREG >> S_SHIFT and so on),
    in the directory (F2FS_FT_REG_FILE, ...) and for the VFS (DT_REG, ...), and
    the constants of [<linux/f2fs_fs.h>]. *)
Inductive ftype := FT_REG | FT_DIR | FT_CHR | FT_BLK | FT_FIFO | FT_SOCK | FT_LNK.
#[export] Instance ftype_eq_dec : EqDecision ftype.
Proof. solve_decision. Defined.
Definition ftypes : list ftype := [FT_REG; FT_DIR; FT_CHR; FT_BLK; FT_FIFO; FT_SOCK; FT_LNK].
Class DirFormat := {
  S_IF : ftype -> Z;
  F2FS_FT : ftype -> Z;
  DT : ftype -> Z;
  F2FS_FT_MAX : Z;
  NR_DENTRY_IN_BLOCK : Z;
  F2FS_SLOT_LEN : Z;
  GET_DENTRY_SLOTS : Z -> Z;
  SIZE_OF_DENTRY_BITMAP : Z;
  SIZE_OF_DIR_ENTRY : Z;
  F2FS_NAME_LEN : Z;
  F2FS_HASH_COL_BIT : Z;
  MAX_DIR_HASH_DEPTH : Z;
  MAX_DIR_BUCKETS : Z;
}.
Class DirFormatOk `{DirFormat} : Prop := {
  s_if_inj t u : S_IF t = S_IF u -> t = u;
  s_if_range t : 0 < S_IF t < 16;
  dt_s_if t : DT t = S_IF t;
  ft_inj t u : F2FS_FT t = F2FS_FT u -> t = u;
  ft_range t : 0 < F2FS_FT t < F2FS_FT_MAX;
  ft_byte : F2FS_FT_MAX <= 256;
  nr_dentry_range : 2 <= NR_DENTRY_IN_BLOCK <= 256;
  slot_len : 2 <= F2FS_SLOT_LEN <= 256;
  dentry_slots x : 0 <= x -> GET_DENTRY_SLOTS x = (x + F2FS_SLOT_LEN - 1) / F2FS_SLOT_LEN;
  name_len_fits : 2 <= F2FS_NAME_LEN < 65536 /\ GET_DENTRY_SLOTS F2FS_NAME_LEN <= NR_DENTRY_IN_BLOCK;
  bitmap_fits : NR_DENTRY_IN_BLOCK <= 8 * SIZE_OF_DENTRY_BITMAP;
  depth_max : 2 <= MAX_DIR_HASH_DEPTH <= 63;
  buckets_max : MAX_DIR_BUCKETS = 2 ^ (MAX_DIR_HASH_DEPTH / 2 - 1);
}.
Definition linux_dir : DirFormat := {|
  S_IF t := match t with FT_REG => 8 | FT_DIR => 4 | FT_CHR => 2 | FT_BLK => 6 | FT_FIFO => 1 | FT_SOCK => 12 | FT_LNK => 10 end;
  F2FS_FT t := match t with FT_REG => 1 | FT_DIR => 2 | FT_CHR => 3 | FT_BLK => 4 | FT_FIFO => 5 | FT_SOCK => 6 | FT_LNK => 7 end;
  DT t := match t with FT_REG => 8 | FT_DIR => 4 | FT_CHR => 2 | FT_BLK => 6 | FT_FIFO => 1 | FT_SOCK => 12 | FT_LNK => 10 end;
  F2FS_FT_MAX := 8; NR_DENTRY_IN_BLOCK := 214; F2FS_SLOT_LEN := 8; GET_DENTRY_SLOTS x := Z.shiftr (x + 8 - 1) 3;
  SIZE_OF_DENTRY_BITMAP := 27; SIZE_OF_DIR_ENTRY := 11;
  F2FS_NAME_LEN := 255; F2FS_HASH_COL_BIT := 2 ^ 63; MAX_DIR_HASH_DEPTH := 63; MAX_DIR_BUCKETS := 2 ^ 30;
|}.
Lemma linux_dir_ok : @DirFormatOk linux_dir.
Proof.
  split; try (intros []; try intros []; cbn; congruence || lia); cbn; try lia; try done.
  intros x Hx. by rewrite Z.shiftr_div_pow2 by lia.
Qed.

(** Names are compared by fscrypt_match_name; without encryption it compares
    the bytes. *)
Class Fscrypt := { fscrypt_match_name : list Z -> list Z -> bool }.
Class FscryptOk `{Fscrypt} : Prop := { match_name_spec n de_name : fscrypt_match_name n de_name = true <-> de_name = n }.
Definition plain_names : Fscrypt := {| fscrypt_match_name n de_name := bool_decide (de_name = n) |}.
Lemma plain_names_ok : @FscryptOk plain_names.
Proof. split. intros n de. cbn. apply bool_decide_eq_true. Qed.

(** ** Name hash *)

Definition DELTA : Z := 2654435769.
(** [do ... while (--n)] of TEA_transform, with [(b0, b1)] as state *)
Fixpoint tea_rounds (n : nat) (key : list Z) (sum b0 b1 : Z) : Z * Z :=
  match n with
  | O => (b0, b1)
  | S n =>
      let sum := u32 (sum + DELTA) in
      let b0 := u32 (b0 + Z.lxor (Z.lxor (u32 (u32 (Z.shiftl b1 4) + key.[0])) (u32 (b1 + sum))) (u32 (Z.shiftr b1 5 + key.[1]))) in
      let b1 := u32 (b1 + Z.lxor (Z.lxor (u32 (u32 (Z.shiftl b0 4) + key.[2])) (u32 (b0 + sum))) (u32 (Z.shiftr b0 5 + key.[3]))) in
      tea_rounds n key sum b0 b1
  end.
Definition TEA_transform (buf key : list Z) : list Z :=
  let '(b0, b1) := tea_rounds 16 key 0 buf.[0] buf.[1] in
  buf.[0 <- u32 (buf.[0] + b0)].[1 <- u32 (buf.[1] + b1)].

(** The for loop of str2hashbuf: [val], [num] and the words written *)
Fixpoint hash_words (msg : list Z) (i pad val num : Z) (buf : list Z) : Z * Z * list Z :=
  match msg with
  | [] => (val, num, buf)
  | c :: msg =>
      let val := if i mod 4 =? 0 then pad else val in
      let val := u32 (c + u32 (Z.shiftl val 8)) in
      if i mod 4 =? 3 then hash_words msg (i + 1) pad pad (num - 1) (buf ++ [val])
      else hash_words msg (i + 1) pad val num buf
  end.
Definition str2hashbuf (msg : list Z) (num : Z) : list Z :=
  let n := zlen msg in
  let pad := Z.lor (u32 n) (u32 (Z.shiftl (u32 n) 8)) in
  let pad := Z.lor pad (u32 (Z.shiftl pad 16)) in
  let n := if num * 4 <? n then num * 4 else n in
  let '(val, num, buf) := hash_words (take (Z.to_nat n) msg) 0 pad pad num [] in
  let num := num - 1 in
  let buf := if 0 <=? num then buf ++ [val] else buf in
  buf ++ replicate (Z.to_nat num) pad.
(** [while (1)] of f2fs_dentry_hash *)
Fixpoint hash_name (n : nat) (p buf : list Z) : outcome (list Z) :=
  match n with
  | O => NoFuel
  | S n =>
      let buf := TEA_transform buf (str2hashbuf p 4) in
      if zlen p <=? 16 then Done buf else hash_name n (drop 16 p) buf
  end.
Definition is_dot_dotdot (name : list Z) : bool :=
  ((zlen name =? 1) && (name.[0] =? 46)) || ((zlen name =? 2) && (name.[0] =? 46) && (name.[1] =? 46)).
(** [bigname] is fname->hash when fname has no disk name. *)
Definition f2fs_dentry_hash `{DirFormat} (name : list Z) (bigname : option Z) : Z :=
  match bigname with
  | Some h => h
  | None =>
      if is_dot_dotdot name then 0
      else match hash_name (S (length name)) name [1732584193; 4023233417; 2562383102; 271733878] with
           | Done buf => Z.ldiff buf.[0] F2FS_HASH_COL_BIT
           | _ => 0
           end
  end.
Abbreviation hash_of name := (f2fs_dentry_hash name None).

(** ** Dentry blocks *)

Record f2fs_dir_entry := mk_de { hash_code : Z; ino : Z; name_len : Z; file_type : Z }.
#[export] Instance eta_de : Eta f2fs_dir_entry := fun e => mk_de (hash_code e) (ino e) (name_len e) (file_type e).
#[export] Instance de_inhabited : Inhabited f2fs_dir_entry := populate (mk_de 0 0 0 0).
(** struct f2fs_dentry_ptr: the area it points to, with [d_max] slots *)
Record dentry_ptr := mk_dp { d_max : Z; nr_bitmap : Z; bitmap : Z; dentry : list f2fs_dir_entry; filename : list Z }.
#[export] Instance eta_dp : Eta dentry_ptr := fun d => mk_dp (d_max d) (nr_bitmap d) (bitmap d) (dentry d) (filename d).

Section dentry.
Context `{DirFormat} `{BitSearch} `{Fscrypt}.

Definition f2fs_type_by_mode (i : Z) : Z :=
  match List.find (fun t => S_IF t =? i) ftypes with Some t => F2FS_FT t | None => 0 end.
Definition f2fs_filetype_table (i : Z) : Z :=
  match List.find (fun t => F2FS_FT t =? i) ftypes with Some t => DT t | None => 0 end.
Definition S_SHIFT : Z := 12.
Definition S_IFMT : Z := 61440.
Definition set_de_type (mode : Z) (de : f2fs_dir_entry) : f2fs_dir_entry :=
  de <| file_type := f2fs_type_by_mode (Z.shiftr (Z.land mode S_IFMT) S_SHIFT) |>.
Definition f2fs_get_de_type (de : f2fs_dir_entry) : Z :=
  if file_type de <? F2FS_FT_MAX then f2fs_filetype_table (file_type de) else 0.

(** The stored name of the entry at [pos]. *)
Definition stored_name (d : dentry_ptr) (pos : Z) : list Z := slice (filename d) (pos * F2FS_SLOT_LEN) (name_len (dentry d).[pos]).

(** *max_slots, raised to [max_len]; [None] for a null pointer *)
Definition raise (max_slots : option Z) (max_len : Z) : option Z :=
  match max_slots with Some m => Some (if m <? max_len then max_len else m) | None => None end.
Fixpoint scan_dentries (n : nat) (d : dentry_ptr) (name : list Z) (namehash bit_pos max_len : Z) (max_slots : option Z)
    : outcome (option Z * option Z) :=
  match n with
  | O => NoFuel
  | S n =>
      if d_max d <=? bit_pos then Done (None, raise max_slots max_len)
      else if negb (test_bit bit_pos (bitmap d)) then scan_dentries n d name namehash (bit_pos + 1) (max_len + 1) max_slots
      else
        let de := (dentry d).[bit_pos] in
        if name_len de =? 0 then scan_dentries n d name namehash (bit_pos + 1) max_len max_slots
        else if (hash_code de =? namehash) && fscrypt_match_name name (stored_name d bit_pos)
        then Done (Some bit_pos, raise max_slots max_len)
        else scan_dentries n d name namehash (bit_pos + GET_DENTRY_SLOTS (name_len de)) 0 (raise max_slots max_len)
  end.
Definition f2fs_find_target_dentry (name : list Z) (namehash : Z) (max_slots : bool) (d : dentry_ptr)
    : outcome (option Z * option Z) :=
  scan_dentries (S (Z.to_nat (d_max d))) d name namehash 0 0 (if max_slots then Some 0 else None).

(** [next:] of f2fs_room_for_filename *)
Fixpoint find_room (n : nat) (bm slots max_slots bit_start : Z) : outcome Z :=
  match n with
  | O => NoFuel
  | S n =>
      let zero_start := find_next_zero_bit bm max_slots bit_start in
      if max_slots <=? zero_start then Done max_slots
      else
        let zero_end := find_next_bit bm max_slots zero_start in
        if slots <=? zero_end - zero_start then Done zero_start
        else if max_slots <=? zero_end + 1 then Done max_slots
        else find_room n bm slots max_slots (zero_end + 1)
  end.
Definition f2fs_room_for_filename (bm slots max_slots : Z) : outcome Z := find_room (S (Z.to_nat max_slots)) bm slots max_slots 0.

(** One round of the loop over the slots of a new entry *)
Definition take_slot (pos : Z) (d : dentry_ptr) (i : Z) : dentry_ptr :=
  let d := d <| bitmap ::= set_bit (pos + i) |> in
  if i =? 0 then d else d <| dentry ::= fun l => l.[pos + i <- l.[pos + i] <| name_len := 0 |> ] |>.
Definition f2fs_update_dentry (inum mode : Z) (d : dentry_ptr) (name : list Z) (name_hash bit_pos : Z) : dentry_ptr :=
  let slots := GET_DENTRY_SLOTS (zlen name) in
  let de := set_de_type mode (mk_de name_hash (u32 inum) (u16 (zlen name)) (file_type (dentry d).[bit_pos])) in
  let d := d <| dentry ::= fun l => l.[bit_pos <- de] |> <| filename ::= fun l => blit l (bit_pos * F2FS_SLOT_LEN) name |> in
  fold_left (take_slot bit_pos) (seqZ 0 slots) d.
(** the loop of f2fs_delete_entry and f2fs_delete_inline_entry *)
Definition clear_slots (pos slots : Z) (d : dentry_ptr) : dentry_ptr :=
  d <| bitmap ::= fun b => fold_left (fun b i => clear_bit (pos + i) b) (seqZ 0 slots) b |>.
(** the assignments of f2fs_set_link *)
Definition set_link (pos inum mode : Z) (d : dentry_ptr) : dentry_ptr :=
  d <| dentry ::= fun l => l.[pos <- set_de_type mode (l.[pos] <| ino := u32 inum |>)] |>.
Definition DOT : list Z := [46].
Definition DOTDOT : list Z := [46; 46].
Definition f2fs_do_make_empty_dir (inum mode parent_ino parent_mode : Z) (d : dentry_ptr) : dentry_ptr :=
  let d := f2fs_update_dentry inum mode d DOT 0 0 in
  f2fs_update_dentry parent_ino parent_mode d DOTDOT 0 1.

(** What dir_emit is given: name, inode number and DT_ type. [emit] says which
    entries, with those before them, the caller has room for. *)
Record dirent := mk_dirent { dn_name : list Z; dn_ino : Z; dn_type : Z }.
Fixpoint fill_loop (n : nat) (emit : list dirent -> dirent -> bool) (d : dentry_ptr) (start_pos bit_pos ctx_pos : Z) (out : list dirent)
    : outcome (Z * Z * list dirent) :=
  match n with
  | O => NoFuel
  | S n =>
      if d_max d <=? bit_pos then Done (0, ctx_pos, out)
      else
        let bit_pos := find_next_bit (bitmap d) (d_max d) bit_pos in
        if d_max d <=? bit_pos then Done (0, ctx_pos, out)
        else
          let de := (dentry d).[bit_pos] in
          if name_len de =? 0 then fill_loop n emit d start_pos (bit_pos + 1) (u32 (start_pos + (bit_pos + 1))) out
          else
            let e := mk_dirent (stored_name d bit_pos) (ino de) (f2fs_get_de_type de) in
            if negb (emit out e) then Done (1, ctx_pos, out)
            else
              let bit_pos := bit_pos + GET_DENTRY_SLOTS (name_len de) in
              fill_loop n emit d start_pos bit_pos (u32 (start_pos + bit_pos)) (out ++ [e])
  end.
Definition f2fs_fill_dentries (emit : list dirent -> dirent -> bool) (ctx_pos : Z) (d : dentry_ptr) (start_pos : Z) (out : list dirent)
    : outcome (Z * Z * list dirent) :=
  fill_loop (S (Z.to_nat (d_max d))) emit d start_pos (ctx_pos mod d_max d) ctx_pos out.
End dentry.

(** ** Specification of a block

    [m] maps the first slot of each entry to the entry. *)

Record dent := mk_dent { e_name : list Z; e_hash : Z; e_ino : Z; e_type : Z }.
#[export] Instance eta_dent : Eta dent := fun e => mk_dent (e_name e) (e_hash e) (e_ino e) (e_type e).

Section block.
Context `{DirFormatOk} `{BitSearchOk} `{FscryptOk}.

Definition name_ok (n : list Z) : Prop := 0 < zlen n <= F2FS_NAME_LEN.
Definition slots (e : dent) : Z := GET_DENTRY_SLOTS (zlen (e_name e)).
Record dentries_ok (d : dentry_ptr) (m : gmap Z dent) : Prop := {
  do_len : zlen (dentry d) = d_max d /\ zlen (filename d) = d_max d * F2FS_SLOT_LEN /\ 0 < d_max d <= 256;
  do_in p e : m !! p = Some e -> 0 <= p /\ p + slots e <= d_max d /\ name_ok (e_name e);
  do_entry p e : m !! p = Some e -> (dentry d).[p] = mk_de (e_hash e) (e_ino e) (zlen (e_name e)) (e_type e);
  do_rest p e i : m !! p = Some e -> p < i < p + slots e -> name_len (dentry d).[i] = 0;
  do_name p e : m !! p = Some e -> slice (filename d) (p * F2FS_SLOT_LEN) (zlen (e_name e)) = e_name e;
  do_set p e i : m !! p = Some e -> p <= i < p + slots e -> test_bit i (bitmap d) = true;
  do_apart p q e f : m !! p = Some e -> m !! q = Some f -> p < q -> p + slots e <= q;
  do_used i : 0 <= i -> test_bit i (bitmap d) = true -> exists p e, m !! p = Some e /\ p <= i < p + slots e;
}.

Lemma name_slots n : name_ok n -> 1 <= GET_DENTRY_SLOTS (zlen n) <= NR_DENTRY_IN_BLOCK /\ zlen n <= GET_DENTRY_SLOTS (zlen n) * F2FS_SLOT_LEN.
Proof.
  intros [Hp Hl]. pose proof slot_len. destruct name_len_fits as [Hn Hf]. rewrite dentry_slots in Hf by lia. rewrite dentry_slots by lia.
  assert ((zlen n + F2FS_SLOT_LEN - 1) / F2FS_SLOT_LEN <= (F2FS_NAME_LEN + F2FS_SLOT_LEN - 1) / F2FS_SLOT_LEN) by (apply Z.div_le_mono; lia).
  split; [split; [apply Z.div_le_lower_bound; lia|lia]|].
  set (k := F2FS_SLOT_LEN) in *. dlia.
Qed.
Lemma slots_pos d m p e : dentries_ok d m -> m !! p = Some e -> 1 <= slots e <= NR_DENTRY_IN_BLOCK.
Proof. intros K E. apply name_slots. by apply (do_in d m K p). Qed.

(** No entry straddles [pos]. *)
Definition boundary (m : gmap Z dent) (pos : Z) : Prop := forall q e, m !! q = Some e -> q < pos -> q + slots e <= pos.
Lemma boundary_0 d m : dentries_ok d m -> boundary m 0.
Proof. intros K q e E Hq. destruct (do_in d m K q e E). lia. Qed.
Lemma boundary_free d m pos : dentries_ok d m -> boundary m pos -> test_bit pos (bitmap d) = false -> boundary m (pos + 1).
Proof.
  intros K B Hf q e E Hq. destruct (decide (q + slots e <= pos)) as [|Hn]; [lia|]. exfalso.
  rewrite (do_set d m K q e pos E) in Hf by lia. done.
Qed.
Lemma boundary_used d m pos : dentries_ok d m -> 0 <= pos -> boundary m pos -> test_bit pos (bitmap d) = true ->
  exists e, m !! pos = Some e /\ boundary m (pos + slots e).
Proof.
  intros K Hp B Ht. destruct (do_used d m K pos Hp Ht) as (p & e & E & Hr).
  assert (p = pos) as -> by (destruct (decide (p < pos)) as [Hl|]; [specialize (B p e E Hl)|]; lia).
  exists e. split; [done|]. intros q f F Hq. destruct (Z.lt_trichotomy q pos) as [Hl|[->|Hl]].
  - specialize (B q f F Hl). lia.
  - assert (f = e) as -> by congruence. lia.
  - pose proof (do_apart d m K pos q e f E F Hl). lia.
Qed.

Definition matches (name : list Z) (h : Z) (e : dent) : Prop := e_name e = name /\ e_hash e = h.
Lemma scan_ok d m name h n pos max_len ms : dentries_ok d m -> 0 <= pos <= d_max d -> boundary m pos -> d_max d - pos < Z.of_nat n ->
  (forall q e, m !! q = Some e -> q < pos -> ~ matches name h e) ->
  exists r ms', scan_dentries n d name h pos max_len ms = Done (r, ms') /\
    match r with
    | Some p => exists e, m !! p = Some e /\ matches name h e
    | None => forall q e, m !! q = Some e -> ~ matches name h e
    end.
Proof.
  intros K. revert pos max_len ms. induction n as [|n IH]; intros pos max_len ms Hp B Hn Hno; cbn [scan_dentries]; [lia|].
  destruct (Z.leb_spec (d_max d) pos) as [Hm|Hm].
  { exists None, (raise ms max_len). split; [done|]. intros q e E. apply (Hno q e E). destruct (do_in d m K q e E) as (? & ? & _).
    pose proof (slots_pos d m q e K E). lia. }
  destruct (test_bit pos (bitmap d)) eqn:Ht; cbn [negb].
  - destruct (boundary_used d m pos K ltac:(lia) B Ht) as (e & E & B'). pose proof (slots_pos d m pos e K E) as Hs.
    destruct (do_in d m K pos e E) as (_ & Hi & Hnm). destruct (Hnm) as [Hz _].
    rewrite (do_entry d m K pos e E). cbn [name_len hash_code]. replace (zlen (e_name e) =? 0) with false by lia.
    unfold slots in *. unfold stored_name. rewrite (do_entry d m K pos e E). cbn [name_len]. rewrite (do_name d m K pos e E).
    destruct ((e_hash e =? h) && fscrypt_match_name name (e_name e)) eqn:Em.
    + apply andb_true_iff in Em as [Eh%Z.eqb_eq En%match_name_spec]. eexists _, _. split; [done|]. by exists e.
    + apply IH; [lia|done|lia|]. intros q f F Hq. destruct (decide (q < pos)) as [Hl|Hl]; [by apply (Hno q)|].
      assert (q = pos) as -> by (destruct (decide (pos < q)) as [Hl'|]; [pose proof (do_apart d m K pos q e f E F Hl') as Ha; unfold slots in Ha|]; lia).
      assert (f = e) as -> by congruence. intros [En Eh]. rewrite Eh, Z.eqb_refl in Em. cbn [andb] in Em.
      rewrite (proj2 (match_name_spec name (e_name e)) En) in Em. done.
  - apply IH; [lia|by apply (boundary_free d m)|lia|]. intros q e E Hq. destruct (decide (q < pos)) as [Hl|Hl]; [by apply (Hno q)|].
    assert (q = pos) as -> by lia. pose proof (slots_pos d m pos e K E). rewrite (do_set d m K pos e pos E) in Ht by lia. done.
Qed.
(** f2fs_find_target_dentry finds the name if it is there. *)
Lemma find_target_ok d m name h b : dentries_ok d m ->
  exists r ms, f2fs_find_target_dentry name h b d = Done (r, ms) /\
    match r with
    | Some p => exists e, m !! p = Some e /\ matches name h e
    | None => forall q e, m !! q = Some e -> ~ matches name h e
    end.
Proof.
  intros K. destruct (do_len d m K) as (_ & _ & ?). apply scan_ok; [done|lia|by apply (boundary_0 d)|lia|].
  intros q e E Hq. destruct (do_in d m K q e E). lia.
Qed.

(** ** Room for a name *)

Definition blocked (bm n p : Z) : Prop := exists i, p <= i < p + n /\ test_bit i bm = true.
Definition room_result (bm n max r : Z) : Prop :=
  (r = max /\ forall p, 0 <= p -> p + n <= max -> blocked bm n p) \/
  (0 <= r /\ r + n <= max /\ (forall i, r <= i < r + n -> test_bit i bm = false) /\ forall p, 0 <= p < r -> blocked bm n p).
Lemma find_room_ok k bm n max start : 1 <= n -> 0 <= start -> max - start < Z.of_nat k -> start < max ->
  (forall p, 0 <= p < start -> blocked bm n p) -> exists r, find_room k bm n max start = Done r /\ room_result bm n max r.
Proof.
  intros Hn. revert start. induction k as [|k IH]; intros start Hs Hk Hm Hb; cbn [find_room]; [lia|].
  assert (forall zs, start <= zs -> (forall j, start <= j < zs -> test_bit j bm = true) -> forall p, 0 <= p < zs -> blocked bm n p) as Hzs.
  { intros zs Hz Hall p Hp. destruct (decide (p < start)); [apply Hb; lia|]. exists p. split; [lia|]. apply Hall; lia. }
  pose proof (find_next_zero_bit_spec bm max start Hs ltac:(lia)) as [[E Hall]|(Hr & Hbit & Hall)].
  { rewrite E. replace (max <=? max) with true by lia. exists max. split; [done|]. left. split; [done|]. intros p Hp Hpm. apply (Hzs max); [lia|apply Hall|lia]. }
  set (zs := find_next_zero_bit bm max start) in *. replace (max <=? zs) with false by lia.
  pose proof (find_next_bit_spec bm max zs ltac:(lia) ltac:(lia)) as Hze. set (ze := find_next_bit bm max zs) in *.
  assert (zs <= ze <= max /\ (forall j, zs <= j < ze -> test_bit j bm = false) /\ (ze < max -> test_bit ze bm = true)) as (Hze1 & Hze2 & Hze3).
  { destruct Hze as [[-> Hz]|(Hz1 & Hz2 & Hz3)]; [split; [lia|]; split; [apply Hz|lia]|split; [lia|]; by split]. }
  destruct (Z.leb_spec n (ze - zs)).
  { exists zs. split; [done|]. right. split; [lia|]. split; [lia|]. split; [intros i Hi; apply Hze2; lia|]. intros p Hp. apply (Hzs zs); [lia|apply Hall|lia]. }
  assert (forall p, 0 <= p <= ze -> p + n <= max -> blocked bm n p) as Hp.
  { intros p Hp Hpm. destruct (decide (p < zs)); [apply (Hzs zs); [lia|apply Hall|lia]|]. exists ze. split; [lia|]. apply Hze3. lia. }
  destruct (Z.leb_spec max (ze + 1)).
  { exists max. split; [done|]. left. split; [done|]. intros p Hp1 Hp2. apply Hp; lia. }
  apply IH; [lia|lia|lia|]. intros p Hp'. destruct (decide (p < zs)); [apply (Hzs zs); [lia|apply Hall|lia]|].
  exists ze. split; [lia|]. apply Hze3. lia.
Qed.
Lemma room_ok bm n max : 1 <= n -> 0 < max -> exists r, f2fs_room_for_filename bm n max = Done r /\ room_result bm n max r.
Proof. intros Hn Hm. apply find_room_ok; try lia. Qed.

(** ** Updates *)

Lemma take_slots_spec pos k d : 0 <= pos -> zlen (dentry d) = d_max d -> pos + Z.of_nat k <= d_max d ->
  let d' := fold_left (take_slot pos) (seqZ 0 (Z.of_nat k)) d in
  d_max d' = d_max d /\ nr_bitmap d' = nr_bitmap d /\ filename d' = filename d /\ zlen (dentry d') = d_max d /\
  (forall j, test_bit j (bitmap d') = test_bit j (bitmap d) || ((pos <=? j) && (j <? pos + Z.of_nat k))) /\
  (forall j, (dentry d').[j] = if (pos <? j) && (j <? pos + Z.of_nat k) then (dentry d).[j] <| name_len := 0 |> else (dentry d).[j]).
Proof.
  intros Hp Hl. induction k as [|k IH]; intros Hk; cbn zeta.
  { cbn. split_and!; try done; intros j; blia. }
  destruct (IH ltac:(lia)) as (E1 & E2 & E3 & E4 & E5 & E6). rewrite seqZ_S, fold_left_app, Nat2Z.inj_succ. cbn [fold_left].
  set (u := fold_left (take_slot pos) _ d) in *. unfold take_slot.
  destruct (Z.eqb_spec (0 + Z.of_nat k) 0) as [Hz|Hz]; unfold upd; cbn [d_max nr_bitmap filename dentry bitmap].
  - split_and!; try done; intros j; [rewrite test_set_bit, E5 by lia|rewrite E6]; blia.
  - split_and!; try done; [by rewrite zlen_aset| |]; intros j.
    + rewrite test_set_bit, E5 by lia. blia.
    + rewrite aget_aset by lia. destruct (Z.eqb_spec (pos + (0 + Z.of_nat k)) j) as [<-|Hne]; rewrite E6; blia.
Qed.

(** A free run of slots lies between the entries. *)
Lemma free_apart d m pos n q e : dentries_ok d m -> 1 <= n -> (forall i, pos <= i < pos + n -> test_bit i (bitmap d) = false) ->
  m !! q = Some e -> q + slots e <= pos \/ pos + n <= q.
Proof.
  intros K Hn Hf E. pose proof (slots_pos d m q e K E). destruct (decide (q + slots e <= pos)) as [|H1']; [by left|].
  destruct (decide (pos + n <= q)) as [|H2']; [by right|]. exfalso.
  pose proof (do_set d m K q e (Z.max q pos) E) as Hs. rewrite Hf in Hs by lia. specialize (Hs ltac:(lia)). done.
Qed.

Section update.
Context (d : dentry_ptr) (m : gmap Z dent) (K : dentries_ok d m).
Context (inum mode : Z) (name : list Z) (h pos : Z).
#[local] Abbreviation n := (GET_DENTRY_SLOTS (zlen name)).
#[local] Abbreviation new := (mk_dent name h (u32 inum) (f2fs_type_by_mode (Z.shiftr (Z.land mode S_IFMT) S_SHIFT))).
Context (Hname : name_ok name) (Hpos : 0 <= pos) (Hroom : pos + n <= d_max d).
Context (Hfree : forall i, pos <= i < pos + n -> test_bit i (bitmap d) = false).

Lemma update_spec :
  let d' := f2fs_update_dentry inum mode d name h pos in
  d_max d' = d_max d /\ nr_bitmap d' = nr_bitmap d /\ zlen (dentry d') = d_max d /\
  filename d' = blit (filename d) (pos * F2FS_SLOT_LEN) name /\
  (forall j, test_bit j (bitmap d') = test_bit j (bitmap d) || ((pos <=? j) && (j <? pos + n))) /\
  (dentry d').[pos] = mk_de h (u32 inum) (zlen name) (e_type new) /\
  (forall j, pos < j < pos + n -> name_len (dentry d').[j] = 0) /\
  (forall j, ~ (pos <= j < pos + n) -> (dentry d').[j] = (dentry d).[j]).
Proof.
  destruct (do_len d m K) as (Hl & _ & Hm). pose proof (name_slots name Hname) as [Hn _]. destruct Hname as [Hz Hl'].
  destruct name_len_fits as [Hfit _]. cbn zeta. unfold f2fs_update_dentry. set (d1 := (d <| dentry ::= _ |>) <| filename ::= _ |>).
  pose proof (take_slots_spec pos (Z.to_nat n) d1 Hpos) as T. cbn zeta in T. rewrite Z2Nat.id in T by lia.
  destruct T as (T1 & T2 & T3 & T4 & T5 & T6); [subst d1; unfold upd; cbn; by rewrite zlen_aset|exact Hroom|].
  rewrite T1, T2, T3, T4. split_and!; try done.
  - rewrite T6. replace ((pos <? pos) && (pos <? pos + n)) with false by lia. subst d1. unfold upd. cbn.
    rewrite aget_aset_eq by lia. unfold u16. by rewrite Z.mod_small by lia.
  - intros j Hj. rewrite T6. by replace ((pos <? j) && (j <? pos + n)) with true by lia.
  - intros j Hj. rewrite T6. replace ((pos <? j) && (j <? pos + n)) with false by lia. subst d1. unfold upd. cbn.
    apply aget_aset_ne. lia.
Qed.

(** Writing an entry into a free run of slots adds it and nothing else. *)
Lemma update_dentry_ok : dentries_ok (f2fs_update_dentry inum mode d name h pos) (<[pos := new]> m).
Proof.
  destruct update_spec as (S1 & S2 & S3 & S4 & S5 & S6 & S7 & S8). set (d' := f2fs_update_dentry _ _ _ _ _ _) in *.
  destruct (do_len d m K) as (Hl & Hfl & Hm). destruct (name_slots name Hname) as [Hn Hnl]. pose proof slot_len as Hsl.
  assert (forall q e, m !! q = Some e -> q + slots e <= pos \/ pos + n <= q) as Hap by (intros q e; apply (free_apart d m); [done|lia|done]).
  assert (forall q e, <[pos := new]> m !! q = Some e -> q = pos /\ e = new \/ q <> pos /\ m !! q = Some e) as Hcase
    by (intros q e [[<- <-]|[Hq E]]%lookup_insert_Some; [by left|by right]).
  assert (pos * F2FS_SLOT_LEN + zlen name <= zlen (filename d)) as Hbl by nia.
  split; rewrite ?S1, ?S3.
  - split; [done|]. split; [|done]. rewrite S4, length_blit by (try nia). done.
  - intros p e [[-> ->]|[_ E]]%Hcase; [by split_and!|]. by apply (do_in d m K).
  - intros p e [[-> ->]|[Hp E]]%Hcase; [done|]. pose proof (slots_pos d m p e K E). rewrite S8; [by apply (do_entry d m K)|].
    destruct (Hap p e E); lia.
  - intros p e i [[-> ->]|[Hp E]]%Hcase Hi; [by apply S7|]. rewrite S8; [by apply (do_rest d m K p e)|]. destruct (Hap p e E); lia.
  - intros p e [[-> ->]|[Hp E]]%Hcase; rewrite S4.
    + cbn [e_name]. apply slice_blit_eq; nia.
    + destruct (do_in d m K p e E) as (Hp0 & Hpe & Hne). destruct (name_slots _ Hne) as [Hs1 Hs2]. fold (slots e) in Hs1, Hs2.
      rewrite slice_blit_ne; [by apply (do_name d m K)|nia|done|nia|apply zlen_nonneg|]. destruct (Hap p e E); [left|right]; nia.
  - intros p e i [[-> ->]|[Hp E]]%Hcase Hi; rewrite S5.
    + unfold slots in Hi. cbn [e_name] in Hi. replace ((pos <=? i) && (i <? pos + n)) with true by lia. apply orb_true_r.
    + by rewrite (do_set d m K p e).
  - intros p q e f [[-> ->]|[Hp E]]%Hcase [[-> ->]|[Hq F]]%Hcase Hlt; [lia| | |by apply (do_apart d m K p q e f)].
    + destruct (Hap q f F) as [Hx|Hx]; [|exact Hx]. pose proof (slots_pos d m q f K F). lia.
    + destruct (Hap p e E); [done|lia].
  - intros i Hi. rewrite S5. intros [Ht|Ht]%orb_true_iff.
    + destruct (do_used d m K i Hi Ht) as (p & e & E & Hr). exists p, e. split; [|done]. rewrite lookup_insert_ne; [done|].
      intros ->. destruct (Hap p e E); pose proof (slots_pos d m p e K E); lia.
    + exists pos, new. split; [by rewrite lookup_insert_eq|]. unfold slots. cbn [e_name]. lia.
Qed.
End update.

Lemma clear_slots_spec pos k b j :
  test_bit j (fold_left (fun b i => clear_bit (pos + i) b) (seqZ 0 (Z.of_nat k)) b) = test_bit j b && negb ((pos <=? j) && (j <? pos + Z.of_nat k)).
Proof.
  induction k as [|k IH]; [cbn; blia|]. rewrite seqZ_S, fold_left_app, Nat2Z.inj_succ. cbn [fold_left].
  rewrite test_clear_bit, IH. blia.
Qed.
(** Clearing the slots of an entry removes it and nothing else. *)
Lemma clear_slots_ok d m pos e : dentries_ok d m -> m !! pos = Some e -> dentries_ok (clear_slots pos (slots e) d) (delete pos m).
Proof.
  intros K E. pose proof (slots_pos d m pos e K E) as Hs. destruct (do_in d m K pos e E) as (Hp0 & _).
  assert (forall j, test_bit j (bitmap (clear_slots pos (slots e) d)) = test_bit j (bitmap d) && negb ((pos <=? j) && (j <? pos + slots e))) as Hb.
  { intros j. unfold clear_slots, upd. cbn. rewrite <- (Z2Nat.id (slots e)) by lia. apply clear_slots_spec. }
  assert (forall q f, delete pos m !! q = Some f -> q <> pos /\ m !! q = Some f) as Hd by (intros q f [? ?]%lookup_delete_Some; done).
  split.
  - apply (do_len d m K).
  - intros q f [_ F]%Hd. by apply (do_in d m K).
  - intros q f [_ F]%Hd. by apply (do_entry d m K).
  - intros q f i [_ F]%Hd. by apply (do_rest d m K).
  - intros q f [_ F]%Hd. by apply (do_name d m K).
  - intros q f i [Hq F]%Hd Hi. rewrite Hb, (do_set d m K q f i F Hi). cbn [andb].
    destruct (Z.lt_trichotomy q pos) as [Hl|[->|Hl]]; [|done|].
    + pose proof (do_apart d m K q pos f e F E Hl). lia.
    + pose proof (do_apart d m K pos q e f E F Hl). lia.
  - intros q r f g [_ F]%Hd [_ G]%Hd. by apply (do_apart d m K q r f g).
  - intros i Hi. rewrite Hb. intros [Ht Hn]%andb_true_iff. destruct (do_used d m K i Hi Ht) as (q & f & F & Hr).
    exists q, f. split; [|done]. apply lookup_delete_Some. split; [|done]. intros <-. assert (f = e) as -> by congruence. lia.
Qed.

(** f2fs_set_link changes what the entry points to. *)
Lemma set_link_ok d m pos e inum mode : dentries_ok d m -> m !! pos = Some e ->
  dentries_ok (set_link pos inum mode d)
    (<[pos := mk_dent (e_name e) (e_hash e) (u32 inum) (f2fs_type_by_mode (Z.shiftr (Z.land mode S_IFMT) S_SHIFT))]> m).
Proof.
  intros K E. set (e' := mk_dent _ _ _ _). destruct (do_len d m K) as (Hl & Hfl & Hm). destruct (do_in d m K pos e E) as (Hp0 & Hp1 & _).
  pose proof (slots_pos d m pos e K E) as Hs. assert (slots e' = slots e) as Es by done.
  assert (forall q f, <[pos := e']> m !! q = Some f -> q = pos /\ f = e' \/ q <> pos /\ m !! q = Some f) as Hcase
    by (intros q f [[<- <-]|[Hq F]]%lookup_insert_Some; [by left|by right]).
  split; unfold set_link, upd; cbn [dentry d_max filename bitmap nr_bitmap].
  - by rewrite zlen_aset.
  - intros q f [[-> ->]|[_ F]]%Hcase; [apply (do_in d m K pos e E)|by apply (do_in d m K)].
  - intros q f [[-> ->]|[Hq F]]%Hcase; [|rewrite aget_aset_ne by done; by apply (do_entry d m K)].
    rewrite aget_aset_eq by lia. rewrite (do_entry d m K pos e E). done.
  - intros q f i Hf Hi. assert (exists g, m !! q = Some g /\ slots g = slots f) as (g & G & Eg)
      by (destruct (Hcase q f Hf) as [[-> ->]|[_ F]]; [by exists e|by exists f]).
    rewrite <- Eg in Hi. destruct (decide (i = pos)) as [->|Hne]; [|rewrite aget_aset_ne by done; by apply (do_rest d m K q g)].
    pose proof (do_apart d m K q pos g e G E ltac:(lia)). lia.
  - intros q f [[-> ->]|[_ F]]%Hcase; [apply (do_name d m K pos e E)|by apply (do_name d m K)].
  - intros q f i [[-> ->]|[_ F]]%Hcase; [apply (do_set d m K pos e i E)|by apply (do_set d m K)].
  - intros q r f g [[-> ->]|[_ F]]%Hcase [[-> ->]|[_ G]]%Hcase Hlt; [lia|apply (do_apart d m K pos r e g E G Hlt)| |by apply (do_apart d m K q r f g)].
    apply (do_apart d m K q pos f e F E Hlt).
  - intros i Hi Ht. destruct (do_used d m K i Hi Ht) as (q & f & F & Hr). destruct (decide (q = pos)) as [->|Hne].
    + exists pos, e'. rewrite lookup_insert_eq. split; [done|]. assert (f = e) as -> by congruence. lia.
    + exists q, f. by rewrite lookup_insert_ne.
Qed.

(** ** New blocks *)

Record blank (d : dentry_ptr) : Prop := {
  bl_len : zlen (dentry d) = d_max d /\ zlen (filename d) = d_max d * F2FS_SLOT_LEN /\ 2 <= d_max d <= 256;
  bl_bits : bitmap d = 0;
}.
Lemma blank_ok d : blank d -> dentries_ok d ∅.
Proof.
  intros [(H1' & H2' & H3') Hb]. split; try (intros *; rewrite lookup_empty; done); [lia|].
  intros i Hi. by rewrite Hb, test_bit_0.
Qed.
Lemma dots_ok : name_ok DOT /\ name_ok DOTDOT /\ GET_DENTRY_SLOTS (zlen DOT) = 1 /\ GET_DENTRY_SLOTS (zlen DOTDOT) = 1.
Proof.
  unfold name_ok. destruct name_len_fits as [? _]. pose proof slot_len. change (zlen DOT) with 1. change (zlen DOTDOT) with 2.
  split; [lia|]. split; [lia|]. rewrite !dentry_slots by lia.
  split; symmetry; [apply (Z.div_unique _ _ _ 0)|apply (Z.div_unique _ _ _ 1)]; lia.
Qed.
#[local] Abbreviation type_of_mode mode := (f2fs_type_by_mode (Z.shiftr (Z.land mode S_IFMT) S_SHIFT)).
Definition empty_dir_map (inum mode parent_ino parent_mode : Z) : gmap Z dent :=
  <[1 := mk_dent DOTDOT 0 (u32 parent_ino) (type_of_mode parent_mode)]> {[0 := mk_dent DOT 0 (u32 inum) (type_of_mode mode)]}.
Lemma make_empty_ok d inum mode pino pmode : blank d ->
  let d' := f2fs_do_make_empty_dir inum mode pino pmode d in
  dentries_ok d' (empty_dir_map inum mode pino pmode) /\ d_max d' = d_max d /\ nr_bitmap d' = nr_bitmap d.
Proof.
  intros B. pose proof (blank_ok d B) as K. destruct B as [(_ & _ & Hm) Hb]. destruct dots_ok as (N1 & N2 & S1 & S2).
  assert (forall i, test_bit i (bitmap d) = false) as Hfree by (intros; by rewrite Hb, test_bit_0).
  destruct (update_spec d ∅ K inum mode DOT 0 0 N1) as (M & Mb & _ & _ & T & _); [lia|lia|].
  pose proof (update_dentry_ok d ∅ K inum mode DOT 0 0 N1 ltac:(lia) ltac:(lia) ltac:(done)) as K1. cbn zeta.
  unfold f2fs_do_make_empty_dir, empty_dir_map. set (d1 := f2fs_update_dentry inum mode d DOT 0 0) in *.
  assert (1 + GET_DENTRY_SLOTS (zlen DOTDOT) <= d_max d1) as Hr by (rewrite M; lia).
  destruct (update_spec d1 _ K1 pino pmode DOTDOT 0 1 N2 ltac:(lia) Hr) as (M2 & Mb2 & _).
  split; [|split; congruence]. apply update_dentry_ok; try done.
  intros i Hi. rewrite T, Hb, test_bit_0, S1. rewrite S2 in Hi. blia.
Qed.

(** ** Listing *)

Definition dirent_of (e : dent) : dirent :=
  mk_dirent (e_name e) (e_ino e) (if e_type e <? F2FS_FT_MAX then f2fs_filetype_table (e_type e) else 0).
(** The entries that start in [a, b), in order. *)
Definition listing (m : gmap Z dent) (a b : Z) : list dirent := omap (fun p => dirent_of <$> m !! p) (seqZ a (b - a)).
Lemma listing_app m a b c : a <= b <= c -> listing m a c = listing m a b ++ listing m b c.
Proof.
  intros Hab. unfold listing. replace (c - a) with (b - a + (c - b)) by lia. rewrite seqZ_app by lia. rewrite omap_app. do 3 f_equal. lia.
Qed.
Lemma listing_none m a b : (forall p, a <= p < b -> m !! p = None) -> listing m a b = [].
Proof.
  intros Hn. unfold listing. destruct (omap _ _) as [|x l] eqn:E; [done|].
  assert (x ∈ omap (fun p => dirent_of <$> m !! p) (seqZ a (b - a))) as Hx by (rewrite E; by left).
  apply list_elem_of_omap in Hx as (p & Hp & Ex). apply elem_of_seqZ in Hp. by rewrite (Hn p) in Ex by lia.
Qed.
Lemma listing_one m a e : m !! a = Some e -> listing m a (a + 1) = [dirent_of e].
Proof. intros E. unfold listing. replace (a + 1 - a) with 1 by lia. change (seqZ a 1) with [a]. simpl. by rewrite E. Qed.
Lemma fill_step m a p b e : m !! p = Some e -> a <= p -> p + 1 <= b -> (forall q, a <= q < p -> m !! q = None) ->
  (forall q, p < q < b -> m !! q = None) -> listing m a b = [dirent_of e].
Proof.
  intros E Ha Hb H1' H2'. rewrite (listing_app m a p b), (listing_app m p (p + 1) b) by lia.
  rewrite (listing_none m a p), (listing_one m p e), (listing_none m (p + 1) b); [done|intros; apply H2'; lia|done|done].
Qed.

(** What f2fs_fill_dentries lists from [pos]: everything, or what comes before
    the entry that was refused, where the next call continues. *)
Definition fill_result (emit : list dirent -> dirent -> bool) (m : gmap Z dent) (start max pos : Z) (out : list dirent) (r : Z * Z * list dirent) : Prop :=
  let '(err, ctx, out') := r in
  err = 0 /\ out' = out ++ listing m pos max \/
  err = 1 /\ exists pos' e p, pos <= pos' < max /\ ctx = start + pos' /\ out' = out ++ listing m pos pos' /\
    m !! p = Some e /\ pos' <= p /\ emit out' (dirent_of e) = false.
Lemma fill_loop_ok emit d m start n pos out : dentries_ok d m -> 0 <= start -> start + d_max d < 4294967296 ->
  0 <= pos <= d_max d -> d_max d - pos < Z.of_nat n ->
  exists r, fill_loop n emit d start pos (start + pos) out = Done r /\ fill_result emit m start (d_max d) pos out r.
Proof.
  intros K Hs Hsm. revert pos out. induction n as [|n IH]; intros pos out Hp Hn; cbn [fill_loop]; [lia|].
  assert (forall a b, (forall i, a <= i < b -> test_bit i (bitmap d) = false) -> forall q, a <= q < b -> m !! q = None) as Hclear.
  { intros a b Hc q Hq. destruct (m !! q) as [e|] eqn:E; [|done]. pose proof (slots_pos d m q e K E).
    pose proof (do_set d m K q e q E ltac:(lia)) as Ht. by rewrite (Hc q Hq) in Ht. }
  destruct (Z.leb_spec (d_max d) pos) as [Hm|Hm].
  { eexists. split; [done|]. left. split; [done|]. rewrite listing_none; [by rewrite app_nil_r|]. intros q Hq. lia. }
  pose proof (find_next_bit_spec (bitmap d) (d_max d) pos ltac:(lia) ltac:(lia)) as [[E Hall]|(Hr & Hbit & Hall)].
  { rewrite E. replace (d_max d <=? d_max d) with true by lia. eexists. split; [done|]. left. split; [done|].
    rewrite listing_none; [by rewrite app_nil_r|]. by apply Hclear. }
  set (bp := find_next_bit _ _ _) in *. replace (d_max d <=? bp) with false by lia.
  destruct (do_used d m K bp ltac:(lia) Hbit) as (p & e & E & Hpe). pose proof (slots_pos d m p e K E) as Hsl.
  destruct (do_in d m K p e E) as (_ & Hpm & Hne). pose proof (proj1 Hne) as Hz.
  assert (forall q, p < q < p + slots e -> m !! q = None) as Hin.
  { intros q Hq. destruct (m !! q) as [f|] eqn:F; [|done]. pose proof (do_apart d m K p q e f E F ltac:(lia)). lia. }
  destruct (Z.eqb_spec (name_len (dentry d).[bp]) 0) as [Hn0|Hn0].
  - assert (p <> bp) as Hpb by (intros ->; rewrite (do_entry d m K bp e E) in Hn0; cbn in Hn0; lia).
    rewrite u32_id by lia. destruct (IH (bp + 1) out ltac:(lia) ltac:(lia)) as (r & Er & R). exists r. split; [exact Er|].
    assert (listing m pos (bp + 1) = []) as El.
    { apply listing_none. intros q Hq. destruct (decide (q = bp)) as [->|]; [apply Hin; lia|]. apply (Hclear pos bp Hall). lia. }
    destruct r as [[err ctx] out']. destruct R as [(-> & ->)|(-> & pos' & f & q & R1 & R2 & R3 & R4)]; [left|right]; (split; [done|]).
    + by rewrite (listing_app m pos (bp + 1)), El by lia.
    + exists pos', f, q. split; [lia|]. split; [done|]. split; [|done]. by rewrite (listing_app m pos (bp + 1)), El by lia.
  - assert (p = bp) as -> by (destruct (decide (p = bp)); [done|]; rewrite (do_rest d m K p e bp E) in Hn0; lia).
    unfold stored_name, f2fs_get_de_type. rewrite (do_entry d m K bp e E). cbn [name_len ino file_type].
    rewrite (do_name d m K bp e E). fold (slots e). change (mk_dirent _ _ _) with (dirent_of e).
    assert (forall q, pos <= q < bp -> m !! q = None) as Hbefore by (by apply Hclear).
    destruct (emit out (dirent_of e)) eqn:Eem; cbn [negb].
    + rewrite u32_id by lia. destruct (IH (bp + slots e) (out ++ [dirent_of e]) ltac:(lia) ltac:(lia)) as (r & Er & R). exists r. split; [exact Er|].
      assert (listing m pos (bp + slots e) = [dirent_of e]) as El by (apply (fill_step m pos bp); try done; lia).
      destruct r as [[err ctx] out']. destruct R as [(-> & ->)|(-> & pos' & f & q & R1 & R2 & R3 & R4)]; [left|right]; (split; [done|]).
      * rewrite (listing_app m pos (bp + slots e)), El by lia. by rewrite <- app_assoc.
      * exists pos', f, q. split; [lia|]. split; [done|]. split; [|done].
        rewrite (listing_app m pos (bp + slots e)), El by lia. by rewrite R3, <- app_assoc.
    + eexists. split; [done|]. right. split; [done|]. exists pos, e, bp. split; [lia|]. split; [done|].
      rewrite listing_none by (intros; lia). rewrite app_nil_r. split_and!; [done|done|lia|done].
Qed.
Lemma fill_ok emit d m start pos out : dentries_ok d m -> 0 <= start -> start + d_max d < 4294967296 -> 0 <= pos < d_max d ->
  start mod d_max d = 0 ->
  exists r, f2fs_fill_dentries emit (start + pos) d start out = Done r /\ fill_result emit m start (d_max d) pos out r.
Proof.
  intros K Hs Hsm Hp Hmod. unfold f2fs_fill_dentries.
  replace ((start + pos) mod d_max d) with pos; [apply fill_loop_ok; try done; lia|].
  rewrite <- Z.add_mod_idemp_l, Hmod by lia. symmetry. apply Z.mod_small. lia.
Qed.

(** ** File types *)

Lemma find_ftype (f : ftype -> Z) t : (forall u v, f u = f v -> u = v) -> List.find (fun u => f u =? f t) ftypes = Some t.
Proof.
  intros Hinj. destruct (List.find _ _) as [u|] eqn:Ef.
  - apply List.find_some in Ef as [_ E%Z.eqb_eq]. f_equal. by apply Hinj.
  - exfalso. pose proof (List.find_none _ _ Ef t) as Hn. cbn beta in Hn. rewrite Z.eqb_refl in Hn.
    enough (false <> true) by (specialize (Hn ltac:(destruct t; cbn; tauto)); done). done.
Qed.
Lemma find_no_ftype (f : ftype -> Z) : (forall u, 0 < f u) -> List.find (fun u => f u =? 0) ftypes = None.
Proof.
  intros Hpos. destruct (List.find _ _) as [u|] eqn:Ef; [|done]. apply List.find_some in Ef as [_ E%Z.eqb_eq]. specialize (Hpos u). lia.
Qed.
(** The mode an entry is moved with stands for its type. *)
Lemma fake_mode_ok e : file_type e = 0 \/ (exists t, file_type e = F2FS_FT t) ->
  type_of_mode (Z.shiftl (f2fs_get_de_type e) S_SHIFT) = file_type e.
Proof.
  intros Ht. unfold f2fs_get_de_type, f2fs_type_by_mode, f2fs_filetype_table.
  assert (forall x, 0 <= x < 16 -> Z.shiftr (Z.land (Z.shiftl x S_SHIFT) S_IFMT) S_SHIFT = x) as Hsh.
  { intros x Hx. unfold S_SHIFT, S_IFMT. rewrite Z.shiftr_land, Z.shiftr_shiftl_l by lia. change (Z.shiftr 61440 12) with (Z.ones 4).
    rewrite Z.land_ones by lia. change (12 - 12) with 0. rewrite Z.shiftl_0_r. apply Z.mod_small. lia. }
  destruct Ht as [->|[t ->]].
  - pose proof (ft_range FT_REG). replace (0 <? F2FS_FT_MAX) with true by lia.
    rewrite (find_no_ftype F2FS_FT) by (intros u; apply ft_range). rewrite Hsh by lia. by rewrite (find_no_ftype S_IF) by (intros u; apply s_if_range).
  - pose proof (ft_range t). replace (F2FS_FT t <? F2FS_FT_MAX) with true by lia. rewrite (find_ftype F2FS_FT) by apply ft_inj.
    pose proof (s_if_range t). rewrite dt_s_if, Hsh by lia. by rewrite (find_ftype S_IF) by apply s_if_inj.
Qed.
End block.
