(* ===== verification/Dir.v ===== *)
(** * Directories: the multi-level hash table and the inline area ([dir.c], [inline.c])

    Level [l] of a directory has [dir_buckets l] buckets of [bucket_blocks l]
    dentry blocks; a name lives in the bucket of its hash, on any level below
    the current depth.  A small directory keeps its entries in the inode
    instead, until they do not fit.

    A directory is specified by a finite map from names to inode number and
    type: [dir_rep]. *)
From stdpp Require Import gmap.
From S2P Require Import Prelude NodePath Dentry.
Open Scope Z_scope.

Definition ENOENT : Z := 2.
Definition EAGAIN : Z := 11.
Definition ENOMEM : Z := 12.
Definition EEXIST : Z := 17.
Definition ENOSPC : Z := 28.
Definition ERESTARTSYS : Z := 512.
Definition PAGE_SHIFT : Z := 12.
Definition PAGE_SIZE : Z := 4096.

(** The inode of a directory. [inline_dentry] is the inline area while
    FI_INLINE_DENTRY is set; a missing page is a hole (-ENOENT). *)
Record dir := mk_dir {
  inline_dentry : option dentry_ptr;
  pages : gmap Z dentry_ptr;
  i_size : Z;
  i_current_depth : Z;
  i_dir_level : Z;
  chash : Z;
  clevel : Z;
  task : Z;
}.
#[export] Instance eta_dir : Eta dir := fun d =>
  mk_dir (inline_dentry d) (pages d) (i_size d) (i_current_depth d) (i_dir_level d) (chash d) (clevel d) (task d).

(** What the calls an operation makes outside this component return; 0 is
    success, an error is a negative number. *)
Record io := mk_io {
  rd_page : Z -> Z;      (* reading a dentry page that exists *)
  new_page : Z -> Z;     (* f2fs_get_new_data_page: page, block and read *)
  node_page : Z;         (* f2fs_get_node_page of the directory *)
  metadata : Z;          (* f2fs_init_inode_metadata; 0 without an inode *)
  kmalloc_ok : bool;
  truncate_hole : Z -> Z;
  stale : dentry_ptr;    (* what a page grabbed without reading holds *)
  interrupted : Z -> bool; (* fatal_signal_pending before block n *)
  (** the blocks f2fs_truncate_blocks leaves when it undoes a conversion: none when it
      succeeds; its result is ignored *)
  rollback : gmap Z dentry_ptr -> gmap Z dentry_ptr;
}.
Definition no_metadata (o : io) : io :=
  mk_io (rd_page o) (new_page o) (node_page o) 0 (kmalloc_ok o) (truncate_hole o) (stale o) (interrupted o) (rollback o).

Section dir.
Context `{DirFormat} `{BitSearch} `{Fscrypt} `{NodeFormat}.

Definition DEF_INLINE_RESERVED_SIZE : Z := 1.
Definition MAX_INLINE_DATA (i : inode) : Z :=
  4 * (CUR_ADDRS_PER_INODE (get_extra_isize i) - get_inline_xattr_addrs i - DEF_INLINE_RESERVED_SIZE).
Definition NR_INLINE_DENTRY (i : inode) : Z := MAX_INLINE_DATA i * 8 / ((SIZE_OF_DIR_ENTRY + F2FS_SLOT_LEN) * 8 + 1).
Definition INLINE_DENTRY_BITMAP_SIZE (i : inode) : Z := (NR_INLINE_DENTRY i + 8 - 1) / 8.
Definition no_dentries (max bytes : Z) : dentry_ptr :=
  mk_dp max bytes 0 (replicate (Z.to_nat max) (mk_de 0 0 0 0)) (replicate (Z.to_nat (max * F2FS_SLOT_LEN)) 0).
(** a zeroed page through make_dentry_ptr_block, a zeroed inline area
    through make_dentry_ptr_inline *)
Definition zero_block : dentry_ptr := no_dentries NR_DENTRY_IN_BLOCK SIZE_OF_DENTRY_BITMAP.
Definition zero_inline (i : inode) : dentry_ptr := no_dentries (NR_INLINE_DENTRY i) (INLINE_DENTRY_BITMAP_SIZE i).

Definition dir_blocks (d : dir) : Z := Z.shiftr (u64 (i_size d + PAGE_SIZE - 1)) PAGE_SHIFT.
Definition dir_buckets (level dir_level : Z) : Z :=
  if level + dir_level <? MAX_DIR_HASH_DEPTH / 2 then Z.shiftl 1 (level + dir_level) else MAX_DIR_BUCKETS.
Definition bucket_blocks (level : Z) : Z := if level <? MAX_DIR_HASH_DEPTH / 2 then 2 else 4.
(** the loop of dir_block_index *)
Fixpoint level_blocks (n : nat) (dir_level : Z) : Z :=
  match n with
  | O => 0
  | S k => u64 (level_blocks k dir_level + u32 (dir_buckets (Z.of_nat k) dir_level * bucket_blocks (Z.of_nat k)))
  end.
Definition dir_block_index (level dir_level idx : Z) : Z :=
  u64 (level_blocks (Z.to_nat level) dir_level + u32 (idx * bucket_blocks level)).

(** ** Lookup *)

(** A found entry: the inline area ([None]) or a block, and the slot. *)
Definition loc : Type := option Z * Z.
(** The loop of find_in_level over the blocks of the bucket: the entry, the
    error left in *res_page, and [room]. *)
Fixpoint scan_bucket (n : nat) (o : io) (d : dir) (name : list Z) (namehash s bidx : Z) (room : bool) : outcome (option loc * Z * bool) :=
  match n with
  | O => Done (None, 0, room)
  | S n =>
      if nz (rd_page o bidx) then Done (None, rd_page o bidx, room)
      else
        match pages d !! bidx with
        | None => scan_bucket n o d name namehash s (u32 (bidx + 1)) true
        | Some blk =>
            r <-- f2fs_find_target_dentry name namehash true blk ;;
            match fst r with
            | Some p => Done (Some (Some bidx, p), 0, room)
            | None => scan_bucket n o d name namehash s (u32 (bidx + 1)) (room || (s <=? default 0 (snd r)))
            end
        end
  end.
Definition find_in_level (o : io) (level : Z) (name : list Z) (d : dir) : outcome (option loc * Z * dir) :=
  let s := GET_DENTRY_SLOTS (zlen name) in
  let namehash := hash_of name in
  let nbucket := dir_buckets level (i_dir_level d) in
  let nblock := bucket_blocks level in
  let bidx := u32 (dir_block_index level (i_dir_level d) (namehash mod nbucket)) in
  let end_block := u32 (bidx + nblock) in
  r <-- scan_bucket (Z.to_nat (end_block - bidx)) o d name namehash s bidx false ;;
  let '(de, err, room) := r in
  Done (de, err,
        if negb (isSome de) && room && negb (chash d =? namehash) then d <| chash := namehash |> <| clevel := level |> else d).
(** The loop of __f2fs_find_entry over the levels *)
Fixpoint find_levels (n : nat) (o : io) (level : Z) (name : list Z) (d : dir) : outcome (option loc * Z * dir) :=
  match n with
  | O => Done (None, 0, d)
  | S n =>
      r <-- find_in_level o level name d ;;
      let '(de, err, d) := r in
      if isSome de || nz err then Done (de, err, d) else find_levels n o (level + 1) name d
  end.
Definition f2fs_find_in_inline_dir (o : io) (name : list Z) (blk : dentry_ptr) : outcome (option loc * Z) :=
  if nz (node_page o) then Done (None, node_page o)
  else
    r <-- f2fs_find_target_dentry name (hash_of name) false blk ;;
    Done (match fst r with Some p => Some (None, p) | None => None end, 0).
(** The entry, or the error in *res_page. [current] is the calling task. *)
Definition __f2fs_find_entry (o : io) (current : Z) (name : list Z) (d : dir) : outcome (option loc * Z * dir) :=
  r <-- match inline_dentry d with
        | Some blk => r <-- f2fs_find_in_inline_dir o name blk ;; Done (r, d)
        | None =>
            if dir_blocks d =? 0 then Done ((None, 0), d)
            else
              let max_depth := i_current_depth d in
              let d := if MAX_DIR_HASH_DEPTH <? max_depth then d <| i_current_depth := MAX_DIR_HASH_DEPTH |> else d in
              let max_depth := if MAX_DIR_HASH_DEPTH <? max_depth then MAX_DIR_HASH_DEPTH else max_depth in
              find_levels (Z.to_nat max_depth) o 0 name d
        end ;;
  let '(de, err, d) := r in
  Done (de, err, if isSome de then d else d <| task := current |>).

(** The block an entry is in, and writing it back *)
Definition dentries_at (l : option Z) (d : dir) : option dentry_ptr :=
  match l with None => inline_dentry d | Some b => pages d !! b end.
Definition put_dentries (l : option Z) (blk : dentry_ptr) (d : dir) : dir :=
  match l with None => d <| inline_dentry := Some blk |> | Some b => d <| pages ::= <[b := blk]> |> end.
Definition f2fs_inode_by_name (o : io) (current : Z) (name : list Z) (d : dir) : outcome (Z * Z * dir) :=
  r <-- __f2fs_find_entry o current name d ;;
  let '(de, err, d) := r in
  Done (match de with
        | Some (l, p) => match dentries_at l d with Some blk => ino (dentry blk).[p] | None => 0 end
        | None => 0
        end, err, d).

(** ** Adding entries *)

(** f2fs_i_size_write of at least [n] bytes *)
Definition size_at_least (n : Z) (d : dir) : dir := if i_size d <? n then d <| i_size := n |> else d.
(** f2fs_get_new_data_page without an inode page and with new_i_size: the path
    of the block, or another error, then the page, zeroed if the block is new. *)
Definition f2fs_get_new_data_page (o : io) (i : inode) (index : Z) (d : dir) : Z * dir :=
  let '(level, _, _) := get_node_path i index in
  let err := if level <? 0 then level else new_page o index in
  if nz err then (err, d)
  else
    let d := match pages d !! index with Some _ => d | None => d <| pages ::= <[index := zero_block]> |> end in
    (0, size_at_least (Z.shiftl (index + 1) PAGE_SHIFT) d).
(** The for loop of f2fs_add_regular_entry over the blocks of a bucket *)
Fixpoint add_bucket (n : nat) (o : io) (i : inode) (slots block : Z) (d : dir) : outcome (Z * option (Z * Z) * dir) :=
  match n with
  | O => Done (0, None, d)
  | S n =>
      let '(err, d) := f2fs_get_new_data_page o i block d in
      if nz err then Done (err, None, d)
      else
        match pages d !! block with
        | None => Bug
        | Some blk =>
            bit_pos <-- f2fs_room_for_filename (bitmap blk) slots NR_DENTRY_IN_BLOCK ;;
            if bit_pos <? NR_DENTRY_IN_BLOCK then Done (0, Some (block, bit_pos), d)
            else add_bucket n o i slots (block + 1) d
        end
  end.
(** [start:] of f2fs_add_regular_entry *)
Fixpoint add_levels (n : nat) (o : io) (i : inode) (dentry_hash slots level current_depth : Z) (d : dir)
    : outcome (Z * option (Z * Z * Z) * dir) :=
  match n with
  | O => NoFuel
  | S n =>
      if current_depth =? MAX_DIR_HASH_DEPTH then Done (- ENOSPC, None, d)
      else
        let current_depth := if level =? current_depth then current_depth + 1 else current_depth in
        let nbucket := dir_buckets level (i_dir_level d) in
        let nblock := bucket_blocks level in
        let bidx := dir_block_index level (i_dir_level d) (dentry_hash mod nbucket) in
        r <-- add_bucket (Z.to_nat nblock) o i slots bidx d ;;
        let '(err, found, d) := r in
        if nz err then Done (err, None, d)
        else
          match found with
          | Some (block, bit_pos) => Done (0, Some (block, bit_pos, current_depth), d)
          | None => add_levels n o i dentry_hash slots (level + 1) current_depth d
          end
  end.
Definition f2fs_update_parent_metadata (current_depth : Z) (d : dir) : dir :=
  if i_current_depth d =? current_depth then d else d <| i_current_depth := current_depth |>.
Definition f2fs_add_regular_entry (o : io) (i : inode) (new_name : list Z) (inum mode : Z) (d : dir) : outcome (Z * dir) :=
  let slots := GET_DENTRY_SLOTS (zlen new_name) in
  let dentry_hash := hash_of new_name in
  let current_depth := i_current_depth d in
  let level := if chash d =? dentry_hash then clevel d else 0 in
  let d := if chash d =? dentry_hash then d <| chash := 0 |> else d in
  r <-- add_levels (S (Z.to_nat MAX_DIR_HASH_DEPTH)) o i dentry_hash slots level current_depth d ;;
  let '(err, found, d) := r in
  match found with
  | None => Done (err, d)
  | Some (block, bit_pos, current_depth) =>
      if nz (metadata o) then Done (metadata o, d)
      else
        match pages d !! block with
        | None => Bug
        | Some blk =>
            let d := put_dentries (Some block) (f2fs_update_dentry inum mode blk new_name dentry_hash bit_pos) d in
            Done (0, f2fs_update_parent_metadata current_depth d)
        end
  end.

(** ** The inline area *)

Definition f2fs_move_inline_dirents (o : io) (blk : dentry_ptr) (d : dir) : Z * dir :=
  let err := new_page o 0 in
  if nz err then (err, d)
  else
    let dst := stale o in
    let dst := mk_dp NR_DENTRY_IN_BLOCK SIZE_OF_DENTRY_BITMAP (Z.land (bitmap blk) (Z.ones (8 * nr_bitmap blk)))
                 (blit (dentry dst) 0 (slice (dentry blk) 0 (d_max blk)))
                 (blit (filename dst) 0 (slice (filename blk) 0 (d_max blk * F2FS_SLOT_LEN))) in
    (0, size_at_least PAGE_SIZE (d <| inline_dentry := None |> <| pages ::= <[0 := dst]> |> <| i_current_depth := 1 |>)).
(** The loop of f2fs_add_inline_entries; [blk] is the backup of the area. *)
Fixpoint f2fs_add_inline_entries (n : nat) (o : io) (i : inode) (blk : dentry_ptr) (bit_pos : Z) (d : dir) : outcome (Z * dir) :=
  match n with
  | O => NoFuel
  | S n =>
      if d_max blk <=? bit_pos then Done (0, d)
      else if negb (test_bit bit_pos (bitmap blk)) then f2fs_add_inline_entries n o i blk (bit_pos + 1) d
      else
        let de := (dentry blk).[bit_pos] in
        if name_len de =? 0 then f2fs_add_inline_entries n o i blk (bit_pos + 1) d
        else
          let fake_mode := Z.shiftl (f2fs_get_de_type de) S_SHIFT in
          r <-- f2fs_add_regular_entry (no_metadata o) i (stored_name blk bit_pos) (ino de) fake_mode d ;;
          let '(err, d) := r in
          if nz err then Done (err, d <| pages ::= rollback o |>)
          else f2fs_add_inline_entries n o i blk (bit_pos + GET_DENTRY_SLOTS (name_len de)) d
  end.
Definition f2fs_move_rehashed_dirents (o : io) (i : inode) (blk : dentry_ptr) (d : dir) : outcome (Z * dir) :=
  if negb (kmalloc_ok o) then Done (- ENOMEM, d)
  else
    r <-- f2fs_add_inline_entries (S (Z.to_nat (d_max blk))) o i blk 0 (d <| inline_dentry := Some (zero_inline i) |>) ;;
    let '(err, d) := r in
    if nz err then
      Done (err, d <| inline_dentry := Some blk |> <| i_current_depth := 0 |> <| i_size := MAX_INLINE_DATA i |>)
    else Done (0, d <| inline_dentry := None |>).
Definition f2fs_convert_inline_dir (o : io) (i : inode) (blk : dentry_ptr) (d : dir) : outcome (Z * dir) :=
  if i_dir_level d =? 0 then Done (f2fs_move_inline_dirents o blk d) else f2fs_move_rehashed_dirents o i blk d.
Definition f2fs_add_inline_entry (o : io) (i : inode) (new_name : list Z) (inum mode : Z) (blk : dentry_ptr) (d : dir) : outcome (Z * dir) :=
  if nz (node_page o) then Done (node_page o, d)
  else
    bit_pos <-- f2fs_room_for_filename (bitmap blk) (GET_DENTRY_SLOTS (zlen new_name)) (d_max blk) ;;
    if d_max blk <=? bit_pos then
      r <-- f2fs_convert_inline_dir o i blk d ;;
      let '(err, d) := r in
      if nz err then Done (err, d) else Done (- EAGAIN, d)
    else if nz (metadata o) then Done (metadata o, d)
    else
      let d := put_dentries None (f2fs_update_dentry inum mode blk new_name (hash_of new_name) bit_pos) d in
      Done (0, f2fs_update_parent_metadata 0 d).
Definition f2fs_add_dentry (o : io) (i : inode) (new_name : list Z) (inum mode : Z) (d : dir) : outcome (Z * dir) :=
  r <-- match inline_dentry d with Some blk => f2fs_add_inline_entry o i new_name inum mode blk d | None => Done (- EAGAIN, d) end ;;
  if fst r =? - EAGAIN then f2fs_add_regular_entry o i new_name inum mode (snd r) else Done r.
Definition f2fs_do_add_link (o : io) (current : Z) (i : inode) (name : list Z) (inum mode : Z) (d : dir) : outcome (Z * dir) :=
  r <-- (if negb (current =? task d) then
           r <-- __f2fs_find_entry o current name d ;;
           let '(de, err, d) := r in Done (de, err, d <| task := 0 |>)
         else Done (None, 0, d)) ;;
  let '(de, err, d) := r in
  if isSome de then Done (- EEXIST, d)
  else if nz err then Done (err, d)
  else f2fs_add_dentry o i name inum mode d.

(** ** The other operations *)

Definition make_empty_dir (o : io) (i : inode) (inum mode parent_ino parent_mode : Z) (d : dir) : Z * dir :=
  match inline_dentry d with
  | Some blk =>
      (0, size_at_least (MAX_INLINE_DATA i) (put_dentries None (f2fs_do_make_empty_dir inum mode parent_ino parent_mode blk) d))
  | None =>
      let '(err, d) := f2fs_get_new_data_page o i 0 d in
      if nz err then (err, d)
      else match pages d !! 0 with
           | Some blk => (0, put_dentries (Some 0) (f2fs_do_make_empty_dir inum mode parent_ino parent_mode blk) d)
           | None => (0, d)
           end
  end.
Definition f2fs_set_link (l : loc) (inum mode : Z) (d : dir) : dir :=
  match dentries_at (fst l) d with Some blk => put_dentries (fst l) (set_link (snd l) inum mode blk) d | None => d end.
Definition f2fs_delete_inline_entry (pos : Z) (blk : dentry_ptr) (d : dir) : dir :=
  put_dentries None (clear_slots pos (GET_DENTRY_SLOTS (name_len (dentry blk).[pos])) blk) d.
Definition f2fs_delete_entry (o : io) (l : loc) (d : dir) : dir :=
  match inline_dentry d, l with
  | Some blk, (_, pos) => f2fs_delete_inline_entry pos blk d
  | None, (Some b, pos) =>
      match pages d !! b with
      | Some blk =>
          let blk := clear_slots pos (GET_DENTRY_SLOTS (name_len (dentry blk).[pos])) blk in
          let d := put_dentries (Some b) blk d in
          if (find_next_bit (bitmap blk) NR_DENTRY_IN_BLOCK 0 =? NR_DENTRY_IN_BLOCK) && negb (nz (truncate_hole o b))
          then d <| pages ::= delete b |> else d
      | None => d
      end
  | None, _ => d
  end.

(** the for loop of f2fs_empty_dir *)
Fixpoint empty_blocks (n : nat) (o : io) (d : dir) (bidx : Z) : bool :=
  match n with
  | O => true
  | S n =>
      if nz (rd_page o bidx) then false
      else
        match pages d !! bidx with
        | None => empty_blocks n o d (bidx + 1)
        | Some blk =>
            let bit_pos := find_next_bit (bitmap blk) NR_DENTRY_IN_BLOCK (if bidx =? 0 then 2 else 0) in
            if bit_pos <? NR_DENTRY_IN_BLOCK then false else empty_blocks n o d (bidx + 1)
        end
  end.
Definition f2fs_empty_inline_dir (o : io) (blk : dentry_ptr) : bool :=
  if nz (node_page o) then false else negb (find_next_bit (bitmap blk) (d_max blk) 2 <? d_max blk).
Definition f2fs_empty_dir (o : io) (d : dir) : bool :=
  match inline_dentry d with
  | Some blk => f2fs_empty_inline_dir o blk
  | None => empty_blocks (Z.to_nat (dir_blocks d)) o d 0
  end.

Definition f2fs_read_inline_dir (o : io) (emit : list dirent -> dirent -> bool) (blk : dentry_ptr) (pos : Z) : outcome (Z * Z * list dirent) :=
  if pos =? d_max blk then Done (0, pos, [])
  else if nz (node_page o) then Done (node_page o, pos, [])
  else
    r <-- f2fs_fill_dentries emit pos blk 0 [] ;;
    let '(err, pos, out) := r in
    Done (0, if nz err then pos else d_max blk, out).
(** the for loop of f2fs_readdir: the error, ctx->pos and what was emitted *)
Fixpoint read_blocks (k : nat) (o : io) (emit : list dirent -> dirent -> bool) (d : dir) (n pos : Z) (out : list dirent)
    : outcome (Z * Z * list dirent) :=
  match k with
  | O => NoFuel
  | S k =>
      if dir_blocks d <=? n then Done (0, pos, out)
      else if interrupted o n then Done (- ERESTARTSYS, pos, out)
      else if nz (rd_page o n) then Done (rd_page o n, pos, out)
      else
        let next := u32 (u32 (n + 1) * NR_DENTRY_IN_BLOCK) in
        match pages d !! n with
        | None => read_blocks k o emit d (u32 (n + 1)) next out
        | Some blk =>
            r <-- f2fs_fill_dentries emit pos blk (u32 (n * NR_DENTRY_IN_BLOCK)) out ;;
            let '(err, pos, out) := r in
            if nz err then Done (0, pos, out) else read_blocks k o emit d (u32 (n + 1)) next out
        end
  end.
Definition f2fs_readdir (o : io) (emit : list dirent -> dirent -> bool) (pos : Z) (d : dir) : outcome (Z * Z * list dirent) :=
  match inline_dentry d with
  | Some blk => f2fs_read_inline_dir o emit blk pos
  | None =>
      let n := u32 (pos / NR_DENTRY_IN_BLOCK) in
      read_blocks (S (Z.to_nat (dir_blocks d - n))) o emit d n pos []
  end.
End dir.

(** ** The invariant

    [E l] is the map of the entries in the inline area ([None]) or in a block. *)

Definition entries : Type := option Z -> gmap Z dent.
Definition eput (E : entries) (l : option Z) (m : gmap Z dent) : entries := fun l' => if decide (l' = l) then m else E l'.
Lemma eput_eq E l m : eput E l m l = m.
Proof. unfold eput. by rewrite decide_True. Qed.
Lemma eput_ne E l l' m : l' <> l -> eput E l m l' = E l'.
Proof. intros. unfold eput. by rewrite decide_False. Qed.
Abbreviation contents := (gmap (list Z) (Z * Z)).

Section spec.
Context `{DirFormatOk} `{BitSearchOk} `{FscryptOk} `{NodeFormatOk}.
Context (i : inode) (Hi : 0 <= addrs_per_inode i <= 1024).
Context (Hinl : 2 <= NR_INLINE_DENTRY i <= NR_DENTRY_IN_BLOCK) (Hinl2 : 0 <= MAX_INLINE_DATA i <= 4096).

Definition type_ok (ty : Z) : Prop := ty = 0 \/ exists t, ty = F2FS_FT t.
Definition at_name (E : entries) (n : list Z) (l : option Z) (p : Z) (e : dent) : Prop := E l !! p = Some e /\ e_name e = n.
Definition dent_ok (e : dent) : Prop := e_hash e = hash_of (e_name e) /\ type_ok (e_type e) /\ u32 (e_ino e) = e_ino e.
(** The entries are those of [C], one for each name. *)
Record names_ok (E : entries) (C : contents) : Prop := {
  no_one l p e l' p' e' : E l !! p = Some e -> E l' !! p' = Some e' -> e_name e = e_name e' -> l = l' /\ p = p';
  no_entry l p e : E l !! p = Some e -> dent_ok e;
  no_in l p e : E l !! p = Some e -> C !! (e_name e) = Some (e_ino e, e_type e);
  no_out n v : C !! n = Some v -> exists l p e, at_name E n l p e;
}.
(** Block [b] is in the bucket of [hash] on [level]. *)
Definition in_bucket (dir_level hash level b : Z) : Prop :=
  let bidx := dir_block_index level dir_level (hash mod dir_buckets level dir_level) in
  bidx <= b < bidx + bucket_blocks level.
Record pages_ok (d : dir) (E : entries) : Prop := {
  po_page b blk : pages d !! b = Some blk ->
    dentries_ok blk (E (Some b)) /\ d_max blk = NR_DENTRY_IN_BLOCK /\ 0 <= b < dir_blocks d /\ b < 2147483648;
  po_none b : pages d !! b = None -> E (Some b) = ∅;
  po_home b p e : E (Some b) !! p = Some e ->
    exists level, 0 <= level < i_current_depth d /\ in_bucket (i_dir_level d) (e_hash e) level b;
  po_depth : 0 <= clevel d <= i_current_depth d /\ i_current_depth d <= MAX_DIR_HASH_DEPTH;
  po_size : 0 <= i_size d <= 2 ^ 44;
  po_level : 0 <= i_dir_level d < 256;
}.
Definition inline_ok (d : dir) (blk : dentry_ptr) (E : entries) : Prop :=
  dentries_ok blk (E None) /\ d_max blk = NR_INLINE_DENTRY i /\ nr_bitmap blk = INLINE_DENTRY_BITMAP_SIZE i /\
  pages d = ∅ /\ (forall b, E (Some b) = ∅) /\ clevel d = 0 /\ 0 <= i_current_depth d <= 1 /\ 0 <= i_size d <= 2 ^ 44 /\ 0 <= i_dir_level d < 256.
Definition first_block (d : dir) : option Z := match inline_dentry d with Some _ => None | None => Some 0 end.
Definition dots_first (E : entries) (l : option Z) : Prop := (exists e, at_name E DOT l 0 e) /\ exists e, at_name E DOTDOT l 1 e.
Record dir_ok (d : dir) (E : entries) (C : contents) : Prop := {
  di_names : names_ok E C;
  di_where : match inline_dentry d with Some blk => inline_ok d blk E | None => pages_ok d E /\ E None = ∅ end;
  di_dots : dots_first E (first_block d);
}.
Definition dir_rep (d : dir) (C : contents) : Prop := exists E, dir_ok d E C.
(** Error numbers the operations do not give a meaning of their own. *)
(** No error is -EAGAIN, a page has its size, and the undoing of a conversion succeeds. *)
Record io_ok (o : io) : Prop := {
  io_err e : (exists b, e = rd_page o b \/ e = new_page o b) \/ e = node_page o \/ e = metadata o -> e <> - EAGAIN;
  io_stale : zlen (dentry (stale o)) = NR_DENTRY_IN_BLOCK /\ zlen (filename (stale o)) = NR_DENTRY_IN_BLOCK * F2FS_SLOT_LEN;
  io_rollback m : rollback o m = ∅;
}.

(** ** Names *)

Lemma names_lookup E C l p e : names_ok E C -> E l !! p = Some e -> C !! (e_name e) <> None.
Proof. intros K Ee. by rewrite (no_in E C K l p e Ee). Qed.
Lemma names_add E C l p e : names_ok E C -> E l !! p = None -> C !! (e_name e) = None -> dent_ok e ->
  names_ok (eput E l (<[p := e]> (E l))) (<[e_name e := (e_ino e, e_type e)]> C).
Proof.
  intros K Ep Ec He.
  assert (forall l' p' f, eput E l (<[p := e]> (E l)) l' !! p' = Some f -> l' = l /\ p' = p /\ f = e \/ E l' !! p' = Some f /\ e_name f <> e_name e) as Hcase.
  { intros l' p' f. unfold eput. destruct (decide (l' = l)) as [->|].
    - intros [[<- <-]|[Hne Ef]]%lookup_insert_Some; [by left|right]. split; [done|]. intros En. by rewrite <- En, (no_in E C K l p' f Ef) in Ec.
    - intros Ef. right. split; [done|]. intros En. by rewrite <- En, (no_in E C K l' p' f Ef) in Ec. }
  split.
  - intros l1 p1 e1 l2 p2 e2 [(-> & -> & ->)|[E1 N1]]%Hcase [(-> & -> & ->)|[E2 N2]]%Hcase Hn; [done|congruence|congruence|by apply (no_one E C K l1 p1 e1 l2 p2 e2)].
  - intros l1 p1 e1 [(-> & -> & ->)|[E1 N1]]%Hcase; [done|]. by apply (no_entry E C K l1 p1).
  - intros l1 p1 e1 [(-> & -> & ->)|[E1 N1]]%Hcase; [by rewrite lookup_insert_eq|]. rewrite lookup_insert_ne by done. by apply (no_in E C K l1 p1).
  - intros n v [[<- <-]|[Hne Ev]]%lookup_insert_Some.
    + exists l, p, e. split; [|done]. by rewrite eput_eq, lookup_insert_eq.
    + destruct (no_out E C K n v Ev) as (l' & p' & f & Ef & En). exists l', p', f. split; [|done]. unfold eput.
      destruct (decide (l' = l)) as [->|]; [|done]. rewrite lookup_insert_ne; [done|]. by intros <-; rewrite Ep in Ef.
Qed.
Lemma names_remove E C l p e : names_ok E C -> E l !! p = Some e -> names_ok (eput E l (delete p (E l))) (delete (e_name e) C).
Proof.
  intros K Ee.
  assert (forall l' p' f, eput E l (delete p (E l)) l' !! p' = Some f <-> E l' !! p' = Some f /\ e_name f <> e_name e) as Hcase.
  { intros l' p' f. unfold eput. destruct (decide (l' = l)) as [->|Hl].
    - rewrite lookup_delete_Some. split.
      + intros [Hne Ef]. split; [done|]. intros En. by destruct (no_one E C K l p' f l p e Ef Ee En) as [_ ->].
      + intros [Ef Hne]. split; [|done]. intros <-. congruence.
    - split; [|by intros [? _]]. intros Ef. split; [done|]. intros En. destruct (no_one E C K l' p' f l p e Ef Ee En). done. }
  split.
  - intros l1 p1 e1 l2 p2 e2 [E1 _]%Hcase [E2 _]%Hcase. by apply (no_one E C K).
  - intros l1 p1 e1 [E1 _]%Hcase. by apply (no_entry E C K l1 p1).
  - intros l1 p1 e1 [E1 N1]%Hcase. rewrite lookup_delete_ne by done. by apply (no_in E C K l1 p1).
  - intros n v [Hne Ev]%lookup_delete_Some. destruct (no_out E C K n v Ev) as (l' & p' & f & Ef & En). exists l', p', f.
    split; [|done]. apply Hcase. split; [done|]. by rewrite En.
Qed.
Lemma names_relink E C l p e ino ty : names_ok E C -> E l !! p = Some e -> type_ok ty -> u32 ino = ino ->
  names_ok (eput E l (<[p := mk_dent (e_name e) (e_hash e) ino ty]> (E l))) (<[e_name e := (ino, ty)]> C).
Proof.
  intros K Ee Ht Hu. destruct (no_entry E C K l p e Ee) as [Eh _].
  pose proof (names_add (eput E l (delete p (E l))) (delete (e_name e) C) l p (mk_dent (e_name e) (e_hash e) ino ty)
                (names_remove E C l p e K Ee)) as A.
  cbn [e_name e_hash e_ino e_type] in A. rewrite eput_eq, insert_delete_eq, insert_delete_eq, lookup_delete_eq in A.
  specialize (A eq_refl (lookup_delete_eq _ _) (conj Eh (conj Ht Hu))).
  destruct A as [A1 A2 A3 A4]. assert (forall l', eput (eput E l (delete p (E l))) l (<[p:=mk_dent (e_name e) (e_hash e) ino ty]> (E l)) l' =
    eput E l (<[p:=mk_dent (e_name e) (e_hash e) ino ty]> (E l)) l') as X by (intros l'; unfold eput; by destruct (decide (l' = l))).
  split; intros *; rewrite <- ?X; [apply A1|apply A2|apply A3|].
  intros Ev. destruct (A4 n v Ev) as (l' & p' & f & Ef & En). exists l', p', f. split; [|done]. by rewrite <- X.
Qed.

(** ** Lookup *)

(** Only the hints for the next creation differ. *)
Record same_dir (d d' : dir) : Prop := {
  sd_inline : inline_dentry d' = inline_dentry d; sd_pages : pages d' = pages d; sd_size : i_size d' = i_size d;
  sd_depth : i_current_depth d' = i_current_depth d; sd_level : i_dir_level d' = i_dir_level d;
  sd_clevel : clevel d' = clevel d \/ 0 <= clevel d' < i_current_depth d;
}.
Lemma same_dir_refl d : same_dir d d.
Proof. by split; try left. Qed.
Lemma same_dir_trans d1 d2 d3 : same_dir d1 d2 -> same_dir d2 d3 -> same_dir d1 d3.
Proof. intros [A1 A2 A3 A4 A5 A6] [B1 B2 B3 B4 B5 B6]. split; try congruence. rewrite A4 in B6. destruct B6 as [->|]; [done|by right]. Qed.
Lemma pages_same d d' E : same_dir d d' -> pages_ok d E -> pages_ok d' E.
Proof.
  intros [A1 A2 A3 A4 A5 A6] [B1 B2 B3 B4 B5 B6]. split; rewrite ?A2, ?A4, ?A5, ?A3; try done.
  - intros b blk Eb. unfold dir_blocks. rewrite A3. by apply B1.
  - destruct A6 as [->|]; [done|lia].
Qed.

Definition found_at (E : entries) (name : list Z) (l : loc) : Prop := exists e, at_name E name (fst l) (snd l) e.
Lemma at_hash E C name l p e : names_ok E C -> at_name E name l p e -> matches name (hash_of name) e.
Proof. intros K [Ee En]. split; [done|]. destruct (no_entry E C K l p e Ee) as [Eh _]. by rewrite Eh, En. Qed.

(** An error of a lookup is one of a read. *)
Definition read_error (o : io) (err : Z) : Prop := err = 0 \/ (exists b, err = rd_page o b) \/ err = node_page o.
Lemma scan_bucket_ok o d E C name s n bidx room : names_ok E C -> pages_ok d E -> 0 <= bidx < 4294967296 ->
  exists r err room', scan_bucket n o d name (hash_of name) s bidx room = Done (r, err, room') /\ read_error o err /\
    match r with
    | Some l => err = 0 /\ found_at E name l
    | None => err = 0 -> forall b p e, bidx <= b < bidx + Z.of_nat n -> b < 2147483648 -> ~ at_name E name (Some b) p e
    end.
Proof.
  intros N K. revert bidx room. induction n as [|n IH]; intros bidx room Hb; cbn [scan_bucket].
  { eexists _, _, _. split; [done|]. split; [by left|]. intros _ b p e Hb'. lia. }
  destruct (nz (rd_page o bidx)) eqn:Enz.
  { eexists _, _, _. split; [done|]. split; [right; left; by exists bidx|]. intros E0. rewrite E0 in Enz. done. }
  assert (forall room, (forall p e, ~ at_name E name (Some bidx) p e) ->
    exists r err room', scan_bucket n o d name (hash_of name) s (u32 (bidx + 1)) room = Done (r, err, room') /\ read_error o err /\
    match r with
    | Some l => err = 0 /\ found_at E name l
    | None => err = 0 -> forall b p e, bidx <= b < bidx + Z.of_nat (S n) -> b < 2147483648 -> ~ at_name E name (Some b) p e
    end) as Hnext.
  { intros room1 Hno. destruct (IH (u32 (bidx + 1)) room1 (u32_range _)) as (r & err & room' & Er & Rd & R). exists r, err, room'.
    split; [exact Er|]. split; [exact Rd|]. destruct r as [l|]; [done|]. intros E0 b p e Hb1 Hb2. destruct (decide (b = bidx)) as [->|]; [apply Hno|].
    apply R; try done. rewrite u32_id; lia. }
  destruct (pages d !! bidx) as [blk|] eqn:Eb.
  - destruct (po_page d E K bidx blk Eb) as (Kb & _). destruct (find_target_ok blk _ name (hash_of name) true Kb) as (r & ms & Er & R).
    rewrite Er. cbn [obind fst snd]. destruct r as [p|].
    + destruct R as (e & Ee & En & _). eexists _, _, _. split; [done|]. split; [by left|]. split; [done|]. by exists e.
    + apply Hnext. intros p e Hat. apply (R p e); [apply Hat|]. by apply (at_hash E C name (Some bidx) p).
  - apply Hnext. intros p e [Ee _]. rewrite (po_none d E K bidx Eb) in Ee. done.
Qed.
Lemma find_in_level_ok o level d E C name : names_ok E C -> pages_ok d E -> 0 <= level < i_current_depth d ->
  exists r err d', find_in_level o level name d = Done (r, err, d') /\ same_dir d d' /\ read_error o err /\
    match r with
    | Some l => err = 0 /\ found_at E name l
    | None => err = 0 -> forall b p e, in_bucket (i_dir_level d) (hash_of name) level b -> ~ at_name E name (Some b) p e
    end.
Proof.
  intros N K Hl. unfold find_in_level. set (nb := dir_buckets _ _). set (idx := dir_block_index _ _ _).
  set (cnt := Z.to_nat _). destruct (scan_bucket_ok o d E C name (GET_DENTRY_SLOTS (zlen name)) cnt (u32 idx) false N K (u32_range _))
    as (r & err & room & Er & Rd & R). rewrite Er. cbn [obind]. eexists r, err, _. split; [done|]. split.
  { destruct (_ && _); [|apply same_dir_refl]. split; try done. by right. }
  split; [done|]. destruct r as [l|]; [done|]. intros E0 b p e Hbk Hat. unfold in_bucket in Hbk. fold nb in Hbk. fold idx in Hbk.
  assert (exists blk, pages d !! b = Some blk) as [blk Eb].
  { destruct (pages d !! b) as [blk|] eqn:Eb; [by exists blk|]. destruct Hat as [Ee _]. by rewrite (po_none d E K b Eb) in Ee. }
  destruct (po_page d E K b blk Eb) as (_ & _ & Hb1 & Hb2).
  assert (0 <= idx) by (apply u64_range). assert (0 < bucket_blocks level <= 4) by (unfold bucket_blocks; destruct (_ <? _); lia).
  apply (R E0 b p e); [|done|done]. subst cnt. rewrite (u32_id idx) by lia. rewrite (u32_id (idx + _)) by lia. lia.
Qed.
Lemma find_levels_ok o n level d E C name : names_ok E C -> pages_ok d E -> 0 <= level -> level + Z.of_nat n <= i_current_depth d ->
  exists r err d', find_levels n o level name d = Done (r, err, d') /\ same_dir d d' /\ read_error o err /\
    match r with
    | Some l => err = 0 /\ found_at E name l
    | None => err = 0 -> forall lv b p e, level <= lv < level + Z.of_nat n -> in_bucket (i_dir_level d) (hash_of name) lv b -> ~ at_name E name (Some b) p e
    end.
Proof.
  intros N. revert level d. induction n as [|n IH]; intros level d K Hl Hn; cbn [find_levels].
  { eexists None, 0, d. split; [done|]. split; [apply same_dir_refl|]. split; [by left|]. intros _ lv b p e Hlv. lia. }
  destruct (find_in_level_ok o level d E C name N K ltac:(lia)) as (r & err & d' & Er & Sd & Rd & R). rewrite Er. cbn [obind].
  destruct r as [l|]; cbn [isSome orb].
  { eexists _, _, _. split; [done|]. by split. }
  destruct (nz err) eqn:Enz.
  { eexists _, _, _. split; [done|]. split; [done|]. split; [done|]. intros E0. by rewrite E0 in Enz. }
  assert (err = 0) as E0 by (unfold nz in Enz; lia). specialize (R E0). destruct Sd as [S1 S2 S3 S4 S5 S6].
  destruct (IH (level + 1) d' (pages_same d d' E ltac:(by split) K) ltac:(lia) ltac:(lia)) as (r2 & err2 & d2 & Er2 & Sd2 & Rd2 & R2).
  exists r2, err2, d2. split; [exact Er2|]. split; [apply (same_dir_trans d d'); [by split|done]|]. split; [done|].
  destruct r2; [done|]. intros E2 lv b p e Hlv Hbk. destruct (decide (lv = level)) as [->|]; [by apply R|].
  rewrite <- S5 in Hbk. apply (R2 E2 lv b p e); [lia|done].
Qed.

(** A changed hint does not matter to the invariant. *)
Lemma dir_same d d' E C : same_dir d d' -> i_current_depth d = 0 \/ inline_dentry d = None \/ clevel d' = clevel d -> dir_ok d E C -> dir_ok d' E C.
Proof.
  intros Sd Hc [N W D]. pose proof Sd as [S1 S2 S3 S4 S5 S6]. split; [done| |by unfold first_block; rewrite S1].
  rewrite S1. destruct (inline_dentry d) as [blk|].
  - destruct W as (W1 & W2 & W3 & W4 & W5 & W6 & W7 & W8 & W9). unfold inline_ok. rewrite S2, S3, S4, S5. split_and!; try done; try lia.
  - destruct W as [W1 W2]. split; [|done]. by apply (pages_same d).
Qed.
Lemma no_pages d E : pages_ok d E -> dir_blocks d = 0 -> forall b, E (Some b) = ∅.
Proof.
  intros K E0 b. destruct (pages d !! b) as [blk|] eqn:Eb; [|by apply (po_none d E K)].
  destruct (po_page d E K b blk Eb) as (_ & _ & Hb & _). lia.
Qed.
Definition find_result (o : io) (E : entries) (C : contents) (name : list Z) (r : option loc) (err : Z) : Prop :=
  read_error o err /\
  match r with
  | Some l => err = 0 /\ found_at E name l
  | None => err = 0 -> C !! name = None
  end.
Lemma absent E C name : names_ok E C -> (forall l p e, ~ at_name E name l p e) -> C !! name = None.
Proof. intros N Hno. destruct (C !! name) as [v|] eqn:Ev; [|done]. destruct (no_out E C N name v Ev) as (l & p & e & Hat). by destruct (Hno l p e). Qed.
(** A lookup finds the name if the directory has it, unless a read fails. *)
Lemma find_entry_ok o current name d E C : dir_ok d E C ->
  exists r err d', __f2fs_find_entry o current name d = Done (r, err, d') /\ dir_ok d' E C /\
    inline_dentry d' = inline_dentry d /\ pages d' = pages d /\ find_result o E C name r err.
Proof.
  intros K. pose proof K as [N W D]. unfold __f2fs_find_entry.
  assert (forall r err d1, same_dir d d1 -> inline_dentry d = None \/ clevel d1 = clevel d -> find_result o E C name r err ->
    exists r' err' d', Done (r, err, if isSome r then d1 else d1 <| task := current |>) = Done (r', err', d') /\ dir_ok d' E C /\
      inline_dentry d' = inline_dentry d /\ pages d' = pages d /\ find_result o E C name r' err') as Hend.
  { intros r err d1 Sd Hc R. eexists r, err, _. split; [done|].
    assert (same_dir d (if isSome r then d1 else d1 <| task := current |>) /\
      clevel (if isSome r then d1 else d1 <| task := current |>) = clevel d1) as [Sd' Ec] by (destruct r; [done|destruct Sd; by split]).
    split; [apply (dir_same d); [done| |done]; rewrite Ec; by right|]. destruct Sd' as [-> ->]. done. }
  destruct (inline_dentry d) as [blk|].
  - unfold f2fs_find_in_inline_dir. destruct (nz (node_page o)) eqn:Enz; cbn [obind].
    + apply Hend; [apply same_dir_refl|by right|]. split; [by right; right|]. intros E0. rewrite E0 in Enz. done.
    + destruct W as (Kb & _ & _ & _ & W5 & _). destruct (find_target_ok blk _ name (hash_of name) false Kb) as (r & ms & Er & R).
      rewrite Er. cbn [obind fst]. apply Hend; [apply same_dir_refl|by right|]. split; [by left|]. destruct r as [p|].
      * destruct R as (e & Ee & En & _). split; [done|]. by exists e.
      * intros _. apply (absent E C); [done|]. intros [b|] p e Hat; [destruct Hat as [Ee _]; by rewrite W5 in Ee|].
        apply (R p e); [apply Hat|by apply (at_hash E C name None p)].
  - destruct W as [W E0]. destruct (Z.eqb_spec (dir_blocks d) 0) as [Ez|Ez]; cbn [obind].
    + apply Hend; [apply same_dir_refl|by left|]. split; [by left|]. intros _. apply (absent E C); [done|].
      intros [b|] p e [Ee _]; [by rewrite (no_pages d E W Ez) in Ee|by rewrite E0 in Ee].
    + pose proof (po_depth d E W) as [Hd1 Hd2]. replace (MAX_DIR_HASH_DEPTH <? i_current_depth d) with false by lia.
      destruct (find_levels_ok o (Z.to_nat (i_current_depth d)) 0 d E C name N W) as (r & err & d1 & Er & Sd & Rd & R); [lia|lia|].
      rewrite Er. cbn [obind]. apply Hend; [done|by left|]. split; [done|]. destruct r as [l|]; [done|]. intros Eerr. apply (absent E C); [done|].
      intros [b|] p e Hat; [|destruct Hat as [Ee _]; by rewrite E0 in Ee]. pose proof Hat as [Ee En].
      destruct (po_home d E W b p e Ee) as (lv & Hlv & Hbk). destruct (no_entry E C N (Some b) p e Ee) as [Eh _]. rewrite Eh, En in Hbk.
      apply (R Eerr lv b p e); [lia|done|done].
Qed.

(** ** Adding to the hash table *)

Lemma node_path_bound b level o n : get_node_path i b = (level, o, n) -> 0 <= level -> b < 2147483648.
Proof.
  pose proof addrs_range as HA. pose proof nids_range as HN. unfold get_node_path.
  set (A := ADDRS_PER_BLOCK) in *. set (N := NIDS_PER_BLOCK) in *. assert (A * N <= 1048576) by nia. assert (A * N * N <= 1073741824) by nia.
  repeat match goal with |- context [?x <? ?y] => destruct (Z.ltb_spec x y); [intros _ _; lia|] end. intros Ep. assert (level = - E2BIG) by congruence. unfold E2BIG in *. lia.
Qed.
Lemma no_dentries_blank max bytes : 2 <= max <= 256 -> blank (no_dentries max bytes).
Proof.
  intros Hm. pose proof slot_len. split; [|done]. cbn [dentry filename d_max no_dentries]. rewrite !zlen_replicate, !Z2Nat.id by nia. done.
Qed.

(** Holes may have been filled with empty blocks, and the size may have grown. *)
Record grown (d d' : dir) : Prop := {
  gr_inline : inline_dentry d' = inline_dentry d; gr_depth : i_current_depth d' = i_current_depth d;
  gr_level : i_dir_level d' = i_dir_level d; gr_clevel : clevel d' = clevel d;
}.
Lemma grown_trans d1 d2 d3 : grown d1 d2 -> grown d2 d3 -> grown d1 d3.
Proof. intros [] []. split; congruence. Qed.
Lemma dir_blocks_mono d d' : 0 <= i_size d <= i_size d' -> i_size d' <= 2 ^ 44 -> dir_blocks d <= dir_blocks d'.
Proof.
  intros Hs Hs'. unfold dir_blocks, PAGE_SIZE. rewrite !u64_id by lia. rewrite !Z.shiftr_div_pow2 by (unfold PAGE_SHIFT; lia). apply Z.div_le_mono; unfold PAGE_SHIFT; lia.
Qed.
Lemma dir_blocks_size d b : 0 <= b -> Z.shiftl (b + 1) PAGE_SHIFT <= i_size d <= 2 ^ 44 -> b < dir_blocks d.
Proof.
  intros Hb. unfold dir_blocks, PAGE_SIZE, PAGE_SHIFT. rewrite Z.shiftl_mul_pow2 by lia. intros Hs. rewrite u64_id by lia.
  rewrite Z.shiftr_div_pow2 by lia. cut (b + 1 <= (i_size d + 4096 - 1) / 2 ^ 12); [lia|]. apply Z.div_le_lower_bound; lia.
Qed.
Lemma size_at_least_spec n d : pages (size_at_least n d) = pages d /\ grown d (size_at_least n d) /\ i_size (size_at_least n d) = Z.max (i_size d) n.
Proof. unfold size_at_least. destruct (Z.ltb_spec (i_size d) n); (split; [done|]; split; [by split|]); unfold upd; cbn; lia. Qed.
Lemma get_new_page_ok o idx d E : pages_ok d E -> 0 <= idx ->
  exists err d', f2fs_get_new_data_page o i idx d = (err, d') /\ grown d d' /\ pages_ok d' E /\
    (err = 0 -> exists blk, pages d' !! idx = Some blk /\ dentries_ok blk (E (Some idx)) /\ d_max blk = NR_DENTRY_IN_BLOCK /\
                            (pages d !! idx = None -> blk = zero_block)) /\
    (err = 0 \/ (exists b, err = new_page o b) \/ err = - E2BIG).
Proof.
  intros K Hi0. unfold f2fs_get_new_data_page. destruct (get_node_path i idx) as [[level oo] nn] eqn:Ep.
  destruct (nz (if level <? 0 then level else new_page o idx)) eqn:Enz.
  { eexists _, d. split; [done|]. split; [by split|]. split; [done|]. split; [intros E0; by rewrite E0 in Enz|].
    right. destruct (Z.ltb_spec level 0); [right|left; by exists idx].
    revert Ep. unfold get_node_path. repeat (destruct (_ <? _); [intros Ep; assert (level = 0 \/ level = 1 \/ level = 2 \/ level = 3) by naive_solver; lia|]).
    intros Ep. congruence. }
  assert (0 <= level) as Hl. { destruct (Z.ltb_spec level 0); [|done]. unfold nz in Enz. lia. }
  pose proof (node_path_bound idx level oo nn Ep Hl) as Hb. eexists 0, _. split; [done|].
  set (d1 := match pages d !! idx with Some _ => d | None => _ end).
  assert (grown d d1 /\ i_size d1 = i_size d) as [G Es] by (subst d1; destruct (pages d !! idx); by split).
  assert (exists blk, pages d1 !! idx = Some blk /\ dentries_ok blk (E (Some idx)) /\ d_max blk = NR_DENTRY_IN_BLOCK /\
    (pages d !! idx = None -> blk = zero_block)) as (blk & Eb & Kb & Mb & Zb).
  { subst d1. destruct (pages d !! idx) as [blk|] eqn:Eb.
    - exists blk. destruct (po_page d E K idx blk Eb) as (? & ? & _). by split_and!.
    - exists zero_block. unfold upd. cbn. rewrite lookup_insert_eq. split; [done|]. split; [|done]. rewrite (po_none d E K idx Eb).
      apply blank_ok, no_dentries_blank, nr_dentry_range. }
  assert (forall b, b <> idx -> pages d1 !! b = pages d !! b) as Hother.
  { intros b Hne. subst d1. destruct (pages d !! idx); [done|]. unfold upd. cbn. by apply lookup_insert_ne. }
  set (d2 := size_at_least _ d1). destruct (size_at_least_spec (Z.shiftl (idx + 1) PAGE_SHIFT) d1) as (Ep2 & G2 & Es2). fold d2 in Ep2, G2, Es2.
  pose proof (po_size d E K) as Hsz.
  assert (Z.shiftl (idx + 1) PAGE_SHIFT <= 2 ^ 44) as Hsh by (unfold PAGE_SHIFT; rewrite Z.shiftl_mul_pow2 by lia; lia).
  assert (i_size d <= i_size d2 <= 2 ^ 44 /\ Z.shiftl (idx + 1) PAGE_SHIFT <= i_size d2) as [Hs1 Hs2] by lia.
  pose proof (grown_trans d d1 d2 G G2) as G3. split; [done|]. split.
  - destruct G3 as [G31 G32 G33 G34]. split; rewrite ?G32, ?G33, ?G34, ?Ep2; try apply K; try lia.
    + intros b blk' Eb'. destruct (decide (b = idx)) as [->|Hne].
      * assert (blk' = blk) as -> by congruence. split_and!; try done. apply dir_blocks_size; lia.
      * rewrite Hother in Eb' by done. destruct (po_page d E K b blk' Eb') as (? & ? & ? & ?). split_and!; try done; try lia.
        pose proof (dir_blocks_mono d d2). lia.
    + intros b Eb'. destruct (decide (b = idx)) as [->|Hne]; [congruence|]. rewrite Hother in Eb' by done. by apply (po_none d E K).
  - rewrite Ep2. split; [|by left]. intros _. by exists blk.
Qed.
Lemma add_bucket_ok o slots n block d E : pages_ok d E -> 0 <= block -> 1 <= slots ->
  exists err found d', add_bucket n o i slots block d = Done (err, found, d') /\ grown d d' /\ pages_ok d' E /\
    (err = 0 \/ (exists b, err = new_page o b) \/ err = - E2BIG) /\
    match found with
    | Some (b, p) => err = 0 /\ block <= b < block + Z.of_nat n /\ exists blk, pages d' !! b = Some blk /\ 0 <= p /\ p + slots <= NR_DENTRY_IN_BLOCK /\
        forall j, p <= j < p + slots -> test_bit j (bitmap blk) = false
    | None => True
    end.
Proof.
  revert block d. induction n as [|n IH]; intros block d K Hb Hs; cbn [add_bucket].
  { eexists _, _, _. split; [done|]. split; [by split|]. split; [done|]. split; [by left|done]. }
  destruct (get_new_page_ok o block d E K Hb) as (err & d1 & Eg & G & K1 & Hpg & Herr). rewrite Eg.
  destruct (nz err) eqn:Enz. { eexists _, _, _. by split_and!. }
  assert (err = 0) as E0 by (unfold nz in Enz; lia). destruct (Hpg E0) as (blk & Eb & Kb & Mb & _). rewrite Eb.
  pose proof nr_dentry_range. destruct (room_ok (bitmap blk) slots NR_DENTRY_IN_BLOCK) as (r & Er & R); [lia..|]. rewrite Er. cbn [obind].
  destruct (Z.ltb_spec r NR_DENTRY_IN_BLOCK) as [Hr|Hr].
  - eexists _, _, _. split; [done|]. split; [done|]. split; [done|]. split; [by left|]. split; [done|]. split; [lia|].
    exists blk. split; [done|]. destruct R as [[-> _]|(R1 & R2 & R3 & _)]; [lia|done].
  - destruct (IH (block + 1) d1 K1 ltac:(lia) Hs) as (err2 & found & d2 & E2 & G2 & K2 & Herr2 & R2). rewrite E2.
    eexists _, _, _. split; [done|]. split; [by apply (grown_trans d d1)|]. split; [done|]. split; [done|].
    destruct found as [[b p]|]; [|done]. destruct R2 as (? & ? & ?). split; [done|]. split; [lia|done].
Qed.
Lemma bucket_blocks_pos level : 1 <= bucket_blocks level <= 4.
Proof. unfold bucket_blocks. destruct (_ <? _); lia. Qed.
(** The walk over the levels ends: each round that finds no room goes one level
    down, and the depth is at most MAX_DIR_HASH_DEPTH. *)
Lemma add_levels_ok o hash slots n level depth d E : pages_ok d E -> 1 <= slots -> 0 <= level <= depth -> depth <= MAX_DIR_HASH_DEPTH ->
  MAX_DIR_HASH_DEPTH - level < Z.of_nat n ->
  exists err found d', add_levels n o i hash slots level depth d = Done (err, found, d') /\ grown d d' /\ pages_ok d' E /\
    (err = 0 \/ (exists b, err = new_page o b) \/ err = - E2BIG \/ err = - ENOSPC) /\
    match found with
    | Some (b, p, depth') => err = 0 /\ depth <= depth' <= MAX_DIR_HASH_DEPTH /\
        (exists lv, level <= lv < depth' /\ in_bucket (i_dir_level d) hash lv b) /\
        exists blk, pages d' !! b = Some blk /\ 0 <= p /\ p + slots <= NR_DENTRY_IN_BLOCK /\
          forall j, p <= j < p + slots -> test_bit j (bitmap blk) = false
    | None => err <> 0
    end.
Proof.
  revert level depth d. induction n as [|n IH]; intros level depth d K Hs Hl Hd Hn; cbn [add_levels]; [lia|].
  destruct (Z.eqb_spec depth MAX_DIR_HASH_DEPTH) as [Hmax|Hmax].
  { eexists _, _, _. split; [done|]. split; [by split|]. split; [done|]. split; [by right; right; right|done]. }
  set (depth1 := if level =? depth then depth + 1 else depth).
  assert (depth <= depth1 <= MAX_DIR_HASH_DEPTH /\ level + 1 <= depth1) as [Hd1 Hd2] by (subst depth1; destruct (Z.eqb_spec level depth); lia).
  set (bidx := dir_block_index _ _ _). destruct (add_bucket_ok o slots (Z.to_nat (bucket_blocks level)) bidx d E K (proj1 (u64_range _)) Hs)
    as (err & found & d1 & E1 & G & K1 & Herr & R). rewrite E1. cbn [obind].
  destruct (nz err) eqn:Enz.
  { eexists _, _, _. split; [done|]. split; [done|]. split; [done|]. split; [|intros E0; by rewrite E0 in Enz]. destruct Herr as [?|[?|?]]; [by left|by right; left|by right; right; left]. }
  pose proof (bucket_blocks_pos level). destruct found as [[b p]|].
  - destruct R as (_ & Hb & R). eexists _, _, _. split; [done|]. split; [done|]. split; [done|]. split; [by left|].
    split; [done|]. split; [done|]. split; [|done]. exists level. split; [lia|]. unfold in_bucket. fold bidx. lia.
  - destruct (IH (level + 1) depth1 d1 K1 Hs ltac:(lia) ltac:(lia) ltac:(lia)) as (err2 & found & d2 & E2 & G2 & K2 & Herr2 & R2).
    eexists _, _, _. split; [done|]. split; [by apply (grown_trans d d1)|]. split; [done|]. split; [done|].
    destruct found as [[[b p] depth']|]; [|done]. destruct R2 as (? & ? & (lv & Hlv & Hbk) & Hblk). split; [done|]. split; [lia|]. split; [|done].
    exists lv. split; [lia|]. by rewrite <- (gr_level d d1 G).
Qed.

(** The first free slot of block 0 is [k], whatever the block holds there. *)
Definition next_slot (E : entries) (k : Z) : Prop :=
  0 <= k < NR_DENTRY_IN_BLOCK /\ forall blk, dentries_ok blk (E (Some 0)) -> (forall q, 0 <= q < k -> test_bit q (bitmap blk) = true) /\ test_bit k (bitmap blk) = false.
Lemma room_exact bm k max : 0 <= k < max -> (forall q, 0 <= q < k -> test_bit q bm = true) -> test_bit k bm = false ->
  f2fs_room_for_filename bm 1 max = Done k.
Proof.
  intros Hk Hset Hfree. destruct (room_ok bm 1 max ltac:(lia) ltac:(lia)) as (r & Er & R). rewrite Er. f_equal.
  destruct R as [[-> Hb]|(R1 & R2 & R3 & R4)].
  - destruct (Hb k) as (j & Hj & Hjt); [lia|lia|]. assert (j = k) as -> by lia. congruence.
  - destruct (Z.lt_trichotomy r k) as [Hl|[|Hl]]; [|done|].
    + specialize (R3 r ltac:(lia)). rewrite Hset in R3 by lia. done.
    + destruct (R4 k ltac:(lia)) as (j & Hj & Hjt). assert (j = k) as -> by lia. congruence.
Qed.
Lemma add_levels_first o n depth d E k : pages_ok d E -> next_slot E k ->
  forall err found d', add_levels n o i 0 1 0 depth d = Done (err, found, d') ->
  match found with Some (b, p, _) => b = 0 /\ p = k | None => True end.
Proof.
  intros K [Hk Hbits] err found d'. destruct n as [|n]; cbn [add_levels]; [done|]. destruct (depth =? _); [by intros [= <- <- <-]|].
  assert (dir_block_index 0 (i_dir_level d) (0 mod dir_buckets 0 (i_dir_level d)) = 0) as -> by done.
  destruct (Z.to_nat (bucket_blocks 0)) as [|m] eqn:Em; [pose proof (bucket_blocks_pos 0); lia|]. cbn [add_bucket].
  destruct (get_new_page_ok o 0 d E K ltac:(lia)) as (err1 & d1 & Eg & G & K1 & Hpg & Herr). rewrite Eg.
  destruct (nz err1) eqn:Enz; [cbn [obind]; rewrite Enz; by intros [= <- <- <-]|].
  destruct Hpg as (blk & Eb & Kb & Mb & _); [unfold nz in Enz; lia|]. rewrite Eb.
  destruct (Hbits blk Kb) as [Hb1 Hb2]. rewrite (room_exact (bitmap blk) k) by done. cbn [obind].
  replace (k <? NR_DENTRY_IN_BLOCK) with true by lia. cbn [obind]. by intros [= <- <- <-].
Qed.

#[local] Abbreviation type_of_mode mode := (f2fs_type_by_mode (Z.shiftr (Z.land mode S_IFMT) S_SHIFT)).
Definition new_dent (name : list Z) (inum mode : Z) : dent := mk_dent name (hash_of name) (u32 inum) (type_of_mode mode).
Lemma type_of_mode_ok mode : type_ok (type_of_mode mode).
Proof. unfold f2fs_type_by_mode. destruct (List.find _ _) as [t|]; [right; by exists t|by left]. Qed.
(** What an addition to the hash table did: nothing that matters when it failed,
    else one entry more. *)
Definition io_error (o : io) (err : Z) : Prop :=
  (exists b, err = new_page o b) \/ err = - E2BIG \/ err = - ENOSPC \/ err = metadata o.
Definition added (o : io) (E : entries) (name : list Z) (inum mode : Z) (err : Z) (d d' : dir) : Prop :=
  inline_dentry d' = inline_dentry d /\ i_dir_level d' = i_dir_level d /\ clevel d' = clevel d /\
  (err <> 0 /\ io_error o err /\ pages_ok d' E \/
   err = 0 /\ exists b p, E (Some b) !! p = None /\ pages_ok d' (eput E (Some b) (<[p := new_dent name inum mode]> (E (Some b)))) /\
     (hash_of name = 0 -> GET_DENTRY_SLOTS (zlen name) = 1 -> clevel d = 0 -> forall k, next_slot E k -> b = 0 /\ p = k)).
Lemma add_regular_ok o name inum mode d E : pages_ok d E -> name_ok name ->
  exists err d', f2fs_add_regular_entry o i name inum mode d = Done (err, d') /\ added o E name inum mode err d d'.
Proof.
  intros K Hname. unfold f2fs_add_regular_entry. destruct (name_slots name Hname) as [Hs _].
  set (level := if chash d =? hash_of name then clevel d else 0). set (d0 := if chash d =? hash_of name then d <| chash := 0 |> else d).
  destruct (po_depth d E K) as [Hd1 Hd2]. assert (0 <= level <= i_current_depth d) as Hl by (subst level; destruct (_ =? _); lia).
  assert (same_dir d d0 /\ clevel d0 = clevel d) as [Sd Ecl] by (subst d0; destruct (_ =? _); (split; [split|]; try done; by left)).
  pose proof (pages_same d d0 E Sd K) as K0. pose proof depth_max as Hdm.
  destruct (add_levels_ok o (hash_of name) (GET_DENTRY_SLOTS (zlen name)) (S (Z.to_nat MAX_DIR_HASH_DEPTH)) level (i_current_depth d) d0 E K0)
    as (err & found & d1 & E1 & G & K1 & Herr & R); [lia|done|done|lia|]. rewrite E1. cbn [obind].
  destruct G as [G1 G2 G3 G4]. destruct Sd as [S1 S2 S3 S4 S5 S6]. rewrite S1 in G1. rewrite S4 in G2. rewrite S5 in G3, R. rewrite Ecl in G4.
  destruct found as [[[b p] depth']|].
  2: { eexists _, _. split; [done|]. split_and!; try done. left. split; [done|]. split; [|done]. unfold io_error.
       destruct Herr as [?|[?|[?|?]]]; [done|by left|by right; left|by right; right; left]. }
  destruct R as (-> & Hdep & (lv & Hlv & Hbk) & blk & Eb & Hp & Hps & Hfree).
  destruct (nz (metadata o)) eqn:Enz.
  { eexists _, _. split; [done|]. split_and!; try done. left. split; [intros E0; by rewrite E0 in Enz|]. split; [by right; right; right|done]. }
  rewrite Eb. destruct (po_page d1 E K1 b blk Eb) as (Kb & Mb & Hb1 & Hb2).
  assert (E (Some b) !! p = None) as Ep.
  { destruct (E (Some b) !! p) as [e|] eqn:Ep; [|done]. pose proof (slots_pos blk _ p e Kb Ep).
    pose proof (do_set blk _ Kb p e p Ep ltac:(lia)) as Ht. rewrite Hfree in Ht by lia. done. }
  assert (p + GET_DENTRY_SLOTS (zlen name) <= d_max blk) as Hroom by lia.
  pose proof (update_dentry_ok blk _ Kb inum mode name (hash_of name) p Hname Hp Hroom Hfree) as Ku.
  destruct (update_spec blk _ Kb inum mode name (hash_of name) p Hname Hp Hroom) as (Um & _).
  eexists 0, _. split; [done|]. unfold put_dentries. set (d2 := d1 <| pages ::= _ |>).
  set (d3 := f2fs_update_parent_metadata depth' d2).
  assert (pages d3 = <[b := f2fs_update_dentry inum mode blk name (hash_of name) p]> (pages d1) /\ i_size d3 = i_size d1 /\
    i_current_depth d3 = depth' /\ inline_dentry d3 = inline_dentry d /\ i_dir_level d3 = i_dir_level d /\ clevel d3 = clevel d) as (P1 & P2 & P3 & P4 & P5 & P6).
  { subst d3 d2. unfold f2fs_update_parent_metadata. destruct (Z.eqb_spec (i_current_depth (d1 <| pages ::= <[b:=f2fs_update_dentry inum mode blk name (hash_of name) p]> |>)) depth') as [Ed|]; by split_and!. }
  assert (dir_blocks d3 = dir_blocks d1) as P7 by (unfold dir_blocks; by rewrite P2).
  split_and!; [done|done|done|]. right. split; [done|]. exists b, p. split; [done|]. split.
  - split; rewrite ?P1, ?P2, ?P3, ?P5, ?P6.
    + intros b' blk' [[<- <-]|[Hne Eb']]%lookup_insert_Some; rewrite ?P7, ?Um.
      * rewrite eput_eq. split_and!; [exact Ku|congruence|lia..].
      * rewrite eput_ne by congruence. by apply (po_page d1 E K1).
    + intros b' [Eb' Hne]%lookup_insert_None. rewrite eput_ne by congruence. by apply (po_none d1 E K1).
    + intros b' p' e'. unfold eput. destruct (decide (Some b' = Some b)) as [[= ->]|Hne].
      * intros [[<- <-]|[_ Ee]]%lookup_insert_Some; [exists lv; split; [lia|exact Hbk]|].
        destruct (po_home d1 E K1 b p' e' Ee) as (lv' & Hlv' & Hbk'). exists lv'. split; [lia|by rewrite <- G3].
      * intros Ee. destruct (po_home d1 E K1 b' p' e' Ee) as (lv' & Hlv' & Hbk'). exists lv'. split; [lia|by rewrite <- G3].
    + lia.
    + apply (po_size d1 E K1).
    + apply (po_level d E K).
  - intros Eh Es Ecl0 k Hk. subst level. rewrite Eh, Es, Ecl0 in E1. replace (if chash d =? 0 then 0 else 0) with 0 in E1 by (by destruct (chash d =? 0)).
    apply (add_levels_first o _ _ d0 E k K0 Hk _ _ _ E1).
Qed.

(** ** From the inline area to the hash table *)

(** What the copied entries are in a block. *)
Lemma copy_ok o blk m : dentries_ok blk m -> d_max blk <= NR_DENTRY_IN_BLOCK -> d_max blk <= 8 * nr_bitmap blk -> io_ok o ->
  dentries_ok (mk_dp NR_DENTRY_IN_BLOCK SIZE_OF_DENTRY_BITMAP (Z.land (bitmap blk) (Z.ones (8 * nr_bitmap blk)))
                 (blit (dentry (stale o)) 0 (slice (dentry blk) 0 (d_max blk)))
                 (blit (filename (stale o)) 0 (slice (filename blk) 0 (d_max blk * F2FS_SLOT_LEN)))) m.
Proof.
  intros K Hm Hb [_ [Hst1 Hst2]]. destruct (do_len blk m K) as (Hl & Hfl & Hpos). pose proof nr_dentry_range. pose proof slot_len.
  assert (zlen (slice (dentry blk) 0 (d_max blk)) = d_max blk) as L1 by (apply zlen_slice; lia).
  assert (zlen (slice (filename blk) 0 (d_max blk * F2FS_SLOT_LEN)) = d_max blk * F2FS_SLOT_LEN) as L2 by (apply zlen_slice; nia).
  assert (forall j, 0 <= j < d_max blk -> (blit (dentry (stale o)) 0 (slice (dentry blk) 0 (d_max blk))).[j] = (dentry blk).[j]) as Hd.
  { intros j Hj. rewrite aget_blit_0 by lia. unfold slice. change (drop (Z.to_nat 0) (dentry blk)) with (dentry blk). apply aget_take; lia. }
  assert (forall j, 0 <= j -> j < d_max blk -> test_bit j (Z.land (bitmap blk) (Z.ones (8 * nr_bitmap blk))) = test_bit j (bitmap blk)) as Hbit.
  { intros j Hj1 Hj2. unfold test_bit. rewrite Z.land_spec, Z.ones_spec_low by lia. apply andb_true_r. }
  assert (forall p e, m !! p = Some e -> 0 <= p /\ 1 <= slots e /\ p + slots e <= d_max blk) as Hin.
  { intros p e E. destruct (do_in blk m K p e E) as (? & ? & _). pose proof (slots_pos blk m p e K E). lia. }
  split; cbn [d_max dentry filename bitmap].
  - rewrite !length_blit by nia. lia.
  - intros p e E. destruct (do_in blk m K p e E) as (? & ? & ?). split_and!; try done. lia.
  - intros p e E. destruct (Hin p e E). rewrite Hd by lia. by apply (do_entry blk m K).
  - intros p e j E Hj. destruct (Hin p e E). rewrite Hd by lia. by apply (do_rest blk m K p e).
  - intros p e E. destruct (Hin p e E) as (? & ? & ?). destruct (do_in blk m K p e E) as (_ & _ & Hn). destruct (name_slots _ Hn) as [_ Hz].
    fold (slots e) in Hz. pose proof (zlen_nonneg (e_name e)). rewrite slice_blit_prefix by (rewrite ?L2; nia). rewrite slice_slice by nia. by apply (do_name blk m K).
  - intros p e j E Hj. destruct (Hin p e E) as (? & ? & ?). rewrite Hbit by lia. by apply (do_set blk m K p e).
  - apply (do_apart blk m K).
  - intros j Hj Ht. apply (do_used blk m K j Hj). unfold test_bit in *. rewrite Z.land_spec in Ht. by apply andb_true_iff in Ht as [? _].
Qed.

(** The entries of the inline area, now in block 0 *)
Definition moved (E : entries) : entries := fun l => if decide (l = Some 0) then E None else ∅.
Lemma names_moved E C : names_ok E C -> (forall b, E (Some b) = ∅) -> names_ok (moved E) C.
Proof.
  intros N E0. assert (forall l p e, moved E l !! p = Some e <-> l = Some 0 /\ E None !! p = Some e) as Hm.
  { intros l p e. unfold moved. destruct (decide (l = Some 0)) as [Hl|Hl]; [by split; [|intros [_ ?]]|]. rewrite lookup_empty. split; [done|by intros [? _]]. }
  split.
  - intros l p e l' p' e' [-> Ee]%Hm [-> Ee']%Hm En. destruct (no_one E C N None p e None p' e' Ee Ee' En). done.
  - intros l p e [_ Ee]%Hm. by apply (no_entry E C N None p).
  - intros l p e [_ Ee]%Hm. by apply (no_in E C N None p).
  - intros n v Ev. destruct (no_out E C N n v Ev) as ([b|] & p & e & Ee & En); [by rewrite E0 in Ee|].
    exists (Some 0), p, e. split; [|done]. by apply Hm.
Qed.
Lemma inline_bitmap_fits : NR_INLINE_DENTRY i <= 8 * INLINE_DENTRY_BITMAP_SIZE i.
Proof. unfold INLINE_DENTRY_BITMAP_SIZE. dlia. Qed.
Lemma bucket_0 hash : in_bucket 0 hash 0 0.
Proof.
  unfold in_bucket. pose proof depth_max. unfold dir_buckets. replace (0 + 0 <? MAX_DIR_HASH_DEPTH / 2) with true by (symmetry; apply Z.ltb_lt; dlia).
  change (Z.shiftl 1 (0 + 0)) with 1. rewrite Z.mod_1_r. change (dir_block_index 0 0 0) with 0. pose proof (bucket_blocks_pos 0). lia.
Qed.
Lemma move_inline_ok o blk d E C : dir_ok d E C -> inline_dentry d = Some blk -> io_ok o -> i_dir_level d = 0 ->
  exists err d', f2fs_move_inline_dirents o blk d = (err, d') /\
    (err <> 0 /\ err = new_page o 0 /\ d' = d \/ err = 0 /\ inline_dentry d' = None /\ dir_ok d' (moved E) C).
Proof.
  intros K Ein Ho Elv. destruct K as [N W D]. rewrite Ein in W. destruct W as (Kb & Mb & Bb & Ep & E0 & Ecl & Hdep & Hsz & Hlv).
  unfold f2fs_move_inline_dirents. destruct (nz (new_page o 0)) eqn:Enz.
  { eexists _, _. split; [done|]. left. split_and!; try done. intros Ez. by rewrite Ez in Enz. }
  pose proof inline_bitmap_fits as Hbf. pose proof Hinl as [_ Hfit]. rewrite <- Mb in Hbf, Hfit. rewrite <- Bb in Hbf.
  pose proof (copy_ok o blk (E None) Kb Hfit Hbf Ho) as Kc. set (dst := mk_dp _ _ _ _ _) in *.
  eexists 0, _. split; [done|]. right. split; [done|].
  set (d1 := ((d <| inline_dentry := None |>) <| pages ::= _ |>) <| i_current_depth := 1 |>).
  destruct (size_at_least_spec PAGE_SIZE d1) as (P1 & [P2 P3 P4 P5] & P6). set (d2 := size_at_least PAGE_SIZE d1) in *.
  change (pages d1) with (<[0 := dst]> (pages d)) in P1. change (inline_dentry d1) with (@None dentry_ptr) in P2. change (i_current_depth d1) with 1 in P3.
  change (i_dir_level d1) with (i_dir_level d) in P4. change (clevel d1) with (clevel d) in P5. change (i_size d1) with (i_size d) in P6.
  split; [done|]. split; [by apply names_moved| |].
  - rewrite P2. split; [|by unfold moved]. split; rewrite ?P1, ?P3, ?P4, ?P5, ?P6, ?Ep; try lia.
    + intros b blk' [<- <-]%lookup_singleton_Some. unfold moved. rewrite decide_True by done. split_and!; try done.
      apply dir_blocks_size; [lia|]. rewrite P6. unfold PAGE_SHIFT, PAGE_SIZE. rewrite Z.shiftl_mul_pow2 by lia. lia.
    + intros b Hb. unfold moved. destruct (decide (Some b = Some 0)) as [[= ->]|]; [|done]. by rewrite lookup_insert_eq in Hb.
    + intros b p e. unfold moved. destruct (decide (Some b = Some 0)) as [[= ->]|]; [|by rewrite lookup_empty]. intros _.
      exists 0. split; [lia|]. rewrite Elv. apply bucket_0.
    + pose proof depth_max. lia.
    + unfold PAGE_SIZE. lia.
  - unfold first_block in *. rewrite P2. rewrite Ein in D. destruct D as [[e [D1 D2]] [f [D3 D4]]]. split; [exists e|exists f]; (split; [|done]).
    + unfold moved. by rewrite decide_True.
    + unfold moved. by rewrite decide_True.
Qed.

Lemma dots_kept E1 l0 p e l : dots_first E1 l -> E1 l0 !! p = None -> dots_first (eput E1 l0 (<[p := e]> (E1 l0))) l.
Proof.
  intros [[e1 [D1 D2]] [e2 [D3 D4]]] Ep. assert (forall q f, E1 l !! q = Some f -> eput E1 l0 (<[p := e]> (E1 l0)) l !! q = Some f) as Hk.
  { intros q f Ef. unfold eput. destruct (decide (l = l0)) as [->|]; [|done]. rewrite lookup_insert_ne; [done|]. intros ->. congruence. }
  split; [exists e1|exists e2]; (split; [by apply Hk|done]).
Qed.
Section rehash.
Context (o : io) (blk : dentry_ptr) (E : entries) (C : contents).
Context (N : names_ok E C) (Kb : dentries_ok blk (E None)) (D : dots_first E None).

(** Where the copy stands when the entries before [pos] have been added again. *)
Record rehashed (pos : Z) (d : dir) (E1 : entries) (C1 : contents) : Prop := {
  rh_pages : pages_ok d E1;
  rh_none : E1 None = ∅;
  rh_names : names_ok E1 C1;
  rh_clevel : clevel d = 0;
  rh_sub n v : C1 !! n = Some v -> C !! n = Some v;
  rh_before p e : E None !! p = Some e -> p < pos -> C1 !! (e_name e) = Some (e_ino e, e_type e);
  rh_after p e : E None !! p = Some e -> pos <= p -> C1 !! (e_name e) = None;
  rh_dots : (pos = 0 -> E1 (Some 0) = ∅) /\ (pos = 1 -> exists e, E1 (Some 0) = {[0 := e]} /\ e_name e = DOT) /\ (2 <= pos -> dots_first E1 (Some 0));
}.
Lemma next_slot_0 E1 : E1 (Some 0) = ∅ -> next_slot E1 0.
Proof.
  intros E0. pose proof nr_dentry_range. split; [lia|]. intros b Hb. rewrite E0 in Hb. split; [lia|].
  destruct (test_bit 0 (bitmap b)) eqn:Ht; [|done]. destruct (do_used b ∅ Hb 0 ltac:(lia) Ht) as (p & e & Ee & _). done.
Qed.
Lemma next_slot_1 E1 e : E1 (Some 0) = {[0 := e]} -> e_name e = DOT -> next_slot E1 1.
Proof.
  intros E0 En. pose proof nr_dentry_range. destruct dots_ok as (_ & _ & S1 & _). split; [lia|]. intros b Hb. rewrite E0 in Hb.
  assert (slots e = 1) as Es by (unfold slots; by rewrite En). split.
  - intros q Hq. apply (do_set b _ Hb 0 e); [by rewrite lookup_singleton_eq|lia].
  - destruct (test_bit 1 (bitmap b)) eqn:Ht; [|done]. destruct (do_used b _ Hb 1 ltac:(lia) Ht) as (p & f & Ef & Hr).
    apply lookup_singleton_Some in Ef as [<- <-]. lia.
Qed.
Lemma dot_at pos : 0 <= pos -> boundary (E None) pos -> pos < 2 -> exists e, E None !! pos = Some e /\ e_name e = (if pos =? 0 then DOT else DOTDOT) /\ slots e = 1.
Proof.
  intros Hp B Hlt. destruct dots_ok as (_ & _ & S1 & S2). destruct D as [[e1 [D1 D2]] [e2 [D3 D4]]]. destruct (Z.eqb_spec pos 0) as [->|].
  - exists e1. split_and!; try done. unfold slots. by rewrite D2.
  - assert (pos = 1) as -> by lia. exists e2. split_and!; try done. unfold slots. by rewrite D4.
Qed.

(** One entry added again *)
Lemma rehash_step pos d E1 C1 e : rehashed pos d E1 C1 -> 0 <= pos -> boundary (E None) pos -> E None !! pos = Some e ->
  exists err d', f2fs_add_regular_entry (no_metadata o) i (e_name e) (e_ino e) (Z.shiftl (f2fs_get_de_type (dentry blk).[pos]) S_SHIFT) d = Done (err, d') /\
    inline_dentry d' = inline_dentry d /\ i_dir_level d' = i_dir_level d /\ clevel d' = 0 /\
    (err <> 0 /\ io_error o err \/ err = 0 /\ exists E2, rehashed (pos + slots e) d' E2 (<[e_name e := (e_ino e, e_type e)]> C1)).
Proof.
  intros R Hpos B Ee. destruct (no_entry E C N None pos e Ee) as (Eh & Et & Eu). destruct (do_in blk _ Kb pos e Ee) as (_ & _ & Hn).
  pose proof (slots_pos blk _ pos e Kb Ee) as Hs.
  assert (forall q f, E None !! q = Some f -> e_name f = e_name e -> q = pos) as Huniq by (intros q f Ef En; by destruct (no_one E C N None q f None pos e Ef Ee En)).
  destruct (add_regular_ok (no_metadata o) (e_name e) (e_ino e) (Z.shiftl (f2fs_get_de_type (dentry blk).[pos]) S_SHIFT) d E1 (rh_pages _ _ _ _ R) Hn)
    as (err & d' & E' & A1 & A2 & A3 & A). exists err, d'. split; [exact E'|]. rewrite (rh_clevel _ _ _ _ R) in A3. split_and!; try done.
  assert (new_dent (e_name e) (e_ino e) (Z.shiftl (f2fs_get_de_type (dentry blk).[pos]) S_SHIFT) = e) as Enew.
  { unfold new_dent. rewrite fake_mode_ok by (rewrite (do_entry blk _ Kb pos e Ee); exact Et). rewrite (do_entry blk _ Kb pos e Ee). cbn [file_type].
    rewrite Eu, <- Eh. by destruct e. }
  rewrite Enew in A. destruct A as [(Herr & Hio & _)|(-> & b & p & Ep & K2 & Hfirst)].
  { left. split; [done|]. destruct Hio as [?|[?|[?|?]]]; [by left|by right; left|by right; right; left|done]. }
  right. split; [done|]. exists (eput E1 (Some b) (<[p := e]> (E1 (Some b)))). split; try done.
  - by rewrite eput_ne, (rh_none _ _ _ _ R) by done.
  - apply names_add; [apply R|done|by apply (rh_after _ _ _ _ R pos)|done].
  - intros n v [[<- <-]|[_ Ev]]%lookup_insert_Some; [by apply (no_in E C N None pos)|by apply (rh_sub _ _ _ _ R)].
  - intros q f Ef Hq. destruct (decide (q = pos)) as [->|Hne].
    + assert (f = e) as -> by congruence. by rewrite lookup_insert_eq.
    + rewrite lookup_insert_ne by (intros En; apply Hne, (Huniq q f); done). apply (rh_before _ _ _ _ R q f Ef).
      destruct (decide (q < pos)); [done|]. pose proof (do_apart blk _ Kb pos q e f Ee Ef ltac:(lia)). lia.
  - intros q f Ef Hq. rewrite lookup_insert_ne by (intros En; specialize (Huniq q f Ef (eq_sym En)); lia). apply (rh_after _ _ _ _ R q f Ef). lia.
  - destruct (rh_dots _ _ _ _ R) as (R0 & R1 & R2). split; [lia|].
    destruct (decide (pos < 2)) as [Hlt|Hge]; [|split; [lia|intros _; apply dots_kept; [apply R2; lia|done]]].
    destruct (dot_at pos Hpos B Hlt) as (e' & Ee' & En & Es). assert (e' = e) as -> by congruence.
    assert (hash_of (e_name e) = 0) as Hh by (rewrite En; by destruct (pos =? 0)). specialize (Hfirst Hh Es (rh_clevel _ _ _ _ R)).
    destruct (Z.eqb_spec pos 0) as [->|Hp1].
    + destruct (Hfirst 0 (next_slot_0 E1 (R0 eq_refl))) as [-> ->]. split; [|lia]. intros _. exists e. split; [|done].
      by rewrite eput_eq, (R0 eq_refl).
    + assert (pos = 1) as -> by lia. destruct (R1 eq_refl) as (e0 & E0 & En0). destruct (Hfirst 1 (next_slot_1 E1 e0 E0 En0)) as [-> ->].
      split; [lia|]. intros _. split; [exists e0|exists e]; (split; [|done]); rewrite eput_eq, E0.
      * by rewrite lookup_insert_ne, lookup_singleton_eq.
      * by rewrite lookup_insert_eq.
Qed.
Lemma rehash_ok n pos d E1 C1 : (forall m, rollback o m = ∅) -> rehashed pos d E1 C1 -> 0 <= pos <= d_max blk -> boundary (E None) pos -> d_max blk - pos < Z.of_nat n ->
  exists err d', f2fs_add_inline_entries n o i blk pos d = Done (err, d') /\
    inline_dentry d' = inline_dentry d /\ i_dir_level d' = i_dir_level d /\ clevel d' = 0 /\
    (err <> 0 /\ io_error o err /\ pages d' = ∅ \/ err = 0 /\ exists E2 C2, rehashed (d_max blk) d' E2 C2).
Proof.
  intros Hrb. revert pos d E1 C1. induction n as [|n IH]; intros pos d E1 C1 R Hpos B Hn; cbn [f2fs_add_inline_entries]; [lia|].
  destruct (Z.leb_spec (d_max blk) pos) as [Hm|Hm].
  { assert (pos = d_max blk) as -> by lia. exists 0, d. split; [done|]. split_and!; try done; [apply R|]. right. split; [done|]. by exists E1, C1. }
  destruct (test_bit pos (bitmap blk)) eqn:Ht; cbn [negb].
  - destruct (boundary_used blk _ pos Kb ltac:(lia) B Ht) as (e & Ee & B'). destruct (do_in blk _ Kb pos e Ee) as (_ & Hpe & Hnm).
    pose proof (slots_pos blk _ pos e Kb Ee) as Hs.
    assert (stored_name blk pos = e_name e) as -> by (unfold stored_name; rewrite (do_entry blk _ Kb pos e Ee); by apply (do_name blk _ Kb)).
    destruct (rehash_step pos d E1 C1 e R ltac:(lia) B Ee) as (err & d' & Er & S1 & S2 & S3 & S).
    assert (ino (dentry blk).[pos] = e_ino e /\ name_len (dentry blk).[pos] = zlen (e_name e)) as [-> ->] by (by rewrite (do_entry blk _ Kb pos e Ee)).
    replace (zlen (e_name e) =? 0) with false by (destruct Hnm; lia). rewrite Er. cbn [obind].
    destruct S as [(Herr & Hio)|(-> & E2 & R2)].
    + replace (nz err) with true by (unfold nz; lia). exists err, (d' <| pages ::= rollback o |>). split; [done|]. split_and!; try done. left. split; [done|]. split; [done|]. apply Hrb.
    + cbn [nz Z.eqb negb]. fold (slots e). destruct (IH (pos + slots e) d' E2 _ R2 ltac:(lia) B' ltac:(lia)) as (err & d2 & Er2 & T1 & T2 & T3 & T).
      exists err, d2. split; [exact Er2|]. split_and!; try done; congruence.
  - assert (E None !! pos = None) as En.
    { destruct (E None !! pos) as [e|] eqn:Ee; [|done]. pose proof (slots_pos blk _ pos e Kb Ee). by rewrite (do_set blk _ Kb pos e pos Ee) in Ht by lia. }
    apply (IH (pos + 1) d E1 C1); [|lia|by apply (boundary_free blk)|lia]. destruct R as [R1 R2 R3 R4 R5 R6 R7 R8]. split; try done.
    + intros p e Ee Hp. apply (R6 p e Ee). destruct (decide (p = pos)); [congruence|lia].
    + intros p e Ee Hp. apply (R7 p e Ee). lia.
    + assert (2 <= pos) as Hge by (destruct (decide (2 <= pos)); [done|]; destruct (dot_at pos ltac:(lia) B ltac:(lia)) as (e & Ee & _); congruence).
      split; [lia|]. split; [lia|]. intros _. by apply R8.
Qed.
End rehash.

Lemma rehashed_start blk d E C : dir_ok d E C -> inline_dentry d = Some blk ->
  rehashed E C 0 (d <| inline_dentry := Some (zero_inline i) |>) (fun _ => ∅) ∅.
Proof.
  intros [N W D] Ein. rewrite Ein in W. destruct W as (Kb & Mb & Bb & Ep & E0 & Ecl & Hdep & Hsz & Hlv). pose proof depth_max.
  split; try done.
  - split; unfold upd; cbn [inline_dentry pages i_size i_current_depth i_dir_level clevel]; rewrite ?Ep; try done; try lia.
  - intros p e Ee Hp. destruct (do_in blk _ Kb p e Ee). lia.
Qed.
Lemma move_rehashed_ok o blk d E C : (forall m, rollback o m = ∅) -> dir_ok d E C -> inline_dentry d = Some blk ->
  exists err d', f2fs_move_rehashed_dirents o i blk d = Done (err, d') /\
    (err <> 0 /\ (err = - ENOMEM \/ io_error o err) /\ dir_ok d' E C \/ err = 0 /\ inline_dentry d' = None /\ exists E', dir_ok d' E' C).
Proof.
  intros Hrb K Ein. pose proof (rehashed_start blk d E C K Ein) as R. pose proof K as [N W D]. rewrite Ein in W. unfold first_block in D. rewrite Ein in D.
  destruct W as (Kb & Mb & Bb & Ep & E0 & Ecl & Hdep & Hsz & Hlv). destruct (do_len blk _ Kb) as (_ & _ & Hm).
  unfold f2fs_move_rehashed_dirents. destruct (kmalloc_ok o); cbn [negb].
  2: { eexists _, _. split; [done|]. left. split; [done|]. split; [by left|done]. }
  destruct (rehash_ok o blk E C N Kb D (S (Z.to_nat (d_max blk))) 0 _ _ _ Hrb R ltac:(lia) (boundary_0 blk _ Kb) ltac:(lia))
    as (err & d1 & E1 & S1 & S2 & S3 & S). rewrite E1. cbn [obind]. change (i_dir_level (d <| inline_dentry := Some (zero_inline i) |>)) with (i_dir_level d) in S2.
  destruct S as [(Herr & Hio & Hp)|(-> & E2 & C2 & R2)].
  - replace (nz err) with true by (unfold nz; lia). eexists _, _. split; [done|]. left. split; [done|]. split; [by right|].
    split; [done| |unfold first_block; exact D]. unfold inline_ok, upd.
    cbn [inline_dentry pages i_size i_current_depth i_dir_level clevel]. rewrite Hp, S2, S3. split_and!; try done; lia.
  - cbn [nz Z.eqb negb]. eexists _, _. split; [done|]. right. split; [done|]. split; [done|]. exists E2. destruct R2 as [R1 R2 R3 R4 R5 R6 R7 R8].
    assert (C2 = C) as ->.
    { apply map_eq. intros n. destruct (C !! n) as [v|] eqn:Ev.
      - destruct (no_out E C N n v Ev) as ([b|] & p & e & Ee & En); [by rewrite E0 in Ee|]. destruct (do_in blk _ Kb p e Ee) as (? & ? & _).
        pose proof (slots_pos blk _ p e Kb Ee). rewrite <- En, (R6 p e Ee) by lia. rewrite <- (no_in E C N None p e Ee). by rewrite En.
      - destruct (C2 !! n) as [v|] eqn:Ev2; [|done]. by rewrite (R5 n v Ev2) in Ev. }
    split; [done| |unfold first_block; apply R8; lia]. unfold upd. cbn [inline_dentry]. split; [|done]. by destruct R1.
Qed.

(** ** Adding a name *)

(** The contents after an addition that returned [err] *)
Definition after_add (name : list Z) (inum mode err : Z) (C : contents) : contents :=
  if err =? 0 then <[name := (u32 inum, type_of_mode mode)]> C else C.
Lemma new_dent_ok name inum mode : dent_ok (new_dent name inum mode).
Proof. split; [done|]. split; [apply type_of_mode_ok|apply u32_u32]. Qed.
Lemma add_regular_rep o name inum mode d E C : inline_dentry d = None -> dir_ok d E C -> name_ok name -> C !! name = None ->
  exists err d', f2fs_add_regular_entry o i name inum mode d = Done (err, d') /\ (err = 0 \/ io_error o err) /\
    dir_rep d' (after_add name inum mode err C).
Proof.
  intros Ein [N W D] Hn Hc. rewrite Ein in W. destruct W as [K E0]. unfold first_block in D. rewrite Ein in D.
  destruct (add_regular_ok o name inum mode d E K Hn) as (err & d' & Er & A1 & _ & _ & A). exists err, d'. split; [exact Er|].
  rewrite Ein in A1. destruct A as [(Herr & Hio & K')|(-> & b & p & Ep & K' & _)].
  - split; [by right|]. unfold after_add. replace (err =? 0) with false by lia. exists E. split; [done| |unfold first_block]; rewrite A1; done.
  - split; [by left|]. unfold after_add. cbn. eexists. split; [by apply (names_add E C (Some b) p (new_dent name inum mode)); [| | |apply new_dent_ok]| |].
    + rewrite A1. split; [exact K'|]. by rewrite eput_ne.
    + unfold first_block. rewrite A1. by apply dots_kept.
Qed.
Lemma add_inline_ok o name inum mode blk d E C : inline_dentry d = Some blk -> dir_ok d E C -> name_ok name -> C !! name = None -> io_ok o ->
  exists err d', f2fs_add_inline_entry o i name inum mode blk d = Done (err, d') /\
    (err <> - EAGAIN /\ dir_rep d' (after_add name inum mode err C) \/ err = - EAGAIN /\ inline_dentry d' = None /\ dir_rep d' C).
Proof.
  intros Ein K Hn Hc Ho. pose proof K as [N W D]. rewrite Ein in W. unfold first_block in D. rewrite Ein in D.
  destruct W as (Kb & Mb & Bb & Ep & E0 & Ecl & Hdep & Hsz & Hlv). destruct (do_len blk _ Kb) as (_ & _ & Hm).
  destruct (name_slots name Hn) as [Hs _]. unfold f2fs_add_inline_entry.
  assert (forall e, nz e = true -> e <> - EAGAIN -> exists err d', Done (e, d) = Done (err, d') /\
    (err <> - EAGAIN /\ dir_rep d' (after_add name inum mode err C) \/ err = - EAGAIN /\ inline_dentry d' = None /\ dir_rep d' C)) as Hfail.
  { intros e Hz He. exists e, d. split; [done|]. left. split; [done|]. unfold after_add. replace (e =? 0) with false by (unfold nz in Hz; lia). by exists E. }
  destruct (nz (node_page o)) eqn:Enz; [apply Hfail; [done|apply (io_err o Ho); by right; left]|].
  destruct (room_ok (bitmap blk) (GET_DENTRY_SLOTS (zlen name)) (d_max blk)) as (r & Er & R); [lia..|]. rewrite Er. cbn [obind].
  destruct (Z.leb_spec (d_max blk) r) as [Hr|Hr].
  - unfold f2fs_convert_inline_dir.
    assert (exists err d', (if i_dir_level d =? 0 then Done (f2fs_move_inline_dirents o blk d) else f2fs_move_rehashed_dirents o i blk d) = Done (err, d') /\
      (err <> 0 /\ err <> - EAGAIN /\ dir_ok d' E C \/ err = 0 /\ inline_dentry d' = None /\ dir_rep d' C)) as (err & d' & Ec & Rc).
    { destruct (Z.eqb_spec (i_dir_level d) 0) as [Ez|Ez].
      - destruct (move_inline_ok o blk d E C K Ein Ho Ez) as (err & d' & Em & M). exists err, d'. rewrite Em. split; [done|].
        destruct M as [(M1 & M2 & ->)|(M1 & M2 & M3)]; [left|right; split_and!; try done; by exists (moved E)].
        split_and!; try done. apply (io_err o Ho). left. exists 0. by right.
      - destruct (move_rehashed_ok o blk d E C (io_rollback o Ho) K Ein) as (err & d' & Em & M). exists err, d'. split; [exact Em|].
        destruct M as [(M1 & M2 & M3)|M]; [left|by right]. split_and!; try done.
        destruct M2 as [-> | [[b ->] | [-> | [-> | ->]]]]; try done; apply (io_err o Ho); [left; exists b; by right|by right; right]. }
    rewrite Ec. cbn [obind]. destruct Rc as [(R1 & R2 & R3)|(-> & R2 & R3)].
    + replace (nz err) with true by (unfold nz; lia). exists err, d'. split; [done|]. left. split; [done|]. unfold after_add.
      replace (err =? 0) with false by lia. by exists E.
    + cbn [nz Z.eqb negb]. exists (- EAGAIN), d'. split; [done|]. by right.
  - destruct (nz (metadata o)) eqn:Enm; [apply Hfail; [done|apply (io_err o Ho); by right; right]|].
    destruct R as [[-> _]|(R1 & R2 & R3 & _)]; [lia|]. eexists 0, _. split; [done|]. left. split; [done|]. unfold after_add. cbn [Z.eqb].
    assert (E None !! r = None) as Epr.
    { destruct (E None !! r) as [e|] eqn:Epr; [|done]. pose proof (slots_pos blk _ r e Kb Epr).
      pose proof (do_set blk _ Kb r e r Epr ltac:(lia)) as Ht. rewrite R3 in Ht by lia. done. }
    pose proof (update_dentry_ok blk _ Kb inum mode name (hash_of name) r Hn R1 R2 R3) as Ku.
    destruct (update_spec blk _ Kb inum mode name (hash_of name) r Hn R1 R2) as (Um & Ub & _).
    set (blk' := f2fs_update_dentry _ _ _ _ _ _) in *. unfold put_dentries. set (d1 := d <| inline_dentry := Some blk' |>).
    assert (inline_dentry (f2fs_update_parent_metadata 0 d1) = Some blk' /\ pages (f2fs_update_parent_metadata 0 d1) = ∅ /\
      clevel (f2fs_update_parent_metadata 0 d1) = 0 /\ i_current_depth (f2fs_update_parent_metadata 0 d1) = 0 /\
      i_size (f2fs_update_parent_metadata 0 d1) = i_size d /\ i_dir_level (f2fs_update_parent_metadata 0 d1) = i_dir_level d) as (P1 & P2 & P3 & P4 & P5 & P6).
    { unfold f2fs_update_parent_metadata. destruct (Z.eqb_spec (i_current_depth d1) 0); by split_and!. }
    eexists. split; [by apply (names_add E C None r (new_dent name inum mode)); [| | |apply new_dent_ok]| |].
    + rewrite P1. unfold inline_ok. rewrite P2, P3, P4, P5, P6, eput_eq. split_and!; try done; try lia; try congruence. 
    + unfold first_block. rewrite P1. by apply dots_kept.
Qed.
Lemma add_dentry_ok o name inum mode d C : dir_rep d C -> name_ok name -> C !! name = None -> io_ok o ->
  exists err d', f2fs_add_dentry o i name inum mode d = Done (err, d') /\ dir_rep d' (after_add name inum mode err C).
Proof.
  intros [E K] Hn Hc Ho. unfold f2fs_add_dentry. destruct (inline_dentry d) as [blk|] eqn:Ein; cbn [obind fst snd].
  - destruct (add_inline_ok o name inum mode blk d E C Ein K Hn Hc Ho) as (err & d1 & E1 & R). rewrite E1. cbn [obind fst snd].
    destruct R as [[Herr R]|(-> & Ein1 & [E2 K2])].
    + replace (err =? - EAGAIN) with false by lia. by exists err, d1.
    + rewrite Z.eqb_refl. destruct (add_regular_rep o name inum mode d1 E2 C Ein1 K2 Hn Hc) as (err & d' & Er & _ & R). by exists err, d'.
  - rewrite Z.eqb_refl. destruct (add_regular_rep o name inum mode d E C Ein K Hn Hc) as (err & d' & Er & _ & R). by exists err, d'.
Qed.
(** A task that has just looked the name up in vain adds it without looking
    again; every other one is told -EEXIST when the name is there. *)
Lemma add_link_ok o current name inum mode d C : dir_rep d C -> name_ok name -> io_ok o -> (current = task d -> C !! name = None) ->
  exists err d', f2fs_do_add_link o current i name inum mode d = Done (err, d') /\ dir_rep d' (after_add name inum mode err C) /\
    (C !! name <> None -> err <> 0) /\ (C !! name <> None -> (forall b, rd_page o b = 0) -> node_page o = 0 -> err = - EEXIST).
Proof.
  intros [E K] Hn Ho Htask. unfold f2fs_do_add_link. destruct (Z.eqb_spec current (task d)) as [Et|Et]; cbn [negb].
  - specialize (Htask Et). cbn [obind isSome nz Z.eqb negb]. destruct (add_dentry_ok o name inum mode d C (ex_intro _ E K) Hn Htask Ho) as (err & d' & Ea & R).
    exists err, d'. split; [exact Ea|]. by split.
  - destruct (find_entry_ok o current name d E C K) as (r & err & d1 & Ef & K1 & _ & _ & Rd & F). rewrite Ef. cbn [obind].
    assert (dir_ok (d1 <| task := 0 |>) E C) as K2.
    { apply (dir_same d1); [split; try done; by left|by right; right|done]. }
    destruct r as [l|]; cbn [isSome].
    + eexists _, _. split; [done|]. split; [by exists E|]. done.
    + destruct (nz err) eqn:Enz.
      * eexists _, _. split; [done|]. split; [unfold after_add; replace (err =? 0) with false by (unfold nz in Enz; lia); by exists E|].
        split; [intros _ E0; by rewrite E0 in Enz|]. intros _ Hr Hnp. exfalso.
        destruct Rd as [-> | [[b ->] | ->]]; [done|by rewrite Hr in Enz|by rewrite Hnp in Enz].
      * specialize (F ltac:(unfold nz in Enz; lia)).
        destruct (add_dentry_ok o name inum mode _ C (ex_intro _ E K2) Hn F Ho) as (err2 & d' & Ea & R). exists err2, d'. split; [exact Ea|]. by split.
Qed.

(** ** Removing and redirecting *)

(** The entry at [l] is the one of [name]. *)
Lemma found_dentries d E C l e : dir_ok d E C -> E (fst l) !! (snd l) = Some e ->
  exists blk, dentries_at (fst l) d = Some blk /\ dentries_ok blk (E (fst l)).
Proof.
  intros [N W D] Ee. destruct l as [[b|] p]; cbn [fst snd dentries_at] in *; destruct (inline_dentry d) as [blk|].
  - destruct W as (_ & _ & _ & _ & E0 & _). by rewrite E0 in Ee.
  - destruct W as [K _]. destruct (pages d !! b) as [blk|] eqn:Eb; [|by rewrite (po_none d E K b Eb) in Ee].
    exists blk. split; [done|]. by apply (po_page d E K b).
  - exists blk. split; [done|]. apply W.
  - destruct W as [_ E0]. by rewrite E0 in Ee.
Qed.
(** Replacing the block at [l] and its map. *)
Lemma put_ok d E C l blk blk' m : dir_ok d E C -> dentries_at l d = Some blk -> dentries_ok blk' m -> d_max blk' = d_max blk -> nr_bitmap blk' = nr_bitmap blk ->
  (forall p e, m !! p = Some e -> exists e', E l !! p = Some e' /\ e_hash e = e_hash e') ->
  match inline_dentry (put_dentries l blk' d) with
  | Some b => inline_ok (put_dentries l blk' d) b (eput E l m)
  | None => pages_ok (put_dentries l blk' d) (eput E l m) /\ eput E l m None = ∅
  end /\ first_block (put_dentries l blk' d) = first_block d.
Proof.
  intros [N W D] El Kb' Em Eb Hh. destruct l as [b|]; cbn [dentries_at put_dentries] in *; unfold upd; cbn [inline_dentry]; unfold first_block; cbn [inline_dentry].
  - destruct (inline_dentry d) as [blk0|] eqn:Ein.
    { destruct W as (_ & _ & _ & Ep & _). by rewrite Ep in El. }
    destruct W as [K E0]. destruct (po_page d E K b blk El) as (_ & Mb & Hb). split; [|done]. split; [|by rewrite eput_ne].
    split; cbn [pages i_size i_current_depth i_dir_level clevel]; try apply K.
    + intros b' blk0 [[<- <-]|[Hne Eb']]%lookup_insert_Some; [rewrite eput_eq; split_and!; try done; [congruence|apply Hb..]|].
      rewrite eput_ne by congruence. by apply (po_page d E K).
    + intros b' [Eb' Hne]%lookup_insert_None. rewrite eput_ne by congruence. by apply (po_none d E K).
    + intros b' p e. unfold eput. destruct (decide (Some b' = Some b)) as [[= ->]|]; [|by apply (po_home d E K)].
      intros Ee. destruct (Hh p e Ee) as (e' & Ee' & ->). by apply (po_home d E K b p).
  - rewrite El in W |- *. destruct W as (_ & Mb & Bb & Ep & E0 & Ecl & Hdep & Hsz & Hlv). split; [|done].
    unfold inline_ok. cbn [pages i_size i_current_depth i_dir_level clevel]. rewrite eput_eq. split_and!; try done; congruence || lia.
Qed.
Definition linked (name : list Z) (inum mode : Z) (C : contents) : contents := <[name := (u32 inum, type_of_mode mode)]> C.
Lemma set_link_rep d E C name l inum mode : dir_ok d E C -> found_at E name l -> dir_rep (f2fs_set_link l inum mode d) (linked name inum mode C).
Proof.
  intros K (e & Ee & En). destruct (found_dentries d E C l e K Ee) as (blk & El & Kb). unfold f2fs_set_link. rewrite El.
  pose proof (set_link_ok blk _ (snd l) e inum mode Kb Ee) as Ks. set (e' := mk_dent _ _ _ _) in Ks.
  destruct (put_ok d E C (fst l) blk _ _ K El Ks eq_refl eq_refl) as [P1 P2].
  { intros p f [[<- <-]|[_ Ef]]%lookup_insert_Some; [by exists e|by exists f]. }
  exists (eput E (fst l) (<[snd l := e']> (E (fst l)))). destruct K as [N W D]. split; [|exact P1|].
  - unfold linked. rewrite <- En. apply names_relink; [done|done|apply type_of_mode_ok|apply u32_u32].
  - rewrite P2. destruct D as [[e1 [D1 D2]] [e2 [D3 D4]]].
    assert (forall q f, E (first_block d) !! q = Some f -> exists g, eput E (fst l) (<[snd l := e']> (E (fst l))) (first_block d) !! q = Some g /\ e_name g = e_name f) as Hk.
    { intros q f Ef. unfold eput. destruct (decide (first_block d = fst l)) as [Eq|]; [|by exists f]. rewrite Eq in Ef.
      destruct (decide (q = snd l)) as [->|]; [|exists f; by rewrite lookup_insert_ne]. exists e'. rewrite lookup_insert_eq. split; [done|].
      assert (f = e) as -> by congruence. done. }
    destruct (Hk 0 e1 D1) as (g1 & G1 & G2), (Hk 1 e2 D3) as (g2 & G3 & G4). split; [exists g1|exists g2]; split; congruence.
Qed.
Lemma delete_rep o d E C name l : dir_ok d E C -> found_at E name l -> name <> DOT -> name <> DOTDOT ->
  dir_rep (f2fs_delete_entry o l d) (delete name C).
Proof.
  intros K (e & Ee & En) Hd1 Hd2. destruct (found_dentries d E C l e K Ee) as (blk & El & Kb).
  assert (GET_DENTRY_SLOTS (name_len (dentry blk).[snd l]) = slots e) as Es by (by rewrite (do_entry blk _ Kb _ e Ee)).
  pose proof (clear_slots_ok blk _ (snd l) e Kb Ee) as Kc. set (blk' := clear_slots (snd l) (slots e) blk) in *.
  destruct (put_ok d E C (fst l) blk blk' _ K El Kc eq_refl eq_refl) as [P1 P2].
  { intros p f [_ Ef]%lookup_delete_Some. by exists f. }
  set (E' := eput E (fst l) (delete (snd l) (E (fst l)))) in *. pose proof K as [N W D].
  assert (names_ok E' (delete name C)) as N' by (rewrite <- En; by apply names_remove).
  assert (forall q f nm, at_name E nm (first_block d) q f -> nm = DOT \/ nm = DOTDOT -> at_name E' nm (first_block d) q f) as Hk.
  { intros q f nm [Ef Enf] Hnm. split; [|done]. unfold E', eput. destruct (decide (first_block d = fst l)) as [Eq|]; [|done]. rewrite Eq in Ef.
    rewrite lookup_delete_ne; [done|]. intros <-. assert (f = e) as -> by congruence. destruct Hnm; congruence. }
  assert (dots_first E' (first_block d)) as D' by (destruct D as [[e1 D1] [e2 D2]]; split; [exists e1|exists e2]; apply Hk; auto).
  assert (dir_ok (put_dentries (fst l) blk' d) E' (delete name C)) as K' by (split; [done|done|by rewrite P2]).
  unfold f2fs_delete_entry. destruct l as [[b|] p]; cbn [fst snd dentries_at] in *.
  - destruct (inline_dentry d) as [blk0|] eqn:Ein.
    { destruct W as (_ & _ & _ & Ep & _). by rewrite Ep in El. }
    rewrite El, Es. fold blk'. destruct (_ && _) eqn:Ec; [|by exists E']. apply andb_true_iff in Ec as [Ec _]. apply Z.eqb_eq in Ec.
    assert (E' (Some b) = ∅) as Eb.
    { pose proof nr_dentry_range. apply map_eq. intros q. rewrite lookup_empty. destruct (E' (Some b) !! q) as [f|] eqn:Ef; [|done]. exfalso.
      unfold E' in Ef. rewrite eput_eq in Ef. destruct (do_in blk' _ Kc q f Ef) as (Hq & Hqs & _). pose proof (slots_pos blk' _ q f Kc Ef).
      destruct W as [W _]. destruct (po_page d E W b blk El) as (_ & Mb & _). change (d_max blk') with (d_max blk) in Hqs.
      pose proof (do_set blk' _ Kc q f q Ef ltac:(lia)) as Ht.
      destruct (find_next_bit_spec (bitmap blk') NR_DENTRY_IN_BLOCK 0) as [[_ Hall]|(Hr & _)]; [lia|lia| |lia].
      rewrite Hall in Ht by lia. done. }
    exists E'. destruct K' as [N2 W2 D2]. split; [done| |exact D2]. cbn [put_dentries] in W2. unfold upd in *. cbn [inline_dentry] in *. rewrite Ein in *.
    destruct W2 as [W2 W3]. cbn [put_dentries]. unfold upd. cbn [inline_dentry pages i_size i_current_depth i_dir_level clevel chash task]. rewrite Ein.
    split; [|done]. destruct W2 as [B1 B2 B3 B4 B5 B6]. split; cbn [pages i_size i_current_depth i_dir_level clevel] in *; try done.
    + intros b' blk0 [Hne Eb']%lookup_delete_Some. by apply B1.
    + intros b' Eb'. apply lookup_delete_None in Eb' as [<-|Eb']; [done|]. by apply B2.
  - rewrite El. unfold f2fs_delete_inline_entry. rewrite Es. fold blk'. by exists E'.
Qed.

(** ** Is the directory empty? *)

Lemma next_bit_none bm size off : 0 <= off -> 0 <= size ->
  (find_next_bit bm size off <? size) = false <-> forall k, off <= k < size -> test_bit k bm = false.
Proof.
  intros Ho Hs. destruct (find_next_bit_spec bm size off Ho Hs) as [[-> Hall]|(Hr & Hbit & _)].
  - split; [by intros _|]. intros _. apply Z.ltb_irrefl.
  - split; [lia|]. intros Hn. rewrite Hn in Hbit by lia. done.
Qed.
Lemma clear_from blk m off : dentries_ok blk m -> 0 <= off -> boundary m off ->
  (find_next_bit (bitmap blk) (d_max blk) off <? d_max blk) = false <-> forall p e, m !! p = Some e -> p < off.
Proof.
  intros K Ho B. destruct (do_len blk m K) as (_ & _ & Hm). rewrite next_bit_none by lia. split.
  - intros Hc p e Ee. destruct (decide (p < off)); [done|]. destruct (do_in blk m K p e Ee) as (? & ? & _). pose proof (slots_pos blk m p e K Ee).
    pose proof (do_set blk m K p e p Ee ltac:(lia)) as Ht. rewrite Hc in Ht by lia. done.
  - intros Hlt k Hk. destruct (test_bit k (bitmap blk)) eqn:Ht; [|done]. destruct (do_used blk m K k ltac:(lia) Ht) as (p & e & Ee & Hr).
    specialize (B p e Ee (Hlt p e Ee)). lia.
Qed.
Definition only_dots (E : entries) (l : option Z) : Prop := forall l' p e, E l' !! p = Some e -> l' = l /\ p < 2.
Lemma only_dots_spec E C l : names_ok E C -> dots_first E l -> (forall l' p e, E l' !! p = Some e -> 0 <= p) ->
  only_dots E l <-> forall n, C !! n <> None -> n = DOT \/ n = DOTDOT.
Proof.
  intros N [[e0 [D1 D2]] [e1 [D3 D4]]] Hp. split.
  - intros Hd n Hn. destruct (C !! n) as [v|] eqn:Ev; [|done]. destruct (no_out E C N n v Ev) as (l' & p & e & Ee & En).
    destruct (Hd l' p e Ee) as [-> Hlt]. specialize (Hp l p e Ee). assert (p = 0 \/ p = 1) as [-> | ->] by lia; [left|right]; congruence.
  - intros Hn l' p e Ee. assert (C !! e_name e <> None) as Hc by (by rewrite (no_in E C N l' p e Ee)).
    destruct (Hn _ Hc) as [En|En].
    + destruct (no_one E C N l' p e l 0 e0 Ee D1 ltac:(congruence)) as [-> ->]. split; [done|lia].
    + destruct (no_one E C N l' p e l 1 e1 Ee D3 ltac:(congruence)) as [-> ->]. split; [done|lia].
Qed.
Lemma dots_boundary blk E l : dentries_ok blk (E l) -> dots_first E l -> boundary (E l) 2.
Proof.
  intros K [[e0 [D1 D2]] [e1 [D3 D4]]] q e Ee Hq. destruct dots_ok as (_ & _ & S1 & S2). destruct (do_in blk _ K q e Ee) as [Hq0 _].
  assert (q = 0 \/ q = 1) as [-> | ->] by lia.
  - assert (e = e0) as -> by congruence. unfold slots. rewrite D2. lia.
  - assert (e = e1) as -> by congruence. unfold slots. rewrite D4. lia.
Qed.
Lemma empty_blocks_ok o d E n bidx : pages_ok d E -> dots_first E (Some 0) -> 0 <= bidx ->
  empty_blocks n o d bidx = true <->
  forall b, bidx <= b < bidx + Z.of_nat n -> rd_page o b = 0 /\ forall p e, E (Some b) !! p = Some e -> b = 0 /\ p < 2.
Proof.
  intros K D. revert bidx. induction n as [|n IH]; intros bidx Hb; cbn [empty_blocks].
  { split; [intros _ b Hr; lia|done]. }
  specialize (IH (bidx + 1) ltac:(lia)).
  assert (forall X : Prop, (X <-> rd_page o bidx = 0 /\ forall p e, E (Some bidx) !! p = Some e -> bidx = 0 /\ p < 2) ->
    (X /\ empty_blocks n o d (bidx + 1) = true <->
     forall b, bidx <= b < bidx + Z.of_nat (S n) -> rd_page o b = 0 /\ forall p e, E (Some b) !! p = Some e -> b = 0 /\ p < 2)) as Hsplit.
  { intros X ->. rewrite IH. split.
    - intros [H0b Hn] b Hr. destruct (decide (b = bidx)) as [->|]; [done|]. apply Hn. lia.
    - intros Hall. split; [apply Hall; lia|]. intros b Hr. apply Hall. lia. }
  destruct (nz (rd_page o bidx)) eqn:Enz.
  { split; [done|]. intros Hall. destruct (Hall bidx ltac:(lia)) as [E0 _]. by rewrite E0 in Enz. }
  assert (rd_page o bidx = 0) as Erd by (unfold nz in Enz; lia).
  destruct (pages d !! bidx) as [blk|] eqn:Eb.
  - destruct (po_page d E K bidx blk Eb) as (Kb & Mb & _). rewrite <- Mb.
    destruct (find_next_bit (bitmap blk) (d_max blk) (if bidx =? 0 then 2 else 0) <? d_max blk) eqn:Ef.
    + split; [done|]. intros Hall. destruct (Hall bidx ltac:(lia)) as [_ Hno]. rewrite <- Ef. symmetry.
      destruct (Z.eqb_spec bidx 0) as [->|Hne].
      * apply (clear_from blk (E (Some 0))); [done|lia|by apply (dots_boundary blk)|]. intros p e Ee. by destruct (Hno p e Ee).
      * apply (clear_from blk (E (Some bidx))); [done|lia|by apply (boundary_0 blk)|]. intros p e Ee. by destruct (Hno p e Ee).
    + rewrite <- (Hsplit True); [tauto|]. split; [|done]. intros _. split; [done|]. intros p e Ee.
      destruct (Z.eqb_spec bidx 0) as [->|Hne].
      * split; [done|]. by apply (proj1 (clear_from blk (E (Some 0)) 2 Kb ltac:(lia) (dots_boundary blk E _ Kb D)) Ef p e).
      * pose proof (proj1 (clear_from blk (E (Some bidx)) 0 Kb ltac:(lia) (boundary_0 blk _ Kb)) Ef p e Ee). destruct (do_in blk _ Kb p e Ee). lia.
  - rewrite <- (Hsplit True); [tauto|]. split; [|done]. intros _. split; [done|]. intros p e Ee. by rewrite (po_none d E K bidx Eb) in Ee.
Qed.
Lemma entry_pos d E C l p e : dir_ok d E C -> E l !! p = Some e -> 0 <= p.
Proof. intros K Ee. destruct (found_dentries d E C (l, p) e K Ee) as (blk & _ & Kb). by destruct (do_in blk _ Kb p e Ee). Qed.
(** rmdir sees an empty directory exactly when only "." and ".." are left, as
    long as its pages can be read. *)
Lemma empty_dir_ok o d C : dir_rep d C ->
  (f2fs_empty_dir o d = true -> forall n, C !! n <> None -> n = DOT \/ n = DOTDOT) /\
  ((forall b, rd_page o b = 0) -> node_page o = 0 -> (forall n, C !! n <> None -> n = DOT \/ n = DOTDOT) -> f2fs_empty_dir o d = true).
Proof.
  intros [E K]. pose proof K as [N W D]. rewrite <- (only_dots_spec E C (first_block d) N D) by (intros l' p e; by apply (entry_pos d E C)).
  unfold f2fs_empty_dir, first_block in *. destruct (inline_dentry d) as [blk|].
  - destruct W as (Kb & Mb & _ & _ & E0 & _). unfold f2fs_empty_inline_dir.
    pose proof (clear_from blk (E None) 2 Kb ltac:(lia) (dots_boundary blk E None Kb D)) as Hc. split.
    + destruct (nz (node_page o)); [done|]. intros Hn%negb_true_iff l' p e Ee. rewrite Hc in Hn. destruct l' as [b|]; [by rewrite E0 in Ee|].
      split; [done|]. by apply (Hn p e).
    + intros _ -> Hd. cbn [nz Z.eqb negb]. apply negb_true_iff, Hc. intros p e Ee. by destruct (Hd None p e Ee).
  - destruct W as [W E0]. pose proof (empty_blocks_ok o d E (Z.to_nat (dir_blocks d)) 0 W D ltac:(lia)) as He. split.
    + rewrite He. intros Hall l' p e Ee. destruct l' as [b|]; [|by rewrite E0 in Ee].
      destruct (pages d !! b) as [blk|] eqn:Eb; [|by rewrite (po_none d E W b Eb) in Ee]. destruct (po_page d E W b blk Eb) as (_ & _ & Hb & _).
      destruct (Hall b ltac:(lia)) as [_ Hno]. destruct (Hno p e Ee) as [-> ?]. done.
    + intros Hr _ Hd. apply He. intros b Hb. split; [apply Hr|]. intros p e Ee. destruct (Hd (Some b) p e Ee) as [[= ->] ?]. done.
Qed.

(** ** Reading the directory *)

Lemma omap_seqZ_shift {A} (f g : Z -> option A) k a n : (forall x, a <= x < a + n -> f (k + x) = g x) -> omap f (seqZ (k + a) n) = omap g (seqZ a n).
Proof.
  intros Hx. destruct (decide (n <= 0)) as [|Hn]; [by rewrite !seqZ_nil by done|]. rewrite <- (Z2Nat.id n) in Hx |- * by lia. clear Hn.
  generalize dependent (Z.to_nat n). intros j. induction j as [|j IH]; intros Hx; [done|]. rewrite !seqZ_S, !omap_app, IH by (intros; apply Hx; lia).
  f_equal. simpl. rewrite <- Z.add_assoc. by rewrite (Hx (a + Z.of_nat j)) by lia.
Qed.
Lemma omap_seqZ_names (f : Z -> option dirent) a (n : nat) :
  (forall x y u v, a <= x < a + Z.of_nat n -> a <= y < a + Z.of_nat n -> f x = Some u -> f y = Some v -> dn_name u = dn_name v -> x = y) ->
  NoDup (map dn_name (omap f (seqZ a (Z.of_nat n)))).
Proof.
  induction n as [|n IH]; intros Hinj; [constructor|]. rewrite seqZ_S, omap_app, map_app.
  assert (NoDup (map dn_name (omap f (seqZ a (Z.of_nat n))))) as IH' by (apply IH; intros x y u v Hx Hy; apply Hinj; lia).
  simpl. destruct (f (a + Z.of_nat n)) as [v|] eqn:Ev; simpl; [|by rewrite app_nil_r].
  apply list.NoDup_app. split; [done|]. split; [|apply NoDup_singleton]. intros nm Hin Hv. apply list_elem_of_singleton in Hv.
  apply list_elem_of_In, List.in_map_iff in Hin as (u & Eu & Hu). apply list_elem_of_In, list_elem_of_omap in Hu as (x & Hx & Ex).
  apply elem_of_seqZ in Hx. assert (x = a + Z.of_nat n); [|lia]. apply (Hinj x (a + Z.of_nat n) u v); try done; try lia. congruence.
Qed.

(** The entries at the positions [a, b) of the directory: the position of slot
    [p] of block [n] is [n * NR_DENTRY_IN_BLOCK + p]. *)
Definition entry_at (d : dir) (E : entries) (x : Z) : option dent :=
  match inline_dentry d with Some _ => E None !! x | None => E (Some (x / NR_DENTRY_IN_BLOCK)) !! (x mod NR_DENTRY_IN_BLOCK) end.
Definition dir_listing (d : dir) (E : entries) (a b : Z) : list dirent := omap (fun x => dirent_of <$> entry_at d E x) (seqZ a (b - a)).
Definition dir_end (d : dir) : Z := match inline_dentry d with Some blk => d_max blk | None => dir_blocks d * NR_DENTRY_IN_BLOCK end.
Lemma dir_listing_app d E a b c : a <= b <= c -> dir_listing d E a c = dir_listing d E a b ++ dir_listing d E b c.
Proof.
  intros Hab. unfold dir_listing. replace (c - a) with (b - a + (c - b)) by lia. rewrite seqZ_app by lia. rewrite omap_app. do 3 f_equal. lia.
Qed.
Lemma dir_listing_block d E n p q : inline_dentry d = None -> 0 <= p -> q <= NR_DENTRY_IN_BLOCK ->
  dir_listing d E (n * NR_DENTRY_IN_BLOCK + p) (n * NR_DENTRY_IN_BLOCK + q) = listing (E (Some n)) p q.
Proof.
  intros Ein Hp Hq. unfold dir_listing, listing. replace (n * NR_DENTRY_IN_BLOCK + q - (n * NR_DENTRY_IN_BLOCK + p)) with (q - p) by lia.
  apply omap_seqZ_shift. intros x Hx. unfold entry_at. rewrite Ein. f_equal. pose proof nr_dentry_range.
  rewrite Z.div_add_l, Z.div_small by lia. rewrite Z.add_comm, Z.mod_add, Z.mod_small by lia. by rewrite Z.add_0_r.
Qed.
Lemma dir_listing_nil d E a : dir_listing d E a a = [].
Proof. unfold dir_listing. by rewrite Z.sub_diag. Qed.
(** Where a reading that returned [(err, pos', out')] stopped *)
Definition read_result (o : io) (emit : list dirent -> dirent -> bool) (d : dir) (E : entries) (pos : Z) (out : list dirent) (r : Z * Z * list dirent) : Prop :=
  let '(err, pos', out') := r in
  pos <= pos' <= dir_end d /\ out' = out ++ dir_listing d E pos pos' /\
  (err = 0 /\ (pos' = dir_end d \/ exists x e, pos' <= x < dir_end d /\ entry_at d E x = Some e /\ emit out' (dirent_of e) = false) \/
   err <> 0 /\ (err = - ERESTARTSYS \/ read_error o err)).
Lemma read_blocks_ok o emit d E k n q out : inline_dentry d = None -> pages_ok d E -> dir_end d < 4294967296 -> 0 <= n <= dir_blocks d ->
  0 <= q < NR_DENTRY_IN_BLOCK -> (n = dir_blocks d -> q = 0) -> dir_blocks d - n < Z.of_nat k ->
  exists r, read_blocks k o emit d n (n * NR_DENTRY_IN_BLOCK + q) out = Done r /\ read_result o emit d E (n * NR_DENTRY_IN_BLOCK + q) out r.
Proof.
  intros Ein K HT. pose proof nr_dentry_range as HNR. assert (dir_end d = dir_blocks d * NR_DENTRY_IN_BLOCK) as ET by (unfold dir_end; by rewrite Ein).
  revert n q out. induction k as [|k IH]; intros n q out Hn Hq Hq0 Hk; cbn [read_blocks]; [lia|].
  destruct (Z.leb_spec (dir_blocks d) n) as [Hge|Hlt].
  { assert (n = dir_blocks d) as -> by lia. rewrite Hq0 by done. eexists. split; [done|]. unfold read_result. rewrite dir_listing_nil, app_nil_r.
    split; [lia|]. split; [done|]. left. split; [done|]. left. lia. }
  assert (n * NR_DENTRY_IN_BLOCK + NR_DENTRY_IN_BLOCK <= dir_end d) as Hend by nia.
  assert (0 <= n * NR_DENTRY_IN_BLOCK /\ n + 1 <= (n + 1) * NR_DENTRY_IN_BLOCK) as [Hs1 Hs2] by nia.
  assert (forall err, nz err = true -> err = - ERESTARTSYS \/ read_error o err -> exists r, Done (err, n * NR_DENTRY_IN_BLOCK + q, out) = Done r /\
    read_result o emit d E (n * NR_DENTRY_IN_BLOCK + q) out r) as Hfail.
  { intros err Hz He. eexists. split; [done|]. unfold read_result. rewrite dir_listing_nil, app_nil_r. split; [lia|]. split; [done|]. right.
    split; [intros E0; by rewrite E0 in Hz|done]. }
  destruct (interrupted o n); [apply Hfail; [done|by left]|].
  destruct (nz (rd_page o n)) eqn:Enz; [apply Hfail; [done|right; right; left; by exists n]|].
  rewrite (u32_id (n + 1)), (u32_id ((n + 1) * NR_DENTRY_IN_BLOCK)), (u32_id (n * NR_DENTRY_IN_BLOCK)) by lia.
  assert (forall out1, out1 = out ++ listing (E (Some n)) q NR_DENTRY_IN_BLOCK ->
    exists r, read_blocks k o emit d (n + 1) ((n + 1) * NR_DENTRY_IN_BLOCK) out1 = Done r /\ read_result o emit d E (n * NR_DENTRY_IN_BLOCK + q) out r) as Hnext.
  { intros out1 ->. destruct (IH (n + 1) 0 (out ++ listing (E (Some n)) q NR_DENTRY_IN_BLOCK)) as (r & Er & R); [lia|lia|done|lia|].
    rewrite Z.add_0_r in Er, R. exists r. split; [exact Er|]. destruct r as [[err pos'] out']. destruct R as (R1 & R2 & R3).
    replace ((n + 1) * NR_DENTRY_IN_BLOCK) with (n * NR_DENTRY_IN_BLOCK + NR_DENTRY_IN_BLOCK) in R1, R2 by lia.
    split; [lia|]. split; [|done]. rewrite R2, <- app_assoc. f_equal.
    rewrite (dir_listing_app d E (n * NR_DENTRY_IN_BLOCK + q) (n * NR_DENTRY_IN_BLOCK + NR_DENTRY_IN_BLOCK) pos') by lia. f_equal. symmetry. apply dir_listing_block; [done|lia|lia]. }
  destruct (pages d !! n) as [blk|] eqn:Eb.
  - destruct (po_page d E K n blk Eb) as (Kb & Mb & _). rewrite <- Mb in *.
    destruct (fill_ok emit blk (E (Some n)) (n * d_max blk) q out Kb) as (r & Er & R); [lia|lia|lia|by apply Z.mod_mul; lia|].
    rewrite Er. cbn [obind]. destruct r as [[err pos'] out']. destruct R as [(-> & ->)|(-> & pos1 & e & p & Hp1 & -> & -> & Ee & Hpp & Hem)].
    + cbn [nz Z.eqb negb]. by apply Hnext.
    + cbn [nz Z.eqb negb]. eexists. split; [done|]. unfold read_result. destruct (do_in blk _ Kb p e Ee) as (_ & Hpm & _). pose proof (slots_pos blk _ p e Kb Ee).
      split; [lia|]. split; [f_equal; symmetry; rewrite Mb in *; apply dir_listing_block; [done|lia|lia]|]. left. split; [done|]. right.
      exists (n * d_max blk + p), e. split; [lia|]. split; [|done]. unfold entry_at. rewrite Ein, <- Mb. rewrite Z.div_add_l, Z.div_small by lia.
      rewrite Z.add_comm, Z.mod_add, Z.mod_small by lia. by rewrite Z.add_0_r.
  - apply Hnext. rewrite (po_none d E K n Eb). rewrite listing_none by (intros; apply lookup_empty). by rewrite app_nil_r.
Qed.
(** A call of readdir lists the entries from its position to where it stops. *)
Lemma readdir_ok o emit d E C pos : dir_ok d E C -> dir_end d < 4294967296 -> 0 <= pos <= dir_end d ->
  exists r, f2fs_readdir o emit pos d = Done r /\ read_result o emit d E pos [] r.
Proof.
  intros [N W D] HT Hpos. pose proof nr_dentry_range as HNR. unfold f2fs_readdir. destruct (inline_dentry d) as [blk|] eqn:Ein.
  - destruct W as (Kb & Mb & _). unfold f2fs_read_inline_dir. assert (dir_end d = d_max blk) as ET by (unfold dir_end; by rewrite Ein).
    assert (forall a b, dir_listing d E a b = listing (E None) a b) as Hl by (intros; unfold dir_listing, listing, entry_at; by rewrite Ein).
    destruct (Z.eqb_spec pos (d_max blk)) as [->|Hne].
    { eexists. split; [done|]. unfold read_result. rewrite dir_listing_nil. split; [lia|]. split; [done|]. left. split; [done|]. by left. }
    destruct (nz (node_page o)) eqn:Enz.
    { eexists. split; [done|]. unfold read_result. rewrite dir_listing_nil. split; [lia|]. split; [done|]. right.
      split; [intros E0; by rewrite E0 in Enz|by right; right; right]. }
    destruct (do_len blk _ Kb) as (_ & _ & Hm).
    destruct (fill_ok emit blk (E None) 0 pos [] Kb) as (r & Er & R); [lia|lia|lia|apply Z.mod_0_l; lia|]. rewrite Z.add_0_l in Er. rewrite Er. cbn [obind].
    destruct r as [[err pos'] out']. eexists. split; [done|]. unfold read_result. rewrite !Hl, ET.
    destruct R as [(-> & ->)|(-> & pos1 & e & p & Hp1 & -> & -> & Ee & Hpp & Hem)]; cbn [nz Z.eqb negb].
    + split; [lia|]. split; [done|]. left. split; [done|]. by left.
    + split; [lia|]. split; [done|]. left. split; [done|]. right. exists p, e. destruct (do_in blk _ Kb p e Ee) as (_ & Hpm & _). pose proof (slots_pos blk _ p e Kb Ee).
      split; [lia|]. split; [|done]. unfold entry_at. by rewrite Ein.
  - destruct W as [W _]. assert (dir_end d = dir_blocks d * NR_DENTRY_IN_BLOCK) as ET by (unfold dir_end; by rewrite Ein).
    assert (0 < NR_DENTRY_IN_BLOCK) as HNR0 by lia. pose proof (Z.div_mod pos _ (not_eq_sym (Z.lt_neq _ _ HNR0))) as Hdm. pose proof (Z.mod_pos_bound pos _ HNR0) as Hmb.
    set (n := pos / NR_DENTRY_IN_BLOCK) in *. set (q := pos mod NR_DENTRY_IN_BLOCK) in *.
    assert (0 <= n <= dir_blocks d) as Hn by nia. rewrite (u32_id n) by nia.
    replace pos with (n * NR_DENTRY_IN_BLOCK + q) by lia. apply read_blocks_ok; try done; [nia|lia].
Qed.
(** What is listed, from beginning to end, are the contents. *)
Lemma dir_listing_contents d E C : dir_ok d E C -> 
  NoDup (map dn_name (dir_listing d E 0 (dir_end d))) /\
  forall x, x ∈ dir_listing d E 0 (dir_end d) <-> exists n v, C !! n = Some v /\ x = dirent_of (mk_dent n 0 (fst v) (snd v)).
Proof.
  intros K. pose proof K as [N W D]. pose proof nr_dentry_range as HNR.
  assert (exists f : Z -> option Z * Z, (forall x y, 0 <= x -> 0 <= y -> f x = f y -> x = y) /\
    (forall x, entry_at d E x = E (fst (f x)) !! (snd (f x))) /\
    (forall l p e, E l !! p = Some e -> exists x, f x = (l, p) /\ 0 <= x < dir_end d) /\ 0 <= dir_end d) as (f & Finj & Fat & Fsur & Fend).
  { unfold entry_at, dir_end. destruct (inline_dentry d) as [blk|].
    - exists (fun x => (None, x)). destruct W as (Kb & Mb & _ & _ & E0 & _). split; [by intros x y _ _ [= ->]|]. split; [done|]. split.
      + intros [b|] p e Ee; [by rewrite E0 in Ee|]. exists p. split; [done|]. destruct (do_in blk _ Kb p e Ee) as (? & ? & _).
        pose proof (slots_pos blk _ p e Kb Ee). lia.
      + destruct (do_len blk _ Kb). lia.
    - exists (fun x => (Some (x / NR_DENTRY_IN_BLOCK), x mod NR_DENTRY_IN_BLOCK)). destruct W as [W E0]. split; [|split; [done|split]].
      + intros x y Hx Hy [= E1 E2]. rewrite (Z.div_mod x NR_DENTRY_IN_BLOCK), (Z.div_mod y NR_DENTRY_IN_BLOCK) by lia. congruence.
      + intros [b|] p e Ee; [|by rewrite E0 in Ee]. destruct (pages d !! b) as [blk|] eqn:Eb; [|by rewrite (po_none d E W b Eb) in Ee].
        destruct (po_page d E W b blk Eb) as (Kb & Mb & Hb & _). destruct (do_in blk _ Kb p e Ee) as (? & ? & _).
        pose proof (slots_pos blk _ p e Kb Ee). exists (b * NR_DENTRY_IN_BLOCK + p).
        split; [|nia]. rewrite Z.div_add_l, Z.div_small by lia. rewrite Z.add_0_r, Z.add_comm, Z.mod_add, Z.mod_small by lia. done.
      + unfold dir_blocks, PAGE_SIZE, PAGE_SHIFT. pose proof (po_size d E W). rewrite u64_id by lia. rewrite Z.shiftr_div_pow2 by lia.
        pose proof (Z.div_pos (i_size d + 4096 - 1) (2 ^ 12)). nia. }
  unfold dir_listing. rewrite Z.sub_0_r. split.
  - rewrite <- (Z2Nat.id (dir_end d)) by done. apply omap_seqZ_names. intros x y u v Hx Hy. rewrite !Fat.
    destruct (E (fst (f x)) !! _) as [e|] eqn:Ex; [|done]. destruct (E (fst (f y)) !! _) as [g|] eqn:Ey; [|done]. cbn. intros [= <-] [= <-] En.
    destruct (no_one E C N _ _ e _ _ g Ex Ey En) as [E1 E2]. apply Finj; [lia|lia|]. destruct (f x), (f y). cbn in *. congruence.
  - intros x. rewrite list_elem_of_omap. split.
    + intros (y & Hy & Ey). rewrite Fat in Ey. destruct (E (fst (f y)) !! _) as [e|] eqn:Ee; [|done]. cbn in Ey. injection Ey as <-.
      exists (e_name e), (e_ino e, e_type e). split; [by apply (no_in E C N _ _ e Ee)|done].
    + intros (n & v & Ev & ->). destruct (no_out E C N n v Ev) as (l & p & e & Ee & En). destruct (Fsur l p e Ee) as (y & Ey & Hy).
      exists y. split; [apply elem_of_seqZ; lia|]. rewrite Fat, Ey. cbn [fst snd]. rewrite Ee. cbn. f_equal.
      pose proof (no_in E C N l p e Ee) as Ec. rewrite En in Ec. assert (v = (e_ino e, e_type e)) as -> by congruence. unfold dirent_of. cbn. by rewrite En.
Qed.

(** ** A new directory, and its life *)

Definition new_dir (inl : bool) (dir_level : Z) : dir :=
  mk_dir (if inl then Some (zero_inline i) else None) ∅ 0 1 dir_level 0 0 0.
Definition new_contents (inum mode parent_ino parent_mode : Z) : contents :=
  <[DOTDOT := (u32 parent_ino, type_of_mode parent_mode)]> (<[DOT := (u32 inum, type_of_mode mode)]> ∅).
Lemma names_new l inum mode pino pmode :
  names_ok (eput (fun _ => ∅) l (empty_dir_map inum mode pino pmode)) (new_contents inum mode pino pmode).
Proof.
  assert (names_ok (fun _ => ∅) ∅) as N0 by (by split).
  pose proof (names_add _ _ l 0 (new_dent DOT inum mode) N0 eq_refl eq_refl (new_dent_ok _ _ _)) as N1.
  pose proof (names_add _ _ l 1 (new_dent DOTDOT pino pmode) N1) as N2. rewrite eput_eq in N2.
  specialize (N2 eq_refl eq_refl (new_dent_ok _ _ _)). destruct N2 as [A1 A2 A3 A4].
  assert (forall l', eput (eput (fun _ : option Z => ∅) l (<[0 := new_dent DOT inum mode]> ∅)) l (<[1 := new_dent DOTDOT pino pmode]> (<[0 := new_dent DOT inum mode]> ∅)) l' =
    eput (fun _ => ∅) l (empty_dir_map inum mode pino pmode) l') as X by (intros l'; unfold eput; by destruct (decide (l' = l))).
  split.
  - intros l1 p1 e1 l2 p2 e2. rewrite <- !X. apply A1.
  - intros l1 p1 e1. rewrite <- X. apply A2.
  - intros l1 p1 e1. rewrite <- X. apply A3.
  - intros n v Ev. destruct (A4 n v Ev) as (l1 & p1 & e1 & Ee & En). rewrite X in Ee. by exists l1, p1, e1.
Qed.
Lemma dots_new l inum mode pino pmode : dots_first (eput (fun _ => ∅) l (empty_dir_map inum mode pino pmode)) l.
Proof.
  split; eexists; (split; [rewrite eput_eq; unfold empty_dir_map|]).
  - rewrite lookup_insert_ne by done. apply lookup_singleton_eq.
  - done.
  - apply lookup_insert_eq.
  - done.
Qed.
Lemma make_empty_dir_ok o inl dl inum mode pino pmode : 0 <= dl < 256 ->
  exists err d', make_empty_dir o i inum mode pino pmode (new_dir inl dl) = (err, d') /\
    (err = 0 -> dir_rep d' (new_contents inum mode pino pmode)) /\ (err <> 0 -> err = new_page o 0 \/ err = - E2BIG \/ exists b, err = new_page o b).
Proof.
  intros Hdl. unfold make_empty_dir. pose proof nr_dentry_range as HNR. pose proof depth_max as Hdm. destruct inl; cbn [new_dir inline_dentry].
  - eexists 0, _. split; [done|]. split; [intros _|done]. assert (blank (zero_inline i)) as B by (apply no_dentries_blank; lia).
    destruct (make_empty_ok _ inum mode pino pmode B) as (Km & Mm & Mb). exists (eput (fun _ => ∅) None (empty_dir_map inum mode pino pmode)).
    set (d1 := put_dentries None _ _). destruct (size_at_least_spec (MAX_INLINE_DATA i) d1) as (P1 & [P2 P3 P4 P5] & P6).
    split; [apply names_new| |unfold first_block; rewrite P2; apply dots_new]. rewrite P2.
    assert (inline_dentry d1 = Some (f2fs_do_make_empty_dir inum mode pino pmode (zero_inline i))) as -> by done. unfold inline_ok. rewrite P1, P3, P4, P5, P6, eput_eq. split_and!; try done; cbn; lia.
  - set (d0 := new_dir false dl). assert (pages_ok d0 (fun _ => ∅)) as K0 by (split; cbn; try done; lia).
    destruct (get_new_page_ok o 0 d0 _ K0 ltac:(lia)) as (err & d1 & Eg & G & K1 & Hpg & Herr). change (mk_dir None ∅ 0 1 dl 0 0 0) with d0. rewrite Eg.
    destruct (nz err) eqn:Enz.
    { eexists _, _. split; [done|]. split; [intros E0; by rewrite E0 in Enz|]. intros _. destruct Herr as [->|[?|?]]; [done|by right; right|by right; left]. }
    destruct Hpg as (blk & Eb & Kb & Mb & Zb); [unfold nz in Enz; lia|]. rewrite Zb in Eb by done. rewrite Eb. clear Zb Kb Mb blk.
    assert (blank zero_block) as B by (apply no_dentries_blank; lia). destruct (make_empty_ok _ inum mode pino pmode B) as (Km & Mm & Mb).
    eexists 0, _. split; [done|]. split; [intros _|done]. exists (eput (fun _ => ∅) (Some 0) (empty_dir_map inum mode pino pmode)).
    destruct G as [G1 G2 G3 G4]. split; [apply names_new| |].
    + unfold put_dentries, upd. cbn [inline_dentry]. rewrite G1. cbn [d0 new_dir inline_dentry]. split; [|done].
      split; cbn [pages i_size i_current_depth i_dir_level clevel]; rewrite ?G2, ?G3, ?G4; try apply K1; try (cbn; lia).
      * intros b blk [[<- <-]|[Hne Ebb]]%lookup_insert_Some; [|rewrite eput_ne by congruence; by apply (po_page d1 _ K1)].
        rewrite eput_eq. destruct (po_page d1 _ K1 0 zero_block Eb) as (_ & M0 & Hb). split_and!; [done|congruence|apply Hb..].
      * intros b [Ebb Hne]%lookup_insert_None. by rewrite eput_ne by congruence.
      * intros b p e. unfold eput. destruct (decide (Some b = Some 0)) as [[= ->]|]; [|by rewrite lookup_empty]. intros Ee.
        exists 0. split; [cbn; lia|]. assert (e_hash e = 0) as ->.
        { unfold empty_dir_map in Ee. apply lookup_insert_Some in Ee as [[_ <-]|[_ Ee]]; [done|]. by apply lookup_singleton_Some in Ee as [_ <-]. }
        unfold in_bucket. pose proof (bucket_blocks_pos 0). assert (dir_block_index 0 (i_dir_level d0) (0 mod dir_buckets 0 (i_dir_level d0)) = 0) as -> by done. lia.
    + unfold first_block, put_dentries, upd. cbn [inline_dentry]. rewrite G1. apply dots_new.
Qed.

(** One operation on a directory, by any task, whatever the calls below it
    return, and what it does to the contents. *)
Inductive dir_step : dir * contents -> dir * contents -> Prop :=
| step_find o current name d C r err d' :
    __f2fs_find_entry o current name d = Done (r, err, d') -> dir_step (d, C) (d', C)
| step_add o current name inum mode d C err d' : io_ok o -> name_ok name -> (current = task d -> C !! name = None) ->
    f2fs_do_add_link o current i name inum mode d = Done (err, d') -> dir_step (d, C) (d', after_add name inum mode err C)
| step_unlink o current name d C l err d' : name <> DOT -> name <> DOTDOT ->
    __f2fs_find_entry o current name d = Done (Some l, err, d') -> dir_step (d, C) (f2fs_delete_entry o l d', delete name C)
| step_link o current name inum mode d C l err d' :
    __f2fs_find_entry o current name d = Done (Some l, err, d') -> dir_step (d, C) (f2fs_set_link l inum mode d', linked name inum mode C).
Lemma dir_step_ok x y : dir_rep (fst x) (snd x) -> dir_step x y -> dir_rep (fst y) (snd y).
Proof.
  intros [E K] St. destruct St as [o current name d C r err d' Ef|o current name inum mode d C err d' Ho Hn Ht Ea
    |o current name d C l err d' Hd1 Hd2 Ef|o current name inum mode d C l err d' Ef]; cbn [fst snd] in *.
  - destruct (find_entry_ok o current name d E C K) as (r2 & err2 & d2 & Ef2 & K2 & _). rewrite Ef2 in Ef. injection Ef as _ _ <-. by exists E.
  - destruct (add_link_ok o current name inum mode d C (ex_intro _ E K) Hn Ho Ht) as (err2 & d2 & Ea2 & R & _). rewrite Ea2 in Ea. by injection Ea as <- <-.
  - destruct (find_entry_ok o current name d E C K) as (r2 & err2 & d2 & Ef2 & K2 & _ & _ & _ & F). rewrite Ef2 in Ef. injection Ef as -> _ <-.
    apply (delete_rep o d2 E C name l K2 (proj2 F) Hd1 Hd2).
  - destruct (find_entry_ok o current name d E C K) as (r2 & err2 & d2 & Ef2 & K2 & _ & _ & _ & F). rewrite Ef2 in Ef. injection Ef as -> _ <-.
    apply (set_link_rep d2 E C name l inum mode K2 (proj2 F)).
Qed.
(** What a lookup returns, in terms of the contents *)
Lemma lookup_contents o current name d C : dir_rep d C ->
  exists r err d', __f2fs_find_entry o current name d = Done (r, err, d') /\ read_error o err /\
    match r with
    | Some (l, p) => err = 0 /\ exists blk, dentries_at l d' = Some blk /\ C !! name = Some (ino (dentry blk).[p], file_type (dentry blk).[p])
    | None => err = 0 -> C !! name = None
    end.
Proof.
  intros [E K]. destruct (find_entry_ok o current name d E C K) as (r & err & d' & Ef & K' & _ & _ & Rd & F). exists r, err, d'.
  split; [exact Ef|]. split; [exact Rd|]. destruct r as [[l p]|]; [|done]. destruct F as [-> (e & Ee & En)]. cbn [fst snd] in *. split; [done|].
  destruct (found_dentries d' E C (l, p) e K' Ee) as (blk & El & Kb). exists blk. split; [exact El|]. cbn [fst] in Kb.
  rewrite (do_entry blk _ Kb p e Ee). cbn [ino file_type]. rewrite <- En. by apply (no_in E C (di_names _ _ _ K') l p).
Qed.
End spec.

(** ** Levels and buckets *)

Section buckets.
Context `{DirFormatOk}.
#[local] Abbreviation half := (MAX_DIR_HASH_DEPTH / 2).

Lemma dir_buckets_range level dl : 0 <= level -> 0 <= dl -> 1 <= dir_buckets level dl <= 1073741824.
Proof.
  intros Hl Hdl. pose proof depth_max as Hd. assert (0 <= half - 1 <= 30) as Hh by dlia. unfold dir_buckets. rewrite buckets_max.
  assert (forall k, 0 <= k <= 30 -> 1 <= 2 ^ k <= 1073741824) as Hp.
  { intros k Hk. split; [apply (Z.pow_le_mono_r 2 0 k); lia|apply (Z.pow_le_mono_r 2 k 30); lia]. }
  destruct (Z.ltb_spec (level + dl) half); [|by apply Hp]. rewrite Z.shiftl_1_l. apply Hp. lia.
Qed.
(** The first block of a level, without wrap-around *)
Fixpoint level_start (n : nat) (dl : Z) : Z := match n with O => 0 | S k => level_start k dl + dir_buckets (Z.of_nat k) dl * 2 end.
Lemma level_start_ok n dl : 0 <= dl -> Z.of_nat n <= half -> level_blocks n dl = level_start n dl /\ 0 <= level_start n dl <= Z.of_nat n * 2147483648.
Proof.
  intros Hdl. induction n as [|n IH]; intros Hn; cbn [level_blocks level_start]; [lia|]. destruct (IH ltac:(lia)) as [-> Hr].
  pose proof (dir_buckets_range (Z.of_nat n) dl ltac:(lia) Hdl). pose proof depth_max. assert (half <= 31) by dlia.
  unfold bucket_blocks. replace (Z.of_nat n <? half) with true by (symmetry; apply Z.ltb_lt; lia). rewrite u32_id, u64_id by lia. lia.
Qed.
Lemma level_start_mono a b dl : 0 <= dl -> (a < b)%nat -> level_start a dl + dir_buckets (Z.of_nat a) dl * 2 <= level_start b dl.
Proof.
  intros Hdl. induction b as [|b IH]; intros Hab; [lia|]. cbn [level_start]. destruct (decide (a = b)) as [->|]; [lia|].
  pose proof (dir_buckets_range (Z.of_nat b) dl ltac:(lia) Hdl). specialize (IH ltac:(lia)). lia.
Qed.
Lemma dir_block_index_exact level dl idx : 0 <= dl -> 0 <= level < half -> 0 <= idx < dir_buckets level dl ->
  dir_block_index level dl idx = level_start (Z.to_nat level) dl + idx * 2.
Proof.
  intros Hdl Hl Hidx. destruct (level_start_ok (Z.to_nat level) dl Hdl ltac:(lia)) as [E Hr]. pose proof (dir_buckets_range level dl ltac:(lia) Hdl).
  pose proof depth_max. assert (half <= 31) by dlia. unfold dir_block_index, bucket_blocks. replace (level <? half) with true by lia.
  rewrite E. rewrite u32_id, u64_id by lia. done.
Qed.
End buckets.
