(* ===== verification/DirProps.v ===== *)
(** The theorems about directories: buckets of the hash table, a directory as a
    finite map under any sequence of operations, creation, conversion of inline
    directories, readdir and rmdir's test, with the demo directories of their witnesses. *)
From stdpp Require Import gmap.
From S2P Require Import Prelude NodePath Dentry Dir.
Open Scope Z_scope.

Section bounds.
Context `{DirFormatOk}.
#[local] Abbreviation half := (MAX_DIR_HASH_DEPTH / 2).

(** Up to level 30 (half of the hash depth) no block belongs to two buckets,
    whatever the directory level: the blocks of a level start where those of the
    level above end, and nothing wraps around. *)
Theorem buckets_disjoint level level' dl idx idx' : 0 <= dl -> 0 <= level < half -> 0 <= level' < half ->
  0 <= idx < dir_buckets level dl -> 0 <= idx' < dir_buckets level' dl -> (level, idx) <> (level', idx') ->
  dir_block_index level dl idx + bucket_blocks level <= dir_block_index level' dl idx' \/
  dir_block_index level' dl idx' + bucket_blocks level' <= dir_block_index level dl idx.
Proof.
  intros Hdl Hl Hl' Hi Hi' Hne. rewrite !dir_block_index_exact by done.
  assert (bucket_blocks level = 2 /\ bucket_blocks level' = 2) as [-> ->]
    by (unfold bucket_blocks; by replace (level <? half) with true by lia; replace (level' <? half) with true by lia).
  assert (forall l, 0 <= l -> Z.of_nat (Z.to_nat l) = l) as Hz by lia.
  destruct (Z.lt_trichotomy level level') as [Hlt|[->|Hlt]].
  - pose proof (level_start_mono (Z.to_nat level) (Z.to_nat level') dl Hdl ltac:(lia)) as Hm. rewrite Hz in Hm by lia. lia.
  - assert (idx <> idx') by congruence. lia.
  - pose proof (level_start_mono (Z.to_nat level') (Z.to_nat level) dl Hdl ltac:(lia)) as Hm. rewrite Hz in Hm by lia. lia.
Qed.
End bounds.

Section properties.
Context `{DirFormatOk} `{BitSearchOk} `{FscryptOk} `{NodeFormatOk}.
Context (i : inode) (Hi : 0 <= addrs_per_inode i <= 1024).
Context (Hinl : 2 <= NR_INLINE_DENTRY i <= NR_DENTRY_IN_BLOCK) (Hinl2 : 0 <= MAX_INLINE_DATA i <= 4096).

(** C11. A directory is a finite map. However a new directory was made (inline or
    not), and whatever sequence of creations, removals, redirections and lookups
    of any tasks it went through, with reads, allocations and hole punching
    failing at will, a lookup of a name ends and finds the entry with the inode
    and type the map gives for it; it finds none only when the map has none or a
    read failed. (The truncation that undoes a failed conversion, whose result the code
    ignores, is taken to succeed, here and below: [io_rollback].) *)
Theorem dir_refines_map o0 inl dl inum mode pino pmode d0 d C o current name :
  0 <= dl < 256 -> make_empty_dir o0 i inum mode pino pmode (new_dir i inl dl) = (0, d0) ->
  star (dir_step i) (d0, new_contents inum mode pino pmode) (d, C) ->
  exists r err d', __f2fs_find_entry o current name d = Done (r, err, d') /\ read_error o err /\
    match r with
    | Some (l, p) => err = 0 /\ exists blk, dentries_at l d' = Some blk /\ C !! name = Some (ino (dentry blk).[p], file_type (dentry blk).[p])
    | None => err = 0 -> C !! name = None
    end.
Proof.
  intros Hdl Em St. destruct (make_empty_dir_ok i Hi Hinl Hinl2 o0 inl dl inum mode pino pmode Hdl) as (err & d1 & E1 & R & _).
  rewrite E1 in Em. injection Em as -> ->. apply (lookup_contents i o current name d C).
  apply (star_invariant (dir_step i) (fun x => dir_rep i (fst x) (snd x)) _ (d, C)) in St; [done| |by apply R].
  intros x y Kx. by apply (dir_step_ok i Hi Hinl Hinl2).
Qed.

(** C12. Creating a name ends; it succeeds or leaves the contents as they were, and
    a name that exists is never added again: unless a read fails the answer is
    -EEXIST. The task that has just looked the name up may skip the check. *)
Theorem add_link_spec o current name inum mode d C :
  dir_rep i d C -> name_ok name -> io_ok o -> (current = task d -> C !! name = None) ->
  exists err d', f2fs_do_add_link o current i name inum mode d = Done (err, d') /\ dir_rep i d' (after_add name inum mode err C) /\
    (C !! name <> None -> err <> 0) /\ (C !! name <> None -> (forall b, rd_page o b = 0) -> node_page o = 0 -> err = - EEXIST).
Proof. intros K Hn Ho Ht. by apply add_link_ok. Qed.

(** C36. Converting an inline directory, by copying its area to block 0 or by adding
    its entries to the hash table again, keeps the contents; when it fails, even
    half way through, the directory is still inline and complete (the truncation that
    undoes it being taken to succeed, as above). *)
Theorem inline_conversion o blk d C :
  dir_rep i d C -> inline_dentry d = Some blk -> io_ok o ->
  exists err d', f2fs_convert_inline_dir o i blk d = Done (err, d') /\ dir_rep i d' C /\
    (err = 0 -> inline_dentry d' = None) /\ (err <> 0 -> err = - ENOMEM \/ io_error o err).
Proof.
  intros [E K] Ein Ho. unfold f2fs_convert_inline_dir. destruct (Z.eqb_spec (i_dir_level d) 0) as [Ez|Ez].
  - destruct (move_inline_ok i Hinl Hinl2 o blk d E C K Ein Ho Ez) as (err & d' & Em & M). exists err, d'. rewrite Em. split; [done|].
    destruct M as [(M1 & M2 & ->)|(M1 & M2 & M3)]; (split; [by eexists|]); split; try done. intros _. right. left. by exists 0.
  - destruct (move_rehashed_ok i Hi Hinl Hinl2 o blk d E C (io_rollback o Ho) K Ein) as (err & d' & Em & M). exists err, d'. split; [exact Em|].
    destruct M as [(M1 & M2 & M3)|(M1 & M2 & M3)]; [split; [by eexists|]; by split|]. split; [done|]. by split.
Qed.

(** Reading a directory in any number of calls, with buffers of any size,
    lists every name exactly once: a call that starts at [pos] emits the part of
    one fixed listing from [pos] to where it stops, and stops only at the end,
    at an entry the caller had no room for, at a signal or at a failed read. *)
Theorem readdir_spec d C : dir_rep i d C -> dir_end d < 4294967296 ->
  exists L : Z -> Z -> list dirent,
    (forall a b c, a <= b <= c -> L a c = L a b ++ L b c) /\ NoDup (map dn_name (L 0 (dir_end d))) /\
    (forall x, x ∈ L 0 (dir_end d) <-> exists n v, C !! n = Some v /\ x = dirent_of (mk_dent n 0 (fst v) (snd v))) /\
    forall o emit pos, 0 <= pos <= dir_end d -> exists err pos' out, f2fs_readdir o emit pos d = Done (err, pos', out) /\
      pos <= pos' <= dir_end d /\ out = L pos pos' /\
      (err = 0 /\ (pos' = dir_end d \/ exists x, emit out x = false) \/ err <> 0 /\ (err = - ERESTARTSYS \/ read_error o err)).
Proof.
  intros [E K] HT. exists (dir_listing d E). destruct (dir_listing_contents i Hinl Hinl2 d E C K) as [L1 L2].
  split; [intros; by apply dir_listing_app|]. split; [exact L1|]. split; [exact L2|]. intros o emit pos Hpos.
  destruct (readdir_ok i Hinl Hinl2 o emit d E C pos K HT Hpos) as ([[err pos'] out] & Er & R1 & R2 & R3). exists err, pos', out. split_and!; try done; try lia.
  destruct R3 as [[-> [R|(x & e & _ & _ & R)]]|R]; [left|left|by right]; (split; [done|]); [by left|right; by eexists].
Qed.

(** C37. rmdir sees an empty directory only when "." and ".." are the only names
    left, and always then as long as its pages can be read. *)
Theorem empty_dir_spec o d C : dir_rep i d C ->
  (f2fs_empty_dir o d = true -> forall n, C !! n <> None -> n = DOT \/ n = DOTDOT) /\
  ((forall b, rd_page o b = 0) -> node_page o = 0 -> (forall n, C !! n <> None -> n = DOT \/ n = DOTDOT) -> f2fs_empty_dir o d = true).
Proof. intros K. exact (empty_dir_ok i Hi Hinl Hinl2 o d C K). Qed.
End properties.

#[local] Existing Instances linux_dir linux_dir_ok scan_search scan_search_ok plain_names plain_names_ok linux_node linux_node_ok.
Definition demo_io : io := mk_io (fun _ => 0) (fun _ => 0) 0 0 true (fun _ => 0) zero_block (fun _ => false) (fun _ => ∅).
Lemma demo_io_ok : io_ok demo_io.
Proof. split; [|done|done]. intros e [[b [->| ->]]|[->| ->]]; done. Qed.
(** A new inline directory, and one with a file "a" made by task 1. *)
Definition demo_dir0 : dir := snd (make_empty_dir demo_io demo_inode 3 16877 2 16877 (new_dir demo_inode true 0)).
Definition demo_name : list Z := [97].
Definition demo_dir1 : dir :=
  match f2fs_do_add_link demo_io 1 demo_inode demo_name 7 33188 demo_dir0 with Done (_, d) => d | _ => demo_dir0 end.
Definition demo_contents : contents := after_add demo_name 7 33188 0 (new_contents 3 16877 2 16877).
Lemma demo_inline : 2 <= NR_INLINE_DENTRY demo_inode <= NR_DENTRY_IN_BLOCK.
Proof. split; by vm_compute. Qed.
Lemma demo_inline2 : 0 <= MAX_INLINE_DATA demo_inode <= 4096.
Proof. split; by vm_compute. Qed.
Lemma demo_name_ok : name_ok demo_name.
Proof. split; by vm_compute. Qed.
Lemma demo_make : make_empty_dir demo_io demo_inode 3 16877 2 16877 (new_dir demo_inode true 0) = (0, demo_dir0).
Proof. vm_compute. reflexivity. Qed.
Lemma demo_add : f2fs_do_add_link demo_io 1 demo_inode demo_name 7 33188 demo_dir0 = Done (0, demo_dir1).
Proof. vm_compute. reflexivity. Qed.
Lemma demo_absent : new_contents 3 16877 2 16877 !! demo_name = None.
Proof. vm_compute. reflexivity. Qed.
Lemma demo_step : dir_step demo_inode (demo_dir0, new_contents 3 16877 2 16877) (demo_dir1, after_add demo_name 7 33188 0 (new_contents 3 16877 2 16877)).
Proof.
  exact (step_add demo_inode demo_io 1 demo_name 7 33188 demo_dir0 (new_contents 3 16877 2 16877) 0 demo_dir1 demo_io_ok demo_name_ok
           (fun _ => demo_absent) demo_add).
Qed.
Lemma demo_rep0 : dir_rep demo_inode demo_dir0 (new_contents 3 16877 2 16877).
Proof.
  destruct (make_empty_dir_ok demo_inode demo_inode_ok demo_inline demo_inline2 demo_io true 0 3 16877 2 16877 (conj (Z.le_refl 0) eq_refl)) as (err & d & E & R & _).
  rewrite demo_make in E. pose proof (f_equal fst E) as E1. pose proof (f_equal snd E) as E2. cbn [fst snd] in E1, E2. rewrite E2. exact (R (eq_sym E1)).
Qed.
Lemma demo_rep : dir_rep demo_inode demo_dir1 demo_contents.
Proof.
  exact (dir_step_ok demo_inode demo_inode_ok demo_inline demo_inline2 (demo_dir0, new_contents 3 16877 2 16877) (demo_dir1, demo_contents) demo_rep0 demo_step).
Qed.
(** Names of 255 bytes fill the inline area: with the sixth the directory becomes a hash table. *)
Example demo_grow :
  let name (k : Z) : list Z := replicate 254 97 ++ [98 + k] in
  let grow := fold_left (fun d k => match d with
                | Done d => r <-- f2fs_do_add_link demo_io 1 demo_inode (name k) (100 + k) 33188 d ;; Done (snd r)
                | x => x end) (seqZ 0 6) (Done demo_dir0) in
  match grow with
  | Done d => (isSome (inline_dentry d), i_current_depth d, f2fs_empty_dir demo_io d,
               match f2fs_inode_by_name demo_io 1 (name 5) d with Done (ino, err, _) => (ino, err) | _ => (0, 0) end) = (false, 1, false, (105, 0))
  | _ => False
  end.
Proof. vm_compute. reflexivity. Qed.

Lemma buckets_disjoint_witness : dir_block_index 3 0 5 + bucket_blocks 3 <= dir_block_index 4 0 2 \/ dir_block_index 4 0 2 + bucket_blocks 4 <= dir_block_index 3 0 5.
Proof. apply (@buckets_disjoint linux_dir linux_dir_ok 3 4 0 5 2); try (by vm_compute); split; by vm_compute. Defined.
Lemma dir_refines_map_witness : exists r err d', __f2fs_find_entry demo_io 2 demo_name demo_dir1 = Done (r, err, d') /\ read_error demo_io err /\
    match r with
    | Some (l, p) => err = 0 /\ exists blk, dentries_at l d' = Some blk /\ demo_contents !! demo_name = Some (ino (dentry blk).[p], file_type (dentry blk).[p])
    | None => err = 0 -> demo_contents !! demo_name = None
    end.
Proof.
  exact (@dir_refines_map linux_dir linux_dir_ok scan_search scan_search_ok plain_names plain_names_ok linux_node linux_node_ok demo_inode
           demo_inode_ok demo_inline demo_inline2 demo_io true 0 3 16877 2 16877 demo_dir0 demo_dir1 demo_contents demo_io 2 demo_name
           (conj (Z.le_refl 0) eq_refl) demo_make (star_step _ _ _ _ demo_step (star_refl _ _))).
Defined.
Lemma add_link_spec_witness : exists err d', f2fs_do_add_link demo_io 2 demo_inode demo_name 9 33188 demo_dir1 = Done (err, d') /\ err = - EEXIST.
Proof.
  destruct (@add_link_spec linux_dir linux_dir_ok scan_search scan_search_ok plain_names plain_names_ok linux_node linux_node_ok demo_inode
           demo_inode_ok demo_inline demo_inline2 demo_io 2 demo_name 9 33188 demo_dir1 demo_contents demo_rep demo_name_ok demo_io_ok)
    as (err & d' & E & _ & _ & H); [by vm_compute|]. exists err, d'. split; [exact E|]. by apply H.
Defined.
Lemma inline_conversion_witness : exists blk err d', inline_dentry demo_dir1 = Some blk /\
  f2fs_convert_inline_dir demo_io demo_inode blk demo_dir1 = Done (err, d') /\ dir_rep demo_inode d' demo_contents.
Proof.
  destruct (inline_dentry demo_dir1) as [blk|] eqn:Ein; [|by vm_compute in Ein]. exists blk.
  destruct (@inline_conversion linux_dir linux_dir_ok scan_search scan_search_ok linux_node linux_node_ok demo_inode
           demo_inode_ok demo_inline demo_inline2 demo_io blk demo_dir1 demo_contents demo_rep Ein demo_io_ok) as (err & d' & E & R & _).
  exists err, d'. by split_and!.
Defined.
Lemma readdir_spec_witness : exists L, NoDup (map dn_name (L 0 (dir_end demo_dir1))) /\
  mk_dirent demo_name 7 8 ∈ (L 0 (dir_end demo_dir1) : list dirent).
Proof.
  destruct (@readdir_spec linux_dir linux_dir_ok scan_search scan_search_ok linux_node demo_inode
           demo_inline demo_inline2 demo_dir1 demo_contents demo_rep) as (L & _ & L1 & L2 & _); [by vm_compute|].
  exists L. split; [exact L1|]. apply L2. exists demo_name, (7, 1). split; [by vm_compute|done].
Defined.
Lemma empty_dir_spec_witness : f2fs_empty_dir demo_io demo_dir1 = false.
Proof.
  destruct (@empty_dir_spec linux_dir linux_dir_ok scan_search scan_search_ok linux_node demo_inode
           demo_inode_ok demo_inline demo_inline2 demo_io demo_dir1 demo_contents demo_rep) as [H _].
  destruct (f2fs_empty_dir demo_io demo_dir1); [|done]. exfalso. destruct (H eq_refl demo_name) as [E|E]; [by vm_compute|done|done].
Defined.
