(* ===== verification/NatMgr.v ===== *)
(** * The node address table: cache, journal and blocks ([node.c], [node.h])

    The NAT gives each node id its block address.  Current values are in a
    cache of nat entries; checkpointed ones in the journal of the hot data log
    or in NAT blocks, each kept in two copies.  Free node ids are collected in
    a list, from NAT blocks, the journal and per-block bitmaps.

    The operations are those of [node.c] between taking and releasing
    nat_tree_lock, and nid_list_lock for the free nids. *)
From stdpp Require Import gmap.
From S2P Require Import Prelude Geometry F2fsBits Sit SitFlush.
Open Scope Z_scope.

(** Constants of [<linux/f2fs_fs.h>] *)
Class NatFormat := { NAT_ENTRY_PER_BLOCK : Z; NAT_JOURNAL_ENTRIES : Z; F2FS_RESERVED_NODE_NUM : Z }.
Class NatFormatOk `{SitFormat} `{NatFormat} : Prop := {
  nents_range : 2 <= NAT_ENTRY_PER_BLOCK <= 4096;
  njents_range : 0 <= NAT_JOURNAL_ENTRIES < 65536;
  njents_few : NAT_JOURNAL_ENTRIES < 8 * NAT_ENTRY_PER_BLOCK;
  null_new : NULL_ADDR <> NEW_ADDR;
}.
Definition linux_nat : NatFormat := {| NAT_ENTRY_PER_BLOCK := 455; NAT_JOURNAL_ENTRIES := 38; F2FS_RESERVED_NODE_NUM := 3 |}.
Lemma linux_nat_ok : @NatFormatOk linux_sit linux_nat.
Proof. by split. Qed.

(** radix_tree_gang_lookup: the first [nr] keys from [start] on, in order *)
Class RadixTree := { radix_tree_gang_lookup : gset Z -> Z -> nat -> list Z }.
Class RadixTreeOk `{RadixTree} : Prop := {
  gang_in T start nr k : k ∈ radix_tree_gang_lookup T start nr -> k ∈ T /\ start <= k;
  gang_nodup T start nr : NoDup (radix_tree_gang_lookup T start nr);
  gang_some T start nr k : (0 < nr)%nat -> k ∈ T -> start <= k -> radix_tree_gang_lookup T start nr <> [];
  gang_last T start nr k l : k ∈ T -> start <= k -> list.last (radix_tree_gang_lookup T start nr) = Some l ->
    k <= l -> k ∈ radix_tree_gang_lookup T start nr;
  gang_top T start nr k l : k ∈ radix_tree_gang_lookup T start nr -> list.last (radix_tree_gang_lookup T start nr) = Some l -> k <= l;
}.

(** ** Data *)

(** An entry on the device *)
Record f2fs_nat_entry := mk_nat { rn_version : Z; rn_ino : Z; rn_block_addr : Z }.
#[export] Instance eta_nat : Eta f2fs_nat_entry := fun r => mk_nat (rn_version r) (rn_ino r) (rn_block_addr r).
#[export] Instance nat_inhabited : Inhabited f2fs_nat_entry := populate (mk_nat 0 0 0).
(** The flag of struct node_info is kept in [nat_entry], as copy_node_info leaves it alone. *)
Record node_info := mk_ni { ni_nid : Z; ni_ino : Z; ni_blk : Z; ni_version : Z }.
#[export] Instance eta_ni : Eta node_info := fun n => mk_ni (ni_nid n) (ni_ino n) (ni_blk n) (ni_version n).
Record nat_entry := mk_ne { ni : node_info; ne_flag : Z }.
#[export] Instance eta_ne : Eta nat_entry := fun e => mk_ne (ni e) (ne_flag e).

Definition IS_CHECKPOINTED : Z := 0.
Definition HAS_FSYNCED_INODE : Z := 1.
Definition HAS_LAST_FSYNC : Z := 2.
Definition IS_DIRTY : Z := 3.
Definition IS_PREALLOC : Z := 4.

Record nat_entry_set := mk_nes { entry_list : list Z; entry_cnt : Z }.
#[export] Instance eta_nes : Eta nat_entry_set := fun s => mk_nes (entry_list s) (entry_cnt s).
(** The NAT cache; lists hold nids, whose entries are in [nat_root]. *)
Record nat_cache := mk_nc {
  nat_root : gmap Z nat_entry;
  nat_set_root : gmap Z nat_entry_set;
  nat_entries : list Z;
  nat_cnt : Z;
  dirty_nat_cnt : Z;
}.
#[export] Instance eta_nc : Eta nat_cache := fun c =>
  mk_nc (nat_root c) (nat_set_root c) (nat_entries c) (nat_cnt c) (dirty_nat_cnt c).

Inductive nid_state := FREE_NID | PREALLOC_NID.
#[export] Instance nid_state_eq_dec : EqDecision nid_state.
Proof. solve_decision. Defined.
Record free_nids := mk_fn {
  free_nid_root : gmap Z nid_state;
  free_nid_list : list Z;
  cnt_free : Z;                (* nid_cnt[FREE_NID] *)
  cnt_prealloc : Z;            (* nid_cnt[PREALLOC_NID] *)
  available_nids : Z;
  next_scan_nid : Z;
  free_nid_bitmap : list Z;
  nat_block_bitmap : Z;
  free_nid_count : list Z;
}.
#[export] Instance eta_fn : Eta free_nids := fun f =>
  mk_fn (free_nid_root f) (free_nid_list f) (cnt_free f) (cnt_prealloc f) (available_nids f) (next_scan_nid f)
        (free_nid_bitmap f) (nat_block_bitmap f) (free_nid_count f).
Record f2fs_nm_info := mk_nm {
  nat_blkaddr : Z;
  max_nid : Z;
  nat_blocks : Z;
  nat_bitmap : list Z;
  nc : nat_cache;
  fn : free_nids;
  nat_bits_flag : bool;        (* CP_NAT_BITS_FLAG *)
  full_nat_bits : Z;
  empty_nat_bits : Z;
  need_fsck : bool;            (* set by f2fs_bug_on *)
}.
#[export] Instance eta_nm : Eta f2fs_nm_info := fun n =>
  mk_nm (nat_blkaddr n) (max_nid n) (nat_blocks n) (nat_bitmap n) (nc n) (fn n)
        (nat_bits_flag n) (full_nat_bits n) (empty_nat_bits n) (need_fsck n).

(** The NAT half of struct f2fs_journal *)
Record nat_journal := mk_njnl { n_nats : Z; nat_j : list (Z * f2fs_nat_entry) }.
#[export] Instance eta_njnl : Eta nat_journal := fun j => mk_njnl (n_nats j) (nat_j j).
(** What the operations work on: the node manager, the journal and the meta
    pages by block address. *)
Record nat_store := mk_ns { nm : f2fs_nm_info; njnl : nat_journal; nmeta : Z -> list f2fs_nat_entry }.
#[export] Instance eta_ns : Eta nat_store := fun s => mk_ns (nm s) (njnl s) (nmeta s).

Section nat.
Context `{SitFormat} `{NatFormat} `{RadixTree}.
Context (sbi : f2fs_sb_info).

(** ** Addresses of NAT blocks *)

Definition START_NID (nid : Z) : Z := nid / NAT_ENTRY_PER_BLOCK * NAT_ENTRY_PER_BLOCK.
Definition NAT_BLOCK_OFFSET (start_nid : Z) : Z := start_nid / NAT_ENTRY_PER_BLOCK.
Definition MAX_FREE_NIDS : Z := NAT_ENTRY_PER_BLOCK * 8.
Definition FREE_NID_PAGES : Z := 8.

Definition current_nat_addr (n : f2fs_nm_info) (start : Z) : Z :=
  let block_off := NAT_BLOCK_OFFSET start in
  let block_addr := u64 (nat_blkaddr n + Z.shiftl block_off 1 - Z.land block_off (u32 (blocks_per_seg sbi - 1))) in
  if f2fs_test_bit block_off (nat_bitmap n) then u64 (block_addr + blocks_per_seg sbi) else block_addr.
Definition next_nat_addr (n : f2fs_nm_info) (block_addr : Z) : Z :=
  let block_addr := u64 (block_addr - nat_blkaddr n) in
  let block_addr := Z.lxor block_addr (Z.shiftl 1 (log_blocks_per_seg sbi)) in
  u64 (block_addr + nat_blkaddr n).
Definition set_to_next_nat (start_nid : Z) (n : f2fs_nm_info) : f2fs_nm_info :=
  n <| nat_bitmap ::= f2fs_change_bit (NAT_BLOCK_OFFSET start_nid) |>.

(** ** Flags and conversions *)

Definition set_nat_flag (type : Z) (set : bool) (e : nat_entry) : nat_entry :=
  let mask := u8 (Z.shiftl 1 type) in
  if set then e <| ne_flag ::= fun f => u8 (Z.lor f mask) |> else e <| ne_flag ::= fun f => u8 (Z.ldiff f mask) |>.
Definition get_nat_flag (e : nat_entry) (type : Z) : bool := nz (Z.land (ne_flag e) (u8 (Z.shiftl 1 type))).
Definition nat_reset_flag (e : nat_entry) : nat_entry :=
  set_nat_flag HAS_LAST_FSYNC true (set_nat_flag HAS_FSYNCED_INODE false (set_nat_flag IS_CHECKPOINTED true e)).
Definition node_info_from_raw_nat (n : node_info) (raw : f2fs_nat_entry) : node_info :=
  mk_ni (ni_nid n) (rn_ino raw) (rn_block_addr raw) (rn_version raw).
Definition raw_nat_from_node_info (n : node_info) : f2fs_nat_entry := mk_nat (ni_version n) (ni_ino n) (ni_blk n).

(** ** The journal *)

Definition nats_in_cursum (j : nat_journal) : list (Z * f2fs_nat_entry) := take (Z.to_nat (n_nats j)) (nat_j j).
Definition has_nat_space (j : nat_journal) (size : Z) : bool := size <=? NAT_JOURNAL_ENTRIES - n_nats j.
Definition update_nats_in_cursum (j : nat_journal) (i : Z) : Z * nat_journal :=
  (n_nats j, j <| n_nats := u16 (n_nats j + i) |>).
(** f2fs_lookup_journal_in_cursum for NAT_JOURNAL *)
Definition lookup_nat_journal (j : nat_journal) (val : Z) (alloc : bool) : Z * nat_journal :=
  let i := find_in_cursum (nats_in_cursum j) val 0 in
  if 0 <=? i then (i, j)
  else if alloc && has_nat_space j 1 then update_nats_in_cursum j 1
  else (-1, j).

Definition bug_on (c : bool) (n : f2fs_nm_info) : f2fs_nm_info := n <| need_fsck ::= orb c |>.

(** ** The NAT cache *)

(** list_del of an entry, from the list of clean entries or its set's list *)
Definition list_del_entry (nid : Z) (c : nat_cache) : nat_cache :=
  c <| nat_entries ::= filter (fun k => k <> nid) |>
    <| nat_set_root ::= alter (fun s => s <| entry_list ::= filter (fun k => k <> nid) |>) (NAT_BLOCK_OFFSET nid) |>.
Definition new_nat_entry (nid : Z) : nat_entry := nat_reset_flag (mk_ne (mk_ni nid 0 0 0) 0).
(** __alloc_nat_entry and __init_nat_entry of an entry that is not cached *)
Definition __init_nat_entry (nid : Z) (raw_ne : option f2fs_nat_entry) (c : nat_cache) : nat_cache :=
  let ne := new_nat_entry nid in
  let ne := match raw_ne with Some raw => ne <| ni ::= fun n => node_info_from_raw_nat n raw |> | None => ne end in
  c <| nat_root ::= <[nid := ne]> |> <| nat_entries ::= fun l => l ++ [nid] |> <| nat_cnt ::= fun n => u32 (n + 1) |>.
Definition __lookup_nat_cache (c : nat_cache) (n : Z) : option nat_entry := nat_root c !! n.
Definition __del_from_nat_cache (nid : Z) (c : nat_cache) : nat_cache :=
  (list_del_entry nid c) <| nat_root ::= delete nid |> <| nat_cnt ::= fun n => u32 (n - 1) |>.
Definition __grab_nat_entry_set (set : Z) (c : nat_cache) : nat_cache :=
  match nat_set_root c !! set with
  | Some _ => c
  | None => c <| nat_set_root ::= <[set := mk_nes [] 0]> |>
  end.
Definition __set_nat_cache_dirty (nid : Z) (c : nat_cache) : nat_cache :=
  match nat_root c !! nid with
  | None => c
  | Some ne =>
      let set := NAT_BLOCK_OFFSET nid in
      let new_ne := ni_blk (ni ne) =? NEW_ADDR in
      let c := if negb new_ne then __grab_nat_entry_set set c else c in
      let c := if negb new_ne && (get_nat_flag ne IS_PREALLOC || negb (get_nat_flag ne IS_DIRTY))
               then c <| nat_set_root ::= alter (fun s => s <| entry_cnt ::= fun n => u32 (n + 1) |>) set |> else c in
      let ne := set_nat_flag IS_PREALLOC new_ne ne in
      let c := if get_nat_flag ne IS_DIRTY then c else c <| dirty_nat_cnt ::= fun n => u32 (n + 1) |> in
      let ne := if get_nat_flag ne IS_DIRTY then ne else set_nat_flag IS_DIRTY true ne in
      let c := list_del_entry nid (c <| nat_root ::= <[nid := ne]> |>) in
      if new_ne then c else c <| nat_set_root ::= alter (fun s => s <| entry_list ::= fun l => l ++ [nid] |>) set |>
  end.
Definition __clear_nat_cache_dirty (set nid : Z) (c : nat_cache) : nat_cache :=
  (list_del_entry nid c) <| nat_entries ::= fun l => l ++ [nid] |>
    <| nat_root ::= alter (set_nat_flag IS_DIRTY false) nid |>
    <| nat_set_root ::= alter (fun s => s <| entry_cnt ::= fun n => u32 (n - 1) |>) set |>
    <| dirty_nat_cnt ::= fun n => u32 (n - 1) |>.

Definition f2fs_need_dentry_mark (c : nat_cache) (nid : Z) : bool :=
  match __lookup_nat_cache c nid with
  | Some e => negb (get_nat_flag e IS_CHECKPOINTED) && negb (get_nat_flag e HAS_FSYNCED_INODE)
  | None => false
  end.
Definition f2fs_is_checkpointed_node (c : nat_cache) (nid : Z) : bool :=
  match __lookup_nat_cache c nid with Some e => get_nat_flag e IS_CHECKPOINTED | None => true end.
Definition f2fs_need_inode_block_update (c : nat_cache) (ino : Z) : bool :=
  match __lookup_nat_cache c ino with
  | Some e => negb (get_nat_flag e HAS_LAST_FSYNC && (get_nat_flag e IS_CHECKPOINTED || get_nat_flag e HAS_FSYNCED_INODE))
  | None => true
  end.

(** [alloc_ok]: the slab and radix tree allocations succeed *)
Definition cache_nat_entry (alloc_ok : bool) (nid : Z) (ne : f2fs_nat_entry) (n : f2fs_nm_info) : f2fs_nm_info :=
  match __lookup_nat_cache (nc n) nid with
  | None => if alloc_ok then n <| nc ::= __init_nat_entry nid (Some ne) |> else n
  | Some e => bug_on (alloc_ok && (negb (ni_ino (ni e) =? rn_ino ne) || negb (ni_blk (ni e) =? rn_block_addr ne)
                                   || negb (ni_version (ni e) =? rn_version ne))) n
  end.
Definition f2fs_get_node_info (alloc_ok : bool) (nid : Z) (s : nat_store) : node_info * nat_store :=
  match __lookup_nat_cache (nc (nm s)) nid with
  | Some e => (mk_ni nid (ni_ino (ni e)) (ni_blk (ni e)) (ni_version (ni e)), s)
  | None =>
      let i := fst (lookup_nat_journal (njnl s) nid false) in
      let ne := if 0 <=? i then snd (nat_j (njnl s)).[i]
                else (nmeta s (current_nat_addr (nm s) nid)).[nid - START_NID nid] in
      (node_info_from_raw_nat (mk_ni nid 0 0 0) ne, s <| nm ::= cache_nat_entry alloc_ok nid ne |>)
  end.

(** [n] is the node info the caller has, with the old address. *)
Definition set_node_addr (info : node_info) (new_blkaddr : Z) (fsync_done : bool) (n : f2fs_nm_info) : f2fs_nm_info :=
  let nid := ni_nid info in
  let copy := fun e : nat_entry => e <| ni := info |> in
  let n := match __lookup_nat_cache (nc n) nid with
           | None => bug_on (ni_blk info =? NEW_ADDR)
                       (n <| nc ::= fun c => (__init_nat_entry nid None c) <| nat_root ::= alter copy nid |> |>)
           | Some _ => if new_blkaddr =? NEW_ADDR
                       then bug_on (negb (ni_blk info =? NULL_ADDR)) (n <| nc ::= fun c => c <| nat_root ::= alter copy nid |> |>)
                       else n
           end in
  match __lookup_nat_cache (nc n) nid with
  | None => n
  | Some e =>
      let blk := ni_blk (ni e) in
      let n := bug_on (negb (blk =? ni_blk info)) n in
      let n := bug_on ((blk =? NULL_ADDR) && (new_blkaddr =? NULL_ADDR)) n in
      let n := bug_on ((blk =? NEW_ADDR) && (new_blkaddr =? NEW_ADDR)) n in
      let n := bug_on (is_valid_blkaddr blk && (new_blkaddr =? NEW_ADDR)) n in
      let e := if negb (blk =? NEW_ADDR) && (new_blkaddr =? NULL_ADDR)
               then e <| ni ::= fun x => x <| ni_version ::= fun v => u8 (v + 1) |> |> else e in
      let e := e <| ni ::= fun x => x <| ni_blk := new_blkaddr |> |> in
      let e := if negb (is_valid_blkaddr new_blkaddr) then set_nat_flag IS_CHECKPOINTED false e else e in
      let c := __set_nat_cache_dirty nid ((nc n) <| nat_root ::= <[nid := e]> |>) in
      let ino := ni_ino info in
      let fsync := fun e => set_nat_flag HAS_LAST_FSYNC fsync_done
                     (if fsync_done && (nid =? ino) then set_nat_flag HAS_FSYNCED_INODE true e else e) in
      n <| nc := c <| nat_root ::= alter fsync (if nid =? ino then nid else ino) |> |>
  end.

(** The loop of f2fs_try_to_free_nats; the fuel is [nr_shrink]. *)
Fixpoint free_nats (nr_shrink : nat) (c : nat_cache) : nat * nat_cache :=
  match nr_shrink with
  | O => (O, c)
  | S n => match nat_entries c with [] => (nr_shrink, c) | ne :: _ => free_nats n (__del_from_nat_cache ne c) end
  end.
Definition f2fs_try_to_free_nats (trylock : bool) (nr_shrink : nat) (c : nat_cache) : nat * nat_cache :=
  if negb trylock then (O, c) else let '(rest, c) := free_nats nr_shrink c in ((nr_shrink - rest)%nat, c).

(** ** Free node ids *)

Definition f2fs_check_nid_range (root_ino nid : Z) (n : f2fs_nm_info) : Z * f2fs_nm_info :=
  if (nid <? root_ino) || (max_nid n <=? nid) then (-22, n <| need_fsck := true |>) else (0, n).

Definition count_nid (state : nid_state) (d : Z) (f : free_nids) : free_nids :=
  match state with
  | FREE_NID => f <| cnt_free ::= fun n => u32 (n + d) |>
  | PREALLOC_NID => f <| cnt_prealloc ::= fun n => u32 (n + d) |>
  end.
(** The result is false when the nid is in the tree already (-EEXIST). *)
Definition __insert_free_nid (nid : Z) (state : nid_state) (f : free_nids) : bool * free_nids :=
  match free_nid_root f !! nid with
  | Some _ => (false, f)
  | None =>
      let f := count_nid state 1 (f <| free_nid_root ::= <[nid := state]> |>) in
      (true, match state with FREE_NID => f <| free_nid_list ::= fun l => l ++ [nid] |> | PREALLOC_NID => f end)
  end.
Definition __remove_free_nid (nid : Z) (state : nid_state) (f : free_nids) : free_nids :=
  let f := count_nid state (-1) f in
  let f := match state with FREE_NID => f <| free_nid_list ::= filter (fun k => k <> nid) |> | PREALLOC_NID => f end in
  f <| free_nid_root ::= delete nid |>.
Definition __move_free_nid (nid : Z) (org_state dst_state : nid_state) (f : free_nids) : free_nids :=
  let f := count_nid dst_state 1 (count_nid org_state (-1) (f <| free_nid_root ::= <[nid := dst_state]> |>)) in
  match dst_state with
  | PREALLOC_NID => f <| free_nid_list ::= filter (fun k => k <> nid) |>
  | FREE_NID => f <| free_nid_list ::= fun l => l ++ [nid] |>
  end.
Definition update_free_nid_bitmap (nid : Z) (set build : bool) (f : free_nids) : free_nids :=
  let nat_ofs := NAT_BLOCK_OFFSET nid in
  let nid_ofs := nid - START_NID nid in
  let bits := (free_nid_bitmap f).[nat_ofs] in
  if negb (test_bit nat_ofs (nat_block_bitmap f)) then f
  else if set then
    if test_bit nid_ofs bits then f
    else f <| free_nid_bitmap ::= fun a => a.[nat_ofs <- set_bit nid_ofs bits] |>
           <| free_nid_count ::= fun a => a.[nat_ofs <- u16 (a.[nat_ofs] + 1)] |>
  else
    if negb (test_bit nid_ofs bits) then f
    else
      let f := f <| free_nid_bitmap ::= fun a => a.[nat_ofs <- clear_bit nid_ofs bits] |> in
      if negb build then f <| free_nid_count ::= fun a => a.[nat_ofs <- u16 (a.[nat_ofs] - 1)] |> else f.
Definition add_free_nid (c : nat_cache) (nid : Z) (build update : bool) (f : free_nids) : bool * free_nids :=
  if nid =? 0 then (false, f)
  else
    let in_use := match __lookup_nat_cache c nid with
                  | Some ne => negb (get_nat_flag ne IS_CHECKPOINTED) || negb (ni_blk (ni ne) =? NULL_ADDR)
                  | None => false
                  end in
    let '(ret, f) :=
      if build && in_use then (false, f)
      else match (if build then free_nid_root f !! nid else None) with
           | Some state => (bool_decide (state = FREE_NID), f)
           | None => (true, snd (__insert_free_nid nid FREE_NID f))
           end in
    if update then
      let f := update_free_nid_bitmap nid ret build f in
      (ret, if negb build then f <| available_nids ::= fun n => u32 (n + 1) |> else f)
    else (ret, f).
Definition remove_free_nid (nid : Z) (f : free_nids) : free_nids :=
  match free_nid_root f !! nid with Some FREE_NID => __remove_free_nid nid FREE_NID f | _ => f end.

(** *** Scanning *)

(** [n] entries of a NAT block from [nid] on *)
Fixpoint scan_nats (n : nat) (c : nat_cache) (max : Z) (entries : list f2fs_nat_entry) (i nid : Z) (f : free_nids) : bool * free_nids :=
  match n with
  | O => (false, f)
  | S n =>
      if max <=? nid then (false, f)
      else
        let blk_addr := rn_block_addr entries.[i] in
        let f := if blk_addr =? NULL_ADDR then snd (add_free_nid c nid true true f) else update_free_nid_bitmap nid false true f in
        let '(bug, f) := scan_nats n c max entries (i + 1) (nid + 1) f in
        ((blk_addr =? NEW_ADDR) || bug, f)
  end.
Definition scan_nat_page (entries : list f2fs_nat_entry) (start_nid : Z) (n : f2fs_nm_info) : f2fs_nm_info :=
  let i := start_nid mod NAT_ENTRY_PER_BLOCK in
  let f := (fn n) <| nat_block_bitmap ::= set_bit (NAT_BLOCK_OFFSET start_nid) |> in
  let '(bug, f) := scan_nats (Z.to_nat (NAT_ENTRY_PER_BLOCK - i)) (nc n) (max_nid n) entries i start_nid f in
  bug_on bug (n <| fn := f |>).
Fixpoint scan_journal (l : list (Z * f2fs_nat_entry)) (c : nat_cache) (f : free_nids) : free_nids :=
  match l with
  | [] => f
  | e :: l =>
      let f := if rn_block_addr (snd e) =? NULL_ADDR then snd (add_free_nid c (fst e) true false f) else remove_free_nid (fst e) f in
      scan_journal l c f
  end.
Definition scan_curseg_cache (s : nat_store) : nat_store :=
  s <| nm ::= fun n => n <| fn ::= scan_journal (nats_in_cursum (njnl s)) (nc n) |> |>.
(** The nids of a block whose bits are set, from [idx] on (find_next_bit_le skips
    the clear ones); true: enough are found *)
Fixpoint scan_bits (n : nat) (c : nat_cache) (i idx : Z) (f : free_nids) : bool * free_nids :=
  match n with
  | O => (false, f)
  | S n =>
      if test_bit idx (free_nid_bitmap f).[i] then
        let f := snd (add_free_nid c (i * NAT_ENTRY_PER_BLOCK + idx) true false f) in
        if MAX_FREE_NIDS <=? cnt_free f then (true, f) else scan_bits n c i (idx + 1) f
      else scan_bits n c i (idx + 1) f
  end.
Fixpoint scan_blocks (n : nat) (c : nat_cache) (i : Z) (f : free_nids) : free_nids :=
  match n with
  | O => f
  | S n =>
      if negb (test_bit i (nat_block_bitmap f)) then scan_blocks n c (i + 1) f
      else if (free_nid_count f).[i] =? 0 then scan_blocks n c (i + 1) f
      else
        let '(enough, f) := scan_bits (Z.to_nat NAT_ENTRY_PER_BLOCK) c i 0 f in
        if enough then f else scan_blocks n c (i + 1) f
  end.
Definition scan_free_nid_bits (s : nat_store) : nat_store :=
  scan_curseg_cache (s <| nm ::= fun n => n <| fn ::= scan_blocks (Z.to_nat (nat_blocks n)) (nc n) 0 |> |>).
(** The while loop of __f2fs_build_free_nids: [k] pages, then next_scan_nid *)
Fixpoint scan_pages (k : nat) (nid : Z) (s : nat_store) : nat_store :=
  match k with
  | O => s <| nm ::= fun n => n <| fn ::= fun f => f <| next_scan_nid := nid |> |> |>
  | S k =>
      let n := nm s in
      let n := if test_bit (NAT_BLOCK_OFFSET nid) (nat_block_bitmap (fn n)) then n
               else scan_nat_page (nmeta s (current_nat_addr n nid)) nid n in
      let nid := u32 (nid + (NAT_ENTRY_PER_BLOCK - nid mod NAT_ENTRY_PER_BLOCK)) in
      scan_pages k (if max_nid n <=? nid then 0 else nid) (s <| nm := n |>)
  end.
(** [mem_ok]: f2fs_available_free_memory(FREE_NIDS) *)
Definition __f2fs_build_free_nids (mem_ok sync mount : bool) (s : nat_store) : nat_store :=
  let f := fn (nm s) in
  let nid := if max_nid (nm s) <=? next_scan_nid f then 0 else next_scan_nid f in
  if NAT_ENTRY_PER_BLOCK <=? cnt_free f then s
  else if negb sync && negb mem_ok then s
  else
    let s := if negb mount then scan_free_nid_bits s else s in
    if negb mount && (NAT_ENTRY_PER_BLOCK <=? cnt_free (fn (nm s))) then s
    else scan_curseg_cache (scan_pages (Z.to_nat FREE_NID_PAGES) nid s).

(** *** Allocation *)

(** [None] is a full table.  Nobody else builds the list meanwhile. *)
Fixpoint f2fs_alloc_nid (fuel : nat) (s : nat_store) : outcome (option Z * nat_store) :=
  match fuel with
  | O => NoFuel
  | S fuel =>
      let f := fn (nm s) in
      if available_nids f =? 0 then Done (None, s)
      else if nz (cnt_free f) then
        match free_nid_list f with
        | [] => Bug
        | nid :: _ =>
            Done (Some nid, s <| nm ::= fun n => n <| fn ::= fun f =>
              update_free_nid_bitmap nid false false
                ((__move_free_nid nid FREE_NID PREALLOC_NID f) <| available_nids ::= fun n => u32 (n - 1) |>) |> |>)
        end
      else f2fs_alloc_nid fuel (__f2fs_build_free_nids true true false s)
  end.
Definition f2fs_alloc_nid_done (nid : Z) (n : f2fs_nm_info) : outcome f2fs_nm_info :=
  match free_nid_root (fn n) !! nid with
  | None => Bug
  | Some state => Done (bug_on (negb (bool_decide (state = PREALLOC_NID))) (n <| fn ::= __remove_free_nid nid PREALLOC_NID |>))
  end.
Definition f2fs_alloc_nid_failed (mem_ok : bool) (nid : Z) (n : f2fs_nm_info) : outcome f2fs_nm_info :=
  if nid =? 0 then Done n
  else match free_nid_root (fn n) !! nid with
  | None => Bug
  | Some state =>
      Done (bug_on (negb (bool_decide (state = PREALLOC_NID)))
        (n <| fn ::= fun f =>
           let f := if negb mem_ok then __remove_free_nid nid PREALLOC_NID f else __move_free_nid nid PREALLOC_NID FREE_NID f in
           update_free_nid_bitmap nid true false (f <| available_nids ::= fun n => u32 (n + 1) |>) |>))
  end.
Definition next_free_nid (f : free_nids) (nid : Z) : Z :=
  if cnt_free f <=? 0 then nid else match free_nid_list f with i :: _ => i | [] => nid end.
Fixpoint shrink_nids (l : list Z) (nr_shrink : Z) (f : free_nids) : Z * free_nids :=
  match l with
  | [] => (nr_shrink, f)
  | i :: l =>
      if (nr_shrink <=? 0) || (cnt_free f <=? MAX_FREE_NIDS) then (nr_shrink, f)
      else shrink_nids l (nr_shrink - 1) (__remove_free_nid i FREE_NID f)
  end.
Definition f2fs_try_to_free_nids (trylock : bool) (nr_shrink : Z) (f : free_nids) : Z * free_nids :=
  if cnt_free f <=? MAX_FREE_NIDS then (0, f)
  else if negb trylock then (0, f)
  else let '(rest, f) := shrink_nids (free_nid_list f) nr_shrink f in (nr_shrink - rest, f).

(** ** Flushing at a checkpoint *)

(** [umount]: the reason of the checkpoint has CP_UMOUNT *)
Definition enabled_nat_bits (n : f2fs_nm_info) (umount : bool) : bool := umount && nat_bits_flag n.
Fixpoint merge_journal (l : list (Z * f2fs_nat_entry)) (n : f2fs_nm_info) : f2fs_nm_info :=
  match l with
  | [] => n
  | (nid, raw) :: l =>
      let n := match __lookup_nat_cache (nc n) nid with
               | None => n <| nc ::= __init_nat_entry nid (Some raw) |>
               | Some _ => n
               end in
      let dirty := match __lookup_nat_cache (nc n) nid with Some ne => get_nat_flag ne IS_DIRTY | None => false end in
      let n := if negb dirty && (rn_block_addr raw =? NULL_ADDR)
               then n <| fn ::= fun f => f <| available_nids ::= fun n => u32 (n - 1) |> |> else n in
      merge_journal l (n <| nc ::= __set_nat_cache_dirty nid |>)
  end.
Definition remove_nats_in_journal (s : nat_store) : nat_store :=
  s <| nm ::= merge_journal (nats_in_cursum (njnl s)) |> <| njnl ::= fun j => snd (update_nats_in_cursum j (- n_nats j)) |>.

Fixpoint __adjust_nat_entry_set (cnt : Z -> Z) (nes : Z) (head : list Z) (max : Z) : list Z :=
  if max <=? cnt nes then head ++ [nes]
  else match head with
       | [] => [nes]
       | cur :: head => if cnt nes <=? cnt cur then nes :: cur :: head else cur :: __adjust_nat_entry_set cnt nes head max
       end.
Definition count_valid (l : list f2fs_nat_entry) : Z :=
  zlen (filter (fun e => rn_block_addr e <> NULL_ADDR) l).
Definition __update_nat_bits (start_nid : Z) (page : list f2fs_nat_entry) (n : f2fs_nm_info) : f2fs_nm_info :=
  let nat_index := start_nid / NAT_ENTRY_PER_BLOCK in
  let page := take (Z.to_nat NAT_ENTRY_PER_BLOCK) page in
  let valid := if nat_index =? 0 then 1 + count_valid (drop 1 page) else count_valid page in
  if negb (nat_bits_flag n) then n
  else if valid =? 0 then n <| empty_nat_bits ::= set_bit nat_index |> <| full_nat_bits ::= clear_bit nat_index |>
  else n <| empty_nat_bits ::= clear_bit nat_index |>
         <| full_nat_bits ::= if valid =? NAT_ENTRY_PER_BLOCK then set_bit nat_index else clear_bit nat_index |>.

(** One entry of the set that starts at [start_nid], into the journal or the page [x_page]. *)
Record flushing_nat := mk_fln { x_nm : f2fs_nm_info; x_jnl : nat_journal; x_page : list f2fs_nat_entry }.
Definition flush_nat (to_journal : bool) (start_nid nid : Z) (x : flushing_nat) : outcome flushing_nat :=
  match nat_root (nc (x_nm x)) !! nid with
  | None => Bug
  | Some ne =>
      let n := bug_on (ni_blk (ni ne) =? NEW_ADDR) (x_nm x) in
      let raw_ne := raw_nat_from_node_info (ni ne) in
      let '(offset, j) := lookup_nat_journal (x_jnl x) nid true in
      if to_journal && (offset <? 0) then Bug
      else
        let j := if to_journal then j <| nat_j ::= fun a => a.[offset <- (nid, raw_ne)] |> else x_jnl x in
        let page := if to_journal then x_page x else (x_page x).[nid - start_nid <- raw_ne] in
        let c := __clear_nat_cache_dirty (NAT_BLOCK_OFFSET start_nid) nid ((nc n) <| nat_root ::= <[nid := nat_reset_flag ne]> |>) in
        let f := if ni_blk (ni ne) =? NULL_ADDR then snd (add_free_nid c nid false true (fn n))
                 else update_free_nid_bitmap nid false false (fn n) in
        Done (mk_fln (n <| nc := c |> <| fn := f |>) j page)
  end.
Fixpoint flush_nats (to_journal : bool) (start_nid : Z) (l : list Z) (x : flushing_nat) : outcome flushing_nat :=
  match l with
  | [] => Done x
  | nid :: l => x <-- flush_nat to_journal start_nid nid x ;; flush_nats to_journal start_nid l x
  end.
Definition __flush_nat_entry_set (umount : bool) (set : Z) (s : nat_store) : outcome nat_store :=
  let start_nid := set * NAT_ENTRY_PER_BLOCK in
  let nes := default (mk_nes [] 0) (nat_set_root (nc (nm s)) !! set) in
  let to_journal := negb (enabled_nat_bits (nm s) umount || negb (has_nat_space (njnl s) (entry_cnt nes))) in
  let src := current_nat_addr (nm s) start_nid in
  let dst := next_nat_addr (nm s) src in
  let n := if to_journal then nm s else set_to_next_nat start_nid (nm s) in
  x <-- flush_nats to_journal start_nid (entry_list nes) (mk_fln n (njnl s) (nmeta s src)) ;;
  let n := if to_journal then x_nm x else __update_nat_bits start_nid (x_page x) (x_nm x) in
  let n := match nat_set_root (nc n) !! set with
           | Some nes => if entry_cnt nes =? 0 then n <| nc ::= fun c => c <| nat_set_root ::= delete set |> |> else n
           | None => n
           end in
  Done (mk_ns n (x_jnl x) (fun a => if to_journal then nmeta s a else if decide (a = dst) then x_page x else nmeta s a)).
(** Collecting the sets, 32 at a time; the fuel is the number of sets plus one. *)
Fixpoint gather_sets (n : nat) (c : nat_cache) (j : nat_journal) (set_idx : Z) (sets : list Z) : outcome (list Z) :=
  match n with
  | O => NoFuel
  | S n =>
      let setvec := radix_tree_gang_lookup (dom (nat_set_root c)) set_idx 32 in
      match list.last setvec with
      | None => Done sets
      | Some set =>
          let cnt := fun b => match nat_set_root c !! b with Some s => entry_cnt s | None => 0 end in
          gather_sets n c j (set + 1)
            (fold_left (fun l b => __adjust_nat_entry_set cnt b l (NAT_JOURNAL_ENTRIES - n_nats j)) setvec sets)
      end
  end.
Fixpoint flush_nat_sets (umount : bool) (sets : list Z) (s : nat_store) : outcome nat_store :=
  match sets with
  | [] => Done s
  | set :: sets => s <-- __flush_nat_entry_set umount set s ;; flush_nat_sets umount sets s
  end.
Definition f2fs_flush_nat_entries (umount : bool) (s : nat_store) : outcome nat_store :=
  if dirty_nat_cnt (nc (nm s)) =? 0 then Done s
  else
    let s := if enabled_nat_bits (nm s) umount || negb (has_nat_space (njnl s) (dirty_nat_cnt (nc (nm s))))
             then remove_nats_in_journal s else s in
    sets <-- gather_sets (S (size (nat_set_root (nc (nm s))))) (nc (nm s)) (njnl s) 0 [] ;;
    flush_nat_sets umount sets s.


(** ** Mount *)

Definition ENOMEM : Z := 12.
Definition EFAULT : Z := 14.
(** What mount reads: the super block, the checkpoint, and the nat bits blocks
    with the checkpoint version they were written for. *)
Record nat_mount := mk_nmt {
  sb_nat_blkaddr : Z; segment_count_nat : Z; sb_log_blocks_per_seg : Z;
  total_valid_node_count : Z; nquota_files : Z; next_free_nid_cp : Z;
  version_bitmap : option (list Z); cp_nat_bits : bool; cp_ver : Z; bits_ver : Z; full_bits : Z; empty_bits : Z;
}.
Definition __get_nat_bitmaps (alloc_ok : bool) (m : nat_mount) (n : f2fs_nm_info) : Z * f2fs_nm_info :=
  if negb (nat_bits_flag n) then (0, n)
  else if negb alloc_ok then (- ENOMEM, n)
  else if negb (cp_ver m =? bits_ver m) then (0, n <| nat_bits_flag := false |> <| need_fsck := true |>)
  else (0, n <| full_nat_bits := full_bits m |> <| empty_nat_bits := empty_bits m |>).
Definition init_node_manager (alloc_bitmap alloc_bits : bool) (m : nat_mount) : Z * f2fs_nm_info :=
  let nat_segs := Z.shiftr (segment_count_nat m) 1 in
  let nat_blocks := u32 (Z.shiftl nat_segs (sb_log_blocks_per_seg m)) in
  let max_nid := u32 (NAT_ENTRY_PER_BLOCK * nat_blocks) in
  let available := u32 (max_nid - total_valid_node_count m - nquota_files m - F2FS_RESERVED_NODE_NUM) in
  let f := mk_fn ∅ [] 0 0 available (next_free_nid_cp m) [] 0 [] in
  let n := mk_nm (sb_nat_blkaddr m) max_nid nat_blocks [] (mk_nc ∅ ∅ [] 0 0) f (cp_nat_bits m) 0 0 false in
  match version_bitmap m with
  | None => (- EFAULT, n)
  | Some bitmap =>
      if negb alloc_bitmap then (- ENOMEM, n)
      else __get_nat_bitmaps alloc_bits m (n <| nat_bitmap := bitmap |>)
  end.
(** [alloc_ok]: the three tables are allocated.  That the bitmap of a block is
    allocated is not checked: they are taken to be. *)
Definition init_free_nid_cache (alloc_ok : bool) (n : f2fs_nm_info) : Z * f2fs_nm_info :=
  if negb alloc_ok then (- ENOMEM, n)
  else (0, n <| fn ::= fun f => f <| free_nid_bitmap := replicate (Z.to_nat (nat_blocks n)) 0 |> <| nat_block_bitmap := 0 |>
                                  <| free_nid_count := replicate (Z.to_nat (nat_blocks n)) 0 |> |>).
Fixpoint load_empty_block (k : nat) (nid : Z) (f : free_nids) : free_nids :=
  match k with O => f | S k => load_empty_block k (nid + 1) (update_free_nid_bitmap nid true true f) end.
(** The blocks from [i] on whose bit is set in the empty bits, and in the full bits *)
Fixpoint load_empty (k : nat) (bits i : Z) (f : free_nids) : free_nids :=
  match k with
  | O => f
  | S k =>
      let f := if test_bit i bits
               then load_empty_block (Z.to_nat NAT_ENTRY_PER_BLOCK) (i * NAT_ENTRY_PER_BLOCK) (f <| nat_block_bitmap ::= set_bit i |>)
               else f in
      load_empty k bits (i + 1) f
  end.
Fixpoint load_full (k : nat) (bits i : Z) (f : free_nids) : free_nids :=
  match k with
  | O => f
  | S k => load_full k bits (i + 1) (if test_bit i bits then f <| nat_block_bitmap ::= set_bit i |> else f)
  end.
Definition load_free_nid_bitmap (n : f2fs_nm_info) : f2fs_nm_info :=
  if negb (nat_bits_flag n) then n
  else n <| fn ::= fun f => load_full (Z.to_nat (nat_blocks n)) (full_nat_bits n) 0
                              (load_empty (Z.to_nat (nat_blocks n)) (empty_nat_bits n) 0 f) |>.
Definition f2fs_build_node_manager (alloc_bitmap alloc_bits alloc_cache mem_ok : bool) (m : nat_mount) (j : nat_journal)
  (meta : Z -> list f2fs_nat_entry) : Z * nat_store :=
  let '(err, n) := init_node_manager alloc_bitmap alloc_bits m in
  if negb (err =? 0) then (err, mk_ns n j meta)
  else
    let '(err, n) := init_free_nid_cache alloc_cache n in
    if negb (err =? 0) then (err, mk_ns n j meta)
    else (0, __f2fs_build_free_nids mem_ok true true (mk_ns (load_free_nid_bitmap n) j meta)).

End nat.
