(* ===== verification/NatCache.v ===== *)
(** * The NAT cache: well-formedness and what each cache operation does to it

    [cache_ok]: the list of clean entries and the sets of dirty ones partition
    the cache, and the counters count them. *)
From stdpp Require Import gmap.
From S2P Require Import Prelude Geometry F2fsBits Sit SitFlush NatMgr.
Open Scope Z_scope.

(** ** Flags *)

Lemma flag_mask t : 0 <= t < 8 -> u8 (Z.shiftl 1 t) = 2 ^ t.
Proof. intros Ht. rewrite Z.shiftl_1_l, u8_id; [done|]. split; [lia|]. apply (Z.pow_lt_mono_r 2 t 8); lia. Qed.
Lemma get_flag e t : 0 <= t < 8 -> get_nat_flag e t = Z.testbit (ne_flag e) t.
Proof.
  intros Ht. unfold get_nat_flag, nz. rewrite flag_mask by done. destruct (Z.testbit (ne_flag e) t) eqn:Eb.
  - apply negb_true_iff, Z.eqb_neq. intros E. apply (f_equal (fun x => Z.testbit x t)) in E.
    rewrite Z.land_spec, Eb, Z.pow2_bits_true, Z.bits_0 in E by lia. done.
  - apply negb_false_iff, Z.eqb_eq. apply Z.bits_inj'. intros k Hk. rewrite Z.land_spec, Z.bits_0, Z.pow2_bits_eqb by lia.
    destruct (Z.eqb_spec t k) as [<-|]; [by rewrite Eb|by rewrite andb_false_r].
Qed.
Lemma set_flag_info t b e : ni (set_nat_flag t b e) = ni e.
Proof. by destruct b. Qed.
Lemma get_flag_info t (f : node_info -> node_info) e : get_nat_flag (e <| ni ::= f |>) t = get_nat_flag e t.
Proof. done. Qed.
Lemma get_set_flag t t' b e : 0 <= t < 8 -> 0 <= t' < 8 ->
  get_nat_flag (set_nat_flag t b e) t' = if t' =? t then b else get_nat_flag e t'.
Proof.
  intros Ht Ht'. rewrite !get_flag by done. unfold set_nat_flag. rewrite flag_mask by done.
  destruct b; cbn; unfold u8; rewrite Z.mod_pow2_bits_low by lia.
  - rewrite Z.lor_spec, Z.pow2_bits_eqb, (Z.eqb_sym t t') by lia. destruct (t' =? t); [apply orb_true_r|apply orb_false_r].
  - rewrite Z.ldiff_spec, Z.pow2_bits_eqb, (Z.eqb_sym t t') by lia. destruct (t' =? t); [apply andb_false_r|apply andb_true_r].
Qed.
Ltac flags := repeat (rewrite get_set_flag by done); cbn [Z.eqb Pos.eqb IS_CHECKPOINTED HAS_FSYNCED_INODE HAS_LAST_FSYNC IS_DIRTY IS_PREALLOC].
Lemma reset_flags e t : 0 <= t < 8 ->
  get_nat_flag (nat_reset_flag e) t = if t =? 0 then true else if t =? 1 then false else if t =? 2 then true else get_nat_flag e t.
Proof.
  intros Ht. unfold nat_reset_flag, IS_CHECKPOINTED, HAS_FSYNCED_INODE, HAS_LAST_FSYNC. rewrite !get_set_flag by lia.
  destruct (Z.eqb_spec t 2) as [->|]; [done|]. destruct (Z.eqb_spec t 1) as [->|]; [done|]. done.
Qed.
Lemma new_entry_flags nid t : 0 <= t < 8 -> get_nat_flag (new_nat_entry nid) t = (t =? 0) || (t =? 2).
Proof.
  intros Ht. unfold new_nat_entry. rewrite reset_flags by done. destruct (t =? 0); [done|].
  destruct (Z.eqb_spec t 1) as [->|]; [done|]. destruct (t =? 2); [done|]. by rewrite get_flag, Z.bits_0.
Qed.

(** ** Counting *)

(** Distinct nids below [n] of a kind are no more than there are. *)
Lemma nodup_count (P : Z -> bool) l n : NoDup l -> (forall k, k ∈ l -> 0 <= k < Z.of_nat n /\ P k = true) -> zlen l <= count_upto P n.
Proof.
  revert P. induction l as [|x l IH]; intros P Hn Hl; [pose proof (count_upto_range P n); unfold zlen; cbn; lia|].
  apply list.NoDup_cons in Hn as [Hx Hn]. destruct (Hl x) as [Hr Hp]; [by left|].
  rewrite (count_upto_update (fun k => P k && negb (k =? x)) P n x) by (done || (intros k Hk Hne; cbv beta;
    replace (k =? x) with false by (symmetry; by apply Z.eqb_neq); by rewrite andb_true_r)).
  cbv beta. rewrite Hp, Z.eqb_refl, andb_false_r. cbn [Z.b2z]. rewrite zlen_cons.
  enough (zlen l <= count_upto (fun k => P k && negb (k =? x)) n) by lia. apply IH; [done|].
  intros k Hk. destruct (Hl k) as [? ->]; [by right|]. split; [done|].
  replace (k =? x) with false; [done|]. symmetry. apply Z.eqb_neq. by intros ->.
Qed.

Section cache.
Context `{NatFormatOk}.
#[local] Abbreviation EPB := NAT_ENTRY_PER_BLOCK.
#[local] Abbreviation block := NAT_BLOCK_OFFSET.

Definition dirty (c : nat_cache) (nid : Z) : bool :=
  match nat_root c !! nid with Some e => get_nat_flag e IS_DIRTY | None => false end.
(** Dirty and with an address: these entries are in a set. *)
Definition flushable (c : nat_cache) (nid : Z) : Prop :=
  exists e, nat_root c !! nid = Some e /\ get_nat_flag e IS_DIRTY = true /\ ni_blk (ni e) <> NEW_ADDR.
Record cache_ok (max : Z) (c : nat_cache) : Prop := {
  ck_max : 0 <= max < 4294967295;
  ck_nid nid e : nat_root c !! nid = Some e -> ni_nid (ni e) = nid /\ 0 < nid < max;
  ck_nodup : NoDup (nat_entries c);
  ck_clean nid : nid ∈ nat_entries c <-> is_Some (nat_root c !! nid) /\ dirty c nid = false;
  ck_new nid e : nat_root c !! nid = Some e -> get_nat_flag e IS_PREALLOC = (ni_blk (ni e) =? NEW_ADDR) /\
    (ni_blk (ni e) = NEW_ADDR -> get_nat_flag e IS_DIRTY = true);
  ck_ckpt nid e : nat_root c !! nid = Some e -> get_nat_flag e IS_DIRTY = false -> get_nat_flag e IS_CHECKPOINTED = true;
  ck_set b s : nat_set_root c !! b = Some s -> NoDup (entry_list s) /\ entry_cnt s = zlen (entry_list s) /\
    forall nid, nid ∈ entry_list s <-> block nid = b /\ flushable c nid;
  ck_cover nid : flushable c nid -> is_Some (nat_set_root c !! block nid);
  ck_cnt : dirty_nat_cnt c = count_upto (dirty c) (Z.to_nat max);
  ck_blk b : is_Some (nat_set_root c !! b) -> exists nid, 0 < nid < max /\ block nid = b;
}.

Lemma set_len max c b s : cache_ok max c -> nat_set_root c !! b = Some s -> 0 <= zlen (entry_list s) <= max.
Proof.
  intros W Hs. pose proof (ck_max _ _ W). split; [apply zlen_nonneg|]. destruct (ck_set _ _ W b s Hs) as (N & _ & M).
  pose proof (count_upto_range (fun _ => true) (Z.to_nat max)).
  enough (zlen (entry_list s) <= count_upto (fun _ => true) (Z.to_nat max)) by lia. apply nodup_count; [done|].
  intros k Hk. apply M in Hk as (_ & e & He & _). destruct (ck_nid _ _ W k e He). split; [lia|done].
Qed.
Lemma dirty_count max c : cache_ok max c -> 0 <= dirty_nat_cnt c <= max.
Proof. intros W. pose proof (ck_max _ _ W). rewrite (ck_cnt _ _ W). pose proof (count_upto_range (dirty c) (Z.to_nat max)). lia. Qed.

(** *** Entering and leaving the cache *)

Lemma init_root nid raw c k : nat_root (__init_nat_entry nid raw c) !! k =
  if decide (k = nid) then Some (match raw with Some r => (new_nat_entry nid) <| ni := node_info_from_raw_nat (mk_ni nid 0 0 0) r |> | None => new_nat_entry nid end)
  else nat_root c !! k.
Proof.
  cbn. destruct (decide (k = nid)) as [->|]; [rewrite lookup_insert_eq; by destruct raw|by rewrite lookup_insert_ne].
Qed.
Lemma init_entry_ok max nid raw c : cache_ok max c -> nat_root c !! nid = None -> 0 < nid < max ->
  rn_block_addr raw <> NEW_ADDR -> cache_ok max (__init_nat_entry nid (Some raw) c).
Proof.
  intros W Hn Hr Hnew. set (c' := __init_nat_entry nid (Some raw) c). pose proof (init_root nid (Some raw) c) as Hroot. fold c' in Hroot.
  assert (forall k, dirty c' k = dirty c k) as Hd.
  { intros k. unfold dirty. rewrite Hroot. destruct (decide (k = nid)) as [->|]; [|done]. rewrite Hn. by rewrite get_flag_info, new_entry_flags. }
  assert (forall k, flushable c' k <-> flushable c k) as Hf.
  { intros k. unfold flushable. rewrite Hroot. destruct (decide (k = nid)) as [->|]; [|done]. rewrite Hn. split; intros (e & [=] & E & _).
    subst e. by rewrite get_flag_info, new_entry_flags in E. }
  assert (forall e, nat_root c' !! nid = Some e -> ni_nid (ni e) = nid /\ ni_blk (ni e) <> NEW_ADDR /\
    get_nat_flag e IS_PREALLOC = false /\ get_nat_flag e IS_CHECKPOINTED = true) as Hnid.
  { intros e. rewrite Hroot. destruct (decide (nid = nid)); [|done]. intros [= <-]. split; [done|]. split; [done|].
    split; by rewrite get_flag_info, new_entry_flags. }
  assert (forall k, k <> nid -> nat_root c' !! k = nat_root c !! k) as Hk by (intros k Hne; rewrite Hroot; by destruct (decide _)).
  pose proof W as [W0 W1 W2 W3 W4 W5 W6 W7 W8 W9]. split; [done|..].
  - intros k e. destruct (decide (k = nid)) as [->|Hne]; [intros He; by destruct (Hnid e He)|rewrite Hk by done; apply W1].
  - apply list.NoDup_app. split; [done|]. split; [|apply NoDup_singleton]. intros k Hk2 ->%list_elem_of_singleton.
    apply W3 in Hk2 as [[? E] _]. by rewrite Hn in E.
  - intros k. cbn [nat_entries c']. unfold c'. cbn. rewrite elem_of_app, list_elem_of_singleton. fold c'. rewrite Hd.
    destruct (decide (k = nid)) as [->|Hne].
    + rewrite lookup_insert_eq. split; [|by right]. intros _. split; [by eexists|]. unfold dirty. by rewrite Hn.
    + rewrite lookup_insert_ne, W3 by done. split; [by intros [?|?]|by left].
  - intros k e. destruct (decide (k = nid)) as [->|Hne]; [|rewrite Hk by done; apply W4].
    intros He. destruct (Hnid e He) as (_ & E & -> & _). split; [symmetry; by apply Z.eqb_neq|by intros].
  - intros k e. destruct (decide (k = nid)) as [->|Hne]; [|rewrite Hk by done; apply W5]. intros He _. by apply Hnid.
  - intros b s Hs. destruct (W6 b s Hs) as (? & ? & M). split_and!; try done. intros k. by rewrite Hf.
  - intros k. rewrite Hf. apply W7.
  - cbn. rewrite W8. apply count_upto_ext. intros k _. symmetry. apply Hd.
  - exact W9.
Qed.

Lemma set_del_lookup nid c b : nat_set_root (list_del_entry nid c) !! b =
  if decide (b = block nid) then (fun s => s <| entry_list ::= filter (fun k => k <> nid) |>) <$> nat_set_root c !! b else nat_set_root c !! b.
Proof.
  cbn. destruct (decide (b = block nid)) as [->|]; [by rewrite lookup_alter_eq|by rewrite lookup_alter_ne].
Qed.
Lemma filter_ne_absent (l : list Z) nid : nid ∉ l -> filter (fun k => k <> nid) l = l.
Proof.
  induction l as [|x l IH]; intros Hn; [done|]. rewrite list.filter_cons. destruct (decide (x <> nid)) as [|Hx].
  - rewrite IH; [done|]. intros ?. apply Hn. by right.
  - exfalso. apply Hn, elem_of_cons. left. by destruct (decide (x = nid)).
Qed.
Lemma elem_filter_ne (l : list Z) nid k : k ∈ filter (fun k => k <> nid) l <-> k <> nid /\ k ∈ l.
Proof. by rewrite list_elem_of_filter. Qed.
Lemma len_filter_ne (l : list Z) nid : NoDup l -> nid ∈ l -> zlen (filter (fun k => k <> nid) l) = zlen l - 1.
Proof.
  induction l as [|x l IH]; intros Hn Hin; [by apply not_elem_of_nil in Hin|]. apply list.NoDup_cons in Hn as [Hx Hn].
  rewrite list.filter_cons, zlen_cons. destruct (decide (x <> nid)) as [Hne|Hx2].
  - apply elem_of_cons in Hin as [->|Hin]; [done|]. rewrite zlen_cons, IH by done. lia.
  - destruct (decide (x = nid)) as [->|]; [|done]. rewrite filter_ne_absent by done. lia.
Qed.

Lemma del_clean_ok max nid c : cache_ok max c -> nid ∈ nat_entries c ->
  cache_ok max (__del_from_nat_cache nid c) /\ forall k, nat_root (__del_from_nat_cache nid c) !! k = if decide (k = nid) then None else nat_root c !! k.
Proof.
  intros W Hin. pose proof W as [W0 W1 W2 W3 W4 W5 W6 W7 W8 W9]. set (c' := __del_from_nat_cache nid c).
  apply W3 in Hin as [[e He] Hcl].
  assert (forall k, nat_root c' !! k = if decide (k = nid) then None else nat_root c !! k) as Hroot.
  { intros k. cbn. destruct (decide (k = nid)) as [->|]; [by rewrite lookup_delete_eq|by rewrite lookup_delete_ne]. }
  assert (forall k, dirty c' k = dirty c k) as Hd by (intros k; unfold dirty in *; rewrite Hroot; destruct (decide (k = nid)) as [->|]; done).
  assert (forall k, flushable c' k <-> flushable c k) as Hf.
  { intros k. unfold flushable. rewrite Hroot. destruct (decide (k = nid)) as [->|]; [|done].
    split; intros (e' & E & E2 & _); [done|]. unfold dirty in Hcl. rewrite E in Hcl. congruence. }
  split; [|done]. split; [done|..].
  - intros k e'. rewrite Hroot. destruct (decide _); [done|]. apply W1.
  - apply list.NoDup_filter, W2.
  - intros k. cbn. rewrite elem_filter_ne, W3. fold c'. rewrite Hd. destruct (decide (k = nid)) as [->|Hne].
    + rewrite lookup_delete_eq. split; [by intros [? _]|by intros [[? [=]] _]].
    + rewrite lookup_delete_ne by done. split; [by intros [_ ?]|by split].
  - intros k e'. rewrite Hroot. destruct (decide _); [done|]. apply W4.
  - intros k e'. rewrite Hroot. destruct (decide _); [done|]. apply W5.
  - intros b s Hs. unfold c', __del_from_nat_cache in Hs. change (nat_set_root (list_del_entry nid c) !! b = Some s) in Hs.
    rewrite set_del_lookup in Hs. assert (forall s0, nat_set_root c !! b = Some s0 -> entry_list (s0 <| entry_list ::= filter (fun k => k <> nid) |>) = entry_list s0) as Habs.
    { intros s0 Hs0. cbn. apply filter_ne_absent. intros Hk. apply (W6 b s0 Hs0) in Hk as [_ (e' & E & E2 & _)]. unfold dirty in Hcl. rewrite E in Hcl. congruence. }
    destruct (decide (b = block nid)) as [->|].
    + destruct (nat_set_root c !! block nid) as [s0|] eqn:Es; [|done]. injection Hs as <-. rewrite (Habs s0) by done.
      destruct (W6 _ s0 Es) as (? & ? & M). split_and!; try done. intros k. by rewrite Hf.
    + destruct (W6 _ s Hs) as (? & ? & M). split_and!; try done. intros k. by rewrite Hf.
  - intros k. rewrite Hf. intros Hk. change (is_Some (nat_set_root (list_del_entry nid c) !! block k)). rewrite set_del_lookup.
    destruct (W7 k Hk) as [s Hs]. destruct (decide _) as [E|]; [|by eexists]. rewrite Hs. by eexists.
  - cbn. rewrite W8. apply count_upto_ext. intros k _. symmetry. apply Hd.
  - intros b Hb. apply W9. change (is_Some (nat_set_root (list_del_entry nid c) !! b)) in Hb. rewrite set_del_lookup in Hb.
    destruct (decide (b = block nid)) as [->|]; [by apply fmap_is_Some in Hb|done].
Qed.

(** *** Becoming dirty and clean *)

(** [c] is [c0] with entry [nid] replaced, its two list flags kept. *)
Definition replaced (nid : Z) (e : nat_entry) (c0 c : nat_cache) : Prop := c = c0 <| nat_root ::= <[nid := e]> |>.
Lemma in_set_list max c0 nid e0 s : cache_ok max c0 -> nat_root c0 !! nid = Some e0 -> nat_set_root c0 !! block nid = Some s ->
  nid ∈ entry_list s <-> get_nat_flag e0 IS_DIRTY = true /\ get_nat_flag e0 IS_PREALLOC = false.
Proof.
  intros W He Hs. destruct (ck_set _ _ W _ s Hs) as (_ & _ & M). destruct (ck_new _ _ W nid e0 He) as [-> _].
  rewrite M, Z.eqb_neq. split.
  - intros [_ (e & E & ? & ?)]. rewrite He in E. injection E as <-. done.
  - intros [? ?]. split; [done|]. by exists e0.
Qed.
(** The entry [e'] that [__set_nat_cache_dirty] leaves for [e] *)
Definition dirtied (e e' : nat_entry) : Prop :=
  ni e' = ni e /\ get_nat_flag e' IS_DIRTY = true /\ get_nat_flag e' IS_PREALLOC = (ni_blk (ni e) =? NEW_ADDR) /\
  get_nat_flag e' IS_CHECKPOINTED = get_nat_flag e IS_CHECKPOINTED.
Lemma dirtied_flags e : dirtied e (let ne := set_nat_flag IS_PREALLOC (ni_blk (ni e) =? NEW_ADDR) e in
  if get_nat_flag ne IS_DIRTY then ne else set_nat_flag IS_DIRTY true ne).
Proof.
  cbv zeta. set (b := _ =? NEW_ADDR). destruct (get_nat_flag (set_nat_flag IS_PREALLOC b e) IS_DIRTY) eqn:Ed.
  - split_and!; [apply set_flag_info|done|..]; by flags.
  - split_and!; [by rewrite !set_flag_info|..]; by flags.
Qed.
Lemma set_dirty_root nid e c0 : exists e', dirtied e e' /\
  forall k, nat_root (__set_nat_cache_dirty nid (c0 <| nat_root ::= <[nid := e]> |>)) !! k = if decide (k = nid) then Some e' else nat_root c0 !! k.
Proof.
  eexists. split; [apply dirtied_flags|]. intros k. unfold __set_nat_cache_dirty. cbn [nat_root upd]. rewrite lookup_insert_eq. cbv zeta.
  set (ne := set_nat_flag _ _ e). unfold __grab_nat_entry_set. cbn [nat_root nat_set_root upd].
  assert (forall c : nat_cache, nat_root (if negb (ni_blk (ni e) =? NEW_ADDR) && (get_nat_flag e IS_PREALLOC || negb (get_nat_flag e IS_DIRTY)) then
     c <| nat_set_root ::= alter (fun s => s <| entry_cnt ::= fun n => u32 (n + 1) |>) (block nid) |> else c) = nat_root c) as E1 by (intros; by destruct (_ && _)).
  assert (forall c : nat_cache, nat_root (if get_nat_flag ne IS_DIRTY then c else c <| dirty_nat_cnt ::= fun n => u32 (n + 1) |>) = nat_root c) as E2
    by (intros; by destruct (get_nat_flag ne _)).
  set (e' := if get_nat_flag ne IS_DIRTY then ne else _). set (c1 := if get_nat_flag ne IS_DIRTY then _ else _) at 1.
  assert (nat_root c1 = <[nid := e]> (nat_root c0)) as Hc1.
  { unfold c1. rewrite E2, E1. destruct (negb _); [|done]. by destruct (nat_set_root c0 !! block nid). }
  assert (nat_root (list_del_entry nid (c1 <| nat_root ::= <[nid := e']> |>)) !! k = if decide (k = nid) then Some e' else nat_root c0 !! k) as Hr.
  { cbn. rewrite Hc1, insert_insert_eq. destruct (decide (k = nid)) as [->|]; [by rewrite lookup_insert_eq|by rewrite lookup_insert_ne]. }
  by destruct (ni_blk (ni e) =? NEW_ADDR).
Qed.
Lemma set_dirty_rest nid e c0 (c := __set_nat_cache_dirty nid (c0 <| nat_root ::= <[nid := e]> |>)) :
  nat_entries c = filter (fun k => k <> nid) (nat_entries c0) /\ nat_cnt c = nat_cnt c0 /\
  dirty_nat_cnt c = (if get_nat_flag e IS_DIRTY then dirty_nat_cnt c0 else u32 (dirty_nat_cnt c0 + 1)) /\
  forall b, nat_set_root c !! b =
    if decide (b = block nid) then
      if ni_blk (ni e) =? NEW_ADDR then (fun s => s <| entry_list ::= filter (fun k => k <> nid) |>) <$> nat_set_root c0 !! b
      else let s := default (mk_nes [] 0) (nat_set_root c0 !! b) in
           Some (mk_nes (filter (fun k => k <> nid) (entry_list s) ++ [nid])
                        (if get_nat_flag e IS_PREALLOC || negb (get_nat_flag e IS_DIRTY) then u32 (entry_cnt s + 1) else entry_cnt s))
    else nat_set_root c0 !! b.
Proof.
  unfold c, __set_nat_cache_dirty. cbn [nat_root upd]. rewrite lookup_insert_eq. cbv zeta. unfold __grab_nat_entry_set. cbn [nat_root nat_set_root upd].
  assert (get_nat_flag (set_nat_flag IS_PREALLOC (ni_blk (ni e) =? NEW_ADDR) e) IS_DIRTY = get_nat_flag e IS_DIRTY) as -> by by flags.
  destruct (ni_blk (ni e) =? NEW_ADDR); cbn [negb andb].
  - destruct (get_nat_flag e IS_DIRTY); (split_and!; [done..|]); intros b; cbn; (destruct (decide (b = block nid)) as [->|];
      [by rewrite lookup_alter_eq|by rewrite lookup_alter_ne]).
  - destruct (nat_set_root c0 !! block nid) as [s0|] eqn:Es; destruct (get_nat_flag e IS_PREALLOC), (get_nat_flag e IS_DIRTY); cbn [negb orb];
      (split_and!; [done..|]); intros b; cbn; (destruct (decide (b = block nid)) as [->|];
      [rewrite !lookup_alter_eq, ?Es, ?lookup_insert_eq; done|rewrite !lookup_alter_ne, ?lookup_insert_ne by done; done]).
Qed.
Lemma set_dirty_ok max c0 nid e0 e : cache_ok max c0 -> nat_root c0 !! nid = Some e0 -> ni_nid (ni e) = nid ->
  get_nat_flag e IS_DIRTY = get_nat_flag e0 IS_DIRTY -> get_nat_flag e IS_PREALLOC = get_nat_flag e0 IS_PREALLOC ->
  (ni_blk (ni e) = NEW_ADDR -> get_nat_flag e0 IS_DIRTY = false \/ ni_blk (ni e0) = NEW_ADDR) ->
  cache_ok max (__set_nat_cache_dirty nid (c0 <| nat_root ::= <[nid := e]> |>)).
Proof.
  intros W He0 Hnid Hd Hp Hnew. destruct (set_dirty_root nid e c0) as (e' & (E1 & E2 & E3 & E4) & Hroot).
  destruct (set_dirty_rest nid e c0) as (R1 & _ & R3 & R4). set (c := __set_nat_cache_dirty _ _) in *.
  pose proof W as [W0 W1 W2 W3 W4 W5 W6 W7 W8 W9]. pose proof W0. pose proof (W1 nid e0 He0) as [_ Hrange].
  assert (forall k, dirty c k = (k =? nid) || dirty c0 k) as Hdirty.
  { intros k. unfold dirty. rewrite Hroot. destruct (decide (k = nid)) as [->|]; [by rewrite E2, Z.eqb_refl|]. by replace (k =? nid) with false by lia. }
  assert (forall k, flushable c k <-> (k = nid /\ ni_blk (ni e) <> NEW_ADDR) \/ (k <> nid /\ flushable c0 k)) as Hf.
  { intros k. unfold flushable. rewrite Hroot. destruct (decide (k = nid)) as [->|Hne].
    - split; [intros (e2 & [= <-] & _ & ?); left; by rewrite <- E1|]. intros [[_ ?]|[? _]]; [|done]. exists e'. by rewrite E1.
    - split; [by right|by intros [[? _]|[_ ?]]]. }
  assert (forall s, nat_set_root c0 !! block nid = Some s -> ni_blk (ni e) = NEW_ADDR -> nid ∉ entry_list s) as Hnot.
  { intros s Hs Hb Hin. apply (in_set_list max c0 nid e0 s W He0 Hs) in Hin as [D P]. destruct (W4 nid e0 He0) as [Pe _].
    destruct (Hnew Hb) as [?|E]; [congruence|]. rewrite E, Z.eqb_refl in Pe. congruence. }
  split; [done|..].
  - intros k x. rewrite Hroot. destruct (decide (k = nid)) as [->|]; [intros [= <-]; by rewrite E1|apply W1].
  - rewrite R1. by apply list.NoDup_filter.
  - intros k. rewrite R1, elem_filter_ne, W3, Hroot, Hdirty. destruct (decide (k = nid)) as [->|Hne].
    + rewrite Z.eqb_refl. split; [by intros [? _]|by intros [_ ?]].
    + replace (k =? nid) with false by lia. split; [by intros [_ ?]|by split].
  - intros k x. rewrite Hroot. destruct (decide (k = nid)) as [->|]; [intros [= <-]; by rewrite E1|apply W4].
  - intros k x. rewrite Hroot. destruct (decide (k = nid)) as [->|]; [intros [= <-]; congruence|apply W5].
  - intros b s. rewrite R4. destruct (decide (b = block nid)) as [->|Hb].
    + destruct (Z.eqb_spec (ni_blk (ni e)) NEW_ADDR) as [Eb|Eb].
      * destruct (nat_set_root c0 !! block nid) as [s0|] eqn:Es; [|done]. intros [= <-]. cbn. rewrite filter_ne_absent by by apply Hnot.
        destruct (W6 _ s0 Es) as (? & ? & M). split_and!; [done..|]. intros k. rewrite M, Hf. split.
        -- intros [? ?]. split; [done|]. right. split; [|done]. intros ->. apply (Hnot s0 eq_refl Eb). by apply M.
        -- intros [? [[-> ?]|[_ ?]]]; done.
      * intros [= <-]. cbn [entry_list entry_cnt]. set (s0 := default _ _).
        assert (NoDup (entry_list s0) /\ entry_cnt s0 = zlen (entry_list s0) /\ 0 <= zlen (entry_list s0) <= max /\
          (forall k, k ∈ entry_list s0 <-> block k = block nid /\ flushable c0 k)) as (N & C & L & M).
        { unfold s0. destruct (nat_set_root c0 !! block nid) as [s|] eqn:Es; cbn [default]; [destruct (W6 _ s Es) as (? & ? & ?); split_and!; try done; by apply (set_len max c0 (block nid))|].
          split; [apply NoDup_nil_2|]. split; [done|]. split; [unfold zlen; cbn; lia|]. intros k. split; [by intros ?%not_elem_of_nil|].
          intros [E F]. apply W7 in F. rewrite E, Es in F. by destruct F. }
        assert (nid ∈ entry_list s0 <-> get_nat_flag e IS_PREALLOC || negb (get_nat_flag e IS_DIRTY) = false) as Hin.
        { rewrite M, Hd, Hp, orb_false_iff, negb_false_iff. destruct (W4 nid e0 He0) as [-> _]. split.
          - intros [_ (x & Ex & ? & ?)]. rewrite He0 in Ex. injection Ex as <-. split; [by apply Z.eqb_neq|done].
          - intros [? ?]. split; [done|]. exists e0. split_and!; [done..|]. by apply Z.eqb_neq. }
        split_and!.
        -- apply list.NoDup_app. split; [by apply list.NoDup_filter|]. split; [|apply NoDup_singleton].
           intros k Hk ->%list_elem_of_singleton. by apply elem_filter_ne in Hk as [? _].
        -- rewrite zlen_app. change (zlen [nid]) with 1. destruct (_ || _).
           ++ rewrite filter_ne_absent by (rewrite Hin; done). rewrite u32_id by lia. lia.
           ++ rewrite len_filter_ne by (done || by apply Hin). lia.
        -- intros k. rewrite elem_of_app, elem_filter_ne, list_elem_of_singleton, M, Hf. split.
           ++ intros [(? & ? & ?) | ->]; [split; [done|by right]|split; [done|by left]].
           ++ intros [? [[-> _]|[? ?]]]; [by right|by left].
    + intros Hs. destruct (W6 b s Hs) as (? & ? & M). split_and!; [done..|]. intros k. rewrite M, Hf. split.
      * intros [E ?]. split; [done|]. right. split; [|done]. intros ->. done.
      * intros [? [[-> _]|[_ ?]]]; [done|done].
  - intros k Hk. rewrite R4. destruct (decide (block k = block nid)) as [E|Hb].
    + destruct (Z.eqb_spec (ni_blk (ni e)) NEW_ADDR); [|by eexists]. apply Hf in Hk as [[_ ?]|[_ Hk]]; [done|].
      destruct (W7 k Hk) as [s Hs]. rewrite Hs. by eexists.
    + apply Hf in Hk as [[-> _]|[_ Hk]]; [done|]. by apply W7.
  - rewrite R3, Hd. pose proof (dirty_count max c0 W). destruct (get_nat_flag e0 IS_DIRTY) eqn:D0.
    + rewrite W8. apply count_upto_ext. intros k _. rewrite Hdirty. destruct (Z.eqb_spec k nid) as [->|]; [|done]. unfold dirty. by rewrite He0, D0.
    + assert (dirty c0 nid = false) as Dn by (unfold dirty; by rewrite He0).
      rewrite (count_upto_update (dirty c0) (dirty c) (Z.to_nat max) nid) by (lia || (intros k Hk Hne; rewrite Hdirty; by replace (k =? nid) with false by lia)).
      rewrite Hdirty, Z.eqb_refl, Dn. cbn [Z.b2z orb]. rewrite <- W8. rewrite u32_id; [lia|].
      assert (dirty_nat_cnt c0 < max); [|lia]. rewrite W8.
      enough (count_upto (dirty c0) (Z.to_nat max) < Z.of_nat (Z.to_nat max)) by lia.
      pose proof (count_upto_range (dirty c) (Z.to_nat max)) as Hc.
      rewrite (count_upto_update (dirty c0) (dirty c) (Z.to_nat max) nid) in Hc by (lia || (intros k Hk Hne; rewrite Hdirty; by replace (k =? nid) with false by lia)).
      rewrite Hdirty, Z.eqb_refl, Dn in Hc. cbn in Hc. lia.
  - intros b. rewrite R4. destruct (decide (b = block nid)) as [->|]; [by exists nid|apply W9].
Qed.
(** A flushed entry: clean and checkpointed, its information kept. *)
Definition cleaned (e e' : nat_entry) : Prop :=
  ni e' = ni e /\ get_nat_flag e' IS_DIRTY = false /\ get_nat_flag e' IS_PREALLOC = get_nat_flag e IS_PREALLOC /\
  get_nat_flag e' IS_CHECKPOINTED = true.
Lemma clear_root nid e c0 : exists e', cleaned e e' /\ forall k,
  nat_root (__clear_nat_cache_dirty (block nid) nid (c0 <| nat_root ::= <[nid := nat_reset_flag e]> |>)) !! k = if decide (k = nid) then Some e' else nat_root c0 !! k.
Proof.
  exists (set_nat_flag IS_DIRTY false (nat_reset_flag e)). split.
  - split_and!; [by rewrite set_flag_info|by flags|..]; rewrite get_set_flag, reset_flags by done; done.
  - intros k. cbn. destruct (decide (k = nid)) as [->|].
    + by rewrite lookup_alter_eq, lookup_insert_eq.
    + by rewrite lookup_alter_ne, lookup_insert_ne.
Qed.
Lemma clear_rest nid e c0 (c := __clear_nat_cache_dirty (block nid) nid (c0 <| nat_root ::= <[nid := e]> |>)) :
  nat_entries c = filter (fun k => k <> nid) (nat_entries c0) ++ [nid] /\ dirty_nat_cnt c = u32 (dirty_nat_cnt c0 - 1) /\
  forall b, nat_set_root c !! b =
    if decide (b = block nid) then (fun s => mk_nes (filter (fun k => k <> nid) (entry_list s)) (u32 (entry_cnt s - 1))) <$> nat_set_root c0 !! b
    else nat_set_root c0 !! b.
Proof.
  split; [done|]. split; [done|]. intros b. cbn. destruct (decide (b = block nid)) as [->|].
  - rewrite !lookup_alter_eq. by destruct (nat_set_root c0 !! block nid).
  - by rewrite !lookup_alter_ne.
Qed.
Lemma clear_ok max c0 nid e0 : cache_ok max c0 -> nat_root c0 !! nid = Some e0 -> get_nat_flag e0 IS_DIRTY = true -> ni_blk (ni e0) <> NEW_ADDR ->
  cache_ok max (__clear_nat_cache_dirty (block nid) nid (c0 <| nat_root ::= <[nid := nat_reset_flag e0]> |>)).
Proof.
  intros W He0 Hd Hb. destruct (clear_root nid e0 c0) as (e' & (E1 & E2 & E3 & E4) & Hroot).
  destruct (clear_rest nid (nat_reset_flag e0) c0) as (R1 & R3 & R4). set (c := __clear_nat_cache_dirty _ _ _) in *.
  pose proof W as [W0 W1 W2 W3 W4 W5 W6 W7 W8 W9]. pose proof W0. pose proof (W1 nid e0 He0) as [Hnid Hrange].
  assert (forall k, dirty c k = negb (k =? nid) && dirty c0 k) as Hdirty.
  { intros k. unfold dirty. rewrite Hroot. destruct (decide (k = nid)) as [->|]; [by rewrite E2, Z.eqb_refl|]. by replace (k =? nid) with false by lia. }
  assert (forall k, flushable c k <-> k <> nid /\ flushable c0 k) as Hf.
  { intros k. unfold flushable. rewrite Hroot. destruct (decide (k = nid)) as [->|Hne].
    - split; [by intros (e2 & [= <-] & ? & _); congruence|by intros [? _]].
    - split; [by split|by intros [_ ?]]. }
  assert (flushable c0 nid) as Hfn by by exists e0.
  split; [done|..].
  - intros k x. rewrite Hroot. destruct (decide (k = nid)) as [->|]; [intros [= <-]; by rewrite E1|apply W1].
  - rewrite R1. apply list.NoDup_app. split; [by apply list.NoDup_filter|]. split; [|apply NoDup_singleton].
    intros k Hk ->%list_elem_of_singleton. by apply elem_filter_ne in Hk as [? _].
  - intros k. rewrite R1, elem_of_app, elem_filter_ne, list_elem_of_singleton, W3, Hroot, Hdirty. destruct (decide (k = nid)) as [->|Hne].
    + rewrite Z.eqb_refl. split; [by split|by right].
    + replace (k =? nid) with false by lia. split; [by intros [[_ ?]|?]|intros ?; by left].
  - intros k x. rewrite Hroot. destruct (decide (k = nid)) as [->|]; [|apply W4]. intros [= <-]. rewrite E1, E3. split; [apply (W4 nid e0 He0)|done].
  - intros k x. rewrite Hroot. destruct (decide (k = nid)) as [->|]; [by intros [= <-]|apply W5].
  - intros b s. rewrite R4. destruct (decide (b = block nid)) as [->|Hbn].
    + destruct (nat_set_root c0 !! block nid) as [s0|] eqn:Es; [|done]. intros [= <-]. cbn [entry_list entry_cnt].
      destruct (W6 _ s0 Es) as (N & C & M). pose proof (set_len max c0 _ s0 W Es) as L. assert (nid ∈ entry_list s0) as Hin by by apply M.
      pose proof (len_filter_ne _ nid N Hin) as Hl. pose proof (zlen_nonneg (filter (fun k => k <> nid) (entry_list s0))).
      split_and!; [by apply list.NoDup_filter|rewrite u32_id; lia|]. intros k. rewrite elem_filter_ne, M, Hf. split; [by intros (? & ? & ?)|by intros (? & ? & ?)].
    + intros Hs. destruct (W6 b s Hs) as (? & ? & M). split_and!; [done..|]. intros k. rewrite M, Hf. split.
      * intros [E ?]. split; [done|]. split; [|done]. by intros ->.
      * by intros (? & _ & ?).
  - intros k [_ Hk]%Hf. rewrite R4. destruct (W7 k Hk) as [s Hs]. destruct (decide _); [|by eexists]. rewrite Hs. by eexists.
  - rewrite R3. pose proof (dirty_count max c0 W). assert (dirty c0 nid = true) as Dn by (unfold dirty; by rewrite He0).
    pose proof (count_upto_range (dirty c) (Z.to_nat max)).
    assert (dirty_nat_cnt c0 = count_upto (dirty c) (Z.to_nat max) + 1) as E.
    { rewrite W8, (count_upto_update (dirty c) (dirty c0) (Z.to_nat max) nid) by (lia || (intros k Hk Hne; rewrite Hdirty; by replace (k =? nid) with false by lia)).
      rewrite Hdirty, Z.eqb_refl, Dn. cbn. lia. }
    rewrite u32_id; lia.
  - intros b. rewrite R4. destruct (decide (b = block nid)) as [->|]; [by exists nid|apply W9].
Qed.
(** Flags that no list depends on may change. *)
Lemma alter_flag_ok max c nid (f : nat_entry -> nat_entry) : cache_ok max c ->
  (forall e, ni (f e) = ni e /\ get_nat_flag (f e) IS_DIRTY = get_nat_flag e IS_DIRTY /\ get_nat_flag (f e) IS_PREALLOC = get_nat_flag e IS_PREALLOC /\
             get_nat_flag (f e) IS_CHECKPOINTED = get_nat_flag e IS_CHECKPOINTED) ->
  cache_ok max (c <| nat_root ::= alter f nid |>).
Proof.
  intros W Hf. set (c' := c <| nat_root ::= alter f nid |>).
  assert (forall k, nat_root c' !! k = (if decide (k = nid) then f else id) <$> nat_root c !! k) as Hroot.
  { intros k. cbn. destruct (decide (k = nid)) as [->|]; [by rewrite lookup_alter_eq|]. rewrite lookup_alter_ne by done. by destruct (nat_root c !! k). }
  assert (forall k e', nat_root c' !! k = Some e' -> exists e, nat_root c !! k = Some e /\ ni e' = ni e /\ get_nat_flag e' IS_DIRTY = get_nat_flag e IS_DIRTY /\
      get_nat_flag e' IS_PREALLOC = get_nat_flag e IS_PREALLOC /\ get_nat_flag e' IS_CHECKPOINTED = get_nat_flag e IS_CHECKPOINTED) as Hback.
  { intros k e'. rewrite Hroot. destruct (nat_root c !! k) as [e|]; [|done]. intros [= <-]. exists e. split; [done|]. destruct (decide _); [apply Hf|done]. }
  assert (forall k, dirty c' k = dirty c k) as Hd.
  { intros k. unfold dirty. rewrite Hroot. destruct (nat_root c !! k) as [e|]; [|done]. cbn. destruct (decide _); [apply Hf|done]. }
  assert (forall k, flushable c' k <-> flushable c k) as Hfl.
  { intros k. unfold flushable. rewrite Hroot. destruct (nat_root c !! k) as [e|]; cbn; [|done]. destruct (decide _); [|done].
    destruct (Hf e) as (F1 & F2 & _). split; intros (x & [= <-] & ? & ?); (eexists; split; [done|]); by rewrite ?F1, ?F2 in *. }
  pose proof W as [W0 W1 W2 W3 W4 W5 W6 W7 W8 W9]. split; try done.
  - intros k e' He. destruct (Hback k e' He) as (e & E & -> & _). by apply (W1 k).
  - intros k. change (k ∈ nat_entries c <-> is_Some (nat_root c' !! k) /\ dirty c' k = false). rewrite W3, Hd, Hroot. by rewrite fmap_is_Some.
  - intros k e' He. destruct (Hback k e' He) as (e & E & -> & -> & -> & _). by apply (W4 k).
  - intros k e' He. destruct (Hback k e' He) as (e & E & _ & -> & _ & ->). by apply (W5 k).
  - intros b s Hs. destruct (W6 b s Hs) as (? & ? & M). split_and!; [done..|]. intros k. by rewrite Hfl.
  - intros k. rewrite Hfl. apply W7.
  - change (dirty_nat_cnt c = count_upto (dirty c') (Z.to_nat max)). rewrite W8. apply count_upto_ext. intros k _. symmetry. apply Hd.
Qed.
End cache.
