(* ===== verification/NatStore.v ===== *)
(** * What the NAT says: cached, journalled and stored values

    [cval] is the value of a node id on the device (journal first, then its NAT
    block), [nval] the current one (cache first).  [nat_ok] relates the cache to
    the device; reading, updating and evicting entries keep it. *)
From stdpp Require Import gmap.
From S2P Require Import Prelude Geometry F2fsBits Sit SitFlush NatMgr NatCache.
Open Scope Z_scope.

(** ** Pairs of blocks *)

Lemma lxor_one q b : Z.lxor (2 * q + Z.b2z b) 1 = 2 * q + Z.b2z (negb b).
Proof.
  apply Z.bits_inj'. intros k Hk. rewrite Z.lxor_spec. destruct (Z.eq_dec k 0) as [->|Hne].
  - rewrite !(Z.add_comm (2 * q)), !Z.add_b2z_double_bit0. by destruct b.
  - replace k with (Z.succ (k - 1)) by lia. 
    assert (forall b, Z.testbit (2 * q + Z.b2z b) (Z.succ (k - 1)) = Z.testbit q (k - 1)) as E
      by (intros [|]; cbn [Z.b2z]; [by rewrite Z.testbit_odd_succ by lia|rewrite Z.add_0_r; by rewrite Z.testbit_even_succ by lia]).
    rewrite !E. change 1 with (2 * 0 + 1) at 2. rewrite Z.testbit_odd_succ, Z.bits_0 by lia. apply xorb_false_r.
Qed.
Lemma lxor_pow2 k q r : 0 <= k -> 0 <= r < 2 ^ k -> Z.lxor (q * 2 ^ k + r) (2 ^ k) = Z.lxor q 1 * 2 ^ k + r.
Proof.
  intros Hk Hr. set (x := q * 2 ^ k + r). assert (x / 2 ^ k = q /\ x mod 2 ^ k = r) as [Ed Em].
  { split; [symmetry; apply (Z.div_unique_pos _ _ _ r); lia|symmetry; apply (Z.mod_unique_pos _ _ q); lia]. }
  rewrite (Z.div_mod (Z.lxor x (2 ^ k)) (2 ^ k)) by lia.
  assert (Z.lxor x (2 ^ k) / 2 ^ k = Z.lxor q 1) as ->.
  { rewrite <- Z.shiftr_div_pow2, Z.shiftr_lxor, !Z.shiftr_div_pow2, Ed, Z.div_same by lia. done. }
  assert (Z.lxor x (2 ^ k) mod 2 ^ k = r) as ->; [|lia].
  rewrite <- Em, <- !Z.land_ones by lia. apply Z.bits_inj'. intros i Hi. rewrite !Z.land_spec, Z.lxor_spec.
  destruct (decide (i < k)); [rewrite Z.pow2_bits_false by lia; by rewrite xorb_false_r|].
  by rewrite Z.ones_spec_high, !andb_false_r by lia.
Qed.

Section store.
Context `{NatFormatOk}.
Context (sbi : f2fs_sb_info) (Hgeom : geom_wf sbi).
#[local] Abbreviation EPB := NAT_ENTRY_PER_BLOCK.
#[local] Abbreviation NJE := NAT_JOURNAL_ENTRIES.
#[local] Abbreviation block := NAT_BLOCK_OFFSET.
#[local] Abbreviation bps := (blocks_per_seg sbi).

Record nat_geom (n : f2fs_nm_info) : Prop := {
  ng_base : 0 <= nat_blkaddr n;
  ng_blocks : 0 < nat_blocks n;
  ng_top : nat_blkaddr n + 2 * nat_blocks n + 2 * bps < 4294967296;
  ng_max : max_nid n = EPB * nat_blocks n;
  ng_max32 : max_nid n + EPB < 4294967295;
  ng_bitmap : nat_blocks n <= 8 * zlen (nat_bitmap n);
}.
Lemma block_range n nid : nat_geom n -> 0 <= nid < max_nid n -> 0 <= block nid < nat_blocks n.
Proof.
  intros G Hn. pose proof nents_range. rewrite (ng_max _ G) in Hn. unfold NAT_BLOCK_OFFSET.
  split; [apply Z.div_pos; lia|apply Z.div_lt_upper_bound; lia].
Qed.
Lemma offset_range nid : 0 <= nid - START_NID nid < EPB.
Proof. pose proof nents_range. unfold START_NID. pose proof (Z.div_mod nid EPB). pose proof (Z.mod_pos_bound nid EPB). lia. Qed.
Lemma start_nid_mod nid : nid - START_NID nid = nid mod EPB.
Proof. pose proof nents_range. unfold START_NID. pose proof (Z.div_mod nid EPB). lia. Qed.
Lemma block_start b : block (b * EPB) = b.
Proof. pose proof nents_range. unfold NAT_BLOCK_OFFSET. apply Z.div_mul. lia. Qed.
Lemma start_block nid : START_NID nid = block nid * EPB.
Proof. done. Qed.
Lemma nid_eq k nid : block k = block nid -> k - START_NID k = nid - START_NID nid -> k = nid.
Proof. rewrite !start_block. intros ->. lia. Qed.

Definition copy_of (n : f2fs_nm_info) (b : Z) : bool := f2fs_test_bit b (nat_bitmap n).
(** Copy [c] of NAT block [b] *)
Definition nat_addr (n : f2fs_nm_info) (b : Z) (c : bool) : Z := nat_blkaddr n + (2 * (b / bps) + Z.b2z c) * bps + b mod bps.
Lemma bps_pow : bps = 2 ^ log_blocks_per_seg sbi /\ 0 <= log_blocks_per_seg sbi <= 16 /\ 1 <= bps <= 65536.
Proof.
  pose proof (gw_log _ Hgeom). pose proof (gw_bps _ Hgeom) as E. split; [done|]. split; [done|]. rewrite E.
  pose proof (Z.pow_le_mono_r 2 0 (log_blocks_per_seg sbi)). pose proof (Z.pow_le_mono_r 2 (log_blocks_per_seg sbi) 16). lia.
Qed.
Lemma nat_addr_range n b c : nat_geom n -> 0 <= b < nat_blocks n -> nat_blkaddr n <= nat_addr n b c < 4294967296.
Proof.
  intros [G1 G2 G3 _ _] Hb. destruct bps_pow as (_ & _ & ?). unfold nat_addr. pose proof (Z.div_mod b bps). pose proof (Z.mod_pos_bound b bps).
  pose proof (Z.div_pos b bps). destruct c; cbn [Z.b2z]; nia.
Qed.
Lemma nat_addr_inj n b c b' c' : nat_addr n b c = nat_addr n b' c' -> b = b' /\ c = c'.
Proof.
  destruct bps_pow as (_ & _ & ?). unfold nat_addr. intros E. pose proof (Z.mod_pos_bound b bps). pose proof (Z.mod_pos_bound b' bps).
  set (q := 2 * (b / bps) + Z.b2z c) in *. set (q' := 2 * (b' / bps) + Z.b2z c') in *.
  assert (q * bps + b mod bps = q' * bps + b' mod bps) as E2 by lia.
  assert (q = q' /\ b mod bps = b' mod bps) as [Eq Em].
  { apply (f_equal (fun x => (x / bps, x mod bps))) in E2. rewrite !Z.div_add_l, !(Z.div_small (_ mod _)) in E2 by lia. rewrite !(Z.add_comm (_ * bps)), !Z.mod_add, !Z.mod_mod in E2 by lia.
    injection E2 as E3 E4. lia. }
  pose proof (Z.div_mod b bps). pose proof (Z.div_mod b' bps). destruct c, c'; cbn [Z.b2z] in *; split; try done; try lia; nia.
Qed.
Lemma cur_addr n nid : nat_geom n -> 0 <= nid < max_nid n -> current_nat_addr sbi n nid = nat_addr n (block nid) (copy_of n (block nid)).
Proof.
  intros G Hn. pose proof (block_range n nid G Hn) as Hb. pose proof (nat_addr_range n (block nid) false G Hb).
  pose proof (nat_addr_range n (block nid) true G Hb). destruct bps_pow as (Ep & Hl & ?). unfold current_nat_addr.
  rewrite (u32_id (bps - 1)) by lia.
  assert (Z.land (block nid) (bps - 1) = block nid mod bps) as ->.
  { rewrite Ep. replace (2 ^ log_blocks_per_seg sbi - 1) with (Z.ones (log_blocks_per_seg sbi)) by (rewrite Z.ones_equiv; lia).
    apply Z.land_ones. lia. }
  rewrite Z.shiftl_mul_pow2 by lia. pose proof (Z.div_mod (block nid) bps).
  assert (nat_blkaddr n + block nid * 2 ^ 1 - block nid mod bps = nat_addr n (block nid) false) as -> by (unfold nat_addr; cbn [Z.b2z]; lia).
  pose proof (ng_base _ G). rewrite (u64_id (nat_addr _ _ _)) by lia. unfold copy_of. destruct (f2fs_test_bit _ _); [|done].
  unfold nat_addr in *. cbn [Z.b2z] in *. rewrite u64_id by lia. lia.
Qed.
Lemma next_nat n nid : nat_geom n -> 0 <= nid < max_nid n ->
  next_nat_addr sbi n (current_nat_addr sbi n nid) = nat_addr n (block nid) (negb (copy_of n (block nid))).
Proof.
  intros G Hn. pose proof (block_range n nid G Hn) as Hb. rewrite cur_addr by done. set (b := block nid) in *. set (c := copy_of n b).
  pose proof (nat_addr_range n b c G Hb). pose proof (nat_addr_range n b (negb c) G Hb). destruct bps_pow as (Ep & Hl & ?).
  pose proof (ng_base _ G). unfold next_nat_addr. rewrite (u64_id (_ - _)) by lia. unfold nat_addr in *.
  replace (nat_blkaddr n + (2 * (b / bps) + Z.b2z c) * bps + b mod bps - nat_blkaddr n) with ((2 * (b / bps) + Z.b2z c) * bps + b mod bps) by lia.
  rewrite Z.shiftl_1_l, <- Ep. rewrite Ep, lxor_pow2, lxor_one by (rewrite <- ?Ep; try apply Z.mod_pos_bound; lia). rewrite <- Ep.
  rewrite u64_id by lia. lia.
Qed.
Lemma set_next_geom nid n : nat_geom n -> nat_geom (set_to_next_nat nid n).
Proof. intros []. split; try done. cbn. by rewrite zlen_f2fs_change_bit. Qed.
Lemma copy_set_next nid n b : nat_geom n -> 0 <= nid < max_nid n -> 0 <= b < nat_blocks n ->
  copy_of (set_to_next_nat nid n) b = if b =? block nid then negb (copy_of n b) else copy_of n b.
Proof.
  intros G Hn Hb. pose proof (block_range n nid G Hn). pose proof (ng_bitmap _ G). unfold copy_of. cbn.
  rewrite test_f2fs_change_bit by lia. destruct (Z.eqb_spec b (block nid)) as [->|]; done.
Qed.

(** ** The journal *)

Definition jval (j : nat_journal) (nid : Z) : option f2fs_nat_entry :=
  let i := find_in_cursum (nats_in_cursum j) nid 0 in if 0 <=? i then Some (snd (nat_j j).[i]) else None.
Record njnl_ok (max : Z) (j : nat_journal) : Prop := {
  nj_n : 0 <= n_nats j <= NJE;
  nj_len : zlen (nat_j j) = NJE;
  nj_nodup : NoDup (map fst (nats_in_cursum j));
  nj_nid e : e ∈ nats_in_cursum j -> 0 < fst e < max;
}.
Lemma nats_lookup j (i : nat) : nats_in_cursum j !! i = if decide (Z.of_nat i < n_nats j) then nat_j j !! i else None.
Proof. unfold nats_in_cursum. rewrite lookup_take. by repeat destruct (decide _); try lia. Qed.
Lemma jval_spec max j nid : njnl_ok max j -> match jval j nid with Some r => (nid, r) ∈ nats_in_cursum j | None => forall r, (nid, r) ∉ nats_in_cursum j end.
Proof.
  intros [N L U _]. unfold jval. destruct (find_in_cursum_spec (nats_in_cursum j) nid 0 ltac:(lia)) as [[-> Hn]|(i & e & He & Hv & ->)].
  - cbn. intros r [i Hi]%list_elem_of_lookup. by apply Hn in Hi.
  - rewrite Z.add_0_l, (proj2 (Z.leb_le 0 (Z.of_nat i))) by lia. rewrite nats_lookup in He. destruct (decide _); [|done].
    apply list_elem_of_lookup. exists i. rewrite nats_lookup, decide_True by lia. rewrite He. f_equal.
    assert ((nat_j j).[Z.of_nat i] = e) as -> by (apply aget_lookup; [lia|by rewrite Nat2Z.id]). subst nid. by destruct e.
Qed.
Lemma jval_in max j nid r : njnl_ok max j -> jval j nid = Some r <-> (nid, r) ∈ nats_in_cursum j.
Proof.
  intros W. pose proof (jval_spec max j nid W) as S. split; [by intros E; rewrite E in S|]. intros Hin.
  destruct (jval j nid) as [r'|]; [|by destruct (S r)]. f_equal.
  pose proof (nj_nodup _ _ W) as U. apply list_elem_of_lookup in S as [a Ha]. apply list_elem_of_lookup in Hin as [b Hb].
  assert (a = b) as ->; [|congruence]. apply (NoDup_lookup _ a b nid U); rewrite list_lookup_fmap; [by rewrite Ha|by rewrite Hb].
Qed.
(** Storing an entry in its old place or in a new one *)
Lemma jval_eq max j j' k r : njnl_ok max j -> njnl_ok max j' ->
  (forall k' r', (k', r') ∈ nats_in_cursum j' <-> (k' = k /\ r' = r) \/ (k' <> k /\ (k', r') ∈ nats_in_cursum j)) ->
  forall k', jval j' k' = if k' =? k then Some r else jval j k'.
Proof.
  intros W W' Hin k'. destruct (Z.eqb_spec k' k) as [->|Hne].
  - apply (jval_in max); [done|]. apply Hin. by left.
  - destruct (jval j' k') as [x|] eqn:E1.
    + apply (jval_in max) in E1; [|done]. symmetry. apply (jval_in max); [done|]. apply Hin in E1 as [[? _]|[_ ?]]; done.
    + destruct (jval j k') as [x|] eqn:E2; [|done]. apply (jval_in max) in E2; [|done].
      assert (jval j' k' = Some x) as E3; [|congruence]. apply (jval_in max); [done|]. apply Hin. by right.
Qed.
Lemma journal_store max j nid r : njnl_ok max j -> 0 < nid < max -> (n_nats j < NJE \/ is_Some (jval j nid)) ->
  exists off j', lookup_nat_journal j nid true = (off, j') /\ 0 <= off /\
    let j2 := j' <| nat_j ::= fun a => a.[off <- (nid, r)] |> in
    njnl_ok max j2 /\ n_nats j2 <= n_nats j + 1 /\ forall k, jval j2 k = if k =? nid then Some r else jval j k.
Proof.
  intros W Hnid Hroom. pose proof W as [N L U B]. pose proof njents_range. unfold lookup_nat_journal.
  destruct (find_in_cursum_spec (nats_in_cursum j) nid 0 ltac:(lia)) as [[Ef Hn]|(i & e & He & Hv & ->)].
  - rewrite Ef. cbn [Z.leb Z.compare andb]. assert (jval j nid = None) as Hnone by (unfold jval; by rewrite Ef).
    destruct Hroom as [Hroom|Hr]; [|rewrite Hnone in Hr; by destruct Hr].
    replace (has_nat_space j 1) with true by (symmetry; apply Z.leb_le; lia). eexists _, _. split; [reflexivity|]. split; [lia|]. cbv zeta.
    set (j2 := _ <| nat_j ::= _ |>).
    assert (nats_in_cursum j2 = nats_in_cursum j ++ [(nid, r)]) as El.
    { unfold nats_in_cursum, j2. cbn. rewrite u16_id by lia. assert (length (nat_j j) = Z.to_nat NJE) as Hlen by (unfold zlen in L; lia).
      apply list_eq. intros k. rewrite lookup_take. destruct (decide (k < Z.to_nat (n_nats j + 1))%nat) as [Hk|Hk].
      - destruct (decide (k = Z.to_nat (n_nats j))) as [->|Hne].
        + rewrite lookup_app_r by (rewrite length_take; lia). rewrite length_take, Nat.min_l, Nat.sub_diag by lia.
          unfold aset. replace (0 <=? n_nats j) with true by lia. apply list_lookup_insert_eq. lia.
        + rewrite lookup_app_l by (rewrite length_take; lia). rewrite lookup_take, decide_True by lia. unfold aset.
          replace (0 <=? n_nats j) with true by lia. by rewrite list_lookup_insert_ne by lia.
      - symmetry. apply lookup_ge_None_2. rewrite length_app, length_take. cbn. lia. }
    assert (njnl_ok max j2) as W2.
    { split; [cbn; rewrite u16_id by lia; lia|cbn; by rewrite zlen_aset|..].
      - rewrite El, map_app. apply list.NoDup_app. split; [done|]. split; [|apply NoDup_singleton].
        intros k Hk ->%list_elem_of_singleton. apply list_elem_of_fmap in Hk as (e & E & Hin). apply list_elem_of_lookup in Hin as [a Ha].
        by apply (Hn a e Ha).
      - intros e. rewrite El, elem_of_app, list_elem_of_singleton. intros [?|E]; [by apply B|by rewrite E]. }
    split; [done|]. split; [cbn; rewrite u16_id by lia; lia|]. apply (jval_eq max j); [done..|]. intros k' r'.
    rewrite El, elem_of_app, list_elem_of_singleton. split.
    + intros [Hin|E]; [right|left; by injection E]. split; [|done]. intros ->. apply list_elem_of_lookup in Hin as [a Ha]. by apply (Hn a _ Ha).
    + intros [[-> ->]|[_ ?]]; [by right|by left].
  - rewrite Z.add_0_l, (proj2 (Z.leb_le 0 (Z.of_nat i))) by lia. eexists _, _. split; [reflexivity|]. split; [lia|]. cbv zeta.
    set (j2 := _ <| nat_j ::= _ |>). pose proof He as He2. rewrite nats_lookup in He2. destruct (decide _) as [Hi|]; [|done].
    assert (nats_in_cursum j2 = <[i := (nid, r)]> (nats_in_cursum j)) as El.
    { unfold nats_in_cursum, j2. cbn. unfold aset. rewrite (proj2 (Z.leb_le 0 (Z.of_nat i))), Nat2Z.id by lia. by rewrite take_insert_lt by lia. }
    assert (i < length (nats_in_cursum j))%nat as Hlt by by eapply lookup_lt_Some.
    assert (map fst (nats_in_cursum j2) = map fst (nats_in_cursum j)) as Em.
    { rewrite El. apply list_eq. intros k. rewrite !list_lookup_fmap. destruct (decide (k = i)) as [->|]; [rewrite list_lookup_insert_eq by done; rewrite He; cbn; by rewrite Hv|].
      by rewrite list_lookup_insert_ne. }
    assert (njnl_ok max j2) as W2.
    { split; [done|cbn; by rewrite zlen_aset|by rewrite Em|]. intros e2 Hin. assert (fst e2 ∈ map fst (nats_in_cursum j)) as Hf
        by (rewrite <- Em; by apply (list_elem_of_fmap_2 fst)). apply list_elem_of_fmap in Hf as (e3 & -> & H3). by apply B. }
    split; [done|]. split; [cbn; lia|]. apply (jval_eq max j); [done..|]. intros k' r'. rewrite El. split.
    + intros [a Ha]%list_elem_of_lookup. apply list_lookup_insert_Some in Ha as [(-> & E & _)|[Hne Ha]]; [left; by injection E|].
      right. split; [|apply list_elem_of_lookup; by exists a]. intros ->. apply Hne. apply (NoDup_lookup _ i a nid U);
        rewrite list_lookup_fmap; [rewrite He; cbn; by rewrite Hv|by rewrite Ha].
    + intros [[-> ->]|[Hne Hin]]; apply list_elem_of_lookup; [exists i; by apply list_lookup_insert_eq|].
      apply list_elem_of_lookup in Hin as [a Ha]. exists a. rewrite list_lookup_insert_ne; [done|]. intros <-. rewrite He in Ha. injection Ha as ->. done.
Qed.
Lemma drop_nats_ok max j : njnl_ok max j ->
  let j2 := snd (update_nats_in_cursum j (- n_nats j)) in njnl_ok max j2 /\ n_nats j2 = 0 /\ forall k, jval j2 k = None.
Proof.
  intros [N L U B]. cbv zeta. set (j2 := snd _). assert (n_nats j2 = 0) as E0 by (cbn; by rewrite Z.add_opp_diag_r).
  assert (nats_in_cursum j2 = []) as El by (unfold nats_in_cursum; by rewrite E0).
  split; [|split; [done|intros k; unfold jval; by rewrite El]]. pose proof njents_range. split; [lia|done|rewrite El; apply NoDup_nil_2|].
  intros e. rewrite El. by intros ?%not_elem_of_nil.
Qed.

(** ** Values *)

Definition pval (n : f2fs_nm_info) (meta : Z -> list f2fs_nat_entry) (nid : Z) : f2fs_nat_entry :=
  (meta (current_nat_addr sbi n nid)).[nid - START_NID nid].
Definition cval (s : nat_store) (nid : Z) : f2fs_nat_entry :=
  match jval (njnl s) nid with Some r => r | None => pval (nm s) (nmeta s) nid end.
Definition nval (s : nat_store) (nid : Z) : node_info :=
  match nat_root (nc (nm s)) !! nid with Some e => ni e | None => node_info_from_raw_nat (mk_ni nid 0 0 0) (cval s nid) end.
Record nat_ok (s : nat_store) : Prop := {
  no_geom : nat_geom (nm s);
  no_jnl : njnl_ok (max_nid (nm s)) (njnl s);
  no_cache : cache_ok (max_nid (nm s)) (nc (nm s));
  no_clean nid e : nat_root (nc (nm s)) !! nid = Some e -> get_nat_flag e IS_DIRTY = false -> raw_nat_from_node_info (ni e) = cval s nid;
  no_new nid : 0 <= nid < max_nid (nm s) -> rn_block_addr (cval s nid) <> NEW_ADDR;
  no_pnew nid : 0 <= nid < max_nid (nm s) -> rn_block_addr (pval (nm s) (nmeta s) nid) <> NEW_ADDR;
  no_page nid : 0 <= nid < max_nid (nm s) -> zlen (nmeta s (current_nat_addr sbi (nm s) nid)) = EPB;
}.
(** Between flushes: a dirty entry is checkpointed only if it had an address then and has one now. *)
Definition steady (s : nat_store) : Prop := forall nid e,
  nat_root (nc (nm s)) !! nid = Some e -> get_nat_flag e IS_DIRTY = true -> get_nat_flag e IS_CHECKPOINTED = true ->
  ni_blk (ni e) <> NULL_ADDR /\ rn_block_addr (cval s nid) <> NULL_ADDR.
(** Nothing but the cache differs. *)
Record cache_step (n n' : f2fs_nm_info) : Prop := {
  cs_base : nat_blkaddr n' = nat_blkaddr n; cs_max : max_nid n' = max_nid n; cs_blocks : nat_blocks n' = nat_blocks n;
  cs_bitmap : nat_bitmap n' = nat_bitmap n; cs_fn : fn n' = fn n; cs_fsck : need_fsck n' = need_fsck n;
}.
Lemma cache_step_geom n n' : cache_step n n' -> nat_geom n -> nat_geom n'.
Proof. intros [E1 E2 E3 E4 _ _] [G1 G2 G3 G4 G5 G6]. split; by rewrite ?E1, ?E2, ?E3, ?E4. Qed.
Lemma cache_step_addr n n' k : cache_step n n' -> current_nat_addr sbi n' k = current_nat_addr sbi n k.
Proof. intros [E1 _ _ E4 _ _]. unfold current_nat_addr. by rewrite E1, E4. Qed.
Lemma cache_step_cval s n' k : cache_step (nm s) n' -> cval (s <| nm := n' |>) k = cval s k.
Proof. intros E. unfold cval, pval. cbn. by rewrite (cache_step_addr _ _ _ E). Qed.
Lemma nval_nid s nid : nat_ok s -> ni_nid (nval s nid) = nid.
Proof. intros W. unfold nval. destruct (nat_root (nc (nm s)) !! nid) as [e|] eqn:E; [|done]. by apply (ck_nid _ _ (no_cache _ W) nid e E). Qed.
Lemma raw_info n r : raw_nat_from_node_info (node_info_from_raw_nat n r) = r.
Proof. by destruct r. Qed.
Lemma info_raw n : node_info_from_raw_nat (mk_ni (ni_nid n) 0 0 0) (raw_nat_from_node_info n) = n.
Proof. by destruct n. Qed.
(** A cache step whose entries are all right keeps [nat_ok]. *)
Lemma cache_step_ok s n' : nat_ok s -> cache_step (nm s) n' -> cache_ok (max_nid (nm s)) (nc n') ->
  (forall nid e, nat_root (nc n') !! nid = Some e -> get_nat_flag e IS_DIRTY = false -> raw_nat_from_node_info (ni e) = cval s nid) ->
  nat_ok (s <| nm := n' |>).
Proof.
  intros W F Hc Hv. destruct W as [W1 W2 W3 W4 W5 W7 W6]. split.
  - by apply (cache_step_geom (nm s)).
  - cbn. by rewrite (cs_max _ _ F).
  - cbn. by rewrite (cs_max _ _ F).
  - intros nid e He Hd. rewrite cache_step_cval by done. by apply Hv.
  - intros nid. cbn. rewrite (cs_max _ _ F). intros Hn. rewrite cache_step_cval by done. by apply W5.
  - intros nid. cbn. rewrite (cs_max _ _ F). intros Hn. unfold pval. rewrite (cache_step_addr _ _ _ F). by apply W7.
  - intros nid. cbn. rewrite (cs_max _ _ F). intros Hn. rewrite (cache_step_addr _ _ _ F). by apply W6.
Qed.
Lemma clean_cval s nid e : nat_ok s -> nat_root (nc (nm s)) !! nid = Some e -> get_nat_flag e IS_DIRTY = false -> rn_block_addr (cval s nid) = ni_blk (ni e).
Proof. intros W He Hd. by rewrite <- (no_clean _ W nid e He Hd). Qed.
Lemma bug_on_false n b : b = false -> bug_on b n = n.
Proof. intros ->. by destruct n. Qed.

(** ** Reading *)

Lemma get_node_info_ok alloc_ok nid s : nat_ok s -> 0 < nid < max_nid (nm s) ->
  exists n', f2fs_get_node_info sbi alloc_ok nid s = (nval s nid, s <| nm := n' |>) /\ cache_step (nm s) n' /\ nat_ok (s <| nm := n' |>) /\
    (forall k, nval (s <| nm := n' |>) k = nval s k) /\ (forall k, dirty (nc n') k = dirty (nc (nm s)) k) /\ (steady s -> steady (s <| nm := n' |>)) /\
    (forall k, f2fs_is_checkpointed_node (nc n') k = f2fs_is_checkpointed_node (nc (nm s)) k).
Proof.
  intros W Hnid. unfold f2fs_get_node_info, __lookup_nat_cache. destruct (nat_root (nc (nm s)) !! nid) as [e|] eqn:He.
  - exists (nm s). assert (s <| nm := nm s |> = s) as -> by (by destruct s). split; [|by split_and!].
    unfold nval. rewrite He. f_equal. destruct (ck_nid _ _ (no_cache _ W) nid e He) as [E _]. destruct (ni e). cbn in *. by subst.
  - set (ne := if 0 <=? _ then _ else _). assert (ne = cval s nid) as ->.
    { unfold ne, cval, jval, lookup_nat_journal. cbn [andb]. destruct (Z.leb_spec 0 (find_in_cursum (nats_in_cursum (njnl s)) nid 0)) as [Hf|Hf]; cbn [fst].
      - by rewrite (proj2 (Z.leb_le _ _) Hf).
      - done. }
    eexists. split; [unfold nval; rewrite He; reflexivity|]. unfold cache_nat_entry, __lookup_nat_cache. rewrite He.
    destruct alloc_ok; [|assert (s <| nm := nm s |> = s) as -> by (by destruct s); by split_and!].
    set (c := __init_nat_entry nid (Some (cval s nid)) (nc (nm s))).
    change ((nm s) <| nc ::= __init_nat_entry nid (Some (cval s nid)) |>) with ((nm s) <| nc := c |>).
    pose proof (init_root nid (Some (cval s nid)) (nc (nm s))) as Hroot. fold c in Hroot.
    assert (cache_step (nm s) ((nm s) <| nc := c |>)) as F by done. split; [done|].
    assert (forall k e, nat_root c !! k = Some e -> (k = nid /\ e = (new_nat_entry nid) <| ni := node_info_from_raw_nat (mk_ni nid 0 0 0) (cval s nid) |>) \/
        nat_root (nc (nm s)) !! k = Some e) as Hcase.
    { intros k e. rewrite Hroot. destruct (decide (k = nid)); [intros [= <-]; by left|by right]. }
    split_and!.
    + apply cache_step_ok; [done|done| |].
      * apply init_entry_ok; [apply no_cache, W|done|lia|]. apply (no_new _ W). lia.
      * intros k e [[-> ->]|He2]%Hcase Hd; [apply raw_info|by apply (no_clean _ W)].
    + intros k. unfold nval. rewrite cache_step_cval by done. cbn [nm upd nc]. rewrite Hroot. destruct (decide (k = nid)) as [->|]; [|done]. by rewrite He.
    + intros k. unfold dirty. cbn [nc upd]. rewrite Hroot. destruct (decide (k = nid)) as [->|]; [|done]. rewrite He. by rewrite get_flag_info, new_entry_flags.
    + intros S k e He2 Hd Hk. rewrite cache_step_cval by done. apply Hcase in He2 as [[-> ->]|He2]; [|by apply S].
      by rewrite get_flag_info, new_entry_flags in Hd.
    + intros k. unfold f2fs_is_checkpointed_node, __lookup_nat_cache. cbn [nc upd]. rewrite Hroot. destruct (decide (k = nid)) as [->|]; [|done].
      rewrite He. by rewrite get_flag_info, new_entry_flags.
Qed.

(** ** Evicting clean entries *)

Lemma free_nats_ok nr s : nat_ok s ->
  exists rest c', free_nats nr (nc (nm s)) = (rest, c') /\ let s' := s <| nm := (nm s) <| nc := c' |> |> in
    nat_ok s' /\ (forall k, nval s' k = nval s k) /\ (forall k, dirty c' k = dirty (nc (nm s)) k) /\ (steady s -> steady s') /\
    (forall k, f2fs_is_checkpointed_node c' k = f2fs_is_checkpointed_node (nc (nm s)) k).
Proof.
  assert (forall s : nat_store, s <| nm := (nm s) <| nc := nc (nm s) |> |> = s) as Hid by (intros [[] ? ?]; done).
  revert s. induction nr as [|nr IH]; intros s W; cbn [free_nats]; [eexists _, _; split; [done|]; cbv zeta; rewrite Hid; by split_and!|].
  destruct (nat_entries (nc (nm s))) as [|nid l] eqn:El; [eexists _, _; split; [done|]; cbv zeta; rewrite Hid; by split_and!|].
  assert (nid ∈ nat_entries (nc (nm s))) as Hin by (rewrite El; by left).
  destruct (del_clean_ok _ nid (nc (nm s)) (no_cache _ W) Hin) as [Wc Hroot]. set (c := __del_from_nat_cache nid (nc (nm s))) in *.
  destruct (proj1 (ck_clean _ _ (no_cache _ W) nid) Hin) as [[e He] Hcl]. assert (get_nat_flag e IS_DIRTY = false) as Hd by (unfold dirty in Hcl; by rewrite He in Hcl).
  set (s1 := s <| nm := (nm s) <| nc := c |> |>). assert (cache_step (nm s) ((nm s) <| nc := c |>)) as F by done.
  assert (forall k e, nat_root c !! k = Some e -> nat_root (nc (nm s)) !! k = Some e) as Hsub by (intros k x; rewrite Hroot; by destruct (decide _)).
  assert (nat_ok s1) as W1 by (apply cache_step_ok; [done..|]; intros k x Hx; apply (no_clean _ W), Hsub, Hx).
  assert (forall k, nval s1 k = nval s k) as N1.
  { intros k. unfold nval. unfold s1 at 2. rewrite cache_step_cval by done. cbn [nm upd nc s1]. rewrite Hroot. destruct (decide (k = nid)) as [->|]; [|done].
    rewrite He, <- (no_clean _ W nid e He Hd). pose proof (info_raw (ni e)) as E. by rewrite (proj1 (ck_nid _ _ (no_cache _ W) nid e He)) in E. }
  assert (forall k, dirty c k = dirty (nc (nm s)) k) as D1.
  { intros k. unfold dirty. rewrite Hroot. destruct (decide (k = nid)) as [->|]; [|done]. by rewrite He, Hd. }
  assert (steady s -> steady s1) as S1.
  { intros S k x Hx Hdx Hkx. unfold s1. rewrite cache_step_cval by done. by apply (S k x (Hsub k x Hx)). }
  assert (forall k, f2fs_is_checkpointed_node c k = f2fs_is_checkpointed_node (nc (nm s)) k) as P1.
  { intros k. unfold f2fs_is_checkpointed_node, __lookup_nat_cache. rewrite Hroot. destruct (decide (k = nid)) as [->|]; [|done]. rewrite He.
    by rewrite (ck_ckpt _ _ (no_cache _ W) nid e He Hd). }
  destruct (IH s1 W1) as (rest & c' & E & R1 & R2 & R3 & R4 & R5). exists rest, c'. split; [exact E|]. cbv zeta in *.
  change (s1 <| nm := (nm s1) <| nc := c' |> |>) with (s <| nm := (nm s) <| nc := c' |> |>) in *. split_and!; [done|..].
  - intros k. by rewrite R2.
  - intros k. rewrite R3. apply D1.
  - auto.
  - intros k. rewrite R5. apply P1.
Qed.

(** ** Changing the address of a node *)

Definition moved_info (info : node_info) (new_blkaddr : Z) : node_info :=
  mk_ni (ni_nid info) (ni_ino info) new_blkaddr
    (if negb (ni_blk info =? NEW_ADDR) && (new_blkaddr =? NULL_ADDR) then u8 (ni_version info + 1) else ni_version info).
Definition moved_entry (e : nat_entry) (new_blkaddr : Z) : nat_entry :=
  let e := e <| ni ::= fun i => moved_info i new_blkaddr |> in
  if negb (is_valid_blkaddr new_blkaddr) then set_nat_flag IS_CHECKPOINTED false e else e.
Lemma insert_alter_root (f : nat_entry -> nat_entry) nid e (m : gmap Z nat_entry) : <[nid := e]> (alter f nid m) = <[nid := e]> m.
Proof.
  apply map_eq. intros k. destruct (decide (k = nid)) as [->|]; [by rewrite !lookup_insert_eq|].
  by rewrite !lookup_insert_ne, lookup_alter_ne.
Qed.
Lemma root_ext (f g : gmap Z nat_entry -> gmap Z nat_entry) c : f (nat_root c) = g (nat_root c) -> c <| nat_root ::= f |> = c <| nat_root ::= g |>.
Proof.
  intros E. destruct c as [m a b d e]. cbn in E. change (mk_nc (f m) a b d e = mk_nc (g m) a b d e). by rewrite E.
Qed.
Lemma moved_entry_eq info e new_blkaddr : ni e = info ->
  (let e := if negb (ni_blk info =? NEW_ADDR) && (new_blkaddr =? NULL_ADDR) then e <| ni ::= fun x => x <| ni_version ::= fun v => u8 (v + 1) |> |> else e in
   let e := e <| ni ::= fun x => x <| ni_blk := new_blkaddr |> |> in
   if negb (is_valid_blkaddr new_blkaddr) then set_nat_flag IS_CHECKPOINTED false e else e) = moved_entry e new_blkaddr.
Proof.
  intros <-. destruct e as [i f]. unfold moved_entry. cbv zeta.
  assert ((mk_ne i f) <| ni ::= fun i => moved_info i new_blkaddr |> = mk_ne (moved_info i new_blkaddr) f) as -> by done. unfold moved_info. cbn [ni].
  by destruct (negb (ni_blk i =? NEW_ADDR) && (new_blkaddr =? NULL_ADDR)).
Qed.
(** With the entry in the cache and the caller right about the old address, no
    check fires, and the entry is moved, dirtied and marked. *)
Lemma set_node_addr_entry info new_blkaddr fsync n nid c0 e0 :
  ni_nid info = nid ->
  (match nat_root (nc n) !! nid with
   | None => c0 = __init_nat_entry nid (Some (raw_nat_from_node_info info)) (nc n) /\ ni_blk info <> NEW_ADDR
   | Some _ => c0 = (nc n) /\ (new_blkaddr = NEW_ADDR -> ni_blk info = NULL_ADDR)
   end) ->
  nat_root c0 !! nid = Some e0 -> (new_blkaddr <> NEW_ADDR -> ni e0 = info) -> (new_blkaddr = NEW_ADDR -> ni_blk info = NULL_ADDR) ->
  (new_blkaddr = NULL_ADDR -> ni_blk info <> NULL_ADDR) ->
  exists ino mark, (forall e, ni (mark e) = ni e /\ forall t, 0 <= t < 8 -> t <> HAS_FSYNCED_INODE -> t <> HAS_LAST_FSYNC -> get_nat_flag (mark e) t = get_nat_flag e t) /\
    set_node_addr info new_blkaddr fsync n = n <| nc := (__set_nat_cache_dirty nid
      (c0 <| nat_root ::= <[nid := moved_entry (e0 <| ni := info |>) new_blkaddr]> |>)) <| nat_root ::= alter mark ino |> |>.
Proof.
  intros Hnid Hc He0 Hsame Hnew Hnull. pose proof null_new as Hnn.
  set (e1 := e0 <| ni := info |>).
  assert (exists n1, set_node_addr info new_blkaddr fsync n = 
      match __lookup_nat_cache (nc n1) nid with
      | None => n1
      | Some e =>
        let blk := ni_blk (ni e) in
        let n := bug_on (negb (blk =? ni_blk info)) n1 in
        let n := bug_on ((blk =? NULL_ADDR) && (new_blkaddr =? NULL_ADDR)) n in
        let n := bug_on ((blk =? NEW_ADDR) && (new_blkaddr =? NEW_ADDR)) n in
        let n := bug_on (is_valid_blkaddr blk && (new_blkaddr =? NEW_ADDR)) n in
        let e := if negb (blk =? NEW_ADDR) && (new_blkaddr =? NULL_ADDR)
                 then e <| ni ::= fun x => x <| ni_version ::= fun v => u8 (v + 1) |> |> else e in
        let e := e <| ni ::= fun x => x <| ni_blk := new_blkaddr |> |> in
        let e := if negb (is_valid_blkaddr new_blkaddr) then set_nat_flag IS_CHECKPOINTED false e else e in
        let c := __set_nat_cache_dirty nid ((nc n) <| nat_root ::= <[nid := e]> |>) in
        let fsync := fun e => set_nat_flag HAS_LAST_FSYNC fsync
                       (if fsync && (nid =? ni_ino info) then set_nat_flag HAS_FSYNCED_INODE true e else e) in
        n <| nc := c <| nat_root ::= alter fsync (if nid =? ni_ino info then nid else ni_ino info) |> |>
      end /\ nat_root (nc n1) !! nid = Some e1 /\ (forall e, (nc n1) <| nat_root ::= <[nid := e]> |> = c0 <| nat_root ::= <[nid := e]> |>) /\
      (forall c, n1 <| nc := c |> = n <| nc := c |>)) as (n1 & -> & E1 & E2 & E3).
  { unfold set_node_addr, __lookup_nat_cache. rewrite Hnid. destruct (nat_root (nc n) !! nid) as [e|] eqn:He.
    - destruct Hc as [-> _]. rewrite He in He0. injection He0 as ->. destruct (Z.eqb_spec new_blkaddr NEW_ADDR) as [Eb|Eb].
      + rewrite bug_on_false by (rewrite Hnew by done; by rewrite Z.eqb_refl). eexists. split; [reflexivity|]. cbn [nc nat_root upd].
        split; [by rewrite lookup_alter_eq, He|]. split; [|by destruct n]. intros e.
        exact (root_ext (fun m => <[nid := e]> (alter (fun e2 => e2 <| ni := info |>) nid m)) (insert nid e) (nc n) (insert_alter_root _ nid e _)).
      + exists n. split; [done|]. split; [rewrite He; unfold e1; rewrite <- (Hsame Eb); by destruct e0|]. split; [done|by destruct n].
    - destruct Hc as [-> Hb]. rewrite bug_on_false by by apply Z.eqb_neq. eexists. split; [reflexivity|]. cbn [nc nat_root upd __init_nat_entry].
      rewrite init_root in He0. destruct (decide (nid = nid)); [|done]. injection He0 as <-.
      split; [rewrite lookup_alter_eq, lookup_insert_eq; unfold e1; done|]. split; [|by destruct n].
      clear e. intros e. set (x := new_nat_entry nid).
      change ((nc n) <| nat_root ::= fun m => <[nid := e]> (alter (fun e2 => e2 <| ni := info |>) nid (<[nid := x]> m)) |>
                     <| nat_entries ::= fun l => l ++ [nid] |> <| nat_cnt ::= fun n => u32 (n + 1) |> =
              (nc n) <| nat_root ::= fun m => <[nid := e]> (<[nid := x <| ni := node_info_from_raw_nat (mk_ni nid 0 0 0) (raw_nat_from_node_info info) |>]> m) |>
                     <| nat_entries ::= fun l => l ++ [nid] |> <| nat_cnt ::= fun n => u32 (n + 1) |>).
      rewrite (root_ext _ (fun m => <[nid := e]> (<[nid := x <| ni := node_info_from_raw_nat (mk_ni nid 0 0 0) (raw_nat_from_node_info info) |>]> m))); [done|].
      by rewrite insert_alter_root, !insert_insert_eq. }
  unfold __lookup_nat_cache. rewrite E1. pose proof (moved_entry_eq info e1 new_blkaddr eq_refl) as Em. cbv zeta in Em |- *. change (ni e1) with info.
  rewrite !bug_on_false; [| | | |].
  - rewrite Em, E2, E3. eexists _, _. split; [|reflexivity].
    + intros e. split.
      * rewrite set_flag_info. by destruct (fsync && _); rewrite ?set_flag_info.
      * intros t Ht Ht1 Ht2. rewrite get_set_flag by done. rewrite (proj2 (Z.eqb_neq t _)) by done.
        destruct (fsync && _); [|done]. rewrite get_set_flag by done. by rewrite (proj2 (Z.eqb_neq t _)).
  - apply negb_false_iff, Z.eqb_refl.
  - apply andb_false_iff. destruct (Z.eqb_spec new_blkaddr NULL_ADDR); [left; apply Z.eqb_neq; auto|by right].
  - apply andb_false_iff. destruct (Z.eqb_spec new_blkaddr NEW_ADDR); [left; apply Z.eqb_neq; rewrite Hnew by done; done|by right].
  - apply andb_false_iff. destruct (Z.eqb_spec new_blkaddr NEW_ADDR); [left|by right]. rewrite Hnew by done. unfold is_valid_blkaddr.
    by rewrite Z.eqb_refl, orb_true_r.
Qed.
Lemma moved_entry_spec e new_blkaddr : ni (moved_entry e new_blkaddr) = moved_info (ni e) new_blkaddr /\
  get_nat_flag (moved_entry e new_blkaddr) IS_DIRTY = get_nat_flag e IS_DIRTY /\
  get_nat_flag (moved_entry e new_blkaddr) IS_PREALLOC = get_nat_flag e IS_PREALLOC /\
  get_nat_flag (moved_entry e new_blkaddr) IS_CHECKPOINTED = is_valid_blkaddr new_blkaddr && get_nat_flag e IS_CHECKPOINTED.
Proof.
  unfold moved_entry. cbv zeta. destruct (is_valid_blkaddr new_blkaddr); cbn [negb andb]; [by split_and!|].
  rewrite set_flag_info. split_and!; [done|..]; by flags.
Qed.
Definition may_set (s : nat_store) (info : node_info) (new_blkaddr : Z) : Prop :=
  0 < ni_nid info < max_nid (nm s) /\
  (new_blkaddr <> NEW_ADDR /\ info = nval s (ni_nid info) /\ ni_blk info <> NULL_ADDR \/
   new_blkaddr = NEW_ADDR /\ ni_blk info = NULL_ADDR /\ dirty (nc (nm s)) (ni_nid info) = false).
Lemma set_node_addr_ok info new_blkaddr fsync s (n' := set_node_addr info new_blkaddr fsync (nm s)) :
  nat_ok s -> steady s -> may_set s info new_blkaddr ->
  cache_step (nm s) n' /\ nat_ok (s <| nm := n' |>) /\ steady (s <| nm := n' |>) /\
  (forall k, nval (s <| nm := n' |>) k = if k =? ni_nid info then moved_info info new_blkaddr else nval s k) /\
  (forall k, dirty (nc n') k = (k =? ni_nid info) || dirty (nc (nm s)) k) /\
  is_Some (nat_root (nc n') !! ni_nid info) /\
  (forall k, f2fs_is_checkpointed_node (nc n') k =
     (negb (k =? ni_nid info) || is_valid_blkaddr new_blkaddr) && f2fs_is_checkpointed_node (nc (nm s)) k).
Proof.
  intros W S [Hr Hcase]. pose proof null_new as Hnn. set (nid := ni_nid info) in *. pose proof (no_cache _ W) as Wc.
  set (c0 := match nat_root (nc (nm s)) !! nid with None => __init_nat_entry nid (Some (raw_nat_from_node_info info)) (nc (nm s)) | Some _ => nc (nm s) end).
  assert (forall e, nat_root (nc (nm s)) !! nid = Some e -> nval s nid = ni e) as Hval by (intros e He; unfold nval; by rewrite He).
  assert (nat_root (nc (nm s)) !! nid = None -> ni_blk info <> NEW_ADDR) as Hinit.
  { intros He. destruct Hcase as [(_ & E & _)|(_ & -> & _)]; [|done]. rewrite E. unfold nval. rewrite He. apply (no_new _ W). lia. }
  assert (cache_ok (max_nid (nm s)) c0) as Wc0.
  { unfold c0. destruct (nat_root (nc (nm s)) !! nid) eqn:He; [done|]. apply init_entry_ok; [done..|]. by apply Hinit. }
  assert (exists e0, nat_root c0 !! nid = Some e0 /\ (new_blkaddr <> NEW_ADDR -> ni e0 = info) /\
    (nat_root (nc (nm s)) !! nid = Some e0 \/ get_nat_flag e0 IS_DIRTY = false /\ nat_root (nc (nm s)) !! nid = None) /\
    (new_blkaddr = NEW_ADDR -> get_nat_flag e0 IS_DIRTY = false)) as (e0 & He0 & Hsame & Hold & Hclean).
  { unfold c0. destruct (nat_root (nc (nm s)) !! nid) as [e|] eqn:He.
    - exists e. split; [done|]. split; [intros Hb; destruct Hcase as [(_ & E2 & _)|[? _]]; [rewrite E2; symmetry; by apply Hval|done]|]. split; [by left|].
      intros Hb. destruct Hcase as [[? _]|(_ & _ & D)]; [done|]. unfold dirty in D. by rewrite He in D.
    - eexists. rewrite init_root, decide_True by done. split; [reflexivity|]. split; [intros _; apply info_raw|].
      assert (get_nat_flag ((new_nat_entry nid) <| ni := node_info_from_raw_nat (mk_ni nid 0 0 0) (raw_nat_from_node_info info) |>) IS_DIRTY = false) as E
        by by rewrite get_flag_info, new_entry_flags.
      split; [by right|by intros _]. }
  assert (forall k, k <> nid -> nat_root c0 !! k = nat_root (nc (nm s)) !! k) as Hoth.
  { intros k Hk. unfold c0. destruct (nat_root (nc (nm s)) !! nid); [done|]. rewrite init_root. by rewrite decide_False. }
  destruct (set_node_addr_entry info new_blkaddr fsync (nm s) nid c0 e0) as (ino & mark & Hmark & E); [done| |done|done|..].
  { unfold c0. destruct (nat_root (nc (nm s)) !! nid) eqn:He; [|split; [done|by apply Hinit]]. split; [done|].
    intros Hb. by destruct Hcase as [[? _]|(_ & ? & _)]. }
  { intros Hb. by destruct Hcase as [[? _]|(_ & ? & _)]. }
  { intros Hb. destruct Hcase as [(_ & _ & ?)|[? _]]; congruence. }
  unfold n'. rewrite E. clear n'. set (e := moved_entry (e0 <| ni := info |>) new_blkaddr).
  destruct (moved_entry_spec (e0 <| ni := info |>) new_blkaddr) as (M1 & M2 & M3 & M4). fold e in M1, M2, M3, M4. change (ni (e0 <| ni := info |>)) with info in M1.
  rewrite !get_flag_info in M2, M3, M4.
  pose proof (set_dirty_ok _ c0 nid e0 e Wc0 He0) as Wd. destruct (set_dirty_root nid e c0) as (e' & (D1 & D2 & D3 & D4) & Hroot).
  set (c1 := __set_nat_cache_dirty nid _) in *. set (c2 := c1 <| nat_root ::= alter mark ino |>).
  assert (cache_ok (max_nid (nm s)) c1) as W1.
  { apply Wd; [rewrite M1; done|done|done|]. intros Hb. left. rewrite M1 in Hb. by apply Hclean. }
  assert (forall e, ni (mark e) = ni e /\ get_nat_flag (mark e) IS_DIRTY = get_nat_flag e IS_DIRTY /\
    get_nat_flag (mark e) IS_PREALLOC = get_nat_flag e IS_PREALLOC /\ get_nat_flag (mark e) IS_CHECKPOINTED = get_nat_flag e IS_CHECKPOINTED) as Hm.
  { intros x. destruct (Hmark x) as [? F]. split_and!; [done|by apply F..]. }
  assert (cache_ok (max_nid (nm s)) c2) as W2 by by apply alter_flag_ok.
  assert (forall k x2, nat_root c2 !! k = Some x2 -> exists x, (if decide (k = nid) then x = e' else nat_root (nc (nm s)) !! k = Some x) /\ ni x2 = ni x /\
     get_nat_flag x2 IS_DIRTY = get_nat_flag x IS_DIRTY /\ get_nat_flag x2 IS_CHECKPOINTED = get_nat_flag x IS_CHECKPOINTED) as Hback.
  { intros k x2 Hx. unfold c2 in Hx. cbn in Hx. destruct (decide (k = ino)) as [->|Hk].
    - rewrite lookup_alter_eq, Hroot in Hx. destruct (decide (ino = nid)) as [->|Hn].
      + injection Hx as <-. exists e'. destruct (Hm e') as (? & ? & _ & ?). by split_and!.
      + rewrite Hoth in Hx by done. destruct (nat_root (nc (nm s)) !! ino) as [x|]; [|done]. injection Hx as <-. exists x. destruct (Hm x) as (? & ? & _ & ?). by split_and!.
    - rewrite lookup_alter_ne, Hroot in Hx by done. destruct (decide (k = nid)) as [->|Hn]; [injection Hx as <-; exists e'; by split_and!|].
      rewrite Hoth in Hx by done. exists x2. by split_and!. }
  assert (forall k, is_Some (nat_root c2 !! k) <-> k = nid \/ is_Some (nat_root (nc (nm s)) !! k)) as Hdom.
  { intros k. unfold c2. cbn. assert (is_Some (alter mark ino (nat_root c1) !! k) <-> is_Some (nat_root c1 !! k)) as ->
      by (destruct (decide (k = ino)) as [->|]; [rewrite lookup_alter_eq; apply fmap_is_Some|by rewrite lookup_alter_ne]).
    rewrite Hroot. destruct (decide (k = nid)) as [->|]; [split; [by left|by eexists]|]. rewrite Hoth by done. split; [by right|by intros [?|?]]. }
  set (n' := (nm s) <| nc := c2 |>). assert (cache_step (nm s) n') as F by done. split; [done|].
  assert (forall k x, nat_root c2 !! k = Some x -> k <> nid -> exists y, nat_root (nc (nm s)) !! k = Some y /\ ni x = ni y /\
     get_nat_flag x IS_DIRTY = get_nat_flag y IS_DIRTY /\ get_nat_flag x IS_CHECKPOINTED = get_nat_flag y IS_CHECKPOINTED) as Hother.
  { intros k x Hx Hk. apply Hback in Hx as (y & Hy & ?). rewrite decide_False in Hy by done. by exists y. }
  assert (exists x, nat_root c2 !! nid = Some x /\ ni x = moved_info info new_blkaddr /\ get_nat_flag x IS_DIRTY = true /\
     get_nat_flag x IS_CHECKPOINTED = is_valid_blkaddr new_blkaddr && get_nat_flag e0 IS_CHECKPOINTED) as (x & Hx & X1 & X2 & X3).
  { destruct (proj2 (Hdom nid) (or_introl eq_refl)) as [x Hx]. exists x. split; [done|]. apply Hback in Hx as (y & Hy & -> & -> & ->).
    rewrite decide_True in Hy by done. subst y. by rewrite D1, D2, D4, M1, M4. }
  split_and!.
  - apply cache_step_ok; [done..|]. intros k y Hy Hd. destruct (decide (k = nid)) as [->|Hk].
    + change (nat_root c2 !! nid = Some y) in Hy. rewrite Hx in Hy. injection Hy as <-. congruence.
    + destruct (Hother k y Hy Hk) as (z & Hz & -> & Ez & _). apply (no_clean _ W); [done|congruence].
  - intros k y Hy Hd Hk. rewrite cache_step_cval by done. change (nat_root c2 !! k = Some y) in Hy. destruct (decide (k = nid)) as [->|Hne].
    + rewrite Hx in Hy. injection Hy as <-. rewrite X3 in Hk. apply andb_true_iff in Hk as [Hv Hk]. rewrite X1. cbn [moved_info ni_blk].
      assert (new_blkaddr <> NEW_ADDR /\ new_blkaddr <> NULL_ADDR) as [Hb1 Hb2].
      { unfold is_valid_blkaddr in Hv. destruct (Z.eqb_spec new_blkaddr NEW_ADDR), (Z.eqb_spec new_blkaddr NULL_ADDR); done. }
      split; [done|]. destruct Hcase as [(_ & Ei & Hi)|[? _]]; [|done]. destruct Hold as [Ho|[_ Ho]].
      * destruct (get_nat_flag e0 IS_DIRTY) eqn:Ed; [by apply (S nid e0)|]. rewrite (clean_cval s nid e0) by done. by rewrite Hsame.
      * rewrite Ei in Hi. unfold nval in Hi. by rewrite Ho in Hi.
    + destruct (Hother k y Hy Hne) as (z & Hz & -> & Ez & Ec). apply (S k z); [done|congruence..].
  - intros k. destruct (Z.eqb_spec k nid) as [->|Hk]; [unfold nval; change (nat_root (nc (nm (s <| nm := n' |>)))) with (nat_root c2); by rewrite Hx|].
    unfold nval at 1. change (nat_root (nc (nm (s <| nm := n' |>)))) with (nat_root c2). destruct (nat_root c2 !! k) as [y|] eqn:Hy.
    + destruct (Hother k y Hy Hk) as (z & Hz & -> & _). unfold nval. by rewrite Hz.
    + rewrite cache_step_cval by done. unfold nval. destruct (nat_root (nc (nm s)) !! k) eqn:Hz; [|done].
      assert (is_Some (nat_root c2 !! k)) as [? ?] by (apply Hdom; right; by eexists). congruence.
  - intros k. unfold dirty. change (nat_root (nc n')) with (nat_root c2). destruct (Z.eqb_spec k nid) as [->|Hk]; [by rewrite Hx, X2|].
    destruct (nat_root c2 !! k) as [y|] eqn:Hy.
    + destruct (Hother k y Hy Hk) as (z & Hz & _ & -> & _). by rewrite Hz.
    + destruct (nat_root (nc (nm s)) !! k) eqn:Hz; [|done]. assert (is_Some (nat_root c2 !! k)) as [? ?] by (apply Hdom; right; by eexists). congruence.
  - by eexists.
  - assert (get_nat_flag e0 IS_CHECKPOINTED = f2fs_is_checkpointed_node (nc (nm s)) nid) as Ec0.
    { unfold f2fs_is_checkpointed_node, __lookup_nat_cache. destruct Hold as [-> |[Hd0 ->]]; [done|]. by apply (ck_ckpt _ _ Wc0 nid e0). }
    intros k. unfold f2fs_is_checkpointed_node at 1, __lookup_nat_cache. change (nat_root (nc n')) with (nat_root c2). destruct (Z.eqb_spec k nid) as [->|Hne].
    + by rewrite Hx, X3, Ec0.
    + cbn [negb orb andb]. unfold f2fs_is_checkpointed_node, __lookup_nat_cache. destruct (nat_root c2 !! k) as [y|] eqn:Hy.
      * destruct (Hother k y Hy Hne) as (z & -> & _ & _ & ->). done.
      * destruct (nat_root (nc (nm s)) !! k) eqn:Hz; [|done]. assert (is_Some (nat_root c2 !! k)) as [? ?] by (apply Hdom; right; by eexists). congruence.
Qed.
End store.
