(* ===== verification/FreeNid.v ===== *)
(** * Free node ids: the list, the per-block bitmaps and how they are filled

    [fn_ok] is the shape of the structures alone.  What they say about the NAT
    is stated with [qidle]: a nid the NAT has as free, now and at the last
    checkpoint. *)
From stdpp Require Import gmap.
From S2P Require Import Prelude Geometry F2fsBits Sit SitFlush NatMgr NatCache NatStore.
Open Scope Z_scope.

Section shape.
Context `{NatFormatOk}.
#[local] Abbreviation EPB := NAT_ENTRY_PER_BLOCK.
#[local] Abbreviation block := NAT_BLOCK_OFFSET.
Context (max nb : Z) (Hmax : max = EPB * nb) (Hmax32 : max + EPB < 4294967295) (Hnb : 0 < nb).

Definition scanned (f : free_nids) (b : Z) : bool := test_bit b (nat_block_bitmap f).
Definition free_bit (f : free_nids) (nid : Z) : bool := test_bit (nid - START_NID nid) (free_nid_bitmap f).[block nid].
Record fn_ok (f : free_nids) : Prop := {
  fo_root nid st : free_nid_root f !! nid = Some st -> 0 < nid < max;
  fo_nodup : NoDup (free_nid_list f);
  fo_list nid : nid ∈ free_nid_list f <-> free_nid_root f !! nid = Some FREE_NID;
  fo_cnt : cnt_free f = zlen (free_nid_list f);
  fo_len : zlen (free_nid_bitmap f) = nb /\ zlen (free_nid_count f) = nb;
  fo_count b : 0 <= b < nb -> (free_nid_count f).[b] = count_upto (fun k => test_bit k (free_nid_bitmap f).[b]) (Z.to_nat EPB);
  fo_unscanned nid : 0 <= nid < max -> scanned f (block nid) = false -> free_bit f nid = false;
}.
Lemma nid_block nid : 0 <= nid < max -> 0 <= block nid < nb.
Proof. intros Hn. pose proof nents_range. unfold NAT_BLOCK_OFFSET. split; [apply Z.div_pos; lia|apply Z.div_lt_upper_bound; lia]. Qed.
Lemma cnt_range f : fn_ok f -> 0 <= zlen (free_nid_list f) < 4294967295.
Proof.
  intros W. split; [apply zlen_nonneg|]. pose proof nents_range. pose proof (count_upto_range (fun _ => true) (Z.to_nat max)).
  enough (zlen (free_nid_list f) <= count_upto (fun _ => true) (Z.to_nat max)) by nia. apply nodup_count; [apply W|].
  intros k Hk. apply (fo_list _ W) in Hk. pose proof (fo_root _ W k _ Hk). split; [lia|done].
Qed.
(** What an operation does to the tree, everything else kept *)
Record retree (f f' : free_nids) (r : Z -> option nid_state) : Prop := {
  rt_root k : free_nid_root f' !! k = r k;
  rt_bits : free_nid_bitmap f' = free_nid_bitmap f; rt_count : free_nid_count f' = free_nid_count f;
  rt_blocks : nat_block_bitmap f' = nat_block_bitmap f; rt_avail : available_nids f' = available_nids f;
  rt_next : next_scan_nid f' = next_scan_nid f;
}.
Lemma retree_ok f f' r : fn_ok f -> retree f f' r -> (forall k st, r k = Some st -> 0 < k < max) ->
  NoDup (free_nid_list f') -> (forall k, k ∈ free_nid_list f' <-> r k = Some FREE_NID) -> cnt_free f' = zlen (free_nid_list f') -> fn_ok f'.
Proof.
  intros W [R1 R2 R3 R4 _ _] Hr N L C. split; [intros k st; rewrite R1; apply Hr|done|intros k; by rewrite R1|done|..].
  - rewrite R2, R3. apply W.
  - rewrite R2, R3. apply W.
  - intros k. unfold scanned, free_bit. rewrite R2, R4. apply (fo_unscanned _ W).
Qed.
Lemma insert_free_ok nid f : fn_ok f -> 0 < nid < max -> free_nid_root f !! nid = None ->
  let f' := snd (__insert_free_nid nid FREE_NID f) in
  fn_ok f' /\ retree f f' (fun k => if k =? nid then Some FREE_NID else free_nid_root f !! k) /\ cnt_free f' = cnt_free f + 1.
Proof.
  intros W Hn Hnone. cbv zeta. unfold __insert_free_nid. rewrite Hnone. cbn [snd]. set (f' := (count_nid FREE_NID 1 (f <| free_nid_root ::= <[nid := FREE_NID]> |>)) <| free_nid_list ::= fun l => l ++ [nid] |>).
  pose proof (cnt_range f W) as Hc. pose proof (fo_cnt _ W) as Ec.
  assert (cnt_free f' = cnt_free f + 1) as E1 by (cbn; rewrite u32_id; lia).
  assert (retree f f' (fun k => if k =? nid then Some FREE_NID else free_nid_root f !! k)) as R.
  { split; try done. intros k. cbn. destruct (Z.eqb_spec k nid) as [->|]; [by rewrite lookup_insert_eq|by rewrite lookup_insert_ne]. }
  split; [|done]. apply (retree_ok f f' _ W R).
  - intros k st. destruct (Z.eqb_spec k nid) as [->|]; [done|apply (fo_root _ W)].
  - cbn. apply list.NoDup_app. split; [apply W|]. split; [|apply NoDup_singleton]. intros k Hk ->%list_elem_of_singleton.
    apply (fo_list _ W) in Hk. congruence.
  - intros k. cbn. rewrite elem_of_app, list_elem_of_singleton, (fo_list _ W). destruct (Z.eqb_spec k nid) as [->|]; [split; [done|by right]|].
    split; [by intros [?|?]|by left].
  - rewrite E1, Ec. cbn. rewrite zlen_app. done.
Qed.
Lemma drop_free_list nid f (g : gmap Z nid_state -> gmap Z nid_state) :
  fn_ok f -> free_nid_root f !! nid = Some FREE_NID -> NoDup (filter (fun k => k <> nid) (free_nid_list f)) /\
    zlen (filter (fun k => k <> nid) (free_nid_list f)) = cnt_free f - 1 /\ 0 < cnt_free f.
Proof.
  intros W Hn. pose proof (proj2 (fo_list _ W nid) Hn) as Hin. pose proof (len_filter_ne _ nid (fo_nodup _ W) Hin) as E.
  pose proof (zlen_nonneg (filter (fun k => k <> nid) (free_nid_list f))). rewrite (fo_cnt _ W).
  split; [apply list.NoDup_filter, W|]. lia.
Qed.
Lemma remove_free_ok nid f : fn_ok f -> free_nid_root f !! nid = Some FREE_NID -> let f' := __remove_free_nid nid FREE_NID f in
  fn_ok f' /\ retree f f' (fun k => if k =? nid then None else free_nid_root f !! k) /\ cnt_free f' = cnt_free f - 1.
Proof.
  intros W Hn. destruct (drop_free_list nid f id W Hn) as (D1 & D2 & D3). pose proof (cnt_range f W). pose proof (fo_cnt _ W). cbv zeta.
  set (f' := __remove_free_nid nid FREE_NID f). assert (cnt_free f' = cnt_free f - 1) as E1 by (cbn; rewrite u32_id; lia).
  assert (retree f f' (fun k => if k =? nid then None else free_nid_root f !! k)) as R.
  { split; try done. intros k. cbn. destruct (Z.eqb_spec k nid) as [->|]; [by rewrite lookup_delete_eq|by rewrite lookup_delete_ne]. }
  split; [|done]. apply (retree_ok f f' _ W R).
  - intros k st. destruct (Z.eqb_spec k nid); [done|apply (fo_root _ W)].
  - done.
  - intros k. cbn. rewrite elem_filter_ne, (fo_list _ W). destruct (Z.eqb_spec k nid) as [->|]; [by split; [intros [? _]|]|]. split; [by intros [_ ?]|by split].
  - rewrite E1. cbn. by rewrite D2.
Qed.
Lemma remove_prealloc_ok nid f : fn_ok f -> free_nid_root f !! nid = Some PREALLOC_NID -> let f' := __remove_free_nid nid PREALLOC_NID f in
  fn_ok f' /\ retree f f' (fun k => if k =? nid then None else free_nid_root f !! k).
Proof.
  intros W Hn. cbv zeta. set (f' := __remove_free_nid nid PREALLOC_NID f).
  assert (retree f f' (fun k => if k =? nid then None else free_nid_root f !! k)) as R.
  { split; try done. intros k. cbn. destruct (Z.eqb_spec k nid) as [->|]; [by rewrite lookup_delete_eq|by rewrite lookup_delete_ne]. }
  split; [|done]. apply (retree_ok f f' _ W R); [|apply W| |apply W].
  - intros k st. destruct (Z.eqb_spec k nid); [done|apply (fo_root _ W)].
  - intros k. change (k ∈ free_nid_list f <-> (if k =? nid then None else free_nid_root f !! k) = Some FREE_NID). rewrite (fo_list _ W).
    destruct (Z.eqb_spec k nid) as [->|]; [|done]. rewrite Hn. by split.
Qed.
Lemma take_free_ok nid f : fn_ok f -> free_nid_root f !! nid = Some FREE_NID -> let f' := __move_free_nid nid FREE_NID PREALLOC_NID f in
  fn_ok f' /\ retree f f' (fun k => if k =? nid then Some PREALLOC_NID else free_nid_root f !! k) /\ cnt_free f' = cnt_free f - 1.
Proof.
  intros W Hn. destruct (drop_free_list nid f id W Hn) as (D1 & D2 & D3). pose proof (cnt_range f W). pose proof (fo_cnt _ W). cbv zeta.
  set (f' := __move_free_nid nid FREE_NID PREALLOC_NID f). assert (cnt_free f' = cnt_free f - 1) as E1 by (cbn; rewrite u32_id; lia).
  assert (retree f f' (fun k => if k =? nid then Some PREALLOC_NID else free_nid_root f !! k)) as R.
  { split; try done. intros k. cbn. destruct (Z.eqb_spec k nid) as [->|]; [by rewrite lookup_insert_eq|by rewrite lookup_insert_ne]. }
  split; [|done]. apply (retree_ok f f' _ W R).
  - intros k st. destruct (Z.eqb_spec k nid) as [->|]; [intros _; by apply (fo_root _ W nid FREE_NID)|apply (fo_root _ W)].
  - done.
  - intros k. cbn. rewrite elem_filter_ne, (fo_list _ W). destruct (Z.eqb_spec k nid) as [->|]; [by split; [intros [? _]|]|]. split; [by intros [_ ?]|by split].
  - rewrite E1. cbn. by rewrite D2.
Qed.
Lemma give_back_ok nid f : fn_ok f -> free_nid_root f !! nid = Some PREALLOC_NID -> let f' := __move_free_nid nid PREALLOC_NID FREE_NID f in
  fn_ok f' /\ retree f f' (fun k => if k =? nid then Some FREE_NID else free_nid_root f !! k) /\ cnt_free f' = cnt_free f + 1.
Proof.
  intros W Hn. pose proof (cnt_range f W). pose proof (fo_cnt _ W). cbv zeta.
  set (f' := __move_free_nid nid PREALLOC_NID FREE_NID f). assert (cnt_free f' = cnt_free f + 1) as E1 by (cbn; rewrite u32_id; lia).
  assert (retree f f' (fun k => if k =? nid then Some FREE_NID else free_nid_root f !! k)) as R.
  { split; try done. intros k. cbn. destruct (Z.eqb_spec k nid) as [->|]; [by rewrite lookup_insert_eq|by rewrite lookup_insert_ne]. }
  split; [|done]. apply (retree_ok f f' _ W R).
  - intros k st. destruct (Z.eqb_spec k nid) as [->|]; [intros _; by apply (fo_root _ W nid PREALLOC_NID)|apply (fo_root _ W)].
  - cbn. apply list.NoDup_app. split; [apply W|]. split; [|apply NoDup_singleton]. intros k Hk ->%list_elem_of_singleton.
    apply (fo_list _ W) in Hk. congruence.
  - intros k. cbn. rewrite elem_of_app, list_elem_of_singleton, (fo_list _ W). destruct (Z.eqb_spec k nid) as [->|]; [split; [done|by right]|].
    split; [by intros [?|?]|by left].
  - rewrite E1. cbn. rewrite zlen_app. change (zlen [nid]) with 1. lia.
Qed.

(** ** Bits *)

Record rebit (f f' : free_nids) (g : Z -> bool) : Prop := {
  rb_root : free_nid_root f' = free_nid_root f; rb_list : free_nid_list f' = free_nid_list f; rb_cnt : cnt_free f' = cnt_free f;
  rb_blocks : nat_block_bitmap f' = nat_block_bitmap f; rb_avail : available_nids f' = available_nids f;
  rb_next : next_scan_nid f' = next_scan_nid f;
  rb_bit k : 0 <= k < max -> free_bit f' k = g k;
}.
Lemma update_bitmap_ok nid set build f (f' := update_free_nid_bitmap nid set build f) : fn_ok f -> 0 <= nid < max ->
  (set = false -> build = true -> free_bit f nid = false) ->
  fn_ok f' /\ rebit f f' (fun k => if (k =? nid) && scanned f (block nid) then set else free_bit f k).
Proof.
  intros W Hn Hclear. unfold f', update_free_nid_bitmap. clear f'. cbv zeta. fold (free_bit f nid). pose proof (nid_block nid ltac:(lia)) as Hb.
  pose proof (offset_range nid) as Ho. pose proof nents_range. destruct (fo_len _ W) as [L1 L2].
  fold (scanned f (block nid)). destruct (scanned f (block nid)) eqn:Es; cbn [negb].
  2:{ split; [done|]. split; try done. intros k _. by rewrite andb_false_r. }
  assert (forall v, v = free_bit f nid -> fn_ok f /\ rebit f f (fun k => if (k =? nid) && true then v else free_bit f k)) as Hsame.
  { intros v ->. split; [done|]. split; try done. intros k _. rewrite andb_true_r. by destruct (Z.eqb_spec k nid) as [->|]. }
  assert (forall f' bits, (forall k, 0 <= k -> test_bit k bits = if k =? nid - START_NID nid then set else test_bit k (free_nid_bitmap f).[block nid]) ->
    set = negb (free_bit f nid) ->
    free_nid_root f' = free_nid_root f -> free_nid_list f' = free_nid_list f -> cnt_free f' = cnt_free f ->
    nat_block_bitmap f' = nat_block_bitmap f -> available_nids f' = available_nids f -> next_scan_nid f' = next_scan_nid f ->
    free_nid_bitmap f' = (free_nid_bitmap f).[block nid <- bits] ->
    free_nid_count f' = (free_nid_count f).[block nid <- u16 ((free_nid_count f).[block nid] + (if set then 1 else -1))] ->
    fn_ok f' /\ rebit f f' (fun k => if (k =? nid) && true then set else free_bit f k)) as Hput.
  { intros f' bits Hbits Hset E1 E2 E3 E4 E5 E6 E7 E8.
    assert (forall k, 0 <= k < max -> free_bit f' k = if k =? nid then set else free_bit f k) as Hbit.
    { intros k Hk. unfold free_bit. rewrite E7. rewrite aget_aset by (rewrite L1; lia). pose proof (offset_range k).
      destruct (Z.eqb_spec (block nid) (block k)) as [Eb|Eb].
      - rewrite Hbits by lia. destruct (Z.eqb_spec k nid) as [->|Hne]; [by rewrite Z.eqb_refl|].
        destruct (Z.eqb_spec (k - START_NID k) (nid - START_NID nid)) as [Eo|]; [|by rewrite Eb]. by destruct Hne; apply nid_eq.
      - destruct (Z.eqb_spec k nid) as [->|]; [done|done]. }
    split; [split|].
    - rewrite E1. apply W.
    - rewrite E2. apply W.
    - rewrite E1, E2. apply W.
    - rewrite E2, E3. apply W.
    - by rewrite E7, E8, !zlen_aset.
    - intros b Hb2. rewrite E7, E8, !aget_aset by lia. destruct (Z.eqb_spec (block nid) b) as [<-|]; [|by apply (fo_count _ W)].
      rewrite (fo_count _ W) by done. set (P := fun k => test_bit k (free_nid_bitmap f).[block nid]). pose proof (count_upto_range P (Z.to_nat EPB)).
      assert (forall m, count_upto (fun k => test_bit k bits) m + 0 = count_upto (fun k => test_bit k bits) m) as _ by lia.
      pose proof (count_upto_update P (fun k => test_bit k bits) (Z.to_nat EPB) (nid - START_NID nid) ltac:(lia)) as Eu.
      assert (count_upto (fun k => test_bit k bits) (Z.to_nat EPB) = count_upto P (Z.to_nat EPB) + Z.b2z set - Z.b2z (free_bit f nid)) as E.
      { rewrite Eu by (intros k Hk Hne; rewrite Hbits by lia; by rewrite (proj2 (Z.eqb_neq _ _) Hne)). rewrite Hbits, Z.eqb_refl by lia. unfold P, free_bit. lia. }
      pose proof (count_upto_range (fun k => test_bit k bits) (Z.to_nat EPB)). rewrite Hset in *.
      destruct (free_bit f nid); cbn [negb Z.b2z] in *; rewrite u16_id by lia; lia.
    - intros k Hk. unfold scanned. rewrite E4. intros Hs. rewrite Hbit by done. destruct (Z.eqb_spec k nid) as [->|]; [unfold scanned in Es; congruence|].
      by apply (fo_unscanned _ W).
    - split; try done. intros k Hk. rewrite andb_true_r. by apply Hbit. }
  destruct set.
  - destruct (free_bit f nid) eqn:Eb; [by apply Hsame|]. eapply Hput; try reflexivity. intros k Hk. rewrite test_set_bit by lia.
    rewrite Z.eqb_sym. by destruct (k =? _).
  - destruct (free_bit f nid) eqn:Eb; cbn [negb]; [|by apply Hsame].
    destruct build; [by specialize (Hclear eq_refl eq_refl)|]. cbn [negb].
    eapply Hput; try reflexivity. intros k Hk. rewrite test_clear_bit. rewrite Z.eqb_sym. by destruct (k =? _).
Qed.
End shape.

(** ** Free nids and the NAT *)

Section scanning.
Context `{NatFormatOk}.
#[local] Abbreviation EPB := NAT_ENTRY_PER_BLOCK.
#[local] Abbreviation block := NAT_BLOCK_OFFSET.
Context (sbi : f2fs_sb_info) (Hgeom : geom_wf sbi).

(** The test of add_free_nid against the cache *)
Definition in_use (c : nat_cache) (nid : Z) : bool :=
  match nat_root c !! nid with Some e => negb (get_nat_flag e IS_CHECKPOINTED) || negb (ni_blk (ni e) =? NULL_ADDR) | None => false end.
Definition qidle (s : nat_store) (nid : Z) : bool :=
  match nat_root (nc (nm s)) !! nid with
  | Some e => get_nat_flag e IS_CHECKPOINTED && (ni_blk (ni e) =? NULL_ADDR)
  | None => rn_block_addr (cval sbi s nid) =? NULL_ADDR
  end.
(** A free nid moved from the journal to the dirty entries, on its way to its block *)
Definition merged (s : nat_store) (nid : Z) : bool :=
  match nat_root (nc (nm s)) !! nid with
  | Some e => get_nat_flag e IS_DIRTY && get_nat_flag e IS_CHECKPOINTED && (ni_blk (ni e) =? NULL_ADDR)
  | None => false
  end.
Definition jused (s : nat_store) (nid : Z) : Prop := exists r, jval (njnl s) nid = Some r /\ rn_block_addr r <> NULL_ADDR.
Definition is_prealloc (f : free_nids) (nid : Z) : bool := bool_decide (free_nid_root f !! nid = Some PREALLOC_NID).
(** A free bit may lag behind: then the entry is dirty or in the journal. *)
Definition bits_ok (s : nat_store) (f : free_nids) : Prop := forall nid, 0 < nid < max_nid (nm s) -> free_bit f nid = true ->
  dirty (nc (nm s)) nid = true \/ is_Some (jval (njnl s) nid) \/ rn_block_addr (pval sbi (nm s) (nmeta s) nid) = NULL_ADDR.
(** Every free nid of a block can be found again. *)
Definition complete (s : nat_store) (f : free_nids) (b : Z) : Prop := forall nid, block nid = b -> 0 < nid < max_nid (nm s) ->
  qidle s nid = true -> is_prealloc f nid = false -> free_bit f nid = true \/ is_Some (jval (njnl s) nid) \/ merged s nid = true.

Lemma qidle_not_in_use s nid : qidle s nid = true -> in_use (nc (nm s)) nid = false.
Proof.
  unfold qidle, in_use. destruct (nat_root (nc (nm s)) !! nid) as [e|]; [|done]. intros [-> ->]%andb_true_iff. done.
Qed.
Lemma not_in_use_cached s nid e : nat_root (nc (nm s)) !! nid = Some e -> in_use (nc (nm s)) nid = false -> qidle s nid = true.
Proof. unfold qidle, in_use. intros ->. rewrite orb_false_iff, !negb_false_iff. intros [-> ->]. done. Qed.
(** A nid that neither the cache nor the journal has as used, with its bit or its block entry free *)
Lemma found_idle s nid : in_use (nc (nm s)) nid = false -> 0 < nid < max_nid (nm s) ->
  dirty (nc (nm s)) nid = true \/ is_Some (jval (njnl s) nid) \/ rn_block_addr (pval sbi (nm s) (nmeta s) nid) = NULL_ADDR ->
  qidle s nid = true \/ jused s nid.
Proof.
  intros Hu Hn Hc. destruct (nat_root (nc (nm s)) !! nid) as [e|] eqn:He; [left; by eapply not_in_use_cached|].
  unfold qidle, jused, cval. rewrite He. destruct (jval (njnl s) nid) as [r|] eqn:Ej.
  - destruct (Z.eqb_spec (rn_block_addr r) NULL_ADDR); [by left|right; by exists r].
  - left. apply Z.eqb_eq. destruct Hc as [Hd|[[? ?]|?]]; [|done|done]. unfold dirty in Hd. by rewrite He in Hd.
Qed.

Section scan.
Context (s : nat_store) (W : nat_ok sbi s) (f0 : free_nids).
#[local] Abbreviation c := (nc (nm s)).
#[local] Abbreviation max := (max_nid (nm s)).
#[local] Abbreviation nb := (nat_blocks (nm s)).
#[local] Abbreviation G := (no_geom _ _ W).
Record scan_ok (f : free_nids) : Prop := {
  sc_fn : fn_ok max nb f;
  sc_pre k : is_prealloc f k = is_prealloc f0 k;
  sc_free k : free_nid_root f !! k = Some FREE_NID -> in_use c k = false /\ (qidle s k = true \/ jused s k);
  sc_bits : bits_ok s f;
  sc_avail : available_nids f = available_nids f0;
}.
(** A scan only adds to the list. *)
Record grows (f f' : free_nids) : Prop := {
  gr_free k : free_nid_root f !! k = Some FREE_NID -> free_nid_root f' !! k = Some FREE_NID;
  gr_cnt : cnt_free f <= cnt_free f';
  gr_next : next_scan_nid f' = next_scan_nid f;
}.
Lemma grows_refl f : grows f f.
Proof. by split. Qed.
Lemma grows_trans f1 f2 f3 : grows f1 f2 -> grows f2 f3 -> grows f1 f3.
Proof. intros [A1 A2 A3] [B1 B2 B3]. split; [auto|lia|congruence]. Qed.
Definition same_bits (f f' : free_nids) : Prop := nat_block_bitmap f' = nat_block_bitmap f /\ forall k, free_bit f' k = free_bit f k.

Lemma geom_max : max = EPB * nb /\ max + EPB < 4294967295 /\ 0 < nb.
Proof. destruct G. done. Qed.
Lemma add_build_ok k f : scan_ok f -> 0 <= k < max -> (in_use c k = false -> 0 < k -> qidle s k = true \/ jused s k) ->
  let r := add_free_nid c k true false f in
  scan_ok (snd r) /\ grows f (snd r) /\ same_bits f (snd r) /\ fst r = ((0 <? k) && negb (in_use c k) && negb (is_prealloc f0 k)) /\
  (fst r = true -> free_nid_root (snd r) !! k = Some FREE_NID) /\ (forall x, x <> k -> free_nid_root (snd r) !! x = free_nid_root f !! x).
Proof.
  intros S Hk Hidle. destruct geom_max as (M1 & M2 & M3). cbv zeta. unfold add_free_nid. destruct (Z.eqb_spec k 0) as [->|Hk0].
  { cbn [fst snd]. split_and!; [done|apply grows_refl|done|done|done|done]. }
  replace (0 <? k) with true by lia. cbn [andb]. unfold __lookup_nat_cache. fold (in_use c k).
  destruct (in_use c k) eqn:Eu; cbn [andb negb fst snd]; [split_and!; [done|apply grows_refl|done|done|done|done]|].
  rewrite <- (sc_pre _ S). unfold is_prealloc at 1. destruct (free_nid_root f !! k) as [[|]|] eqn:Er.
  - cbn. split_and!; [done|apply grows_refl|done|done|done|done].
  - cbn. split_and!; [done|apply grows_refl|done|done|done|done].
  - destruct (insert_free_ok max nb M1 M2 M3 k f (sc_fn _ S) ltac:(lia) Er) as (F & R & C). set (f' := snd (__insert_free_nid k FREE_NID f)) in *. cbn [fst snd].
    assert (same_bits f f') as B.
    { split; [by rewrite (rt_blocks _ _ _ R)|]. intros x. unfold free_bit. by rewrite (rt_bits _ _ _ R). }
    split_and!; [split|split|done|done|..].
    + done.
    + intros x. rewrite <- (sc_pre _ S). unfold is_prealloc. rewrite (rt_root _ _ _ R). destruct (Z.eqb_spec x k) as [->|]; [by rewrite Er|done].
    + intros x. rewrite (rt_root _ _ _ R). destruct (Z.eqb_spec x k) as [->|]; [intros _; split; [done|]; apply Hidle; [done|lia]|apply (sc_free _ S)].
    + intros x Hx. rewrite (proj2 B). by apply (sc_bits _ S).
    + rewrite (rt_avail _ _ _ R). apply (sc_avail _ S).
    + intros x. rewrite (rt_root _ _ _ R). destruct (Z.eqb_spec x k) as [->|]; [by rewrite Er|done].
    + lia.
    + apply (rt_next _ _ _ R).
    + intros _. rewrite (rt_root _ _ _ R), Z.eqb_refl. done.
    + intros x Hx. rewrite (rt_root _ _ _ R). by rewrite (proj2 (Z.eqb_neq x k)).
Qed.
Definition eligible_nid (k : Z) : Prop := 0 < k < max /\ in_use c k = false /\ is_prealloc f0 k = false.
Lemma block_offset i idx : 0 <= idx < EPB -> block (i * EPB + idx) = i /\ i * EPB + idx - START_NID (i * EPB + idx) = idx.
Proof.
  intros Hi. unfold START_NID, NAT_BLOCK_OFFSET. pose proof nents_range.
  assert ((i * EPB + idx) / EPB = i) as -> by (symmetry; apply (Z.div_unique_pos _ _ _ idx); lia). lia.
Qed.
Lemma scan_bits_ok n i idx f : scan_ok f -> 0 <= i < nb -> 0 <= idx -> idx + Z.of_nat n = EPB ->
  exists enough f', scan_bits n c i idx f = (enough, f') /\ scan_ok f' /\ grows f f' /\ same_bits f f' /\
    (enough = true -> MAX_FREE_NIDS <= cnt_free f') /\
    (enough = false -> forall k, block k = i -> i * EPB + idx <= k -> eligible_nid k -> free_bit f k = true -> free_nid_root f' !! k = Some FREE_NID).
Proof.
  destruct geom_max as (M1 & M2 & M3). pose proof nents_range. revert idx f. induction n as [|n IH]; intros idx f S Hi Hidx Hn; cbn [scan_bits].
  { exists false, f. split_and!; [done|done|apply grows_refl|done|done|]. intros _ k Hb Hk. pose proof (offset_range k). rewrite start_block in *. lia. }
  set (k := i * EPB + idx). destruct (block_offset i idx) as [Eb Eo]; [lia|]. fold k in Eb, Eo.
  assert (test_bit idx (free_nid_bitmap f).[i] = free_bit f k) as Ebit by (unfold free_bit; by rewrite Eb, Eo).
  rewrite Ebit. assert (0 <= k < max) as Hk by (unfold k; nia).
  assert (forall x, i * EPB + idx <= x -> x <> k -> i * EPB + (idx + 1) <= x) as Hnext by (unfold k; lia).
  destruct (free_bit f k) eqn:Ef.
  - destruct (add_build_ok k f S Hk) as (S1 & G1 & B1 & R1 & R2 & R3).
    { intros Hu Hk0. apply found_idle; [done|lia|]. apply (sc_bits _ S); [lia|done]. }
    set (r := add_free_nid c k true false f) in *. destruct (Z.leb_spec MAX_FREE_NIDS (cnt_free (snd r))) as [Hm|Hm].
    + exists true, (snd r). by split_and!.
    + destruct (IH (idx + 1) (snd r) S1 Hi ltac:(lia) ltac:(lia)) as (en & f' & E & S2 & G2 & B2 & T1 & T2). exists en, f'.
      split_and!; [done|done|by eapply grows_trans| |done|].
      * split; [rewrite (proj1 B2); apply B1|]. intros x. rewrite (proj2 B2). apply B1.
      * intros He x Hb Hx Hel Hfx. destruct (decide (x = k)) as [->|Hne].
        -- apply (gr_free _ _ G2), R2. rewrite R1. destruct Hel as (? & -> & ->). by replace (0 <? k) with true by lia.
        -- apply T2; [done..|apply Hnext; done|done|]. by rewrite (proj2 B1).
  - destruct (IH (idx + 1) f S Hi ltac:(lia) ltac:(lia)) as (en & f' & E & S2 & G2 & B2 & T1 & T2). exists en, f'.
    split_and!; [done..|]. intros He x Hb Hx Hel Hfx. apply T2; [done..|apply Hnext; [done|]|done|done]. intros ->. congruence.
Qed.
Lemma scan_blocks_ok n i f : scan_ok f -> 0 <= i -> i + Z.of_nat n = nb ->
  let f' := scan_blocks n c i f in scan_ok f' /\ grows f f' /\ same_bits f f' /\
    (MAX_FREE_NIDS <= cnt_free f' \/
     forall k, i <= block k -> eligible_nid k -> free_bit f k = true -> free_nid_root f' !! k = Some FREE_NID).
Proof.
  cbv zeta. destruct geom_max as (M1 & M2 & M3). pose proof nents_range. revert i f. induction n as [|n IH]; intros i f S Hi Hn; cbn [scan_blocks].
  { split_and!; [done|apply grows_refl|done|]. right. intros k Hb (Hk & _). pose proof (nid_block max nb M1 k ltac:(lia)). lia. }
  assert (forall f1, scan_ok f1 -> grows f f1 -> same_bits f f1 ->
    (forall k, block k = i -> eligible_nid k -> free_bit f k = true -> free_nid_root f1 !! k = Some FREE_NID) ->
    let f' := scan_blocks n c (i + 1) f1 in scan_ok f' /\ grows f f' /\ same_bits f f' /\
    (MAX_FREE_NIDS <= cnt_free f' \/
     forall k, i <= block k -> eligible_nid k -> free_bit f k = true -> free_nid_root f' !! k = Some FREE_NID)) as Hstep.
  { intros f1 S1 G1 B1 F1. cbv zeta. destruct (IH (i + 1) f1 S1 ltac:(lia) ltac:(lia)) as (S2 & G2 & B2 & T). split_and!; [done|by eapply grows_trans| |].
    - split; [rewrite (proj1 B2); apply B1|]. intros x. rewrite (proj2 B2). apply B1.
    - destruct T as [T|T]; [by left|right]. intros k Hk Hel Hf. destruct (decide (block k = i)) as [Hb|Hb].
      + apply (gr_free _ _ G2). by apply F1.
      + apply T; [lia|done|]. by rewrite (proj2 B1). }
  assert (forall k, block k = i -> eligible_nid k -> 0 <= k < max) as Hrange by (intros k _ (? & _); lia).
  fold (scanned f i). destruct (scanned f i) eqn:Es; cbn [negb].
  2:{ apply Hstep; [done|apply grows_refl|done|]. intros k Hb Hel Hf. rewrite (fo_unscanned _ _ _ (sc_fn _ S) k) in Hf; [done|by apply Hrange|by rewrite Hb]. }
  destruct (Z.eqb_spec (free_nid_count f).[i] 0) as [Ec|Ec].
  { apply Hstep; [done|apply grows_refl|done|]. intros k Hb Hel Hf. rewrite (fo_count _ _ _ (sc_fn _ S) i) in Ec by lia.
    pose proof (count_upto_zero _ _ Ec (k - START_NID k) ltac:(pose proof (offset_range k); lia)) as Hz. unfold free_bit in Hf. rewrite Hb in Hf. congruence. }
  destruct (scan_bits_ok (Z.to_nat EPB) i 0 f S ltac:(lia) ltac:(lia) ltac:(lia)) as (en & f' & E & S1 & G1 & B1 & T1 & T2). rewrite E.
  destruct en; [split_and!; [done..|left; by apply T1]|]. apply Hstep; [done..|]. intros k Hb Hel Hf. apply T2; [done|done| |done|done].
  pose proof (offset_range k). rewrite start_block, Hb in *. lia.
Qed.

(** *** The journal *)

Lemma scan_journal_ok l f : scan_ok f -> NoDup (map fst l) -> (forall e, e ∈ l -> e ∈ nats_in_cursum (njnl s)) ->
  let f' := scan_journal l c f in scan_ok f' /\ same_bits f f' /\ cnt_free f - zlen l <= cnt_free f' /\ next_scan_nid f' = next_scan_nid f /\
    (forall k, free_nid_root f' !! k = Some FREE_NID -> forall r, (k, r) ∈ l -> rn_block_addr r = NULL_ADDR) /\
    (forall k, free_nid_root f !! k = Some FREE_NID -> (forall r, (k, r) ∈ l -> rn_block_addr r = NULL_ADDR) -> free_nid_root f' !! k = Some FREE_NID) /\
    (forall k r, (k, r) ∈ l -> rn_block_addr r = NULL_ADDR -> eligible_nid k -> free_nid_root f' !! k = Some FREE_NID) /\
    (forall k, free_nid_root f' !! k = Some FREE_NID -> free_nid_root f !! k = Some FREE_NID \/ exists r, (k, r) ∈ l /\ rn_block_addr r = NULL_ADDR).
Proof.
  destruct geom_max as (M1 & M2 & M3). cbv zeta. revert f. induction l as [|[k r] l IH]; intros f S Hn Hin; cbn [scan_journal].
  { split_and!; [done|done|unfold zlen; cbn; lia|done|..].
    - by intros k _ r ?%not_elem_of_nil.
    - by intros k ? _.
    - by intros k r ?%not_elem_of_nil.
    - intros k ?. by left. }
  cbn [map fst] in Hn. apply list.NoDup_cons in Hn as [Hk Hn]. cbn [fst snd]. pose proof (no_jnl _ _ W) as Wj.
  assert (jval (njnl s) k = Some r) as Hj by (apply (jval_in max); [done|apply Hin; by left]).
  assert (0 < k < max) as Hr by (apply (nj_nid _ _ Wj (k, r)), Hin; by left).
  assert (forall x y, (x, y) ∈ l -> x <> k) as Hne by (intros x y Hx ->; apply Hk; by apply (list_elem_of_fmap_2 fst l (k, y))).
  assert (forall e, e ∈ l -> e ∈ nats_in_cursum (njnl s)) as Hin2 by (intros e He; apply Hin; by right).
  rewrite zlen_cons. destruct (Z.eqb_spec (rn_block_addr r) NULL_ADDR) as [Eb|Eb].
  - destruct (add_build_ok k f S ltac:(lia)) as (S1 & G1 & B1 & R1 & R2 & R3).
    { intros Hu _. apply found_idle; [done|done|]. right. left. by eexists. }
    set (f1 := snd (add_free_nid c k true false f)) in *. destruct (IH f1 S1 Hn Hin2) as (S2 & B2 & C2 & N2 & T1 & T2 & T3 & T4). split_and!.
    + done.
    + split; [rewrite (proj1 B2); apply B1|]. intros x. rewrite (proj2 B2). apply B1.
    + pose proof (gr_cnt _ _ G1). lia.
    + rewrite N2. apply (gr_next _ _ G1).
    + intros x Hx y [E|Hy]%elem_of_cons; [injection E as _ ->; done|by apply (T1 x)].
    + intros x Hx Hy. apply T2; [by apply (gr_free _ _ G1)|]. intros y Hxy. apply Hy. by right.
    + intros x y [E|Hy]%elem_of_cons Hb Hel; [|by apply (T3 x y)]. injection E as -> ->. apply T2.
      * apply R2. rewrite R1. destruct Hel as (? & -> & ->). by replace (0 <? k) with true by lia.
      * intros y Hy. by destruct (Hne k y Hy).
    + intros x Hx. destruct (T4 x Hx) as [Hf|(y & Hy & Hb)]; [|right; exists y; split; [by right|done]].
      destruct (decide (x = k)) as [->|Hxk]; [right; exists r; split; [by left|done]|]. left.
      by rewrite <- (R3 x Hxk).
  - unfold remove_free_nid. set (f1 := match free_nid_root f !! k with Some FREE_NID => _ | _ => f end).
    assert (scan_ok f1 /\ same_bits f f1 /\ cnt_free f - 1 <= cnt_free f1 /\ next_scan_nid f1 = next_scan_nid f /\
      (forall x, free_nid_root f1 !! x = Some FREE_NID <-> x <> k /\ free_nid_root f !! x = Some FREE_NID)) as (S1 & B1 & C1 & N1 & F1).
    { unfold f1. destruct (free_nid_root f !! k) as [[|]|] eqn:Er; [|split_and!; [done..|lia|done|]; intros x; split; [intros Hx; split; [intros ->; congruence|done]|by intros [_ ?]]..].
      destruct (remove_free_ok max nb M1 M2 M3 k f (sc_fn _ S) Er) as (F & R & C).
      assert (forall x, free_nid_root (__remove_free_nid k FREE_NID f) !! x = Some FREE_NID <-> x <> k /\ free_nid_root f !! x = Some FREE_NID) as Hroot.
      { intros x. rewrite (rt_root _ _ _ R). destruct (Z.eqb_spec x k) as [->|]; [split; [done|by intros [? _]]|]. split; [by split|by intros [_ ?]]. }
      split_and!; [split|..].
      - done.
      - intros x. rewrite <- (sc_pre _ S). unfold is_prealloc. rewrite (rt_root _ _ _ R). destruct (Z.eqb_spec x k) as [->|]; [by rewrite Er|done].
      - intros x [_ Hx]%Hroot. by apply (sc_free _ S).
      - intros x Hx. unfold free_bit. rewrite (rt_bits _ _ _ R). by apply (sc_bits _ S).
      - rewrite (rt_avail _ _ _ R). apply (sc_avail _ S).
      - split; [by rewrite (rt_blocks _ _ _ R)|]. intros x. unfold free_bit. by rewrite (rt_bits _ _ _ R).
      - lia.
      - apply (rt_next _ _ _ R).
      - done. }
    destruct (IH f1 S1 Hn Hin2) as (S2 & B2 & C2 & N2 & T1 & T2 & T3 & T4). split_and!.
    + done.
    + split; [rewrite (proj1 B2); apply B1|]. intros x. rewrite (proj2 B2). apply B1.
    + lia.
    + congruence.
    + intros x Hx y [E|Hy]%elem_of_cons; [|by apply (T1 x)]. injection E as -> ->. exfalso.
      destruct (T4 k Hx) as [[? _]%F1|(y & Hy & _)]; [done|by apply (Hne k y Hy)].
    + intros x Hx Hy. apply T2; [|intros y Hxy; apply Hy; by right]. apply F1. split; [|done]. intros ->. apply Eb, Hy. by left.
    + intros x y [E|Hy]%elem_of_cons Hb Hel; [injection E as -> ->; done|by apply (T3 x y)].
    + intros x Hx. destruct (T4 x Hx) as [[_ ?]%F1|(y & Hy & Hb)]; [by left|right; exists y; split; [by right|done]].
Qed.

(** *** NAT blocks *)

Lemma add_update_eq k f : k <> 0 -> add_free_nid c k true true f =
  let r := add_free_nid c k true false f in (fst r, update_free_nid_bitmap k (fst r) true (snd r)).
Proof.
  intros Hk. unfold add_free_nid. rewrite (proj2 (Z.eqb_neq k 0) Hk). cbv zeta. fold (in_use c k). unfold __lookup_nat_cache. fold (in_use c k).
  destruct (true && in_use c k); [done|]. destruct (free_nid_root f !! k) as [st|]; [|done]. by destruct (bool_decide (st = FREE_NID)).
Qed.
(** One entry of a block: it is added, or its bit is cleared. *)
Lemma scan_entry_ok x f : scan_ok f -> 0 <= x < max -> scanned f (block x) = true -> free_bit f x = false ->
  let f' := if rn_block_addr (pval sbi (nm s) (nmeta s) x) =? NULL_ADDR then snd (add_free_nid c x true true f) else update_free_nid_bitmap x false true f in
  scan_ok f' /\ grows f f' /\ nat_block_bitmap f' = nat_block_bitmap f /\
  (forall y, 0 <= y < max -> y <> x -> free_bit f' y = free_bit f y) /\
  (eligible_nid x -> rn_block_addr (pval sbi (nm s) (nmeta s) x) = NULL_ADDR -> free_nid_root f' !! x = Some FREE_NID /\ free_bit f' x = true).
Proof.
  intros S Hx Hs Hb. destruct geom_max as (M1 & M2 & M3).
  assert (forall set f1, scan_ok f1 -> grows f f1 -> same_bits f f1 ->
    (set = true -> free_nid_root f1 !! x = Some FREE_NID /\ rn_block_addr (pval sbi (nm s) (nmeta s) x) = NULL_ADDR) ->
    let f' := update_free_nid_bitmap x set true f1 in
    scan_ok f' /\ grows f f' /\ nat_block_bitmap f' = nat_block_bitmap f /\ (forall y, 0 <= y < max -> y <> x -> free_bit f' y = free_bit f y) /\
    (set = true -> free_nid_root f' !! x = Some FREE_NID /\ free_bit f' x = true)) as Hput.
  { intros set f1 S1 G1 B1 Hset. cbv zeta. destruct (update_bitmap_ok max nb M1 x set true f1 (sc_fn _ S1) Hx) as [F R].
    { intros _ _. by rewrite (proj2 B1). }
    set (f' := update_free_nid_bitmap x set true f1) in *. assert (scanned f1 (block x) = true) as Hs1 by (unfold scanned; by rewrite (proj1 B1)).
    rewrite Hs1 in R. split_and!; [split|split|..].
    - done.
    - intros k. unfold is_prealloc. rewrite (rb_root _ _ _ _ R). apply (sc_pre _ S1).
    - intros k. rewrite (rb_root _ _ _ _ R). apply (sc_free _ S1).
    - intros k Hk. rewrite (rb_bit _ _ _ _ R) by lia. rewrite andb_true_r. destruct (Z.eqb_spec k x) as [->|]; [|by apply (sc_bits _ S1)].
      intros E. right. right. by apply Hset.
    - rewrite (rb_avail _ _ _ _ R). apply (sc_avail _ S1).
    - intros k Hk. rewrite (rb_root _ _ _ _ R). by apply (gr_free _ _ G1).
    - rewrite (rb_cnt _ _ _ _ R). apply (gr_cnt _ _ G1).
    - rewrite (rb_next _ _ _ _ R). apply (gr_next _ _ G1).
    - rewrite (rb_blocks _ _ _ _ R). apply B1.
    - intros y Hy Hne. rewrite (rb_bit _ _ _ _ R) by done. rewrite (proj2 (Z.eqb_neq y x)) by done. apply B1.
    - intros E. rewrite (rb_root _ _ _ _ R), (rb_bit _ _ _ _ R), Z.eqb_refl by done. split; [by apply Hset|done]. }
  cbv zeta. destruct (Z.eqb_spec (rn_block_addr (pval sbi (nm s) (nmeta s) x)) NULL_ADDR) as [Ep|Ep].
  - destruct (decide (x = 0)) as [->|Hx0]; [unfold add_free_nid; cbn [Z.eqb snd]; split_and!; [done|apply grows_refl|done|done|intros ((? & _) & _); lia]|].
    destruct (add_build_ok x f S Hx) as (S1 & G1 & B1 & R1 & R2 & _).
    { intros Hu Hx1. apply found_idle; [done|lia|by right; right]. }
    rewrite add_update_eq by done. cbv zeta. cbn [snd]. set (r := add_free_nid c x true false f) in *.
    destruct (Hput (fst r) (snd r) S1 G1 B1) as (? & ? & ? & ? & Hend); [intros E; split; [by apply R2|done]|]. split_and!; [done..|].
    intros (Hr & Hu & Hp) _. apply Hend. rewrite R1, Hu, Hp. by replace (0 <? x) with true by lia.
  - destruct (Hput false f S (grows_refl f)) as (? & ? & ? & ? & _); [done|done|]. split_and!; done.
Qed.
Lemma scan_nats_ok n b i f (entries := nmeta s (current_nat_addr sbi (nm s) (b * EPB))) :
  scan_ok f -> 0 <= b < nb -> 0 <= i -> i + Z.of_nat n = EPB -> scanned f b = true ->
  (forall x, block x = b -> b * EPB + i <= x -> free_bit f x = false) ->
  exists f', scan_nats n c max entries i (b * EPB + i) f = (false, f') /\ scan_ok f' /\ grows f f' /\ nat_block_bitmap f' = nat_block_bitmap f /\
    (forall y, 0 <= y < max -> (block y <> b \/ y < b * EPB + i) -> free_bit f' y = free_bit f y) /\
    (forall x, block x = b -> b * EPB + i <= x -> eligible_nid x -> rn_block_addr (pval sbi (nm s) (nmeta s) x) = NULL_ADDR ->
       free_nid_root f' !! x = Some FREE_NID /\ free_bit f' x = true).
Proof.
  destruct geom_max as (M1 & M2 & M3). pose proof nents_range. revert i f. induction n as [|n IH]; intros i f S Hb Hi Hn Hs Hclear; cbn [scan_nats].
  { exists f. split_and!; [done|done|apply grows_refl|done|done|]. intros x Hx Hle. pose proof (offset_range x). rewrite start_block, Hx in *. lia. }
  set (x := b * EPB + i). destruct (block_offset b i) as [Eb Eo]; [lia|]. fold x in Eb, Eo. assert (0 <= x < max) as Hx by (unfold x; nia).
  rewrite (proj2 (Z.leb_gt max x)) by lia.
  assert (entries.[i] = pval sbi (nm s) (nmeta s) x) as Ep.
  { unfold pval, entries. rewrite Eo. f_equal. f_equal. unfold current_nat_addr. by rewrite block_start, Eb. }
  rewrite Ep. destruct (scan_entry_ok x f S Hx) as (S1 & G1 & B1 & O1 & E1); [by rewrite Eb|apply Hclear; [done|unfold x; lia]|]. cbv zeta in *.
  set (f1 := if _ =? NULL_ADDR then _ else _) in *.
  destruct (IH (i + 1) f1 S1 Hb ltac:(lia) ltac:(lia)) as (f' & E & S2 & G2 & B2 & O2 & E2).
  { unfold scanned. by rewrite B1. }
  { intros y Hy Hle. pose proof (offset_range y). rewrite start_block, Hy in *. rewrite O1 by (unfold x; nia). apply Hclear; [done|lia]. }
  replace (x + 1) with (b * EPB + (i + 1)) by (unfold x; lia). rewrite E. cbn [orb].
  exists f'. split_and!; [|done|by eapply grows_trans|congruence|..].
  - rewrite (proj2 (Z.eqb_neq _ NEW_ADDR)); [done|]. by apply (no_pnew _ _ W).
  - intros y Hy Hor. rewrite O2 by (done || lia). apply O1; [done|]. intros ->. unfold x in *. destruct Hor; [done|lia].
  - intros y Hy Hle Hel Hp. destruct (decide (y = x)) as [->|Hne].
    + destruct (E1 Hel Hp) as [F1 Bt1]. split; [by apply (gr_free _ _ G2)|]. rewrite O2; [done|done|]. right. unfold x. lia.
    + apply E2; [done| |done|done]. unfold x in *. lia.
Qed.
(** A position in the round of blocks *)
Definition nid_at (b : Z) : Z := b mod nb * EPB.
Definition with_fn (f : free_nids) : nat_store := s <| nm := (nm s) <| fn := f |> |>.
Record pages_scanned (nid : Z) (f f' : free_nids) : Prop := {
  ps_ok : scan_ok f';
  ps_free k : free_nid_root f !! k = Some FREE_NID -> free_nid_root f' !! k = Some FREE_NID;
  ps_cnt : cnt_free f <= cnt_free f';
  ps_mono b : scanned f b = true -> scanned f' b = true;
  ps_old y : 0 <= y < max -> scanned f (block y) = true -> free_bit f' y = free_bit f y;
  ps_new x : 0 <= x < max -> scanned f (block x) = false -> scanned f' (block x) = true -> (block x = block nid -> nid <= x) ->
    eligible_nid x -> rn_block_addr (pval sbi (nm s) (nmeta s) x) = NULL_ADDR -> free_nid_root f' !! x = Some FREE_NID /\ free_bit f' x = true;
}.
Lemma scan_page_ok nid f : scan_ok f -> 0 <= nid < max -> scanned f (block nid) = false ->
  exists f', scan_nat_page (nmeta s (current_nat_addr sbi (nm s) nid)) nid ((nm s) <| fn := f |>) = (nm s) <| fn := f' |> /\
    pages_scanned nid f f' /\ (forall b, 0 <= b -> scanned f' b = (block nid =? b) || scanned f b) /\ next_scan_nid f' = next_scan_nid f.
Proof.
  intros S Hn Hs. destruct geom_max as (M1 & M2 & M3). pose proof nents_range. pose proof (nid_block max nb M1 nid Hn) as Hb.
  unfold scan_nat_page. cbn [fn nc max_nid upd]. set (b := block nid) in *. set (i := nid mod EPB).
  assert (nid = b * EPB + i /\ 0 <= i < EPB) as [En Hi].
  { unfold b, i, NAT_BLOCK_OFFSET. pose proof (Z.div_mod nid EPB). pose proof (Z.mod_pos_bound nid EPB). lia. }
  set (f1 := f <| nat_block_bitmap ::= set_bit b |>).
  assert (forall b', 0 <= b' -> scanned f1 b' = (b =? b') || scanned f b') as Hsc by (intros b' Hb'; unfold scanned; apply test_set_bit; lia).
  assert (scan_ok f1) as S1.
  { destruct S as [F P Fr Bt Av]. split; try done. destruct F as [F1 F2 F3 F4 F5 F6 F7]. split; try done. intros k Hk. pose proof (nid_block max nb M1 k Hk). rewrite Hsc by lia.
    intros [_ ?]%orb_false_iff. by apply F7. }
  destruct (scan_nats_ok (Z.to_nat (EPB - i)) b i f1) as (f' & E & S2 & G2 & B2 & O2 & E2); [done..|lia|lia|by rewrite Hsc, Z.eqb_refl by lia| |].
  { intros x Hx _. apply (fo_unscanned _ _ _ (sc_fn _ S)); [|by rewrite Hx]. pose proof (offset_range x). rewrite start_block, Hx in *. nia. }
  assert (current_nat_addr sbi (nm s) (b * EPB) = current_nat_addr sbi (nm s) nid) as Ea by (unfold current_nat_addr; by rewrite block_start).
  rewrite Ea, <- En in E. exists f'. rewrite E. split; [by destruct (nm s)|].
  assert (forall b', 0 <= b' -> scanned f' b' = (b =? b') || scanned f b') as Hsc' by (intros b' Hb'; rewrite <- Hsc by done; unfold scanned; by rewrite B2).
  split; [|split; [done|by rewrite (gr_next _ _ G2)]]. split.
  - done.
  - intros k Hk. by apply (gr_free _ _ G2).
  - by pose proof (gr_cnt _ _ G2).
  - intros b' Hb'. destruct (decide (0 <= b')); [rewrite Hsc' by done; by rewrite Hb', orb_true_r|]. unfold scanned, test_bit in Hb'. by rewrite Z.testbit_neg_r in Hb' by lia.
  - intros y Hy Hs2. rewrite O2; [done|done|]. left. intros Eq. congruence.
  - intros x Hx Hs2 Hs3 Hle Hel Hp. pose proof (nid_block max nb M1 x Hx). rewrite Hsc', Hs2, orb_false_r in Hs3 by lia. apply Z.eqb_eq in Hs3.
    apply E2; [done| |done|done]. rewrite <- En. apply Hle. done.
Qed.
Lemma pages_scanned_refl nid f : scan_ok f -> pages_scanned nid f f.
Proof. intros S. split; try done. intros x _ E1 E2. congruence. Qed.
Lemma next_position nid : 0 <= nid < max ->
  (let next := u32 (nid + (EPB - nid mod EPB)) in if max <=? next then 0 else next) = nid_at (block nid + 1).
Proof.
  intros Hn. destruct geom_max as (M1 & M2 & M3). pose proof nents_range. pose proof (nid_block max nb M1 nid Hn) as Hb. cbv zeta.
  pose proof (Z.div_mod nid EPB). pose proof (Z.mod_pos_bound nid EPB). unfold nid_at. fold (block nid) in *.
  assert (nid + (EPB - nid mod EPB) = (block nid + 1) * EPB) as -> by (unfold NAT_BLOCK_OFFSET in *; lia).
  rewrite u32_id by nia. destruct (Z.leb_spec max ((block nid + 1) * EPB)).
  - assert (block nid + 1 = nb) as -> by nia. by rewrite Z.mod_same by lia.
  - rewrite Z.mod_small by nia. done.
Qed.
Lemma nid_at_range b : 0 <= nid_at b < max /\ block (nid_at b) = b mod nb /\ START_NID (nid_at b) = nid_at b.
Proof.
  destruct geom_max as (M1 & M2 & M3). pose proof nents_range. unfold nid_at. pose proof (Z.mod_pos_bound b nb). split; [nia|].
  rewrite start_block, block_start. done.
Qed.
Lemma scan_pages_ok k nid f : scan_ok f -> 0 <= nid < max ->
  exists f', scan_pages sbi k nid (with_fn f) = with_fn f' /\ pages_scanned nid f f' /\
    (forall j, 0 <= j < Z.of_nat k -> scanned f' ((block nid + j) mod nb) = true) /\
    next_scan_nid f' = if decide (k = 0%nat) then nid else nid_at (block nid + Z.of_nat k).
Proof.
  destruct geom_max as (M1 & M2 & M3). revert nid f. induction k as [|k IH]; intros nid f S Hn; cbn [scan_pages].
  { exists (f <| next_scan_nid := nid |>). split; [done|]. assert (scan_ok (f <| next_scan_nid := nid |>)) as S' by (destruct S as [[] ? ? ? ?]; split; try done; by split).
    split; [|split; [lia|done]]. split; try done. intros x _ E1 E2. change (scanned f (block x) = true) in E2. congruence. }
  cbn [with_fn nm fn nc nmeta upd]. pose proof (nid_block max nb M1 nid Hn) as Hb.
  assert (exists f1, (if test_bit (block nid) (nat_block_bitmap f) then (nm s) <| fn := f |>
      else scan_nat_page (nmeta s (current_nat_addr sbi ((nm s) <| fn := f |>) nid)) nid ((nm s) <| fn := f |>)) = (nm s) <| fn := f1 |> /\
      pages_scanned nid f f1 /\ scanned f1 (block nid) = true) as (f1 & -> & P1 & V1).
  { fold (scanned f (block nid)). destruct (scanned f (block nid)) eqn:Es; [exists f; split_and!; [done|by apply pages_scanned_refl|done]|].
    destruct (scan_page_ok nid f S Hn Es) as (f1 & E & P & V & _). exists f1. split_and!; [exact E|done|]. rewrite V by lia. by rewrite Z.eqb_refl. }
  change (max_nid ((nm s) <| fn := f1 |>)) with max. pose proof (next_position nid Hn) as Enext. cbv zeta in Enext. rewrite Enext.
  destruct (nid_at_range (block nid + 1)) as (N1 & N2 & N3). set (nid' := nid_at (block nid + 1)) in *.
  destruct (IH nid' f1 (ps_ok _ _ _ P1) N1) as (f' & E & P2 & V2 & X2). exists f'. split; [exact E|].
  assert (scanned f' (block nid) = true) as V1' by by apply (ps_mono _ _ _ P2).
  split; [split|split].
  - apply P2.
  - intros x Hx. by apply (ps_free _ _ _ P2), (ps_free _ _ _ P1).
  - pose proof (ps_cnt _ _ _ P1). pose proof (ps_cnt _ _ _ P2). lia.
  - intros b Hs. by apply (ps_mono _ _ _ P2), (ps_mono _ _ _ P1).
  - intros y Hy Hs. rewrite (ps_old _ _ _ P2) by (done || by apply (ps_mono _ _ _ P1)). by apply (ps_old _ _ _ P1).
  - intros x Hx Hs1 Hs2 Hle Hel Hp. destruct (scanned f1 (block x)) eqn:Es.
    + destruct (ps_new _ _ _ P1 x Hx Hs1 Es Hle Hel Hp) as [F1 B1]. split; [by apply (ps_free _ _ _ P2)|]. by rewrite (ps_old _ _ _ P2).
    + apply (ps_new _ _ _ P2); [done..| |done|done]. intros Eb. rewrite <- N3, start_block, <- Eb, <- start_block. pose proof (offset_range x). lia.
  - intros j Hj. destruct (decide (j = 0)) as [->|]; [rewrite Z.add_0_r, Z.mod_small by lia; done|].
    specialize (V2 (j - 1) ltac:(lia)). rewrite N2 in V2. rewrite Z.add_mod_idemp_l in V2 by lia. by replace (block nid + 1 + (j - 1)) with (block nid + j) in V2 by lia.
  - rewrite X2. destruct (decide (k = 0%nat)) as [->|]; [done|]. rewrite decide_False by done. rewrite N2. unfold nid_at. rewrite Z.add_mod_idemp_l by lia. do 2 f_equal. lia.
Qed.
End scan.
End scanning.
