(* ===== verification/NatFree.v ===== *)
(** * The free list against the NAT: filling it, taking from it, giving back

    [free_ok]: what is on the list is free in the NAT, and [available_nids]
    counts the free nids nobody holds.  [built] is what a build of the list
    does; [alloc_ends]: with whole blocks scanned, the loop of
    [f2fs_alloc_nid] ends. *)
From stdpp Require Import gmap.
From S2P Require Import Prelude Geometry F2fsBits Sit SitFlush NatMgr NatCache NatStore FreeNid.
Open Scope Z_scope.

Lemma zlen_elem {A} (x : A) l : x ∈ l -> 0 < zlen l.
Proof. unfold zlen. destruct l; [by intros ?%elem_of_nil|cbn; lia]. Qed.
Lemma zlen_first {A} (l : list A) : 0 < zlen l -> exists x, x ∈ l.
Proof. destruct l as [|x l]; [done|]. exists x. by left. Qed.

Section free.
Context `{NatFormatOk}.
#[local] Abbreviation EPB := NAT_ENTRY_PER_BLOCK.
#[local] Abbreviation block := NAT_BLOCK_OFFSET.
Context (sbi : f2fs_sb_info) (Hgeom : geom_wf sbi).

(** A free nid nobody holds *)
Definition usable (s : nat_store) (nid : Z) : bool :=
  (0 <? nid) && qidle sbi s nid && negb (is_prealloc (fn (nm s)) nid).
Record free_ok (s : nat_store) : Prop := {
  fr_fn : fn_ok (max_nid (nm s)) (nat_blocks (nm s)) (fn (nm s));
  fr_free nid : free_nid_root (fn (nm s)) !! nid = Some FREE_NID -> qidle sbi s nid = true;
  fr_pre nid : free_nid_root (fn (nm s)) !! nid = Some PREALLOC_NID -> qidle sbi s nid = true \/ ni_blk (nval sbi s nid) <> NULL_ADDR;
  fr_bits : bits_ok sbi s (fn (nm s));
  fr_avail : available_nids (fn (nm s)) =
    u32 (count_upto (usable s) (Z.to_nat (max_nid (nm s))) - count_upto (merged s) (Z.to_nat (max_nid (nm s))));
  fr_next : 0 <= next_scan_nid (fn (nm s));
}.
Definition all_complete (s : nat_store) (f : free_nids) : Prop :=
  forall b, 0 <= b < nat_blocks (nm s) -> scanned f b = true -> complete sbi s f b.
Definition aligned (f : free_nids) : Prop := START_NID (next_scan_nid f) = next_scan_nid f.

Lemma steady_not_merged s : steady sbi s -> forall k, merged s k = false.
Proof.
  intros S k. unfold merged. destruct (nat_root (nc (nm s)) !! k) as [e|] eqn:He; [|done].
  destruct (get_nat_flag e IS_DIRTY) eqn:Ed, (get_nat_flag e IS_CHECKPOINTED) eqn:Ec; try done.
  destruct (S k e He Ed Ec) as [Hb _]. cbn [andb]. by apply Z.eqb_neq.
Qed.
Lemma steady_avail s : steady sbi s -> free_ok s -> geom_wf sbi -> nat_ok sbi s ->
  available_nids (fn (nm s)) = count_upto (usable s) (Z.to_nat (max_nid (nm s))).
Proof.
  intros S F _ W. rewrite (fr_avail _ F), (count_upto_none (merged s)) by (intros; by apply steady_not_merged).
  pose proof (ck_max _ _ (no_cache _ _ W)). pose proof (count_upto_range (usable s) (Z.to_nat (max_nid (nm s)))). rewrite u32_id; lia.
Qed.
Lemma idle_journal s k r : nat_ok sbi s -> steady sbi s -> qidle sbi s k = true -> jval (njnl s) k = Some r -> rn_block_addr r = NULL_ADDR.
Proof.
  intros W S Hq Hj. assert (cval sbi s k = r) as Ec by (unfold cval; by rewrite Hj). unfold qidle in Hq.
  destruct (nat_root (nc (nm s)) !! k) as [e|] eqn:He; [|rewrite Ec in Hq; by apply Z.eqb_eq].
  apply andb_true_iff in Hq as [Hc Hb%Z.eqb_eq]. destruct (get_nat_flag e IS_DIRTY) eqn:Ed.
  - by destruct (S k e He Ed Hc).
  - rewrite <- Ec. by rewrite (clean_cval sbi s k e).
Qed.
Lemma idle_page s k : nat_ok sbi s -> steady sbi s -> qidle sbi s k = true -> jval (njnl s) k = None ->
  rn_block_addr (pval sbi (nm s) (nmeta s) k) = NULL_ADDR.
Proof.
  intros W S Hq Hj. assert (cval sbi s k = pval sbi (nm s) (nmeta s) k) as <- by (unfold cval; by rewrite Hj). unfold qidle in Hq.
  destruct (nat_root (nc (nm s)) !! k) as [e|] eqn:He; [|by apply Z.eqb_eq].
  apply andb_true_iff in Hq as [Hc Hb%Z.eqb_eq]. destruct (get_nat_flag e IS_DIRTY) eqn:Ed.
  - by destruct (S k e He Ed Hc).
  - by rewrite (clean_cval sbi s k e).
Qed.

(** ** Building the list *)

Section build.
Context (s : nat_store) (W : nat_ok sbi s).
#[local] Abbreviation c := (nc (nm s)).
#[local] Abbreviation max := (max_nid (nm s)).
#[local] Abbreviation nb := (nat_blocks (nm s)).
#[local] Abbreviation f0 := (fn (nm s)).
#[local] Abbreviation jl := (nats_in_cursum (njnl s)).
#[local] Abbreviation scan_ok := (scan_ok sbi s f0).

Lemma free_scan : free_ok s -> scan_ok f0.
Proof.
  intros F. split; [apply F|done| |apply F|done]. intros k Hk. pose proof (fr_free _ F k Hk). split; [by eapply qidle_not_in_use|by left].
Qed.
Lemma scan_free f : free_ok s -> scan_ok f -> (forall k, free_nid_root f !! k = Some FREE_NID -> qidle sbi s k = true) -> 0 <= next_scan_nid f ->
  free_ok (with_fn s f).
Proof.
  intros F S Hq Hn. split.
  - apply S.
  - exact Hq.
  - intros k Hk. apply (fr_pre _ F). pose proof (sc_pre _ _ _ _ S k) as E. unfold is_prealloc in E.
    change (free_nid_root f !! k = Some PREALLOC_NID) in Hk. rewrite (bool_decide_eq_true_2 _ Hk) in E. symmetry in E. by apply bool_decide_eq_true in E.
  - apply (sc_bits _ _ _ _ S).
  - change (available_nids f = u32 (count_upto (usable (with_fn s f)) (Z.to_nat max) - count_upto (merged s) (Z.to_nat max))).
    rewrite (sc_avail _ _ _ _ S), (fr_avail _ F). do 2 f_equal. apply count_upto_ext. intros k _. unfold usable.
    change (qidle sbi (with_fn s f) k) with (qidle sbi s k). change (fn (nm (with_fn s f))) with f. by rewrite (sc_pre _ _ _ _ S).
  - exact Hn.
Qed.
Lemma journal_nodup : NoDup (map fst jl) /\ zlen jl <= NAT_JOURNAL_ENTRIES.
Proof.
  split; [apply (no_jnl _ _ W)|]. pose proof (nj_n _ _ (no_jnl _ _ W)). unfold nats_in_cursum, zlen. rewrite length_take. lia.
Qed.
(** After the journal is looked at, the list is right. *)
Lemma journal_pass f : scan_ok f -> let f' := scan_journal jl c f in
  scan_ok f' /\ same_bits f f' /\ next_scan_nid f' = next_scan_nid f /\ cnt_free f - NAT_JOURNAL_ENTRIES <= cnt_free f' /\
  (forall k, free_nid_root f' !! k = Some FREE_NID -> qidle sbi s k = true) /\
  (forall k, free_nid_root f !! k = Some FREE_NID -> (forall r, jval (njnl s) k = Some r -> rn_block_addr r = NULL_ADDR) -> free_nid_root f' !! k = Some FREE_NID) /\
  (forall k r, free_nid_root f' !! k = Some FREE_NID -> jval (njnl s) k = Some r -> rn_block_addr r = NULL_ADDR) /\
  (forall k r, jval (njnl s) k = Some r -> rn_block_addr r = NULL_ADDR -> eligible_nid s f0 k -> free_nid_root f' !! k = Some FREE_NID).
Proof.
  intros S. cbv zeta. destruct journal_nodup as [Hn Hl].
  destruct (scan_journal_ok sbi s W f0 jl f S Hn) as (S' & B & C & N & T1 & T2 & T3 & T4); [done|]. pose proof (no_jnl _ _ W) as Wj.
  assert (forall k r, jval (njnl s) k = Some r <-> (k, r) ∈ jl) as Hj by (intros; by apply (jval_in max)). split_and!.
  - done.
  - done.
  - done.
  - lia.
  - intros k Hk. destruct (sc_free _ _ _ _ S' k Hk) as [_ [?|(r & Hr & Hb)]]; [done|]. by destruct Hb; apply (T1 k Hk), Hj.
  - intros k Hk Hr. apply T2; [done|]. intros r Hin. by apply Hr, Hj.
  - intros k r Hk Hr%Hj. by apply (T1 k).
  - intros k r Hr%Hj. apply T3. done.
Qed.

Record built (f' : free_nids) : Prop := {
  bd_free : free_ok (with_fn s f');
  bd_pre k : is_prealloc f' k = is_prealloc f0 k;
  bd_avail : available_nids f' = available_nids f0;
  bd_mono b : scanned f0 b = true -> scanned f' b = true;
  bd_complete : steady sbi s -> aligned f0 -> all_complete s f0 -> all_complete s f';
  bd_aligned : aligned f0 -> aligned f';
  bd_keep k : steady sbi s -> free_nid_root f0 !! k = Some FREE_NID -> free_nid_root f' !! k = Some FREE_NID;
}.
Lemma same_bits_complete f f' : same_bits f f' -> (forall k, is_prealloc f' k = is_prealloc f k) -> all_complete s f -> all_complete s f'.
Proof.
  intros [E1 E2] Hp A b Hb Hs nid Eb Hn Hq Hpre. rewrite E2. rewrite Hp in Hpre. apply (A b); [done| |done..]. unfold scanned in *. by rewrite <- E1.
Qed.
Lemma scanned_complete f f' nid : steady sbi s -> scan_ok f -> pages_scanned sbi s f0 nid f f' -> START_NID nid = nid -> all_complete s f -> all_complete s f'.
Proof.
  intros S Sc P Ha A b Hb Hs k Eb Hk Hq Hpre. destruct P as [P1 P2 P3 P4 P5 P6]. pose proof (qidle_not_in_use sbi s k Hq) as Hu.
  assert (is_prealloc f0 k = false) as Hp0 by (by rewrite <- (sc_pre _ _ _ _ P1)).
  destruct (scanned f b) eqn:Es.
  - rewrite P5 by (lia || by rewrite Eb). apply (A b); [done..|]. by rewrite (sc_pre _ _ _ _ Sc).
  - destruct (jval (njnl s) k) as [r|] eqn:Ej; [right; left; by eexists|]. left. apply P6; [lia|by rewrite Eb|by rewrite Eb| |split; [lia|done]|by apply idle_page].
    intros En. rewrite <- Ha, start_block, <- En, <- start_block. pose proof (offset_range k). lia.
Qed.
(** The pass over the bits that a build starts with, unless it is at mount *)
Lemma bits_pass mount : free_ok s -> exists f2, (if negb mount then scan_free_nid_bits s else s) = with_fn s f2 /\ scan_ok f2 /\ same_bits f0 f2 /\
  next_scan_nid f2 = next_scan_nid f0 /\ (forall k, free_nid_root f2 !! k = Some FREE_NID -> qidle sbi s k = true) /\
  (forall k, steady sbi s -> free_nid_root f0 !! k = Some FREE_NID -> free_nid_root f2 !! k = Some FREE_NID) /\
  (forall k, mount = false -> steady sbi s -> 0 < k < max -> usable s k = true -> all_complete s f0 -> scanned f0 (block k) = true -> 0 < cnt_free f2).
Proof.
  intros F. pose proof (free_scan F) as S0. destruct (geom_max sbi s W) as (M1 & M2 & M3). pose proof nents_range.
  assert (with_fn s f0 = s) as Eid by (by destruct s as [[] ? ?]).
  destruct mount; cbn [negb]; [exists f0; split_and!; try done; apply F|].
  destruct (scan_blocks_ok sbi s W f0 (Z.to_nat nb) 0 f0 S0) as (S1 & G1 & Q1 & T1); [lia|lia|].
  set (f1 := scan_blocks (Z.to_nat nb) c 0 f0) in *. destruct (journal_pass f1 S1) as (S2 & Q2 & N2 & C2 & R2 & K2 & L2 & J2).
  set (f2 := scan_journal jl c f1) in *. exists f2. split_and!; [done|done| |rewrite N2; apply G1|done|..].
  - split; [rewrite (proj1 Q2); apply Q1|]. intros k. rewrite (proj2 Q2). apply Q1.
  - intros k St Hk. apply K2; [by apply (gr_free _ _ G1)|]. intros r. apply idle_journal; [done..|]. by apply (fr_free _ F).
  - intros k _ St Hk Hu A Hs. unfold usable in Hu. apply andb_true_iff in Hu as [[_ Hq]%andb_true_iff Hp%negb_true_iff].
    assert (eligible_nid s f0 k) as Hel by (split; [done|split; [by eapply qidle_not_in_use|done]]).
    assert (free_nid_root f2 !! k = Some FREE_NID -> 0 < cnt_free f2) as Hpos.
    { intros Hf. rewrite (fo_cnt _ _ _ (sc_fn _ _ _ _ S2)). apply (fo_list _ _ _ (sc_fn _ _ _ _ S2)) in Hf. by eapply zlen_elem. }
    destruct (jval (njnl s) k) as [r|] eqn:Ej; [apply Hpos, (J2 k r); [done|by eapply idle_journal|done]|].
    pose proof (nid_block max nb M1 k ltac:(lia)) as Hb. destruct (A (block k) Hb Hs k eq_refl Hk Hq Hp) as [Hbit|[[? ?]|Hm]]; [|congruence|by rewrite steady_not_merged in Hm].
    destruct T1 as [Hm|T1]; [pose proof njents_few; unfold MAX_FREE_NIDS in Hm; lia|].
    apply Hpos, K2; [|intros r; congruence]. apply T1; [lia|done..].
Qed.
Lemma build_ok mem_ok sync mount : free_ok s -> exists f', __f2fs_build_free_nids sbi mem_ok sync mount s = with_fn s f' /\ built f' /\
  (sync = true -> mount = false -> steady sbi s -> cnt_free f0 < EPB -> 0 < cnt_free f' \/
    (let b := block (if max <=? next_scan_nid f0 then 0 else next_scan_nid f0) in
     next_scan_nid f' = nid_at s (b + 8) /\ (forall j, 0 <= j < 8 -> scanned f' ((b + j) mod nb) = true) /\
     forall k, 0 < k < max -> usable s k = true -> all_complete s f0 -> scanned f0 (block k) = true -> False)).
Proof.
  intros F. destruct (geom_max sbi s W) as (M1 & M2 & M3). pose proof nents_range.
  assert (with_fn s f0 = s) as Eid by (by destruct s as [[] ? ?]).
  assert (built f0) as B0 by (split; try done; by rewrite Eid).
  unfold __f2fs_build_free_nids. destruct (Z.leb_spec EPB (cnt_free f0)) as [He|He].
  { exists f0. split; [by rewrite Eid|]. split; [done|lia]. }
  destruct (negb sync && negb mem_ok) eqn:Em.
  { exists f0. split; [by rewrite Eid|]. split; [done|]. intros ->. done. }
  destruct (bits_pass mount F) as (f2 & -> & S2 & Q02 & N02 & R2 & K02 & Hfound). change (fn (nm (with_fn s f2))) with f2.
  assert (forall k, is_prealloc f2 k = is_prealloc f0 k) as P02 by (intros; apply (sc_pre _ _ _ _ S2)).
  assert (free_ok (with_fn s f2)) as F2 by (apply scan_free; [done..|]; rewrite N02; apply F).
  destruct (negb mount && (EPB <=? cnt_free f2)) eqn:Eenough.
  { exists f2. split; [done|]. split; [|intros; left; apply andb_true_iff in Eenough as [_ ?%Z.leb_le]; lia]. split.
    - done.
    - done.
    - apply (sc_avail _ _ _ _ S2).
    - intros b. unfold scanned. by rewrite (proj1 Q02).
    - intros _ _. by apply same_bits_complete.
    - unfold aligned. by rewrite N02.
    - intros k. apply K02. }
  set (nid := if max <=? next_scan_nid f0 then 0 else next_scan_nid f0). pose proof (fr_next _ F).
  assert (0 <= nid < max) as Hnid by (unfold nid; destruct (Z.leb_spec max (next_scan_nid f0)); nia).
  destruct (scan_pages_ok sbi s W f0 (Z.to_nat FREE_NID_PAGES) nid f2 S2 Hnid) as (f3 & E3 & P3 & V3 & N3). rewrite E3. rewrite decide_False in N3 by done.
  destruct (journal_pass f3 (ps_ok _ _ _ _ _ _ P3)) as (S4 & Q4 & N4 & C4 & R4 & K4 & L4 & J4). set (f4 := scan_journal jl c f3) in *.
  change (scan_curseg_cache (with_fn s f3)) with (with_fn s f4). exists f4. split; [done|].
  change (Z.of_nat (Z.to_nat FREE_NID_PAGES)) with 8 in *. destruct (nid_at_range sbi s W (block nid + 8)) as (A1 & A2 & A3).
  assert (forall k, is_prealloc f4 k = is_prealloc f3 k) as P34 by (intros; by rewrite (sc_pre _ _ _ _ S4), (sc_pre _ _ _ _ (ps_ok _ _ _ _ _ _ P3))).
  assert (forall k, steady sbi s -> free_nid_root f2 !! k = Some FREE_NID -> free_nid_root f4 !! k = Some FREE_NID) as K24.
  { intros k St Hk. apply K4; [by apply (ps_free _ _ _ _ _ _ P3)|]. intros r. apply idle_journal; [done..|]. by apply R2. }
  assert (aligned f0 -> START_NID nid = nid) as Hal by (unfold nid, aligned; case (max <=? next_scan_nid f0); [intros _; reflexivity|exact id]).
  split; [split|].
  - apply scan_free; [done..|]. rewrite N4, N3. lia.
  - apply (sc_pre _ _ _ _ S4).
  - apply (sc_avail _ _ _ _ S4).
  - intros b Hb. unfold scanned. rewrite (proj1 Q4). apply (ps_mono _ _ _ _ _ _ P3). unfold scanned. by rewrite (proj1 Q02).
  - intros St Ha A. apply (same_bits_complete f3); [done..|]. apply (scanned_complete f2 f3 nid); [done..|by apply Hal|]. by apply (same_bits_complete f0).
  - intros _. unfold aligned. rewrite N4, N3. done.
  - intros k St Hk. by apply K24, K02.
  - intros _ Em2 St _. assert (forall k, free_nid_root f4 !! k = Some FREE_NID -> 0 < cnt_free f4) as Hpos.
    { intros k Hk. rewrite (fo_cnt _ _ _ (sc_fn _ _ _ _ S4)). apply (fo_list _ _ _ (sc_fn _ _ _ _ S4)) in Hk. by eapply zlen_elem. }
    destruct (decide (0 < cnt_free f4)) as [|Hz]; [by left|right]. cbv zeta. fold nid. split_and!; [by rewrite N4, N3| |].
    + intros j Hj. unfold scanned. rewrite (proj1 Q4). by apply V3.
    + intros k Hk Hu A Hs. pose proof (Hfound k Em2 St Hk Hu A Hs) as Hc2.
      rewrite (fo_cnt _ _ _ (sc_fn _ _ _ _ S2)) in Hc2. destruct (zlen_first _ Hc2) as [k2 Hin].
      destruct Hz. apply (Hpos k2), K24, (fo_list _ _ _ (sc_fn _ _ _ _ S2)), Hin. done.
Qed.
End build.

(** ** Operations on the list alone *)

Lemma count_upto_some Q n : 0 < count_upto Q n -> exists k, 0 <= k < Z.of_nat n /\ Q k = true.
Proof.
  intros Hc. destruct (count_upto_sub (fun _ => false) Q n) as (k & Hk & HQ & _); [done| |by exists k].
  by rewrite (count_upto_none (fun _ => false)).
Qed.
Lemma nat_ok_fn s f : nat_ok sbi s -> nat_ok sbi (with_fn s f).
Proof. intros [W1 W2 W3 W4 W5 W6 W7]. split; [by destruct W1|done..]. Qed.
Lemma with_fn_twice s f f' : with_fn (with_fn s f) f' = with_fn s f'.
Proof. done. Qed.
Lemma with_fn_id s : with_fn s (fn (nm s)) = s.
Proof. by destruct s as [[] ? ?]. Qed.
Lemma free_change s f' d : free_ok s -> fn_ok (max_nid (nm s)) (nat_blocks (nm s)) f' ->
  (forall k, free_nid_root f' !! k = Some FREE_NID -> qidle sbi s k = true) ->
  (forall k, free_nid_root f' !! k = Some PREALLOC_NID -> free_nid_root (fn (nm s)) !! k = Some PREALLOC_NID \/ qidle sbi s k = true) ->
  bits_ok sbi s f' -> available_nids f' = u32 (available_nids (fn (nm s)) + d) ->
  count_upto (usable (with_fn s f')) (Z.to_nat (max_nid (nm s))) = count_upto (usable s) (Z.to_nat (max_nid (nm s))) + d ->
  next_scan_nid f' = next_scan_nid (fn (nm s)) -> free_ok (with_fn s f').
Proof.
  intros F Fn Hf Hp Hb Ha Hc Hn. split.
  - done.
  - exact Hf.
  - intros k Hk. destruct (Hp k Hk) as [?|?]; [by apply (fr_pre _ F)|by left].
  - exact Hb.
  - change (available_nids f' = u32 (count_upto (usable (with_fn s f')) (Z.to_nat (max_nid (nm s))) - count_upto (merged s) (Z.to_nat (max_nid (nm s))))).
    rewrite Ha, Hc, (fr_avail _ F), u32_add_l. f_equal. lia.
  - change (0 <= next_scan_nid f'). rewrite Hn. apply F.
Qed.
(** Only nid [nid] of the tree and of the bits changes. *)
Lemma usable_change s f' nid : 0 < nid < max_nid (nm s) -> (forall k, k <> nid -> is_prealloc f' k = is_prealloc (fn (nm s)) k) ->
  count_upto (usable (with_fn s f')) (Z.to_nat (max_nid (nm s))) =
  count_upto (usable s) (Z.to_nat (max_nid (nm s))) + (Z.b2z (usable (with_fn s f') nid) - Z.b2z (usable s nid)).
Proof.
  intros Hn Hp. apply count_upto_update; [lia|]. intros k _ Hk. unfold usable. change (fn (nm (with_fn s f'))) with f'. by rewrite Hp.
Qed.

Record taken (s : nat_store) (nid : Z) (f' : free_nids) : Prop := {
  tk_nid : 0 < nid < max_nid (nm s) /\ usable s nid = true;
  tk_free : free_ok (with_fn s f');
  tk_pre k : is_prealloc f' k = (k =? nid) || is_prealloc (fn (nm s)) k;
  tk_aligned : aligned (fn (nm s)) -> aligned f';
  tk_complete : all_complete s (fn (nm s)) -> all_complete s f';
}.
Lemma take_ok s nid l (f := fn (nm s)) : nat_ok sbi s -> free_ok s -> free_nid_list f = nid :: l ->
  taken s nid (update_free_nid_bitmap nid false false ((__move_free_nid nid FREE_NID PREALLOC_NID f) <| available_nids ::= fun n => u32 (n - 1) |>)).
Proof.
  intros W F El. destruct (geom_max sbi s W) as (M1 & M2 & M3). pose proof (fr_fn _ F) as Fn.
  assert (free_nid_root f !! nid = Some FREE_NID) as Hr by (apply (fo_list _ _ _ Fn); unfold f in El; rewrite El; by left).
  pose proof (fo_root _ _ _ Fn _ _ Hr) as Hnid. destruct (take_free_ok _ _ M1 M2 M3 nid f Fn Hr) as (F1 & R1 & C1).
  set (f1 := __move_free_nid nid FREE_NID PREALLOC_NID f) in *. set (f2 := f1 <| available_nids ::= fun n => u32 (n - 1) |>).
  assert (fn_ok (max_nid (nm s)) (nat_blocks (nm s)) f2) as F2 by (destruct F1; by split).
  destruct (update_bitmap_ok _ _ M1 nid false false f2 F2 ltac:(lia)) as [F3 R3]; [done|]. set (f3 := update_free_nid_bitmap nid false false f2) in *.
  assert (forall k, free_nid_root f3 !! k = if k =? nid then Some PREALLOC_NID else free_nid_root f !! k) as Hroot.
  { intros k. rewrite (rb_root _ _ _ _ R3). apply (rt_root _ _ _ R1). }
  assert (forall k, is_prealloc f3 k = (k =? nid) || is_prealloc f k) as Hpre.
  { intros k. unfold is_prealloc. rewrite Hroot. by destruct (k =? nid). }
  assert (forall k, scanned f3 k = scanned f k) as Hsc by (intros k; unfold scanned; rewrite (rb_blocks _ _ _ _ R3); exact (f_equal (test_bit k) (rt_blocks _ _ _ R1))).
  assert (forall k, 0 <= k < max_nid (nm s) -> free_bit f3 k = true -> free_bit f k = true) as Hbit.
  { intros k Hk. rewrite (rb_bit _ _ _ _ R3) by done. assert (free_bit f2 k = free_bit f k) as -> by exact (f_equal (fun a => test_bit (k - START_NID k) a.[block k]) (rt_bits _ _ _ R1)).
    by destruct ((k =? nid) && _). }
  assert (usable s nid = true) as Hu.
  { unfold usable, is_prealloc. fold f. rewrite Hr, (fr_free _ F nid Hr), bool_decide_eq_false_2 by done. by replace (0 <? nid) with true by lia. }
  split; [done|..].
  - apply (free_change s f3 (-1)); [done..| | | | | |].
    + intros k. rewrite Hroot. destruct (k =? nid); [done|apply (fr_free _ F)].
    + intros k. rewrite Hroot. destruct (Z.eqb_spec k nid) as [->|]; [intros _; right; by apply (fr_free _ F)|by left].
    + intros k Hk Hb. apply (fr_bits _ F); [done|]. by apply Hbit; [lia|].
    + rewrite (rb_avail _ _ _ _ R3). cbn [f2 available_nids upd]. by rewrite (rt_avail _ _ _ R1).
    + rewrite (usable_change s f3 nid) by (done || (intros k Hk; rewrite Hpre; by rewrite (proj2 (Z.eqb_neq k nid)))).
      rewrite Hu. unfold usable at 2. change (fn (nm (with_fn s f3))) with f3. rewrite Hpre, Z.eqb_refl. cbn [orb negb]. rewrite andb_false_r. cbn. lia.
    + rewrite (rb_next _ _ _ _ R3). apply (rt_next _ _ _ R1).
  - done.
  - unfold aligned. assert (next_scan_nid f3 = next_scan_nid f) as -> by (rewrite (rb_next _ _ _ _ R3); apply (rt_next _ _ _ R1)). done.
  - intros A b Hb Hs k Eb Hk Hq Hp. rewrite Hpre in Hp. apply orb_false_iff in Hp as [Hne Hp]. rewrite Hsc in Hs.
    rewrite (rb_bit _ _ _ _ R3), Hne by lia. cbn [andb].
    assert (free_bit f2 k = free_bit f k) as -> by exact (f_equal (fun a => test_bit (k - START_NID k) a.[block k]) (rt_bits _ _ _ R1)). by apply (A b).
Qed.

(** A list state reached by building only *)
Record rebuilt (s : nat_store) (f' : free_nids) : Prop := {
  re_free : free_ok (with_fn s f');
  re_pre k : is_prealloc f' k = is_prealloc (fn (nm s)) k;
  re_avail : available_nids f' = available_nids (fn (nm s));
  re_aligned : aligned (fn (nm s)) -> aligned f';
  re_complete : steady sbi s -> aligned (fn (nm s)) -> all_complete s (fn (nm s)) -> all_complete s f';
}.
Lemma rebuilt_refl s : free_ok s -> rebuilt s (fn (nm s)).
Proof. intros F. split; try done. by rewrite with_fn_id. Qed.
Lemma rebuilt_built s f f' : rebuilt s f -> built (with_fn s f) f' -> rebuilt s f'.
Proof.
  intros [R1 R2 R3 R4 R5] [B1 B2 B3 B4 B5 B6 _]. split.
  - done.
  - intros k. rewrite <- R2. apply B2.
  - rewrite <- R3. apply B3.
  - intros A. by apply B6, R4.
  - intros S A C. apply (B5 S); [by apply R4|by apply R5].
Qed.
Lemma usable_rebuilt s f k : rebuilt s f -> usable (with_fn s f) k = usable s k.
Proof. intros R. unfold usable. change (fn (nm (with_fn s f))) with f. by rewrite (re_pre _ _ R). Qed.
Lemma taken_rebuilt s f f' nid : rebuilt s f -> taken (with_fn s f) nid f' -> steady sbi s ->
  0 < nid < max_nid (nm s) /\ usable s nid = true /\ free_ok (with_fn s f') /\
  (forall k, is_prealloc f' k = (k =? nid) || is_prealloc (fn (nm s)) k) /\
  (aligned (fn (nm s)) -> all_complete s (fn (nm s)) -> aligned f' /\ all_complete s f').
Proof.
  intros R [[T1 T2] T3 T4 T5 T6] S. split_and!.
  - apply T1.
  - apply T1.
  - by rewrite <- (usable_rebuilt s f).
  - exact T3.
  - intros k. rewrite T4. by rewrite <- (re_pre _ _ R).
  - intros A C. split; [by apply T5, (re_aligned _ _ R)|]. apply T6. by apply (re_complete _ _ R).
Qed.
(** What an allocation returns *)
Definition allocated (s : nat_store) (r : option Z) (s' : nat_store) : Prop := exists f',
  s' = with_fn s f' /\ free_ok s' /\ (aligned (fn (nm s)) -> all_complete s (fn (nm s)) -> aligned f' /\ all_complete s f') /\
  match r with
  | Some nid => 0 < nid < max_nid (nm s) /\ usable s nid = true /\ forall k, is_prealloc f' k = (k =? nid) || is_prealloc (fn (nm s)) k
  | None => (forall k, 0 < k < max_nid (nm s) -> usable s k = false) /\ forall k, is_prealloc f' k = is_prealloc (fn (nm s)) k
  end.
Lemma none_usable s f : nat_ok sbi s -> steady sbi s -> rebuilt s f -> (available_nids f = 0 <-> forall k, 0 < k < max_nid (nm s) -> usable s k = false).
Proof.
  intros W S R. rewrite (re_avail _ _ R). pose proof (re_free _ _ R) as F.
  assert (available_nids f = count_upto (usable s) (Z.to_nat (max_nid (nm s)))) as Ea.
  { rewrite (count_upto_ext _ (usable (with_fn s f))) by (intros; symmetry; by apply usable_rebuilt).
    apply (steady_avail (with_fn s f)); [exact S|done|done|by apply nat_ok_fn]. }
  rewrite <- (re_avail _ _ R), Ea. destruct (geom_max sbi s W) as (M1 & M2 & M3). pose proof nents_range. split.
  - intros E k Hk. apply (count_upto_zero _ _ E). nia.
  - intros E. apply count_upto_none. intros k Hk. destruct (decide (0 < k)); [apply E; nia|]. unfold usable. by replace (0 <? k) with false by lia.
Qed.
(** One round of [f2fs_alloc_nid] *)
Lemma alloc_step fuel s f : nat_ok sbi s -> steady sbi s -> rebuilt s f ->
  (exists r s', f2fs_alloc_nid sbi (S fuel) (with_fn s f) = Done (r, s') /\ allocated s r s') \/
  (f2fs_alloc_nid sbi (S fuel) (with_fn s f) = f2fs_alloc_nid sbi fuel (__f2fs_build_free_nids sbi true true false (with_fn s f)) /\
   cnt_free f = 0 /\ exists k, 0 < k < max_nid (nm s) /\ usable s k = true).
Proof.
  intros W S R. cbn [f2fs_alloc_nid]. change (fn (nm (with_fn s f))) with f. pose proof (re_free _ _ R) as F. pose proof (fr_fn _ F) as Fn.
  destruct (Z.eqb_spec (available_nids f) 0) as [Ea|Ea].
  { left. exists None, (with_fn s f). split; [done|]. exists f. split_and!; [done|done| |by apply (none_usable s f W S R)|apply R].
    intros A C. split; [by apply (re_aligned _ _ R)|by apply (re_complete _ _ R)]. }
  unfold nz. destruct (Z.eqb_spec (cnt_free f) 0) as [Ec|Ec]; cbn [negb].
  - right. split; [done|]. split; [done|]. assert (exists k, 0 <= k < Z.of_nat (Z.to_nat (max_nid (nm s))) /\ usable (with_fn s f) k = true) as (k & Hk & Hu).
    { apply count_upto_some. pose proof (steady_avail (with_fn s f) S F Hgeom (nat_ok_fn s f W)) as E. change (fn (nm (with_fn s f))) with f in E.
      change (max_nid (nm (with_fn s f))) with (max_nid (nm s)) in E. pose proof (count_upto_range (usable (with_fn s f)) (Z.to_nat (max_nid (nm s)))). lia. }
    exists k. pose proof Hu as Hu2. unfold usable in Hu2. apply andb_true_iff in Hu2 as [[? _]%andb_true_iff _]. rewrite usable_rebuilt in Hu by done. split; [lia|done].
  - left. destruct (free_nid_list f) as [|nid l] eqn:El.
    { destruct Ec. rewrite (fo_cnt _ _ _ Fn : cnt_free f = zlen (free_nid_list f)). by rewrite El. }
    eexists _, _. split; [reflexivity|]. pose proof (take_ok (with_fn s f) nid l (nat_ok_fn s f W) F El) as T.
    destruct (taken_rebuilt s f _ nid R T S) as (T1 & T2 & T3 & T4 & T5). eexists. split; [reflexivity|].
    split; [exact T3|]. split; [exact T5|]. split; [exact T1|]. by split.
Qed.
Lemma alloc_any fuel s f : nat_ok sbi s -> steady sbi s -> rebuilt s f ->
  match f2fs_alloc_nid sbi fuel (with_fn s f) with Done (r, s') => allocated s r s' | Bug => False | NoFuel => True end.
Proof.
  intros W S. revert f. induction fuel as [|fuel IH]; intros f R; [done|].
  destruct (alloc_step fuel s f W S R) as [(r & s' & -> & A)|(-> & _)]; [done|].
  destruct (build_ok (with_fn s f) (nat_ok_fn s f W) true true false (re_free _ _ R)) as (f' & -> & B & _). apply (IH f'). by apply (rebuilt_built s f).
Qed.
(** *** The loop ends *)

Lemma alloc_turn n s f (b := block (if max_nid (nm s) <=? next_scan_nid f then 0 else next_scan_nid f)) :
  nat_ok sbi s -> steady sbi s -> rebuilt s f -> aligned (fn (nm s)) -> all_complete s (fn (nm s)) ->
  (exists p, f2fs_alloc_nid sbi (S (S n)) (with_fn s f) = Done p) \/
  exists f' k, f2fs_alloc_nid sbi (S (S n)) (with_fn s f) = f2fs_alloc_nid sbi (S n) (with_fn s f') /\ rebuilt s f' /\
    (forall b, scanned f b = true -> scanned f' b = true) /\ next_scan_nid f' = nid_at s (b + 8) /\
    (forall j, 0 <= j < 8 -> scanned f' ((b + j) mod nat_blocks (nm s)) = true) /\
    0 < k < max_nid (nm s) /\ scanned f (block k) = false.
Proof.
  intros W St R Ha A. pose proof nents_range.
  destruct (alloc_step (S n) s f W St R) as [(x & s' & E & _)|(E & Hc & k & Hk & Hu)]; [left; by exists (x, s')|]. rewrite E.
  destruct (build_ok (with_fn s f) (nat_ok_fn s f W) true true false (re_free _ _ R)) as (f' & -> & B & Hprog).
  pose proof (rebuilt_built s f f' R B) as R'. change (with_fn (with_fn s f) f') with (with_fn s f').
  destruct (Hprog eq_refl eq_refl St) as [Hpos|(Hnext & Hsc & Hno)]; [change (cnt_free f < EPB); lia|..].
  - destruct (alloc_step n s f' W St R') as [(x & s' & E2 & _)|(_ & Hz & _)]; [left; exists (x, s'); exact E2|lia].
  - right. exists f', k. split_and!; [done|done|apply (bd_mono _ _ B)|exact Hnext|exact Hsc|lia|lia|].
    apply not_true_iff_false. intros Hs. apply (Hno k); [done|by rewrite usable_rebuilt|by apply (re_complete _ _ R)|done].
Qed.
Lemma alloc_rounds fuel b0 r s f : nat_ok sbi s -> steady sbi s -> rebuilt s f -> aligned (fn (nm s)) -> all_complete s (fn (nm s)) ->
  0 <= r -> block (if max_nid (nm s) <=? next_scan_nid f then 0 else next_scan_nid f) = (b0 + 8 * r) mod nat_blocks (nm s) ->
  (forall j, 0 <= j < 8 * r -> scanned f ((b0 + j) mod nat_blocks (nm s)) = true) ->
  nat_blocks (nm s) <= 8 * (r + Z.of_nat fuel) ->
  exists p, f2fs_alloc_nid sbi (S (S fuel)) (with_fn s f) = Done p.
Proof.
  intros W St. destruct (geom_max sbi s W) as (M1 & M2 & M3). pose proof nents_range. set (nb := nat_blocks (nm s)) in *.
  revert r f. induction fuel as [|fuel IH]; intros r f R Ha A Hr Hb Hs Hall.
  - destruct (alloc_turn 0 s f W St R Ha A) as [?|(f' & k & _ & _ & _ & _ & _ & Hk & Hu)]; [done|]. exfalso.
    pose proof (nid_block (max_nid (nm s)) nb M1 k ltac:(lia)) as Hbk. set (b := block k) in *.
    assert ((b0 + (b - b0) mod nb) mod nb = b) as Eb by (rewrite Z.add_mod_idemp_r by lia; replace (b0 + (b - b0)) with b by lia; by apply Z.mod_small).
    rewrite <- Eb, Hs in Hu; [done|]. pose proof (Z.mod_pos_bound (b - b0) nb). lia.
  - destruct (alloc_turn (S fuel) s f W St R Ha A) as [?|(f' & k & -> & R' & Hmono & Hnext & Hsc & _)]; [done|].
    rewrite Hb in Hnext, Hsc. fold nb in Hsc. destruct (nid_at_range sbi s W ((b0 + 8 * r) mod nb + 8)) as (N1 & N2 & _).
    apply (IH (r + 1) f'); [done..|lia| | |lia].
    + rewrite Hnext. rewrite (proj2 (Z.leb_gt _ _)) by lia. rewrite N2. fold nb. rewrite Z.add_mod_idemp_l by lia. f_equal. lia.
    + intros j Hj. destruct (decide (j < 8 * r)) as [|Hge]; [apply Hmono, Hs; lia|].
      specialize (Hsc (j - 8 * r) ltac:(lia)). rewrite Z.add_mod_idemp_l in Hsc by lia. by replace (b0 + 8 * r + (j - 8 * r)) with (b0 + j) in Hsc by lia.
Qed.
Lemma alloc_ends s : nat_ok sbi s -> free_ok s -> steady sbi s -> aligned (fn (nm s)) -> all_complete s (fn (nm s)) ->
  exists r s', f2fs_alloc_nid sbi (Z.to_nat (nat_blocks (nm s) / 8) + 3) s = Done (r, s') /\ allocated s r s'.
Proof.
  intros W F St Ha A. destruct (geom_max sbi s W) as (M1 & M2 & M3). pose proof nents_range. set (f := fn (nm s)).
  pose proof (rebuilt_refl s F) as R. fold f in R.
  set (nid := if max_nid (nm s) <=? next_scan_nid f then 0 else next_scan_nid f). pose proof (fr_next _ F).
  assert (0 <= nid < max_nid (nm s)) as Hnid by (unfold nid, f; destruct (Z.leb_spec (max_nid (nm s)) (next_scan_nid (fn (nm s)))); nia).
  pose proof (nid_block _ _ M1 nid Hnid) as Hb. destruct (alloc_rounds (S (Z.to_nat (nat_blocks (nm s) / 8))) (block nid) 0 s f) as [[r s'] E]; try done.
  - fold nid. rewrite Z.mul_0_r, Z.add_0_r. by rewrite Z.mod_small.
  - intros j Hj. lia.
  - pose proof (Z.div_mod (nat_blocks (nm s)) 8). pose proof (Z.mod_pos_bound (nat_blocks (nm s)) 8). pose proof (Z.div_pos (nat_blocks (nm s)) 8). lia.
  - exists r, s'. replace (_ + 3)%nat with (S (S (S (Z.to_nat (nat_blocks (nm s) / 8))))) by lia. pose proof (with_fn_id s : with_fn s f = s) as Es.
    rewrite Es in E. split; [done|]. pose proof (alloc_any (S (S (S (Z.to_nat (nat_blocks (nm s) / 8))))) s f W St R) as Hany. by rewrite Es, E in Hany.
Qed.

(** ** Ending an allocation, and shrinking the list *)

Lemma avail_same s : free_ok s -> u32 (available_nids (fn (nm s)) + 0) = available_nids (fn (nm s)).
Proof. intros F. rewrite (fr_avail _ F), Z.add_0_r. apply u32_u32. Qed.
Lemma retree_bit f f' r k : retree f f' r -> free_bit f' k = free_bit f k.
Proof. intros R. unfold free_bit. by rewrite (rt_bits _ _ _ R). Qed.
Lemma done_ok s nid (f := fn (nm s)) : nat_ok sbi s -> free_ok s -> free_nid_root f !! nid = Some PREALLOC_NID -> qidle sbi s nid = false ->
  exists f', f2fs_alloc_nid_done nid (nm s) = Done (nm (with_fn s f')) /\ free_ok (with_fn s f') /\
    (forall k, is_prealloc f' k = is_prealloc f k && negb (k =? nid)) /\ (aligned f -> aligned f') /\ (all_complete s f -> all_complete s f').
Proof.
  intros W F Hp Hq. destruct (geom_max sbi s W) as (M1 & M2 & M3). pose proof (fr_fn _ F) as Fn. pose proof (fo_root _ _ _ Fn _ _ Hp) as Hnid.
  destruct (remove_prealloc_ok _ _ nid f Fn Hp) as [F1 R1]. set (f1 := __remove_free_nid nid PREALLOC_NID f) in *.
  assert (forall k, is_prealloc f1 k = is_prealloc f k && negb (k =? nid)) as Hpre.
  { intros k. unfold is_prealloc. rewrite (rt_root _ _ _ R1). destruct (k =? nid); by rewrite ?andb_false_r, ?andb_true_r. }
  exists f1. split; [unfold f2fs_alloc_nid_done; fold f; rewrite Hp; rewrite bug_on_false by by rewrite bool_decide_eq_true_2|split; [|split; [done|split]]].
  - done.
  - apply (free_change s f1 0); [done..| | | | | |].
    + intros k. rewrite (rt_root _ _ _ R1). destruct (k =? nid); [done|apply (fr_free _ F)].
    + intros k. rewrite (rt_root _ _ _ R1). destruct (k =? nid); [done|by left].
    + intros k Hk. rewrite (retree_bit _ _ _ _ R1). by apply (fr_bits _ F).
    + rewrite (rt_avail _ _ _ R1). symmetry. by apply avail_same.
    + rewrite (usable_change s f1 nid) by (done || (intros k Hk; rewrite Hpre, (proj2 (Z.eqb_neq k nid)) by done; by rewrite andb_true_r)).
      unfold usable at 2 3. change (qidle sbi (with_fn s f1) nid) with (qidle sbi s nid). rewrite Hq. by rewrite !andb_false_r.
    + apply (rt_next _ _ _ R1).
  - unfold aligned. by rewrite (rt_next _ _ _ R1).
  - intros A b Hb Hs k Eb Hk Hqk Hpk. rewrite Hpre in Hpk. rewrite (retree_bit _ _ _ _ R1). apply (A b); [done| |done|done|done|].
    + unfold scanned in *. by rewrite <- (rt_blocks _ _ _ R1).
    + destruct (Z.eqb_spec k nid) as [->|]; [congruence|]. by rewrite andb_true_r in Hpk.
Qed.
Lemma failed_ok mem_ok s nid (f := fn (nm s)) : nat_ok sbi s -> free_ok s -> steady sbi s -> free_nid_root f !! nid = Some PREALLOC_NID -> qidle sbi s nid = true ->
  exists f', f2fs_alloc_nid_failed mem_ok nid (nm s) = Done (nm (with_fn s f')) /\ free_ok (with_fn s f') /\
    (forall k, is_prealloc f' k = is_prealloc f k && negb (k =? nid)) /\ (aligned f -> aligned f') /\ (all_complete s f -> all_complete s f').
Proof.
  intros W F St Hp Hq. destruct (geom_max sbi s W) as (M1 & M2 & M3). pose proof (fr_fn _ F) as Fn. pose proof (fo_root _ _ _ Fn _ _ Hp) as Hnid.
  set (f1 := if negb mem_ok then __remove_free_nid nid PREALLOC_NID f else __move_free_nid nid PREALLOC_NID FREE_NID f).
  assert (exists st, st <> Some PREALLOC_NID /\ fn_ok (max_nid (nm s)) (nat_blocks (nm s)) f1 /\
    retree f f1 (fun k => if k =? nid then st else free_nid_root f !! k)) as (st & Hst & F1 & R1).
  { unfold f1. destruct mem_ok; cbn [negb].
    - destruct (give_back_ok _ _ M1 M2 M3 nid f Fn Hp) as (? & ? & _). by exists (Some FREE_NID).
    - destruct (remove_prealloc_ok _ _ nid f Fn Hp). by exists None. }
  set (f2 := f1 <| available_nids ::= fun n => u32 (n + 1) |>).
  assert (fn_ok (max_nid (nm s)) (nat_blocks (nm s)) f2) as F2 by (destruct F1; by split).
  destruct (update_bitmap_ok _ _ M1 nid true false f2 F2 ltac:(lia)) as [F3 R3]; [done|]. set (f3 := update_free_nid_bitmap nid true false f2) in *.
  assert (forall k, free_nid_root f3 !! k = if k =? nid then st else free_nid_root f !! k) as Hroot.
  { intros k. rewrite (rb_root _ _ _ _ R3). apply (rt_root _ _ _ R1). }
  assert (forall k, is_prealloc f3 k = is_prealloc f k && negb (k =? nid)) as Hpre.
  { intros k. unfold is_prealloc. rewrite Hroot. destruct (k =? nid); [rewrite bool_decide_eq_false_2 by done; by rewrite andb_false_r|by rewrite andb_true_r]. }
  assert (forall k, scanned f3 k = scanned f k) as Hsc by (intros k; unfold scanned; rewrite (rb_blocks _ _ _ _ R3); exact (f_equal (test_bit k) (rt_blocks _ _ _ R1))).
  assert (scanned f2 (block nid) = scanned f (block nid)) as Hsc2 by exact (f_equal (test_bit (block nid)) (rt_blocks _ _ _ R1)).
  assert (forall k, 0 <= k < max_nid (nm s) -> free_bit f3 k = if (k =? nid) && scanned f (block nid) then true else free_bit f k) as Hbit.
  { intros k Hk. rewrite (rb_bit _ _ _ _ R3), Hsc2 by done. assert (free_bit f2 k = free_bit f k) as -> by exact (retree_bit _ _ _ k R1). done. }
  exists f3. split; [|split; [|split; [done|split]]].
  - unfold f2fs_alloc_nid_failed. replace (nid =? 0) with false by lia. fold f. rewrite Hp.
    rewrite bug_on_false by by rewrite bool_decide_eq_true_2. done.
  - apply (free_change s f3 1); [done..| | | | | |].
    + intros k. rewrite Hroot. destruct (Z.eqb_spec k nid) as [->|]; [done|apply (fr_free _ F)].
    + intros k. rewrite Hroot. destruct (Z.eqb_spec k nid) as [->|]; [done|by left].
    + intros k Hk. rewrite Hbit by lia. destruct (Z.eqb_spec k nid) as [->|]; [|by apply (fr_bits _ F)].
      intros _. right. destruct (jval (njnl s) nid) eqn:Ej; [left; by eexists|right; by apply idle_page].
    + rewrite (rb_avail _ _ _ _ R3). cbn [f2 available_nids upd]. by rewrite (rt_avail _ _ _ R1).
    + rewrite (usable_change s f3 nid) by (done || (intros k Hk; rewrite Hpre, (proj2 (Z.eqb_neq k nid)) by done; by rewrite andb_true_r)).
      unfold usable at 2 3. change (qidle sbi (with_fn s f3) nid) with (qidle sbi s nid). change (fn (nm (with_fn s f3))) with f3.
      rewrite Hpre, Hq, Z.eqb_refl, andb_false_r. fold f. assert (is_prealloc f nid = true) as -> by by apply bool_decide_eq_true_2.
      replace (0 <? nid) with true by lia. cbn. lia.
    + rewrite (rb_next _ _ _ _ R3). apply (rt_next _ _ _ R1).
  - unfold aligned. assert (next_scan_nid f3 = next_scan_nid f) as -> by (rewrite (rb_next _ _ _ _ R3); apply (rt_next _ _ _ R1)). done.
  - intros A b Hb Hs k Eb Hk Hqk Hpk. rewrite Hpre in Hpk. rewrite Hsc in Hs. rewrite Hbit by lia. destruct (Z.eqb_spec k nid) as [->|].
    + rewrite Eb, Hs. by left.
    + rewrite andb_true_r in Hpk. by apply (A b).
Qed.
Record shrunk (s : nat_store) (f' : free_nids) : Prop := {
  sk_free : free_ok (with_fn s f');
  sk_pre k : is_prealloc f' k = is_prealloc (fn (nm s)) k;
  sk_bits : same_bits (fn (nm s)) f';
  sk_next : next_scan_nid f' = next_scan_nid (fn (nm s));
}.
Lemma shrunk_refl s : free_ok s -> shrunk s (fn (nm s)).
Proof. intros F. split; try done. by rewrite with_fn_id. Qed.
Lemma shrunk_one s k : nat_ok sbi s -> free_ok s -> free_nid_root (fn (nm s)) !! k = Some FREE_NID -> shrunk s (__remove_free_nid k FREE_NID (fn (nm s))).
Proof.
  intros W F Hk. destruct (geom_max sbi s W) as (M1 & M2 & M3). set (f := fn (nm s)) in *.
  destruct (remove_free_ok _ _ M1 M2 M3 k f (fr_fn _ F) Hk) as (F1 & R1 & _). set (f1 := __remove_free_nid k FREE_NID f) in *.
  assert (forall x, is_prealloc f1 x = is_prealloc f x) as Hpre.
  { intros x. unfold is_prealloc. rewrite (rt_root _ _ _ R1). destruct (Z.eqb_spec x k) as [->|]; [by rewrite Hk|done]. }
  split; [|done|split; [apply (rt_blocks _ _ _ R1)|intros; by apply (retree_bit _ _ _ _ R1)]|apply (rt_next _ _ _ R1)].
  apply (free_change s f1 0); [done..| | | | | |].
  - intros x. rewrite (rt_root _ _ _ R1). destruct (x =? k); [done|apply (fr_free _ F)].
  - intros x. rewrite (rt_root _ _ _ R1). destruct (x =? k); [done|by left].
  - intros x Hx. rewrite (retree_bit _ _ _ _ R1). by apply (fr_bits _ F).
  - rewrite (rt_avail _ _ _ R1). symmetry. by apply avail_same.
  - rewrite Z.add_0_r. apply count_upto_ext. intros x _. unfold usable. change (fn (nm (with_fn s f1))) with f1. by rewrite Hpre.
  - apply (rt_next _ _ _ R1).
Qed.
Lemma shrink_nids_ok l nr s : nat_ok sbi s -> free_ok s -> NoDup l -> (forall k, k ∈ l -> free_nid_root (fn (nm s)) !! k = Some FREE_NID) ->
  exists rest f', shrink_nids l nr (fn (nm s)) = (rest, f') /\ shrunk s f'.
Proof.
  revert nr s. induction l as [|k l IH]; intros nr s W F Hn Hl; cbn [shrink_nids]; [eexists _, _; split; [done|by apply shrunk_refl]|].
  destruct ((nr <=? 0) || (cnt_free (fn (nm s)) <=? MAX_FREE_NIDS)); [eexists _, _; split; [done|by apply shrunk_refl]|].
  apply list.NoDup_cons in Hn as [Hk Hn]. pose proof (Hl k ltac:(by left)) as Hr. destruct (shrunk_one s k W F Hr) as [S1 S2 S3 S4].
  destruct (geom_max sbi s W) as (M1 & M2 & M3). destruct (remove_free_ok _ _ M1 M2 M3 k _ (fr_fn _ F) Hr) as (_ & R1 & _).
  set (f1 := __remove_free_nid k FREE_NID (fn (nm s))) in *.
  destruct (IH (nr - 1) (with_fn s f1) (nat_ok_fn s f1 W) S1 Hn) as (rest & f' & E & [T1 T2 T3 T4]).
  { intros x Hx. change (free_nid_root f1 !! x = Some FREE_NID). rewrite (rt_root _ _ _ R1). destruct (Z.eqb_spec x k) as [->|]; [done|]. apply Hl. by right. }
  exists rest, f'. split; [exact E|]. change (fn (nm (with_fn s f1))) with f1 in *. split; [exact T1|..].
  - intros x. by rewrite T2.
  - destruct T3 as [T3 T3'], S3 as [S3 S3']. split; [congruence|]. intros x. by rewrite T3'.
  - congruence.
Qed.
End free.
