(* ===== verification/NatFlush.v ===== *)
(** * Flushing the NAT at a checkpoint

    [flush_step] is what writing one dirty entry does, to the journal or to the
    other copy of its block; [view] is the store as the flush of a set sees it,
    the page being filled already in place. *)
From stdpp Require Import gmap.
From S2P Require Import Prelude Geometry F2fsBits Sit SitFlush NatMgr NatCache NatStore FreeNid NatFree.
Open Scope Z_scope.

Section flush.
Context `{NatFormatOk}.
#[local] Abbreviation EPB := NAT_ENTRY_PER_BLOCK.
#[local] Abbreviation NJE := NAT_JOURNAL_ENTRIES.
#[local] Abbreviation block := NAT_BLOCK_OFFSET.
Context (sbi : f2fs_sb_info) (Hgeom : geom_wf sbi).

Definition view (tj : bool) (meta : Z -> list f2fs_nat_entry) (dst : Z) (x : flushing_nat) : nat_store :=
  mk_ns (x_nm x) (x_jnl x) (fun a => if tj then meta a else if decide (a = dst) then x_page x else meta a).
#[local] Abbreviation ckpt s := (f2fs_is_checkpointed_node (nc (nm s))).
#[local] Abbreviation raw_of s nid := (raw_nat_from_node_info (nval sbi s nid)).
Record same_geom (n n' : f2fs_nm_info) : Prop := {
  sg_base : nat_blkaddr n' = nat_blkaddr n; sg_max : max_nid n' = max_nid n; sg_blocks : nat_blocks n' = nat_blocks n;
  sg_bitmap : nat_bitmap n' = nat_bitmap n; sg_fsck : need_fsck n' = need_fsck n; sg_bits : nat_bits_flag n' = nat_bits_flag n;
}.
Record flush_step (tj : bool) (nid : Z) (v v' : nat_store) : Prop := {
  fs_ok : nat_ok sbi v';
  fs_geom : same_geom (nm v) (nm v');
  fs_nval k : 0 <= k < max_nid (nm v) -> nval sbi v' k = nval sbi v k;
  fs_cval k : 0 <= k < max_nid (nm v) -> cval sbi v' k = if k =? nid then raw_of v nid else cval sbi v k;
  fs_dirty k : dirty (nc (nm v')) k = negb (k =? nid) && dirty (nc (nm v)) k;
  fs_ckpt k : ckpt v' k = (k =? nid) || ckpt v k;
  fs_sets b : nat_set_root (nc (nm v')) !! b =
    (if decide (b = block nid) then fun s => mk_nes (filter (fun k => k <> nid) (entry_list s)) (u32 (entry_cnt s - 1)) else id)
      <$> nat_set_root (nc (nm v)) !! b;
  fs_jnl : if tj then n_nats (njnl v') <= n_nats (njnl v) + 1 /\ forall k, is_Some (jval (njnl v') k) <-> k = nid \/ is_Some (jval (njnl v) k)
           else njnl v' = njnl v;
  fs_pval k : 0 <= k < max_nid (nm v) -> pval sbi (nm v') (nmeta v') k =
    if negb tj && (k =? nid) then raw_of v nid else pval sbi (nm v) (nmeta v) k;
  fs_fn : fn (nm v') = if ni_blk (nval sbi v nid) =? NULL_ADDR then snd (add_free_nid (nc (nm v')) nid false true (fn (nm v)))
                       else update_free_nid_bitmap nid false false (fn (nm v));
}.
Lemma current_addr_same n n' k : nat_blkaddr n' = nat_blkaddr n -> nat_bitmap n' = nat_bitmap n -> current_nat_addr sbi n' k = current_nat_addr sbi n k.
Proof. intros E1 E2. unfold current_nat_addr. by rewrite E1, E2. Qed.
Lemma same_geom_geom n n' : same_geom n n' -> nat_geom sbi n -> nat_geom sbi n'.
Proof. intros [E1 E2 E3 E4 _ _] [G1 G2 G3 G4 G5 G6]. split; by rewrite ?E1, ?E2, ?E3, ?E4. Qed.
Lemma current_addr_block n k nid : nat_geom sbi n -> 0 <= k < max_nid n -> 0 <= nid < max_nid n ->
  current_nat_addr sbi n k = current_nat_addr sbi n nid <-> block k = block nid.
Proof.
  intros G Hk Hn. rewrite !(cur_addr sbi Hgeom) by done. split; [by intros [? _]%(nat_addr_inj sbi Hgeom)|by intros ->].
Qed.
(** The page of a block being filled *)
Lemma page_put meta n dst page nid r k : nat_geom sbi n -> 0 <= k < max_nid n -> 0 <= nid < max_nid n ->
  current_nat_addr sbi n nid = dst -> zlen page = EPB ->
  pval sbi n (fun a => if decide (a = dst) then page.[nid - START_NID nid <- r] else meta a) k =
  if k =? nid then r else pval sbi n (fun a => if decide (a = dst) then page else meta a) k.
Proof.
  intros G Hk Hn Hd Hl. unfold pval. pose proof (offset_range nid). pose proof (offset_range k). subst dst.
  destruct (decide (current_nat_addr sbi n k = current_nat_addr sbi n nid)) as [E|E].
  - apply current_addr_block in E; [|done..]. rewrite aget_aset by lia. destruct (Z.eqb_spec k nid) as [->|Hne]; [by rewrite Z.eqb_refl|].
    destruct (Z.eqb_spec (nid - START_NID nid) (k - START_NID k)) as [Eo|]; [|done]. destruct Hne. by apply nid_eq.
  - destruct (Z.eqb_spec k nid) as [->|]; done.
Qed.
Lemma flush_nat_ok tj meta dst nid x (v := view tj meta dst x) : nat_ok sbi v -> flushable (nc (x_nm x)) nid ->
  (if tj then n_nats (x_jnl x) < NJE \/ is_Some (jval (x_jnl x) nid) else current_nat_addr sbi (x_nm x) nid = dst /\ jval (x_jnl x) nid = None) ->
  exists x', flush_nat tj (block nid * EPB) nid x = Done x' /\ flush_step tj nid v (view tj meta dst x').
Proof.
  intros W (ne & He & Hd & Hb) Hroom. pose proof W as [W1 W2 W3 W4 W5 W6 W7]. cbn [nm njnl nmeta v view] in *.
  destruct (ck_nid _ _ W3 nid ne He) as [Hnid Hr]. unfold flush_nat. rewrite He. rewrite bug_on_false by by apply Z.eqb_neq.
  assert (nval sbi v nid = ni ne) as Ev by (unfold nval; cbn [nm v view]; by rewrite He).
  set (r := raw_nat_from_node_info (ni ne)). rewrite block_start.
  pose proof (clear_ok _ _ nid ne W3 He Hd Hb) as Wc. destruct (clear_root nid ne (nc (x_nm x))) as (e' & (C1 & C2 & C3 & C4) & Hroot).
  destruct (clear_rest nid (nat_reset_flag ne) (nc (x_nm x))) as (_ & _ & Hsets). set (c := __clear_nat_cache_dirty (block nid) nid _) in *.
  set (f := if ni_blk (ni ne) =? NULL_ADDR then _ else _). set (n' := ((x_nm x) <| nc := c |>) <| fn := f |>).
  assert (same_geom (x_nm x) n') as Gs by done. assert (nat_geom sbi n') as G' by by apply (same_geom_geom (x_nm x)).
  assert (exists j' page', jval j' nid = (if tj then Some r else None) /\ (forall k, k <> nid -> jval j' k = jval (x_jnl x) k) /\ njnl_ok (max_nid (x_nm x)) j' /\
     (if tj then n_nats j' <= n_nats (x_jnl x) + 1 /\ page' = x_page x else j' = x_jnl x /\ page' = (x_page x).[nid - START_NID nid <- r]) /\
     (let '(offset, j) := lookup_nat_journal (x_jnl x) nid true in
      if tj && (offset <? 0) then Bug
      else Done (mk_fln n' (if tj then j <| nat_j ::= fun a => a.[offset <- (nid, r)] |> else x_jnl x)
                       (if tj then x_page x else (x_page x).[nid - block nid * EPB <- r]))) = Done (mk_fln n' j' page')) as (j' & page' & J1 & J2 & J3 & J4 & ->).
  { destruct tj.
    - destruct (journal_store _ _ nid r W2 Hr Hroom) as (off & j' & -> & Hoff & Hok & Hn & Hj). rewrite (proj2 (Z.ltb_ge off 0)) by done. cbn [andb].
      eexists _, _. split_and!; [| | | | |reflexivity]; [by rewrite Hj, Z.eqb_refl| |done|done|done].
      intros k Hk. by rewrite Hj, (proj2 (Z.eqb_neq k nid)).
    - destruct (lookup_nat_journal (x_jnl x) nid true) as [off j']. cbn [andb]. eexists _, _. split_and!; [| | | | |reflexivity]; [by destruct Hroom|done..]. }
  eexists. split; [reflexivity|]. set (v' := view tj meta dst (mk_fln n' j' page')).
  assert (forall k, 0 <= k < max_nid (x_nm x) -> pval sbi n' (nmeta v') k = if negb tj && (k =? nid) then r else pval sbi (x_nm x) (nmeta v) k) as Hpval.
  { intros k Hk. destruct tj; cbn [negb andb]; [done|]. destruct Hroom as [Hdst _]. destruct J4 as [_ ->].
    apply (page_put meta (x_nm x) dst (x_page x) nid r k W1 Hk ltac:(lia) Hdst). specialize (W7 nid ltac:(lia)).
    by rewrite Hdst, decide_True in W7. }
  assert (forall k, 0 <= k < max_nid (x_nm x) -> cval sbi v' k = if k =? nid then r else cval sbi v k) as Hcval.
  { intros k Hk. unfold cval at 1. cbn [njnl v' view x_jnl nm x_nm]. rewrite Hpval by done. destruct (Z.eqb_spec k nid) as [->|Hne].
    - rewrite J1. by destruct tj.
    - rewrite J2, andb_false_r by done. done. }
  assert (forall k, 0 <= k < max_nid (x_nm x) -> nval sbi v' k = nval sbi v k) as Hnval.
  { intros k Hk. unfold nval. cbn [nm v' view x_nm n' nc upd v]. rewrite Hroot. destruct (decide (k = nid)) as [->|Hne]; [by rewrite He, C1|].
    rewrite Hcval, (proj2 (Z.eqb_neq k nid)) by done. done. }
  split.
  - split.
    + done.
    + exact J3.
    + exact Wc.
    + intros k e. cbn [nm v' view x_nm n' nc upd]. rewrite Hroot. destruct (decide (k = nid)) as [->|Hne].
      * intros [= <-] _. rewrite Hcval, Z.eqb_refl by lia. by rewrite C1.
      * intros Hk Hdk. destruct (ck_nid _ _ W3 k e Hk) as [_ ?]. rewrite Hcval, (proj2 (Z.eqb_neq k nid)) by (done || lia). by apply W4.
    + intros k Hk. rewrite Hcval by done. destruct (k =? nid); [done|by apply W5].
    + intros k Hk. rewrite Hpval by done. destruct (negb tj && (k =? nid)); [done|by apply W6].
    + intros k Hk. specialize (W7 k Hk). cbn [nm v' view x_nm nmeta x_page] in *. rewrite (current_addr_same (x_nm x)) by done.
      destruct tj; [done|]. destruct J4 as [_ ->]. destruct (decide _); [by rewrite zlen_aset|done].
  - done.
  - exact Hnval.
  - intros k Hk. rewrite Hcval by done. by rewrite Ev.
  - intros k. unfold dirty. cbn [nm v' view x_nm n' nc upd v]. rewrite Hroot. destruct (decide (k = nid)) as [->|Hne]; [by rewrite C2, Z.eqb_refl|].
    by rewrite (proj2 (Z.eqb_neq k nid)).
  - intros k. unfold f2fs_is_checkpointed_node, __lookup_nat_cache. cbn [nm v' view x_nm n' nc upd v]. rewrite Hroot.
    destruct (decide (k = nid)) as [->|Hne]; [by rewrite C4, Z.eqb_refl|]. by rewrite (proj2 (Z.eqb_neq k nid)).
  - intros b. cbn [nm v' view x_nm n' nc upd v]. rewrite Hsets. destruct (decide (b = block nid)) as [->|]; [done|]. by destruct (nat_set_root _ !! b).
  - cbn [njnl v' view x_jnl v]. destruct tj; [|by destruct J4]. split; [by destruct J4|]. intros k. destruct (decide (k = nid)) as [->|Hne].
    + rewrite J1. split; [by left|by eexists].
    + rewrite J2 by done. split; [by right|by intros [?|?]].
  - intros k Hk. rewrite Ev. by apply Hpval.
  - rewrite Ev. done.
Qed.

(** ** The free list follows *)

Lemma qidle_eq s k : qidle sbi s k = ckpt s k && (ni_blk (nval sbi s k) =? NULL_ADDR).
Proof. unfold qidle, f2fs_is_checkpointed_node, nval, __lookup_nat_cache. by destruct (nat_root (nc (nm s)) !! k). Qed.
Lemma merged_eq s k : merged s k = dirty (nc (nm s)) k && ckpt s k && (ni_blk (nval sbi s k) =? NULL_ADDR).
Proof. unfold merged, f2fs_is_checkpointed_node, dirty, nval, __lookup_nat_cache. by destruct (nat_root (nc (nm s)) !! k). Qed.
(** [f'] is [f] with [nid] made sure to be in the tree, and its bit set. *)
Lemma return_nid max nb c nid f (f' := snd (add_free_nid c nid false true f)) : max = EPB * nb -> max + EPB < 4294967295 -> 0 < nb ->
  fn_ok max nb f -> 0 < nid < max ->
  fn_ok max nb f' /\ available_nids f' = u32 (available_nids f + 1) /\ next_scan_nid f' = next_scan_nid f /\ nat_block_bitmap f' = nat_block_bitmap f /\
  (forall k, free_nid_root f' !! k = if k =? nid then Some (default FREE_NID (free_nid_root f !! nid)) else free_nid_root f !! k) /\
  (forall k, 0 <= k < max -> free_bit f' k = if (k =? nid) && scanned f (block nid) then true else free_bit f k).
Proof.
  intros M1 M2 M3 F Hn. unfold f', add_free_nid. clear f'. replace (nid =? 0) with false by lia. cbn [andb negb snd].
  set (f1 := snd (__insert_free_nid nid FREE_NID f)).
  assert (fn_ok max nb f1 /\ retree f f1 (fun k => if k =? nid then Some (default FREE_NID (free_nid_root f !! nid)) else free_nid_root f !! k)) as [F1 R1].
  { destruct (free_nid_root f !! nid) as [st|] eqn:Er.
    - unfold f1, __insert_free_nid. rewrite Er. split; [done|]. split; try done. intros k. cbn [default]. destruct (Z.eqb_spec k nid) as [->|]; done.
    - destruct (insert_free_ok max nb M1 M2 M3 nid f F Hn Er) as (? & ? & _). done. }
  destruct (update_bitmap_ok max nb M1 nid true false f1 F1 ltac:(lia)) as [F2 R2]; [done|]. set (f2 := update_free_nid_bitmap nid true false f1) in *.
  split_and!; [by destruct F2|..].
  - cbn. rewrite (rb_avail _ _ _ _ R2). by rewrite (rt_avail _ _ _ R1).
  - cbn. rewrite (rb_next _ _ _ _ R2). by rewrite (rt_next _ _ _ R1).
  - cbn. rewrite (rb_blocks _ _ _ _ R2). by rewrite (rt_blocks _ _ _ R1).
  - intros k. cbn. rewrite (rb_root _ _ _ _ R2). apply (rt_root _ _ _ R1).
  - intros k Hk. change (free_bit f2 k = if (k =? nid) && scanned f (block nid) then true else free_bit f k).
    rewrite (rb_bit _ _ _ _ R2) by done. unfold scanned. rewrite (rt_blocks _ _ _ R1). by rewrite (retree_bit _ _ _ _ R1).
Qed.
Section step.
Context (tj : bool) (nid : Z) (v v' : nat_store) (T : flush_step tj nid v v') (W : nat_ok sbi v) (F : free_ok sbi v).
Context (Hnid : 0 < nid < max_nid (nm v)) (Hdirty : dirty (nc (nm v)) nid = true).
#[local] Abbreviation max := (max_nid (nm v)).
#[local] Abbreviation f := (fn (nm v)).
#[local] Abbreviation f' := (fn (nm v')).

Lemma step_qidle k : 0 <= k < max -> qidle sbi v' k = if k =? nid then ni_blk (nval sbi v nid) =? NULL_ADDR else qidle sbi v k.
Proof.
  intros Hk. rewrite !qidle_eq, (fs_ckpt _ _ _ _ T), (fs_nval _ _ _ _ T) by done. destruct (Z.eqb_spec k nid) as [->|]; done.
Qed.
Lemma step_merged k : 0 <= k < max -> merged v' k = negb (k =? nid) && merged v k.
Proof.
  intros Hk. rewrite !merged_eq, (fs_ckpt _ _ _ _ T), (fs_nval _ _ _ _ T), (fs_dirty _ _ _ _ T) by done. destruct (Z.eqb_spec k nid) as [->|]; done.
Qed.
Lemma step_jval k : is_Some (jval (njnl v) k) -> is_Some (jval (njnl v') k).
Proof. pose proof (fs_jnl _ _ _ _ T) as J. destruct tj; [|by rewrite J]. intros Hk. destruct J as [_ J]. apply J. by right. Qed.
(** What the free list must have become *)
Lemma step_free : fn_ok max (nat_blocks (nm v)) f' ->
  (forall k, 0 < k < max -> k <> nid -> free_nid_root f' !! k = free_nid_root f !! k) ->
  (ni_blk (nval sbi v nid) <> NULL_ADDR -> free_nid_root f' !! nid = free_nid_root f !! nid) ->
  (forall k, 0 <= k < max -> free_bit f' k = if k =? nid then scanned f (block nid) && (ni_blk (nval sbi v nid) =? NULL_ADDR) else free_bit f k) ->
  is_prealloc f' nid = is_prealloc f nid ->
  available_nids f' = u32 (available_nids f + Z.b2z (ni_blk (nval sbi v nid) =? NULL_ADDR)) -> next_scan_nid f' = next_scan_nid f ->
  nat_block_bitmap f' = nat_block_bitmap f ->
  free_ok sbi v' /\ (aligned f -> aligned f') /\ (all_complete sbi v f -> all_complete sbi v' f') /\ forall k, is_prealloc f' k = is_prealloc f k.
Proof.
  intros F' Hroot Hsame Hbit Hpre Hav Hnext Hblk. pose proof (fs_geom _ _ _ _ T) as [_ Emax Enb _ _ _]. set (isnull := ni_blk (nval sbi v nid) =? NULL_ADDR) in *.
  assert (forall k, is_prealloc f' k = is_prealloc f k) as Hp.
  { intros k. destruct (decide (k = nid)) as [->|Hk]; [done|]. destruct (decide (0 < k < max)) as [Hr|Hr]; [unfold is_prealloc; by rewrite Hroot|].
    unfold is_prealloc. destruct (free_nid_root f' !! k) eqn:E1; [by destruct Hr; eapply fo_root|].
    destruct (free_nid_root f !! k) eqn:E2; [destruct Hr; eapply fo_root; [apply F|done]|done]. }
  assert (forall k, 0 <= k < max -> usable sbi v' k = (0 <? k) && (if k =? nid then isnull else qidle sbi v k) && negb (is_prealloc f k)) as Hus.
  { intros k Hk. unfold usable. by rewrite step_qidle, Hp. }
  split; [split|split; [|split; [|done]]].
  - by rewrite Emax, Enb.
  - intros k Hk. pose proof (fo_root _ _ _ F' _ _ Hk). rewrite step_qidle by lia. destruct (Z.eqb_spec k nid) as [->|Hne]; [|apply (fr_free _ _ F); by rewrite <- Hroot].
    destruct (Z.eqb_spec (ni_blk (nval sbi v nid)) NULL_ADDR) as [|Hb]; [done|]. rewrite Hsame in Hk by done. apply (fr_free _ _ F) in Hk.
    rewrite qidle_eq in Hk. apply andb_true_iff in Hk as [_ ?%Z.eqb_eq]. done.
  - intros k Hk. pose proof (fo_root _ _ _ F' _ _ Hk). rewrite step_qidle, (fs_nval _ _ _ _ T) by lia. destruct (Z.eqb_spec k nid) as [->|Hne].
    + unfold isnull. destruct (Z.eqb_spec (ni_blk (nval sbi v nid)) NULL_ADDR); [by left|by right].
    + apply (fr_pre _ _ F). by rewrite <- Hroot.
  - intros k. rewrite Emax. intros Hk. rewrite Hbit, (fs_dirty _ _ _ _ T), (fs_pval _ _ _ _ T) by lia. destruct (Z.eqb_spec k nid) as [->|Hne].
    + intros [_ Hb%Z.eqb_eq]%andb_true_iff. right. pose proof (fs_jnl _ _ _ _ T) as J. destruct tj; cbn [negb andb]; [left; apply J; by left|by right].
    + intros Hb. rewrite andb_false_r. cbn [negb andb]. destruct (fr_bits _ _ F k Hk Hb) as [?|[?|?]]; [by left|right; left; by apply step_jval|by right; right].
  - rewrite Emax, Hav, (fr_avail _ _ F), u32_add_l.
    rewrite (count_upto_update (usable sbi v) (usable sbi v') _ nid), (count_upto_update (merged v) (merged v') _ nid).
    + f_equal. rewrite Hus, step_merged, Z.eqb_refl by lia. cbn [negb andb Z.b2z]. unfold usable. rewrite merged_eq, qidle_eq, Hdirty. fold isnull.
      replace (0 <? nid) with true by lia. cbn [andb]. destruct isnull eqn:En; rewrite ?andb_false_r, ?andb_true_r; [|cbn; lia].
      destruct (ckpt v nid) eqn:Ec; [cbn [andb Z.b2z]; lia|]. assert (is_prealloc f nid = false) as ->; [|cbn; lia].
      apply bool_decide_eq_false_2. intros Hr. destruct (fr_pre _ _ F nid Hr) as [Hq|Hq]; [rewrite qidle_eq, Ec in Hq; done|].
      unfold isnull in En. by apply Z.eqb_eq in En.
    + lia.
    + intros k Hk Hne. rewrite step_merged by lia. by rewrite (proj2 (Z.eqb_neq k nid)).
    + lia.
    + intros k Hk Hne. rewrite Hus, (proj2 (Z.eqb_neq k nid)) by (done || lia). done.
  - rewrite Hnext. apply F.
  - unfold aligned. by rewrite Hnext.
  - intros A b. rewrite Enb. intros Hb. unfold scanned. rewrite Hblk. intros Hs k Eb. rewrite Emax. intros Hk. rewrite step_qidle, Hp, Hbit, step_merged by lia.
    destruct (Z.eqb_spec k nid) as [->|Hne].
    + fold isnull. intros -> _. left. unfold scanned. by rewrite Eb, Hs.
    + intros Hq Hpr. destruct (A b Hb Hs k Eb Hk Hq Hpr) as [?|[?|?]]; [by left|right; left; by apply step_jval|by right; right].
Qed.
Lemma flush_step_free :
  free_ok sbi v' /\ (aligned f -> aligned f') /\ (all_complete sbi v f -> all_complete sbi v' f') /\ forall k, is_prealloc f' k = is_prealloc f k.
Proof.
  destruct (geom_max sbi v W) as (M1 & M2 & M3). pose proof (fs_fn _ _ _ _ T) as E. pose proof (fr_fn _ _ F) as Fn.
  assert (free_bit f nid = true -> scanned f (block nid) = true) as Hbs.
  { intros Hb. apply not_false_iff_true. intros Hs. by rewrite (fo_unscanned _ _ _ Fn nid ltac:(lia) Hs) in Hb. }
  destruct (Z.eqb_spec (ni_blk (nval sbi v nid)) NULL_ADDR) as [Eb|Eb].
  - destruct (return_nid _ _ (nc (nm v')) nid f M1 M2 M3 Fn Hnid) as (R1 & R2 & R3 & R4 & R5 & R6). rewrite <- E in *. apply step_free.
    + done.
    + intros k _ Hk. by rewrite R5, (proj2 (Z.eqb_neq k nid)).
    + done.
    + intros k Hk. rewrite R6 by done. destruct (Z.eqb_spec k nid) as [->|]; [|done]. rewrite (proj2 (Z.eqb_eq _ _) Eb), andb_true_r. cbn [andb].
      destruct (scanned f (block nid)) eqn:Es; [done|]. by apply (fo_unscanned _ _ _ Fn); [lia|].
    + unfold is_prealloc. rewrite R5, Z.eqb_refl. by destruct (free_nid_root f !! nid) as [[|]|].
    + by rewrite R2, (proj2 (Z.eqb_eq _ _) Eb).
    + done.
    + done.
  - destruct (update_bitmap_ok _ _ M1 nid false false f Fn ltac:(lia)) as [F2 R]; [done|]. rewrite <- E in *. pose proof (proj2 (Z.eqb_neq _ _) Eb) as En. apply step_free.
    + done.
    + intros k _ _. by rewrite (rb_root _ _ _ _ R).
    + intros _. by rewrite (rb_root _ _ _ _ R).
    + intros k Hk. rewrite (rb_bit _ _ _ _ R) by done. destruct (Z.eqb_spec k nid) as [->|]; [|done]. rewrite En, andb_false_r. cbn [andb].
      destruct (scanned f (block nid)) eqn:Es; [done|]. by apply (fo_unscanned _ _ _ Fn); [lia|].
    + unfold is_prealloc. by rewrite (rb_root _ _ _ _ R).
    + rewrite (rb_avail _ _ _ _ R), En. cbn [Z.b2z]. symmetry. by apply (avail_same sbi v).
    + apply (rb_next _ _ _ _ R).
    + apply (rb_blocks _ _ _ _ R).
Qed.
End step.
End flush.
