(* ===== verification/NatSets.v ===== *)
(** * Flushing the sets of dirty NAT entries

    [flushed P]: the current values are kept, the device has those of the nids
    in [P], which are clean.  Each set gives such a step, whichever way it is
    written, and so does the whole flush. *)
From stdpp Require Import gmap.
From S2P Require Import Prelude Geometry F2fsBits Sit SitFlush NatMgr NatCache NatStore FreeNid NatFree NatFlush.
Open Scope Z_scope.

Section sets.
Context `{NatFormatOk}.
#[local] Abbreviation EPB := NAT_ENTRY_PER_BLOCK.
#[local] Abbreviation NJE := NAT_JOURNAL_ENTRIES.
#[local] Abbreviation block := NAT_BLOCK_OFFSET.
Context (sbi : f2fs_sb_info) (Hgeom : geom_wf sbi).
#[local] Abbreviation ckpt s := (f2fs_is_checkpointed_node (nc (nm s))).
#[local] Abbreviation raw_of s nid := (raw_nat_from_node_info (nval sbi s nid)).

Record flushed (P : Z -> bool) (s s' : nat_store) : Prop := {
  fl_ok : nat_ok sbi s';
  fl_free : free_ok sbi s';
  fl_base : nat_blkaddr (nm s') = nat_blkaddr (nm s);
  fl_max : max_nid (nm s') = max_nid (nm s);
  fl_blocks : nat_blocks (nm s') = nat_blocks (nm s);
  fl_fsck : need_fsck (nm s') = need_fsck (nm s);
  fl_flag : nat_bits_flag (nm s') = nat_bits_flag (nm s);
  fl_nval k : 0 <= k < max_nid (nm s) -> nval sbi s' k = nval sbi s k;
  fl_cval k : 0 <= k < max_nid (nm s) -> cval sbi s' k = if P k then raw_of s k else cval sbi s k;
  fl_dirty k : dirty (nc (nm s')) k = negb (P k) && dirty (nc (nm s)) k;
  fl_ckpt k : ckpt s' k = P k || ckpt s k;
  fl_pre k : is_prealloc (fn (nm s')) k = is_prealloc (fn (nm s)) k;
  fl_aligned : aligned (fn (nm s)) -> aligned (fn (nm s'));
  fl_complete : all_complete sbi s (fn (nm s)) -> all_complete sbi s' (fn (nm s'));
  fl_jnl k : is_Some (jval (njnl s') k) -> P k = true \/ is_Some (jval (njnl s) k);
}.
Lemma flushed_refl s : nat_ok sbi s -> free_ok sbi s -> flushed (fun _ => false) s s.
Proof. intros W F. split; try done. by right. Qed.
Lemma flushed_trans P Q s1 s2 s3 : flushed P s1 s2 -> flushed Q s2 s3 -> flushed (fun k => Q k || P k) s1 s3.
Proof.
  intros [A1 A2 A3 A4 A5 A6 A7 A8 A9 A10 A11 A12 A13 A14 A15] [B1 B2 B3 B4 B5 B6 B7 B8 B9 B10 B11 B12 B13 B14 B15]. rewrite A4 in *. split; try congruence.
  - intros k Hk. by rewrite B8, A8.
  - intros k Hk. rewrite B9, A9, A8 by done. by destruct (Q k).
  - intros k. rewrite B10, A10. by destruct (Q k), (P k).
  - intros k. rewrite B11, A11. by destruct (Q k), (P k).
  - auto.
  - auto.
  - intros k [Hk|Hk]%B15; [by rewrite Hk; left|]. destruct (A15 k Hk) as [Hp|?]; [left; rewrite Hp; apply orb_true_r|by right].
Qed.
Lemma flushed_ext P Q s s' : (forall k, P k = Q k) -> flushed P s s' -> flushed Q s s'.
Proof.
  intros E [A1 A2 A3 A4 A5 A6 A7 A8 A9 A10 A11 A12 A13 A14 A15]. split; try done.
  - intros k. rewrite <- E. apply A9.
  - intros k. by rewrite <- E.
  - intros k. by rewrite <- E.
  - intros k. rewrite <- E. apply A15.
Qed.
Lemma flushed_step tj nid v v' : flush_step sbi tj nid v v' -> nat_ok sbi v -> free_ok sbi v -> flushable (nc (nm v)) nid -> flushed (fun k => k =? nid) v v'.
Proof.
  intros T W F (e & He & Hd & _). destruct (ck_nid _ _ (no_cache _ _ W) nid e He) as [_ Hnid].
  destruct (flush_step_free sbi tj nid v v' T W F Hnid) as (T1 & T2 & T3 & T4); [unfold dirty; by rewrite He|].
  destruct T as [E1 [G1 G2 G3 G4 G5 G6] E3 E4 E5 E6 E7 E8 E9 E10]. split; try done.
  { intros k Hk. rewrite E4 by done. by destruct (Z.eqb_spec k nid) as [->|]. }
  intros k. destruct tj; [|rewrite E8; by right].
  intros Hk. apply E8 in Hk as [->|?]; [left; apply Z.eqb_refl|by right].
Qed.
(** A change of bookkeeping that no value depends on *)
Lemma quiet_step s n' meta' : nat_ok sbi s -> free_ok sbi s -> nat_blkaddr n' = nat_blkaddr (nm s) -> max_nid n' = max_nid (nm s) ->
  nat_blocks n' = nat_blocks (nm s) -> need_fsck n' = need_fsck (nm s) -> nat_bits_flag n' = nat_bits_flag (nm s) ->
  fn n' = fn (nm s) -> nat_root (nc n') = nat_root (nc (nm s)) -> cache_ok (max_nid (nm s)) (nc n') -> nat_geom sbi n' ->
  (forall k, 0 <= k < max_nid (nm s) -> pval sbi n' meta' k = pval sbi (nm s) (nmeta s) k) ->
  (forall k, 0 <= k < max_nid (nm s) -> zlen (meta' (current_nat_addr sbi n' k)) = EPB) ->
  flushed (fun _ => false) s (mk_ns n' (njnl s) meta').
Proof.
  intros W F E1 E2 E3 E4 E5 E6 E7 C' G' Hp Hl. set (s' := mk_ns n' (njnl s) meta').
  assert (forall k, 0 <= k < max_nid (nm s) -> cval sbi s' k = cval sbi s k) as Hc by (intros k Hk; unfold cval; cbn [nm njnl nmeta s']; by rewrite Hp).
  assert (forall k, 0 <= k < max_nid (nm s) -> nval sbi s' k = nval sbi s k) as Hn by (intros k Hk; unfold nval; cbn [nm s']; by rewrite E7, Hc).
  assert (forall k, dirty (nc n') k = dirty (nc (nm s)) k) as Hd by (intros k; unfold dirty; by rewrite E7).
  assert (forall k, ckpt s' k = ckpt s k) as Hk by (intros k; unfold f2fs_is_checkpointed_node, __lookup_nat_cache; cbn [nm s']; by rewrite E7).
  assert (forall k, 0 <= k < max_nid (nm s) -> qidle sbi s' k = qidle sbi s k) as Hq by (intros k Hr; by rewrite !qidle_eq, Hk, Hn).
  assert (forall k, 0 <= k < max_nid (nm s) -> merged s' k = merged s k) as Hm by (intros k Hr; rewrite !(merged_eq sbi), Hk, Hn by done; cbn [nm s']; by rewrite Hd).
  destruct W as [W1 W2 W3 W4 W5 W6 W7], F as [F1 F2 F3 F4 F5 F6]. split; try done; cbn [nm njnl nmeta s']; rewrite ?E2, ?E3, ?E6; try done.
  - split; cbn [nm njnl nmeta s']; rewrite ?E2; try done.
    + intros k e. rewrite E7. intros He Hde. rewrite Hc by (destruct (ck_nid _ _ W3 k e He); lia). by apply W4.
    + intros k Hr. rewrite Hc by done. by apply W5.
    + intros k Hr. rewrite Hp by done. by apply W6.
  - split; cbn [nm s']; rewrite ?E2, ?E3, ?E6; try done.
    + intros k Hr. rewrite Hq by (pose proof (fo_root _ _ _ F1 _ _ Hr); lia). by apply F2.
    + intros k Hr. pose proof (fo_root _ _ _ F1 _ _ Hr). rewrite Hq, Hn by lia. by apply F3.
    + intros k. cbn [nm njnl nmeta s']. rewrite E2. intros Hr Hb. rewrite Hd, Hp by lia. by apply F4.
    + rewrite F5. do 2 f_equal; apply count_upto_ext; intros k Hr; [|symmetry; apply Hm; lia]. unfold usable. cbn [nm s']. by rewrite Hq, E6 by lia.
  - intros A b Hb Hs k Eb. cbn [nm njnl s'] in *. rewrite E2, E3 in *. intros Hr. rewrite Hq, Hm by lia. by apply (A b).
  - intros k Hr. by right.
Qed.

(** ** The entries of a set *)

Lemma flush_nats_ok tj meta dst b l x : nat_ok sbi (view tj meta dst x) -> free_ok sbi (view tj meta dst x) -> NoDup l ->
  (forall k, k ∈ l -> block k = b /\ flushable (nc (x_nm x)) k) ->
  (if tj then n_nats (x_jnl x) + zlen l <= NJE
   else (forall k, k ∈ l -> current_nat_addr sbi (x_nm x) k = dst) /\ forall k, k ∈ l -> jval (x_jnl x) k = None) ->
  exists x', flush_nats tj (b * EPB) l x = Done x' /\ flushed (fun k => bool_decide (k ∈ l)) (view tj meta dst x) (view tj meta dst x') /\
    nat_bitmap (x_nm x') = nat_bitmap (x_nm x) /\
    (forall b', b' <> b -> nat_set_root (nc (x_nm x')) !! b' = nat_set_root (nc (x_nm x)) !! b') /\
    (is_Some (nat_set_root (nc (x_nm x)) !! b) <-> is_Some (nat_set_root (nc (x_nm x')) !! b)) /\
    n_nats (x_jnl x') <= n_nats (x_jnl x) + (if tj then zlen l else 0).
Proof.
  revert x. induction l as [|nid l IH]; intros x W F Hn Hl Hroom; cbn [flush_nats].
  { exists x. split_and!; try done; [|destruct tj; unfold zlen; cbn; lia]. apply (flushed_ext (fun _ => false)); [|by apply flushed_refl].
    intros k. symmetry. apply bool_decide_eq_false_2, not_elem_of_nil. }
  apply list.NoDup_cons in Hn as [Hnid Hn]. destruct (Hl nid ltac:(by left)) as [Eb Hf]. rewrite zlen_cons in *. pose proof (zlen_nonneg l). subst b.
  destruct (flush_nat_ok sbi Hgeom tj meta dst nid x W Hf) as (x1 & -> & T).
  { destruct tj; [left; lia|]. destruct Hroom as [R1 R2]. split; [apply R1|apply R2]; by left. }
  cbn [obind]. pose proof (flushed_step tj nid _ _ T W F Hf) as P1. pose proof (fs_geom _ _ _ _ _ T) as [G1 G2 G3 G4 _ _]. cbn [nm view] in *.
  pose proof (fs_jnl _ _ _ _ _ T) as J. pose proof (fs_sets _ _ _ _ _ T) as Hsets. cbn [njnl nm view] in *.
  destruct (IH x1 (fl_ok _ _ _ P1) (fl_free _ _ _ P1) Hn) as (x' & E & P2 & B2 & S2 & S3 & N2).
  - intros k Hk. destruct (Hl k ltac:(by right)) as [Ek (e & He & Hd & Hb)]. split; [done|].
    pose proof (fl_dirty _ _ _ P1 k) as D. cbn [nm view] in D. destruct (ck_nid _ _ (no_cache _ _ W) k e He) as [_ Hr].
    pose proof (fl_nval _ _ _ P1 k) as V. cbn [nm view] in *. assert (dirty (nc (x_nm x)) k = true) as D0 by (unfold dirty; by rewrite He).
    rewrite D0, andb_true_r in D. assert ((k =? nid) = false) as Ene by (apply Z.eqb_neq; by intros ->). rewrite Ene in D. cbn [negb] in D. unfold dirty in D.
    destruct (nat_root (nc (x_nm x1)) !! k) as [e1|] eqn:He1; [|done]. exists e1. split_and!; [done|done|].
    assert (ni e1 = ni e) as ->; [|done]. specialize (V ltac:(lia)). unfold nval in V. cbn [nm view] in V. by rewrite He, He1 in V.
  - destruct tj; [lia|]. rewrite J. destruct Hroom as [R1 R2]. split; intros k Hk; [|apply R2; by right].
    rewrite (current_addr_same sbi (x_nm x)) by done. apply R1. by right.
  - exists x'. split; [exact E|]. split; [|split_and!].
    + apply (flushed_ext (fun k => bool_decide (k ∈ l) || (k =? nid))); [|by apply (flushed_trans _ _ _ _ _ P1 P2)].
      intros k. rewrite (bool_decide_ext (k ∈ nid :: l) (k = nid \/ k ∈ l)) by apply elem_of_cons. rewrite bool_decide_or, orb_comm. f_equal.
      destruct (Z.eqb_spec k nid) as [->|]; symmetry; [by apply bool_decide_eq_true|by apply bool_decide_eq_false].
    + by rewrite B2.
    + intros b' Hb'. rewrite S2, Hsets, decide_False by done. by destruct (nat_set_root _ !! b').
    + rewrite <- S3, Hsets. by rewrite fmap_is_Some.
    + destruct tj; [destruct J as [J _]; lia|by rewrite J in N2].
Qed.

(** ** A set *)

Lemma update_nat_bits_eq start page n : exists a b, __update_nat_bits start page n = (n <| full_nat_bits := a |>) <| empty_nat_bits := b |>.
Proof.
  unfold __update_nat_bits. cbv zeta. destruct (negb (nat_bits_flag n)); [exists (full_nat_bits n), (empty_nat_bits n); by destruct n|].
  set (valid := (if start / EPB =? 0 then _ else _)). destruct (valid =? 0); by eexists _, _.
Qed.
(** A set with no entries left is let go. *)
Lemma delete_set_ok max b c : cache_ok max c -> (forall k, flushable c k -> block k <> b) ->
  cache_ok max (c <| nat_set_root ::= delete b |>).
Proof.
  intros [W0 W1 W2 W3 W4 W5 W6 W7 W8 W9] Hn. split; try done.
  - intros b' s. cbn. destruct (decide (b' = b)) as [->|]; [by rewrite lookup_delete_eq|]. rewrite lookup_delete_ne by done. apply W6.
  - intros k Hk. cbn. rewrite lookup_delete_ne by (intros E; by destruct (Hn k Hk)). by apply W7.
  - intros b'. cbn. destruct (decide (b' = b)) as [->|]; [rewrite lookup_delete_eq; by intros [? ?]|]. rewrite lookup_delete_ne by done. apply W9.
Qed.
Definition set_to_journal (umount : bool) (nes : nat_entry_set) (s : nat_store) : bool :=
  negb (enabled_nat_bits (nm s) umount || negb (has_nat_space (njnl s) (entry_cnt nes))).
(** Filling the other copy starts from the values of the current one. *)
Lemma turn_page s b : nat_ok sbi s -> free_ok sbi s -> 0 <= b < nat_blocks (nm s) ->
  let src := current_nat_addr sbi (nm s) (b * EPB) in let dst := next_nat_addr sbi (nm s) src in
  dst = nat_addr sbi (nm s) b (negb (copy_of (nm s) b)) /\
  flushed (fun _ => false) s (view false (nmeta s) dst (mk_fln (set_to_next_nat (b * EPB) (nm s)) (njnl s) (nmeta s src))) /\
  forall k, 0 <= k < max_nid (nm s) -> block k = b -> current_nat_addr sbi (set_to_next_nat (b * EPB) (nm s)) k = dst.
Proof.
  intros W F Hb. cbv zeta. pose proof (no_geom _ _ W) as G. destruct (geom_max sbi s W) as (M1 & M2 & M3). pose proof nents_range.
  assert (0 <= b * EPB < max_nid (nm s)) as Hstart by nia. pose proof (block_start b) as Ebs.
  set (src := current_nat_addr sbi (nm s) (b * EPB)). set (dst := next_nat_addr sbi (nm s) src). set (n' := set_to_next_nat (b * EPB) (nm s)).
  assert (dst = nat_addr sbi (nm s) b (negb (copy_of (nm s) b))) as Ed by (unfold dst, src; rewrite (next_nat sbi Hgeom) by done; by rewrite Ebs).
  assert (src = nat_addr sbi (nm s) b (copy_of (nm s) b)) as Es by (unfold src; rewrite (cur_addr sbi Hgeom) by done; by rewrite Ebs).
  assert (nat_geom sbi n') as G' by by apply set_next_geom.
  assert (forall k, 0 <= k < max_nid (nm s) -> current_nat_addr sbi n' k = if block k =? b then dst else current_nat_addr sbi (nm s) k) as Ha.
  { intros k Hk. rewrite !(cur_addr sbi Hgeom) by done. unfold n' at 2. pose proof (nid_block _ _ M1 k Hk) as Hbk.
    rewrite (copy_set_next sbi) by done. rewrite Ebs. destruct (Z.eqb_spec (block k) b) as [E|]; [by rewrite Ed, E|done]. }
  assert (forall k, 0 <= k < max_nid (nm s) -> block k = b -> current_nat_addr sbi (nm s) k = src) as Hsrc by (intros k Hk Ek; rewrite (cur_addr sbi Hgeom), Ek by done; done).
  assert (forall k, 0 <= k < max_nid (nm s) -> block k <> b -> current_nat_addr sbi (nm s) k <> dst) as Hoth.
  { intros k Hk Hne E. rewrite (cur_addr sbi Hgeom), Ed in E by done. by apply (nat_addr_inj sbi Hgeom) in E as [? _]. }
  assert (forall k, 0 <= k < max_nid (nm s) ->
    (if decide (current_nat_addr sbi n' k = dst) then nmeta s src else nmeta s (current_nat_addr sbi n' k)) = nmeta s (current_nat_addr sbi (nm s) k)) as Hpage.
  { intros k Hk. rewrite Ha by done. destruct (Z.eqb_spec (block k) b) as [E|E]; [rewrite decide_True by done; by rewrite Hsrc|]. rewrite decide_False by by apply Hoth. done. }
  split; [done|]. split.
  - apply (quiet_step s n'); [done..|apply W|exact G'| |].
    + intros k Hk. unfold pval. cbn beta iota. by rewrite Hpage.
    + intros k Hk. cbn beta iota. cbn [x_page]. rewrite Hpage by done. by apply (no_page _ _ W).
  - intros k Hk Ek. rewrite Ha by done. by rewrite (proj2 (Z.eqb_eq _ _) Ek).
Qed.
Lemma nat_set_flush_ok umount b nes s (tj := set_to_journal umount nes s) : nat_ok sbi s -> free_ok sbi s -> nat_set_root (nc (nm s)) !! b = Some nes ->
  (tj = false -> forall k, block k = b -> jval (njnl s) k = None) ->
  exists s', __flush_nat_entry_set sbi umount b s = Done s' /\ flushed (fun k => bool_decide (k ∈ entry_list nes)) s s' /\
    (forall b', nat_set_root (nc (nm s')) !! b' = if decide (b' = b) then None else nat_set_root (nc (nm s)) !! b') /\
    n_nats (njnl s') <= n_nats (njnl s) + (if tj then entry_cnt nes else 0) /\
    (forall c, 0 <= c < nat_blocks (nm s) -> copy_of (nm s') c = if negb tj && (c =? b) then negb (copy_of (nm s) c) else copy_of (nm s) c) /\
    (forall a, a <> nat_addr sbi (nm s) b (negb (copy_of (nm s) b)) -> nmeta s' a = nmeta s a).
Proof.
  intros W F Hs Hj. destruct (geom_max sbi s W) as (M1 & M2 & M3). pose proof nents_range. pose proof (no_geom _ _ W) as G.
  destruct (ck_set _ _ (no_cache _ _ W) b nes Hs) as (L1 & L2 & L3).
  assert (0 <= b < nat_blocks (nm s)) as Hb by (destruct (ck_blk _ _ (no_cache _ _ W) b) as (k & Hk & <-); [by eexists|apply (nid_block _ _ M1); lia]).
  assert (0 <= b * EPB < max_nid (nm s)) as Hst by (clear - M1 M3 Hb H2; nia).
  destruct (turn_page s b W F Hb) as (Ed & Pq & Hdst). unfold __flush_nat_entry_set. rewrite Hs. change (default (mk_nes [] 0) (Some nes)) with nes. cbv zeta. fold (set_to_journal umount nes s). fold tj.
  set (start := b * EPB) in *. set (src := current_nat_addr sbi (nm s) start) in *. set (dst := next_nat_addr sbi (nm s) src) in *.
  set (x0 := mk_fln (if tj then nm s else set_to_next_nat start (nm s)) (njnl s) (nmeta s src)).
  assert (flushed (fun _ => false) s (view tj (nmeta s) dst x0)) as P0.
  { unfold x0. destruct tj; [|exact Pq]. assert (view true (nmeta s) dst (mk_fln (nm s) (njnl s) (nmeta s src)) = s) as -> by (by destruct s). by apply flushed_refl. }
  assert (nc (x_nm x0) = nc (nm s)) as Enc by (unfold x0; by destruct tj).
  assert (has_nat_space (njnl s) (entry_cnt nes) = true \/ tj = false) as Hspace.
  { unfold tj, set_to_journal. destruct (has_nat_space _ _); [by left|right]. by rewrite orb_true_r. }
  destruct (flush_nats_ok tj (nmeta s) dst b (entry_list nes) x0 (fl_ok _ _ _ P0) (fl_free _ _ _ P0) L1) as (x1 & E1 & P1 & B1 & S1 & S2 & N1).
  { intros k Hk. rewrite Enc. by apply L3. }
  { destruct tj eqn:Et; [destruct Hspace as [Hsp|]; [|done]; cbn [x_jnl x0]; apply Z.leb_le in Hsp; lia|]. cbn [x_nm x_jnl x0]. split.
    - intros k Hk. apply L3 in Hk as [Ek (e & He & _)]. destruct (ck_nid _ _ (no_cache _ _ W) k e He) as [_ ?]. apply Hdst; [lia|done].
    - intros k Hk. apply L3 in Hk as [Ek _]. by apply Hj. }
  unfold start in *. rewrite E1. cbn [obind]. pose proof (flushed_trans _ _ _ _ _ P0 P1) as P2. set (v1 := view tj (nmeta s) dst x1) in *.
  set (n2 := if tj then x_nm x1 else __update_nat_bits (b * EPB) (x_page x1) (x_nm x1)).
  assert (exists fb eb, n2 = ((x_nm x1) <| full_nat_bits := fb |>) <| empty_nat_bits := eb |>) as (fb & eb & En2).
  { unfold n2. destruct tj; [exists (full_nat_bits (x_nm x1)), (empty_nat_bits (x_nm x1)); by destruct (x_nm x1)|apply update_nat_bits_eq]. }
  pose proof (no_cache _ _ (fl_ok _ _ _ P1)) as C1. change (nm v1) with (x_nm x1) in C1.
  assert (forall k, flushable (nc (x_nm x1)) k -> block k <> b) as Hclean.
  { intros k (e & He & Hd & Hbk) Ek. pose proof (fl_dirty _ _ _ P2 k) as D. change (nc (nm v1)) with (nc (x_nm x1)) in D. unfold dirty at 1 in D. rewrite He, Hd in D.
    symmetry in D. apply andb_true_iff in D as [D0 D1]. rewrite orb_false_r in D0. apply negb_true_iff, bool_decide_eq_false in D0. apply D0, L3. split; [done|].
    unfold dirty in D1. destruct (nat_root (nc (nm s)) !! k) as [e1|] eqn:He1; [|done]. exists e1. split_and!; [done..|].
    destruct (ck_nid _ _ (no_cache _ _ W) k e1 He1) as [_ ?]. pose proof (fl_nval _ _ _ P2 k ltac:(lia)) as V. unfold nval in V.
    change (nc (nm v1)) with (nc (x_nm x1)) in V. rewrite He, He1 in V. by rewrite <- V. }
  assert (is_Some (nat_set_root (nc (x_nm x1)) !! b)) as [s1 Hs1] by (apply S2; rewrite Enc; by eexists).
  destruct (ck_set _ _ C1 b s1 Hs1) as (_ & Lc & Lm).
  assert (entry_list s1 = []) as Enil.
  { destruct (entry_list s1) as [|k l]; [done|]. exfalso. destruct (proj1 (Lm k)) as [Ek Hk]; [by left|]. by apply (Hclean k). }
  rewrite Enil in Lc. change (zlen []) with 0 in Lc.
  assert (nc n2 = nc (x_nm x1)) as Enc2 by by rewrite En2. rewrite Enc2, Hs1, Lc. cbn [Z.eqb].
  set (n3 := n2 <| nc ::= fun c => c <| nat_set_root ::= delete b |> |>).
  set (meta' := fun a => if tj then nmeta s a else if decide (a = dst) then x_page x1 else nmeta s a).
  assert (n3 = ((x_nm x1) <| full_nat_bits := fb |>) <| empty_nat_bits := eb |> <| nc ::= fun c => c <| nat_set_root ::= delete b |> |>) as En3 by (unfold n3; by rewrite En2).
  assert (flushed (fun _ => false) v1 (mk_ns n3 (njnl v1) meta')) as P3.
  { pose proof (fl_ok _ _ _ P1) as W1. apply (quiet_step v1); [done|apply P1|rewrite En3..]; try done.
    - by apply delete_set_ok.
    - by destruct (no_geom _ _ W1).
    - apply (no_page _ _ W1). }
  exists (mk_ns n3 (x_jnl x1) meta'). split; [done|]. split; [|split; [|split; [|split]]].
  - refine (flushed_ext _ _ _ _ _ (flushed_trans _ _ _ _ _ P2 P3)). intros k. cbn [orb]. apply orb_false_r.
  - intros b'. cbn [nm]. rewrite En3. cbn. destruct (decide (b' = b)) as [->|Hne]; [by rewrite lookup_delete_eq|]. rewrite lookup_delete_ne by done.
    rewrite S1 by done. by rewrite Enc.
  - cbn [njnl]. cbn [x_jnl x0] in N1. destruct tj; lia.
  - intros c Hc. cbn [nm]. rewrite En3. unfold copy_of. cbn. rewrite B1. unfold x0. cbn [x_nm]. destruct tj; cbn [negb andb]; [done|].
    pose proof (copy_set_next sbi (b * EPB) (nm s) c G Hst Hc) as Ec. unfold copy_of in Ec. rewrite Ec. by rewrite block_start.
  - intros a Ha. cbn [nmeta]. unfold meta'. destruct tj; [done|]. rewrite decide_False; [done|]. by rewrite Ed.
Qed.
End sets.
