(* ===== verification/NatCkpt.v ===== *)
(** * Flushing the NAT: the journal merged, the sets gathered, the whole flush

    [flush_ok]: after a flush the device has the current value of every node
    but those not yet given an address, the cache and the free list are right
    again, and nothing the last checkpoint reads was written over. *)
From stdpp Require Import gmap.
From S2P Require Import Prelude Geometry F2fsBits Sit SitFlush NatMgr NatCache NatStore FreeNid NatFree NatFlush NatSets.
Open Scope Z_scope.

Section ckpt.
Context `{NatFormatOk}.
#[local] Abbreviation EPB := NAT_ENTRY_PER_BLOCK.
#[local] Abbreviation NJE := NAT_JOURNAL_ENTRIES.
#[local] Abbreviation block := NAT_BLOCK_OFFSET.
Context (sbi : f2fs_sb_info) (Hgeom : geom_wf sbi).
#[local] Abbreviation ckpt s := (f2fs_is_checkpointed_node (nc (nm s))).
#[local] Abbreviation raw_of s nid := (raw_nat_from_node_info (nval sbi s nid)).

(** ** Journal entries into the cache *)

(** What merging the journal entries of [P] does *)
Record merged_in (P : Z -> bool) (s : nat_store) (n' : f2fs_nm_info) (s' := s <| nm := n' |>) : Prop := {
  mi_ok : nat_ok sbi s';
  mi_free : free_ok sbi s';
  mi_base : nat_blkaddr n' = nat_blkaddr (nm s); mi_max : max_nid n' = max_nid (nm s); mi_blocks : nat_blocks n' = nat_blocks (nm s);
  mi_bitmap : nat_bitmap n' = nat_bitmap (nm s); mi_fsck : need_fsck n' = need_fsck (nm s); mi_flag : nat_bits_flag n' = nat_bits_flag (nm s);
  mi_nval k : 0 <= k < max_nid (nm s) -> nval sbi s' k = nval sbi s k;
  mi_dirty k : dirty (nc n') k = P k || dirty (nc (nm s)) k;
  mi_ckpt k : ckpt s' k = ckpt s k;
  mi_pre k : is_prealloc (fn n') k = is_prealloc (fn (nm s)) k;
  mi_next : next_scan_nid (fn n') = next_scan_nid (fn (nm s));
  mi_bits : same_bits (fn (nm s)) (fn n');
}.
Lemma same_addr n n' k : nat_blkaddr n' = nat_blkaddr n -> nat_bitmap n' = nat_bitmap n -> current_nat_addr sbi n' k = current_nat_addr sbi n k.
Proof. intros E1 E2. unfold current_nat_addr. by rewrite E1, E2. Qed.
Lemma merged_in_cval P s n' k : merged_in P s n' -> cval sbi (s <| nm := n' |>) k = cval sbi s k.
Proof. intros [_ _ E1 _ _ E4 _ _ _ _ _ _ _ _]. unfold cval, pval. cbn. by rewrite (same_addr (nm s)). Qed.
Lemma merged_in_refl s : nat_ok sbi s -> free_ok sbi s -> merged_in (fun _ => false) s (nm s).
Proof. intros W F. assert (s <| nm := nm s |> = s) as E by by destruct s. split; rewrite ?E; done. Qed.
Lemma merged_in_trans P Q s n1 n2 : merged_in P s n1 -> merged_in Q (s <| nm := n1 |>) n2 -> merged_in (fun k => Q k || P k) s n2.
Proof.
  intros [A1 A2 A3 A4 A5 A6 A7 A8 A9 A10 A11 A12 A13 A14] [B1 B2 B3 B4 B5 B6 B7 B8 B9 B10 B11 B12 B13 B14].
  cbn [nm upd] in *. rewrite A4 in *. split; try congruence.
  - done.
  - done.
  - intros k Hk. rewrite <- A9 by done. apply B9. done.
  - intros k. rewrite B10, A10. apply orb_assoc.
  - intros k. rewrite <- A11. apply B11.
  - destruct A14, B14. split; [congruence|]. intros k. congruence.
Qed.
(** One entry *)
Definition merge_entry (nid : Z) (raw : f2fs_nat_entry) (n : f2fs_nm_info) : f2fs_nm_info :=
  let n := match __lookup_nat_cache (nc n) nid with
           | None => n <| nc ::= __init_nat_entry nid (Some raw) |>
           | Some _ => n
           end in
  let dirty := match __lookup_nat_cache (nc n) nid with Some ne => get_nat_flag ne IS_DIRTY | None => false end in
  let n := if negb dirty && (rn_block_addr raw =? NULL_ADDR)
           then n <| fn ::= fun f => f <| available_nids ::= fun n => u32 (n - 1) |> |> else n in
  n <| nc ::= __set_nat_cache_dirty nid |>.
Lemma merge_journal_cons nid raw l n : merge_journal ((nid, raw) :: l) n = merge_journal l (merge_entry nid raw n).
Proof. done. Qed.
Lemma merge_one nid raw s : nat_ok sbi s -> free_ok sbi s -> jval (njnl s) nid = Some raw -> 0 < nid < max_nid (nm s) ->
  ni_blk (nval sbi s nid) <> NEW_ADDR -> merged s nid = false -> merged_in (fun k => k =? nid) s (merge_entry nid raw (nm s)).
Proof.
  intros W F Hj Hnid Hnew Hm. pose proof W as [W1 W2 W3 W4 W5 W6 W7].
  assert (cval sbi s nid = raw) as Ec by (unfold cval; by rewrite Hj). 
  set (c0 := match nat_root (nc (nm s)) !! nid with None => __init_nat_entry nid (Some raw) (nc (nm s)) | Some _ => nc (nm s) end).
  assert (cache_ok (max_nid (nm s)) c0 /\ exists e0, nat_root c0 !! nid = Some e0 /\ ni e0 = nval sbi s nid /\ get_nat_flag e0 IS_DIRTY = dirty (nc (nm s)) nid /\
     get_nat_flag e0 IS_CHECKPOINTED = ckpt s nid /\ forall k, k <> nid -> nat_root c0 !! k = nat_root (nc (nm s)) !! k) as (C0 & e0 & He0 & V0 & D0 & K0 & Hoth).
  { unfold c0, nval, dirty, f2fs_is_checkpointed_node, __lookup_nat_cache. destruct (nat_root (nc (nm s)) !! nid) as [e|] eqn:He.
    - split; [done|]. by exists e.
    - assert (rn_block_addr raw <> NEW_ADDR) as Hr by (rewrite <- Ec; apply W5; lia). split; [by apply init_entry_ok|].
      eexists. rewrite init_root, decide_True by done. split; [reflexivity|]. rewrite !get_flag_info, !new_entry_flags by done. split; [by rewrite Ec|].
      split; [done|]. split; [done|]. intros k Hk. by rewrite init_root, decide_False. }
  assert (c0 = c0 <| nat_root ::= <[nid := e0]> |>) as Eid.
  { destruct c0 as [m a b d e]. cbn in *. change (mk_nc m a b d e = mk_nc (<[nid := e0]> m) a b d e). by rewrite insert_id. }
  set (b := negb (get_nat_flag e0 IS_DIRTY) && (rn_block_addr raw =? NULL_ADDR)).
  set (f' := if b then (fn (nm s)) <| available_nids ::= fun n => u32 (n - 1) |> else fn (nm s)).
  set (c' := __set_nat_cache_dirty nid (c0 <| nat_root ::= <[nid := e0]> |>)).
  assert (merge_entry nid raw (nm s) = ((nm s) <| nc := c' |>) <| fn := f' |>) as En.
  { unfold merge_entry, __lookup_nat_cache, c'. rewrite <- Eid. unfold c0, f', b. unfold c0 in He0. destruct (nat_root (nc (nm s)) !! nid) as [e|] eqn:He.
    - rewrite He in He0. injection He0 as ->. cbv zeta. rewrite He. destruct (_ && _); by destruct (nm s).
    - cbv zeta. cbn [nc upd]. rewrite He0. destruct (_ && _); by destruct (nm s). }
  rewrite En. set (n' := ((nm s) <| nc := c' |>) <| fn := f' |>). set (s' := s <| nm := n' |>).
  assert (cache_ok (max_nid (nm s)) c') as C'.
  { apply (set_dirty_ok _ c0 nid e0 e0); [done|done|apply (ck_nid _ _ C0 nid e0 He0)|done|done|]. intros Hb. by rewrite V0 in Hb. }
  destruct (set_dirty_root nid e0 c0) as (e' & (T1 & T2 & _ & T4) & Hroot). fold c' in Hroot.
  assert (forall k, nat_root c' !! k = if decide (k = nid) then Some e' else nat_root (nc (nm s)) !! k) as Hr.
  { intros k. rewrite Hroot. destruct (decide (k = nid)); [done|by apply Hoth]. }
  assert (forall k, cval sbi s' k = cval sbi s k) as Hc by done.
  assert (forall k, nval sbi s' k = nval sbi s k) as Hn.
  { intros k. unfold nval. change (nat_root (nc (nm s'))) with (nat_root c'). rewrite Hr. destruct (decide (k = nid)) as [->|]; [|done]. rewrite T1, V0. done. }
  assert (forall k, dirty c' k = (k =? nid) || dirty (nc (nm s)) k) as Hd.
  { intros k. unfold dirty. rewrite Hr. destruct (decide (k = nid)) as [->|Hk]; [by rewrite T2, Z.eqb_refl|]. by rewrite (proj2 (Z.eqb_neq k nid)). }
  assert (forall k, ckpt s' k = ckpt s k) as Hk.
  { intros k. unfold f2fs_is_checkpointed_node at 1, __lookup_nat_cache. change (nat_root (nc (nm s'))) with (nat_root c'). rewrite Hr.
    destruct (decide (k = nid)) as [->|]; [|done]. by rewrite T4, K0. }
  assert (forall k, qidle sbi s' k = qidle sbi s k) as Hq by (intros k; by rewrite !qidle_eq, Hk, Hn).
  assert (fn_ok (max_nid (nm s)) (nat_blocks (nm s)) f' /\ (forall k, is_prealloc f' k = is_prealloc (fn (nm s)) k) /\ same_bits (fn (nm s)) f' /\
    next_scan_nid f' = next_scan_nid (fn (nm s)) /\ free_nid_root f' = free_nid_root (fn (nm s)) /\
    available_nids f' = u32 (available_nids (fn (nm s)) - Z.b2z b)) as (F1 & Fp & Fb & Fx & Fr & Fa).
  { unfold f'. destruct b; [split_and!; try done; by destruct (fr_fn _ _ F)|]. split_and!; try done; [apply F|]. cbn [Z.b2z]. rewrite Z.sub_0_r, (fr_avail _ _ F). by rewrite u32_u32. }
  assert (nat_ok sbi s') as W'.
  { split; try done.
    - by destruct W1.
    - intros k e. change (nat_root (nc (nm s'))) with (nat_root c'). rewrite Hr. destruct (decide (k = nid)) as [->|]; [|apply W4].
      intros [= <-]. by rewrite T2. }
  split; try done. change (free_ok sbi s').
  split.
  - exact F1.
  - intros k. change (fn (nm s')) with f'. rewrite Fr, Hq. apply F.
  - intros k. change (fn (nm s')) with f'. rewrite Fr, Hq, Hn. apply F.
  - intros k Hkr. change (fn (nm s')) with f'. change (nc (nm s')) with c'. rewrite (proj2 Fb), Hd. intros Hb.
    destruct (fr_bits _ _ F k Hkr Hb) as [->|?]; [left; apply orb_true_r|by right].
  - change (available_nids (fn (nm s'))) with (available_nids f'). change (max_nid (nm s')) with (max_nid (nm s)). rewrite Fa, (fr_avail _ _ F), u32_sub_l. f_equal.
    rewrite (count_upto_ext (usable sbi s') (usable sbi s)) by (intros k _; unfold usable; change (fn (nm s')) with f'; by rewrite Hq, Fp).
    rewrite (count_upto_update (merged s) (merged s') _ nid); [|lia|].
    + rewrite Hm, (merged_eq sbi s'), Hk, Hn. change (nc (nm s')) with c'. rewrite Hd, Z.eqb_refl. cbn [orb andb Z.b2z].
      enough (ckpt s nid && (ni_blk (nval sbi s nid) =? NULL_ADDR) = b) as -> by (destruct b; cbn [Z.b2z]; lia).
      rewrite (merged_eq sbi), <- D0 in Hm. unfold b. destruct (get_nat_flag e0 IS_DIRTY) eqn:Ed; cbn [negb andb] in *; [done|].
      rewrite <- K0, (ck_ckpt _ _ C0 nid e0 He0 Ed). cbn [andb]. f_equal. rewrite <- Ec.
      unfold nval. destruct (nat_root (nc (nm s)) !! nid) as [e|] eqn:He; [|done]. symmetry. apply (clean_cval sbi s nid e W He).
      unfold dirty in D0. by rewrite He in D0.
    + intros k _ Hne. rewrite !(merged_eq sbi), Hk, Hn. change (nc (nm s')) with c'. rewrite Hd. by rewrite (proj2 (Z.eqb_neq k nid)).
  - change (0 <= next_scan_nid f'). rewrite Fx. apply F.
Qed.
Lemma merge_journal_ok l s : nat_ok sbi s -> free_ok sbi s -> NoDup (map fst l) -> (forall k r, (k, r) ∈ l -> jval (njnl s) k = Some r) ->
  (forall k, k ∈ map fst l -> 0 < k < max_nid (nm s) /\ ni_blk (nval sbi s k) <> NEW_ADDR /\ merged s k = false) ->
  merged_in (fun k => bool_decide (k ∈ map fst l)) s (merge_journal l (nm s)).
Proof.
  revert s. induction l as [|[nid raw] l IH]; intros s W F Hn Hj Hl.
  { cbn [merge_journal map]. destruct (merged_in_refl s W F) as [A1 A2 A3 A4 A5 A6 A7 A8 A9 A10 A11 A12 A13 A14]. split; done. }
  rewrite merge_journal_cons. cbn [map fst] in *. apply list.NoDup_cons in Hn as [Hnid Hn]. destruct (Hl nid ltac:(by left)) as (L1 & L2 & L3).
  pose proof (merge_one nid raw s W F (Hj nid raw ltac:(by left)) L1 L2 L3) as M1. set (n1 := merge_entry nid raw (nm s)) in *.
  assert (merged_in (fun k => bool_decide (k ∈ map fst l)) (s <| nm := n1 |>) (merge_journal l n1)) as M2.
  { apply (IH (s <| nm := n1 |>) (mi_ok _ _ _ M1) (mi_free _ _ _ M1) Hn).
    - intros k r Hk. apply Hj. by right.
    - intros k Hk. destruct (Hl k ltac:(by right)) as (K1 & K2 & K3). cbn [nm upd]. rewrite (mi_max _ _ _ M1). split; [done|].
      rewrite (mi_nval _ _ _ M1) by lia. split; [done|]. rewrite (merged_eq sbi) in *. cbn [nm upd]. rewrite (mi_dirty _ _ _ M1), (mi_nval _ _ _ M1) by lia.
      assert ((k =? nid) = false) as -> by (apply Z.eqb_neq; by intros ->). pose proof (mi_ckpt _ _ _ M1 k) as K4. cbn [nm upd] in K4. by rewrite K4. }
  pose proof (merged_in_trans _ _ _ _ _ M1 M2) as M3. destruct M3 as [A1 A2 A3 A4 A5 A6 A7 A8 A9 A10 A11 A12 A13 A14]. split; try done.
  intros k. rewrite A10. f_equal. rewrite (bool_decide_ext (k ∈ nid :: map fst l) (k = nid \/ k ∈ map fst l)) by apply elem_of_cons. rewrite bool_decide_or, orb_comm. f_equal.
  destruct (Z.eqb_spec k nid) as [->|]; symmetry; [by apply bool_decide_eq_true|by apply bool_decide_eq_false].
Qed.

Definition journalled (s : nat_store) (k : Z) : bool := bool_decide (is_Some (jval (njnl s) k)).
Record dropped (s s' : nat_store) : Prop := {
  dp_ok : nat_ok sbi s';
  dp_free : free_ok sbi s';
  dp_base : nat_blkaddr (nm s') = nat_blkaddr (nm s); dp_max : max_nid (nm s') = max_nid (nm s); dp_blocks : nat_blocks (nm s') = nat_blocks (nm s);
  dp_bitmap : nat_bitmap (nm s') = nat_bitmap (nm s); dp_fsck : need_fsck (nm s') = need_fsck (nm s); dp_flag : nat_bits_flag (nm s') = nat_bits_flag (nm s);
  dp_meta : nmeta s' = nmeta s;
  dp_nval k : 0 <= k < max_nid (nm s) -> nval sbi s' k = nval sbi s k;
  dp_cval k : journalled s k = false -> cval sbi s' k = cval sbi s k;
  dp_dirty k : dirty (nc (nm s')) k = journalled s k || dirty (nc (nm s)) k;
  dp_ckpt k : ckpt s' k = ckpt s k;
  dp_pre k : is_prealloc (fn (nm s')) k = is_prealloc (fn (nm s)) k;
  dp_aligned : aligned (fn (nm s)) -> aligned (fn (nm s'));
  dp_complete : all_complete sbi s (fn (nm s)) -> all_complete sbi s' (fn (nm s'));
  dp_jnl : n_nats (njnl s') = 0 /\ forall k, jval (njnl s') k = None;
}.
Lemma drop_ok s : nat_ok sbi s -> free_ok sbi s ->
  (forall k, is_Some (jval (njnl s) k) -> ni_blk (nval sbi s k) <> NEW_ADDR /\ merged s k = false) -> dropped s (remove_nats_in_journal s).
Proof.
  intros W F Hj. set (max := max_nid (nm s)). pose proof (no_jnl _ _ W) as Wj. set (l := nats_in_cursum (njnl s)).
  assert (forall k, k ∈ map fst l <-> is_Some (jval (njnl s) k)) as Hl.
  { intros k. split.
    - intros ([k' r] & -> & Hin)%list_elem_of_fmap. exists r. by apply (jval_in max).
    - intros [r Hr]. apply (jval_in max) in Hr; [|done]. by apply (list_elem_of_fmap_2 fst l (k, r)). }
  pose proof (merge_journal_ok l s W F (nj_nodup _ _ Wj)) as M. set (n1 := merge_journal l (nm s)) in *. set (s1 := s <| nm := n1 |>).
  destruct M as [A1 A2 A3 A4 A5 A6 A7 A8 A9 A10 A11 A12 A13 A14].
  { intros k r Hin. by apply (jval_in max). }
  { intros k Hk. split; [|by apply Hj, Hl]. apply list_elem_of_fmap in Hk as ([k' r] & -> & Hin). by apply (nj_nid _ _ Wj (k', r)). }
  assert (merged_in (fun k => bool_decide (k ∈ map fst l)) s n1) as M by by split.
  assert (forall k, cval sbi s1 k = cval sbi s k) as Hcv by (intros k; by apply (merged_in_cval _ _ _ _ M)).
  destruct (drop_nats_ok max (njnl s) Wj) as (J1 & J2 & J3). set (j2 := snd (update_nats_in_cursum (njnl s) (- n_nats (njnl s)))) in *.
  change (remove_nats_in_journal s) with (mk_ns n1 j2 (nmeta s)). set (s2 := mk_ns n1 j2 (nmeta s)).
  assert (forall k, journalled s k = bool_decide (k ∈ map fst l)) as Ej by (intros k; apply bool_decide_ext; by rewrite Hl).
  assert (forall k, journalled s k = false -> cval sbi s2 k = cval sbi s1 k) as Hc.
  { intros k Hk%bool_decide_eq_false. unfold cval. change (njnl s2) with j2. change (njnl s1) with (njnl s). rewrite J3. destruct (jval (njnl s) k); [by destruct Hk|done]. }
  assert (forall k, dirty (nc n1) k = journalled s k || dirty (nc (nm s)) k) as Hd by (intros k; by rewrite A10, Ej).
  assert (forall k, journalled s k = true -> exists e, nat_root (nc n1) !! k = Some e /\ get_nat_flag e IS_DIRTY = true) as Hcached.
  { intros k Hk. pose proof (Hd k) as E. rewrite Hk in E. cbn [orb] in E. unfold dirty in E. destruct (nat_root (nc n1) !! k) as [e|]; [by exists e|done]. }
  assert (forall k, nval sbi s2 k = nval sbi s1 k) as Hn2.
  { intros k. unfold nval. change (nm s2) with n1. change (nm s1) with n1. destruct (nat_root (nc n1) !! k) as [e|] eqn:He; [done|]. rewrite Hc; [done|].
    apply not_true_iff_false. intros Hk. destruct (Hcached k Hk) as (e & E & _). congruence. }
  assert (forall k, qidle sbi s2 k = qidle sbi s1 k) as Hq by (intros k; rewrite !qidle_eq; by rewrite Hn2).
  assert (forall k, merged s2 k = merged s1 k) as Hm by done.
  destruct A1 as [W1 W2 W3 W4 W5 W6 W7], A2 as [F1 F2 F3 F4 F5 F6]. change (nm (s <| nm := n1 |>)) with n1 in *. change (njnl (s <| nm := n1 |>)) with (njnl s) in *.
  change (nmeta (s <| nm := n1 |>)) with (nmeta s) in *. split; try done.
  - split; try done.
    + change (njnl_ok (max_nid n1) j2). rewrite A4. exact J1.
    + intros k e He Hde. change (nm s2) with n1 in He. rewrite Hc; [by apply W4|]. apply not_true_iff_false. intros Hk. destruct (Hcached k Hk) as (e2 & E & ?). congruence.
    + intros k Hk. unfold cval. change (njnl s2) with j2. rewrite J3. by apply W6.
  - split; try done.
    + intros k. rewrite Hq. apply F2.
    + intros k. rewrite Hq, Hn2. apply F3.
    + intros k Hk Hb. change (nm s2) with n1 in *. destruct (F4 k Hk Hb) as [?|[Hjk|?]]; [by left|left|by right; right].
      rewrite Hd. assert (journalled s k = true) as ->; [by apply bool_decide_eq_true|done].
    + change (nm s2) with n1. rewrite F5. do 2 f_equal. apply count_upto_ext. intros k _. unfold usable. by rewrite Hq.
  - intros k Hk. rewrite Hn2. by apply A9.
  - intros k Hk. rewrite Hc by done. by apply Hcv.
  - unfold aligned. change (nm s2) with n1. by rewrite A13.
  - intros A b Hb Hs k Eb Hk Hqk Hp. change (nm s2) with n1 in *. rewrite (proj2 A14). rewrite A12 in Hp. rewrite A4, A5 in *.
    assert (qidle sbi s k = true) as Hq0 by (rewrite <- Hqk, Hq; unfold s1; rewrite !qidle_eq, A9 by lia; f_equal; symmetry; apply A11).
    destruct (A b Hb) with k as [?|[Hjk|Hmk]]; try done; [unfold scanned in *; by rewrite <- (proj1 A14)|by left|right; right..].
    + rewrite (merged_eq sbi). change (nm s2) with n1. rewrite Hd. assert (journalled s k = true) as -> by by apply bool_decide_eq_true. cbn [orb andb].
      by rewrite <- Hqk, qidle_eq.
    + rewrite Hm. unfold s1. rewrite (merged_eq sbi) in *. rewrite A9 by lia. change (nm (s <| nm := n1 |>)) with n1. rewrite Hd.
      apply andb_true_iff in Hmk as [[Hm1 Hm2]%andb_true_iff Hm3]. rewrite Hm1, orb_true_r. pose proof (A11 k) as Ek. change (nm (s <| nm := n1 |>)) with n1 in Ek.
      by rewrite Ek, Hm2, Hm3.
Qed.
End ckpt.

(** ** Gathering the sets *)

Section gather.
Context `{NatFormatOk} `{RadixTreeOk}.
Lemma adjust_perm cnt nes head max : __adjust_nat_entry_set cnt nes head max ≡ₚ nes :: head.
Proof.
  induction head as [|cur head IH]; cbn [__adjust_nat_entry_set]; [by destruct (max <=? _)|]. destruct (max <=? _); [by rewrite Permutation_app_comm|].
  destruct (cnt nes <=? cnt cur); [done|]. rewrite IH. apply Permutation_swap.
Qed.
Lemma fold_adjust_perm cnt max vec sets : fold_left (fun l b => __adjust_nat_entry_set cnt b l max) vec sets ≡ₚ vec ++ sets.
Proof.
  revert sets. induction vec as [|b vec IH]; intros sets; cbn [fold_left app]; [done|]. rewrite IH, adjust_perm. symmetry. apply Permutation_middle.
Qed.
Lemma gather_ok n c j idx sets (T := dom (nat_set_root c)) : (size (filter (fun k => (idx <= k)%Z) T) < n)%nat -> NoDup sets -> (forall k, k ∈ sets -> k < idx) ->
  exists out, gather_sets n c j idx sets = Done out /\ NoDup out /\ forall k, k ∈ out <-> k ∈ sets \/ (k ∈ T /\ idx <= k).
Proof.
  revert idx sets. induction n as [|n IH]; intros idx sets Hn Hnd Hlt; [lia|]. cbn [gather_sets]. fold T. set (vec := radix_tree_gang_lookup T idx 32).
  destruct (list.last vec) as [set|] eqn:El.
  - set (cnt := fun b : Z => match nat_set_root c !! b with Some s => entry_cnt s | None => 0 end). pose proof (fold_adjust_perm cnt (NAT_JOURNAL_ENTRIES - n_nats j) vec sets) as Hp.
    set (sets' := fold_left _ vec sets) in *.
    assert (forall k, k ∈ sets' <-> k ∈ vec \/ k ∈ sets) as Hin by (intros k; by rewrite Hp, elem_of_app).
    assert (forall k, k ∈ vec -> k ∈ T /\ idx <= k) as Hvec by (intros k; apply gang_in).
    assert (forall k, k ∈ vec -> k <= set) as Htop by (intros k Hk; by apply (gang_top T idx 32%nat)).
    assert (set ∈ vec) as Hset by by apply last_Some_elem_of.
    destruct (IH (set + 1) sets') as (out & E & N & Ho).
    + assert (size (filter (fun k => (set + 1 <= k)%Z) T) < size (filter (fun k => (idx <= k)%Z) T))%nat; [|lia]. apply subset_size. split.
      * intros k. rewrite !elem_of_filter. destruct (Hvec set Hset). intros [? ?]. split; [lia|done].
      * intros Hsub. destruct (Hvec set Hset) as [Ht Hi]. specialize (Hsub set). rewrite !elem_of_filter in Hsub. destruct Hsub; [done|lia].
    + rewrite Hp. apply list.NoDup_app. split; [apply gang_nodup|]. split; [|done]. intros k Hk Hs. destruct (Hvec k Hk). specialize (Hlt k Hs). lia.
    + intros k [Hk|Hk]%Hin; [specialize (Htop k Hk); lia|]. specialize (Hlt k Hk). destruct (Hvec set Hset). lia.
    + exists out. split; [exact E|]. split; [done|]. intros k. rewrite Ho, Hin. destruct (Hvec set Hset). split.
      * intros [[Hk|Hk]|[? ?]]; [right; by apply Hvec|by left|right; split; [done|lia]].
      * intros [Hk|[Ht Hk]]; [left; by right|]. destruct (decide (k <= set)); [left; left; by apply (gang_last T idx 32%nat k set)|right; split; [done|lia]].
  - exists sets. split; [done|]. split; [done|]. intros k. split; [by left|]. intros [?|[Ht Hk]]; [done|]. exfalso.
    apply (gang_some T idx 32%nat k); [lia|done..|]. by apply last_None.
Qed.
End gather.

(** ** The sets in a row, and the flush *)

Section whole.
Context `{NatFormatOk}.
#[local] Abbreviation EPB := NAT_ENTRY_PER_BLOCK.
#[local] Abbreviation NJE := NAT_JOURNAL_ENTRIES.
#[local] Abbreviation block := NAT_BLOCK_OFFSET.
Context (sbi : f2fs_sb_info) (Hgeom : geom_wf sbi).
#[local] Abbreviation ckpt s := (f2fs_is_checkpointed_node (nc (nm s))).
#[local] Abbreviation raw_of s nid := (raw_nat_from_node_info (nval sbi s nid)).

Definition entries_of (s : nat_store) (b : Z) : list Z := entry_list (default (mk_nes [] 0) (nat_set_root (nc (nm s)) !! b)).
Definition pending (s : nat_store) (bs : list Z) : list Z := flat_map (entries_of s) bs.
(** Either all that is left fits in the journal, or the journal has nothing of it. *)
Definition room (umount : bool) (bs : list Z) (s : nat_store) : Prop :=
  enabled_nat_bits (nm s) umount = false /\ zlen (pending s bs) <= NJE - n_nats (njnl s) \/
  forall k, is_Some (jval (njnl s) k) -> block k ∉ bs.
Lemma in_pending s bs k : k ∈ pending s bs <-> exists b, b ∈ bs /\ k ∈ entries_of s b.
Proof.
  unfold pending. rewrite list_elem_of_In, in_flat_map. split; intros (b & Hb & Hk); exists b; split; by apply list_elem_of_In.
Qed.
Lemma pending_ext s s' bs : (forall b, b ∈ bs -> nat_set_root (nc (nm s')) !! b = nat_set_root (nc (nm s)) !! b) -> pending s' bs = pending s bs.
Proof.
  intros E. induction bs as [|b bs IH]; [done|]. unfold pending. cbn [flat_map]. fold (pending s' bs) (pending s bs).
  rewrite IH by (intros; apply E; by right). unfold entries_of. by rewrite E by by left.
Qed.
Lemma in_entries s b k : nat_ok sbi s -> is_Some (nat_set_root (nc (nm s)) !! b) -> k ∈ entries_of s b <-> block k = b /\ flushable (nc (nm s)) k.
Proof. intros W [nes Hs]. unfold entries_of. rewrite Hs. by destruct (ck_set _ _ (no_cache _ _ W) b nes Hs) as (_ & _ & M). Qed.
Lemma nat_sets_flush_ok umount bs s : nat_ok sbi s -> free_ok sbi s -> NoDup bs -> (forall b, b ∈ bs -> is_Some (nat_set_root (nc (nm s)) !! b)) -> room umount bs s ->
  exists s', flush_nat_sets sbi umount bs s = Done s' /\ flushed sbi (fun k => bool_decide (k ∈ pending s bs)) s s' /\
    (forall c, 0 <= c < nat_blocks (nm s) -> c ∉ bs -> copy_of (nm s') c = copy_of (nm s) c) /\
    (forall a, (forall b, b ∈ bs -> a <> nat_addr sbi (nm s) b (negb (copy_of (nm s) b))) -> nmeta s' a = nmeta s a).
Proof.
  revert s. induction bs as [|b bs IH]; intros s W F Hn Hs Hroom; cbn [flush_nat_sets].
  { exists s. split; [done|]. split; [|done]. apply (flushed_ext sbi (fun _ => false)); [|by apply flushed_refl]. intros k. symmetry. by apply bool_decide_eq_false_2, not_elem_of_nil. }
  apply list.NoDup_cons in Hn as [Hb Hn]. destruct (Hs b ltac:(by left)) as [nes Hnes].
  destruct (ck_set _ _ (no_cache _ _ W) b nes Hnes) as (_ & Ecnt & _). assert (entries_of s b = entry_list nes) as Een by (unfold entries_of; by rewrite Hnes).
  assert (pending s (b :: bs) = entry_list nes ++ pending s bs) as Epd by (unfold pending; cbn [flat_map]; by rewrite Een).
  pose proof (zlen_nonneg (pending s bs)). unfold room in Hroom. rewrite Epd, zlen_app in Hroom.
  destruct (nat_set_flush_ok sbi Hgeom umount b nes s W F Hnes) as (s1 & E1 & P1 & S1 & N1 & B1 & M1).
  { intros Htj k Ek. destruct Hroom as [[He Hsp]|Hnone].
    - unfold set_to_journal in Htj. rewrite He in Htj. unfold has_nat_space in Htj. rewrite (proj2 (Z.leb_le (entry_cnt nes) (NJE - n_nats (njnl s)))) in Htj by lia. done.
    - destruct (jval (njnl s) k) as [r|] eqn:Ej; [|done]. destruct (Hnone k); [by eexists|]. rewrite Ek. by left. }
  rewrite E1. cbn [obind].
  assert (pending s1 bs = pending s bs) as Ep1 by (apply pending_ext; intros b' Hb'; rewrite S1, decide_False; [done|by intros ->]).
  destruct (IH s1 (fl_ok _ _ _ _ P1) (fl_free _ _ _ _ P1) Hn) as (s' & E2 & P2 & B2 & M2).
  - intros b' Hb'. rewrite S1, decide_False by (by intros ->). apply Hs. by right.
  - unfold room. rewrite Ep1. destruct Hroom as [[He Hsp]|Hnone].
    + left. unfold enabled_nat_bits. rewrite (fl_flag _ _ _ _ P1). split; [done|]. pose proof (zlen_nonneg (entry_list nes)). revert N1. case (set_to_journal umount nes s); lia.
    + right. intros k Hk Hin. destruct (fl_jnl _ _ _ _ P1 k Hk) as [Hp|Hj].
      * apply bool_decide_eq_true in Hp. rewrite <- Een in Hp. apply in_entries in Hp as [Ek _]; [|done|by eexists]. congruence.
      * apply (Hnone k Hj). by right.
  - exists s'. split; [exact E2|]. split; [|split].
    + refine (flushed_ext _ _ _ _ _ _ (flushed_trans _ _ _ _ _ _ P1 P2)). intros k. rewrite Ep1, Epd.
      rewrite (bool_decide_ext (k ∈ entry_list nes ++ pending s bs) (k ∈ entry_list nes \/ k ∈ pending s bs)) by apply elem_of_app. by rewrite bool_decide_or, orb_comm.
    + intros c Hc Hin. rewrite B2; [|by rewrite (fl_blocks _ _ _ _ P1)|by intros ?; apply Hin; right]. rewrite B1 by done.
      assert ((c =? b) = false) as -> by (apply Z.eqb_neq; intros ->; apply Hin; by left). by rewrite andb_false_r.
    + intros a Ha. rewrite M2, M1; [done|apply Ha; by left|]. intros b' Hb'. assert (0 <= b' < nat_blocks (nm s)) as Hr.
      { destruct (geom_max sbi s W) as (G1 & G2 & G3). destruct (ck_blk _ _ (no_cache _ _ W) b') as (k & Hk & <-); [apply Hs; by right|]. apply (nid_block _ _ G1). lia. }
      unfold nat_addr. rewrite (fl_base _ _ _ _ P1), B1 by done. assert ((b' =? b) = false) as -> by (apply Z.eqb_neq; by intros ->). rewrite andb_false_r.
      apply Ha. by right.
Qed.
(** The current value of a clean node is the one on the device. *)
Lemma clean_raw s k : nat_ok sbi s -> dirty (nc (nm s)) k = false -> raw_of s k = cval sbi s k.
Proof.
  intros W Hd. unfold nval. unfold dirty in Hd. destruct (nat_root (nc (nm s)) !! k) as [e|] eqn:He; [by apply (no_clean _ _ W)|by apply raw_info].
Qed.
Lemma pending_small s bs : nat_ok sbi s -> NoDup bs -> (forall b, b ∈ bs -> is_Some (nat_set_root (nc (nm s)) !! b)) -> zlen (pending s bs) <= dirty_nat_cnt (nc (nm s)).
Proof.
  intros W Hn Hs. rewrite (ck_cnt _ _ (no_cache _ _ W)). apply nodup_count.
  - induction bs as [|b bs IH]; [apply NoDup_nil_2|]. apply list.NoDup_cons in Hn as [Hb Hn]. unfold pending. cbn [flat_map]. fold (pending s bs). apply list.NoDup_app. split_and!.
    + destruct (Hs b ltac:(by left)) as [nes Hnes]. unfold entries_of. rewrite Hnes. apply (ck_set _ _ (no_cache _ _ W) b nes Hnes).
    + intros k Hk (b' & Hb' & Hk')%in_pending. apply in_entries in Hk as [E1 _]; [|done|apply Hs; by left]. apply in_entries in Hk' as [E2 _]; [|done|apply Hs; by right]. congruence.
    + apply IH; [done|]. intros b' Hb'. apply Hs. by right.
  - intros k (b & Hb & Hk)%in_pending. apply in_entries in Hk as [_ (e & He & Hd & _)]; [|done|by apply Hs].
    destruct (ck_nid _ _ (no_cache _ _ W) k e He) as [_ ?]. split; [lia|]. unfold dirty. by rewrite He.
Qed.

(** A store that has only been prepared for the flush of its sets *)
Record prepared (umount : bool) (s s1 : nat_store) : Prop := {
  pp_ok : nat_ok sbi s1; pp_free : free_ok sbi s1;
  pp_base : nat_blkaddr (nm s1) = nat_blkaddr (nm s); pp_max : max_nid (nm s1) = max_nid (nm s); pp_blocks : nat_blocks (nm s1) = nat_blocks (nm s);
  pp_bitmap : nat_bitmap (nm s1) = nat_bitmap (nm s); pp_fsck : need_fsck (nm s1) = need_fsck (nm s); pp_meta : nmeta s1 = nmeta s;
  pp_nval k : 0 <= k < max_nid (nm s) -> nval sbi s1 k = nval sbi s k;
  pp_new k : 0 <= k < max_nid (nm s) -> ni_blk (nval sbi s k) = NEW_ADDR -> cval sbi s1 k = cval sbi s k /\ dirty (nc (nm s1)) k = dirty (nc (nm s)) k;
  pp_ckpt k : ckpt s1 k = ckpt s k;
  pp_pre k : is_prealloc (fn (nm s1)) k = is_prealloc (fn (nm s)) k;
  pp_aligned : aligned (fn (nm s)) -> aligned (fn (nm s1));
  pp_complete : all_complete sbi s (fn (nm s)) -> all_complete sbi s1 (fn (nm s1));
  pp_room bs : NoDup bs -> (forall b, b ∈ bs -> is_Some (nat_set_root (nc (nm s1)) !! b)) -> room umount bs s1;
}.
Definition no_new_journalled (s : nat_store) : Prop := forall k, is_Some (jval (njnl s) k) -> ni_blk (nval sbi s k) <> NEW_ADDR.
Lemma prepare_ok umount s : nat_ok sbi s -> free_ok sbi s -> steady sbi s -> no_new_journalled s ->
  prepared umount s (if enabled_nat_bits (nm s) umount || negb (has_nat_space (njnl s) (dirty_nat_cnt (nc (nm s)))) then remove_nats_in_journal s else s).
Proof.
  intros W F St Hj. destruct (enabled_nat_bits (nm s) umount) eqn:En, (has_nat_space (njnl s) (dirty_nat_cnt (nc (nm s)))) eqn:Esp; cbn [orb negb].
  3: { split; try done. intros bs Hn Hs. left. split; [done|]. apply Z.leb_le in Esp. pose proof (pending_small s bs W Hn Hs). lia. }
  all: destruct (drop_ok sbi s W F) as [D1 D2 D3 D4 D5 D6 D7 D8 D9 D10 D11 D12 D13 D14 D15 D16 [D17 D18]];
    [intros k Hk; split; [by apply Hj|by apply (steady_not_merged sbi)]|].
  all: split; try done;
    [intros k Hk Hb; assert (journalled s k = false) as E by (apply bool_decide_eq_false_2; intros Hjk; by destruct (Hj k Hjk));
     split; [by apply D11|by rewrite D12, E]|intros bs _ _; right; intros k; rewrite D18; by intros [? ?]].
Qed.
Record checkpointed (s s' : nat_store) : Prop := {
  cp_ok : nat_ok sbi s';
  cp_free : free_ok sbi s';
  cp_steady : steady sbi s';
  cp_base : nat_blkaddr (nm s') = nat_blkaddr (nm s); cp_max : max_nid (nm s') = max_nid (nm s);
  cp_blocks : nat_blocks (nm s') = nat_blocks (nm s); cp_fsck : need_fsck (nm s') = need_fsck (nm s);
  cp_nval k : 0 <= k < max_nid (nm s) -> nval sbi s' k = nval sbi s k;
  cp_cval k : 0 <= k < max_nid (nm s) -> cval sbi s' k = if ni_blk (nval sbi s k) =? NEW_ADDR then cval sbi s k else raw_of s k;
  cp_dirty k : 0 <= k < max_nid (nm s) -> dirty (nc (nm s')) k = dirty (nc (nm s)) k && (ni_blk (nval sbi s k) =? NEW_ADDR);
  cp_ckpt k : 0 <= k < max_nid (nm s) -> ckpt s' k = negb (ni_blk (nval sbi s k) =? NEW_ADDR) || ckpt s k;
  cp_pre k : is_prealloc (fn (nm s')) k = is_prealloc (fn (nm s)) k;
  cp_aligned : aligned (fn (nm s)) -> aligned (fn (nm s'));
  cp_complete : all_complete sbi s (fn (nm s)) -> all_complete sbi s' (fn (nm s'));
  cp_media c : 0 <= c < nat_blocks (nm s) -> nmeta s' (nat_addr sbi (nm s) c (copy_of (nm s) c)) = nmeta s (nat_addr sbi (nm s) c (copy_of (nm s) c));
}.
Lemma clean_ckpt s k : nat_ok sbi s -> dirty (nc (nm s)) k = false -> ckpt s k = true.
Proof.
  intros W Hd. unfold f2fs_is_checkpointed_node, __lookup_nat_cache. unfold dirty in Hd. destruct (nat_root (nc (nm s)) !! k) as [e|] eqn:He; [|done].
  by apply (ck_ckpt _ _ (no_cache _ _ W) k e).
Qed.
Lemma nothing_dirty s : nat_ok sbi s -> dirty_nat_cnt (nc (nm s)) = 0 -> forall k, dirty (nc (nm s)) k = false.
Proof.
  intros W E k. rewrite (ck_cnt _ _ (no_cache _ _ W)) in E. unfold dirty. destruct (nat_root (nc (nm s)) !! k) as [e|] eqn:He; [|done].
  destruct (ck_nid _ _ (no_cache _ _ W) k e He) as [_ ?]. pose proof (count_upto_zero _ _ E k ltac:(lia)) as Hz. unfold dirty in Hz. by rewrite He in Hz.
Qed.
(** After the sets are flushed only nodes without an address stay dirty. *)
Lemma flushed_checkpointed umount s s1 s' bs : steady sbi s -> nat_ok sbi s -> prepared umount s s1 ->
  (forall b, b ∈ bs <-> is_Some (nat_set_root (nc (nm s1)) !! b) /\ 0 <= b) -> flushed sbi (fun k => bool_decide (k ∈ pending s1 bs)) s1 s' ->
  (forall c, 0 <= c < nat_blocks (nm s) -> nmeta s' (nat_addr sbi (nm s) c (copy_of (nm s) c)) = nmeta s (nat_addr sbi (nm s) c (copy_of (nm s) c))) ->
  checkpointed s s'.
Proof.
  intros St W [P1 P2 P3 P4 P5 P6 P7 P8 P9 P10 P11 P12 P13 P14 _] Hbs [A1 A2 A3 A4 A5 A6 A7 A8 A9 A10 A11 A12 A13 A14 A15] Hmeta. pose proof null_new as Hnn. rewrite P4 in *.
  assert (forall b, b ∈ bs -> is_Some (nat_set_root (nc (nm s1)) !! b)) as Hset by (intros b Hb; by apply Hbs).
  destruct (geom_max sbi s W) as (G1 & G2 & G3).
  assert (forall k, k ∈ pending s1 bs <-> flushable (nc (nm s1)) k) as Hpd.
  { intros k. rewrite in_pending. split.
    - intros (b & Hb & Hk). apply in_entries in Hk as [_ ?]; [done|done|by apply Hset].
    - intros Hf. pose proof Hf as (e & He & _). destruct (ck_nid _ _ (no_cache _ _ P1) k e He) as [_ Hr]. rewrite P4 in Hr.
      pose proof (ck_cover _ _ (no_cache _ _ P1) k Hf) as Hc. exists (block k). split; [apply Hbs; split; [done|]|by apply in_entries].
      apply (nid_block _ _ G1). lia. }
  assert (forall k, 0 <= k < max_nid (nm s) -> flushable (nc (nm s1)) k <-> dirty (nc (nm s1)) k = true /\ ni_blk (nval sbi s k) <> NEW_ADDR) as Hfl.
  { intros k Hk. unfold flushable, dirty. rewrite <- P9 by done. unfold nval. destruct (nat_root (nc (nm s1)) !! k) as [e|]; [|by split; [intros (? & ? & _)|intros [? _]]].
    split; [by intros (? & [= <-] & ?)|]. intros [? ?]. by exists e. }
  assert (forall k, 0 <= k < max_nid (nm s) -> bool_decide (k ∈ pending s1 bs) = dirty (nc (nm s1)) k && negb (ni_blk (nval sbi s k) =? NEW_ADDR)) as HP.
  { intros k Hk. destruct (dirty (nc (nm s1)) k && negb (ni_blk (nval sbi s k) =? NEW_ADDR)) eqn:E.
    - apply bool_decide_eq_true, Hpd, Hfl; [done|]. apply andb_true_iff in E as [? E%negb_true_iff%Z.eqb_neq]. done.
    - apply bool_decide_eq_false. rewrite Hpd, Hfl by done. intros [Hd Hb%Z.eqb_neq]. by rewrite Hd, Hb in E. }
  assert (forall k, 0 <= k < max_nid (nm s) -> dirty (nc (nm s')) k = dirty (nc (nm s)) k && (ni_blk (nval sbi s k) =? NEW_ADDR)) as Hd.
  { intros k Hk. rewrite A10, HP by done. destruct (Z.eqb_spec (ni_blk (nval sbi s k)) NEW_ADDR) as [Eb|Eb].
    - destruct (P10 k Hk Eb) as [_ ->]. cbn [negb]. by rewrite andb_false_r, andb_true_r.
    - cbn [negb]. rewrite andb_true_r, andb_false_r. by destruct (dirty _ _). }
  assert (forall k, 0 <= k < max_nid (nm s) -> cval sbi s' k = if ni_blk (nval sbi s k) =? NEW_ADDR then cval sbi s k else raw_of s k) as Hc.
  { intros k Hk. rewrite A9, HP by done. destruct (Z.eqb_spec (ni_blk (nval sbi s k)) NEW_ADDR) as [Eb|Eb]; cbn [negb].
    - rewrite andb_false_r. by apply P10.
    - rewrite andb_true_r, P9 by done. destruct (dirty (nc (nm s1)) k) eqn:Ed; [done|]. rewrite <- P9 by done. symmetry. by apply clean_raw. }
  split; try done; try congruence.
  - intros k e He Hde Hck. destruct (ck_nid _ _ (no_cache _ _ A1) k e He) as [_ Hr]. rewrite A4 in Hr.
    pose proof (Hd k ltac:(lia)) as E. unfold dirty at 1 in E. rewrite He, Hde in E. symmetry in E. apply andb_true_iff in E as [Edk Eb].
    assert (ni e = nval sbi s k) as Ev by (rewrite <- P9, <- A8 by lia; unfold nval; by rewrite He).
    rewrite Hc, Eb by lia. unfold dirty in Edk. destruct (nat_root (nc (nm s)) !! k) as [e0|] eqn:He0; [|done].
    assert (get_nat_flag e0 IS_CHECKPOINTED = true) as Hck0.
    { pose proof (A11 k) as E. rewrite HP, Eb, andb_false_r, P11 in E by lia. unfold f2fs_is_checkpointed_node, __lookup_nat_cache in E. rewrite He, He0 in E. cbn in E. congruence. }
    destruct (St k e0 He0 Edk Hck0) as [_ ?]. split; [|done]. rewrite Ev. apply Z.eqb_eq in Eb. congruence.
  - intros k Hk. by rewrite A8, P9.
  - intros k Hk. rewrite A11, HP, P11 by done. destruct (dirty (nc (nm s1)) k) eqn:Ed; [done|].
    assert (ckpt s k = true) as -> by (rewrite <- P11; by apply clean_ckpt). by rewrite !orb_true_r.
  - auto.
  - auto.
Qed.
Lemma flush_ok `{RadixTreeOk} umount s : nat_ok sbi s -> free_ok sbi s -> steady sbi s -> no_new_journalled s ->
  exists s', f2fs_flush_nat_entries sbi umount s = Done s' /\ checkpointed s s'.
Proof.
  intros W F St Hj. destruct (geom_max sbi s W) as (G1 & G2 & G3). unfold f2fs_flush_nat_entries. destruct (Z.eqb_spec (dirty_nat_cnt (nc (nm s))) 0) as [E0|E0].
  - exists s. split; [done|]. pose proof (nothing_dirty s W E0) as Hd. split; try done.
    + intros k Hk. destruct (_ =? _); [done|]. symmetry. by apply clean_raw.
    + intros k _. by rewrite Hd.
    + intros k _. rewrite clean_ckpt by done. by rewrite orb_true_r.
  - pose proof (prepare_ok umount s W F St Hj) as P. set (s1 := if _ || _ then _ else s) in *. pose proof P as [P1 P2 P3 P4 P5 P6 P7 P8 P9 P10 P11 P12 P13 P14 P15].
    destruct (gather_ok (S (size (nat_set_root (nc (nm s1))))) (nc (nm s1)) (njnl s1) 0 []) as (bs & Eg & Nb & Hb).
    + rewrite <- size_dom. match goal with |- (size ?a < _)%nat => assert (size a <= size (dom (nat_set_root (nc (nm s1)))))%nat end; [|lia].
      apply subseteq_size. intros k. rewrite elem_of_filter. by intros [_ ?].
    + apply NoDup_nil_2.
    + by intros k ?%elem_of_nil.
    + rewrite Eg. cbn [obind]. assert (forall b, b ∈ bs <-> is_Some (nat_set_root (nc (nm s1)) !! b) /\ 0 <= b) as Hbs.
      { intros b. rewrite Hb, elem_of_dom. split; [by intros [?%elem_of_nil|?]|by right]. }
      assert (forall b, b ∈ bs -> is_Some (nat_set_root (nc (nm s1)) !! b)) as Hset by (intros b ?; by apply Hbs).
      destruct (nat_sets_flush_ok umount bs s1 P1 P2 Nb Hset (P15 bs Nb Hset)) as (s' & Ef & Pf & Bf & Mf). exists s'. split; [done|].
      apply (flushed_checkpointed umount s s1 s' bs); [done..|]. intros c Hc. rewrite Mf; [by rewrite P8|]. intros b Hin E.
      unfold nat_addr at 1 2 in E. rewrite P3 in E. fold (nat_addr sbi (nm s) c (copy_of (nm s) c)) in E.
      fold (nat_addr sbi (nm s) b (negb (copy_of (nm s1) b))) in E. apply (nat_addr_inj sbi Hgeom) in E as [-> E]. unfold copy_of in E. rewrite P6 in E.
      by destruct (f2fs_test_bit b (nat_bitmap (nm s))).
Qed.
End whole.
