(* ===== verification/NatMount.v ===== *)
(** * Mount of the node manager: from the device to a right cache and free list *)
From stdpp Require Import gmap.
From S2P Require Import Prelude Geometry F2fsBits Sit SitFlush NatMgr NatCache NatStore FreeNid NatFree NatFlush.
Open Scope Z_scope.

Section mount.
Context `{NatFormatOk}.
#[local] Abbreviation EPB := NAT_ENTRY_PER_BLOCK.
#[local] Abbreviation block := NAT_BLOCK_OFFSET.

(** ** Loading the nat bits *)

Section load.
Context (max nb : Z) (M1 : max = EPB * nb) (M2 : max + EPB < 4294967295) (M3 : 0 < nb).
(** The list is left alone. *)
Record same_list (f f' : free_nids) : Prop := {
  sl_root : free_nid_root f' = free_nid_root f; sl_list : free_nid_list f' = free_nid_list f; sl_cnt : cnt_free f' = cnt_free f;
  sl_avail : available_nids f' = available_nids f; sl_next : next_scan_nid f' = next_scan_nid f;
}.
Lemma same_list_trans f1 f2 f3 : same_list f1 f2 -> same_list f2 f3 -> same_list f1 f3.
Proof. intros [] []. split; congruence. Qed.
Lemma mark_block b f (f' := f <| nat_block_bitmap ::= set_bit b |>) : fn_ok max nb f -> 0 <= b ->
  fn_ok max nb f' /\ same_list f f' /\ (forall b', 0 <= b' -> scanned f' b' = (b =? b') || scanned f b') /\ forall x, free_bit f' x = free_bit f x.
Proof.
  intros F Hb. assert (forall b', 0 <= b' -> scanned f' b' = (b =? b') || scanned f b') as Hs by (intros b' Hb'; unfold scanned, f'; cbn; by rewrite test_set_bit by lia).
  split; [|by split]. destruct F as [F1 F2 F3 F4 F5 F6 F7]. split; try done. intros x Hx. rewrite Hs by (apply (nid_block _ _ M1); lia).
  intros [_ E]%orb_false_iff. by apply F7.
Qed.
Lemma load_empty_block_ok k nid f (f' := load_empty_block k nid f) : fn_ok max nb f -> 0 <= nid -> nid + Z.of_nat k <= max ->
  (forall x, nid <= x < nid + Z.of_nat k -> scanned f (block x) = true) ->
  fn_ok max nb f' /\ same_list f f' /\ nat_block_bitmap f' = nat_block_bitmap f /\
  forall x, 0 <= x < max -> free_bit f' x = bool_decide (nid <= x < nid + Z.of_nat k) || free_bit f x.
Proof.
  unfold f'. clear f'. revert nid f. induction k as [|k IH]; intros nid f F Hn Hk Hs; cbn [load_empty_block].
  { split_and!; try done. intros x Hx. by rewrite bool_decide_eq_false_2 by lia. }
  destruct (update_bitmap_ok max nb M1 nid true true f F ltac:(lia)) as [F1 R1]; [done|]. set (f1 := update_free_nid_bitmap nid true true f) in *.
  rewrite Hs in R1 by lia. destruct (IH (nid + 1) f1 F1) as (F2 & S2 & B2 & T2); [lia|lia| |].
  { intros x Hx. unfold scanned. rewrite (rb_blocks _ _ _ _ R1). apply Hs. lia. }
  split_and!; [done| | |].
  - destruct R1, S2. split; congruence.
  - rewrite B2. apply R1.
  - intros x Hx. rewrite T2, (rb_bit _ _ _ _ R1), andb_true_r by done. destruct (Z.eqb_spec x nid) as [->|Hne].
    + rewrite (bool_decide_eq_true_2 (nid <= nid < _)) by lia. by rewrite orb_true_r.
    + f_equal. apply bool_decide_ext. lia.
Qed.
Lemma load_empty_ok k bits i f (f' := load_empty k bits i f) : fn_ok max nb f -> 0 <= i -> i + Z.of_nat k <= nb ->
  fn_ok max nb f' /\ same_list f f' /\
  (forall b, 0 <= b -> scanned f' b = (bool_decide (i <= b < i + Z.of_nat k) && test_bit b bits) || scanned f b) /\
  forall x, 0 <= x < max -> free_bit f' x = (bool_decide (i <= block x < i + Z.of_nat k) && test_bit (block x) bits) || free_bit f x.
Proof.
  pose proof nents_range. unfold f'. clear f'. revert i f. induction k as [|k IH]; intros i f F Hi Hk; cbn [load_empty].
  { split_and!; try done; intros x Hx; by rewrite bool_decide_eq_false_2 by lia. }
  assert (forall b, bool_decide (i <= b < i + Z.of_nat (S k)) = (b =? i) || bool_decide (i + 1 <= b < i + 1 + Z.of_nat k)) as Erange.
  { intros b. destruct (Z.eqb_spec b i) as [->|Hne]; [by rewrite bool_decide_eq_true_2 by lia|]. apply bool_decide_ext. lia. }
  destruct (test_bit i bits) eqn:Et.
  - destruct (mark_block i f F Hi) as (F1 & S1 & B1 & T1). set (f1 := f <| nat_block_bitmap ::= set_bit i |>) in *.
    assert (forall x, i * EPB <= x < i * EPB + Z.of_nat (Z.to_nat EPB) <-> block x = i) as Hblk.
    { intros x. unfold NAT_BLOCK_OFFSET. pose proof (Z.div_mod x EPB). pose proof (Z.mod_pos_bound x EPB). split; [|nia].
      intros Hx. symmetry. apply (Z.div_unique_pos _ _ _ (x - i * EPB)); lia. }
    destruct (load_empty_block_ok (Z.to_nat EPB) (i * EPB) f1 F1) as (F2 & S2 & B2 & T2); [nia|nia| |].
    { intros x Hx%Hblk. rewrite Hx, B1 by done. by rewrite Z.eqb_refl. }
    set (f2 := load_empty_block (Z.to_nat EPB) (i * EPB) f1) in *. destruct (IH (i + 1) f2 F2) as (F3 & S3 & B3 & T3); [lia|lia|].
    split_and!; [done|eapply same_list_trans; [exact S1|eapply same_list_trans; done]|..].
    + intros b Hb. rewrite B3, Erange by done. unfold scanned at 1. rewrite B2. fold (scanned f1 b). rewrite B1 by done. rewrite (Z.eqb_sym i b).
      destruct (Z.eqb_spec b i) as [->|]; [rewrite Et; cbn [orb andb]; by rewrite orb_true_r|done].
    + intros x Hx. rewrite T3, T2, T1, Erange by done. rewrite (bool_decide_ext _ _ (Hblk x)).
      destruct (Z.eqb_spec (block x) i) as [E|Hne]; cbn [orb].
      * rewrite E, Et, (bool_decide_eq_true_2 (i = i)) by done. cbn [orb andb]. by rewrite orb_true_r.
      * by rewrite (bool_decide_eq_false_2 (block x = i)) by done.
  - destruct (IH (i + 1) f F) as (F3 & S3 & B3 & T3); [lia|lia|]. split_and!; [done|done|..].
    + intros b Hb. rewrite B3, Erange by done. destruct (Z.eqb_spec b i) as [->|]; [by rewrite Et, !andb_false_r|done].
    + intros x Hx. rewrite T3, Erange by done. destruct (Z.eqb_spec (block x) i) as [->|]; [by rewrite Et, !andb_false_r|done].
Qed.
Lemma load_full_ok k bits i f (f' := load_full k bits i f) : fn_ok max nb f -> 0 <= i ->
  fn_ok max nb f' /\ same_list f f' /\ (forall x, free_bit f' x = free_bit f x) /\
  forall b, 0 <= b -> scanned f' b = (bool_decide (i <= b < i + Z.of_nat k) && test_bit b bits) || scanned f b.
Proof.
  unfold f'. clear f'. revert i f. induction k as [|k IH]; intros i f F Hi; cbn [load_full].
  { split_and!; try done; intros x Hx; by rewrite bool_decide_eq_false_2 by lia. }
  assert (forall b, bool_decide (i <= b < i + Z.of_nat (S k)) = (b =? i) || bool_decide (i + 1 <= b < i + 1 + Z.of_nat k)) as Erange.
  { intros b. destruct (Z.eqb_spec b i) as [->|Hne]; [by rewrite bool_decide_eq_true_2 by lia|]. apply bool_decide_ext. lia. }
  destruct (test_bit i bits) eqn:Et.
  - destruct (mark_block i f F Hi) as (F1 & S1 & B1 & T1). set (f1 := f <| nat_block_bitmap ::= set_bit i |>) in *.
    destruct (IH (i + 1) f1 F1) as (F3 & S3 & T3 & B3); [lia|]. split_and!; [done|by eapply same_list_trans|intros x; by rewrite T3|].
    intros b Hb. rewrite B3, B1, Erange, (Z.eqb_sym i b) by done. destruct (Z.eqb_spec b i) as [->|]; [rewrite Et; cbn [orb andb]; by rewrite orb_true_r|done].
  - destruct (IH (i + 1) f F) as (F3 & S3 & T3 & B3); [lia|]. split_and!; [done|done|done|].
    intros b Hb. rewrite B3, Erange by done. destruct (Z.eqb_spec b i) as [->|]; [by rewrite Et, !andb_false_r|done].
Qed.
End load.

(** ** A right device *)

Context (sbi : f2fs_sb_info) (Hgeom : geom_wf sbi).

(** [s]: what [init_node_manager] leaves, with the journal and the meta pages *)
Record device_ok (s : nat_store) : Prop := {
  dv_geom : nat_geom sbi (nm s);
  dv_jnl : njnl_ok (max_nid (nm s)) (njnl s);
  dv_new nid : 0 <= nid < max_nid (nm s) -> rn_block_addr (cval sbi s nid) <> NEW_ADDR;
  dv_pnew nid : 0 <= nid < max_nid (nm s) -> rn_block_addr (pval sbi (nm s) (nmeta s) nid) <> NEW_ADDR;
  dv_page nid : 0 <= nid < max_nid (nm s) -> zlen (nmeta s (current_nat_addr sbi (nm s) nid)) = EPB;
  dv_valid : available_nids (fn (nm s)) =
    count_upto (fun nid => (0 <? nid) && (rn_block_addr (cval sbi s nid) =? NULL_ADDR)) (Z.to_nat (max_nid (nm s)));
  dv_empty nid : nat_bits_flag (nm s) = true -> 0 <= nid < max_nid (nm s) -> test_bit (block nid) (empty_nat_bits (nm s)) = true ->
    rn_block_addr (pval sbi (nm s) (nmeta s) nid) = NULL_ADDR;
  dv_full nid : nat_bits_flag (nm s) = true -> 0 < nid < max_nid (nm s) -> test_bit (block nid) (full_nat_bits (nm s)) = true ->
    rn_block_addr (pval sbi (nm s) (nmeta s) nid) <> NULL_ADDR;
  dv_next : 0 <= next_scan_nid (fn (nm s));
}.
Definition empty_cache : nat_cache := mk_nc ∅ ∅ [] 0 0.
Lemma init_shape a b m n : init_node_manager a b m = (0, n) -> nc n = empty_cache /\ fn n = mk_fn ∅ [] 0 0 (available_nids (fn n)) (next_free_nid_cp m) [] 0 [].
Proof.
  unfold init_node_manager. destruct (version_bitmap m); [|done]. destruct (negb a); [done|]. unfold __get_nat_bitmaps.
  destruct (negb (nat_bits_flag _)); [by intros [= <-]|]. destruct (negb b); [done|]. destruct (negb (cp_ver m =? bits_ver m)); by intros [= <-].
Qed.
(** Nothing cached, nothing in the tree *)
Lemma fresh_ok s f : device_ok s -> nc (nm s) = empty_cache -> fn_ok (max_nid (nm s)) (nat_blocks (nm s)) f ->
  free_nid_root f = ∅ -> available_nids f = available_nids (fn (nm s)) -> next_scan_nid f = next_scan_nid (fn (nm s)) ->
  (forall x, 0 < x < max_nid (nm s) -> free_bit f x = true -> rn_block_addr (pval sbi (nm s) (nmeta s) x) = NULL_ADDR) ->
  nat_ok sbi (with_fn s f) /\ free_ok sbi (with_fn s f) /\ steady sbi (with_fn s f).
Proof.
  intros [D1 D2 D3 D4 D5 D6 _ _ D9] Enc F Hroot Hav Hnext Hbit. pose proof (ng_max32 _ _ D1) as Hm32. pose proof (ng_max _ _ D1) as Hm. pose proof (ng_blocks _ _ D1) as Hm0. pose proof nents_range.
  assert (0 <= max_nid (nm s) < 4294967295) as Hmax by (clear - Hm32 Hm Hm0 H2; nia).
  assert (forall k, nat_root (nc (nm s)) !! k = None) as Hnone by (intros k; by rewrite Enc).
  split; [|split].
  - split; try done.
    + by destruct D1.
    + change (cache_ok (max_nid (nm s)) (nc (nm s))). rewrite Enc. split; try done.
      * apply NoDup_nil_2.
      * intros k. split; [by intros ?%elem_of_nil|]. by intros [[? ?] _].
      * by intros k (e & ? & _).
      * symmetry. by apply count_upto_none.
      * by intros b [? ?].
    + intros k e He. change (nat_root (nc (nm s)) !! k = Some e) in He. by rewrite Hnone in He.
  - split.
    + exact F.
    + intros k. change (free_nid_root f !! k = Some FREE_NID -> qidle sbi s k = true). by rewrite Hroot.
    + intros k. change (free_nid_root f !! k = Some PREALLOC_NID -> qidle sbi s k = true \/ ni_blk (nval sbi s k) <> NULL_ADDR). by rewrite Hroot.
    + intros k Hk Hb. right. right. by apply Hbit.
    + change (available_nids f = u32 (count_upto (usable sbi (with_fn s f)) (Z.to_nat (max_nid (nm s))) - count_upto (merged s) (Z.to_nat (max_nid (nm s))))).
      rewrite (count_upto_none (merged s)) by (intros k _; unfold merged; by rewrite Hnone).
      rewrite Hav, D6, Z.sub_0_r, u32_id by (pose proof (count_upto_range (usable sbi (with_fn s f)) (Z.to_nat (max_nid (nm s)))); lia).
      apply count_upto_ext. intros k _. unfold usable. change (qidle sbi (with_fn s f) k) with (qidle sbi s k). unfold qidle. rewrite Hnone.
      unfold is_prealloc. change (fn (nm (with_fn s f))) with f. rewrite Hroot. by rewrite bool_decide_eq_false_2, andb_true_r by done.
    + change (0 <= next_scan_nid f). by rewrite Hnext.
  - intros k e He. change (nat_root (nc (nm s)) !! k = Some e) in He. by rewrite Hnone in He.
Qed.
Lemma zero_tables_ok max nb f : max = EPB * nb -> 0 < nb -> free_nid_root f = ∅ -> free_nid_list f = [] -> cnt_free f = 0 -> nat_block_bitmap f = 0 ->
  free_nid_bitmap f = replicate (Z.to_nat nb) 0 -> free_nid_count f = replicate (Z.to_nat nb) 0 -> fn_ok max nb f /\ forall x, 0 <= x < max -> free_bit f x = false.
Proof.
  intros M1 M3 E1 E2 E3 E4 E5 E6. assert (forall b, 0 <= b < nb -> (replicate (Z.to_nat nb) 0).[b] = 0) as Hz.
  { intros b Hb. apply aget_lookup; [lia|]. apply lookup_replicate_2. lia. }
  assert (forall x, 0 <= x < max -> free_bit f x = false) as Hb.
  { intros x Hx. unfold free_bit. rewrite E5, Hz by (by apply (nid_block _ _ M1)). unfold test_bit. apply Z.bits_0. }
  split; [|done]. split.
  - intros k st. by rewrite E1.
  - rewrite E2. apply NoDup_nil_2.
  - intros k. rewrite E1, E2. split; [by intros ?%elem_of_nil|done].
  - by rewrite E2, E3.
  - rewrite E5, E6. unfold zlen. rewrite length_replicate. lia.
  - intros b Hbr. rewrite E5, E6, Hz by done. symmetry. apply count_upto_none. intros k _. apply Z.bits_0.
  - intros x Hx _. by apply Hb.
Qed.
Lemma load_ok n (f := fn n) max nb (f' := fn (load_free_nid_bitmap n)) : max = EPB * nb -> max + EPB < 4294967295 -> 0 < nb -> nat_blocks n = nb ->
  fn_ok max nb f -> (forall x, 0 <= x < max -> free_bit f x = false) -> nat_block_bitmap f = 0 ->
  fn_ok max nb f' /\ same_list f f' /\
  (forall x, 0 <= x < max -> free_bit f' x = nat_bits_flag n && test_bit (block x) (empty_nat_bits n)) /\
  (forall b, 0 <= b < nb -> scanned f' b = nat_bits_flag n && (test_bit b (full_nat_bits n) || test_bit b (empty_nat_bits n))).
Proof.
  intros M1 M2 M3 Enb F Hb Hs. assert (forall b, scanned f b = false) as Hs0 by (intros b; unfold scanned; rewrite Hs; apply Z.bits_0).
  unfold f', load_free_nid_bitmap. destruct (nat_bits_flag n); cbn [negb fn upd]; [|split_and!; done]. rewrite Enb.
  destruct (load_empty_ok max nb M1 M2 M3 (Z.to_nat nb) (empty_nat_bits n) 0 f F) as (F1 & S1 & B1 & T1); [lia|lia|].
  set (f1 := load_empty (Z.to_nat nb) (empty_nat_bits n) 0 f) in *.
  destruct (load_full_ok max nb M1 (Z.to_nat nb) (full_nat_bits n) 0 f1 F1) as (F2 & S2 & T2 & B2); [lia|]. split_and!; [done|by eapply same_list_trans|..].
  - intros x Hx. pose proof (nid_block max nb M1 x Hx). rewrite T2, T1, Hb, orb_false_r by done. by rewrite bool_decide_eq_true_2 by lia.
  - intros b Hbr. rewrite B2, B1, Hs0, orb_false_r by lia. by rewrite bool_decide_eq_true_2 by lia.
Qed.
Lemma mount_ok a1 a2 mem_ok m n j meta (s := mk_ns n j meta) : init_node_manager a1 a2 m = (0, n) -> device_ok s ->
  exists s', f2fs_build_node_manager sbi a1 a2 true mem_ok m j meta = (0, s') /\ nat_ok sbi s' /\ free_ok sbi s' /\ steady sbi s' /\
    (forall k, nval sbi s' k = node_info_from_raw_nat (mk_ni k 0 0 0) (cval sbi s k)) /\
    (aligned (fn n) -> aligned (fn (nm s')) /\ all_complete sbi s' (fn (nm s'))) /\
    exists f, s' = with_fn s f /\ forall k, is_prealloc f k = false.
Proof.
  intros Hi D. destruct (init_shape _ _ _ _ Hi) as [Enc Efn]. pose proof (dv_geom _ D) as G. change (nm s) with n in G.
  pose proof (ng_max _ _ G) as M1. pose proof (ng_max32 _ _ G) as M2. pose proof (ng_blocks _ _ G) as M3.
  unfold f2fs_build_node_manager. rewrite Hi. cbn [Z.eqb negb init_free_nid_cache]. set (n1 := n <| fn ::= _ |>).
  destruct (zero_tables_ok (max_nid n) (nat_blocks n) (fn n1)) as [F0 B0]; [done|done|first [done|unfold n1; cbn; by rewrite Efn]..|].
  assert (nat_block_bitmap (fn n1) = 0) as E0 by done.
  destruct (load_ok n1 (max_nid n) (nat_blocks n)) as (F2 & [S1 S2 S3 S4 S5] & B2 & C2); try done.
  set (f2 := fn (load_free_nid_bitmap n1)) in *.
  assert (mk_ns (load_free_nid_bitmap n1) j meta = with_fn s f2) as ->.
  { unfold with_fn, f2, load_free_nid_bitmap. destruct (negb (nat_bits_flag n1)); by destruct n. }
  destruct (fresh_ok s f2) as (W & F & St); try done.
  { rewrite S1. unfold n1. cbn. by rewrite Efn. }
  { intros x Hx Hb. rewrite B2 in Hb by (cbn [nm s] in Hx; lia). apply andb_true_iff in Hb as [Hf Ht]. apply (dv_empty _ D); [done|lia|done]. }
  destruct (build_ok sbi (with_fn s f2) W mem_ok true true F) as (f3 & -> & B & _). exists (with_fn s f3). split; [done|].
  split; [by apply (nat_ok_fn sbi (with_fn s f2))|]. split; [apply B|]. split; [exact St|]. split.
  - intros k. unfold nval. change (nc (nm (with_fn s f3))) with (nc n). by rewrite Enc.
  - split; [|exists f3; split; [done|]; intros k; rewrite (bd_pre _ _ _ B); unfold is_prealloc; change (fn (nm (with_fn s f2))) with f2; rewrite S1; unfold n1; cbn; by rewrite Efn].
    intros A. assert (aligned f2) as A2 by (unfold aligned; rewrite S5; exact A). split; [by apply (bd_aligned _ _ _ B)|]. apply (bd_complete _ _ _ B); [done..|].
    intros b Hb Hs k Eb Hk Hq _. change (max_nid (nm (with_fn s f2))) with (max_nid n) in Hk. change (nat_blocks (nm (with_fn s f2))) with (nat_blocks n) in Hb.
    change (fn (nm (with_fn s f2))) with f2 in Hs |- *. rewrite C2 in Hs by done. apply andb_true_iff in Hs as [Hf Hs]. rewrite B2, Hf, Eb by lia.
    apply orb_true_iff in Hs as [Hfull|Hempty]; [|by left]. right. left. change (njnl (with_fn s f2)) with j. destruct (jval j k) as [r|] eqn:Ej; [by eexists|]. exfalso.
    apply (dv_full _ D k Hf Hk); [by rewrite Eb|]. change (qidle sbi s k = true) in Hq. unfold qidle in Hq. change (nc (nm s)) with (nc n) in Hq. rewrite Enc in Hq.
    change (nat_root empty_cache !! k) with (@None nat_entry) in Hq. unfold cval in Hq. change (njnl s) with j in Hq. rewrite Ej in Hq. by apply Z.eqb_eq.
Qed.
End mount.
