(* ===== verification/NatRefine.v ===== *)
(** * The node manager refines a table of nodes

    [nat_spec]: for each node id its current entry, the one a mount would read,
    who holds it, and whether it has been checkpointed since it was last
    allocated or freed.  [nat_step] are the operations as the rest of the file
    system calls them; [step_refines] simulates each by the table. *)
From stdpp Require Import gmap.
From S2P Require Import Prelude Geometry F2fsBits Sit SitFlush NatMgr NatCache NatStore FreeNid NatFree NatFlush NatSets NatCkpt NatMount.
Open Scope Z_scope.

Inductive nat_event :=
| GotInfo (nid : Z) (i : node_info)
| AllocNid (r : option Z)
| SetNew (i : node_info)
| SetAddr (nid blk : Z)
| AllocDone (nid : Z)
| AllocFailed (nid : Z)
| Quiet
| FlushNats (settled : bool).

Section refine.
Context `{NatFormatOk} `{RadixTreeOk}.
#[local] Abbreviation block := NAT_BLOCK_OFFSET.
Context (sbi : f2fs_sb_info).

(** ** The operations *)

(** No nid with an entry in the journal is at NEW_ADDR.  The callers see to it:
    block_operations writes every dirty node page before the flush, which gives
    each new nid its address. *)
Definition settled (s : nat_store) : bool := forallb (fun e => negb (ni_blk (nval sbi s e.1) =? NEW_ADDR)) (nats_in_cursum (njnl s)).
Lemma settled_journal s : settled s = true -> no_new_journalled sbi s.
Proof.
  unfold settled. rewrite forallb_forall. intros Hs k [r Hr]. unfold jval in Hr.
  destruct (find_in_cursum_spec (nats_in_cursum (njnl s)) k 0 ltac:(lia)) as [[Ef _]|(i & e & He & Hv & _)]; [by rewrite Ef in Hr|].
  apply list_elem_of_lookup_2, list_elem_of_In, Hs, negb_true_iff, Z.eqb_neq in He. by rewrite Hv in He.
Qed.
(** Each operation under the conditions its callers check.  A flush says in its event
    whether it was settled. *)
Inductive nat_step (s : nat_store) : nat_event -> nat_store -> Prop :=
| st_get alloc_ok nid i s' : 0 < nid < max_nid (nm s) -> f2fs_get_node_info sbi alloc_ok nid s = (i, s') -> nat_step s (GotInfo nid i) s'
| st_free_nats trylock nr r c : f2fs_try_to_free_nats trylock nr (nc (nm s)) = (r, c) -> nat_step s Quiet (s <| nm := (nm s) <| nc := c |> |>)
| st_build mem_ok sync : nat_step s Quiet (__f2fs_build_free_nids sbi mem_ok sync false s)
| st_free_nids trylock nr r f : f2fs_try_to_free_nids trylock nr (fn (nm s)) = (r, f) -> nat_step s Quiet (with_fn s f)
| st_alloc fuel r s' : f2fs_alloc_nid sbi fuel s = Done (r, s') -> nat_step s (AllocNid r) s'
| st_new i fsync : free_nid_root (fn (nm s)) !! ni_nid i = Some PREALLOC_NID -> ni_blk i = NULL_ADDR -> ni_blk (nval sbi s (ni_nid i)) = NULL_ADDR ->
    nat_step s (SetNew i) (s <| nm := set_node_addr i NEW_ADDR fsync (nm s) |>)
| st_set nid blk fsync : 0 < nid < max_nid (nm s) -> ni_blk (nval sbi s nid) <> NULL_ADDR -> blk <> NEW_ADDR ->
    (blk = NULL_ADDR -> is_prealloc (fn (nm s)) nid = false) ->
    nat_step s (SetAddr nid blk) (s <| nm := set_node_addr (nval sbi s nid) blk fsync (nm s) |>)
| st_done nid n' : free_nid_root (fn (nm s)) !! nid = Some PREALLOC_NID -> ni_blk (nval sbi s nid) <> NULL_ADDR ->
    f2fs_alloc_nid_done nid (nm s) = Done n' -> nat_step s (AllocDone nid) (s <| nm := n' |>)
| st_failed mem_ok nid n' : free_nid_root (fn (nm s)) !! nid = Some PREALLOC_NID -> ni_blk (nval sbi s nid) = NULL_ADDR ->
    f2fs_alloc_nid_failed mem_ok nid (nm s) = Done n' -> nat_step s (AllocFailed nid) (s <| nm := n' |>)
| st_flush umount s' : f2fs_flush_nat_entries sbi umount s = Done s' -> nat_step s (FlushNats (settled s)) s'.
Inductive nat_run : nat_store -> list nat_event -> nat_store -> Prop :=
| run_nil s : nat_run s [] s
| run_cons s e s1 es s2 : nat_step s e s1 -> nat_run s1 es s2 -> nat_run s (e :: es) s2.
Definition all_settled (es : list nat_event) : Prop := FlushNats false ∉ es.

(** ** The table *)

Record nat_spec := mk_spec { cur : Z -> node_info; disk : Z -> f2fs_nat_entry; held : Z -> bool; old : Z -> bool }.
Definition put {A} (f : Z -> A) (nid : Z) (x : A) (k : Z) : A := if k =? nid then x else f k.
Definition spec_free (a : nat_spec) (k : Z) : bool := old a k && (ni_blk (cur a k) =? NULL_ADDR) && negb (held a k).
Inductive spec_step (max : Z) (a : nat_spec) : nat_event -> nat_spec -> Prop :=
| sp_get nid : spec_step max a (GotInfo nid (cur a nid)) a
| sp_quiet : spec_step max a Quiet a
| sp_alloc nid : 0 < nid < max -> spec_free a nid = true -> spec_step max a (AllocNid (Some nid)) (mk_spec (cur a) (disk a) (put (held a) nid true) (old a))
| sp_full : (forall k, 0 < k < max -> spec_free a k = false) -> spec_step max a (AllocNid None) a
| sp_new i : held a (ni_nid i) = true -> ni_blk i = NULL_ADDR -> ni_blk (cur a (ni_nid i)) = NULL_ADDR ->
    spec_step max a (SetNew i) (mk_spec (put (cur a) (ni_nid i) (moved_info i NEW_ADDR)) (disk a) (held a) (put (old a) (ni_nid i) false))
| sp_set nid blk : 0 < nid < max -> ni_blk (cur a nid) <> NULL_ADDR -> blk <> NEW_ADDR ->
    spec_step max a (SetAddr nid blk) (mk_spec (put (cur a) nid (moved_info (cur a nid) blk)) (disk a) (held a) (put (old a) nid (is_valid_blkaddr blk && old a nid)))
| sp_done nid : held a nid = true -> spec_step max a (AllocDone nid) (mk_spec (cur a) (disk a) (put (held a) nid false) (old a))
| sp_failed nid : held a nid = true -> spec_step max a (AllocFailed nid) (mk_spec (cur a) (disk a) (put (held a) nid false) (old a))
| sp_flush : spec_step max a (FlushNats true) (mk_spec (cur a)
    (fun k => if ni_blk (cur a k) =? NEW_ADDR then disk a k else raw_nat_from_node_info (cur a k)) (held a)
    (fun k => negb (ni_blk (cur a k) =? NEW_ADDR) || old a k)).
Inductive spec_run (max : Z) : nat_spec -> list nat_event -> nat_spec -> Prop :=
| srun_nil a : spec_run max a [] a
| srun_cons a e a1 es a2 : spec_step max a e a1 -> spec_run max a1 es a2 -> spec_run max a (e :: es) a2.
Record models (s : nat_store) (a : nat_spec) : Prop := {
  md_cur k : 0 <= k < max_nid (nm s) -> nval sbi s k = cur a k;
  md_disk k : 0 <= k < max_nid (nm s) -> cval sbi s k = disk a k;
  md_held k : is_prealloc (fn (nm s)) k = held a k;
  md_old k : 0 <= k < max_nid (nm s) -> f2fs_is_checkpointed_node (nc (nm s)) k = old a k;
}.
Record nat_inv (s : nat_store) : Prop := { ni_ok : nat_ok sbi s; ni_free : free_ok sbi s; ni_steady : steady sbi s }.
(** What is needed for allocation to end *)
Definition live (s : nat_store) : Prop := aligned (fn (nm s)) /\ all_complete sbi s (fn (nm s)).

(** ** The simulation *)

Context (Hgeom : geom_wf sbi).
#[local] Abbreviation ckpt s := (f2fs_is_checkpointed_node (nc (nm s))).

(** A cache step may make a held nid used; the free list stays right. *)
Lemma cache_step_free s n' (s' := s <| nm := n' |>) : nat_inv s -> nat_ok sbi s' -> steady sbi s' -> cache_step (nm s) n' ->
  (forall k, qidle sbi s' k = qidle sbi s k \/ qidle sbi s' k = false /\ is_prealloc (fn (nm s)) k = true) ->
  (forall k, free_nid_root (fn (nm s)) !! k = Some PREALLOC_NID -> qidle sbi s' k = true \/ ni_blk (nval sbi s' k) <> NULL_ADDR) ->
  (forall k, dirty (nc (nm s)) k = true -> dirty (nc n') k = true) -> nat_inv s' /\ (live s -> live s').
Proof.
  intros [W F St] W' St' [E1 E2 E3 E4 E5 _] Hq Hp Hd. change (nm s') with n' in *.
  assert (forall k, usable sbi s' k = usable sbi s k) as Hu.
  { intros k. unfold usable. change (nm s') with n'. rewrite E5. destruct (Hq k) as [->|[-> ->]]; [done|]. by rewrite !andb_false_r. }
  split.
  - split; [done| |done]. destruct F as [F1 F2 F3 F4 F5 F6]. split; change (nm s') with n'; rewrite ?E2, ?E3, ?E5; try done.
    + intros k Hk. destruct (Hq k) as [->|[_ Hb]]; [by apply F2|]. apply bool_decide_eq_true in Hb. congruence.
    + intros k. change (nm s') with n'. rewrite E2. intros Hk Hb. destruct (F4 k Hk Hb) as [?|[?|Hv]]; [left; by apply Hd|by right; left|right; right].
      unfold pval in *. change (nmeta s') with (nmeta s). by rewrite (same_addr sbi (nm s)).
    + rewrite F5. f_equal. f_equal; [by apply count_upto_ext|]. apply count_upto_ext. intros k _. by rewrite (steady_not_merged sbi s St), (steady_not_merged sbi s' St').
  - intros [A C]. split; change (nm s') with n'; rewrite E5; [done|]. intros b. change (nm s') with n'. rewrite E3. intros Hb Hs k Eb. change (nm s') with n'. rewrite E2.
    intros Hk Hqk Hpk. destruct (Hq k) as [E|[E _]]; [|congruence]. rewrite E in Hqk. destruct (C b Hb Hs k Eb Hk Hqk Hpk) as [?|[?|Hm]]; [by left|by right; left|].
    by rewrite (steady_not_merged sbi s St) in Hm.
Qed.
(** Steps that change no value *)
Lemma quiet_refines s s' a : models s a -> max_nid (nm s') = max_nid (nm s) -> (forall k, 0 <= k < max_nid (nm s) -> nval sbi s' k = nval sbi s k) ->
  (forall k, 0 <= k < max_nid (nm s) -> cval sbi s' k = cval sbi s k) -> (forall k, is_prealloc (fn (nm s')) k = is_prealloc (fn (nm s)) k) ->
  (forall k, 0 <= k < max_nid (nm s) -> ckpt s' k = ckpt s k) -> models s' a.
Proof.
  intros [M1 M2 M3 M4] E0 E1 E2 E3 E4. split; rewrite ?E0.
  - intros k Hk. rewrite E1 by done. by apply M1.
  - intros k Hk. rewrite E2 by done. by apply M2.
  - intros k. by rewrite E3.
  - intros k Hk. rewrite E4 by done. by apply M4.
Qed.
Lemma get_step s alloc_ok nid i s' a : nat_inv s -> models s a -> 0 < nid < max_nid (nm s) -> f2fs_get_node_info sbi alloc_ok nid s = (i, s') ->
  i = cur a nid /\ nat_inv s' /\ (live s -> live s') /\ models s' a.
Proof.
  intros [W F St] M Hn E. destruct (get_node_info_ok sbi alloc_ok nid s W Hn) as (n' & E2 & C & W' & N & D & S' & K). rewrite E in E2. injection E2 as -> ->.
  split; [apply (md_cur _ _ M); lia|]. assert (forall k, qidle sbi (s <| nm := n' |>) k = qidle sbi s k) as Hq by (intros k; rewrite !qidle_eq, N; f_equal; apply K).
  destruct (cache_step_free s n') as [I L]; [done|done|by apply S'|done|by left| |intros k; by rewrite D|].
  - intros k Hk. rewrite Hq, N. by apply (fr_pre _ _ F).
  - split; [done|]. split; [done|]. apply (quiet_refines s); [done|apply C|by intros|by intros; apply cache_step_cval|intros k; cbn; by rewrite (cs_fn _ _ C)|by intros; apply K].
Qed.
Lemma free_nats_step s trylock nr r c a (s' := s <| nm := (nm s) <| nc := c |> |>) : nat_inv s -> models s a ->
  f2fs_try_to_free_nats trylock nr (nc (nm s)) = (r, c) -> nat_inv s' /\ (live s -> live s') /\ models s' a.
Proof.
  intros [W F St] M E. assert (exists rest nr', free_nats nr' (nc (nm s)) = (rest, c)) as (rest & nr' & E2).
  { unfold f2fs_try_to_free_nats in E. destruct trylock; cbn [negb] in E; [|injection E as <- <-; by exists O, O].
    destruct (free_nats nr (nc (nm s))) as [rest c'] eqn:Ef. injection E as <- <-. by exists rest, nr. }
  destruct (free_nats_ok sbi nr' s W) as (rest' & c' & E3 & W' & N & D & S' & K). rewrite E2 in E3. injection E3 as <- <-.
  assert (forall k, qidle sbi s' k = qidle sbi s k) as Hq by (intros k; rewrite !qidle_eq; unfold s' at 2; rewrite N; f_equal; apply K).
  destruct (cache_step_free s ((nm s) <| nc := c |>)) as [I L]; [done|done|by apply S'|done|by left| |intros k; cbn; by rewrite D|].
  - intros k Hk. fold s'. rewrite Hq. unfold s'. rewrite N. by apply (fr_pre _ _ F).
  - split; [done|]. split; [done|]. apply (quiet_refines s); try done; intros; first [by apply N|by apply K].
Qed.
(** Steps on the free list alone *)
Lemma fn_refines s f a : models s a -> (forall k, is_prealloc f k = held a k) -> models (with_fn s f) a.
Proof. intros [M1 M2 M3 M4] E. split; done. Qed.
Lemma inv_fn s f : nat_inv s -> free_ok sbi (with_fn s f) -> nat_inv (with_fn s f).
Proof. intros [W F St] F'. split; [by apply nat_ok_fn|done|exact St]. Qed.
Lemma same_bits_live s f : live s -> same_bits (fn (nm s)) f -> next_scan_nid f = next_scan_nid (fn (nm s)) ->
  (forall k, is_prealloc f k = is_prealloc (fn (nm s)) k) -> live (with_fn s f).
Proof.
  intros [A C] B N P. split; [unfold aligned; change (fn (nm (with_fn s f))) with f; by rewrite N|]. change (all_complete sbi s f). by apply (same_bits_complete sbi s (fn (nm s))).
Qed.
Lemma build_step s mem_ok sync a : nat_inv s -> models s a -> let s' := __f2fs_build_free_nids sbi mem_ok sync false s in
  nat_inv s' /\ (live s -> live s') /\ models s' a.
Proof.
  intros I M. destruct (build_ok sbi s (ni_ok _ I) mem_ok sync false (ni_free _ I)) as (f' & -> & B & _). split; [apply inv_fn, B; done|]. split.
  - intros [A C]. split; [by apply (bd_aligned _ _ _ B)|]. exact (bd_complete _ _ _ B (ni_steady _ I) A C).
  - apply fn_refines; [done|]. intros k. rewrite (bd_pre _ _ _ B). apply M.
Qed.
Lemma free_nids_step s trylock nr r f a : nat_inv s -> models s a -> f2fs_try_to_free_nids trylock nr (fn (nm s)) = (r, f) ->
  nat_inv (with_fn s f) /\ (live s -> live (with_fn s f)) /\ models (with_fn s f) a.
Proof.
  intros I M E. pose proof (ni_ok _ I) as W. pose proof (ni_free _ I) as F. assert (shrunk sbi s f) as [K1 K2 K3 K4].
  { pose proof (shrunk_refl sbi s F) as R. unfold f2fs_try_to_free_nids in E. destruct (cnt_free _ <=? _); [by injection E as <- <-|]. destruct (negb trylock); [by injection E as <- <-|].
    destruct (shrink_nids (free_nid_list (fn (nm s))) nr (fn (nm s))) as [rest f'] eqn:Es. injection E as <- <-.
    destruct (shrink_nids_ok sbi (free_nid_list (fn (nm s))) nr s W F) as (rest2 & f2 & E2 & R2); [apply (fr_fn _ _ F)|intros k; apply (fr_fn _ _ F)|]. rewrite Es in E2. by injection E2 as -> ->. }
  split; [by apply inv_fn|]. split; [by intros; apply same_bits_live|]. apply fn_refines; [done|]. intros k. rewrite K2. apply M.
Qed.
Lemma spec_free_models s a k : models s a -> 0 < k < max_nid (nm s) -> spec_free a k = usable sbi s k.
Proof.
  intros M Hk. unfold spec_free, usable. rewrite qidle_eq, (md_cur _ _ M), (md_old _ _ M), (md_held _ _ M) by lia. by replace (0 <? k) with true by lia.
Qed.
Lemma alloc_step_refines s fuel r s' a : nat_inv s -> models s a -> f2fs_alloc_nid sbi fuel s = Done (r, s') ->
  exists a', spec_step (max_nid (nm s)) a (AllocNid r) a' /\ nat_inv s' /\ (live s -> live s') /\ models s' a' /\ max_nid (nm s') = max_nid (nm s).
Proof.
  intros I M E. pose proof (ni_ok _ I) as W. pose proof (ni_free _ I) as F. pose proof (alloc_any sbi Hgeom fuel s (fn (nm s)) W (ni_steady _ I) (rebuilt_refl sbi s F)) as Hany.
  assert (with_fn s (fn (nm s)) = s) as Es by (by destruct s as [[] ? ?]). rewrite Es, E in Hany. destruct Hany as (f' & -> & F' & L & R).
  assert (live s -> live (with_fn s f')) as L' by (intros [A C]; destruct (L A C); by split). pose proof (inv_fn s f' I F') as I'. destruct r as [nid|].
  - destruct R as (Hn & Hu & Hp). exists (mk_spec (cur a) (disk a) (put (held a) nid true) (old a)). split; [constructor; [done|by rewrite (spec_free_models s)]|].
    split; [done|]. split; [done|]. split; [|done]. destruct M as [M1 M2 M3 M4]. split; try done. intros k. change (fn (nm (with_fn s f'))) with f'. rewrite Hp. cbn [held]. unfold put.
    destruct (k =? nid); [done|apply M3].
  - destruct R as [Hno Hp]. exists a. split; [constructor; intros k Hk; rewrite (spec_free_models s) by done; by apply Hno|]. split; [done|]. split; [done|]. split; [|done].
    apply fn_refines; [done|]. intros k. rewrite Hp. apply M.
Qed.

(** Changing an address *)
Lemma held_tree s nid : is_prealloc (fn (nm s)) nid = true <-> free_nid_root (fn (nm s)) !! nid = Some PREALLOC_NID.
Proof. apply bool_decide_eq_true. Qed.
Lemma moved_blk i blk : ni_blk (moved_info i blk) = blk.
Proof. done. Qed.
Lemma set_step s i blk fsync a (n' := set_node_addr i blk fsync (nm s)) (s' := s <| nm := n' |>) : nat_inv s -> models s a -> may_set sbi s i blk ->
  (is_prealloc (fn (nm s)) (ni_nid i) = true /\ blk <> NULL_ADDR \/ qidle sbi s (ni_nid i) = false /\ is_prealloc (fn (nm s)) (ni_nid i) = false \/
   qidle sbi s (ni_nid i) = false /\ blk <> NULL_ADDR) ->
  nat_inv s' /\ (live s -> live s') /\
  models s' (mk_spec (put (cur a) (ni_nid i) (moved_info i blk)) (disk a) (held a) (put (old a) (ni_nid i) (is_valid_blkaddr blk && old a (ni_nid i)))) /\
  max_nid n' = max_nid (nm s).
Proof.
  intros I M Hm Hcase. pose proof I as [W F St]. destruct (set_node_addr_ok sbi i blk fsync s W St Hm) as (C & W' & St' & N & D & _ & K). fold n' s' in C, W', St', N, D, K.
  set (nid := ni_nid i) in *. destruct Hm as [Hr _]. fold nid in Hr.
  assert (is_valid_blkaddr NULL_ADDR = false) as Enull by (unfold is_valid_blkaddr; rewrite Z.eqb_refl; by rewrite ?andb_false_r, ?orb_true_r).
  assert (qidle sbi s' nid = false) as Hq0.
  { rewrite qidle_eq. assert (ckpt s' nid = is_valid_blkaddr blk && ckpt s nid) as -> by (change (nc (nm s')) with (nc n'); rewrite K, Z.eqb_refl; done).
    rewrite N, Z.eqb_refl, moved_blk. destruct (Z.eqb_spec blk NULL_ADDR) as [->|]; [by rewrite Enull|by rewrite andb_false_r]. }
  assert (forall k, k <> nid -> qidle sbi s' k = qidle sbi s k) as Hq1.
  { intros k Hk. rewrite !qidle_eq, N, (proj2 (Z.eqb_neq k nid)) by done. f_equal. change (nc (nm s')) with (nc n'). rewrite K, (proj2 (Z.eqb_neq k nid)) by done. done. }
  destruct (cache_step_free s n') as [I' L]; [done..| | | |].
  - intros k. fold s'. destruct (decide (k = nid)) as [->|Hk]; [|left; by apply Hq1]. rewrite Hq0. destruct Hcase as [[? _]|[[-> _]|[-> _]]]; [by right|by left|by left].
  - intros k Hk. fold s'. destruct (decide (k = nid)) as [->|Hne].
    + right. rewrite N, Z.eqb_refl, moved_blk. apply held_tree in Hk. destruct Hcase as [[_ ?]|[[_ ?]|[_ ?]]]; [done|congruence|done].
    + rewrite Hq1, N, (proj2 (Z.eqb_neq k nid)) by done. by apply (fr_pre _ _ F).
  - intros k Hk. rewrite D, Hk. apply orb_true_r.
  - split; [done|]. split; [done|]. split; [|apply C]. destruct M as [M1 M2 M3 M4]. split; change (nm s') with n'; rewrite ?(cs_max _ _ C).
    + intros k Hk. rewrite N. cbn [cur]. unfold put. destruct (k =? nid); [done|by apply M1].
    + intros k Hk. unfold s'. rewrite (cache_step_cval sbi s n' k C). by apply M2.
    + intros k. rewrite (cs_fn _ _ C). apply M3.
    + intros k Hk. rewrite K. cbn [old]. unfold put. fold nid. destruct (Z.eqb_spec k nid) as [->|]; [cbn [negb orb]; rewrite M4 by lia; done|cbn [negb orb andb]; by apply M4].
Qed.
Lemma new_step s i fsync a : nat_inv s -> models s a -> free_nid_root (fn (nm s)) !! ni_nid i = Some PREALLOC_NID -> ni_blk i = NULL_ADDR ->
  ni_blk (nval sbi s (ni_nid i)) = NULL_ADDR -> let s' := s <| nm := set_node_addr i NEW_ADDR fsync (nm s) |> in
  exists a', spec_step (max_nid (nm s)) a (SetNew i) a' /\ nat_inv s' /\ (live s -> live s') /\ models s' a' /\ max_nid (nm s') = max_nid (nm s).
Proof.
  intros I M Hp Hb Hv s'. pose proof I as [W F St]. set (nid := ni_nid i) in *. pose proof (fo_root _ _ _ (fr_fn _ _ F) _ _ Hp) as Hr. pose proof null_new as Hnn.
  assert (qidle sbi s nid = true) as Hq by (destruct (fr_pre _ _ F nid Hp) as [?|?]; done).
  assert (dirty (nc (nm s)) nid = false) as Hd.
  { apply not_true_iff_false. intros Hd. pose proof (steady_not_merged sbi s St nid) as Hm. rewrite qidle_eq in Hq. rewrite (merged_eq sbi), Hd in Hm. cbn [andb] in Hm. congruence. }
  destruct (set_step s i NEW_ADDR fsync a I M) as (I' & L & M' & E).
  - split; [done|]. right. split_and!; [done|done|done].
  - left. split; [by apply held_tree|done].
  - eexists. split; [apply sp_new|]; [rewrite <- (md_held _ _ M); by apply held_tree|done|rewrite <- (md_cur _ _ M); [done|lia]|].
    split; [done|]. split; [done|]. split; [|done]. assert (is_valid_blkaddr NEW_ADDR = false) as En by (unfold is_valid_blkaddr; rewrite Z.eqb_refl; by rewrite ?andb_false_r, ?orb_true_r).
    by rewrite En in M'.
Qed.
Lemma addr_step s nid blk fsync a : nat_inv s -> models s a -> 0 < nid < max_nid (nm s) -> ni_blk (nval sbi s nid) <> NULL_ADDR -> blk <> NEW_ADDR ->
  (blk = NULL_ADDR -> is_prealloc (fn (nm s)) nid = false) -> let s' := s <| nm := set_node_addr (nval sbi s nid) blk fsync (nm s) |> in
  exists a', spec_step (max_nid (nm s)) a (SetAddr nid blk) a' /\ nat_inv s' /\ (live s -> live s') /\ models s' a' /\ max_nid (nm s') = max_nid (nm s).
Proof.
  intros I M Hr Hb Hnew Hnull s'. pose proof I as [W F St]. pose proof (nval_nid sbi s nid W) as En.
  assert (qidle sbi s nid = false) as Hq by (rewrite qidle_eq, (proj2 (Z.eqb_neq _ _) Hb); apply andb_false_r).
  destruct (set_step s (nval sbi s nid) blk fsync a I M) as (I' & L & M' & E).
  - split; [by rewrite En|]. left. by rewrite En.
  - rewrite En. destruct (decide (blk = NULL_ADDR)) as [->|]; [right; left; split; [done|by apply Hnull]|by right; right].
  - rewrite En in M'. change (s <| nm := set_node_addr (nval sbi s nid) blk fsync (nm s) |>) with s' in M'. rewrite (md_cur _ _ M) in M' by lia. eexists. split; [apply sp_set|]; [done|rewrite <- (md_cur _ _ M); [done|lia]|done|].
    split; [done|]. split; [done|]. split; [exact M'|done].
Qed.
Lemma release_models s f a nid : models s a -> (forall k, is_prealloc f k = is_prealloc (fn (nm s)) k && negb (k =? nid)) ->
  models (with_fn s f) (mk_spec (cur a) (disk a) (put (held a) nid false) (old a)).
Proof.
  intros [M1 M2 M3 M4] E. split; try done. intros k. change (fn (nm (with_fn s f))) with f. rewrite E. cbn [held]. unfold put. rewrite <- M3.
  destruct (k =? nid); [apply andb_false_r|apply andb_true_r].
Qed.
Lemma done_step s nid n' a : nat_inv s -> models s a -> free_nid_root (fn (nm s)) !! nid = Some PREALLOC_NID -> ni_blk (nval sbi s nid) <> NULL_ADDR ->
  f2fs_alloc_nid_done nid (nm s) = Done n' -> let s' := s <| nm := n' |> in
  exists a', spec_step (max_nid (nm s)) a (AllocDone nid) a' /\ nat_inv s' /\ (live s -> live s') /\ models s' a' /\ max_nid (nm s') = max_nid (nm s).
Proof.
  intros I M Hp Hb E s'. pose proof I as [W F St]. assert (qidle sbi s nid = false) as Hq by (rewrite qidle_eq, (proj2 (Z.eqb_neq _ _) Hb); apply andb_false_r).
  destruct (done_ok sbi s nid W F Hp Hq) as (f' & E2 & F' & P & A & C). rewrite E in E2. injection E2 as ->. change s' with (with_fn s f').
  eexists. split; [apply sp_done; rewrite <- (md_held _ _ M); by apply held_tree|]. split; [by apply inv_fn|]. split; [intros [? ?]; split; [by apply A|by apply C]|].
  split; [by apply release_models|done].
Qed.
Lemma failed_step s mem_ok nid n' a : nat_inv s -> models s a -> free_nid_root (fn (nm s)) !! nid = Some PREALLOC_NID -> ni_blk (nval sbi s nid) = NULL_ADDR ->
  f2fs_alloc_nid_failed mem_ok nid (nm s) = Done n' -> let s' := s <| nm := n' |> in
  exists a', spec_step (max_nid (nm s)) a (AllocFailed nid) a' /\ nat_inv s' /\ (live s -> live s') /\ models s' a' /\ max_nid (nm s') = max_nid (nm s).
Proof.
  intros I M Hp Hb E s'. pose proof I as [W F St]. assert (qidle sbi s nid = true) as Hq by (destruct (fr_pre _ _ F nid Hp) as [?|?]; done).
  destruct (failed_ok sbi mem_ok s nid W F St Hp Hq) as (f' & E2 & F' & P & A & C). rewrite E in E2. injection E2 as ->. change s' with (with_fn s f').
  eexists. split; [apply sp_failed; rewrite <- (md_held _ _ M); by apply held_tree|]. split; [by apply inv_fn|]. split; [intros [? ?]; split; [by apply A|by apply C]|].
  split; [by apply release_models|done].
Qed.
Lemma flush_refines s umount s' a : nat_inv s -> models s a -> no_new_journalled sbi s -> f2fs_flush_nat_entries sbi umount s = Done s' ->
  exists a', spec_step (max_nid (nm s)) a (FlushNats true) a' /\ nat_inv s' /\ (live s -> live s') /\ models s' a' /\ max_nid (nm s') = max_nid (nm s).
Proof.
  intros [W F St] M Hj E. destruct (flush_ok sbi Hgeom umount s W F St Hj) as (s2 & E2 & C). rewrite E in E2. injection E2 as <-.
  destruct C as [C1 C2 C3 C4 C5 C6 C7 C8 C9 C10 C11 C12 C13 C14 C15]. eexists. split; [apply sp_flush|]. split; [done|]. split; [intros [? ?]; split; auto|]. split; [|done].
  destruct M as [M1 M2 M3 M4]. split; rewrite ?C5; cbn [cur disk held old].
  - intros k Hk. rewrite C8 by done. by apply M1.
  - intros k Hk. rewrite C9, M1, M2 by done. done.
  - intros k. rewrite C12. apply M3.
  - intros k Hk. rewrite C11, M1, M4 by done. done.
Qed.
(** Every operation simulates a step of the table, and keeps the invariant. *)
Lemma step_refines s e s' a : nat_inv s -> models s a -> nat_step s e s' -> e <> FlushNats false ->
  exists a', spec_step (max_nid (nm s)) a e a' /\ nat_inv s' /\ (live s -> live s') /\ models s' a' /\ max_nid (nm s') = max_nid (nm s).
Proof.
  intros I M [alloc_ok nid i s1 Hn E|trylock nr r c E|mem_ok sync|trylock nr r f E|fuel r s1 E|i fsync Hp Hb Hv|nid blk fsync Hr Hb Hnew Hnull|nid n1 Hp Hb E|mem_ok nid n1 Hp Hb E|umount s1 E] Hev.
  - destruct (get_step s alloc_ok nid i s1 a I M Hn E) as (-> & ? & ? & ?). exists a. split_and!; [constructor|done..|].
    destruct (get_node_info_ok sbi alloc_ok nid s (ni_ok _ I) Hn) as (n' & E2 & C & _). rewrite E in E2. injection E2 as _ ->. apply C.
  - destruct (free_nats_step s trylock nr r c a I M E) as (? & ? & ?). exists a. split_and!; [constructor|done..].
  - destruct (build_step s mem_ok sync a I M) as (? & ? & ?). exists a. split_and!; [constructor|done..|].
    by destruct (build_ok sbi s (ni_ok _ I) mem_ok sync false (ni_free _ I)) as (f' & -> & _).
  - destruct (free_nids_step s trylock nr r f a I M E) as (? & ? & ?). exists a. split_and!; [constructor|done..].
  - by apply (alloc_step_refines s fuel).
  - by apply new_step.
  - by apply addr_step.
  - by apply done_step.
  - by apply (failed_step s mem_ok).
  - destruct (settled s) eqn:Hs; [|done]. by apply (flush_refines s umount); [..|apply settled_journal|].
Qed.
Lemma run_refines s es s' a : nat_inv s -> models s a -> nat_run s es s' -> all_settled es ->
  exists a', spec_run (max_nid (nm s)) a es a' /\ nat_inv s' /\ (live s -> live s') /\ models s' a' /\ max_nid (nm s') = max_nid (nm s).
Proof.
  intros I M R. revert a I M. induction R as [s|s e s1 es s2 T R IH]; intros a I M Hs; [exists a; split_and!; [constructor|done..]|].
  apply not_elem_of_cons in Hs as [He Hes]. destruct (step_refines s e s1 a I M T ltac:(congruence)) as (a1 & T1 & I1 & L1 & M1 & E1). destruct (IH a1 I1 M1 Hes) as (a2 & T2 & I2 & L2 & M2 & E2). rewrite E1 in T2.
  exists a2. split_and!; [by econstructor|done|auto|done|congruence].
Qed.
(** ** Mount *)

Definition spec_of_device (s : nat_store) : nat_spec :=
  mk_spec (fun k => node_info_from_raw_nat (mk_ni k 0 0 0) (cval sbi s k)) (cval sbi s) (fun _ => false) (fun _ => true).
(** [s] is what a mount of the right device [mk_ns n j meta] gives. *)
Definition mounted_on (n : f2fs_nm_info) (j : nat_journal) (meta : Z -> list f2fs_nat_entry) (s : nat_store) : Prop :=
  exists a1 a2 mem_ok m, init_node_manager a1 a2 m = (0, n) /\ device_ok sbi (mk_ns n j meta) /\
    f2fs_build_node_manager sbi a1 a2 true mem_ok m j meta = (0, s).
Lemma mounted_inv n j meta s : mounted_on n j meta s ->
  nat_inv s /\ models s (spec_of_device (mk_ns n j meta)) /\ (aligned (fn n) -> live s) /\ max_nid (nm s) = max_nid n.
Proof.
  intros (a1 & a2 & mem_ok & m & Hi & D & E). destruct (mount_ok sbi a1 a2 mem_ok m n j meta Hi D) as (s' & E2 & X).
  rewrite E in E2. injection E2 as <-. destruct X as (W & F & St & V & L & f & Es & P). split; [by split|]. rewrite Es in *. split; [|split; [exact L|done]].
  destruct (init_shape _ _ _ _ Hi) as [Enc _]. split.
  - intros k _. apply V.
  - done.
  - intros k. change (fn (nm (with_fn (mk_ns n j meta) f))) with f. apply P.
  - intros k _. change (nc (nm (with_fn (mk_ns n j meta) f))) with (nc n). by rewrite Enc.
Qed.
End refine.
