(* ===== verification/NatProps.v ===== *)
(** The theorems about the node manager: it refines a table of nodes from mount
    on, allocation gives fresh ids and ends, a checkpoint's flush survives a
    mount and a crash before it, with the small volume of their witnesses. *)
From stdpp Require Import gmap sorting.
From S2P Require Import Prelude Geometry F2fsBits Sit SitFlush NatMgr NatCache NatStore FreeNid NatFree NatFlush NatSets NatCkpt NatMount NatRefine.
Open Scope Z_scope.

Section properties.
Context `{NatFormatOk} `{RadixTreeOk}.
#[local] Abbreviation EPB := NAT_ENTRY_PER_BLOCK.
#[local] Abbreviation block := NAT_BLOCK_OFFSET.
Context (sbi : f2fs_sb_info) (Hgeom : geom_wf sbi).

(** C7. The node manager is a table of nodes. After the mount of a sound device
    and any run of its operations (reading entries, allocating, using, moving and
    freeing nids, evicting cache entries, shrinking and building the free list,
    flushing at checkpoints into the journal or the other copies of NAT blocks),
    the results are those of a table with the current and the checkpointed entry
    of each nid and the set of nids handed out; the values found in cache, journal
    and blocks are the table's. Required of the run: each operation is called as its
    callers do ([nat_step]: a nid is freed, moved, kept or given back only when it is
    in the state for it), and every flush is [settled]: no nid with an entry in the
    journal is at NEW_ADDR, as after block_operations has written the dirty node
    pages. [new_nid_flush_stale] below is a flush that is not, and loses a freed nid. *)
Theorem node_manager_refines n j meta s es s' : mounted_on sbi n j meta s -> nat_run sbi s es s' -> all_settled es ->
  exists a', spec_run (max_nid n) (spec_of_device sbi (mk_ns n j meta)) es a' /\ models sbi s' a'.
Proof.
  intros (I & M & _ & E)%mounted_inv R Q. destruct (run_refines sbi Hgeom s es s' _ I M R Q) as (a' & T & _ & _ & M' & _).
  exists a'. by rewrite E in T.
Qed.
(** C21. A nid that is handed out is fresh: it is inside the NAT, no node has it now,
    none had it at the last checkpoint, nobody holds it; and it is held from then on.
    (The flushes of the run are [settled], here and below; see the first theorem.) *)
Theorem alloc_nid_fresh n j meta s es s1 fuel nid s2 : mounted_on sbi n j meta s -> nat_run sbi s es s1 -> all_settled es ->
  f2fs_alloc_nid sbi fuel s1 = Done (Some nid, s2) ->
  0 < nid < max_nid n /\ ni_blk (nval sbi s1 nid) = NULL_ADDR /\ rn_block_addr (cval sbi s1 nid) = NULL_ADDR /\
  is_prealloc (fn (nm s1)) nid = false /\ is_prealloc (fn (nm s2)) nid = true.
Proof.
  intros (I & M & _ & E0)%mounted_inv R Q E. destruct (run_refines sbi Hgeom s es s1 _ I M R Q) as (a1 & _ & [W F St] & _ & M1 & E1).
  pose proof (alloc_any sbi Hgeom fuel s1 (fn (nm s1)) W St (rebuilt_refl sbi s1 F)) as Hany. rewrite with_fn_id, E in Hany.
  destruct Hany as (f' & -> & _ & _ & Hr & Hu & Hp). unfold usable in Hu. apply andb_true_iff in Hu as [[_ Hq]%andb_true_iff Hh%negb_true_iff].
  split; [by rewrite <- E0, <- E1|]. pose proof Hq as Hq2. rewrite qidle_eq in Hq2. apply andb_true_iff in Hq2 as [Hc Hb%Z.eqb_eq].
  split; [done|]. split; [|split; [done|change (fn (nm (with_fn s1 f'))) with f'; by rewrite Hp, Z.eqb_refl]].
  destruct (jval (njnl s1) nid) as [r|] eqn:Ej; [|unfold cval; rewrite Ej; by apply idle_page].
  unfold cval. rewrite Ej. by apply (idle_journal sbi s1 nid r).
Qed.
(** C22. Allocation ends. When the checkpoint's next_free_nid starts a NAT block, then
    after any run of operations with settled flushes f2fs_alloc_nid stops, having built the free list at
    most once for each eight NAT blocks and a few times more; and it finds a nid exactly
    when some nid is free and not held. *)
Theorem alloc_nid_live n j meta s es s1 : mounted_on sbi n j meta s -> aligned (fn n) -> nat_run sbi s es s1 -> all_settled es ->
  exists r s2, f2fs_alloc_nid sbi (Z.to_nat (nat_blocks (nm s1) / 8) + 3) s1 = Done (r, s2) /\
    (is_Some r <-> exists k, 0 < k < max_nid n /\ usable sbi s1 k = true).
Proof.
  intros (I & M & L & E0)%mounted_inv A R Q. destruct (run_refines sbi Hgeom s es s1 _ I M R Q) as (a1 & _ & [W F St] & L1 & M1 & E1).
  destruct (L1 (L A)) as [Al C]. destruct (alloc_ends sbi Hgeom s1 W F St Al C) as (r & s2 & E & f' & _ & _ & _ & Hr). exists r, s2. split; [done|].
  rewrite <- E0, <- E1. destruct r as [nid|].
  - destruct Hr as (? & ? & _). split; [intros _; by exists nid|by eexists].
  - destruct Hr as [Hno _]. split; [by intros [? ?]|]. intros (k & Hk & Hu). rewrite Hno in Hu; done.
Qed.
(** C8. A flushed NAT survives an unmount: mounting what f2fs_flush_nat_entries wrote
    (the bitmap of copies, the journal, the blocks) gives every node that has an address
    the very entry it had, wherever the entries went. Required: when the flush began no
    nid with an entry in the journal was at NEW_ADDR (block_operations has written the
    dirty node pages; [new_nid_flush_stale] is a flush without that), and, when the mount
    takes the nat_bits of the checkpoint pack, they are right about the blocks: a block
    marked empty has no node and one marked full no free nid. *)
Theorem nat_flush_mount_roundtrip umount s s' a1 a2 mem_ok m n2 : nat_inv sbi s -> no_new_journalled sbi s ->
  f2fs_flush_nat_entries sbi umount s = Done s' -> init_node_manager a1 a2 m = (0, n2) ->
  nat_blkaddr n2 = nat_blkaddr (nm s') -> max_nid n2 = max_nid (nm s') -> nat_blocks n2 = nat_blocks (nm s') -> nat_bitmap n2 = nat_bitmap (nm s') ->
  (forall k, nat_bits_flag n2 = true -> 0 <= k < max_nid n2 -> test_bit (block k) (empty_nat_bits n2) = true ->
     rn_block_addr (pval sbi (nm s') (nmeta s') k) = NULL_ADDR) ->
  (forall k, nat_bits_flag n2 = true -> 0 < k < max_nid n2 -> test_bit (block k) (full_nat_bits n2) = true ->
     rn_block_addr (pval sbi (nm s') (nmeta s') k) <> NULL_ADDR) -> 0 <= next_scan_nid (fn n2) ->
  available_nids (fn n2) = count_upto (fun k => (0 <? k) && (rn_block_addr (cval sbi s' k) =? NULL_ADDR)) (Z.to_nat (max_nid n2)) ->
  exists s2, f2fs_build_node_manager sbi a1 a2 true mem_ok m (njnl s') (nmeta s') = (0, s2) /\
    forall k, 0 <= k < max_nid (nm s) -> ni_blk (nval sbi s k) <> NEW_ADDR -> nval sbi s2 k = nval sbi s k.
Proof.
  intros [W F St] Hj E Hi B1 B2 B3 B4 B5a B5b B6 B7. destruct (flush_ok sbi Hgeom umount s W F St Hj) as (s1 & E2 & C). rewrite E in E2. injection E2 as <-.
  destruct C as [W' _ _ _ C5 _ _ C8 C9 _ _ _ _ _ _]. pose proof W' as [G1 G2 _ _ G5 G6 G7].
  assert (forall k, current_nat_addr sbi n2 k = current_nat_addr sbi (nm s') k) as Ha by (intros k; by apply same_addr).
  assert (forall k, cval sbi (mk_ns n2 (njnl s') (nmeta s')) k = cval sbi s' k) as Hc by (intros k; unfold cval, pval; cbn [nm njnl nmeta]; by rewrite Ha).
  destruct (mount_ok sbi a1 a2 mem_ok m n2 (njnl s') (nmeta s') Hi) as (s2 & E2 & _ & _ & _ & V & _).
  - split; cbn [nm njnl nmeta]; rewrite ?B2.
    + destruct G1. split; by rewrite ?B1, ?B2, ?B3, ?B4.
    + done.
    + intros k Hk. rewrite Hc. by apply G5.
    + intros k Hk. unfold pval. rewrite Ha. by apply G6.
    + intros k Hk. rewrite Ha. by apply G7.
    + rewrite B7, B2. apply count_upto_ext. intros k _. by rewrite Hc.
    + intros k Hf Hk Hb. unfold pval. rewrite Ha. rewrite <- B2 in Hk. by apply B5a.
    + intros k Hf Hk Hb. unfold pval. rewrite Ha. rewrite <- B2 in Hk. by apply B5b.
    + done.
  - exists s2. split; [done|]. intros k Hk Hb. rewrite V, Hc, C9, (proj2 (Z.eqb_neq _ _) Hb) by done.
    pose proof (info_raw (nval sbi s k)) as Ei. by rewrite nval_nid in Ei.
Qed.
(** C23. A crash before the checkpoint pack is written loses nothing: read through the
    old bitmap and the old journal, the device still has every entry it had. (Before the flush no nid with an entry in the
    journal was at NEW_ADDR, as for the round trip above.) *)
Theorem nat_flush_crash_safe umount s s' k : nat_inv sbi s -> no_new_journalled sbi s -> f2fs_flush_nat_entries sbi umount s = Done s' ->
  0 <= k < max_nid (nm s) -> cval sbi (mk_ns (nm s) (njnl s) (nmeta s')) k = cval sbi s k.
Proof.
  intros [W F St] Hj E Hk. destruct (flush_ok sbi Hgeom umount s W F St Hj) as (s1 & E2 & C). rewrite E in E2. injection E2 as <-.
  destruct (geom_max sbi s W) as (M1 & _ & _). unfold cval, pval. cbn [nm njnl nmeta]. rewrite (cur_addr sbi Hgeom) by (done || apply W).
  rewrite (cp_media sbi _ _ C); [done|]. by apply (nid_block _ _ M1).
Qed.
(** C38. The tables stay well formed: after any run with settled flushes each cache entry has its own nid and its
    flags agree with its address, clean entries are on the list and dirty ones in the
    set of their block with the counts right, the free list holds exactly the free nids of
    the tree and its counters, bitmaps and per-block counts agree, and the journal has no
    nid twice. *)
Theorem node_tables_wf n j meta s es s' : mounted_on sbi n j meta s -> nat_run sbi s es s' -> all_settled es ->
  cache_ok (max_nid n) (nc (nm s')) /\ fn_ok (max_nid n) (nat_blocks (nm s')) (fn (nm s')) /\ njnl_ok (max_nid n) (njnl s').
Proof.
  intros (I & M & _ & E0)%mounted_inv R Q. destruct (run_refines sbi Hgeom s es s' _ I M R Q) as (a1 & _ & [W F _] & _ & _ & E1).
  rewrite <- E0, <- E1. split; [apply W|]. split; [apply F|apply W].
Qed.
(** The two copies of a NAT block: both lie in the NAT area, next_nat_addr goes from one to the
    other and back, and nids of different blocks have no copy in common. *)
Theorem nat_copies_disjoint n nid nid' (cur := current_nat_addr sbi n) (next := fun x => next_nat_addr sbi n (cur x)) :
  nat_geom sbi n -> 0 <= nid < max_nid n -> 0 <= nid' < max_nid n ->
  (nat_blkaddr n <= cur nid < 4294967296 /\ nat_blkaddr n <= next nid < 4294967296) /\ next_nat_addr sbi n (next nid) = cur nid /\ cur nid <> next nid /\
  (block nid <> block nid' -> cur nid <> cur nid' /\ cur nid <> next nid' /\ next nid <> next nid').
Proof.
  intros G Hn Hn'. unfold next, cur. pose proof (block_range sbi n nid G Hn) as Hb. pose proof (block_range sbi n nid' G Hn') as Hb'.
  pose proof (nat_addr_range sbi Hgeom n (block nid)) as Hr. pose proof (nat_addr_inj sbi Hgeom n) as Hi.
  assert (next_nat_addr sbi n (next_nat_addr sbi n (current_nat_addr sbi n nid)) = current_nat_addr sbi n nid) as Eback.
  { rewrite (next_nat sbi Hgeom) by done. set (n' := set_to_next_nat nid n). pose proof (set_next_geom sbi nid n G) as G'.
    assert (nat_addr sbi n (block nid) (negb (copy_of n (block nid))) = current_nat_addr sbi n' nid) as ->.
    { rewrite (cur_addr sbi Hgeom) by done. unfold n'. rewrite (copy_set_next sbi), Z.eqb_refl by done. done. }
    change (next_nat_addr sbi n) with (next_nat_addr sbi n'). rewrite (next_nat sbi Hgeom) by done. unfold n'.
    rewrite (copy_set_next sbi), Z.eqb_refl, negb_involutive by done. by rewrite (cur_addr sbi Hgeom). }
  split; [|split; [done|]]; rewrite !(next_nat sbi Hgeom), !(cur_addr sbi Hgeom) by done.
  - split; by apply Hr.
  - split; [intros [_ E]%Hi; by destruct (copy_of n (block nid))|]. intros Hne. split_and!; by intros [? _]%Hi.
Qed.
End properties.

(** ** A radix tree *)

Definition sorted_tree : RadixTree := {| radix_tree_gang_lookup := fun T start nr => take nr (filter (fun k => start <= k) (merge_sort Z.le (elements T))) |}.
Lemma sorted_tree_ok : @RadixTreeOk sorted_tree.
Proof.
  assert (forall T : gset Z, forall start, let l := filter (fun k => start <= k) (merge_sort Z.le (elements T)) in
    NoDup l /\ StronglySorted Z.le l /\ forall k, k ∈ l <-> k ∈ T /\ start <= k) as Hl.
  { intros T start l. pose proof (merge_sort_Permutation Z.le (elements T)) as Hp. split_and!.
    - apply list.NoDup_filter. rewrite Hp. apply NoDup_elements.
    - pose proof (StronglySorted_merge_sort Z.le (elements T)) as Hs. unfold l. clear Hp l. induction Hs as [|x xs Hs IH Hx]; [constructor|].
      rewrite list.filter_cons. destruct (decide (start <= x)); [|done]. constructor; [done|]. rewrite list.Forall_forall in *. intros y [_ Hy]%list_elem_of_filter. by apply Hx.
    - intros k. unfold l. rewrite list_elem_of_filter, Hp, elem_of_elements. tauto. }
  assert (forall (l : list Z) nr k x, StronglySorted Z.le l -> k ∈ take nr l -> list.last (take nr l) = Some x -> k <= x) as Htop.
  { intros l nr k x Hs Hk Hx. rewrite <- (take_drop nr l) in Hs. apply StronglySorted_app_1_l in Hs. apply last_Some in Hx as [l' Hx]. rewrite Hx in *.
    apply elem_of_app in Hk as [Hk|Hk%list_elem_of_singleton]; [|lia]. by apply (StronglySorted_app_1_elem_of Z.le l' [x] k x) in Hs; [|done|left]. }
  split; cbn [radix_tree_gang_lookup sorted_tree]; intros T start nr; destruct (Hl T start) as (Hn & Hs & Hin); set (l := filter _ _) in *.
  - intros k Hk. apply Hin. apply list_elem_of_lookup in Hk as [i Hi]. apply lookup_take_Some in Hi as [Hi _]. by eapply list_elem_of_lookup_2.
  - by eapply sublist_NoDup, sublist_take.
  - intros k Hnr Hk Hle E. assert (k ∈ l) as Hkl by by apply Hin. destruct l as [|x l']; [by apply elem_of_nil in Hkl|]. destruct nr; [lia|done].
  - intros k x Hk Hle Hx Hkx. assert (k ∈ l) as Hkl by by apply Hin. rewrite <- (take_drop nr l) in Hkl. apply elem_of_app in Hkl as [?|Hd]; [done|].
    assert (x ∈ take nr l) as Hxl by (apply last_Some_elem_of; exact Hx).
    rewrite <- (take_drop nr l) in Hs. pose proof (StronglySorted_app_1_elem_of Z.le _ _ x k Hs Hxl Hd). by replace k with x by lia.
  - intros k x Hk Hx. by apply (Htop l nr).
Qed.

(** ** A small volume: two NAT blocks of four entries *)

Section demo.
#[local] Existing Instances linux_sit sorted_tree sorted_tree_ok.
#[local] Instance demo_nat : NatFormat := {| NAT_ENTRY_PER_BLOCK := 4; NAT_JOURNAL_ENTRIES := 2; F2FS_RESERVED_NODE_NUM := 3 |}.
#[local] Instance demo_nat_ok : NatFormatOk.
Proof. by split. Qed.

Definition demo_nat_meta (a : Z) : list f2fs_nat_entry :=
  if a =? 100 then [mk_nat 0 0 0; mk_nat 0 1 1; mk_nat 0 2 1; mk_nat 0 3 500]
  else if a =? 101 then [mk_nat 0 4 501; mk_nat 0 0 0; mk_nat 0 0 0; mk_nat 0 0 0]
  else replicate 4 (mk_nat 0 0 0).
Definition demo_nat_jnl : nat_journal := mk_njnl 1 [(6, mk_nat 0 6 502); (0, mk_nat 0 0 0)].
(** [valid] nodes, the free nid [next] first *)
Definition demo_nat_mount (valid next : Z) : nat_mount := mk_nmt 100 4 0 valid 0 next (Some [0]) false 7 0 0 0.
Definition demo_nm (valid next : Z) : f2fs_nm_info := snd (init_node_manager true true (demo_nat_mount valid next)).
Definition demo_ns (valid next : Z) : nat_store :=
  snd (f2fs_build_node_manager demo_sbi true true true true (demo_nat_mount valid next) demo_nat_jnl demo_nat_meta).
Lemma below8 (P : Z -> Prop) : P 0 -> P 1 -> P 2 -> P 3 -> P 4 -> P 5 -> P 6 -> P 7 -> forall k, 0 <= k < 8 -> P k.
Proof.
  intros ? ? ? ? ? ? ? ? k Hk. assert (k = 0 \/ k = 1 \/ k = 2 \/ k = 3 \/ k = 4 \/ k = 5 \/ k = 6 \/ k = 7) as Hc by lia.
  repeat destruct Hc as [-> | Hc]; try done. by subst.
Qed.
Lemma demo_device next : 0 <= next < 8 -> device_ok demo_sbi (mk_ns (demo_nm 3 next) demo_nat_jnl demo_nat_meta).
Proof.
  intros Hx. assert (max_nid (demo_nm 3 next) = 8) as Em by done. split; cbn [nm njnl nmeta]; rewrite ?Em.
  - split; vm_compute; done.
  - split; [by vm_compute|done| |].
    + change (base.NoDup [6]). apply NoDup_singleton.
    + intros e He. change (e ∈ [(6, mk_nat 0 6 502)]) in He. apply list_elem_of_singleton in He as ->. by vm_compute.
  - apply below8; by vm_compute.
  - apply below8; by vm_compute.
  - apply below8; by vm_compute.
  - by vm_compute.
  - intros k Hf. by vm_compute in Hf.
  - intros k Hf. by vm_compute in Hf.
  - cbn. lia.
Qed.
Lemma demo_mounted next : 0 <= next < 8 -> mounted_on demo_sbi (demo_nm 3 next) demo_nat_jnl demo_nat_meta (demo_ns 3 next).
Proof.
  intros Hx. exists true, true, true, (demo_nat_mount 3 next). split; [done|]. split; [by apply demo_device|].
  unfold demo_ns, f2fs_build_node_manager. destruct (init_node_manager true true (demo_nat_mount 3 next)) as [e n] eqn:Ei.
  assert (e = 0) as -> by (cbn in Ei; congruence). done.
Qed.

(** A run: the root is read, a node is made, written and kept, another is removed, a checkpoint. *)
Definition got {A} (d : A) (m : outcome A) : A := match m with Done x => x | _ => d end.
Lemma got_eq {A} (d : A) m : (match m with Done _ => true | _ => false end) = true -> m = Done (got d m).
Proof. by destruct m. Qed.
#[local] Abbreviation d0 := (demo_ns 3 4).
Definition d1 : nat_store := snd (f2fs_get_node_info demo_sbi true 3 d0).
Definition d2 : nat_store := snd (got (None, d1) (f2fs_alloc_nid demo_sbi 3 d1)).
Definition d3 : nat_store := d2 <| nm := set_node_addr (mk_ni 5 5 0 0) NEW_ADDR false (nm d2) |>.
Definition d4 : nat_store := d3 <| nm := set_node_addr (nval demo_sbi d3 5) 600 true (nm d3) |>.
Definition d5 : nat_store := d4 <| nm := got (nm d4) (f2fs_alloc_nid_done 5 (nm d4)) |>.
Definition d6 : nat_store := d5 <| nm := set_node_addr (nval demo_sbi d5 4) 0 false (nm d5) |>.
Definition d7 : nat_store := got d6 (f2fs_flush_nat_entries demo_sbi false d6).
Definition demo_events : list nat_event :=
  [GotInfo 3 (mk_ni 3 3 500 0); AllocNid (Some 5); SetNew (mk_ni 5 5 0 0); SetAddr 5 600; AllocDone 5; SetAddr 4 0].
Lemma demo_settled : all_settled (demo_events ++ [FlushNats true]).
Proof. intros He. unfold demo_events in He. cbn [app] in He. repeat (apply elem_of_cons in He as [He|He]; [done|]). by apply elem_of_nil in He. Qed.
Lemma demo_events_settled : all_settled demo_events.
Proof. intros He. by apply demo_settled, elem_of_app; left. Qed.
Lemma one_journalled s raw x k : njnl s = mk_njnl 1 [(6, raw); x] -> is_Some (jval (njnl s) k) -> k = 6.
Proof.
  intros E [r Hr]. rewrite E in Hr. unfold jval in Hr. change (nats_in_cursum (mk_njnl 1 [(6, raw); x])) with [(6, raw)] in Hr.
  destruct (find_in_cursum_spec [(6, raw)] k 0 ltac:(lia)) as [[Ef _]|(i & e & He & Hv & _)]; [by rewrite Ef in Hr|].
  destruct i; [|by destruct i]. injection He as <-. done.
Qed.
Lemma nat_demo_run : nat_run demo_sbi d0 demo_events d6.
Proof.
  eapply run_cons; [apply (st_get _ d0 true 3 (mk_ni 3 3 500 0) d1); [split; by vm_compute|by vm_compute]|].
  eapply run_cons; [apply (st_alloc _ d1 3 (Some 5) d2); by vm_compute|].
  eapply run_cons; [apply (st_new _ d2 (mk_ni 5 5 0 0) false); by vm_compute|].
  eapply run_cons; [apply (st_set _ d3 5 600 true); [split; by vm_compute|by vm_compute..]|].
  eapply run_cons; [apply (st_done _ d4 5 (nm d5)); [by vm_compute..|apply got_eq; by vm_compute]|].
  eapply run_cons; [apply (st_set _ d5 4 0 false); [split; by vm_compute|by vm_compute..]|]. apply run_nil.
Qed.

Lemma demo_inv : nat_inv demo_sbi d6.
Proof.
  destruct (mounted_inv demo_sbi _ _ _ _ (demo_mounted 4 ltac:(lia))) as (I & M & _). by destruct (run_refines demo_sbi demo_geom_wf _ _ _ _ I M nat_demo_run demo_events_settled) as (a' & _ & I' & _).
Qed.
Lemma demo_journal : no_new_journalled demo_sbi d6.
Proof. intros k Hk. assert (k = 6) as ->; [|by vm_compute]. apply (one_journalled d6 (mk_nat 0 6 502) (0, mk_nat 0 0 0)); [by vm_compute|done]. Qed.
Lemma demo_flush : f2fs_flush_nat_entries demo_sbi false d6 = Done d7.
Proof. apply got_eq. by vm_compute. Qed.
Lemma run_snoc s es s1 e s2 : nat_run demo_sbi s es s1 -> nat_step demo_sbi s1 e s2 -> nat_run demo_sbi s (es ++ [e]) s2.
Proof. intros R T. induction R as [s|s e1 s1 es s3 T1 R IH]; [by apply (run_cons _ _ _ s2); [|apply run_nil]|]. apply (run_cons _ _ _ s1); [done|by apply IH]. Qed.
Lemma nat_demo_run_flush : nat_run demo_sbi d0 (demo_events ++ [FlushNats true]) d7.
Proof. apply (run_snoc _ _ d6); [apply nat_demo_run|]. assert (settled demo_sbi d6 = true) as <- by by vm_compute. apply (st_flush _ d6 false), demo_flush. Qed.
Lemma node_manager_refines_witness : exists a', spec_run 8 (spec_of_device demo_sbi (mk_ns (demo_nm 3 4) demo_nat_jnl demo_nat_meta)) (demo_events ++ [FlushNats true]) a' /\ models demo_sbi d7 a'.
Proof. exact (node_manager_refines demo_sbi demo_geom_wf (demo_nm 3 4) demo_nat_jnl demo_nat_meta d0 _ d7 (demo_mounted 4 ltac:(lia)) nat_demo_run_flush demo_settled). Defined.
Lemma alloc_nid_fresh_witness : 0 < 7 < 8 /\ ni_blk (nval demo_sbi d7 7) = 0 /\ rn_block_addr (cval demo_sbi d7 7) = 0 /\
  is_prealloc (fn (nm d7)) 7 = false /\ is_prealloc (fn (nm (snd (got (None, d7) (f2fs_alloc_nid demo_sbi 3 d7))))) 7 = true.
Proof.
  apply (alloc_nid_fresh demo_sbi demo_geom_wf (demo_nm 3 4) demo_nat_jnl demo_nat_meta d0 _ d7 3 7 _ (demo_mounted 4 ltac:(lia)) nat_demo_run_flush demo_settled). by vm_compute.
Defined.
Lemma alloc_nid_live_witness : exists r s2, f2fs_alloc_nid demo_sbi 3 d7 = Done (r, s2) /\ (is_Some r <-> exists k, 0 < k < 8 /\ usable demo_sbi d7 k = true).
Proof. exact (alloc_nid_live demo_sbi demo_geom_wf (demo_nm 3 4) demo_nat_jnl demo_nat_meta d0 _ d7 (demo_mounted 4 ltac:(lia)) eq_refl nat_demo_run_flush demo_settled). Defined.
(** The volume after the checkpoint: three nodes *)
Definition demo_remount : nat_mount := mk_nmt 100 4 0 3 0 7 (Some (nat_bitmap (nm d7))) false 8 0 0 0.
Lemma nat_flush_mount_roundtrip_witness : exists s2, f2fs_build_node_manager demo_sbi true true true true demo_remount (njnl d7) (nmeta d7) = (0, s2) /\
  forall k, 0 <= k < 8 -> ni_blk (nval demo_sbi d6 k) <> 4294967295 -> nval demo_sbi s2 k = nval demo_sbi d6 k.
Proof.
  apply (nat_flush_mount_roundtrip demo_sbi demo_geom_wf false d6 d7 true true true demo_remount (snd (init_node_manager true true demo_remount)) demo_inv demo_journal demo_flush);
    [by vm_compute|by vm_compute|by vm_compute|by vm_compute|by vm_compute|intros k Hf; by vm_compute in Hf|intros k Hf; by vm_compute in Hf|by vm_compute|by vm_compute].
Defined.
Lemma nat_flush_crash_safe_witness : ni_blk (nval demo_sbi d6 5) = 600 /\ rn_block_addr (cval demo_sbi (mk_ns (nm d6) (njnl d6) (nmeta d7)) 5) = 0.
Proof.
  split; [by vm_compute|]. rewrite (nat_flush_crash_safe demo_sbi demo_geom_wf false d6 d7 5 demo_inv demo_journal demo_flush); [by vm_compute|]. split; by vm_compute.
Defined.
Lemma node_tables_wf_witness : cache_ok 8 (nc (nm d7)) /\ fn_ok 8 2 (fn (nm d7)) /\ njnl_ok 8 (njnl d7).
Proof. exact (node_tables_wf demo_sbi demo_geom_wf (demo_nm 3 4) demo_nat_jnl demo_nat_meta d0 _ d7 (demo_mounted 4 ltac:(lia)) nat_demo_run_flush demo_settled). Defined.
Lemma nat_copies_disjoint_witness : current_nat_addr demo_sbi (demo_nm 3 4) 3 <> next_nat_addr demo_sbi (demo_nm 3 4) (current_nat_addr demo_sbi (demo_nm 3 4) 5).
Proof.
  destruct (nat_copies_disjoint demo_sbi demo_geom_wf (demo_nm 3 4) 3 5) as (_ & _ & _ & Hd); [apply (dv_geom _ _ (demo_device 4 ltac:(lia)))|split; by vm_compute..|].
  apply Hd. by vm_compute.
Defined.
(** With next_free_nid inside a block (nid 7) the nids before it are never found: nid 5 is free, the
    count says so, and the allocation after that of nid 7 goes round for ever. *)
Definition spinning : nat_store := snd (got (None, demo_ns 3 7) (f2fs_alloc_nid demo_sbi 3 (demo_ns 3 7))).
Lemma alloc_nid_spins fuel : usable demo_sbi spinning 5 = true /\ available_nids (fn (nm spinning)) = 1 /\ f2fs_alloc_nid demo_sbi fuel spinning = NoFuel.
Proof.
  split; [by vm_compute|]. split; [by vm_compute|]. set (s1 := __f2fs_build_free_nids demo_sbi true true false spinning).
  assert (__f2fs_build_free_nids demo_sbi true true false s1 = s1) as E by by vm_compute.
  assert (forall s n, (available_nids (fn (nm s)) =? 0) = false -> nz (cnt_free (fn (nm s))) = false ->
    f2fs_alloc_nid demo_sbi (S n) s = f2fs_alloc_nid demo_sbi n (__f2fs_build_free_nids demo_sbi true true false s)) as Es by (intros s n E1 E2; cbn [f2fs_alloc_nid]; by rewrite E1, E2).
  destruct fuel as [|fuel]; [done|]. rewrite Es by by vm_compute. fold s1. induction fuel as [|fuel IH]; [done|]. rewrite Es by by vm_compute. by rewrite E.
Qed.
(** A nid given out again whose freeing is still in the journal: emptying the journal at a
    checkpoint drops the only record that it is free, and its NAT block has the old address. *)
Definition stale_meta (a : Z) : list f2fs_nat_entry :=
  if a =? 101 then [mk_nat 0 4 501; mk_nat 0 5 503; mk_nat 0 6 502; mk_nat 0 7 504] else demo_nat_meta a.
Definition e0 : nat_store := snd (f2fs_build_node_manager demo_sbi true true true true (demo_nat_mount 4 4) (mk_njnl 1 [(6, mk_nat 1 6 0); (0, mk_nat 0 0 0)]) stale_meta).
Definition e1 : nat_store := snd (got (None, e0) (f2fs_alloc_nid demo_sbi 3 e0)).
Definition e2 : nat_store := e1 <| nm := set_node_addr (mk_ni 6 6 0 0) NEW_ADDR false (nm e1) |>.
Definition e3 : nat_store := e2 <| nm := set_node_addr (nval demo_sbi e2 4) 600 false (nm e2) |>.
Lemma new_nid_flush_stale : exists s', f2fs_flush_nat_entries demo_sbi false e3 = Done s' /\
  ni_blk (nval demo_sbi e3 6) = NEW_ADDR /\ rn_block_addr (cval demo_sbi e3 6) = NULL_ADDR /\ rn_block_addr (cval demo_sbi s' 6) = 502.
Proof. exists (got e3 (f2fs_flush_nat_entries demo_sbi false e3)). split; [apply got_eq; by vm_compute|]. split_and!; by vm_compute. Qed.
End demo.
