(* ===== verification/Bytes.v ===== *)
(** * Byte objects: bounded reads and writes, little-endian fields

    The code that interprets raw buffers (extended attributes, ACLs) is modelled
    on lists of bytes.  An access that leaves the object is [Bug], so that a
    result [Done] is also a proof that every access of the run was in bounds. *)
From stdpp Require Import gmap.
From S2P Require Import Prelude.
Open Scope Z_scope.

(** memcpy from [n] bytes at offset [o], and memcpy or memset of [src] there *)
Definition rd (b : list Z) (o n : Z) : outcome (list Z) :=
  if (0 <=? o) && (0 <=? n) && (o + n <=? zlen b) then Done (slice b o n) else Bug.
Definition wr (b : list Z) (o : Z) (src : list Z) : outcome (list Z) :=
  if (0 <=? o) && (o + zlen src <=? zlen b) then Done (blit b o src) else Bug.

(** cpu_to_leN and leN_to_cpu, as [n] bytes *)
Fixpoint le_put (n : nat) (x : Z) : list Z :=
  match n with O => [] | S n => x mod 256 :: le_put n (x / 256) end.
Fixpoint le_get (l : list Z) : Z :=
  match l with [] => 0 | x :: l => x + 256 * le_get l end.
Definition zeros (n : Z) : list Z := replicate (Z.to_nat n) 0.

Definition rd8 (b : list Z) (o : Z) : outcome Z := l <-- rd b o 1 ;; Done (le_get l).
Definition rd16 (b : list Z) (o : Z) : outcome Z := l <-- rd b o 2 ;; Done (le_get l).
Definition rd32 (b : list Z) (o : Z) : outcome Z := l <-- rd b o 4 ;; Done (le_get l).

(** ** Little-endian fields *)

Lemma zlen_le_put n x : zlen (le_put n x) = Z.of_nat n.
Proof. revert x. induction n as [|n IH]; intros x; [done|]. cbn [le_put]. rewrite zlen_cons, IH. lia. Qed.
Lemma le_get_put n x : le_get (le_put n x) = x mod 256 ^ Z.of_nat n.
Proof.
  revert x. induction n as [|n IH]; intros x; [by rewrite Z.mod_1_r|].
  cbn [le_put le_get]. rewrite IH, Nat2Z.inj_succ, Z.pow_succ_r by lia.
  pose proof (Z.pow_pos_nonneg 256 (Z.of_nat n) ltac:(lia) ltac:(lia)).
  rewrite Z.rem_mul_r by lia. lia.
Qed.
Lemma le_get_put_id n x : 0 <= x < 256 ^ Z.of_nat n -> le_get (le_put n x) = x.
Proof. intros. rewrite le_get_put. by apply Z.mod_small. Qed.
Lemma le_get_zeros n : le_get (zeros n) = 0.
Proof. unfold zeros. induction (Z.to_nat n) as [|m IH]; [done|]. cbn. by rewrite IH. Qed.
Lemma zlen_zeros n : 0 <= n -> zlen (zeros n) = n.
Proof. intros. unfold zeros. rewrite zlen_replicate. lia. Qed.
Lemma zeros_app m n : 0 <= m -> 0 <= n -> zeros m ++ zeros n = zeros (m + n).
Proof. intros. unfold zeros. rewrite <- replicate_add. f_equal. lia. Qed.
Lemma zeros_split m n : 0 <= m <= n -> zeros n = zeros m ++ zeros (n - m).
Proof. intros. rewrite zeros_app by lia. f_equal. lia. Qed.

(** ** Accesses to a part of an object *)

Lemma rd_app pre l post o n : o = zlen pre -> n = zlen l -> rd (pre ++ l ++ post) o n = Done l.
Proof.
  intros -> ->. unfold rd. rewrite !zlen_app. pose proof (zlen_nonneg pre). pose proof (zlen_nonneg l). pose proof (zlen_nonneg post).
  replace (_ && _ && _) with true by lia. f_equal. unfold slice, zlen.
  rewrite drop_app_length' by lia. apply take_app_length'. lia.
Qed.
Lemma wr_app pre l post o src : o = zlen pre -> zlen src = zlen l -> wr (pre ++ l ++ post) o src = Done (pre ++ src ++ post).
Proof.
  intros -> Hl. unfold wr. rewrite !zlen_app, Hl. pose proof (zlen_nonneg pre). pose proof (zlen_nonneg post).
  replace (_ && _) with true by lia. f_equal. unfold blit. unfold zlen in *.
  rewrite take_app_length' by lia. do 2 f_equal. rewrite app_assoc. apply drop_app_length'.
  rewrite length_app. lia.
Qed.
Lemma zlen_wr b o src b' : wr b o src = Done b' -> zlen b' = zlen b.
Proof.
  unfold wr. destruct (0 <=? o) eqn:E1, (o + zlen src <=? zlen b) eqn:E2; intros [= <-]. apply length_blit; lia.
Qed.
Lemma rd_prefix b b' o n : o + n <= zlen b -> rd (b ++ b') o n = rd b o n.
Proof.
  intros Hn. unfold rd. rewrite zlen_app. pose proof (zlen_nonneg b').
  destruct (0 <=? o) eqn:Eo, (0 <=? n) eqn:En; try done. cbn.
  replace (o + n <=? zlen b + zlen b') with true by lia. replace (o + n <=? zlen b) with true by lia.
  f_equal. unfold slice, zlen in *. rewrite drop_app_le by lia. apply take_app_le. rewrite length_drop. lia.
Qed.
Lemma rd_ok b o n : 0 <= o -> 0 <= n -> o + n <= zlen b -> rd b o n = Done (slice b o n).
Proof. intros. unfold rd. by replace (_ && _ && _) with true by lia. Qed.
Lemma rd_whole l n : n = zlen l -> rd l 0 n = Done l.
Proof. intros ->. pose proof (rd_app [] l [] 0 (zlen l) eq_refl eq_refl) as Hr. by rewrite app_nil_r in Hr. Qed.
Lemma wr_whole l src : zlen src = zlen l -> wr l 0 src = Done src.
Proof. intros E. pose proof (wr_app [] l [] 0 src eq_refl E) as Hw. by rewrite !app_nil_r in Hw. Qed.
Lemma slice_parts (l : list Z) n m : 0 <= n -> 0 <= m -> n + m <= zlen l -> l = slice l 0 n ++ slice l n m ++ drop (Z.to_nat (n + m)) l.
Proof.
  intros. unfold slice. change (Z.to_nat 0) with O. rewrite drop_0. replace (Z.to_nat (n + m)) with (Z.to_nat n + Z.to_nat m)%nat by lia.
  by rewrite <- drop_drop, !take_drop.
Qed.
(** ** Reads after a write *)

Lemma wr_ok b o src : 0 <= o -> o + zlen src <= zlen b -> wr b o src = Done (blit b o src).
Proof. intros. unfold wr. by replace (_ && _) with true by lia. Qed.
Lemma wr_inv b o src b' : wr b o src = Done b' -> 0 <= o /\ o + zlen src <= zlen b /\ b' = blit b o src.
Proof. unfold wr. destruct (0 <=? o) eqn:E1, (o + zlen src <=? zlen b) eqn:E2; intros [= <-]. split_and!; lia || done. Qed.
Lemma rd_wr_eq b o src b' n : wr b o src = Done b' -> n = zlen src -> rd b' o n = Done src.
Proof.
  intros E ->. pose proof (zlen_wr _ _ _ _ E) as Hl. apply wr_inv in E as (Ho & Hn & ->). pose proof (zlen_nonneg src).
  rewrite rd_ok by lia. f_equal. apply slice_blit_eq; lia.
Qed.
Lemma rd_wr_ne b o src b' p n : wr b o src = Done b' -> p + n <= o \/ o + zlen src <= p -> rd b' p n = rd b p n.
Proof.
  intros E Hd. pose proof (zlen_wr _ _ _ _ E) as Hl. apply wr_inv in E as (Ho & Hn & ->). unfold rd. rewrite Hl.
  destruct (0 <=? p) eqn:E1, (0 <=? n) eqn:E2, (p + n <=? zlen b) eqn:E3; try done. cbn. f_equal.
  apply slice_blit_ne; lia.
Qed.
Lemma rd32_wr_eq b o x b' : wr b o (le_put 4 x) = Done b' -> 0 <= x < 4294967296 -> rd32 b' o = Done x.
Proof. intros E Hx. unfold rd32. rewrite (rd_wr_eq _ _ _ _ _ E) by done. cbn [obind]. f_equal. by apply le_get_put_id. Qed.
Lemma rd32_wr_ne b o src b' p : wr b o src = Done b' -> p + 4 <= o \/ o + zlen src <= p -> rd32 b' p = rd32 b p.
Proof. intros E Hd. unfold rd32. by rewrite (rd_wr_ne _ _ _ _ _ _ E Hd). Qed.
(** Membership in an explicit list *)
Ltac in_list := repeat first [apply list_elem_of_here|apply list_elem_of_further].
