(* ===== verification/Xattr.v ===== *)
(** * Extended attributes ([xattr.c], [xattr.h])

    The attributes of an inode are one list of variable-length entries that
    starts in the inode block (the inline area) and goes on in a node block of
    its own.  The definitions work on the bytes, as the code does; an access
    outside the buffer is [Bug].  What can fail around them (memory, reading a
    node, allocating a node) is an argument, [xenv]. *)
From stdpp Require Import gmap.
From S2P Require Import Prelude Bytes.
Open Scope Z_scope.

(** Constants and macros of the kernel's headers *)
Class XattrFormat := {
  PAGE_SIZE : Z;
  sizeof_node_footer : Z;
  F2FS_NAME_LEN : Z;
  XATTR_CREATE : Z;
  XATTR_REPLACE : Z;
  S_ISDIR : Z -> bool;
}.
Definition EPERM : Z := 1.
Definition EIO : Z := 5.
Definition ENOMEM : Z := 12.
Definition E2BIG : Z := 7.
Definition EEXIST : Z := 17.
Definition EINVAL : Z := 22.
Definition ENOSPC : Z := 28.
Definition ERANGE : Z := 34.
Definition ENODATA : Z := 61.
Definition EOPNOTSUPP : Z := 95.

Definition F2FS_XATTR_MAGIC : Z := 4076150801.
Definition F2FS_XATTR_INDEX_USER : Z := 1.
Definition F2FS_XATTR_INDEX_POSIX_ACL_ACCESS : Z := 2.
Definition F2FS_XATTR_INDEX_POSIX_ACL_DEFAULT : Z := 3.
Definition F2FS_XATTR_INDEX_TRUSTED : Z := 4.
Definition F2FS_XATTR_INDEX_SECURITY : Z := 6.
Definition F2FS_XATTR_INDEX_ADVISE : Z := 7.
Definition F2FS_XATTR_INDEX_ENCRYPTION : Z := 9.
Definition F2FS_XATTR_NAME_ENCRYPTION_CONTEXT : list Z := [99].
(** sizes of struct f2fs_xattr_header and struct f2fs_xattr_entry *)
Definition XHDR : Z := 24.
Definition XENT : Z := 4.
Definition XATTR_ALIGN (size : Z) : Z := Z.land (size + 3) (Z.lnot 3).
Definition XATTR_PADDING_SIZE : Z := 4.

(** ** Entries, at an offset of a buffer *)

Definition e_name_index (b : list Z) (e : Z) : outcome Z := rd8 b e.
Definition e_name_len (b : list Z) (e : Z) : outcome Z := rd8 b (e + 1).
Definition e_value_size (b : list Z) (e : Z) : outcome Z := rd16 b (e + 2).
Definition ENTRY_SIZE (b : list Z) (e : Z) : outcome Z :=
  n <-- e_name_len b e ;;
  v <-- e_value_size b e ;;
  Done (XATTR_ALIGN (XENT + n + v)).
Definition XATTR_NEXT_ENTRY (b : list Z) (e : Z) : outcome Z := s <-- ENTRY_SIZE b e ;; Done (e + s).
Definition IS_XATTR_LAST_ENTRY (b : list Z) (e : Z) : outcome bool := x <-- rd32 b e ;; Done (x =? 0).
Definition XATTR_FIRST_ENTRY (base : Z) : Z := base + XHDR.

(** The tests of the loop body of __find_xattr *)
Definition is_xattr (b : list Z) (e index : Z) (name : list Z) : outcome bool :=
  i <-- e_name_index b e ;;
  if negb (i =? index) then Done false else
  n <-- e_name_len b e ;;
  if negb (n =? zlen name) then Done false else
  l <-- rd b (e + XENT) (zlen name) ;;
  Done (bool_decide (l = name)).
(** [list_for_each_xattr] of __find_xattr from entry [entry] on *)
Fixpoint find_xattr_from (fuel : nat) (b : list Z) (entry index : Z) (name : list Z) : outcome Z :=
  match fuel with
  | O => NoFuel
  | S fuel =>
      last <-- IS_XATTR_LAST_ENTRY b entry ;;
      if last : bool then Done entry else
      found <-- is_xattr b entry index name ;;
      if found : bool then Done entry else
      next <-- XATTR_NEXT_ENTRY b entry ;;
      find_xattr_from fuel b next index name
  end.
Definition __find_xattr (b : list Z) (base index : Z) (name : list Z) : outcome Z :=
  find_xattr_from (S (length b)) b (XATTR_FIRST_ENTRY base) index name.

(** [inl e]: the entry (or the end of the list); [inr e]: *last_addr, with NULL returned *)
Fixpoint find_inline_from (fuel : nat) (b : list Z) (inline_size entry index : Z) (name : list Z) : outcome (Z + Z) :=
  match fuel with
  | O => NoFuel
  | S fuel =>
      last <-- IS_XATTR_LAST_ENTRY b entry ;;
      if last : bool then Done (inl entry) else
      if inline_size <? entry + 4 then Done (inr entry) else
      next <-- XATTR_NEXT_ENTRY b entry ;;
      if inline_size <? next + 4 then Done (inr entry) else
      found <-- is_xattr b entry index name ;;
      if found : bool then Done (inl entry) else
      find_inline_from fuel b inline_size next index name
  end.
Definition __find_inline_xattr (b : list Z) (inline_size index : Z) (name : list Z) : outcome (Z + Z) :=
  find_inline_from (S (length b)) b inline_size (XATTR_FIRST_ENTRY 0) index name.

(** ** The inode *)

(** [inline_addr] is the attribute area of the inode block, [xpage] the one of
    node i_xattr_nid; [i_acl_mode] is set when flag FI_ACL_MODE is; [held] are
    the nids allocated and neither used nor given back. *)
Record xinode := {
  i_inline_xattr_size : Z;
  i_xattr_nid : Z;
  inline_addr : list Z;
  xpage : list Z;
  i_mode : Z;
  i_acl_mode : option Z;
  i_advise : Z;
  encrypted : bool;
  need_cp : bool;
  held : list Z;
}.
#[export] Instance eta_xinode : Eta xinode := fun i =>
  Build_xinode (i_inline_xattr_size i) (i_xattr_nid i) (inline_addr i) (xpage i) (i_mode i) (i_acl_mode i) (i_advise i)
    (encrypted i) (need_cp i) (held i).
Definition inline_xattr_size (i : xinode) : Z := i_inline_xattr_size i * 4.

(** Outcomes of the calls around: kzalloc fails; the caller passed the inode's
    page; f2fs_get_node_page on the inode and on the attribute node when reading
    and when writing (0 or an error); f2fs_alloc_nid; f2fs_new_node_page *)
Record xenv := {
  e_nomem : bool;
  e_ipage : bool;
  e_read_inode : Z;
  e_read_xattr : Z;
  e_alloc_nid : option Z;
  e_write_inode : Z;
  e_trunc_xattr : Z;
  e_write_xattr : Z;
  e_new_page : Z;
}.

Section xattr.
Context `{XattrFormat}.

Definition VALID_XATTR_BLOCK_SIZE : Z := PAGE_SIZE - sizeof_node_footer.
Definition MIN_OFFSET (i : xinode) : Z := XATTR_ALIGN (inline_xattr_size i + VALID_XATTR_BLOCK_SIZE).
Definition MAX_VALUE_LEN (i : xinode) : Z := MIN_OFFSET i - XHDR - XENT.

(** ** Reading *)

Definition read_inline_xattr (env : xenv) (i : xinode) (txattr : list Z) : outcome (Z * list Z) :=
  if negb (e_ipage env) && negb (e_read_inode env =? 0) then Done (e_read_inode env, txattr) else
  l <-- rd (inline_addr i) 0 (inline_xattr_size i) ;;
  t <-- wr txattr 0 l ;;
  Done (0, t).
Definition read_xattr_block (env : xenv) (i : xinode) (txattr : list Z) : outcome (Z * list Z) :=
  if negb (e_read_xattr env =? 0) then Done (e_read_xattr env, txattr) else
  l <-- rd (xpage i) 0 VALID_XATTR_BLOCK_SIZE ;;
  t <-- wr txattr (inline_xattr_size i) l ;;
  Done (0, t).

(** The error, or the entry found and the buffer it is in *)
Definition check_entry (t : list Z) (xe : Z) : outcome (Z + Z * list Z) :=
  last <-- IS_XATTR_LAST_ENTRY t xe ;;
  if last : bool then Done (inl (- ENODATA)) else Done (inr (xe, t)).
(** lookup_all_xattrs from "read from xattr node block" on *)
Definition lookup_block (env : xenv) (i : xinode) (t : list Z) (last_addr : option Z) (index : Z) (name : list Z) : outcome (Z + Z * list Z) :=
  r <-- (if nz (i_xattr_nid i) then read_xattr_block env i t else Done (0, t)) ;;
  let '(err, t) := r in
  if nz err then Done (inl err) else
  let cur_addr := match last_addr with Some e => e - XHDR | None => 0 end in
  xe <-- __find_xattr t cur_addr index name ;;
  check_entry t xe.
Definition lookup_all_xattrs (env : xenv) (i : xinode) (index : Z) (name : list Z) : outcome (Z + Z * list Z) :=
  let size := if nz (i_xattr_nid i) then VALID_XATTR_BLOCK_SIZE else 0 in
  let inline_size := inline_xattr_size i in
  if negb (nz size) && negb (nz inline_size) then Done (inl (- ENODATA)) else
  if e_nomem env then Done (inl (- ENOMEM)) else
  let t := zeros (inline_size + size + XATTR_PADDING_SIZE) in
  if nz inline_size then
    r <-- read_inline_xattr env i t ;;
    let '(err, t) := r in
    if nz err then Done (inl err) else
    x <-- __find_inline_xattr t inline_size index name ;;
    match x with
    | inl xe => check_entry t xe
    | inr last_addr => lookup_block env i t (Some last_addr) index name
    end
  else lookup_block env i t None index name.

(** XATTR_HDR with [h_magic] set and one reference, where it was never written *)
Definition init_header (t : list Z) : outcome (list Z) :=
  m <-- rd32 t 0 ;;
  if m =? F2FS_XATTR_MAGIC then Done t else
  t <-- wr t 0 (le_put 4 F2FS_XATTR_MAGIC) ;;
  wr t 4 (le_put 4 1).
Definition read_all_xattrs (env : xenv) (i : xinode) : outcome (Z + list Z) :=
  let inline_size := inline_xattr_size i in
  if e_nomem env then Done (inl (- ENOMEM)) else
  let t := zeros (inline_size + VALID_XATTR_BLOCK_SIZE + XATTR_PADDING_SIZE) in
  r <-- (if nz inline_size then read_inline_xattr env i t else Done (0, t)) ;;
  let '(err, t) := r in
  if nz err then Done (inl err) else
  r <-- (if nz (i_xattr_nid i) then read_xattr_block env i t else Done (0, t)) ;;
  let '(err, t) := r in
  if nz err then Done (inl err) else
  t <-- init_header t ;;
  Done (inr t).

(** ** Writing *)

(** f2fs_alloc_nid_failed, which gives a nid back, and f2fs_alloc_nid_done *)
Definition alloc_nid_failed (i : xinode) (nid : Z) : xinode :=
  if nz nid then i <| held := filter (fun n => n <> nid) (held i) |> else i.
Definition alloc_nid_done (i : xinode) (nid : Z) : xinode := i <| held := filter (fun n => n <> nid) (held i) |>.
Definition f2fs_truncate_xattr_node (env : xenv) (i : xinode) : Z * xinode :=
  if negb (nz (i_xattr_nid i)) then (0, i)
  else if nz (e_trunc_xattr env) then (e_trunc_xattr env, i)
  else (0, i <| i_xattr_nid := 0 |> <| xpage := [] |>).

(** [memcpy] of the two parts of the buffer into the inode block and the node block *)
Definition put_inline (i : xinode) (t : list Z) : outcome xinode :=
  l <-- rd t 0 (inline_xattr_size i) ;;
  a <-- wr (inline_addr i) 0 l ;;
  Done (i <| inline_addr := a |>).
Definition put_blocks (i : xinode) (t : list Z) : outcome xinode :=
  i <-- (if nz (inline_xattr_size i) then put_inline i t else Done i) ;;
  l <-- rd t (inline_xattr_size i) VALID_XATTR_BLOCK_SIZE ;;
  x <-- wr (xpage i) 0 l ;;
  Done (i <| xpage := x |>).

(** The part of write_all_xattrs from "write to xattr node block" on; a new node
    block is whatever the page cache holds. *)
Definition write_xattr_node (env : xenv) (fresh : list Z) (i : xinode) (new_nid : Z) (t : list Z) : outcome (Z * xinode) :=
  if nz (i_xattr_nid i) then
    if nz (e_write_xattr env) then Done (e_write_xattr env, alloc_nid_failed i new_nid) else
    if nz new_nid then Bug else
    i <-- put_blocks i t ;; Done (0, i)
  else
    if nz (e_new_page env) then Done (e_new_page env, alloc_nid_failed i new_nid) else
    let i := i <| i_xattr_nid := new_nid |> <| xpage := fresh |> in
    i <-- put_blocks (alloc_nid_done i new_nid) t ;; Done (0, i).
Definition write_all_xattrs (env : xenv) (fresh : list Z) (i : xinode) (hsize : Z) (t : list Z) : outcome (Z * xinode) :=
  let inline_size := inline_xattr_size i in
  let need_nid := (inline_size <? hsize) && negb (nz (i_xattr_nid i)) in
  match (if need_nid then e_alloc_nid env else Some 0) with
  | None => Done (- ENOSPC, i)
  | Some new_nid =>
      let i := if need_nid then i <| held ::= cons new_nid |> else i in
      if nz inline_size then
        if negb (e_ipage env) && nz (e_write_inode env) then Done (e_write_inode env, alloc_nid_failed i new_nid) else
        if hsize <=? inline_size then
          let '(err, i) := f2fs_truncate_xattr_node env i in
          let i := alloc_nid_failed i new_nid in
          if nz err then Done (err, i) else
          i <-- put_inline i t ;; Done (0, i)
        else write_xattr_node env fresh i new_nid t
      else write_xattr_node env fresh i new_nid t
  end.

(** ** getxattr *)

(** [buffer] is its size, or NULL; the result comes with what was copied into it. *)
Definition f2fs_getxattr (env : xenv) (i : xinode) (index : Z) (name : option (list Z)) (buffer : option Z) : outcome (Z * option (list Z)) :=
  match name with
  | None => Done (- EINVAL, None)
  | Some name =>
      if F2FS_NAME_LEN <? zlen name then Done (- ERANGE, None) else
      r <-- lookup_all_xattrs env i index name ;;
      match r with
      | inl error => Done (error, None)
      | inr (entry, base) =>
          size <-- e_value_size base entry ;;
          match buffer with
          | None => Done (size, None)
          | Some buffer_size =>
              if buffer_size <? size then Done (- ERANGE, None) else
              n <-- e_name_len base entry ;;
              v <-- rd base (entry + XENT + n) size ;;
              Done (size, Some v)
          end
      end
  end.

(** ** setxattr *)

Definition f2fs_xattr_value_same (b : list Z) (entry : Z) (value : list Z) : outcome bool :=
  s <-- e_value_size b entry ;;
  if negb (s =? zlen value) then Done false else
  n <-- e_name_len b entry ;;
  l <-- rd b (entry + XENT + n) (zlen value) ;;
  Done (bool_decide (l = value)).
(** [while (!IS_XATTR_LAST_ENTRY(last))] *)
Fixpoint last_entry (fuel : nat) (b : list Z) (last : Z) : outcome Z :=
  match fuel with
  | O => NoFuel
  | S fuel =>
      e <-- IS_XATTR_LAST_ENTRY b last ;;
      if e : bool then Done last else
      next <-- XATTR_NEXT_ENTRY b last ;;
      last_entry fuel b next
  end.
(** "2. Remove old entry": the buffer and the new end *)
Definition remove_entry (b : list Z) (here last : Z) : outcome (list Z * Z) :=
  next <-- XATTR_NEXT_ENTRY b here ;;
  oldsize <-- ENTRY_SIZE b here ;;
  l <-- rd b next (last - next) ;;
  b <-- wr b here l ;;
  let last := last - oldsize in
  b <-- wr b last (zeros oldsize) ;;
  Done (b, last).
(** "3. Write new entry" *)
Definition write_entry (b : list Z) (last index : Z) (name value : list Z) : outcome (list Z) :=
  b <-- wr b last [u8 index] ;;
  b <-- wr b (last + 1) [u8 (zlen name)] ;;
  b <-- wr b (last + XENT) name ;;
  b <-- wr b (last + XENT + zlen name) value ;;
  wr b (last + 2) (le_put 2 (zlen value)).
Definition entry_room (i : xinode) (b : list Z) (found : bool) (here last : Z) : outcome Z :=
  let free := MIN_OFFSET i - last in
  if found then s <-- ENTRY_SIZE b here ;; Done (free + s) else Done free.

(** What follows a successful write_all_xattrs *)
Definition setxattr_done (i : xinode) (index : Z) (name : list Z) : xinode :=
  let i := match i_acl_mode i with Some m => i <| i_mode := m |> <| i_acl_mode := None |> | None => i end in
  let i := if (index =? F2FS_XATTR_INDEX_ENCRYPTION) && bool_decide (name = F2FS_XATTR_NAME_ENCRYPTION_CONTEXT)
    then i <| encrypted := true |> else i in
  if S_ISDIR (i_mode i) then i <| need_cp := true |> else i.

(** The new contents of the buffer and [new_hsize], or the result to return *)
Definition update_xattrs (i : xinode) (b : list Z) (index : Z) (name : list Z) (value : option (list Z)) (flags : Z) : outcome (Z + list Z * Z) :=
  let size := match value with Some v => zlen v | None => 0 end in
  here <-- __find_xattr b 0 index name ;;
  last0 <-- IS_XATTR_LAST_ENTRY b here ;;
  let found := negb last0 in
  if found && nz (Z.land flags XATTR_CREATE) then Done (inl (- EEXIST)) else
  same <-- match found, value with true, Some v => f2fs_xattr_value_same b here v | _, _ => Done false end ;;
  if same : bool then Done (inl 0) else
  if negb found && nz (Z.land flags XATTR_REPLACE) then Done (inl (- ENODATA)) else
  last <-- last_entry (S (length b)) b here ;;
  let newsize := XATTR_ALIGN (XENT + zlen name + size) in
  free <-- entry_room i b found here last ;;
  if isSome value && (free <? newsize) then Done (inl (- E2BIG)) else
  r <-- (if found then remove_entry b here last else Done (b, last)) ;;
  let '(b, last) := r in
  match value with
  | None => Done (inr (b, last))
  | Some v => b <-- write_entry b last index name v ;; Done (inr (b, last + newsize))
  end.
Definition __f2fs_setxattr (env : xenv) (fresh : list Z) (i : xinode) (index : Z) (name value : option (list Z)) (flags : Z) : outcome (Z * xinode) :=
  match name with
  | None => Done (- EINVAL, i)
  | Some name =>
      let size := match value with Some v => zlen v | None => 0 end in
      if F2FS_NAME_LEN <? zlen name then Done (- ERANGE, i) else
      if MAX_VALUE_LEN i <? size then Done (- E2BIG, i) else
      r <-- read_all_xattrs env i ;;
      match r with
      | inl error => Done (error, i)
      | inr base =>
          u <-- update_xattrs i base index name value flags ;;
          match u with
          | inl error => Done (error, i)
          | inr (b, new_hsize) =>
              w <-- write_all_xattrs env fresh i new_hsize b ;;
              let '(error, i) := w in
              if nz error then Done (error, i) else Done (0, setxattr_done i index name)
          end
      end
  end.
(** [dquot] is the result of dquot_initialize. *)
Definition f2fs_setxattr (dquot : Z) (env : xenv) (fresh : list Z) (i : xinode) (index : Z) (name value : option (list Z)) (flags : Z) : outcome (Z * xinode) :=
  if nz dquot then Done (dquot, i) else __f2fs_setxattr env fresh i index name value flags.

(** ** listxattr and the handlers *)

(** struct xattr_handler as far as it is used: the prefix or name, and whether
    [list] is NULL or says yes *)
Record xattr_handler := {
  h_prefix : list Z;
  h_list : bool;
}.
(** What the kernel headers and the task give: the prefixes, the two POSIX ACL
    handlers, and the results of test_opt(XATTR_USER) and capable(CAP_SYS_ADMIN) *)
Record xattr_ctx := {
  XATTR_USER_PREFIX : list Z;
  XATTR_TRUSTED_PREFIX : list Z;
  XATTR_SECURITY_PREFIX : list Z;
  posix_acl_access_xattr_handler : xattr_handler;
  posix_acl_default_xattr_handler : xattr_handler;
  opt_xattr_user : bool;
  cap_sys_admin : bool;
  owner_or_capable : bool;
}.
Definition F2FS_SYSTEM_ADVISE_NAME : list Z := [115; 121; 115; 116; 101; 109; 46; 97; 100; 118; 105; 115; 101].
Definition f2fs_xattr_handler_map (c : xattr_ctx) : list (option xattr_handler) :=
  [None;
   Some {| h_prefix := XATTR_USER_PREFIX c; h_list := opt_xattr_user c |};
   Some (posix_acl_access_xattr_handler c);
   Some (posix_acl_default_xattr_handler c);
   Some {| h_prefix := XATTR_TRUSTED_PREFIX c; h_list := cap_sys_admin c |};
   None;
   Some {| h_prefix := XATTR_SECURITY_PREFIX c; h_list := true |};
   Some {| h_prefix := F2FS_SYSTEM_ADVISE_NAME; h_list := true |}].
Definition f2fs_xattr_handler (c : xattr_ctx) (index : Z) : option xattr_handler :=
  if (0 <? index) && (index <? zlen (f2fs_xattr_handler_map c)) then (f2fs_xattr_handler_map c).[index] else None.

(** The loop of f2fs_listxattr: [rest] and what was copied, or the error *)
Fixpoint list_xattrs (fuel : nat) (c : xattr_ctx) (b : list Z) (buffer : bool) (entry rest : Z) (out : list Z) : outcome (Z + Z * list Z) :=
  match fuel with
  | O => NoFuel
  | S fuel =>
      last <-- IS_XATTR_LAST_ENTRY b entry ;;
      if last : bool then Done (inr (rest, out)) else
      index <-- e_name_index b entry ;;
      let continue rest out := next <-- XATTR_NEXT_ENTRY b entry ;; list_xattrs fuel c b buffer next rest out in
      match f2fs_xattr_handler c index with
      | Some h =>
          if h_list h then
            n <-- e_name_len b entry ;;
            let size := zlen (h_prefix h) + n + 1 in
            if buffer then
              if rest <? size then Done (inl (- ERANGE)) else
              name <-- rd b (entry + XENT) n ;;
              continue (u64 (rest - size)) (out ++ h_prefix h ++ name ++ [0])
            else continue (u64 (rest - size)) out
          else continue rest out
      | None => continue rest out
      end
  end.
(** [buffer] tells whether one was given. *)
Definition f2fs_listxattr (c : xattr_ctx) (env : xenv) (i : xinode) (buffer : bool) (buffer_size : Z) : outcome (Z * list Z) :=
  r <-- read_all_xattrs env i ;;
  match r with
  | inl error => Done (error, [])
  | inr b =>
      l <-- list_xattrs (S (length b)) c b buffer (XATTR_FIRST_ENTRY 0) buffer_size [] ;;
      match l with
      | inl error => Done (error, [])
      | inr (rest, out) => Done (s32 (u64 (buffer_size - rest)), out)
      end
  end.

(** The check of f2fs_xattr_generic_get and f2fs_xattr_generic_set; [flags] is
    the index of the handler. *)
Definition generic_check (c : xattr_ctx) (flags : Z) : Z :=
  if flags =? F2FS_XATTR_INDEX_USER then (if opt_xattr_user c then 0 else - EOPNOTSUPP)
  else if flags =? F2FS_XATTR_INDEX_TRUSTED then (if cap_sys_admin c then 0 else - EPERM)
  else if flags =? F2FS_XATTR_INDEX_SECURITY then 0
  else - EINVAL.
Definition f2fs_xattr_generic_get (c : xattr_ctx) (env : xenv) (i : xinode) (flags : Z) (name : option (list Z)) (buffer : option Z) : outcome (Z * option (list Z)) :=
  if nz (generic_check c flags) then Done (generic_check c flags, None) else f2fs_getxattr env i flags name buffer.
Definition f2fs_xattr_generic_set (c : xattr_ctx) (dquot : Z) (env : xenv) (fresh : list Z) (i : xinode) (flags : Z) (name value : option (list Z)) (sflags : Z) : outcome (Z * xinode) :=
  if nz (generic_check c flags) then Done (generic_check c flags, i) else f2fs_setxattr dquot env fresh i flags name value sflags.
Definition f2fs_xattr_advise_get (i : xinode) (buffer : bool) : Z * option Z := (1, if buffer then Some (i_advise i) else None).
Definition f2fs_xattr_advise_set (c : xattr_ctx) (i : xinode) (value : option (list Z)) : Z * xinode :=
  if negb (owner_or_capable c) then (- EPERM, i) else
  match value with
  | None => (- EINVAL, i)
  | Some v => (0, i <| i_advise := u8 (Z.lor (i_advise i) v.[0]) |>)
  end.
(** f2fs_initxattrs: the security attributes of a new inode, in order *)
Fixpoint f2fs_initxattrs (dquot : Z) (env : xenv) (fresh : list Z) (i : xinode) (xs : list (list Z * option (list Z))) : outcome (Z * xinode) :=
  match xs with
  | [] => Done (0, i)
  | (name, value) :: xs =>
      r <-- f2fs_setxattr dquot env fresh i F2FS_XATTR_INDEX_SECURITY (Some name) value 0 ;;
      let '(err, i) := r in
      if err <? 0 then Done (err, i) else f2fs_initxattrs dquot env fresh i xs
  end.
End xattr.
