(* ===== verification/XattrProps.v ===== *)
(** * Extended attributes: the entry list and what the operations do to it

    [area] is the byte image of a list of attributes.  Searching, removing and
    appending on the bytes are described on the list; the inode's two areas hold
    such an image ([holds]). *)
From stdpp Require Import gmap.
From S2P Require Import Prelude Bytes Xattr.
Open Scope Z_scope.

Class XattrFormatOk `{XattrFormat} : Prop := {
  block_size : 28 <= VALID_XATTR_BLOCK_SIZE <= 32768;
  block_align : VALID_XATTR_BLOCK_SIZE mod 4 = 0;
  name_len : 0 <= F2FS_NAME_LEN < 256;
}.
Definition linux_xattr : XattrFormat := {|
  PAGE_SIZE := 4096; sizeof_node_footer := 24; F2FS_NAME_LEN := 255; XATTR_CREATE := 1; XATTR_REPLACE := 2;
  S_ISDIR m := Z.land m 61440 =? 16384;
|}.
Lemma linux_xattr_ok : @XattrFormatOk linux_xattr.
Proof. by split. Qed.

(** ** The image of a list of attributes *)

Record xent := { x_index : Z; x_name : list Z; x_value : list Z }.
Definition x_size (x : xent) : Z := XATTR_ALIGN (XENT + zlen (x_name x) + zlen (x_value x)).
Definition enc (x : xent) : list Z :=
  [x_index x] ++ [zlen (x_name x)] ++ le_put 2 (zlen (x_value x)) ++ x_name x ++ x_value x ++
  zeros (x_size x - (XENT + zlen (x_name x) + zlen (x_value x))).
Fixpoint encs (es : list xent) : list Z := match es with [] => [] | x :: es => enc x ++ encs es end.
Fixpoint x_sizes (es : list xent) : Z := match es with [] => 0 | x :: es => x_size x + x_sizes es end.
Definition xent_ok (x : xent) : Prop := 0 < x_index x < 256 /\ zlen (x_name x) < 256 /\ zlen (x_value x) < 65536.
Definition area (hdr : list Z) (es : list xent) (room : Z) : list Z := hdr ++ encs es ++ zeros room.
Definition x_key (x : xent) : Z * list Z := (x_index x, x_name x).

Lemma align_spec n : XATTR_ALIGN n = 4 * ((n + 3) / 4).
Proof.
  unfold XATTR_ALIGN. change 3 with (Z.ones 2) at 2. rewrite <- Z.ldiff_land, Z.ldiff_ones_r by lia.
  rewrite Z.shiftl_mul_pow2, Z.shiftr_div_pow2 by lia. change (2 ^ 2) with 4. lia.
Qed.
Lemma align_bounds n : n <= XATTR_ALIGN n < n + 4.
Proof. rewrite align_spec. dlia. Qed.
Lemma align_id n : n mod 4 = 0 -> XATTR_ALIGN n = n.
Proof. rewrite align_spec. intros. dlia. Qed.
Lemma x_size_pos x : 4 <= x_size x.
Proof. unfold x_size. pose proof (align_bounds (XENT + zlen (x_name x) + zlen (x_value x))). pose proof (zlen_nonneg (x_name x)). pose proof (zlen_nonneg (x_value x)). unfold XENT in *. lia. Qed.
Lemma x_sizes_nonneg es : 4 * zlen es <= x_sizes es.
Proof. induction es as [|x es IH]; [done|]. cbn [x_sizes]. rewrite zlen_cons. pose proof (x_size_pos x). lia. Qed.
Lemma x_sizes_app es es' : x_sizes (es ++ es') = x_sizes es + x_sizes es'.
Proof. induction es as [|x es IH]; [done|]. cbn. rewrite IH. lia. Qed.
Lemma encs_app es es' : encs (es ++ es') = encs es ++ encs es'.
Proof. induction es as [|x es IH]; [done|]. cbn. by rewrite IH, app_assoc. Qed.
Lemma zlen_enc x : zlen (enc x) = x_size x.
Proof.
  unfold enc. rewrite !zlen_app, zlen_le_put, zlen_zeros; [change (zlen [_]) with 1; unfold XENT; lia|].
  unfold x_size. pose proof (align_bounds (XENT + zlen (x_name x) + zlen (x_value x))). lia.
Qed.
Lemma zlen_encs es : zlen (encs es) = x_sizes es.
Proof. induction es as [|x es IH]; [done|]. cbn [encs x_sizes]. by rewrite zlen_app, zlen_enc, IH. Qed.

(** ** Reading an entry of an image *)

Lemma zlen_one {A} (x : A) : zlen [x] = 1.
Proof. done. Qed.
Lemma zlen_nil {A} : zlen (@nil A) = 0.
Proof. done. Qed.
Ltac zl := rewrite ?zlen_app, ?zlen_le_put, ?zlen_one, ?zlen_nil; unfold XENT; lia.

Section entry.
Context (pre post : list Z) (x : xent) (Hx : xent_ok x).
#[local] Abbreviation b := (pre ++ enc x ++ post).
#[local] Abbreviation e := (zlen pre).

Lemma rd_field p l q o : enc x = p ++ l ++ q -> o = zlen pre + zlen p -> rd b o (zlen l) = Done l.
Proof.
  intros Hq ->. rewrite Hq, (app_assoc pre). assert (forall s, pre ++ (p ++ l ++ q) ++ s = (pre ++ p) ++ l ++ (q ++ s)) as Ha
    by (intros; by rewrite <- !app_assoc).
  rewrite <- app_assoc, Ha. apply rd_app; [by rewrite zlen_app|done].
Qed.
Lemma read_index : e_name_index b e = Done (x_index x).
Proof.
  unfold e_name_index, rd8. pose proof (rd_field [] [x_index x] _ e eq_refl ltac:(zl)) as Hr.
  change (zlen [x_index x]) with 1 in Hr. rewrite Hr. cbn. f_equal. lia.
Qed.
Lemma read_name_len : e_name_len b e = Done (zlen (x_name x)).
Proof.
  unfold e_name_len, rd8. pose proof (rd_field [x_index x] [zlen (x_name x)] _ (e + 1) eq_refl ltac:(zl)) as Hr.
  change (zlen [zlen (x_name x)]) with 1 in Hr. rewrite Hr. cbn. f_equal. lia.
Qed.
Lemma read_value_size : e_value_size b e = Done (zlen (x_value x)).
Proof.
  unfold e_value_size, rd16.
  pose proof (rd_field ([x_index x] ++ [zlen (x_name x)]) (le_put 2 (zlen (x_value x))) _ (e + 2) eq_refl ltac:(zl)) as Hr.
  rewrite zlen_le_put in Hr. change (Z.of_nat 2) with 2 in Hr. rewrite Hr. cbn [obind]. f_equal. apply le_get_put_id.
  pose proof (zlen_nonneg (x_value x)). destruct Hx as (_ & _ & ?). cbn. lia.
Qed.
Lemma read_size : ENTRY_SIZE b e = Done (x_size x).
Proof. unfold ENTRY_SIZE. by rewrite read_name_len, read_value_size. Qed.
Lemma read_next : XATTR_NEXT_ENTRY b e = Done (zlen (pre ++ enc x)).
Proof. unfold XATTR_NEXT_ENTRY. rewrite read_size. cbn [obind]. by rewrite zlen_app, zlen_enc. Qed.
Lemma read_not_last : IS_XATTR_LAST_ENTRY b e = Done false.
Proof.
  unfold IS_XATTR_LAST_ENTRY, rd32.
  pose proof (rd_field [] ([x_index x] ++ [zlen (x_name x)] ++ le_put 2 (zlen (x_value x))) _ e eq_refl ltac:(zl)) as Hr.
  assert (zlen ([x_index x] ++ [zlen (x_name x)] ++ le_put 2 (zlen (x_value x))) = 4) as Hz by zl.
  rewrite Hz in Hr. rewrite Hr. cbn [obind]. f_equal. apply Z.eqb_neq.
  assert (0 <= le_get (le_put 2 (zlen (x_value x)))) by (rewrite le_get_put; apply Z.mod_pos_bound; lia).
  cbn [le_get app]. pose proof (zlen_nonneg (x_name x)). destruct Hx as (? & _). lia.
Qed.
Lemma read_name : rd b (e + XENT) (zlen (x_name x)) = Done (x_name x).
Proof.
  apply (rd_field ([x_index x] ++ [zlen (x_name x)] ++ le_put 2 (zlen (x_value x))) (x_name x)
    (x_value x ++ zeros (x_size x - (XENT + zlen (x_name x) + zlen (x_value x))))); [done|].
  zl.
Qed.
Lemma read_value : rd b (e + XENT + zlen (x_name x)) (zlen (x_value x)) = Done (x_value x).
Proof.
  apply (rd_field ([x_index x] ++ [zlen (x_name x)] ++ le_put 2 (zlen (x_value x)) ++ x_name x) (x_value x)
    (zeros (x_size x - (XENT + zlen (x_name x) + zlen (x_value x))))).
  - unfold enc. by rewrite <- !app_assoc.
  - zl.
Qed.
Lemma read_match index name : is_xattr b e index name = Done (bool_decide (x_key x = (index, name))).
Proof.
  unfold is_xattr. rewrite read_index. cbn [obind]. destruct (Z.eqb_spec (x_index x) index) as [<-|Hne]; cbn [negb];
    [|f_equal; symmetry; apply bool_decide_eq_false; unfold x_key; congruence].
  rewrite read_name_len. cbn [obind]. destruct (Z.eqb_spec (zlen (x_name x)) (zlen name)) as [E|Hne]; cbn [negb];
    [|f_equal; symmetry; apply bool_decide_eq_false; unfold x_key; congruence].
  rewrite <- E, read_name. cbn [obind]. f_equal. apply bool_decide_ext. unfold x_key. split; [by intros ->|by intros [=]].
Qed.
End entry.

Lemma read_end pre room : 4 <= room -> IS_XATTR_LAST_ENTRY (pre ++ zeros room) (zlen pre) = Done true.
Proof.
  intros Hr. unfold IS_XATTR_LAST_ENTRY, rd32. rewrite (zeros_split 4) by lia.
  rewrite (rd_app pre (zeros 4)) by done. done.
Qed.

(** ** Searching an image *)

(** The entries before the first one with a key, and from it on *)
Fixpoint before (k : Z * list Z) (es : list xent) : list xent :=
  match es with [] => [] | x :: es => if bool_decide (x_key x = k) then [] else x :: before k es end.
Fixpoint from (k : Z * list Z) (es : list xent) : list xent :=
  match es with [] => [] | x :: es' => if bool_decide (x_key x = k) then es else from k es' end.
Lemma before_from k es : before k es ++ from k es = es.
Proof. induction es as [|x es IH]; [done|]. cbn. case_bool_decide; [done|]. cbn. by rewrite IH. Qed.
Lemma from_head k es x es' : from k es = x :: es' -> x_key x = k.
Proof. induction es as [|y es IH]; [done|]. cbn. case_bool_decide; [intros [= <- <-]; done|done]. Qed.
Lemma from_suffix k es es1 : x_sizes (before k (es1 ++ es)) = x_sizes es1 + x_sizes (before k es) \/ from k es1 <> [].
Proof.
  induction es1 as [|x es1 IH]; [by left|]. cbn. case_bool_decide; [by right|]. destruct IH as [IH|IH]; [left|by right]. cbn. lia.
Qed.

Lemma find_from_list index name es : Forall xent_ok es -> forall pre room fuel, 4 <= room -> (length es < fuel)%nat ->
  find_xattr_from fuel (pre ++ encs es ++ zeros room) (zlen pre) index name = Done (zlen pre + x_sizes (before (index, name) es)).
Proof.
  induction 1 as [|x es Hx Hes IH]; intros pre room [|fuel] Hr Hf; try (cbn in Hf; lia).
  - cbn [encs before x_sizes find_xattr_from app]. rewrite read_end by done. cbn. f_equal. lia.
  - cbn [encs find_xattr_from before]. rewrite <- app_assoc, read_not_last, read_match, read_next by done. cbn [obind].
    destruct (bool_decide _); [cbn; f_equal; lia|].
    rewrite (app_assoc pre), IH by (cbn in Hf; lia). rewrite zlen_app, zlen_enc. cbn [x_sizes]. f_equal. lia.
Qed.
Lemma last_entry_list es : Forall xent_ok es -> forall pre room fuel, 4 <= room -> (length es < fuel)%nat ->
  last_entry fuel (pre ++ encs es ++ zeros room) (zlen pre) = Done (zlen pre + x_sizes es).
Proof.
  induction 1 as [|x es Hx Hes IH]; intros pre room [|fuel] Hr Hf; try (cbn in Hf; lia).
  - cbn [encs x_sizes last_entry app]. rewrite read_end by done. cbn. f_equal. lia.
  - cbn [encs last_entry]. rewrite <- app_assoc, read_not_last, read_next by done. cbn [obind].
    rewrite (app_assoc pre), IH by (cbn in Hf; lia). rewrite zlen_app, zlen_enc. cbn [x_sizes]. f_equal. lia.
Qed.

Section image.
Context (hdr : list Z) (es : list xent) (room : Z).
Context (Hhdr : zlen hdr = XHDR) (Hes : Forall xent_ok es) (Hroom : 4 <= room).
#[local] Abbreviation b := (area hdr es room).
Lemma zlen_area : zlen b = XHDR + x_sizes es + room.
Proof. unfold area. rewrite !zlen_app, zlen_encs, zlen_zeros by lia. lia. Qed.
Lemma entries_fit : (length es < S (length b))%nat.
Proof. pose proof zlen_area. pose proof (x_sizes_nonneg es). unfold XHDR, zlen in *. lia. Qed.
Lemma find_area index name : __find_xattr b 0 index name = Done (XHDR + x_sizes (before (index, name) es)).
Proof.
  unfold __find_xattr, XATTR_FIRST_ENTRY. pose proof entries_fit as Hl. unfold area in *.
  rewrite Z.add_0_l, <- Hhdr. by apply find_from_list.
Qed.
Lemma area_at es1 es2 : es = es1 ++ es2 -> b = (hdr ++ encs es1) ++ encs es2 ++ zeros room.
Proof. intros E. unfold area. by rewrite E, encs_app, <- !app_assoc. Qed.
Lemma zlen_pre es1 : zlen (hdr ++ encs es1) = XHDR + x_sizes es1.
Proof. by rewrite zlen_app, zlen_encs, Hhdr. Qed.
Lemma area_end : IS_XATTR_LAST_ENTRY b (XHDR + x_sizes es) = Done true.
Proof. rewrite (area_at es []) by (by rewrite app_nil_r). rewrite <- zlen_pre. by apply read_end. Qed.
Lemma area_last es1 es2 : es = es1 ++ es2 -> last_entry (S (length b)) b (XHDR + x_sizes es1) = Done (XHDR + x_sizes es).
Proof.
  intros E. pose proof entries_fit as Hl. rewrite (area_at es1 es2 E) in *. rewrite E, x_sizes_app, <- zlen_pre.
  rewrite last_entry_list; [f_equal; rewrite zlen_pre; lia|..]; try done.
  - rewrite E in Hes. by apply Forall_app in Hes as [_ ?].
  - rewrite E, length_app in Hl. lia.
Qed.
End image.

(** ** Removing and appending an entry *)

Lemma wr_move (pre a b post : list Z) : exists c,
  wr (pre ++ a ++ b ++ post) (zlen pre) b = Done c /\
  wr c (zlen pre + zlen b) (zeros (zlen a)) = Done (pre ++ b ++ zeros (zlen a) ++ post).
Proof.
  set (ab := a ++ b). set (n := length b).
  assert (length (take n ab) = length b) as Ht by (unfold ab, n; rewrite length_take, length_app; lia).
  assert (length (drop n ab) = length a) as Hd by (unfold ab, n; rewrite length_drop, length_app; lia).
  exists (pre ++ b ++ drop n ab ++ post). split.
  - rewrite (app_assoc a). fold ab. rewrite <- (take_drop n ab) at 1. rewrite <- app_assoc.
    apply wr_app; [done|]. unfold zlen. by rewrite Ht.
  - rewrite (app_assoc pre b), wr_app; [by rewrite <- app_assoc|by rewrite zlen_app|].
    rewrite zlen_zeros by apply zlen_nonneg. unfold zlen. by rewrite Hd.
Qed.
Lemma wr_in (pre q l post src : list Z) o : o = zlen pre + zlen q -> zlen src = zlen l ->
  wr (pre ++ q ++ l ++ post) o src = Done (pre ++ q ++ src ++ post).
Proof. intros -> Hl. rewrite (app_assoc pre), wr_app by (rewrite ?zlen_app; done). by rewrite <- app_assoc. Qed.

Lemma remove_area hdr es1 x es2 room : zlen hdr = XHDR -> xent_ok x -> 0 <= room ->
  remove_entry (area hdr (es1 ++ x :: es2) room) (XHDR + x_sizes es1) (XHDR + x_sizes (es1 ++ x :: es2)) =
  Done (area hdr (es1 ++ es2) (room + x_size x), XHDR + x_sizes (es1 ++ es2)).
Proof.
  intros Hh Hx Hr. pose proof (x_size_pos x). pose proof (zlen_nonneg (encs es2)).
  rewrite (area_at hdr _ room es1 (x :: es2) eq_refl). set (P := hdr ++ encs es1).
  assert (zlen P = XHDR + x_sizes es1) as HP by (unfold P; by rewrite zlen_app, zlen_encs, Hh). rewrite <- HP.
  cbn [encs]. rewrite <- app_assoc. unfold remove_entry. rewrite read_next, read_size by done. cbn [obind].
  rewrite (app_assoc P (enc x)), rd_app; [|done|rewrite !x_sizes_app, zlen_app, zlen_enc, HP, zlen_encs; cbn; lia].
  cbn [obind]. rewrite <- app_assoc. destruct (wr_move P (enc x) (encs es2) (zeros room)) as (c & -> & Hc). cbn [obind].
  rewrite zlen_enc in Hc.
  replace (XHDR + x_sizes (es1 ++ x :: es2) - x_size x) with (zlen P + zlen (encs es2))
    by (rewrite HP, zlen_encs, x_sizes_app; cbn; lia).
  rewrite Hc. cbn [obind]. rewrite zeros_app by lia. f_equal. f_equal.
  - unfold area, P. rewrite encs_app, <- !app_assoc. do 4 f_equal. lia.
  - rewrite HP, zlen_encs, x_sizes_app. lia.
Qed.
Lemma write_area hdr es x room : zlen hdr = XHDR -> xent_ok x -> x_size x <= room ->
  write_entry (area hdr es room) (XHDR + x_sizes es) (x_index x) (x_name x) (x_value x) =
  Done (area hdr (es ++ [x]) (room - x_size x)).
Proof.
  intros Hh (Hi & Hn & Hv) Hr. pose proof (zlen_nonneg (x_name x)) as Hn0. pose proof (zlen_nonneg (x_value x)) as Hv0.
  pose proof (align_bounds (XENT + zlen (x_name x) + zlen (x_value x))) as Ha. fold (x_size x) in Ha.
  set (pad := x_size x - (XENT + zlen (x_name x) + zlen (x_value x))) in *. unfold XENT in *.
  unfold area. rewrite app_assoc, encs_app. set (P := hdr ++ encs es).
  assert (XHDR + x_sizes es = zlen P) as -> by (unfold P; by rewrite zlen_app, zlen_encs, Hh).
  assert (zeros room = zeros 1 ++ zeros 1 ++ zeros 2 ++ zeros (zlen (x_name x)) ++ zeros (zlen (x_value x)) ++ zeros pad ++ zeros (room - x_size x)) as ->
    by (rewrite !zeros_app by lia; f_equal; lia).
  unfold write_entry, XENT. rewrite u8_id, u8_id by lia.
  rewrite wr_app by done. cbn [obind].
  rewrite (wr_in P [x_index x]) by done. cbn [obind].
  assert (forall q r s t : list Z, P ++ q ++ r ++ s ++ t = P ++ (q ++ r ++ s) ++ t) as A3 by (intros; by rewrite <- !app_assoc).
  rewrite A3, wr_in; [|done|by rewrite zlen_zeros]. cbn [obind]. rewrite (app_assoc _ (x_name x)).
  rewrite wr_in; [|rewrite zlen_app; change (zlen (_ ++ _ ++ zeros 2)) with 4; lia|by rewrite zlen_zeros]. cbn [obind].
  rewrite <- !app_assoc, (app_assoc [x_index x]), wr_in by done. f_equal. unfold P. cbn [encs]. rewrite app_nil_r.
  unfold enc. fold pad. unfold XENT. by rewrite <- !app_assoc.
Qed.

(** ** The list an update makes *)

Definition remove (k : Z * list Z) (es : list xent) : list xent := before k es ++ tail (from k es).
Definition x_new (index : Z) (name value : list Z) : xent := {| x_index := index; x_name := name; x_value := value |}.

(** The size of the entry with a key (0 when there is none) and of a new one *)
Definition old_size (k : Z * list Z) (es : list xent) : Z := match from k es with x :: _ => x_size x | [] => 0 end.
Lemma remove_sizes k es : x_sizes (remove k es) = x_sizes es - old_size k es.
Proof.
  unfold remove, old_size. assert (x_sizes es = x_sizes (before k es) + x_sizes (from k es)) as -> by (by rewrite <- x_sizes_app, before_from).
  rewrite x_sizes_app. destruct (from k es) as [|y l]; cbn; lia.
Qed.
Lemma remove_ok k es : Forall xent_ok es -> Forall xent_ok (remove k es).
Proof.
  intros Hes. unfold remove. rewrite <- (before_from k es) in Hes. apply Forall_app in Hes as [? Ht].
  apply Forall_app. split; [done|]. destruct (from k es); [done|]. by inversion Ht.
Qed.

Section update.
Context `{XattrFormatOk}.

(** What __f2fs_setxattr does to the list: a result to return at once, or the new list *)
Definition update_list (i : xinode) (es : list xent) (index : Z) (name : list Z) (value : option (list Z)) (flags : Z) : Z + list xent :=
  let k := (index, name) in
  match from k es, value with
  | x :: _, Some v =>
      if nz (Z.land flags XATTR_CREATE) then inl (- EEXIST)
      else if bool_decide (v = x_value x) then inl 0
      else if MIN_OFFSET i <? XHDR + x_sizes (remove k es) + x_size (x_new index name v) then inl (- E2BIG)
      else inr (remove k es ++ [x_new index name v])
  | x :: _, None => if nz (Z.land flags XATTR_CREATE) then inl (- EEXIST) else inr (remove k es)
  | [], _ =>
      if nz (Z.land flags XATTR_REPLACE) then inl (- ENODATA) else
      match value with
      | Some v => if MIN_OFFSET i <? XHDR + x_sizes es + x_size (x_new index name v) then inl (- E2BIG) else inr (es ++ [x_new index name v])
      | None => inr es
      end
  end.
Definition image (i : xinode) (hdr : list Z) (es : list xent) : list Z :=
  area hdr es (MIN_OFFSET i + XATTR_PADDING_SIZE - (XHDR + x_sizes es)).
Definition fits (i : xinode) (es : list xent) : Prop := Forall xent_ok es /\ XHDR + x_sizes es <= MIN_OFFSET i.

Lemma update_new i hdr es index name value flags : zlen hdr = XHDR -> fits i es -> 0 < index < 256 -> zlen name < 256 -> 
  zlen (default [] value) < 65536 -> from (index, name) es = [] ->
  update_xattrs i (image i hdr es) index name value flags =
  Done (match update_list i es index name value flags with inl r => inl r | inr es' => inr (image i hdr es', XHDR + x_sizes es') end).
Proof.
  intros Hh [Hes Hfit] Hi Hn Hv Hf. unfold update_xattrs, update_list. rewrite Hf.
  assert (before (index, name) es = es) as Hb by (pose proof (before_from (index, name) es) as E; by rewrite Hf, app_nil_r in E).
  assert (4 <= MIN_OFFSET i + XATTR_PADDING_SIZE - (XHDR + x_sizes es)) by (unfold XATTR_PADDING_SIZE; lia).
  unfold image at 1. rewrite find_area by done. cbn [obind]. rewrite Hb. unfold image at 1. rewrite area_end by done. cbn [obind negb andb].
  destruct (nz (Z.land flags XATTR_REPLACE)); [done|].
  unfold image at 1 2. rewrite (area_last _ _ _ Hh Hes ltac:(done) es []) by (by rewrite app_nil_r). cbn [obind entry_room].
  destruct value as [v|]; cbn [isSome andb obind default] in *; [|done].
  assert (XATTR_ALIGN (XENT + zlen name + zlen v) = x_size (x_new index name v)) as -> by done.
  replace (MIN_OFFSET i - (XHDR + x_sizes es) <? _) with (MIN_OFFSET i <? XHDR + x_sizes es + x_size (x_new index name v)) by lia.
  destruct (_ <? _) eqn:Hfree; [done|]. unfold image at 1.
  rewrite (write_area hdr es (x_new index name v)) by (try done; unfold XATTR_PADDING_SIZE; lia). cbn [obind].
  unfold image. rewrite x_sizes_app. cbn [x_sizes]. do 3 f_equal; [f_equal; lia|lia].
Qed.
Lemma update_old i hdr es index name value flags x l : zlen hdr = XHDR -> fits i es -> 0 < index < 256 -> zlen name < 256 -> 
  zlen (default [] value) < 65536 -> from (index, name) es = x :: l ->
  update_xattrs i (image i hdr es) index name value flags =
  Done (match update_list i es index name value flags with inl r => inl r | inr es' => inr (image i hdr es', XHDR + x_sizes es') end).
Proof.
  intros Hh [Hes Hfit] Hi Hn Hv Hf. unfold update_xattrs, update_list. rewrite Hf. set (k := (index, name)) in *.
  set (es1 := before k es) in *. set (room := MIN_OFFSET i + XATTR_PADDING_SIZE - (XHDR + x_sizes es)).
  assert (es = es1 ++ x :: l) as E by (pose proof (before_from k es) as E; rewrite Hf in E; by symmetry).
  assert (remove k es = es1 ++ l) as Erm by (unfold remove; by rewrite Hf).
  assert (xent_ok x) as Hx by (rewrite E in Hes; apply Forall_app in Hes as [_ Ht]; by inversion Ht).
  assert (4 <= room) by (unfold room, XATTR_PADDING_SIZE; lia). pose proof (x_size_pos x).
  assert (image i hdr es = (hdr ++ encs es1) ++ enc x ++ encs l ++ zeros room) as Him
    by (unfold image; fold room; rewrite (area_at _ _ _ _ _ E); cbn [encs]; by rewrite <- !app_assoc).
  assert (XHDR + x_sizes es1 = zlen (hdr ++ encs es1)) as Hpos by (by rewrite zlen_app, zlen_encs, Hh).
  unfold image at 1. fold room. rewrite find_area by done. fold k. fold es1. cbn [obind].
  rewrite Hpos, Him, read_not_last by done. cbn [obind negb andb].
  destruct (nz (Z.land flags XATTR_CREATE)); [by destruct value|].
  assert (forall v, f2fs_xattr_value_same ((hdr ++ encs es1) ++ enc x ++ encs l ++ zeros room) (zlen (hdr ++ encs es1)) v = Done (bool_decide (v = x_value x))) as Hsame.
  { intros v. unfold f2fs_xattr_value_same. rewrite read_value_size by done. cbn [obind].
    destruct (Z.eqb_spec (zlen (x_value x)) (zlen v)) as [El|Hne]; cbn [negb]; [|f_equal; symmetry; apply bool_decide_eq_false; congruence].
    rewrite read_name_len by done. cbn [obind]. rewrite <- El, read_value. cbn [obind]. f_equal. apply bool_decide_ext. done. }
  assert (last_entry (S (length (image i hdr es))) (image i hdr es) (XHDR + x_sizes es1) = Done (XHDR + x_sizes es)) as Hlast
    by (unfold image; fold room; by eapply area_last).
  rewrite Hpos, Him in Hlast.
  assert (remove_entry ((hdr ++ encs es1) ++ enc x ++ encs l ++ zeros room) (zlen (hdr ++ encs es1)) (XHDR + x_sizes es) =
    Done (image i hdr (remove k es), XHDR + x_sizes (remove k es))) as Hrm.
  { rewrite <- Him, <- Hpos. unfold image. fold room. rewrite E at 1 2. rewrite remove_area by (done || lia). rewrite Erm. do 2 f_equal.
    f_equal. unfold room. rewrite E, !x_sizes_app. cbn. lia. }
  destruct value as [v|]; cbn [isSome andb default] in *.
  - rewrite Hsame. cbn [obind]. destruct (bool_decide _); [done|]. rewrite Hlast. cbn [obind entry_room]. rewrite read_size by done. cbn [obind].
    assert (XATTR_ALIGN (XENT + zlen name + zlen v) = x_size (x_new index name v)) as -> by done.
    replace (MIN_OFFSET i - (XHDR + x_sizes es) + x_size x <? _) with (MIN_OFFSET i <? XHDR + x_sizes (remove k es) + x_size (x_new index name v))
      by (rewrite remove_sizes; unfold old_size; rewrite Hf; lia).
    destruct (_ <? _) eqn:Hfree; [done|]. rewrite Hrm. cbn [obind]. unfold image at 1.
    rewrite (write_area hdr _ (x_new index name v)) by (try done; unfold XATTR_PADDING_SIZE; lia). cbn [obind].
    unfold image. rewrite x_sizes_app. cbn [x_sizes]. do 3 f_equal; [f_equal; lia|lia].
  - cbn [obind]. rewrite Hlast. cbn [obind entry_room]. rewrite read_size by done. cbn [obind]. by rewrite Hrm.
Qed.
(** The update of the buffer is the update of the list. *)
Lemma update_xattrs_list i hdr es index name value flags : zlen hdr = XHDR -> fits i es -> 0 < index < 256 -> zlen name < 256 -> 
  zlen (default [] value) < 65536 ->
  update_xattrs i (image i hdr es) index name value flags =
  Done (match update_list i es index name value flags with inl r => inl r | inr es' => inr (image i hdr es', XHDR + x_sizes es') end).
Proof.
  intros. destruct (from (index, name) es) eqn:Hf; [by apply update_new|by eapply update_old].
Qed.
Lemma update_list_fits i es index name value flags es' : fits i es -> 0 < index < 256 -> zlen name < 256 -> zlen (default [] value) < 65536 ->
  update_list i es index name value flags = inr es' -> fits i es'.
Proof.
  intros [Hes Hfit] Hi Hn Hv. unfold update_list.
  assert (forall es v, fits i es -> zlen v < 65536 -> (MIN_OFFSET i <? XHDR + x_sizes es + x_size (x_new index name v)) = false ->
    fits i (es ++ [x_new index name v])) as Hadd.
  { intros es0 v [? ?] ? ?. split; [apply Forall_app; split; [done|by constructor]|rewrite x_sizes_app; cbn; lia]. }
  assert (fits i (remove (index, name) es)) as Hrm.
  { split; [by apply remove_ok|]. rewrite remove_sizes. unfold old_size. destruct (from _ _) as [|y ?]; [lia|]. pose proof (x_size_pos y). lia. }
  destruct (from (index, name) es) eqn:Hf, value as [v|]; cbn [default] in Hv;
    repeat (match goal with |- (if ?c then _ else _) = _ -> _ => destruct c eqn:? end; [done|]); intros [= <-]; first [by apply Hadd|exact Hrm|by split].
Qed.

(** ** The two areas of an inode *)

Record xinode_wf (i : xinode) : Prop := {
  xw_inline : inline_xattr_size i = 0 \/ 28 <= inline_xattr_size i;
  xw_size : inline_xattr_size i + VALID_XATTR_BLOCK_SIZE < 65536;
  xw_addr : zlen (inline_addr i) = inline_xattr_size i;
  xw_page : i_xattr_nid i <> 0 -> zlen (xpage i) = VALID_XATTR_BLOCK_SIZE;
}.
Definition both_areas (i : xinode) : list Z :=
  inline_addr i ++ (if nz (i_xattr_nid i) then xpage i else zeros VALID_XATTR_BLOCK_SIZE) ++ zeros XATTR_PADDING_SIZE.
(** The areas hold the attributes [es]; without a node block they all are inline. *)
Record holds (i : xinode) (es : list xent) : Prop := {
  h_wf : xinode_wf i;
  h_fits : fits i es;
  h_image : exists hdr, zlen hdr = XHDR /\ both_areas i = image i hdr es;
  h_inline : i_xattr_nid i = 0 -> es = [] \/ XHDR + x_sizes es <= inline_xattr_size i;
}.
Lemma min_offset i : MIN_OFFSET i = inline_xattr_size i + VALID_XATTR_BLOCK_SIZE.
Proof. unfold MIN_OFFSET. apply align_id. unfold inline_xattr_size. pose proof block_align. rewrite Z.add_comm, Z_mod_plus_full. done. Qed.
Lemma inline_nonneg i : xinode_wf i -> 0 <= inline_xattr_size i.
Proof. intros W. destruct (xw_inline _ W); lia. Qed.
Lemma zlen_areas i : xinode_wf i -> zlen (both_areas i) = MIN_OFFSET i + XATTR_PADDING_SIZE.
Proof.
  intros W. pose proof block_size. unfold both_areas. rewrite !zlen_app, (xw_addr _ W), min_offset, (zlen_zeros XATTR_PADDING_SIZE) by done.
  destruct (nz (i_xattr_nid i)) eqn:E; [|rewrite zlen_zeros; lia]. unfold nz in E. rewrite (xw_page _ W) by lia. lia.
Qed.
Lemma slice_app_l {A} (l l' : list A) n : n = zlen l -> slice (l ++ l') 0 n = l.
Proof. intros ->. unfold slice, zlen. cbn. rewrite drop_0. apply take_app_length'. lia. Qed.
(** ** Reading the whole list *)

Definition read_fails (env : xenv) : list Z := [- ENOMEM; e_read_inode env; e_read_xattr env].
(** Errors are negative. *)
Definition env_ok (env : xenv) : Prop := e_read_inode env <= 0 /\ e_read_xattr env <= 0 /\ e_write_inode env <= 0 /\ e_trunc_xattr env <= 0 /\
  e_write_xattr env <= 0 /\ e_new_page env <= 0 /\ e_alloc_nid env <> Some 0.
Definition env_quiet (env : xenv) : Prop := e_nomem env = false /\ e_read_inode env = 0 /\ e_read_xattr env = 0 /\ e_write_inode env = 0 /\
  e_trunc_xattr env = 0 /\ e_write_xattr env = 0 /\ e_new_page env = 0 /\ (exists nid, e_alloc_nid env = Some nid).

Lemma read_inline_spec env i m : xinode_wf i -> inline_xattr_size i <> 0 -> 0 <= m ->
  read_inline_xattr env i (zeros (inline_xattr_size i + m)) =
  Done (if negb (e_ipage env) && nz (e_read_inode env) then (e_read_inode env, zeros (inline_xattr_size i + m)) else (0, inline_addr i ++ zeros m)).
Proof.
  intros W Hi Hm. pose proof (inline_nonneg _ W). unfold read_inline_xattr, nz. destruct (negb (e_ipage env) && _); [done|].
  rewrite rd_whole by (by rewrite (xw_addr _ W)). cbn [obind]. rewrite <- zeros_app by lia.
  pose proof (wr_app [] (zeros (inline_xattr_size i)) (zeros m) 0 (inline_addr i) eq_refl) as Hw. cbn [app] in Hw.
  rewrite Hw by (rewrite zlen_zeros by lia; apply (xw_addr _ W)). done.
Qed.
Lemma read_block_spec env i a m : xinode_wf i -> i_xattr_nid i <> 0 -> zlen a = inline_xattr_size i -> 0 <= m ->
  read_xattr_block env i (a ++ zeros (VALID_XATTR_BLOCK_SIZE + m)) =
  Done (if nz (e_read_xattr env) then (e_read_xattr env, a ++ zeros (VALID_XATTR_BLOCK_SIZE + m)) else (0, a ++ xpage i ++ zeros m)).
Proof.
  intros W Hx Ha Hm. pose proof block_size. unfold read_xattr_block, nz. destruct (negb _) eqn:E; [done|].
  rewrite rd_whole by (by rewrite (xw_page _ W)). cbn [obind]. rewrite <- zeros_app by lia. rewrite <- Ha.
  rewrite wr_app; [done|done|]. rewrite zlen_zeros by lia. by apply (xw_page _ W).
Qed.
Lemma init_header_image i hdr es : zlen hdr = XHDR -> exists hdr', zlen hdr' = XHDR /\ init_header (image i hdr es) = Done (image i hdr' es).
Proof.
  intros Hh. unfold init_header, image, area. set (rest := encs es ++ _). unfold XHDR in *.
  assert (hdr = take 4 hdr ++ take 4 (drop 4 hdr) ++ drop 8 hdr) as E by (change (drop 8 hdr) with (drop (4 + 4) hdr); by rewrite <- drop_drop, !take_drop).
  assert (zlen (take 4 hdr) = 4 /\ zlen (take 4 (drop 4 hdr)) = 4 /\ zlen (drop 8 hdr) = 16) as (L1 & L2 & L3)
    by (unfold zlen in *; rewrite !length_take, !length_drop; lia).
  set (h1 := take 4 hdr) in *. set (h2 := take 4 (drop 4 hdr)) in *. set (h3 := drop 8 hdr) in *.
  unfold rd32. rewrite E, <- !app_assoc. pose proof (rd_app [] h1 (h2 ++ h3 ++ rest) 0 4 eq_refl ltac:(done)) as Hr. cbn [app] in Hr.
  rewrite Hr. cbn [obind]. destruct (_ =? _); [exists (h1 ++ h2 ++ h3); split; [by rewrite <- E|by rewrite <- !app_assoc]|].
  pose proof (wr_app [] h1 (h2 ++ h3 ++ rest) 0 (le_put 4 F2FS_XATTR_MAGIC) eq_refl) as Hw. cbn [app] in Hw.
  rewrite Hw by (by rewrite L1). cbn [obind]. rewrite wr_app by done.
  exists (le_put 4 F2FS_XATTR_MAGIC ++ le_put 4 1 ++ h3). split; [rewrite !zlen_app, !zlen_le_put; lia|by rewrite <- !app_assoc].
Qed.
Lemma nz_true x : nz x = true -> x <> 0.
Proof. unfold nz. lia. Qed.
Lemma nz_false x : nz x = false -> x = 0.
Proof. unfold nz. lia. Qed.
(** The two reads of read_all_xattrs and lookup_all_xattrs, each skipped when there is nothing to read *)
Lemma read_first env i m : xinode_wf i -> 0 <= m ->
  (if nz (inline_xattr_size i) then read_inline_xattr env i (zeros (inline_xattr_size i + m)) else Done (0, zeros (inline_xattr_size i + m))) =
  Done (if nz (inline_xattr_size i) && (negb (e_ipage env) && nz (e_read_inode env)) then (e_read_inode env, zeros (inline_xattr_size i + m))
        else (0, inline_addr i ++ zeros m)).
Proof.
  intros W Hm. destruct (nz (inline_xattr_size i)) eqn:E; [apply nz_true in E; cbn [andb]; by apply read_inline_spec|].
  apply nz_false in E as E0. cbn [andb]. pose proof (xw_addr _ W) as Hl. rewrite E0 in *. destruct (inline_addr i) as [|y l]; [done|]. rewrite zlen_cons in Hl. pose proof (zlen_nonneg l). lia.
Qed.
Lemma read_second env i m : xinode_wf i -> 0 <= m ->
  (if nz (i_xattr_nid i) then read_xattr_block env i (inline_addr i ++ zeros (VALID_XATTR_BLOCK_SIZE + m)) else Done (0, inline_addr i ++ zeros (VALID_XATTR_BLOCK_SIZE + m))) =
  Done (if nz (i_xattr_nid i) && nz (e_read_xattr env) then (e_read_xattr env, inline_addr i ++ zeros (VALID_XATTR_BLOCK_SIZE + m))
        else (0, inline_addr i ++ (if nz (i_xattr_nid i) then xpage i else zeros VALID_XATTR_BLOCK_SIZE) ++ zeros m)).
Proof.
  intros W Hm. pose proof block_size. destruct (nz (i_xattr_nid i)) eqn:E; cbn [andb].
  - apply nz_true in E. apply read_block_spec; [done|done|apply (xw_addr _ W)|done].
  - by rewrite zeros_app by lia.
Qed.
Lemma read_all_list env i es : holds i es ->
  (exists err, read_all_xattrs env i = Done (inl err) /\ err ∈ read_fails env /\ err <> 0 /\ ~ env_quiet env) \/
  (exists hdr, zlen hdr = XHDR /\ read_all_xattrs env i = Done (inr (image i hdr es))).
Proof.
  intros [W Hf (hdr & Hh & Him) Hin]. pose proof (inline_nonneg _ W). pose proof block_size. unfold read_all_xattrs, read_fails.
  destruct (e_nomem env) eqn:Em; [left; eexists; split_and!; [done|in_list|done|intros (? & _); congruence]|].
  rewrite <- Z.add_assoc, read_first by (done || unfold XATTR_PADDING_SIZE; lia). cbn [obind].
  destruct (_ && _) eqn:Er.
  { rewrite !andb_true_iff in Er. destruct Er as (_ & _ & Er). rewrite Er. apply nz_true in Er. left. eexists.
    split_and!; [done|in_list|done|]. by intros (_ & ? & _). }
  change (nz 0) with false. cbn iota. rewrite read_second by done. cbn [obind]. destruct (_ && nz (e_read_xattr env)) eqn:Ex.
  { apply andb_prop in Ex as [_ Ex]. rewrite Ex. apply nz_true in Ex. left. eexists. split_and!; [done|in_list|done|]. by intros (_ & _ & ? & _). }
  change (nz 0) with false. cbn iota. right. destruct (init_header_image i hdr es Hh) as (hdr' & Hh' & Hi). exists hdr'. split; [done|].
  rewrite <- Him in Hi. unfold both_areas in Hi. by rewrite Hi.
Qed.

(** ** Writing the list back *)

Definition write_fails (env : xenv) : list Z := [- ENOSPC; e_write_inode env; e_trunc_xattr env; e_write_xattr env; e_new_page env].
(** The fields the areas are not in *)
Definition same_meta (i i' : xinode) : Prop := i_inline_xattr_size i' = i_inline_xattr_size i /\ i_mode i' = i_mode i /\
  i_acl_mode i' = i_acl_mode i /\ i_advise i' = i_advise i /\ encrypted i' = encrypted i /\ need_cp i' = need_cp i /\ held i' = held i.
Lemma same_meta_refl i : same_meta i i.
Proof. done. Qed.
(** [holds] only looks at the size of the inline area, the two areas and the node. *)
Lemma holds_ext i i' es : i_inline_xattr_size i' = i_inline_xattr_size i -> i_xattr_nid i' = i_xattr_nid i -> inline_addr i' = inline_addr i ->
  xpage i' = xpage i -> holds i es -> holds i' es.
Proof.
  destruct i, i'. cbn. intros -> -> -> -> [[? ? ? ?] ? ? ?]. by split.
Qed.
Lemma image_parts i hdr es : xinode_wf i -> zlen hdr = XHDR -> fits i es ->
  image i hdr es = slice (image i hdr es) 0 (inline_xattr_size i) ++ slice (image i hdr es) (inline_xattr_size i) VALID_XATTR_BLOCK_SIZE ++ zeros XATTR_PADDING_SIZE /\
  (XHDR + x_sizes es <= inline_xattr_size i -> slice (image i hdr es) (inline_xattr_size i) VALID_XATTR_BLOCK_SIZE = zeros VALID_XATTR_BLOCK_SIZE).
Proof.
  intros W Hh [Hes Hf]. pose proof (inline_nonneg _ W). pose proof block_size. pose proof (min_offset i) as Em.
  pose proof (x_sizes_nonneg es). pose proof (zlen_nonneg es).
  assert (zlen (image i hdr es) = MIN_OFFSET i + XATTR_PADDING_SIZE) as Hl by (unfold image; rewrite zlen_area; unfold XATTR_PADDING_SIZE; lia).
  assert (forall n, XHDR + x_sizes es <= n -> drop (Z.to_nat n) (image i hdr es) = zeros (MIN_OFFSET i + XATTR_PADDING_SIZE - n)) as Hd.
  { assert (length (hdr ++ encs es) = Z.to_nat (XHDR + x_sizes es)) as Hlen
      by (rewrite <- Hh, <- zlen_encs, <- zlen_app; unfold zlen; lia).
    intros n Hn. unfold image, area. rewrite app_assoc, drop_app_ge by (rewrite Hlen; lia).
    rewrite Hlen. unfold zeros. rewrite drop_replicate. f_equal. unfold XHDR, XATTR_PADDING_SIZE in *. lia. }
  split.
  - rewrite (slice_parts (image i hdr es) (inline_xattr_size i) VALID_XATTR_BLOCK_SIZE) at 1 by (unfold XATTR_PADDING_SIZE in *; lia).
    rewrite Hd by lia. do 3 f_equal. lia.
  - intros Hn. unfold slice. rewrite Hd by done. unfold zeros. rewrite take_replicate. f_equal. unfold XATTR_PADDING_SIZE. lia.
Qed.

(** Giving back the nid just taken *)
Lemma held_back (nid : Z) l : ~ In nid l -> filter (fun n => n <> nid) (nid :: l) = l.
Proof.
  intros Hn. rewrite list.filter_cons_False by (by intros []). induction l as [|y l IH]; [done|].
  cbn in Hn. rewrite list.filter_cons_True by (intros ->; tauto). f_equal. apply IH. tauto.
Qed.
Section write.
Context (env : xenv) (fresh : list Z) (i : xinode) (es es' : list xent) (hdr : list Z).
Context (Henv : env_ok env) (Hfresh : zlen fresh = VALID_XATTR_BLOCK_SIZE) (Hnid : forall nid, e_alloc_nid env = Some nid -> ~ In nid (held i)).
Context (Hi : holds i es) (Hfit : fits i es') (Hh : zlen hdr = XHDR).
#[local] Abbreviation t := (image i hdr es').
#[local] Abbreviation isz := (inline_xattr_size i).
Let W : xinode_wf i := h_wf _ _ Hi.
Lemma zlen_t : zlen t = MIN_OFFSET i + XATTR_PADDING_SIZE.
Proof. destruct Hfit. unfold image. rewrite zlen_area; unfold XATTR_PADDING_SIZE; lia. Qed.
Lemma slices : zlen (slice t 0 isz) = isz /\ zlen (slice t isz VALID_XATTR_BLOCK_SIZE) = VALID_XATTR_BLOCK_SIZE.
Proof.
  pose proof zlen_t. pose proof (inline_nonneg _ W). pose proof block_size. pose proof (min_offset i). unfold XATTR_PADDING_SIZE in *.
  split; apply zlen_slice; lia.
Qed.
Lemma put_inline_spec j : inline_xattr_size j = isz -> zlen (inline_addr j) = isz -> put_inline j t = Done (j <| inline_addr := slice t 0 isz |>).
Proof.
  intros Ej Hl. pose proof zlen_t. pose proof (inline_nonneg _ W). pose proof block_size. pose proof (min_offset i). unfold XATTR_PADDING_SIZE in *.
  unfold put_inline. rewrite Ej, rd_ok by lia. cbn [obind]. rewrite wr_whole; [done|]. rewrite Hl. apply slices.
Qed.
Lemma put_blocks_spec j : inline_xattr_size j = isz -> zlen (inline_addr j) = isz -> zlen (xpage j) = VALID_XATTR_BLOCK_SIZE ->
  put_blocks j t = Done (j <| inline_addr := slice t 0 isz |> <| xpage := slice t isz VALID_XATTR_BLOCK_SIZE |>).
Proof.
  intros Ej Hl Hx. pose proof zlen_t. pose proof (inline_nonneg _ W). pose proof block_size. pose proof (min_offset i). unfold XATTR_PADDING_SIZE in *.
  destruct slices as [S0 S1]. unfold put_blocks. rewrite Ej.
  assert ((if nz isz then put_inline j t else Done j) = Done (j <| inline_addr := slice t 0 isz |>)) as ->.
  { destruct (nz isz) eqn:E; [by apply put_inline_spec|]. apply nz_false in E. rewrite E in *.
    destruct (inline_addr j) as [|y l] eqn:Ea; [|rewrite zlen_cons in Hl; pose proof (zlen_nonneg l); lia]. destruct j. cbn in *. by subst. }
  cbn [obind]. replace (inline_xattr_size (j <| inline_addr := slice t 0 isz |>)) with isz by (rewrite <- Ej; by destruct j).
  rewrite rd_ok by lia. cbn [obind]. rewrite wr_whole; [done|]. by destruct j; cbn in *; rewrite S1, Hx.
Qed.
(** Both areas written: the inode with a node block holds the new list. *)
Lemma holds_blocks j nid : nid <> 0 -> i_inline_xattr_size j = i_inline_xattr_size i -> i_xattr_nid j = nid -> inline_addr j = slice t 0 isz ->
  xpage j = slice t isz VALID_XATTR_BLOCK_SIZE -> holds j es'.
Proof.
  intros Hn Ej En Ea Ex. destruct slices as [S0 S1]. assert (inline_xattr_size j = isz) as Es by (unfold inline_xattr_size; by rewrite Ej).
  split.
  - split; rewrite ?Es, ?Ea, ?Ex; [apply (xw_inline _ W)|apply (xw_size _ W)|done|done].
  - unfold fits, MIN_OFFSET in *. by rewrite Es.
  - exists hdr. split; [done|]. unfold both_areas. rewrite En, Ea, Ex. replace (nz nid) with true by (unfold nz; lia).
    replace (image j hdr es') with t by (unfold image, MIN_OFFSET; by rewrite Es). symmetry. by apply image_parts.
  - by rewrite En.
Qed.
Lemma holds_inline j : XHDR + x_sizes es' <= isz -> i_inline_xattr_size j = i_inline_xattr_size i -> i_xattr_nid j = 0 -> inline_addr j = slice t 0 isz ->
  holds j es'.
Proof.
  intros Hs Ej En Ea. destruct slices as [S0 S1]. assert (inline_xattr_size j = isz) as Es by (unfold inline_xattr_size; by rewrite Ej).
  split.
  - split; rewrite ?Es, ?Ea; [apply (xw_inline _ W)|apply (xw_size _ W)|done|by rewrite En].
  - unfold fits, MIN_OFFSET in *. by rewrite Es.
  - exists hdr. split; [done|]. unfold both_areas. rewrite En, Ea. cbn [nz Z.eqb negb].
    replace (image j hdr es') with t by (unfold image, MIN_OFFSET; by rewrite Es). symmetry. destruct (image_parts i hdr es' W Hh Hfit) as [Hp Hz]. rewrite <- (Hz Hs). apply Hp.
  - right. by rewrite Es.
Qed.

Definition wrote (r : Z) (i' : xinode) : Prop := same_meta i i' /\
  ((r = 0 /\ holds i' es') \/ (r <> 0 /\ r ∈ write_fails env /\ ~ env_quiet env /\ holds i' es)).
Lemma wrote_fail r i' : same_meta i i' -> i_xattr_nid i' = i_xattr_nid i -> inline_addr i' = inline_addr i -> xpage i' = xpage i ->
  r <> 0 -> r ∈ write_fails env -> ~ env_quiet env -> wrote r i'.
Proof. intros Hm ? ? ? ? ? ?. split; [done|]. right. split_and!; try done. apply (holds_ext i); try done. apply Hm. Qed.
Lemma write_node_list nid i0 : (nid = 0 /\ i0 = i /\ i_xattr_nid i <> 0) \/
    (e_alloc_nid env = Some nid /\ i_xattr_nid i = 0 /\ i0 = i <| held ::= cons nid |>) ->
  exists r i', write_xattr_node env fresh i0 nid t = Done (r, i') /\ wrote r i'.
Proof.
  intros Hc. destruct Henv as (_ & _ & _ & _ & He1 & He2 & He3). unfold write_xattr_node, alloc_nid_failed.
  destruct Hc as [(-> & -> & Hx)|(Ha & Hx & ->)].
  - replace (nz (i_xattr_nid i)) with true by (unfold nz; lia). change (nz 0) with false. cbn iota.
    destruct (nz (e_write_xattr env)) eqn:Ew.
    + do 2 eexists. split; [done|]. apply nz_true in Ew. apply wrote_fail; try done; [in_list|]. by intros (_ & _ & _ & _ & _ & ? & _).
    + rewrite put_blocks_spec by (done || apply (xw_addr _ W) || by apply (xw_page _ W)). cbn [obind]. do 2 eexists. split; [done|].
      split; [by destruct i|]. left. split; [done|]. by apply (holds_blocks _ (i_xattr_nid i)); destruct i.
  - pose proof (Hnid _ Ha) as Hn. assert (nid <> 0) as Hn0 by congruence.
    replace (nz (i_xattr_nid (i <| held ::= cons nid |>))) with false by (destruct i; cbn in *; by rewrite Hx).
    replace (nz nid) with true by (unfold nz; lia).
    destruct (nz (e_new_page env)) eqn:Ew.
    + do 2 eexists. split; [done|]. apply nz_true in Ew. apply wrote_fail; try (by destruct i); try done; [|in_list|].
      * destruct i. cbn in *. repeat split. by apply held_back.
      * by intros (_ & _ & _ & _ & _ & _ & ? & _).
    + set (j := alloc_nid_done _ nid). rewrite put_blocks_spec; [|by destruct i|by destruct i; apply (xw_addr _ W)|by destruct i].
      cbn [obind]. do 2 eexists. split; [done|]. split.
      * unfold j, alloc_nid_done. destruct i. cbn in *. repeat split. by apply held_back.
      * left. split; [done|]. by apply (holds_blocks _ nid); destruct i.
Qed.
Lemma write_all_list : exists r i', write_all_xattrs env fresh i (XHDR + x_sizes es') t = Done (r, i') /\ wrote r i'.
Proof.
  unfold write_all_xattrs. set (need := (isz <? _) && _). pose proof (inline_nonneg _ W). pose proof (x_sizes_nonneg es'). pose proof (zlen_nonneg es').
  destruct Henv as (_ & _ & He1 & He2 & _ & _ & He3).
  destruct (if need then e_alloc_nid env else Some 0) as [nid|] eqn:En.
  2: { do 2 eexists. split; [done|]. destruct need; [|done]. apply wrote_fail; try done; [in_list|].
       intros (_ & _ & _ & _ & _ & _ & _ & nid & ?). congruence. }
  set (i0 := if need then _ else _).
  assert (isz < XHDR + x_sizes es' -> exists r i', write_xattr_node env fresh i0 nid t = Done (r, i') /\ wrote r i') as Hnode.
  { intros Hlt. apply write_node_list. unfold i0, need in *. replace (isz <? _) with true in * by lia. cbn [andb] in *.
    destruct (nz (i_xattr_nid i)) eqn:Ex; cbn [negb] in *; [left|right]; [apply nz_true in Ex; split_and!; congruence|apply nz_false in Ex; done]. }
  destruct (nz isz) eqn:Ez; [|apply nz_false in Ez; apply Hnode; rewrite Ez; unfold XHDR; lia].
  assert (same_meta i (alloc_nid_failed i0 nid) /\ i_xattr_nid (alloc_nid_failed i0 nid) = i_xattr_nid i /\
    inline_addr (alloc_nid_failed i0 nid) = inline_addr i /\ xpage (alloc_nid_failed i0 nid) = xpage i) as (M1 & M2 & M3 & M4).
  { unfold i0, alloc_nid_failed. destruct need.
    - replace (nz nid) with true by (unfold nz; assert (nid <> 0) by congruence; lia). pose proof (Hnid _ En). destruct i. cbn in *. repeat split.
      by apply held_back.
    - injection En as <-. done. }
  destruct (_ && nz (e_write_inode env)) eqn:Ew.
  { apply andb_prop in Ew as [_ Ew]. apply nz_true in Ew. do 2 eexists. split; [done|]. apply wrote_fail; try done; [in_list|].
    by intros (_ & _ & _ & ? & _). }
  destruct (Z.leb_spec (XHDR + x_sizes es') isz) as [Hle|]; [|by apply Hnode].
  assert (need = false) as Hnd by (unfold need; replace (isz <? _) with false by lia; done).
  unfold i0 in *. rewrite Hnd in *. injection En as <-. change (alloc_nid_failed ?j 0) with j. clear i0 Hnode M1 M2 M3 M4.
  unfold f2fs_truncate_xattr_node. destruct (nz (i_xattr_nid i)) eqn:Ex; cbn [negb].
  - destruct (nz (e_trunc_xattr env)) eqn:Et.
    + rewrite Et. do 2 eexists. split; [done|]. apply nz_true in Et. apply wrote_fail; try done; [in_list|]. by intros (_ & _ & _ & _ & ? & _).
    + change (nz 0) with false. cbn iota. change (alloc_nid_failed ?j 0) with j. rewrite put_inline_spec; [|by destruct i|by destruct i; apply (xw_addr _ W)].
      cbn [obind]. do 2 eexists. split; [done|]. split; [by destruct i|]. left. split; [done|]. by apply holds_inline; destruct i.
  - apply nz_false in Ex. change (nz 0) with false. cbn iota. change (alloc_nid_failed ?j 0) with j. rewrite put_inline_spec by (done || apply (xw_addr _ W)).
    cbn [obind]. do 2 eexists. split; [done|]. split; [by destruct i|]. left. split; [done|]. by apply holds_inline; destruct i.
Qed.
End write.
End update.
