(* ===== verification/XattrMap.v ===== *)
(** * Extended attributes as a finite map, and the two-step lookup

    [setxattr_list], [getxattr_list] and [listxattr_list] give every operation
    on the bytes as one on the list of attributes; the list has one entry per
    key, so it is a finite map from (index, name) to values ([xmap]). *)
From stdpp Require Import gmap.
From S2P Require Import Prelude Bytes Xattr XattrProps.
Open Scope Z_scope.

Section xattr_map.
Context `{XattrFormatOk}.

(** ** setxattr *)

Definition set_list (i : xinode) (es : list xent) (index : Z) (name : list Z) (value : option (list Z)) (flags : Z) : Z * list xent :=
  if F2FS_NAME_LEN <? zlen name then (- ERANGE, es)
  else if MAX_VALUE_LEN i <? zlen (default [] value) then (- E2BIG, es)
  else match update_list i es index name value flags with inl r => (r, es) | inr es' => (0, es') end.
Definition env_fails (env : xenv) : list Z := read_fails env ++ write_fails env.
Lemma holds_done i es index name : holds i es -> holds (setxattr_done i index name) es.
Proof. apply holds_ext; unfold setxattr_done; destruct i; cbn; by repeat case_match. Qed.
Lemma held_done i index name : held (setxattr_done i index name) = held i.
Proof. unfold setxattr_done; destruct i; cbn; by repeat case_match. Qed.
Lemma size_done i index name : i_inline_xattr_size (setxattr_done i index name) = i_inline_xattr_size i.
Proof. unfold setxattr_done; destruct i; cbn; by repeat case_match. Qed.
Lemma max_value i : xinode_wf i -> MAX_VALUE_LEN i < 65536.
Proof. intros W. pose proof (xw_size _ W). unfold MAX_VALUE_LEN. rewrite min_offset. unfold XHDR, XENT. lia. Qed.
Lemma setxattr_list env fresh i es index name value flags : env_ok env -> zlen fresh = VALID_XATTR_BLOCK_SIZE ->
  (forall nid, e_alloc_nid env = Some nid -> ~ In nid (held i)) -> holds i es -> 0 < index < 256 ->
  exists r i', __f2fs_setxattr env fresh i index (Some name) value flags = Done (r, i') /\ held i' = held i /\ i_inline_xattr_size i' = i_inline_xattr_size i /\
    ((r = fst (set_list i es index name value flags) /\ holds i' (snd (set_list i es index name value flags))) \/
     (r <> 0 /\ r ∈ env_fails env /\ ~ env_quiet env /\ holds i' es)).
Proof.
  intros Henv Hfr Hnid Hi Hx. pose proof (h_wf _ _ Hi) as W. pose proof (max_value _ W). pose proof name_len. unfold __f2fs_setxattr, set_list, env_fails.
  replace (match value with Some v => zlen v | None => 0 end) with (zlen (default [] value)) by (by destruct value).
  destruct (Z.ltb_spec F2FS_NAME_LEN (zlen name)); [do 2 eexists; split; [done|]; split_and!; [done..|by left]|].
  destruct (Z.ltb_spec (MAX_VALUE_LEN i) (zlen (default [] value))); [do 2 eexists; split; [done|]; split_and!; [done..|by left]|].
  destruct (read_all_list env i es Hi) as [(err & -> & Hin & Hne & Hq)|(hdr & Hh & ->)]; cbn [obind].
  { do 2 eexists. do 3 (split; [done|]). right. split_and!; try done. apply elem_of_app. by left. }
  rewrite update_xattrs_list by (done || apply Hi || lia). cbn [obind].
  destruct (update_list i es index name value flags) as [r|es'] eqn:Hu; [do 2 eexists; split; [done|]; split_and!; [done..|by left]|].
  assert (fits i es') as Hfit by (eapply update_list_fits; [apply Hi|..]; try done; lia).
  destruct (write_all_list env fresh i es es' hdr Henv Hfr Hnid Hi Hfit Hh) as (r & i' & -> & Hm & Hw). cbn [obind].
  destruct Hm as (Hsize & _ & _ & _ & _ & _ & Hheld). destruct Hw as [[-> Hw]|(Hne & Hin & Hq & Hw)].
  - change (nz 0) with false. cbn iota. do 2 eexists. split; [done|]. split; [by rewrite held_done|]. split; [by rewrite size_done|]. left. split; [done|]. by apply holds_done.
  - replace (nz r) with true by (unfold nz; lia). do 2 eexists. do 3 (split; [done|]). right. split_and!; try done. apply elem_of_app. by right.
Qed.

(** ** Lookup: the inline area first *)

(** [b] and [b'] agree on their first [n] bytes. *)
Definition agree (b b' : list Z) (n : Z) : Prop := forall o m, o + m <= n -> rd b o m = rd b' o m.
Lemma agree_prefix a c c' : agree (a ++ c) (a ++ c') (zlen a).
Proof. intros o m Hm. by rewrite !rd_prefix by done. Qed.
Section inline.
Context (b b' : list Z) (n : Z) (Hb : agree b b' n).
Lemma agree_last e : e + 4 <= n -> IS_XATTR_LAST_ENTRY b e = IS_XATTR_LAST_ENTRY b' e.
Proof. intros. unfold IS_XATTR_LAST_ENTRY, rd32. by rewrite Hb by lia. Qed.
Lemma agree_next e : e + 4 <= n -> XATTR_NEXT_ENTRY b e = XATTR_NEXT_ENTRY b' e.
Proof. intros. unfold XATTR_NEXT_ENTRY, ENTRY_SIZE, e_name_len, e_value_size, rd8, rd16. by rewrite !Hb by lia. Qed.
Lemma agree_match pre x post index name : b' = pre ++ enc x ++ post -> xent_ok x -> zlen pre + x_size x <= n ->
  is_xattr b (zlen pre) index name = is_xattr b' (zlen pre) index name.
Proof.
  intros Eb Hx Hn. pose proof (x_size_pos x). unfold is_xattr.
  assert (e_name_index b (zlen pre) = e_name_index b' (zlen pre)) as -> by (unfold e_name_index, rd8; by rewrite Hb by lia).
  assert (e_name_len b (zlen pre) = e_name_len b' (zlen pre)) as -> by (unfold e_name_len, rd8; by rewrite Hb by lia).
  rewrite Eb, read_index, read_name_len. cbn [obind]. destruct (negb _); [done|]. destruct (Z.eqb_spec (zlen (x_name x)) (zlen name)) as [E|]; [|done].
  cbn [negb]. rewrite <- E, Hb, Eb; [done|]. unfold x_size in Hn. pose proof (align_bounds (XENT + zlen (x_name x) + zlen (x_value x))).
  pose proof (zlen_nonneg (x_value x)). lia.
Qed.
(** The inline search finds what the search of the whole list finds, or stops
    at an entry before it that does not end inside the inline area. *)
Lemma find_inline_list index name es : Forall xent_ok es -> forall pre room fuel, b' = pre ++ encs es ++ zeros room -> 4 <= room -> (length es < fuel)%nat ->
  zlen pre + 4 <= n ->
  (find_inline_from fuel b n (zlen pre) index name = Done (inl (zlen pre + x_sizes (before (index, name) es))) /\
    zlen pre + x_sizes (before (index, name) es) + 4 <= n /\ zlen pre + x_sizes (before (index, name) es) + old_size (index, name) es <= n) \/
  (exists es1 es2, es = es1 ++ es2 /\ es2 <> [] /\ before (index, name) es = es1 ++ before (index, name) es2 /\
    find_inline_from fuel b n (zlen pre) index name = Done (inr (zlen pre + x_sizes es1))).
Proof.
  induction 1 as [|x es Hx Hes IH]; intros pre room [|fuel] Eb Hr Hf Hn; try (cbn in Hf; lia).
  - left. cbn [find_inline_from before x_sizes encs app] in *. rewrite agree_last by done. rewrite Eb, read_end by done. cbn. split; [do 2 f_equal; lia|lia].
  - cbn [find_inline_from before encs] in *. rewrite <- app_assoc in Eb. 
    assert (IS_XATTR_LAST_ENTRY b (zlen pre) = Done false) as -> by (rewrite agree_last, Eb by done; by apply read_not_last). cbn [obind].
    assert (XATTR_NEXT_ENTRY b (zlen pre) = Done (zlen (pre ++ enc x))) as -> by (rewrite agree_next, Eb by done; by apply read_next). cbn [obind]. replace (n <? zlen pre + 4) with false by lia.
    pose proof (x_size_pos x). pose proof (x_sizes_nonneg es). pose proof (zlen_nonneg es). destruct (Z.ltb_spec n (zlen (pre ++ enc x) + 4)) as [Hlt|Hge].
    + right. exists [], (x :: es). split_and!; try done. cbn. do 2 f_equal. lia.
    + rewrite zlen_app, zlen_enc in Hge. 
      assert (is_xattr b (zlen pre) index name = Done (bool_decide (x_key x = (index, name)))) as ->
        by (rewrite (agree_match _ _ _ _ _ Eb) by (done || lia); rewrite Eb; by apply read_match). cbn [obind].
      unfold old_size. cbn [from]. destruct (bool_decide _); [left; cbn; split; [do 2 f_equal; lia|lia]|].
      destruct (IH (pre ++ enc x) room fuel) as [[-> [Hle Hold]]|(es1 & es2 & -> & Hne & Hbf & ->)]; [by rewrite <- app_assoc|done|cbn in Hf; lia|by rewrite zlen_app, zlen_enc|..].
      * left. unfold old_size in Hold. rewrite zlen_app, zlen_enc in *. cbn [x_sizes]. split; [do 2 f_equal; lia|lia].
      * right. exists (x :: es1), es2. rewrite zlen_app, zlen_enc in *. cbn [x_sizes app]. rewrite Hbf. split_and!; try done. do 2 f_equal. lia.
Qed.
End inline.

(** Where an entry found in an image is *)
Definition found_at (k : Z * list Z) (es : list xent) (r : Z + Z * list Z) : Prop :=
  match from k es with
  | [] => r = inl (- ENODATA)
  | x :: _ => exists pre post, r = inr (XHDR + x_sizes (before k es), pre ++ enc x ++ post) /\ zlen pre = XHDR + x_sizes (before k es) /\ xent_ok x
  end.
Lemma from_ok k es x l : Forall xent_ok es -> from k es = x :: l -> xent_ok x.
Proof. intros Hes Hf. rewrite <- (before_from k es), Hf in Hes. apply Forall_app in Hes as [_ Ht]. by inversion Ht. Qed.
Lemma check_area hdr es room k : zlen hdr = XHDR -> Forall xent_ok es -> 4 <= room ->
  exists r, check_entry (area hdr es room) (XHDR + x_sizes (before k es)) = Done r /\ found_at k es r.
Proof.
  intros Hh Hes Hr. unfold check_entry, found_at. pose proof (before_from k es) as E. destruct (from k es) as [|x l] eqn:Hf.
  - rewrite app_nil_r in E. rewrite E, area_end by done. eauto.
  - pose proof (from_ok _ _ _ _ Hes Hf). rewrite (area_at _ _ _ (before k es) (x :: l)) by done. cbn [encs].
    assert (zlen (hdr ++ encs (before k es)) = XHDR + x_sizes (before k es)) as Hp by (by rewrite zlen_app, zlen_encs, Hh).
    set (P := hdr ++ encs (before k es)) in *. rewrite <- app_assoc, <- Hp, read_not_last by done. cbn [obind]. eexists. split; [done|]. eauto.
Qed.
Lemma search_rest hdr es1 es2 room index name : zlen hdr = XHDR -> Forall xent_ok (es1 ++ es2) -> 4 <= room ->
  before (index, name) (es1 ++ es2) = es1 ++ before (index, name) es2 ->
  __find_xattr (area hdr (es1 ++ es2) room) (x_sizes es1) index name = Done (XHDR + x_sizes (before (index, name) (es1 ++ es2))).
Proof.
  intros Hh Hes Hr Hb. pose proof (entries_fit hdr (es1 ++ es2) room Hh Hr) as Hl. unfold __find_xattr, XATTR_FIRST_ENTRY.
  rewrite (area_at hdr (es1 ++ es2) room es1 es2 eq_refl) in *.
  replace (x_sizes es1 + XHDR) with (zlen (hdr ++ encs es1)) by (rewrite zlen_app, zlen_encs, Hh; lia).
  rewrite find_from_list; [rewrite Hb, x_sizes_app, zlen_app, zlen_encs, Hh; f_equal; lia|by apply Forall_app in Hes as [_ ?]|done|].
  rewrite length_app in Hl at 1. lia.
Qed.
(** The buffer of lookup_all_xattrs once all is read is an image, however long it is. *)
Lemma lookup_image i es m : holds i es -> i_xattr_nid i <> 0 \/ XHDR + x_sizes es <= inline_xattr_size i -> 4 <= m ->
  exists hdr room, zlen hdr = XHDR /\ 4 <= room /\
    inline_addr i ++ (if nz (i_xattr_nid i) then xpage i ++ zeros XATTR_PADDING_SIZE else zeros m) = area hdr es room.
Proof.
  intros [W [Hes Hfit] (hdr & Hh & Him) Hin] Hc Hm. unfold both_areas in Him. exists hdr. destruct (nz (i_xattr_nid i)) eqn:E.
  - exists (MIN_OFFSET i + XATTR_PADDING_SIZE - (XHDR + x_sizes es)). split_and!; [done|unfold XATTR_PADDING_SIZE; lia|]. exact Him.
  - apply nz_false in E. destruct Hc as [?|Hc]; [done|]. unfold image, area in Him. rewrite (app_assoc hdr) in Him.
    assert (exists q, inline_addr i = (hdr ++ encs es) ++ zeros q /\ 0 <= q) as (q & Hq & Hq0).
    { assert (zlen (hdr ++ encs es) = XHDR + x_sizes es) as Hl by (by rewrite zlen_app, zlen_encs, Hh).
      apply app_eq_inv in Him as [(c & Hc1 & Hc2)|(c & Hc1 & Hc2)].
      - exists (zlen c). split; [|apply zlen_nonneg]. rewrite Hc1. f_equal.
        assert (c = take (length c) (zeros (MIN_OFFSET i + XATTR_PADDING_SIZE - (XHDR + x_sizes es)))) as Ec by (by rewrite Hc2, take_app_length).
        rewrite Ec at 1. unfold zeros, zlen. rewrite take_replicate. f_equal. assert (length (zeros (MIN_OFFSET i + XATTR_PADDING_SIZE - (XHDR + x_sizes es))) = (length c + length (zeros VALID_XATTR_BLOCK_SIZE ++ zeros XATTR_PADDING_SIZE))%nat) as El by (by rewrite <- length_app, <- Hc2).
        unfold zeros in El at 1. rewrite length_replicate in El. lia.
      - exists 0. split; [|done]. rewrite Hc1, zlen_app, (xw_addr _ W) in Hl. destruct c as [|y c]; [by rewrite Hc1, !app_nil_r|].
        rewrite zlen_cons in Hl. pose proof (zlen_nonneg c). lia. }
    exists (q + m). split_and!; [done|lia|]. unfold area. rewrite Hq, <- !app_assoc, zeros_app by lia. done.
Qed.
Lemma lookup_block_list env i es es1 es2 t last_addr index name : holds i es -> i_xattr_nid i <> 0 \/ XHDR + x_sizes es <= inline_xattr_size i ->
  t = inline_addr i ++ zeros ((if nz (i_xattr_nid i) then VALID_XATTR_BLOCK_SIZE else 0) + XATTR_PADDING_SIZE) ->
  es = es1 ++ es2 -> before (index, name) es = es1 ++ before (index, name) es2 ->
  match last_addr with Some e => e = XHDR + x_sizes es1 | None => es1 = [] end ->
  (exists err, lookup_block env i t last_addr index name = Done (inl err) /\ err ∈ read_fails env /\ err <> 0 /\ ~ env_quiet env) \/
  (exists r, lookup_block env i t last_addr index name = Done r /\ found_at (index, name) es r).
Proof.
  intros Hi Hc -> Ees Hb Hla. pose proof (h_wf _ _ Hi) as W. pose proof (proj1 (h_fits _ _ Hi)) as Hes. unfold lookup_block.
  destruct (lookup_image i es XATTR_PADDING_SIZE Hi Hc ltac:(done)) as (hdr & room & Hh & Hr & Harea).
  assert ((match last_addr with Some e => e - XHDR | None => 0 end) = x_sizes es1) as -> by (destruct last_addr; [lia|by subst]).
  assert (forall r : outcome (Z * list Z), r = Done (0, area hdr es room) -> exists x, 
    (r <-- r ;; let '(err, t) := r in if nz err then Done (inl err) else xe <-- __find_xattr t (x_sizes es1) index name ;; check_entry t xe) = Done x /\
    found_at (index, name) es x) as Hfin.
  { intros ? ->. cbn [obind]. change (nz 0) with false. cbn iota. rewrite Ees in Hb, Hes |- *. rewrite search_rest by done. cbn [obind]. by apply check_area. }
  destruct (nz (i_xattr_nid i)) eqn:E.
  - apply nz_true in E. rewrite read_block_spec by (done || apply (xw_addr _ W)). destruct (nz (e_read_xattr env)) eqn:Er.
    + cbn [obind]. rewrite Er. left. apply nz_true in Er. eexists. split_and!; [done|in_list|done|]. by intros (_ & _ & ? & _).
    + right. apply Hfin. by rewrite Harea.
  - right. apply Hfin. by rewrite Z.add_0_l, Harea.
Qed.
(** An entry found inside the inline area is the one of the whole image. *)
Lemma found_inline t b a index name hdr es room : (exists c c', t = a ++ c /\ b = a ++ c') -> zlen hdr = XHDR -> Forall xent_ok es -> 4 <= room ->
  b = area hdr es room -> XHDR + x_sizes (before (index, name) es) + 4 <= zlen a ->
  XHDR + x_sizes (before (index, name) es) + old_size (index, name) es <= zlen a ->
  exists r, check_entry t (XHDR + x_sizes (before (index, name) es)) = Done r /\ found_at (index, name) es r.
Proof.
  intros (c & c' & -> & Eb) Hh Hes Hr Eb' Hle Hold. set (k := (index, name)) in *.
  destruct (check_area hdr es room k Hh Hes Hr) as (r & Hr1 & Hr2). rewrite <- Eb', Eb in Hr1. unfold check_entry in *.
  rewrite (agree_last _ _ _ (agree_prefix a c c')) by done. destruct (IS_XATTR_LAST_ENTRY _ _) as [[|]| |]; cbn [obind] in *; try done.
  - injection Hr1 as <-. eauto.
  - injection Hr1 as <-. eexists. split; [done|]. unfold found_at, old_size in *. destruct (from k es) as [|x l] eqn:Hf; [done|].
    destruct Hr2 as (pre & post & E0 & Hp & Hx). assert (a ++ c' = (pre ++ enc x) ++ post) as E by (rewrite <- app_assoc; congruence).
    assert (exists q, a = (pre ++ enc x) ++ q) as (q & ->).
    { apply app_eq_inv in E as [(q & -> & _)|(q & Eq & _)]; [by exists q|]. apply (f_equal zlen) in Eq as El.
      rewrite !zlen_app, zlen_enc in El. destruct q as [|y q]; [exists []; by rewrite Eq, !app_nil_r|].
      rewrite zlen_cons in El. pose proof (zlen_nonneg q). lia. }
    exists pre, (q ++ c). split_and!; [by rewrite <- !app_assoc|done|done].
Qed.
Lemma lookup_list env i es index name : holds i es ->
  (exists err, lookup_all_xattrs env i index name = Done (inl err) /\ err ∈ read_fails env /\ err <> 0 /\ ~ env_quiet env) \/
  (exists r, lookup_all_xattrs env i index name = Done r /\ found_at (index, name) es r).
Proof.
  intros Hi. pose proof Hi as [W [Hes Hfit] (hdr & Hh & Him) Hin]. pose proof (inline_nonneg _ W) as Hi0. pose proof block_size as Hv.
  pose proof (x_sizes_nonneg es) as Hs0. pose proof (zlen_nonneg es) as Hz0. unfold lookup_all_xattrs.
  set (size := if nz (i_xattr_nid i) then _ else _). assert (0 <= size) as Hs by (unfold size; case_match; lia).
  destruct (negb (nz size) && negb (nz (inline_xattr_size i))) eqn:E0.
  { apply andb_prop in E0 as [E1 E2]. apply negb_true_iff, nz_false in E1, E2. assert (i_xattr_nid i = 0) as Ex by (unfold size in E1; destruct (nz (i_xattr_nid i)) eqn:E; [lia|by apply nz_false in E]).
    right. eexists. split; [done|]. destruct (Hin Ex) as [-> |?]; [done|unfold XHDR in *; lia]. }
  destruct (e_nomem env) eqn:Em; [left; eexists; split_and!; [done|by apply list_elem_of_here|done|intros (? & _); congruence]|].
  assert (inline_xattr_size i <> 0 -> i_xattr_nid i <> 0 \/ XHDR + x_sizes es <= inline_xattr_size i) as Hc.
  { intros Hz. destruct (decide (i_xattr_nid i = 0)) as [E|]; [right|by left]. destruct (Hin E) as [-> |?]; [|done].
    destruct (xw_inline _ W); [done|]. unfold XHDR. cbn. lia. }
  rewrite <- Z.add_assoc. destruct (nz (inline_xattr_size i)) eqn:Ez.
  2: { apply nz_false in Ez. pose proof (xw_addr _ W) as Hl. rewrite Ez in *. eapply (lookup_block_list _ _ _ [] es); try done.
       - left. intros Ex. unfold size in E0. rewrite Ex in E0. done.
       - destruct (inline_addr i) as [|y l]; [done|]. rewrite zlen_cons in Hl. pose proof (zlen_nonneg l). lia. }
  apply nz_true in Ez. specialize (Hc Ez). destruct (xw_inline _ W) as [?|Hi28]; [done|].
  rewrite read_inline_spec by (done || unfold XATTR_PADDING_SIZE; lia). destruct (_ && nz (e_read_inode env)) eqn:Er.
  { apply andb_prop in Er as [_ Er]. cbn [obind]. rewrite Er. apply nz_true in Er. left. eexists.
    split_and!; [done|apply list_elem_of_further, list_elem_of_here|done|by intros (_ & ? & _)]. }
  cbn [obind]. change (nz 0) with false. cbn iota. set (t := inline_addr i ++ zeros (size + XATTR_PADDING_SIZE)).
  assert (agree t (both_areas i) (inline_xattr_size i)) as Hag by (rewrite <- (xw_addr _ W); apply agree_prefix).
  set (room := MIN_OFFSET i + XATTR_PADDING_SIZE - (XHDR + x_sizes es)). assert (4 <= room) as Hr by (unfold room, XATTR_PADDING_SIZE; lia).
  assert (zlen t = inline_xattr_size i + (size + XATTR_PADDING_SIZE)) as Ht
    by (unfold t; rewrite zlen_app, zlen_zeros, (xw_addr _ W); unfold XATTR_PADDING_SIZE; lia).
  assert (length es < S (length t))%nat as Hf.
  { rewrite min_offset in Hfit. unfold XHDR, XATTR_PADDING_SIZE in *. destruct Hc as [Hc|Hc]; [|unfold zlen in *; lia].
    assert (size = VALID_XATTR_BLOCK_SIZE) as Esz by (unfold size, nz; by replace (i_xattr_nid i =? 0) with false by lia). unfold zlen in *; lia. }
  unfold __find_inline_xattr, XATTR_FIRST_ENTRY. rewrite Z.add_0_l, <- Hh.
  destruct (find_inline_list t (both_areas i) _ Hag index name es Hes hdr room (S (length t)) Him Hr Hf) as [(-> & Hle & Hold)|(es1 & es2 & Ees & Hne & Hb & ->)];
    [rewrite Hh; unfold XHDR; lia|..]; cbn [obind]; rewrite Hh in *.
  - right. apply (found_inline t (both_areas i) (inline_addr i) _ _ hdr es room); try done; [|by rewrite (xw_addr _ W)..].
    by exists (zeros (size + XATTR_PADDING_SIZE)), ((if nz (i_xattr_nid i) then xpage i else zeros VALID_XATTR_BLOCK_SIZE) ++ zeros XATTR_PADDING_SIZE).
  - by eapply lookup_block_list.
Qed.

(** ** getxattr and listxattr *)

Definition get_list (es : list xent) (k : Z * list Z) (buffer : option Z) : Z * option (list Z) :=
  if F2FS_NAME_LEN <? zlen (snd k) then (- ERANGE, None) else
  match from k es with
  | [] => (- ENODATA, None)
  | x :: _ =>
      match buffer with
      | None => (zlen (x_value x), None)
      | Some n => if n <? zlen (x_value x) then (- ERANGE, None) else (zlen (x_value x), Some (x_value x))
      end
  end.
Lemma getxattr_list env i es index name buffer : holds i es -> exists r, f2fs_getxattr env i index (Some name) buffer = Done r /\
  (r = get_list es (index, name) buffer \/ (snd r = None /\ fst r <> 0 /\ fst r ∈ env_fails env /\ ~ env_quiet env)).
Proof.
  intros Hi. unfold f2fs_getxattr, get_list. cbn [snd]. destruct (_ <? zlen name); [eauto|].
  destruct (lookup_list env i es index name Hi) as [(err & -> & Hin & Hne & Hq)|(r & -> & Hr)]; cbn [obind].
  { eexists. split; [done|]. right. split_and!; try done. apply elem_of_app. by left. }
  unfold found_at in Hr. destruct (from (index, name) es) as [|x l]; [subst r; eauto|].
  destruct Hr as (pre & post & -> & Hp & Hx). rewrite <- Hp, read_value_size by done. cbn [obind].
  destruct buffer as [n|]; [|eauto]. destruct (n <? zlen (x_value x)); [eauto|].
  rewrite read_name_len. cbn [obind]. rewrite read_value. cbn [obind]. eauto.
Qed.

Section listing.
Context (c : xattr_ctx).
(** What one attribute adds to the list of names *)
Definition listed (x : xent) : list Z :=
  match f2fs_xattr_handler c (x_index x) with
  | Some h => if h_list h then h_prefix h ++ x_name x ++ [0] else []
  | None => []
  end.
Definition names (es : list xent) : list Z := concat (map listed es).
Lemma list_xattrs_buffer es : Forall xent_ok es -> forall pre room fuel rest out, 4 <= room -> (length es < fuel)%nat -> 0 <= rest < 18446744073709551616 ->
  list_xattrs fuel c (pre ++ encs es ++ zeros room) true (zlen pre) rest out =
  Done (if rest <? zlen (names es) then inl (- ERANGE) else inr (rest - zlen (names es), out ++ names es)).
Proof.
  induction 1 as [|x es Hx Hes IH]; intros pre room [|fuel] rest out Hr Hf Hrest; try (cbn in Hf; lia).
  - cbn [list_xattrs encs app names map concat]. rewrite read_end by done. cbn [obind]. change (zlen []) with 0.
    replace (rest <? 0) with false by lia. by rewrite app_nil_r, Z.sub_0_r.
  - cbn [list_xattrs encs]. rewrite <- app_assoc, read_not_last, read_index by done. cbn [obind].
    unfold names. cbn [map concat]. fold (names es). unfold listed at 1 2 3. cbn in Hf.
    assert (forall rest out, 0 <= rest < 18446744073709551616 -> (next <-- XATTR_NEXT_ENTRY (pre ++ enc x ++ encs es ++ zeros room) (zlen pre) ;;
      list_xattrs fuel c (pre ++ enc x ++ encs es ++ zeros room) true next rest out) =
      Done (if rest <? zlen (names es) then inl (- ERANGE) else inr (rest - zlen (names es), out ++ names es))) as Hnext.
    { intros rest' out' ?. rewrite read_next by done. cbn [obind]. rewrite (app_assoc pre). apply IH; lia. }
    destruct (f2fs_xattr_handler c (x_index x)) as [h|]; [|by apply Hnext]. destruct (h_list h); [|by apply Hnext].
    rewrite read_name_len. cbn [obind]. rewrite !zlen_app, zlen_one.
    pose proof (zlen_nonneg (h_prefix h)). pose proof (zlen_nonneg (x_name x)). pose proof (zlen_nonneg (names es)).
    destruct (Z.ltb_spec rest (zlen (h_prefix h) + zlen (x_name x) + 1)).
    + by replace (rest <? _) with true by lia.
    + rewrite read_name. cbn [obind]. rewrite u64_id by lia. rewrite Hnext by lia.
      replace (rest - _ <? zlen (names es)) with (rest <? zlen (h_prefix h) + (zlen (x_name x) + 1) + zlen (names es)) by lia.
      destruct (_ <? _); [done|]. do 3 f_equal; [lia|by rewrite <- !app_assoc].
Qed.
Lemma list_xattrs_null es : Forall xent_ok es -> forall pre room fuel rest, 4 <= room -> (length es < fuel)%nat -> 
  list_xattrs fuel c (pre ++ encs es ++ zeros room) false (zlen pre) (u64 rest) [] = Done (inr (u64 (rest - zlen (names es)), [])).
Proof.
  induction 1 as [|x es Hx Hes IH]; intros pre room [|fuel] rest Hr Hf; try (cbn in Hf; lia).
  - cbn [list_xattrs encs app names map concat]. rewrite read_end by done. cbn [obind]. by rewrite Z.sub_0_r.
  - cbn [list_xattrs encs]. rewrite <- app_assoc, read_not_last, read_index by done. cbn [obind].
    unfold names. cbn [map concat]. fold (names es). unfold listed at 1. cbn in Hf.
    assert (forall rest, (next <-- XATTR_NEXT_ENTRY (pre ++ enc x ++ encs es ++ zeros room) (zlen pre) ;;
      list_xattrs fuel c (pre ++ enc x ++ encs es ++ zeros room) false next (u64 rest) []) = Done (inr (u64 (rest - zlen (names es)), []))) as Hnext.
    { intros rest'. rewrite read_next by done. cbn [obind]. rewrite (app_assoc pre). apply IH; lia. }
    destruct (f2fs_xattr_handler c (x_index x)) as [h|]; [|by apply Hnext]. destruct (h_list h); [|by apply Hnext].
    rewrite read_name_len. cbn [obind]. rewrite !zlen_app, zlen_one.
    replace (u64 (u64 rest - _)) with (u64 (rest - (zlen (h_prefix h) + zlen (x_name x) + 1))) by (unfold u64; by rewrite Zminus_mod_idemp_l).
    rewrite Hnext. do 4 f_equal. lia.
Qed.
End listing.

Definition list_names (c : xattr_ctx) (es : list xent) (buffer : bool) (size : Z) : Z * list Z :=
  if buffer then (if size <? zlen (names c es) then (- ERANGE, []) else (zlen (names c es), names c es)) else (zlen (names c es), []).
Lemma listxattr_list c env i es buffer size : holds i es -> 0 <= size < 18446744073709551616 -> zlen (names c es) < 2147483648 ->
  exists r, f2fs_listxattr c env i buffer size = Done r /\
  (r = list_names c es buffer size \/ (snd r = [] /\ fst r <> 0 /\ fst r ∈ env_fails env /\ ~ env_quiet env)).
Proof.
  intros Hi Hsz Hn. unfold f2fs_listxattr, list_names. pose proof (zlen_nonneg (names c es)).
  destruct (read_all_list env i es Hi) as [(err & -> & Hin & Hne & Hq)|(hdr & Hh & ->)]; cbn [obind].
  { eexists. split; [done|]. right. split_and!; try done. apply elem_of_app. by left. }
  destruct (h_fits _ _ Hi) as [Hes Hfit]. unfold image. set (room := _ - _). assert (4 <= room) as Hr by (unfold room, XATTR_PADDING_SIZE; lia).
  pose proof (entries_fit hdr es room Hh Hr) as Hl. unfold XATTR_FIRST_ENTRY. rewrite Z.add_0_l, <- Hh. unfold area in *.
  destruct buffer.
  - rewrite list_xattrs_buffer by done. cbn [obind]. destruct (Z.ltb_spec size (zlen (names c es))); [by eauto|].
    eexists. split; [done|]. left. cbn [app]. f_equal. replace (size - (size - zlen (names c es))) with (zlen (names c es)) by lia.
    rewrite u64_id by lia. apply s32_id. lia.
  - pose proof (list_xattrs_null c es Hes hdr room _ size Hr Hl) as Hnull. rewrite (u64_id size) in Hnull by lia. rewrite Hnull. cbn [obind]. eexists. split; [done|]. left. f_equal.
    replace (u64 (size - u64 (size - zlen (names c es)))) with (zlen (names c es)); [apply s32_id; lia|].
    unfold u64. rewrite Zminus_mod_idemp_r. replace (size - (size - zlen (names c es))) with (zlen (names c es)) by lia. symmetry. apply Z.mod_small. lia.
Qed.
End xattr_map.
