(* ===== verification/XattrSpec.v ===== *)
(** * The theorems about extended attributes

    Any sequence of operations on the bytes behaves like one on a finite map
    ([xattr_refines]); the two-step lookup is the plain one; listing. *)
From stdpp Require Import gmap.
From S2P Require Import Prelude Bytes Xattr XattrProps XattrMap.
Open Scope Z_scope.

Abbreviation xattrs := (gmap (Z * list Z) (list Z)).
Definition xkv (x : xent) : (Z * list Z) * list Z := (x_key x, x_value x).
Definition xmap (es : list xent) : xattrs := list_to_map (xkv <$> es).
(** The bytes the attributes take *)
Definition kv_size (kv : (Z * list Z) * list Z) : Z := XATTR_ALIGN (XENT + zlen (snd (fst kv)) + zlen (snd kv)).
Definition used (m : xattrs) : Z := foldr Z.add 0 (kv_size <$> map_to_list m).

Lemma xmap_lookup es k : xmap es !! k = x_value <$> head (from k es).
Proof.
  unfold xmap. induction es as [|x es IH]; [done|]. cbn. case_bool_decide as E.
  - by rewrite <- E, lookup_insert_eq.
  - by rewrite lookup_insert_ne.
Qed.
Lemma keys_remove k es : NoDup (x_key <$> es) -> NoDup (x_key <$> remove k es) /\ (k ∉ (x_key <$> remove k es)) /\
  (forall j, j ∈ (x_key <$> remove k es) -> j ∈ (x_key <$> es)).
Proof.
  unfold remove. induction es as [|x es IH]; [intros; split_and!; [constructor|apply not_elem_of_nil|done]|]. cbn. rewrite list.NoDup_cons.
  intros [Hx Hd]. case_bool_decide as E; cbn.
  - rewrite <- E. split_and!; [done|done|]. intros j Hj. by right.
  - destruct (IH Hd) as (H1 & H2 & H3). rewrite list.NoDup_cons, not_elem_of_cons. split_and!; [by intros ?%H3|done|done|done|].
    intros j. rewrite !elem_of_cons. intros [->|Hj]; [by left|right; by apply H3].
Qed.
Lemma xmap_remove k es : NoDup (x_key <$> es) -> xmap (remove k es) = delete k (xmap es).
Proof.
  unfold xmap, remove. induction es as [|x es IH]; [intros; symmetry; apply delete_empty|]. cbn. rewrite list.NoDup_cons. intros [Hx Hd].
  case_bool_decide as E; cbn.
  - rewrite <- E, delete_insert_id; [done|]. apply not_elem_of_list_to_map_1. rewrite <- list_fmap_compose. exact Hx.
  - rewrite IH by done. by rewrite delete_insert_ne by done.
Qed.
Lemma xmap_new es index name value : (index, name) ∉ (x_key <$> es) -> xmap (es ++ [x_new index name value]) = <[(index, name) := value]> (xmap es).
Proof.
  induction es as [|x es IH]; [done|]. rewrite fmap_cons, not_elem_of_cons. intros [Hx Hn]. cbn [app].
  change (<[x_key x := x_value x]> (xmap (es ++ [x_new index name value])) = <[(index, name) := value]> (<[x_key x := x_value x]> (xmap es))).
  rewrite IH by done.  by apply insert_insert_ne.
Qed.
Lemma keys_new es x : x_key x ∉ (x_key <$> es) -> NoDup (x_key <$> es) -> NoDup (x_key <$> (es ++ [x])).
Proof.
  intros Hx Hd. rewrite fmap_app. apply list.NoDup_app. split_and!; [done| |apply NoDup_singleton].
  intros k Hk Hk'. cbn in Hk'. apply list_elem_of_singleton in Hk'. by subst.
Qed.
Lemma used_sizes es : NoDup (x_key <$> es) -> used (xmap es) = x_sizes es.
Proof.
  intros Hd. unfold used, xmap.
  assert (map_to_list (list_to_map (M := xattrs) (xkv <$> es)) ≡ₚ (xkv <$> es)) as Hp by (apply map_to_list_to_map; by rewrite <- list_fmap_compose).
  assert (forall l l' : list ((Z * list Z) * list Z), l ≡ₚ l' -> foldr Z.add 0 (kv_size <$> l) = foldr Z.add 0 (kv_size <$> l')) as Hs
    by (induction 1; cbn; lia).
  rewrite (Hs _ _ Hp). clear. induction es as [|x es IH]; [done|]. cbn. rewrite IH. done.
Qed.

Section spec.
Context `{XattrFormatOk}.

(** ** The specification: a finite map with a bounded size *)

Definition spec_set (i : xinode) (m : xattrs) (index : Z) (name : list Z) (value : option (list Z)) (flags : Z) : Z * xattrs :=
  let k := (index, name) in
  if F2FS_NAME_LEN <? zlen name then (- ERANGE, m)
  else if MAX_VALUE_LEN i <? zlen (default [] value) then (- E2BIG, m)
  else if isSome (m !! k) && nz (Z.land flags XATTR_CREATE) then (- EEXIST, m)
  else if negb (isSome (m !! k)) && nz (Z.land flags XATTR_REPLACE) then (- ENODATA, m)
  else match value with
  | None => (0, delete k m)
  | Some v =>
      if bool_decide (m !! k = Some v) then (0, m)
      else if MIN_OFFSET i <? XHDR + used (delete k m) + kv_size (k, v) then (- E2BIG, m)
      else (0, <[k := v]> m)
  end.
Definition spec_get (m : xattrs) (k : Z * list Z) (buffer : option Z) : Z * option (list Z) :=
  if F2FS_NAME_LEN <? zlen (snd k) then (- ERANGE, None) else
  match m !! k, buffer with
  | None, _ => (- ENODATA, None)
  | Some v, None => (zlen v, None)
  | Some v, Some n => if n <? zlen v then (- ERANGE, None) else (zlen v, Some v)
  end.
(** The inode has the map's attributes, each once, in its two areas; the size of the
    inline one is 0 or at least 28 bytes ([xinode_wf], part of [holds]). *)
Definition represents (i : xinode) (m : xattrs) : Prop := exists es, holds i es /\ NoDup (x_key <$> es) /\ xmap es = m.

(** Removing an attribute, there or not *)
Lemma remove_spec i m index : represents i m -> spec_set i m index [] None 0 = (0, delete (index, []) m).
Proof.
  intros (es & Hi & _ & _). pose proof name_len. pose proof (h_wf _ _ Hi) as W. pose proof block_size. pose proof (inline_nonneg i W).
  unfold spec_set. cbn [default]. change (zlen []) with 0. replace (F2FS_NAME_LEN <? 0) with false by lia.
  unfold MAX_VALUE_LEN. rewrite min_offset. unfold XHDR, XENT. replace (_ <? 0) with false by lia. by rewrite !andb_false_r.
Qed.
Lemma get_list_spec es k buffer : get_list es k buffer = spec_get (xmap es) k buffer.
Proof. unfold get_list, spec_get. rewrite xmap_lookup. by destruct (_ <? _), (from k es), buffer. Qed.
Lemma set_list_spec i es index name value flags : NoDup (x_key <$> es) ->
  (fst (set_list i es index name value flags), xmap (snd (set_list i es index name value flags))) = spec_set i (xmap es) index name value flags /\
  NoDup (x_key <$> snd (set_list i es index name value flags)).
Proof.
  intros Hd. unfold set_list, spec_set. set (k := (index, name)). destruct (_ <? zlen name); [done|]. destruct (_ <? zlen (default [] value)); [done|].
  destruct (keys_remove k es Hd) as (R1 & R2 & R3). pose proof (xmap_remove k es Hd) as Hrm. pose proof (used_sizes _ R1) as Hu. rewrite Hrm in Hu.
  pose proof (xmap_lookup es k) as Hl. unfold update_list. fold k. destruct (from k es) as [|x l] eqn:Hf; cbn in Hl; rewrite Hl; cbn [isSome negb andb].
  - assert (remove k es = es) as Er by (unfold remove; pose proof (before_from k es) as E; rewrite Hf in *; by rewrite <- E at 2).
    rewrite Er in *. rewrite <- Hrm, used_sizes by done. destruct (nz (Z.land flags XATTR_REPLACE)); [done|].
    destruct value as [v|]; [|done]. rewrite bool_decide_eq_false_2 by done.
    change (kv_size (k, v)) with (x_size (x_new index name v)). destruct (_ <? _); [done|]. cbn [fst snd]. split; [by rewrite xmap_new|by apply keys_new].
  - destruct (nz (Z.land flags XATTR_CREATE)); [by destruct value|]. destruct value as [v|]; [|cbn [fst snd]; by rewrite Hrm].
    destruct (decide (v = x_value x)) as [->|Hne]; [by rewrite !bool_decide_eq_true_2|]. rewrite !bool_decide_eq_false_2 by congruence.
    rewrite <- Hu. change (kv_size (k, v)) with (x_size (x_new index name v)). destruct (_ <? _); [done|]. cbn [fst snd].
    split; [|by apply keys_new]. rewrite xmap_new by done. by rewrite Hrm, insert_delete_eq.
Qed.

(** ** Sequences of operations *)

Inductive xop :=
| OSet (env : xenv) (fresh : list Z) (index : Z) (name : list Z) (value : option (list Z)) (flags : Z)
| OGet (env : xenv) (index : Z) (name : list Z) (buffer : option Z).
Inductive xres := RSet (err : Z) | RGet (r : Z * option (list Z)).
Definition do_op (i : xinode) (o : xop) : outcome (xres * xinode) :=
  match o with
  | OSet env fresh index name value flags =>
      r <-- __f2fs_setxattr env fresh i index (Some name) value flags ;; Done (RSet (fst r), snd r)
  | OGet env index name buffer => r <-- f2fs_getxattr env i index (Some name) buffer ;; Done (RGet r, i)
  end.
Fixpoint do_ops (i : xinode) (os : list xop) : outcome (list xres * xinode) :=
  match os with
  | [] => Done ([], i)
  | o :: os => r <-- do_op i o ;; rs <-- do_ops (snd r) os ;; Done (fst r :: fst rs, snd rs)
  end.
Definition op_env (o : xop) : xenv := match o with OSet env _ _ _ _ _ | OGet env _ _ _ => env end.
Definition op_ok (o : xop) : Prop :=
  match o with
  | OSet env fresh index _ _ _ => env_ok env /\ zlen fresh = VALID_XATTR_BLOCK_SIZE /\ 0 < index < 256
  | OGet _ _ _ _ => True
  end.
(** One operation of the specification; a failure around it changes nothing. *)
Definition abs_op (i : xinode) (m : xattrs) (o : xop) (r : xres) (m' : xattrs) : Prop :=
  match o with
  | OSet env _ index name value flags =>
      (r = RSet (fst (spec_set i m index name value flags)) /\ m' = snd (spec_set i m index name value flags)) \/
      (exists e, r = RSet e /\ e <> 0 /\ e ∈ env_fails env /\ ~ env_quiet env /\ m' = m)
  | OGet env index name buffer =>
      m' = m /\ (r = RGet (spec_get m (index, name) buffer) \/ exists e, r = RGet (e, None) /\ e <> 0 /\ e ∈ env_fails env /\ ~ env_quiet env)
  end.
Fixpoint abs_ops (i : xinode) (m : xattrs) (os : list xop) (rs : list xres) (m' : xattrs) : Prop :=
  match os, rs with
  | [], [] => m' = m
  | o :: os, r :: rs => exists m1, abs_op i m o r m1 /\ abs_ops i m1 os rs m'
  | _, _ => False
  end.

(** The specification only looks at the size of the inline area. *)
Lemma spec_set_size i j m index name value flags : i_inline_xattr_size i = i_inline_xattr_size j ->
  spec_set i m index name value flags = spec_set j m index name value flags.
Proof. intros E. unfold spec_set, MAX_VALUE_LEN, MIN_OFFSET, inline_xattr_size. by rewrite E. Qed.
Lemma abs_op_size i j m o r m' : i_inline_xattr_size i = i_inline_xattr_size j -> abs_op i m o r m' -> abs_op j m o r m'.
Proof. intros E. destruct o; cbn [abs_op]; [|done]. by rewrite (spec_set_size i j) by done. Qed.

Lemma op_refines i m o : represents i m -> held i = [] -> op_ok o ->
  exists r i' m', do_op i o = Done (r, i') /\ abs_op i m o r m' /\ represents i' m' /\ held i' = [] /\ i_inline_xattr_size i' = i_inline_xattr_size i.
Proof.
  intros (es & Hi & Hd & <-) Hh Ho. destruct o as [env fresh index name value flags|env index name buffer]; cbn [do_op abs_op op_ok] in *.
  - destruct Ho as (He & Hf & Hx). assert (forall nid, e_alloc_nid env = Some nid -> ~ In nid (held i)) as Hn by (intros ? _; rewrite Hh; by intros []).
    destruct (setxattr_list env fresh i es index name value flags He Hf Hn Hi Hx) as (r & i' & -> & Hh' & Hs & Hc).
    cbn [obind fst snd]. destruct (set_list_spec i es index name value flags Hd) as [Hsp Hd']. destruct Hc as [[-> Hi']|(Hne & Hin & Hq & Hi')].
    + do 3 eexists. split; [done|]. split; [left; rewrite <- Hsp; done|]. split_and!; [|congruence|done]. cbn [snd]. eexists. split_and!; done.
    + do 3 eexists. split; [done|]. split; [right; by eauto 10|]. split_and!; [|congruence|done]. eexists. split_and!; done.
  - destruct (getxattr_list env i es index name buffer Hi) as (r & -> & Hr). cbn [obind]. do 3 eexists. split; [done|]. rewrite get_list_spec in Hr.
    split; [|split_and!; [by exists es|done|done]]. split; [done|]. destruct Hr as [->|(E & ? & ? & ?)]; [by left|]. right. destruct r as [e o]. cbn in *. subst o. exists e. by split_and!.
Qed.
Definition new_xinode (addrs mode : Z) : xinode :=
  {| i_inline_xattr_size := addrs; i_xattr_nid := 0; inline_addr := zeros (addrs * 4); xpage := []; i_mode := mode; i_acl_mode := None;
     i_advise := 0; encrypted := false; need_cp := false; held := [] |}.
Lemma new_represents addrs mode : addrs = 0 \/ 7 <= addrs -> addrs * 4 + VALID_XATTR_BLOCK_SIZE < 65536 -> represents (new_xinode addrs mode) ∅.
Proof.
  intros Ha Hs. pose proof block_size. exists []. split_and!; [|constructor|done].
  assert (MIN_OFFSET (new_xinode addrs mode) = addrs * 4 + VALID_XATTR_BLOCK_SIZE) as Em by (rewrite min_offset; done).
  split; cbn.
  - split; cbn; unfold inline_xattr_size; cbn; [lia|done|apply zlen_zeros; lia|done].
  - split; [constructor|]. rewrite Em. cbn. unfold XHDR. lia.
  - exists (zeros XHDR). split; [done|]. unfold both_areas, image, area, inline_xattr_size. rewrite Em. cbn [new_xinode inline_addr i_xattr_nid nz Z.eqb negb encs app x_sizes].
    unfold XHDR, XATTR_PADDING_SIZE. rewrite !zeros_app by lia. f_equal. lia.
  - by left.
Qed.
Lemma ops_refine os : forall i m, represents i m -> held i = [] -> Forall op_ok os ->
  exists rs i' m', do_ops i os = Done (rs, i') /\ abs_ops i m os rs m' /\ represents i' m' /\ held i' = [].
Proof.
  induction os as [|o os IH]; intros i m Hr Hh Ho; [by exists [], i, m|]. inversion Ho as [|? ? Ho1 Ho2]; subst.
  destruct (op_refines i m o Hr Hh Ho1) as (r & i1 & m1 & E1 & A1 & R1 & H1 & S1).
  destruct (IH i1 m1 R1 H1 Ho2) as (rs & i2 & m2 & E2 & A2 & R2 & H2). exists (r :: rs), i2, m2. cbn [do_ops abs_ops].
  rewrite E1. cbn [obind fst snd]. rewrite E2. cbn [obind fst snd]. split_and!; try done. exists m1. split; [done|].
  clear -A2 S1. revert m1 rs A2. induction os as [|o os IH]; intros m1 [|r rs]; cbn [abs_ops]; try done.
  intros (m3 & A & B). exists m3. split; [by eapply abs_op_size|by apply IH].
Qed.

(** ** The properties *)

(** C9. Whatever sequence of setxattr, removexattr and getxattr calls a new inode
    goes through whose inline xattr area has no word or at least seven (28 bytes:
    the header and the end of the list; the mount accepts 1 to 6, where
    [small_inline_loses] and [tiny_inline_overruns] below are what happens), with any of the calls around them failing at will, no access
    leaves a buffer, every call returns what the finite map of attributes says
    or the error of the failed call, a failed call changes nothing, no nid is
    leaked, and the two areas represent the map. *)
Theorem xattr_refines addrs mode os : addrs = 0 \/ 7 <= addrs -> addrs * 4 + VALID_XATTR_BLOCK_SIZE < 65536 -> Forall op_ok os ->
  exists rs i' m', do_ops (new_xinode addrs mode) os = Done (rs, i') /\ abs_ops (new_xinode addrs mode) ∅ os rs m' /\ represents i' m' /\ held i' = [].
Proof. intros. apply ops_refine; [by apply new_represents|done|done]. Qed.

(** C39. The lookup that searches the inline area first and reads the node block
    only when it must finds what reading everything and searching once finds:
    the same entry, with the same bytes, or none; on an inode that represents a map
    of attributes, whose inline xattr area is 0 or at least 28 bytes ([xw_inline];
    with 24, which the mount accepts, [small_inline_loses] is a difference), when no
    read fails. *)
Theorem lookup_two_step i m env index name : represents i m -> env_quiet env ->
  exists t e, read_all_xattrs env i = Done (inr t) /\ __find_xattr t 0 index name = Done e /\
    ((IS_XATTR_LAST_ENTRY t e = Done true /\ lookup_all_xattrs env i index name = Done (inl (- ENODATA))) \/
     (exists t' s l, IS_XATTR_LAST_ENTRY t e = Done false /\ lookup_all_xattrs env i index name = Done (inr (e, t')) /\
       ENTRY_SIZE t e = Done s /\ ENTRY_SIZE t' e = Done s /\ rd t e s = Done l /\ rd t' e s = Done l)).
Proof.
  intros (es & Hi & _ & _) Hq. destruct (read_all_list env i es Hi) as [(? & _ & _ & _ & ?)|(hdr & Hh & E)]; [done|].
  destruct (lookup_list env i es index name Hi) as [(? & _ & _ & _ & ?)|(r & -> & Hr)]; [done|].
  destruct (h_fits _ _ Hi) as [Hes Hfit]. set (room := MIN_OFFSET i + XATTR_PADDING_SIZE - (XHDR + x_sizes es)) in *.
  assert (4 <= room) as Hrm by (unfold room, XATTR_PADDING_SIZE; lia).
  exists (image i hdr es), (XHDR + x_sizes (before (index, name) es)). split; [done|]. unfold image. fold room. split; [by apply find_area|].
  destruct (check_area hdr es room (index, name) Hh Hes Hrm) as (c & Hc & Hf). unfold check_entry in Hc, Hf. unfold found_at in *.
  destruct (IS_XATTR_LAST_ENTRY _ _) as [b| |]; cbn [obind] in Hc; [|by destruct (from (index, name) es)..].
  destruct (from (index, name) es) as [|x l]; [left; subst; split; [by destruct b; congruence|done]|right].
  destruct Hr as (pre & post & -> & Hp & Hx), Hf as (pre' & post' & -> & Hp' & _). destruct b; [congruence|].
  assert (area hdr es room = pre' ++ enc x ++ post') as -> by congruence.
  exists (pre ++ enc x ++ post), (x_size x), (enc x). split_and!; try done.
  - rewrite <- Hp'. by apply read_size.
  - rewrite <- Hp. by apply read_size.
  - rewrite <- Hp'. apply rd_app; [done|by rewrite zlen_enc].
  - rewrite <- Hp. apply rd_app; [done|by rewrite zlen_enc].
Qed.

(** listxattr gives the name of every attribute whose handler exists and lists
    it, prefixed and closed by a NUL, once; without a buffer the size of that,
    with a buffer that is too small ERANGE, with one of that size the names. *)
Theorem listxattr_names c i m env size : represents i m -> env_quiet env -> 0 <= size < 18446744073709551616 ->
  exists es : list xent, xkv <$> es ≡ₚ map_to_list m /\ 
    (zlen (names c es) < 2147483648 ->
     f2fs_listxattr c env i false size = Done (zlen (names c es), []) /\
     f2fs_listxattr c env i true size = Done (if size <? zlen (names c es) then (- ERANGE, []) else (zlen (names c es), names c es))).
Proof.
  intros (es & Hi & Hd & <-) Hq Hs. exists es. split.
  - symmetry. apply map_to_list_to_map. by rewrite <- list_fmap_compose.
  - intros Hn. destruct (listxattr_list c env i es false size Hi Hs Hn) as (r & -> & [->|(_ & _ & _ & ?)]); [|done].
    destruct (listxattr_list c env i es true size Hi Hs Hn) as (r & -> & [->|(_ & _ & _ & ?)]); [|done]. done.
Qed.

(** What the code does not do: setting an attribute to the value it has returns
    at once, and the mode an ACL change has prepared (FI_ACL_MODE) is not put
    into i_mode. *)
Lemma same_value_keeps_mode i m env fresh index name v : represents i m -> env_quiet env -> 0 < index < 256 -> zlen name <= F2FS_NAME_LEN ->
  zlen v <= MAX_VALUE_LEN i -> m !! (index, name) = Some v -> __f2fs_setxattr env fresh i index (Some name) (Some v) 0 = Done (0, i).
Proof.
  intros (es & Hi & Hd & <-) Hq Hx Hn Hv Hl. pose proof (max_value _ (h_wf _ _ Hi)). pose proof name_len. unfold __f2fs_setxattr.
  replace (F2FS_NAME_LEN <? zlen name) with false by lia. replace (MAX_VALUE_LEN i <? zlen v) with false by lia.
  destruct (read_all_list env i es Hi) as [(? & _ & _ & _ & ?)|(hdr & Hh & ->)]; [done|]. cbn [obind].
  rewrite update_xattrs_list by (done || apply Hi || cbn; lia). cbn [obind]. rewrite xmap_lookup in Hl. unfold update_list.
  destruct (from (index, name) es) as [|x l]; [done|]. injection Hl as ->. cbn [nz Z.land Z.eqb negb]. by rewrite bool_decide_eq_true_2.
Qed.
End spec.

(** ** Concrete inodes *)

Definition quiet : xenv := {| e_nomem := false; e_ipage := false; e_read_inode := 0; e_read_xattr := 0; e_alloc_nid := Some 9; e_write_inode := 0;
  e_trunc_xattr := 0; e_write_xattr := 0; e_new_page := 0 |}.
Definition no_space : xenv := {| e_nomem := false; e_ipage := false; e_read_inode := 0; e_read_xattr := 0; e_alloc_nid := None; e_write_inode := 0;
  e_trunc_xattr := 0; e_write_xattr := 0; e_new_page := 0 |}.
Lemma quiet_ok : env_ok quiet /\ env_quiet quiet.
Proof. split; repeat split; try done. by exists 9. Qed.
Section demo.
#[local] Existing Instance linux_xattr.
#[local] Existing Instance linux_xattr_ok.
Definition page0 : list Z := zeros 4072.
Definition demo_ops : list xop :=
  [OSet quiet page0 1 [97] (Some [1; 2; 3]) 0; OSet quiet page0 1 [98] (Some (zeros 300)) 0; OSet quiet page0 1 [97] (Some [7]) 0;
   OGet quiet 1 [97] (Some 8); OSet no_space page0 4 [99] (Some [5]) 2; OSet quiet page0 1 [98] None 0; OGet quiet 1 [98] None].
Lemma demo_set env index name value flags : env_ok env -> 0 < index < 256 -> op_ok (OSet env page0 index name value flags).
Proof. intros. split_and!; [done|by vm_compute|lia..]. Qed.
(** The list spills into a node block and comes back. *)
Lemma xattr_refines_witness : do_ops (new_xinode 50 0) [] = Done ([], new_xinode 50 0) /\
  exists rs i' m', do_ops (new_xinode 50 0) demo_ops = Done (rs, i') /\ abs_ops (new_xinode 50 0) ∅ demo_ops rs m' /\ represents i' m' /\ held i' = [].
Proof.
  split; [done|]. apply (xattr_refines 50 0 demo_ops); [lia|done|].
  repeat (constructor; [first [exact I|apply demo_set; [by repeat split|lia]]|]). constructor.
Defined.
Example demo_results : exists rs i', do_ops (new_xinode 50 0) demo_ops = Done (rs, i') /\
  rs = [RSet 0; RSet 0; RSet 0; RGet (1, Some [7]); RSet (- ENODATA); RSet 0; RGet (- ENODATA, None)] /\ i_xattr_nid i' = 0.
Proof. do 2 eexists. split; [vm_compute; reflexivity|by split]. Qed.
(** An inode with two attributes *)
Definition demo_es : list xent := [x_new 1 [97] [1; 2; 3]; x_new 6 [115] [4]].
Definition demo_inode : xinode := (new_xinode 50 0) <| inline_addr := area (zeros 24) demo_es 160 |>.
Definition demo_map : xattrs := {[ (1, [97]) := [1; 2; 3]; (6, [115]) := [4] ]}.
Lemma demo_represents : represents demo_inode demo_map.
Proof.
  exists demo_es. split_and!; [|repeat constructor; set_solver|by vm_compute]. split.
  - split; [right; by vm_compute|by vm_compute|by vm_compute|intros Hn; by destruct Hn].
  - split; [constructor; [by vm_compute|constructor; [by vm_compute|constructor]]|by vm_compute].
  - exists (zeros 24). split; [done|]. by vm_compute.
  - intros _. right. by vm_compute.
Qed.
Lemma lookup_two_step_witness : f2fs_getxattr quiet demo_inode 6 (Some [115]) (Some 8) = Done (1, Some [4]) /\ exists t e, read_all_xattrs quiet demo_inode = Done (inr t) /\ __find_xattr t 0 6 [115] = Done e /\
    ((IS_XATTR_LAST_ENTRY t e = Done true /\ lookup_all_xattrs quiet demo_inode 6 [115] = Done (inl (- ENODATA))) \/
     (exists t' s l, IS_XATTR_LAST_ENTRY t e = Done false /\ lookup_all_xattrs quiet demo_inode 6 [115] = Done (inr (e, t')) /\
       ENTRY_SIZE t e = Done s /\ ENTRY_SIZE t' e = Done s /\ rd t e s = Done l /\ rd t' e s = Done l)).
Proof. split; [by vm_compute|]. exact (lookup_two_step demo_inode demo_map quiet 6 [115] demo_represents (proj2 quiet_ok)). Defined.
Definition demo_ctx : xattr_ctx := {| XATTR_USER_PREFIX := [117; 46]; XATTR_TRUSTED_PREFIX := [116; 46]; XATTR_SECURITY_PREFIX := [115; 46];
  posix_acl_access_xattr_handler := {| h_prefix := [112]; h_list := false |}; posix_acl_default_xattr_handler := {| h_prefix := [113]; h_list := false |};
  opt_xattr_user := true; cap_sys_admin := false; owner_or_capable := false |}.
Lemma listxattr_names_witness : f2fs_listxattr demo_ctx quiet demo_inode true 20 = Done (8, [117; 46; 97; 0; 115; 46; 115; 0]) /\
  exists es : list xent, xkv <$> es ≡ₚ map_to_list demo_map /\ 
    (zlen (names demo_ctx es) < 2147483648 ->
     f2fs_listxattr demo_ctx quiet demo_inode false 20 = Done (zlen (names demo_ctx es), []) /\
     f2fs_listxattr demo_ctx quiet demo_inode true 20 =
       Done (if 20 <? zlen (names demo_ctx es) then (- ERANGE, []) else (zlen (names demo_ctx es), names demo_ctx es))).
Proof. split; [by vm_compute|]. apply (listxattr_names demo_ctx demo_inode demo_map quiet 20 demo_represents (proj2 quiet_ok)). lia. Defined.

(** ** What the code does wrong *)

(** inline_xattr_size is accepted from 1 on.  With 6 (24 bytes, the header) an
    attribute can be set but not found: the inline search sees the end of the
    list in bytes it has not read. *)
Lemma small_inline_loses : exists i', __f2fs_setxattr quiet page0 (new_xinode 6 0) 1 (Some [97]) (Some [1; 2; 3]) 0 = Done (0, i') /\
  f2fs_getxattr quiet i' 1 (Some [97]) (Some 8) = Done (- ENODATA, None) /\
  (t <-- read_all_xattrs quiet i' ;; match t with inr t => e <-- __find_xattr t 0 1 [97] ;; IS_XATTR_LAST_ENTRY t e | inl _ => Bug end) = Done false.
Proof. eexists. split; [vm_compute; reflexivity|]. split; vm_compute; reflexivity. Qed.
(** With less the lookup reads outside its buffer. *)
Lemma tiny_inline_overruns : f2fs_getxattr quiet (new_xinode 4 0) 1 (Some [97]) None = Bug.
Proof. by vm_compute. Qed.
(** Nothing checks the sizes in the image: an entry whose value is said to be
    longer than the area sends the walk over the list outside the buffer. *)
Definition bad_inode : xinode := (new_xinode 50 0) <| inline_addr := zeros 24 ++ [1; 1; 255; 255; 98; 0; 0; 0] ++ zeros 168 |>.
Lemma corrupt_entry_overruns : f2fs_getxattr quiet bad_inode 1 (Some [97]) None = Bug.
Proof. by vm_compute. Qed.
End demo.
