(* ===== verification/Acl.v ===== *)
(** * POSIX ACLs ([acl.c], [acl.h])

    An ACL is kept in an extended attribute: a version and the entries, short
    ones (tag and permissions) for the owner, the group, the mask and the
    others, long ones (with an id) for named users and groups. *)
From stdpp Require Import gmap.
From S2P Require Import Prelude Bytes Xattr XattrProps XattrMap XattrSpec.
Open Scope Z_scope.

(** [<linux/posix_acl.h>], the permission bits of [<linux/stat.h>] and the id
    conversions of the initial user namespace *)
Class AclKernel := {
  ACL_USER_OBJ : Z;
  ACL_USER : Z;
  ACL_GROUP_OBJ : Z;
  ACL_GROUP : Z;
  ACL_MASK : Z;
  ACL_OTHER : Z;
  ACL_TYPE_ACCESS : Z;
  ACL_TYPE_DEFAULT : Z;
  S_IRWXU : Z;
  S_IRWXG : Z;
  S_IRWXO : Z;
  S_IRWXUGO : Z;
  make_kuid : Z -> Z;
  from_kuid : Z -> Z;
  make_kgid : Z -> Z;
  from_kgid : Z -> Z;
}.
Definition F2FS_ACL_VERSION : Z := 1.
Definition EACCES : Z := 13.
(** sizes of struct f2fs_acl_header, f2fs_acl_entry_short and f2fs_acl_entry *)
Definition ACL_HDR : Z := 4.
Definition ACL_SHORT : Z := 4.
Definition ACL_LONG : Z := 8.

(** struct posix_acl_entry, with e_uid and e_gid as one field, and struct posix_acl *)
Record posix_acl_entry := { e_tag : Z; e_perm : Z; e_id : Z }.
#[export] Instance eta_acl_entry : Eta posix_acl_entry := fun e => Build_posix_acl_entry (e_tag e) (e_perm e) (e_id e).
#[export] Instance acl_entry_inhabited : Inhabited posix_acl_entry := populate {| e_tag := 0; e_perm := 0; e_id := 0 |}.
Abbreviation posix_acl := (list posix_acl_entry).

(** [ssize_t] of a [size_t] *)
Definition s64 (x : Z) : Z := let y := u64 x in if y <? 2 ^ 63 then y else y - 2 ^ 64.
Definition f2fs_acl_size (count : Z) : Z :=
  if count <=? 4 then ACL_HDR + count * ACL_SHORT else ACL_HDR + 4 * ACL_SHORT + (count - 4) * ACL_LONG.
Definition f2fs_acl_count (size : Z) : Z :=
  let size := u64 (size - ACL_HDR) in
  let s := s64 (size - 4 * ACL_SHORT) in
  if s <? 0 then if nz (size mod ACL_SHORT) then -1 else s32 (size / ACL_SHORT)
  else if nz (s mod ACL_LONG) then -1 else s32 (s / ACL_LONG + 4).

Section acl.
Context `{XattrFormat} `{AclKernel}.

Definition short_tag (tag : Z) : bool := (tag =? ACL_USER_OBJ) || (tag =? ACL_GROUP_OBJ) || (tag =? ACL_MASK) || (tag =? ACL_OTHER).

(** The loop of f2fs_acl_from_disk: [n] entries from offset [entry] on; [None] is "goto fail" *)
Fixpoint acl_entries (n : nat) (value : list Z) (entry : Z) : outcome (option (posix_acl * Z)) :=
  match n with
  | O => Done (Some ([], entry))
  | S n =>
      if zlen value <? entry then Done None else
      tag <-- rd16 value entry ;;
      perm <-- rd16 value (entry + 2) ;;
      let more id next :=
        r <-- acl_entries n value next ;;
        Done (match r with Some (acl, entry) => Some ({| e_tag := tag; e_perm := perm; e_id := id |} :: acl, entry) | None => None end) in
      if short_tag tag then more 0 (entry + ACL_SHORT)
      else if tag =? ACL_USER then id <-- rd32 value (entry + 4) ;; more (make_kuid id) (entry + ACL_LONG)
      else if tag =? ACL_GROUP then id <-- rd32 value (entry + 4) ;; more (make_kgid id) (entry + ACL_LONG)
      else Done None
  end.
(** An error, NULL or an ACL; [nomem] when posix_acl_alloc fails *)
Definition f2fs_acl_from_disk (nomem : bool) (value : list Z) : outcome (Z + option posix_acl) :=
  version <-- rd32 value 0 ;;
  if negb (version =? F2FS_ACL_VERSION) then Done (inl (- EINVAL)) else
  let count := f2fs_acl_count (zlen value) in
  if count <? 0 then Done (inl (- EINVAL)) else
  if count =? 0 then Done (inr None) else
  if nomem then Done (inl (- ENOMEM)) else
  r <-- acl_entries (Z.to_nat count) value ACL_HDR ;;
  match r with
  | Some (acl, entry) => if entry =? zlen value then Done (inr (Some acl)) else Done (inl (- EINVAL))
  | None => Done (inl (- EINVAL))
  end.

(** The loop of f2fs_acl_to_disk *)
Fixpoint put_entries (acl : posix_acl) (b : list Z) (entry : Z) : outcome (option (list Z)) :=
  match acl with
  | [] => Done (Some b)
  | a :: acl =>
      b <-- wr b entry (le_put 2 (e_tag a)) ;;
      b <-- wr b (entry + 2) (le_put 2 (e_perm a)) ;;
      if e_tag a =? ACL_USER then b <-- wr b (entry + 4) (le_put 4 (from_kuid (e_id a))) ;; put_entries acl b (entry + ACL_LONG)
      else if e_tag a =? ACL_GROUP then b <-- wr b (entry + 4) (le_put 4 (from_kgid (e_id a))) ;; put_entries acl b (entry + ACL_LONG)
      else if short_tag (e_tag a) then put_entries acl b (entry + ACL_SHORT)
      else Done None
  end.
(** [mem] is what f2fs_kmalloc gives: NULL or memory with unknown contents. *)
Definition f2fs_acl_to_disk (mem : option (list Z)) (acl : posix_acl) : outcome (Z + list Z * Z) :=
  match mem with
  | None => Done (inl (- ENOMEM))
  | Some b =>
      b <-- wr b 0 (le_put 4 F2FS_ACL_VERSION) ;;
      r <-- put_entries acl b ACL_HDR ;;
      Done (match r with Some b => inr (b, f2fs_acl_size (zlen acl)) | None => inl (- EINVAL) end)
  end.

(** ** The attribute of an inode *)

(** [nomem]: f2fs_kmalloc and posix_acl_alloc fail *)
Definition __f2fs_get_acl (env : xenv) (nomem : bool * bool) (i : xinode) (type : Z) : outcome (Z + option posix_acl) :=
  let name_index := if type =? ACL_TYPE_ACCESS then F2FS_XATTR_INDEX_POSIX_ACL_ACCESS else F2FS_XATTR_INDEX_POSIX_ACL_DEFAULT in
  r <-- f2fs_getxattr env i name_index (Some []) None ;;
  let retval := fst r in
  if (0 <? retval) && fst nomem then Done (inl (- ENOMEM)) else
  r <-- (if 0 <? retval then f2fs_getxattr env i name_index (Some []) (Some retval) else Done r) ;;
  let '(retval, value) := r in
  if 0 <? retval then f2fs_acl_from_disk (snd nomem) (default [] value)
  else if retval =? - ENODATA then Done (inr None)
  else if retval =? 0 then Done (inr None)
  else Done (inl retval).
Definition f2fs_get_acl (env : xenv) (nomem : bool * bool) (i : xinode) (type : Z) : outcome (Z + option posix_acl) := __f2fs_get_acl env nomem i type.

(** What posix_acl_update_mode returns: an error, or the new mode and the ACL
    (NULL when the mode says it all) *)
Abbreviation update_mode := (Z + Z * option posix_acl)%type.
Definition set_acl_inode (i : xinode) (mode : Z) : xinode := i <| i_acl_mode := Some mode |>.
Definition clear_acl_mode (i : xinode) : xinode := i <| i_acl_mode := None |>.
(** The result, the inode and the ACL given to set_cached_acl *)
Definition __f2fs_set_acl (dquot : Z) (env : xenv) (fresh : list Z) (mem : option (list Z)) (upd : update_mode) (ipage : bool)
    (i : xinode) (type : Z) (acl : option posix_acl) : outcome (Z * xinode * option (option posix_acl)) :=
  let store i name_index acl :=
    v <-- (match acl with Some a => r <-- f2fs_acl_to_disk mem a ;; Done (Some r) | None => Done None end) ;;
    match v with
    | Some (inl err) => Done (err, clear_acl_mode i, None)
    | _ =>
        let value := match v with Some (inr (b, size)) => Some (slice b 0 size) | _ => None end in
        r <-- f2fs_setxattr dquot env fresh i name_index (Some []) value 0 ;;
        let '(error, i) := r in
        Done (error, clear_acl_mode i, if nz error then None else Some acl)
    end in
  if type =? ACL_TYPE_ACCESS then
    match acl with
    | Some _ =>
        if ipage then store i F2FS_XATTR_INDEX_POSIX_ACL_ACCESS acl else
        match upd with
        | inl error => Done (error, i, None)
        | inr (mode, acl) => store (set_acl_inode i mode) F2FS_XATTR_INDEX_POSIX_ACL_ACCESS acl
        end
    | None => store i F2FS_XATTR_INDEX_POSIX_ACL_ACCESS None
    end
  else if type =? ACL_TYPE_DEFAULT then
    if negb (S_ISDIR (i_mode i)) then Done (if isSome acl then - EACCES else 0, i, None)
    else store i F2FS_XATTR_INDEX_POSIX_ACL_DEFAULT acl
  else Done (- EINVAL, i, None).
Definition f2fs_set_acl (cp_error : bool) (dquot : Z) (env : xenv) (fresh : list Z) (mem : option (list Z)) (upd : update_mode)
    (i : xinode) (acl : option posix_acl) (type : Z) : outcome (Z * xinode * option (option posix_acl)) :=
  if cp_error then Done (- EIO, i, None) else __f2fs_set_acl dquot env fresh mem upd false i type acl.

(** ** The ACLs of a new inode *)

Definition f2fs_acl_clone (nomem : bool) (acl : option posix_acl) : option posix_acl := if nomem then None else acl.
(** FOREACH_ACL_ENTRY of f2fs_acl_create_masq: the entries, the mode, the
    positions of group_obj and mask_obj, and not_equiv; [None] is -EIO *)
Record masq := { mq_acl : posix_acl; mq_mode : Z; mq_group : option nat; mq_mask : option nat; mq_not_equiv : Z }.
#[global] Instance eta_masq : Eta masq := fun m => Build_masq (mq_acl m) (mq_mode m) (mq_group m) (mq_mask m) (mq_not_equiv m).
Definition masq_entry (m : masq) (k : nat) (pa : posix_acl_entry) : option masq :=
  let put p := <[k := pa <| e_perm := p |>]> (mq_acl m) in
  if e_tag pa =? ACL_USER_OBJ then
    let p := Z.land (e_perm pa) (Z.lor (Z.shiftr (mq_mode m) 6) (Z.lnot S_IRWXO)) in
    Some (m <| mq_acl := put p |> <| mq_mode := Z.land (mq_mode m) (Z.lor (Z.shiftl p 6) (Z.lnot S_IRWXU)) |>)
  else if (e_tag pa =? ACL_USER) || (e_tag pa =? ACL_GROUP) then Some (m <| mq_not_equiv := 1 |>)
  else if e_tag pa =? ACL_GROUP_OBJ then Some (m <| mq_group := Some k |>)
  else if e_tag pa =? ACL_OTHER then
    let p := Z.land (e_perm pa) (Z.lor (mq_mode m) (Z.lnot S_IRWXO)) in
    Some (m <| mq_acl := put p |> <| mq_mode := Z.land (mq_mode m) (Z.lor p (Z.lnot S_IRWXO)) |>)
  else if e_tag pa =? ACL_MASK then Some (m <| mq_mask := Some k |> <| mq_not_equiv := 1 |>)
  else None.
Fixpoint masq_entries (m : masq) (k : nat) (acl : posix_acl) : option masq :=
  match acl with
  | [] => Some m
  | pa :: acl => match masq_entry m k pa with Some m => masq_entries m (S k) acl | None => None end
  end.
(** mask_obj or group_obj gets the group bits of the mode. *)
Definition masq_group (m : masq) (k : nat) : posix_acl * Z :=
  match mq_acl m !! k with
  | Some pa =>
      let p := Z.land (e_perm pa) (Z.lor (Z.shiftr (mq_mode m) 3) (Z.lnot S_IRWXO)) in
      (<[k := pa <| e_perm := p |>]> (mq_acl m), Z.land (mq_mode m) (Z.lor (Z.shiftl p 3) (Z.lnot S_IRWXG)))
  | None => (mq_acl m, mq_mode m)
  end.
(** The result with the ACL and the mode left behind *)
Definition f2fs_acl_create_masq (acl : posix_acl) (mode : Z) : Z * posix_acl * Z :=
  match masq_entries {| mq_acl := acl; mq_mode := mode; mq_group := None; mq_mask := None; mq_not_equiv := 0 |} 0 acl with
  | None => (- EIO, acl, mode)
  | Some m =>
      match (match mq_mask m with Some k => Some k | None => mq_group m end) with
      | None => (- EIO, mq_acl m, mode)
      | Some k => let '(acl', mode') := masq_group m k in (mq_not_equiv m, acl', Z.lor (Z.land mode (Z.lnot S_IRWXUGO)) mode')
      end
  end.
(** [islnk] and [isdir] of the mode, IS_POSIXACL of the directory, the task's
    umask; the result, the mode, the default ACL and the ACL *)
Definition f2fs_acl_create (env : xenv) (nomem : bool * bool) (clone_fails : bool) (S_ISLNK : Z -> bool) (posixacl : bool) (umask : Z)
    (dir : xinode) (mode : Z) : outcome (Z * Z * option posix_acl * option posix_acl) :=
  if S_ISLNK mode || negb posixacl then Done (0, mode, None, None) else
  r <-- __f2fs_get_acl env nomem dir ACL_TYPE_DEFAULT ;;
  match r with
  | inr None => Done (0, Z.land mode (Z.lnot umask), None, None)
  | inl err => if err =? - EOPNOTSUPP then Done (0, Z.land mode (Z.lnot umask), None, None) else Done (err, mode, None, None)
  | inr (Some p) =>
      match f2fs_acl_clone clone_fails (Some p) with
      | None => Done (- ENOMEM, mode, None, None)
      | Some clone =>
          let '(ret, clone, mode') := f2fs_acl_create_masq clone mode in
          if ret <? 0 then Done (- ENOMEM, mode', None, None) else
          Done (0, mode', if S_ISDIR mode' then Some p else None, if ret =? 0 then None else Some clone)
      end
  end.
(** [mems], [upd]: the memory for the default ACL and the ACL, and
    posix_acl_update_mode, which is not called as the inode's page is given *)
Definition f2fs_init_acl (denv env : xenv) (nomem : bool * bool) (clone_fails : bool) (S_ISLNK : Z -> bool) (posixacl : bool) (umask dquot : Z)
    (fresh : list Z) (mems : option (list Z) * option (list Z)) (upd : update_mode) (dir i : xinode) : outcome (Z * xinode) :=
  c <-- f2fs_acl_create denv nomem clone_fails S_ISLNK posixacl umask dir (i_mode i) ;;
  let '(error, mode, default_acl, acl) := c in
  let i := i <| i_mode := mode |> in
  if nz error then Done (error, i) else
  r <-- (match default_acl with
         | Some _ => r <-- __f2fs_set_acl dquot env fresh (fst mems) upd true i ACL_TYPE_DEFAULT default_acl ;; Done (fst r)
         | None => Done (0, i)
         end) ;;
  let '(error, i) := r in
  match acl with
  | Some _ => if nz error then Done (error, i) else
      r <-- __f2fs_set_acl dquot env fresh (snd mems) upd true i ACL_TYPE_ACCESS acl ;; Done (fst r)
  | None => Done (error, i)
  end.
End acl.
