(* ===== verification/AclProps.v ===== *)
(** * The theorems about ACLs: the disk format, setting and getting an ACL, and
    the mode of a new file *)
From stdpp Require Import gmap.
From S2P Require Import Prelude Bytes Xattr XattrProps XattrMap XattrSpec Acl.
Open Scope Z_scope.

Class AclKernelOk `{AclKernel} : Prop := {
  tags_differ : NoDup [ACL_USER_OBJ; ACL_USER; ACL_GROUP_OBJ; ACL_GROUP; ACL_MASK; ACL_OTHER];
  tags_range : Forall (fun t => 0 <= t < 65536) [ACL_USER_OBJ; ACL_USER; ACL_GROUP_OBJ; ACL_GROUP; ACL_MASK; ACL_OTHER];
  kuid_id u : 0 <= u < 4294967296 -> make_kuid (from_kuid u) = u /\ 0 <= from_kuid u < 4294967296;
  kgid_id u : 0 <= u < 4294967296 -> make_kgid (from_kgid u) = u /\ 0 <= from_kgid u < 4294967296;
  rwx : S_IRWXO = 7 /\ S_IRWXG = 56 /\ S_IRWXU = 448 /\ S_IRWXUGO = 511;
  types_differ : ACL_TYPE_ACCESS <> ACL_TYPE_DEFAULT;
}.
Definition linux_acl : AclKernel := {|
  ACL_USER_OBJ := 1; ACL_USER := 2; ACL_GROUP_OBJ := 4; ACL_GROUP := 8; ACL_MASK := 16; ACL_OTHER := 32;
  ACL_TYPE_ACCESS := 32768; ACL_TYPE_DEFAULT := 16384; S_IRWXU := 448; S_IRWXG := 56; S_IRWXO := 7; S_IRWXUGO := 511;
  make_kuid u := u; from_kuid u := u; make_kgid u := u; from_kgid u := u;
|}.
Lemma linux_acl_ok : @AclKernelOk linux_acl.
Proof. split; cbn; try done; [by apply (bool_decide_unpack _)|repeat (constructor; [lia|]); constructor]. Qed.
(** Comparisons of two tags known to be equal or different *)
Ltac tag_eq := unfold short_tag; first [congruence|apply Z.eqb_neq; congruence|rewrite Z.eqb_refl, ?orb_true_r; reflexivity|
  repeat (case Z.eqb_spec; [congruence|intros _]); reflexivity].

Section props.
Context `{XattrFormatOk} `{AclKernelOk}.

(** What posix_acl_valid lets through: owner, named users, group, named groups,
    a mask (required with named entries) and others, in this order *)
Definition entry_ok (a : posix_acl_entry) : Prop := 0 <= e_perm a < 65536 /\ 0 <= e_id a < 4294967296.
Definition valid_acl (acl : posix_acl) : Prop := exists uo us go gs mk ot,
  acl = uo :: us ++ go :: gs ++ mk ++ [ot] /\ e_tag uo = ACL_USER_OBJ /\ Forall (fun a => e_tag a = ACL_USER) us /\ e_tag go = ACL_GROUP_OBJ /\
  Forall (fun a => e_tag a = ACL_GROUP) gs /\ e_tag ot = ACL_OTHER /\
  ((mk = [] /\ us = [] /\ gs = []) \/ (exists m, mk = [m] /\ e_tag m = ACL_MASK)) /\
  Forall entry_ok acl /\ Forall (fun a => short_tag (e_tag a) = true -> e_id a = 0) acl.

(** ** Entries on disk *)

Definition asize (a : posix_acl_entry) : Z := if short_tag (e_tag a) then ACL_SHORT else ACL_LONG.
Definition disk_id (a : posix_acl_entry) : Z := if e_tag a =? ACL_USER then from_kuid (e_id a) else from_kgid (e_id a).
Definition aenc (a : posix_acl_entry) : list Z :=
  le_put 2 (e_tag a) ++ le_put 2 (e_perm a) ++ (if short_tag (e_tag a) then [] else le_put 4 (disk_id a)).
Fixpoint aencs (acl : posix_acl) : list Z := match acl with [] => [] | a :: acl => aenc a ++ aencs acl end.
Fixpoint asizes (acl : posix_acl) : Z := match acl with [] => 0 | a :: acl => asize a + asizes acl end.
Lemma zlen_aenc a : zlen (aenc a) = asize a.
Proof. unfold aenc, asize. destruct (short_tag _); rewrite !zlen_app, !zlen_le_put; [by rewrite zlen_nil|done]. Qed.
Lemma zlen_aencs acl : zlen (aencs acl) = asizes acl.
Proof. induction acl as [|a acl IH]; [done|]. cbn [aencs asizes]. by rewrite zlen_app, zlen_aenc, IH. Qed.
Lemma asizes_app l l' : asizes (l ++ l') = asizes l + asizes l'.
Proof. induction l as [|a l IH]; [done|]. cbn. rewrite IH. lia. Qed.

(** The tags of an ACL *)
Inductive tag_kind (a : posix_acl_entry) : Prop :=
| tag_short : short_tag (e_tag a) = true -> (e_tag a =? ACL_USER) = false -> (e_tag a =? ACL_GROUP) = false -> tag_kind a
| tag_user : e_tag a = ACL_USER -> short_tag (e_tag a) = false -> tag_kind a
| tag_group : e_tag a = ACL_GROUP -> (e_tag a =? ACL_USER) = false -> short_tag (e_tag a) = false -> tag_kind a.
Lemma tag_cases a : e_tag a ∈ [ACL_USER_OBJ; ACL_USER; ACL_GROUP_OBJ; ACL_GROUP; ACL_MASK; ACL_OTHER] -> tag_kind a.
Proof.
  pose proof tags_differ as Hd. rewrite !list.NoDup_cons, !not_elem_of_cons in Hd. intros Ht. rewrite !elem_of_cons in Ht.
  destruct_and! Hd.
  destruct Ht as [Ht|[Ht|[Ht|[Ht|[Ht|[Ht|Ht]]]]]]; [..|by apply elem_of_nil in Ht];
    [apply tag_short|apply tag_user|apply tag_short|apply tag_group|apply tag_short|apply tag_short]; rewrite ?Ht; tag_eq.
Qed.
Lemma valid_tags acl : valid_acl acl -> Forall tag_kind acl /\ Forall (fun a => 0 <= e_tag a < 65536) acl.
Proof.
  intros (uo & us & go & gs & mk & ot & -> & T1 & T2 & T3 & T4 & T5 & T6 & _).
  assert (Forall (fun a => e_tag a ∈ [ACL_USER_OBJ; ACL_USER; ACL_GROUP_OBJ; ACL_GROUP; ACL_MASK; ACL_OTHER]) (uo :: us ++ go :: gs ++ mk ++ [ot])) as Hin.
  { constructor; [rewrite T1; in_list|]. apply Forall_app. split; [eapply list.Forall_impl; [exact T2|intros a ->; in_list]|].
    constructor; [rewrite T3; in_list|]. apply Forall_app. split; [eapply list.Forall_impl; [exact T4|intros a ->; in_list]|].
    apply Forall_app. split; [|constructor; [rewrite T5; in_list|constructor]].
    destruct T6 as [(-> & _)|(m & -> & Hm)]; [constructor|constructor; [rewrite Hm; in_list|constructor]]. }
  split; [eapply list.Forall_impl; [exact Hin|apply tag_cases]|]. eapply list.Forall_impl; [exact Hin|]. intros a Ha.
  pose proof tags_range as Hr. rewrite list.Forall_forall in Hr. by apply Hr.
Qed.
Lemma asizes_const P n l : (forall a, P a -> asize a = n) -> Forall P l -> asizes l = n * zlen l.
Proof. intros Hn. induction 1 as [|a l Ha _ IH]; [change (zlen []) with 0; cbn; lia|]. cbn [asizes]. rewrite (Hn _ Ha), IH, zlen_cons. lia. Qed.
(** The size f2fs_acl_size computes is the space a valid ACL takes, and
    f2fs_acl_count inverts it. *)
Lemma valid_size acl : valid_acl acl -> f2fs_acl_size (zlen acl) = ACL_HDR + asizes acl /\ 3 <= zlen acl.
Proof.
  intros Hv. destruct (valid_tags acl Hv) as [Hk _]. destruct Hv as (uo & us & go & gs & mk & ot & -> & T1 & T2 & T3 & T4 & T5 & T6 & _).
  pose proof tags_differ as Hd. rewrite !list.NoDup_cons, !not_elem_of_cons in Hd. destruct_and! Hd.
  assert (forall a, e_tag a = ACL_USER -> asize a = ACL_LONG) as A1 by (intros a E; unfold asize; replace (short_tag (e_tag a)) with false; [done|rewrite E; symmetry; tag_eq]).
  assert (forall a, e_tag a = ACL_GROUP -> asize a = ACL_LONG) as A2 by (intros a E; unfold asize; replace (short_tag (e_tag a)) with false; [done|rewrite E; symmetry; tag_eq]).
  assert (forall a, e_tag a = ACL_USER_OBJ \/ e_tag a = ACL_GROUP_OBJ \/ e_tag a = ACL_MASK \/ e_tag a = ACL_OTHER -> asize a = ACL_SHORT) as A3.
  { intros a E. unfold asize. replace (short_tag (e_tag a)) with true; [done|]. unfold short_tag. destruct E as [-> |[-> |[-> | ->]]]; rewrite Z.eqb_refl, ?orb_true_r; done. }
  pose proof (asizes_const _ _ us A1 T2) as S1. pose proof (asizes_const _ _ gs A2 T4) as S2.
  assert (asizes mk = 4 * zlen mk /\ (zlen mk = 0 /\ us = [] /\ gs = [] \/ zlen mk = 1)) as [S3 Hmk].
  { destruct T6 as [(-> & -> & ->)|(m & -> & Hm)]; [change (zlen []) with 0; cbn; split; [done|by left]|].
    rewrite zlen_one. cbn. rewrite (A3 m) by tauto. split; [done|by right]. }
  change (uo :: us ++ go :: gs ++ mk ++ [ot]) with ([uo] ++ us ++ [go] ++ gs ++ mk ++ [ot]). rewrite !zlen_app, !asizes_app, !zlen_one. cbn [asizes].
  rewrite (A3 uo), (A3 go), (A3 ot), S1, S2, S3 by tauto. unfold f2fs_acl_size, ACL_HDR, ACL_SHORT, ACL_LONG in *.
  pose proof (zlen_nonneg us) as Hu. pose proof (zlen_nonneg gs) as Hg. clear - Hmk Hu Hg.
  destruct Hmk as [(-> & -> & ->)|Hmk]; [change (zlen []) with 0; done|]. rewrite Hmk. destruct (Z.leb_spec (1 + (zlen us + (1 + (zlen gs + (1 + 1))))) 4); lia.
Qed.
Lemma s64_id x : - 9223372036854775808 <= x < 9223372036854775808 -> s64 x = x.
Proof.
  intros Hx. unfold s64, u64. change (2 ^ 64) with 18446744073709551616. change (2 ^ 63) with 9223372036854775808.
  destruct (Z.lt_ge_cases x 0).
  - replace (x mod 18446744073709551616) with (x + 18446744073709551616) by (apply (Z.mod_unique_pos _ _ (-1)); lia).
    replace (_ <? _) with false by lia. lia.
  - rewrite Z.mod_small by lia. by replace (_ <? _) with true by lia.
Qed.
Lemma valid_count acl : valid_acl acl -> asizes acl < 65536 -> f2fs_acl_count (ACL_HDR + asizes acl) = zlen acl.
Proof.
  intros Hv Hs. destruct (valid_size acl Hv) as [Ez H3]. unfold f2fs_acl_size in Ez. unfold f2fs_acl_count, ACL_HDR, ACL_SHORT, ACL_LONG in *.
  rewrite u64_id by (destruct (_ <=? _) in Ez; lia). replace (4 + asizes acl - 4) with (asizes acl) by lia. destruct (Z.leb_spec (zlen acl) 4).
  - rewrite s64_id by lia. destruct (Z.ltb_spec (asizes acl - 4 * 4) 0).
    + replace (asizes acl) with (zlen acl * 4) by lia. rewrite Z.mod_mul, Z.div_mul by lia. cbn [nz Z.eqb negb]. apply s32_id. lia.
    + assert (zlen acl = 4) as E by lia. replace (asizes acl - 4 * 4) with 0 by lia. rewrite E. done.
  - rewrite s64_id by lia. replace (asizes acl - 4 * 4) with ((zlen acl - 4) * 8) by lia. replace (_ <? 0) with false by lia.
    rewrite Z.mod_mul, Z.div_mul by lia. cbn [nz Z.eqb negb]. rewrite s32_id by lia. lia.
Qed.

(** ** The round trip *)

Lemma wr_next (pre junk src : list Z) o : o = zlen pre -> zlen src <= zlen junk ->
  wr (pre ++ junk) o src = Done ((pre ++ src) ++ drop (length src) junk).
Proof.
  intros -> Hl. unfold zlen in Hl. rewrite <- (take_drop (length src) junk) at 1. rewrite wr_app; [by rewrite app_assoc|done|].
  unfold zlen. rewrite length_take. lia.
Qed.
Lemma zlen_drop {A} n (l : list A) : zlen (drop n l) = Z.max 0 (zlen l - Z.of_nat n).
Proof. unfold zlen. rewrite length_drop. lia. Qed.
Lemma put_one a pre junk : tag_kind a -> 8 <= zlen junk -> exists junk', zlen junk - 8 <= zlen junk' /\
  forall acl, put_entries (a :: acl) (pre ++ junk) (zlen pre) = put_entries acl ((pre ++ aenc a) ++ junk') (zlen (pre ++ aenc a)).
Proof.
  intros Ha Hj. set (t := le_put 2 (e_tag a)). set (p := le_put 2 (e_perm a)). set (J := drop (length p) (drop (length t) junk)).
  assert (zlen J = zlen junk - 4) as HJ by (unfold J; rewrite !zlen_drop; change (length t) with 2%nat; change (length p) with 2%nat; lia).
  assert (zlen t = 2 /\ zlen p = 2) as [Ht Hp] by done.
  assert (forall acl, put_entries (a :: acl) (pre ++ junk) (zlen pre) =
    (if e_tag a =? ACL_USER then b <-- wr (((pre ++ t) ++ p) ++ J) (zlen pre + 4) (le_put 4 (from_kuid (e_id a))) ;; put_entries acl b (zlen pre + ACL_LONG)
     else if e_tag a =? ACL_GROUP then b <-- wr (((pre ++ t) ++ p) ++ J) (zlen pre + 4) (le_put 4 (from_kgid (e_id a))) ;; put_entries acl b (zlen pre + ACL_LONG)
     else if short_tag (e_tag a) then put_entries acl (((pre ++ t) ++ p) ++ J) (zlen pre + ACL_SHORT) else Done None)) as Hput.
  { intros acl. cbn [put_entries]. fold t p. rewrite wr_next by (done || lia). cbn [obind].
    rewrite wr_next; [done|by rewrite zlen_app, Ht|rewrite zlen_drop; change (length t) with 2%nat; lia]. }
  destruct Ha as [Hs Hu Hg|Hu Hs|Hg Hu Hs].
  - exists J. split; [lia|]. intros acl. rewrite Hput, Hu, Hg, Hs. unfold aenc. fold t p. rewrite Hs, app_nil_r. f_equal; [by rewrite !app_assoc|].
    rewrite !zlen_app, Ht, Hp. unfold ACL_SHORT. lia.
  - exists (drop 4 J). split; [rewrite zlen_drop; lia|]. intros acl. rewrite Hput, Hu, Z.eqb_refl.
    rewrite wr_next; [|rewrite !zlen_app; lia|rewrite zlen_le_put; lia]. cbn [obind]. unfold aenc, disk_id. fold t p. rewrite Hs, Hu, Z.eqb_refl.
    change (length (le_put 4 _)) with 4%nat. f_equal; [by rewrite !app_assoc|]. rewrite !zlen_app, Ht, Hp, zlen_le_put. unfold ACL_LONG. lia.
  - exists (drop 4 J). split; [rewrite zlen_drop; lia|]. intros acl. rewrite Hput, Hu, Hg, Z.eqb_refl.
    rewrite wr_next; [|rewrite !zlen_app; lia|rewrite zlen_le_put; lia]. cbn [obind]. unfold aenc, disk_id. fold t p. rewrite Hs, Hu.
    change (length (le_put 4 _)) with 4%nat. f_equal; [by rewrite !app_assoc|]. rewrite !zlen_app, Ht, Hp, zlen_le_put. unfold ACL_LONG. lia.
Qed.
Lemma put_entries_list acl : Forall tag_kind acl -> forall pre junk, 8 * zlen acl <= zlen junk ->
  exists junk', put_entries acl (pre ++ junk) (zlen pre) = Done (Some ((pre ++ aencs acl) ++ junk')).
Proof.
  induction 1 as [|a acl Ha Hacl IH]; intros pre junk Hj; [exists junk; cbn; by rewrite app_nil_r|].
  rewrite zlen_cons in Hj. pose proof (zlen_nonneg acl). destruct (put_one a pre junk Ha ltac:(lia)) as (junk' & Hl & ->).
  destruct (IH (pre ++ aenc a) junk' ltac:(lia)) as (junk2 & ->). exists junk2. cbn [aencs]. by rewrite (app_assoc pre).
Qed.

(** What is read back of an entry *)
Definition entry_wf (a : posix_acl_entry) : Prop := tag_kind a /\ 0 <= e_tag a < 65536 /\ entry_ok a /\ (short_tag (e_tag a) = true -> e_id a = 0).
Lemma valid_entries acl : valid_acl acl -> Forall entry_wf acl.
Proof.
  intros Hv. destruct (valid_tags acl Hv) as [Hk Ht]. destruct Hv as (? & ? & ? & ? & ? & ? & _ & _ & _ & _ & _ & _ & _ & Hok & Hid).
  apply list.Forall_forall. intros a Ha.
  pose proof (fun P => proj1 (list.Forall_forall P acl)) as Hf. split; [by apply (Hf tag_kind)|]. split; [by apply (Hf _ Ht)|].
  split; [by apply (Hf _ Hok)|by apply (Hf _ Hid)].
Qed.
Lemma rd_part (pre q l post : list Z) o n : o = zlen pre + zlen q -> n = zlen l -> rd (pre ++ (q ++ l ++ post)) o n = Done l.
Proof. intros -> ->. rewrite (app_assoc pre), rd_app by (rewrite ?zlen_app; done). done. Qed.
Lemma acl_entries_list acl : Forall entry_wf acl -> forall pre, 
  acl_entries (length acl) (pre ++ aencs acl) (zlen pre) = Done (Some (acl, zlen (pre ++ aencs acl))).
Proof.
  induction 1 as [|a acl (Hk & Ht & [Hp Hid] & Hz) Hacl IH]; intros pre; [cbn; by rewrite app_nil_r|].
  cbn [acl_entries length aencs]. replace (zlen (pre ++ aenc a ++ aencs acl) <? zlen pre) with false
    by (rewrite !zlen_app; pose proof (zlen_nonneg (aenc a)); pose proof (zlen_nonneg (aencs acl)); lia).
  assert (rd16 (pre ++ aenc a ++ aencs acl) (zlen pre) = Done (e_tag a)) as ->.
  { unfold rd16, aenc. rewrite <- !app_assoc. rewrite (rd_app pre (le_put 2 (e_tag a))) by done. cbn [obind]. by rewrite le_get_put_id. }
  assert (rd16 (pre ++ aenc a ++ aencs acl) (zlen pre + 2) = Done (e_perm a)) as ->.
  { unfold rd16, aenc. rewrite <- !app_assoc. rewrite (rd_part pre (le_put 2 (e_tag a)) (le_put 2 (e_perm a))) by done. cbn [obind]. by rewrite le_get_put_id. }
  cbn [obind].
  assert (forall next, next = zlen (pre ++ aenc a) -> acl_entries (length acl) (pre ++ aenc a ++ aencs acl) next = Done (Some (acl, zlen (pre ++ aenc a ++ aencs acl)))) as Hrest
    by (intros ? ->; rewrite (app_assoc pre (aenc a)); apply IH).
  assert (short_tag (e_tag a) = false -> 0 <= disk_id a < 4294967296 -> rd32 (pre ++ aenc a ++ aencs acl) (zlen pre + 4) = Done (disk_id a)) as Hrid.
  { intros Hs Hd. unfold rd32, aenc. rewrite Hs, <- !app_assoc, (app_assoc (le_put 2 (e_tag a))).
    rewrite (rd_part pre (le_put 2 (e_tag a) ++ le_put 2 (e_perm a)) (le_put 4 (disk_id a))) by done. cbn [obind]. by rewrite le_get_put_id. }
  unfold disk_id in Hrid. destruct (kuid_id _ Hid) as [Eu Ru], (kgid_id _ Hid) as [Eg Rg].
  destruct Hk as [Hs Hu Hg|Hu Hs|Hg Hu Hs]; rewrite Hs.
  - rewrite Hrest by (rewrite zlen_app, zlen_aenc; unfold asize; by rewrite Hs). cbn [obind]. rewrite <- (Hz Hs). by destruct a.
  - rewrite Hu, Z.eqb_refl in *. rewrite Hrid by done. cbn [obind]. rewrite Hrest by (rewrite zlen_app, zlen_aenc; unfold asize; by rewrite Hu, Hs).
    cbn [obind]. rewrite Eu, <- Hu. by destruct a.
  - rewrite Hu, Hg, Z.eqb_refl in *. rewrite Hrid by done. cbn [obind]. rewrite Hrest by (rewrite zlen_app, zlen_aenc; unfold asize; by rewrite Hg, Hs).
    cbn [obind]. rewrite Eg, <- Hg. by destruct a.
Qed.
(** The bytes of an ACL *)
Definition acl_disk (acl : posix_acl) : list Z := le_put 4 F2FS_ACL_VERSION ++ aencs acl.
Lemma zlen_acl_disk acl : zlen (acl_disk acl) = ACL_HDR + asizes acl.
Proof. unfold acl_disk. by rewrite zlen_app, zlen_aencs. Qed.
Lemma to_disk_valid acl mem : valid_acl acl -> ACL_HDR + zlen acl * ACL_LONG <= zlen mem ->
  exists b, f2fs_acl_to_disk (Some mem) acl = Done (inr (b, ACL_HDR + asizes acl)) /\ slice b 0 (ACL_HDR + asizes acl) = acl_disk acl.
Proof.
  intros Hv Hm. destruct (valid_tags acl Hv) as [Hk _]. destruct (valid_size acl Hv) as [Hs H3]. unfold ACL_HDR, ACL_LONG in Hm. unfold f2fs_acl_to_disk.
  pose proof (wr_next [] mem (le_put 4 F2FS_ACL_VERSION) 0 eq_refl) as Hw. cbn [app] in Hw. rewrite Hw by (rewrite zlen_le_put; lia). cbn [obind].
  change ACL_HDR with (zlen (le_put 4 F2FS_ACL_VERSION)) at 1.
  destruct (put_entries_list acl Hk (le_put 4 F2FS_ACL_VERSION) (drop (length (le_put 4 F2FS_ACL_VERSION)) mem)) as (junk & ->);
    [rewrite zlen_drop; change (length _) with 4%nat; lia|]. cbn [obind]. rewrite Hs. eexists. split; [done|]. fold (acl_disk acl).
  apply slice_app_l. by rewrite zlen_acl_disk.
Qed.
Lemma from_disk_valid acl : valid_acl acl -> asizes acl < 65536 -> f2fs_acl_from_disk false (acl_disk acl) = Done (inr (Some acl)).
Proof.
  intros Hv Hs. destruct (valid_size acl Hv) as [_ H3]. pose proof (valid_entries acl Hv) as Hw. unfold f2fs_acl_from_disk.
  assert (rd32 (acl_disk acl) 0 = Done F2FS_ACL_VERSION) as ->.
  { unfold rd32, acl_disk. pose proof (rd_app [] (le_put 4 F2FS_ACL_VERSION) (aencs acl) 0 4 eq_refl eq_refl) as Hr. cbn [app] in Hr. by rewrite Hr. }
  cbn [obind Z.eqb F2FS_ACL_VERSION Pos.eqb negb]. rewrite zlen_acl_disk, valid_count by done.
  replace (zlen acl <? 0) with false by lia. replace (zlen acl =? 0) with false by lia. unfold zlen. rewrite Nat2Z.id.
  pose proof (acl_entries_list acl Hw (le_put 4 F2FS_ACL_VERSION)) as He. change (zlen (le_put 4 F2FS_ACL_VERSION)) with ACL_HDR in He.
  fold (acl_disk acl) in He. rewrite He. cbn [obind]. by rewrite zlen_acl_disk, Z.eqb_refl.
Qed.

(** ** Setting and getting *)

Definition acl_index (type : Z) : Z := if type =? ACL_TYPE_ACCESS then F2FS_XATTR_INDEX_POSIX_ACL_ACCESS else F2FS_XATTR_INDEX_POSIX_ACL_DEFAULT.
Lemma represents_meta i i' m : i_inline_xattr_size i' = i_inline_xattr_size i -> i_xattr_nid i' = i_xattr_nid i -> inline_addr i' = inline_addr i ->
  xpage i' = xpage i -> represents i m -> represents i' m.
Proof. intros ? ? ? ? (es & Hi & ?). exists es. split; [by apply (holds_ext i)|done]. Qed.
Lemma get_acl_of i m env nomem type acl : represents i m -> env_quiet env -> valid_acl acl -> asizes acl < 65536 -> nomem = (false, false) ->
  m !! (acl_index type, []) = Some (acl_disk acl) -> f2fs_get_acl env nomem i type = Done (inr (Some acl)).
Proof.
  intros (es & Hi & Hd & <-) Hq Hv Hs -> Hm. pose proof name_len. destruct (valid_size acl Hv) as [_ Hge]. pose proof (zlen_nonneg (aencs acl)) as Hn. rewrite zlen_aencs in Hn.
  assert (forall b, f2fs_getxattr env i (acl_index type) (Some []) b = Done (spec_get (xmap es) (acl_index type, []) b)) as Hget.
  { intros b. destruct (getxattr_list env i es (acl_index type) [] b Hi) as (r & -> & [->|(_ & _ & _ & ?)]); [|done]. by rewrite get_list_spec. }
  unfold f2fs_get_acl, __f2fs_get_acl. fold (acl_index type). rewrite !Hget. unfold spec_get. cbn [snd fst]. change (zlen []) with 0.
  replace (F2FS_NAME_LEN <? 0) with false by lia. rewrite Hm. cbn [obind fst]. rewrite zlen_acl_disk. unfold ACL_HDR.
  replace (0 <? 4 + asizes acl) with true by lia. cbn [andb]. rewrite Hget. unfold spec_get. cbn [snd]. change (zlen []) with 0.
  replace (F2FS_NAME_LEN <? 0) with false by lia. rewrite Hm, zlen_acl_disk. unfold ACL_HDR. rewrite Z.ltb_irrefl. cbn [obind].
  replace (0 <? 4 + asizes acl) with true by lia. cbn [default]. by apply from_disk_valid.
Qed.
Lemma get_acl_none i m env nomem type : represents i m -> env_quiet env -> m !! (acl_index type, []) = None -> f2fs_get_acl env nomem i type = Done (inr None).
Proof.
  intros (es & Hi & Hd & <-) Hq Hm. pose proof name_len. unfold f2fs_get_acl, __f2fs_get_acl. fold (acl_index type).
  destruct (getxattr_list env i es (acl_index type) [] None Hi) as (r & -> & [->|(_ & _ & _ & ?)]); [|done].
  rewrite get_list_spec. unfold spec_get. cbn [snd]. change (zlen []) with 0. replace (F2FS_NAME_LEN <? 0) with false by lia. by rewrite Hm.
Qed.
(** The ACL f2fs_set_acl stores: the one given or, when posix_acl_update_mode finds
    that the mode says all it does, none *)
Definition stored_acl (upd : Z + Z * option posix_acl) (i : xinode) (acl : posix_acl) (type : Z) (stored : option posix_acl) : Prop :=
  (type = ACL_TYPE_ACCESS /\ exists mode, upd = inr (mode, stored) /\ (stored = Some acl \/ stored = None)) \/
  (type = ACL_TYPE_DEFAULT /\ S_ISDIR (i_mode i) = true /\ stored = Some acl).
Lemma set_acl_store i m env fresh mem upd acl type stored : represents i m -> held i = [] -> env_ok env -> env_quiet env -> zlen fresh = VALID_XATTR_BLOCK_SIZE ->
  valid_acl acl -> ACL_HDR + zlen acl * ACL_LONG <= zlen mem -> stored_acl upd i acl type stored ->
  let sp := spec_set i m (acl_index type) [] (acl_disk <$> stored) 0 in
  exists i', f2fs_set_acl false 0 env fresh (Some mem) upd i (Some acl) type = Done (fst sp, i', if nz (fst sp) then None else Some stored) /\
    represents i' (snd sp) /\ i_acl_mode i' = None.
Proof.
  intros Hr Hh He Hq Hf Hv Hm Ht sp. destruct (to_disk_valid acl mem Hv Hm) as (b & Hb & Hsl).
  assert (forall j, represents j m -> held j = [] -> i_inline_xattr_size j = i_inline_xattr_size i -> exists i1,
    f2fs_setxattr 0 env fresh j (acl_index type) (Some []) (acl_disk <$> stored) 0 = Done (fst sp, i1) /\ represents i1 (snd sp)) as Hset.
  { intros j (es & Hj & Hd & <-) Hhj Hsz. unfold f2fs_setxattr. change (nz 0) with false. cbn iota.
    destruct (setxattr_list env fresh j es (acl_index type) [] (acl_disk <$> stored) 0 He Hf) as (r & i1 & -> & _ & _ & [[-> Hi1]|(_ & _ & ? & _)]); [..|done].
    - intros ? _. rewrite Hhj. by intros [].
    - done.
    - unfold acl_index. by destruct (_ =? _).
    - destruct (set_list_spec j es (acl_index type) [] (acl_disk <$> stored) 0 Hd) as [Hsp Hd']. rewrite (spec_set_size j i) in Hsp by done.
      exists i1. unfold sp. rewrite <- Hsp. split; [done|]. cbn [snd]. eexists. split_and!; done. }
  unfold f2fs_set_acl, __f2fs_set_acl. pose proof types_differ. destruct Ht as [(-> & mode & -> & Hst)|(-> & Hdir & ->)].
  - rewrite Z.eqb_refl. destruct (Hset (set_acl_inode i mode)) as (i1 & E & R1); [by apply (represents_meta i)|done|done|].
    unfold acl_index in E at 1. rewrite Z.eqb_refl in E.
    destruct Hst as [-> | ->]; cbn [obind]; [rewrite Hb; cbn [obind]; rewrite Hsl|]; (cbn [fmap option_fmap option_map] in E; rewrite E); cbn [obind];
      (eexists; split; [done|]; split; [by apply (represents_meta i1)|done]).
  - replace (ACL_TYPE_DEFAULT =? ACL_TYPE_ACCESS) with false by (symmetry; apply Z.eqb_neq; congruence). rewrite Z.eqb_refl, Hdir. cbn [negb]. rewrite Hb. cbn [obind]. rewrite Hsl.
    destruct (Hset i Hr Hh eq_refl) as (i1 & E & R1).
    unfold acl_index in E at 1. replace (ACL_TYPE_DEFAULT =? ACL_TYPE_ACCESS) with false in E by (symmetry; apply Z.eqb_neq; congruence).
    cbn [fmap option_fmap option_map] in E. rewrite E. cbn [obind]. eexists. split; [done|]. split; [by apply (represents_meta i1)|done].
Qed.

(** C10. An ACL that is set is the ACL that is got: every ACL posix_acl_valid lets
    through, of either type, is stored in its attribute and read back as it
    was, the other attributes being kept; or E2BIG is returned and nothing
    changes. When posix_acl_update_mode drops an access ACL, the mode saying all it
    does, the attribute is removed and no ACL is got; when it fails, nothing changes.
    Required: none of the calls around fails ([env_quiet], memory for the disk form, no
    checkpoint error), the inode's inline xattr area is 0 or at least 28 bytes
    (part of [represents]; see [small_inline_loses]), and a default ACL is
    set on a directory. *)
Theorem acl_set_get i m env fresh mem upd acl type : represents i m -> held i = [] -> env_ok env -> env_quiet env ->
  zlen fresh = VALID_XATTR_BLOCK_SIZE -> valid_acl acl -> asizes acl < 65536 -> ACL_HDR + zlen acl * ACL_LONG <= zlen mem ->
  let set := f2fs_set_acl false 0 env fresh (Some mem) upd i (Some acl) type in
  let get i' := f2fs_get_acl env (false, false) i' type in
  let k := (acl_index type, []) in
  (forall e, type = ACL_TYPE_ACCESS -> upd = inl e -> set = Done (e, i, None)) /\
  (stored_acl upd i acl type None -> exists i', set = Done (0, i', Some None) /\ get i' = Done (inr None) /\ represents i' (delete k m)) /\
  (stored_acl upd i acl type (Some acl) -> exists err i' cached, set = Done (err, i', cached) /\
     ((err = - E2BIG /\ cached = None /\ represents i' m) \/
      (err = 0 /\ cached = Some (Some acl) /\ get i' = Done (inr (Some acl)) /\ represents i' (<[k := acl_disk acl]> m)))).
Proof.
  intros Hr Hh He Hq Hf Hv Hs Hm set get k. pose proof name_len. split; [|split].
  - intros e -> ->. unfold set, f2fs_set_acl, __f2fs_set_acl. by rewrite Z.eqb_refl.
  - intros Ht. destruct (set_acl_store i m env fresh mem upd acl type None Hr Hh He Hq Hf Hv Hm Ht) as (i' & E & Hr' & _).
    fold set in E. cbn [fmap option_fmap option_map] in *. rewrite remove_spec in E, Hr' by done.
    cbn [fst snd] in *. exists i'. split; [done|]. split; [|done]. apply (get_acl_none i' _ env _ type Hr' Hq). apply lookup_delete_eq.
  - intros Ht. destruct (set_acl_store i m env fresh mem upd acl type (Some acl) Hr Hh He Hq Hf Hv Hm Ht) as (i' & E & Hr' & _).
    fold set in E. rewrite E. clear E set. cbn [fmap option_fmap option_map] in *. unfold spec_set in *. change (zlen []) with 0 in *. replace (F2FS_NAME_LEN <? 0) with false in * by lia.
    cbn [default] in *. destruct (MAX_VALUE_LEN i <? _); [do 3 eexists; split; [done|]; by left|]. cbn [nz Z.land Z.eqb negb] in *. rewrite !andb_false_r in *.
    assert (forall i', represents i' (<[k := acl_disk acl]> m) -> get i' = Done (inr (Some acl))) as Hget
      by (intros j Hj; apply (get_acl_of j _ env _ type acl Hj Hq Hv Hs eq_refl); apply lookup_insert_eq).
    fold k in Hr' |- *. case_bool_decide as Esame.
    + cbn [fst snd] in *. rewrite <- (insert_id m _ _ Esame) in Hr'. do 3 eexists. split; [done|]. right. split_and!; try done. by apply Hget.
    + destruct (MIN_OFFSET i <? _); cbn [fst snd] in *; do 3 eexists; (split; [done|]); [by left|right]. split_and!; try done. by apply Hget.
Qed.

(** ** The mode of a new file *)

Lemma insert_middle {A} (l1 l2 : list A) x y : <[length l1 := y]> (l1 ++ x :: l2) = l1 ++ y :: l2.
Proof. induction l1 as [|z l1 IH]; [done|]. cbn. f_equal. exact IH. Qed.
Lemma lookup_middle' {A} (l1 l2 : list A) x : (l1 ++ x :: l2) !! length l1 = Some x.
Proof. by apply list_lookup_middle. Qed.
Lemma masq_named l : Forall (fun a => e_tag a = ACL_USER \/ e_tag a = ACL_GROUP) l -> forall m k rest,
  masq_entries m k (l ++ rest) = masq_entries (match l with [] => m | _ => m <| mq_not_equiv := 1 |> end) (k + length l) rest.
Proof.
  pose proof tags_differ as Hd. rewrite !list.NoDup_cons, !not_elem_of_cons in Hd. destruct_and! Hd.
  induction 1 as [|a l Ha Hl IH]; intros m k rest; [by rewrite Nat.add_0_r|]. cbn [app masq_entries].
  assert (masq_entry m k a = Some (m <| mq_not_equiv := 1 |>)) as ->.
  { unfold masq_entry. destruct Ha as [-> | ->].
    - replace (ACL_USER =? ACL_USER_OBJ) with false by (symmetry; tag_eq). by rewrite Z.eqb_refl.
    - replace (ACL_GROUP =? ACL_USER_OBJ) with false by (symmetry; tag_eq). by rewrite Z.eqb_refl, orb_true_r. }
  rewrite IH. cbn [length]. replace (S k + length l)%nat with (k + S (length l))%nat by lia. by destruct l, m.
Qed.
(** The masked permissions of the owner, of the mask (or the group), and of the
    others, and the mode made of them *)
Definition owner_perm (mode p : Z) : Z := Z.land p (Z.lor (Z.shiftr mode 6) (Z.lnot 7)).
Definition group_perm (mode p : Z) : Z := Z.land p (Z.lor (Z.shiftr mode 3) (Z.lnot 7)).
Definition other_perm (mode p : Z) : Z := Z.land p (Z.lor mode (Z.lnot 7)).
Definition acl_mode (mode pu pg po : Z) : Z := Z.lor (Z.land mode (Z.lnot 511)) (Z.lor (Z.shiftl pu 6) (Z.lor (Z.shiftl pg 3) po)).
Lemma testbit_small p k : 0 <= p < 8 -> 3 <= k -> Z.testbit p k = false.
Proof.
  intros Hp Hk. destruct (Z.eq_dec p 0) as [->|]; [apply Z.bits_0|]. apply Z.bits_above_log2; [lia|].
  apply Z.log2_lt_pow2; [lia|]. assert (2 ^ 3 <= 2 ^ k) by (apply Z.pow_le_mono_r; lia). change (2 ^ 3) with 8 in *. lia.
Qed.
Lemma testbit_7 k : 0 <= k -> Z.testbit 7 k = (k <? 3).
Proof. intros. change 7 with (Z.ones 3). rewrite Z.testbit_ones by lia. lia. Qed.
(** The three updates of the mode in the order of the code amount to [acl_mode]. *)
Lemma mode_updates mode u g o : 0 <= u < 8 -> 0 <= g < 8 -> 0 <= o < 8 -> 0 <= mode ->
  let m1 := Z.land mode (Z.lor (Z.shiftl (owner_perm mode u) 6) (Z.lnot 448)) in
  let m2 := Z.land m1 (Z.lor (other_perm m1 o) (Z.lnot 7)) in
  let m3 := Z.land m2 (Z.lor (Z.shiftl (group_perm m2 g) 3) (Z.lnot 56)) in
  other_perm m1 o = other_perm mode o /\ group_perm m2 g = group_perm mode g /\
  Z.lor (Z.land mode (Z.lnot 511)) m3 = acl_mode mode (owner_perm mode u) (group_perm mode g) (other_perm mode o).
Proof.
  intros Hu Hg Ho Hm m1 m2 m3. unfold acl_mode.
  assert (forall k, 0 <= k -> Z.testbit 448 k = (6 <=? k) && (k <? 9)) as T448.
  { intros k Hk. change 448 with (Z.shiftl 7 6). rewrite Z.shiftl_spec by lia. destruct (Z.leb_spec 6 k); [rewrite testbit_7 by lia; lia|].
    rewrite Z.testbit_neg_r by lia. done. }
  assert (forall k, 0 <= k -> Z.testbit 56 k = (3 <=? k) && (k <? 6)) as T56.
  { intros k Hk. change 56 with (Z.shiftl 7 3). rewrite Z.shiftl_spec by lia. destruct (Z.leb_spec 3 k); [rewrite testbit_7 by lia; lia|].
    rewrite Z.testbit_neg_r by lia. done. }
  assert (forall k, 0 <= k -> Z.testbit 511 k = (k <? 9)) as T511 by (intros; change 511 with (Z.ones 9); rewrite Z.testbit_ones by lia; lia).
  assert (forall k, 0 <= k -> Z.testbit m1 k = Z.testbit mode k && (Z.testbit (Z.shiftl u 6) k || negb ((6 <=? k) && (k <? 9)))) as B1.
  { intros k Hk. unfold m1, owner_perm. rewrite Z.land_spec, Z.lor_spec, !Z.shiftl_spec, Z.lnot_spec, T448 by lia.
    destruct (Z.leb_spec 6 k); [|rewrite !(Z.testbit_neg_r _ (k - 6)) by lia; by destruct (Z.testbit mode k)].
    rewrite Z.land_spec, Z.lor_spec, Z.shiftr_spec, Z.lnot_spec, testbit_7 by lia. replace (k - 6 + 6) with k by lia.
    destruct (Z.testbit mode k), (Z.testbit u (k - 6)) eqn:E; done. }
  assert (other_perm m1 o = other_perm mode o) as Eo.
  { apply Z.bits_inj'. intros k Hk. unfold other_perm. rewrite !Z.land_spec, !Z.lor_spec, Z.lnot_spec, testbit_7, B1 by lia.
    destruct (Z.ltb_spec k 3); [|cbn; by rewrite !orb_true_r]. replace (6 <=? k) with false by lia. cbn. by rewrite !orb_true_r, andb_true_r. }
  assert (forall k, 0 <= k -> Z.testbit m2 k = Z.testbit m1 k && (Z.testbit o k || negb (k <? 3))) as B2.
  { intros k Hk. unfold m2. rewrite Eo. unfold other_perm. rewrite Z.land_spec, !Z.lor_spec, Z.land_spec, Z.lor_spec, Z.lnot_spec, testbit_7, B1 by lia.
    destruct (Z.ltb_spec k 3); [|cbn; by rewrite !orb_true_r]. cbn. replace (6 <=? k) with false by lia. cbn. rewrite !orb_false_r, !orb_true_r.
    by destruct (Z.testbit mode k), (Z.testbit o k). }
  assert (group_perm m2 g = group_perm mode g) as Eg.
  { apply Z.bits_inj'. intros k Hk. unfold group_perm. rewrite !Z.land_spec, !Z.lor_spec, !Z.shiftr_spec, Z.lnot_spec, testbit_7, B2, B1 by lia.
    destruct (Z.ltb_spec k 3); [|cbn; by rewrite !orb_true_r]. replace (6 <=? k + 3) with false by lia. replace (k + 3 <? 3) with false by lia.
    cbn. by rewrite !orb_true_r, !andb_true_r. }
  split_and!; [done|done|]. apply Z.bits_inj'. intros k Hk. unfold m3. rewrite Eg.
  rewrite !Z.lor_spec, !Z.land_spec, !Z.lor_spec, !Z.lnot_spec, T511, T56, B2, B1 by lia. unfold owner_perm, group_perm, other_perm.
  rewrite !Z.shiftl_spec by lia. destruct (Z.ltb_spec k 3).
  { rewrite !(Z.testbit_neg_r _ (k - 6)), !(Z.testbit_neg_r _ (k - 3)), Z.land_spec, Z.lor_spec, Z.lnot_spec, testbit_7 by lia.
    replace (k <? 9) with true by lia. replace (6 <=? k) with false by lia. replace (3 <=? k) with false by lia. replace (k <? 3) with true by lia.
    by destruct (Z.testbit mode k), (Z.testbit o k). }
  rewrite (Z.land_spec o), (testbit_small o) by lia. destruct (Z.ltb_spec k 6).
  { rewrite !(Z.testbit_neg_r _ (k - 6)), !Z.land_spec, !Z.lor_spec, Z.lnot_spec, Z.shiftr_spec, testbit_7 by lia.
    replace (k <? 9) with true by lia. replace (6 <=? k) with false by lia. replace (3 <=? k) with true by lia. replace (k - 3 <? 3) with true by lia.
    replace (k - 3 + 3) with k by lia. replace (k <? 6) with true by lia. replace (k <? 3) with false by lia. by destruct (Z.testbit mode k), (Z.testbit g (k - 3)). }
  rewrite !Z.land_spec, (testbit_small g), !Z.lor_spec, !Z.lnot_spec, !Z.shiftr_spec, !testbit_7 by lia.
  replace (6 <=? k) with true by lia. replace (3 <=? k) with true by lia. replace (k - 6 + 6) with k by lia.
  replace (k <? 6) with false by lia. replace (k <? 3) with false by lia. destruct (Z.ltb_spec k 9).
  { replace (k - 6 <? 3) with true by lia. by destruct (Z.testbit mode k), (Z.testbit u (k - 6)). }
  rewrite (testbit_small u) by lia. by destruct (Z.testbit mode k).
Qed.

(** What the loop leaves, entry by entry *)
Lemma masq_owner m a rest : e_tag a = ACL_USER_OBJ -> mq_acl m = a :: rest ->
  masq_entry m 0 a = Some (m <| mq_acl := a <| e_perm := owner_perm (mq_mode m) (e_perm a) |> :: rest |>
    <| mq_mode := Z.land (mq_mode m) (Z.lor (Z.shiftl (owner_perm (mq_mode m) (e_perm a)) 6) (Z.lnot 448)) |>).
Proof.
  intros E Ha. destruct rwx as (Eo & _ & Eu & _). unfold masq_entry. rewrite E, Z.eqb_refl, Ha. cbn. by rewrite ?Eo, ?Eu.
Qed.
Lemma masq_gobj m k a : e_tag a = ACL_GROUP_OBJ -> masq_entry m k a = Some (m <| mq_group := Some k |>).
Proof.
  pose proof tags_differ as Hd. rewrite !list.NoDup_cons, !not_elem_of_cons in Hd. destruct_and! Hd. intros E. unfold masq_entry. rewrite E.
  replace (ACL_GROUP_OBJ =? ACL_USER_OBJ) with false by (symmetry; tag_eq). replace (ACL_GROUP_OBJ =? ACL_USER) with false by (symmetry; tag_eq).
  replace (ACL_GROUP_OBJ =? ACL_GROUP) with false by (symmetry; tag_eq). by rewrite Z.eqb_refl.
Qed.
Lemma masq_mask m k a : e_tag a = ACL_MASK -> masq_entry m k a = Some (m <| mq_mask := Some k |> <| mq_not_equiv := 1 |>).
Proof.
  pose proof tags_differ as Hd. rewrite !list.NoDup_cons, !not_elem_of_cons in Hd. destruct_and! Hd. intros E. unfold masq_entry. rewrite E.
  replace (ACL_MASK =? ACL_USER_OBJ) with false by (symmetry; tag_eq). replace (ACL_MASK =? ACL_USER) with false by (symmetry; tag_eq).
  replace (ACL_MASK =? ACL_GROUP) with false by (symmetry; tag_eq). replace (ACL_MASK =? ACL_GROUP_OBJ) with false by (symmetry; tag_eq).
  replace (ACL_MASK =? ACL_OTHER) with false by (symmetry; tag_eq). by rewrite Z.eqb_refl.
Qed.
Lemma masq_other m pre a : e_tag a = ACL_OTHER -> mq_acl m = pre ++ [a] ->
  masq_entry m (length pre) a = Some (m <| mq_acl := pre ++ [a <| e_perm := other_perm (mq_mode m) (e_perm a) |>] |>
    <| mq_mode := Z.land (mq_mode m) (Z.lor (other_perm (mq_mode m) (e_perm a)) (Z.lnot 7)) |>).
Proof.
  pose proof tags_differ as Hd. rewrite !list.NoDup_cons, !not_elem_of_cons in Hd. destruct_and! Hd. intros E Ha. destruct rwx as (Eo & _ & Eu & _). unfold masq_entry. rewrite E.
  replace (ACL_OTHER =? ACL_USER_OBJ) with false by (symmetry; tag_eq). replace (ACL_OTHER =? ACL_USER) with false by (symmetry; tag_eq).
  replace (ACL_OTHER =? ACL_GROUP) with false by (symmetry; tag_eq). replace (ACL_OTHER =? ACL_GROUP_OBJ) with false by (symmetry; tag_eq).
  rewrite Z.eqb_refl, Ha, insert_middle. cbn. by rewrite Eo.
Qed.

(** The permissions of a new file: masking an ACL with the mode the caller asked
    for leaves the named entries as they are, masks the owner, the others and
    the mask (without one, the group), and makes of them the permission bits of
    the mode; 0 is returned exactly when the mode says all the ACL does. *)
Theorem acl_masq_mode uo us go gs mk ot mode : valid_acl (uo :: us ++ go :: gs ++ mk ++ [ot]) -> e_tag uo = ACL_USER_OBJ -> e_tag go = ACL_GROUP_OBJ ->
  e_tag ot = ACL_OTHER -> Forall (fun a => e_tag a = ACL_USER) us -> Forall (fun a => e_tag a = ACL_GROUP) gs -> 
  (mk = [] /\ us = [] /\ gs = []) \/ (exists m, mk = [m] /\ e_tag m = ACL_MASK) ->
  Forall (fun a => 0 <= e_perm a < 8) (uo :: us ++ go :: gs ++ mk ++ [ot]) -> 0 <= mode ->
  let uo' := uo <| e_perm := owner_perm mode (e_perm uo) |> in
  let ot' := ot <| e_perm := other_perm mode (e_perm ot) |> in
  let masked a := a <| e_perm := group_perm mode (e_perm a) |> in
  f2fs_acl_create_masq (uo :: us ++ go :: gs ++ mk ++ [ot]) mode =
    match mk with
    | [] => (0, [uo'; masked go; ot'], acl_mode mode (e_perm uo') (e_perm (masked go)) (e_perm ot'))
    | m :: _ => (1, uo' :: us ++ go :: gs ++ [masked m; ot'], acl_mode mode (e_perm uo') (e_perm (masked m)) (e_perm ot'))
    end.
Proof.
  intros Hv T1 T3 T5 T2 T4 T6 Hp Hm uo' ot' masked. destruct rwx as (Eo & Eg & Eu & Eall). unfold f2fs_acl_create_masq.
  assert (0 <= e_perm uo < 8) as Hpu by (by inversion Hp).
  assert (0 <= e_perm ot < 8) as Hpo by (apply (proj1 (list.Forall_forall _ _) Hp); rewrite !app_comm_cons, !app_assoc; apply elem_of_app; right; in_list).
  assert (0 <= e_perm go < 8) as Hpg by (apply (proj1 (list.Forall_forall _ _) Hp); right; apply elem_of_app; right; in_list).
  cbn [masq_entries]. rewrite (masq_owner _ _ (us ++ go :: gs ++ mk ++ [ot])) by done. cbn [mq_mode mq_acl].
  destruct T6 as [(-> & -> & ->)|(m & -> & Tm)]; cbn [app].
  - cbn [masq_entries]. rewrite masq_gobj by done. cbn [masq_entries].
    rewrite (masq_other _ [uo'; go]) by done. cbn. rewrite Eo, Eg, Eall.
    destruct (mode_updates mode _ _ _ Hpu Hpg Hpo Hm) as (E1 & E2 & E3).
    match goal with |- context [Z.land (e_perm go) (Z.lor (Z.shiftr ?m 3) (Z.lnot 7))] => change (Z.land (e_perm go) (Z.lor (Z.shiftr m 3) (Z.lnot 7))) with (group_perm m (e_perm go)) end.
    rewrite E3, E2, E1. done.
  - assert (0 <= e_perm m < 8) as Hpm
      by (apply (proj1 (list.Forall_forall _ _) Hp); rewrite app_comm_cons; apply elem_of_app; right; right; apply elem_of_app; right; in_list).
    rewrite masq_named by (eapply list.Forall_impl; [exact T2|tauto]). cbn [masq_entries]. rewrite masq_gobj by done.
    rewrite masq_named by (eapply list.Forall_impl; [exact T4|tauto]).
    set (pre := uo' :: us ++ go :: gs). assert (uo' :: us ++ go :: gs ++ [masked m; ot'] = pre ++ [masked m; ot']) as -> by (unfold pre; cbn [app]; by rewrite <- app_assoc).
    match goal with |- context [masq_entries ?x ?y [m; ot]] => set (M := x); replace y with (length pre) end.
    2: { unfold pre. cbn. rewrite length_app. cbn. lia. }
    assert (mq_acl M = pre ++ [m; ot] /\ mq_mode M = Z.land mode (Z.lor (Z.shiftl (owner_perm mode (e_perm uo)) 6) (Z.lnot 448))) as [Ma Mm].
    { unfold M, pre, uo'. cbn [app]. rewrite <- app_assoc. destruct gs, us; by split. }
    clearbody M. cbn [masq_entries]. rewrite masq_mask by done.
    replace (S (length pre)) with (length (pre ++ [m])) by (rewrite length_app; cbn; lia).
    rewrite (masq_other _ (pre ++ [m])) by (done || (etrans; [exact Ma|by rewrite <- app_assoc])).
    clearbody pre. destruct M as [ma mm mg mmk mne]. cbn in Ma, Mm |- *. subst ma mm. unfold masq_group. cbn.
    rewrite <- app_assoc. cbn [app]. rewrite lookup_middle', insert_middle. cbn [app]. rewrite Eo, Eg, Eall.
    destruct (mode_updates mode _ _ _ Hpu Hpm Hpo Hm) as (E1 & E2 & E3).
    match goal with |- context [Z.land (e_perm m) (Z.lor (Z.shiftr ?x 3) (Z.lnot 7))] => change (Z.land (e_perm m) (Z.lor (Z.shiftr x 3) (Z.lnot 7))) with (group_perm x (e_perm m)) end.
    by rewrite E3, E2, E1.
Qed.

(** What the code does not do: when the ACL is the one already stored, the mode
    posix_acl_update_mode computed (without the set-group-ID bit, say) is
    dropped, although the call succeeds. *)
Lemma same_acl_keeps_mode i m env fresh mem acl mode : represents i m -> env_quiet env -> valid_acl acl -> ACL_HDR + zlen acl * ACL_LONG <= zlen mem ->
  ACL_HDR + asizes acl <= MAX_VALUE_LEN i -> m !! (F2FS_XATTR_INDEX_POSIX_ACL_ACCESS, []) = Some (acl_disk acl) ->
  exists i', f2fs_set_acl false 0 env fresh (Some mem) (inr (mode, Some acl)) i (Some acl) ACL_TYPE_ACCESS = Done (0, i', Some (Some acl)) /\
    i_mode i' = i_mode i /\ i_acl_mode i' = None.
Proof.
  intros Hr Hq Hv Hm Hs Hl. destruct (to_disk_valid acl mem Hv Hm) as (b & Hb & Hsl). pose proof name_len.
  unfold f2fs_set_acl, __f2fs_set_acl. rewrite Z.eqb_refl, Hb. cbn [obind]. rewrite Hsl. unfold f2fs_setxattr. cbn [nz Z.eqb negb].
  rewrite (same_value_keeps_mode (set_acl_inode i mode) m); try done.
  - cbn [obind]. eexists. split; [done|]. by destruct i.
  - by apply (represents_meta i).
  - change (zlen []) with 0. lia.
  - by rewrite zlen_acl_disk.
Qed.
End props.

(** ** Concrete ACLs *)

Section demo.
#[local] Existing Instance linux_xattr.
#[local] Existing Instance linux_xattr_ok.
#[local] Existing Instance linux_acl.
#[local] Existing Instance linux_acl_ok.
Definition ent (tag perm id : Z) : posix_acl_entry := {| e_tag := tag; e_perm := perm; e_id := id |}.
(** u::rwx, u:1000:r-x, g::r-x, m::rwx, o::r-- *)
Definition demo_acl : posix_acl := [ent 1 7 0; ent 2 5 1000; ent 4 5 0; ent 16 7 0; ent 32 4 0].
Lemma demo_acl_valid : valid_acl demo_acl.
Proof.
  exists (ent 1 7 0), [ent 2 5 1000], (ent 4 5 0), [], [ent 16 7 0], (ent 32 4 0). split_and!; try done.
  - by repeat constructor.
  - right. by exists (ent 16 7 0).
  - repeat (constructor; [by vm_compute|]). constructor.
  - repeat (constructor; [by vm_compute|]). constructor.
Qed.
Lemma demo_drop_stored stored : stored = Some demo_acl \/ stored = None -> stored_acl (inr (16893, stored)) demo_inode demo_acl 32768 stored.
Proof. intros Hs. left. split; [done|]. by exists 16893. Qed.
Lemma acl_set_get_witness : f2fs_acl_size 5 = 28 /\
  (exists i', f2fs_set_acl false 0 quiet page0 (Some (zeros 44)) (inr (16893, None)) demo_inode (Some demo_acl) 32768 = Done (0, i', Some None) /\
     f2fs_get_acl quiet (false, false) i' 32768 = Done (inr None) /\ represents i' (delete (acl_index 32768, []) demo_map)) /\
  exists err i' cached, f2fs_set_acl false 0 quiet page0 (Some (zeros 44)) (inr (16893, Some demo_acl)) demo_inode (Some demo_acl) 32768 = Done (err, i', cached) /\
    ((err = - E2BIG /\ cached = None /\ represents i' demo_map) \/
     (err = 0 /\ cached = Some (Some demo_acl) /\ f2fs_get_acl quiet (false, false) i' 32768 = Done (inr (Some demo_acl)) /\
      represents i' (<[(acl_index 32768, []) := acl_disk demo_acl]> demo_map))).
Proof.
  pose proof (fun upd => acl_set_get demo_inode demo_map quiet page0 (zeros 44) upd demo_acl 32768 demo_represents eq_refl (proj1 quiet_ok) (proj2 quiet_ok)
    ltac:(by vm_compute) demo_acl_valid ltac:(by vm_compute) ltac:(by vm_compute)) as Hset.
  split; [done|]. split.
  - apply (proj1 (proj2 (Hset (inr (16893, None))))), demo_drop_stored. by right.
  - apply (proj2 (proj2 (Hset (inr (16893, Some demo_acl))))), demo_drop_stored. by left.
Defined.
(** A file made with mode 0640 below it: rw- for the owner and --- for others *)
Lemma acl_masq_mode_witness : f2fs_acl_create_masq demo_acl 33184 = (1, [ent 1 6 0; ent 2 5 1000; ent 4 5 0; ent 16 4 0; ent 32 0 0], 33184) /\
  f2fs_acl_create_masq demo_acl 33184 =
    (1, (ent 1 7 0) <| e_perm := owner_perm 33184 7 |> :: [ent 2 5 1000] ++ ent 4 5 0 :: [] ++
        [(ent 16 7 0) <| e_perm := group_perm 33184 7 |>; (ent 32 4 0) <| e_perm := other_perm 33184 4 |>],
     acl_mode 33184 (owner_perm 33184 7) (group_perm 33184 7) (other_perm 33184 4)).
Proof.
  split; [by vm_compute|]. apply (acl_masq_mode (ent 1 7 0) [ent 2 5 1000] (ent 4 5 0) [] [ent 16 7 0] (ent 32 4 0) 33184).
  - exact demo_acl_valid.
  - done.
  - done.
  - done.
  - by repeat constructor.
  - constructor.
  - right. by exists (ent 16 7 0).
  - repeat (constructor; [by vm_compute|]). constructor.
  - lia.
Defined.
(** An image where the two first entries are long: the count fits the size, but
    the third entry starts at the end, which the test lets pass. *)
Lemma crafted_acl_overruns : f2fs_acl_from_disk false ([1; 0; 0; 0] ++ [2; 0; 6; 0; 0; 0; 0; 0] ++ [2; 0; 6; 0; 0; 0; 0; 0]) = Bug.
Proof. by vm_compute. Qed.
End demo.
