(* ===== verification/Orphan.v ===== *)
(** * Inode lists of a checkpoint and the orphan blocks

    [checkpoint.c]: the lists of inodes kept until the next checkpoint (struct
    inode_management), the reservation of orphan entries, and the orphan blocks of a
    checkpoint pack, which are written from the list and read back at mount to
    delete the inodes that were open but unlinked. *)
From stdpp Require Import gmap.
From S2P Require Import Prelude F2fsBits Bytes.
Open Scope Z_scope.

(** struct f2fs_orphan_block of [<linux/f2fs_fs.h>]: [ino] is at offset 0. *)
Class OrphanFormat := {
  F2FS_ORPHANS_PER_BLOCK : Z;
  orphan_blk_addr : Z;
  orphan_blk_count : Z;
  orphan_entry_count : Z;
}.
Definition BLKSIZE : Z := 4096.
Class OrphanFormatOk `{OrphanFormat} : Prop := {
  orphans_pos : 0 < F2FS_ORPHANS_PER_BLOCK < 65536;
  orphan_inos : 4 * F2FS_ORPHANS_PER_BLOCK <= orphan_blk_addr;
  orphan_addr_count : orphan_blk_addr + 2 <= orphan_blk_count;
  orphan_count_entries : orphan_blk_count + 2 <= orphan_entry_count;
  orphan_in_block : orphan_entry_count + 4 <= BLKSIZE;
}.

Definition ENOSPC : Z := 28.
Definition EIO : Z := 5.
Definition ENOENT : Z := 2.

(** ** Lists of inodes *)

Definition ORPHAN_INO : Z := 0.
Definition APPEND_INO : Z := 1.
Definition FLUSH_INO : Z := 4.
Definition MAX_INO_ENTRY : Z := 5.

Record ino_entry := mk_ino { ie_ino : Z; dirty_device : Z }.
#[export] Instance eta_ino_entry : Eta ino_entry := fun e => mk_ino (ie_ino e) (dirty_device e).
(** ino_root indexes the entries of ino_list by inode number and always holds the
    same entries, so the list stands for both. *)
Record inode_management := mk_im { ino_list : list ino_entry; ino_num : Z }.
#[export] Instance eta_im : Eta inode_management := fun i => mk_im (ino_list i) (ino_num i).
#[export] Instance im_inhabited : Inhabited inode_management := populate (mk_im [] 0).

(** sbi->im, sbi->max_orphans and the flag SBI_NEED_FSCK *)
Record ino_sbi := mk_isbi { im : list inode_management; max_orphans : Z; isb_need_fsck : bool }.
#[export] Instance eta_isbi : Eta ino_sbi := fun s => mk_isbi (im s) (max_orphans s) (isb_need_fsck s).

(** radix_tree_lookup *)
Fixpoint ino_lookup (l : list ino_entry) (ino : Z) : option ino_entry :=
  match l with [] => None | e :: l => if ie_ino e =? ino then Some e else ino_lookup l ino end.
(** A store through the pointer the lookup gave, and list_del *)
Definition ino_update (f : ino_entry -> ino_entry) (ino : Z) (l : list ino_entry) : list ino_entry :=
  map (fun e => if ie_ino e =? ino then f e else e) l.
Definition ino_delete (ino : Z) (l : list ino_entry) : list ino_entry :=
  List.filter (fun e => negb (ie_ino e =? ino)) l.
(** f2fs_set_bit and f2fs_test_bit on the bytes of an [unsigned int] *)
Definition set_device_bit (devidx d : Z) : Z := le_get (f2fs_set_bit devidx (le_put 4 d)).
Definition test_device_bit (devidx d : Z) : bool := f2fs_test_bit devidx (le_put 4 d).

Definition set_im (s : ino_sbi) (type : Z) (i : inode_management) : ino_sbi := s <| im ::= fun l => l.[type <- i] |>.

Definition __add_ino_entry (s : ino_sbi) (ino devidx type : Z) : ino_sbi :=
  let i := (im s).[type] in
  let i := match ino_lookup (ino_list i) ino with
           | Some _ => i
           | None => let i := i <| ino_list ::= fun l => l ++ [mk_ino ino 0] |> in
                     if negb (type =? ORPHAN_INO) then i <| ino_num ::= fun n => u64 (n + 1) |> else i
           end in
  let i := if type =? FLUSH_INO
           then i <| ino_list ::= ino_update (fun e => e <| dirty_device ::= set_device_bit devidx |>) ino |> else i in
  set_im s type i.
Definition __remove_ino_entry (s : ino_sbi) (ino type : Z) : ino_sbi :=
  let i := (im s).[type] in
  match ino_lookup (ino_list i) ino with
  | Some _ => set_im s type (i <| ino_list ::= ino_delete ino |> <| ino_num ::= fun n => u64 (n - 1) |>)
  | None => s
  end.
Definition f2fs_add_ino_entry (s : ino_sbi) (ino type : Z) : ino_sbi := __add_ino_entry s ino 0 type.
Definition f2fs_remove_ino_entry (s : ino_sbi) (ino type : Z) : ino_sbi := __remove_ino_entry s ino type.
Definition f2fs_exist_written_data (s : ino_sbi) (ino mode : Z) : bool := isSome (ino_lookup (ino_list (im s).[mode]) ino).
Definition f2fs_set_dirty_device (s : ino_sbi) (ino devidx type : Z) : ino_sbi := __add_ino_entry s ino devidx type.
Definition f2fs_is_dirty_device (s : ino_sbi) (ino devidx type : Z) : bool :=
  match ino_lookup (ino_list (im s).[type]) ino with Some e => test_device_bit devidx (dirty_device e) | None => false end.

(** list_for_each_entry_safe frees every entry of one list. *)
Definition release_entries (i : inode_management) : inode_management :=
  fold_left (fun i e => i <| ino_list ::= ino_delete (ie_ino e) |> <| ino_num ::= fun n => u64 (n - 1) |>) (ino_list i) i.
Definition f2fs_release_ino_entry (s : ino_sbi) (all : bool) : ino_sbi :=
  fold_left (fun s i => set_im s i (release_entries (im s).[i]))
    (seqZ (if all then ORPHAN_INO else APPEND_INO) (MAX_INO_ENTRY - (if all then ORPHAN_INO else APPEND_INO))) s.

(** ** Orphans *)

Definition f2fs_acquire_orphan_inode (s : ino_sbi) : Z * ino_sbi :=
  let i := (im s).[ORPHAN_INO] in
  if max_orphans s <=? ino_num i then (- ENOSPC, s) else (0, set_im s ORPHAN_INO (i <| ino_num ::= fun n => u64 (n + 1) |>)).
Definition f2fs_release_orphan_inode (s : ino_sbi) : outcome ino_sbi :=
  let i := (im s).[ORPHAN_INO] in
  if ino_num i =? 0 then Bug else Done (set_im s ORPHAN_INO (i <| ino_num ::= fun n => u64 (n - 1) |>)).
(** Without f2fs_update_inode_page *)
Definition f2fs_add_orphan_inode (s : ino_sbi) (ino : Z) : ino_sbi := __add_ino_entry s ino 0 ORPHAN_INO.
Definition f2fs_remove_orphan_inode (s : ino_sbi) (ino : Z) : ino_sbi := __remove_ino_entry s ino ORPHAN_INO.

Section orphans.
Context `{OrphanFormat}.

(** GET_ORPHAN_BLOCKS of [<linux/f2fs_fs.h>]: the blocks that [n] entries need *)
Definition GET_ORPHAN_BLOCKS (n : Z) : Z := (n + F2FS_ORPHANS_PER_BLOCK - 1) / F2FS_ORPHANS_PER_BLOCK.
(** [packs] and [types] are F2FS_CP_PACKS and NR_CURSEG_TYPE. *)
Definition f2fs_init_ino_entry_info (blocks_per_seg packs types cp_payload : Z) (s : ino_sbi) : ino_sbi :=
  s <| im := replicate (Z.to_nat MAX_INO_ENTRY) (mk_im [] 0) |>
    <| max_orphans := u32 ((blocks_per_seg - packs - types - cp_payload) * F2FS_ORPHANS_PER_BLOCK) |>.

(** Stores to the fields of an orphan block *)
Definition put_ino (blk : list Z) (j ino : Z) : outcome (list Z) := wr blk (4 * j) (le_put 4 ino).
Definition close_orphan_block (blk : list Z) (index orphan_blocks nentries : Z) : outcome (list Z) :=
  blk <-- wr blk orphan_blk_addr (le_put 2 index) ;;
  blk <-- wr blk orphan_blk_count (le_put 2 orphan_blocks) ;;
  wr blk orphan_entry_count (le_put 4 nentries).

(** The loop of write_orphan_inodes: [page] is the block being filled (none before
    the first entry and after a full block), the result the blocks in order. *)
Fixpoint write_orphans (l : list ino_entry) (page : option (list Z)) (nentries index orphan_blocks : Z) : outcome (list (list Z)) :=
  match l with
  | [] => match page with
          | Some blk => blk <-- close_orphan_block blk index orphan_blocks nentries ;; Done [blk]
          | None => Done []
          end
  | orphan :: l =>
      let blk := match page with Some blk => blk | None => zeros BLKSIZE end in
      blk <-- put_ino blk nentries (ie_ino orphan) ;;
      let nentries := nentries + 1 in
      if nentries =? F2FS_ORPHANS_PER_BLOCK then
        blk <-- close_orphan_block blk index orphan_blocks nentries ;;
        rest <-- write_orphans l None 0 (u16 (index + 1)) orphan_blocks ;;
        Done (blk :: rest)
      else write_orphans l (Some blk) nentries index orphan_blocks
  end.
(** The meta pages it makes dirty, from [start_blk] on *)
Definition write_orphan_inodes (s : ino_sbi) (start_blk : Z) : outcome (list (Z * list Z)) :=
  let i := (im s).[ORPHAN_INO] in
  blks <-- write_orphans (ino_list i) None 0 1 (u16 (GET_ORPHAN_BLOCKS (ino_num i))) ;;
  Done (zip (seqZ start_blk (zlen blks)) blks).

(** What the inode of an orphan gives: the error of f2fs_iget_retry, that of
    dquot_initialize, and the address its nid has after the last iput *)
Record orphan_inode := { iget_err : Z; dquot_err : Z; ni_blk_addr : Z }.

Definition recover_orphan_inode (evict : Z -> orphan_inode) (s : ino_sbi) (ino : Z) : outcome (Z * ino_sbi) :=
  let err_out err s := Done (err, s <| isb_need_fsck := true |>) in
  let '(err, s) := f2fs_acquire_orphan_inode s in
  if nz err then err_out err s else
  let s := __add_ino_entry s ino 0 ORPHAN_INO in
  if nz (iget_err (evict ino)) then
    if iget_err (evict ino) =? - ENOENT then Bug else Done (iget_err (evict ino), s)
  else if nz (dquot_err (evict ino)) then err_out (dquot_err (evict ino)) s
  else if negb (ni_blk_addr (evict ino) =? 0) then err_out (- EIO) s
  else Done (0, __remove_ino_entry s ino ORPHAN_INO).

(** The loop over the entries of one block, and the loop over the blocks *)
Fixpoint recover_entries (evict : Z -> orphan_inode) (n : nat) (blk : list Z) (j : Z) (s : ino_sbi) : outcome (Z * ino_sbi) :=
  match n with
  | O => Done (0, s)
  | S n =>
      ino <-- rd32 blk (4 * j) ;;
      r <-- recover_orphan_inode evict s ino ;;
      let '(err, s) := r in
      if nz err then Done (err, s) else recover_entries evict n blk (j + 1) s
  end.
Fixpoint recover_blocks (evict : Z -> orphan_inode) (n : nat) (meta : Z -> list Z) (blk : Z) (s : ino_sbi) : outcome (Z * ino_sbi) :=
  match n with
  | O => Done (0, s)
  | S n =>
      cnt <-- rd32 (meta blk) orphan_entry_count ;;
      r <-- recover_entries evict (Z.to_nat cnt) (meta blk) 0 s ;;
      let '(err, s) := r in
      if nz err then Done (err, s) else recover_blocks evict n meta (blk + 1) s
  end.

End orphans.
