(* ===== verification/OrphanProps.v ===== *)
(** * The orphan blocks hold the orphan list

    The counters of the inode lists under any sequence of operations, and the
    round trip of the orphans through the blocks of a checkpoint pack. *)
From stdpp Require Import gmap.
From S2P Require Import Prelude F2fsBits Bytes Orphan.
Open Scope Z_scope.

Section blocks.
Context `{OrphanFormatOk}.
#[local] Abbreviation PER := F2FS_ORPHANS_PER_BLOCK.

#[local] Ltac fmt := pose proof orphans_pos; pose proof orphan_inos; pose proof orphan_addr_count; pose proof orphan_count_entries; pose proof orphan_in_block.

Definition ino_ok (e : ino_entry) : Prop := 0 <= ie_ino e < 4294967296.

(** A block holds the inode numbers [l], and their number once it is closed. *)
Definition holds (blk : list Z) (l : list Z) : Prop :=
  zlen blk = BLKSIZE /\ forall j, 0 <= j < zlen l -> rd32 blk (4 * j) = Done l.[j].
Definition closed (blk : list Z) (l : list Z) : Prop := holds blk l /\ rd32 blk orphan_entry_count = Done (zlen l).

Lemma holds_nil : holds (zeros BLKSIZE) [].
Proof. split; [by rewrite zlen_zeros|]. intros j Hj. change (zlen (@nil Z)) with 0 in Hj. lia. Qed.
Lemma put_ino_holds blk l ino : holds blk l -> zlen l < PER -> 0 <= ino < 4294967296 ->
  exists blk', put_ino blk (zlen l) ino = Done blk' /\ holds blk' (l ++ [ino]).
Proof.
  intros [Hz Hh] Hl Hi. pose proof (zlen_nonneg l). fmt. unfold put_ino.
  rewrite wr_ok by (rewrite ?zlen_le_put; lia). eexists. split; [done|]. set (blk' := blit _ _ _).
  assert (wr blk (4 * zlen l) (le_put 4 ino) = Done blk') as E by (apply wr_ok; rewrite ?zlen_le_put; lia). split.
  - rewrite (zlen_wr _ _ _ _ E). done.
  - intros j Hj. rewrite zlen_app in Hj. change (zlen [ino]) with 1 in Hj. destruct (decide (j = zlen l)) as [->|].
    + rewrite (rd32_wr_eq _ _ _ _ E Hi). rewrite aget_app_r by lia. by rewrite Z.sub_diag.
    + rewrite (rd32_wr_ne _ _ _ _ _ E) by lia. rewrite Hh by lia. by rewrite aget_app_l by lia.
Qed.
Lemma close_holds blk l index n : holds blk l -> zlen l <= PER ->
  exists blk', close_orphan_block blk index n (zlen l) = Done blk' /\ closed blk' l.
Proof.
  intros [Hz Hh] Hl. pose proof (zlen_nonneg l). fmt. unfold close_orphan_block.
  destruct (wr blk orphan_blk_addr (le_put 2 index)) as [b1| |] eqn:E1; try (rewrite wr_ok in E1 by (rewrite ?zlen_le_put; lia); done).
  pose proof (zlen_wr _ _ _ _ E1) as Z1. cbn [obind].
  destruct (wr b1 orphan_blk_count (le_put 2 n)) as [b2| |] eqn:E2; try (rewrite wr_ok in E2 by (rewrite ?zlen_le_put; lia); done).
  pose proof (zlen_wr _ _ _ _ E2) as Z2. cbn [obind].
  destruct (wr b2 orphan_entry_count (le_put 4 (zlen l))) as [b3| |] eqn:E3; try (rewrite wr_ok in E3 by (rewrite ?zlen_le_put; lia); done).
  pose proof (zlen_wr _ _ _ _ E3) as Z3. exists b3. split; [done|]. split; [split; [lia|]|apply (rd32_wr_eq _ _ _ _ E3); lia].
  intros j Hj. rewrite (rd32_wr_ne _ _ _ _ _ E3), (rd32_wr_ne _ _ _ _ _ E2), (rd32_wr_ne _ _ _ _ _ E1) by lia. by apply Hh.
Qed.

(** The groups of [PER] into which the list is cut *)
Definition grouped (blks : list (list Z)) (l : list Z) : Prop :=
  exists gs, l = concat gs /\ Forall2 closed blks gs.

Lemma div_ceil_step n : 0 < PER -> (n + PER + PER - 1) / PER = 1 + (n + PER - 1) / PER.
Proof. intros. replace (n + PER + PER - 1) with (n + PER - 1 + 1 * PER) by lia. rewrite Z.div_add by lia. lia. Qed.
Lemma write_orphans_ok l page done index total :
  Forall ino_ok l -> holds (default (zeros BLKSIZE) page) done -> zlen done < PER ->
  (page = None -> done = []) -> (isSome page -> done <> []) ->
  exists blks, write_orphans l page (zlen done) index total = Done blks /\
    grouped blks (done ++ map ie_ino l) /\ zlen blks = GET_ORPHAN_BLOCKS (zlen done + zlen l).
Proof.
  intros Hl. revert page done index. pose proof orphans_pos as Hp. induction Hl as [|e l He Hl IH]; intros page done index Hh Hd H1 H2.
  - cbn [write_orphans map]. rewrite app_nil_r. unfold GET_ORPHAN_BLOCKS. change (zlen (@nil ino_entry)) with 0. rewrite Z.add_0_r.
    destruct page as [blk|]; cbn in Hh.
    + destruct (close_holds blk done index total Hh ltac:(lia)) as (blk' & -> & Hc). exists [blk']. split; [done|]. split.
      * exists [done]. cbn. rewrite app_nil_r. split; [done|]. constructor; [done|constructor].
      * assert (0 < zlen done) by (destruct done; [by destruct H2|rewrite zlen_cons; pose proof (zlen_nonneg done); lia]).
        change (zlen [blk']) with 1. replace (zlen done + PER - 1) with (zlen done - 1 + 1 * PER) by lia. rewrite Z.div_add by lia.
        rewrite Z.div_small by lia. done.
    + rewrite (H1 eq_refl). exists []. split; [done|]. split; [exists []; by split|]. change (zlen (@nil Z)) with 0.
      change (zlen (@nil (list Z))) with 0. rewrite Z.div_small by lia. done.
  - cbn [write_orphans map]. replace (match page with Some blk => blk | None => zeros BLKSIZE end) with (default (zeros BLKSIZE) page) by (by destruct page).
    destruct (put_ino_holds _ done (ie_ino e) Hh Hd He) as (blk & -> & Hb). cbn [obind].
    assert (zlen (done ++ [ie_ino e]) = zlen done + 1) as Hz by (by rewrite zlen_app).
    destruct (Z.eqb_spec (zlen done + 1) PER) as [E|E].
    + rewrite <- Hz. destruct (close_holds blk (done ++ [ie_ino e]) index total Hb ltac:(lia)) as (blk' & -> & Hc). cbn [obind].
      destruct (IH None [] (u16 (index + 1)) holds_nil ltac:(change (zlen (@nil Z)) with 0; lia) ltac:(done) ltac:(done)) as (blks & Hw & (gs & Hg & Hf) & Hn).
      change (zlen (@nil Z)) with 0 in Hw, Hn. rewrite Hw. cbn [obind].
      exists (blk' :: blks). split; [done|]. split.
      * exists ((done ++ [ie_ino e]) :: gs). split; [|by constructor]. cbn [concat]. rewrite <- Hg. by rewrite <- app_assoc.
      * rewrite zlen_cons, Hn. unfold GET_ORPHAN_BLOCKS. rewrite zlen_cons.
        replace (zlen done + (zlen l + 1) + PER - 1) with (zlen l + PER + PER - 1) by lia. rewrite div_ceil_step by lia. rewrite Z.add_0_l. lia.
    + rewrite <- Hz. destruct (IH (Some blk) (done ++ [ie_ino e]) index Hb ltac:(lia) ltac:(done)) as (blks & -> & Hg & Hn).
      { intros _ Hx. by apply app_eq_nil in Hx as [_ ?]. }
      exists blks. rewrite <- app_assoc in Hg. split; [done|]. split; [done|]. rewrite Hn, Hz, zlen_cons. f_equal. lia.
Qed.

(** ** Reading them back *)

Fixpoint recover_all (evict : Z -> orphan_inode) (l : list Z) (s : ino_sbi) : outcome (Z * ino_sbi) :=
  match l with
  | [] => Done (0, s)
  | ino :: l => r <-- recover_orphan_inode evict s ino ;; let '(err, s) := r in if nz err then Done (err, s) else recover_all evict l s
  end.
Lemma recover_all_app evict l1 l2 s :
  recover_all evict (l1 ++ l2) s =
  (r <-- recover_all evict l1 s ;; let '(err, s) := r in if nz err then Done (err, s) else recover_all evict l2 s).
Proof.
  revert s. induction l1 as [|ino l1 IH]; intros s; [done|]. cbn [recover_all app].
  destruct (recover_orphan_inode evict s ino) as [[err s1]| |]; cbn [obind]; [|done|done].
  destruct (nz err) eqn:E; [cbn [obind]; by rewrite E|apply IH].
Qed.
Lemma recover_entries_ok evict blk l j s : 0 <= j ->
  (forall k, 0 <= k < zlen l -> rd32 blk (4 * (j + k)) = Done l.[k]) ->
  recover_entries evict (length l) blk j s = recover_all evict l s.
Proof.
  revert j s. induction l as [|ino l IH]; intros j s Hj Hl; [done|]. cbn [length recover_entries recover_all].
  pose proof (zlen_nonneg l). specialize (Hl 0) as Hh0. rewrite Z.add_0_r in Hh0. rewrite Hh0 by (rewrite zlen_cons; lia). cbn [obind].
  change ((ino :: l).[0]) with ino. destruct (recover_orphan_inode evict s ino) as [[err s1]| |]; cbn [obind]; [|done|done].
  destruct (nz err); [done|]. apply IH; [lia|]. intros k Hk. specialize (Hl (k + 1)). rewrite zlen_cons in Hl.
  replace (j + 1 + k) with (j + (k + 1)) by lia. rewrite Hl by lia. f_equal.
  change (ino :: l) with ([ino] ++ l). rewrite aget_app_r by (change (zlen [ino]) with 1; lia). f_equal. change (zlen [ino]) with 1. lia.
Qed.
Lemma recover_blocks_ok evict meta blks gs start s : Forall2 closed blks gs ->
  (forall k, 0 <= k < zlen blks -> meta (start + k) = blks.[k]) ->
  recover_blocks evict (length blks) meta start s = recover_all evict (concat gs) s.
Proof.
  intros Hf. revert start s. induction Hf as [|blk g blks gs [[_ Hh] Hc] Hf IH]; intros start s Hm; [done|].
  cbn [length recover_blocks concat]. pose proof (zlen_nonneg blks). specialize (Hm 0) as Hh0. rewrite Z.add_0_r in Hh0.
  rewrite zlen_cons in Hm, Hh0. rewrite Hh0 by lia. change ((blk :: blks).[0]) with blk. rewrite Hc. cbn [obind].
  unfold zlen. rewrite Nat2Z.id, recover_entries_ok by (try done; intros k Hk; apply Hh, Hk). rewrite recover_all_app.
  destruct (recover_all evict g s) as [[err s1]| |]; cbn [obind]; [|done|done]. destruct (nz err); [done|]. apply IH.
  intros k Hk. replace (start + 1 + k) with (start + (k + 1)) by lia. rewrite Hm by lia.
  change (blk :: blks) with ([blk] ++ blks). rewrite aget_app_r by (change (zlen [blk]) with 1; lia). f_equal. change (zlen [blk]) with 1. lia.
Qed.
End blocks.

(** ** The lists between checkpoints *)

Section lists.
Implicit Types (l : list ino_entry) (s : ino_sbi).

Lemma ino_lookup_None l ino : ino_lookup l ino = None <-> ino ∉ map ie_ino l.
Proof.
  induction l as [|e l IH]; cbn; [split; [intros _; apply not_elem_of_nil|done]|].
  destruct (Z.eqb_spec (ie_ino e) ino) as [<-|E]; [split; [done|intros []; in_list]|].
  rewrite IH, not_elem_of_cons. split; [by split|by intros [? ?]].
Qed.
Lemma map_ino_update f ino l : (forall e, ie_ino (f e) = ie_ino e) -> map ie_ino (ino_update f ino l) = map ie_ino l.
Proof. intros Hf. unfold ino_update. induction l as [|e l IH]; cbn; [done|]. rewrite IH. f_equal. by destruct (ie_ino e =? ino). Qed.
Lemma ino_delete_notin ino l : ino ∉ map ie_ino l -> ino_delete ino l = l.
Proof.
  induction l as [|e l IH]; cbn; [done|]. rewrite not_elem_of_cons. intros [E Hn].
  destruct (Z.eqb_spec (ie_ino e) ino) as [<-|_]; [done|]. cbn. f_equal. by apply IH.
Qed.
Lemma ino_delete_in ino l : List.NoDup (map ie_ino l) -> ino ∈ map ie_ino l ->
  zlen (ino_delete ino l) = zlen l - 1 /\ List.NoDup (map ie_ino (ino_delete ino l)).
Proof.
  intros Hd. assert (forall l', incl (map ie_ino (ino_delete ino l')) (map ie_ino l')) as Hincl.
  { intros l' x. rewrite !in_map_iff. intros (e & <- & Hf%filter_In). exists e. by destruct Hf. }
  induction l as [|e l IH]; cbn [map] in *; [by intros ?%elem_of_nil|]. inversion Hd; subst. intros Hin.
  cbn [ino_delete List.filter]. destruct (Z.eqb_spec (ie_ino e) ino) as [E|E]; cbn [negb].
  - change (List.filter _ l) with (ino_delete ino l). rewrite ino_delete_notin; [rewrite zlen_cons; split; [lia|done]|].
    rewrite list_elem_of_In. by rewrite <- E.
  - apply elem_of_cons in Hin as [?|Hin]; [by subst|]. destruct IH as [IHn IHd]; [done|done|].
    change (List.filter _ l) with (ino_delete ino l). rewrite !zlen_cons. split; [lia|]. cbn. constructor; [|done].
    intros Hx. by apply Hincl in Hx.
Qed.

Lemma NoDup_add_ino l ino : List.NoDup (map ie_ino l) -> (ino ∉ map ie_ino l) -> List.NoDup (map ie_ino (l ++ [mk_ino ino 0])).
Proof.
  intros D Hn. rewrite map_app. apply NoDup_ListNoDup, list.NoDup_app. split_and!.
  - by apply NoDup_ListNoDup.
  - intros x Hx ->%list_elem_of_singleton. done.
  - apply NoDup_singleton.
Qed.

(** [p] tasks hold a reserved orphan entry that is not in the list yet. *)
Record im_ok (i : inode_management) (p : Z) : Prop := {
  im_nodup : List.NoDup (map ie_ino (ino_list i));
  im_num : ino_num i = u64 (zlen (ino_list i) + p);
}.
Record lists_ok (q : ino_sbi * Z) : Prop := {
  lo_len : zlen (im (fst q)) = MAX_INO_ENTRY;
  lo_held : 0 <= snd q;
  lo_ims : forall type, 0 <= type < MAX_INO_ENTRY -> im_ok (im (fst q)).[type] (if type =? ORPHAN_INO then snd q else 0);
  lo_room : zlen (ino_list (im (fst q)).[ORPHAN_INO]) + snd q <= max_orphans (fst q) < 4294967296;
}.

(** One operation, with the reservations it takes or uses up: a task adds an inode
    only after f2fs_acquire_orphan_inode and only one that is not yet an orphan. *)
Inductive ino_step : ino_sbi * Z -> ino_sbi * Z -> Prop :=
| acquire_step s p s' : f2fs_acquire_orphan_inode s = (0, s') -> ino_step (s, p) (s', p + 1)
| full_step s p err s' : f2fs_acquire_orphan_inode s = (err, s') -> err <> 0 -> ino_step (s, p) (s', p)
| add_step s p ino : 0 < p -> (ino ∉ map ie_ino (ino_list (im s).[ORPHAN_INO])) -> ino_step (s, p) (f2fs_add_orphan_inode s ino, p - 1)
| release_step s p s' : 0 < p -> f2fs_release_orphan_inode s = Done s' -> ino_step (s, p) (s', p - 1)
| remove_step s p ino : ino_step (s, p) (f2fs_remove_orphan_inode s ino, p)
| note_step s p ino devidx type : 0 < type < MAX_INO_ENTRY -> ino_step (s, p) (f2fs_set_dirty_device s ino devidx type, p)
| forget_step s p ino type : 0 < type < MAX_INO_ENTRY -> ino_step (s, p) (f2fs_remove_ino_entry s ino type, p)
| checkpoint_step s p : ino_step (s, p) (f2fs_release_ino_entry s false, p).

Lemma set_im_get s type i k : 0 <= type < zlen (im s) -> (im (set_im s type i)).[k] = if type =? k then i else (im s).[k].
Proof. intros. unfold set_im. cbn. by apply aget_aset. Qed.
Lemma set_im_len s type i : zlen (im (set_im s type i)) = zlen (im s).
Proof. apply zlen_aset. Qed.

(** A step that changes one list *)
Lemma set_im_ok s p p' type i : lists_ok (s, p) -> 0 <= type < MAX_INO_ENTRY -> 0 <= p' -> (type <> ORPHAN_INO -> p' = p) ->
  im_ok i (if type =? ORPHAN_INO then p' else 0) ->
  (type = ORPHAN_INO -> zlen (ino_list i) + p' <= max_orphans s) -> lists_ok (set_im s type i, p').
Proof.
  intros [L1 L2 L3 L4] Ht Hp Hpp Hi Hr. cbn [fst snd] in *. split; cbn [fst snd].
  - by rewrite set_im_len.
  - done.
  - intros k Hk. rewrite set_im_get by lia. destruct (Z.eqb_spec type k) as [->|E]; [done|].
    destruct (Z.eqb_spec k ORPHAN_INO) as [->|Ek]; [|specialize (L3 k Hk); by rewrite (proj2 (Z.eqb_neq _ _) Ek) in L3].
    rewrite Hpp by done. by apply (L3 ORPHAN_INO).
  - rewrite set_im_get by lia. destruct (Z.eqb_spec type ORPHAN_INO) as [->|E]; [split; [by apply Hr|apply L4]|]. by rewrite Hpp.
Qed.

Lemma u64_pred n : u64 (u64 n - 1) = u64 (n - 1).
Proof. unfold u64. apply Zminus_mod_idemp_l. Qed.
Lemma u64_succ n : u64 (u64 n + 1) = u64 (n + 1).
Proof. unfold u64. apply Zplus_mod_idemp_l. Qed.

Lemma remove_entry_ok i p ino : im_ok i p -> ino ∈ map ie_ino (ino_list i) ->
  im_ok (i <| ino_list ::= ino_delete ino |> <| ino_num ::= fun n => u64 (n - 1) |>) p /\
  zlen (ino_delete ino (ino_list i)) = zlen (ino_list i) - 1.
Proof.
  intros [D N] Hin. destruct (ino_delete_in ino (ino_list i) D Hin) as [Hz Hd]. split; [|done]. split; [done|]. cbn.
  rewrite N, Hz, u64_pred. f_equal. lia.
Qed.
Lemma remove_ino_ok s p ino type : lists_ok (s, p) -> 0 <= type < MAX_INO_ENTRY -> lists_ok (__remove_ino_entry s ino type, p).
Proof.
  intros W Ht. unfold __remove_ino_entry. destruct (ino_lookup _ ino) eqn:E; [|done].
  assert (ino ∈ map ie_ino (ino_list (im s).[type])) as Hin.
  { destruct (decide (ino ∈ map ie_ino (ino_list (im s).[type]))) as [|Hn]; [done|]. apply ino_lookup_None in Hn. congruence. }
  destruct (remove_entry_ok _ _ ino (lo_ims _ W type Ht) Hin) as [Hi Hz].
  apply (set_im_ok s p); [done|done|apply W|done|done|]. intros ->. cbn [ino_list]. pose proof (lo_room _ W) as Hr. cbn [fst snd] in Hr.
  cbn -[zlen]. change (zlen (ino_delete ino (ino_list (im s).[ORPHAN_INO])) + p <= max_orphans s). cbn [fst] in Hz. lia.
Qed.
Lemma add_other_ok s p ino devidx type : lists_ok (s, p) -> 0 < type < MAX_INO_ENTRY -> lists_ok (__add_ino_entry s ino devidx type, p).
Proof.
  intros W Ht. assert ((type =? ORPHAN_INO) = false) as Et by (unfold ORPHAN_INO; lia).
  unfold __add_ino_entry. pose proof (lo_ims _ W type ltac:(lia)) as [D N]. rewrite Et in N. cbn [fst] in D, N.
  apply (set_im_ok s p); [done|lia|apply W|done| |intros ->; cbn in Et; done]. rewrite Et. cbn [negb].
  set (i := match ino_lookup _ _ with Some _ => _ | None => _ end). assert (im_ok i 0) as [D1 N1].
  { subst i. destruct (ino_lookup (ino_list (im s).[type]) ino) eqn:E; [by split|]. apply ino_lookup_None in E. split; cbn.
    - by apply NoDup_add_ino.
    - rewrite N, u64_succ, zlen_app. change (zlen [mk_ino ino 0]) with 1. f_equal. lia. }
  destruct (type =? FLUSH_INO); [|by split]. split; cbn.
  - by rewrite map_ino_update.
  - rewrite N1. do 2 f_equal. unfold zlen, ino_update. by rewrite length_map.
Qed.

Lemma release_entries_ok i p : im_ok i p -> im_ok (release_entries i) p /\ ino_list (release_entries i) = [].
Proof.
  unfold release_entries. remember (ino_list i) as l eqn:E. intros W. revert i E W. induction l as [|e l IH]; intros i E W; [by cbn|].
  cbn [fold_left]. apply IH.
  - change (l = ino_delete (ie_ino e) (ino_list i)). rewrite <- E. cbn [ino_delete List.filter]. rewrite Z.eqb_refl. cbn [negb].
    change (l = ino_delete (ie_ino e) l). pose proof (im_nodup _ _ W) as D. rewrite <- E in D. inversion D; subst.
    rewrite ino_delete_notin; [done|]. by rewrite list_elem_of_In.
  - apply (remove_entry_ok i p (ie_ino e)); [done|]. rewrite <- E. in_list.
Qed.
Lemma release_ino_ok s p : lists_ok (s, p) ->
  lists_ok (f2fs_release_ino_entry s false, p) /\ (im (f2fs_release_ino_entry s false)).[ORPHAN_INO] = (im s).[ORPHAN_INO] /\
  forall type, 0 < type < MAX_INO_ENTRY -> ino_list (im (f2fs_release_ino_entry s false)).[type] = [].
Proof.
  intros W. unfold f2fs_release_ino_entry. change (seqZ _ _) with [1; 2; 3; 4].
  set (rel := fun s i => set_im s i (release_entries (im s).[i])).
  assert (forall s k, lists_ok (s, p) -> 0 < k < MAX_INO_ENTRY -> lists_ok (rel s k, p) /\
    (forall t, t <> k -> (im (rel s k)).[t] = (im s).[t]) /\ ino_list (im (rel s k)).[k] = []) as Hrel.
  { intros s0 k W0 Hk. pose proof (lo_ims _ W0 k ltac:(lia)) as Hi. pose proof (lo_len _ W0) as Hl. cbn [fst snd] in *.
    destruct (release_entries_ok _ _ Hi) as [Hok Hnil]. subst rel. cbn beta. split_and!.
    - apply (set_im_ok s0 p); [done|lia|apply W0|done|done|unfold ORPHAN_INO; lia].
    - intros t Ht. rewrite set_im_get by lia. by rewrite (proj2 (Z.eqb_neq k t)).
    - rewrite set_im_get by lia. by rewrite Z.eqb_refl. }
  cbn [fold_left]. destruct (Hrel s 1 W ltac:(done)) as (W1 & K1 & N1).
  destruct (Hrel _ 2 W1 ltac:(done)) as (W2 & K2 & N2). destruct (Hrel _ 3 W2 ltac:(done)) as (W3 & K3 & N3).
  destruct (Hrel _ 4 W3 ltac:(done)) as (W4 & K4 & N4). split; [done|]. split; [by rewrite K4, K3, K2, K1|].
  intros t Ht. assert (t = 1 \/ t = 2 \/ t = 3 \/ t = 4) as [-> | [-> | [-> | ->]]] by (unfold MAX_INO_ENTRY in Ht; lia);
    rewrite ?K4, ?K3, ?K2 by done; done.
Qed.

Lemma ino_step_ok q q' : lists_ok q -> ino_step q q' -> lists_ok q'.
Proof.
  intros W St. destruct St as [s p s' E|s p err s' E He|s p ino Hp Hn|s p s' Hp E|s p ino|s p ino devidx type Ht|s p ino type Ht|s p].
  all: pose proof (lo_ims _ W ORPHAN_INO ltac:(done)) as [D N]; pose proof (lo_room _ W) as Hr; pose proof (lo_held _ W) as Hh;
    pose proof (zlen_nonneg (ino_list (im s).[ORPHAN_INO])); change (if ORPHAN_INO =? ORPHAN_INO then ?a else 0) with a in N;
    cbn [fst snd] in *.
  - unfold f2fs_acquire_orphan_inode in E. set (i0 := (im s).[ORPHAN_INO]) in *. clearbody i0.
    destruct (Z.leb_spec (max_orphans s) (ino_num i0)) as [|Hlt]; [done|]. injection E as <-. rewrite u64_id in N by lia.
    apply (set_im_ok s p); [done|done|lia|done|split; [done|]|]; cbn; [rewrite N; f_equal; lia|lia].
  - unfold f2fs_acquire_orphan_inode in E. destruct (_ <=? _); [by injection E as _ <-|]. injection E as E _. done.
  - unfold f2fs_add_orphan_inode, __add_ino_entry. apply ino_lookup_None in Hn as Hl. rewrite Hl. change (0 =? FLUSH_INO) with false.
    set (i0 := (im s).[ORPHAN_INO]) in *. clearbody i0.
    apply (set_im_ok s p); [done|done|lia|done|split; cbn|]; cbn.
    + by apply NoDup_add_ino.
    + rewrite N, zlen_app. f_equal. change (zlen [mk_ino ino 0]) with 1. lia.
    + intros _. rewrite zlen_app. change (zlen [mk_ino ino 0]) with 1. lia.
  - unfold f2fs_release_orphan_inode in E. set (i0 := (im s).[ORPHAN_INO]) in *. clearbody i0.
    destruct (_ =? 0); [done|]. injection E as <-.
    apply (set_im_ok s p); [done|done|lia|done|split; [done|]|]; cbn; [rewrite N, u64_pred; f_equal; lia|lia].
  - by apply remove_ino_ok.
  - by apply add_other_ok.
  - apply remove_ino_ok; [done|lia].
  - by apply release_ino_ok.
Qed.
End lists.

Lemma set_im_max s type i : max_orphans (set_im s type i) = max_orphans s.
Proof. done. Qed.
Lemma ino_step_max q q' : ino_step q q' -> max_orphans (fst q') = max_orphans (fst q).
Proof.
  assert (forall s ino type, max_orphans (__remove_ino_entry s ino type) = max_orphans s) as Hr
    by (intros; unfold __remove_ino_entry; by destruct (ino_lookup _ _)).
  intros St. destruct St as [s p s' E|s p err s' E He|s p ino Hp Hn|s p s' Hp E|s p ino|s p ino devidx type Ht|s p ino type Ht|s p]; cbn [fst].
  - unfold f2fs_acquire_orphan_inode in E. destruct (_ <=? _); [done|]. by injection E as <-.
  - unfold f2fs_acquire_orphan_inode in E. destruct (_ <=? _); by injection E as _ <-.
  - done.
  - unfold f2fs_release_orphan_inode in E. destruct (_ =? 0); [done|]. by injection E as <-.
  - apply Hr.
  - done.
  - apply Hr.
  - done.
Qed.

(** ** Deleting the orphans at mount *)

Definition deletable (o : orphan_inode) : Prop := iget_err o = 0 /\ dquot_err o = 0 /\ ni_blk_addr o = 0.
Lemma set_im_twice s type i j : set_im (set_im s type i) type j = set_im s type j.
Proof.
  destruct s as [l m f]. change (mk_isbi (aset (aset l type i) type j) m f = mk_isbi (aset l type j) m f). f_equal.
  unfold aset. destruct (0 <=? type); [apply list_insert_insert_eq|done].
Qed.
Lemma set_im_same s type : 0 <= type < zlen (im s) -> set_im s type (im s).[type] = s.
Proof.
  intros Ht. destruct s as [l m f]. change (mk_isbi (aset l type l.[type]) m f = mk_isbi l m f). cbn in Ht. f_equal. apply arr_ext; [by rewrite zlen_aset|].
  intros k Hk. rewrite zlen_aset in Hk. rewrite aget_aset by done. by destruct (Z.eqb_spec type k) as [->|].
Qed.
Lemma add_first s ino n : (im s).[ORPHAN_INO] = mk_im [] n -> __add_ino_entry s ino 0 ORPHAN_INO = set_im s ORPHAN_INO (mk_im [mk_ino ino 0] n).
Proof. intros E. unfold __add_ino_entry. by rewrite E. Qed.
Lemma remove_only s ino n : (im s).[ORPHAN_INO] = mk_im [mk_ino ino 0] n ->
  __remove_ino_entry s ino ORPHAN_INO = set_im s ORPHAN_INO (mk_im [] (u64 (n - 1))).
Proof. intros E. unfold __remove_ino_entry. rewrite E. cbn [ino_list ino_lookup ie_ino]. rewrite Z.eqb_refl. f_equal.
  change (mk_im (ino_delete ino [mk_ino ino 0]) (u64 (n - 1)) = mk_im [] (u64 (n - 1))). f_equal. cbn. by rewrite Z.eqb_refl.
Qed.
Lemma recover_clean evict s ino : 0 < zlen (im s) -> (im s).[ORPHAN_INO] = mk_im [] 0 -> 0 < max_orphans s -> deletable (evict ino) ->
  recover_orphan_inode evict s ino = Done (0, s).
Proof.
  intros Hl Hi Hm (E1 & E2 & E3). unfold recover_orphan_inode, f2fs_acquire_orphan_inode. rewrite Hi. cbn [ino_num].
  replace (max_orphans s <=? 0) with false by lia. change (nz 0) with false. cbn iota. rewrite E1, E2, E3. change (nz 0) with false.
  change (negb (0 =? 0)) with false. cbn iota. do 2 f_equal.
  assert (0 <= ORPHAN_INO < zlen (im s)) as Ho by (unfold ORPHAN_INO; lia).
  rewrite (add_first _ ino 1) by (rewrite set_im_get, Z.eqb_refl by done; done). rewrite set_im_twice.
  rewrite (remove_only _ ino 1) by (rewrite set_im_get, Z.eqb_refl by done; done). rewrite set_im_twice.
  change (u64 (1 - 1)) with 0. rewrite <- Hi. by apply set_im_same.
Qed.
Lemma recover_all_clean evict s l : 0 < zlen (im s) -> (im s).[ORPHAN_INO] = mk_im [] 0 -> 0 < max_orphans s ->
  (forall ino, ino ∈ l -> deletable (evict ino)) -> recover_all evict l s = Done (0, s).
Proof.
  intros Hl Hi Hm He. induction l as [|ino l IH]; [done|]. cbn [recover_all]. rewrite recover_clean; [|done|done|done|apply He; in_list].
  cbn [obind]. change (nz 0) with false. apply IH. intros x Hx. apply He. by apply list_elem_of_further.
Qed.

(** ** Theorems *)

Section theorems.
Context `{OrphanFormatOk}.

Lemma init_lists_ok bps packs types payload s : 0 <= bps - packs - types - payload ->
  (bps - packs - types - payload) * F2FS_ORPHANS_PER_BLOCK < 4294967296 ->
  lists_ok (f2fs_init_ino_entry_info bps packs types payload s, 0).
Proof.
  intros Hn Hm. pose proof orphans_pos. unfold f2fs_init_ino_entry_info. split; cbn -[MAX_INO_ENTRY Z.mul Z.sub].
  - done.
  - done.
  - intros t Ht. change (replicate (Pos.to_nat 5) (mk_im [] 0)).[t] with ((replicate 5 (mk_im [] 0)).[t]).
    rewrite aget_replicate by done. split; [constructor|]. by destruct (t =? ORPHAN_INO).
  - change (zlen (ino_list _) + 0) with 0. rewrite u32_id by nia. nia.
Qed.

(** C15. Under any operations on the inode lists the counter of each list is its length
    (plus the reserved entries, for orphans), the orphans with their reservations never
    exceed max_orphans, and so their blocks fit into a checkpoint pack next to its two
    checkpoint blocks, its payload and six summaries; provided the payload leaves room for
    these in the segment of the pack. The mount does not check that it does: a payload of 510
    blocks passes, and then the subtraction goes below zero and orphans are not limited
    ([large_payload_unbounds_orphans]). *)
Theorem orphan_lists_fit bps packs types payload s0 q :
  0 <= bps - packs - types - payload -> (bps - packs - types - payload) * F2FS_ORPHANS_PER_BLOCK < 4294967296 ->
  rtc ino_step (f2fs_init_ino_entry_info bps packs types payload s0, 0) q ->
  lists_ok q /\ GET_ORPHAN_BLOCKS (ino_num (im (fst q)).[ORPHAN_INO]) <= bps - packs - types - payload /\
  max_orphans (fst q) = (bps - packs - types - payload) * F2FS_ORPHANS_PER_BLOCK.
Proof.
  intros Hn Hm Hr. set (q0 := (f2fs_init_ino_entry_info bps packs types payload s0, 0)) in Hr.
  assert (lists_ok q0 /\ max_orphans (fst q0) = (bps - packs - types - payload) * F2FS_ORPHANS_PER_BLOCK) as [W M].
  { split; [by apply init_lists_ok|]. pose proof orphans_pos. cbn -[Z.mul]. apply u32_id. nia. }
  clearbody q0. induction Hr as [q|q q1 q2 Hs Hr IH].
  - split; [done|]. split; [|done]. pose proof orphans_pos. pose proof (lo_ims _ W ORPHAN_INO ltac:(done)) as [_ N].
    change (if ORPHAN_INO =? ORPHAN_INO then ?a else 0) with a in N. pose proof (lo_room _ W). pose proof (lo_held _ W).
    pose proof (zlen_nonneg (ino_list (im (fst q)).[ORPHAN_INO])). rewrite u64_id in N by lia. unfold GET_ORPHAN_BLOCKS.
    assert (ino_num (im (fst q)).[ORPHAN_INO] + F2FS_ORPHANS_PER_BLOCK - 1 < (bps - packs - types - payload + 1) * F2FS_ORPHANS_PER_BLOCK) by lia.
    apply Z.lt_succ_r, Z.div_lt_upper_bound; lia.
  - apply IH; [by apply (ino_step_ok q)|]. by rewrite (ino_step_max _ _ Hs).
Qed.

(** C14. The orphan blocks of a pack hold the orphan list: as many consecutive blocks are
    written as the checkpoint reserves, and reading them at mount handles exactly
    the listed inodes, in order; when every inode can be deleted the recovery
    succeeds and leaves no orphan behind. *)
Theorem orphan_roundtrip s start evict meta s' :
  let orphans := ino_list (im s).[ORPHAN_INO] in
  Forall ino_ok orphans -> ino_num (im s).[ORPHAN_INO] = zlen orphans ->
  exists ps, write_orphan_inodes s start = Done ps /\
    map fst ps = seqZ start (GET_ORPHAN_BLOCKS (ino_num (im s).[ORPHAN_INO])) /\
    ((forall k b, (k, b) ∈ ps -> meta k = b) ->
     let recover := recover_blocks evict (Z.to_nat (GET_ORPHAN_BLOCKS (ino_num (im s).[ORPHAN_INO]))) meta start s' in
     recover = recover_all evict (map ie_ino orphans) s' /\
     ((forall ino, ino ∈ map ie_ino orphans -> deletable (evict ino)) ->
      0 < zlen (im s') -> (im s').[ORPHAN_INO] = mk_im [] 0 -> 0 < max_orphans s' -> recover = Done (0, s'))).
Proof.
  intros orphans Hok Hn. unfold write_orphan_inodes. assert (zlen (@nil Z) < F2FS_ORPHANS_PER_BLOCK) as Hp by apply orphans_pos.
  destruct (write_orphans_ok orphans None [] 1 (u16 (GET_ORPHAN_BLOCKS (ino_num (im s).[ORPHAN_INO]))) Hok holds_nil
    Hp ltac:(done) ltac:(done)) as (blks & Hw & (gs & Hg & Hf) & Hz).
  change (zlen (@nil Z)) with 0 in Hw, Hz. subst orphans. rewrite Hw. cbn [obind]. rewrite Z.add_0_l, <- Hn in Hz. eexists. split; [done|].
  assert (length (seqZ start (zlen blks)) = length blks) as Hlen by (rewrite length_seqZ; unfold zlen; lia).
  change (map fst) with (@fmap list _ (Z * list Z) Z fst). rewrite fst_zip, Hz by lia. split; [done|]. intros Hm. cbn zeta.
  assert (recover_blocks evict (Z.to_nat (GET_ORPHAN_BLOCKS (ino_num (im s).[ORPHAN_INO]))) meta start s' = recover_all evict (map ie_ino (ino_list (im s).[ORPHAN_INO])) s') as Hr.
  { rewrite <- Hz. unfold zlen at 1. rewrite Nat2Z.id. rewrite (recover_blocks_ok evict meta blks gs start s' Hf); [by rewrite <- Hg|].
    intros k Hk. apply Hm. apply list_elem_of_lookup. exists (Z.to_nat k). apply lookup_zip_with_Some. exists (start + k), blks.[k].
    split_and!; [done| |by apply lookup_aget]. rewrite lookup_seqZ. unfold zlen in *. split; lia. }
  split; [done|]. intros Hd Hl Hi Hx. rewrite Hr. by apply recover_all_clean.
Qed.
End theorems.

(** ** Examples *)

#[export] Instance linux_orphans : OrphanFormat := {|
  F2FS_ORPHANS_PER_BLOCK := 1020; orphan_blk_addr := 4084; orphan_blk_count := 4086; orphan_entry_count := 4088;
|}.
#[export] Instance linux_orphans_ok : OrphanFormatOk.
Proof. by split. Qed.

Definition demo_isb : ino_sbi := mk_isbi (replicate 5 (mk_im [] 0)) 513060 false.
(** Two tasks unlink open files, one of which is closed again. *)
Lemma orphan_lists_fit_witness :
  let s0 := f2fs_init_ino_entry_info 512 2 6 1 demo_isb in
  exists s, rtc ino_step (s0, 0) (s, 0) /\ map ie_ino (ino_list (im s).[ORPHAN_INO]) = [9] /\ lists_ok (s, 0) /\
    GET_ORPHAN_BLOCKS (ino_num (im s).[ORPHAN_INO]) <= 503.
Proof.
  intros s0. eexists (mk_isbi [mk_im [mk_ino 9 0] 1; mk_im [] 0; mk_im [] 0; mk_im [] 0; mk_im [] 0] 513060 false).
  assert (rtc ino_step (s0, 0) (mk_isbi [mk_im [mk_ino 9 0] 1; mk_im [] 0; mk_im [] 0; mk_im [] 0; mk_im [] 0] 513060 false, 0)) as R.
  { eapply rtc_l; [apply acquire_step; by vm_compute|]. eapply rtc_l; [apply acquire_step; by vm_compute|].
    eapply rtc_l; [apply (add_step _ _ 7); [done|apply (not_elem_of_nil (A:=Z))]|]. eapply rtc_l; [apply (add_step _ _ 9); [done|]|].
    { intros Hin%elem_of_cons. destruct Hin as [|Hin]; [done|]. by apply elem_of_nil in Hin. }
    eapply rtc_l; [apply (remove_step _ _ 7)|]. apply rtc_refl. }
  split; [exact R|]. split; [done|]. destruct (orphan_lists_fit 512 2 6 1 demo_isb (_, 0) ltac:(done) ltac:(done) R) as (W & B & _).
  split; [exact W|exact B].
Defined.
Lemma orphan_roundtrip_witness :
  let s := demo_isb <| im := [mk_im [mk_ino 9 0; mk_ino 12 0] 2; mk_im [] 0; mk_im [] 0; mk_im [] 0; mk_im [] 0] |> in
  let evict := fun _ => Build_orphan_inode 0 0 0 in
  exists ps, write_orphan_inodes s 514 = Done ps /\ map fst ps = [514] /\
    forall meta, (forall k b, (k, b) ∈ ps -> meta k = b) -> recover_blocks evict 1 meta 514 demo_isb = Done (0, demo_isb).
Proof.
  intros s evict. assert (Forall ino_ok (ino_list (im s).[ORPHAN_INO])) as Hok by (repeat constructor; done).
  destruct (orphan_roundtrip s 514 evict (fun _ => []) demo_isb Hok eq_refl) as (ps & E & Hk & _). exists ps. split; [exact E|]. split; [exact Hk|].
  intros meta Hm. destruct (orphan_roundtrip s 514 evict meta demo_isb Hok eq_refl) as (ps' & E' & _ & Hr).
  pose proof (eq_trans (eq_sym E) E') as Q. injection Q as <-. clear E E'.
  destruct (Hr Hm) as [_ Hd]. apply Hd; [by intros|done|done|done].
Defined.
