(* ===== verification/Super.v ===== *)
(** * The superblock: sanity checks, the two copies, the geometry of a mount

    [super.c]: sanity_check_raw_super and sanity_check_area_boundary, reading the two
    copies, writing them, and init_sb_info.  A superblock that passes gives the
    geometry the other files assume ([geom_wf]). *)
From stdpp Require Import gmap.
From S2P Require Import Prelude Geometry Orphan.
Open Scope Z_scope.

(** Constants of [<linux/f2fs_fs.h>]; the extension counters are those of the list
    of file name extensions. *)
Class SuperFormat := {
  F2FS_SUPER_MAGIC : Z;
  F2FS_MAX_LOG_SECTOR_SIZE : Z;
  F2FS_MIN_LOG_SECTOR_SIZE : Z;
  F2FS_MAX_SEGMENT : Z;
  F2FS_MAX_EXTENSION : Z;
  F2FS_CP_PACKS : Z;
}.
#[export] Instance linux_super : SuperFormat := {|
  F2FS_SUPER_MAGIC := 4076150800; F2FS_MAX_LOG_SECTOR_SIZE := 12; F2FS_MIN_LOG_SECTOR_SIZE := 9;
  F2FS_MAX_SEGMENT := 8388608; F2FS_MAX_EXTENSION := 64; F2FS_CP_PACKS := 2;
|}.
Definition F2FS_MIN_SEGMENTS : Z := 9.
Definition EROFS : Z := 30.
Definition EINVAL : Z := 22.

(** struct f2fs_super_block as far as it is read here; [rs_rest] is everything else. *)
Record raw_super := mk_raw {
  rs_magic : Z;
  rs_log_blocksize : Z;
  rs_log_blocks_per_seg : Z;
  rs_log_sectorsize : Z;
  rs_log_sectors_per_block : Z;
  rs_segment_count : Z;
  rs_segs_per_sec : Z;
  rs_secs_per_zone : Z;
  rs_section_count : Z;
  rs_block_count : Z;           (* 64 bits *)
  rs_extension_count : Z;
  rs_hot_ext_count : Z;         (* 8 bits *)
  rs_cp_payload : Z;
  rs_node_ino : Z;
  rs_meta_ino : Z;
  rs_root_ino : Z;
  rs_segment0_blkaddr : Z;
  rs_cp_blkaddr : Z;
  rs_sit_blkaddr : Z;
  rs_nat_blkaddr : Z;
  rs_ssa_blkaddr : Z;
  rs_main_blkaddr : Z;
  rs_segment_count_ckpt : Z;
  rs_segment_count_sit : Z;
  rs_segment_count_nat : Z;
  rs_segment_count_ssa : Z;
  rs_segment_count_main : Z;
  rs_rest : list Z;
}.
#[export] Instance eta_raw : Eta raw_super := fun r =>
  mk_raw (rs_magic r) (rs_log_blocksize r) (rs_log_blocks_per_seg r) (rs_log_sectorsize r) (rs_log_sectors_per_block r)
    (rs_segment_count r) (rs_segs_per_sec r) (rs_secs_per_zone r) (rs_section_count r) (rs_block_count r)
    (rs_extension_count r) (rs_hot_ext_count r) (rs_cp_payload r) (rs_node_ino r) (rs_meta_ino r) (rs_root_ino r)
    (rs_segment0_blkaddr r) (rs_cp_blkaddr r) (rs_sit_blkaddr r) (rs_nat_blkaddr r) (rs_ssa_blkaddr r)
    (rs_main_blkaddr r) (rs_segment_count_ckpt r) (rs_segment_count_sit r) (rs_segment_count_nat r)
    (rs_segment_count_ssa r) (rs_segment_count_main r) (rs_rest r).

(** What the device and the mount say: the volume or the device is read-only, and the
    result of writing a superblock copy *)
Record super_env := { se_readonly : bool; se_bdev_readonly : bool; se_sync : Z -> Z }.

Section checks.
Context `{SuperFormat}.

(** [seg << log] in 32 bits *)
Definition area_blocks (rs : raw_super) (segs : Z) : Z := u32 (Z.shiftl segs (rs_log_blocks_per_seg rs)).
Definition main_end_blkaddr (rs : raw_super) : Z := u32 (rs_main_blkaddr rs + area_blocks rs (rs_segment_count_main rs)).
Definition seg_end_blkaddr (rs : raw_super) : Z := u32 (rs_segment0_blkaddr rs + area_blocks rs (rs_segment_count rs)).

(** Whether the superblock is bad, the superblock as it is left in the buffer, and
    SBI_NEED_SB_WRITE.  [err] is the result of __f2fs_commit_super on the buffer. *)
Definition sanity_check_area_boundary (e : super_env) (err : Z) (rs : raw_super) : bool * raw_super * bool :=
  if negb (rs_segment0_blkaddr rs =? rs_cp_blkaddr rs) then (true, rs, false) else
  if negb (u32 (rs_cp_blkaddr rs + area_blocks rs (rs_segment_count_ckpt rs)) =? rs_sit_blkaddr rs) then (true, rs, false) else
  if negb (u32 (rs_sit_blkaddr rs + area_blocks rs (rs_segment_count_sit rs)) =? rs_nat_blkaddr rs) then (true, rs, false) else
  if negb (u32 (rs_nat_blkaddr rs + area_blocks rs (rs_segment_count_nat rs)) =? rs_ssa_blkaddr rs) then (true, rs, false) else
  if negb (u32 (rs_ssa_blkaddr rs + area_blocks rs (rs_segment_count_ssa rs)) =? rs_main_blkaddr rs) then (true, rs, false) else
  let main_end := main_end_blkaddr rs in
  let seg_end := seg_end_blkaddr rs in
  if seg_end <? main_end then (true, rs, false) else
  if main_end <? seg_end then
    let rs := rs <| rs_segment_count := u32 (Z.shiftr (u64 (main_end - rs_segment0_blkaddr rs)) (rs_log_blocks_per_seg rs)) |> in
    if se_readonly e || se_bdev_readonly e then (false, rs, true) else (nz err, rs, false)
  else (false, rs, false).

(** The conditions of sanity_check_raw_super before the areas, in order.  A shift of 1
    by 32 or more is undefined in C and gives 0 here. *)
Definition super_fields_bad (rs : raw_super) : bool :=
  let blocks_per_seg := u32 (Z.shiftl 1 (rs_log_blocks_per_seg rs)) in
  negb (F2FS_SUPER_MAGIC =? rs_magic rs)
  || negb (u32 (Z.shiftl 1 (rs_log_blocksize rs)) =? BLKSIZE)
  || negb (rs_log_blocks_per_seg rs =? 9)
  || (F2FS_MAX_LOG_SECTOR_SIZE <? rs_log_sectorsize rs) || (rs_log_sectorsize rs <? F2FS_MIN_LOG_SECTOR_SIZE)
  || negb (u32 (rs_log_sectors_per_block rs + rs_log_sectorsize rs) =? F2FS_MAX_LOG_SECTOR_SIZE)
  || (F2FS_MAX_SEGMENT <? rs_segment_count rs) || (rs_segment_count rs <? F2FS_MIN_SEGMENTS)
  || (rs_segment_count rs <? rs_section_count rs) || (rs_section_count rs <? F2FS_MIN_SEGMENTS)
  || (rs_segment_count rs <? rs_segs_per_sec rs) || (rs_segs_per_sec rs =? 0)
  || (rs_segment_count rs / rs_segs_per_sec rs <? rs_section_count rs)
  || (Z.shiftr (u32 (rs_block_count rs)) 9 <? rs_segment_count rs)
  || (rs_section_count rs <? rs_secs_per_zone rs)
  || (F2FS_MAX_EXTENSION <? rs_extension_count rs) || (F2FS_MAX_EXTENSION <? rs_hot_ext_count rs)
  || (F2FS_MAX_EXTENSION <? u32 (rs_extension_count rs + rs_hot_ext_count rs))
  || (u32 (blocks_per_seg - F2FS_CP_PACKS) <? rs_cp_payload rs)
  || negb (rs_node_ino rs =? 1) || negb (rs_meta_ino rs =? 2) || negb (rs_root_ino rs =? 3).
Definition sanity_check_raw_super (e : super_env) (err : Z) (rs : raw_super) : bool * raw_super * bool :=
  if super_fields_bad rs then (true, rs, false) else sanity_check_area_boundary e err rs.

(** ** The two copies

    The buffers of blocks 0 and 1; [None] cannot be read. *)
Record super_dev := mk_sdev { sd_copy : Z -> option raw_super }.
Definition put_copy (d : super_dev) (block : Z) (rs : raw_super) : super_dev :=
  mk_sdev (fun k => if k =? block then Some rs else sd_copy d k).

(** One pass of the loop of read_raw_super_block *)
Record super_read := mk_sread {
  sr_err : Z;
  sr_raw : option raw_super;
  sr_valid : Z;                 (* valid_super_block *)
  sr_need_write : bool;         (* SBI_NEED_SB_WRITE *)
  sr_dev : super_dev;
}.
#[export] Instance eta_sread : Eta super_read := fun r => mk_sread (sr_err r) (sr_raw r) (sr_valid r) (sr_need_write r) (sr_dev r).
Definition read_copy (e : super_env) (block : Z) (r : super_read) : super_read :=
  match sd_copy (sr_dev r) block with
  | None => r <| sr_err := - EIO |>
  | Some rs =>
      let '(bad, rs', w) := sanity_check_raw_super e (se_sync e block) rs in
      let r := r <| sr_dev ::= fun d => put_copy d block rs' |> <| sr_need_write ::= fun x => x || w |> in
      if bad then r <| sr_err := - EINVAL |>
      else match sr_raw r with
           | Some _ => r
           | None => r <| sr_valid := block |> <| sr_raw := Some rs' |>
           end
  end.
(** The error, the superblock, *valid_super_block, *recovery, and the rest *)
Definition read_raw_super_block (e : super_env) (d : super_dev) : Z * bool * super_read :=
  let r := read_copy e 1 (read_copy e 0 (mk_sread 0 None 0 false d)) in
  (match sr_raw r with Some _ => 0 | None => sr_err r end, sr_err r <? 0, r).

(** The writes of f2fs_commit_super, in order, and its result; [None] for a buffer
    that cannot be read before *)
Definition f2fs_commit_super (e : super_env) (d : super_dev) (valid : Z) (rs : raw_super) (recover : bool) : Z * list (Z * raw_super) :=
  if (recover && se_readonly e) || se_bdev_readonly e then (- EROFS, []) else
  let back := if nz valid then 0 else 1 in
  if negb (isSome (sd_copy d back)) then (- EIO, []) else
  let err := se_sync e back in
  if recover || nz err then (err, [(back, rs)]) else
  if negb (isSome (sd_copy d valid)) then (- EIO, [(back, rs)]) else
  (se_sync e valid, [(back, rs); (valid, rs)]).

(** ** The geometry of the mount

    init_sb_info, with the fields that f2fs_build_segment_manager and build_free_segmap
    take from the superblock *)
Definition init_sb_info (rs : raw_super) : f2fs_sb_info :=
  let bps := u32 (Z.shiftl 1 (rs_log_blocks_per_seg rs)) in
  let sbi := mk_sbi bps (rs_log_blocks_per_seg rs) (rs_segs_per_sec rs) (rs_segment0_blkaddr rs) (rs_main_blkaddr rs)
               (rs_segment_count_main rs) 0 (replicate 6 0) 4294967295 in
  sbi <| start_segno := GET_SEGNO_FROM_SEG0 sbi (rs_main_blkaddr rs) |>.

(** ** The checkpoint against the superblock *)

(** The fields of the checkpoint that f2fs_sanity_check_ckpt reads *)
Record ckpt_fields := {
  cf_rsvd_segment_count : Z;
  cf_overprov_segment_count : Z;
  cf_node_segno : Z -> Z;
  cf_node_blkoff : Z -> Z;
  cf_data_segno : Z -> Z;
  cf_data_blkoff : Z -> Z;
  cf_error : bool;              (* f2fs_cp_error *)
}.
Definition curseg_bad (rs : raw_super) (bps segno blkoff : Z) : bool := (rs_segment_count_main rs <=? segno) || (bps <=? blkoff).
Definition f2fs_sanity_check_ckpt (rs : raw_super) (bps : Z) (c : ckpt_fields) : bool :=
  let total := rs_segment_count rs in
  let fsmeta := u32 (rs_segment_count_ckpt rs + rs_segment_count_sit rs + rs_segment_count_nat rs
                     + cf_rsvd_segment_count c + rs_segment_count_ssa rs) in
  (total <=? fsmeta) || (fsmeta <? F2FS_MIN_SEGMENTS) || (cf_overprov_segment_count c =? 0) || (cf_rsvd_segment_count c =? 0)
  || existsb (fun i => curseg_bad rs bps (cf_node_segno c i) (cf_node_blkoff c i)) [0; 1; 2]
  || existsb (fun i => curseg_bad rs bps (cf_data_segno c i) (cf_data_blkoff c i)) [0; 1; 2]
  || cf_error c.
End checks.
