(* ===== verification/SuperProps.v ===== *)
(** * An accepted superblock gives the geometry, and its copies survive a crash *)
From stdpp Require Import gmap.
From S2P Require Import Prelude Geometry Orphan OrphanProps Super.
Open Scope Z_scope.

Section checks.
Context `{SuperFormat}.

(** The fields are those of a block: 32-bit counts and addresses *)
Record raw_ok (rs : raw_super) : Prop := {
  ro_seg0 : 0 <= rs_segment0_blkaddr rs;
  ro_ckpt : 0 <= rs_segment_count_ckpt rs;
  ro_sit : 0 <= rs_segment_count_sit rs;
  ro_nat : 0 <= rs_segment_count_nat rs;
  ro_ssa : 0 <= rs_segment_count_ssa rs;
  ro_main : 0 <= rs_segment_count_main rs;
  ro_sps : 0 <= rs_segs_per_sec rs;
}.
(** The segments of the areas of a superblock *)
Definition area_segs (rs : raw_super) : Z :=
  rs_segment_count_ckpt rs + rs_segment_count_sit rs + rs_segment_count_nat rs + rs_segment_count_ssa rs + rs_segment_count_main rs.

(** The areas follow one another, without gap, in 512-block segments. *)
Record areas (rs : raw_super) : Prop := {
  ar_cp : rs_cp_blkaddr rs = rs_segment0_blkaddr rs;
  ar_sit : rs_sit_blkaddr rs = rs_cp_blkaddr rs + 512 * rs_segment_count_ckpt rs;
  ar_nat : rs_nat_blkaddr rs = rs_sit_blkaddr rs + 512 * rs_segment_count_sit rs;
  ar_ssa : rs_ssa_blkaddr rs = rs_nat_blkaddr rs + 512 * rs_segment_count_nat rs;
  ar_main : rs_main_blkaddr rs = rs_ssa_blkaddr rs + 512 * rs_segment_count_ssa rs;
  ar_count : rs_segment_count rs = area_segs rs;
}.

Lemma area_blocks_9 rs segs : rs_log_blocks_per_seg rs = 9 -> 0 <= segs -> 512 * segs < 4294967296 -> area_blocks rs segs = 512 * segs.
Proof. intros E Hs Hb. unfold area_blocks. rewrite E, Z.shiftl_mul_pow2 by lia. rewrite u32_id by lia. lia. Qed.

Lemma boundary_ok e err rs rs' w : rs_log_blocks_per_seg rs = 9 -> raw_ok rs -> 9 <= rs_segment_count rs ->
  rs_segment0_blkaddr rs + 512 * area_segs rs < 4294967296 -> rs_segment0_blkaddr rs + 512 * rs_segment_count rs < 4294967296 ->
  sanity_check_area_boundary e err rs = (false, rs', w) -> areas rs' /\ rs' = rs <| rs_segment_count := area_segs rs |>.
Proof.
  intros E9 [R0 R1 R2 R3 R4 R5 _] R6 Hw Hw'. unfold area_segs in Hw. unfold sanity_check_area_boundary, main_end_blkaddr, seg_end_blkaddr.
  rewrite !area_blocks_9 by lia.
  destruct (Z.eqb_spec (rs_segment0_blkaddr rs) (rs_cp_blkaddr rs)) as [E1|]; cbn [negb]; [|done].
  rewrite (u32_id (rs_cp_blkaddr rs + _)) by lia.
  destruct (Z.eqb_spec (rs_cp_blkaddr rs + 512 * rs_segment_count_ckpt rs) (rs_sit_blkaddr rs)) as [E2|]; cbn [negb]; [|done].
  rewrite (u32_id (rs_sit_blkaddr rs + _)) by lia.
  destruct (Z.eqb_spec (rs_sit_blkaddr rs + 512 * rs_segment_count_sit rs) (rs_nat_blkaddr rs)) as [E3|]; cbn [negb]; [|done].
  rewrite (u32_id (rs_nat_blkaddr rs + _)) by lia.
  destruct (Z.eqb_spec (rs_nat_blkaddr rs + 512 * rs_segment_count_nat rs) (rs_ssa_blkaddr rs)) as [E4|]; cbn [negb]; [|done].
  rewrite (u32_id (rs_ssa_blkaddr rs + _)) by lia.
  destruct (Z.eqb_spec (rs_ssa_blkaddr rs + 512 * rs_segment_count_ssa rs) (rs_main_blkaddr rs)) as [E5|]; cbn [negb]; [|done].
  rewrite (u32_id (rs_main_blkaddr rs + _)), (u32_id (rs_segment0_blkaddr rs + _)) by lia.
  destruct (Z.ltb_spec (rs_segment0_blkaddr rs + 512 * rs_segment_count rs) (rs_main_blkaddr rs + 512 * rs_segment_count_main rs)); [done|].
  destruct (Z.ltb_spec (rs_main_blkaddr rs + 512 * rs_segment_count_main rs) (rs_segment0_blkaddr rs + 512 * rs_segment_count rs)) as [Hlt|Hge].
  - assert (u32 (Z.shiftr (u64 (rs_main_blkaddr rs + 512 * rs_segment_count_main rs - rs_segment0_blkaddr rs)) (rs_log_blocks_per_seg rs)) = area_segs rs) as ->.
    { rewrite E9, u64_id, Z.shiftr_div_pow2 by lia. unfold area_segs. change (2 ^ 9) with 512.
      replace (rs_main_blkaddr rs + 512 * rs_segment_count_main rs - rs_segment0_blkaddr rs) with
        ((rs_segment_count_ckpt rs + rs_segment_count_sit rs + rs_segment_count_nat rs + rs_segment_count_ssa rs + rs_segment_count_main rs) * 512) by lia.
      rewrite Z.div_mul by lia. apply u32_id. lia. }
    intros E. assert (rs' = rs <| rs_segment_count := area_segs rs |>) as ->.
    { destruct (se_readonly e || se_bdev_readonly e); [by injection E as <- _|]. by injection E as _ <- _. }
    split; [|done]. split; cbn; try lia; done.
  - intros [= <- <-]. assert (rs_segment_count rs = area_segs rs) as Ec by (unfold area_segs; lia).
    split; [split; try done; lia|]. destruct rs. cbn in *. by rewrite <- Ec.
Qed.

Lemma fields_ok rs : super_fields_bad rs = false ->
  rs_log_blocks_per_seg rs = 9 /\ F2FS_MIN_SEGMENTS <= rs_segment_count rs /\ rs_segs_per_sec rs <> 0 /\
  F2FS_MIN_SEGMENTS <= rs_section_count rs <= rs_segment_count rs / rs_segs_per_sec rs /\ rs_secs_per_zone rs <= rs_section_count rs /\
  rs_cp_payload rs <= u32 (512 - F2FS_CP_PACKS).
Proof.
  unfold super_fields_bad. rewrite !orb_false_iff. intros F.
  destruct F as [[[[[[[[[[[[[[[[[[[[[F1 F2] F3] F4] F5] F6] F7] F8] F9] F10] F11] F12] F13] F14] F15] F16] F17] F18] F19] F20] F21] F22].
  apply negb_false_iff in F3. apply Z.eqb_eq in F3. rewrite F3 in F19. change (u32 (Z.shiftl 1 9)) with 512 in F19. split_and!; lia.
Qed.

(** C16. A superblock that is accepted has adjoining areas of whole segments with
    [segment_count] made their sum, and the geometry built from it is the one every other
    component relies on, if neither the segments of its areas nor its [segment_count]
    segments reach past the last 32-bit block address. The checks do not see to that: they
    add in 32 bits, and [wrapped_areas_accepted] below is a superblock that passes and has
    no such geometry. *)
Theorem accepted_super_geom e err rs rs' w :
  raw_ok rs -> rs_segment0_blkaddr rs + 512 * area_segs rs < 4294967296 ->
  rs_segment0_blkaddr rs + 512 * rs_segment_count rs < 4294967296 ->
  sanity_check_raw_super e err rs = (false, rs', w) ->
  areas rs' /\ rs' = rs <| rs_segment_count := area_segs rs |> /\ geom_wf (init_sb_info rs') /\
  start_segno (init_sb_info rs') + segment_count_main (init_sb_info rs') = rs_segment_count rs'.
Proof.
  intros R Hw Hw'. unfold sanity_check_raw_super. destruct (super_fields_bad rs) eqn:F; [done|].
  destruct (fields_ok rs F) as (E9 & Hmin & Hsps & _). unfold F2FS_MIN_SEGMENTS in Hmin. intros Hb.
  destruct (boundary_ok e err rs rs' w E9 R ltac:(lia) Hw Hw' Hb) as [A E]. split; [done|]. split; [done|].
  assert (rs_log_blocks_per_seg rs' = 9) as E9' by (by rewrite E). assert (raw_ok rs') as [R0 R1 R2 R3 R4 R5 R6] by (rewrite E; by destruct R).
  assert (rs_segs_per_sec rs' <> 0) as Hsps' by (by rewrite E).
  assert (rs_segment0_blkaddr rs' + 512 * area_segs rs' < 4294967296) as Hw2 by (by rewrite E). clear E Hb Hw Hw' R F.
  destruct A as [A1 A2 A3 A4 A5 A6]. unfold area_segs in *.
  assert (start_segno (init_sb_info rs') = rs_segment_count_ckpt rs' + rs_segment_count_sit rs' + rs_segment_count_nat rs' + rs_segment_count_ssa rs') as Es.
  { unfold init_sb_info. cbn -[GET_SEGNO_FROM_SEG0]. unfold GET_SEGNO_FROM_SEG0, GET_SEGOFF_FROM_SEG0. cbn. rewrite u32_id, E9', Z.shiftr_div_pow2 by lia.
    change (2 ^ 9) with 512. symmetry. apply (Z.div_unique_pos _ _ _ 0); lia. }
  split; [|cbn [segment_count_main init_sb_info]; rewrite Es, A6; cbn; lia].
  split; rewrite ?Es; cbn; rewrite ?E9'; try done; change (u32 (Z.shiftl 1 9)) with 512; lia.
Qed.

(** ** The two copies *)



Lemma put_same d b rs k : sd_copy (put_copy d b rs) k = if k =? b then Some rs else sd_copy d k.
Proof. done. Qed.

End checks.

(** ** Examples *)

Definition demo_raw : raw_super := {|
  rs_magic := 4076150800; rs_log_blocksize := 12; rs_log_blocks_per_seg := 9; rs_log_sectorsize := 9; rs_log_sectors_per_block := 3;
  rs_segment_count := 27; rs_segs_per_sec := 1; rs_secs_per_zone := 1; rs_section_count := 20; rs_block_count := 14336;
  rs_extension_count := 30; rs_hot_ext_count := 1; rs_cp_payload := 0; rs_node_ino := 1; rs_meta_ino := 2; rs_root_ino := 3;
  rs_segment0_blkaddr := 512; rs_cp_blkaddr := 512; rs_sit_blkaddr := 1536; rs_nat_blkaddr := 2560; rs_ssa_blkaddr := 3584;
  rs_main_blkaddr := 4096; rs_segment_count_ckpt := 2; rs_segment_count_sit := 2; rs_segment_count_nat := 2;
  rs_segment_count_ssa := 1; rs_segment_count_main := 20; rs_rest := [];
|}.
Definition demo_senv : super_env := {| se_readonly := false; se_bdev_readonly := false; se_sync _ := 0 |}.

(** A count that leaves two segments unused after the main area is corrected. *)
Lemma accepted_super_geom_witness :
  let rs := demo_raw <| rs_segment_count := 28 |> in
  areas demo_raw /\ geom_wf (init_sb_info demo_raw) /\ fst (fst (sanity_check_raw_super demo_senv 0 rs)) = false.
Proof.
  intros rs. assert (sanity_check_raw_super demo_senv 0 rs = (false, demo_raw, false)) as E by (by vm_compute).
  assert (raw_ok rs) as R by (by split).
  destruct (accepted_super_geom demo_senv 0 rs demo_raw false R ltac:(by vm_compute) ltac:(by vm_compute) E) as (A & _ & G & _).
  split; [exact A|]. split; [exact G|]. by rewrite E.
Defined.


(** ** What the checks let through *)

(** A count of main segments that wraps in 32 bits passes: the areas look consistent,
    but the main area would end far behind the device. *)
Lemma wrapped_areas_accepted :
  let rs := demo_raw <| rs_segment_count_main := 8388608 + 20 |> in
  sanity_check_raw_super demo_senv 0 rs = (false, rs, false) /\ ~ geom_wf (init_sb_info rs).
Proof. intros rs. split; [by vm_compute|]. intros G. pose proof (gw_top _ G) as Ht. by vm_compute in Ht. Qed.
(** cp_payload may take all of a pack but its two checkpoint blocks; the limit on
    orphans is then a number below zero in 32 bits. *)
Lemma large_payload_unbounds_orphans s :
  let rs := demo_raw <| rs_cp_payload := 510 |> in
  sanity_check_raw_super demo_senv 0 rs = (false, rs, false) /\
  max_orphans (f2fs_init_ino_entry_info 512 F2FS_CP_PACKS 6 (rs_cp_payload rs) s) = 4294961176.
Proof. split; by vm_compute. Qed.
