(* ===== verification/Ckpt.v ===== *)
(** * Checkpoint blocks and the choice of the valid pack

    struct f2fs_checkpoint as bytes, its flags, and [checkpoint.c]:
    get_checkpoint_version, validate_checkpoint and f2fs_get_valid_checkpoint, which
    choose between the two packs at mount. *)
From stdpp Require Import gmap.
From S2P Require Import Prelude Geometry Bytes Mpt MptFlush Orphan Super.
Open Scope Z_scope.

(** The fields of struct f2fs_checkpoint that the code reads or writes; [cur_node_segno i]
    and the like are the elements of its arrays. *)
Inductive cp_field :=
| checkpoint_ver | user_block_count | valid_block_count | rsvd_segment_count | overprov_segment_count | free_segment_count
| cur_node_segno (i : Z) | cur_node_blkoff (i : Z) | cur_data_segno (i : Z) | cur_data_blkoff (i : Z)
| ckpt_flags | cp_pack_total_block_count | cp_pack_start_sum | valid_node_count | valid_inode_count | next_free_nid
| sit_ver_bitmap_bytesize | nat_ver_bitmap_bytesize | checksum_offset | elapsed_time | ck_alloc_type (i : Z).
Definition width (f : cp_field) : nat :=
  match f with
  | checkpoint_ver | user_block_count | valid_block_count | elapsed_time => 8
  | cur_node_blkoff _ | cur_data_blkoff _ => 2
  | ck_alloc_type _ => 1
  | _ => 4
  end.
(** An element that is in its array *)
Definition is_field (f : cp_field) : Prop :=
  match f with
  | cur_node_segno i | cur_node_blkoff i | cur_data_segno i | cur_data_blkoff i => 0 <= i < 8
  | ck_alloc_type i => 0 <= i < 16
  | _ => True
  end.

(** The layout of [<linux/f2fs_fs.h>], its flags, and f2fs_crc32, which the kernel's
    crypto library computes *)
Class CpFormat := {
  cp_off : cp_field -> Z;
  sit_nat_version_bitmap : Z;
  CP_UMOUNT_FLAG : Z;
  CP_ORPHAN_PRESENT_FLAG : Z;
  CP_COMPACT_SUM_FLAG : Z;
  CP_ERROR_FLAG : Z;
  CP_FSCK_FLAG : Z;
  CP_FASTBOOT_FLAG : Z;
  CP_CRC_RECOVERY_FLAG : Z;
  CP_NAT_BITS_FLAG : Z;
  CP_TRIMMED_FLAG : Z;
  CP_NOCRC_RECOVERY_FLAG : Z;
  CP_LARGE_NAT_BITMAP_FLAG : Z;
  f2fs_crc32 : list Z -> Z;
}.
Definition cp_flags `{CpFormat} : list Z :=
  [CP_UMOUNT_FLAG; CP_ORPHAN_PRESENT_FLAG; CP_COMPACT_SUM_FLAG; CP_ERROR_FLAG; CP_FSCK_FLAG; CP_FASTBOOT_FLAG; CP_CRC_RECOVERY_FLAG;
   CP_NAT_BITS_FLAG; CP_TRIMMED_FLAG; CP_NOCRC_RECOVERY_FLAG; CP_LARGE_NAT_BITMAP_FLAG; CP_NSB_VER_FLAG].
Class CpFormatOk `{CpFormat} : Prop := {
  (** each flag is one bit, and they are different *)
  cp_flag_bit f : f ∈ cp_flags -> exists n, 0 <= n < 32 /\ f = 2 ^ n;
  cp_flags_nodup : NoDup cp_flags;
  cp_off_disjoint f g : is_field f -> is_field g -> f <> g ->
    cp_off f + Z.of_nat (width f) <= cp_off g \/ cp_off g + Z.of_nat (width g) <= cp_off f;
  cp_off_range f : is_field f -> 0 <= cp_off f /\ cp_off f + Z.of_nat (width f) <= sit_nat_version_bitmap;
  cp_bitmap_in_block : sit_nat_version_bitmap <= BLKSIZE - 4;
  crc32_range l : 0 <= f2fs_crc32 l < 4294967296;
}.

(** The volume: geometry, superblock, and the place of the packs *)
Record cp_geo := { cg_sbi : f2fs_sb_info; cg_raw : raw_super }.
Definition cp_blkaddr (g : cp_geo) : Z := rs_cp_blkaddr (cg_raw g).
Definition __cp_payload (g : cp_geo) : Z := rs_cp_payload (cg_raw g).
Definition cp_bps (g : cp_geo) : Z := blocks_per_seg (cg_sbi g).

(** ver_after: the difference as a signed 64-bit number *)
Definition s64 (x : Z) : Z := let y := u64 x in if y <? 2 ^ 63 then y else y - 2 ^ 64.
Definition ver_after (a b : Z) : bool := 0 <? s64 (u64 (a - b)).

Section checkpoint.
Context `{CpFormat}.

Definition cp_get (c : list Z) (f : cp_field) : Z := le_get (slice c (cp_off f) (Z.of_nat (width f))).
Definition cp_put (c : list Z) (f : cp_field) (x : Z) : list Z := blit c (cp_off f) (le_put (width f) x).

Definition is_set_ckpt_flags (c : list Z) (f : Z) : bool := nz (Z.land (cp_get c ckpt_flags) f).
Definition __set_ckpt_flags (c : list Z) (f : Z) : list Z := cp_put c ckpt_flags (Z.lor (cp_get c ckpt_flags) f).
Definition __clear_ckpt_flags (c : list Z) (f : Z) : list Z := cp_put c ckpt_flags (Z.land (cp_get c ckpt_flags) (u32 (Z.lnot f))).
Definition set_flag_to (c : list Z) (f : Z) (b : bool) : list Z := if b then __set_ckpt_flags c f else __clear_ckpt_flags c f.
Definition cur_cp_version (c : list Z) : Z := cp_get c checkpoint_ver.
Definition cur_cp_crc (c : list Z) : outcome Z := rd32 c (cp_get c checksum_offset).
Definition f2fs_crc_valid (blk_crc : Z) (buf : list Z) (buf_size : Z) : bool := f2fs_crc32 (take (Z.to_nat buf_size) buf) =? blk_crc.
Definition f2fs_cp_error (c : list Z) : bool := is_set_ckpt_flags c CP_ERROR_FLAG.
Definition __exist_node_summaries (c : list Z) : bool := is_set_ckpt_flags c CP_UMOUNT_FLAG || is_set_ckpt_flags c CP_FASTBOOT_FLAG.

(** SIT_BITMAP or NAT_BITMAP *)
Definition __bitmap_size (c : list Z) (nat : bool) : Z := cp_get c (if nat then nat_ver_bitmap_bytesize else sit_ver_bitmap_bytesize).
(** The offset of the bitmap in the checkpoint *)
Definition __bitmap_ptr (g : cp_geo) (c : list Z) (nat : bool) : Z :=
  if is_set_ckpt_flags c CP_LARGE_NAT_BITMAP_FLAG then
    sit_nat_version_bitmap + (if nat then 0 else cp_get c nat_ver_bitmap_bytesize)
  else if 0 <? __cp_payload g then
    if nat then sit_nat_version_bitmap else BLKSIZE
  else sit_nat_version_bitmap + (if nat then cp_get c sit_ver_bitmap_bytesize else 0).

Definition __start_cp_addr (g : cp_geo) (cur_cp_pack : Z) : Z := u32 (cp_blkaddr g + (if cur_cp_pack =? 2 then cp_bps g else 0)).
Definition __start_cp_next_addr (g : cp_geo) (cur_cp_pack : Z) : Z := u32 (cp_blkaddr g + (if cur_cp_pack =? 1 then cp_bps g else 0)).
Definition __set_cp_next_pack (cur_cp_pack : Z) : Z := if cur_cp_pack =? 1 then 2 else 1.
Definition __start_sum_addr (c : list Z) : Z := cp_get c cp_pack_start_sum.

(** ** Choosing the pack *)

(** The error or the version; [meta] gives the blocks. *)
Definition get_checkpoint_version (meta : Z -> list Z) (cp_addr : Z) : outcome (Z + Z) :=
  let cp_block := meta cp_addr in
  let crc_offset := cp_get cp_block checksum_offset in
  if BLKSIZE - 4 <? crc_offset then Done (inl (- EINVAL)) else
  crc <-- cur_cp_crc cp_block ;;
  if negb (f2fs_crc_valid crc cp_block crc_offset) then Done (inl (- EINVAL)) else Done (inr (cur_cp_version cp_block)).
(** The first block of a valid pack and its version *)
Definition validate_checkpoint (meta : Z -> list Z) (cp_addr : Z) : outcome (option (list Z * Z)) :=
  v <-- get_checkpoint_version meta cp_addr ;;
  match v with
  | inl _ => Done None
  | inr pre_version =>
      let cp_block := meta cp_addr in
      let cp_addr := u32 (cp_addr + u32 (cp_get cp_block cp_pack_total_block_count - 1)) in
      v <-- get_checkpoint_version meta cp_addr ;;
      match v with
      | inl _ => Done None
      | inr cur_version => Done (if cur_version =? pre_version then Some (cp_block, cur_version) else None)
      end
  end.
Definition cp_fields_of (c : list Z) : ckpt_fields := {|
  cf_rsvd_segment_count := cp_get c rsvd_segment_count;
  cf_overprov_segment_count := cp_get c overprov_segment_count;
  cf_node_segno i := cp_get c (cur_node_segno i);
  cf_node_blkoff i := cp_get c (cur_node_blkoff i);
  cf_data_segno i := cp_get c (cur_data_segno i);
  cf_data_blkoff i := cp_get c (cur_data_blkoff i);
  cf_error := f2fs_cp_error c;
|}.
(** The page to use, by whether cp1 and cp2 are valid *)
Definition choose_pack (cp1 cp2 : option (list Z * Z)) : option (list Z * Z) :=
  match cp1, cp2 with
  | Some (b1, v1), Some (b2, v2) => Some (if ver_after v2 v1 then (b2, 2) else (b1, 1))
  | Some (b1, _), None => Some (b1, 1)
  | None, Some (b2, _) => Some (b2, 2)
  | None, None => None
  end.
(** The page of f2fs_get_valid_checkpoint and its pack, if one of them is valid *)
Definition find_pack (g : cp_geo) (meta : Z -> list Z) : outcome (option (list Z * Z)) :=
  let cp_start_blk_no := cp_blkaddr g in
  cp1 <-- validate_checkpoint meta (u32 cp_start_blk_no) ;;
  let cp_start_blk_no := u64 (cp_start_blk_no + Z.shiftl 1 (log_blocks_per_seg (cg_sbi g))) in
  cp2 <-- validate_checkpoint meta (u32 cp_start_blk_no) ;;
  Done (choose_pack cp1 cp2).
(** sbi->ckpt and sbi->cur_cp_pack, or -EINVAL *)
Definition f2fs_get_valid_checkpoint (g : cp_geo) (meta : Z -> list Z) : outcome (Z + list Z * Z) :=
  p <-- find_pack g meta ;;
  match p with
  | None => Done (inl (- EINVAL))
  | Some (cp_block, cur_cp_pack) =>
      if f2fs_sanity_check_ckpt (cg_raw g) (cp_bps g) (cp_fields_of cp_block) then Done (inl (- EINVAL)) else
      let cp_blk_no := u32 (cp_blkaddr g + (if cur_cp_pack =? 2 then Z.shiftl 1 (log_blocks_per_seg (cg_sbi g)) else 0)) in
      let rest := map (fun i => meta (u32 (cp_blk_no + i))) (seqZ 1 (__cp_payload g)) in
      Done (inr (cp_block ++ concat rest, cur_cp_pack))
  end.

(** ** Orphans at mount

    f2fs_recover_orphan_inodes without the quota files and the read-only flag: the
    result, the checkpoint and the inode lists *)
Definition f2fs_recover_orphan_inodes `{OrphanFormat} (evict : Z -> orphan_inode) (g : cp_geo) (meta : Z -> list Z) (c : list Z) (cur_cp_pack : Z) (s : ino_sbi)
    : outcome (Z * list Z * ino_sbi) :=
  if negb (is_set_ckpt_flags c CP_ORPHAN_PRESENT_FLAG) then Done (0, c, s) else
  let start_blk := u32 (__start_cp_addr g cur_cp_pack + 1 + __cp_payload g) in
  let orphan_blocks := u32 (__start_sum_addr c - 1 - __cp_payload g) in
  r <-- recover_blocks evict (Z.to_nat orphan_blocks) meta start_blk s ;;
  let '(err, s) := r in
  if nz err then Done (err, c, s) else Done (0, __clear_ckpt_flags c CP_ORPHAN_PRESENT_FLAG, s).
End checkpoint.

(** ** Fields of the block *)

Section fields.
Context `{CpFormatOk}.
Implicit Types (c : list Z) (f g : cp_field).

Lemma cp_field_in c f : is_field f -> BLKSIZE <= zlen c -> 0 <= cp_off f /\ cp_off f + Z.of_nat (width f) <= zlen c.
Proof. intros Hf Hc. pose proof (cp_off_range f Hf). pose proof cp_bitmap_in_block. lia. Qed.
Lemma zlen_cp_put c f x : is_field f -> BLKSIZE <= zlen c -> zlen (cp_put c f x) = zlen c.
Proof. intros Hf Hc. pose proof (cp_field_in c f Hf Hc). unfold cp_put. apply length_blit; rewrite ?zlen_le_put; lia. Qed.
Lemma cp_get_put_eq c f x : is_field f -> BLKSIZE <= zlen c -> cp_get (cp_put c f x) f = x mod 256 ^ Z.of_nat (width f).
Proof.
  intros Hf Hc. pose proof (cp_field_in c f Hf Hc). unfold cp_get, cp_put.
  rewrite <- (zlen_le_put (width f) x) at 1. rewrite slice_blit_eq by lia. apply le_get_put.
Qed.
Lemma le_get_bound l : Forall (fun x => 0 <= x < 256) l -> 0 <= le_get l < 256 ^ zlen l.
Proof.
  induction 1 as [|x l Hx Hl IH]; [done|]. cbn [le_get]. rewrite zlen_cons. pose proof (zlen_nonneg l).
  rewrite Z.pow_add_r by lia. change (256 ^ 1) with 256. nia.
Qed.
Lemma cp_get_put_ne c f g x : is_field f -> is_field g -> BLKSIZE <= zlen c -> f <> g -> cp_get (cp_put c f x) g = cp_get c g.
Proof.
  intros Hf Hg Hc Hn. pose proof (cp_field_in c f Hf Hc). pose proof (cp_field_in c g Hg Hc). unfold cp_get, cp_put. f_equal.
  apply slice_blit_ne; rewrite ?zlen_le_put; try lia. destruct (cp_off_disjoint f g Hf Hg Hn); lia.
Qed.
Lemma cp_get_range c f : Forall (fun x => 0 <= x < 256) c -> is_field f -> BLKSIZE <= zlen c -> 0 <= cp_get c f < 256 ^ Z.of_nat (width f).
Proof.
  intros Hb Hf Hc. pose proof (cp_field_in c f Hf Hc). unfold cp_get.
  pose proof (le_get_bound (slice c (cp_off f) (Z.of_nat (width f)))) as Hl. rewrite zlen_slice in Hl by lia.
  apply Hl. unfold slice. by apply Forall_take, Forall_drop.
Qed.

(** ** Flags *)

Lemma is_set_test c n : 0 <= n < 32 -> is_set_ckpt_flags c (2 ^ n) = Z.testbit (cp_get c ckpt_flags) n.
Proof. intros. unfold is_set_ckpt_flags. by rewrite nz_land_pow2 by lia. Qed.
Lemma cp_get_put_flags c x n : BLKSIZE <= zlen c -> 0 <= n < 32 -> Z.testbit (cp_get (cp_put c ckpt_flags x) ckpt_flags) n = Z.testbit x n.
Proof.
  intros Hc Hn. rewrite cp_get_put_eq by done. change (256 ^ Z.of_nat (width ckpt_flags)) with (2 ^ 32). by rewrite Z.mod_pow2_bits_low by lia.
Qed.
(** Setting or clearing one flag *)
Lemma is_set_flag_to c (f g : Z) b : BLKSIZE <= zlen c -> f ∈ cp_flags -> g ∈ cp_flags ->
  is_set_ckpt_flags (set_flag_to c f b) g = if decide (f = g) then b else is_set_ckpt_flags c g.
Proof.
  intros Hc Hf Hg. destruct (cp_flag_bit f Hf) as (n & Hn & ->). destruct (cp_flag_bit g Hg) as (m & Hm & ->).
  rewrite !is_set_test by done. unfold set_flag_to, __set_ckpt_flags, __clear_ckpt_flags.
  assert (Z.testbit (2 ^ n) m = (n =? m)) as E by (apply Z.pow2_bits_eqb; lia).
  assert ((n =? m) = bool_decide (2 ^ n = 2 ^ m)) as Enm.
  { destruct (Z.eqb_spec n m) as [->|Hne]; [by rewrite bool_decide_true|]. rewrite bool_decide_false; [done|].
    intros Hp. apply Hne. apply (Z.pow_inj_r 2); lia. }
  destruct b; rewrite cp_get_put_flags by done.
  - rewrite Z.lor_spec, E, Enm. destruct (decide (2 ^ n = 2 ^ m)); [rewrite bool_decide_true by done; apply orb_true_r|].
    rewrite bool_decide_false by done. apply orb_false_r.
  - rewrite Z.land_spec. unfold u32. rewrite Z.mod_pow2_bits_low, Z.lnot_spec, E, Enm by lia.
    destruct (decide (2 ^ n = 2 ^ m)); [rewrite bool_decide_true by done; apply andb_false_r|]. rewrite bool_decide_false by done. apply andb_true_r.
Qed.
End fields.
