(* ===== verification/Summaries.v ===== *)
(** * Log summaries in a checkpoint pack

    [segment.c] and [byte_nvm.c]: the summaries and journals of the six logs are
    written into the pack, compacted into one or two blocks where they fit or one
    block per log, and read back into the logs at mount.  The code is compiled with
    F2FS_BYTE_NVM_ENABLE, so a mount reads them from the copy of the pack in the NVM:
    what its readers do with the blocks is here, the readers are in [ByteNvm]. *)
From stdpp Require Import gmap.
From S2P Require Import Prelude Geometry Sit Victim Curseg Bytes Orphan Super Ckpt.
Open Scope Z_scope.

(** The layout of struct f2fs_summary_block: ENTRIES_IN_SUM entries, the journal and
    the footer; [sum_ver_ofs] is the offset of [version] and [ofs_in_node] in an entry. *)
Class SumLayout := {
  SUMMARY_SIZE : Z;
  ENTRIES_IN_SUM : Z;
  SUM_JOURNAL_SIZE : Z;
  SUM_FOOTER_SIZE : Z;
  sum_ver_ofs : Z;
}.
Definition SUM_ENTRY_SIZE `{SumLayout} : Z := SUMMARY_SIZE * ENTRIES_IN_SUM.
Class SumLayoutOk `{SumLayout} : Prop := {
  sum_size_pos : 0 < sum_ver_ofs < SUMMARY_SIZE;
  sum_entries_pos : 0 < ENTRIES_IN_SUM;
  sum_journal_pos : 0 < SUM_JOURNAL_SIZE;
  sum_footer : SUM_FOOTER_SIZE = 5;
  sum_total : SUM_ENTRY_SIZE + SUM_JOURNAL_SIZE + SUM_FOOTER_SIZE = BLKSIZE;
  (** the two journals leave room for entries in the first block *)
  sum_compact : 2 * SUM_JOURNAL_SIZE + SUMMARY_SIZE <= BLKSIZE - SUM_FOOTER_SIZE;
}.

(** The allocator with its logs, and curseg->journal of each log as bytes *)
Record logs := mk_logs { lg_alloc : allocator; lg_jnl : list (list Z) }.
#[export] Instance eta_logs : Eta logs := fun l => mk_logs (lg_alloc l) (lg_jnl l).

Section summaries.
Context `{CpFormat} `{SumLayout} `{SumFormat}.

Definition NR_CURSEG_DATA_TYPE : Z := 3.
Definition NR_CURSEG_NODE_TYPE : Z := 3.
Definition curseg_blkoff (l : logs) (type : Z) : Z := next_blkoff (CURSEG_I (lg_alloc l) type).
(** curseg->sum_blk as the bytes of its entries and footer *)
Definition entry_bytes (b : summary_block) : list Z := concat (sum_entries b).
Definition footer_bytes (b : summary_block) : list Z := le_put 1 (entry_type b) ++ le_put 4 (check_sum b).

(** ** How many blocks *)

Definition sum_in_page : Z := (BLKSIZE - 2 * SUM_JOURNAL_SIZE - SUM_FOOTER_SIZE) / SUMMARY_SIZE.
(** The entries of log [i] that a compacted summary holds *)
Definition sums_to_write (bps : Z) (c : list Z) (l : logs) (i : Z) : Z :=
  if cp_get c (ck_alloc_type i) =? SSR then bps else curseg_blkoff l i.
Definition f2fs_npages_for_summary_flush (bps : Z) (c : list Z) (l : logs) (for_ra : bool) : Z :=
  let count i := if cp_get c (ck_alloc_type i) =? SSR then bps
                 else if for_ra then cp_get c (cur_data_blkoff i) else curseg_blkoff l i in
  let valid_sum_count := count 0 + count 1 + count 2 in
  if valid_sum_count <=? sum_in_page then 1
  else if valid_sum_count - sum_in_page <=? (BLKSIZE - SUM_FOOTER_SIZE) / SUMMARY_SIZE then 2
  else 3.

(** ** Writing *)

Definition write_current_sum_page (l : logs) (type : Z) : outcome (list Z) :=
  let b := sum_blk (CURSEG_I (lg_alloc l) type) in
  let dst := zeros BLKSIZE in
  dst <-- wr dst SUM_ENTRY_SIZE (lg_jnl l).[type] ;;
  dst <-- wr dst 0 (entry_bytes b) ;;
  wr dst (SUM_ENTRY_SIZE + SUM_JOURNAL_SIZE) (footer_bytes b).
Fixpoint write_sum_pages (n : nat) (l : logs) (type : Z) : outcome (list (list Z)) :=
  match n with
  | O => Done []
  | S n => p <-- write_current_sum_page l type ;; ps <-- write_sum_pages n l (type + 1) ;; Done (p :: ps)
  end.
(** Three logs from [type] on, one block each *)
Definition write_normal_summaries (l : logs) (type : Z) : outcome (list (list Z)) :=
  write_sum_pages (Z.to_nat (if IS_DATASEG type then NR_CURSEG_DATA_TYPE else NR_CURSEG_NODE_TYPE)) l type.

(** The inner loop of write_compacted_summaries: the finished blocks, the block being
    filled (none after a full one) and [written_size] *)
Record compact := mk_compact { cw_done : list (list Z); cw_page : option (list Z); cw_size : Z }.
Fixpoint write_entries (es : list (list Z)) (w : compact) : outcome compact :=
  match es with
  | [] => Done w
  | e :: es =>
      let page := match cw_page w with Some p => p | None => zeros BLKSIZE end in
      let written_size := match cw_page w with Some _ => cw_size w | None => 0 end in
      page <-- wr page written_size e ;;
      let written_size := written_size + SUMMARY_SIZE in
      if written_size + SUMMARY_SIZE <=? BLKSIZE - SUM_FOOTER_SIZE
      then write_entries es (mk_compact (cw_done w) (Some page) written_size)
      else write_entries es (mk_compact (cw_done w ++ [page]) None written_size)
  end.
(** The entries of the data logs in the order they are written *)
Definition compact_entries (bps : Z) (c : list Z) (l : logs) (i : Z) : list (list Z) :=
  map (fun j => (sum_entries (sum_blk (CURSEG_I (lg_alloc l) i))).[j]) (seqZ 0 (sums_to_write bps c l i)).
Definition write_compacted_summaries (bps : Z) (c : list Z) (l : logs) : outcome (list (list Z)) :=
  let kaddr := zeros BLKSIZE in
  kaddr <-- wr kaddr 0 (lg_jnl l).[0] ;;
  kaddr <-- wr kaddr SUM_JOURNAL_SIZE (lg_jnl l).[2] ;;
  w <-- write_entries (compact_entries bps c l 0) (mk_compact [] (Some kaddr) (2 * SUM_JOURNAL_SIZE)) ;;
  w <-- write_entries (compact_entries bps c l 1) w ;;
  w <-- write_entries (compact_entries bps c l 2) w ;;
  Done (cw_done w ++ match cw_page w with Some p => [p] | None => [] end).
Definition f2fs_write_data_summaries (bps : Z) (c : list Z) (l : logs) : outcome (list (list Z)) :=
  if is_set_ckpt_flags c CP_COMPACT_SUM_FLAG then write_compacted_summaries bps c l else write_normal_summaries l 0.
Definition f2fs_write_node_summaries (l : logs) : outcome (list (list Z)) := write_normal_summaries l 3.

(** ** Reading *)

(** Stores to a log and to its journal *)
Definition set_log (l : logs) (type : Z) (f : curseg_info -> curseg_info) : logs :=
  l <| lg_alloc ::= fun a => set_curseg a type (f (CURSEG_I a type)) |>.
Definition set_jnl (l : logs) (type : Z) (j : list Z) : logs := l <| lg_jnl ::= fun js => js.[type <- j] |>.

(** The position of the reader: the block, the next block, the offset *)
Record cursor := mk_cursor { cu_page : list Z; cu_next : Z; cu_off : Z }.
Fixpoint read_entries (n : nat) (meta : Z -> list Z) (u : cursor) : outcome (list (list Z) * cursor) :=
  match n with
  | O => Done ([], u)
  | S n =>
      e <-- rd (cu_page u) (cu_off u) SUMMARY_SIZE ;;
      let offset := cu_off u + SUMMARY_SIZE in
      let u := if offset + SUMMARY_SIZE <=? BLKSIZE - SUM_FOOTER_SIZE
               then mk_cursor (cu_page u) (cu_next u) offset
               else mk_cursor (meta (cu_next u)) (u32 (cu_next u + 1)) 0 in
      r <-- read_entries n meta u ;;
      Done (e :: fst r, snd r)
  end.
(** "Step 3: restore summary entries" for one log *)
Definition read_log (cf : alloc_conf) (bps : Z) (meta : Z -> list Z) (c : list Z) (i : Z) (q : logs * cursor) : outcome (logs * cursor) :=
  let '(l, u) := q in
  let l := set_log l i (fun s => s <| next_segno := cp_get c (cur_data_segno i) |>) in
  let blk_off := cp_get c (cur_data_blkoff i) in
  let l := l <| lg_alloc ::= fun a => reset_curseg cf a i false |> in
  let l := set_log l i (fun s => s <| alloc_type := cp_get c (ck_alloc_type i) |> <| next_blkoff := blk_off |>) in
  let blk_off := if cp_get c (ck_alloc_type i) =? SSR then u16 bps else blk_off in
  r <-- read_entries (Z.to_nat blk_off) meta u ;;
  let '(es, u) := r in
  Done (set_log l i (fun s => s <| sum_blk ::= fun b => b <| sum_entries ::= fun old => blit old 0 es |> |>), u).
(** bnvm_read_compacted_summaries, from the block [start] on; [meta] gives the blocks. *)
Definition read_compacted_from (cf : alloc_conf) (bps : Z) (meta : Z -> list Z) (c : list Z) (start : Z) (l : logs) : outcome logs :=
  let kaddr := meta start in
  j <-- rd kaddr 0 SUM_JOURNAL_SIZE ;;
  let l := set_jnl l 0 j in
  j <-- rd kaddr SUM_JOURNAL_SIZE SUM_JOURNAL_SIZE ;;
  let l := set_jnl l 2 j in
  q <-- read_log cf bps meta c 0 (l, mk_cursor kaddr (u32 (start + 1)) (2 * SUM_JOURNAL_SIZE)) ;;
  q <-- read_log cf bps meta c 1 q ;;
  q <-- read_log cf bps meta c 2 q ;;
  Done (fst q).
Definition start_sum_block (g : cp_geo) (c : list Z) (pack : Z) : Z := u32 (__start_cp_addr g pack + cp_get c cp_pack_start_sum).
Definition sum_blk_addr (g : cp_geo) (c : list Z) (pack base type : Z) : Z :=
  u32 (__start_cp_addr g pack + cp_get c cp_pack_total_block_count - (base + 1) + type).

(** Zeroes [version] and [ofs_in_node] of the first [n] entries of a summary block. *)
Fixpoint clear_versions (n : nat) (sum : list Z) (i : Z) : outcome (list Z) :=
  match n with
  | O => Done sum
  | S n => sum <-- wr sum (SUMMARY_SIZE * i + sum_ver_ofs) (zeros (SUMMARY_SIZE - sum_ver_ofs)) ;; clear_versions n sum (i + 1)
  end.
(** f2fs_restore_node_summary: the entries of a node segment from the footers of its
    blocks; [footer_nid] gives the bytes of [footer.nid] of the block at an address. *)
Fixpoint restore_nids (n : nat) (footer_nid : Z -> list Z) (sum : list Z) (idx i : Z) : outcome (list Z) :=
  match n with
  | O => Done sum
  | S n =>
      sum <-- wr sum (SUMMARY_SIZE * i) (footer_nid idx) ;;
      sum <-- wr sum (SUMMARY_SIZE * i + sum_ver_ofs) (zeros (SUMMARY_SIZE - sum_ver_ofs)) ;;
      restore_nids n footer_nid sum (u32 (idx + 1)) (i + 1)
  end.
Definition f2fs_restore_node_summary (sbi : f2fs_sb_info) (footer_nid : Z -> list Z) (segno : Z) (sum : list Z) : outcome (list Z) :=
  restore_nids (Z.to_nat (blocks_per_seg sbi)) footer_nid sum (START_BLOCK sbi segno) 0.

(** The entries of a summary block as the log keeps them *)
Fixpoint split_entries (n : nat) (b : list Z) : list (list Z) :=
  match n with O => [] | S n => take (Z.to_nat SUMMARY_SIZE) b :: split_entries n (drop (Z.to_nat SUMMARY_SIZE) b) end.
(** "set uncompleted segment to curseg" from the block [sum]; reset_curseg overwrites the footer. *)
Definition load_log (cf : alloc_conf) (c : list Z) (type segno blk_off : Z) (sum : list Z) (l : logs) : outcome logs :=
  j <-- rd sum SUM_ENTRY_SIZE SUM_JOURNAL_SIZE ;;
  es <-- rd sum 0 SUM_ENTRY_SIZE ;;
  f <-- rd sum (SUM_ENTRY_SIZE + SUM_JOURNAL_SIZE) SUM_FOOTER_SIZE ;;
  let l := set_jnl l type j in
  let l := set_log l type (fun s => s <| sum_blk ::= fun b => b <| sum_entries := split_entries (Z.to_nat ENTRIES_IN_SUM) es |>
             <| entry_type := le_get (take 1 f) |> <| check_sum := le_get (drop 1 f) |> |> <| next_segno := segno |>) in
  let l := l <| lg_alloc ::= fun a => reset_curseg cf a type false |> in
  Done (set_log l type (fun s => s <| alloc_type := cp_get c (ck_alloc_type type) |> <| next_blkoff := blk_off |>)).
(** bnvm_read_normal_summaries up to the summary block it leaves: [pack_blk] and [ssa_blk]
    give the block number of a summary in the pack (by its distance from the end) and in
    the summary area. *)
Definition read_normal_from (cf : alloc_conf) (g : cp_geo) (meta : Z -> list Z) (footer_nid : Z -> list Z) (pack_blk : Z -> Z -> Z) (ssa_blk : Z -> Z)
    (c : list Z) (type : Z) (l : logs) : outcome logs :=
  let exist := __exist_node_summaries c in
  if IS_DATASEG type then
    let sum := meta (pack_blk (if exist then NR_CURSEG_TYPE else NR_CURSEG_DATA_TYPE) type) in
    load_log cf c type (cp_get c (cur_data_segno type)) (cp_get c (cur_data_blkoff type)) sum l
  else
    let segno := cp_get c (cur_node_segno (type - 3)) in
    let blk_off := cp_get c (cur_node_blkoff (type - 3)) in
    let sum := meta (if exist then pack_blk NR_CURSEG_NODE_TYPE (type - 3) else ssa_blk segno) in
    sum <-- (if exist then clear_versions (Z.to_nat (cp_bps g)) sum 0 else f2fs_restore_node_summary (cg_sbi g) footer_nid segno sum) ;;
    load_log cf c type segno blk_off sum l.
End summaries.
