(* ===== verification/SummaryProps.v ===== *)
(** * What a checkpoint says about the logs comes back at mount

    Compacted and normal summaries, written and read back; the round trip by the copy
    of the pack in the NVM is in [ByteNvmProps]. *)
From stdpp Require Import gmap.
From S2P Require Import Prelude Geometry Sit Victim Curseg Bytes Orphan Super Ckpt Summaries.
Open Scope Z_scope.

Section entries.
Context `{SumLayoutOk}.
#[local] Ltac fmt := pose proof sum_size_pos; pose proof sum_entries_pos; pose proof sum_journal_pos; pose proof sum_footer;
  pose proof sum_total; pose proof sum_compact.
#[local] Abbreviation SS := SUMMARY_SIZE.
#[local] Abbreviation LIMIT := (BLKSIZE - SUM_FOOTER_SIZE).

(** An entry has its size; the block being filled has room for one more. *)
Definition entry_ok (e : list Z) : Prop := zlen e = SS.
Definition compact_ok (w : compact) : Prop :=
  match cw_page w with Some p => zlen p = BLKSIZE /\ 0 <= cw_size w /\ cw_size w + SS <= LIMIT | None => True end.
Definition blocks_of (w : compact) : list (list Z) := cw_done w ++ match cw_page w with Some p => [p] | None => [] end.

Lemma write_entries_app es1 es2 w :
  write_entries (es1 ++ es2) w = (w <-- write_entries es1 w ;; write_entries es2 w).
Proof.
  revert w. induction es1 as [|e es1 IH]; intros w; [done|]. cbn [app write_entries].
  destruct (wr _ _ e) as [p| |]; cbn [obind]; [|done|done]. destruct (_ <=? _); apply IH.
Qed.

(** One entry: where it goes and what the writer is afterwards *)
Definition fill_page (w : compact) : list Z := match cw_page w with Some p => p | None => zeros BLKSIZE end.
Definition fill_size (w : compact) : Z := match cw_page w with Some _ => cw_size w | None => 0 end.
Definition filled (w : compact) (p : list Z) : compact :=
  if fill_size w + SS + SS <=? LIMIT then mk_compact (cw_done w) (Some p) (fill_size w + SS) else mk_compact (cw_done w ++ [p]) None (fill_size w + SS).
Lemma write_entry_step e es w : compact_ok w -> entry_ok e ->
  exists p, wr (fill_page w) (fill_size w) e = Done p /\ zlen p = BLKSIZE /\ write_entries (e :: es) w = write_entries es (filled w p) /\
    compact_ok (filled w p) /\ 0 <= fill_size w /\ fill_size w + SS <= LIMIT /\ zlen (fill_page w) = BLKSIZE.
Proof.
  intros W He. fmt. unfold entry_ok in He. unfold compact_ok in W. cbn [write_entries]. unfold filled, fill_page, fill_size in *.
  assert (zlen (zeros BLKSIZE) = BLKSIZE) as Hz by (by apply zlen_zeros).
  assert (exists p s, match cw_page w with Some p => p | None => zeros BLKSIZE end = p /\
    match cw_page w with Some _ => cw_size w | None => 0 end = s /\ zlen p = BLKSIZE /\ 0 <= s /\ s + SS <= LIMIT) as (p & s & E1 & E2 & Hp & Hs1 & Hs2).
  { destruct (cw_page w) as [p|]; [destruct W as (? & ? & ?); by eauto 10|]. exists (zeros BLKSIZE), 0. split_and!; try done; lia. }
  rewrite E1, E2. destruct (wr p s e) as [p1| |] eqn:E; try (rewrite wr_ok in E by lia; done). pose proof (zlen_wr _ _ _ _ E) as Hz1.
  exists p1. cbn [obind]. split; [done|]. split; [lia|]. split; [by destruct (_ <=? _)|]. split; [|split_and!; lia].
  destruct (Z.leb_spec (s + SS + SS) LIMIT); unfold compact_ok; cbn; [split_and!; lia|done].
Qed.
Lemma write_entries_ok es w : compact_ok w -> Forall entry_ok es -> exists w', write_entries es w = Done w' /\ compact_ok w'.
Proof.
  intros W Hes. revert w W. induction Hes as [|e es He Hes IH]; intros w W; [by exists w|].
  destruct (write_entry_step e es w W He) as (p & _ & _ & -> & W1 & _). by apply IH.
Qed.

(** ** The blocks written *)

Definition room (w : compact) : Z := match cw_page w with Some _ => (LIMIT - cw_size w) / SS | None => 0 end.
Lemma room_filled w p : compact_ok w -> 0 <= fill_size w -> fill_size w + SS <= LIMIT ->
  room (filled w p) = (LIMIT - fill_size w) / SS - 1 /\ 1 <= (LIMIT - fill_size w) / SS.
Proof.
  intros W Hs Hl. fmt. assert ((LIMIT - fill_size w) / SS = (LIMIT - fill_size w - SS) / SS + 1) as ->.
  { replace (LIMIT - fill_size w) with (LIMIT - fill_size w - SS + 1 * SS) at 1 by lia. rewrite Z.div_add by lia. done. }
  assert (0 <= (LIMIT - fill_size w - SS) / SS) by (apply Z.div_pos; lia). split; [|lia].
  unfold filled. destruct (Z.leb_spec (fill_size w + SS + SS) LIMIT) as [Hle|Hle]; unfold room; cbn [cw_page cw_size].
  - replace (LIMIT - (fill_size w + SS)) with (LIMIT - fill_size w - SS) by lia. lia.
  - rewrite (Z.div_small (LIMIT - fill_size w - SS)) by lia. lia.
Qed.
Lemma zlen_blocks_filled w p : zlen (blocks_of (filled w p)) = zlen (cw_done w) + 1.
Proof. unfold blocks_of, filled. destruct (_ <=? _); cbn; rewrite ?app_nil_r, ?zlen_app; reflexivity. Qed.
Lemma zlen_blocks_open w : cw_page w <> None -> zlen (blocks_of w) = zlen (cw_done w) + 1.
Proof. unfold blocks_of. destruct (cw_page w); [intros _|done]. by rewrite zlen_app. Qed.
Lemma write_within es w w' : compact_ok w -> Forall entry_ok es -> write_entries es w = Done w' -> cw_page w <> None -> zlen es <= room w ->
  zlen (blocks_of w') = zlen (cw_done w) + 1 /\ (zlen es = room w -> cw_page w' = None).
Proof.
  intros W Hes. fmt. revert w W. induction Hes as [|e es He Hes IH]; intros w W E Hn Hr.
  - injection E as <-. split; [by apply zlen_blocks_open|]. change (zlen (@nil (list Z))) with 0. unfold room. unfold compact_ok in W.
    destruct (cw_page w) as [p|] eqn:Ep; [|done]. destruct W as (_ & Hs & Hl). intros Hz. exfalso.
    assert (1 <= (LIMIT - cw_size w) / SS) by (apply Z.div_le_lower_bound; lia). lia.
  - destruct (write_entry_step e es w W He) as (p & Hw & Hp & Eq & W1 & Hs & Hl & _). rewrite Eq in E.
    destruct (room_filled w p W Hs Hl) as [Hr1 Hr2]. rewrite zlen_cons in Hr |- *.
    assert (room w = (LIMIT - fill_size w) / SS) as Ew by (unfold room, fill_size; by destruct (cw_page w)).
    destruct (cw_page (filled w p)) as [p'|] eqn:Ep.
    + destruct (IH (filled w p) W1 E ltac:(by rewrite Ep) ltac:(lia)) as [Hb Hc].
      assert (cw_done (filled w p) = cw_done w) as Ed by (unfold filled in *; by destruct (_ <=? _)). rewrite Ed in Hb. split; [done|]. intros. apply Hc. lia.
    + assert (room (filled w p) = 0) as Hz by (unfold room; by rewrite Ep). pose proof (zlen_nonneg es).
      destruct es as [|]; [|rewrite zlen_cons in *; pose proof (zlen_nonneg es); lia]. injection E as <-. split; [by rewrite zlen_blocks_filled|done].
Qed.
Lemma write_one_block es w w' : compact_ok w -> Forall entry_ok es -> write_entries es w = Done w' -> cw_page w = None ->
  zlen es <= LIMIT / SS -> zlen (blocks_of w') <= zlen (cw_done w) + 1.
Proof.
  intros W Hes E Ep Hr. destruct Hes as [|e es He Hes]; [injection E as <-; unfold blocks_of; rewrite Ep, app_nil_r; lia|].
  destruct (write_entry_step e es w W He) as (p & Hw & Hp & Eq & W1 & Hs & Hl & _). rewrite Eq in E.
  destruct (room_filled w p W Hs Hl) as [Hr1 Hr2]. assert (fill_size w = 0) as Ef by (unfold fill_size; by rewrite Ep). rewrite Ef, Z.sub_0_r in *.
  rewrite zlen_cons in Hr. destruct (cw_page (filled w p)) as [p'|] eqn:Ep'.
  - destruct (write_within es (filled w p) w' W1 Hes E ltac:(by rewrite Ep') ltac:(lia)) as [Hb _].
    assert (cw_done (filled w p) = cw_done w) as Ed by (unfold filled in *; by destruct (_ <=? _)). rewrite Ed in Hb. lia.
  - assert (room (filled w p) = 0) as Hz by (unfold room; by rewrite Ep'). pose proof (zlen_nonneg es).
    destruct es as [|]; [|rewrite zlen_cons in *; pose proof (zlen_nonneg es); lia]. injection E as <-. rewrite zlen_blocks_filled. lia.
Qed.
Lemma write_two_blocks es w w' : compact_ok w -> Forall entry_ok es -> write_entries es w = Done w' -> cw_page w <> None ->
  zlen es <= room w + LIMIT / SS -> zlen (blocks_of w') <= zlen (cw_done w) + 2.
Proof.
  intros W Hes E Hn Hr. fmt. destruct (Z.le_gt_cases (zlen es) (room w)) as [Hle|Hgt].
  { destruct (write_within es w w' W Hes E Hn Hle) as [Hb _]. lia. }
  assert (0 <= room w) as Hrw. { unfold room. unfold compact_ok in W. destruct (cw_page w); [|done]. apply Z.div_pos; lia. }
  rewrite <- (take_drop (Z.to_nat (room w)) es) in E, Hes. apply Forall_app in Hes as [Hes1 Hes2]. rewrite write_entries_app in E.
  apply obind_Done in E as (w1 & E1 & E2). destruct (write_entries_ok _ w W Hes1) as (w1' & E1' & W1).
  assert (w1' = w1) as -> by congruence. assert (zlen (take (Z.to_nat (room w)) es) = room w) as Hz.
  { unfold zlen in *. rewrite length_take. lia. }
  destruct (write_within _ w w1 W Hes1 E1 Hn ltac:(lia)) as [Hb Hc]. specialize (Hc Hz).
  assert (zlen (drop (Z.to_nat (room w)) es) = zlen es - room w) as Hd. { unfold zlen in *. rewrite length_drop. lia. }
  pose proof (write_one_block _ w1 w' W1 Hes2 E2 Hc ltac:(lia)) as Hb2. unfold blocks_of in Hb at 1. rewrite Hc, app_nil_r in Hb. lia.
Qed.
(** ** Reading what was written *)

(** The final blocks [F] contain what the writer has so far. *)
Definition agrees (F : list (list Z)) (w : compact) : Prop :=
  (forall k, 0 <= k < zlen (cw_done w) -> F.[k] = (cw_done w).[k]) /\ zlen (blocks_of w) <= zlen F /\
  match cw_page w with
  | Some p => zlen F.[zlen (cw_done w)] = BLKSIZE /\ slice F.[zlen (cw_done w)] 0 (cw_size w) = slice p 0 (cw_size w)
  | None => True
  end.
(** The reader at the place where the writer is *)
Definition cursor_of (meta : Z -> list Z) (start : Z) (w : compact) : cursor :=
  mk_cursor (meta (u32 (start + zlen (cw_done w)))) (u32 (start + zlen (cw_done w) + 1)) (fill_size w).

Lemma slice_extend (a b : list Z) n m : 0 <= m <= n -> slice a 0 n = slice b 0 n -> slice a 0 m = slice b 0 m.
Proof. intros Hm E. rewrite <- (slice_slice a n 0 m), <- (slice_slice b n 0 m) by lia. by rewrite E. Qed.
Lemma agrees_filled F w p e : compact_ok w -> entry_ok e -> wr (fill_page w) (fill_size w) e = Done p -> zlen p = BLKSIZE ->
  0 <= fill_size w -> fill_size w + SS <= LIMIT -> zlen (fill_page w) = BLKSIZE ->
  agrees F (filled w p) -> agrees F w /\ rd F.[zlen (cw_done w)] (fill_size w) SS = Done e /\ zlen (cw_done w) < zlen F.
Proof.
  intros W He E Hp Hs Hl Hf (A1 & A2 & A3). fmt. unfold entry_ok in He. rewrite zlen_blocks_filled in A2.
  pose proof (zlen_nonneg (cw_done w)).
  assert (zlen F.[zlen (cw_done w)] = BLKSIZE /\ slice F.[zlen (cw_done w)] 0 (fill_size w + SS) = slice p 0 (fill_size w + SS) /\
    forall k, 0 <= k < zlen (cw_done w) -> F.[k] = (cw_done w).[k]) as (Z1 & S1 & D1).
  { unfold filled in *. destruct (fill_size w + SS + SS <=? LIMIT); cbn [cw_page cw_done cw_size] in *; [by destruct A3|].
    rewrite zlen_app in A1. change (zlen [p]) with 1 in A1. rewrite A1 by lia. rewrite aget_app_r, Z.sub_diag by lia. split; [done|]. split; [done|].
    intros k Hk. rewrite A1 by lia. by rewrite aget_app_l by lia. }
  apply wr_inv in E as (_ & _ & ->). split; [split; [done|split]|split; [|lia]].
  - unfold blocks_of. destruct (cw_page w); rewrite zlen_app; [change (zlen [l]) with 1|change (zlen (@nil (list Z))) with 0]; lia.
  - unfold fill_size, fill_page in *. destruct (cw_page w) as [p0|] eqn:Ep; [|done]. split; [done|].
    transitivity (slice (blit p0 (cw_size w) e) 0 (cw_size w)); [|apply slice_blit_before; lia]. eapply slice_extend; [|exact S1]. lia.
  - rewrite rd_ok by lia. f_equal. rewrite <- (slice_slice _ (fill_size w + SS)) by lia. rewrite S1, slice_slice by lia.
    rewrite <- He. apply slice_blit_eq; lia.
Qed.
Lemma read_back meta start F es w w' : compact_ok w -> Forall entry_ok es -> write_entries es w = Done w' -> agrees F w' ->
  (forall k, 0 <= k < zlen F -> meta (u32 (start + k)) = F.[k]) ->
  read_entries (length es) meta (cursor_of meta start w) = Done (es, cursor_of meta start w') /\ agrees F w.
Proof.
  intros W Hes. revert w W. induction Hes as [|e es He Hes IH]; intros w W E A Hm; [by injection E as <-|].
  destruct (write_entry_step e es w W He) as (p & Hw & Hp & Eq & W1 & Hs & Hl & Hf). rewrite Eq in E.
  destruct (IH (filled w p) W1 E A Hm) as [R A1]. destruct (agrees_filled F w p e W He Hw Hp Hs Hl Hf A1) as (A0 & Hrd & Hk).
  split; [|done]. cbn [length read_entries cursor_of cu_page cu_off cu_next]. rewrite Hm by (pose proof (zlen_nonneg (cw_done w)); lia).
  rewrite Hrd. cbn [obind]. assert ((if fill_size w + SS + SS <=? LIMIT then mk_cursor F.[zlen (cw_done w)] (u32 (start + zlen (cw_done w) + 1)) (fill_size w + SS)
    else mk_cursor (meta (u32 (start + zlen (cw_done w) + 1))) (u32 (u32 (start + zlen (cw_done w) + 1) + 1)) 0) = cursor_of meta start (filled w p)) as ->.
  { unfold cursor_of, filled. destruct (_ <=? _); unfold fill_size; cbn [cw_done cw_page cw_size].
    - rewrite Hm by (pose proof (zlen_nonneg (cw_done w)); lia). done.
    - rewrite zlen_app. change (zlen [p]) with 1. rewrite u32_add_l. f_equal; do 2 f_equal; lia. }
  by rewrite R.
Qed.
Lemma agrees_blocks w : compact_ok w -> agrees (blocks_of w) w.
Proof.
  intros W. unfold agrees, blocks_of. split_and!; [|done|].
  - intros k Hk. by rewrite aget_app_l by lia.
  - unfold compact_ok in W. destruct (cw_page w) as [p|]; [|done]. destruct W as (Hp & _). rewrite aget_app_r, Z.sub_diag by lia.
    by change ([p].[0]) with p.
Qed.
End entries.

(** ** One block per log *)

Section normal.
Context `{CpFormatOk} `{SumLayoutOk} `{SumFormat}.
#[local] Ltac fmt := pose proof sum_size_pos; pose proof sum_entries_pos; pose proof sum_journal_pos; pose proof sum_footer;
  pose proof sum_total; pose proof sum_compact.

(** A log as it is kept in memory: all its entries and its journal have their size *)
Record log_ok (l : logs) (i : Z) : Prop := {
  lk_entries : zlen (sum_entries (sum_blk (CURSEG_I (lg_alloc l) i))) = ENTRIES_IN_SUM;
  lk_sizes : Forall entry_ok (sum_entries (sum_blk (CURSEG_I (lg_alloc l) i)));
  lk_jnl : zlen (lg_jnl l).[i] = SUM_JOURNAL_SIZE;
}.
Record logs_ok (l : logs) : Prop := {
  ll_logs : zlen (cursegs (lg_alloc l)) = NR_CURSEG_TYPE;
  ll_jnls : zlen (lg_jnl l) = NR_CURSEG_TYPE;
  ll_ok : forall i, 0 <= i < NR_CURSEG_TYPE -> log_ok l i;
}.

Lemma zlen_concat (es : list (list Z)) : Forall entry_ok es -> zlen (concat es) = SUMMARY_SIZE * zlen es.
Proof.
  unfold entry_ok. induction 1 as [|e es He Hes IH]; [change (0 = SUMMARY_SIZE * 0); lia|]. cbn [concat]. rewrite zlen_app, zlen_cons, IH, He. lia.
Qed.
Lemma split_concat (es : list (list Z)) : Forall entry_ok es -> split_entries (length es) (concat es) = es.
Proof.
  unfold entry_ok. induction 1 as [|e es He Hes IH]; [done|]. cbn [length split_entries concat].
  assert (Z.to_nat SUMMARY_SIZE = length e) as -> by (unfold zlen in He; lia). by rewrite take_app_length, drop_app_length, IH.
Qed.
Lemma zlen_footer b : zlen (footer_bytes b) = SUM_FOOTER_SIZE.
Proof. rewrite sum_footer. unfold footer_bytes. by rewrite zlen_app, !zlen_le_put. Qed.

(** The block of a log *)
Definition sum_page (l : logs) (i : Z) : list Z :=
  let b := sum_blk (CURSEG_I (lg_alloc l) i) in entry_bytes b ++ (lg_jnl l).[i] ++ footer_bytes b.
Lemma zlen_entry_bytes l i : log_ok l i -> zlen (entry_bytes (sum_blk (CURSEG_I (lg_alloc l) i))) = SUM_ENTRY_SIZE.
Proof. intros [L1 L2 _]. unfold entry_bytes. rewrite zlen_concat by done. by rewrite L1. Qed.
Lemma write_current_sum_page_eq l i : log_ok l i -> write_current_sum_page l i = Done (sum_page l i).
Proof.
  intros W. fmt. pose proof (zlen_entry_bytes l i W) as Ze. pose proof (lk_jnl _ _ W) as Zj. unfold write_current_sum_page, sum_page.
  set (b := sum_blk (CURSEG_I (lg_alloc l) i)) in *. pose proof (zlen_footer b) as Zf. pose proof (zlen_nonneg (entry_bytes b)).
  assert (zeros BLKSIZE = zeros SUM_ENTRY_SIZE ++ zeros SUM_JOURNAL_SIZE ++ zeros SUM_FOOTER_SIZE) as -> by (rewrite !zeros_app by lia; f_equal; lia).
  rewrite (wr_app (zeros SUM_ENTRY_SIZE)) by (rewrite ?zlen_zeros; lia). cbn [obind].
  pose proof (wr_app [] (zeros SUM_ENTRY_SIZE) ((lg_jnl l).[i] ++ zeros SUM_FOOTER_SIZE) 0 (entry_bytes b)) as E. cbn [app] in E.
  rewrite E by (rewrite ?zlen_zeros; lia || done). cbn [obind]. clear E.
  rewrite (app_assoc (entry_bytes b)). rewrite <- (app_nil_r (zeros SUM_FOOTER_SIZE)).
  rewrite (wr_app (entry_bytes b ++ (lg_jnl l).[i])) by (rewrite ?zlen_app, ?zlen_zeros; lia).
  by rewrite app_nil_r, <- app_assoc.
Qed.

(** [version] and [ofs_in_node] of the entries of node logs are cleared. *)
Definition clear_entry (e : list Z) : list Z := take (Z.to_nat sum_ver_ofs) e ++ zeros (SUMMARY_SIZE - sum_ver_ofs).
Lemma clear_entry_ok e : entry_ok e -> entry_ok (clear_entry e).
Proof.
  intros He. fmt. unfold entry_ok, clear_entry in *. rewrite zlen_app, zlen_zeros by lia. unfold zlen in *. rewrite length_take. lia.
Qed.
Lemma clear_versions_eq pre es post i : Forall entry_ok es -> zlen pre = SUMMARY_SIZE * i -> 0 <= i ->
  clear_versions (length es) (pre ++ concat es ++ post) i = Done (pre ++ concat (map clear_entry es) ++ post).
Proof.
  intros Hes. fmt. revert pre i. induction Hes as [|e es He Hes IH]; intros pre i Hp Hi; [done|]. cbn [length clear_versions concat map].
  unfold entry_ok in He. assert (exists hd tl, e = hd ++ tl /\ zlen hd = sum_ver_ofs /\ zlen tl = SUMMARY_SIZE - sum_ver_ofs) as (hd & tl & -> & Zh & Zt).
  { exists (take (Z.to_nat sum_ver_ofs) e), (drop (Z.to_nat sum_ver_ofs) e). rewrite take_drop. unfold zlen in *. rewrite length_take, length_drop. split; [done|lia]. }
  assert (clear_entry (hd ++ tl) = hd ++ zeros (SUMMARY_SIZE - sum_ver_ofs)) as ->.
  { unfold clear_entry. f_equal. apply take_app_length'. unfold zlen in Zh. lia. }
  rewrite <- !app_assoc. rewrite (app_assoc pre hd). rewrite (wr_app (pre ++ hd) tl) by (rewrite ?zlen_app, ?zlen_zeros; lia). cbn [obind].
  rewrite (app_assoc (pre ++ hd)). rewrite IH; [|rewrite !zlen_app, zlen_zeros by lia; lia|lia]. by rewrite <- !app_assoc.
Qed.

(** ** Changing one log *)

Lemma set_curseg_I a t c k : 0 <= t < zlen (cursegs a) -> CURSEG_I (set_curseg a t c) k = if t =? k then c else CURSEG_I a k.
Proof. intros. unfold CURSEG_I. by apply aget_aset. Qed.
(** What reset_curseg leaves in the log it resets *)
Definition was_reset (c c' : curseg_info) : Prop :=
  segno c' = next_segno c /\ next_blkoff c' = 0 /\ alloc_type c' = alloc_type c /\ sum_entries (sum_blk c') = sum_entries (sum_blk c).
Lemma reset_curseg_I cf a t m k : 0 <= t < zlen (cursegs a) ->
  (t = k -> was_reset (CURSEG_I a t) (CURSEG_I (reset_curseg cf a t m) k)) /\
  (t <> k -> CURSEG_I (reset_curseg cf a t m) k = CURSEG_I a k) /\ zlen (cursegs (reset_curseg cf a t m)) = zlen (cursegs a).
Proof.
  intros Ht. unfold reset_curseg. set (c := if IS_NODESEG t then _ else _). change (CURSEG_I (set_sm ?x _) k) with (CURSEG_I x k).
  rewrite set_curseg_I by done. split_and!.
  - intros ->. rewrite Z.eqb_refl. subst c. unfold was_reset. by destruct (IS_DATASEG k), (IS_NODESEG k).
  - intros Hn. by rewrite (proj2 (Z.eqb_neq t k)).
  - apply zlen_aset.
Qed.
Lemma set_log_I l t f k : 0 <= t < zlen (cursegs (lg_alloc l)) ->
  CURSEG_I (lg_alloc (set_log l t f)) k = if t =? k then f (CURSEG_I (lg_alloc l) k) else CURSEG_I (lg_alloc l) k.
Proof. intros Ht. unfold set_log. cbn. rewrite set_curseg_I by done. by destruct (Z.eqb_spec t k) as [->|]. Qed.
Lemma set_log_len l t f : zlen (cursegs (lg_alloc (set_log l t f))) = zlen (cursegs (lg_alloc l)).
Proof. apply zlen_aset. Qed.

(** Log [i] was set to the place [sg], [bo], [at] with entries [es]; the others are as before. *)
Record loaded (l l' : logs) (i sg bo aty : Z) (es : list (list Z)) : Prop := {
  ld_segno : segno (CURSEG_I (lg_alloc l') i) = sg;
  ld_blkoff : next_blkoff (CURSEG_I (lg_alloc l') i) = bo;
  ld_type : alloc_type (CURSEG_I (lg_alloc l') i) = aty;
  ld_entries : sum_entries (sum_blk (CURSEG_I (lg_alloc l') i)) = es;
  ld_others : forall k, k <> i -> CURSEG_I (lg_alloc l') k = CURSEG_I (lg_alloc l) k;
  ld_len : zlen (cursegs (lg_alloc l')) = zlen (cursegs (lg_alloc l));
}.
(** Setting next_segno (and more), resetting, then setting the allocation point *)
Lemma load_steps cf l i sg f bo aty : 0 <= i < zlen (cursegs (lg_alloc l)) -> (forall c, next_segno (f c) = sg) ->
  let l1 := set_log l i f in
  let l2 := l1 <| lg_alloc ::= fun a => reset_curseg cf a i false |> in
  let l3 := set_log l2 i (fun s => s <| alloc_type := aty |> <| next_blkoff := bo |>) in
  loaded l l3 i sg bo aty (sum_entries (sum_blk (f (CURSEG_I (lg_alloc l) i)))).
Proof.
  intros Hi Hf l1 l2 l3. assert (zlen (cursegs (lg_alloc l1)) = zlen (cursegs (lg_alloc l))) as L1 by apply set_log_len.
  destruct (reset_curseg_I cf (lg_alloc l1) i false i ltac:(lia)) as (R1 & _ & L2). specialize (R1 eq_refl) as (R1 & _ & _ & R4).
  change (reset_curseg cf (lg_alloc l1) i false) with (lg_alloc l2) in R1, R4, L2.
  assert (CURSEG_I (lg_alloc l1) i = f (CURSEG_I (lg_alloc l) i)) as E1 by (unfold l1; rewrite set_log_I, Z.eqb_refl by done; done).
  assert (CURSEG_I (lg_alloc l3) i = (CURSEG_I (lg_alloc l2) i) <| alloc_type := aty |> <| next_blkoff := bo |>) as E3
    by (unfold l3; rewrite set_log_I, Z.eqb_refl by lia; done).
  split.
  - rewrite E3. change (segno (CURSEG_I (lg_alloc l2) i) = sg). by rewrite R1, E1, Hf.
  - by rewrite E3.
  - by rewrite E3.
  - rewrite E3. change (sum_entries (sum_blk (CURSEG_I (lg_alloc l2) i)) = sum_entries (sum_blk (f (CURSEG_I (lg_alloc l) i)))). by rewrite R4, E1.
  - intros k Hk. unfold l3. rewrite set_log_I by lia. rewrite (proj2 (Z.eqb_neq i k)) by done.
    destruct (reset_curseg_I cf (lg_alloc l1) i false k ltac:(lia)) as (_ & R2 & _). change (CURSEG_I (lg_alloc l2) k = CURSEG_I (lg_alloc l) k).
    change (lg_alloc l2) with (reset_curseg cf (lg_alloc l1) i false). rewrite R2 by done. unfold l1. rewrite set_log_I by done.
    by rewrite (proj2 (Z.eqb_neq i k)).
  - unfold l3. rewrite set_log_len. lia.
Qed.
(** ** Reading a log *)

Lemma load_log_page cf c i sg bo (es : list (list Z)) jnl ftr l : 0 <= i < zlen (cursegs (lg_alloc l)) -> Forall entry_ok es -> zlen es = ENTRIES_IN_SUM ->
  zlen jnl = SUM_JOURNAL_SIZE -> zlen ftr = SUM_FOOTER_SIZE ->
  exists l', load_log cf c i sg bo (concat es ++ jnl ++ ftr) l = Done l' /\ loaded l l' i sg bo (cp_get c (ck_alloc_type i)) es /\
    lg_jnl l' = (lg_jnl l).[i <- jnl].
Proof.
  intros Hi Hes Hn Hj Hf. pose proof (zlen_concat es Hes) as Hc. rewrite Hn in Hc. fold SUM_ENTRY_SIZE in Hc. unfold load_log.
  rewrite (rd_app (concat es) jnl ftr) by lia. cbn [obind]. pose proof (rd_app [] (concat es) (jnl ++ ftr) 0 SUM_ENTRY_SIZE eq_refl (eq_sym Hc)) as E. cbn [app] in E.
  rewrite E. cbn [obind]. clear E. pose proof (rd_app (concat es ++ jnl) ftr [] (SUM_ENTRY_SIZE + SUM_JOURNAL_SIZE) SUM_FOOTER_SIZE) as E.
  rewrite app_nil_r, <- app_assoc in E. rewrite E by (rewrite ?zlen_app; lia). cbn [obind]. clear E.
  eexists. split; [done|]. set (f := fun s : curseg_info => _). split; [|done].
  pose proof (load_steps cf (set_jnl l i jnl) i sg f bo (cp_get c (ck_alloc_type i)) Hi ltac:(done)) as L. cbn zeta in L.
  assert (sum_entries (sum_blk (f (CURSEG_I (lg_alloc (set_jnl l i jnl)) i))) = es) as E.
  { cbn. replace (Z.to_nat ENTRIES_IN_SUM) with (length es) by (unfold zlen in Hn; lia). by apply split_concat. }
  rewrite E in L. destruct L. by split.
Qed.
Lemma read_log_ok cf bps meta c i l u es u' : 0 <= i < zlen (cursegs (lg_alloc l)) -> 0 <= bps < 65536 ->
  read_entries (Z.to_nat (if cp_get c (ck_alloc_type i) =? SSR then bps else cp_get c (cur_data_blkoff i))) meta u = Done (es, u') ->
  exists l', read_log cf bps meta c i (l, u) = Done (l', u') /\ lg_jnl l' = lg_jnl l /\
    loaded l l' i (cp_get c (cur_data_segno i)) (cp_get c (cur_data_blkoff i)) (cp_get c (ck_alloc_type i))
      (blit (sum_entries (sum_blk (CURSEG_I (lg_alloc l) i))) 0 es).
Proof.
  intros Hi Hb E. unfold read_log. rewrite u16_id by lia. rewrite E. cbn [obind]. eexists. split; [done|]. split; [done|].
  pose proof (load_steps cf l i (cp_get c (cur_data_segno i)) (fun s => s <| next_segno := cp_get c (cur_data_segno i) |>)
    (cp_get c (cur_data_blkoff i)) (cp_get c (ck_alloc_type i)) Hi ltac:(done)) as [L1 L2 L3 L4 L5 L6].
  match goal with |- loaded _ (set_log ?x _ ?g) _ _ _ _ _ => set (l3 := x) in *; set (gg := g) end.
  change (lg_alloc (set_log _ i (fun s => s <| alloc_type := _ |> <| next_blkoff := _ |>))) with (lg_alloc l3) in L1, L2, L3, L4, L5, L6.
  assert (CURSEG_I (lg_alloc (set_log l3 i gg)) i = gg (CURSEG_I (lg_alloc l3) i)) as Eg by (rewrite set_log_I, Z.eqb_refl by lia; done).
  split.
  - by rewrite Eg.
  - by rewrite Eg.
  - by rewrite Eg.
  - rewrite Eg. change (sum_entries (sum_blk (gg (CURSEG_I (lg_alloc l3) i)))) with (blit (sum_entries (sum_blk (CURSEG_I (lg_alloc l3) i))) 0 es). by rewrite L4.
  - intros k Hk. rewrite set_log_I by lia. rewrite (proj2 (Z.eqb_neq i k)) by done. by apply L5.
  - by rewrite set_log_len.
Qed.
End normal.

(** ** The round trip *)

Section roundtrip.
Context `{CpFormatOk} `{SumLayoutOk} `{SumFormat}.
#[local] Ltac fmt := pose proof sum_size_pos; pose proof sum_entries_pos; pose proof sum_journal_pos; pose proof sum_footer;
  pose proof sum_total; pose proof sum_compact.
Context (bps : Z) (Hbps : bps = ENTRIES_IN_SUM) (Hb16 : 0 <= bps < 65536).

(** The checkpoint says where the logs are. *)
Record saved (c : list Z) (l : logs) : Prop := {
  sv_data i : 0 <= i < 3 -> cp_get c (cur_data_segno i) = segno (CURSEG_I (lg_alloc l) i) /\ cp_get c (cur_data_blkoff i) = curseg_blkoff l i;
  sv_node i : 3 <= i < 6 -> cp_get c (cur_node_segno (i - 3)) = segno (CURSEG_I (lg_alloc l) i) /\ cp_get c (cur_node_blkoff (i - 3)) = curseg_blkoff l i;
  sv_type i : 0 <= i < 6 -> cp_get c (ck_alloc_type i) = alloc_type (CURSEG_I (lg_alloc l) i);
}.
Definition offsets_ok (l : logs) : Prop := forall i, 0 <= i < 6 -> 0 <= curseg_blkoff l i <= bps.
Definition entries_of (l : logs) (i : Z) : list (list Z) := sum_entries (sum_blk (CURSEG_I (lg_alloc l) i)).

(** Log [i] of [l1] is at the place of log [i] of [l] and its entries are [es] as far as they go. *)
Record restored (l l1 : logs) (i : Z) (es : list (list Z)) : Prop := {
  rt_segno : segno (CURSEG_I (lg_alloc l1) i) = segno (CURSEG_I (lg_alloc l) i);
  rt_blkoff : curseg_blkoff l1 i = curseg_blkoff l i;
  rt_type : alloc_type (CURSEG_I (lg_alloc l1) i) = alloc_type (CURSEG_I (lg_alloc l) i);
  rt_entries : take (length es) (entries_of l1 i) = es;
}.

Lemma map_aget_take {A} `{Inhabited A} (l : list A) n : 0 <= n <= zlen l -> map (fun j => l.[j]) (seqZ 0 n) = take (Z.to_nat n) l.
Proof.
  intros Hn. apply list_eq. intros k. change (map (fun j => l.[j]) (seqZ 0 n)) with ((fun j => l.[j]) <$> seqZ 0 n). rewrite list_lookup_fmap.
  destruct (decide (k < Z.to_nat n)%nat) as [Hk|Hk].
  - assert (seqZ 0 n !! k = Some (Z.of_nat k)) as -> by (apply lookup_seqZ; lia). rewrite lookup_take_lt by done. cbn.
    rewrite <- (Nat2Z.id k) at 2. rewrite lookup_aget by (unfold zlen in *; lia). done.
  - rewrite lookup_take_ge by lia. by rewrite lookup_ge_None_2 by (rewrite length_seqZ; lia).
Qed.
Lemma sums_range c l i : offsets_ok l -> 0 <= i < 6 -> 0 <= sums_to_write bps c l i <= bps.
Proof. intros Of Hi. unfold sums_to_write. destruct (_ =? _); [lia|by apply Of]. Qed.
Lemma compact_entries_eq c l i : logs_ok l -> offsets_ok l -> 0 <= i < 6 ->
  compact_entries bps c l i = take (Z.to_nat (sums_to_write bps c l i)) (entries_of l i) /\
  length (compact_entries bps c l i) = Z.to_nat (sums_to_write bps c l i) /\ Forall entry_ok (compact_entries bps c l i).
Proof.
  intros W Of Hi. pose proof (sums_range c l i Of Hi) as Hr. destruct (ll_ok _ W i Hi) as [L1 L2 _]. unfold compact_entries.
  rewrite map_aget_take by lia. split; [done|]. split; [|by apply Forall_take]. rewrite length_take. unfold zlen in L1. lia.
Qed.

Lemma restored_same l l1 l2 i es : restored l l1 i es -> CURSEG_I (lg_alloc l2) i = CURSEG_I (lg_alloc l1) i -> restored l l2 i es.
Proof. intros [M1 M2 M3 M4] E. split; unfold curseg_blkoff, entries_of in *; by rewrite E. Qed.
Lemma restored_loaded c l l1 l2 i : saved c l -> 0 <= i < 3 ->
  loaded l1 l2 i (cp_get c (cur_data_segno i)) (cp_get c (cur_data_blkoff i)) (cp_get c (ck_alloc_type i))
    (blit (sum_entries (sum_blk (CURSEG_I (lg_alloc l1) i))) 0 (compact_entries bps c l i)) ->
  restored l l2 i (compact_entries bps c l i).
Proof.
  intros S Hi [L1 L2 L3 L4 _ _]. destruct (sv_data _ _ S i Hi) as [S1 S2]. split.
  - by rewrite L1.
  - unfold curseg_blkoff at 1. by rewrite L2.
  - rewrite L3. apply (sv_type _ _ S). lia.
  - unfold entries_of. rewrite L4. unfold blit. change (take (Z.to_nat 0) _) with (@nil (list Z)). cbn [app]. by apply take_app_length.
Qed.

(** The first block with its two journals *)
Definition compact_start (l : logs) : compact :=
  mk_compact [] (Some ((lg_jnl l).[0] ++ (lg_jnl l).[2] ++ zeros (BLKSIZE - 2 * SUM_JOURNAL_SIZE))) (2 * SUM_JOURNAL_SIZE).
Definition all_compact (c : list Z) (l : logs) : list (list Z) := compact_entries bps c l 0 ++ compact_entries bps c l 1 ++ compact_entries bps c l 2.

Lemma jnl_sizes l : logs_ok l -> zlen (lg_jnl l).[0] = SUM_JOURNAL_SIZE /\ zlen (lg_jnl l).[2] = SUM_JOURNAL_SIZE.
Proof. intros W. split; [apply (lk_jnl _ _ (ll_ok _ W 0 ltac:(done)))|apply (lk_jnl _ _ (ll_ok _ W 2 ltac:(done)))]. Qed.
Lemma compact_start_ok l : logs_ok l -> compact_ok (compact_start l).
Proof.
  intros W. fmt. destruct (jnl_sizes l W). unfold compact_ok, compact_start. cbn [cw_page cw_size]. rewrite !zlen_app, zlen_zeros by lia. lia.
Qed.
Lemma write_compacted_eq c l w : logs_ok l -> write_entries (all_compact c l) (compact_start l) = Done w ->
  write_compacted_summaries bps c l = Done (blocks_of w).
Proof.
  intros W E. fmt. destruct (jnl_sizes l W) as [J0 J2]. unfold all_compact in E. rewrite write_entries_app in E.
  apply obind_Done in E as (w1 & E1 & E). rewrite write_entries_app in E. apply obind_Done in E as (w2 & E2 & E3).
  unfold write_compacted_summaries, compact_start in *. set (tl := zeros (BLKSIZE - 2 * SUM_JOURNAL_SIZE)) in *.
  assert (zeros BLKSIZE = zeros SUM_JOURNAL_SIZE ++ zeros SUM_JOURNAL_SIZE ++ tl) as -> by (unfold tl; rewrite !zeros_app by lia; f_equal; lia).
  pose proof (wr_app [] (zeros SUM_JOURNAL_SIZE) (zeros SUM_JOURNAL_SIZE ++ tl) 0 (lg_jnl l).[0] eq_refl) as E. cbn [app] in E.
  rewrite E by (rewrite zlen_zeros; lia). cbn [obind]. rewrite (wr_app (lg_jnl l).[0]) by (rewrite ?zlen_zeros; lia). cbn [obind].
  rewrite E1. cbn [obind]. rewrite E2. cbn [obind]. by rewrite E3.
Qed.
Lemma all_compact_ok c l : logs_ok l -> offsets_ok l -> Forall entry_ok (all_compact c l) /\
  zlen (all_compact c l) = sums_to_write bps c l 0 + sums_to_write bps c l 1 + sums_to_write bps c l 2.
Proof.
  intros W Of. destruct (compact_entries_eq c l 0 W Of ltac:(done)) as (_ & N0 & F0). destruct (compact_entries_eq c l 1 W Of ltac:(done)) as (_ & N1 & F1).
  destruct (compact_entries_eq c l 2 W Of ltac:(done)) as (_ & N2 & F2). split; [by repeat apply Forall_app_2|].
  unfold all_compact. rewrite !zlen_app. pose proof (sums_range c l 0 Of ltac:(done)). pose proof (sums_range c l 1 Of ltac:(done)).
  pose proof (sums_range c l 2 Of ltac:(done)). unfold zlen. lia.
Qed.
(** As many blocks as f2fs_npages_for_summary_flush reserves are enough. *)
Lemma compact_fits c l w : logs_ok l -> offsets_ok l -> write_entries (all_compact c l) (compact_start l) = Done w ->
  f2fs_npages_for_summary_flush bps c l false < 3 -> zlen (blocks_of w) <= f2fs_npages_for_summary_flush bps c l false.
Proof.
  intros W Of E. destruct (all_compact_ok c l W Of) as [Fa Zn]. pose proof (compact_start_ok l W) as W0.
  unfold f2fs_npages_for_summary_flush. change (if cp_get c (ck_alloc_type ?i) =? SSR then bps else curseg_blkoff l ?i) with (sums_to_write bps c l i).
  cbv zeta. rewrite <- Zn. assert (room (compact_start l) = sum_in_page) as Hr by (unfold room, sum_in_page; cbn [cw_page cw_size compact_start]; f_equal; lia).
  destruct (Z.leb_spec (zlen (all_compact c l)) sum_in_page).
  - intros _. destruct (write_within _ _ w W0 Fa E ltac:(done) ltac:(lia)) as [Hb _]. by rewrite Hb.
  - destruct (Z.leb_spec (zlen (all_compact c l) - sum_in_page) ((BLKSIZE - SUM_FOOTER_SIZE) / SUMMARY_SIZE)); [|lia].
    intros _. exact (write_two_blocks _ _ w W0 Fa E ltac:(done) ltac:(lia)).
Qed.
(** Reading the two journals of a block that starts like the first block *)
Lemma read_journals p (j0 j2 tl : list Z) : zlen j0 = SUM_JOURNAL_SIZE -> zlen j2 = SUM_JOURNAL_SIZE -> zlen p = BLKSIZE ->
  slice p 0 (2 * SUM_JOURNAL_SIZE) = slice (j0 ++ j2 ++ tl) 0 (2 * SUM_JOURNAL_SIZE) ->
  rd p 0 SUM_JOURNAL_SIZE = Done j0 /\ rd p SUM_JOURNAL_SIZE SUM_JOURNAL_SIZE = Done j2.
Proof.
  intros Z0 Z2 Zp E. fmt.
  assert (slice (j0 ++ j2 ++ tl) 0 (2 * SUM_JOURNAL_SIZE) = j0 ++ j2) as Ej.
  { unfold slice. change (Z.to_nat 0) with O. rewrite drop_0, app_assoc. apply take_app_length'. rewrite length_app. unfold zlen in *. lia. }
  rewrite !rd_ok by lia. rewrite <- (slice_slice p (2 * SUM_JOURNAL_SIZE) 0), <- (slice_slice p (2 * SUM_JOURNAL_SIZE) SUM_JOURNAL_SIZE) by lia.
  rewrite E, Ej. unfold slice. change (Z.to_nat 0) with O. rewrite drop_0. split; f_equal.
  - apply take_app_length'. unfold zlen in *. lia.
  - rewrite drop_app_length' by (unfold zlen in *; lia). apply take_ge. unfold zlen in *. lia.
Qed.

(** "Step 3" of the reader for the three data logs *)
Lemma read_three_logs cf c l la meta u0 u1 u2 u3 : logs_ok l -> offsets_ok l -> saved c l -> zlen (cursegs (lg_alloc la)) = NR_CURSEG_TYPE ->
  read_entries (length (compact_entries bps c l 0)) meta u0 = Done (compact_entries bps c l 0, u1) ->
  read_entries (length (compact_entries bps c l 1)) meta u1 = Done (compact_entries bps c l 1, u2) ->
  read_entries (length (compact_entries bps c l 2)) meta u2 = Done (compact_entries bps c l 2, u3) ->
  exists l1, (q <-- read_log cf bps meta c 0 (la, u0) ;; q <-- read_log cf bps meta c 1 q ;; q <-- read_log cf bps meta c 2 q ;; Done (fst q)) = Done l1 /\
    lg_jnl l1 = lg_jnl la /\ (forall i, 0 <= i < 3 -> restored l l1 i (compact_entries bps c l i)) /\
    (forall i, 3 <= i -> CURSEG_I (lg_alloc l1) i = CURSEG_I (lg_alloc la) i) /\ zlen (cursegs (lg_alloc l1)) = zlen (cursegs (lg_alloc la)).
Proof.
  intros W Of S Hc6 R0 R1 R2. unfold NR_CURSEG_TYPE in Hc6.
  assert (forall i, 0 <= i < 3 -> length (compact_entries bps c l i) = Z.to_nat (if cp_get c (ck_alloc_type i) =? SSR then bps else cp_get c (cur_data_blkoff i))) as Hcnt.
  { intros i Hi. destruct (compact_entries_eq c l i W Of ltac:(lia)) as (_ & -> & _). unfold sums_to_write. by destruct (sv_data _ _ S i Hi) as [_ ->]. }
  rewrite Hcnt in R0, R1, R2 by done.
  destruct (read_log_ok cf bps meta c 0 la _ _ _ ltac:(lia) Hb16 R0) as (l1 & -> & Y1 & D1). cbn [obind]. pose proof (ld_len _ _ _ _ _ _ _ D1) as K1.
  destruct (read_log_ok cf bps meta c 1 l1 _ _ _ ltac:(lia) Hb16 R1) as (l2 & -> & Y2 & D2). cbn [obind]. pose proof (ld_len _ _ _ _ _ _ _ D2) as K2.
  destruct (read_log_ok cf bps meta c 2 l2 _ _ _ ltac:(lia) Hb16 R2) as (l3 & -> & Y3 & D3). cbn [obind fst]. pose proof (ld_len _ _ _ _ _ _ _ D3) as K3.
  pose proof (ld_others _ _ _ _ _ _ _ D1) as O1. pose proof (ld_others _ _ _ _ _ _ _ D2) as O2. pose proof (ld_others _ _ _ _ _ _ _ D3) as O3.
  exists l3. split; [done|]. split; [by rewrite Y3, Y2, Y1|]. split; [|split; [|lia]].
  - intros i Hi. assert (i = 0 \/ i = 1 \/ i = 2) as [-> | [-> | ->]] by lia.
    + apply (restored_same l l1); [|by rewrite O3, O2]. by apply (restored_loaded c l la l1).
    + apply (restored_same l l2); [|by rewrite O3]. by apply (restored_loaded c l l1 l2).
    + by apply (restored_loaded c l l2 l3).
  - intros i Hi. rewrite O3, O2, O1 by lia. done.
Qed.

(** The compacted summaries are written and, wherever they are found again, give back
    the journals and the data logs. *)
Lemma compact_roundtrip cf c l : logs_ok l -> offsets_ok l -> saved c l ->
  exists ds, write_compacted_summaries bps c l = Done ds /\
    (f2fs_npages_for_summary_flush bps c l false < 3 -> zlen ds <= f2fs_npages_for_summary_flush bps c l false) /\
    forall meta start l0, logs_ok l0 -> start = u32 start -> (forall k, 0 <= k < zlen ds -> meta (u32 (start + k)) = ds.[k]) ->
      exists l1, read_compacted_from cf bps meta c start l0 = Done l1 /\
        lg_jnl l1 = ((lg_jnl l0).[0 <- (lg_jnl l).[0]]).[2 <- (lg_jnl l).[2]] /\
        (forall i, 0 <= i < 3 -> restored l l1 i (compact_entries bps c l i)) /\
        (forall i, 3 <= i -> CURSEG_I (lg_alloc l1) i = CURSEG_I (lg_alloc l0) i) /\
        zlen (cursegs (lg_alloc l1)) = zlen (cursegs (lg_alloc l0)).
Proof.
  intros W Of S. destruct (jnl_sizes l W) as [J0 J2].
  destruct (compact_entries_eq c l 0 W Of ltac:(done)) as (_ & N0 & F0). destruct (compact_entries_eq c l 1 W Of ltac:(done)) as (_ & N1 & F1).
  destruct (compact_entries_eq c l 2 W Of ltac:(done)) as (_ & N2 & F2). pose proof (compact_start_ok l W) as W0.
  destruct (write_entries_ok _ _ W0 F0) as (w1 & E1 & W1). destruct (write_entries_ok _ w1 W1 F1) as (w2 & E2 & W2).
  destruct (write_entries_ok _ w2 W2 F2) as (w3 & E3 & W3).
  assert (write_entries (all_compact c l) (compact_start l) = Done w3) as E
    by (unfold all_compact; rewrite write_entries_app, E1; cbn [obind]; by rewrite write_entries_app, E2).
  exists (blocks_of w3). split; [by apply write_compacted_eq|]. split; [by apply compact_fits|].
  intros meta start l0 L0 Hst Hm.
  destruct (read_back meta start (blocks_of w3) _ w2 w3 W2 F2 E3 (agrees_blocks w3 W3) Hm) as [R2 A2].
  destruct (read_back meta start (blocks_of w3) _ w1 w2 W1 F1 E2 A2 Hm) as [R1 A1].
  destruct (read_back meta start (blocks_of w3) _ _ w1 W0 F0 E1 A1 Hm) as [R0 (_ & Hlen & Hz & Hsl)].
  cbn [cw_done cw_size compact_start] in Hz, Hsl. change (zlen (@nil (list Z))) with 0 in *.
  assert (0 < zlen (blocks_of w3)) as Hpos by (rewrite zlen_blocks_open in Hlen by done; change (zlen (cw_done (compact_start l))) with 0 in Hlen; lia).
  assert (meta start = (blocks_of w3).[0]) as Hm0 by (rewrite <- Hm by lia; rewrite Z.add_0_r; by rewrite <- Hst).
  unfold read_compacted_from. rewrite Hm0. destruct (read_journals _ _ _ _ J0 J2 Hz Hsl) as [-> ->]. cbn [obind].
  assert (mk_cursor (blocks_of w3).[0] (u32 (start + 1)) (2 * SUM_JOURNAL_SIZE) = cursor_of meta start (compact_start l)) as ->.
  { unfold cursor_of, fill_size. cbn [cw_done cw_page cw_size compact_start]. change (zlen (@nil (list Z))) with 0. by rewrite Z.add_0_r, <- Hst, Hm0. }
  destruct (read_three_logs cf c l (set_jnl (set_jnl l0 0 (lg_jnl l).[0]) 2 (lg_jnl l).[2]) meta _ _ _ _ W Of S (ll_logs _ L0) R0 R1 R2) as (l1 & E' & Hr).
  exists l1. split; [|done]. exact E'.
Qed.
(** What a normal summary gives back: the entries, cleared for node logs *)
Definition normal_entries (l : logs) (i : Z) : list (list Z) := if IS_DATASEG i then entries_of l i else map clear_entry (entries_of l i).
Lemma load_normal cf c l l0 i (es : list (list Z)) jnl ftr : saved c l -> 0 <= i < 6 -> zlen (cursegs (lg_alloc l0)) = 6 ->
  Forall entry_ok es -> zlen es = ENTRIES_IN_SUM -> zlen jnl = SUM_JOURNAL_SIZE -> zlen ftr = SUM_FOOTER_SIZE ->
  exists l1, load_log cf c i (segno (CURSEG_I (lg_alloc l) i)) (curseg_blkoff l i) (concat es ++ jnl ++ ftr) l0 = Done l1 /\
    restored l l1 i es /\ (forall k, k <> i -> CURSEG_I (lg_alloc l1) k = CURSEG_I (lg_alloc l0) k) /\
    zlen (cursegs (lg_alloc l1)) = 6 /\ lg_jnl l1 = (lg_jnl l0).[i <- jnl].
Proof.
  intros S Hi Hc Hes Hn Hj Hf. destruct (load_log_page cf c i (segno (CURSEG_I (lg_alloc l) i)) (curseg_blkoff l i) es jnl ftr l0 ltac:(lia) Hes Hn Hj Hf)
    as (l1 & -> & [D1 D2 D3 D4 D5 D6] & Hjn). exists l1. split; [done|]. split; [|split; [done|split; [lia|done]]]. split.
  - done.
  - exact D2.
  - rewrite D3. by apply (sv_type _ _ S).
  - unfold entries_of. rewrite D4. by apply take_ge.
Qed.
Lemma read_normal_ok cf g meta fn pk ssa c l l0 i : logs_ok l -> saved c l -> cp_bps g = bps -> __exist_node_summaries c = true -> 0 <= i < 6 ->
  meta (if IS_DATASEG i then pk NR_CURSEG_TYPE i else pk NR_CURSEG_NODE_TYPE (i - 3)) = sum_page l i -> zlen (cursegs (lg_alloc l0)) = 6 ->
  exists l1, read_normal_from cf g meta fn pk ssa c i l0 = Done l1 /\ restored l l1 i (normal_entries l i) /\
    (forall k, k <> i -> CURSEG_I (lg_alloc l1) k = CURSEG_I (lg_alloc l0) k) /\ zlen (cursegs (lg_alloc l1)) = 6 /\
    lg_jnl l1 = (lg_jnl l0).[i <- (lg_jnl l).[i]].
Proof.
  intros W S Hg Hx Hi Hm Hc. destruct (ll_ok _ W i Hi) as [L1 L2 L3]. fold (entries_of l i) in L1, L2. unfold read_normal_from, normal_entries.
  rewrite Hx. unfold IS_DATASEG in *. destruct (Z.leb_spec i 2).
  - rewrite Hm. destruct (sv_data _ _ S i ltac:(lia)) as [-> ->]. by apply load_normal; [..|apply zlen_footer].
  - rewrite Hm. unfold sum_page, entry_bytes. fold (entries_of l i).
    assert (Z.to_nat (cp_bps g) = length (entries_of l i)) as -> by (rewrite Hg, Hbps, <- L1; unfold zlen; lia).
    pose proof (clear_versions_eq [] (entries_of l i) ((lg_jnl l).[i] ++ footer_bytes (sum_blk (CURSEG_I (lg_alloc l) i))) 0 L2 ltac:(change (0 = SUMMARY_SIZE * 0); lia) ltac:(lia)) as E.
    cbn [app] in E. rewrite E. cbn [obind]. destruct (sv_node _ _ S i ltac:(lia)) as [-> ->]. apply load_normal; try done.
    + apply Forall_map. eapply list.Forall_impl; [exact L2|]. apply clear_entry_ok.
    + unfold zlen in *. by rewrite length_map.
    + apply zlen_footer.
Qed.
Lemma write_normal_eq l type : logs_ok l -> type = 0 \/ type = 3 ->
  write_normal_summaries l type = Done [sum_page l type; sum_page l (type + 1); sum_page l (type + 2)].
Proof.
  intros W Ht. unfold write_normal_summaries. assert (Z.to_nat (if IS_DATASEG type then NR_CURSEG_DATA_TYPE else NR_CURSEG_NODE_TYPE) = 3%nat) as -> by (by destruct (IS_DATASEG type)).
  cbn [write_sum_pages]. replace (type + 2) with (type + 1 + 1) by lia.
  rewrite !write_current_sum_page_eq by (apply (ll_ok _ W); unfold NR_CURSEG_TYPE; lia). done.
Qed.
(** The entries up to the allocation point are a prefix of all entries. *)
Lemma restored_prefix c l l1 i : logs_ok l -> offsets_ok l -> 0 <= i < 3 -> restored l l1 i (normal_entries l i) -> restored l l1 i (compact_entries bps c l i).
Proof.
  intros W Of Hi [R1 R2 R3 R4]. split; [done|done|done|]. unfold normal_entries, IS_DATASEG in R4. replace (i <=? 2) with true in R4 by lia.
  destruct (compact_entries_eq c l i W Of ltac:(lia)) as (E & _ & _). pose proof (sums_range c l i Of ltac:(lia)). destruct (ll_ok _ W i ltac:(unfold NR_CURSEG_TYPE; lia)) as [L1 _ _].
  fold (entries_of l i) in L1. rewrite E at 2. rewrite <- R4, take_take. f_equal. rewrite E, length_take. unfold zlen in L1. lia.
Qed.
(** Where the blocks of a pack are: [nd] blocks are reserved for the data logs. *)
Definition placed (g : cp_geo) (c : list Z) (pack : Z) (meta : Z -> list Z) (o : Z) (ps : list (list Z)) : Prop :=
  forall k, 0 <= k < zlen ps -> meta (u32 (start_sum_block g c pack + o + k)) = ps.[k].
Lemma sum_blk_addr_eq g c pack o base type nd : cp_get c cp_pack_total_block_count = cp_get c cp_pack_start_sum + nd + NR_CURSEG_NODE_TYPE + 1 ->
  nd + NR_CURSEG_NODE_TYPE - base = o -> sum_blk_addr g c pack base type = u32 (start_sum_block g c pack + o + type).
Proof.
  intros E Eo. unfold sum_blk_addr, start_sum_block. rewrite <- Z.add_assoc, u32_add_l. f_equal. lia.
Qed.

End roundtrip.
