(* ===== verification/DoCkpt.v ===== *)
(** * Writing a checkpoint

    [checkpoint.c]: do_checkpoint and what it calls.  The pack is written in two steps:
    all blocks but the last, then, behind a cache flush, the last block, which repeats
    the first one and makes the pack valid. *)
From stdpp Require Import gmap.
From S2P Require Import Prelude Geometry MptFlush Curseg Bytes Orphan Super Ckpt Summaries.
Open Scope Z_scope.

Definition CP_UMOUNT : Z := 1.
Definition CP_FASTBOOT : Z := 2.
Definition CP_SYNC : Z := 4.
Definition CP_RECOVERY : Z := 8.
Definition CP_DISCARD : Z := 16.
Definition CP_TRIMMED : Z := 32.

(** What a checkpoint does with the device: it submits a block, waits until all that was
    submitted is completed (wait_on_all_pages_writeback sleeps until F2FS_WB_CP_DATA
    counts no page), or flushes the cache of the device, which makes durable what was
    completed before. *)
Inductive cp_io := IoWrite (blk : Z) (b : list Z) | IoWait | IoFlush.

(** What a checkpoint reads and changes: sbi->ckpt with its payload blocks, the pack in
    use, the inode lists, nm_i->nat_bits (freed when disabled), the dirty meta pages,
    SBI_IS_DIRTY, SBI_NEED_CP and NVM_NSB_DIRTY *)
Record cp_state := mk_cps {
  ckpt : list Z;
  cur_cp_pack : Z;
  cp_ino : ino_sbi;
  nat_bits : option (list (list Z));
  nat_bits_blocks : Z;
  dirty_meta : gmap Z (list Z);
  sbi_is_dirty : bool;
  sbi_need_cp : bool;
  nsb_dirty : bool;
}.
#[export] Instance eta_cps : Eta cp_state := fun s =>
  mk_cps (ckpt s) (cur_cp_pack s) (cp_ino s) (nat_bits s) (nat_bits_blocks s) (dirty_meta s) (sbi_is_dirty s) (sbi_need_cp s) (nsb_dirty s).

(** The rest of the mounted volume: mtime, counters, version bitmaps, the results of
    I/O (f2fs_cp_error at its four tests, f2fs_flush_device_cache, which flushes the other
    devices of a volume), whether nodes or inodes were made dirty again meanwhile, and
    the mount option NOBARRIER *)
Record cp_env := {
  e_mtime : Z;
  e_free_segments : Z;
  e_sit_bitmap : list Z;
  e_nat_bitmap : list Z;
  e_kbytes : Z;
  e_sync_err : bool;
  e_bits_err : bool;
  e_pack_err : bool;
  e_commit_err : bool;
  e_flush : Z;
  e_redirty : bool;
  e_nobarrier : bool;
}.

Section do_checkpoint.
Context `{SuperFormat} `{OrphanFormat} `{CpFormat} `{SumLayout} `{SumFormat}.
(** The offset of info.kbytes_written in a journal *)
Context (kbytes_ofs : Z).
Context (g : cp_geo).

(** ** Meta pages *)

Definition f2fs_update_meta_page (s : cp_state) (src : list Z) (blk_addr : Z) : cp_state := s <| dirty_meta ::= <[blk_addr := src]> |>.
Definition update_meta_pages (s : cp_state) (ps : list (Z * list Z)) : cp_state :=
  fold_left (fun s p => f2fs_update_meta_page s (snd p) (fst p)) ps s.
(** f2fs_sync_meta_pages of all dirty pages; their order is free until the next flush. *)
Definition f2fs_sync_meta_pages (s : cp_state) : cp_state * list cp_io :=
  (s <| dirty_meta := ∅ |>, map (fun p => IoWrite (fst p) (snd p)) (map_to_list (dirty_meta s))).
(** while (get_pages(sbi, F2FS_DIRTY_META)) f2fs_sync_meta_pages, left with an error when
    f2fs_cp_error: whether it was, the state and the requests *)
Fixpoint sync_dirty_meta (fuel : nat) (err : bool) (s : cp_state) (ios : list cp_io) : outcome (bool * cp_state * list cp_io) :=
  if bool_decide (dirty_meta s = ∅) then Done (false, s, ios)
  else
    match fuel with
    | O => NoFuel
    | S fuel =>
        let '(s, io) := f2fs_sync_meta_pages s in
        if err then Done (true, s, ios ++ io) else sync_dirty_meta fuel err s (ios ++ io)
    end.
(** A bio of type META_FLUSH: unless NOBARRIER is set it has REQ_PREFLUSH, so the cache is
    flushed before its block is written, and REQ_FUA, so it completes when the block is
    durable, for which the block layer may wait for the block and flush again. *)
Definition submit_meta_flush (nobarrier : bool) (w : cp_io) : list cp_io :=
  if nobarrier then [w] else [IoFlush; w; IoWait; IoFlush].
Definition commit_checkpoint (nobarrier : bool) (src : list Z) (blk_addr : Z) : list cp_io :=
  submit_meta_flush nobarrier (IoWrite blk_addr (take (Z.to_nat BLKSIZE) src)).

(** ** The checkpoint block *)

Definition __remain_node_summaries (reason : Z) : bool := nz (Z.land reason (Z.lor CP_UMOUNT CP_FASTBOOT)).
Definition enabled_nat_bits (c : list Z) (reason : Z) : bool := nz (Z.land reason CP_UMOUNT) && is_set_ckpt_flags c CP_NAT_BITS_FLAG.
Definition disable_nat_bits (s : cp_state) : cp_state :=
  s <| cp_ino ::= fun i => i <| isb_need_fsck := true |> |> <| ckpt ::= fun c => __clear_ckpt_flags c CP_NAT_BITS_FLAG |> <| nat_bits := None |>.

(** The two loops that record the logs *)
Definition put_node_log (l : logs) (c : list Z) (i : Z) : list Z :=
  let s := CURSEG_I (lg_alloc l) (i + 3) in
  let c := cp_put c (cur_node_segno i) (segno s) in
  let c := cp_put c (cur_node_blkoff i) (next_blkoff s) in
  cp_put c (ck_alloc_type (i + 3)) (alloc_type s).
Definition put_data_log (l : logs) (c : list Z) (i : Z) : list Z :=
  let s := CURSEG_I (lg_alloc l) i in
  let c := cp_put c (cur_data_segno i) (segno s) in
  let c := cp_put c (cur_data_blkoff i) (next_blkoff s) in
  cp_put c (ck_alloc_type i) (alloc_type s).
Definition put_logs (l : logs) (c : list Z) : list Z :=
  fold_left (put_data_log l) [0; 1; 2] (fold_left (put_node_log l) [0; 1; 2] c).

Definition update_ckpt_flags (s : cp_state) (reason : Z) : cp_state :=
  let orphan_num := ino_num (im (cp_ino s)).[ORPHAN_INO] in
  let s := if nz (Z.land reason CP_UMOUNT) && (u32 (cp_bps g - nat_bits_blocks s) <? cp_get (ckpt s) cp_pack_total_block_count)
           then disable_nat_bits s else s in
  let c := ckpt s in
  let c := set_flag_to c CP_TRIMMED_FLAG (nz (Z.land reason CP_TRIMMED)) in
  let c := set_flag_to c CP_UMOUNT_FLAG (nz (Z.land reason CP_UMOUNT)) in
  let c := set_flag_to c CP_FASTBOOT_FLAG (nz (Z.land reason CP_FASTBOOT)) in
  let c := set_flag_to c CP_ORPHAN_PRESENT_FLAG (nz orphan_num) in
  let c := if isb_need_fsck (cp_ino s) then __set_ckpt_flags c CP_FSCK_FLAG else c in
  let c := __set_ckpt_flags c CP_CRC_RECOVERY_FLAG in
  let c := __clear_ckpt_flags c CP_NOCRC_RECOVERY_FLAG in
  s <| ckpt := c |>.
(** "if the superblock is dirty, switch its version" *)
Definition switch_nsb (s : cp_state) : cp_state :=
  if nsb_dirty s then s <| ckpt ::= fun c => cp_put c ckpt_flags (nvm_switch_nsb_version (cp_get c ckpt_flags)) |> <| nsb_dirty := false |> else s.
(** The bitmaps and the checksum; the checksum is also used for the NAT bits. *)
Definition seal_ckpt (e : cp_env) (c : list Z) : outcome (list Z * Z) :=
  c <-- wr c (__bitmap_ptr g c false) (e_sit_bitmap e) ;;
  c <-- wr c (__bitmap_ptr g c true) (e_nat_bitmap e) ;;
  let crc32 := f2fs_crc32 (take (Z.to_nat (cp_get c checksum_offset)) c) in
  c <-- wr c (cp_get c checksum_offset) (le_put 4 crc32) ;;
  Done (c, crc32).

(** do_checkpoint from "modify checkpoint" to the checksum: the state, the blocks reserved
    for data summaries and for orphans, the checksum *)
Definition prepare_pack (e : cp_env) (l : logs) (reason : Z) (s : cp_state) : outcome (cp_state * Z * Z * Z) :=
  let orphan_num := ino_num (im (cp_ino s)).[ORPHAN_INO] in
  let c := cp_put (ckpt s) elapsed_time (e_mtime e) in
  let c := cp_put c free_segment_count (e_free_segments e) in
  let c := put_logs l c in
  let data_sum_blocks := f2fs_npages_for_summary_flush (cp_bps g) c l false in
  let c := set_flag_to c CP_COMPACT_SUM_FLAG (data_sum_blocks <? NR_CURSEG_DATA_TYPE) in
  let orphan_blocks := u32 (GET_ORPHAN_BLOCKS orphan_num) in
  let c := cp_put c cp_pack_start_sum (1 + __cp_payload g + orphan_blocks) in
  let c := cp_put c cp_pack_total_block_count
    (F2FS_CP_PACKS + __cp_payload g + data_sum_blocks + orphan_blocks + (if __remain_node_summaries reason then NR_CURSEG_NODE_TYPE else 0)) in
  let s := switch_nsb (update_ckpt_flags (s <| ckpt := c |>) reason) in
  r <-- seal_ckpt e (ckpt s) ;;
  Done (s <| ckpt := fst r |>, data_sum_blocks, orphan_blocks, snd r).

(** ** The pack *)

Definition number_from (start : Z) (ps : list (list Z)) : list (Z * list Z) := zip (seqZ start (zlen ps)) ps.
(** nat_bits with the version and the checksum in front, at the end of the segment *)
Definition put_nat_bits (s : cp_state) (crc32 start_blk : Z) : outcome (list (Z * list Z)) :=
  match nat_bits s with
  | Some (b :: bits) =>
      b <-- wr b 0 (le_put 8 (Z.lor (cur_cp_version (ckpt s)) (u64 (Z.shiftl crc32 32)))) ;;
      Done (number_from (u32 (start_blk + cp_bps g - nat_bits_blocks s)) (b :: bits))
  | _ => Bug
  end.
(** The [i]-th block of the checkpoint in memory *)
Definition ckpt_block (c : list Z) (i : Z) : list Z := slice c (i * BLKSIZE) BLKSIZE.
Definition ckpt_blocks (c : list Z) : list (list Z) := map (ckpt_block c) (seqZ 0 (1 + __cp_payload g)).
(** "write out checkpoint buffer at block 0" to the node summaries: the pages made dirty,
    the logs (kbytes_written is put into the journal of the hot node log) and the block
    behind them *)
Definition pack_pages (e : cp_env) (l : logs) (reason : Z) (s : cp_state) (start_blk data_sum_blocks orphan_blocks : Z)
    : outcome (list (Z * list Z) * logs * Z) :=
  let head := number_from start_blk (ckpt_blocks (ckpt s)) in
  let start_blk := start_blk + (1 + __cp_payload g) in
  let orphan_num := ino_num (im (cp_ino s)).[ORPHAN_INO] in
  orphans <-- (if nz orphan_num then write_orphan_inodes (cp_ino s) start_blk else Done []) ;;
  let start_blk := if nz orphan_num then start_blk + orphan_blocks else start_blk in
  ds <-- f2fs_write_data_summaries (cp_bps g) (ckpt s) l ;;
  let data := number_from start_blk ds in
  let start_blk := start_blk + data_sum_blocks in
  j <-- wr (lg_jnl l).[3] kbytes_ofs (le_put 8 (e_kbytes e)) ;;
  let l := l <| lg_jnl ::= fun js => js.[3 <- j] |> in
  if __remain_node_summaries reason then
    ns <-- f2fs_write_node_summaries l ;;
    Done (head ++ orphans ++ data ++ number_from start_blk ns, l, start_blk + NR_CURSEG_NODE_TYPE)
  else Done (head ++ orphans ++ data, l, start_blk).

(** do_checkpoint: the result, the state, the logs and the requests, in order *)
Definition do_checkpoint (e : cp_env) (l : logs) (reason : Z) (s : cp_state) : outcome (Z * cp_state * logs * list cp_io) :=
  r0 <-- sync_dirty_meta 2 (e_sync_err e) s [] ;;
  let '(err, s, io0) := r0 in
  if err then Done (- EIO, s, l, io0) else
  p <-- prepare_pack e l reason s ;;
  let '(s, data_sum_blocks, orphan_blocks, crc32) := p in
  let start_blk := __start_cp_next_addr g (cur_cp_pack s) in
  r1 <-- (if enabled_nat_bits (ckpt s) reason then
            bits <-- put_nat_bits s crc32 start_blk ;;
            sync_dirty_meta 2 (e_bits_err e) (update_meta_pages s bits) []
          else Done (false, s, [])) ;;
  let '(err, s, io1) := r1 in
  if err then Done (- EIO, s, l, io0 ++ io1) else
  q <-- pack_pages e l reason s start_blk data_sum_blocks orphan_blocks ;;
  let '(ps, l, last_blk) := q in
  let '(s, io2) := f2fs_sync_meta_pages (update_meta_pages s ps) in
  let ios := io0 ++ io1 ++ io2 ++ [IoWait] in
  if e_pack_err e then Done (- EIO, s, l, ios) else
  if nz (e_flush e) then Done (e_flush e, s, l, ios) else
  let ios := ios ++ commit_checkpoint (e_nobarrier e) (ckpt s) last_blk ++ [IoWait] in
  let s := s <| cp_ino ::= fun i => f2fs_release_ino_entry i false |> in
  if e_commit_err e then Done (- EIO, s, l, ios) else
  Done (0, s <| sbi_is_dirty := e_redirty e |> <| sbi_need_cp := false |> <| cur_cp_pack ::= __set_cp_next_pack |>, l, ios).

(** "update checkpoint pack index" of f2fs_write_checkpoint *)
Definition bump_version (s : cp_state) : cp_state :=
  s <| ckpt ::= fun c => cp_put c checkpoint_ver (u64 (cur_cp_version c + 1)) |>.
(** The conditions under which f2fs_write_checkpoint leaves before block_operations:
    nothing to do, or an error.  [discards] is sbi->discard_blks. *)
Definition cp_leaves (reason discards : Z) (readonly : bool) (s : cp_state) : option Z :=
  if negb (sbi_is_dirty s) && (nz (Z.land reason CP_FASTBOOT) || nz (Z.land reason CP_SYNC)
       || (nz (Z.land reason CP_DISCARD) && (discards =? 0))) then Some 0
  else if f2fs_cp_error (ckpt s) then Some (- EIO)
  else if readonly then Some (- EROFS)
  else None.
(** __prepare_cp_block: the counters *)
Definition __prepare_cp_block (valid_user_blocks valid_nodes valid_inodes last_nid : Z) (s : cp_state) : cp_state :=
  s <| ckpt ::= fun c => cp_put (cp_put (cp_put (cp_put c valid_block_count valid_user_blocks) valid_node_count valid_nodes)
                                  valid_inode_count valid_inodes) next_free_nid last_nid |>.
End do_checkpoint.
