(* ===== verification/CkptCrash.v ===== *)
(** * Checkpoint packs on a device that may lose power

    The device keeps a written block only from the next flush of its cache on; which
    of two packs a mount takes; why the last block of a pack decides. *)
From stdpp Require Import gmap.
From S2P Require Import Prelude Geometry Bytes MptFlush Curseg Orphan Super Ckpt Summaries DoCkpt.
Open Scope Z_scope.

Abbreviation disk := (Z -> list Z).

(** ** The device *)

Definition apply_io (d : disk) (io : cp_io) : disk :=
  match io with IoWrite a b => fun k => if k =? a then b else d k | _ => d end.
Definition settle (d : disk) (ios : list cp_io) : disk := fold_left apply_io ios d.

Lemma settle_app d l1 l2 : settle d (l1 ++ l2) = settle (settle d l1) l2.
Proof. apply fold_left_app. Qed.
Lemma settle_cases d ios a : settle d ios a = d a \/ IoWrite a (settle d ios a) ∈ ios.
Proof.
  induction ios as [|io ios IH] using rev_ind; [by left|]. rewrite settle_app. cbn. destruct io as [k b| |]; cbn.
  - destruct (Z.eqb_spec a k) as [->|]; [right; apply elem_of_app; right; in_list|].
    destruct IH as [?|?]; [by left|right; apply elem_of_app; by left].
  - destruct IH as [?|?]; [by left|right; apply elem_of_app; by left].
  - destruct IH as [?|?]; [by left|right; apply elem_of_app; by left].
Qed.
(** A block that is always written with the same contents *)
Lemma settle_written d ios a b : IoWrite a b ∈ ios -> (forall b', IoWrite a b' ∈ ios -> b' = b) -> settle d ios a = b.
Proof.
  induction ios as [|io ios IH] using rev_ind; [by intros ?%elem_of_nil|]. rewrite settle_app. intros Hin Hu. cbn.
  apply elem_of_app in Hin as [Hin|Hin%list_elem_of_singleton].
  - destruct io as [k c| |]; cbn.
    + destruct (Z.eqb_spec a k) as [->|]; [apply Hu, elem_of_app; right; in_list|]. apply IH; [done|]. intros b' Hb. apply Hu, elem_of_app. by left.
    + apply IH; [done|]. intros b' Hb. apply Hu, elem_of_app. by left.
    + apply IH; [done|]. intros b' Hb. apply Hu, elem_of_app. by left.
  - subst io. cbn. by rewrite Z.eqb_refl.
Qed.

Section crash.
Context `{CpFormatOk}.

(** The version of a block that get_checkpoint_version accepts *)
Definition blk_version (b : list Z) : option Z :=
  match get_checkpoint_version (fun _ => b) 0 with Done (inr v) => Some v | _ => None end.
Definition blk_ok (b : list Z) : Prop := zlen b = BLKSIZE /\ Forall (fun x => 0 <= x < 256) b.
(** A block that was being written when the power failed *)
Definition torn (b : list Z) : Prop := blk_ok b /\ blk_version b = None.

(** The device: what is durable, the completed writes in its cache, the writes it has
    not completed.  Only a flush makes a write durable for certain, and only if the write
    was completed before. *)
Record device := mk_device { durable : disk; cached : list cp_io; inflight : list cp_io }.
Definition dev_io (v : device) (io : cp_io) : device :=
  match io with
  | IoWrite _ _ => mk_device (durable v) (cached v) (inflight v ++ [io])
  | IoWait => mk_device (durable v) (cached v ++ inflight v) []
  | IoFlush => mk_device (settle (durable v) (cached v)) [] (inflight v)
  end.
Definition dev_run (v : device) (ios : list cp_io) : device := fold_left dev_io ios v.
(** What the disk can hold after a crash at some point of the requests [ios]: a block is as
    it was durable, or as one of the writes that were not, or torn by such a write. *)
Definition crash_image (d : disk) (ios : list cp_io) (d' : disk) : Prop :=
  exists before rest, ios = before ++ rest /\ let v := dev_run (mk_device d [] []) before in
    forall a, d' a = durable v a \/ exists b, IoWrite a b ∈ cached v ++ inflight v /\ (d' a = b \/ torn (d' a)).

(** Without a flush nothing becomes durable. *)
Lemma dev_run_app v l1 l2 : dev_run v (l1 ++ l2) = dev_run (dev_run v l1) l2.
Proof. apply fold_left_app. Qed.
Lemma dev_no_flush v l : (IoFlush ∉ l) -> durable (dev_run v l) = durable v /\
  (forall d, settle d (cached (dev_run v l) ++ inflight (dev_run v l)) = settle (settle d (cached v ++ inflight v)) l) /\
  forall x, x ∈ cached (dev_run v l) ++ inflight (dev_run v l) -> x ∈ cached v ++ inflight v \/ x ∈ l.
Proof.
  induction l as [|io l IH] using rev_ind; intros Hf; [split_and!; [done|done|by left]|].
  apply not_elem_of_app in Hf as [Hf Hio]. destruct (IH Hf) as (Ed & Es & Hin). rewrite dev_run_app.
  destruct io as [a b| |]; [| |destruct Hio; in_list]; cbn [dev_run fold_left dev_io durable cached inflight]; (split; [done|]); split.
  - intros d. by rewrite app_assoc, (settle_app d (_ ++ _)), Es, (settle_app _ l).
  - intros x. rewrite app_assoc. intros [Hx|Hx]%elem_of_app; [|right; apply elem_of_app; by right].
    destruct (Hin x Hx); [by left|right; apply elem_of_app; by left].
  - intros d. by rewrite app_nil_r, Es, (settle_app _ l).
  - intros x. rewrite app_nil_r. intros Hx. destruct (Hin x Hx); [by left|right; apply elem_of_app; by left].
Qed.

(** A crash that leaves the old contents, whole new blocks of [pre], and torn blocks of
    [pre] or in the place of the last block *)
Definition interrupted (d : disk) (pre : list cp_io) (last : Z) (d' : disk) : Prop :=
  forall a, d' a = d a \/ IoWrite a (d' a) ∈ pre \/ torn (d' a) /\ ((exists b, IoWrite a b ∈ pre) \/ a = last).

Lemma prefix_cases {A} (p q l1 l2 : list A) : p ++ q = l1 ++ l2 -> (exists k, l1 = p ++ k) \/ exists k, p = l1 ++ k /\ l2 = k ++ q.
Proof.
  intros E. destruct (app_eq_inv _ _ _ _ E) as [(k & -> & ->)|(k & -> & ->)]; [right; by exists k|left; by exists k].
Qed.
Lemma crash_writes d pre last d' : (IoFlush ∉ pre) -> crash_image d pre d' -> interrupted d pre last d'.
Proof.
  intros Hp (before & rest & -> & Hd) a. cbv zeta in Hd. apply not_elem_of_app in Hp as [Hp _]. destruct (dev_no_flush (mk_device d [] []) before Hp) as (Ed & _ & Hin).
  destruct (Hd a) as [->|(b & Hb & Hx)]; [left; by rewrite Ed|]. destruct (Hin _ Hb) as [Hn|Hb']; [by apply elem_of_nil in Hn|].
  assert (IoWrite a b ∈ before ++ rest) as Hab by (apply elem_of_app; by left).
  destruct Hx as [->|Ht]; [right; by left|]. right. right. split; [done|]. left. by exists b.
Qed.
(** The block behind the barrier is there only if everything before it is. *)
Lemma crash_commit d pre last b d' : (IoFlush ∉ pre) -> let ios := (pre ++ [IoWait]) ++ submit_meta_flush false (IoWrite last b) ++ [IoWait] in
  crash_image d ios d' -> interrupted d (pre ++ [IoWait]) last d' \/ forall a, d' a = settle d ios a.
Proof.
  intros Hp ios (before & rest & E & Hd). cbv zeta in Hd. assert (IoFlush ∉ pre ++ [IoWait]) as Hpw.
  { apply not_elem_of_app. split; [done|]. intros Hx%list_elem_of_singleton. done. }
  destruct (prefix_cases before rest (pre ++ [IoWait]) (submit_meta_flush false (IoWrite last b) ++ [IoWait]) (eq_sym E)) as [[q Eq]|(q & -> & Eq)].
  { left. rewrite Eq. apply (crash_writes d); [by rewrite <- Eq|]. by exists before, q. }
  clear E. rewrite dev_run_app in Hd. destruct (dev_no_flush (mk_device d [] []) pre Hp) as (Ed & Es & Hin). rewrite dev_run_app in Hd. cbn [dev_run fold_left dev_io] in Hd.
  fold (dev_run (mk_device d [] []) pre) in Hd. set (v := dev_run _ pre) in *. cbn [durable cached inflight] in Ed, Es, Hin.
  assert (settle d (cached v ++ inflight v) = settle d pre) as Es' by (rewrite Es; done).
  assert (forall a, settle d ios a = if a =? last then b else settle d pre a) as Eios.
  { intros a. unfold ios. rewrite !settle_app. done. }
  assert ((forall a, d' a = d a \/ exists b, IoWrite a b ∈ cached v ++ inflight v /\ (d' a = b \/ torn (d' a))) -> interrupted d (pre ++ [IoWait]) last d') as Hno.
  { intros Hx a. destruct (Hx a) as [?|(c & Hc & Hc')]; [by left|]. destruct (Hin _ Hc) as [Hn|Hc2]; [by apply elem_of_nil in Hn|].
    assert (IoWrite a c ∈ pre ++ [IoWait]) by (apply elem_of_app; by left). destruct Hc' as [->|Ht]; [right; by left|]. right. right. split; [done|]. left. by exists c. }
  assert ((forall a, d' a = settle d pre a \/ a = last /\ (d' a = b \/ torn (d' a))) -> interrupted d (pre ++ [IoWait]) last d' \/ forall a, d' a = settle d ios a) as Hlast.
  { intros Hx. assert (forall a, settle d pre a = d a \/ IoWrite a (settle d pre a) ∈ pre ++ [IoWait]) as Hs.
    { intros a. destruct (settle_cases d pre a) as [?|?]; [by left|right; apply elem_of_app; by left]. }
    destruct (Hx last) as [El|[_ [El|El]]].
    - left. intros a. destruct (Hx a) as [->|[-> _]]; [|rewrite El]; (destruct (Hs a) as [?|?] || destruct (Hs last) as [?|?]); (by left) || (right; by left).
    - right. intros a. rewrite Eios. destruct (Z.eqb_spec a last) as [->|Hn]; [done|]. by destruct (Hx a) as [?|[? _]].
    - left. intros a. destruct (Hx a) as [->|[-> _]]; [destruct (Hs a) as [->|?]; [by left|right; by left]|]. right. right. split; [done|by right]. }
  assert ((forall a, d' a = settle d ios a) -> interrupted d (pre ++ [IoWait]) last d' \/ forall a, d' a = settle d ios a) as Hall by (intros ?; by right).
  cbn in Eq. repeat (destruct q as [|? q]; cbn in Eq; [|injection Eq as <- Eq]); try (apply eq_sym, app_eq_nil in Eq as [-> _]);
    cbn [dev_run fold_left dev_io durable cached inflight app] in Hd; rewrite ?app_nil_r, ?Ed, ?Es' in Hd.
  - left. by apply Hno.
  - apply Hlast. intros a. destruct (Hd a) as [?|(w & Hw & _)]; [by left|by apply elem_of_nil in Hw].
  - apply Hlast. intros a. destruct (Hd a) as [?|(w & Hw & Hx)]; [by left|right]. apply list_elem_of_singleton in Hw as [= -> ->]. by split.
  - apply Hlast. intros a. destruct (Hd a) as [?|(w & Hw & Hx)]; [by left|right]. apply list_elem_of_singleton in Hw as [= -> ->]. by split.
  - apply Hall. intros a. rewrite Eios. destruct (Hd a) as [->|(w & Hw & _)]; [done|by apply elem_of_nil in Hw].
  - apply Hall. intros a. rewrite Eios. destruct (Hd a) as [->|(w & Hw & _)]; [done|by apply elem_of_nil in Hw].
Qed.
(** ** The pack a mount takes *)

Record vol_ok (g : cp_geo) : Prop := {
  vo_log : 0 <= log_blocks_per_seg (cg_sbi g) <= 16;
  vo_bps : cp_bps g = 2 ^ log_blocks_per_seg (cg_sbi g);
  vo_cp : 0 <= cp_blkaddr g;
  vo_top : cp_blkaddr g + 2 * cp_bps g <= 4294967296;
  vo_payload : 0 <= __cp_payload g;
}.
Definition pack_start (g : cp_geo) (pack : Z) : Z := cp_blkaddr g + (if pack =? 2 then cp_bps g else 0).
Definition pack_total (b : list Z) : Z := cp_get b cp_pack_total_block_count.
(** The version of a valid pack *)
Definition pack_version (d : disk) (start : Z) : option Z :=
  match blk_version (d start), blk_version (d (u32 (start + u32 (pack_total (d start) - 1)))) with
  | Some v, Some w => if w =? v then Some v else None
  | _, _ => None
  end.

Lemma get_version_eq (d : disk) a : blk_ok (d a) ->
  get_checkpoint_version d a = Done match blk_version (d a) with Some v => inr v | None => inl (- EINVAL) end.
Proof.
  intros [Hz Hb]. unfold blk_version. change (get_checkpoint_version (fun _ => d a) 0) with (get_checkpoint_version d a).
  unfold get_checkpoint_version. destruct (Z.ltb_spec (BLKSIZE - 4) (cp_get (d a) checksum_offset)); [done|].
  pose proof (cp_get_range (d a) checksum_offset Hb I ltac:(lia)). unfold cur_cp_crc, rd32. rewrite rd_ok by lia. cbn [obind]. by destruct (negb _).
Qed.
Lemma validate_eq (d : disk) a : (forall k, blk_ok (d k)) -> validate_checkpoint d a = Done ((fun v => (d a, v)) <$> pack_version d a).
Proof.
  intros Hd. unfold validate_checkpoint, pack_version. rewrite get_version_eq by done. cbn [obind].
  destruct (blk_version (d a)) as [v|]; [|done]. rewrite get_version_eq by done. cbn [obind].
  unfold pack_total. destruct (blk_version _) as [w|]; [|done]. destruct (Z.eqb_spec w v) as [->|]; done.
Qed.

Lemma start_addr g pack : vol_ok g -> pack = 1 \/ pack = 2 ->
  __start_cp_addr g pack = pack_start g pack /\ __start_cp_next_addr g pack = pack_start g (__set_cp_next_pack pack).
Proof.
  intros [L B C T P] Hp. pose proof (Z.pow_pos_nonneg 2 (log_blocks_per_seg (cg_sbi g)) ltac:(lia) ltac:(lia)).
  unfold __start_cp_addr, __start_cp_next_addr, pack_start, __set_cp_next_pack. destruct Hp as [-> | ->]; cbn; rewrite !u32_id by lia; done.
Qed.
Lemma ver_after_spec a b : 0 <= a < 2 ^ 63 -> 0 <= b < 2 ^ 63 -> ver_after a b = (b <? a).
Proof.
  intros. unfold ver_after, s64, u64. change (2 ^ 64) with 18446744073709551616. change (2 ^ 63) with 9223372036854775808 in *.
  rewrite Z.mod_mod by lia. destruct (Z.ltb_spec b a).
  - rewrite Z.mod_small by lia. destruct (Z.ltb_spec (a - b) 9223372036854775808); lia.
  - destruct (decide (a = b)) as [->|]; [by rewrite Z.sub_diag|].
    replace (a - b) with (a - b + 18446744073709551616 + -1 * 18446744073709551616) by lia. rewrite Z.mod_add by lia.
    rewrite Z.mod_small by lia. destruct (Z.ltb_spec (a - b + 18446744073709551616) 9223372036854775808); lia.
Qed.
Lemma version_nonneg b v : blk_ok b -> blk_version b = Some v -> 0 <= v.
Proof.
  intros [Hz Hb]. unfold blk_version, get_checkpoint_version. destruct (_ <? _); [done|]. destruct (cur_cp_crc b); cbn [obind]; try done.
  destruct (negb _); [done|]. intros [= <-]. unfold cur_cp_version. pose proof (cp_get_range b checkpoint_ver Hb I ltac:(lia)). lia.
Qed.
(** A valid pack that is newer than the other one is taken. *)
Lemma newer_pack g d pack v : vol_ok g -> (forall k, blk_ok (d k)) -> pack = 1 \/ pack = 2 ->
  pack_version d (pack_start g pack) = Some v -> v < 2 ^ 63 ->
  (forall w, pack_version d (pack_start g (__set_cp_next_pack pack)) = Some w -> w < v) ->
  find_pack g d = Done (Some (d (pack_start g pack), pack)).
Proof.
  intros V Hd Hp Hv Hb Hw. pose proof V as [L B C T P]. pose proof (Z.pow_pos_nonneg 2 (log_blocks_per_seg (cg_sbi g)) ltac:(lia) ltac:(lia)).
  assert (forall a w, pack_version d a = Some w -> 0 <= w) as Hn.
  { intros a w. unfold pack_version. destruct (blk_version (d a)) as [x|] eqn:E; [|done]. destruct (blk_version (d (u32 _))) as [y|]; [|done].
    destruct (y =? x); [|done]. intros [= <-]. by apply (version_nonneg (d a)). }
  pose proof (Hn _ _ Hv). unfold find_pack. rewrite Z.shiftl_mul_pow2, Z.mul_1_l, <- B by lia. rewrite (u64_id (_ + _)), !u32_id by lia.
  rewrite !validate_eq by done. cbn [obind]. unfold pack_start, __set_cp_next_pack in *. destruct Hp as [-> | ->]; cbn in Hv, Hw |- *; rewrite ?Z.add_0_r in *; rewrite Hv.
  - destruct (pack_version d (cp_blkaddr g + cp_bps g)) as [w|] eqn:Ew; cbn; [|done]. pose proof (Hn _ _ Ew). specialize (Hw w eq_refl).
    rewrite ver_after_spec by lia. by replace (v <? w) with false by lia.
  - destruct (pack_version d (cp_blkaddr g)) as [w|] eqn:Ew; cbn; [|done]. pose proof (Hn _ _ Ew). specialize (Hw w eq_refl).
    rewrite ver_after_spec by lia. by replace (w <? v) with true by lia.
Qed.
(** Two disks with the same newest pack mount alike. *)
Lemma mount_same g d d' pack : vol_ok g -> pack = 1 \/ pack = 2 -> __cp_payload g < cp_bps g -> find_pack g d = Done (Some (d (pack_start g pack), pack)) ->
  find_pack g d' = Done (Some (d' (pack_start g pack), pack)) -> (forall k, 0 <= k < cp_bps g -> d' (pack_start g pack + k) = d (pack_start g pack + k)) ->
  f2fs_get_valid_checkpoint g d' = f2fs_get_valid_checkpoint g d.
Proof.
  intros [L B C T P] Hp Hc E E' Hk. unfold f2fs_get_valid_checkpoint. rewrite E, E'. cbn [obind].
  pose proof (Hk 0 ltac:(lia)) as H00. rewrite !Z.add_0_r in H00. rewrite H00. destruct (f2fs_sanity_check_ckpt _ _ _); [done|]. do 4 f_equal.
  rewrite Z.shiftl_mul_pow2, Z.mul_1_l, <- B by lia. change (cp_blkaddr g + (if pack =? 2 then cp_bps g else 0)) with (pack_start g pack).
  assert (0 <= pack_start g pack <= cp_blkaddr g + cp_bps g) by (unfold pack_start; destruct (pack =? 2); lia).
  f_equal. apply map_ext_in. intros i Hi%list_elem_of_In%elem_of_seqZ. rewrite u32_id by (rewrite u32_id; lia). rewrite u32_id by lia. apply Hk. lia.
Qed.

(** ** Old and new pack *)

(** The disk between two checkpoints: the pack [pack] is valid and has version [v]; the
    first block of the other one, if it passes the check, is older, and no other block of
    a pack that passes the check is newer. *)
Record disk_ok (g : cp_geo) (d : disk) (pack v : Z) : Prop := {
  do_pack : pack = 1 \/ pack = 2;
  do_blocks a : blk_ok (d a);
  do_head : blk_version (d (pack_start g pack)) = Some v;
  do_total : 2 <= pack_total (d (pack_start g pack)) <= cp_bps g;
  do_tail : blk_version (d (pack_start g pack + pack_total (d (pack_start g pack)) - 1)) = Some v;
  do_old w : blk_version (d (pack_start g (__set_cp_next_pack pack))) = Some w -> w < v;
  do_inside p k w : p = 1 \/ p = 2 -> 0 <= k < cp_bps g -> blk_version (d (pack_start g p + k)) = Some w -> w <= v;
}.
(** A block outside both packs *)
Definition outside (g : cp_geo) (a : Z) : Prop := a < cp_blkaddr g \/ cp_blkaddr g + 2 * cp_bps g <= a.
(** Requests [pre] that write the checkpoint [c] of version [v] into [pack], all but its
    last block *)
Record pack_writes (g : cp_geo) (pack v : Z) (c : list Z) (pre : list cp_io) (last : Z) : Prop := {
  pw_flush : IoFlush ∉ pre;
  pw_size : zlen c = (1 + __cp_payload g) * BLKSIZE;
  pw_version : blk_version (ckpt_block c 0) = Some v;
  pw_total : 2 + __cp_payload g <= pack_total (ckpt_block c 0) <= cp_bps g;
  pw_last : last = pack_start g pack + pack_total (ckpt_block c 0) - 1;
  pw_where a b : IoWrite a b ∈ pre -> outside g a \/
    pack_start g pack <= a < pack_start g pack + cp_bps g /\ a <> last /\ (a < pack_start g pack + 1 + __cp_payload g -> b = ckpt_block c (a - pack_start g pack));
}.
(** What is written are blocks, and none of them but the checkpoint block passes, within
    a pack, the check of a checkpoint block. *)
Definition plain_writes (g : cp_geo) (c : list Z) (ios : list cp_io) : Prop :=
  forall a b, IoWrite a b ∈ ios -> blk_ok b /\ (outside g a \/ blk_version b = None \/ b = ckpt_block c 0).
(** What f2fs_get_valid_checkpoint makes of the checkpoint [c] *)
Definition mount_of (g : cp_geo) (c : list Z) (pack : Z) : outcome (Z + list Z * Z) :=
  if f2fs_sanity_check_ckpt (cg_raw g) (cp_bps g) (cp_fields_of (ckpt_block c 0)) then Done (inl (- EINVAL)) else Done (inr (c, pack)).

Lemma next_pack pack : pack = 1 \/ pack = 2 -> (__set_cp_next_pack pack = 1 \/ __set_cp_next_pack pack = 2) /\ __set_cp_next_pack (__set_cp_next_pack pack) = pack.
Proof. unfold __set_cp_next_pack. intros [-> | ->]; cbn; auto. Qed.
(** The two packs do not overlap. *)
Lemma packs_apart g pack k a : vol_ok g -> pack = 1 \/ pack = 2 -> 0 <= k < cp_bps g ->
  pack_start g (__set_cp_next_pack pack) <= a < pack_start g (__set_cp_next_pack pack) + cp_bps g -> pack_start g pack + k <> a.
Proof. intros V Hp Hk. destruct V. unfold pack_start, __set_cp_next_pack. destruct Hp as [-> | ->]; cbn [Z.eqb Pos.eqb]; lia. Qed.
Lemma pack_inside g pack k : vol_ok g -> pack = 1 \/ pack = 2 -> 0 <= k < cp_bps g -> ~ outside g (pack_start g pack + k) /\ 0 <= pack_start g pack /\ pack_start g pack + k < 4294967296.
Proof. intros [L B C T P] Hp Hk. unfold outside, pack_start. destruct Hp as [-> | ->]; cbn [Z.eqb Pos.eqb]; lia. Qed.
Lemma pack_version_eq g pack d : vol_ok g -> pack = 1 \/ pack = 2 -> 1 <= pack_total (d (pack_start g pack)) <= cp_bps g ->
  pack_version d (pack_start g pack) = match blk_version (d (pack_start g pack)), blk_version (d (pack_start g pack + pack_total (d (pack_start g pack)) - 1)) with
    Some v, Some w => if w =? v then Some v else None | _, _ => None end.
Proof.
  intros V Hp Ht. pose proof (pack_inside g pack (pack_total (d (pack_start g pack)) - 1) V Hp ltac:(lia)) as (_ & ? & ?). pose proof (vo_top _ V). pose proof (vo_cp _ V).
  unfold pack_version. rewrite (u32_id (_ - 1)) by lia. rewrite u32_id by lia. by replace (pack_start g pack + (pack_total (d (pack_start g pack)) - 1)) with (pack_start g pack + pack_total (d (pack_start g pack)) - 1) by lia.
Qed.

(** A disk that mounts from the pack [pack] of version [v] *)
Lemma current_found g d pack v : vol_ok g -> disk_ok g d pack v -> v < 2 ^ 63 -> find_pack g d = Done (Some (d (pack_start g pack), pack)).
Proof.
  intros V D Hv. apply (newer_pack g d pack v); try done; [apply D|apply D| |].
  - rewrite pack_version_eq by (first [done|apply (do_pack _ _ _ _ D)|pose proof (do_total _ _ _ _ D); lia]). rewrite (do_head _ _ _ _ D), (do_tail _ _ _ _ D). by rewrite Z.eqb_refl.
  - intros w Hw. apply (do_old _ _ _ _ D). revert Hw. unfold pack_version. destruct (blk_version (d (pack_start g (__set_cp_next_pack pack)))); [|done].
    destruct (blk_version _); [|done]. destruct (_ =? _); [congruence|done].
Qed.

Section interruption.
Context (g : cp_geo) (d : disk) (pack v : Z) (c : list Z) (pre : list cp_io) (last : Z).
Context (V : vol_ok g) (D : disk_ok g d pack v) (Hv : v + 1 < 2 ^ 63).
#[local] Abbreviation NEXT := (pack_start g (__set_cp_next_pack pack)).
Context (W : pack_writes g (__set_cp_next_pack pack) (v + 1) c pre last) (Hpl : plain_writes g c pre).

Lemma pack_kept k b : 0 <= k < cp_bps g -> IoWrite (pack_start g pack + k) b ∉ pre.
Proof.
  intros Hk Hin. destruct (pw_where _ _ _ _ _ _ W _ _ Hin) as [Ho|(Ha & _)].
  - by destruct (pack_inside g pack k V (do_pack _ _ _ _ D) Hk) as [? _].
  - exact (packs_apart g pack k _ V (do_pack _ _ _ _ D) Hk Ha eq_refl).
Qed.
Lemma last_in_next : NEXT <= last < NEXT + cp_bps g.
Proof. pose proof (pw_last _ _ _ _ _ _ W). pose proof (pw_total _ _ _ _ _ _ W). pose proof (vo_payload _ V). lia. Qed.
Lemma interrupted_keeps d' k : interrupted d pre last d' -> 0 <= k < cp_bps g -> d' (pack_start g pack + k) = d (pack_start g pack + k).
Proof.
  intros Hi Hk. destruct (Hi (pack_start g pack + k)) as [?|[Hin|(_ & [[b Hin]|Hl])]]; [done| | |].
  - by apply pack_kept in Hin.
  - by apply pack_kept in Hin.
  - exfalso. exact (packs_apart g pack k last V (do_pack _ _ _ _ D) Hk last_in_next Hl).
Qed.
Lemma interrupted_ok d' a : interrupted d pre last d' -> blk_ok (d' a).
Proof.
  intros Hi. destruct (Hi a) as [->|[Hin|[[Ht _] _]]]; [apply D| |done]. by destruct (Hpl _ _ Hin).
Qed.
Lemma size_pos : BLKSIZE <= zlen c.
Proof. rewrite (pw_size _ _ _ _ _ _ W). pose proof (vo_payload _ V). change BLKSIZE with 4096. nia. Qed.

(** Before the last block is written the old checkpoint is mounted. *)
Lemma interrupted_old d' : interrupted d pre last d' ->
  f2fs_get_valid_checkpoint g d' = f2fs_get_valid_checkpoint g d /\ forall k, 0 <= k < cp_bps g -> d' (pack_start g pack + k) = d (pack_start g pack + k).
Proof.
  intros Hi. pose proof (fun k => interrupted_keeps d' k Hi) as Hk. split; [|done].
  pose proof (do_total _ _ _ _ D) as Ht. pose proof (Hk 0 ltac:(lia)) as Hh. rewrite !Z.add_0_r in Hh. pose proof (pw_total _ _ _ _ _ _ W) as Hnt. pose proof (vo_payload _ V).
  apply (mount_same g d d' pack); try done; [apply D|lia|apply (current_found g d pack v); [done|done|lia]|].
  apply (newer_pack g d' pack v); try done; [intros k; by apply interrupted_ok|apply D| |lia|].
  - rewrite pack_version_eq by (first [done|apply (do_pack _ _ _ _ D)|rewrite Hh; lia]). rewrite Hh, (do_head _ _ _ _ D).
    replace (pack_start g pack + pack_total (d (pack_start g pack)) - 1) with (pack_start g pack + (pack_total (d (pack_start g pack)) - 1)) by lia.
    rewrite Hk by lia. replace (pack_start g pack + (pack_total (d (pack_start g pack)) - 1)) with (pack_start g pack + pack_total (d (pack_start g pack)) - 1) by lia.
    rewrite (do_tail _ _ _ _ D). by rewrite Z.eqb_refl.
  - destruct (next_pack pack (do_pack _ _ _ _ D)) as [Hn _]. intros w. pose proof last_in_next as Hl. destruct (Hi NEXT) as [E|[Hin|[[_ Ht1] _]]].
    + intros Hw. apply (do_old _ _ _ _ D). rewrite <- E. revert Hw. unfold pack_version. destruct (blk_version (d' NEXT)); [|done].
      destruct (blk_version _); [|done]. destruct (_ =? _); [congruence|done].
    + destruct (pw_where _ _ _ _ _ _ W _ _ Hin) as [Ho|(_ & _ & Hb)].
      { exfalso. destruct (pack_inside g _ 0 V Hn ltac:(lia)) as [Hx _]. rewrite Z.add_0_r in Hx. done. }
      rewrite Z.sub_diag in Hb. specialize (Hb ltac:(lia)). rewrite pack_version_eq by (first [done|rewrite Hb; lia]). rewrite Hb, <- (pw_last _ _ _ _ _ _ W), (pw_version _ _ _ _ _ _ W).
      assert (blk_version (d' last) <> Some (v + 1)) as Hne.
      { destruct (Hi last) as [->|[Hin2|[[_ ->] _]]]; [|destruct (pw_where _ _ _ _ _ _ W _ _ Hin2) as [Ho|(_ & ? & _)]|done].
        - intros Hw. pose proof (do_inside _ _ _ _ D (__set_cp_next_pack pack) (last - NEXT) (v + 1) Hn ltac:(lia)) as Hx.
          replace (NEXT + (last - NEXT)) with last in Hx by lia. specialize (Hx Hw). lia.
        - exfalso. destruct (pack_inside g _ (last - NEXT) V Hn ltac:(lia)) as [Hx _]. replace (NEXT + (last - NEXT)) with last in Hx by lia. done.
        - done. }
      destruct (blk_version (d' last)) as [x|]; [|done]. destruct (Z.eqb_spec x (v + 1)); [congruence|done].
    + unfold pack_version. by rewrite Ht1.
Qed.

(** ** The whole pack *)

Context (Hhead : forall i, 0 <= i < 1 + __cp_payload g -> IoWrite (NEXT + i) (ckpt_block c i) ∈ pre).
Context (nobarrier : bool).
Definition all_writes : list cp_io := pre ++ commit_checkpoint nobarrier c last ++ [IoWait].

Lemma block_0 : take (Z.to_nat BLKSIZE) c = ckpt_block c 0.
Proof. unfold ckpt_block, slice. rewrite Z.mul_0_l. change (Z.to_nat 0) with O. by rewrite drop_0. Qed.
Lemma all_writes_in a b : IoWrite a b ∈ all_writes -> IoWrite a b ∈ pre \/ a = last /\ b = ckpt_block c 0.
Proof.
  unfold all_writes, commit_checkpoint, submit_meta_flush. rewrite block_0. intros [?|Hin]%elem_of_app; [by left|right].
  destruct nobarrier; cbn [app] in Hin; rewrite !elem_of_cons in Hin; destruct_or! Hin; by simplify_eq || by apply elem_of_nil in Hin.
Qed.
Lemma last_not_pre b : IoWrite last b ∉ pre.
Proof.
  intros Hin. destruct (next_pack pack (do_pack _ _ _ _ D)) as [Hn _]. pose proof last_in_next.
  destruct (pw_where _ _ _ _ _ _ W _ _ Hin) as [Ho|(_ & ? & _)]; [|done].
  destruct (pack_inside g _ (last - NEXT) V Hn ltac:(lia)) as [Hx _]. replace (NEXT + (last - NEXT)) with last in Hx by lia. done.
Qed.

Context (d1 : disk) (Hd1 : forall a, d1 a = settle d all_writes a).

Lemma complete_last : d1 last = ckpt_block c 0.
Proof.
  rewrite Hd1. apply settle_written; [unfold all_writes, commit_checkpoint, submit_meta_flush; rewrite block_0; apply elem_of_app; right; destruct nobarrier; cbn [app]; rewrite !elem_of_cons; tauto|].
  intros b [Hin|[_ ->]]%all_writes_in; [by apply last_not_pre in Hin|done].
Qed.
Lemma complete_head i : 0 <= i < 1 + __cp_payload g -> d1 (NEXT + i) = ckpt_block c i.
Proof.
  intros Hi. rewrite Hd1. apply settle_written; [apply elem_of_app; left; by apply Hhead|]. destruct (next_pack pack (do_pack _ _ _ _ D)) as [Hn _].
  pose proof (pw_total _ _ _ _ _ _ W). pose proof (pw_last _ _ _ _ _ _ W).
  intros b [Hin|[El _]]%all_writes_in; [|lia]. destruct (pw_where _ _ _ _ _ _ W _ _ Hin) as [Ho|(_ & _ & ->)]; [|f_equal; lia|lia].
  destruct (pack_inside g _ i V Hn ltac:(lia)) as [Hx _]. done.
Qed.
Lemma complete_kept k : 0 <= k < cp_bps g -> d1 (pack_start g pack + k) = d (pack_start g pack + k).
Proof.
  intros Hk. rewrite Hd1. destruct (settle_cases d all_writes (pack_start g pack + k)) as [->|[Hin|[El _]]%all_writes_in]; [done| |].
  - by apply pack_kept in Hin.
  - exfalso. exact (packs_apart g pack k last V (do_pack _ _ _ _ D) Hk last_in_next El).
Qed.
Lemma complete_block a : blk_ok (d1 a) /\ (outside g a \/ d1 a = d a \/ blk_version (d1 a) = None \/ blk_version (d1 a) = Some (v + 1)).
Proof.
  pose proof (pw_version _ _ _ _ _ _ W) as Hver. assert (blk_ok (ckpt_block c 0)) as Hb0.
  { pose proof (vo_payload _ V). pose proof (Hhead 0 ltac:(lia)) as Hin. by destruct (Hpl _ _ Hin). }
  rewrite Hd1. destruct (settle_cases d all_writes a) as [E|[Hin|[_ E]]%all_writes_in].
  - rewrite E. split; [apply D|right; by left].
  - destruct (Hpl _ _ Hin) as [? [?|[?|E]]]; (split; [done|]); [by left|do 2 right; by left|do 3 right; by rewrite E].
  - rewrite E. split; [done|]. by do 3 right.
Qed.
Lemma complete_disk_ok : disk_ok g d1 (__set_cp_next_pack pack) (v + 1).
Proof.
  destruct (next_pack pack (do_pack _ _ _ _ D)) as [Hn Hnn]. pose proof (vo_payload _ V). pose proof (complete_head 0 ltac:(lia)) as Hh. rewrite Z.add_0_r in Hh.
  pose proof (pw_total _ _ _ _ _ _ W). split.
  - done.
  - intros a. apply complete_block.
  - rewrite Hh. apply W.
  - rewrite Hh. lia.
  - rewrite Hh, <- (pw_last _ _ _ _ _ _ W), complete_last. apply W.
  - rewrite Hnn. intros w. pose proof (do_total _ _ _ _ D). pose proof (complete_kept 0 ltac:(lia)) as Hk. rewrite Z.add_0_r in Hk. rewrite Hk, (do_head _ _ _ _ D).
    intros [= <-]. lia.
  - intros p k w Hp Hk Hw. destruct (complete_block (pack_start g p + k)) as [_ [E|[E|[E|E]]]].
    + by destruct (pack_inside g p k V Hp Hk) as [Hx _].
    + rewrite E in Hw. pose proof (do_inside _ _ _ _ D p k w Hp Hk Hw). lia.
    + congruence.
    + rewrite E in Hw. injection Hw as <-. lia.
Qed.
End interruption.

(** The blocks of a checkpoint are the checkpoint. *)
Lemma ckpt_join c n i : 0 <= i -> zlen c = (i + Z.of_nat n) * BLKSIZE ->
  concat (map (ckpt_block c) (seqZ i (Z.of_nat n))) = drop (Z.to_nat (i * BLKSIZE)) c.
Proof.
  revert i. induction n as [|n IH]; intros i Hi Hz.
  - cbn. symmetry. apply drop_ge. unfold zlen in Hz. lia.
  - rewrite Nat2Z.inj_succ, seqZ_cons by lia. cbn [map concat]. rewrite Z.pred_succ. rewrite <- Z.add_1_r at 1. rewrite IH by lia.
    unfold ckpt_block, slice. replace (Z.to_nat ((i + 1) * BLKSIZE)) with (Z.to_nat (i * BLKSIZE) + Z.to_nat BLKSIZE)%nat by (change BLKSIZE with 4096; lia).
    rewrite <- drop_drop. apply take_drop.
Qed.
Lemma mounts_as g c d pack : vol_ok g -> pack = 1 \/ pack = 2 -> 1 + __cp_payload g <= cp_bps g -> zlen c = (1 + __cp_payload g) * BLKSIZE ->
  (forall i, 0 <= i < 1 + __cp_payload g -> d (pack_start g pack + i) = ckpt_block c i) ->
  find_pack g d = Done (Some (d (pack_start g pack), pack)) -> f2fs_get_valid_checkpoint g d = mount_of g c pack.
Proof.
  intros V Hp Hb Hz Hd E. pose proof V as [L B C T P]. unfold f2fs_get_valid_checkpoint, mount_of. rewrite E. cbn [obind].
  pose proof (Hd 0 ltac:(lia)) as H00. rewrite Z.add_0_r in H00. rewrite H00. destruct (f2fs_sanity_check_ckpt _ _ _); [done|]. do 3 f_equal.
  rewrite Z.shiftl_mul_pow2, Z.mul_1_l, <- B by lia. change (cp_blkaddr g + (if pack =? 2 then cp_bps g else 0)) with (pack_start g pack).
  assert (0 <= pack_start g pack <= cp_blkaddr g + cp_bps g) by (unfold pack_start; destruct (pack =? 2); lia).
  transitivity (concat (map (ckpt_block c) (seqZ 0 (1 + __cp_payload g)))).
  - rewrite (seqZ_cons 0) by lia. cbn [map concat]. replace (Z.succ 0) with 1 by lia. replace (Z.pred (1 + __cp_payload g)) with (__cp_payload g) by lia. do 2 f_equal.
    apply map_ext_in. intros i Hi%list_elem_of_In%elem_of_seqZ. rewrite u32_id by (rewrite u32_id; lia). rewrite u32_id by lia. apply Hd. lia.
  - replace (1 + __cp_payload g) with (Z.of_nat (Z.to_nat (1 + __cp_payload g))) by lia. rewrite ckpt_join by lia. rewrite Z.mul_0_l. apply drop_0.
Qed.
End crash.
