(* ===== verification/CkptProps.v ===== *)
(** * Checkpoints survive a crash

    What [do_checkpoint] writes is a pack in the sense of CkptCrash: which fields each
    step changes, that the sealed block passes its check, and where the blocks go. *)
From stdpp Require Import gmap.
From S2P Require Import Prelude Geometry Sit Victim Curseg Bytes Mpt MptFlush Orphan OrphanProps Super Ckpt Summaries SummaryProps DoCkpt CkptCrash.
Open Scope Z_scope.

(** ** Changes of the checkpoint block *)

Section touches.
Context `{CpFormatOk}.
Implicit Types (P Q : cp_field -> Prop) (c : list Z).

(** The step changes only fields in [P]. *)
Definition touches P c c' : Prop :=
  zlen c' = zlen c /\ forall f, is_field f -> ~ P f -> cp_get c' f = cp_get c f.

Lemma touches_refl P c : touches P c c.
Proof. by split. Qed.
Lemma touches_trans P c1 c2 c3 : touches P c1 c2 -> touches P c2 c3 -> touches P c1 c3.
Proof. intros [Z1 H1] [Z2 H2]. split; [congruence|]. intros f Hf Hn. by rewrite H2, H1. Qed.
Lemma touches_weaken P Q c c' : touches P c c' -> (forall f, P f -> Q f) -> touches Q c c'.
Proof. intros [Z1 H1] HPQ. split; [done|]. intros f Hf Hn. apply H1; auto. Qed.
Lemma touches_put P c f x : BLKSIZE <= zlen c -> is_field f -> P f -> touches P c (cp_put c f x).
Proof.
  intros Hc Hf HP. split; [by apply zlen_cp_put|]. intros f' Hf' Hn. apply cp_get_put_ne; try done. by intros ->.
Qed.
(** A store behind the fields *)
Lemma touches_wr P c o src c' : sit_nat_version_bitmap <= o -> wr c o src = Done c' -> touches P c c'.
Proof.
  intros Ho E. pose proof (zlen_wr _ _ _ _ E) as Hz. apply wr_inv in E as (H1 & H2 & ->). split; [done|].
  intros f Hf _. pose proof (cp_off_range f Hf). unfold cp_get. f_equal. apply slice_blit_ne; lia.
Qed.
Lemma touches_fold {A} P (step : list Z -> A -> list Z) (l : list A) c :
  BLKSIZE <= zlen c -> (forall c a, a ∈ l -> BLKSIZE <= zlen c -> touches P c (step c a)) -> touches P c (fold_left step l c).
Proof.
  revert c. induction l as [|a l IH]; intros c Hc Hs; [apply touches_refl|]. cbn.
  pose proof (Hs c a ltac:(in_list) Hc) as T. apply (touches_trans _ _ (step c a)); [done|]. apply IH; [by rewrite (proj1 T)|].
  intros c' a' Ha. apply Hs, elem_of_cons. by right.
Qed.

Definition is_flags (f : cp_field) : Prop := f = ckpt_flags.
Lemma touches_flag c (f : Z) b : BLKSIZE <= zlen c -> touches is_flags c (set_flag_to c f b).
Proof. intros Hc. unfold set_flag_to. destruct b; by apply touches_put. Qed.

(** The fields that only say where the logs are *)
Definition is_log_field (f : cp_field) : Prop :=
  match f with cur_node_segno _ | cur_node_blkoff _ | cur_data_segno _ | cur_data_blkoff _ | ck_alloc_type _ => True | _ => False end.
Lemma touches_node_log l c i : BLKSIZE <= zlen c -> 0 <= i < 3 -> touches is_log_field c (put_node_log l c i).
Proof.
  intros Hc Hi. unfold put_node_log. apply (touches_trans _ _ (cp_put (cp_put c (cur_node_segno i) (segno (CURSEG_I (lg_alloc l) (i + 3)))) (cur_node_blkoff i) (next_blkoff (CURSEG_I (lg_alloc l) (i + 3))))).
  - eapply touches_trans; apply touches_put; rewrite ?zlen_cp_put; cbn; try done; lia.
  - apply touches_put; rewrite ?zlen_cp_put; cbn; rewrite ?zlen_cp_put; cbn; try done; lia.
Qed.
Lemma touches_data_log l c i : BLKSIZE <= zlen c -> 0 <= i < 3 -> touches is_log_field c (put_data_log l c i).
Proof.
  intros Hc Hi. unfold put_data_log. apply (touches_trans _ _ (cp_put (cp_put c (cur_data_segno i) (segno (CURSEG_I (lg_alloc l) i))) (cur_data_blkoff i) (next_blkoff (CURSEG_I (lg_alloc l) i)))).
  - eapply touches_trans; apply touches_put; rewrite ?zlen_cp_put; cbn; try done; lia.
  - apply touches_put; rewrite ?zlen_cp_put; cbn; rewrite ?zlen_cp_put; cbn; try done; lia.
Qed.
Lemma touches_logs l c : BLKSIZE <= zlen c -> touches is_log_field c (put_logs l c).
Proof.
  intros Hc. unfold put_logs. assert (forall i, i ∈ [0; 1; 2] -> 0 <= i < 3) as Hi.
  { intros i Hin. repeat (apply elem_of_cons in Hin as [->|Hin]; [lia|]). by apply elem_of_nil in Hin. }
  assert (touches is_log_field c (fold_left (put_node_log l) [0; 1; 2] c)) as T.
  { apply touches_fold; [done|]. intros c' i Hin Hc'. by apply touches_node_log, Hi. }
  eapply touches_trans; [exact T|]. apply touches_fold; [by rewrite (proj1 T)|]. intros c' i Hin Hc'. by apply touches_data_log, Hi.
Qed.
End touches.

(** ** Flags *)

Section flags.
Context `{CpFormatOk}.

Lemma flags_ne i j (x y : Z) : i <> j -> cp_flags !! i = Some x -> cp_flags !! j = Some y -> x <> y.
Proof. intros Hn Hx Hy ->. destruct Hn. exact (NoDup_lookup _ _ _ _ cp_flags_nodup Hx Hy). Qed.
Lemma flag_in i (x : Z) : cp_flags !! i = Some x -> x ∈ cp_flags.
Proof. apply list_elem_of_lookup_2. Qed.
Lemma is_set_flag_other c (i j : nat) (f f' : Z) b : BLKSIZE <= zlen c -> cp_flags !! i = Some f -> cp_flags !! j = Some f' -> i <> j ->
  is_set_ckpt_flags (set_flag_to c f b) f' = is_set_ckpt_flags c f'.
Proof.
  intros Hc Hi Hj Hn. rewrite is_set_flag_to by (done || by eapply flag_in). by rewrite decide_False by (by apply (flags_ne i j)).
Qed.
Lemma is_set_nsb_other c (i : nat) (f : Z) : BLKSIZE <= zlen c -> cp_flags !! i = Some f -> i <> 11%nat ->
  is_set_ckpt_flags (cp_put c ckpt_flags (nvm_switch_nsb_version (cp_get c ckpt_flags))) f = is_set_ckpt_flags c f.
Proof.
  intros Hc Hi Hn. pose proof (flags_ne i 11 f CP_NSB_VER_FLAG Hn Hi eq_refl) as Hne. destruct (cp_flag_bit f (flag_in _ _ Hi)) as (n & Hb & ->).
  rewrite !is_set_test, cp_get_put_flags by done. unfold nvm_switch_nsb_version. rewrite Z.lxor_spec. change CP_NSB_VER_FLAG with (2 ^ 12) in *.
  rewrite (Z.pow2_bits_false 12 n) by (intros <-; done). apply xorb_false_r.
Qed.
(** Fields that are not flags decide where the bitmaps go. *)
Lemma bitmap_ptr_touches g c c' b : touches is_flags c c' -> is_set_ckpt_flags c' CP_LARGE_NAT_BITMAP_FLAG = is_set_ckpt_flags c CP_LARGE_NAT_BITMAP_FLAG ->
  __bitmap_ptr g c' b = __bitmap_ptr g c b.
Proof. intros [_ Hg] Hl. unfold __bitmap_ptr. rewrite Hl, !Hg by done. done. Qed.
Lemma is_set_touches P c c' (f : Z) : touches P c c' -> ~ P ckpt_flags -> is_set_ckpt_flags c' f = is_set_ckpt_flags c f.
Proof. intros [_ Hg] Hn. unfold is_set_ckpt_flags. by rewrite Hg. Qed.
Lemma bitmap_ptr_low g c b : Forall (fun x => 0 <= x < 256) c -> BLKSIZE <= zlen c -> sit_nat_version_bitmap <= __bitmap_ptr g c b.
Proof.
  intros Hb Hc. pose proof cp_bitmap_in_block. pose proof (cp_get_range c sit_ver_bitmap_bytesize Hb I Hc). pose proof (cp_get_range c nat_ver_bitmap_bytesize Hb I Hc).
  unfold __bitmap_ptr. destruct (is_set_ckpt_flags c CP_LARGE_NAT_BITMAP_FLAG), (0 <? __cp_payload g), b; lia.
Qed.
End flags.

(** ** From the memory to a sealed checkpoint *)

Section seal.
Context `{SuperFormat} `{OrphanFormat} `{CpFormatOk} `{SumLayout} `{SumFormat}.
Context (g : cp_geo).

(** The state with another checkpoint and perhaps another nat_bits and SBI_NEED_FSCK *)
Record same_but_ckpt (s s' : cp_state) : Prop := {
  sc_pack : cur_cp_pack s' = cur_cp_pack s;
  sc_im : im (cp_ino s') = im (cp_ino s);
  sc_blocks : nat_bits_blocks s' = nat_bits_blocks s;
  sc_dirty : dirty_meta s' = dirty_meta s;
}.
(** What the flags say after a step that is not about COMPACT_SUM and LARGE_NAT_BITMAP *)
Definition keeps_flags (c c' : list Z) : Prop := touches is_flags c c' /\
  is_set_ckpt_flags c' CP_COMPACT_SUM_FLAG = is_set_ckpt_flags c CP_COMPACT_SUM_FLAG /\
  is_set_ckpt_flags c' CP_LARGE_NAT_BITMAP_FLAG = is_set_ckpt_flags c CP_LARGE_NAT_BITMAP_FLAG.
Lemma keeps_trans c1 c2 c3 : keeps_flags c1 c2 -> keeps_flags c2 c3 -> keeps_flags c1 c3.
Proof. intros (T1 & A1 & B1) (T2 & A2 & B2). split; [by eapply touches_trans|]. split; congruence. Qed.
Lemma keeps_set c i (f : Z) b : BLKSIZE <= zlen c -> cp_flags !! i = Some f -> i <> 2%nat -> i <> 10%nat -> keeps_flags c (set_flag_to c f b).
Proof.
  intros Hc Hi Ha Hb. split; [by apply touches_flag|]. split; [by apply (is_set_flag_other c i 2)|by apply (is_set_flag_other c i 10)].
Qed.
Lemma keeps_flags_refl c : keeps_flags c c.
Proof. split; [apply touches_refl|done]. Qed.

(** The flags of update_ckpt_flags, as a list of bits to store *)
Definition store_flags (c : list Z) (l : list (nat * Z * bool)) : list Z := fold_left (fun c q => set_flag_to c (snd (fst q)) (snd q)) l c.
Definition flag_entry (q : nat * Z * bool) : Prop := cp_flags !! fst (fst q) = Some (snd (fst q)) /\ fst (fst q) <> 2%nat /\ fst (fst q) <> 10%nat.
Lemma store_keeps c l : BLKSIZE <= zlen c -> Forall flag_entry l -> keeps_flags c (store_flags c l).
Proof.
  intros Hc Hl. revert c Hc. induction Hl as [|[[i f] b] l (Ha & Hb & Hd) Hl IH]; intros c Hc; [apply keeps_flags_refl|]. cbn.
  pose proof (keeps_set c i f b Hc Ha Hb Hd) as K. eapply keeps_trans; [exact K|]. apply IH. by rewrite (proj1 (proj1 K)).
Qed.
Lemma store_bit c l i (f : Z) : BLKSIZE <= zlen c -> Forall flag_entry l -> cp_flags !! i = Some f -> (forall q, q ∈ l -> fst (fst q) <> i) ->
  is_set_ckpt_flags (store_flags c l) f = is_set_ckpt_flags c f.
Proof.
  intros Hc Hl Hf. revert c Hc. induction Hl as [|[[k f'] b] l (Ha & Hb & Hd) Hl IH]; intros c Hc Hq; [done|]. cbn [store_flags fold_left fst snd]. change (fold_left _ l ?x) with (store_flags x l).
  pose proof (touches_flag c f' b Hc) as [Hz _]. rewrite IH; [|by rewrite Hz|intros q Hin; apply Hq; apply elem_of_cons; by right].
  apply (is_set_flag_other c k i); try done. apply (Hq (k, f', b)). in_list.
Qed.
Definition final_flags (reason : Z) (orphans fsck : bool) : list (nat * Z * bool) :=
  [(8, CP_TRIMMED_FLAG, nz (Z.land reason CP_TRIMMED)); (0, CP_UMOUNT_FLAG, nz (Z.land reason CP_UMOUNT));
   (5, CP_FASTBOOT_FLAG, nz (Z.land reason CP_FASTBOOT)); (1, CP_ORPHAN_PRESENT_FLAG, orphans)]%nat ++
  (if fsck then [(4, CP_FSCK_FLAG, true)]%nat else []) ++ [(6, CP_CRC_RECOVERY_FLAG, true); (9, CP_NOCRC_RECOVERY_FLAG, false)]%nat.
Lemma final_entries reason orphans fsck : Forall flag_entry (final_flags reason orphans fsck).
Proof. unfold final_flags. destruct fsck; repeat constructor; done. Qed.
Lemma update_ckpt_flags_eq s reason : exists fsck,
  let s1 := if nz (Z.land reason CP_UMOUNT) && (u32 (cp_bps g - nat_bits_blocks s) <? cp_get (ckpt s) cp_pack_total_block_count) then disable_nat_bits s else s in
  update_ckpt_flags g s reason = s1 <| ckpt := store_flags (ckpt s1) (final_flags reason (nz (ino_num (im (cp_ino s)).[ORPHAN_INO])) fsck) |>.
Proof.
  unfold update_ckpt_flags. set (s1 := if nz (Z.land reason CP_UMOUNT) && _ then _ else _). exists (isb_need_fsck (cp_ino s1)).
  cbn zeta. f_equal. unfold final_flags. by destruct (isb_need_fsck (cp_ino s1)).
Qed.
Lemma update_flags_ok s reason : BLKSIZE <= zlen (ckpt s) -> let s' := update_ckpt_flags g s reason in
  same_but_ckpt s s' /\ keeps_flags (ckpt s) (ckpt s') /\
  (enabled_nat_bits (ckpt s') reason = true ->
   nat_bits s' = nat_bits s /\ is_set_ckpt_flags (ckpt s) CP_NAT_BITS_FLAG = true /\ cp_get (ckpt s) cp_pack_total_block_count <= u32 (cp_bps g - nat_bits_blocks s)).
Proof.
  intros Hc s'. unfold s'. destruct (update_ckpt_flags_eq s reason) as [fsck ->]. cbn zeta. set (l := final_flags _ _ _). pose proof (final_entries reason (nz (ino_num (im (cp_ino s)).[ORPHAN_INO])) fsck) as Hl. fold l in Hl.
  assert (forall q, q ∈ l -> fst (fst q) <> 7%nat) as H7.
  { intros q. unfold l, final_flags. destruct fsck; intros Hq; repeat (apply elem_of_cons in Hq as [->|Hq]; [done|]); by apply elem_of_nil in Hq. }
  destruct (nz (Z.land reason CP_UMOUNT)) eqn:Eu; cbn [andb]; [destruct (Z.ltb_spec (u32 (cp_bps g - nat_bits_blocks s)) (cp_get (ckpt s) cp_pack_total_block_count)) as [Ht|Ht]|].
  - set (c1 := ckpt (disable_nat_bits s)). assert (keeps_flags (ckpt s) c1) as K by (apply (keeps_set _ 7 CP_NAT_BITS_FLAG false); done).
    assert (BLKSIZE <= zlen c1) as Hc1 by (by rewrite (proj1 (proj1 K))).
    split; [by split|]. split; [eapply keeps_trans; [exact K|by apply store_keeps]|]. unfold enabled_nat_bits. rewrite Eu. cbn [andb].
    change (ckpt ((disable_nat_bits s) <| ckpt := ?x |>)) with x. rewrite (store_bit _ l 7) by done. unfold c1. cbn [disable_nat_bits ckpt].
    change (ckpt (disable_nat_bits s)) with (set_flag_to (ckpt s) CP_NAT_BITS_FLAG false). rewrite is_set_flag_to by (done || by apply (flag_in 7)). by rewrite decide_True.
  - split; [by split|]. split; [by apply store_keeps|]. intros He. split; [done|]. split; [|lia]. unfold enabled_nat_bits in He. rewrite Eu in He. cbn [andb] in He.
    change (ckpt (s <| ckpt := ?x |>)) with x in He. by rewrite (store_bit _ l 7) in He.
  - split; [by split|]. split; [by apply store_keeps|]. unfold enabled_nat_bits. by rewrite Eu.
Qed.
Lemma switch_nsb_ok s : BLKSIZE <= zlen (ckpt s) -> same_but_ckpt s (switch_nsb s) /\ keeps_flags (ckpt s) (ckpt (switch_nsb s)) /\
  nat_bits (switch_nsb s) = nat_bits s /\ is_set_ckpt_flags (ckpt (switch_nsb s)) CP_NAT_BITS_FLAG = is_set_ckpt_flags (ckpt s) CP_NAT_BITS_FLAG.
Proof.
  intros Hc. unfold switch_nsb. destruct (nsb_dirty s); [|split; [by split|]; split; [apply keeps_flags_refl|done]]. split; [by split|].
  split; [|split; [done|by apply (is_set_nsb_other _ 7)]]. split; [by apply touches_put|]. split; [by apply (is_set_nsb_other _ 2)|by apply (is_set_nsb_other _ 10)].
Qed.

(** *** The checksum *)

Lemma zlen_block_0 c : BLKSIZE <= zlen c -> zlen (ckpt_block c 0) = BLKSIZE.
Proof. intros Hc. unfold ckpt_block. apply zlen_slice; change BLKSIZE with 4096 in *; lia. Qed.
Lemma block_0_app c : BLKSIZE <= zlen c -> c = ckpt_block c 0 ++ drop (Z.to_nat BLKSIZE) c.
Proof. intros Hc. rewrite <- block_0. symmetry. apply take_drop. Qed.
Lemma cp_get_block_0 c f : BLKSIZE <= zlen c -> is_field f -> cp_get (ckpt_block c 0) f = cp_get c f.
Proof.
  intros Hc Hf. pose proof (cp_off_range f Hf). pose proof cp_bitmap_in_block. unfold cp_get, ckpt_block. by rewrite Z.mul_0_l, slice_slice by lia.
Qed.
Lemma sealed_version c0 c (o : Z) x : BLKSIZE <= zlen c0 -> 0 <= o <= BLKSIZE - 4 -> sit_nat_version_bitmap <= o ->
  cp_get c0 checksum_offset = o -> x = f2fs_crc32 (take (Z.to_nat o) c0) -> wr c0 o (le_put 4 x) = Done c ->
  blk_version (ckpt_block c 0) = Some (cur_cp_version c0).
Proof.
  intros Hc0 Ho Hlow Eo Ex E. destruct (touches_wr (fun _ => False) _ _ _ _ Hlow E) as [Hz Hg]. assert (BLKSIZE <= zlen c) as Hc by lia.
  unfold blk_version, get_checkpoint_version. rewrite cp_get_block_0, Hg, Eo by (done || tauto). replace (BLKSIZE - 4 <? o) with false by lia.
  unfold cur_cp_crc. rewrite cp_get_block_0, Hg, Eo by (done || tauto). pose proof (crc32_range (take (Z.to_nat o) c0)). rewrite <- Ex in *.
  pose proof (rd32_wr_eq _ _ _ _ E ltac:(done)) as Er. unfold rd32 in Er |- *. rewrite (block_0_app c Hc), rd_prefix in Er by (rewrite zlen_block_0; lia).
  rewrite Er. cbn [obind]. unfold f2fs_crc_valid. assert (take (Z.to_nat o) (ckpt_block c 0) = take (Z.to_nat o) c0) as ->.
  { rewrite <- block_0, take_take, Nat.min_l by lia. apply wr_inv in E as (_ & _ & ->). unfold blit. rewrite take_app_le by (rewrite length_take; unfold zlen in *; lia).
    rewrite take_take. f_equal. lia. }
  rewrite <- Ex, Z.eqb_refl. cbn [negb]. unfold cur_cp_version. by rewrite cp_get_block_0, Hg by (done || tauto).
Qed.

(** Where the checksum and the bitmaps go *)
Record room_ok (e : cp_env) (c : list Z) : Prop := {
  ro_size : BLKSIZE <= zlen c;
  ro_crc : sit_nat_version_bitmap <= cp_get c checksum_offset <= BLKSIZE - 4;
  ro_low b : sit_nat_version_bitmap <= __bitmap_ptr g c b;
  ro_sit : __bitmap_ptr g c false + zlen (e_sit_bitmap e) <= zlen c;
  ro_nat : __bitmap_ptr g c true + zlen (e_nat_bitmap e) <= zlen c;
}.
Lemma bitmap_low : 0 <= sit_nat_version_bitmap.
Proof. pose proof (cp_off_range checkpoint_ver I). lia. Qed.
Lemma seal_ok e c : room_ok e c -> exists c' crc, seal_ckpt g e c = Done (c', crc) /\ touches (fun _ => False) c c' /\
  blk_version (ckpt_block c' 0) = Some (cur_cp_version c).
Proof.
  intros [Hz Hcrc Hlow Hs Hn]. pose proof bitmap_low. unfold seal_ckpt. pose proof (Hlow false). pose proof (Hlow true).
  destruct (wr c (__bitmap_ptr g c false) (e_sit_bitmap e)) as [c1| |] eqn:E1; try (rewrite wr_ok in E1 by lia; done). cbn [obind].
  pose proof (touches_wr (fun _ => False) _ _ _ _ (Hlow false) E1) as T1.
  assert (__bitmap_ptr g c1 true = __bitmap_ptr g c true) as E.
  { apply bitmap_ptr_touches; [eapply touches_weaken; [exact T1|by intros]|eapply is_set_touches; [exact T1|tauto]]. }
  rewrite E. destruct (wr c1 (__bitmap_ptr g c true) (e_nat_bitmap e)) as [c2| |] eqn:E2; try (rewrite wr_ok in E2 by (rewrite ?(proj1 T1); lia); done). cbn [obind].
  pose proof (touches_trans _ _ _ _ T1 (touches_wr (fun _ => False) _ _ _ _ (Hlow true) E2)) as T2.
  assert (cp_get c2 checksum_offset = cp_get c checksum_offset) as Eo by (apply T2; done || tauto). rewrite Eo.
  set (crc := f2fs_crc32 (take (Z.to_nat (cp_get c checksum_offset)) c2)).
  destruct (wr c2 (cp_get c checksum_offset) (le_put 4 crc)) as [c3| |] eqn:E3; try (rewrite wr_ok in E3 by (rewrite ?zlen_le_put, ?(proj1 T2); lia); done). cbn [obind].
  exists c3, crc. split; [done|]. split; [eapply touches_trans; [exact T2|by apply (touches_wr _ _ _ _ _ (proj1 Hcrc) E3)]|].
  rewrite (sealed_version c2 c3 (cp_get c checksum_offset) crc) by (rewrite ?(proj1 T2); done || lia). f_equal. apply T2; done || tauto.
Qed.

(** *** The head of the pack *)

(** Fields a checkpoint never changes *)
Definition fixed_field (f : cp_field) : Prop :=
  f = checkpoint_ver \/ f = checksum_offset \/ f = sit_ver_bitmap_bytesize \/ f = nat_ver_bitmap_bytesize.
Definition pack_field (f : cp_field) : Prop := f = ckpt_flags \/ f = cp_pack_start_sum \/ f = cp_pack_total_block_count.
Lemma flag_not_fixed f : is_flags f -> ~ fixed_field f.
Proof. unfold is_flags, fixed_field. intros -> Hf. destruct Hf as [?|[?|[?|?]]]; done. Qed.
Lemma log_not_fixed f : is_log_field f -> ~ fixed_field f.
Proof. unfold fixed_field. intros Hl Hf. by destruct Hf as [->|[->|[->| ->]]]. Qed.
Lemma pack_not_fixed f : pack_field f -> ~ fixed_field f.
Proof. unfold fixed_field. intros Hl Hf. by destruct Hl as [->|[->| ->]]; destruct Hf as [?|[?|[?|?]]]. Qed.

(** do_checkpoint up to the logs *)
Definition put_times (e : cp_env) (l : logs) (c : list Z) : list Z := put_logs l (cp_put (cp_put c elapsed_time (e_mtime e)) free_segment_count (e_free_segments e)).
Lemma touches_times e l c : BLKSIZE <= zlen c ->
  touches (fun f => ~ fixed_field f) c (put_times e l c) /\ forall f, is_set_ckpt_flags (put_times e l c) f = is_set_ckpt_flags c f.
Proof.
  intros Hc. unfold put_times. set (c1 := cp_put c elapsed_time _). set (c2 := cp_put c1 free_segment_count _).
  set (times := fun f => f = elapsed_time \/ f = free_segment_count).
  assert (touches times c c1) as T1 by (apply touches_put; unfold times; tauto || done).
  assert (touches times c1 c2) as T2 by (apply touches_put; unfold times; rewrite ?(proj1 T1); tauto || done).
  pose proof (touches_trans _ _ _ _ T1 T2) as T. assert (touches is_log_field c2 (put_logs l c2)) as T3 by (apply touches_logs; by rewrite (proj1 T)). split.
  - eapply touches_trans; [apply (touches_weaken _ _ _ _ T)|apply (touches_weaken _ _ _ _ T3), log_not_fixed].
    intros f [-> | ->]; unfold fixed_field; intros [?|[?|[?|?]]]; done.
  - intros f. rewrite (is_set_touches _ _ _ f T3) by (by intros []). apply (is_set_touches _ _ _ f T). by intros [?|?].
Qed.
(** The fields of the pack *)
Definition put_pack (b : bool) (x y : Z) (c : list Z) : list Z := cp_put (cp_put (set_flag_to c CP_COMPACT_SUM_FLAG b) cp_pack_start_sum x) cp_pack_total_block_count y.
Lemma put_pack_ok b x y c : BLKSIZE <= zlen c -> touches pack_field c (put_pack b x y c) /\ is_set_ckpt_flags (put_pack b x y c) CP_COMPACT_SUM_FLAG = b /\
  is_set_ckpt_flags (put_pack b x y c) CP_LARGE_NAT_BITMAP_FLAG = is_set_ckpt_flags c CP_LARGE_NAT_BITMAP_FLAG /\
  is_set_ckpt_flags (put_pack b x y c) CP_NAT_BITS_FLAG = is_set_ckpt_flags c CP_NAT_BITS_FLAG /\ cp_get (put_pack b x y c) cp_pack_total_block_count = u32 y.
Proof.
  intros Hc. unfold put_pack. set (c1 := set_flag_to c _ b). set (c2 := cp_put c1 cp_pack_start_sum x).
  assert (touches is_flags c c1) as T1 by (by apply touches_flag). assert (BLKSIZE <= zlen c1) as Hc1 by (by rewrite (proj1 T1)).
  set (sizes := fun f => f = cp_pack_start_sum \/ f = cp_pack_total_block_count).
  assert (touches sizes c1 c2) as T2 by (apply touches_put; unfold sizes; tauto || done). assert (BLKSIZE <= zlen c2) as Hc2 by (by rewrite (proj1 T2)).
  assert (touches sizes c2 (cp_put c2 cp_pack_total_block_count y)) as T3 by (apply touches_put; unfold sizes; tauto || done).
  pose proof (touches_trans _ _ _ _ T2 T3) as T. assert (forall f, is_set_ckpt_flags (cp_put c2 cp_pack_total_block_count y) f = is_set_ckpt_flags c1 f) as Hf.
  { intros f. apply (is_set_touches _ _ _ f T). by intros [?|?]. }
  split; [|rewrite !Hf; split_and!].
  - eapply touches_trans; [apply (touches_weaken _ _ _ _ T1)|apply (touches_weaken _ _ _ _ T)]; unfold is_flags, sizes, pack_field; tauto.
  - unfold c1. rewrite is_set_flag_to by (done || by apply (flag_in 2)). by rewrite decide_True.
  - by apply (is_set_flag_other c 2 10).
  - by apply (is_set_flag_other c 2 7).
  - by rewrite cp_get_put_eq.
Qed.
Lemma npages_ext bps c c' l : (forall i, 0 <= i < 3 -> cp_get c' (ck_alloc_type i) = cp_get c (ck_alloc_type i)) ->
  f2fs_npages_for_summary_flush bps c' l false = f2fs_npages_for_summary_flush bps c l false.
Proof. intros E. unfold f2fs_npages_for_summary_flush. by rewrite !E by lia. Qed.
Lemma npages_range bps c l b : 1 <= f2fs_npages_for_summary_flush bps c l b <= 3.
Proof. unfold f2fs_npages_for_summary_flush. repeat destruct (_ <=? _); lia. Qed.

(** What holds of the state that prepare_pack leaves *)
Record prepared (e : cp_env) (l : logs) (reason : Z) (s s' : cp_state) (ds ob : Z) : Prop := {
  pp_same : same_but_ckpt s s';
  pp_size : zlen (ckpt s') = zlen (ckpt s);
  pp_version : cur_cp_version (ckpt s') = cur_cp_version (ckpt s);
  pp_sealed : blk_version (ckpt_block (ckpt s') 0) = Some (cur_cp_version (ckpt s));
  pp_ds : ds = f2fs_npages_for_summary_flush (cp_bps g) (ckpt s') l false;
  pp_compact : is_set_ckpt_flags (ckpt s') CP_COMPACT_SUM_FLAG = (ds <? NR_CURSEG_DATA_TYPE);
  pp_ob : ob = u32 (GET_ORPHAN_BLOCKS (ino_num (im (cp_ino s)).[ORPHAN_INO]));
  pp_total : pack_total (ckpt_block (ckpt s') 0) =
    u32 (F2FS_CP_PACKS + __cp_payload g + ds + ob + (if __remain_node_summaries reason then NR_CURSEG_NODE_TYPE else 0));
  pp_bits : enabled_nat_bits (ckpt s') reason = true -> nat_bits s' = nat_bits s /\ is_set_ckpt_flags (ckpt s) CP_NAT_BITS_FLAG = true /\
    pack_total (ckpt_block (ckpt s') 0) <= u32 (cp_bps g - nat_bits_blocks s);
}.
Lemma same_trans s1 s2 s3 : same_but_ckpt s1 s2 -> same_but_ckpt s2 s3 -> same_but_ckpt s1 s3.
Proof. intros [A1 A2 A3 A4] [B1 B2 B3 B4]. split; congruence. Qed.
Lemma room_touches e c c' : room_ok e c -> touches (fun f => ~ fixed_field f) c c' ->
  is_set_ckpt_flags c' CP_LARGE_NAT_BITMAP_FLAG = is_set_ckpt_flags c CP_LARGE_NAT_BITMAP_FLAG -> room_ok e c'.
Proof.
  intros [R1 R2 R3 R4 R5] [Hz Hg] Hl. assert (forall b, __bitmap_ptr g c' b = __bitmap_ptr g c b) as Hb.
  { intros b. unfold __bitmap_ptr. rewrite Hl, !Hg by (done || unfold fixed_field; tauto). done. }
  split; rewrite ?Hz, ?Hb; try done; [rewrite Hg by (done || unfold fixed_field; tauto)|intros b; rewrite Hb]; done.
Qed.
Lemma prepare_pack_ok e l reason s : room_ok e (ckpt s) ->
  exists s' ds ob crc, prepare_pack g e l reason s = Done (s', ds, ob, crc) /\ prepared e l reason s s' ds ob.
Proof.
  intros R. pose proof (ro_size _ _ R) as Hc. unfold prepare_pack.
  change (put_logs l (cp_put (cp_put (ckpt s) elapsed_time (e_mtime e)) free_segment_count (e_free_segments e))) with (put_times e l (ckpt s)).
  set (c2 := put_times e l (ckpt s)). destruct (touches_times e l (ckpt s) Hc) as [T2 F2]. fold c2 in T2, F2. assert (BLKSIZE <= zlen c2) as Hc2 by (by rewrite (proj1 T2)).
  set (ds := f2fs_npages_for_summary_flush (cp_bps g) c2 l false). set (ob := u32 (GET_ORPHAN_BLOCKS _)). cbn zeta.
  set (x := 1 + __cp_payload g + ob). set (y := F2FS_CP_PACKS + __cp_payload g + ds + ob + _).
  change (cp_put (cp_put (set_flag_to c2 CP_COMPACT_SUM_FLAG (ds <? NR_CURSEG_DATA_TYPE)) cp_pack_start_sum x) cp_pack_total_block_count y) with (put_pack (ds <? NR_CURSEG_DATA_TYPE) x y c2).
  set (c5 := put_pack _ x y c2). destruct (put_pack_ok (ds <? NR_CURSEG_DATA_TYPE) x y c2 Hc2) as (T5 & Fc & Fl & Fn & Ft). fold c5 in T5, Fc, Fl, Fn, Ft.
  assert (BLKSIZE <= zlen c5) as Hc5 by (by rewrite (proj1 T5)). set (s5 := s <| ckpt := c5 |>).
  destruct (update_flags_ok s5 reason Hc5) as (S6 & (T6 & Fc6 & Fl6) & B6). set (s6 := update_ckpt_flags g s5 reason) in *.
  assert (BLKSIZE <= zlen (ckpt s6)) as Hc6 by (rewrite (proj1 T6); done). destruct (switch_nsb_ok s6 Hc6) as (S7 & (T7 & Fc7 & Fl7) & N7 & Fn7). set (s7 := switch_nsb s6) in *.
  change (ckpt s5) with c5 in *. pose proof (touches_trans _ _ _ _ T6 T7) as T67.
  assert (touches (fun f => ~ fixed_field f) (ckpt s) (ckpt s7)) as T.
  { eapply touches_trans; [exact T2|]. eapply touches_trans; [apply (touches_weaken _ _ _ _ T5), pack_not_fixed|]. apply (touches_weaken _ _ _ _ T67), flag_not_fixed. }
  destruct (seal_ok e (ckpt s7)) as (c8 & crc & E8 & T8 & V8). { apply (room_touches e (ckpt s)); try done. congruence. }
  rewrite E8. cbn [obind fst snd]. exists (s7 <| ckpt := c8 |>), ds, ob, crc. split; [done|].
  assert (same_but_ckpt s (s7 <| ckpt := c8 |>)) as Sall. { apply (same_trans _ s7); [apply (same_trans _ s6); [apply (same_trans _ s5); [by split|done]|done]|by split]. }
  assert (cur_cp_version (ckpt s7) = cur_cp_version (ckpt s)) as Ev. { apply T; [done|]. unfold fixed_field. tauto. }
  assert (BLKSIZE <= zlen c8) as Hc8 by (rewrite (proj1 T8), (proj1 T); done).
  assert (pack_total (ckpt_block c8 0) = u32 y) as Et.
  { unfold pack_total. rewrite cp_get_block_0 by done. rewrite (proj2 T8), (proj2 T67) by (done || tauto). done. }
  split; cbn [ckpt]; try done.
  - change (ckpt (s7 <| ckpt := c8 |>)) with c8. by rewrite (proj1 T8), (proj1 T).
  - rewrite <- Ev. apply T8; [done|tauto].
  - by rewrite <- Ev.
  - symmetry. apply npages_ext. intros i Hi. change (ckpt (s7 <| ckpt := c8 |>)) with c8. rewrite (proj2 T8), (proj2 T67), (proj2 T5) by (try (cbn; lia); try tauto; try done; by intros [?|[?|?]]). done.
  - rewrite (is_set_touches _ (ckpt s7) c8 _ T8) by tauto. congruence.
  - intros He. change (ckpt (s7 <| ckpt := c8 |>)) with c8 in He. assert (enabled_nat_bits (ckpt s6) reason = true) as He6.
    { unfold enabled_nat_bits in *. rewrite (is_set_touches _ (ckpt s7) c8 _ T8) in He by tauto. by rewrite Fn7 in He. }
    destruct (B6 He6) as (Bn & Bf & Bt). change (ckpt (s7 <| ckpt := c8 |>)) with c8. rewrite Et, <- Ft. change (nat_bits (s7 <| ckpt := c8 |>)) with (nat_bits s7).
    rewrite N7, Bn. split; [done|]. split; [by rewrite <- (F2 CP_NAT_BITS_FLAG), <- Fn|exact Bt].
Qed.
End seal.

(** ** Where the blocks go *)

Section pages.
Context `{SuperFormat} `{OrphanFormatOk} `{CpFormatOk} `{SumLayoutOk} `{SumFormat}.
Context (kbytes_ofs : Z) (g : cp_geo).
Implicit Types (ps : list (Z * list Z)) (m : gmap Z (list Z)).

Definition make_dirty m ps : gmap Z (list Z) := fold_left (fun m p => <[fst p := snd p]> m) ps m.
Lemma update_meta_eq (s : cp_state) ps : update_meta_pages s ps = s <| dirty_meta := make_dirty (dirty_meta s) ps |>.
Proof. unfold update_meta_pages, make_dirty. revert s. induction ps as [|[a b] ps IH]; intros s; [by destruct s|]. cbn [fold_left]. by rewrite IH. Qed.
Lemma make_dirty_in m ps a b : make_dirty m ps !! a = Some b -> m !! a = Some b \/ (a, b) ∈ ps.
Proof.
  unfold make_dirty. induction ps as [|[k c] ps IH] using rev_ind; [by left|]. rewrite fold_left_app. cbn. rewrite lookup_insert_Some.
  intros [[-> ->]|[_ ?]]; [right; apply elem_of_app; right; in_list|]. destruct IH as [?|?]; [done|by left|]. right. apply elem_of_app. by left.
Qed.
Lemma make_dirty_unique m ps a b : (a, b) ∈ ps -> (forall b', (a, b') ∈ ps -> b' = b) -> make_dirty m ps !! a = Some b.
Proof.
  unfold make_dirty. induction ps as [|[k c] ps IH] using rev_ind; [by intros ?%elem_of_nil|]. rewrite fold_left_app. cbn. intros Hin Hu.
  destruct (decide (k = a)) as [->|Hk].
  - rewrite lookup_insert_eq. f_equal. apply Hu, elem_of_app. right. in_list.
  - rewrite lookup_insert_ne by done. apply IH.
    + apply elem_of_app in Hin as [?|Hin%list_elem_of_singleton]; [done|]. congruence.
    + intros b' Hb. apply Hu, elem_of_app. by left.
Qed.
Lemma sync_eq (s : cp_state) : f2fs_sync_meta_pages s = (s <| dirty_meta := ∅ |>, snd (f2fs_sync_meta_pages s)).
Proof. done. Qed.
Lemma sync_in (s : cp_state) a b : IoWrite a b ∈ snd (f2fs_sync_meta_pages s) <-> dirty_meta s !! a = Some b.
Proof.
  cbn. rewrite <- elem_of_map_to_list. split.
  - intros ((k & c) & [= -> ->] & Hin)%list_elem_of_fmap. done.
  - intros Hin. apply list_elem_of_fmap. by exists (a, b).
Qed.
Lemma sync_flush (s : cp_state) : IoFlush ∉ snd (f2fs_sync_meta_pages s).
Proof. cbn. intros ((k & c) & ? & _)%list_elem_of_fmap. done. Qed.

(** The loop of f2fs_sync_meta_pages ends after one round. *)
Lemma sync_dirty_eq err (s : cp_state) : sync_dirty_meta 2 err s [] =
  Done (negb (bool_decide (dirty_meta s = ∅)) && err, s <| dirty_meta := ∅ |>, snd (f2fs_sync_meta_pages s)).
Proof.
  cbn [sync_dirty_meta]. rewrite (sync_eq s). case_bool_decide as Hd.
  - cbn. rewrite Hd, map_to_list_empty. do 3 f_equal. destruct s. cbn in *. by subst.
  - cbn [negb andb]. destruct err; [done|]. by rewrite bool_decide_eq_true_2.
Qed.

Lemma in_number_from st (ps : list (list Z)) a b : (a, b) ∈ number_from st ps <-> st <= a < st + zlen ps /\ b = ps.[a - st].
Proof.
  unfold number_from. rewrite list_elem_of_lookup. split.
  - intros [k Hk]. apply lookup_zip_with_Some in Hk as (x & y & [= -> ->] & Hx & Hy). apply lookup_seqZ in Hx as [-> Hl].
    pose proof (lookup_lt_Some _ _ _ Hy). unfold zlen in *. split; [lia|]. replace (st + Z.of_nat k - st) with (Z.of_nat k) by lia.
    apply (inj Some). rewrite <- Hy. rewrite <- (Nat2Z.id k) at 1. apply lookup_aget. unfold zlen. lia.
  - intros [Ha ->]. exists (Z.to_nat (a - st)). apply lookup_zip_with_Some. exists a, ps.[a - st]. split_and!; [done| |apply lookup_aget; lia].
    apply lookup_seqZ. unfold zlen in *. lia.
Qed.
Lemma number_from_range st (ps : list (list Z)) a b : (a, b) ∈ number_from st ps -> st <= a < st + zlen ps.
Proof. by intros [? _]%in_number_from. Qed.

Lemma zlen_ckpt_blocks c : 0 <= __cp_payload g -> zlen (ckpt_blocks g c) = 1 + __cp_payload g.
Proof. intros. unfold ckpt_blocks, zlen. rewrite length_map, length_seqZ. lia. Qed.
Lemma ckpt_blocks_get c i : 0 <= i < 1 + __cp_payload g -> (ckpt_blocks g c).[i] = ckpt_block c i.
Proof.
  intros Hi. apply (inj Some). rewrite <- lookup_aget by (rewrite zlen_ckpt_blocks; lia). unfold ckpt_blocks.
  change (map (ckpt_block c)) with (@fmap list _ _ _ (ckpt_block c)). rewrite list_lookup_fmap.
  assert (seqZ 0 (1 + __cp_payload g) !! Z.to_nat i = Some i) as -> by (apply lookup_seqZ; lia). done.
Qed.
Lemma orphans_range (i : ino_sbi) st : Forall ino_ok (ino_list (im i).[ORPHAN_INO]) -> exists ps, write_orphan_inodes i st = Done ps /\
  forall a b, (a, b) ∈ ps -> st <= a < st + GET_ORPHAN_BLOCKS (zlen (ino_list (im i).[ORPHAN_INO])).
Proof.
  intros Hok. assert (zlen (@nil Z) < F2FS_ORPHANS_PER_BLOCK) as Hp by apply orphans_pos. unfold write_orphan_inodes.
  destruct (write_orphans_ok _ None [] 1 (u16 (GET_ORPHAN_BLOCKS (ino_num (im i).[ORPHAN_INO]))) Hok holds_nil Hp ltac:(done) ltac:(done)) as (blks & Hw & _ & Hz).
  change (zlen (@nil Z)) with 0 in Hw, Hz. rewrite Hw. cbn [obind]. eexists. split; [done|]. intros a b Hin. rewrite Z.add_0_l in Hz.
  change (zip (seqZ st (zlen blks)) blks) with (number_from st blks) in Hin. apply number_from_range in Hin. lia.
Qed.
Lemma data_range c l : cp_bps g = ENTRIES_IN_SUM -> 0 <= cp_bps g < 65536 -> logs_ok l -> offsets_ok (cp_bps g) l ->
  is_set_ckpt_flags c CP_COMPACT_SUM_FLAG = (f2fs_npages_for_summary_flush (cp_bps g) c l false <? NR_CURSEG_DATA_TYPE) ->
  exists (bs : list (list Z)), f2fs_write_data_summaries (cp_bps g) c l = Done bs /\ zlen bs <= f2fs_npages_for_summary_flush (cp_bps g) c l false.
Proof.
  intros Hb Hb0 W Of Ef. unfold f2fs_write_data_summaries. rewrite Ef. unfold NR_CURSEG_DATA_TYPE. destruct (Z.ltb_spec (f2fs_npages_for_summary_flush (cp_bps g) c l false) 3) as [Hd|Hd].
  - destruct (all_compact_ok (cp_bps g) Hb Hb0 c l W Of) as [Fa _]. destruct (write_entries_ok _ _ (compact_start_ok l W) Fa) as (w & Ew & _).
    exists (blocks_of w). split; [by apply write_compacted_eq|by apply compact_fits].
  - exists [sum_page l 0; sum_page l 1; sum_page l 2]. split; [apply (write_normal_eq l 0 W); by left|]. done.
Qed.

(** The state a checkpoint starts from: the checkpoint in memory leaves room for the
    bitmaps and the checksum, the orphans are counted, the logs have their sizes, the NAT
    bits fit behind the pack, and the dirty meta pages are those of SIT, NAT and SSA. *)
Record mem_ok (e : cp_env) (l : logs) (s : cp_state) : Prop := {
  mo_pack : cur_cp_pack s = 1 \/ cur_cp_pack s = 2;
  mo_size : zlen (ckpt s) = (1 + __cp_payload g) * BLKSIZE;
  mo_bytes : Forall (fun x => 0 <= x < 256) (ckpt s);
  mo_crc : sit_nat_version_bitmap <= cp_get (ckpt s) checksum_offset <= BLKSIZE - 4;
  mo_sit : __bitmap_ptr g (ckpt s) false + zlen (e_sit_bitmap e) <= zlen (ckpt s);
  mo_nat : __bitmap_ptr g (ckpt s) true + zlen (e_nat_bitmap e) <= zlen (ckpt s);
  mo_inos : Forall ino_ok (ino_list (im (cp_ino s)).[ORPHAN_INO]);
  mo_num : zlen (ino_list (im (cp_ino s)).[ORPHAN_INO]) <= ino_num (im (cp_ino s)).[ORPHAN_INO]
    <= (cp_bps g - F2FS_CP_PACKS - NR_CURSEG_TYPE - __cp_payload g) * F2FS_ORPHANS_PER_BLOCK;
  mo_logs : logs_ok l;
  mo_offsets : offsets_ok (cp_bps g) l;
  mo_kbytes : 0 <= kbytes_ofs /\ kbytes_ofs + 8 <= SUM_JOURNAL_SIZE;
  mo_bits : is_set_ckpt_flags (ckpt s) CP_NAT_BITS_FLAG = true ->
    exists b bits, nat_bits s = Some (b :: bits) /\ 8 <= zlen b /\ nat_bits_blocks s = zlen (b :: bits) /\ nat_bits_blocks s <= cp_bps g;
  mo_dirty a b : dirty_meta s !! a = Some b -> outside g a;
}.

Lemma orphan_blocks_mono a b : a <= b -> GET_ORPHAN_BLOCKS a <= GET_ORPHAN_BLOCKS b.
Proof. intros. unfold GET_ORPHAN_BLOCKS. pose proof orphans_pos. apply Z.div_le_mono; lia. Qed.
Lemma orphan_blocks_room n k : 0 <= n <= k * F2FS_ORPHANS_PER_BLOCK -> 0 <= GET_ORPHAN_BLOCKS n <= k.
Proof.
  intros Hn. unfold GET_ORPHAN_BLOCKS. pose proof orphans_pos. split; [apply Z.div_pos; lia|]. apply Z.lt_succ_r, Z.div_lt_upper_bound; lia.
Qed.

(** The number of blocks of the pack *)
Definition pack_blocks (reason ds ob : Z) : Z := 2 + __cp_payload g + ds + ob + (if __remain_node_summaries reason then NR_CURSEG_NODE_TYPE else 0).
Lemma jnl_write_ok l i j : logs_ok l -> zlen j = SUM_JOURNAL_SIZE -> logs_ok (l <| lg_jnl ::= fun js => js.[i <- j] |>).
Proof.
  intros [W1 W2 W3] Hj. split; [done|cbn; by rewrite zlen_aset|]. intros k Hk. destruct (W3 k Hk) as [L1 L2 L3]. split; [done|done|]. cbn.
  destruct (decide (i = k)) as [->|Hn]; [rewrite aget_aset_eq by lia; done|]. rewrite aget_aset_ne by done. done.
Qed.
(** The orphan blocks of the pack *)
Lemma orphan_pages_ok s st1 : let n := ino_num (im (cp_ino s)).[ORPHAN_INO] in
  Forall ino_ok (ino_list (im (cp_ino s)).[ORPHAN_INO]) -> zlen (ino_list (im (cp_ino s)).[ORPHAN_INO]) <= n ->
  exists os, (if nz n then write_orphan_inodes (cp_ino s) st1 else Done []) = Done os /\
    (forall a b, (a, b) ∈ os -> st1 <= a < st1 + GET_ORPHAN_BLOCKS n) /\ (if nz n then st1 + GET_ORPHAN_BLOCKS n else st1) = st1 + GET_ORPHAN_BLOCKS n.
Proof.
  intros n Hinos Hnum. destruct (nz n) eqn:En.
  - destruct (orphans_range (cp_ino s) st1 Hinos) as (os & -> & Ho). exists os. split; [done|]. split; [|done].
    intros a b Hin. specialize (Ho a b Hin). pose proof (orphan_blocks_mono _ _ Hnum). lia.
  - exists []. split; [done|]. split; [by intros a b ?%elem_of_nil|].
    assert (n = 0) as -> by (unfold nz in En; destruct (Z.eqb_spec n 0); done). unfold GET_ORPHAN_BLOCKS. pose proof orphans_pos. rewrite Z.div_small by lia. lia.
Qed.
(** The blocks for the node logs, which only some checkpoints have *)
Definition node_blocks (reason : Z) : Z := if __remain_node_summaries reason then NR_CURSEG_NODE_TYPE else 0.
Lemma node_pages_ok l reason (hd os ds : list (Z * list Z)) st3 : logs_ok l ->
  exists ns, (if __remain_node_summaries reason then
      ns <-- f2fs_write_node_summaries l ;; Done (hd ++ os ++ ds ++ number_from st3 ns, l, st3 + NR_CURSEG_NODE_TYPE)
      else Done (hd ++ os ++ ds, l, st3)) = Done (hd ++ os ++ ds ++ ns, l, st3 + node_blocks reason) /\
    forall a b, (a, b) ∈ ns -> st3 <= a < st3 + node_blocks reason.
Proof.
  intros W. unfold node_blocks. destruct (__remain_node_summaries reason).
  - unfold f2fs_write_node_summaries. rewrite (write_normal_eq l 3 W) by (by right). cbn [obind]. eexists. split; [done|].
    intros a b Hr%number_from_range. change (zlen [_; _; _]) with 3 in Hr. unfold NR_CURSEG_NODE_TYPE. lia.
  - exists []. rewrite app_nil_r. split; [do 2 f_equal; lia|by intros a b ?%elem_of_nil].
Qed.
Lemma pack_pages_ok e l reason s st ds ob : 0 <= __cp_payload g -> cp_bps g = ENTRIES_IN_SUM -> 0 <= cp_bps g < 65536 ->
  Forall ino_ok (ino_list (im (cp_ino s)).[ORPHAN_INO]) -> zlen (ino_list (im (cp_ino s)).[ORPHAN_INO]) <= ino_num (im (cp_ino s)).[ORPHAN_INO] ->
  logs_ok l -> offsets_ok (cp_bps g) l -> 0 <= kbytes_ofs /\ kbytes_ofs + 8 <= SUM_JOURNAL_SIZE ->
  ds = f2fs_npages_for_summary_flush (cp_bps g) (ckpt s) l false -> is_set_ckpt_flags (ckpt s) CP_COMPACT_SUM_FLAG = (ds <? NR_CURSEG_DATA_TYPE) ->
  ob = GET_ORPHAN_BLOCKS (ino_num (im (cp_ino s)).[ORPHAN_INO]) ->
  exists ps l', pack_pages kbytes_ofs g e l reason s st ds ob = Done (ps, l', st + pack_blocks reason ds ob - 1) /\
    (forall a b, (a, b) ∈ ps -> st <= a < st + pack_blocks reason ds ob - 1 /\ (a < st + 1 + __cp_payload g -> b = ckpt_block (ckpt s) (a - st))) /\
    (forall i, 0 <= i < 1 + __cp_payload g -> (st + i, ckpt_block (ckpt s) i) ∈ ps).
Proof.
  intros P Hb Hb0 Hinos Hnum W Of Hk Eds Ef Eob. unfold pack_pages. set (n := ino_num (im (cp_ino s)).[ORPHAN_INO]) in *.
  pose proof (zlen_nonneg (ino_list (im (cp_ino s)).[ORPHAN_INO])) as Hz0. pose proof (npages_range (cp_bps g) (ckpt s) l false) as Hds. rewrite <- Eds in Hds.
  set (st1 := st + (1 + __cp_payload g)). assert (0 <= ob) as Hob0. { rewrite Eob. pose proof orphans_pos. apply Z.div_pos; lia. }
  destruct (orphan_pages_ok s st1 Hinos Hnum) as (os & Eos & Ho & Est). fold n in Eos, Ho, Est. rewrite <- Eob in Ho, Est. rewrite Eos. cbn [obind]. rewrite Est.
  rewrite Eds in Ef. destruct (data_range (ckpt s) l Hb Hb0 W Of Ef) as (bs & Ebs & Hbs). rewrite Ebs. cbn [obind]. rewrite <- Eds in Hbs.
  set (st2 := st1 + ob). pose proof (lk_jnl _ _ (ll_ok _ W 3 ltac:(done))) as Zj.
  destruct (wr (lg_jnl l).[3] kbytes_ofs (le_put 8 (e_kbytes e))) as [j| |] eqn:Ej; try (rewrite wr_ok in Ej by (rewrite ?zlen_le_put; lia); done). cbn [obind].
  pose proof (jnl_write_ok l 3 j W ltac:(by rewrite (zlen_wr _ _ _ _ Ej))) as W'. set (l' := l <| lg_jnl ::= _ |>) in *.
  set (hd := number_from st (ckpt_blocks g (ckpt s))). assert (forall a b, (a, b) ∈ hd -> st <= a < st1 /\ b = ckpt_block (ckpt s) (a - st)) as Hhd.
  { intros a b [Ha ->]%in_number_from. rewrite zlen_ckpt_blocks in Ha by done. unfold st1. split; [lia|]. apply ckpt_blocks_get. lia. }
  assert (forall a b, (a, b) ∈ number_from st2 bs -> st2 <= a < st2 + ds) as Hdat by (intros a b Hr%number_from_range; lia).
  destruct (node_pages_ok l' reason hd os (number_from st2 bs) (st2 + ds) W') as (ns & Ens & Hns). rewrite Ens.
  replace (st2 + ds + node_blocks reason) with (st + pack_blocks reason ds ob - 1) in * by (unfold pack_blocks, node_blocks, st2, st1; lia).
  exists (hd ++ os ++ number_from st2 bs ++ ns), l'. split; [done|]. pose proof (refl_equal (pack_blocks reason ds ob)) as Hpb. unfold pack_blocks in Hpb at 2.
  assert (0 <= (if __remain_node_summaries reason then NR_CURSEG_NODE_TYPE else 0)) by (destruct (__remain_node_summaries _); done). split.
  - intros a b [Hin|[Hin|[Hin|Hin]%elem_of_app]%elem_of_app]%elem_of_app.
    + destruct (Hhd a b Hin) as [Ha ->]. unfold st1 in *. split; [lia|done].
    + specialize (Ho a b Hin). unfold st1 in *. split; lia.
    + specialize (Hdat a b Hin). unfold st2, st1 in *. split; lia.
    + specialize (Hns a b Hin). unfold st2, st1 in *. split; lia.
  - intros i Hi. apply elem_of_app. left. apply in_number_from. rewrite zlen_ckpt_blocks by done. split; [lia|]. rewrite ckpt_blocks_get by lia. f_equal. lia.
Qed.

(** ** do_checkpoint writes a pack *)

Context (Hpacks : F2FS_CP_PACKS = 2) (Hentries : cp_bps g = ENTRIES_IN_SUM).

(** The requests are a pack, or a part of it when an error stops the checkpoint. *)
Record shape (e : cp_env) (s : cp_state) (err : Z) (s' : cp_state) (ios : list cp_io) (c : list Z) (pre : list cp_io) (last : Z) : Prop := {
  sh_writes : pack_writes g (__set_cp_next_pack (cur_cp_pack s)) (cur_cp_version (ckpt s)) c pre last;
  sh_ckpt : ckpt s' = c \/ forall a b, IoWrite a b ∈ pre -> outside g a;
  sh_cases : ios = pre /\ err <> 0 \/
    ios = pre ++ commit_checkpoint (e_nobarrier e) c last ++ [IoWait] /\ (exists pre0, pre = pre0 ++ [IoWait]) /\ ckpt s' = c /\ (err = 0 -> cur_cp_pack s' = __set_cp_next_pack (cur_cp_pack s)) /\
    forall i, 0 <= i < 1 + __cp_payload g -> IoWrite (pack_start g (__set_cp_next_pack (cur_cp_pack s)) + i) (ckpt_block c i) ∈ pre;
}.
Lemma mem_room e l s : vol_ok g -> mem_ok e l s -> room_ok g e (ckpt s).
Proof.
  intros V M. pose proof (vo_payload _ V). assert (BLKSIZE <= zlen (ckpt s)) by (rewrite (mo_size _ _ _ M); change BLKSIZE with 4096; lia).
  destruct M. split; try done. intros b. by apply bitmap_ptr_low.
Qed.
Lemma in_writes io (ios : list cp_io) a b : IoWrite a b ∈ io ++ ios <-> IoWrite a b ∈ io \/ IoWrite a b ∈ ios.
Proof. apply elem_of_app. Qed.
(** The total and the position of the last block *)
Lemma prepared_total e l reason s s' ds ob : vol_ok g -> mem_ok e l s -> prepared g e l reason s s' ds ob ->
  ob = GET_ORPHAN_BLOCKS (ino_num (im (cp_ino s)).[ORPHAN_INO]) /\ pack_total (ckpt_block (ckpt s') 0) = pack_blocks reason ds ob /\
  2 + __cp_payload g <= pack_blocks reason ds ob <= cp_bps g.
Proof.
  intros V M R. pose proof (vo_payload _ V). pose proof (mo_num _ _ _ M) as Hn. rewrite Hpacks in Hn. pose proof (zlen_nonneg (ino_list (im (cp_ino s)).[ORPHAN_INO])).
  assert (0 <= ino_num (im (cp_ino s)).[ORPHAN_INO]) as Hn0 by lia. pose proof (orphan_blocks_room _ _ (conj Hn0 (proj2 Hn))) as Hob. pose proof (npages_range (cp_bps g) (ckpt s') l false) as Hds. rewrite <- (pp_ds _ _ _ _ _ _ _ _ R) in Hds.
  unfold NR_CURSEG_TYPE in Hob. pose proof (vo_top _ V). pose proof (vo_cp _ V).
  assert (ob = GET_ORPHAN_BLOCKS (ino_num (im (cp_ino s)).[ORPHAN_INO])) as Eob by (rewrite (pp_ob _ _ _ _ _ _ _ _ R); apply u32_id; lia).
  rewrite <- Eob in Hob. rewrite (pp_total _ _ _ _ _ _ _ _ R), Hpacks. fold (pack_blocks reason ds ob).
  assert (2 + __cp_payload g <= pack_blocks reason ds ob <= cp_bps g) by (unfold pack_blocks, NR_CURSEG_NODE_TYPE; destruct (__remain_node_summaries _); lia).
  split; [done|]. split; [apply u32_id; lia|done].
Qed.
(** The NAT bits go behind the pack. *)
Lemma bits_behind e l reason s s' ds ob crc : vol_ok g -> mem_ok e l s -> prepared g e l reason s s' ds ob ->
  let next := pack_start g (__set_cp_next_pack (cur_cp_pack s)) in
  exists bits, (if enabled_nat_bits (ckpt s') reason then put_nat_bits g s' crc next else Done []) = Done bits /\
    forall a b, (a, b) ∈ bits -> next + pack_blocks reason ds ob <= a < next + cp_bps g.
Proof.
  intros V M R next. destruct (enabled_nat_bits (ckpt s') reason) eqn:E; [|exists []; split; [done|by intros a b ?%elem_of_nil]].
  destruct (pp_bits _ _ _ _ _ _ _ _ R E) as (Eb & Ef & Ht). destruct (mo_bits _ _ _ M Ef) as (b & bits & Es & H8 & Hz & Hle).
  destruct (prepared_total e l reason s s' ds ob V M R) as (_ & Et & Hr). rewrite Et in Ht. unfold put_nat_bits. rewrite Eb, Es.
  destruct (wr b 0 _) as [b'| |] eqn:Ew; try (rewrite wr_ok in Ew by (rewrite ?zlen_le_put; lia); done). cbn [obind]. eexists. split; [done|].
  rewrite (sc_blocks _ _ (pp_same _ _ _ _ _ _ _ _ R)). rewrite zlen_cons in Hz. pose proof (zlen_nonneg bits). pose proof (vo_top _ V). pose proof (vo_cp _ V).
  rewrite u32_id in Ht by lia. destruct (next_pack _ (mo_pack _ _ _ M)) as [Hn _].
  assert (0 <= next <= cp_blkaddr g + cp_bps g) by (unfold next, pack_start; destruct (_ =? 2); lia).
  intros a x Hin%number_from_range. rewrite zlen_cons in Hin. rewrite u32_id in Hin by lia. lia.
Qed.

Lemma pack_writes_sub pack v c (pre pre' : list cp_io) last : (forall x, x ∈ pre' -> x ∈ pre) -> pack_writes g pack v c pre last -> pack_writes g pack v c pre' last.
Proof. intros Hs [W1 W2 W3 W4 W5 W6]. split; try done; [by intros ?%Hs|]. intros a b Hin. by apply W6, Hs. Qed.
Lemma pack_writes_wait pack v c (pre : list cp_io) last : pack_writes g pack v c pre last -> pack_writes g pack v c (pre ++ [IoWait]) last.
Proof.
  intros [W1 W2 W3 W4 W5 W6]. split; try done.
  - rewrite not_elem_of_app. split; [done|]. by intros ?%list_elem_of_singleton.
  - intros a b [Hin|Hin%list_elem_of_singleton]%elem_of_app; [by apply W6|done].
Qed.
Lemma mem_synced e l s : mem_ok e l s -> mem_ok e l (s <| dirty_meta := ∅ |>).
Proof. intros []. by split. Qed.
(** The pages made dirty for the pack, once they are written *)
Lemma synced_pages (s : cp_state) ps a b : dirty_meta s = ∅ -> IoWrite a b ∈ snd (f2fs_sync_meta_pages (update_meta_pages s ps)) -> (a, b) ∈ ps.
Proof.
  intros Hd Hin%sync_in. rewrite update_meta_eq in Hin. cbn in Hin. rewrite Hd in Hin. apply make_dirty_in in Hin as [Hin|?]; [by rewrite lookup_empty in Hin|done].
Qed.
Lemma page_synced (s : cp_state) ps a b : (a, b) ∈ ps -> (forall b', (a, b') ∈ ps -> b' = b) -> IoWrite a b ∈ snd (f2fs_sync_meta_pages (update_meta_pages s ps)).
Proof. intros Hin Hu. apply sync_in. rewrite update_meta_eq. cbn. by apply make_dirty_unique. Qed.

(** The requests before the last block *)
Definition pack_ios (s s1 : cp_state) (bits ps : list (Z * list Z)) : list cp_io :=
  let s2 := update_meta_pages s1 bits in
  snd (f2fs_sync_meta_pages s) ++ snd (f2fs_sync_meta_pages s2) ++ snd (f2fs_sync_meta_pages (update_meta_pages (s2 <| dirty_meta := ∅ |>) ps)).
Lemma pack_ios_ok e l reason s s1 ds ob bits ps : vol_ok g -> mem_ok e l s -> prepared g e l reason (s <| dirty_meta := ∅ |>) s1 ds ob ->
  let next := pack_start g (__set_cp_next_pack (cur_cp_pack s)) in
  (forall a b, (a, b) ∈ bits -> next + pack_blocks reason ds ob <= a < next + cp_bps g) ->
  (forall a b, (a, b) ∈ ps -> next <= a < next + pack_blocks reason ds ob - 1 /\ (a < next + 1 + __cp_payload g -> b = ckpt_block (ckpt s1) (a - next))) ->
  pack_writes g (__set_cp_next_pack (cur_cp_pack s)) (cur_cp_version (ckpt s)) (ckpt s1) (pack_ios s s1 bits ps) (next + pack_blocks reason ds ob - 1).
Proof.
  intros V M R next Hbits Hps. destruct (prepared_total _ _ _ _ _ _ _ V (mem_synced _ _ _ M) R) as (_ & Et & Hr).
  pose proof (vo_payload _ V) as P. assert (dirty_meta s1 = ∅) as Hd1 by (rewrite (sc_dirty _ _ (pp_same _ _ _ _ _ _ _ _ R)); done). split.
  - unfold pack_ios. rewrite !elem_of_app. intros [Hin|[Hin|Hin]]; by apply sync_flush in Hin.
  - rewrite (pp_size _ _ _ _ _ _ _ _ R). apply (mo_size _ _ _ M).
  - apply (pp_sealed _ _ _ _ _ _ _ _ R).
  - rewrite Et. done.
  - by rewrite Et.
  - intros a b. unfold pack_ios. rewrite !in_writes. intros [Hin|[Hin|Hin]].
    + left. apply (mo_dirty _ _ _ M a b). by apply sync_in.
    + right. apply synced_pages in Hin; [|done]. specialize (Hbits a b Hin). fold next. split; [lia|]. split; [lia|intros; exfalso; lia].
    + right. apply synced_pages in Hin; [|done]. destruct (Hps a b Hin) as [Ha Hb]. fold next. split; [lia|]. split; [lia|done].
Qed.
(** The first blocks are among them. *)
Lemma head_written s s1 bits ps next hi :
  (forall a b, (a, b) ∈ ps -> next <= a < hi /\ (a < next + 1 + __cp_payload g -> b = ckpt_block (ckpt s1) (a - next))) ->
  (forall i, 0 <= i < 1 + __cp_payload g -> (next + i, ckpt_block (ckpt s1) i) ∈ ps) ->
  forall i, 0 <= i < 1 + __cp_payload g -> IoWrite (next + i) (ckpt_block (ckpt s1) i) ∈ pack_ios s s1 bits ps.
Proof.
  intros Hps Hhd i Hi. unfold pack_ios. apply elem_of_app. right. apply elem_of_app. right. apply page_synced; [by apply Hhd|].
  intros b' Hb'. destruct (Hps _ _ Hb') as [_ ->]; [f_equal; lia|lia].
Qed.
(** The NAT bits are written, if they are enabled. *)
Lemma bits_synced e reason (s1 : cp_state) crc next bits : dirty_meta s1 = ∅ ->
  (if enabled_nat_bits (ckpt s1) reason then put_nat_bits g s1 crc next else Done []) = Done bits ->
  exists err, (if enabled_nat_bits (ckpt s1) reason then
      bits <-- put_nat_bits g s1 crc next ;; sync_dirty_meta 2 (e_bits_err e) (update_meta_pages s1 bits) []
    else Done (false, s1, [])) = Done (err, (update_meta_pages s1 bits) <| dirty_meta := ∅ |>, snd (f2fs_sync_meta_pages (update_meta_pages s1 bits))).
Proof.
  intros Hd. destruct (enabled_nat_bits _ _).
  - intros ->. cbn [obind]. rewrite sync_dirty_eq. by eexists.
  - intros [= <-]. exists false. cbn. rewrite Hd, map_to_list_empty. do 3 f_equal. destruct s1. cbn in *. by subst.
Qed.
Lemma do_checkpoint_shape e l reason s : vol_ok g -> cp_bps g < 65536 -> mem_ok e l s ->
  exists err s' l' ios c pre last, do_checkpoint kbytes_ofs g e l reason s = Done (err, s', l', ios) /\ shape e s err s' ios c pre last.
Proof.
  intros V Hb16 M. pose proof (mem_synced e l s M) as M0. pose proof (vo_payload _ V) as P. set (next := pack_start g (__set_cp_next_pack (cur_cp_pack s))).
  assert (0 <= cp_bps g) as Hb0. { rewrite (vo_bps _ V). apply Z.pow_nonneg. lia. }
  destruct (prepare_pack_ok g e l reason (s <| dirty_meta := ∅ |>) (mem_room e l _ V M0)) as (s1 & ds & ob & crc & E1 & R). pose proof (pp_same _ _ _ _ _ _ _ _ R) as S1.
  destruct (bits_behind e l reason _ s1 ds ob crc V M0 R) as (bits & Ebits & Hbits). change (cur_cp_pack (s <| dirty_meta := ∅ |>)) with (cur_cp_pack s) in *. fold next in Ebits, Hbits.
  destruct (prepared_total _ _ _ _ _ _ _ V M0 R) as (Eob & Et & Hr). set (s2 := update_meta_pages s1 bits). set (s3 := s2 <| dirty_meta := ∅ |>).
  assert (ckpt s3 = ckpt s1 /\ cp_ino s3 = cp_ino s1 /\ cur_cp_pack s3 = cur_cp_pack s) as (C3 & I3 & K3).
  { unfold s3, s2. rewrite update_meta_eq. split; [done|]. split; [done|]. apply (sc_pack _ _ S1). }
  pose proof (sc_im _ _ S1) as Him. change (cp_ino (s <| dirty_meta := ∅ |>)) with (cp_ino s) in *.
  destruct (pack_pages_ok e l reason s3 next ds ob P Hentries ltac:(lia)) as (ps & l' & Eps & Hps & Hhd); try (rewrite ?C3, ?I3, ?Him; apply M || done).
  { rewrite C3. apply R. } { rewrite C3. apply R. }
  rewrite C3 in Hps, Hhd. pose proof (pack_ios_ok e l reason s s1 ds ob bits ps V M R Hbits Hps) as W. fold next in W.
  set (ios3 := pack_ios s s1 bits ps) in *. set (last := next + pack_blocks reason ds ob - 1) in *.
  unfold do_checkpoint. rewrite sync_dirty_eq. cbn [obind]. destruct (_ && e_sync_err e) eqn:Ee0.
  { eexists _, _, _, _, (ckpt s1), (snd (f2fs_sync_meta_pages s)), last. split; [done|]. split; [|right|by left].
    - eapply pack_writes_sub; [|exact W]. intros x Hx. apply elem_of_app. by left.
    - intros a b Hin%sync_in. by apply (mo_dirty _ _ _ M a b). }
  rewrite E1. cbn [obind]. assert (__start_cp_next_addr g (cur_cp_pack s1) = next) as ->.
  { rewrite (sc_pack _ _ S1). change (cur_cp_pack (s <| dirty_meta := ∅ |>)) with (cur_cp_pack s). apply start_addr; [done|apply M]. }
  destruct (bits_synced e reason s1 crc next bits (sc_dirty _ _ S1) Ebits) as [err1 Er1]. fold s2 in Er1. fold s3 in Er1. rewrite Er1. clear Er1. cbn [obind]. destruct err1.
  { eexists _, _, _, _, (ckpt s1), _, last. split; [done|]. split; [|left; exact C3|by left].
    eapply pack_writes_sub; [|exact W]. intros x. unfold ios3, pack_ios. fold s2. rewrite !elem_of_app. tauto. }
  rewrite Eps. cbn [obind]. rewrite (sync_eq (update_meta_pages s3 ps)). cbv beta iota.
  replace (snd (f2fs_sync_meta_pages s) ++ snd (f2fs_sync_meta_pages s2) ++ snd (f2fs_sync_meta_pages (update_meta_pages s3 ps)) ++ [IoWait]) with (ios3 ++ [IoWait])
    by (unfold ios3, pack_ios; by rewrite <- !app_assoc).
  apply pack_writes_wait in W.
  assert (ckpt (update_meta_pages s3 ps) = ckpt s1 /\ cur_cp_pack (update_meta_pages s3 ps) = cur_cp_pack s) as [C4 K4] by (rewrite update_meta_eq; done).
  destruct (e_pack_err e); [eexists _, _, _, _, (ckpt s1), (ios3 ++ [IoWait]), last; split; [done|]; split; [done|left; exact C4|by left]|].
  destruct (nz (e_flush e)) eqn:Ef.
  { eexists _, _, _, _, (ckpt s1), (ios3 ++ [IoWait]), last. split; [done|]. split; [done|left; exact C4|left]. split; [done|]. intros E0. by rewrite E0 in Ef. }
  change (ckpt ((update_meta_pages s3 ps) <| dirty_meta := ∅ |>)) with (ckpt (update_meta_pages s3 ps)). rewrite C4.
  pose proof (head_written s s1 bits ps next (next + pack_blocks reason ds ob - 1) Hps Hhd) as Hin. fold ios3 in Hin.
  destruct (e_commit_err e); eexists _, _, _, _, (ckpt s1), (ios3 ++ [IoWait]), last; (split; [done|]); (split; [done|left; exact C4|right]);
    (split; [done|]); (split; [by exists ios3|]); (split; [exact C4|]); (split; [|intros i Hi; apply elem_of_app; left; by apply Hin]).
  - done.
  - intros _. by rewrite <- K4.
Qed.

Lemma version_block_0 c v : BLKSIZE <= zlen c -> blk_version (ckpt_block c 0) = Some v -> cur_cp_version c = v.
Proof.
  intros Hc. unfold blk_version, get_checkpoint_version. destruct (_ <? _); [done|]. destruct (cur_cp_crc _); cbn [obind]; try done.
  destruct (negb _); [done|]. unfold cur_cp_version. rewrite cp_get_block_0 by done. congruence.
Qed.
Lemma plain_sub c (ios ios' : list cp_io) : (forall x, x ∈ ios' -> x ∈ ios) -> plain_writes g c ios -> plain_writes g c ios'.
Proof. intros Hs Hp a b Hin. by apply Hp, Hs. Qed.
Lemma shape_plain e s err s' ios c pre last : shape e s err s' ios c pre last -> plain_writes g (ckpt s') ios -> plain_writes g c pre.
Proof.
  intros [W Hc Hs] Hp. assert (forall x, x ∈ pre -> x ∈ ios) as Hsub.
  { intros x Hx. destruct Hs as [[-> _]|[-> _]]; [done|]. apply elem_of_app. by left. }
  destruct Hc as [<-|Ho]; [by apply (plain_sub _ ios)|]. intros a b Hin. destruct (Hp a b (Hsub _ Hin)) as [Hb _]. split; [done|]. left. by apply (Ho a b).
Qed.

(** C3. A checkpoint that do_checkpoint writes to the SSD is atomic.  From a valid pack of
    version [v] do_checkpoint always returns.  With barriers, wherever the power fails in
    its requests the next mount either finds exactly the old checkpoint, whose pack is
    unchanged, or the whole new pack is on the disk and the mount loads the checkpoint that
    was in memory, with version [v + 1].  After success (with NOBARRIER too) the mount
    loads the new one, and the disk is again as it has to be for the next checkpoint.
    The blocks written must be such that none of them but the checkpoint block passes,
    inside a pack, the check of a checkpoint block ([plain_writes]): a block that imitates
    one with its 32-bit checksum is excluded.  Checkpoints that f2fs_write_checkpoint sends
    to the NVM instead (bnvm_do_checkpoint) are not meant. *)
Theorem do_checkpoint_atomic e l reason s d v : vol_ok g -> cp_bps g < 65536 -> mem_ok e l s ->
  disk_ok g d (cur_cp_pack s) v -> cur_cp_version (ckpt s) = v + 1 -> v + 1 < 2 ^ 63 ->
  exists err s' l' ios, do_checkpoint kbytes_ofs g e l reason s = Done (err, s', l', ios) /\ (plain_writes g (ckpt s') ios ->
    (e_nobarrier e = false -> forall d', crash_image d ios d' ->
       (f2fs_get_valid_checkpoint g d' = f2fs_get_valid_checkpoint g d /\
        forall k, 0 <= k < cp_bps g -> d' (pack_start g (cur_cp_pack s) + k) = d (pack_start g (cur_cp_pack s) + k)) \/
       ((forall a, d' a = settle d ios a) /\ f2fs_get_valid_checkpoint g d' = mount_of g (ckpt s') (__set_cp_next_pack (cur_cp_pack s)) /\
        cur_cp_version (ckpt s') = v + 1)) /\
    (err = 0 -> let d' := settle d ios in
       f2fs_get_valid_checkpoint g d' = mount_of g (ckpt s') (cur_cp_pack s') /\ disk_ok g d' (cur_cp_pack s') (v + 1) /\ cur_cp_version (ckpt s') = v + 1)).
Proof.
  intros V Hb16 M D Ev Hv. destruct (do_checkpoint_shape e l reason s V Hb16 M) as (err & s' & l' & ios & c & pre & last & E & S).
  exists err, s', l', ios. split; [done|]. intros Hp. pose proof (shape_plain _ _ _ _ _ _ _ _ S Hp) as Hpl. destruct S as [W _ Hs]. rewrite Ev in W.
  pose proof (pw_flush _ _ _ _ _ _ W) as Hf. pose proof (do_pack _ _ _ _ D) as Hpk. destruct (next_pack _ Hpk) as [Hn _].
  assert (forall d', interrupted d pre last d' -> f2fs_get_valid_checkpoint g d' = f2fs_get_valid_checkpoint g d /\
    forall k, 0 <= k < cp_bps g -> d' (pack_start g (cur_cp_pack s) + k) = d (pack_start g (cur_cp_pack s) + k)) as Hold.
  { intros d' Hi. by apply (interrupted_old g d (cur_cp_pack s) v c pre last). }
  destruct Hs as [[-> He]|(-> & [pre0 Epre] & Hc & Hpack & Hhead)].
  { split; [|done]. intros _ d' Hi. left. apply Hold. by apply crash_writes. }
  assert (cur_cp_version c = v + 1) as Hver. { apply version_block_0; [|apply W]. by apply (size_pos g (cur_cp_pack s) v c pre last). }
  assert (forall d', (forall a, d' a = settle d (pre ++ commit_checkpoint (e_nobarrier e) c last ++ [IoWait]) a) ->
    f2fs_get_valid_checkpoint g d' = mount_of g c (__set_cp_next_pack (cur_cp_pack s)) /\ disk_ok g d' (__set_cp_next_pack (cur_cp_pack s)) (v + 1)) as Hnew.
  { intros d' Hd. assert (disk_ok g d' (__set_cp_next_pack (cur_cp_pack s)) (v + 1)) as D' by (by apply (complete_disk_ok g d (cur_cp_pack s) v c pre last) with (nobarrier := e_nobarrier e)).
    split; [|done]. pose proof (pw_total _ _ _ _ _ _ W). apply mounts_as; try done; [lia|apply W| |by apply (current_found g d' _ (v + 1))].
    intros i Hi. by apply (complete_head g d (cur_cp_pack s) v c pre last) with (nobarrier := e_nobarrier e). }
  rewrite Hc. split.
  - intros Hb d' Hi. rewrite Hb in *. rewrite Epre in *. apply not_elem_of_app in Hf as [Hf _].
    destruct (crash_commit d pre0 last _ d' Hf Hi) as [Hi'|Hall]; [left; by apply Hold|]. right. split; [done|]. split; [|done]. by apply Hnew.
  - intros He. rewrite (Hpack He). by destruct (Hnew (settle d (pre ++ commit_checkpoint (e_nobarrier e) c last ++ [IoWait])) ltac:(done)).
Qed.
End pages.
