(* ===== verification/CkptDemo.v ===== *)
(** * A small volume that takes a checkpoint

    The format of the Linux kernel as instances of the format classes, and examples on
    which the theorems about checkpoints and summaries are applied. *)
From stdpp Require Import gmap.
From S2P Require Import Prelude Geometry Sit Victim Curseg Alloc Bytes Mpt MptFlush Orphan OrphanProps Super SuperProps Ckpt Summaries SummaryProps DoCkpt CkptCrash CkptProps.
Open Scope Z_scope.

(** f2fs_crc32: CRC-32 bit by bit, from the least significant one, with the magic number
    of the superblock as the seed *)
Fixpoint crc_bits (n : nat) (crc : Z) : Z :=
  match n with O => crc | S n => crc_bits n (if Z.odd crc then Z.lxor (Z.shiftr crc 1) 3988292384 else Z.shiftr crc 1) end.
Definition crc_byte (crc x : Z) : Z := crc_bits 8 (Z.lxor crc x).
Definition linux_crc32 (l : list Z) : Z := u32 (fold_left crc_byte l F2FS_SUPER_MAGIC).

#[export] Instance linux_ckpt : CpFormat := {|
  cp_off f := match f with
    | checkpoint_ver => 0 | user_block_count => 8 | valid_block_count => 16 | rsvd_segment_count => 24 | overprov_segment_count => 28
    | free_segment_count => 32 | cur_node_segno i => 36 + 4 * i | cur_node_blkoff i => 68 + 2 * i | cur_data_segno i => 84 + 4 * i
    | cur_data_blkoff i => 116 + 2 * i | ckpt_flags => 132 | cp_pack_total_block_count => 136 | cp_pack_start_sum => 140
    | valid_node_count => 144 | valid_inode_count => 148 | next_free_nid => 152 | sit_ver_bitmap_bytesize => 156
    | nat_ver_bitmap_bytesize => 160 | checksum_offset => 164 | elapsed_time => 168 | ck_alloc_type i => 176 + i end;
  sit_nat_version_bitmap := 192;
  CP_UMOUNT_FLAG := 1; CP_ORPHAN_PRESENT_FLAG := 2; CP_COMPACT_SUM_FLAG := 4; CP_ERROR_FLAG := 8; CP_FSCK_FLAG := 16; CP_FASTBOOT_FLAG := 32;
  CP_CRC_RECOVERY_FLAG := 64; CP_NAT_BITS_FLAG := 128; CP_TRIMMED_FLAG := 256; CP_NOCRC_RECOVERY_FLAG := 512; CP_LARGE_NAT_BITMAP_FLAG := 1024;
  f2fs_crc32 := linux_crc32;
|}.
#[export] Instance linux_ckpt_ok : CpFormatOk.
Proof.
  split.
  - intros f Hf. assert (exists n, n ∈ seqZ 0 13 /\ f = 2 ^ n) as (n & Hn%elem_of_seqZ & ->).
    { unfold cp_flags in Hf. repeat (apply elem_of_cons in Hf as [->|Hf];
        [first [exists 0; by vm_compute|match goal with |- exists n, _ /\ ?x = _ => exists (Z.log2 x) end; split; [apply elem_of_seqZ; by vm_compute|by vm_compute]]|]).
      by apply elem_of_nil in Hf. }
    exists n. split; [lia|done].
  - apply (bool_decide_unpack (NoDup cp_flags)). by vm_compute.
  - intros f g Hf Hg Hn. destruct f, g; cbn in *; try (by destruct Hn); try lia;
      (assert (i <> i0) by (intros ->; by destruct Hn)); lia.
  - intros f Hf. destruct f; cbn in *; lia.
  - done.
  - intros l. apply u32_range.
Qed.

#[export] Instance linux_sums : SumLayout := {| SUMMARY_SIZE := 7; ENTRIES_IN_SUM := 512; SUM_JOURNAL_SIZE := 507; SUM_FOOTER_SIZE := 5; sum_ver_ofs := 4 |}.
#[export] Instance linux_sums_ok : SumLayoutOk.
Proof. by split. Qed.
#[local] Instance linux_sum_types : SumFormat := {| SUM_TYPE_NODE := 1; SUM_TYPE_DATA := 0 |}.

(** ** The volume of SuperProps with its logs *)

Definition demo_geo : cp_geo := {| cg_sbi := init_sb_info demo_raw; cg_raw := demo_raw |}.
Lemma demo_vol_ok : vol_ok demo_geo.
Proof. by split. Qed.
(** Log [t] is in segment [2 * t] and has filled [t + 1] blocks; its entries hold [t]. *)
Definition demo_log (t : Z) : curseg_info :=
  mk_curseg (mk_sum (replicate 512 (replicate 7 t)) (if t <? 3 then 0 else 1) 0) LFS (2 * t) (t + 1) (2 * t) NULL_SEGNO.
Definition demo_logs : logs := mk_logs (alloc_demo <| cursegs := map demo_log [0; 1; 2; 3; 4; 5] |>) (replicate 6 (zeros 507)).
Lemma six (P : Z -> Prop) : P 0 -> P 1 -> P 2 -> P 3 -> P 4 -> P 5 -> forall i, 0 <= i < 6 -> P i.
Proof. intros. assert (i = 0 \/ i = 1 \/ i = 2 \/ i = 3 \/ i = 4 \/ i = 5) as Hi by lia. by repeat destruct Hi as [->|Hi]; [..|subst]. Qed.
Lemma demo_logs_ok : logs_ok demo_logs.
Proof.
  split; [done|done|]. apply (six (log_ok demo_logs)); (split; [done|apply Forall_replicate; done|done]).
Qed.
Lemma demo_offsets_ok : offsets_ok 512 demo_logs.
Proof. unfold offsets_ok. apply six; by vm_compute. Qed.

(** A checkpoint block of version [v] whose pack has three blocks *)
Definition demo_fields (v : Z) : list Z :=
  fold_left (fun c p => cp_put c (fst p) (snd p))
    [(checkpoint_ver, v); (rsvd_segment_count, 6); (overprov_segment_count, 8); (ckpt_flags, 0); (cp_pack_total_block_count, 3); (cp_pack_start_sum, 1);
     (sit_ver_bitmap_bytesize, 64); (nat_ver_bitmap_bytesize, 64); (checksum_offset, 4092)] (put_logs demo_logs (zeros 4096)).
Definition demo_block (v : Z) : list Z := blit (demo_fields v) 4092 (le_put 4 (linux_crc32 (take 4092 (demo_fields v)))).

(** ** A checkpoint at unmount *)

(** Pack 1 has version 1; everything else on the disk is zero. *)
Definition demo_disk : disk := fun a => if (a =? 512) || (a =? 514) then demo_block 1 else zeros 4096.
(** An orphan is open, a block of the SIT area is dirty, and the version is already increased. *)
Definition demo_cps : cp_state := {|
  ckpt := cp_put (demo_block 1) checkpoint_ver 2; cur_cp_pack := 1;
  cp_ino := demo_isb <| im := [mk_im [mk_ino 9 0] 1; mk_im [] 0; mk_im [] 0; mk_im [] 0; mk_im [] 0] |>;
  nat_bits := None; nat_bits_blocks := 0; dirty_meta := {[1536 := zeros 4096]}; sbi_is_dirty := true; sbi_need_cp := true; nsb_dirty := true;
|}.
Definition demo_env : cp_env := {|
  e_mtime := 100; e_free_segments := 7; e_sit_bitmap := replicate 64 85; e_nat_bitmap := replicate 64 170; e_kbytes := 12;
  e_sync_err := false; e_bits_err := false; e_pack_err := false; e_commit_err := false; e_flush := 0; e_redirty := false; e_nobarrier := false;
|}.

Definition byte_b (x : Z) : bool := (0 <=? x) && (x <? 256).
Lemma bytes_b (l : list Z) : forallb byte_b l = true -> Forall (fun x => 0 <= x < 256) l.
Proof. intros Hb. apply List.Forall_forall. intros x Hx. rewrite forallb_forall in Hb. specialize (Hb x Hx). unfold byte_b in Hb. lia. Qed.
Definition blk_ok_b (b : list Z) : bool := (zlen b =? BLKSIZE) && forallb byte_b b.
Lemma blk_ok_dec b : blk_ok_b b = true -> blk_ok b.
Proof. intros [Hz Hb]%andb_prop. split; [by apply Z.eqb_eq|by apply bytes_b]. Qed.
(** [plain_writes] as a test *)
Definition plain_b (g : cp_geo) (c : list Z) (ios : list cp_io) : bool :=
  forallb (fun io => match io with
    | IoWrite a b => blk_ok_b b && ((a <? cp_blkaddr g) || (cp_blkaddr g + 2 * cp_bps g <=? a) ||
                       match blk_version b with None => true | Some _ => bool_decide (b = ckpt_block c 0) end)
    | _ => true end) ios.
Lemma plain_dec g c ios : plain_b g c ios = true -> plain_writes g c ios.
Proof.
  intros Hp a b Hin%list_elem_of_In. unfold plain_b in Hp. rewrite forallb_forall in Hp. specialize (Hp _ Hin). cbn beta iota in Hp.
  apply andb_prop in Hp as [Hb Hp]. split; [by apply blk_ok_dec|]. apply orb_prop in Hp as [Hp|Hp]; [left; unfold outside; lia|right].
  destruct (blk_version b); [right; by apply bool_decide_eq_true in Hp|by left].
Qed.

Lemma demo_version : blk_version (demo_block 1) = Some 1.
Proof. by vm_compute. Qed.
Lemma zero_version : blk_version (zeros 4096) = None.
Proof. by vm_compute. Qed.
Lemma demo_disk_version a w : blk_version (demo_disk a) = Some w -> w = 1.
Proof. unfold demo_disk. destruct (_ || _); rewrite ?demo_version, ?zero_version; congruence. Qed.
Lemma demo_disk_ok : disk_ok demo_geo demo_disk 1 1.
Proof.
  split.
  - by left.
  - intros a. unfold demo_disk. destruct (_ || _); apply blk_ok_dec; by vm_compute.
  - exact demo_version.
  - by vm_compute.
  - by vm_compute.
  - intros w. change (demo_disk _) with (zeros 4096). by rewrite zero_version.
  - intros p k w _ _ Hw. apply demo_disk_version in Hw. lia.
Qed.
Lemma demo_mem_ok : mem_ok 2 demo_geo demo_env demo_logs demo_cps.
Proof.
  split.
  - by left.
  - by vm_compute.
  - apply bytes_b. by vm_compute.
  - by vm_compute.
  - by vm_compute.
  - by vm_compute.
  - by repeat constructor.
  - by vm_compute.
  - exact demo_logs_ok.
  - exact demo_offsets_ok.
  - by vm_compute.
  - intros Hf. by vm_compute in Hf.
  - intros a b. cbn [dirty_meta demo_cps]. intros [<- _]%lookup_singleton_Some. right. by vm_compute.
Qed.
(** The run, evaluated: it succeeds, its requests are as [plain_writes] asks, and the
    checkpoint passes the checks of the mount. *)
Lemma demo_ckpt_run : match do_checkpoint 2 demo_geo demo_env demo_logs CP_UMOUNT demo_cps with
  | Done (err, s', _, ios) => (err =? 0) && plain_b demo_geo (ckpt s') ios && (cur_cp_pack s' =? 2) &&
      negb (f2fs_sanity_check_ckpt demo_raw 512 (cp_fields_of (ckpt_block (ckpt s') 0)))
  | _ => false end = true.
Proof. by vm_compute. Qed.

Lemma do_checkpoint_atomic_witness : exists s' l' ios,
  do_checkpoint 2 demo_geo demo_env demo_logs CP_UMOUNT demo_cps = Done (0, s', l', ios) /\
  f2fs_get_valid_checkpoint demo_geo (settle demo_disk ios) = Done (inr (ckpt s', 2)) /\ cur_cp_version (ckpt s') = 2 /\
  forall d', crash_image demo_disk ios d' ->
    f2fs_get_valid_checkpoint demo_geo d' = f2fs_get_valid_checkpoint demo_geo demo_disk \/ f2fs_get_valid_checkpoint demo_geo d' = Done (inr (ckpt s', 2)).
Proof.
  assert (cp_bps demo_geo < 65536) as Hb by (by vm_compute). assert (cur_cp_version (ckpt demo_cps) = 1 + 1) as Hcv by (by vm_compute).
  assert (1 + 1 < 2 ^ 63) as Hmax by (by vm_compute). assert (cp_bps demo_geo = ENTRIES_IN_SUM) as He by (by vm_compute). assert (F2FS_CP_PACKS = 2) as Hpk by done.
  destruct (do_checkpoint_atomic 2 demo_geo Hpk He demo_env demo_logs CP_UMOUNT demo_cps demo_disk 1 demo_vol_ok Hb demo_mem_ok demo_disk_ok Hcv Hmax) as (err & s' & l' & ios & E & Hx). exists s', l', ios. pose proof demo_ckpt_run as Hr. rewrite E in Hr.
  apply andb_prop in Hr as [Hr Hs]. apply andb_prop in Hr as [Hr Hk%Z.eqb_eq]. apply andb_prop in Hr as [He0%Z.eqb_eq Hp%plain_dec].
  destruct (Hx Hp) as [Hc Hd]. destruct (Hd He0) as (Hm & _ & Hv). rewrite Hk in Hm.
  assert (mount_of demo_geo (ckpt s') 2 = Done (inr (ckpt s', 2))) as Hmo.
  { unfold mount_of. change (cg_raw demo_geo) with demo_raw. change (cp_bps demo_geo) with 512. by destruct (f2fs_sanity_check_ckpt _ _ _). }
  rewrite Hmo in Hm. split; [by rewrite He0 in E|]. split; [exact Hm|]. split; [exact Hv|].
  intros d' Hi. destruct (Hc eq_refl d' Hi) as [[Ho _]|(_ & Hn & _)]; [by left|right]. rewrite Hn. exact Hmo.
Defined.

(** ** Summaries *)

(** A compacted pack written at unmount: one block for the data logs, three for the others *)
Definition demo_sum_ckpt : list Z :=
  cp_put (cp_put (cp_put (put_logs demo_logs (zeros 4096)) ckpt_flags 5) cp_pack_start_sum 1) cp_pack_total_block_count 6.
Definition demo_fresh_logs : logs := mk_logs (alloc_demo <| cursegs := map demo_log [5; 4; 3; 2; 1; 0] |>) (replicate 6 (zeros 507)).
Lemma demo_fresh_ok : logs_ok demo_fresh_logs.
Proof. split; [done|done|]. apply (six (log_ok demo_fresh_logs)); (split; [done|apply Forall_replicate; done|done]). Qed.
Lemma demo_saved : saved demo_sum_ckpt demo_logs.
Proof.
  split; [intros i Hi|intros i Hi|apply six; by vm_compute].
  - assert (i = 0 \/ i = 1 \/ i = 2) as [-> | [-> | ->]] by lia; by vm_compute.
  - assert (i = 3 \/ i = 4 \/ i = 5) as [-> | [-> | ->]] by lia; by vm_compute.
Qed.
