(* ===== verification/ByteNvm.v ===== *)
(** * The byte-addressable NVM

    [byte_nvm.c] and [byte_nvm.h]: where the metadata areas are in the memory-mapped
    device, the copy of the checkpoint pack that a mount puts there, checkpoints that are
    written there, and the logs read from there.  sbi->ckpt points into the device, so
    the device is the store that all of this shares.  Blocks are named by their number:
    the products of number and block size, which the code computes in 32 bits, are exact
    for the first 4 GiB of the device. *)
From stdpp Require Import gmap.
From S2P Require Import Prelude Geometry F2fsBits Curseg Bytes MptFlush Orphan Super Ckpt Summaries DoCkpt.
Open Scope Z_scope.

Definition NVM_BYTE_PRIVATE_READY : Z := 8.
Definition NVM_BYTE_CP_SUPER_READY : Z := 16.
Definition NVM_BYTE_CP_CONTENT_READY : Z := 32.

(** struct byte_nvm_private: block numbers in the device *)
Record byte_nvm_private := mk_bpriv { super_blkaddr : Z; segment0_blkaddr : Z; bn_cp_blkaddr : Z; bn_sit_blkaddr : Z; bn_nat_blkaddr : Z; bn_ssa_blkaddr : Z }.
(** init_byte_nvm_private_info *)
Definition init_byte_nvm_private_info (bps : Z) (sb : raw_super) : byte_nvm_private :=
  let cp := rs_segment0_blkaddr sb in
  {| super_blkaddr := 0; segment0_blkaddr := bps; bn_cp_blkaddr := cp;
     bn_sit_blkaddr := u32 (rs_sit_blkaddr sb - rs_cp_blkaddr sb + cp);
     bn_nat_blkaddr := u32 (rs_nat_blkaddr sb - rs_cp_blkaddr sb + cp);
     bn_ssa_blkaddr := u32 (rs_ssa_blkaddr sb - rs_cp_blkaddr sb + cp) |}.

(** The device by blocks, its private information, nvm_flag, and the block that
    sbi->ckpt points to *)
Record bnvm := mk_bnvm { bn_mem : Z -> list Z; bn_private : byte_nvm_private; bn_flag : Z; bn_ckpt : Z }.
#[export] Instance eta_bnvm : Eta bnvm := fun b => mk_bnvm (bn_mem b) (bn_private b) (bn_flag b) (bn_ckpt b).
Definition set_block (m : Z -> list Z) (a : Z) (x : list Z) : Z -> list Z := fun k => if k =? a then x else m k.

(** ** Addresses *)

Section addresses.
Context (bps : Z).

(** The block of a pack, or NULL *)
Definition f2fs_bnvm_get_cp_ptr (b : bnvm) (cp_pack_no : Z) : option Z :=
  if negb (nz (Z.land (bn_flag b) NVM_BYTE_PRIVATE_READY)) then None
  else if cp_pack_no =? 1 then Some (bn_cp_blkaddr (bn_private b))
  else if cp_pack_no =? 2 then Some (u32 (bn_cp_blkaddr (bn_private b) + bps))
  else None.
Definition f2fs_bnvm_get_valid_cp_addr (b : bnvm) (cur_cp_pack : Z) : Z :=
  u32 (bn_cp_blkaddr (bn_private b) + (if cur_cp_pack =? 2 then bps else 0)).
Definition f2fs_bnvm_get_cp_sum `{CpFormat} (b : bnvm) (c : list Z) (cur_cp_pack : Z) : Z :=
  u32 (f2fs_bnvm_get_valid_cp_addr b cur_cp_pack + cp_get c cp_pack_start_sum).
Definition f2fs_bnvm_get_sum_blk_addr `{CpFormat} (b : bnvm) (c : list Z) (cur_cp_pack base type : Z) : Z :=
  u32 (f2fs_bnvm_get_valid_cp_addr b cur_cp_pack + cp_get c cp_pack_total_block_count - (base + 1) + type).

(** Block and index of the entry of a node or of a segment; the summary block of a segment *)
Definition f2fs_bnvm_get_nat_entry (per_block : Z) (nat_bitmap : list Z) (b : bnvm) (nid : Z) : Z * Z :=
  let block_off := nid / per_block in
  let block_addr := u64 (bn_nat_blkaddr (bn_private b) + u64 (Z.shiftl block_off 1) - Z.land block_off (u32 (bps - 1))) in
  (if f2fs_test_bit block_off nat_bitmap then u64 (block_addr + bps) else block_addr, nid mod per_block).
Definition f2fs_bnvm_get_sit_entry (per_block sit_blocks : Z) (sit_bitmap : list Z) (b : bnvm) (segno : Z) : Z * Z :=
  let block_off := segno / per_block in
  let block_addr := u32 (bn_sit_blkaddr (bn_private b) + block_off) in
  (if f2fs_test_bit block_off sit_bitmap then u32 (block_addr + sit_blocks) else block_addr, segno mod per_block).
Definition f2fs_bnvm_get_sum_blk (b : bnvm) (segno : Z) : Z := u32 (bn_ssa_blkaddr (bn_private b) + segno).
End addresses.

Section byte_nvm.
Context `{SuperFormat} `{OrphanFormat} `{CpFormat} `{SumLayout} `{SumFormat}.
Context (kbytes_ofs : Z) (g : cp_geo).
#[local] Abbreviation cp_blks := (1 + __cp_payload g).

(** The checkpoint at a block, and a store to it *)
Definition load_ckpt (b : bnvm) (a : Z) : list Z := concat (map (fun i => bn_mem b (a + i)) (seqZ 0 cp_blks)).
Definition store_blocks (b : bnvm) (a : Z) (ps : list (list Z)) : bnvm :=
  b <| bn_mem ::= fun m => fold_left (fun m p => set_block m (fst p) (snd p)) (number_from a ps) m |>.
Definition store_ckpt (b : bnvm) (a : Z) (c : list Z) : bnvm := store_blocks b a (ckpt_blocks g c).

(** ** At mount *)

(** From the kernel's copy [ckpt] of the checkpoint *)
Definition f2fs_move_cp_super_to_bnvm (b : bnvm) (ckpt : list Z) (cur_cp_pack : Z) : Z * bnvm :=
  match f2fs_bnvm_get_cp_ptr (cp_bps g) b cur_cp_pack with
  | None => (- EINVAL, b)
  | Some new_ckpt => (0, (store_ckpt b new_ckpt ckpt) <| bn_ckpt := new_ckpt |> <| bn_flag ::= fun f => Z.lor f NVM_BYTE_CP_SUPER_READY |>)
  end.
(** Fills the pack behind the checkpoint with the blocks of the SSD from start_sum_block on. *)
Definition f2fs_move_cp_content_to_bvnm (meta : Z -> list Z) (b : bnvm) (cur_cp_pack : Z) : Z * bnvm :=
  if negb (nz (Z.land (bn_flag b) NVM_BYTE_CP_SUPER_READY)) then (- EINVAL, b) else
  let c := load_ckpt b (bn_ckpt b) in
  let start := start_sum_block g c cur_cp_pack in
  let to_read_blks := u32 (cp_get c cp_pack_total_block_count - cp_blks) in
  (0, (store_blocks b (bn_ckpt b + cp_blks) (map (fun i => meta (u32 (start + i))) (seqZ 0 to_read_blks)))
        <| bn_flag ::= fun f => Z.lor f NVM_BYTE_CP_CONTENT_READY |>).

(** ** The logs *)

Definition bnvm_read_compacted_summaries (cf : alloc_conf) (b : bnvm) (cur_cp_pack : Z) (l : logs) : outcome logs :=
  let c := load_ckpt b (bn_ckpt b) in
  read_compacted_from cf (cp_bps g) (bn_mem b) c (f2fs_bnvm_get_cp_sum (cp_bps g) b c cur_cp_pack) l.
(** The summary block of a node log is changed in place; [sum] gives it before and after. *)
Definition bnvm_read_normal_summaries (cf : alloc_conf) (footer_nid : Z -> list Z) (cur_cp_pack type : Z) (l : logs) (b : bnvm) : outcome (logs * bnvm) :=
  let c := load_ckpt b (bn_ckpt b) in
  let exist := __exist_node_summaries c in
  let pack_blk := f2fs_bnvm_get_sum_blk_addr (cp_bps g) b c cur_cp_pack in
  l <-- read_normal_from cf g (bn_mem b) footer_nid pack_blk (f2fs_bnvm_get_sum_blk b) c type l ;;
  if IS_DATASEG type then Done (l, b) else
  let segno := cp_get c (cur_node_segno (type - 3)) in
  let a := if exist then pack_blk NR_CURSEG_NODE_TYPE (type - 3) else f2fs_bnvm_get_sum_blk b segno in
  sum <-- (if exist then clear_versions (Z.to_nat (cp_bps g)) (bn_mem b a) 0 else f2fs_restore_node_summary (cg_sbi g) footer_nid segno (bn_mem b a)) ;;
  Done (l, b <| bn_mem ::= fun m => set_block m a sum |>).

(** restore_curseg_summaries, as it is compiled: the loop over the logs, and the check of
    the two journals ([nat_max] and [sit_max] entries) *)
Fixpoint bnvm_read_normals (cf : alloc_conf) (footer_nid : Z -> list Z) (cur_cp_pack : Z) (n : nat) (type : Z) (l : logs) (b : bnvm) : outcome (logs * bnvm) :=
  match n with
  | O => Done (l, b)
  | S n => q <-- bnvm_read_normal_summaries cf footer_nid cur_cp_pack type l b ;; bnvm_read_normals cf footer_nid cur_cp_pack n (type + 1) (fst q) (snd q)
  end.
Definition restore_curseg_summaries (cf : alloc_conf) (footer_nid : Z -> list Z) (nat_max sit_max cur_cp_pack : Z) (l : logs) (b : bnvm) : outcome (Z * logs * bnvm) :=
  q <-- (if is_set_ckpt_flags (load_ckpt b (bn_ckpt b)) CP_COMPACT_SUM_FLAG
         then l <-- bnvm_read_compacted_summaries cf b cur_cp_pack l ;; bnvm_read_normals cf footer_nid cur_cp_pack 3 3 l b
         else bnvm_read_normals cf footer_nid cur_cp_pack 6 0 l b) ;;
  let '(l, b) := q in
  nats <-- rd16 (lg_jnl l).[0] 0 ;;
  sits <-- rd16 (lg_jnl l).[2] 0 ;;
  if (nat_max <? nats) || (sit_max <? sits) then Done (- EINVAL, l, b) else Done (0, l, b).

(** ** Checkpoints *)

(** The loop of bnvm_write_orphan_inodes; [dst] is the block of [orphan_blk], which is not cleared. *)
Fixpoint bnvm_write_orphans (l : list ino_entry) (m : Z -> list Z) (dst nentries index orphan_blocks : Z) : outcome (Z -> list Z) :=
  match l with
  | [] => if nz nentries then blk <-- close_orphan_block (m dst) index orphan_blocks nentries ;; Done (set_block m dst blk) else Done m
  | orphan :: l =>
      blk <-- put_ino (m dst) nentries (ie_ino orphan) ;;
      let nentries := nentries + 1 in
      if nentries =? F2FS_ORPHANS_PER_BLOCK then
        blk <-- close_orphan_block blk index orphan_blocks nentries ;;
        bnvm_write_orphans l (set_block m dst blk) (dst + 1) 0 (u16 (index + 1)) orphan_blocks
      else bnvm_write_orphans l (set_block m dst blk) dst nentries index orphan_blocks
  end.
Definition bnvm_write_orphan_inodes (i : ino_sbi) (m : Z -> list Z) (dst : Z) : outcome (Z -> list Z) :=
  let im := (im i).[ORPHAN_INO] in bnvm_write_orphans (ino_list im) m dst 0 1 (u16 (GET_ORPHAN_BLOCKS (ino_num im))).
(** The entries from the block [kaddr] and the offset [written_size] on *)
Fixpoint bnvm_write_entries (es : list (list Z)) (m : Z -> list Z) (kaddr written_size : Z) : outcome ((Z -> list Z) * Z * Z) :=
  match es with
  | [] => Done (m, kaddr, written_size)
  | e :: es =>
      blk <-- wr (m kaddr) written_size e ;;
      let written_size := written_size + SUMMARY_SIZE in
      if written_size + SUMMARY_SIZE <=? BLKSIZE - SUM_FOOTER_SIZE
      then bnvm_write_entries es (set_block m kaddr blk) kaddr written_size
      else bnvm_write_entries es (set_block m kaddr blk) (kaddr + 1) 0
  end.
Definition bnvm_write_compacted_summaries (c : list Z) (l : logs) (m : Z -> list Z) (dst : Z) : outcome (Z -> list Z) :=
  blk <-- wr (m dst) 0 (lg_jnl l).[0] ;;
  blk <-- wr blk SUM_JOURNAL_SIZE (lg_jnl l).[2] ;;
  let es := compact_entries (cp_bps g) c l 0 ++ compact_entries (cp_bps g) c l 1 ++ compact_entries (cp_bps g) c l 2 in
  r <-- bnvm_write_entries es (set_block m dst blk) dst (2 * SUM_JOURNAL_SIZE) ;;
  Done (fst (fst r)).
(** The destination is an uninitialised pointer: the local [dst] hides the parameter [dst_sum]. *)
Definition bnvm_write_current_sum_page (l : logs) (type : Z) (m : Z -> list Z) (dst : Z) : outcome (Z -> list Z) := Bug.
Definition bnvm_write_normal_summaries (l : logs) (m : Z -> list Z) (dst type : Z) : outcome (Z -> list Z) :=
  m <-- bnvm_write_current_sum_page l type m dst ;;
  m <-- bnvm_write_current_sum_page l (type + 1) m (dst + 1) ;;
  bnvm_write_current_sum_page l (type + 2) m (dst + 2).
Definition bnvm_write_data_summaries (c : list Z) (l : logs) (m : Z -> list Z) (dst : Z) : outcome (Z -> list Z) :=
  if is_set_ckpt_flags c CP_COMPACT_SUM_FLAG then bnvm_write_compacted_summaries c l m dst else bnvm_write_normal_summaries l m dst 0.
Definition bnvm_commit_checkpoint (m : Z -> list Z) (src dst : Z) : Z -> list Z := set_block m dst (m src).
(** The copy of the checkpoint and its payload, block after block *)
Definition copy_ckpt (b : bnvm) (src dst : Z) : bnvm :=
  fold_left (fun b i => b <| bn_mem ::= fun m => set_block m (dst + i) (m (src + i)) |>) (seqZ 0 cp_blks) b.

(** bnvm_do_checkpoint up to the checksum, with [ckpt] the pack to fill and [cur] that
    of sbi->ckpt: the state, the device, data_sum_blocks, orphan_blocks and the checksum.
    The field [ckpt] of the state stands for sbi->ckpt while flags are updated. *)
Definition bnvm_prepare (e : cp_env) (l : logs) (reason ck : Z) (s : cp_state) (b : bnvm) : outcome (cp_state * bnvm * Z * Z * Z) :=
  let cur := bn_ckpt b in
  let orphan_num := ino_num (im (cp_ino s)).[ORPHAN_INO] in
  let c := cp_put (load_ckpt b ck) elapsed_time (e_mtime e) in
  let c := cp_put c free_segment_count (e_free_segments e) in
  let b := store_ckpt b ck (put_logs l c) in
  let data_sum_blocks := f2fs_npages_for_summary_flush (cp_bps g) (load_ckpt b cur) l false in
  let c := set_flag_to (load_ckpt b ck) CP_COMPACT_SUM_FLAG (data_sum_blocks <? NR_CURSEG_DATA_TYPE) in
  let orphan_blocks := u32 (GET_ORPHAN_BLOCKS orphan_num) in
  let b := store_ckpt b ck (cp_put c cp_pack_start_sum (1 + __cp_payload g + orphan_blocks)) in
  let s := update_ckpt_flags g (s <| ckpt := load_ckpt b cur |>) reason in
  let b := store_ckpt b cur (ckpt s) in
  let b := if nsb_dirty s
           then store_ckpt b ck (let c := load_ckpt b ck in cp_put c ckpt_flags (nvm_switch_nsb_version (cp_get c ckpt_flags))) else b in
  let s := s <| nsb_dirty := false |> in
  c <-- (let c := load_ckpt b cur in wr c (__bitmap_ptr g c false) (e_sit_bitmap e)) ;;
  c <-- wr c (__bitmap_ptr g c true) (e_nat_bitmap e) ;;
  let b := store_ckpt b cur c in
  let c := load_ckpt b ck in
  let crc32 := f2fs_crc32 (take (Z.to_nat (cp_get c checksum_offset)) c) in
  c <-- wr c (cp_get c checksum_offset) (le_put 4 crc32) ;;
  Done (s, store_ckpt b ck c, data_sum_blocks, orphan_blocks, crc32).
(** bnvm_do_checkpoint from "write nat bits" to the data summaries; the device and the
    position behind them *)
Definition bnvm_fill (l : logs) (reason ck data_sum_blocks orphan_blocks crc32 : Z) (s : cp_state) (b : bnvm) : outcome (bnvm * Z) :=
  let cur := bn_ckpt b in
  bits <-- (if enabled_nat_bits (load_ckpt b cur) reason then put_nat_bits g (s <| ckpt := load_ckpt b cur |>) crc32 ck else Done []) ;;
  let b := b <| bn_mem ::= fun m => fold_left (fun m p => set_block m (fst p) (snd p)) bits m |> in
  let b := copy_ckpt b cur ck in
  let dst := ck + cp_blks in
  let orphan_num := ino_num (im (cp_ino s)).[ORPHAN_INO] in
  m <-- (if nz orphan_num then bnvm_write_orphan_inodes (cp_ino s) (bn_mem b) dst else Done (bn_mem b)) ;;
  let dst := if nz orphan_num then dst + orphan_blocks else dst in
  m <-- bnvm_write_data_summaries (load_ckpt (b <| bn_mem := m |>) cur) l m dst ;;
  Done (b <| bn_mem := m |>, dst + data_sum_blocks).
(** The result, the state, the device, the logs and the requests to the SSD.  It is called when no
    node summaries are due; otherwise f2fs_write_node_summaries would be given a pointer
    for a block number. *)
Definition bnvm_do_checkpoint (e : cp_env) (l : logs) (reason : Z) (s : cp_state) (b : bnvm) : outcome (Z * cp_state * bnvm * logs * list cp_io) :=
  match f2fs_bnvm_get_cp_ptr (cp_bps g) b (if cur_cp_pack s =? 1 then 2 else 1) with
  | None => Bug
  | Some ck =>
      r0 <-- sync_dirty_meta 2 (e_sync_err e) s [] ;;
      let '(err, s, io0) := r0 in
      if err then Done (- EIO, s, b, l, io0) else
      p <-- bnvm_prepare e l reason ck s b ;;
      let '(s, b, data_sum_blocks, orphan_blocks, crc32) := p in
      q <-- bnvm_fill l reason ck data_sum_blocks orphan_blocks crc32 s b ;;
      let '(b, dst) := q in
      j <-- wr (lg_jnl l).[3] kbytes_ofs (le_put 8 (e_kbytes e)) ;;
      let l := l <| lg_jnl ::= fun js => js.[3 <- j] |> in
      if __remain_node_summaries reason then Bug else
      if nz (e_flush e) then Done (e_flush e, s, b, l, io0) else
      let b := b <| bn_mem ::= fun m => bnvm_commit_checkpoint m ck dst |> in
      let s := s <| cp_ino ::= fun i => f2fs_release_ino_entry i false |> in
      if e_commit_err e then Done (- EIO, s, b, l, io0) else
      Done (0, s <| sbi_is_dirty := e_redirty e |> <| sbi_need_cp := false |> <| cur_cp_pack ::= __set_cp_next_pack |>, b, l, io0)
  end.
End byte_nvm.
