(* ===== verification/ByteNvmProps.v ===== *)
(** * The pack in the byte-addressable NVM

    What a mount copies there and the logs it reads from it, and what a checkpoint
    leaves there. *)
From stdpp Require Import gmap.
From S2P Require Import Prelude Geometry Sit Victim Curseg Alloc Bytes Mpt MptFlush Orphan OrphanProps Super SuperProps Ckpt Summaries SummaryProps DoCkpt CkptCrash CkptProps CkptDemo ByteNvm.
Open Scope Z_scope.

Section stores.
Context `{CpFormatOk}.
Context (g : cp_geo).
#[local] Abbreviation cp_blks := (1 + __cp_payload g).

(** ** Stores to the device *)

Lemma set_blocks_cases (l : list (Z * list Z)) m k :
  let m' := fold_left (fun m p => set_block m (fst p) (snd p)) l m in m' k = m k \/ (k, m' k) ∈ l.
Proof.
  induction l as [|[a x] l IH] using rev_ind; [by left|]. cbn zeta in *. rewrite fold_left_app. cbn [fold_left fst snd].
  set (m1 := fold_left _ l m) in *. clearbody m1. unfold set_block. destruct (Z.eqb_spec k a) as [->|].
  - right. apply elem_of_app. right. in_list.
  - destruct IH as [?|?]; [by left|right; apply elem_of_app; by left].
Qed.
Lemma set_blocks_unique (l : list (Z * list Z)) m k x : (k, x) ∈ l -> (forall y, (k, y) ∈ l -> y = x) ->
  fold_left (fun m p => set_block m (fst p) (snd p)) l m k = x.
Proof.
  induction l as [|[a y] l IH] using rev_ind; [by intros ?%elem_of_nil|]. rewrite fold_left_app. cbn [fold_left fst snd]. intros Hin Hu.
  set (m1 := fold_left _ l m) in *. clearbody m1. unfold set_block.
  destruct (Z.eqb_spec k a) as [->|Hn]; [apply Hu, elem_of_app; right; in_list|]. apply IH.
  - apply elem_of_app in Hin as [?|Hin%list_elem_of_singleton]; [done|]. congruence.
  - intros z Hz. apply Hu, elem_of_app. by left.
Qed.
Lemma store_blocks_get b a (ps : list (list Z)) k : bn_mem (store_blocks b a ps) k = if (a <=? k) && (k <? a + zlen ps) then ps.[k - a] else bn_mem b k.
Proof.
  unfold store_blocks. change (bn_mem (b <| bn_mem ::= ?f |>)) with (f (bn_mem b)). cbv beta. destruct (_ && _) eqn:E.
  - apply set_blocks_unique; [apply in_number_from; split; [lia|done]|]. by intros y [_ ->]%in_number_from.
  - destruct (set_blocks_cases (number_from a ps) (bn_mem b) k) as [?|[? _]%in_number_from]; [done|lia].
Qed.
Lemma store_ckpt_get b a c k : 0 <= __cp_payload g -> bn_mem (store_ckpt g b a c) k = if (a <=? k) && (k <? a + cp_blks) then ckpt_block c (k - a) else bn_mem b k.
Proof.
  intros P. unfold store_ckpt. rewrite store_blocks_get, zlen_ckpt_blocks by done. destruct (_ && _) eqn:E; [|done]. apply ckpt_blocks_get. lia.
Qed.
(** A checkpoint that is at a block *)
Definition ckpt_at (b : bnvm) (a : Z) (c : list Z) : Prop := zlen c = cp_blks * BLKSIZE /\ forall i, 0 <= i < cp_blks -> bn_mem b (a + i) = ckpt_block c i.
Lemma load_ckpt_at b a c : 0 <= __cp_payload g -> ckpt_at b a c -> load_ckpt g b a = c.
Proof.
  intros P [Hz Hb]. unfold load_ckpt. transitivity (concat (map (ckpt_block c) (seqZ 0 cp_blks))).
  - f_equal. apply map_ext_in. intros i Hi%list_elem_of_In%elem_of_seqZ. apply Hb. lia.
  - replace cp_blks with (Z.of_nat (Z.to_nat cp_blks)) by lia. rewrite ckpt_join by lia. rewrite Z.mul_0_l. apply drop_0.
Qed.
Lemma store_at b a c : 0 <= __cp_payload g -> zlen c = cp_blks * BLKSIZE -> ckpt_at (store_ckpt g b a c) a c.
Proof. intros P Hz. split; [done|]. intros i Hi. rewrite store_ckpt_get by done. replace (_ && _) with true by lia. f_equal. lia. Qed.
Lemma store_other b a a' c c' : 0 <= __cp_payload g -> a + cp_blks <= a' \/ a' + cp_blks <= a -> ckpt_at b a' c' -> ckpt_at (store_ckpt g b a c) a' c'.
Proof. intros P Hd [Hz Hb]. split; [done|]. intros i Hi. rewrite store_ckpt_get by done. replace (_ && _) with false by lia. by apply Hb. Qed.

(** ** The copy at mount *)

(** What [f2fs_move_cp_super_to_bnvm] and [f2fs_move_cp_content_to_bvnm] leave *)
Lemma move_mirrors (meta : Z -> list Z) b c pack : vol_ok g -> pack = 1 \/ pack = 2 ->
  bn_private b = init_byte_nvm_private_info (cp_bps g) (cg_raw g) -> rs_segment0_blkaddr (cg_raw g) = cp_blkaddr g ->
  nz (Z.land (bn_flag b) NVM_BYTE_PRIVATE_READY) = true -> zlen c = cp_blks * BLKSIZE ->
  let total := cp_get c cp_pack_total_block_count in let shift := cp_get c cp_pack_start_sum - cp_blks in cp_blks <= total <= cp_bps g ->
  exists b1 b2, f2fs_move_cp_super_to_bnvm g b c pack = (0, b1) /\ f2fs_move_cp_content_to_bvnm g meta b1 pack = (0, b2) /\
    load_ckpt g b2 (bn_ckpt b2) = c /\
    (forall k, cp_blks <= k < total -> bn_mem b2 (__start_cp_addr g pack + k) = meta (u32 (__start_cp_addr g pack + k + shift))) /\
    f2fs_bnvm_get_cp_sum (cp_bps g) b2 c pack = start_sum_block g c pack /\
    (forall base type, f2fs_bnvm_get_sum_blk_addr (cp_bps g) b2 c pack base type = sum_blk_addr g c pack base type) /\
    (forall a, a < __start_cp_addr g pack \/ __start_cp_addr g pack + total <= a -> bn_mem b2 a = bn_mem b a) /\ bn_ckpt b2 = __start_cp_addr g pack.
Proof.
  intros V Hp Hpriv Hseg Hf Hz total shift Ht. pose proof V as [L B C T P]. destruct (start_addr g pack V Hp) as [Hs _].
  assert (0 <= pack_start g pack /\ pack_start g pack + cp_bps g <= 4294967296) as Hr by (unfold pack_start; destruct (pack =? 2); lia).
  assert (bn_cp_blkaddr (bn_private b) = cp_blkaddr g) as Hcp by (by rewrite Hpriv).
  assert (f2fs_bnvm_get_cp_ptr (cp_bps g) b pack = Some (pack_start g pack)) as Eptr.
  { unfold f2fs_bnvm_get_cp_ptr, pack_start in *. rewrite Hf, Hcp. cbn [negb]. destruct Hp as [-> | ->]; cbn [Z.eqb Pos.eqb] in *; [by rewrite Z.add_0_r|]. by rewrite u32_id by lia. }
  unfold f2fs_move_cp_super_to_bnvm. rewrite Eptr. set (b1 := (store_ckpt g b (pack_start g pack) c) <| bn_ckpt := _ |> <| bn_flag ::= _ |>).
  assert (ckpt_at b1 (pack_start g pack) c) as H1 by (by apply store_at). pose proof (load_ckpt_at _ _ _ P H1) as E1.
  exists b1. unfold f2fs_move_cp_content_to_bvnm. assert (nz (Z.land (bn_flag b1) NVM_BYTE_CP_SUPER_READY) = true) as ->.
  { change (bn_flag b1) with (Z.lor (bn_flag b) NVM_BYTE_CP_SUPER_READY). change NVM_BYTE_CP_SUPER_READY with (2 ^ 4). rewrite nz_land_pow2, Z.lor_spec by lia. apply orb_true_r. }
  cbn [negb]. change (bn_ckpt b1) with (pack_start g pack). rewrite E1. fold total. set (st := start_sum_block g c pack). rewrite (u32_id (total - _)) by lia.
  set (ps := map _ (seqZ 0 (total - cp_blks))). assert (zlen ps = total - cp_blks) as Zps by (unfold ps, zlen; rewrite length_map, length_seqZ; lia).
  eexists. split; [done|]. split; [done|]. set (b2 := (store_blocks b1 _ ps) <| bn_flag ::= _ |>).
  assert (forall k, bn_mem b2 k = if (pack_start g pack + cp_blks <=? k) && (k <? pack_start g pack + cp_blks + zlen ps) then ps.[k - (pack_start g pack + cp_blks)] else bn_mem b1 k) as Hb2 by (intros k; apply store_blocks_get).
  change (bn_ckpt b2) with (pack_start g pack). split; [|split; [|split; [|split; [|split; [|done]]]]].
  - apply load_ckpt_at; [done|]. destruct H1 as [_ H1]. split; [done|]. intros i Hi. rewrite Hb2. replace (_ && _) with false by lia. by apply H1.
  - intros k Hk. rewrite Hs, Hb2. replace (_ && _) with true by lia. replace (_ - _) with (k - cp_blks) by lia. apply (inj Some). rewrite <- lookup_aget by lia.
    unfold ps. change (map ?f) with (@fmap list _ _ _ f). rewrite list_lookup_fmap. assert (seqZ 0 (total - cp_blks) !! Z.to_nat (k - cp_blks) = Some (k - cp_blks)) as -> by (apply lookup_seqZ; lia).
    cbn. do 2 f_equal. unfold st, start_sum_block. rewrite Hs, u32_add_l. f_equal. unfold shift. lia.
  - unfold f2fs_bnvm_get_cp_sum, f2fs_bnvm_get_valid_cp_addr, start_sum_block, __start_cp_addr. change (bn_private b2) with (bn_private b). by rewrite Hcp.
  - intros base type. unfold f2fs_bnvm_get_sum_blk_addr, f2fs_bnvm_get_valid_cp_addr, sum_blk_addr, __start_cp_addr. change (bn_private b2) with (bn_private b). by rewrite Hcp.
  - intros a Ha. rewrite Hs in Ha. rewrite Hb2. replace (_ && _) with false by lia. change (bn_mem b1) with (bn_mem (store_ckpt g b (pack_start g pack) c)). rewrite store_ckpt_get by done. by replace (_ && _) with false by lia.
Qed.
(** C40. A mount leaves in the NVM, at the place of the pack, the checkpoint followed by the
    blocks of the SSD that start at its summaries, up to the total; so the summaries are
    where the readers of the NVM look for them, which are the places of the SSD readers, if
    and as far as the pack has no orphan blocks before them. *)
Theorem bnvm_move_mirrors (meta : Z -> list Z) b c pack : vol_ok g -> pack = 1 \/ pack = 2 ->
  bn_private b = init_byte_nvm_private_info (cp_bps g) (cg_raw g) -> rs_segment0_blkaddr (cg_raw g) = cp_blkaddr g ->
  nz (Z.land (bn_flag b) NVM_BYTE_PRIVATE_READY) = true -> zlen c = cp_blks * BLKSIZE ->
  let total := cp_get c cp_pack_total_block_count in let shift := cp_get c cp_pack_start_sum - cp_blks in cp_blks <= total <= cp_bps g ->
  exists b1 b2, f2fs_move_cp_super_to_bnvm g b c pack = (0, b1) /\ f2fs_move_cp_content_to_bvnm g meta b1 pack = (0, b2) /\
    load_ckpt g b2 (bn_ckpt b2) = c /\
    (forall k, cp_blks <= k < total -> bn_mem b2 (__start_cp_addr g pack + k) = meta (u32 (__start_cp_addr g pack + k + shift))) /\
    f2fs_bnvm_get_cp_sum (cp_bps g) b2 c pack = start_sum_block g c pack /\
    (forall base type, f2fs_bnvm_get_sum_blk_addr (cp_bps g) b2 c pack base type = sum_blk_addr g c pack base type) /\
    (forall a, a < __start_cp_addr g pack \/ __start_cp_addr g pack + total <= a -> bn_mem b2 a = bn_mem b a).
Proof.
  intros V Hp Hpriv Hseg Hf Hz total shift Ht. destruct (move_mirrors meta b c pack V Hp Hpriv Hseg Hf Hz Ht) as (b1 & b2 & E1 & E2 & E3 & E4 & E5 & E6 & E7 & _). by exists b1, b2.
Qed.
End stores.

(** ** The logs *)

Section restore.
Context `{CpFormatOk} `{SumLayoutOk} `{SumFormat}.
Context (g : cp_geo) (bps : Z) (Hbps : bps = ENTRIES_IN_SUM) (Hb16 : 0 <= bps < 65536) (Hg : cp_bps g = bps).
#[local] Abbreviation cp_blks := (1 + __cp_payload g).

Lemma load_ckpt_ext b b' a : (forall i, 0 <= i < cp_blks -> bn_mem b' (a + i) = bn_mem b (a + i)) -> load_ckpt g b' a = load_ckpt g b a.
Proof. intros E. unfold load_ckpt. f_equal. apply map_ext_in. intros i Hi%list_elem_of_In%elem_of_seqZ. apply E. lia. Qed.
Lemma clear_page l i : log_ok l i -> exists p, clear_versions (Z.to_nat (cp_bps g)) (sum_page l i) 0 = Done p.
Proof.
  intros [L1 L2 _]. unfold sum_page, entry_bytes. set (es := sum_entries _) in *.
  assert (Z.to_nat (cp_bps g) = length es) as -> by (rewrite Hg, Hbps, <- L1; unfold zlen; lia).
  pose proof (clear_versions_eq [] es ((lg_jnl l).[i] ++ footer_bytes (sum_blk (CURSEG_I (lg_alloc l) i))) 0 L2 ltac:(change (0 = SUMMARY_SIZE * 0); lia) ltac:(lia)) as E.
  cbn [app] in E. by eexists.
Qed.

(** The block of log [i] in the pack, and a device with the blocks of the logs from [type] on *)
Definition log_addr (c : list Z) (pack i : Z) : Z :=
  if IS_DATASEG i then sum_blk_addr g c pack NR_CURSEG_TYPE i else sum_blk_addr g c pack NR_CURSEG_NODE_TYPE (i - 3).
Record holds_logs (b : bnvm) (c : list Z) (pack : Z) (l : logs) (type : Z) : Prop := {
  hl_ckpt : load_ckpt g b (bn_ckpt b) = c;
  hl_addr base i : f2fs_bnvm_get_sum_blk_addr (cp_bps g) b c pack base i = sum_blk_addr g c pack base i;
  hl_page i : type <= i < 6 -> bn_mem b (log_addr c pack i) = sum_page l i;
  hl_apart i : 3 <= i < 6 -> bn_ckpt b + cp_blks <= log_addr c pack i;
  hl_differ i j : 3 <= i < j -> j < 6 -> log_addr c pack i <> log_addr c pack j;
}.
(** One log: the block of a node log is changed in place, the others stay. *)
Lemma bnvm_read_normal_ok cf fn pack c l type l0 b : logs_ok l -> saved c l -> __exist_node_summaries c = true -> 0 <= type < 6 ->
  holds_logs b c pack l type -> zlen (cursegs (lg_alloc l0)) = 6 ->
  exists l1 b1, bnvm_read_normal_summaries g cf fn pack type l0 b = Done (l1, b1) /\ holds_logs b1 c pack l (type + 1) /\
    restored l l1 type (normal_entries l type) /\ (forall k, k <> type -> CURSEG_I (lg_alloc l1) k = CURSEG_I (lg_alloc l0) k) /\
    zlen (cursegs (lg_alloc l1)) = 6 /\ lg_jnl l1 = (lg_jnl l0).[type <- (lg_jnl l).[type]].
Proof.
  intros W S Hx Ht B Hc. destruct B as [B1 B2 B3 B4 B5]. unfold bnvm_read_normal_summaries. rewrite B1. set (pk := f2fs_bnvm_get_sum_blk_addr (cp_bps g) b c pack).
  assert ((if IS_DATASEG type then pk NR_CURSEG_TYPE type else pk NR_CURSEG_NODE_TYPE (type - 3)) = log_addr c pack type) as Ea by (unfold log_addr, pk; by rewrite !B2).
  destruct (read_normal_ok bps Hbps cf g (bn_mem b) fn pk (f2fs_bnvm_get_sum_blk b) c l l0 type W S Hg Hx Ht ltac:(rewrite Ea; apply B3; lia) Hc)
    as (l1 & -> & R & Ho & Hc1 & Hj1). cbn [obind]. exists l1. rewrite Hx. destruct (IS_DATASEG type) eqn:Ed.
  - exists b. split; [done|]. split; [|done]. split; [done|done| |done|done]. intros i Hi. apply B3. lia.
  - assert (3 <= type) as Hge by (unfold IS_DATASEG in Ed; lia). rewrite Ea, B3 by lia. destruct (clear_page l type (ll_ok _ W type Ht)) as (p & ->). cbn [obind].
    eexists. split; [done|]. split; [|done]. set (b1 := b <| bn_mem ::= _ |>).
    assert (forall k, k <> log_addr c pack type -> bn_mem b1 k = bn_mem b k) as Hm.
    { intros k Hk. change (bn_mem b1 k) with (set_block (bn_mem b) (log_addr c pack type) p k). unfold set_block. by rewrite (proj2 (Z.eqb_neq k _)). }
    split; [| | | |].
    + change (bn_ckpt b1) with (bn_ckpt b). etrans; [apply load_ckpt_ext|exact B1]. intros i Hi. apply Hm. specialize (B4 type ltac:(lia)). lia.
    + exact B2.
    + intros i Hi. rewrite Hm; [apply B3; lia|]. intros E. by apply (B5 type i ltac:(lia) ltac:(lia)).
    + exact B4.
    + exact B5.
Qed.
Lemma bnvm_read_normals_ok cf fn pack c l n type l0 b : logs_ok l -> saved c l -> __exist_node_summaries c = true -> 0 <= type -> type + Z.of_nat n = 6 ->
  holds_logs b c pack l type -> zlen (cursegs (lg_alloc l0)) = 6 -> zlen (lg_jnl l0) = 6 ->
  exists l1 b1, bnvm_read_normals g cf fn pack n type l0 b = Done (l1, b1) /\
    (forall i, type <= i < 6 -> restored l l1 i (normal_entries l i) /\ (lg_jnl l1).[i] = (lg_jnl l).[i]) /\
    (forall i, i < type -> CURSEG_I (lg_alloc l1) i = CURSEG_I (lg_alloc l0) i /\ (lg_jnl l1).[i] = (lg_jnl l0).[i]).
Proof.
  intros W S Hx. revert type l0 b. induction n as [|n IH]; intros type l0 b Ht Hn B Hc Hj.
  { exists l0, b. split; [done|]. split; [intros; lia|done]. }
  cbn [bnvm_read_normals]. destruct (bnvm_read_normal_ok cf fn pack c l type l0 b W S Hx ltac:(lia) B Hc) as (l1 & b1 & -> & B1 & R & Ho & Hc1 & Hj1).
  cbn [obind fst snd]. destruct (IH (type + 1) l1 b1) as (l2 & b2 & E & HA & HB); [lia|lia|done|done|by rewrite Hj1, zlen_aset|]. exists l2, b2. split; [done|]. split.
  - intros i Hi. destruct (decide (i = type)) as [->|Hne]; [|apply HA; lia]. destruct (HB type ltac:(lia)) as [E1 E2].
    split; [by apply (restored_same l l1)|]. rewrite E2, Hj1. apply aget_aset_eq. lia.
  - intros i Hi. destruct (HB i ltac:(lia)) as [E1 E2]. split; [rewrite E1; apply Ho; lia|]. rewrite E2, Hj1. apply aget_aset_ne. lia.
Qed.
(** Reading the logs from a device that holds their blocks *)
Lemma bnvm_restore_ok cf fn pack c l l0 b ds nat_max sit_max nats sits (nd := f2fs_npages_for_summary_flush bps c l false) :
  logs_ok l -> offsets_ok bps l -> saved c l -> __exist_node_summaries c = true -> is_set_ckpt_flags c CP_COMPACT_SUM_FLAG = (nd <? NR_CURSEG_DATA_TYPE) ->
  f2fs_write_data_summaries bps c l = Done ds -> (forall k, 0 <= k < zlen ds -> bn_mem b (u32 (start_sum_block g c pack + k)) = ds.[k]) ->
  f2fs_bnvm_get_cp_sum (cp_bps g) b c pack = start_sum_block g c pack -> holds_logs b c pack l (if nd <? NR_CURSEG_DATA_TYPE then 3 else 0) ->
  rd16 (lg_jnl l).[0] 0 = Done nats -> nats <= nat_max -> rd16 (lg_jnl l).[2] 0 = Done sits -> sits <= sit_max -> logs_ok l0 ->
  exists l1 b1, restore_curseg_summaries g cf fn nat_max sit_max pack l0 b = Done (0, l1, b1) /\
    (forall i, 0 <= i < 3 -> restored l l1 i (compact_entries bps c l i)) /\
    (forall i, 3 <= i < 6 -> restored l l1 i (map clear_entry (entries_of l i))) /\
    (lg_jnl l1).[0] = (lg_jnl l).[0] /\ (lg_jnl l1).[2] = (lg_jnl l).[2].
Proof.
  intros W Of S Hx Hcf Ed Hds Hcs B Hn0 Hn Hs0 Hs L0. unfold restore_curseg_summaries, bnvm_read_compacted_summaries. rewrite (hl_ckpt _ _ _ _ _ B), Hcf, Hcs.
  pose proof (ll_logs _ L0) as Hc6. pose proof (ll_jnls _ L0) as Hj6. unfold NR_CURSEG_TYPE in Hc6, Hj6. unfold f2fs_write_data_summaries in Ed. rewrite Hcf in Ed.
  assert (forall i, 3 <= i < 6 -> normal_entries l i = map clear_entry (entries_of l i)) as En by (intros i Hi; unfold normal_entries, IS_DATASEG; by replace (i <=? 2) with false by lia).
  destruct (Z.ltb_spec nd NR_CURSEG_DATA_TYPE) as [Hd|Hd].
  - destruct (compact_roundtrip bps Hbps Hb16 cf c l W Of S) as (ds' & Ed' & _ & Hread). assert (ds' = ds) as -> by congruence.
    destruct (Hread (bn_mem b) (start_sum_block g c pack) l0 L0) as (l1 & Er & Ej & R1 & R2 & Rl); [unfold start_sum_block; by rewrite u32_u32|done|].
    rewrite Hg, Er. cbn [obind].
    destruct (bnvm_read_normals_ok cf fn pack c l 3 3 l1 b W S Hx ltac:(lia) ltac:(lia) B) as (l2 & b2 & -> & A & C); [lia|rewrite Ej, !zlen_aset; lia|]. cbn [obind].
    destruct (C 0 ltac:(lia)) as [_ B0]. destruct (C 2 ltac:(lia)) as [_ B2']. rewrite Ej in B0, B2'.
    rewrite aget_aset_ne, aget_aset_eq in B0 by lia. rewrite aget_aset_eq in B2' by (rewrite zlen_aset; lia). rewrite B0, B2', Hn0, Hs0. cbn [obind].
    exists l2, b2. replace ((nat_max <? nats) || (sit_max <? sits)) with false by lia. split; [done|]. split; [|split; [|done]].
    + intros i Hi. apply (restored_same l l1); [by apply R1|]. by apply (C i ltac:(lia)).
    + intros i Hi. rewrite <- En by done. by apply A.
  - destruct (bnvm_read_normals_ok cf fn pack c l 6 0 l0 b W S Hx ltac:(lia) ltac:(lia) B Hc6 Hj6) as (l1 & b1 & -> & A & _). cbn [obind].
    destruct (A 0 ltac:(lia)) as [_ A0]. destruct (A 2 ltac:(lia)) as [_ A2]. rewrite A0, A2, Hn0, Hs0. cbn [obind].
    exists l1, b1. replace ((nat_max <? nats) || (sit_max <? sits)) with false by lia. split; [done|]. split; [|split; [|done]].
    + intros i Hi. apply (restored_prefix bps Hbps); try done. by apply A; lia.
    + intros i Hi. rewrite <- En by done. by apply A; lia.
Qed.
(** The device after the mount's copy of a pack without orphan blocks holds what the pack holds. *)
Lemma mirrored meta c pack l nd b2 : vol_ok g -> pack = 1 \/ pack = 2 -> logs_ok l -> cp_get c cp_pack_start_sum = cp_blks ->
  let total := cp_get c cp_pack_total_block_count in total = cp_get c cp_pack_start_sum + nd + NR_CURSEG_NODE_TYPE + 1 -> 1 <= nd <= 3 -> total <= cp_bps g ->
  load_ckpt g b2 (bn_ckpt b2) = c -> bn_ckpt b2 = __start_cp_addr g pack ->
  (forall base i, f2fs_bnvm_get_sum_blk_addr (cp_bps g) b2 c pack base i = sum_blk_addr g c pack base i) ->
  (forall k, cp_blks <= k < total -> bn_mem b2 (__start_cp_addr g pack + k) = meta (u32 (__start_cp_addr g pack + k + (cp_get c cp_pack_start_sum - cp_blks)))) ->
  placed g c pack meta nd [sum_page l 3; sum_page l 4; sum_page l 5] -> (nd = 3 -> placed g c pack meta 0 [sum_page l 0; sum_page l 1; sum_page l 2]) ->
  (forall k, 0 <= k < nd + 4 -> bn_mem b2 (u32 (start_sum_block g c pack + k)) = meta (u32 (start_sum_block g c pack + k))) /\
  holds_logs b2 c pack l (if nd <? NR_CURSEG_DATA_TYPE then 3 else 0).
Proof.
  intros V Hp W Hst total Ht Hnd Hb Hck Hcb Had Hmir Hns Hds. unfold NR_CURSEG_NODE_TYPE in Ht. pose proof (vo_payload _ V). destruct (start_addr g pack V Hp) as [Hs _].
  assert (0 <= pack_start g pack /\ pack_start g pack + cp_bps g <= 4294967296) as Hr by (destruct V; unfold pack_start; destruct (pack =? 2); lia).
  assert (forall k, 0 <= k < nd + 4 -> u32 (start_sum_block g c pack + k) = __start_cp_addr g pack + (cp_blks + k)) as Ha.
  { intros k Hk. unfold start_sum_block. rewrite u32_add_l, Hs, Hst, u32_id by lia. lia. }
  assert (forall k, 0 <= k < nd + 4 -> bn_mem b2 (u32 (start_sum_block g c pack + k)) = meta (u32 (start_sum_block g c pack + k))) as Hm.
  { intros k Hk. rewrite Ha, Hmir by lia. f_equal. rewrite Hs, Hst, u32_id by lia. lia. }
  assert (forall i, 3 <= i < 6 -> log_addr c pack i = __start_cp_addr g pack + (cp_blks + (nd + (i - 3)))) as Hn.
  { intros i Hi. unfold log_addr, IS_DATASEG. replace (i <=? 2) with false by lia. rewrite (sum_blk_addr_eq g c pack nd _ _ nd Ht) by lia.
    rewrite <- Z.add_assoc. apply Ha. lia. }
  split; [done|]. split; [done|done| | |].
  - intros i Hi. destruct (decide (3 <= i)) as [H3i|H3i].
    + rewrite Hn by lia. rewrite <- Ha, Hm, Z.add_assoc by lia. assert (i = 3 \/ i = 4 \/ i = 5) as [-> | [-> | ->]] by lia; by apply Hns.
    + unfold NR_CURSEG_DATA_TYPE in Hi. destruct (Z.ltb_spec nd 3) as [|Hge3]; [lia|]. assert (nd = 3) as E3 by lia. unfold log_addr, IS_DATASEG. replace (i <=? 2) with true by lia.
      rewrite (sum_blk_addr_eq g c pack 0 NR_CURSEG_TYPE i nd Ht) by (rewrite E3; done). rewrite Z.add_0_r, Hm by lia. specialize (Hds E3 i). rewrite Z.add_0_r in Hds.
      rewrite Hds by (change (zlen [_; _; _]) with 3; lia). assert (i = 0 \/ i = 1 \/ i = 2) as [-> | [-> | ->]] by lia; done.
  - intros i Hi. rewrite Hn, Hcb by done. lia.
  - intros i j Hi Hj. rewrite !Hn by lia. lia.
Qed.

(** C13. A pack with node summaries gives the logs back. The summaries an unmount's checkpoint
    writes fit into the blocks it reserves for them; with them in the pack on the SSD, the mount's
    copy of the pack into the NVM and the readers of that copy (compacted or one block per log) put
    every log at its segment and offset with its entries (those of node logs without
    versions) and restore the NAT and SIT journals. Required: the pack has no orphan
    blocks (with them the copy is shifted, see [bnvm_move_mirrors]), fits its segment, is at the
    same block number in the NVM as on the SSD, and the two journals pass the mount's check. *)
Theorem summaries_roundtrip cf footer_nid meta b c pack l l0 nat_max sit_max nats sits :
  vol_ok g -> pack = 1 \/ pack = 2 -> bn_private b = init_byte_nvm_private_info (cp_bps g) (cg_raw g) -> rs_segment0_blkaddr (cg_raw g) = cp_blkaddr g ->
  nz (Z.land (bn_flag b) NVM_BYTE_PRIVATE_READY) = true -> zlen c = cp_blks * BLKSIZE ->
  logs_ok l -> offsets_ok bps l -> saved c l -> __exist_node_summaries c = true ->
  let nd := f2fs_npages_for_summary_flush bps c l false in let total := cp_get c cp_pack_total_block_count in
  is_set_ckpt_flags c CP_COMPACT_SUM_FLAG = (nd <? NR_CURSEG_DATA_TYPE) ->
  cp_get c cp_pack_start_sum = cp_blks -> total = cp_get c cp_pack_start_sum + nd + NR_CURSEG_NODE_TYPE + 1 -> total <= cp_bps g ->
  rd16 (lg_jnl l).[0] 0 = Done nats -> nats <= nat_max -> rd16 (lg_jnl l).[2] 0 = Done sits -> sits <= sit_max -> logs_ok l0 ->
  exists ds ns, f2fs_write_data_summaries bps c l = Done ds /\ f2fs_write_node_summaries l = Done ns /\
    zlen ds <= nd /\ zlen ns = NR_CURSEG_NODE_TYPE /\
    (placed g c pack meta 0 ds -> placed g c pack meta nd ns ->
      exists b1 b2 b3 l1, f2fs_move_cp_super_to_bnvm g b c pack = (0, b1) /\ f2fs_move_cp_content_to_bvnm g meta b1 pack = (0, b2) /\
        restore_curseg_summaries g cf footer_nid nat_max sit_max pack l0 b2 = Done (0, l1, b3) /\
        (forall i, 0 <= i < 3 -> restored l l1 i (compact_entries bps c l i)) /\
        (forall i, 3 <= i < 6 -> restored l l1 i (map clear_entry (entries_of l i))) /\
        (lg_jnl l1).[0] = (lg_jnl l).[0] /\ (lg_jnl l1).[2] = (lg_jnl l).[2]).
Proof.
  intros V Hp Hpriv Hseg Hfl Hz W Of S Hx nd total Hcf Hst Ht Hb Hn0 Hn Hs0 Hs L0. pose proof (vo_payload _ V).
  pose proof (write_normal_eq l 3 W (or_intror eq_refl)) as Wn. change (3 + 1) with 4 in Wn. change (3 + 2) with 5 in Wn.
  pose proof (npages_range bps c l false) as Hnd. change (1 <= nd <= 3) in Hnd. unfold NR_CURSEG_NODE_TYPE in Ht.
  assert (exists ds, f2fs_write_data_summaries bps c l = Done ds /\ zlen ds <= nd /\ (nd = 3 -> ds = [sum_page l 0; sum_page l 1; sum_page l 2])) as (ds & Ed & Hfit & Hds).
  { unfold f2fs_write_data_summaries. rewrite Hcf. unfold NR_CURSEG_DATA_TYPE in *. destruct (Z.ltb_spec nd 3) as [Hd|Hd].
    - destruct (compact_roundtrip bps Hbps Hb16 cf c l W Of S) as (ds & Ed & Hfit & _). exists ds. split; [done|]. split; [by apply Hfit|lia].
    - rewrite (write_normal_eq l 0 W (or_introl eq_refl)). eexists. split; [done|]. assert (nd = 3) as E3 by (clear - Hd Hnd; lia). split; [rewrite E3; done|done]. }
  exists ds, [sum_page l 3; sum_page l 4; sum_page l 5]. split; [done|]. split; [exact Wn|]. split; [done|]. split; [done|]. intros Hpd Hpn.
  destruct (move_mirrors g meta b c pack V Hp Hpriv Hseg Hfl Hz) as (b1 & b2 & M1 & M2 & M3 & M4 & M5 & M6 & _ & M8); [fold total; lia|].
  destruct (mirrored meta c pack l nd b2 V Hp W Hst Ht Hnd Hb M3 M8 M6 M4 Hpn) as [Hm B]; [by intros E; rewrite <- Hds|].
  destruct (bnvm_restore_ok cf footer_nid pack c l l0 b2 ds nat_max sit_max nats sits W Of S Hx Hcf Ed) as (l1 & b3 & E & R); [|done..|].
  - intros k Hk. rewrite Hm by lia. specialize (Hpd k Hk). by rewrite Z.add_0_r in Hpd.
  - exists b1, b2, b3, l1. split; [exact M1|]. split; [exact M2|]. split; [exact E|]. exact R.
Qed.
End restore.

(** ** Examples *)

Definition demo_bnvm : bnvm :=
  mk_bnvm (fun a => if a =? 512 then demo_block 1 else zeros 4096) (init_byte_nvm_private_info 512 demo_raw) NVM_BYTE_PRIVATE_READY 512.
Lemma bnvm_move_mirrors_witness : exists b1 b2,
  f2fs_move_cp_super_to_bnvm demo_geo demo_bnvm (demo_block 1) 1 = (0, b1) /\ f2fs_move_cp_content_to_bvnm demo_geo demo_disk b1 1 = (0, b2) /\
  load_ckpt demo_geo b2 512 = demo_block 1 /\ bn_mem b2 514 = demo_disk 514.
Proof.
  assert (nz (Z.land (bn_flag demo_bnvm) NVM_BYTE_PRIVATE_READY) = true) as Hf by (clear; by vm_compute).
  assert (bn_private demo_bnvm = init_byte_nvm_private_info (cp_bps demo_geo) (cg_raw demo_geo)) as Hpv by (clear; by vm_compute).
  assert (rs_segment0_blkaddr (cg_raw demo_geo) = cp_blkaddr demo_geo) as Hsg by done.
  assert (zlen (demo_block 1) = (1 + __cp_payload demo_geo) * BLKSIZE) as Hz by (clear; by vm_compute).
  assert (1 + __cp_payload demo_geo <= cp_get (demo_block 1) cp_pack_total_block_count <= cp_bps demo_geo) as Ht by (clear; by vm_compute).
  destruct (bnvm_move_mirrors demo_geo demo_disk demo_bnvm (demo_block 1) 1 demo_vol_ok (or_introl eq_refl) Hpv Hsg Hf Hz Ht)
    as (b1 & b2 & E1 & E2 & E3 & E4 & _). exists b1, b2. split; [exact E1|]. split; [exact E2|].
  assert (bn_ckpt b2 = 512) as Hb.
  { unfold f2fs_move_cp_super_to_bnvm in E1. change (f2fs_bnvm_get_cp_ptr (cp_bps demo_geo) demo_bnvm 1) with (Some 512) in E1. injection E1 as <-.
    unfold f2fs_move_cp_content_to_bvnm in E2. destruct (negb _); [done|]. by injection E2 as <-. }
  rewrite Hb in E3. split; [exact E3|]. assert (cp_get (demo_block 1) cp_pack_total_block_count = 3) as Ht3 by (clear; by vm_compute).
  assert (cp_get (demo_block 1) cp_pack_start_sum = 1) as Hs1 by (clear; by vm_compute). rewrite Ht3, Hs1 in E4. assert (1 + __cp_payload demo_geo <= 2 < 3) as Hk2 by (clear; by vm_compute). exact (E4 2 Hk2).
Defined.

#[local] Existing Instance linux_sum_types.
(** The pack an unmount writes on the SSD *)
Definition demo_meta (ds ns : list (list Z)) (a : Z) : list Z := if a =? 513 then ds.[0] else ns.[a - 514].
Lemma summaries_roundtrip_witness : exists ds ns b1 b2 b3 l1,
  f2fs_write_data_summaries 512 demo_sum_ckpt demo_logs = Done ds /\ f2fs_write_node_summaries demo_logs = Done ns /\
  f2fs_move_cp_super_to_bnvm demo_geo demo_bnvm demo_sum_ckpt 1 = (0, b1) /\ f2fs_move_cp_content_to_bvnm demo_geo (demo_meta ds ns) b1 1 = (0, b2) /\
  restore_curseg_summaries demo_geo alloc_demo_conf (fun _ => []) 38 6 1 demo_fresh_logs b2 = Done (0, l1, b3) /\
  forall i, 0 <= i < 3 -> curseg_blkoff l1 i = i + 1.
Proof.
  assert (cp_bps demo_geo = 512) as Hg by (by vm_compute). assert (__exist_node_summaries demo_sum_ckpt = true) as Hx by (by vm_compute).
  assert (f2fs_npages_for_summary_flush 512 demo_sum_ckpt demo_logs false = 1) as Hn by (by vm_compute).
  assert (is_set_ckpt_flags demo_sum_ckpt CP_COMPACT_SUM_FLAG = (f2fs_npages_for_summary_flush 512 demo_sum_ckpt demo_logs false <? NR_CURSEG_DATA_TYPE)) as Hc by (by vm_compute).
  assert (cp_get demo_sum_ckpt cp_pack_total_block_count =
    cp_get demo_sum_ckpt cp_pack_start_sum + f2fs_npages_for_summary_flush 512 demo_sum_ckpt demo_logs false + NR_CURSEG_NODE_TYPE + 1) as Ht by (by vm_compute).
  assert (cp_get demo_sum_ckpt cp_pack_total_block_count <= cp_bps demo_geo) as Hb by (by vm_compute).
  assert (cp_get demo_sum_ckpt cp_pack_start_sum = 1 + __cp_payload demo_geo) as Hst by (by vm_compute).
  assert (start_sum_block demo_geo demo_sum_ckpt 1 = 513) as Hs by (by vm_compute). assert (512 = ENTRIES_IN_SUM) as He by done.
  assert (0 <= 512 < 65536) as Hr16 by lia. assert (0 <= 38) as Hle0 by lia. assert (0 <= 6) as Hle1 by lia.
  assert (rd16 (lg_jnl demo_logs).[0] 0 = Done 0) as J0 by (by vm_compute). assert (rd16 (lg_jnl demo_logs).[2] 0 = Done 0) as J2 by (by vm_compute).
  assert (nz (Z.land (bn_flag demo_bnvm) NVM_BYTE_PRIVATE_READY) = true) as Hf by (by vm_compute).
  assert (bn_private demo_bnvm = init_byte_nvm_private_info (cp_bps demo_geo) (cg_raw demo_geo)) as Hpv by (by vm_compute).
  assert (rs_segment0_blkaddr (cg_raw demo_geo) = cp_blkaddr demo_geo) as Hsg by (by vm_compute).
  assert (zlen demo_sum_ckpt = (1 + __cp_payload demo_geo) * BLKSIZE) as Hz by (by vm_compute).
  assert (exists ds, f2fs_write_data_summaries 512 demo_sum_ckpt demo_logs = Done ds) as [ds0 Ed0].
  { destruct (f2fs_write_data_summaries 512 demo_sum_ckpt demo_logs) eqn:E; [by eexists|..];
      exfalso; assert (match f2fs_write_data_summaries 512 demo_sum_ckpt demo_logs with Done _ => True | _ => False end) as Hd by (by vm_compute); by rewrite E in Hd. }
  assert (f2fs_write_node_summaries demo_logs = Done [sum_page demo_logs 3; sum_page demo_logs 4; sum_page demo_logs 5]) as En0 by (by vm_compute).
  destruct (summaries_roundtrip demo_geo 512 He Hr16 Hg alloc_demo_conf (fun _ => []) (demo_meta ds0 [sum_page demo_logs 3; sum_page demo_logs 4; sum_page demo_logs 5])
    demo_bnvm demo_sum_ckpt 1 demo_logs demo_fresh_logs 38 6 0 0 demo_vol_ok (or_introl eq_refl) Hpv Hsg Hf Hz demo_logs_ok demo_offsets_ok demo_saved Hx Hc Hst Ht Hb
    J0 Hle0 J2 Hle1 demo_fresh_ok) as (ds & ns & Ed & En & Zd & Zn & Hr).
  assert (ds0 = ds) as -> by congruence. assert (ns = [sum_page demo_logs 3; sum_page demo_logs 4; sum_page demo_logs 5]) as Ens by congruence. rewrite <- Ens in Hr. clear En0.
  destruct Hr as (b1 & b2 & b3 & l1 & M1 & M2 & E & R1 & _).
  - intros k Hk. rewrite Hn in Zd. rewrite Hs. by replace k with 0 by lia.
  - intros k Hk. rewrite Hs, Hn, u32_id by (unfold NR_CURSEG_NODE_TYPE in Zn; lia). unfold demo_meta. replace (513 + 1 + k =? 513) with false by lia. f_equal. lia.
  - exists ds, ns, b1, b2, b3, l1. split; [exact Ed|]. split; [exact En|]. split; [exact M1|]. split; [exact M2|]. split; [exact E|]. intros i Hi. rewrite (rt_blkoff _ _ _ _ (R1 i Hi)).
    assert (i = 0 \/ i = 1 \/ i = 2) as [-> | [-> | ->]] by lia; by vm_compute.
Defined.

(** The same pack, written with compacted summaries *)
Definition demo_compact_bnvm : bnvm := demo_bnvm <| bn_mem ::= fun m => set_block m 512 (cp_put (demo_block 1) ckpt_flags CP_COMPACT_SUM_FLAG) |>.
(** A checkpoint to the NVM while sbi->ckpt points to the other pack succeeds, but the pack it
    leaves is a copy of the old checkpoint: the logs are where they were at the last
    checkpoint, the version is the old one, and the checksum is not that of the block. *)
Example bnvm_checkpoint_repeats :
  match bnvm_do_checkpoint 2 demo_geo demo_env demo_fresh_logs CP_SYNC demo_cps demo_compact_bnvm with
  | Done (err, s', b', _, _) => err = 0 /\ cur_cp_pack s' = 2 /\ bn_ckpt b' = 512 /\
      cp_get (bn_mem b' 1024) (cur_node_segno 0) = segno (CURSEG_I (lg_alloc demo_logs) 3) /\
      cp_get (bn_mem b' 1024) (cur_node_segno 0) <> segno (CURSEG_I (lg_alloc demo_fresh_logs) 3) /\
      cur_cp_version (bn_mem b' 1024) = cur_cp_version (demo_block 1) /\ blk_version (bn_mem b' 1024) = None
  | _ => False
  end.
Proof. vm_compute. by split_and!. Qed.
(** The flag for compacted summaries is set in the new pack but looked up in sbi->ckpt: after a
    checkpoint without it the summaries go, one block per log, through an
    uninitialised pointer. *)
Example bnvm_normal_summaries_undefined : bnvm_do_checkpoint 2 demo_geo demo_env demo_logs CP_SYNC demo_cps demo_bnvm = Bug.
Proof. by vm_compute. Qed.
